(* ===== verification/_CoqProject ===== *)
-Q . S2P
Prelude.v
Errors.v
Permissions.v
PermissionSpec.v
Files.v
Users.v
Servers.v
Channels.v
Messages.v
PermissionQuery.v
Config.v
Emojis.v
Unreads.v
Webhooks.v
Bots.v
AuditLogs.v
Accounts.v
Platform.v
World.v
Database.v
PermissionTheorems.v
BulkPermissions.v
Relationships.v
MessageOps.v
ChannelOps.v
ServerOps.v
Parser.v
Ratelimit.v
Tasks.v
References.v
Authors.v
Bridge.v
Redis.v
MessageCreate.v
MessageTheorems.v
Acker.v
MessageRoutes.v
Voice.v
VoiceIngress.v
Decimal.v
Presence.v
Coalesced.v
Gifbox.v
ServerRoutes.v
ChannelRoutes.v
UserOps.v
Triples.v
PlatformRoutes.v
Gateway.v
Subscriptions.v
GatewayTheorems.v
AccountOps.v
AccountRoutes.v
AccountTheorems.v
UserRoutes.v
Customisation.v
Handshake.v
Autumn.v
AutumnTheorems.v
Pushd.v
PushdTheorems.v
Text.v
Mongo.v
OAuth.v
OAuthTheorems.v
