(* ===== verification/Prelude.v ===== *)
(** * Verification of the Stoat backend

    The repository is the backend of a chat platform, a Rust workspace: the REST API
    ([crates/delta]), the gateway ([crates/bonfire]), daemons and file services, all on top
    of the libraries under [crates/core]. The business logic lives in the libraries: the
    permission calculus ([core/permissions]), the data model with its handlers
    ([core/database]: one directory per object under [models/], each with [model.rs] for
    the handlers and [ops/] for the storage), the message parser ([core/parser]), the rate
    limiter ([core/ratelimits]) and the error type with its HTTP responses ([core/result]).
    A handler reads and writes tables of the database, publishes events to the clients,
    hands push notifications to a message broker and queues work for background tasks.
    The database has two drivers: MongoDB, and the in-memory reference driver
    ([drivers/reference.rs], [models/*/ops/reference.rs]), which the tests use. This library
    models the handlers on the reference driver.

    ** How the code is represented

    - A function that can fail returns an [Outcome]: a value, an error of the source's
      error type, or a panic ([unwrap], [expect], an index out of range, a checked
      overflow). A handler is a computation [M] in a state; what it wrote before it failed
      stays written. The state of the handlers is [World.World.t]: the tables, the published
      events, the messages to the broker, the task queues, the keys and sets in Redis, the
      requests to the voice servers, the mails sent, the cache of idempotency keys, the clock
      and the count of generated ids. An [async] handler is one step, since every table is locked by each
      operation; where interleaving matters (stale copies, concurrent requests) the
      theorems split it.
    - A [HashMap] is a [gmap]; iterating it goes through the class [HashIter], which
      promises each entry once and no order. An [IndexMap] is an association list with the
      documented laws of its operations as the class [Messages.IndexMaps].
    - [u64] and [i64] are [Z] with their casts written out; permission values are treated
      bit by bit. Ids are strings, ordered as the code compares them.
    - A partial object ([PartialUser] and so on) is a record of options; [apply_options] of
      the derive macro is the class [OptionalStruct]; the theorems that depend on it state
      the law they use as a hypothesis.
    - Code outside of the repository is a parameter, a class with the documented behaviour as
      its laws: ULIDs and the list of emojis ([Config.Environment]), the mutual
      ids of two users ([Database.MutualIds]), lower-casing and trimming ([Lowercase],
      [Trim]), the lexer of the parser, the hash and the clock of the rate limiter, the
      [validator] and [lru] crates ([References.Validator], [References.Lru]), Redis
      ([Redis.Redis], [Voice.RedisCommands]: commands may fail, with the documented effect
      when they succeed), whether the broker accepts a message ([Acker.Broker]), the voice
      servers and what they sign ([Voice.VoiceClient], [VoiceIngress.LiveKitServer]), Argon2,
      TOTP and lists of passwords ([Accounts.Credentials]), mail, captcha and payment services
      ([AccountOps.Services]), the MongoDB driver ([Mongo.MongoDriver]), the hashes and URLs of
      OAuth ([OAuth.OAuthServices]), the sockets and caches of the gateway
      ([Gateway.Transport], [Gateway.TimedCache], [Gateway.SeenEvents], [Handshake.Wire]),
      the push vendors ([Pushd.Vendors]), the Tenor API ([Gifbox.TenorApi]), and ciphers,
      object store, media decoders and the malware scanner of the file service
      ([Autumn.Crypto], [Autumn.S3], [Autumn.Media], [Autumn.ClamAV]). Each class has an
      instance, on which the witnesses run.

    ** Files

    - [Prelude]: outcomes, the monad, machine integers, sorting by a key, tables, tactics.
    - [Errors]: [core/result]. The responses of Rocket and axum agree.
    - [Permissions]: [core/permissions], the flags, the values and the three calculations
      over the interface [PermissionQuery]; [PermissionSpec] is the specification of the
      calculations, bit by bit; [PermissionQuery] is [util/permissions.rs], the instance of
      the interface on the database; [Database] puts it on the reference tables;
      [PermissionTheorems] has the theorems about the composition: the calculation
      gives the permissions one reads off the stored server, member and channel (roles from
      the lowest to the highest), timeouts, hidden channels, the highest role, independence
      of the iteration order, direct messages.
    - [BulkPermissions]: [util/bulk_permissions.rs], agreement with the calculation for one
      user.
    - [Files], [Users], [Servers], [Channels], [Messages], [Emojis], [Unreads], [Config],
      [Webhooks] (with invites), [Bots], [AuditLogs], [Accounts] (with sessions, tickets and
      account invites): the objects and their tables, [models/*/model.rs] and
      [models/*/ops/reference.rs].
    - [World]: the state of the handlers, events ([events/client.rs]), push notifications,
      queues.
    - [Relationships]: friend requests and blocks of [models/users/model.rs], the routes of
      [delta/routes/users] that call them, and how a user is shown to another
      ([util/bridge/v0.rs]): a refinement of a transition table, an invariant of all
      reachable states, and what a block hides.
    - [MessageOps], [ChannelOps], [ServerOps]: the handlers of messages and emojis, of
      groups and direct messages, of servers, roles, members and bans: what each writes
      and publishes, the invariant of groups over all reachable states, ranks of roles.
    - [Parser]: [core/parser]; the iterator refines a grammar of visible tokens.
    - [Ratelimit]: [core/ratelimits] and [delta/util/ratelimits.rs]; exactly the limit is
      admitted per window, and what happens to concurrent requests.
    - [Tasks]: [tasks/mod.rs], [tasks/ack.rs], [tasks/last_message_id.rs]; rounds of the
      workers.
    - [References]: [util/reference.rs], [util/idempotency.rs], the audit log, permission
      queries whose caches are used again, and the notion of a [gated] handler, which leaves
      the world as it was unless a condition holds. [Authors]: the other conversions of
      [util/bridge/v0.rs]; an invisible user is never shown online. [Redis]: the store.
    - [MessageCreate]: [Message::create_from_api] and the route that sends a message.
      [MessageTheorems] shows who can be mentioned, what permissions a message takes, the
      limits, that it is stored and published, nonces and slow mode.
    - [Acker]: acknowledging messages, [util/acker.rs] and the daemon of
      [daemons/crond/src/tasks/acks.rs] with Redis and the queue between them, as a
      transition system: it refines a map of read positions, the daemon ends with an empty
      queue, and the newest position reaches the database.
    - [Voice]: [voice/mod.rs], [voice/voice_client.rs]; the sets in Redis refine the relation
      of who is in which channel, states are read back as written, and synchronising
      enforces permissions.
    - [MessageRoutes], [ChannelRoutes], [ServerRoutes]: the routes of
      [delta/src/routes/channels] and [delta/src/routes/servers]. Requests are an inductive
      type; for each there is the authority it needs, written out on the stored objects apart
      from the checks of the routes, and no request changes the world without it. Groups stay well-formed under every request; bans, kicks, polls and the
      order of roles do what they say; nobody reads messages without permission.

    - [UserOps]: creating, renaming and deleting users, the handlers of bots, chunked
      queries ([util/chunked.rs]). Names stay unique, nothing of a deleted user is left, a
      new token of a bot takes effect. [UserRoutes]: the routes of users, bots, invites and
      webhooks, and what each of them needs. [Customisation]: the routes of emojis, the query
      of audit logs, the search for members.
    - [Triples]: a Hoare logic for handlers. [AccountOps]: the handlers of accounts, sessions
      and tickets, suspension and mail; [AccountRoutes]: the guards, the routes of
      [delta/src/routes/account], [session] and [mfa], and three tasks of [crond];
      [AccountTheorems]: sessions need credentials, disabled accounts have none under any
      sequence of requests, tickets, recovery codes and resets work once, guessing is slow,
      and the task that deletes accounts.
    - [Platform]: settings, policies, reports, snapshots, file hashes; [Bridge]: the models of
      the API ([core/models]) and the conversions between them and the objects of the
      database; [PlatformRoutes]: the routes [sync], [policy], [safety], [push] and [onboard].
    - [Gateway]: what a connection of [crates/bonfire] keeps and how it follows the events;
      [Subscriptions]: its subscriptions are those its state implies; [GatewayTheorems]: what
      reaches a client, and that its copies agree with the objects: a recalculation keeps,
      takes and drops exactly the channels of the server its copies let the user view;
      [Handshake]: how a connection is authenticated, begins and ends, and that it is only
      shown its user's direct messages and groups and channels the user may view.
    - [Presence]: [core/presence], a refinement of a set of sessions; [Coalesced]:
      [core/coalesced] as a transition system of interleaved tasks; [Decimal]: numbers in
      text; [Gifbox]: [services/gifbox].
    - [VoiceIngress]: joining calls (who may, and what the token lets publish) and the daemon
      [daemons/voice-ingress], which keeps the sets of participants and drops forbidden
      tracks.
    - [Pushd], [PushdTheorems]: [daemons/pushd] from the queues to the vendors: who is
      notified and what becomes of sessions whose subscription is gone.
    - [Autumn], [AutumnTheorems]: [services/autumn] and [core/files], with the tasks that
      delete files: an object of the store holds the encryption of what was uploaded, which
      a download decrypts, and shared objects survive the deletion of one of their files as
      long as no upload is mistaken for another ([AutumnTheorems.unmistaken]).
    - [Text], [Mongo], [OAuth], [OAuthTheorems]: the authorization server of
      [delta/src/routes/oauth.rs] on collections of documents: codes and refresh tokens work
      once, an access is granted for a consent page that was shown to the user for that
      client, scopes and redirect URIs are those that were agreed to.

    ** Bounds and fuel

    All functions are total by structural recursion, except the iterator of the parser,
    which is run for at most [S (measure iter)] steps; [Parser.parse_message_exact] shows
    that it has ended by then, the search for an address, which restarts at most once per
    character, and the removal from groups, which runs once more than there are groups
    ([UserOps.remove_chunks_run] shows that this is enough). The infinite loops of the workers are modelled as rounds.
    Overflow of [u32] in the rate limiter panics or wraps depending on a flag, and is shown
    not to happen. Queues have the capacity of the code (10,000) and drop what does not fit.

    ** What is not modelled

    The MongoDB driver of the database layer, and the routes that work on untyped documents
    only (administration, discovery, themes, gifts, experience points, boosts, onboarding of
    servers, backups, analytics, vanity invites) but those of OAuth; the migrations, which are
    calls of the driver; the embed worker [january] (parsing of web pages), the bridges from
    GitHub and Stripe to webhooks, passkeys and payments; reading the configuration;
    serialisation and the transports (Redis, RabbitMQ, HTTP, WebSockets). The clock does not
    advance within a handler. Logging is left out. An entry of the audit log is written at
    once, where in production a spawned task writes it. *)

From stdpp Require Import base list gmap strings sorting.
From Stdlib Require Import ZArith Lia.
From Stdlib Require Ascii.

#[global] Set Default Goal Selector "!".

(* ------------------------------------------------------------------ *)
(** ** Outcomes: Rust's [Result] together with the panics of the code *)

Inductive Outcome (E A : Type) : Type :=
| Ok (a : A)
| Err (e : E)
| Panicked.
Arguments Ok {E A} a.
Arguments Err {E A} e.
Arguments Panicked {E A}.

#[export] Instance Outcome_eq_dec {E A} `{EqDecision E, EqDecision A} :
  EqDecision (Outcome E A).
Proof. solve_decision. Defined.

#[export] Instance outcome_ret {E} : MRet (Outcome E) := λ A a, Ok a.
#[export] Instance outcome_bind {E} : MBind (Outcome E) :=
  λ A B f m, match m with Ok a => f a | Err e => Err e | Panicked => Panicked end.
#[export] Instance outcome_fmap {E} : FMap (Outcome E) :=
  λ A B f m, match m with Ok a => Ok (f a) | Err e => Err e | Panicked => Panicked end.

(** [Result::is_ok] *)
Definition is_ok {E A} (m : Outcome E A) : bool :=
  match m with Ok _ => true | _ => false end.

(** [Option::ok_or_else] *)
Definition ok_or {E A} (o : option A) (e : E) : Outcome E A :=
  match o with Some a => Ok a | None => Err e end.

(** [Option::unwrap] and [Option::expect] *)
Definition unwrap {E A} (o : option A) : Outcome E A :=
  match o with Some a => Ok a | None => Panicked end.

(** An infallible computation (one whose Rust type is not a [Result]) used where
    errors can occur. *)
Definition infallible {E A} (m : Outcome Empty_set A) : Outcome E A :=
  match m with Ok a => Ok a | Err e => match e with end | Panicked => Panicked end.

(** [iter().map(f).collect::<Result<Vec<_>>>()]: the first error is returned. *)
Fixpoint collect {E A B} (f : A → Outcome E B) (l : list A) : Outcome E (list B) :=
  match l with
  | [] => Ok []
  | a :: l' => b ← f a; bs ← collect f l'; Ok (b :: bs)
  end.

Lemma collect_Ok_iff {E A B} (f : A → Outcome E B) l bs :
  collect f l = Ok bs ↔ Forall2 (λ a b, f a = Ok b) l bs.
Proof.
  revert bs; induction l as [|a l IH]; intros bs; simpl.
  - split; [by intros [= <-] | by inversion 1].
  - split.
    + destruct (f a) eqn:Ha, (collect f l) eqn:Hl; simpl; try done.
      intros [= <-]. constructor; [done|]. by apply IH.
    + inversion 1 as [|? b ? bs' Hab Hrest]; subst. rewrite Hab; simpl.
      by rewrite (proj2 (IH _) Hrest).
Qed.

(* ------------------------------------------------------------------ *)
(** ** Effectful code: a state of type [W], errors of type [E]

    The state is kept on an error and on a panic: what the code wrote before it
    failed stays written. *)

Definition M (E W A : Type) : Type := W → Outcome E A * W.

#[export] Instance M_ret {E W} : MRet (M E W) := λ A a w, (Ok a, w).
#[export] Instance M_bind {E W} : MBind (M E W) :=
  λ A B f m w,
    match m w with
    | (Ok a, w') => f a w'
    | (Err e, w') => (Err e, w')
    | (Panicked, w') => (Panicked, w')
    end.

Definition get {E W} : M E W W := λ w, (Ok w, w).
Definition gets {E W A} (f : W → A) : M E W A := λ w, (Ok (f w), w).
Definition put {E W} (w : W) : M E W unit := λ _, (Ok tt, w).
Definition modify {E W} (f : W → W) : M E W unit := λ w, (Ok tt, f w).
Definition throw {E W A} (e : E) : M E W A := λ w, (Err e, w).
Definition panic {E W A} : M E W A := λ w, (Panicked, w).
Definition lift {E W A} (o : Outcome E A) : M E W A := λ w, (o, w).

(** [if let Ok(..)] and [.ok()]: run [m], hand its error over as [None]; a panic
    is not caught. *)
Definition attempt {E W A} (m : M E W A) : M E W (option A) :=
  λ w, match m w with
       | (Ok a, w') => (Ok (Some a), w')
       | (Err _, w') => (Ok None, w')
       | (Panicked, w') => (Panicked, w')
       end.

(** [for x in l { body }] with [?] in the body *)
Fixpoint for_each {E W A} (l : list A) (body : A → M E W unit) : M E W unit :=
  match l with
  | [] => mret tt
  | a :: l' => body a ;; for_each l' body
  end.

Lemma M_bind_unfold {E W A B} (f : A → M E W B) (m : M E W A) w :
  (m ≫= f) w =
    match m w with
    | (Ok a, w') => f a w'
    | (Err e, w') => (Err e, w')
    | (Panicked, w') => (Panicked, w')
    end.
Proof. done. Qed.

(* ------------------------------------------------------------------ *)
(** ** Machine integers: unsigned and signed 64-bit values as [Z] *)

Definition u64_max : Z := Z.ones 64.
Definition is_u64 (v : Z) : Prop := (0 ≤ v < 2 ^ 64)%Z.
Definition is_i64 (v : Z) : Prop := (- 2 ^ 63 ≤ v < 2 ^ 63)%Z.

(** [!v] on a [u64] *)
Definition u64_not (v : Z) : Z := Z.ldiff u64_max v.

(** [v as u64] and [v as i64] *)
Definition as_u64 (v : Z) : Z := (v mod 2 ^ 64)%Z.
Definition as_i64 (v : Z) : Z :=
  let r := (v mod 2 ^ 64)%Z in
  if (r <? 2 ^ 63)%Z then r else (r - 2 ^ 64)%Z.

#[export] Instance is_u64_dec v : Decision (is_u64 v).
Proof. unfold is_u64. apply _. Defined.
#[export] Instance is_i64_dec v : Decision (is_i64 v).
Proof. unfold is_i64. apply _. Defined.

Lemma as_u64_range v : is_u64 (as_u64 v).
Proof. apply Z.mod_pos_bound. lia. Qed.

Lemma as_i64_range v : is_i64 (as_i64 v).
Proof.
  unfold as_i64, is_i64. pose proof (Z.mod_pos_bound v (2 ^ 64)).
  destruct (Z.ltb_spec (v mod 2 ^ 64) (2 ^ 63)); lia.
Qed.

Lemma as_u64_id v : is_u64 v → as_u64 v = v.
Proof. intros H. by apply Z.mod_small. Qed.

Lemma as_u64_as_i64 v : is_u64 v → as_u64 (as_i64 v) = v.
Proof.
  intros H. unfold as_i64, as_u64. rewrite (Z.mod_small v) by done.
  destruct (Z.ltb_spec v (2 ^ 63)); [by apply Z.mod_small|].
  replace (v - 2 ^ 64)%Z with (v + (-1) * 2 ^ 64)%Z by lia.
  rewrite Z.mod_add by lia. by apply Z.mod_small.
Qed.

Lemma as_i64_as_u64 v : is_i64 v → as_i64 (as_u64 v) = v.
Proof.
  intros [H1 H2]. unfold as_i64, as_u64. rewrite Zmod_mod.
  destruct (Z.leb_spec 0 v).
  - rewrite Z.mod_small by lia. destruct (Z.ltb_spec v (2 ^ 63)); lia.
  - replace (v mod 2 ^ 64)%Z with (v + 2 ^ 64)%Z.
    + destruct (Z.ltb_spec (v + 2 ^ 64) (2 ^ 63)); lia.
    + replace v with (v + 2 ^ 64 + (-1) * 2 ^ 64)%Z at 2 by lia.
      rewrite Z.mod_add by lia. rewrite Z.mod_small; lia.
Qed.

(** *** Bitwise reasoning: the rewrite base [bits] pushes [Z.testbit] inwards. *)

Lemma testbit_u64_not v i :
  (0 ≤ i)%Z → Z.testbit (u64_not v) i = (i <? 64)%Z && negb (Z.testbit v i).
Proof.
  intros Hi. unfold u64_not, u64_max. rewrite Z.ldiff_spec.
  by rewrite Z.testbit_ones_nonneg by lia.
Qed.

Lemma testbit_u64_high v i : is_u64 v → (64 ≤ i)%Z → Z.testbit v i = false.
Proof.
  intros [H1 H2] Hi. destruct (decide (v = 0%Z)) as [->|Hv]; [apply Z.bits_0|].
  apply Z.bits_above_log2; [done|].
  enough (Z.log2 v < 64)%Z by lia. apply Z.log2_lt_pow2; lia.
Qed.

Lemma u64_of_testbit v :
  (0 ≤ v)%Z → (∀ i, (64 ≤ i)%Z → Z.testbit v i = false) → is_u64 v.
Proof.
  intros H0 H. split; [done|].
  destruct (decide (v = 0%Z)) as [->|Hv]; [done|].
  destruct (Z.ltb_spec v (2 ^ 64)); [done|]. exfalso.
  assert (64 ≤ Z.log2 v)%Z as Hl by (apply Z.log2_le_pow2; lia).
  specialize (H _ Hl). rewrite Z.bit_log2 in H by lia. done.
Qed.

Create Rewrite HintDb bits.
#[export] Hint Rewrite Z.land_spec Z.lor_spec Z.ldiff_spec Z.bits_0 : bits.
#[export] Hint Rewrite testbit_u64_not using (assumption || lia) : bits.

(** [x & m == m] is bitwise implication. *)
Lemma land_eq_iff x m :
  Z.land x m = m ↔
  ∀ i, (0 ≤ i)%Z → Z.testbit m i = true → Z.testbit x i = true.
Proof.
  split.
  - intros H i Hi Hm. rewrite <- H in Hm. rewrite Z.land_spec in Hm.
    by apply andb_prop in Hm as [??].
  - intros H. apply Z.bits_inj'. intros i Hi. rewrite Z.land_spec.
    specialize (H i Hi). destruct (Z.testbit m i); [by rewrite H|by rewrite andb_false_r].
Qed.

(* ------------------------------------------------------------------ *)
(** ** [slice::sort_by]: a stable sort

    A stable sort is determined by its comparison, so insertion sort computes what
    the standard library's merge sort computes. [lt b a] says that [b] must come
    strictly before [a]. *)

Section SortBy.
Context {A : Type} (lt : A → A → bool).

Fixpoint insert_by (a : A) (l : list A) : list A :=
  match l with
  | [] => [a]
  | b :: l' => if lt b a then b :: insert_by a l' else a :: b :: l'
  end.

Fixpoint sort_by (l : list A) : list A :=
  match l with
  | [] => []
  | a :: l' => insert_by a (sort_by l')
  end.

Lemma insert_by_perm a l : insert_by a l ≡ₚ a :: l.
Proof.
  induction l as [|b l IH]; simpl; [done|].
  destruct (lt b a); [|done]. rewrite IH. by constructor.
Qed.

Lemma sort_by_perm l : sort_by l ≡ₚ l.
Proof. induction l as [|a l IH]; simpl; [done|]. by rewrite insert_by_perm, IH. Qed.

End SortBy.

Lemma StronglySorted_impl {A} (R R' : A → A → Prop) l :
  (∀ a b, R a b → R' a b) → StronglySorted R l → StronglySorted R' l.
Proof.
  intros HR. induction 1 as [|a l _ IH Ha]; constructor; [done|].
  eapply Forall_impl; [exact Ha|]. auto.
Qed.

(** Sorting by an integer key: [a.cmp(&b)] orders by the key, ascending or
    descending. *)
Section SortKey.
Context {A : Type} (key : A → Z).

Definition sort_asc (l : list A) : list A := sort_by (λ a b, (key a <? key b)%Z) l.
Definition sort_desc (l : list A) : list A := sort_by (λ a b, (key b <? key a)%Z) l.

Lemma insert_by_sorted R (lt : A → A → bool) :
  (∀ a b, lt b a = true → R b a) → (∀ a b, lt b a = false → R a b) →
  Transitive R →
  ∀ a l, StronglySorted R l → StronglySorted R (insert_by lt a l).
Proof.
  intros Hlt Hge Htrans a l. induction 1 as [|b l Hl IH Hb]; simpl.
  - repeat constructor.
  - destruct (lt b a) eqn:E.
    + constructor; [done|]. rewrite insert_by_perm. constructor; auto.
    + constructor; [by constructor|]. constructor; [auto|].
      eapply Forall_impl; [exact Hb|]. intros c Hc. etrans; [|exact Hc]. auto.
Qed.

Lemma sort_desc_sorted l : StronglySorted (λ a b, (key b ≤ key a)%Z) (sort_desc l).
Proof.
  induction l as [|a l IH]; simpl; [constructor|].
  apply insert_by_sorted; [| | |done].
  - intros x y; rewrite Z.ltb_lt; lia.
  - intros x y; rewrite Z.ltb_ge; lia.
  - intros x y z ??; lia.
Qed.

Lemma sort_asc_sorted l : StronglySorted (λ a b, (key a ≤ key b)%Z) (sort_asc l).
Proof.
  induction l as [|a l IH]; simpl; [constructor|].
  apply insert_by_sorted; [| | |done].
  - intros x y; rewrite Z.ltb_lt; lia.
  - intros x y; rewrite Z.ltb_ge; lia.
  - intros x y z ??; lia.
Qed.

(** Two sorted permutations of a list whose keys are pairwise distinct are equal. *)
Lemma sorted_distinct_unique l1 l2 :
  StronglySorted (λ a b, (key b ≤ key a)%Z) l1 →
  StronglySorted (λ a b, (key b ≤ key a)%Z) l2 →
  l1 ≡ₚ l2 → NoDup (key <$> l1) → l1 = l2.
Proof.
  intros Hs1. revert l2. induction Hs1 as [|a l1 Hl1 IH Ha]; intros l2 Hs2 Hp Hn.
  - by apply Permutation_nil in Hp as ->.
  - destruct Hs2 as [|b l2 Hl2 Hb]; [by symmetry in Hp; apply Permutation_nil_cons in Hp|].
    assert (a = b) as <-.
    { assert (Hin : b ∈ a :: l1) by (rewrite Hp; left).
      assert (Hin' : a ∈ b :: l2) by (rewrite <- Hp; left).
      apply elem_of_cons in Hin as [|Hin]; [done|].
      apply elem_of_cons in Hin' as [|Hin']; [done|].
      rewrite Forall_forall in Ha, Hb. specialize (Ha _ Hin). specialize (Hb _ Hin').
      simpl in Hn. apply NoDup_cons in Hn as [Hn _]. exfalso; apply Hn.
      apply list_elem_of_fmap. exists b. split; [lia|done]. }
    f_equal. apply IH; [done| |].
    + by apply Permutation_cons_inv in Hp.
    + simpl in Hn. by apply NoDup_cons in Hn as [_ ?].
Qed.

Lemma sort_desc_perm_eq l1 l2 :
  l1 ≡ₚ l2 → NoDup (key <$> l1) → sort_desc l1 = sort_desc l2.
Proof.
  intros Hp Hn. apply sorted_distinct_unique; try apply sort_desc_sorted.
  - unfold sort_desc. by rewrite !sort_by_perm.
  - unfold sort_desc. by rewrite sort_by_perm.
Qed.

(** An element whose key is strictly below all others is sorted to the end. *)
Lemma sort_desc_last a l l' :
  l ≡ₚ a :: l' → (∀ b, b ∈ l' → (key a < key b)%Z) →
  ∃ l0, sort_desc l = l0 ++ [a].
Proof.
  intros Hp Hmin.
  assert (Hs : sort_desc l ≡ₚ a :: l') by (unfold sort_desc; by rewrite sort_by_perm).
  assert (a ∈ sort_desc l) as (l1 & l2 & Heq)%list_elem_of_split by (rewrite Hs; left).
  exists l1. rewrite Heq in Hs |- *. destruct l2 as [|b l2]; [done|]. exfalso.
  pose proof (sort_desc_sorted l) as Hsorted. rewrite Heq in Hsorted.
  apply StronglySorted_app_1_r in Hsorted. inversion Hsorted as [|? ? _ Hall]; subst.
  rewrite Forall_forall in Hall. specialize (Hall b ltac:(left)).
  rewrite <- Permutation_middle in Hs. apply Permutation_cons_inv in Hs.
  assert (b ∈ l') as Hb by (rewrite <- Hs; set_solver). specialize (Hmin b Hb). lia.
Qed.
End SortKey.

(** Sorting by a key that a function keeps *)
Lemma sort_desc_fmap {A B} (f : A → B) (key : B → Z) (key' : A → Z) (l : list A) :
  (∀ a, key (f a) = key' a) → sort_desc key (f <$> l) = f <$> sort_desc key' l.
Proof.
  intros Hkey. unfold sort_desc. induction l as [|a l IH]; [done|]. cbn [fmap list_fmap sort_by].
  rewrite IH. generalize (sort_by (λ a b, (key' b <? key' a)%Z) l) as l'.
  induction l' as [|b l' IH']; [done|]. cbn [fmap list_fmap insert_by]. rewrite !Hkey.
  destruct (_ <? _)%Z; [|done]. cbn [fmap list_fmap]. f_equal. exact IH'.
Qed.

(** Filtering and mapping a list whose keys differ *)
Lemma filter_keys_nodup {K V} (f : K * V → bool) (l : list (K * V)) :
  NoDup l.*1 → NoDup (List.filter f l).*1.
Proof.
  induction l as [|x l IH]; simpl; [done|]. intros [Hx Hl]%NoDup_cons. destruct (f x); [|by apply IH].
  simpl. constructor; [|by apply IH]. intros Hin. apply Hx.
  rewrite list_elem_of_fmap in Hin |- *. destruct Hin as (y & Hy & Hin). exists y. split; [done|].
  rewrite list_elem_of_In, filter_In in Hin. rewrite list_elem_of_In. tauto.
Qed.
Lemma omap_keys_nodup {K V W} (f : K * V → option (K * W)) (l : list (K * V)) :
  (∀ x y, f x = Some y → y.1 = x.1) → NoDup l.*1 → NoDup (omap f l).*1.
Proof.
  intros Hf. induction l as [|x l IH]; csimpl; [done|]. intros [Hx Hl]%NoDup_cons.
  destruct (f x) as [y|] eqn:Hy; [|by apply IH]. csimpl. constructor; [|by apply IH].
  rewrite (Hf x y Hy), list_elem_of_fmap. intros (z & Hz & Hin). apply Hx.
  rewrite list_elem_of_omap in Hin. destruct Hin as (x' & Hin & Hx'). rewrite Hz, (Hf x' z Hx').
  rewrite list_elem_of_fmap. by exists x'.
Qed.

(* ------------------------------------------------------------------ *)
(** ** [HashMap] iteration

    The order in which a [HashMap] is iterated is unspecified. A function that
    iterates a map takes the order from this class, which promises only that every
    entry is visited exactly once. *)

Class HashIter := {
  hash_iter : ∀ {K V : Type} `{Countable K}, gmap K V → list (K * V);
  hash_iter_perm : ∀ {K V : Type} `{Countable K} (m : gmap K V),
    hash_iter m ≡ₚ map_to_list m
}.

(** The order of [map_to_list], used to evaluate the definitions. *)
Definition canonical_iter : HashIter :=
  {| hash_iter := λ K V _ _ m, map_to_list m; hash_iter_perm := λ K V _ _ m, reflexivity _ |}.

(** [HashMap::values] *)
Definition hash_values `{HashIter} {K V} `{Countable K} (m : gmap K V) : list V :=
  (hash_iter m).*2.

Section HashIterLemmas.
Context `{HashIter}.

Lemma elem_of_hash_iter {K V} `{Countable K} (m : gmap K V) k v :
  (k, v) ∈ hash_iter m ↔ m !! k = Some v.
Proof. by rewrite hash_iter_perm, elem_of_map_to_list. Qed.

Lemma elem_of_hash_values {K V} `{Countable K} (m : gmap K V) v :
  v ∈ hash_values m ↔ ∃ k, m !! k = Some v.
Proof.
  unfold hash_values. rewrite list_elem_of_fmap. split.
  - intros ([k v'] & -> & Hin). exists k. by apply elem_of_hash_iter.
  - intros [k Hk]. exists (k, v). split; [done|]. by apply elem_of_hash_iter.
Qed.

Lemma hash_iter_nodup_keys {K V} `{Countable K} (m : gmap K V) : NoDup (hash_iter m).*1.
Proof. rewrite hash_iter_perm. apply NoDup_fst_map_to_list. Qed.
End HashIterLemmas.

(* ------------------------------------------------------------------ *)
(** ** Code that is not in the repository *)

(** [revolt_optional_struct]'s derive macro generates [apply_options] for a struct [T]
    and its partial form [P]. The generated code is a parameter. *)
Class OptionalStruct (T P : Type) := apply_options : T → P → T.

(** The three forms of [generate_field_diff!] ([crates/core/database/src/lib.rs]): what
    the diff records of a field, given the partial's field and the removed fields. *)
Definition diff_optional {A F} `{EqDecision F} (self partial : option A) (field : F)
    (remove : list F) : option A :=
  if bool_decide (is_Some partial) || bool_decide (field ∈ remove) then self else None.
Definition diff_default {A F} `{EqDecision F} (self : A) (partial : option A) (field : F)
    (remove : list F) : option A :=
  if bool_decide (is_Some partial) || bool_decide (field ∈ remove) then Some self else None.
Definition diff_plain {A} (self : A) (partial : option A) : option A :=
  if bool_decide (is_Some partial) then Some self else None.

(** [str::to_lowercase] maps Unicode; the definitions take the map as a parameter and
    [ascii_lowercase] evaluates them on ASCII. *)
Class Lowercase := to_lowercase : string → string.

Definition ascii_lower (a : Ascii.ascii) : Ascii.ascii :=
  let n := Ascii.nat_of_ascii a in
  if (65 <=? n)%nat && (n <=? 90)%nat then Ascii.ascii_of_nat (n + 32) else a.
Fixpoint ascii_lowercase (s : string) : string :=
  match s with
  | EmptyString => EmptyString
  | String a s' => String (ascii_lower a) (ascii_lowercase s')
  end.

(** [a <= b] on [str]: the bytes in lexicographic order *)
Definition str_le (a b : string) : bool := String.leb a b.

Lemma str_le_refl a : str_le a a = true.
Proof. destruct (String.leb_total a a); done. Qed.

Lemma str_le_antisym a b : str_le a b = true → str_le b a = true → a = b.
Proof. apply String.leb_antisym. Qed.

Lemma str_le_total a b : str_le a b = false → str_le b a = true.
Proof. intros H. destruct (String.leb_total a b) as [H'|H']; [|done]. unfold str_le in H. congruence. Qed.

Lemma str_le_trans a b c : str_le a b = true → str_le b c = true → str_le a c = true.
Proof.
  unfold str_le, String.leb. revert b c.
  induction a as [|x a IH]; intros [|y b] [|z c]; simpl; try done.
  unfold Ascii.compare. intros Hab Hbc. specialize (IH b c).
  repeat match goal with
  | H : context [(?m ?= ?n)%N] |- _ => destruct (N.compare_spec m n); try discriminate
  | |- context [(?m ?= ?n)%N] => destruct (N.compare_spec m n); try done
  end; by (lia || auto).
Qed.

(* ------------------------------------------------------------------ *)
(** ** Tables of the reference database: [HashMap]s behind a mutex

    Every operation locks its table for its whole body, so it is one step on the map.
    The patterns below are shared by all the tables. *)

Section Tables.
Context {K V E : Type} `{Countable K}.

(** [if map.contains_key(k) { Err(e) } else { map.insert(k, v); Ok(()) }] *)
Definition table_insert (k : K) (v : V) (e : E) : M E (gmap K V) unit :=
  λ m, match m !! k with
       | Some _ => (Err e, m)
       | None => (Ok tt, <[k := v]> m)
       end.

(** [map.get(k).cloned().ok_or_else(|| e)] *)
Definition table_fetch (k : K) (e : E) : M E (gmap K V) V :=
  λ m, (ok_or (m !! k) e, m).

(** [ids.iter().map(|id| map.get(id).cloned().ok_or_else(|| e)).collect()] *)
Definition table_fetch_all (ks : list K) (e : E) : M E (gmap K V) (list V) :=
  λ m, (collect (λ k, ok_or (m !! k) e) ks, m).

(** [if let Some(v) = map.get_mut(k) { *v = f(v); Ok(()) } else { Err(e) }] *)
Definition table_update (k : K) (f : V → V) (e : E) : M E (gmap K V) unit :=
  λ m, match m !! k with
       | Some v => (Ok tt, <[k := f v]> m)
       | None => (Err e, m)
       end.

(** [if map.remove(k).is_some() { Ok(()) } else { Err(e) }] *)
Definition table_delete (k : K) (e : E) : M E (gmap K V) unit :=
  λ m, match m !! k with
       | Some _ => (Ok tt, delete k m)
       | None => (Err e, m)
       end.

(** [map.retain(|k, v| keep(k, v))] *)
Definition table_retain (keep : K → V → bool) : M E (gmap K V) unit :=
  λ m, (Ok tt, filter (λ kv, keep kv.1 kv.2 = true) m).

(** [map.values().filter(..).cloned().collect()] *)
Definition table_select `{HashIter} (select : V → bool) : M E (gmap K V) (list V) :=
  λ m, (Ok (List.filter select (hash_values m)), m).

Lemma table_insert_fetch k v e e' m m' :
  table_insert k v e m = (Ok tt, m') → table_fetch k e' m' = (Ok v, m').
Proof.
  unfold table_insert, table_fetch. destruct (m !! k); intros [=]; subst.
  by rewrite lookup_insert_eq.
Qed.

Lemma elem_of_table_select `{HashIter} (select : V → bool) (m : gmap K V) v :
  v ∈ List.filter select (hash_values m) ↔ select v = true ∧ ∃ k, m !! k = Some v.
Proof.
  rewrite <- elem_of_hash_values. rewrite !list_elem_of_In, filter_In. tauto.
Qed.
End Tables.

(* ------------------------------------------------------------------ *)
(** ** Tactics *)

(** Split every [match] on an outcome or an option in the goal or a hypothesis. *)
Ltac case_outcome :=
  match goal with
  | |- context [match ?x with Ok _ => _ | Err _ => _ | Panicked => _ end] =>
      destruct x eqn:?
  | H : context [match ?x with Ok _ => _ | Err _ => _ | Panicked => _ end] |- _ =>
      destruct x eqn:?
  | |- context [match ?x with Some _ => _ | None => _ end] => destruct x eqn:?
  | H : context [match ?x with Some _ => _ | None => _ end] |- _ => destruct x eqn:?
  end; simplify_eq/=.

Ltac case_bool :=
  match goal with
  | |- context [if ?b then _ else _] => destruct b eqn:?
  | H : context [if ?b then _ else _] |- _ => destruct b eqn:?
  end; simplify_eq/=.

(** Turn boolean hypotheses into their propositions. *)
Ltac reflect_bools :=
  repeat match goal with
  | H : _ && _ = true |- _ => apply andb_prop in H as [??]
  | H : _ || _ = false |- _ => apply orb_false_elim in H as [??]
  | H : negb _ = true |- _ => apply negb_true_iff in H
  | H : negb _ = false |- _ => apply negb_false_iff in H
  | H : bool_decide _ = true |- _ => apply bool_decide_eq_true in H
  | H : bool_decide _ = false |- _ => apply bool_decide_eq_false in H
  end.

(** Decide an equation between booleans of bits by cases. *)
Ltac destruct_bits :=
  repeat match goal with
  | |- context [Z.testbit ?x ?i] => destruct (Z.testbit x i) eqn:?
  | |- context [Z.ltb ?x ?y] => destruct (Z.ltb x y) eqn:?
  end; simpl; try congruence; try done.
