(* ===== verification/Errors.v ===== *)
(** * Errors and their HTTP responses (crate [revolt-result])

    [ErrorType.t] is the enum of [crates/core/result/src/lib.rs]; [rocket_respond_to]
    and [axum_into_response] are the two responders of [rocket.rs] and [axum.rs],
    one for the REST API and one for the micro-services. [Result] is the crate's
    [Result<T, Error>]: the source location an [Error] carries is a diagnostic and is
    kept only in [Error.t]; the effectful definitions of the other files return the
    [ErrorType.t] alone. *)

From S2P Require Import Prelude.
From stdpp Require Import base strings.
From Stdlib Require Import ZArith.

Module ErrorType.
(** Possible error types *)
Inductive t : Type :=
| LabelMe
| AlreadyOnboarded
| UsernameTaken
| InvalidUsername
| DiscriminatorChangeRatelimited
| UnknownUser
| AlreadyFriends
| AlreadySentRequest
| Blocked
| BlockedByOther
| NotFriends
| TooManyPendingFriendRequests (max : Z)
| UnknownChannel
| UnknownAttachment
| UnknownMessage
| CannotDeleteMessage
| CannotEditMessage
| CannotJoinCall
| TooManyAttachments (max : Z)
| TooManyEmbeds (max : Z)
| TooManyReplies (max : Z)
| TooManyChannels (max : Z)
| EmptyMessage
| PayloadTooLarge
| CannotRemoveYourself
| GroupTooLarge (max : Z)
| AlreadyInGroup
| NotInGroup
| AlreadyPinned
| NotPinned
| InSlowmode (retry_after : Z)
| CantCreateServers
| UnknownServer
| ServerSuspended
| InvalidRole
| Banned
| TooManyServers (max : Z)
| TooManyEmoji (max : Z)
| TooManyRoles (max : Z)
| AlreadyInServer
| CannotTimeoutYourself
| ReachedMaximumBots
| IsBot
| IsNotBot
| BotIsPrivate
| CannotReportYourself
| MissingPermission (permission : string)
| MissingUserPermission (permission : string)
| NotElevated
| NotPrivileged
| CannotGiveMissingPermissions
| NotOwner
| IsElevated
| DatabaseError (operation : string) (collection : string)
| InternalError
| InvalidOperation
| InvalidCredentials
| InvalidProperty
| InvalidSession
| InvalidFlagValue
| NotAuthenticated
| DuplicateNonce
| NotFound
| NoEffect
| FailedValidation (error : string)
| HeaderTooLarge
| OperationFailed
| IncorrectData (with_ : string)
| LiveKitUnavailable
| NotAVoiceChannel
| AlreadyConnected
| NotConnected
| UnknownNode
| ProxyError
| FileTooSmall
| FileTooLarge (max : Z)
| FileTypeNotAllowed
| ImageProcessingFailed
| NoEmbedData
| VosoUnavailable
| FeatureDisabled (feature : string)
| RenderFail
| MissingHeaders
| CaptchaFailed
| BlockedByShield
| UnverifiedAccount
| EmailFailed
| InvalidToken
| MissingInvite
| InvalidInvite
| CompromisedPassword
| ShortPassword
| Blacklisted
| LockedOut
| TotpAlreadyEnabled
| DisallowedMFAMethod.

#[global] Instance t_eq_dec : EqDecision t.
Proof. solve_decision. Defined.
End ErrorType.

Module Error.
(** Error information *)
Record t : Type := mk {
  error_type : ErrorType.t;
  location : string
}.
End Error.

Abbreviation Result := (Outcome ErrorType.t).

(** [create_database_error!] *)
Definition create_database_error (operation collection : string) : ErrorType.t :=
  ErrorType.DatabaseError operation collection.

(** [ToRevoltError::to_internal_error] for a [Result] with any error type. *)
Definition to_internal_error {E A} (m : Outcome E A) : Result A :=
  match m with
  | Ok a => Ok a
  | Err _ => Err ErrorType.InternalError
  | Panicked => Panicked
  end.

(** [ToRevoltError::to_internal_error] for an [Option]. *)
Definition to_internal_error_option {A} (o : option A) : Result A :=
  ok_or o ErrorType.InternalError.

(** ** HTTP responses *)

Module Status.
(** The status codes the responders name, by number. *)
Definition BadRequest : Z := 400.
Definition Unauthorized : Z := 401.
Definition Forbidden : Z := 403.
Definition NotFound : Z := 404.
Definition Conflict : Z := 409.
Definition UnprocessableEntity : Z := 422.
Definition TooManyRequests : Z := 429.
Definition InternalServerError : Z := 500.
End Status.

Module Body.
(** A response body: the error serialised as JSON, or the fixed text sent for a
    blacklisted email address. *)
Inductive t : Type :=
| Json (e : Error.t)
| DisallowedContactSupport.
End Body.

Module Response.
Record t : Type := mk {
  status : Z;
  content_type : option string;
  body : Body.t
}.
End Response.

(** [impl Responder for Error]: the arm of the match is a status, or the response
    returned early. *)
Definition rocket_respond_to (e : Error.t) : Response.t :=
  match
  match Error.error_type e with
  | ErrorType.LabelMe => inl Status.InternalServerError
  | ErrorType.AlreadyOnboarded => inl Status.Forbidden
  | ErrorType.UnknownUser => inl Status.NotFound
  | ErrorType.InvalidUsername => inl Status.BadRequest
  | ErrorType.UsernameTaken => inl Status.Conflict
  | ErrorType.DiscriminatorChangeRatelimited => inl Status.TooManyRequests
  | ErrorType.AlreadyFriends => inl Status.Conflict
  | ErrorType.AlreadySentRequest => inl Status.Conflict
  | ErrorType.Blocked => inl Status.Conflict
  | ErrorType.BlockedByOther => inl Status.Forbidden
  | ErrorType.NotFriends => inl Status.Forbidden
  | ErrorType.TooManyPendingFriendRequests _ => inl Status.BadRequest
  | ErrorType.UnknownChannel => inl Status.NotFound
  | ErrorType.UnknownMessage => inl Status.NotFound
  | ErrorType.UnknownAttachment => inl Status.BadRequest
  | ErrorType.CannotDeleteMessage => inl Status.Forbidden
  | ErrorType.CannotEditMessage => inl Status.Forbidden
  | ErrorType.CannotJoinCall => inl Status.BadRequest
  | ErrorType.TooManyAttachments _ => inl Status.BadRequest
  | ErrorType.TooManyReplies _ => inl Status.BadRequest
  | ErrorType.EmptyMessage => inl Status.UnprocessableEntity
  | ErrorType.PayloadTooLarge => inl Status.UnprocessableEntity
  | ErrorType.CannotRemoveYourself => inl Status.BadRequest
  | ErrorType.GroupTooLarge _ => inl Status.Forbidden
  | ErrorType.AlreadyInGroup => inl Status.Conflict
  | ErrorType.NotInGroup => inl Status.NotFound
  | ErrorType.AlreadyPinned => inl Status.BadRequest
  | ErrorType.NotPinned => inl Status.BadRequest
  | ErrorType.InSlowmode _ => inl Status.TooManyRequests
  | ErrorType.InvalidFlagValue => inl Status.BadRequest
  | ErrorType.CantCreateServers => inl Status.Forbidden
  | ErrorType.UnknownServer => inl Status.NotFound
  | ErrorType.ServerSuspended => inl Status.Forbidden
  | ErrorType.InvalidRole => inl Status.NotFound
  | ErrorType.Banned => inl Status.Forbidden
  | ErrorType.AlreadyInServer => inl Status.Conflict
  | ErrorType.CannotTimeoutYourself => inl Status.BadRequest
  | ErrorType.TooManyServers _ => inl Status.BadRequest
  | ErrorType.TooManyEmbeds _ => inl Status.BadRequest
  | ErrorType.TooManyEmoji _ => inl Status.BadRequest
  | ErrorType.TooManyChannels _ => inl Status.BadRequest
  | ErrorType.TooManyRoles _ => inl Status.BadRequest
  | ErrorType.ReachedMaximumBots => inl Status.BadRequest
  | ErrorType.IsBot => inl Status.BadRequest
  | ErrorType.IsNotBot => inl Status.BadRequest
  | ErrorType.BotIsPrivate => inl Status.Forbidden
  | ErrorType.CannotReportYourself => inl Status.BadRequest
  | ErrorType.MissingPermission _ => inl Status.Forbidden
  | ErrorType.MissingUserPermission _ => inl Status.Forbidden
  | ErrorType.NotElevated => inl Status.Forbidden
  | ErrorType.NotPrivileged => inl Status.Forbidden
  | ErrorType.CannotGiveMissingPermissions => inl Status.Forbidden
  | ErrorType.NotOwner => inl Status.Forbidden
  | ErrorType.IsElevated => inl Status.Forbidden
  | ErrorType.DatabaseError _ _ => inl Status.InternalServerError
  | ErrorType.InternalError => inl Status.InternalServerError
  | ErrorType.InvalidOperation => inl Status.BadRequest
  | ErrorType.InvalidCredentials => inl Status.Unauthorized
  | ErrorType.InvalidProperty => inl Status.BadRequest
  | ErrorType.InvalidSession => inl Status.Unauthorized
  | ErrorType.NotAuthenticated => inl Status.Unauthorized
  | ErrorType.DuplicateNonce => inl Status.Conflict
  | ErrorType.NotFound => inl Status.NotFound
  | ErrorType.NoEffect => inl Status.BadRequest
  | ErrorType.FailedValidation _ => inl Status.BadRequest
  | ErrorType.LiveKitUnavailable => inl Status.BadRequest
  | ErrorType.NotAVoiceChannel => inl Status.BadRequest
  | ErrorType.AlreadyConnected => inl Status.BadRequest
  | ErrorType.NotConnected => inl Status.BadRequest
  | ErrorType.UnknownNode => inl Status.BadRequest
  | ErrorType.FeatureDisabled _ => inl Status.BadRequest
  | ErrorType.HeaderTooLarge => inl Status.BadRequest
  | ErrorType.ProxyError => inl Status.BadRequest
  | ErrorType.FileTooSmall => inl Status.UnprocessableEntity
  | ErrorType.FileTooLarge _ => inl Status.UnprocessableEntity
  | ErrorType.FileTypeNotAllowed => inl Status.BadRequest
  | ErrorType.ImageProcessingFailed => inl Status.InternalServerError
  | ErrorType.NoEmbedData => inl Status.BadRequest
  | ErrorType.VosoUnavailable => inl Status.BadRequest
  | ErrorType.RenderFail => inl Status.InternalServerError
  | ErrorType.MissingHeaders => inl Status.BadRequest
  | ErrorType.CaptchaFailed => inl Status.BadRequest
  | ErrorType.BlockedByShield => inl Status.BadRequest
  | ErrorType.UnverifiedAccount => inl Status.Forbidden
  | ErrorType.EmailFailed => inl Status.InternalServerError
  | ErrorType.InvalidToken => inl Status.Unauthorized
  | ErrorType.MissingInvite => inl Status.BadRequest
  | ErrorType.InvalidInvite => inl Status.BadRequest
  | ErrorType.CompromisedPassword => inl Status.BadRequest
  | ErrorType.ShortPassword => inl Status.BadRequest
  | ErrorType.Blacklisted => inr (Response.mk Status.Unauthorized None Body.DisallowedContactSupport)
  | ErrorType.LockedOut => inl Status.Forbidden
  | ErrorType.TotpAlreadyEnabled => inl Status.BadRequest
  | ErrorType.DisallowedMFAMethod => inl Status.BadRequest
  | ErrorType.OperationFailed => inl Status.InternalServerError
  | ErrorType.IncorrectData _ => inl Status.BadRequest
  end : Z + Response.t
  with
  | inl status => Response.mk status (Some "application/json") (Body.Json e)
  | inr response => response
  end.

(** [impl IntoResponse for Error] *)
Definition axum_into_response (e : Error.t) : Response.t :=
  match
  match Error.error_type e with
  | ErrorType.LabelMe => inl Status.InternalServerError
  | ErrorType.AlreadyOnboarded => inl Status.Forbidden
  | ErrorType.UnknownUser => inl Status.NotFound
  | ErrorType.InvalidUsername => inl Status.BadRequest
  | ErrorType.UsernameTaken => inl Status.Conflict
  | ErrorType.DiscriminatorChangeRatelimited => inl Status.TooManyRequests
  | ErrorType.AlreadyFriends => inl Status.Conflict
  | ErrorType.AlreadySentRequest => inl Status.Conflict
  | ErrorType.Blocked => inl Status.Conflict
  | ErrorType.BlockedByOther => inl Status.Forbidden
  | ErrorType.NotFriends => inl Status.Forbidden
  | ErrorType.TooManyPendingFriendRequests _ => inl Status.BadRequest
  | ErrorType.UnknownChannel => inl Status.NotFound
  | ErrorType.UnknownMessage => inl Status.NotFound
  | ErrorType.UnknownAttachment => inl Status.BadRequest
  | ErrorType.CannotDeleteMessage => inl Status.Forbidden
  | ErrorType.CannotEditMessage => inl Status.Forbidden
  | ErrorType.CannotJoinCall => inl Status.BadRequest
  | ErrorType.TooManyAttachments _ => inl Status.BadRequest
  | ErrorType.TooManyReplies _ => inl Status.BadRequest
  | ErrorType.EmptyMessage => inl Status.UnprocessableEntity
  | ErrorType.PayloadTooLarge => inl Status.UnprocessableEntity
  | ErrorType.CannotRemoveYourself => inl Status.BadRequest
  | ErrorType.GroupTooLarge _ => inl Status.Forbidden
  | ErrorType.AlreadyInGroup => inl Status.Conflict
  | ErrorType.NotInGroup => inl Status.NotFound
  | ErrorType.AlreadyPinned => inl Status.BadRequest
  | ErrorType.NotPinned => inl Status.BadRequest
  | ErrorType.InSlowmode _ => inl Status.TooManyRequests
  | ErrorType.CantCreateServers => inl Status.Forbidden
  | ErrorType.UnknownServer => inl Status.NotFound
  | ErrorType.ServerSuspended => inl Status.Forbidden
  | ErrorType.InvalidRole => inl Status.NotFound
  | ErrorType.Banned => inl Status.Forbidden
  | ErrorType.AlreadyInServer => inl Status.Conflict
  | ErrorType.CannotTimeoutYourself => inl Status.BadRequest
  | ErrorType.TooManyServers _ => inl Status.BadRequest
  | ErrorType.TooManyEmbeds _ => inl Status.BadRequest
  | ErrorType.TooManyEmoji _ => inl Status.BadRequest
  | ErrorType.TooManyChannels _ => inl Status.BadRequest
  | ErrorType.TooManyRoles _ => inl Status.BadRequest
  | ErrorType.ReachedMaximumBots => inl Status.BadRequest
  | ErrorType.IsBot => inl Status.BadRequest
  | ErrorType.IsNotBot => inl Status.BadRequest
  | ErrorType.BotIsPrivate => inl Status.Forbidden
  | ErrorType.CannotReportYourself => inl Status.BadRequest
  | ErrorType.MissingPermission _ => inl Status.Forbidden
  | ErrorType.MissingUserPermission _ => inl Status.Forbidden
  | ErrorType.NotElevated => inl Status.Forbidden
  | ErrorType.NotPrivileged => inl Status.Forbidden
  | ErrorType.CannotGiveMissingPermissions => inl Status.Forbidden
  | ErrorType.NotOwner => inl Status.Forbidden
  | ErrorType.IsElevated => inl Status.Forbidden
  | ErrorType.DatabaseError _ _ => inl Status.InternalServerError
  | ErrorType.InternalError => inl Status.InternalServerError
  | ErrorType.InvalidOperation => inl Status.BadRequest
  | ErrorType.InvalidCredentials => inl Status.Unauthorized
  | ErrorType.InvalidProperty => inl Status.BadRequest
  | ErrorType.InvalidSession => inl Status.Unauthorized
  | ErrorType.NotAuthenticated => inl Status.Unauthorized
  | ErrorType.DuplicateNonce => inl Status.Conflict
  | ErrorType.VosoUnavailable => inl Status.BadRequest
  | ErrorType.NotFound => inl Status.NotFound
  | ErrorType.NoEffect => inl Status.BadRequest
  | ErrorType.FailedValidation _ => inl Status.BadRequest
  | ErrorType.LiveKitUnavailable => inl Status.BadRequest
  | ErrorType.NotConnected => inl Status.BadRequest
  | ErrorType.NotAVoiceChannel => inl Status.BadRequest
  | ErrorType.AlreadyConnected => inl Status.BadRequest
  | ErrorType.UnknownNode => inl Status.BadRequest
  | ErrorType.InvalidFlagValue => inl Status.BadRequest
  | ErrorType.FeatureDisabled _ => inl Status.BadRequest
  | ErrorType.HeaderTooLarge => inl Status.BadRequest
  | ErrorType.ProxyError => inl Status.BadRequest
  | ErrorType.FileTooSmall => inl Status.UnprocessableEntity
  | ErrorType.FileTooLarge _ => inl Status.UnprocessableEntity
  | ErrorType.FileTypeNotAllowed => inl Status.BadRequest
  | ErrorType.ImageProcessingFailed => inl Status.InternalServerError
  | ErrorType.NoEmbedData => inl Status.BadRequest
  | ErrorType.RenderFail => inl Status.InternalServerError
  | ErrorType.MissingHeaders => inl Status.BadRequest
  | ErrorType.CaptchaFailed => inl Status.BadRequest
  | ErrorType.BlockedByShield => inl Status.BadRequest
  | ErrorType.UnverifiedAccount => inl Status.Forbidden
  | ErrorType.EmailFailed => inl Status.InternalServerError
  | ErrorType.InvalidToken => inl Status.Unauthorized
  | ErrorType.MissingInvite => inl Status.BadRequest
  | ErrorType.InvalidInvite => inl Status.BadRequest
  | ErrorType.CompromisedPassword => inl Status.BadRequest
  | ErrorType.ShortPassword => inl Status.BadRequest
  | ErrorType.Blacklisted => inr (Response.mk Status.Unauthorized (Some "application/json") Body.DisallowedContactSupport)
  | ErrorType.LockedOut => inl Status.Forbidden
  | ErrorType.TotpAlreadyEnabled => inl Status.BadRequest
  | ErrorType.DisallowedMFAMethod => inl Status.BadRequest
  | ErrorType.OperationFailed => inl Status.InternalServerError
  | ErrorType.IncorrectData _ => inl Status.BadRequest
  end : Z + Response.t
  with
  | inl status => Response.mk status (Some "application/json") (Body.Json e)
  | inr response => response
  end.

(** ** Properties *)

(** The two responders agree on every error but for one header. *)
Lemma responders_agree_but_header e :
  Response.status (rocket_respond_to e) = Response.status (axum_into_response e) ∧
  Response.body (rocket_respond_to e) = Response.body (axum_into_response e).
Proof. destruct e as [t l]. by destruct t. Qed.

(** The REST API and the micro-services answer every error with the same status
    and the same body, always a 4xx or 5xx; the whole response is the same exactly for
    the errors other than [Blacklisted], which Rocket answers without a content
    type. *)
Theorem responders_agree (e : Error.t) :
  Response.status (rocket_respond_to e) = Response.status (axum_into_response e) ∧
  Response.body (rocket_respond_to e) = Response.body (axum_into_response e) ∧
  (400 ≤ Response.status (rocket_respond_to e) ≤ 500)%Z ∧
  (rocket_respond_to e = axum_into_response e ↔
   Error.error_type e ≠ ErrorType.Blacklisted).
Proof.
  split; [apply responders_agree_but_header|].
  split; [apply responders_agree_but_header|].
  destruct e as [t l]; destruct t; simpl; (split; [by vm_compute|]); by split.
Qed.
