(* ===== verification/Permissions.v ===== *)
(** * Permission values and the permission calculator (crate [revolt-permissions])

    [models/channel.rs], [models/user.rs]: the flag enums with their bits.
    [models/server.rs]: overrides and their database form. [models/mod.rs]:
    [PermissionValue] and its checks. [trait.rs]: [PermissionQuery], a class over the
    type of queries. [impl.rs]: the three calculators, generic in the query. *)

From S2P Require Import Prelude Errors.
From stdpp Require Import base list strings.
From Stdlib Require Import ZArith Lia.

(** ** Flags *)

Module ChannelType.
Inductive t : Type := SavedMessages | DirectMessage | Group | ServerChannel | Unknown.
#[global] Instance t_eq_dec : EqDecision t.
Proof. solve_decision. Defined.
End ChannelType.

Module ChannelPermission.
Inductive t : Type :=
| ManageChannel | ManageServer | ManagePermissions | ManageRole | ManageCustomisation
| KickMembers | BanMembers | TimeoutMembers | AssignRoles | ChangeNickname
| ManageNicknames | ChangeAvatar | RemoveAvatars
| ViewChannel | ReadMessageHistory | SendMessage | ManageMessages | ManageWebhooks
| InviteOthers | SendEmbeds | UploadFiles | Masquerade | React | BypassSlowmode
| Connect | Speak | Video | MuteMembers | DeafenMembers | MoveMembers | Listen
| MentionEveryone | MentionRoles | PingEveryoneAndRoles | ViewAuditLogs
| GrantAllSafe | GrantAll.

#[global] Instance t_eq_dec : EqDecision t.
Proof. solve_decision. Defined.

(** The discriminants: [permission as u64] *)
Definition as_u64 (p : t) : Z :=
  match p with
  | ManageChannel => Z.shiftl 1 0
  | ManageServer => Z.shiftl 1 1
  | ManagePermissions => Z.shiftl 1 2
  | ManageRole => Z.shiftl 1 3
  | ManageCustomisation => Z.shiftl 1 4
  | KickMembers => Z.shiftl 1 6
  | BanMembers => Z.shiftl 1 7
  | TimeoutMembers => Z.shiftl 1 8
  | AssignRoles => Z.shiftl 1 9
  | ChangeNickname => Z.shiftl 1 10
  | ManageNicknames => Z.shiftl 1 11
  | ChangeAvatar => Z.shiftl 1 12
  | RemoveAvatars => Z.shiftl 1 13
  | ViewChannel => Z.shiftl 1 20
  | ReadMessageHistory => Z.shiftl 1 21
  | SendMessage => Z.shiftl 1 22
  | ManageMessages => Z.shiftl 1 23
  | ManageWebhooks => Z.shiftl 1 24
  | InviteOthers => Z.shiftl 1 25
  | SendEmbeds => Z.shiftl 1 26
  | UploadFiles => Z.shiftl 1 27
  | Masquerade => Z.shiftl 1 28
  | React => Z.shiftl 1 29
  | BypassSlowmode => Z.shiftl 1 39
  | Connect => Z.shiftl 1 30
  | Speak => Z.shiftl 1 31
  | Video => Z.shiftl 1 32
  | MuteMembers => Z.shiftl 1 33
  | DeafenMembers => Z.shiftl 1 34
  | MoveMembers => Z.shiftl 1 35
  | Listen => Z.shiftl 1 36
  | MentionEveryone => Z.shiftl 1 37
  | MentionRoles => Z.shiftl 1 38
  | PingEveryoneAndRoles => Z.shiftl 1 41
  | ViewAuditLogs => Z.shiftl 1 40
  | GrantAllSafe => 0x000FFFFFFFFFFFFF
  | GrantAll => u64_max
  end%Z.

(** [fmt::Display] prints the constructor's name. *)
Definition to_string (p : t) : string :=
  match p with
  | ManageChannel => "ManageChannel" | ManageServer => "ManageServer"
  | ManagePermissions => "ManagePermissions" | ManageRole => "ManageRole"
  | ManageCustomisation => "ManageCustomisation" | KickMembers => "KickMembers"
  | BanMembers => "BanMembers" | TimeoutMembers => "TimeoutMembers"
  | AssignRoles => "AssignRoles" | ChangeNickname => "ChangeNickname"
  | ManageNicknames => "ManageNicknames" | ChangeAvatar => "ChangeAvatar"
  | RemoveAvatars => "RemoveAvatars" | ViewChannel => "ViewChannel"
  | ReadMessageHistory => "ReadMessageHistory" | SendMessage => "SendMessage"
  | ManageMessages => "ManageMessages" | ManageWebhooks => "ManageWebhooks"
  | InviteOthers => "InviteOthers" | SendEmbeds => "SendEmbeds"
  | UploadFiles => "UploadFiles" | Masquerade => "Masquerade" | React => "React"
  | BypassSlowmode => "BypassSlowmode" | Connect => "Connect" | Speak => "Speak"
  | Video => "Video" | MuteMembers => "MuteMembers" | DeafenMembers => "DeafenMembers"
  | MoveMembers => "MoveMembers" | Listen => "Listen"
  | MentionEveryone => "MentionEveryone" | MentionRoles => "MentionRoles"
  | PingEveryoneAndRoles => "PingEveryoneAndRoles" | ViewAuditLogs => "ViewAuditLogs"
  | GrantAllSafe => "GrantAllSafe" | GrantAll => "GrantAll"
  end.

(** [a + b] and [v + b] on permissions are bitwise or. *)
Definition add (a b : t) : Z := Z.lor (as_u64 a) (as_u64 b).
Definition add_u64 (v : Z) (b : t) : Z := Z.lor v (as_u64 b).
End ChannelPermission.

Module RelationshipStatus.
(** The same enum is declared by [revolt-permissions] and by the database's user
    model, which maps constructor to constructor. *)
Inductive t : Type := None | User | Friend | Outgoing | Incoming | Blocked | BlockedOther.
#[global] Instance t_eq_dec : EqDecision t.
Proof. solve_decision. Defined.
End RelationshipStatus.

Module UserPermission.
Inductive t : Type := Access | ViewProfile | SendMessage | Invite.
#[global] Instance t_eq_dec : EqDecision t.
Proof. solve_decision. Defined.

Definition as_u64 (p : t) : Z :=
  match p with
  | Access => Z.shiftl 1 0
  | ViewProfile => Z.shiftl 1 1
  | SendMessage => Z.shiftl 1 2
  | Invite => Z.shiftl 1 3
  end%Z.

Definition to_string (p : t) : string :=
  match p with
  | Access => "Access" | ViewProfile => "ViewProfile"
  | SendMessage => "SendMessage" | Invite => "Invite"
  end.
End UserPermission.

(** ** Named sets of permissions *)

Definition ALLOW_IN_TIMEOUT : Z :=
  ChannelPermission.add ChannelPermission.ViewChannel ChannelPermission.ReadMessageHistory.

Definition DEFAULT_PERMISSION_VIEW_ONLY : Z :=
  ChannelPermission.add ChannelPermission.ViewChannel ChannelPermission.ReadMessageHistory.

(** [DEFAULT_PERMISSION_VIEW_ONLY.add(..)] is [u64::add], integer addition; the sum
    of permissions in its argument is the bitwise operator. *)
Definition DEFAULT_PERMISSION : Z :=
  (DEFAULT_PERMISSION_VIEW_ONLY +
   fold_left ChannelPermission.add_u64
     [ChannelPermission.SendEmbeds; ChannelPermission.UploadFiles;
      ChannelPermission.Connect; ChannelPermission.Speak;
      ChannelPermission.Listen; ChannelPermission.Video]
     (ChannelPermission.add ChannelPermission.SendMessage ChannelPermission.InviteOthers))%Z.

Definition DEFAULT_PERMISSION_SAVED_MESSAGES : Z :=
  ChannelPermission.as_u64 ChannelPermission.GrantAllSafe.

Definition DEFAULT_PERMISSION_DIRECT_MESSAGE : Z :=
  (DEFAULT_PERMISSION +
   ChannelPermission.add_u64
     (ChannelPermission.add ChannelPermission.ManageChannel ChannelPermission.React)
     ChannelPermission.Masquerade)%Z.

Definition DEFAULT_PERMISSION_SERVER : Z :=
  (DEFAULT_PERMISSION +
   fold_left ChannelPermission.add_u64
     [ChannelPermission.ChangeAvatar; ChannelPermission.PingEveryoneAndRoles]
     (ChannelPermission.add ChannelPermission.React ChannelPermission.ChangeNickname))%Z.

Definition DEFAULT_WEBHOOK_PERMISSIONS : Z :=
  fold_left ChannelPermission.add_u64
    [ChannelPermission.Masquerade; ChannelPermission.React]
    (ChannelPermission.add ChannelPermission.SendMessage ChannelPermission.SendEmbeds).

(** ** Overrides *)

Module Override.
(** A permission override; both fields are [u64] *)
Record t : Type := mk { allow : Z; deny : Z }.
#[global] Instance t_eq_dec : EqDecision t.
Proof. solve_decision. Defined.
Definition default : t := mk 0 0.
Definition wf (o : t) : Prop := is_u64 (allow o) ∧ is_u64 (deny o).
Definition allows (o : t) : Z := allow o.
Definition denies (o : t) : Z := deny o.
End Override.

Module OverrideField.
(** An override as it appears in the database; both fields are [i64] *)
Record t : Type := mk { a : Z; d : Z }.
#[global] Instance t_eq_dec : EqDecision t.
Proof. solve_decision. Defined.
Definition default : t := mk 0 0.
Definition wf (o : t) : Prop := is_i64 (a o) ∧ is_i64 (d o).

(** [impl From<Override> for OverrideField] *)
Definition from_override (v : Override.t) : t :=
  mk (as_i64 (Override.allow v)) (as_i64 (Override.deny v)).

(** [impl From<OverrideField> for Override] *)
Definition into_override (v : t) : Override.t :=
  Override.mk (as_u64 (a v)) (as_u64 (d v)).
End OverrideField.

(** ** Permission values *)

Module PermissionValue.
(** [struct PermissionValue(u64)] *)
Record t : Type := from_raw { into_raw : Z }.
#[global] Instance t_eq_dec : EqDecision t.
Proof. solve_decision. Defined.
Definition wf (p : t) : Prop := is_u64 (into_raw p).

(** [impl From<i64>], [impl From<u64>], [impl From<ChannelPermission>] *)
Definition from_i64 (v : Z) : t := from_raw (Prelude.as_u64 v).
Definition from_u64 (v : Z) : t := from_raw v.
Definition from_permission (p : ChannelPermission.t) : t :=
  from_u64 (ChannelPermission.as_u64 p).

Definition allow (p : t) (v : Z) : t := from_raw (Z.lor (into_raw p) v).
Definition revoke (p : t) (v : Z) : t := from_raw (Z.land (into_raw p) (u64_not v)).
Definition revoke_all (p : t) : t := from_raw 0.
Definition restrict (p : t) (v : Z) : t := from_raw (Z.land (into_raw p) v).

Definition apply (p : t) (v : Override.t) : t :=
  let p := allow p (Override.allow v) in
  revoke p (Override.deny v).

Definition has (p : t) (v : Z) : bool := (Z.land (into_raw p) v =? v)%Z.

Definition has_user_permission (p : t) (permission : UserPermission.t) : bool :=
  has p (UserPermission.as_u64 permission).

Definition has_channel_permission (p : t) (permission : ChannelPermission.t) : bool :=
  has p (ChannelPermission.as_u64 permission).

Definition throw_if_lacking_user_permission (p : t) (permission : UserPermission.t) :
    Result unit :=
  if has_user_permission p permission then Ok tt
  else Err (ErrorType.MissingPermission (UserPermission.to_string permission)).

Definition throw_if_lacking_channel_permission (p : t) (permission : ChannelPermission.t) :
    Result unit :=
  if has_channel_permission p permission then Ok tt
  else Err (ErrorType.MissingPermission (ChannelPermission.to_string permission)).

Definition throw_permission_override (p : t) (current_value : option Override.t)
    (next_value : Override.t) : Result unit :=
  match current_value with
  | Some current_value =>
      if negb (has p (Z.land (u64_not (Override.allows current_value))
                        (Override.allows next_value)))
         || negb (has p (Z.land (Override.denies current_value)
                           (u64_not (Override.denies next_value))))
      then Err ErrorType.CannotGiveMissingPermissions
      else Ok tt
  | None =>
      if negb (has p (Override.allows next_value))
      then Err ErrorType.CannotGiveMissingPermissions
      else Ok tt
  end.
End PermissionValue.

(** ** The query interface *)

(** [trait PermissionQuery]: every operation may change the query (it caches what it
    fetches) and may panic, but returns no error. *)
Class PermissionQuery (Q : Type) := {
  are_we_privileged : M Empty_set Q bool;
  are_we_a_bot : M Empty_set Q bool;
  are_the_users_same : M Empty_set Q bool;
  user_relationship : M Empty_set Q RelationshipStatus.t;
  user_is_bot : M Empty_set Q bool;
  have_mutual_connection : M Empty_set Q bool;
  are_we_server_owner : M Empty_set Q bool;
  are_we_a_member : M Empty_set Q bool;
  get_default_server_permissions : M Empty_set Q Z;
  get_our_server_role_overrides : M Empty_set Q (list Override.t);
  are_we_timed_out : M Empty_set Q bool;
  do_we_have_publish_overwrites : M Empty_set Q bool;
  do_we_have_receive_overwrites : M Empty_set Q bool;
  get_channel_type : M Empty_set Q ChannelType.t;
  get_default_channel_permissions : M Empty_set Q Override.t;
  get_our_channel_role_overrides : M Empty_set Q (list Override.t);
  do_we_own_the_channel : M Empty_set Q bool;
  are_we_part_of_the_channel : M Empty_set Q bool;
  set_recipient_as_user : M Empty_set Q unit;
  set_server_from_channel : M Empty_set Q unit
}.

(** ** The calculators *)

Section Calculators.
Context {Q : Type} `{PermissionQuery Q}.

(** [a.await || b.await] and [a.await && b.await] do not run [b] when [a] decides. *)
Definition or_else (a b : M Empty_set Q bool) : M Empty_set Q bool :=
  x ← a; if (x : bool) then mret true else b.

Definition calculate_user_permissions : M Empty_set Q PermissionValue.t :=
  privileged ← are_we_privileged;
  if (privileged : bool) then mret (PermissionValue.from_u64 u64_max) else
  same ← are_the_users_same;
  if (same : bool) then mret (PermissionValue.from_u64 u64_max) else
  relationship ← user_relationship;
  let continue_with (permissions : Z) : M Empty_set Q PermissionValue.t :=
    mutual ← have_mutual_connection;
    if (mutual : bool) then
      bot ← or_else user_is_bot are_we_a_bot;
      let permissions := (UserPermission.as_u64 UserPermission.Access +
                          UserPermission.as_u64 UserPermission.ViewProfile)%Z in
      if (bot : bool)
      then mret (PermissionValue.from_u64
                   (permissions + UserPermission.as_u64 UserPermission.SendMessage)%Z)
      else mret (PermissionValue.from_u64 permissions)
    else mret (PermissionValue.from_u64 permissions) in
  match relationship with
  | RelationshipStatus.Friend => mret (PermissionValue.from_u64 u64_max)
  | RelationshipStatus.Blocked | RelationshipStatus.BlockedOther =>
      mret (PermissionValue.from_u64 (UserPermission.as_u64 UserPermission.Access))
  | RelationshipStatus.Incoming | RelationshipStatus.Outgoing =>
      continue_with (UserPermission.as_u64 UserPermission.Access)
  | _ => continue_with 0%Z
  end.

Definition calculate_server_permissions : M Empty_set Q PermissionValue.t :=
  all ← or_else are_we_privileged are_we_server_owner;
  if (all : bool)
  then mret (PermissionValue.from_permission ChannelPermission.GrantAllSafe) else
  member ← are_we_a_member;
  if negb member then mret (PermissionValue.from_u64 0) else
  default ← get_default_server_permissions;
  overrides ← get_our_server_role_overrides;
  let permissions :=
    fold_left PermissionValue.apply overrides (PermissionValue.from_u64 default) in
  publish ← do_we_have_publish_overwrites;
  let permissions :=
    if negb publish
    then PermissionValue.revoke
           (PermissionValue.revoke permissions
              (ChannelPermission.as_u64 ChannelPermission.Speak))
           (ChannelPermission.as_u64 ChannelPermission.Video)
    else permissions in
  receive ← do_we_have_receive_overwrites;
  let permissions :=
    if negb receive
    then PermissionValue.revoke permissions
           (ChannelPermission.as_u64 ChannelPermission.Listen)
    else permissions in
  timed_out ← are_we_timed_out;
  if (timed_out : bool)
  then mret (PermissionValue.restrict permissions ALLOW_IN_TIMEOUT)
  else mret permissions.

Definition calculate_channel_permissions : M Empty_set Q PermissionValue.t :=
  privileged ← are_we_privileged;
  if (privileged : bool)
  then mret (PermissionValue.from_permission ChannelPermission.GrantAllSafe) else
  channel_type ← get_channel_type;
  match channel_type with
  | ChannelType.SavedMessages =>
      own ← do_we_own_the_channel;
      if (own : bool)
      then mret (PermissionValue.from_u64 DEFAULT_PERMISSION_SAVED_MESSAGES)
      else mret (PermissionValue.from_u64 0)
  | ChannelType.DirectMessage =>
      part ← are_we_part_of_the_channel;
      if (part : bool) then
        _ ← set_recipient_as_user;
        permissions ← calculate_user_permissions;
        if PermissionValue.has_user_permission permissions UserPermission.SendMessage
        then mret (PermissionValue.from_u64 DEFAULT_PERMISSION_DIRECT_MESSAGE)
        else mret (PermissionValue.from_u64 DEFAULT_PERMISSION_VIEW_ONLY)
      else mret (PermissionValue.from_u64 0)
  | ChannelType.Group =>
      own ← do_we_own_the_channel;
      if (own : bool)
      then mret (PermissionValue.from_permission ChannelPermission.GrantAllSafe) else
      part ← are_we_part_of_the_channel;
      if (part : bool) then
        default ← get_default_channel_permissions;
        mret (PermissionValue.from_u64
                (Z.lor DEFAULT_PERMISSION_VIEW_ONLY (Override.allow default)))
      else mret (PermissionValue.from_u64 0)
  | ChannelType.ServerChannel =>
      _ ← set_server_from_channel;
      owner ← are_we_server_owner;
      if (owner : bool)
      then mret (PermissionValue.from_permission ChannelPermission.GrantAllSafe) else
      member ← are_we_a_member;
      if (member : bool) then
        permissions ← calculate_server_permissions;
        default ← get_default_channel_permissions;
        let permissions := PermissionValue.apply permissions default in
        overrides ← get_our_channel_role_overrides;
        let permissions := fold_left PermissionValue.apply overrides permissions in
        timed_out ← are_we_timed_out;
        let permissions :=
          if (timed_out : bool)
          then PermissionValue.restrict permissions ALLOW_IN_TIMEOUT
          else permissions in
        if negb (PermissionValue.has_channel_permission permissions
                   ChannelPermission.ViewChannel)
        then mret (PermissionValue.revoke_all permissions)
        else mret permissions
      else mret (PermissionValue.from_u64 0)
  | ChannelType.Unknown => mret (PermissionValue.from_u64 0)
  end.
End Calculators.

(** ** Bits of permission values *)

Section Bits.
Local Open Scope Z_scope.

Lemma has_iff p v :
  PermissionValue.has p v = true ↔
  ∀ i, 0 ≤ i → Z.testbit v i = true → Z.testbit (PermissionValue.into_raw p) i = true.
Proof. unfold PermissionValue.has. by rewrite Z.eqb_eq, land_eq_iff. Qed.

(** The flags that stand for one permission. *)
Definition is_flag (p : ChannelPermission.t) : bool :=
  match p with ChannelPermission.GrantAllSafe | ChannelPermission.GrantAll => false | _ => true end.

(** The index of a flag's bit. *)
Definition flag_bit (p : ChannelPermission.t) : Z := Z.log2 (ChannelPermission.as_u64 p).

Lemma flag_bit_spec p : is_flag p = true →
  ChannelPermission.as_u64 p = 2 ^ flag_bit p ∧ 0 ≤ flag_bit p < 52.
Proof. destruct p; try done; intros _; vm_compute; (split; [done|]); split; congruence. Qed.

Lemma testbit_flag p i : is_flag p = true → 0 ≤ i →
  Z.testbit (ChannelPermission.as_u64 p) i = (i =? flag_bit p).
Proof.
  intros Hp Hi. destruct (flag_bit_spec p Hp) as [-> ?].
  rewrite Z.pow2_bits_eqb by lia. by rewrite Z.eqb_sym.
Qed.

Lemma has_flag p perm : is_flag perm = true →
  PermissionValue.has_channel_permission p perm =
  Z.testbit (PermissionValue.into_raw p) (flag_bit perm).
Proof.
  intros Hp. destruct (flag_bit_spec perm Hp) as [_ Hb].
  apply eq_true_iff_eq. unfold PermissionValue.has_channel_permission.
  rewrite has_iff. split.
  - intros H. apply H; [lia|]. rewrite testbit_flag by (done || lia). apply Z.eqb_refl.
  - intros H i Hi. rewrite testbit_flag by done. by intros ->%Z.eqb_eq.
Qed.

Lemma testbit_GrantAllSafe i : 0 ≤ i →
  Z.testbit (ChannelPermission.as_u64 ChannelPermission.GrantAllSafe) i = (i <? 52).
Proof.
  intros Hi. change (ChannelPermission.as_u64 ChannelPermission.GrantAllSafe) with (Z.ones 52).
  by rewrite Z.testbit_ones_nonneg by lia.
Qed.

Lemma testbit_revoke p v i : 0 ≤ i →
  Z.testbit (PermissionValue.into_raw (PermissionValue.revoke p v)) i =
  (i <? 64) && negb (Z.testbit v i) && Z.testbit (PermissionValue.into_raw p) i.
Proof. intros Hi. simpl. autorewrite with bits. destruct_bits. Qed.

Lemma testbit_restrict p v i :
  Z.testbit (PermissionValue.into_raw (PermissionValue.restrict p v)) i =
  Z.testbit (PermissionValue.into_raw p) i && Z.testbit v i.
Proof. simpl. by autorewrite with bits. Qed.

Lemma testbit_apply p o i : 0 ≤ i →
  Z.testbit (PermissionValue.into_raw (PermissionValue.apply p o)) i =
  (i <? 64) && negb (Z.testbit (Override.deny o) i) &&
  (Z.testbit (PermissionValue.into_raw p) i || Z.testbit (Override.allow o) i).
Proof.
  intros Hi. unfold PermissionValue.apply. rewrite testbit_revoke by done.
  simpl. by autorewrite with bits.
Qed.

(** What an override does to one bit. *)
Definition override_bit (i : Z) (b : bool) (o : Override.t) : bool :=
  if Z.testbit (Override.deny o) i then false
  else if Z.testbit (Override.allow o) i then true else b.

Lemma testbit_fold_apply os p i : 0 ≤ i < 64 →
  Z.testbit (PermissionValue.into_raw (fold_left PermissionValue.apply os p)) i =
  fold_left (override_bit i) os (Z.testbit (PermissionValue.into_raw p) i).
Proof.
  intros Hi. revert p. induction os as [|o os IH]; intros p; simpl; [done|].
  rewrite IH. f_equal. rewrite testbit_apply by lia. unfold override_bit.
  rewrite (proj2 (Z.ltb_lt i 64)) by lia. destruct_bits.
Qed.

Lemma override_bit_app i b os1 os2 :
  fold_left (override_bit i) (os1 ++ os2) b =
  fold_left (override_bit i) os2 (fold_left (override_bit i) os1 b).
Proof. apply fold_left_app. Qed.

(** Overrides that do not mention a bit leave it alone. *)
Lemma override_bit_silent i b os :
  Forall (λ o, Z.testbit (Override.deny o) i = false ∧
               Z.testbit (Override.allow o) i = false) os →
  fold_left (override_bit i) os b = b.
Proof.
  intros H. revert b. induction H as [|o os [Hd Ha] _ IH]; intros b; simpl; [done|].
  rewrite IH. unfold override_bit. by rewrite Hd, Ha.
Qed.

Lemma revoke_wf p v : PermissionValue.wf p → PermissionValue.wf (PermissionValue.revoke p v).
Proof.
  intros Hp. unfold PermissionValue.wf in *. apply u64_of_testbit.
  - simpl. apply Z.land_nonneg. left. apply Hp.
  - intros i Hi. rewrite testbit_revoke by lia.
    by rewrite (proj2 (Z.ltb_ge i 64)) by lia.
Qed.

Lemma allow_wf p v :
  PermissionValue.wf p → is_u64 v → PermissionValue.wf (PermissionValue.allow p v).
Proof.
  intros Hp Hv. unfold PermissionValue.wf in *. apply u64_of_testbit.
  - simpl. apply Z.lor_nonneg. split; [apply Hp|apply Hv].
  - intros i Hi. simpl. autorewrite with bits.
    by rewrite !testbit_u64_high by done.
Qed.

Lemma restrict_wf p v : PermissionValue.wf p → PermissionValue.wf (PermissionValue.restrict p v).
Proof.
  intros Hp. unfold PermissionValue.wf in *. apply u64_of_testbit.
  - simpl. apply Z.land_nonneg. left. apply Hp.
  - intros i Hi. rewrite testbit_restrict. by rewrite testbit_u64_high by done.
Qed.

Lemma apply_wf p o :
  PermissionValue.wf p → Override.wf o → PermissionValue.wf (PermissionValue.apply p o).
Proof. intros Hp [??]. apply revoke_wf. by apply allow_wf. Qed.

Lemma fold_apply_wf os p :
  PermissionValue.wf p → Forall Override.wf os →
  PermissionValue.wf (fold_left PermissionValue.apply os p).
Proof.
  intros Hp Hos. revert p Hp. induction Hos; intros p Hp; simpl; [done|].
  apply IHHos. by apply apply_wf.
Qed.

Lemma into_override_wf o : Override.wf (OverrideField.into_override o).
Proof. split; apply as_u64_range. Qed.
End Bits.

Arguments PermissionValue.apply : simpl never.
Arguments PermissionValue.revoke : simpl never.
Arguments PermissionValue.restrict : simpl never.
Arguments PermissionValue.allow : simpl never.

Create HintDb permwf.
#[export] Hint Resolve revoke_wf allow_wf restrict_wf apply_wf fold_apply_wf
  into_override_wf as_u64_range : permwf.

(** ** Properties of the value types *)

(** The permission flags are distinct single bits below bit 52, the range the
    enum reserves for JavaScript's integers, and [GrantAllSafe] is all of those bits. *)
Theorem channel_flags_disjoint_below_52 :
  (∀ p q, is_flag p = true → is_flag q = true → p ≠ q →
     Z.land (ChannelPermission.as_u64 p) (ChannelPermission.as_u64 q) = 0%Z) ∧
  (∀ p, is_flag p = true →
     Z.land (ChannelPermission.as_u64 p)
            (ChannelPermission.as_u64 ChannelPermission.GrantAllSafe)
     = ChannelPermission.as_u64 p ∧ ChannelPermission.as_u64 p ≠ 0%Z).
Proof.
  split; [intros p q; destruct p, q; done | by intros []].
Qed.

(** Converting an override to its database form and back gives the same override
    on the whole range of [u64], and the other way round on the whole range of
    [i64]: the casts lose no bit. *)
Theorem override_roundtrip :
  (∀ o, Override.wf o → OverrideField.into_override (OverrideField.from_override o) = o ∧
                        OverrideField.wf (OverrideField.from_override o)) ∧
  (∀ f, OverrideField.wf f → OverrideField.from_override (OverrideField.into_override f) = f ∧
                             Override.wf (OverrideField.into_override f)).
Proof.
  split.
  - intros [x y] [Hx Hy]; simpl in *. split.
    + unfold OverrideField.into_override; simpl. by rewrite !as_u64_as_i64.
    + split; apply as_i64_range.
  - intros [x y] [Hx Hy]; simpl in *. split; [|apply into_override_wf].
    unfold OverrideField.from_override; simpl. by rewrite !as_i64_as_u64.
Qed.

(** [throw_permission_override] accepts exactly when the actor holds every bit the
    change grants or stops denying. *)
Lemma throw_permission_override_iff p cur next :
  PermissionValue.throw_permission_override p (Some cur) next = Ok tt ↔
  PermissionValue.has p (Z.land (u64_not (Override.allow cur)) (Override.allow next)) = true ∧
  PermissionValue.has p (Z.land (Override.deny cur) (u64_not (Override.deny next))) = true.
Proof.
  unfold PermissionValue.throw_permission_override, Override.allows, Override.denies.
  destruct (PermissionValue.has p (Z.land (u64_not _) _)),
    (PermissionValue.has p (Z.land (Override.deny cur) _)); simpl; intuition congruence.
Qed.

(** Privilege escalation is impossible through a permission override: when
    [throw_permission_override] accepts replacing the current override (or none) by the
    next, then whatever permission value [v] the override is applied to, every bit that
    is granted after the change and was not before is a bit the actor holds. *)
Theorem throw_permission_override_no_escalation
    (actor : PermissionValue.t) (current : option Override.t) (next : Override.t)
    (v : PermissionValue.t) (i : Z) :
  PermissionValue.throw_permission_override actor current next = Ok tt →
  (0 ≤ i < 64)%Z →
  Z.testbit (PermissionValue.into_raw (PermissionValue.apply v next)) i = true →
  Z.testbit (PermissionValue.into_raw
               (default v (PermissionValue.apply v <$> current))) i = false →
  Z.testbit (PermissionValue.into_raw actor) i = true.
Proof.
  intros Hok Hi. assert ((i <? 64)%Z = true) as H64 by (apply Z.ltb_lt; lia).
  rewrite testbit_apply, H64 by lia. intros Hafter%andb_prop.
  destruct current as [cur|]; cbn [from_option fmap option_fmap option_map id].
  all: rewrite ?testbit_apply, ?H64 by lia.
  - apply throw_permission_override_iff in Hok as [Ha Hd]. rewrite has_iff in Ha, Hd.
    specialize (Ha i ltac:(lia)). specialize (Hd i ltac:(lia)).
    autorewrite with bits in Ha, Hd. rewrite H64 in Ha, Hd.
    destruct (Z.testbit (Override.deny cur) i), (Z.testbit (Override.allow cur) i),
      (Z.testbit (Override.deny next) i), (Z.testbit (Override.allow next) i),
      (Z.testbit (PermissionValue.into_raw v) i); simpl in *; intuition congruence.
  - unfold PermissionValue.throw_permission_override, Override.allows in Hok.
    destruct (PermissionValue.has actor (Override.allow next)) eqn:Hh; simplify_eq/=.
    rewrite has_iff in Hh. specialize (Hh i ltac:(lia)).
    destruct (Z.testbit (Override.allow next) i),
      (Z.testbit (PermissionValue.into_raw v) i); simpl in *; intuition congruence.
Qed.

(** A moderator who may send messages and kick replaces an override that denied
    sending by one that allows kicking: accepted, and both bits are their own. *)
Lemma throw_permission_override_no_escalation_witness :
  let actor := PermissionValue.from_u64
    (ChannelPermission.add ChannelPermission.SendMessage ChannelPermission.KickMembers) in
  let current := Override.mk 0 (ChannelPermission.as_u64 ChannelPermission.SendMessage) in
  let next := Override.mk (ChannelPermission.as_u64 ChannelPermission.KickMembers) 0 in
  let v := PermissionValue.from_permission ChannelPermission.SendMessage in
  Z.testbit (PermissionValue.into_raw actor) 22 = true.
Proof.
  intros actor current next v.
  by apply (throw_permission_override_no_escalation actor (Some current) next v 22);
    vm_compute.
Defined.
