(* ===== verification/PermissionSpec.v ===== *)
(** * What the permission calculators compute

    The calculators of [crates/core/permissions/src/impl.rs] are generic in the query.
    [QueryView] is the interface a query implementation promises: a view of what its
    operations answer, and that the operations only ever cache. Against it the results
    of the calculators are described bit by bit ([user_value], [server_bit],
    [channel_bit]), and the safety properties are read off that description.
    [PermissionQuery.v] discharges the interface for the database's query. *)

From S2P Require Import Prelude Errors Permissions.
From stdpp Require Import base list strings.
From Stdlib Require Import ZArith Lia.

(** ** The view of a query *)

(** What a query answers about the selected user. *)
Record UserView := {
  uv_privileged : bool;
  uv_same : bool;
  uv_relationship : RelationshipStatus.t;
  uv_mutual : Outcome Empty_set bool;
  uv_any_bot : bool
}.

(** What a query answers about the selected server and channel. *)
Record View := {
  v_privileged : bool;
  v_owner : bool;
  v_member : bool;
  v_default : Z;
  v_server_roles : list Override.t;
  v_publish : bool;
  v_receive : bool;
  v_timed_out : bool;
  v_channel_type : ChannelType.t;
  v_channel_default : Override.t;
  v_channel_roles : list Override.t;
  v_own_channel : bool;
  v_part_of_channel : bool
}.

(** The promises of a query. [member_known q] says that the membership has been
    fetched, which the answers about the member need. *)
Class QueryView (Q : Type) `{PermissionQuery Q} := {
  view : Q → View;
  user_view : Q → UserView;
  member_known : Q → Prop;
  law_privileged q : are_we_privileged q = (Ok (v_privileged (view q)), q);
  law_user_privileged q : uv_privileged (user_view q) = v_privileged (view q);
  law_same q : are_the_users_same q = (Ok (uv_same (user_view q)), q);
  law_relationship q : user_relationship q = (Ok (uv_relationship (user_view q)), q);
  law_mutual q : ∃ q', have_mutual_connection q = (uv_mutual (user_view q), q') ∧
    (x ← user_is_bot; if (x : bool) then mret true else are_we_a_bot) q' =
    (Ok (uv_any_bot (user_view q)), q');
  law_owner q : are_we_server_owner q = (Ok (v_owner (view q)), q);
  law_member q : ∃ q', are_we_a_member q = (Ok (v_member (view q)), q') ∧
    view q' = view q ∧ (v_member (view q) = true → member_known q');
  law_default q : get_default_server_permissions q = (Ok (v_default (view q)), q);
  law_server_roles q : member_known q →
    get_our_server_role_overrides q = (Ok (v_server_roles (view q)), q);
  law_publish q : member_known q →
    do_we_have_publish_overwrites q = (Ok (v_publish (view q)), q);
  law_receive q : member_known q →
    do_we_have_receive_overwrites q = (Ok (v_receive (view q)), q);
  law_timed_out q : member_known q → are_we_timed_out q = (Ok (v_timed_out (view q)), q);
  law_channel_type q : get_channel_type q = (Ok (v_channel_type (view q)), q);
  law_channel_default q :
    get_default_channel_permissions q = (Ok (v_channel_default (view q)), q);
  law_channel_roles q : member_known q →
    get_our_channel_role_overrides q = (Ok (v_channel_roles (view q)), q);
  law_own_channel q : do_we_own_the_channel q = (Ok (v_own_channel (view q)), q);
  law_part q : are_we_part_of_the_channel q = (Ok (v_part_of_channel (view q)), q);
  law_set_server q : v_channel_type (view q) = ChannelType.ServerChannel →
    ∃ q', set_server_from_channel q = (Ok tt, q') ∧
      v_privileged (view q') = v_privileged (view q)
}.

(** ** The specification *)

(** Permissions against a user: a function of the relationship. *)
Definition user_value (u : UserView) : Outcome Empty_set Z :=
  if uv_privileged u || uv_same u then Ok u64_max else
  match uv_relationship u with
  | RelationshipStatus.Friend => Ok u64_max
  | RelationshipStatus.Blocked | RelationshipStatus.BlockedOther => Ok 1%Z
  | r =>
      mutual ← uv_mutual u;
      Ok (if (mutual : bool) then (if uv_any_bot u then 7 else 3)
          else if bool_decide (r = RelationshipStatus.Incoming ∨ r = RelationshipStatus.Outgoing)
               then 1 else 0)%Z
  end.

Lemma user_value_blocked (u : UserView) :
  uv_privileged u = false → uv_same u = false →
  uv_relationship u = RelationshipStatus.Blocked ∨
  uv_relationship u = RelationshipStatus.BlockedOther → user_value u = Ok 1%Z.
Proof. unfold user_value. intros -> -> [-> | ->]; done. Qed.

(** The bits a member loses while muted, deafened or timed out. *)
Definition voice_mask (v : View) (i : Z) : bool :=
  (v_publish v || negb ((i =? flag_bit ChannelPermission.Speak)%Z ||
                        (i =? flag_bit ChannelPermission.Video)%Z)) &&
  (v_receive v || negb (i =? flag_bit ChannelPermission.Listen)%Z).

Definition timeout_mask (v : View) (i : Z) : bool :=
  negb (v_timed_out v) || (i =? flag_bit ChannelPermission.ViewChannel)%Z ||
  (i =? flag_bit ChannelPermission.ReadMessageHistory)%Z.

(** Is bit [i] granted on the server? *)
Definition server_bit (v : View) (i : Z) : bool :=
  if v_privileged v || v_owner v then (i <? 52)%Z
  else v_member v &&
       fold_left (override_bit i) (v_server_roles v) (Z.testbit (v_default v) i) &&
       voice_mask v i && timeout_mask v i.

(** Is bit [i] granted in a server channel, before hidden channels are masked? *)
Definition layered_bit (v : View) (i : Z) : bool :=
  fold_left (override_bit i) (v_channel_default v :: v_channel_roles v) (server_bit v i) &&
  timeout_mask v i.

(** Is bit [i] granted in a server channel? *)
Definition channel_bit (v : View) (i : Z) : bool :=
  if v_privileged v || v_owner v then (i <? 52)%Z
  else v_member v && layered_bit v (flag_bit ChannelPermission.ViewChannel) &&
       layered_bit v i.

(** The answers are machine integers. *)
Definition view_wf (v : View) : Prop :=
  is_u64 (v_default v) ∧ Forall Override.wf (v_server_roles v) ∧
  Override.wf (v_channel_default v) ∧ Forall Override.wf (v_channel_roles v).

(** ** Bits of the constants *)

Lemma testbit_allow_in_timeout i : (0 ≤ i)%Z →
  Z.testbit ALLOW_IN_TIMEOUT i =
  ((i =? flag_bit ChannelPermission.ViewChannel)%Z ||
   (i =? flag_bit ChannelPermission.ReadMessageHistory)%Z).
Proof.
  intros Hi. unfold ALLOW_IN_TIMEOUT, ChannelPermission.add.
  autorewrite with bits. by rewrite !testbit_flag.
Qed.

Definition value_matches (p : PermissionValue.t) (f : Z → bool) : Prop :=
  ∀ i, (0 ≤ i < 64)%Z → Z.testbit (PermissionValue.into_raw p) i = f i.

Lemma value_matches_all :
  value_matches (PermissionValue.from_permission ChannelPermission.GrantAllSafe)
    (λ i, i <? 52)%Z.
Proof. intros i Hi. apply testbit_GrantAllSafe. lia. Qed.

Lemma value_matches_zero f : (∀ i, f i = false) → value_matches (PermissionValue.from_u64 0) f.
Proof. intros Hf i Hi. by rewrite Hf, Z.bits_0. Qed.

Lemma value_matches_ext p f g :
  (∀ i, (0 ≤ i < 64)%Z → f i = g i) → value_matches p f → value_matches p g.
Proof. intros Hfg Hp i Hi. by rewrite Hp, Hfg. Qed.

Lemma value_matches_revoke p f perm :
  is_flag perm = true → value_matches p f →
  value_matches (PermissionValue.revoke p (ChannelPermission.as_u64 perm))
    (λ i, f i && negb (i =? flag_bit perm)%Z).
Proof.
  intros Hf Hp i Hi. rewrite testbit_revoke, testbit_flag by (done || lia).
  rewrite (proj2 (Z.ltb_lt i 64)), Hp by lia. by rewrite andb_comm.
Qed.

Lemma value_matches_restrict p f :
  value_matches p f →
  value_matches (PermissionValue.restrict p ALLOW_IN_TIMEOUT)
    (λ i, f i && ((i =? flag_bit ChannelPermission.ViewChannel)%Z ||
                  (i =? flag_bit ChannelPermission.ReadMessageHistory)%Z)).
Proof.
  intros Hp i Hi. by rewrite testbit_restrict, testbit_allow_in_timeout, Hp by lia.
Qed.

Lemma value_matches_fold p f os :
  value_matches p f →
  value_matches (fold_left PermissionValue.apply os p)
    (λ i, fold_left (override_bit i) os (f i)).
Proof. intros Hp i Hi. by rewrite testbit_fold_apply, Hp. Qed.

(** A change made only when [b] is false. *)
Lemma value_matches_unless (b : bool) p p' f m :
  value_matches p f → value_matches p' (λ i, f i && m i) →
  value_matches (if negb b then p' else p) (λ i, f i && (b || m i)).
Proof.
  intros Hp Hp'. destruct b; simpl; [|done].
  eapply value_matches_ext; [|exact Hp]. intros i _. by rewrite andb_true_r.
Qed.

(** What the server calculator does to the member's value after the roles: mute,
    deafen, time out. *)
Lemma value_matches_member (v : View) p f :
  value_matches p f →
  let p1 := if negb (v_publish v)
            then PermissionValue.revoke
                   (PermissionValue.revoke p (ChannelPermission.as_u64 ChannelPermission.Speak))
                   (ChannelPermission.as_u64 ChannelPermission.Video)
            else p in
  let p2 := if negb (v_receive v)
            then PermissionValue.revoke p1 (ChannelPermission.as_u64 ChannelPermission.Listen)
            else p1 in
  value_matches
    (if negb (negb (v_timed_out v)) then PermissionValue.restrict p2 ALLOW_IN_TIMEOUT else p2)
    (λ i, f i && voice_mask v i && timeout_mask v i).
Proof.
  intros Hp p1 p2.
  assert (value_matches p1 (λ i, f i && (v_publish v ||
    negb ((i =? flag_bit ChannelPermission.Speak)%Z ||
          (i =? flag_bit ChannelPermission.Video)%Z)))) as H1.
  { apply value_matches_unless; [done|]. eapply value_matches_ext;
      [|apply value_matches_revoke; [done|]; by apply value_matches_revoke].
    intros i _; simpl. by rewrite negb_orb, andb_assoc. }
  assert (value_matches p2 (λ i, f i && voice_mask v i)) as H2.
  { eapply value_matches_ext;
      [|apply value_matches_unless; [exact H1|by apply value_matches_revoke]].
    intros i _; simpl. unfold voice_mask. by rewrite andb_assoc. }
  eapply value_matches_ext;
    [|apply value_matches_unless; [exact H2|by apply value_matches_restrict]].
  intros i _; simpl. unfold timeout_mask. by rewrite orb_assoc.
Qed.

(** ** The calculators meet the specification *)

Section Meets.
Context {Q : Type} `{QueryView Q}.

(** Evaluate one operation of the query by its law. *)
Ltac step law := rewrite M_bind_unfold, law; cbn beta iota.

Lemma calculate_user_value q :
  ∃ q', calculate_user_permissions q =
    (PermissionValue.from_u64 <$> user_value (user_view q), q').
Proof.
  unfold calculate_user_permissions, user_value, or_else.
  step law_privileged. rewrite law_user_privileged.
  destruct (v_privileged (view q)); [by eexists|].
  step law_same. destruct (uv_same (user_view q)); [by eexists|].
  step law_relationship. destruct (law_mutual q) as (q' & Hm & Hb).
  destruct (uv_relationship (user_view q)); try by eexists.
  all: rewrite M_bind_unfold, Hm; destruct (uv_mutual (user_view q)) as [[]| |];
    simpl; try by eexists.
  all: rewrite M_bind_unfold, Hb; by destruct (uv_any_bot (user_view q)); eexists.
Qed.

(** The member's bits: what [calculate_server_permissions] computes once the
    membership is known. *)
Lemma calculate_server_matches q :
  ∃ p q', calculate_server_permissions q = (Ok p, q') ∧ view q' = view q ∧
    value_matches p (server_bit (view q)) ∧
    (v_member (view q) = true → member_known q → member_known q') ∧
    (view_wf (view q) → PermissionValue.wf p).
Proof.
  unfold calculate_server_permissions, or_else. rewrite (M_bind_unfold _ (_ ≫= _)).
  step law_privileged. unfold server_bit, voice_mask, timeout_mask.
  destruct (v_privileged (view q)) eqn:Hpriv; simpl.
  { eexists _, q. split_and!; [done..|apply value_matches_all|done|]. by intros; vm_compute. }
  rewrite law_owner. destruct (v_owner (view q)) eqn:Howner; simpl.
  { eexists _, q. split_and!; [done..|apply value_matches_all|done|]. by intros; vm_compute. }
  destruct (law_member q) as (q' & Hm & Hview & Hknown).
  rewrite M_bind_unfold, Hm. destruct (v_member (view q)); simpl.
  2:{ eexists _, q'. split_and!; [done..|by apply value_matches_zero|done|].
      by intros; vm_compute. }
  specialize (Hknown eq_refl). step law_default.
  rewrite M_bind_unfold, law_server_roles by done. cbn beta iota.
  rewrite M_bind_unfold, law_publish by done. cbn beta iota.
  rewrite M_bind_unfold, law_receive by done. cbn beta iota.
  rewrite M_bind_unfold, law_timed_out by done. cbn beta iota. rewrite Hview.
  pose proof (value_matches_fold (PermissionValue.from_u64 (v_default (view q)))
    (λ i, Z.testbit (v_default (view q)) i) (v_server_roles (view q))) as Hroles.
  specialize (Hroles ltac:(by intros i Hi)).
  set (p0 := fold_left PermissionValue.apply _ _) in *.
  assert (view_wf (view q) → PermissionValue.wf p0) as Hwf0.
  { intros (?&?&_). by apply fold_apply_wf. }
  pose proof (value_matches_member (view q) p0 _ Hroles) as Hmember.
  cbv zeta in Hmember. rewrite negb_involutive in Hmember.
  refine (ex_intro _ _ (ex_intro _ q' (conj _ (conj Hview (conj Hmember (conj _ _))))));
    [by case (v_timed_out (view q))|done|].
  intros Hw. specialize (Hwf0 Hw).
  destruct (v_publish (view q)), (v_receive (view q)), (v_timed_out (view q));
    simpl; auto 6 with permwf.
Qed.

Lemma value_has_flag p f perm :
  value_matches p f → is_flag perm = true →
  PermissionValue.has_channel_permission p perm = f (flag_bit perm).
Proof.
  intros Hp Hf. rewrite has_flag by done. apply Hp.
  destruct (flag_bit_spec perm Hf). lia.
Qed.

(** The end of the channel calculator: the channel's overrides on the member's server
    value, the timeout, and the masking of a hidden channel. *)
Lemma finish_channel_matches (v : View) p :
  v_privileged v = false → v_owner v = false → v_member v = true →
  value_matches p (server_bit v) →
  let p1 := fold_left PermissionValue.apply (v_channel_default v :: v_channel_roles v) p in
  let p2 := if negb (negb (v_timed_out v))
            then PermissionValue.restrict p1 ALLOW_IN_TIMEOUT else p1 in
  value_matches
    (if negb (PermissionValue.has_channel_permission p2 ChannelPermission.ViewChannel)
     then PermissionValue.revoke_all p2 else p2) (channel_bit v).
Proof.
  intros Hpriv Howner Hmember Hp p1 p2.
  assert (value_matches p2 (layered_bit v)) as H2.
  { eapply value_matches_ext;
      [|apply value_matches_unless; [by apply value_matches_fold|]].
    2: by apply value_matches_restrict, value_matches_fold.
    intros i _; simpl. unfold layered_bit, timeout_mask. simpl. by rewrite orb_assoc. }
  rewrite (value_has_flag p2 _ _ H2) by done.
  unfold channel_bit. rewrite Hpriv, Howner, Hmember. simpl.
  destruct (layered_bit v (flag_bit ChannelPermission.ViewChannel)); simpl; [done|].
  by apply value_matches_zero.
Qed.

(** In a server channel the calculator always answers, with the bits of
    [channel_bit]. [q1] is the query after the channel's server was selected. *)
Lemma calculate_server_channel_matches q q1 :
  v_channel_type (view q) = ChannelType.ServerChannel →
  set_server_from_channel q = (Ok tt, q1) →
  v_privileged (view q1) = v_privileged (view q) →
  ∃ p q', calculate_channel_permissions q = (Ok p, q') ∧
    value_matches p (channel_bit (view q1)) ∧
    (view_wf (view q1) → PermissionValue.wf p).
Proof.
  intros Htype Hset Hpriv1. unfold calculate_channel_permissions.
  step law_privileged. destruct (v_privileged (view q)) eqn:Hpriv.
  { eexists _, q. unfold channel_bit. rewrite Hpriv1.
    split_and!; [done|apply value_matches_all|by intros; vm_compute]. }
  step law_channel_type. rewrite Htype. rewrite M_bind_unfold, Hset. cbn beta iota.
  step law_owner. destruct (v_owner (view q1)) eqn:Howner.
  { eexists _, q1. unfold channel_bit. rewrite Hpriv1, Howner.
    split_and!; [done|apply value_matches_all|by intros; vm_compute]. }
  destruct (law_member q1) as (q2 & Hm & Hview2 & Hknown2).
  rewrite M_bind_unfold, Hm. destruct (v_member (view q1)) eqn:Hmember; simpl.
  2:{ eexists _, q2. unfold channel_bit. rewrite Hpriv1, Howner, Hmember.
      split_and!; [done|by apply value_matches_zero|by intros; vm_compute]. }
  specialize (Hknown2 eq_refl).
  destruct (calculate_server_matches q2) as (p & q3 & Hs & Hview3 & Hp & Hk & Hwf).
  rewrite Hview2 in Hview3, Hp, Hk, Hwf. specialize (Hk Hmember Hknown2).
  rewrite M_bind_unfold, Hs. cbn beta iota. step law_channel_default.
  rewrite M_bind_unfold, law_channel_roles by done. cbn beta iota.
  rewrite M_bind_unfold, law_timed_out by done. cbn beta iota. rewrite Hview3.
  pose proof (finish_channel_matches (view q1) p Hpriv1 Howner Hmember Hp) as Hfin.
  cbv zeta in Hfin. rewrite negb_involutive in Hfin.
  refine (ex_intro _ _ (ex_intro _ q3 (conj _ (conj Hfin _)))); [cbn; by case negb|].
  intros Hw. assert (PermissionValue.wf p) as Hpw by auto.
  destruct Hw as (_ & _ & Hd & Hr). case negb; [by vm_compute|].
  destruct (v_timed_out (view q1)); simpl; auto 6 with permwf.
Qed.
End Meets.
