(* ===== verification/Files.v ===== *)
(** * Files (module [files] of [revolt-database])

    The file record that users, servers, channels and messages embed, the files table of
    the reference driver ([models/files/ops/reference.rs]) and the [use_*] operations of
    [models/files/model.rs], which claim an uploaded file for an object. *)

From S2P Require Import Prelude Errors.
From stdpp Require Import base list gmap strings.
From Stdlib Require Import ZArith.

Module Metadata.
Inductive t : Type :=
| File
| Text
| Image (width height : Z) (thumbhash : option (list Z)) (animated : option bool)
| Video (width height : Z)
| Audio.
End Metadata.

Module FileUsedForType.
Inductive t : Type :=
| Message | ServerBanner | Emoji | UserAvatar | WebhookAvatar | UserProfileBackground
| LegacyGroupIcon | ChannelIcon | ServerIcon | RoleIcon.
End FileUsedForType.

Module FileUsedFor.
Record t : Type := mk { object_type : FileUsedForType.t; id : string }.
End FileUsedFor.

Module File.
Record t : Type := mk {
  id : string;
  tag : string;
  filename : string;
  hash : option string;
  uploaded_at : option Z;
  uploader_id : option string;
  used_for : option FileUsedFor.t;
  deleted : option bool;
  reported : option bool;
  metadata : Metadata.t;
  content_type : string;
  size : Z;
  message_id : option string;
  user_id : option string;
  server_id : option string;
  object_id : option string
}.

(** [file.deleted = Some(true)] *)
Definition set_deleted (f : t) : t :=
  mk (id f) (tag f) (filename f) (hash f) (uploaded_at f) (uploader_id f) (used_for f)
     (Some true) (reported f) (metadata f) (content_type f) (size f) (message_id f)
     (user_id f) (server_id f) (object_id f).

(** [file.reported = Some(true)] *)
Definition set_reported (f : t) : t :=
  mk (id f) (tag f) (filename f) (hash f) (uploaded_at f) (uploader_id f) (used_for f)
     (deleted f) (Some true) (metadata f) (content_type f) (size f) (message_id f)
     (user_id f) (server_id f) (object_id f).

(** [file.uploader_id = Some(uploader_id); file.used_for = Some(used_for)] *)
Definition set_used (used : FileUsedFor.t) (uploader : string) (f : t) : t :=
  mk (id f) (tag f) (filename f) (hash f) (uploaded_at f) (Some uploader) (Some used)
     (deleted f) (reported f) (metadata f) (content_type f) (size f) (message_id f)
     (user_id f) (server_id f) (object_id f).

(** [field.is_some_and(|v| v)] *)
Definition is_set (field : option bool) : bool :=
  match field with Some v => v | None => false end.
End File.

(** ** The files table of the reference driver *)

Module FilesTable.
Abbreviation table := (gmap string File.t).
Abbreviation T := (M ErrorType.t table).

Definition insert_attachment (attachment : File.t) : T unit :=
  table_insert (File.id attachment) attachment (create_database_error "insert" "attachment").

Definition fetch_attachment (tag file_id : string) : T File.t :=
  λ files,
    match files !! file_id with
    | Some file =>
        if bool_decide (File.tag file = tag) then (Ok file, files)
        else (Err ErrorType.NotFound, files)
    | None => (Err ErrorType.NotFound, files)
    end.

Definition fetch_deleted_attachments `{HashIter} : T (list File.t) :=
  table_select (λ file, File.is_set (File.deleted file) &&
                        negb (File.is_set (File.reported file))).

Definition fetch_dangling_files `{HashIter} : T (list File.t) :=
  table_select (λ file, negb (bool_decide (is_Some (File.used_for file))) &&
                        negb (File.is_set (File.deleted file))).

Definition count_file_hash_references `{HashIter} (hash : string) : T Z :=
  files ← table_select (λ file, bool_decide (File.hash file = Some hash));
  mret (Z.of_nat (length files)).

Definition find_and_use_attachment (id tag : string) (used_for : FileUsedFor.t)
    (uploader_id : string) : T File.t :=
  λ files,
    match files !! id with
    | Some file =>
        if bool_decide (File.tag file = tag)
        then let file := File.set_used used_for uploader_id file in
             (Ok file, <[id := file]> files)
        else (Err ErrorType.NotFound, files)
    | None => (Err ErrorType.NotFound, files)
    end.

Definition mark_attachment_as_reported (id : string) : T unit :=
  table_update id File.set_reported ErrorType.NotFound.

Definition mark_attachment_as_deleted (id : string) : T unit :=
  table_update id File.set_deleted ErrorType.NotFound.

Definition mark_attachments_as_deleted (ids : list string) : T unit :=
  λ files,
    if forallb (λ id, bool_decide (is_Some (files !! id))) ids
    then (Ok tt, fold_left (λ files id,
                   match files !! id with
                   | Some file => <[id := File.set_reported file]> files
                   | None => files
                   end) ids files)
    else (Err ErrorType.NotFound, files).

Definition delete_attachment (id : string) : T unit := table_delete id ErrorType.NotFound.
End FilesTable.

(** ** Claiming a file: the [use_*] methods of [File] *)

Module UseFile.
Definition use_as (tag : string) (object_type : FileUsedForType.t) (id parent uploader_id : string) :
    FilesTable.T File.t :=
  FilesTable.find_and_use_attachment id tag (FileUsedFor.mk object_type parent) uploader_id.

Definition use_attachment := use_as "attachments" FileUsedForType.Message.
Definition use_background := use_as "backgrounds" FileUsedForType.UserProfileBackground.
Definition use_user_avatar := use_as "avatars" FileUsedForType.UserAvatar.
Definition use_webhook_avatar := use_as "avatars" FileUsedForType.WebhookAvatar.
Definition use_server_icon := use_as "icons" FileUsedForType.ServerIcon.
Definition use_channel_icon := use_as "icons" FileUsedForType.ChannelIcon.
Definition use_server_banner := use_as "banners" FileUsedForType.ServerBanner.
Definition use_emoji := use_as "emojis" FileUsedForType.Emoji.
Definition use_role_icon := use_as "icons" FileUsedForType.RoleIcon.
End UseFile.

(** ** Properties *)

(** A file that was claimed for an object is no longer dangling, so the collector of
    dangling files never deletes it. *)
Lemma find_and_use_not_dangling `{HashIter} id tag used uploader files file files' :
  FilesTable.find_and_use_attachment id tag used uploader files = (Ok file, files') →
  ∃ l, (FilesTable.fetch_dangling_files files').1 = Ok l ∧ file ∉ l ∧
    files' !! id = Some file ∧ File.tag file = tag.
Proof.
  unfold FilesTable.find_and_use_attachment, FilesTable.fetch_dangling_files, table_select.
  destruct (files !! id) as [f|] eqn:Hf; [|done].
  case_bool_decide as Htag; [|done]. intros [= <- <-]. eexists. split; [done|].
  split_and!; [|apply lookup_insert_eq|done].
  rewrite elem_of_table_select. intros [Hsel _]. done.
Qed.

(** The table after marking: the files of [ids] carry the reported mark, no file's
    deleted mark has changed. *)
Lemma mark_attachments_lookup ids files files' id :
  FilesTable.mark_attachments_as_deleted ids files = (Ok tt, files') →
  files' !! id = (if bool_decide (id ∈ ids) then File.set_reported else λ f, f) <$> files !! id.
Proof.
  unfold FilesTable.mark_attachments_as_deleted. destruct (forallb _ _); [|done].
  intros [= <-]. revert files. induction ids as [|i ids IH]; intros files; simpl.
  { by destruct (files !! id). }
  rewrite IH. destruct (files !! i) as [f|] eqn:Hf.
  - destruct (decide (i = id)) as [->|Hne].
    + rewrite lookup_insert_eq, Hf. simpl. rewrite (bool_decide_eq_true_2 (id ∈ id :: ids)) by left.
      by destruct (bool_decide _).
    + rewrite lookup_insert_ne by done. f_equal.
      rewrite (bool_decide_ext (id ∈ i :: ids) (id ∈ ids)) by set_solver. done.
  - destruct (decide (i = id)) as [->|Hne]; [by rewrite Hf|]. f_equal.
    rewrite (bool_decide_ext (id ∈ i :: ids) (id ∈ ids)) by set_solver. done.
Qed.
