(* ===== verification/Users.v ===== *)
(** * Users (module [users] of [revolt-database])

    The user model of [models/users/model.rs] with its pure methods, and the users
    table of the reference driver ([models/users/ops/reference.rs]). The handlers that
    change relationships are in [Relationships.v]. *)

From S2P Require Import Prelude Errors Permissions Files.
From stdpp Require Import base list gmap strings.
From Stdlib Require Import ZArith.

Module FieldsUser.
Inductive t : Type :=
| Avatar | StatusText | StatusPresence | ProfileContent | ProfileBackground
| DisplayName | Pronouns | Suspension | None.
#[global] Instance t_eq_dec : EqDecision t.
Proof. solve_decision. Defined.
End FieldsUser.

Module Relationship.
Record t : Type := mk { id : string; status : RelationshipStatus.t }.
#[global] Instance t_eq_dec : EqDecision t.
Proof. solve_decision. Defined.
End Relationship.

Module Presence.
Inductive t : Type := Online | Idle | Focus | Busy | Invisible.
#[global] Instance t_eq_dec : EqDecision t.
Proof. solve_decision. Defined.
End Presence.

Module UserStatus.
Record t : Type := mk { text : option string; presence : option Presence.t }.
End UserStatus.

Module UserProfile.
Record t : Type := mk {
  content : option string;
  background : option File.t;
  avatar_decoration : option string
}.
End UserProfile.

Module BotInformation.
Record t : Type := mk { owner : string }.
End BotInformation.

Module UserHint.
Inductive t : Type := Any | Bot | User.
End UserHint.

Module User.
Record t : Type := mk {
  id : string;
  username : string;
  discriminator : string;
  display_name : option string;
  pronouns : option string;
  avatar : option File.t;
  relations : option (list Relationship.t);
  badges : option Z;
  status : option UserStatus.t;
  profile : option UserProfile.t;
  flags : option Z;
  privileged : bool;
  bot : option BotInformation.t;
  suspended_until : option Z;
  last_acknowledged_policy_change : Z
}.

(** [impl Default for User] *)
Definition default : t :=
  mk "" "" "0000" None None None None None None None None false None None 0.

Definition set_relations (u : t) (r : option (list Relationship.t)) : t :=
  mk (id u) (username u) (discriminator u) (display_name u) (pronouns u) (avatar u) r
     (badges u) (status u) (profile u) (flags u) (privileged u) (bot u)
     (suspended_until u) (last_acknowledged_policy_change u).
Definition set_status (u : t) (s : option UserStatus.t) : t :=
  mk (id u) (username u) (discriminator u) (display_name u) (pronouns u) (avatar u)
     (relations u) (badges u) s (profile u) (flags u) (privileged u) (bot u)
     (suspended_until u) (last_acknowledged_policy_change u).
Definition set_profile (u : t) (p : option UserProfile.t) : t :=
  mk (id u) (username u) (discriminator u) (display_name u) (pronouns u) (avatar u)
     (relations u) (badges u) (status u) p (flags u) (privileged u) (bot u)
     (suspended_until u) (last_acknowledged_policy_change u).

(** Get the relationship with another user *)
Definition relationship_with (self : t) (user_b : string) : RelationshipStatus.t :=
  if bool_decide (id self = user_b) then RelationshipStatus.User else
  match relations self with
  | Some relations =>
      match List.find (λ x, bool_decide (Relationship.id x = user_b)) relations with
      | Some relationship => Relationship.status relationship
      | None => RelationshipStatus.None
      end
  | None => RelationshipStatus.None
  end.

Definition is_friends_with (self : t) (user_b : string) : bool :=
  match relationship_with self user_b with
  | RelationshipStatus.Friend | RelationshipStatus.User => true
  | _ => false
  end.

(** Remove a field from User object *)
Definition remove_field (self : t) (field : FieldsUser.t) : t :=
  match field with
  | FieldsUser.Avatar =>
      mk (id self) (username self) (discriminator self) (display_name self) (pronouns self)
         None (relations self) (badges self) (status self) (profile self) (flags self)
         (privileged self) (bot self) (suspended_until self)
         (last_acknowledged_policy_change self)
  | FieldsUser.StatusText =>
      match status self with
      | Some x => set_status self (Some (UserStatus.mk None (UserStatus.presence x)))
      | None => self
      end
  | FieldsUser.StatusPresence =>
      match status self with
      | Some x => set_status self (Some (UserStatus.mk (UserStatus.text x) None))
      | None => self
      end
  | FieldsUser.ProfileContent =>
      match profile self with
      | Some x => set_profile self (Some (UserProfile.mk None (UserProfile.background x)
                                            (UserProfile.avatar_decoration x)))
      | None => self
      end
  | FieldsUser.ProfileBackground =>
      match profile self with
      | Some x => set_profile self (Some (UserProfile.mk (UserProfile.content x) None
                                            (UserProfile.avatar_decoration x)))
      | None => self
      end
  | FieldsUser.DisplayName =>
      mk (id self) (username self) (discriminator self) None (pronouns self)
         (avatar self) (relations self) (badges self) (status self) (profile self)
         (flags self) (privileged self) (bot self) (suspended_until self)
         (last_acknowledged_policy_change self)
  | FieldsUser.Pronouns =>
      mk (id self) (username self) (discriminator self) (display_name self) None
         (avatar self) (relations self) (badges self) (status self) (profile self)
         (flags self) (privileged self) (bot self) (suspended_until self)
         (last_acknowledged_policy_change self)
  | FieldsUser.Suspension =>
      mk (id self) (username self) (discriminator self) (display_name self) (pronouns self)
         (avatar self) (relations self) (badges self) (status self) (profile self)
         (flags self) (privileged self) (bot self) None
         (last_acknowledged_policy_change self)
  | FieldsUser.None => self
  end.
End User.

Module PartialUser.
(** The partial form the derive macro generates: every field optional. *)
Record t : Type := mk {
  id : option string;
  username : option string;
  discriminator : option string;
  display_name : option string;
  pronouns : option string;
  avatar : option File.t;
  relations : option (list Relationship.t);
  badges : option Z;
  status : option UserStatus.t;
  profile : option UserProfile.t;
  flags : option Z;
  privileged : option bool;
  bot : option BotInformation.t;
  suspended_until : option Z;
  last_acknowledged_policy_change : option Z
}.
Definition default : t :=
  mk None None None None None None None None None None None None None None None.
End PartialUser.

(** [relations.retain(|relation| relation.id != target_id)] *)
Definition drop_relation (target_id : string) (l : list Relationship.t) : list Relationship.t :=
  List.filter (λ r, negb (bool_decide (Relationship.id r = target_id))) l.

(** ** The users table of the reference driver *)

Module UsersTable.
Abbreviation table := (gmap string User.t).
Abbreviation T := (M ErrorType.t table).

Definition insert_user (user : User.t) : T unit :=
  table_insert (User.id user) user (create_database_error "insert" "user").

Definition fetch_user (id : string) : T User.t := table_fetch id ErrorType.NotFound.

Definition fetch_user_by_username `{HashIter, Lowercase} (username discriminator : string) :
    T User.t :=
  λ users,
    (ok_or (List.find (λ user,
        bool_decide (to_lowercase (User.username user) = to_lowercase username) &&
        bool_decide (User.discriminator user = discriminator)) (hash_values users))
      ErrorType.NotFound, users).

Definition fetch_users (ids : list string) : T (list User.t) :=
  table_fetch_all ids ErrorType.NotFound.

Definition fetch_discriminators_in_use `{HashIter, Lowercase} (username : string) :
    T (list string) :=
  λ users,
    (Ok (User.discriminator <$>
         List.filter (λ user,
           bool_decide (to_lowercase (User.username user) = to_lowercase username))
           (hash_values users)), users).

(** [todo!()] in the reference driver *)
Definition fetch_mutual_user_ids (user_a user_b : string) : T (list string) := panic.
Definition fetch_mutual_channel_ids (user_a user_b : string) : T (list string) := panic.
Definition fetch_mutual_server_ids (user_a user_b : string) : T (list string) := panic.

Definition update_user `{OptionalStruct User.t PartialUser.t} (id : string)
    (partial : PartialUser.t) (remove : list FieldsUser.t) : T unit :=
  table_update id
    (λ user, apply_options (fold_left User.remove_field remove user) partial)
    ErrorType.NotFound.

Definition pull_relationship (user_id target_id : string) : T unit :=
  table_update user_id
    (λ user, match User.relations user with
             | Some relations => User.set_relations user (Some (drop_relation target_id relations))
             | None => user
             end) ErrorType.NotFound.

Definition set_relationship (user_id target_id : string)
    (relationship : RelationshipStatus.t) : T unit :=
  match relationship with
  | RelationshipStatus.User | RelationshipStatus.None => pull_relationship user_id target_id
  | _ =>
      table_update user_id
        (λ user,
          let relation := Relationship.mk target_id relationship in
          match User.relations user with
          | Some relations =>
              User.set_relations user (Some (drop_relation target_id relations ++ [relation]))
          | None => User.set_relations user (Some [relation])
          end) ErrorType.NotFound
  end.

Definition delete_user (id : string) : T unit := table_delete id ErrorType.NotFound.

Definition delete_user_private_data (id : string) : T unit := mret tt.

Definition clear_user_relationships (target_id : string) (user_ids : list string) : T unit :=
  modify (λ users,
    fold_left (λ users user_id,
      match users !! user_id with
      | Some user =>
          match User.relations user with
          | Some relations =>
              <[user_id := User.set_relations user (Some (drop_relation target_id relations))]> users
          | None => users
          end
      | None => users
      end) user_ids users).
End UsersTable.

(** ** Lemmas *)

Lemma set_relations_id u r : User.id (User.set_relations u r) = User.id u.
Proof. done. Qed.

(** The effect of writing one relation: the relation to [target] becomes [s] (or
    disappears when [s] is [None] or [User]); relations to others are kept. *)
Definition with_relation (target : string) (s : RelationshipStatus.t) (u : User.t) : User.t :=
  match s with
  | RelationshipStatus.User | RelationshipStatus.None =>
      match User.relations u with
      | Some l => User.set_relations u (Some (drop_relation target l))
      | None => u
      end
  | _ =>
      User.set_relations u
        (Some (match User.relations u with Some l => drop_relation target l | None => [] end
               ++ [Relationship.mk target s]))
  end.

Lemma set_relationship_spec user_id target_id s m :
  UsersTable.set_relationship user_id target_id s m =
  table_update user_id (with_relation target_id s) ErrorType.NotFound m.
Proof.
  unfold UsersTable.set_relationship, UsersTable.pull_relationship, table_update, with_relation.
  destruct s; destruct (m !! user_id) as [u|]; try done; by destruct (User.relations u).
Qed.

Lemma find_drop_relation_same target l :
  List.find (λ x, bool_decide (Relationship.id x = target)) (drop_relation target l) = None.
Proof.
  induction l as [|r l IH]; simpl; [done|].
  destruct (bool_decide (Relationship.id r = target)) eqn:E; simpl; [done|by rewrite E].
Qed.

Lemma find_drop_relation_other target other l : target ≠ other →
  List.find (λ x, bool_decide (Relationship.id x = other)) (drop_relation target l) =
  List.find (λ x, bool_decide (Relationship.id x = other)) l.
Proof.
  intros Hne. induction l as [|r l IH]; simpl; [done|].
  destruct (bool_decide (Relationship.id r = target)) eqn:E; simpl.
  - apply bool_decide_eq_true in E. by rewrite bool_decide_eq_false_2 by congruence.
  - by rewrite IH.
Qed.

Lemma find_app_relation target l1 l2 :
  List.find (λ x, bool_decide (Relationship.id x = target)) (l1 ++ l2) =
  match List.find (λ x, bool_decide (Relationship.id x = target)) l1 with
  | Some r => Some r
  | None => List.find (λ x, bool_decide (Relationship.id x = target)) l2
  end.
Proof.
  induction l1 as [|r l1 IH]; simpl; [done|]. by destruct (bool_decide _).
Qed.

(** The status that is stored for [s]: [User] is stored as no relation. *)
Definition stored_status (s : RelationshipStatus.t) : RelationshipStatus.t :=
  match s with RelationshipStatus.User => RelationshipStatus.None | _ => s end.

Lemma with_relation_id target s u : User.id (with_relation target s u) = User.id u.
Proof. destruct s; simpl; try done; by destruct (User.relations u). Qed.

Lemma relationship_with_set target s u : User.id u ≠ target →
  User.relationship_with (with_relation target s u) target = stored_status s.
Proof.
  intros Hne. unfold User.relationship_with. rewrite with_relation_id.
  rewrite bool_decide_eq_false_2 by done.
  destruct s; simpl; destruct (User.relations u) eqn:E; simpl; rewrite ?E;
    rewrite ?find_app_relation, ?find_drop_relation_same; simpl;
    try rewrite bool_decide_eq_true_2 by done; done.
Qed.

Lemma relationship_with_set_other target other s u : target ≠ other →
  User.relationship_with (with_relation target s u) other = User.relationship_with u other.
Proof.
  intros Hne. unfold User.relationship_with. rewrite with_relation_id.
  destruct (bool_decide (User.id u = other)); [done|].
  destruct s; simpl; destruct (User.relations u) eqn:E; simpl; rewrite ?E; try done;
    rewrite ?find_app_relation, ?find_drop_relation_other by done; simpl;
    rewrite ?(bool_decide_eq_false_2 (target = other)) by done; simpl; try done;
    by destruct (List.find _ _).
Qed.
