(* ===== verification/Servers.v ===== *)
(** * Servers, roles and members (modules [servers], [server_members], [server_bans])

    The models with their pure methods, and the three tables of the reference driver.
    The handlers that also publish events are in [ServerOps.v]. *)

From S2P Require Import Prelude Errors Permissions Files.
From stdpp Require Import base list gmap strings.
From Stdlib Require Import ZArith Lia.

(** ** Server model *)

Module Category.
Record t : Type := mk { id : string; title : string; channels : list string }.
End Category.

Module SystemMessageChannels.
Record t : Type := mk {
  user_joined : option string;
  user_left : option string;
  user_kicked : option string;
  user_banned : option string
}.

Definition insert_some (o : option string) (ids : gset string) : gset string :=
  match o with Some id => {[id]} ∪ ids | None => ids end.

Definition into_channel_ids (self : t) : gset string :=
  insert_some (user_banned self)
    (insert_some (user_kicked self)
      (insert_some (user_left self) (insert_some (user_joined self) ∅))).
End SystemMessageChannels.

Module FieldsServer.
Inductive t : Type := Description | Announcement | Categories | SystemMessages | Icon | Banner.
#[global] Instance t_eq_dec : EqDecision t.
Proof. solve_decision. Defined.
End FieldsServer.

Module FieldsRole.
Inductive t : Type := Colour | Icon.
#[global] Instance t_eq_dec : EqDecision t.
Proof. solve_decision. Defined.
End FieldsRole.

Module PartialRole.
Record t : Type := mk {
  id : option string;
  name : option string;
  permissions : option OverrideField.t;
  colour : option string;
  hoist : option bool;
  rank : option Z;
  icon : option File.t
}.
Definition default : t := mk None None None None None None None.
End PartialRole.

Module Role.
Record t : Type := mk {
  id : string;
  name : string;
  permissions : OverrideField.t;
  colour : option string;
  hoist : bool;
  rank : Z;
  icon : option File.t
}.

Definition set_rank (r : t) (rank : Z) : t :=
  mk (id r) (name r) (permissions r) (colour r) (hoist r) rank (icon r).

Definition into_optional (self : t) : PartialRole.t :=
  PartialRole.mk (Some (id self)) (Some (name self)) (Some (permissions self)) (colour self)
    (Some (hoist self)) (Some (rank self)) (icon self).

Definition remove_field (self : t) (field : FieldsRole.t) : t :=
  match field with
  | FieldsRole.Colour =>
      mk (id self) (name self) (permissions self) None (hoist self) (rank self) (icon self)
  | FieldsRole.Icon =>
      mk (id self) (name self) (permissions self) (colour self) (hoist self) (rank self) None
  end.

Definition generate_diff (self : t) (partial : PartialRole.t) (remove : list FieldsRole.t) :
    PartialRole.t :=
  PartialRole.mk None
    (diff_plain (name self) (PartialRole.name partial))
    (diff_plain (permissions self) (PartialRole.permissions partial))
    (diff_optional (colour self) (PartialRole.colour partial) FieldsRole.Colour remove)
    (diff_plain (hoist self) (PartialRole.hoist partial))
    (diff_plain (rank self) (PartialRole.rank partial))
    (diff_optional (icon self) (PartialRole.icon partial) FieldsRole.Icon remove).
End Role.

Module PartialServer.
Record t : Type := mk {
  id : option string;
  owner : option string;
  name : option string;
  description : option string;
  announcement : option string;
  channels : option (list string);
  categories : option (list Category.t);
  system_messages : option SystemMessageChannels.t;
  roles : option (gmap string Role.t);
  default_permissions : option Z;
  icon : option File.t;
  banner : option File.t;
  flags : option Z;
  nsfw : option bool;
  analytics : option bool;
  discoverable : option bool;
  admin_suspended : option bool
}.
Definition default : t :=
  mk None None None None None None None None None None None None None None None None None.
Definition of_roles (r : gmap string Role.t) : t :=
  mk None None None None None None None None (Some r) None None None None None None None None.
Definition of_channels (c : list string) : t :=
  mk None None None None None (Some c) None None None None None None None None None None None.
End PartialServer.

Module Server.
Record t : Type := mk {
  id : string;
  owner : string;
  name : string;
  description : option string;
  announcement : option string;
  channels : list string;
  categories : option (list Category.t);
  system_messages : option SystemMessageChannels.t;
  roles : gmap string Role.t;
  default_permissions : Z;
  icon : option File.t;
  banner : option File.t;
  flags : option Z;
  nsfw : bool;
  analytics : bool;
  discoverable : bool;
  admin_suspended : bool
}.

Definition set_roles (s : t) (r : gmap string Role.t) : t :=
  mk (id s) (owner s) (name s) (description s) (announcement s) (channels s) (categories s)
     (system_messages s) r (default_permissions s) (icon s) (banner s) (flags s) (nsfw s)
     (analytics s) (discoverable s) (admin_suspended s).

Definition set_channels (s : t) (c : list string) : t :=
  mk (id s) (owner s) (name s) (description s) (announcement s) c (categories s)
     (system_messages s) (roles s) (default_permissions s) (icon s) (banner s) (flags s)
     (nsfw s) (analytics s) (discoverable s) (admin_suspended s).

Definition remove_field (s : t) (field : FieldsServer.t) : t :=
  let keep {A} (f : FieldsServer.t) (o : option A) : option A :=
    if bool_decide (f = field) then None else o in
  mk (id s) (owner s) (name s) (keep FieldsServer.Description (description s))
     (keep FieldsServer.Announcement (announcement s)) (channels s)
     (keep FieldsServer.Categories (categories s))
     (keep FieldsServer.SystemMessages (system_messages s)) (roles s)
     (default_permissions s) (keep FieldsServer.Icon (icon s))
     (keep FieldsServer.Banner (banner s)) (flags s) (nsfw s) (analytics s)
     (discoverable s) (admin_suspended s).

Definition generate_diff (s : t) (partial : PartialServer.t) (remove : list FieldsServer.t) :
    PartialServer.t :=
  PartialServer.mk None
    (diff_plain (owner s) (PartialServer.owner partial))
    (diff_plain (name s) (PartialServer.name partial))
    (diff_optional (description s) (PartialServer.description partial)
       FieldsServer.Description remove)
    (diff_optional (announcement s) (PartialServer.announcement partial)
       FieldsServer.Announcement remove)
    None
    (diff_optional (categories s) (PartialServer.categories partial)
       FieldsServer.Categories remove)
    (diff_optional (system_messages s) (PartialServer.system_messages partial)
       FieldsServer.SystemMessages remove)
    (diff_plain (roles s) (PartialServer.roles partial))
    (diff_plain (default_permissions s) (PartialServer.default_permissions partial))
    (diff_optional (icon s) (PartialServer.icon partial) FieldsServer.Icon remove)
    (diff_optional (banner s) (PartialServer.banner partial) FieldsServer.Banner remove)
    None
    (diff_plain (nsfw s) (PartialServer.nsfw partial))
    (diff_plain (analytics s) (PartialServer.analytics partial))
    (diff_plain (discoverable s) (PartialServer.discoverable partial))
    None.

(** Ordered roles list *)
Definition ordered_roles `{HashIter} (s : t) : list (string * Role.t) :=
  sort_asc (λ r, Role.rank r.2) (hash_iter (roles s)).
End Server.

(** ** Member model *)

Module MemberCompositeKey.
Record t : Type := mk { server : string; user : string }.
#[global] Instance t_eq_dec : EqDecision t.
Proof. solve_decision. Defined.
#[global] Instance t_countable : Countable t.
Proof.
  apply (inj_countable' (λ k, (server k, user k)) (λ p, mk p.1 p.2)). by intros [].
Defined.
End MemberCompositeKey.

Module FieldsMember.
Inductive t : Type :=
| Nickname | Pronouns | Avatar | Roles | Timeout | CanReceive | CanPublish | JoinedAt
| VoiceChannel.
#[global] Instance t_eq_dec : EqDecision t.
Proof. solve_decision. Defined.
End FieldsMember.

Module RemovalIntention.
Inductive t : Type := Leave | Kick | Ban.
End RemovalIntention.

Module PartialMember.
Record t : Type := mk {
  id : option MemberCompositeKey.t;
  joined_at : option Z;
  nickname : option string;
  pronouns : option string;
  avatar : option File.t;
  roles : option (list string);
  timeout : option Z;
  can_publish : option bool;
  can_receive : option bool
}.
Definition default : t := mk None None None None None None None None None.
End PartialMember.

Module Member.
Record t : Type := mk {
  id : MemberCompositeKey.t;
  joined_at : Z;
  nickname : option string;
  pronouns : option string;
  avatar : option File.t;
  roles : list string;
  timeout : option Z;
  can_publish : bool;
  can_receive : bool
}.

(** [impl Default for Member], with the id filled in as [Member::create] does; [now] is
    the time it reads. *)
Definition new (id : MemberCompositeKey.t) (now : Z) : t :=
  mk id now None None None [] None true true.

Definition remove_field (m : t) (field : FieldsMember.t) : t :=
  match field with
  | FieldsMember.JoinedAt => m
  | FieldsMember.Avatar =>
      mk (id m) (joined_at m) (nickname m) (pronouns m) None (roles m) (timeout m)
         (can_publish m) (can_receive m)
  | FieldsMember.Nickname =>
      mk (id m) (joined_at m) None (pronouns m) (avatar m) (roles m) (timeout m)
         (can_publish m) (can_receive m)
  | FieldsMember.Pronouns =>
      mk (id m) (joined_at m) (nickname m) None (avatar m) (roles m) (timeout m)
         (can_publish m) (can_receive m)
  | FieldsMember.Roles =>
      mk (id m) (joined_at m) (nickname m) (pronouns m) (avatar m) [] (timeout m)
         (can_publish m) (can_receive m)
  | FieldsMember.Timeout =>
      mk (id m) (joined_at m) (nickname m) (pronouns m) (avatar m) (roles m) None
         (can_publish m) (can_receive m)
  | FieldsMember.CanReceive =>
      mk (id m) (joined_at m) (nickname m) (pronouns m) (avatar m) (roles m) (timeout m)
         (can_publish m) true
  | FieldsMember.CanPublish =>
      mk (id m) (joined_at m) (nickname m) (pronouns m) (avatar m) (roles m) (timeout m)
         true (can_receive m)
  | FieldsMember.VoiceChannel => m
  end.

Definition generate_diff (m : t) (partial : PartialMember.t) (remove : list FieldsMember.t) :
    PartialMember.t :=
  PartialMember.mk None None
    (diff_optional (nickname m) (PartialMember.nickname partial) FieldsMember.Nickname remove)
    (diff_optional (pronouns m) (PartialMember.pronouns partial) FieldsMember.Pronouns remove)
    (diff_optional (avatar m) (PartialMember.avatar partial) FieldsMember.Avatar remove)
    (diff_default (roles m) (PartialMember.roles partial) FieldsMember.Roles remove)
    (diff_optional (timeout m) (PartialMember.timeout partial) FieldsMember.Timeout remove)
    (diff_default (can_publish m) (PartialMember.can_publish partial)
       FieldsMember.CanPublish remove)
    (diff_default (can_receive m) (PartialMember.can_receive partial)
       FieldsMember.CanReceive remove).

Definition i64_max : Z := (2 ^ 63 - 1)%Z.

(** Get this user's current ranking *)
Definition get_ranking (m : t) (server : Server.t) : Z :=
  fold_left (λ value role,
    match Server.roles server !! role with
    | Some role => if (Role.rank role <? value)%Z then Role.rank role else value
    | None => value
    end) (roles m) i64_max.

(** Check whether this member is in timeout; [now] is the time it reads *)
Definition in_timeout (m : t) (now : Z) : bool :=
  match timeout m with
  | Some timeout => (now <? timeout)%Z
  | None => false
  end.
End Member.

Module ServerBan.
Record t : Type := mk { id : MemberCompositeKey.t; reason : option string }.
End ServerBan.

(** ** The servers table of the reference driver *)

Module ServersTable.
Abbreviation table := (gmap string Server.t).
Abbreviation T := (M ErrorType.t table).

Definition insert_server (server : Server.t) : T unit :=
  table_insert (Server.id server) server (create_database_error "insert" "server").
Definition fetch_server (id : string) : T Server.t := table_fetch id ErrorType.NotFound.
Definition fetch_servers (ids : list string) : T (list Server.t) :=
  table_fetch_all ids ErrorType.NotFound.
Definition fetch_owned_servers `{HashIter} (user_id : string) : T (list Server.t) :=
  table_select (λ server, bool_decide (Server.owner server = user_id)).
Definition update_server `{OptionalStruct Server.t PartialServer.t} (id : string)
    (partial : PartialServer.t) (remove : list FieldsServer.t) : T unit :=
  table_update id
    (λ server, apply_options (fold_left Server.remove_field remove server) partial)
    ErrorType.NotFound.
Definition delete_server (id : string) : T unit := table_delete id ErrorType.NotFound.
Definition insert_role (server_id : string) (role : Role.t) : T unit :=
  table_update server_id
    (λ server, Server.set_roles server (<[Role.id role := role]> (Server.roles server)))
    ErrorType.NotFound.
Definition update_role `{OptionalStruct Role.t PartialRole.t} (server_id role_id : string)
    (partial : PartialRole.t) (remove : list FieldsRole.t) : T unit :=
  λ servers,
    match servers !! server_id with
    | Some server =>
        match Server.roles server !! role_id with
        | Some role =>
            let role := apply_options (fold_left Role.remove_field remove role) partial in
            (Ok tt, <[server_id :=
                      Server.set_roles server (<[role_id := role]> (Server.roles server))]> servers)
        | None => (Err ErrorType.NotFound, servers)
        end
    | None => (Err ErrorType.NotFound, servers)
    end.
Definition delete_role (server_id role_id : string) : T unit :=
  λ servers,
    match servers !! server_id with
    | Some server =>
        match Server.roles server !! role_id with
        | Some _ =>
            (Ok tt, <[server_id :=
                      Server.set_roles server (delete role_id (Server.roles server))]> servers)
        | None => (Err ErrorType.NotFound, servers)
        end
    | None => (Err ErrorType.NotFound, servers)
    end.
End ServersTable.

(** ** The members table of the reference driver *)

Module MembersTable.
Abbreviation table := (gmap MemberCompositeKey.t Member.t).
Abbreviation T := (M ErrorType.t table).

Definition insert_or_merge_member (member : Member.t) : T (option Member.t) :=
  table_insert (Member.id member) member (create_database_error "insert" "member") ;;
  mret None.
Definition fetch_member (server_id user_id : string) : T Member.t :=
  table_fetch (MemberCompositeKey.mk server_id user_id) ErrorType.NotFound.
Definition fetch_all_members `{HashIter} (server_id : string) : T (list Member.t) :=
  table_select (λ m, bool_decide (MemberCompositeKey.server (Member.id m) = server_id)).
Definition has_any_role (roles : list string) (m : Member.t) : bool :=
  negb (bool_decide (List.filter (λ p, bool_decide (p ∈ roles)) (Member.roles m) = [])).
Definition fetch_all_members_with_roles `{HashIter} (server_id : string) (roles : list string) :
    T (list Member.t) :=
  table_select (λ m, bool_decide (MemberCompositeKey.server (Member.id m) = server_id) &&
                     has_any_role roles m).
Definition fetch_all_memberships `{HashIter} (user_id : string) : T (list Member.t) :=
  table_select (λ m, bool_decide (MemberCompositeKey.user (Member.id m) = user_id)).
Definition fetch_members (server_id : string) (ids : list string) : T (list Member.t) :=
  λ members, (Ok (omap (λ id, members !! MemberCompositeKey.mk server_id id) ids), members).
Definition fetch_member_count `{HashIter} (server_id : string) : T Z :=
  ms ← fetch_all_members server_id; mret (Z.of_nat (length ms)).
Definition fetch_server_count `{HashIter} (user_id : string) : T Z :=
  ms ← fetch_all_memberships user_id; mret (Z.of_nat (length ms)).
Definition update_member `{OptionalStruct Member.t PartialMember.t}
    (id : MemberCompositeKey.t) (partial : PartialMember.t)
    (remove : list FieldsMember.t) : T unit :=
  table_update id
    (λ member, apply_options (fold_left Member.remove_field remove member) partial)
    ErrorType.NotFound.
(** A member in timeout is kept by the other driver; this one panics. *)
Definition soft_delete_member (now : Z) (id : MemberCompositeKey.t) : T unit :=
  λ members,
    match members !! id with
    | Some member =>
        if Member.in_timeout member now then (Panicked, members)
        else (Ok tt, delete id members)
    | None => (Err ErrorType.NotFound, members)
    end.
Definition force_delete_member (id : MemberCompositeKey.t) : T unit :=
  table_delete id ErrorType.NotFound.
Definition remove_dangling_members : T unit := panic.
Definition clear_memberships (user_id : string) : T unit :=
  table_retain (λ _ m, negb (bool_decide (MemberCompositeKey.user (Member.id m) = user_id))).
End MembersTable.

(** ** The bans table of the reference driver *)

Module BansTable.
Abbreviation table := (gmap MemberCompositeKey.t ServerBan.t).
Abbreviation T := (M ErrorType.t table).

Definition insert_ban (ban : ServerBan.t) : T unit :=
  table_insert (ServerBan.id ban) ban (create_database_error "insert" "ban").
Definition fetch_ban (server_id user_id : string) : T ServerBan.t :=
  table_fetch (MemberCompositeKey.mk server_id user_id) ErrorType.NotFound.
Definition fetch_bans `{HashIter} (server_id : string) : T (list ServerBan.t) :=
  table_select (λ b, bool_decide (MemberCompositeKey.server (ServerBan.id b) = server_id)).
Definition delete_ban (id : MemberCompositeKey.t) : T unit :=
  table_delete id ErrorType.NotFound.
End BansTable.
