(* ===== verification/Channels.v ===== *)
(** * Channels (module [channels] of [revolt-database])

    The channel model of [models/channels/model.rs] with its pure methods, and the
    channels table of the reference driver ([models/channels/ops/reference.rs]). The
    handlers that also publish events and send system messages are in [Groups.v]. *)

From S2P Require Import Prelude Errors Permissions Files.
From stdpp Require Import base list gmap strings.
From Stdlib Require Import ZArith.

Module VoiceInformation.
Record t : Type := mk { max_users : option Z }.
Definition default : t := mk None.
End VoiceInformation.

Module PartialChannel.
Record t : Type := mk {
  name : option string;
  owner : option string;
  description : option string;
  icon : option File.t;
  nsfw : option bool;
  active : option bool;
  permissions : option Z;
  role_permissions : option (gmap string OverrideField.t);
  default_permissions : option OverrideField.t;
  last_message_id : option string;
  voice : option VoiceInformation.t;
  slowmode : option Z
}.
Definition default : t := mk None None None None None None None None None None None None.
Definition of_owner (o : string) : t :=
  mk None (Some o) None None None None None None None None None None.
Definition of_slowmode (s : Z) : t :=
  mk None None None None None None None None None None None (Some s).
Definition of_role_permissions (r : gmap string OverrideField.t) : t :=
  mk None None None None None None None (Some r) None None None None.
End PartialChannel.

Module FieldsChannel.
Inductive t : Type := Description | Icon | DefaultPermissions | Voice | Slowmode.
#[global] Instance t_eq_dec : EqDecision t.
Proof. solve_decision. Defined.
End FieldsChannel.

Module SavedMessages.
Record t : Type := mk { id : string; user : string }.
End SavedMessages.

Module DirectMessage.
Record t : Type := mk {
  id : string;
  active : bool;
  recipients : list string;
  last_message_id : option string
}.
End DirectMessage.

Module Group.
Record t : Type := mk {
  id : string;
  name : string;
  owner : string;
  description : option string;
  recipients : list string;
  icon : option File.t;
  last_message_id : option string;
  permissions : option Z;
  nsfw : bool
}.
Definition set_recipients (g : t) (r : list string) : t :=
  mk (id g) (name g) (owner g) (description g) r (icon g) (last_message_id g)
     (permissions g) (nsfw g).
End Group.

Module TextChannel.
Record t : Type := mk {
  id : string;
  server : string;
  name : string;
  description : option string;
  icon : option File.t;
  last_message_id : option string;
  default_permissions : option OverrideField.t;
  role_permissions : gmap string OverrideField.t;
  nsfw : bool;
  voice : option VoiceInformation.t;
  slowmode : option Z;
  forum : option string
}.
Definition set_role_permissions (c : t) (r : gmap string OverrideField.t) : t :=
  mk (id c) (server c) (name c) (description c) (icon c) (last_message_id c)
     (default_permissions c) r (nsfw c) (voice c) (slowmode c) (forum c).
End TextChannel.

Module Channel.
Inductive t : Type :=
| SavedMessages (c : SavedMessages.t)
| DirectMessage (c : DirectMessage.t)
| Group (c : Group.t)
| TextChannel (c : TextChannel.t).

Definition is_direct_dm (self : t) : bool :=
  match self with DirectMessage _ => true | _ => false end.

(** Check whether has a user as a recipient *)
Definition contains_user (self : t) (user_id : string) : bool :=
  match self with
  | Group c => existsb (λ r, bool_decide (r = user_id)) (Group.recipients c)
  | DirectMessage c => existsb (λ r, bool_decide (r = user_id)) (DirectMessage.recipients c)
  | SavedMessages c => bool_decide (SavedMessages.user c = user_id)
  | TextChannel _ => false
  end.

(** Get list of recipients *)
Definition users (self : t) : Result (list string) :=
  match self with
  | Group c => Ok (Group.recipients c)
  | DirectMessage c => Ok (DirectMessage.recipients c)
  | _ => Err ErrorType.NotFound
  end.

Definition id (self : t) : string :=
  match self with
  | DirectMessage c => DirectMessage.id c
  | Group c => Group.id c
  | SavedMessages c => SavedMessages.id c
  | TextChannel c => TextChannel.id c
  end.

Definition server (self : t) : option string :=
  match self with TextChannel c => Some (TextChannel.server c) | _ => None end.

(** Gets this channel's voice information *)
Definition voice (self : t) : option VoiceInformation.t :=
  match self with
  | DirectMessage _ | Group _ => Some VoiceInformation.default
  | TextChannel c => TextChannel.voice c
  | SavedMessages _ => None
  end.

(** Remove a field from Channel object *)
Definition remove_field (self : t) (field : FieldsChannel.t) : t :=
  match field, self with
  | FieldsChannel.Description, Group c =>
      Group (Group.mk (Group.id c) (Group.name c) (Group.owner c) None (Group.recipients c)
               (Group.icon c) (Group.last_message_id c) (Group.permissions c) (Group.nsfw c))
  | FieldsChannel.Icon, Group c =>
      Group (Group.mk (Group.id c) (Group.name c) (Group.owner c) (Group.description c)
               (Group.recipients c) None (Group.last_message_id c) (Group.permissions c)
               (Group.nsfw c))
  | field, TextChannel c =>
      let keep {A} (f : FieldsChannel.t) (o : option A) : option A :=
        if bool_decide (f = field) then None else o in
      TextChannel (TextChannel.mk (TextChannel.id c) (TextChannel.server c) (TextChannel.name c)
        (keep FieldsChannel.Description (TextChannel.description c))
        (keep FieldsChannel.Icon (TextChannel.icon c)) (TextChannel.last_message_id c)
        (keep FieldsChannel.DefaultPermissions (TextChannel.default_permissions c))
        (TextChannel.role_permissions c) (TextChannel.nsfw c)
        (keep FieldsChannel.Voice (TextChannel.voice c))
        (keep FieldsChannel.Slowmode (TextChannel.slowmode c)) (TextChannel.forum c))
  | _, _ => self
  end.

(** Remove multiple fields from Channel object *)
Definition remove_fields (self : t) (partial : list FieldsChannel.t) : t :=
  fold_left remove_field partial self.

(** [if let Some(v) = partial { *field = v }] and
    [if let Some(v) = partial { field.replace(v) }] *)
Definition set {A} (field : A) (partial : option A) : A := default field partial.
Definition replace {A} (field partial : option A) : option A :=
  match partial with Some v => Some v | None => field end.

(** Apply partial channel to channel *)
Definition apply_options (self : t) (partial : PartialChannel.t) : t :=
  match self with
  | SavedMessages c => SavedMessages c
  | DirectMessage c =>
      DirectMessage (DirectMessage.mk (DirectMessage.id c)
        (set (DirectMessage.active c) (PartialChannel.active partial))
        (DirectMessage.recipients c) (DirectMessage.last_message_id c))
  | Group c =>
      Group (Group.mk (Group.id c)
        (set (Group.name c) (PartialChannel.name partial))
        (set (Group.owner c) (PartialChannel.owner partial))
        (replace (Group.description c) (PartialChannel.description partial))
        (Group.recipients c)
        (replace (Group.icon c) (PartialChannel.icon partial))
        (Group.last_message_id c)
        (replace (Group.permissions c) (PartialChannel.permissions partial))
        (set (Group.nsfw c) (PartialChannel.nsfw partial)))
  | TextChannel c =>
      TextChannel (TextChannel.mk (TextChannel.id c) (TextChannel.server c)
        (set (TextChannel.name c) (PartialChannel.name partial))
        (replace (TextChannel.description c) (PartialChannel.description partial))
        (replace (TextChannel.icon c) (PartialChannel.icon partial))
        (TextChannel.last_message_id c)
        (replace (TextChannel.default_permissions c) (PartialChannel.default_permissions partial))
        (set (TextChannel.role_permissions c) (PartialChannel.role_permissions partial))
        (set (TextChannel.nsfw c) (PartialChannel.nsfw partial))
        (replace (TextChannel.voice c) (PartialChannel.voice partial))
        (TextChannel.slowmode c) (TextChannel.forum c))
  end.

(** Generates a PartialChannel containing the data which has changed in an update *)
Definition generate_diff (self : t) (partial : PartialChannel.t)
    (remove : list FieldsChannel.t) : PartialChannel.t :=
  let when_some {A B} (o : option A) (before : option B) : option B :=
    if bool_decide (is_Some o) then before else None in
  match self with
  | SavedMessages _ => PartialChannel.default
  | DirectMessage c =>
      PartialChannel.mk None None None None None
        (when_some (PartialChannel.active partial) (Some (DirectMessage.active c)))
        None None None
        (when_some (PartialChannel.last_message_id partial) (DirectMessage.last_message_id c))
        None None
  | Group c =>
      PartialChannel.mk
        (when_some (PartialChannel.name partial) (Some (Group.name c)))
        (when_some (PartialChannel.owner partial) (Some (Group.owner c)))
        (diff_optional (Group.description c) (PartialChannel.description partial)
           FieldsChannel.Description remove)
        (diff_optional (Group.icon c) (PartialChannel.icon partial) FieldsChannel.Icon remove)
        (when_some (PartialChannel.nsfw partial) (Some (Group.nsfw c)))
        None
        (when_some (PartialChannel.permissions partial) (Group.permissions c))
        None None
        (when_some (PartialChannel.last_message_id partial) (Group.last_message_id c))
        None None
  | TextChannel c =>
      PartialChannel.mk
        (when_some (PartialChannel.name partial) (Some (TextChannel.name c)))
        None
        (diff_optional (TextChannel.description c) (PartialChannel.description partial)
           FieldsChannel.Description remove)
        (diff_optional (TextChannel.icon c) (PartialChannel.icon partial)
           FieldsChannel.Icon remove)
        (when_some (PartialChannel.nsfw partial) (Some (TextChannel.nsfw c)))
        None None
        (when_some (PartialChannel.role_permissions partial)
           (Some (TextChannel.role_permissions c)))
        (diff_optional (TextChannel.default_permissions c)
           (PartialChannel.default_permissions partial) FieldsChannel.DefaultPermissions remove)
        (when_some (PartialChannel.last_message_id partial) (TextChannel.last_message_id c))
        (diff_optional (TextChannel.voice c) (PartialChannel.voice partial)
           FieldsChannel.Voice remove)
        (when_some (PartialChannel.slowmode partial) (TextChannel.slowmode c))
  end.
End Channel.

(** ** The channels table of the reference driver *)

Module ChannelsTable.
Abbreviation table := (gmap string Channel.t).
Abbreviation T := (M ErrorType.t table).

Definition insert_channel (channel : Channel.t) : T unit :=
  table_insert (Channel.id channel) channel (create_database_error "insert" "channel").
Definition fetch_channel (channel_id : string) : T Channel.t :=
  table_fetch channel_id ErrorType.NotFound.
Definition fetch_channels (ids : list string) : T (list Channel.t) :=
  table_fetch_all ids ErrorType.NotFound.
Definition find_direct_messages `{HashIter} (user_id : string) : T (list Channel.t) :=
  table_select (λ channel, Channel.contains_user channel user_id).
Definition find_group_message_channels `{HashIter} (user_id : string) : T (list Channel.t) :=
  table_select (λ channel,
    match channel with
    | Channel.Group c => existsb (λ r, bool_decide (r = user_id)) (Group.recipients c)
    | _ => false
    end).
Definition find_saved_messages_channel (user_id : string) : T Channel.t :=
  table_fetch user_id (create_database_error "fetch" "channel").
Definition find_direct_message_channel `{HashIter} (user_a user_b : string) : T Channel.t :=
  λ channels,
    (ok_or (List.find (λ data,
        Channel.contains_user data user_a && Channel.contains_user data user_b)
        (hash_values channels)) ErrorType.NotFound, channels).
Definition add_user_to_group (channel_id user_id : string) : T unit :=
  λ channels,
    match channels !! channel_id with
    | Some (Channel.Group c) =>
        (Ok tt, <[channel_id :=
          Channel.Group (Group.set_recipients c (Group.recipients c ++ [user_id]))]> channels)
    | _ => (Err ErrorType.InvalidOperation, channels)
    end.
Definition set_channel_role_permission (channel_id role_id : string)
    (permissions : OverrideField.t) : T unit :=
  λ channels,
    match channels !! channel_id with
    | Some (Channel.TextChannel c) =>
        match TextChannel.role_permissions c !! role_id with
        | Some _ =>
            (Ok tt, <[channel_id :=
              Channel.TextChannel (TextChannel.set_role_permissions c
                (<[role_id := permissions]>
                  (delete role_id (TextChannel.role_permissions c))))]> channels)
        | None => (Err ErrorType.NotFound, channels)
        end
    | _ => (Err ErrorType.NotFound, channels)
    end.
Definition update_channel (id : string) (channel : PartialChannel.t)
    (remove : list FieldsChannel.t) : T unit :=
  table_update id
    (λ channel_data, Channel.remove_fields (Channel.apply_options channel_data channel) remove)
    ErrorType.NotFound.

(** [recipients.remove(index)] at the first position of [user] *)
Fixpoint remove_first (user : string) (l : list string) : list string :=
  match l with
  | [] => []
  | r :: l' => if bool_decide (r = user) then l' else r :: remove_first user l'
  end.

Definition remove_user_from_group (channel user : string) : T unit :=
  λ channels,
    match channels !! channel with
    | Some (Channel.Group c) =>
        if existsb (λ r, bool_decide (r = user)) (Group.recipients c)
        then (Ok tt, <[channel := Channel.Group
               (Group.set_recipients c (remove_first user (Group.recipients c)))]> channels)
        else (Err ErrorType.NotFound, channels)
    | _ => (Err ErrorType.NotFound, channels)
    end.
Definition remove_user_from_groups (channel_ids : list string) (user_id : string) : T unit :=
  modify (λ channels,
    fold_left (λ channels channel_id,
      match channels !! channel_id with
      | Some (Channel.Group c) =>
          <[channel_id := Channel.Group (Group.set_recipients c
             (List.filter (λ r, negb (bool_decide (r = user_id))) (Group.recipients c)))]> channels
      | _ => channels
      end) channel_ids channels).
Definition delete_channel (channel : Channel.t) : T unit :=
  table_delete (Channel.id channel) ErrorType.NotFound.
End ChannelsTable.

(** ** Lemmas *)

Lemma existsb_elem_of (x : string) l :
  existsb (λ r, bool_decide (r = x)) l = true ↔ x ∈ l.
Proof.
  rewrite existsb_exists, list_elem_of_In. split.
  - intros (y & Hin & Hy). apply bool_decide_eq_true in Hy as ->. done.
  - intros Hin. exists x. by rewrite bool_decide_eq_true_2.
Qed.

Lemma existsb_elem_of_false (x : string) l :
  existsb (λ r, bool_decide (r = x)) l = false ↔ x ∉ l.
Proof. rewrite <- existsb_elem_of. by destruct (existsb _ l); split. Qed.

Lemma elem_of_remove_first x y l : NoDup l →
  x ∈ ChannelsTable.remove_first y l ↔ x ∈ l ∧ x ≠ y.
Proof.
  induction 1 as [|r l Hr Hl IH]; simpl; [set_solver|].
  case_bool_decide; subst; set_solver.
Qed.

Lemma NoDup_remove_first y l : NoDup l → NoDup (ChannelsTable.remove_first y l).
Proof.
  induction 1 as [|r l Hr Hl IH]; simpl; [constructor|].
  case_bool_decide; [done|]. constructor; [|done].
  rewrite elem_of_remove_first by done. tauto.
Qed.

Lemma length_remove_first y l :
  y ∈ l → S (length (ChannelsTable.remove_first y l)) = length l.
Proof.
  induction l as [|r l IH]; simpl; [set_solver|].
  case_bool_decide; [done|]. intros Hin. simpl. f_equal. apply IH. set_solver.
Qed.
