(* ===== verification/Messages.v ===== *)
(** * Messages (module [messages] of [revolt-database])

    The message model of [models/messages/model.rs] with its pure methods and the
    messages table of the reference driver ([models/messages/ops/reference.rs]). The
    handlers that also publish events are in [MessageOps.v]. *)

From S2P Require Import Prelude Errors Permissions Files.
From stdpp Require Import base list gmap strings.
From Stdlib Require Import ZArith Lia.
From Stdlib Require String.

(** ** [indexmap]: insertion-ordered maps and sets

    A set is represented by the list of its elements in iteration order, a map by the
    list of its entries. The operations are the crate's; only what they do to
    membership is promised. *)

Definition assoc {V} (k : string) (l : list (string * V)) : option V :=
  snd <$> List.find (λ kv, bool_decide (kv.1 = k)) l.

Class IndexMaps := {
  set_insert : string → list string → list string;
  set_swap_remove : string → list string → list string;
  map_insert : ∀ {V}, string → V → list (string * V) → list (string * V);
  map_swap_remove : ∀ {V}, string → list (string * V) → list (string * V);
  elem_of_set_insert x y s : y ∈ set_insert x s ↔ y = x ∨ y ∈ s;
  elem_of_set_swap_remove x y s : NoDup s → (y ∈ set_swap_remove x s ↔ y ∈ s ∧ y ≠ x);
  set_insert_nodup x s : NoDup s → NoDup (set_insert x s);
  set_swap_remove_nodup x s : NoDup s → NoDup (set_swap_remove x s);
  assoc_map_insert {V} k k' (v : V) l :
    assoc k' (map_insert k v l) = if bool_decide (k = k') then Some v else assoc k' l;
  assoc_map_swap_remove {V} k k' (l : list (string * V)) : NoDup l.*1 →
    assoc k' (map_swap_remove k l) = if bool_decide (k = k') then None else assoc k' l;
  map_insert_nodup {V} k (v : V) l : NoDup l.*1 → NoDup (map_insert k v l).*1;
  map_swap_remove_nodup {V} k (l : list (string * V)) :
    NoDup l.*1 → NoDup (map_swap_remove k l).*1
}.

(** [map.get_mut(k)] followed by writing the value *)
Definition map_alter {V} (f : V → V) (k : string) (l : list (string * V)) : list (string * V) :=
  (λ kv, if bool_decide (kv.1 = k) then (kv.1, f kv.2) else kv) <$> l.

(** ** Message model *)

Module ImageSize.
Inductive t : Type := Large | Preview.
End ImageSize.
Module Image.
Record t : Type := mk { url : string; width : Z; height : Z; size : ImageSize.t }.
End Image.
Module Video.
Record t : Type := mk { url : string; width : Z; height : Z }.
End Video.
Module TwitchType.
Inductive t : Type := Channel | Video | Clip.
End TwitchType.
Module LightspeedType.
Inductive t : Type := Channel.
End LightspeedType.
Module BandcampType.
Inductive t : Type := Album | Track.
End BandcampType.
Module Special.
Inductive t : Type :=
| None | GIF
| YouTube (id : string) (timestamp : option string)
| Lightspeed (content_type : LightspeedType.t) (id : string)
| Twitch (content_type : TwitchType.t) (id : string)
| Spotify (content_type : string) (id : string)
| Soundcloud
| Bandcamp (content_type : BandcampType.t) (id : string)
| AppleMusic (album_id : string) (track_id : option string)
| Streamable (id : string).
End Special.
Module WebsiteMetadata.
Record t : Type := mk {
  url : option string; original_url : option string; special : option Special.t;
  title : option string; description : option string; image : option Image.t;
  video : option Video.t; site_name : option string; icon_url : option string;
  colour : option string
}.
End WebsiteMetadata.
Module Text.
Record t : Type := mk {
  icon_url : option string; url : option string; title : option string;
  description : option string; media : option File.t; colour : option string
}.
End Text.
Module Embed.
Inductive t : Type :=
| Website (m : WebsiteMetadata.t) | Image (i : Image.t) | Video (v : Video.t)
| Text (x : Text.t) | None.
End Embed.

Module PollOption.
Record t : Type := mk { id : string; text : string }.
End PollOption.
Module Poll.
Record t : Type := mk {
  question : string; options : list PollOption.t; multiple : bool; closed : bool;
  closes_at : option Z; votes : list (string * list string)
}.
End Poll.
Module MessageWebhook.
Record t : Type := mk { name : string; avatar : option string }.
End MessageWebhook.

Module SystemMessage.
Inductive t : Type :=
| Text (content : string)
| UserAdded (id by_ : string)
| UserRemove (id by_ : string)
| UserJoined (id : string)
| UserLeft (id : string)
| UserKicked (id : string)
| UserBanned (id : string)
| ChannelRenamed (name by_ : string)
| ChannelDescriptionChanged (by_ : string)
| ChannelIconChanged (by_ : string)
| ChannelOwnershipChanged (from to : string)
| MessagePinned (id by_ : string)
| MessageUnpinned (id by_ : string)
| CallStarted (by_ : string) (finished_at : option Z).
End SystemMessage.

Module Masquerade.
Record t : Type := mk { name : option string; avatar : option string; colour : option string }.
End Masquerade.

Module Interactions.
Record t : Type := mk { reactions : option (list string); restrict_reactions : bool }.
Definition default : t := mk None false.

(** Check if we can use a given emoji to react *)
Definition can_use (self : t) (emoji : string) : bool :=
  if restrict_reactions self then
    match reactions self with
    | Some reactions => bool_decide (emoji ∈ reactions)
    | None => false
    end
  else true.

(** Check if default initialisation of fields *)
Definition is_default (self : t) : bool :=
  negb (restrict_reactions self) && negb (bool_decide (is_Some (reactions self))).
End Interactions.

Module AppendMessage.
Record t : Type := mk { embeds : option (list Embed.t) }.
End AppendMessage.

Module FieldsMessage.
Inductive t : Type := Pinned.
#[global] Instance t_eq_dec : EqDecision t.
Proof. solve_decision. Defined.
End FieldsMessage.

Module MessageFilter.
Record t : Type := mk {
  channel : option string; author : option string; query : option string; pinned : option bool
}.
Definition default : t := mk None None None None.
End MessageFilter.

Module MessageSort.
Inductive t : Type := Relevance | Latest | Oldest.
End MessageSort.

Module MessageTimePeriod.
Inductive t : Type :=
| Relative (nearby : string)
| Absolute (before after : option string) (sort : option MessageSort.t).
End MessageTimePeriod.

Module MessageQuery.
Record t : Type := mk {
  limit : option Z; filter : MessageFilter.t; time_period : MessageTimePeriod.t
}.
End MessageQuery.

Module MessageFlags.
Inductive t : Type := SuppressNotifications | MentionsEveryone | MentionsOnline.
#[global] Instance t_eq_dec : EqDecision t.
Proof. solve_decision. Defined.
(** The discriminants: [flag as u32] *)
Definition as_u32 (f : t) : Z :=
  match f with SuppressNotifications => 1 | MentionsEveryone => 2 | MentionsOnline => 3 end.
End MessageFlags.

Module MessageFlagsValue.
(** [struct MessageFlagsValue(pub u32)] *)
Record t : Type := mk { value : Z }.

Definition has_value (self : t) (bit : Z) : bool :=
  let mask := Z.shiftl 1 bit in (Z.land (value self) mask =? mask)%Z.
Definition has (self : t) (flag : MessageFlags.t) : bool :=
  has_value self (MessageFlags.as_u32 flag).
Definition set_value (self : t) (bit : Z) (toggle : bool) : t :=
  if toggle then mk (Z.lor (value self) (Z.shiftl 1 bit))
  else mk (Z.land (value self) (Z.ldiff (Z.ones 32) (Z.shiftl 1 bit))).
Definition set (self : t) (flag : MessageFlags.t) (toggle : bool) : t :=
  set_value self (MessageFlags.as_u32 flag) toggle.
End MessageFlagsValue.

Module Message.
Record t : Type := mk {
  id : string;
  nonce : option string;
  channel : string;
  author : string;
  webhook : option MessageWebhook.t;
  content : option string;
  system : option SystemMessage.t;
  attachments : option (list File.t);
  edited : option Z;
  embeds : option (list Embed.t);
  mentions : option (list string);
  role_mentions : option (list string);
  replies : option (list string);
  reactions : list (string * list string);
  interactions : Interactions.t;
  poll : option Poll.t;
  masquerade : option Masquerade.t;
  pinned : option bool;
  flags : option Z
}.

(** [impl Default for Message] *)
Definition default : t :=
  mk "" None "" "" None None None None None None None None None [] Interactions.default
     None None None None.

Definition set_embeds (m : t) (e : option (list Embed.t)) : t :=
  mk (id m) (nonce m) (channel m) (author m) (webhook m) (content m) (system m)
     (attachments m) (edited m) e (mentions m) (role_mentions m) (replies m) (reactions m)
     (interactions m) (poll m) (masquerade m) (pinned m) (flags m).
Definition set_reactions (m : t) (r : list (string * list string)) : t :=
  mk (id m) (nonce m) (channel m) (author m) (webhook m) (content m) (system m)
     (attachments m) (edited m) (embeds m) (mentions m) (role_mentions m) (replies m) r
     (interactions m) (poll m) (masquerade m) (pinned m) (flags m).

Definition remove_field (m : t) (field : FieldsMessage.t) : t :=
  match field with
  | FieldsMessage.Pinned =>
      mk (id m) (nonce m) (channel m) (author m) (webhook m) (content m) (system m)
         (attachments m) (edited m) (embeds m) (mentions m) (role_mentions m) (replies m)
         (reactions m) (interactions m) (poll m) (masquerade m) None (flags m)
  end.

(** Whether this message has suppressed notifications *)
Definition has_suppressed_notifications (m : t) : bool :=
  match flags m with
  | Some flags =>
      (Z.land flags (MessageFlags.as_u32 MessageFlags.SuppressNotifications) =?
       MessageFlags.as_u32 MessageFlags.SuppressNotifications)%Z
  | None => false
  end.

Definition contains_mass_push_mention (m : t) : bool :=
  let ping := match flags m with
              | Some flags =>
                  MessageFlagsValue.has (MessageFlagsValue.mk flags) MessageFlags.MentionsEveryone
              | None => false
              end in
  ping || bool_decide (is_Some (role_mentions m)).

(** Validate the sum of content of a message is under threshold; [embeds] are the
    descriptions of the sendable embeds. *)
Definition validate_sum (content : option string) (embeds : list (option string))
    (max_length : Z) : Result unit :=
  let running_total :=
    fold_left (λ total desc,
      match desc with Some d => total + Z.of_nat (String.length d) | None => total end)%Z
      embeds
      (match content with Some c => Z.of_nat (String.length c) | None => 0 end)%Z in
  if (running_total <=? max_length)%Z then Ok tt else Err ErrorType.PayloadTooLarge.
End Message.

(** The first step of [Message::create_from_api]: the flags of the request, read as
    suppress, everyone, online. [not_a_bot] says that the sender is a user who is not a
    bot. *)
Definition request_flags (flags : option Z) (allow_mentions not_a_bot : bool) :
    Result (bool * bool * bool) :=
  match flags with
  | Some raw_flags =>
      if (raw_flags >? 7)%Z then Err ErrorType.InvalidProperty else
      let flags := MessageFlagsValue.mk raw_flags in
      let suppress_notifications := MessageFlagsValue.has flags MessageFlags.SuppressNotifications in
      let mentions_everyone :=
        allow_mentions && MessageFlagsValue.has flags MessageFlags.MentionsEveryone in
      let mentions_online :=
        allow_mentions && MessageFlagsValue.has flags MessageFlags.MentionsOnline in
      if not_a_bot && (mentions_everyone || mentions_online) then Err ErrorType.IsNotBot else
      if mentions_everyone && mentions_online then Err ErrorType.InvalidFlagValue else
      Ok (suppress_notifications, mentions_everyone, mentions_online)
  | None => Ok (false, false, false)
  end.

(** The last step: the flags stored in the message *)
Definition final_flags (suppress_notifications mentions_everyone mentions_online : bool) : Z :=
  MessageFlagsValue.value
    (MessageFlagsValue.set
      (MessageFlagsValue.set
        (MessageFlagsValue.set (MessageFlagsValue.mk 0)
          MessageFlags.SuppressNotifications suppress_notifications)
        MessageFlags.MentionsEveryone mentions_everyone)
      MessageFlags.MentionsOnline mentions_online).

Module PartialMessage.
Record t : Type := mk {
  id : option string; nonce : option string; channel : option string;
  author : option string; webhook : option MessageWebhook.t; content : option string;
  system : option SystemMessage.t; attachments : option (list File.t); edited : option Z;
  embeds : option (list Embed.t); mentions : option (list string);
  role_mentions : option (list string); replies : option (list string);
  reactions : option (list (string * list string)); interactions : option Interactions.t;
  poll : option Poll.t; masquerade : option Masquerade.t; pinned : option bool;
  flags : option Z
}.
End PartialMessage.

(** [SystemMessage::into_message]; [ulid] is the id [Ulid::new] returns *)
Definition into_message (system : SystemMessage.t) (channel ulid : string) : Message.t :=
  Message.mk ulid None channel "00000000000000000000000000" None None (Some system) None None
    None None None None [] Interactions.default None None None None.

(** ** The messages table of the reference driver *)

(** [str::contains] with a string pattern *)
Definition str_contains (haystack needle : string) : bool :=
  match String.index 0 needle haystack with Some _ => true | None => false end.

Module MessagesTable.
Abbreviation table := (gmap string Message.t).
Abbreviation T := (M ErrorType.t table).

Definition insert_message (message : Message.t) : T unit :=
  table_insert (Message.id message) message (create_database_error "insert" "message").
Definition fetch_message (id : string) : T Message.t := table_fetch id ErrorType.NotFound.

(** The closure [fetch_messages] filters with *)
Definition message_matches `{Lowercase} (filter : MessageFilter.t) (message : Message.t) : bool :=
  match MessageFilter.channel filter with
  | Some channel => bool_decide (Message.channel message = channel)
  | None => true
  end &&
  match MessageFilter.author filter with
  | Some author => bool_decide (Message.author message = author)
  | None => true
  end &&
  match MessageFilter.query filter with
  | Some query =>
      match Message.content message with
      | Some content => str_contains (to_lowercase content) query
      | None => false
      end
  | None => true
  end &&
  match MessageFilter.pinned filter with
  | Some pinned =>
      negb (bool_decide (from_option id false (Message.pinned message) = pinned))
  | None => true
  end.

Definition fetch_messages `{HashIter, Lowercase} (query : MessageQuery.t) : T (list Message.t) :=
  table_select (message_matches (MessageQuery.filter query)).

Definition fetch_messages_by_id (ids : list string) : T (list Message.t) :=
  table_fetch_all ids ErrorType.NotFound.

Definition update_message `{OptionalStruct Message.t PartialMessage.t} (id : string)
    (message : PartialMessage.t) (remove : list FieldsMessage.t) : T unit :=
  table_update id
    (λ message_data, fold_left Message.remove_field remove (apply_options message_data message))
    ErrorType.NotFound.

Definition append_message (id : string) (append : AppendMessage.t) : T unit :=
  table_update id
    (λ message_data,
      match AppendMessage.embeds append with
      | Some (_ :: _ as embeds) =>
          match Message.embeds message_data with
          | Some embeds_data => Message.set_embeds message_data (Some (embeds_data ++ embeds))
          | None => Message.set_embeds message_data (Some embeds)
          end
      | _ => message_data
      end) ErrorType.NotFound.

Definition add_reaction `{IndexMaps} (id emoji user : string) : T unit :=
  table_update id
    (λ message,
      match assoc emoji (Message.reactions message) with
      | Some _ => Message.set_reactions message
                    (map_alter (set_insert user) emoji (Message.reactions message))
      | None => Message.set_reactions message
                  (map_insert emoji (set_insert user []) (Message.reactions message))
      end) ErrorType.NotFound.

Definition remove_reaction `{IndexMaps} (id emoji user : string) : T unit :=
  table_update id
    (λ message,
      match assoc emoji (Message.reactions message) with
      | Some _ => Message.set_reactions message
                    (map_alter (set_swap_remove user) emoji (Message.reactions message))
      | None => message
      end) ErrorType.NotFound.

Definition clear_reaction `{IndexMaps} (id emoji : string) : T unit :=
  table_update id
    (λ message, Message.set_reactions message
                  (map_swap_remove emoji (Message.reactions message)))
    ErrorType.NotFound.

Definition delete_message (id : string) : T unit := table_delete id ErrorType.NotFound.

Definition delete_messages (channel : string) (ids : list string) : T unit :=
  table_retain (λ id message,
    negb (bool_decide (Message.channel message = channel)) && negb (bool_decide (id ∈ ids))).

Definition delete_messages_by_user (user_id : string) : T unit :=
  table_retain (λ _ message, negb (bool_decide (Message.author message = user_id))).
End MessagesTable.

(** ** Lemmas *)

Lemma assoc_map_alter {V} (f : V → V) k k' l :
  assoc k' (map_alter f k l) = (if bool_decide (k = k') then f else λ v, v) <$> assoc k' l.
Proof.
  unfold assoc, map_alter. induction l as [|[k1 v1] l IH]; simpl; [done|].
  repeat case_bool_decide; simplify_eq/=; try done.
  all: repeat case_bool_decide; simplify_eq/=; done.
Qed.

Lemma assoc_is_Some {V} k (l : list (string * V)) : is_Some (assoc k l) ↔ k ∈ l.*1.
Proof.
  unfold assoc. induction l as [|[k1 v1] l IH]; csimpl.
  - split; [by intros [? ?]|by intros ?%not_elem_of_nil].
  - rewrite elem_of_cons. case_bool_decide; simplify_eq/=.
    + split; [by left|by eauto].
    + rewrite IH. naive_solver.
Qed.

Lemma map_alter_keys {V} (f : V → V) k l : (map_alter f k l).*1 = l.*1.
Proof.
  unfold map_alter. induction l as [|[k1 v1] l IH]; [done|].
  csimpl. rewrite IH. by case_bool_decide.
Qed.

Lemma mask_iff v bit : (0 ≤ bit)%Z →
  (Z.land v (Z.shiftl 1 bit) =? Z.shiftl 1 bit)%Z = Z.testbit v bit.
Proof.
  intros Hb. rewrite Z.shiftl_1_l. apply eq_true_iff_eq. rewrite Z.eqb_eq, land_eq_iff. split.
  - intros H. apply H; [done|]. rewrite Z.pow2_bits_eqb by done. apply Z.eqb_refl.
  - intros H i Hi. rewrite Z.pow2_bits_eqb by done. by intros <-%Z.eqb_eq.
Qed.

Lemma has_set v flag toggle flag' :
  MessageFlagsValue.has (MessageFlagsValue.set v flag toggle) flag' =
  if bool_decide (flag = flag') then toggle else MessageFlagsValue.has v flag'.
Proof.
  unfold MessageFlagsValue.has, MessageFlagsValue.has_value, MessageFlagsValue.set,
    MessageFlagsValue.set_value.
  cbv zeta. rewrite !mask_iff by (destruct flag'; simpl; lia).
  assert (∀ f g, Z.testbit (Z.shiftl 1 (MessageFlags.as_u32 f)) (MessageFlags.as_u32 g) =
                 bool_decide (f = g)) as Hbit by (intros [] []; reflexivity).
  assert (Z.testbit (Z.ones 32) (MessageFlags.as_u32 flag') = true) as H32
    by (by destruct flag').
  destruct toggle; cbn [MessageFlagsValue.value].
  - rewrite Z.lor_spec, Hbit. by destruct (bool_decide _); rewrite ?orb_true_r, ?orb_false_r.
  - rewrite Z.land_spec, Z.ldiff_spec, Hbit, H32.
    by destruct (bool_decide _); rewrite ?andb_true_r, ?andb_false_r.
Qed.

(** ** Properties *)

(** After [MessageFlagsValue::set], [has] answers the toggle for the flag that was
    set and its old answer for every other flag; so the flags a message is stored with
    read back as the three requests they were built from. *)
Theorem message_flags_set_has :
  (∀ v flag toggle flag',
    MessageFlagsValue.has (MessageFlagsValue.set v flag toggle) flag' =
    if bool_decide (flag = flag') then toggle else MessageFlagsValue.has v flag') ∧
  (∀ suppress everyone online,
    let v := MessageFlagsValue.mk (final_flags suppress everyone online) in
    MessageFlagsValue.has v MessageFlags.SuppressNotifications = suppress ∧
    MessageFlagsValue.has v MessageFlags.MentionsEveryone = everyone ∧
    MessageFlagsValue.has v MessageFlags.MentionsOnline = online).
Proof. split; [apply has_set|]. by intros [] [] []. Qed.

(** Whatever a request asks for, the message it creates is not seen as having
    suppressed notifications, since the request is stored in bit 1 and
    [has_suppressed_notifications] reads bit 0; and a request never reaches the
    mention of online members, since its bit is above the accepted range. *)
Theorem request_flags_lost (flags : option Z) (allow_mentions not_a_bot : bool)
    (suppress everyone online : bool) (m : Message.t) :
  match flags with Some f => (0 ≤ f)%Z | None => True end →
  request_flags flags allow_mentions not_a_bot = Ok (suppress, everyone, online) →
  Message.flags m = Some (final_flags suppress everyone online) →
  Message.has_suppressed_notifications m = false ∧ online = false.
Proof.
  intros Hf Hreq Hm. split.
  - unfold Message.has_suppressed_notifications. rewrite Hm.
    by destruct suppress, everyone, online.
  - destruct flags as [f|]; simpl in Hreq; [|congruence].
    destruct (Z.gtb_spec f 7); [congruence|].
    assert (MessageFlagsValue.has (MessageFlagsValue.mk f) MessageFlags.MentionsOnline = false)
      as Hno.
    { unfold MessageFlagsValue.has, MessageFlagsValue.has_value; cbv zeta.
      rewrite mask_iff by done. apply Z.bits_above_log2; [done|].
      assert (Z.log2 f ≤ Z.log2 7)%Z by (apply Z.log2_le_mono; lia).
      change (Z.log2 7) with 2%Z in *. simpl. lia. }
    rewrite Hno, andb_false_r, orb_false_r in Hreq.
    destruct (not_a_bot && _); [congruence|]. rewrite andb_false_r in Hreq. congruence.
Qed.

(** A request with flag bit 1 asks for silence; the stored message is not silent. *)
Lemma request_flags_lost_witness :
  request_flags (Some 2%Z) true false = Ok (true, false, false) ∧
  Message.has_suppressed_notifications
    (Message.mk "m" None "c" "a" None None None None None None None None None []
       Interactions.default None None None (Some (final_flags true false false))) = false.
Proof.
  split; [reflexivity|].
  apply (request_flags_lost (Some 2%Z) true false true false false); [done|reflexivity|reflexivity].
Defined.

(** [delete_messages] of the reference driver keeps exactly the messages that are
    in another channel and not listed: every message of the channel is deleted, listed
    or not. *)
Theorem delete_messages_wipes_channel (channel : string) (ids : list string)
    (m : gmap string Message.t) (id : string) (message : Message.t) :
  (MessagesTable.delete_messages channel ids m).2 !! id = Some message ↔
  m !! id = Some message ∧ Message.channel message ≠ channel ∧ id ∉ ids.
Proof.
  unfold MessagesTable.delete_messages, table_retain; simpl.
  rewrite map_lookup_filter_Some; simpl.
  rewrite andb_true_iff, !negb_true_iff, !bool_decide_eq_false. tauto.
Qed.

(** With a pinned filter [fetch_messages] of the reference driver returns exactly
    the messages of the channel whose pinned state is not the one asked for. *)
Theorem fetch_messages_pinned_inverted `{HashIter, Lowercase} (channel : string) (want : bool)
    (limit : option Z) (period : MessageTimePeriod.t) (m : gmap string Message.t) :
  let query := MessageQuery.mk limit (MessageFilter.mk (Some channel) None None (Some want)) period in
  ∃ l, MessagesTable.fetch_messages query m = (Ok l, m) ∧
    ∀ message, message ∈ l ↔
      (∃ id, m !! id = Some message) ∧ Message.channel message = channel ∧
      from_option id false (Message.pinned message) = negb want.
Proof.
  intros query. eexists. split; [done|]. intros message.
  rewrite elem_of_table_select. unfold MessagesTable.message_matches; simpl.
  rewrite !andb_true_iff, negb_true_iff, bool_decide_eq_true, bool_decide_eq_false.
  destruct want, (from_option id false (Message.pinned message)); naive_solver.
Qed.
