(* ===== verification/PermissionQuery.v ===== *)
(** * The database's permission query ([util/permissions.rs] of [revolt-database])

    [DatabasePermissionQuery] implements [PermissionQuery] over a database. What it
    asks of the database is the interface [PermissionDatabase]; [Database.v] gives
    the reference driver's instance. The query's state is the record of the source;
    [now] is the time the clock shows while the query runs. *)

From S2P Require Import Prelude Errors Permissions PermissionSpec Files Users Servers Channels.
From stdpp Require Import base list gmap strings.
From Stdlib Require Import ZArith Lia.

(** ** What the query asks of the database *)

Class PermissionDatabase (D : Type) := {
  db_fetch_user : D → string → Result User.t;
  db_fetch_server : D → string → Result Server.t;
  db_fetch_member : D → string → string → Result Member.t;
  db_fetch_mutual_server_ids : D → string → string → Result (list string);
  db_fetch_mutual_channel_ids : D → string → string → Result (list string);
  (** fetching one document returns it or an error *)
  db_fetch_user_returns d id : db_fetch_user d id ≠ Panicked;
  db_fetch_server_returns d id : db_fetch_server d id ≠ Panicked;
  db_fetch_member_returns d s u : db_fetch_member d s u ≠ Panicked
}.

(** [User::has_mutual_connection] *)
Definition has_mutual_connection {D} `{PermissionDatabase D} (self : User.t) (db : D)
    (user_b : string) : Result bool :=
  servers ← db_fetch_mutual_server_ids db (User.id self) user_b;
  if negb (bool_decide (servers = [])) then Ok true else
  channels ← db_fetch_mutual_channel_ids db (User.id self) user_b;
  Ok (negb (bool_decide (channels = []))).

Module DatabasePermissionQuery.
Record t (D : Type) : Type := mk {
  database : D;
  perspective : User.t;
  user : option User.t;
  channel : option Channel.t;
  server : option Server.t;
  member : option Member.t;
  cached_user_permission : option PermissionValue.t;
  cached_mutual_connection : option bool;
  cached_permission : option Z;
  now : Z
}.
Arguments mk {D}.
Arguments database {D}.
Arguments perspective {D}.
Arguments user {D}.
Arguments channel {D}.
Arguments server {D}.
Arguments member {D}.
Arguments cached_user_permission {D}.
Arguments cached_mutual_connection {D}.
Arguments cached_permission {D}.
Arguments now {D}.

Section Query.
Context {D : Type} `{PermissionDatabase D} `{HashIter}.
Abbreviation Q := (t D).
Abbreviation T := (M Empty_set Q).

(** Create a new permission calculator *)
Definition new (database : D) (perspective : User.t) (now : Z) : Q :=
  mk database perspective None None None None None None None now.

(** Use user, channel, server, member *)
Definition with_user (q : Q) (u : option User.t) : Q :=
  mk (database q) (perspective q) u (channel q) (server q) (member q)
     (cached_user_permission q) (cached_mutual_connection q) (cached_permission q) (now q).
Definition with_channel (q : Q) (c : option Channel.t) : Q :=
  mk (database q) (perspective q) (user q) c (server q) (member q)
     (cached_user_permission q) (cached_mutual_connection q) (cached_permission q) (now q).
Definition with_server (q : Q) (s : option Server.t) : Q :=
  mk (database q) (perspective q) (user q) (channel q) s (member q)
     (cached_user_permission q) (cached_mutual_connection q) (cached_permission q) (now q).
Definition with_member (q : Q) (m : option Member.t) : Q :=
  mk (database q) (perspective q) (user q) (channel q) (server q) m
     (cached_user_permission q) (cached_mutual_connection q) (cached_permission q) (now q).
Definition with_mutual (q : Q) (b : option bool) : Q :=
  mk (database q) (perspective q) (user q) (channel q) (server q) (member q)
     (cached_user_permission q) b (cached_permission q) (now q).
Definition with_user_permission (q : Q) (p : option PermissionValue.t) : Q :=
  mk (database q) (perspective q) (user q) (channel q) (server q) (member q)
     p (cached_mutual_connection q) (cached_permission q) (now q).

Definition we_privileged : T bool := gets (λ q, User.privileged (perspective q)).
Definition we_bot : T bool := gets (λ q, bool_decide (is_Some (User.bot (perspective q)))).

Definition users_same : T bool :=
  gets (λ q, match user q with
             | Some other_user => bool_decide (User.id (perspective q) = User.id other_user)
             | None => false
             end).

Definition relationship : T RelationshipStatus.t :=
  gets (λ q,
    match user q with
    | Some other_user =>
        if bool_decide (User.id (perspective q) = User.id other_user)
        then RelationshipStatus.User else
        if match User.bot other_user with
           | Some bot => bool_decide (User.id (perspective q) = BotInformation.owner bot)
           | None => false
           end
        then RelationshipStatus.User else
        match User.relations (perspective q) with
        | Some relations =>
            match List.find (λ entry, bool_decide (Relationship.id entry = User.id other_user))
                    relations with
            | Some entry => Relationship.status entry
            | None => RelationshipStatus.None
            end
        | None => RelationshipStatus.None
        end
    | None => RelationshipStatus.None
    end).

Definition is_bot : T bool :=
  gets (λ q, match user q with
             | Some other_user => bool_decide (is_Some (User.bot other_user))
             | None => false
             end).

(** [unwrap_or_default] on a boolean result *)
Definition unwrap_or_default (r : Result bool) : Outcome Empty_set bool :=
  match r with Ok b => Ok b | Err _ => Ok false | Panicked => Panicked end.

Definition mutual_connection : T bool :=
  q ← get;
  match cached_mutual_connection q with
  | Some value => mret value
  | None =>
      match user q with
      | Some user =>
          value ← lift (unwrap_or_default
                    (has_mutual_connection (perspective q) (database q) (User.id user)));
          modify (λ q, with_mutual q (Some value)) ;; mret value
      | None => mret false
      end
  end.

Definition server_owner : T bool :=
  gets (λ q, match server q with
             | Some server => bool_decide (Server.owner server = User.id (perspective q))
             | None => false
             end).

Definition a_member : T bool :=
  q ← get;
  match server q with
  | Some server =>
      match member q with
      | Some _ => mret true
      | None =>
          match db_fetch_member (database q) (Server.id server) (User.id (perspective q)) with
          | Ok member => modify (λ q, with_member q (Some member)) ;; mret true
          | Err _ => mret false
          | Panicked => panic
          end
      end
  | None => mret false
  end.

Definition default_server_permissions : T Z :=
  gets (λ q, match server q with
             | Some server => as_u64 (Server.default_permissions server)
             | None => 0%Z
             end).

Definition member_roles (m : option Member.t) : list string :=
  match m with Some m => Member.roles m | None => [] end.

(** The member's roles in the server as (rank, override), in iteration order *)
Definition ranked_server_roles (server : Server.t) (member_roles : list string) :
    list (Z * Override.t) :=
  (λ r, (Role.rank r.2, OverrideField.into_override (Role.permissions r.2))) <$>
    List.filter (λ r, bool_decide (r.1 ∈ member_roles)) (hash_iter (Server.roles server)).

(** [roles.sort_by(|a, b| b.0.cmp(&a.0)); roles.into_iter().map(|(_, v)| v).collect()] *)
Definition sorted_overrides (roles : list (Z * Override.t)) : list Override.t :=
  (sort_desc fst roles).*2.

Definition server_role_overrides : T (list Override.t) :=
  gets (λ q, match server q with
             | Some server =>
                 sorted_overrides (ranked_server_roles server (member_roles (member q)))
             | None => []
             end).

Definition timed_out : T bool :=
  gets (λ q, match member q with
             | Some member => Member.in_timeout member (now q)
             | None => false
             end).
Definition publish_overwrites : T bool :=
  gets (λ q, match member q with Some member => Member.can_publish member | None => true end).
Definition receive_overwrites : T bool :=
  gets (λ q, match member q with Some member => Member.can_receive member | None => true end).

Definition channel_type : T ChannelType.t :=
  gets (λ q, match channel q with
             | Some (Channel.DirectMessage _) => ChannelType.DirectMessage
             | Some (Channel.Group _) => ChannelType.Group
             | Some (Channel.SavedMessages _) => ChannelType.SavedMessages
             | Some (Channel.TextChannel _) => ChannelType.ServerChannel
             | None => ChannelType.Unknown
             end).

Definition default_channel_override (c : option Channel.t) : Override.t :=
  match c with
  | Some (Channel.Group g) =>
      Override.mk (as_u64 (default (as_i64 DEFAULT_PERMISSION_DIRECT_MESSAGE)
                             (Group.permissions g))) 0
  | Some (Channel.TextChannel c) =>
      OverrideField.into_override
        (default OverrideField.default (TextChannel.default_permissions c))
  | _ => Override.default
  end.
Definition default_channel_permissions : T Override.t :=
  gets (λ q, default_channel_override (channel q)).

(** The channel's overrides for the member's roles as (rank, override), in iteration
    order; a role the server does not have is skipped. *)
Definition ranked_channel_roles (role_permissions : gmap string OverrideField.t)
    (server : Server.t) (member_roles : list string) : list (Z * Override.t) :=
  omap (λ r, (λ role, (Role.rank role, OverrideField.into_override r.2)) <$>
               Server.roles server !! r.1)
    (List.filter (λ r, bool_decide (r.1 ∈ member_roles)) (hash_iter role_permissions)).

Definition channel_role_overrides : T (list Override.t) :=
  gets (λ q, match channel q with
             | Some (Channel.TextChannel c) =>
                 match server q with
                 | Some server =>
                     sorted_overrides (ranked_channel_roles (TextChannel.role_permissions c)
                                         server (member_roles (member q)))
                 | None => []
                 end
             | _ => []
             end).

Definition own_the_channel : T bool :=
  gets (λ q, match channel q with
             | Some (Channel.Group c) => bool_decide (Group.owner c = User.id (perspective q))
             | Some (Channel.SavedMessages c) =>
                 bool_decide (SavedMessages.user c = User.id (perspective q))
             | _ => false
             end).

Definition part_of_the_channel : T bool :=
  gets (λ q, match channel q with
             | Some (Channel.DirectMessage c) =>
                 bool_decide (User.id (perspective q) ∈ DirectMessage.recipients c)
             | Some (Channel.Group c) =>
                 bool_decide (User.id (perspective q) ∈ Group.recipients c)
             | _ => false
             end).

Definition recipient_as_user : T unit :=
  q ← get;
  match channel q with
  | Some (Channel.DirectMessage c) =>
      match List.find (λ r, negb (bool_decide (r = User.id (perspective q))))
              (DirectMessage.recipients c) with
      | Some recipient_id =>
          match db_fetch_user (database q) recipient_id with
          | Ok user => modify (λ q, with_user q (Some user))
          | Err _ => mret tt
          | Panicked => panic
          end
      | None => panic
      end
  | Some _ => panic
  | None => mret tt
  end.

Definition server_from_channel : T unit :=
  q ← get;
  match channel q with
  | Some (Channel.TextChannel c) =>
      if match server q with
         | Some known_server => bool_decide (TextChannel.server c = Server.id known_server)
         | None => false
         end
      then mret tt else
      match db_fetch_server (database q) (TextChannel.server c) with
      | Ok server => modify (λ q, with_server q (Some server))
      | Err _ => mret tt
      | Panicked => panic
      end
  | Some _ => panic
  | None => mret tt
  end.

#[global] Instance query : PermissionQuery Q := {
  are_we_privileged := we_privileged;
  are_we_a_bot := we_bot;
  are_the_users_same := users_same;
  user_relationship := relationship;
  user_is_bot := is_bot;
  have_mutual_connection := mutual_connection;
  are_we_server_owner := server_owner;
  are_we_a_member := a_member;
  get_default_server_permissions := default_server_permissions;
  get_our_server_role_overrides := server_role_overrides;
  are_we_timed_out := timed_out;
  do_we_have_publish_overwrites := publish_overwrites;
  do_we_have_receive_overwrites := receive_overwrites;
  get_channel_type := channel_type;
  get_default_channel_permissions := default_channel_permissions;
  get_our_channel_role_overrides := channel_role_overrides;
  do_we_own_the_channel := own_the_channel;
  are_we_part_of_the_channel := part_of_the_channel;
  set_recipient_as_user := recipient_as_user;
  set_server_from_channel := server_from_channel
}.

(** Calculate the user permission value *)
Definition calc_user (q : Q) : Outcome Empty_set Q :=
  match cached_user_permission q with
  | Some _ => Ok q
  | None =>
      match user q with
      | None => Panicked
      | Some _ =>
          match calculate_user_permissions q with
          | (Ok p, q') => Ok (with_user_permission q' (Some p))
          | (Err e, _) => Err e
          | (Panicked, _) => Panicked
          end
      end
  end.

(** Calculate the permission value: returns the query as it is *)
Definition calc (q : Q) : Q := q.

(** Get the known member's current ranking *)
Definition get_member_rank (q : Q) : Outcome Empty_set (option Z) :=
  match member q with
  | Some member => server ← unwrap (server q); Ok (Some (Member.get_ranking member server))
  | None => Ok None
  end.
End Query.
End DatabasePermissionQuery.

(** ** The view of the query *)

Section DatabaseView.
Context {D : Type} `{PermissionDatabase D} `{HashIter}.
Abbreviation Q := (DatabasePermissionQuery.t D).
Import DatabasePermissionQuery.

(** The membership the query uses: the one it was given, or the one it will fetch. *)
Definition effective_member (q : Q) : option Member.t :=
  match server q with
  | Some s =>
      match member q with
      | Some m => Some m
      | None => match db_fetch_member (database q) (Server.id s) (User.id (perspective q)) with
                | Ok m => Some m
                | _ => None
                end
      end
  | None => None
  end.

Definition eval {A} (m : M Empty_set Q A) (q : Q) (d : A) : A :=
  match (m q).1 with Ok a => a | _ => d end.

Definition db_view (q : Q) : View :=
  let qm := with_member q (effective_member q) in
  {| v_privileged := User.privileged (perspective q);
     v_owner := eval server_owner q false;
     v_member := bool_decide (is_Some (effective_member q));
     v_default := eval default_server_permissions q 0%Z;
     v_server_roles := eval server_role_overrides qm [];
     v_publish := eval publish_overwrites qm true;
     v_receive := eval receive_overwrites qm true;
     v_timed_out := eval timed_out qm false;
     v_channel_type := eval channel_type q ChannelType.Unknown;
     v_channel_default := default_channel_override (channel q);
     v_channel_roles := eval channel_role_overrides qm [];
     v_own_channel := eval own_the_channel q false;
     v_part_of_channel := eval part_of_the_channel q false |}.

Definition db_user_view (q : Q) : UserView :=
  {| uv_privileged := User.privileged (perspective q);
     uv_same := eval users_same q false;
     uv_relationship := eval relationship q RelationshipStatus.None;
     uv_mutual := (mutual_connection q).1;
     uv_any_bot := eval is_bot q false || bool_decide (is_Some (User.bot (perspective q))) |}.

Definition db_member_known (q : Q) : Prop := is_Some (server q) ∧ is_Some (member q).

Lemma effective_member_known q : db_member_known q → effective_member q = member q.
Proof. intros [[s Hs] [m Hm]]. unfold effective_member. by rewrite Hs, Hm. Qed.

Lemma with_member_same (q : Q) : with_member q (member q) = q.
Proof. by destruct q. Qed.

Lemma known_view_member q : db_member_known q → with_member q (effective_member q) = q.
Proof. intros Hk. rewrite effective_member_known by done. apply with_member_same. Qed.

Lemma a_member_spec q :
  ∃ q', a_member q = (Ok (bool_decide (is_Some (effective_member q))), q') ∧
    db_view q' = db_view q ∧
    (bool_decide (is_Some (effective_member q)) = true → db_member_known q').
Proof.
  unfold a_member, effective_member, db_member_known. rewrite M_bind_unfold. simpl.
  destruct (server q) as [s|] eqn:Hs; [|by eexists].
  destruct (member q) as [m|] eqn:Hm; simpl.
  { exists q. split_and!; [done..|]. rewrite Hs, Hm. eauto. }
  destruct (db_fetch_member (database q) (Server.id s) (User.id (perspective q)))
    as [m| |] eqn:Hf; simpl; [|by eexists|].
  - eexists. split; [done|]. split.
    + unfold db_view, effective_member; simpl. rewrite !Hs, Hm, Hf. simpl.
      unfold eval, server_role_overrides, channel_role_overrides; simpl. by rewrite ?Hs.
    + simpl. rewrite Hs. eauto.
  - by destruct (db_fetch_member_returns (database q) (Server.id s) (User.id (perspective q))).
Qed.

Lemma mutual_connection_spec q :
  ∃ q', mutual_connection q = ((mutual_connection q).1, q') ∧
    user q' = user q ∧ perspective q' = perspective q.
Proof.
  unfold mutual_connection. rewrite M_bind_unfold; simpl.
  destruct (cached_mutual_connection q); [by eexists|].
  destruct (user q) as [u|] eqn:Hu; [|by eexists].
  rewrite M_bind_unfold; unfold lift.
  destruct (unwrap_or_default _) as [b|[]|]; simpl; by eexists.
Qed.

(** The database's query keeps the promises of the interface. *)
#[global, program] Instance database_query_view : QueryView Q := {
  view := db_view;
  user_view := db_user_view;
  member_known := db_member_known
}.
Next Obligation. done. Qed.
Next Obligation. done. Qed.
Next Obligation. done. Qed.
Next Obligation. done. Qed.
Next Obligation.
  intros q. destruct (mutual_connection_spec q) as (q' & Hm & Hu & Hp).
  exists q'. split; [exact Hm|]. unfold db_user_view, eval, is_bot; simpl.
  rewrite M_bind_unfold; simpl. unfold gets. rewrite Hu.
  destruct (match user q with Some _ => _ | None => _ end); simpl; [done|].
  unfold we_bot, gets. by rewrite Hp.
Qed.
Next Obligation. done. Qed.
Next Obligation. intros q. exact (a_member_spec q). Qed.
Next Obligation. done. Qed.
Next Obligation. intros q Hk. simpl. by rewrite known_view_member. Qed.
Next Obligation. intros q Hk. simpl. by rewrite known_view_member. Qed.
Next Obligation. intros q Hk. simpl. by rewrite known_view_member. Qed.
Next Obligation. intros q Hk. simpl. by rewrite known_view_member. Qed.
Next Obligation. done. Qed.
Next Obligation. done. Qed.
Next Obligation. intros q Hk. simpl. by rewrite known_view_member. Qed.
Next Obligation. done. Qed.
Next Obligation. done. Qed.
Next Obligation.
  intros q. unfold db_view, eval, channel_type, gets; simpl.
  destruct (channel q) as [[]|] eqn:Hc; try done. intros _.
  unfold server_from_channel. rewrite M_bind_unfold; simpl. rewrite Hc.
  destruct (match server q with Some _ => _ | None => _ end); [by eexists|].
  destruct (db_fetch_server (database q) (TextChannel.server c)) eqn:Hf; [by eexists..|].
  by destruct (db_fetch_server_returns (database q) (TextChannel.server c)).
Qed.
End DatabaseView.
