(* ===== verification/Config.v ===== *)
(** * Configuration and environment

    The configuration values the modelled code reads ([crates/core/config/src/lib.rs]) and
    the environment it runs in: the ULID generator and the presence service. The
    environment is code outside of the repository, so it is a class; what the theorems
    need of it is a hypothesis of theirs. *)

From S2P Require Import Prelude Errors.
From stdpp Require Import base list gmap strings.
From Stdlib Require Import ZArith.
From Stdlib Require SpecFloat.

Module GlobalLimits.
Record t : Type := mk {
  group_size : nat;
  message_embeds : nat;
  message_replies : nat;
  message_reactions : nat;
  server_emoji : nat;
  server_roles : nat;
  server_channels : nat;
  new_user_hours : nat;
  body_limit_size : nat;
  restrict_server_creation : list string
}.
End GlobalLimits.

Module FeaturesLimits.
Record t : Type := mk {
  outgoing_friend_requests : nat;
  bots : nat;
  message_length : nat;
  message_attachments : nat;
  servers : nat;
  video : bool;
  (** the largest width and height, as [u32]; and the bounds of width by height, as [f32] *)
  video_resolution : Z * Z;
  video_aspect_ratio : SpecFloat.spec_float * SpecFloat.spec_float;
  (** the largest file per tag, in bytes *)
  file_upload_size_limit : gmap string Z
}.
End FeaturesLimits.

Module FeaturesLimitsCollection.
Record t : Type := mk {
  global : GlobalLimits.t;
  new_user : FeaturesLimits.t;
  default : FeaturesLimits.t
}.
End FeaturesLimitsCollection.

Module Hosts.
Record t : Type := mk { app : string; api : string; autumn : string }.
End Hosts.

Module Settings.
(** [hosts], [features.limits], [features.mass_mentions_enabled],
    [features.advanced.process_message_delay_limit], [api.users.early_adopter_cutoff],
    [api.users.min_username_length] and [api.audit_logs.expires_after] *)
Record t : Type := mk {
  hosts : Hosts.t;
  limits : FeaturesLimitsCollection.t;
  mass_mentions_enabled : bool;
  process_message_delay_limit : Z;
  early_adopter_cutoff : option Z;
  min_username_length : nat;
  audit_logs_expires_after : Z
}.
End Settings.

Class Environment := {
  (** [config().await] *)
  config : Settings.t;
  (** [Ulid::new().to_string()]: the [n]-th id the process generates *)
  new_ulid : nat → string;
  (** [nanoid!(n)]: the random string the process generates as its [n]-th id *)
  new_nanoid : nat → string;
  (** [Ulid::from_str(id)], as its time in milliseconds *)
  ulid_timestamp_ms : string → option Z;
  (** [revolt_presence::is_online] *)
  is_online : string → bool;
  (** the lines of [unicode_emoji.txt] and [str::replace] of the variation selector *)
  permissible_emoji : string → bool
}.

(** [config.features.limits.global] *)
Definition global_limits `{Environment} : GlobalLimits.t :=
  FeaturesLimitsCollection.global (Settings.limits config).

(** [User::limits]: a user younger than [new_user_hours] gets the limits of new users.
    [now] is the clock in nanoseconds; an id that is no ULID and a clock behind the id
    both panic. *)
Definition user_limits `{Environment} (now : Z) (id : string) : Result FeaturesLimits.t :=
  ms ← unwrap (ulid_timestamp_ms id);
  let created := (ms * 10 ^ 6)%Z in
  if (now <? created)%Z then Panicked else
  if (now - created <=?
        10 ^ 9 * (3600 * Z.of_nat (GlobalLimits.new_user_hours global_limits)))%Z
  then Ok (FeaturesLimitsCollection.new_user (Settings.limits config))
  else Ok (FeaturesLimitsCollection.default (Settings.limits config)).
