(* ===== verification/Emojis.v ===== *)
(** * Emojis (module [emojis] of [revolt-database])

    The emoji model of [models/emojis/model.rs] and the emojis table of the reference
    driver ([models/emojis/ops/reference.rs]). The handlers that publish events are in
    [MessageOps.v]. *)

From S2P Require Import Prelude Errors Config.
From stdpp Require Import base list gmap strings.

Module EmojiParent.
Inductive t : Type := Server (id : string) | Detached.
#[global] Instance t_eq_dec : EqDecision t.
Proof. solve_decision. Defined.
End EmojiParent.

Module Emoji.
Record t : Type := mk {
  id : string;
  parent : EmojiParent.t;
  creator_id : string;
  name : string;
  animated : bool;
  nsfw : bool
}.
Definition set_name (e : t) (n : string) : t :=
  mk (id e) (parent e) (creator_id e) n (animated e) (nsfw e).
Definition detach (e : t) : t :=
  mk (id e) EmojiParent.Detached (creator_id e) (name e) (animated e) (nsfw e).

(** Get parent id *)
Definition parent_id (e : t) : string :=
  match parent e with EmojiParent.Server id => id | EmojiParent.Detached => "" end.
End Emoji.

Module PartialEmoji.
Record t : Type := mk {
  id : option string;
  parent : option EmojiParent.t;
  creator_id : option string;
  name : option string;
  animated : option bool;
  nsfw : option bool
}.
(** Generates a PartialEmoji containing the data which has changed in an update *)
Definition generate_diff (self : Emoji.t) (partial : t) : t :=
  mk None None None (diff_plain (Emoji.name self) (name partial)) None None.
End PartialEmoji.

Module EmojisTable.
Abbreviation table := (gmap string Emoji.t).
Abbreviation T := (M ErrorType.t table).

Definition insert_emoji (emoji : Emoji.t) : T unit :=
  table_insert (Emoji.id emoji) emoji (create_database_error "insert" "emoji").
Definition fetch_emoji (id : string) : T Emoji.t := table_fetch id ErrorType.NotFound.
Definition fetch_emoji_by_parent_id `{HashIter} (parent_id : string) : T (list Emoji.t) :=
  table_select (λ emoji, match Emoji.parent emoji with
                         | EmojiParent.Server id => bool_decide (id = parent_id)
                         | EmojiParent.Detached => false
                         end).
Definition fetch_emoji_by_parent_ids `{HashIter} (parent_ids : list string) : T (list Emoji.t) :=
  table_select (λ emoji, match Emoji.parent emoji with
                         | EmojiParent.Server id => bool_decide (id ∈ parent_ids)
                         | EmojiParent.Detached => false
                         end).
Definition update_emoji (emoji_id : string) (partial : PartialEmoji.t) : T unit :=
  table_update emoji_id
    (λ emoji, match PartialEmoji.name partial with
              | Some name => Emoji.set_name emoji name
              | None => emoji
              end) ErrorType.NotFound.
Definition detach_emoji (emoji : Emoji.t) : T unit :=
  table_update (Emoji.id emoji) Emoji.detach ErrorType.NotFound.

(** Check whether we can use a given emoji: a custom emoji by its id, or a known
    unicode emoji *)
Definition can_use `{Environment} (emoji : string) : T bool :=
  if bool_decide (is_Some (ulid_timestamp_ms emoji))
  then fetch_emoji emoji ;; mret true
  else mret (permissible_emoji emoji).
End EmojisTable.
