(* ===== verification/Unreads.v ===== *)
(** * Channel unreads (module [channel_unreads] of [revolt-database])

    How far each user has read each channel: the model of [channel_unreads/model.rs] and
    the table of the reference driver ([channel_unreads/ops/reference.rs]). Message ids
    are ULIDs and are compared as strings. *)

From S2P Require Import Prelude Errors.
From stdpp Require Import base list gmap strings.
From Stdlib Require Import ZArith Lia.

Module ChannelCompositeKey.
Record t : Type := mk { channel : string; user : string }.
#[global] Instance t_eq_dec : EqDecision t.
Proof. solve_decision. Defined.
#[global] Instance t_countable : Countable t.
Proof.
  apply (inj_countable' (λ k, (channel k, user k)) (λ p, mk p.1 p.2)). by intros [].
Defined.
End ChannelCompositeKey.

Module ChannelUnread.
Record t : Type := mk {
  id : ChannelCompositeKey.t;
  last_id : option string;
  mentions : option (list string)
}.
#[global] Instance t_eq_dec : EqDecision t.
Proof. solve_decision. Defined.
End ChannelUnread.

(** ** The unreads table of the reference driver *)

Module UnreadsTable.
Abbreviation table := (gmap ChannelCompositeKey.t ChannelUnread.t).
Abbreviation T := (M ErrorType.t table).

Definition acknowledge_message (channel_id user_id message_id : string) :
    T (option ChannelUnread.t) :=
  λ unreads,
    let key := ChannelCompositeKey.mk channel_id user_id in
    let unreads' :=
      match unreads !! key with
      | Some unread =>
          let should_advance :=
            match ChannelUnread.last_id unread with
            | None => true
            | Some last_id => str_le last_id message_id
            end in
          if should_advance
          then <[key := ChannelUnread.mk (ChannelUnread.id unread) (Some message_id) None]> unreads
          else unreads
      | None => <[key := ChannelUnread.mk key (Some message_id) None]> unreads
      end in
    (Ok (unreads' !! key), unreads').

(** [current_time] is the ULID the operation generates *)
Definition acknowledge_channels (user_id : string) (channel_ids : list string)
    (current_time : string) : T unit :=
  for_each channel_ids (λ channel_id,
    acknowledge_message channel_id user_id current_time ;; mret tt).

Definition add_mention_to_unread (channel_id user_id : string) (message_ids : list string) :
    T unit :=
  modify (λ unreads,
    let key := ChannelCompositeKey.mk channel_id user_id in
    match unreads !! key with
    | Some unread =>
        <[key := ChannelUnread.mk (ChannelUnread.id unread) (ChannelUnread.last_id unread)
                   (Some message_ids)]> unreads
    | None => <[key := ChannelUnread.mk key None (Some message_ids)]> unreads
    end).

Definition add_mention_to_many_unreads (channel_id : string) (user_ids message_ids : list string) :
    T unit :=
  for_each user_ids (λ user_id, add_mention_to_unread channel_id user_id message_ids).

Definition fetch_unread_mentions `{HashIter} (user_id : string) : T (list ChannelUnread.t) :=
  table_select (λ unread,
    bool_decide (ChannelCompositeKey.user (ChannelUnread.id unread) = user_id) &&
    bool_decide (is_Some (ChannelUnread.mentions unread))).

Definition fetch_unreads `{HashIter} (user_id : string) : T (list ChannelUnread.t) :=
  table_select (λ unread,
    bool_decide (ChannelCompositeKey.user (ChannelUnread.id unread) = user_id)).

Definition fetch_unread (user_id channel_id : string) : T (option ChannelUnread.t) :=
  gets (λ unreads, unreads !! ChannelCompositeKey.mk channel_id user_id).
End UnreadsTable.

(** ** What acknowledging does to one user's view of one channel *)

(** The read position is a join: acknowledging takes the maximum. *)
Definition acked (key : ChannelCompositeKey.t) (u : option ChannelUnread.t)
    (message_id : string) : ChannelUnread.t :=
  match u with
  | Some u =>
      match ChannelUnread.last_id u with
      | Some last_id =>
          if str_le last_id message_id
          then ChannelUnread.mk (ChannelUnread.id u) (Some message_id) None else u
      | None => ChannelUnread.mk (ChannelUnread.id u) (Some message_id) None
      end
  | None => ChannelUnread.mk key (Some message_id) None
  end.

Lemma acknowledge_message_spec c u m t :
  let key := ChannelCompositeKey.mk c u in
  UnreadsTable.acknowledge_message c u m t =
  (Ok (Some (acked key (t !! key) m)), <[key := acked key (t !! key) m]> t).
Proof.
  intros key. unfold UnreadsTable.acknowledge_message, acked. subst key.
  destruct (t !! _) as [unread|] eqn:Ht; simpl.
  - destruct (ChannelUnread.last_id unread) as [l|]; simpl.
    + destruct (str_le l m).
      * by rewrite lookup_insert_eq.
      * by rewrite Ht, insert_id.
    + by rewrite lookup_insert_eq.
  - by rewrite lookup_insert_eq.
Qed.

Lemma acked_comm key u a b :
  acked key (Some (acked key u a)) b = acked key (Some (acked key u b)) a.
Proof.
  assert (∀ i, acked key (Some (ChannelUnread.mk i (Some a) None)) b =
               acked key (Some (ChannelUnread.mk i (Some b) None)) a) as Hab.
  { intros i. unfold acked; simpl.
    destruct (str_le a b) eqn:Hab, (str_le b a) eqn:Hba; try done.
    - by rewrite (str_le_antisym a b).
    - apply str_le_total in Hab. congruence. }
  destruct u as [[i [l|] ms]|]; simpl; [|apply Hab..].
  destruct (str_le l a) eqn:Hla, (str_le l b) eqn:Hlb; simpl; rewrite ?Hla, ?Hlb; try done.
  - apply Hab.
  - destruct (str_le a b) eqn:Hab'; [|done].
    rewrite (str_le_trans l a b) in Hlb; done.
  - destruct (str_le b a) eqn:Hab'; [|done].
    rewrite (str_le_trans l b a) in Hla; done.
Qed.

(** A sequence of acknowledgements by one user in one channel. *)
Definition acknowledge_all (channel_id user_id : string) (ms : list string) :
    UnreadsTable.T unit :=
  for_each ms (λ m, UnreadsTable.acknowledge_message channel_id user_id m ;; mret tt).

Lemma acknowledge_all_cons c u m ms t :
  acknowledge_all c u (m :: ms) t =
  acknowledge_all c u ms
    (<[ChannelCompositeKey.mk c u :=
         acked (ChannelCompositeKey.mk c u) (t !! ChannelCompositeKey.mk c u) m]> t).
Proof.
  unfold acknowledge_all; simpl. rewrite M_bind_unfold.
  rewrite M_bind_unfold. by rewrite acknowledge_message_spec.
Qed.

(** Acknowledgements that arrive in any order leave the same unread: however a
    client's acknowledgements of one channel are delayed or reordered, the table ends in
    the same state. *)
Theorem acknowledge_order_irrelevant (channel_id user_id : string) (ms ms' : list string)
    (t : UnreadsTable.table) :
  ms ≡ₚ ms' → acknowledge_all channel_id user_id ms t = acknowledge_all channel_id user_id ms' t.
Proof.
  intros Hp. revert t. induction Hp as [|m ms ms' _ IH|a b ms|? ? ? _ IH1 _ IH2]; intros t.
  - done.
  - rewrite !acknowledge_all_cons. apply IH.
  - rewrite !acknowledge_all_cons, !insert_insert_eq, !lookup_insert_eq.
    by rewrite acked_comm.
  - by rewrite IH1.
Qed.

Lemma acknowledge_order_irrelevant_witness :
  ["01A"; "01B"] ≡ₚ ["01B"; "01A"] ∧
  acknowledge_all "c" "u" ["01A"; "01B"] ∅ = acknowledge_all "c" "u" ["01B"; "01A"] ∅.
Proof.
  assert (["01A"; "01B"] ≡ₚ ["01B"; "01A"]) as Hp by constructor.
  split; [exact Hp|exact (acknowledge_order_irrelevant "c" "u" _ _ ∅ Hp)].
Defined.

(** A late acknowledgement never moves the read position back: after acknowledging
    [message_id] the stored position is at least the old one and at least
    [message_id], the operation returns what it stored, and other users' unreads and
    other channels' are untouched. *)
Theorem acknowledge_message_advances (channel_id user_id message_id : string)
    (t : UnreadsTable.table) :
  ∃ unread last_id t',
    UnreadsTable.acknowledge_message channel_id user_id message_id t = (Ok (Some unread), t') ∧
    t' !! ChannelCompositeKey.mk channel_id user_id = Some unread ∧
    ChannelUnread.last_id unread = Some last_id ∧ str_le message_id last_id = true ∧
    (∀ old old_id, t !! ChannelCompositeKey.mk channel_id user_id = Some old →
       ChannelUnread.last_id old = Some old_id → str_le old_id last_id = true) ∧
    (∀ key, key ≠ ChannelCompositeKey.mk channel_id user_id → t' !! key = t !! key).
Proof.
  rewrite acknowledge_message_spec. set (key := ChannelCompositeKey.mk channel_id user_id).
  assert (∃ last, ChannelUnread.last_id (acked key (t !! key) message_id) = Some last ∧
    str_le message_id last = true ∧
    (∀ old old_id, t !! key = Some old → ChannelUnread.last_id old = Some old_id →
       str_le old_id last = true)) as (last & Hlast & Hm & Hold).
  { destruct (t !! key) as [[i [l|] ms]|]; simpl;
      try (exists message_id; split_and!; [done|apply str_le_refl|intros; simplify_eq/=]).
    destruct (str_le l message_id) eqn:Hl; simpl.
    - exists message_id. split_and!; [done|apply str_le_refl|intros; by simplify_eq/=].
    - exists l. split_and!; [done|by apply str_le_total|].
      intros; simplify_eq/=. apply str_le_refl. }
  eexists _, last, _. split; [done|]. split_and!; [apply lookup_insert_eq|done..|].
  intros k Hk. by rewrite lookup_insert_ne.
Qed.
