(* ===== verification/Webhooks.v ===== *)
(** * Webhooks and invites

    The objects of [models/channel_webhooks/model.rs] and [models/channel_invites/model.rs]
    and their tables in the reference driver. *)

From S2P Require Import Prelude Errors Files Channels.
From stdpp Require Import base list gmap strings.
From Stdlib Require Import ZArith.

(** ** Webhooks *)

Module Webhook.
Record t : Type := mk {
  id : string;
  name : string;
  avatar : option File.t;
  creator_id : string;
  channel_id : string;
  permissions : Z;
  token : option string
}.
Definition default : t := mk "" "" None "" "" 0 None.
Definition set_avatar (w : t) (x : option File.t) : t :=
  mk (id w) (name w) x (creator_id w) (channel_id w) (permissions w) (token w).
Definition set_token (w : t) (x : option string) : t :=
  mk (id w) (name w) (avatar w) (creator_id w) (channel_id w) (permissions w) x.

(** Assert [token] is valid *)
Definition assert_token (self : t) (x : string) : Result unit :=
  if bool_decide (token self = Some x) then Ok tt else Err ErrorType.NotAuthenticated.
End Webhook.

Module FieldsWebhook.
Inductive t : Type := Avatar.
End FieldsWebhook.

Module PartialWebhook.
Record t : Type := mk {
  id : option string;
  name : option string;
  avatar : option File.t;
  creator_id : option string;
  channel_id : option string;
  permissions : option Z;
  token : option string
}.
Definition default : t := mk None None None None None None None.
Definition set_token (p : t) (x : option string) : t :=
  mk (id p) (name p) (avatar p) (creator_id p) (channel_id p) (permissions p) x.
Definition set_avatar (p : t) (x : option File.t) : t :=
  mk (id p) (name p) x (creator_id p) (channel_id p) (permissions p) (token p).
Definition of_name (x : option string) : t := mk None x None None None None None.
Definition of_edit (name : option string) (permissions : option Z) : t :=
  mk None name None None None permissions None.
End PartialWebhook.

(** Remove a field from the webhook *)
Definition webhook_remove_field (self : Webhook.t) (field : FieldsWebhook.t) : Webhook.t :=
  match field with FieldsWebhook.Avatar => Webhook.set_avatar self None end.

Module WebhooksTable.
Abbreviation table := (gmap string Webhook.t).
Abbreviation T := (M ErrorType.t table).

Definition insert_webhook (webhook : Webhook.t) : T unit :=
  table_insert (Webhook.id webhook) webhook (create_database_error "insert" "webhook").
Definition fetch_webhook (webhook_id : string) : T Webhook.t :=
  table_fetch webhook_id ErrorType.NotFound.
Definition fetch_webhooks_for_channel `{HashIter} (channel_id : string) : T (list Webhook.t) :=
  table_select (λ webhook, bool_decide (Webhook.channel_id webhook = channel_id)).
Definition update_webhook `{OptionalStruct Webhook.t PartialWebhook.t} (webhook_id : string)
    (partial : PartialWebhook.t) (remove : list FieldsWebhook.t) : T unit :=
  table_update webhook_id
    (λ webhook, apply_options (fold_left webhook_remove_field remove webhook) partial)
    ErrorType.NotFound.
Definition delete_webhook (webhook_id : string) : T unit :=
  table_delete webhook_id ErrorType.NotFound.
End WebhooksTable.

(** ** Invites *)

Module Invite.
Inductive t : Type :=
| Server (code server creator channel : string)
| Group (code creator channel : string).

(** Get the invite code for this invite *)
Definition code (self : t) : string :=
  match self with Server code _ _ _ | Group code _ _ => code end.
(** Get the ID of the user who created this invite *)
Definition creator (self : t) : string :=
  match self with Server _ _ creator _ | Group _ creator _ => creator end.
End Invite.

Module InvitesTable.
Abbreviation table := (gmap string Invite.t).
Abbreviation T := (M ErrorType.t table).

Definition insert_invite (invite : Invite.t) : T unit :=
  table_insert (Invite.code invite) invite (create_database_error "insert" "invite").
Definition fetch_invite (code : string) : T Invite.t := table_fetch code ErrorType.NotFound.
Definition fetch_invites_for_server `{HashIter} (server_id : string) : T (list Invite.t) :=
  table_select (λ invite,
    match invite with
    | Invite.Server _ server _ _ => bool_decide (server = server_id)
    | Invite.Group _ _ _ => false
    end).
Definition delete_invite (code : string) : T unit := table_delete code ErrorType.NotFound.
End InvitesTable.
