(* ===== verification/Bots.v ===== *)
(** * Bots

    The object of [models/bots/model.rs] and its table in the reference driver. A new
    token is a random string; it is an argument of the operations that generate one. *)

From S2P Require Import Prelude Errors.
From stdpp Require Import base list gmap strings.
From Stdlib Require Import ZArith.

Module Bot.
Record t : Type := mk {
  id : string;
  owner : string;
  token : string;
  public : bool;
  analytics : bool;
  discoverable : bool;
  interactions_url : string;
  terms_of_service_url : string;
  privacy_policy_url : string;
  flags : option Z
}.
Definition default : t := mk "" "" "" false false false "" "" "" None.
Definition set_token (b : t) (x : string) : t :=
  mk (id b) (owner b) x (public b) (analytics b) (discoverable b) (interactions_url b)
     (terms_of_service_url b) (privacy_policy_url b) (flags b).
Definition set_interactions_url (b : t) (x : string) : t :=
  mk (id b) (owner b) (token b) (public b) (analytics b) (discoverable b) x
     (terms_of_service_url b) (privacy_policy_url b) (flags b).
End Bot.

Module FieldsBot.
Inductive t : Type := Token | InteractionsURL.
#[global] Instance t_eq_dec : EqDecision t.
Proof. solve_decision. Defined.
End FieldsBot.

Module PartialBot.
Record t : Type := mk {
  id : option string;
  owner : option string;
  token : option string;
  public : option bool;
  analytics : option bool;
  discoverable : option bool;
  interactions_url : option string;
  terms_of_service_url : option string;
  privacy_policy_url : option string;
  flags : option Z
}.
Definition default : t := mk None None None None None None None None None None.
Definition set_token (p : t) (x : option string) : t :=
  mk (id p) (owner p) x (public p) (analytics p) (discoverable p) (interactions_url p)
     (terms_of_service_url p) (privacy_policy_url p) (flags p).
(** The fields the route that edits bots sets *)
Definition of_edit (public analytics : option bool) (interactions_url : option string) : t :=
  mk None None None public analytics None interactions_url None None None.
End PartialBot.

(** Remove a field from this object; [new_token] is what [nanoid!(64)] returns *)
Definition bot_remove_field (new_token : string) (self : Bot.t) (field : FieldsBot.t) : Bot.t :=
  match field with
  | FieldsBot.Token => Bot.set_token self new_token
  | FieldsBot.InteractionsURL => Bot.set_interactions_url self ""
  end.

Module BotsTable.
Abbreviation table := (gmap string Bot.t).
Abbreviation T := (M ErrorType.t table).

Definition insert_bot (bot : Bot.t) : T unit :=
  table_insert (Bot.id bot) bot (create_database_error "insert" "bot").
Definition fetch_bot (id : string) : T Bot.t := table_fetch id ErrorType.NotFound.
Definition fetch_bot_by_token `{HashIter} (token : string) : T Bot.t :=
  λ bots, (ok_or (List.find (λ bot, bool_decide (Bot.token bot = token)) (hash_values bots))
             ErrorType.NotFound, bots).
Definition fetch_bots_by_user `{HashIter} (user_id : string) : T (list Bot.t) :=
  table_select (λ bot, bool_decide (Bot.owner bot = user_id)).
Definition get_number_of_bots_by_user `{HashIter} (user_id : string) : T nat :=
  λ bots, (Ok (length (List.filter (λ bot, bool_decide (Bot.owner bot = user_id))
                         (hash_values bots))), bots).
(** [new_token] is what [nanoid!(64)] returns when the token is removed *)
Definition update_bot `{OptionalStruct Bot.t PartialBot.t} (new_token id : string)
    (partial : PartialBot.t) (remove : list FieldsBot.t) : T unit :=
  table_update id
    (λ bot, apply_options (fold_left (bot_remove_field new_token) remove bot) partial)
    ErrorType.NotFound.
Definition delete_bot (id : string) : T unit := table_delete id ErrorType.NotFound.
End BotsTable.
