(* ===== verification/AuditLogs.v ===== *)
(** * Audit logs

    The entries of [models/audit_logs/model.rs] and their table in the reference driver. *)

From S2P Require Import Prelude Errors Permissions Files Servers Channels Emojis.
From stdpp Require Import base list gmap strings.
From Stdlib Require Import ZArith.

Module AuditLogEntryAction.
Inductive t : Type :=
| MessageDelete (author channel : string)
| MessageBulkDelete (channel : string) (count : nat)
| MessagePin (message author channel : string)
| MessageUnpin (message author channel : string)
| BanCreate (user : string)
| BanDelete (user : string)
| ChannelCreate (channel name : string)
| ChannelEdit (channel : string) (before after : PartialChannel.t)
| ChannelRolePermissionsEdit (channel role : string) (permissions : OverrideField.t)
| ChannelDelete (channel name : string)
| MemberEdit (user : string) (before after : PartialMember.t)
| MemberKick (user : string)
| ServerEdit (before after : PartialServer.t)
| RoleEdit (role : string) (before after : PartialRole.t)
| RoleCreate (role name : string)
| RoleDelete (role name : string)
| RolesReorder (before after : list string)
| InviteCreate (invite channel : string)
| InviteDelete (invite channel : string)
| WebhookCreate (webhook name channel : string)
| WebhookDelete (webhook name channel : string)
| EmojiCreate (emoji name : string)
| EmojiUpdate (emoji : string) (before after : PartialEmoji.t)
| EmojiDelete (emoji name : string).

(** The tag ["type"] that serde writes for the action *)
Definition type_name (a : t) : string :=
  match a with
  | MessageDelete _ _ => "MessageDelete"
  | MessageBulkDelete _ _ => "MessageBulkDelete"
  | MessagePin _ _ _ => "MessagePin"
  | MessageUnpin _ _ _ => "MessageUnpin"
  | BanCreate _ => "BanCreate"
  | BanDelete _ => "BanDelete"
  | ChannelCreate _ _ => "ChannelCreate"
  | ChannelEdit _ _ _ => "ChannelEdit"
  | ChannelRolePermissionsEdit _ _ _ => "ChannelRolePermissionsEdit"
  | ChannelDelete _ _ => "ChannelDelete"
  | MemberEdit _ _ _ => "MemberEdit"
  | MemberKick _ => "MemberKick"
  | ServerEdit _ _ => "ServerEdit"
  | RoleEdit _ _ _ => "RoleEdit"
  | RoleCreate _ _ => "RoleCreate"
  | RoleDelete _ _ => "RoleDelete"
  | RolesReorder _ _ => "RolesReorder"
  | InviteCreate _ _ => "InviteCreate"
  | InviteDelete _ _ => "InviteDelete"
  | WebhookCreate _ _ _ => "WebhookCreate"
  | WebhookDelete _ _ _ => "WebhookDelete"
  | EmojiCreate _ _ => "EmojiCreate"
  | EmojiUpdate _ _ _ => "EmojiUpdate"
  | EmojiDelete _ _ => "EmojiDelete"
  end.
End AuditLogEntryAction.

Module AuditLogEntry.
Record t : Type := mk {
  id : string;
  expires_at : Z;
  server : string;
  reason : option string;
  user : string;
  target : option string;
  action : AuditLogEntryAction.t
}.
End AuditLogEntry.

Module AuditLogQuery.
Record t : Type := mk {
  user : option string;
  target : option string;
  type_ : option (list string);
  before : option string;
  after : option string;
  limit : Z
}.
End AuditLogQuery.

Module AuditLogsTable.
Abbreviation table := (gmap string AuditLogEntry.t).
Abbreviation T := (M ErrorType.t table).

Definition insert_audit_log_entry (entry : AuditLogEntry.t) : T unit :=
  modify (λ logs, <[AuditLogEntry.id entry := entry]> logs).

(** The closure [get_server_audit_logs] filters with *)
Definition entry_matches (server : string) (query : AuditLogQuery.t) (entry : AuditLogEntry.t) :
    bool :=
  bool_decide (AuditLogEntry.server entry = server) &&
  match AuditLogQuery.user query with
  | Some user => bool_decide (AuditLogEntry.user entry = user)
  | None => true
  end &&
  (bool_decide (AuditLogQuery.target query = None) ||
   bool_decide (AuditLogEntry.target entry = AuditLogQuery.target query)) &&
  match AuditLogQuery.before query with
  | Some before => str_le (AuditLogEntry.id entry) before
  | None => true
  end &&
  match AuditLogQuery.after query with
  | Some after => str_le after (AuditLogEntry.id entry)
  | None => true
  end &&
  match AuditLogQuery.type_ query with
  | Some types =>
      bool_decide (AuditLogEntryAction.type_name (AuditLogEntry.action entry) ∈ types)
  | None => true
  end.

(** [limit as usize]: a negative limit wraps around to a huge one *)
Definition truncate {A} (limit : Z) (l : list A) : list A :=
  if (limit <? 0)%Z then l else take (Z.to_nat limit) l.

Definition get_server_audit_logs `{HashIter} (server : string) (query : AuditLogQuery.t) :
    T (list AuditLogEntry.t) :=
  λ logs,
    (Ok (truncate (AuditLogQuery.limit query)
           (sort_by (λ a b, negb (str_le (AuditLogEntry.id a) (AuditLogEntry.id b)))
              (List.filter (entry_matches server query) (hash_values logs)))), logs).
End AuditLogsTable.
