(* ===== verification/Accounts.v ===== *)
(** * Accounts, sessions, tickets and account invites: data and tables

    The objects of [models/accounts], [models/sessions], [models/mfa_tickets] and
    [models/account_invites] with their tables in the reference driver, multi-factor
    authentication, and the checks of passwords and addresses ([util/password.rs],
    [util/email.rs]). Times are nanoseconds since 1970.

    Argon2, TOTP, random secrets and the lists of compromised passwords and blocked domains
    are parameters ([Credentials]); what regular expressions do to addresses is written
    out. *)

From S2P Require Import Prelude Errors Config.
From stdpp Require Import base list gmap strings.
From Stdlib Require Import ZArith Ascii Lia.

(** ** Libraries *)

Class Credentials := {
  (** [argon2::hash_encoded(password, salt)] *)
  hash_encoded : string → string → option string;
  (** [argon2::verify_encoded(hash, password)] *)
  verify_encoded : string → string → option bool;
  (** the list of compromised passwords has it *)
  top_100k_compromised : string → bool;
  (** [None] without a configured service, else what it answered, if it did *)
  easypwned : string → option (option bool);
  (** the [n]-th ten random bytes the process draws, in base 32 *)
  new_totp_secret : nat → string;
  (** [nanoid!(5, &ALPHABET)] *)
  new_code_part : nat → string;
  (** the code of a secret at a time in seconds; [None] if the secret is not base 32 *)
  totp_custom : string → Z → option string;
  (** [validator::validate_email] *)
  validator_email : string → bool;
  (** the list of blocked domains has it *)
  revolt_source_list : string → bool
}.

(** ** Time *)

Definition seconds (n : Z) : Z := (n * 10 ^ 9)%Z.
Definition minutes (n : Z) : Z := seconds (60 * n).
Definition weeks (n : Z) : Z := seconds (604800 * n).

(** [Timestamp::checked_add]: timestamps end with the year 9999. *)
Definition timestamp_max : Z := 253402300799999999999.
Definition checked_add (t d : Z) : option Z :=
  if (t + d <=? timestamp_max)%Z then Some (t + d)%Z else None.

(** ** Data *)

Module Subscription.
Record t : Type := mk {
  provider : string;
  tier : string;
  active_until : Z;
  last_message_id : string;
  cancel_at_period_end : bool;
  provider_customer_id : option string;
  provider_subscription_id : option string
}.
End Subscription.

Module CashPaymentRequest.
Record t : Type := mk { status : string; requested_at : Z }.
End CashPaymentRequest.

Module EmailVerification.
Inductive t : Type :=
| Verified
| Pending (token : string) (expiry : Z)
| Moving (new_email token : string) (expiry : Z).
Definition is_pending (v : t) : bool := match v with Pending _ _ => true | _ => false end.
End EmailVerification.

Module PasswordReset.
Record t : Type := mk { token : string; expiry : Z }.
End PasswordReset.

Module DeletionInfo.
Inductive t : Type :=
| WaitingForVerification (token : string) (expiry : Z)
| Scheduled (after : Z)
| Deleted.
End DeletionInfo.

Module Lockout.
Record t : Type := mk { attempts : Z; expiry : option Z }.
End Lockout.

Module Totp.
Inductive t : Type :=
| Disabled
| Pending (secret : string)
| Enabled (secret : string).
Definition is_empty (self : t) : bool := match self with Disabled => true | _ => false end.
Definition is_disabled (self : t) : bool := match self with Enabled _ => false | _ => true end.

(** Generate a TOTP code from secret; [now] is the clock *)
Definition generate_code `{Credentials} (now : Z) (self : t) : Result string :=
  match self with
  | Enabled secret | Pending secret => unwrap (totp_custom secret (now / 10 ^ 9)%Z)
  | Disabled => Err ErrorType.OperationFailed
  end.
End Totp.

Module MFAMethod.
Inductive t : Type := Password | Recovery | Totp.
#[global] Instance t_eq_dec : EqDecision t.
Proof. solve_decision. Defined.
End MFAMethod.

(** What a client answers ([v0::MFAResponse]) *)
Module MFAResponse.
Inductive t : Type :=
| Password (password : string)
| Recovery (recovery_code : string)
| Totp (totp_code : string).
End MFAResponse.

Module MultiFactorAuthentication.
Record t : Type := mk { totp_token : Totp.t; recovery_codes : list string }.
Definition default : t := mk Totp.Disabled [].
Definition set_totp_token (self : t) x : t := mk x (recovery_codes self).
Definition set_recovery_codes (self : t) x : t := mk (totp_token self) x.

(** Check whether MFA is in-use *)
Definition is_active (self : t) : bool :=
  match totp_token self with Totp.Enabled _ => true | _ => false end.
(** Check whether there are still usable recovery codes *)
Definition has_recovery (self : t) : bool :=
  negb (match recovery_codes self with [] => true | _ => false end).
(** Get available MFA methods *)
Definition get_methods (self : t) : list MFAMethod.t :=
  match totp_token self with
  | Totp.Enabled _ =>
      MFAMethod.Totp :: (if has_recovery self then [MFAMethod.Recovery] else [])
  | _ => [MFAMethod.Password]
  end.

(** Generate new recovery codes; [n] counts what the process has drawn so far *)
Definition generate_recovery_codes `{Credentials} (n : nat) (self : t) : t :=
  set_recovery_codes self
    ((λ i, new_code_part (n + 2 * i) +:+ "-" +:+ new_code_part (n + 2 * i + 1)) <$> seq 0 10).

(** Generate new TOTP secret *)
Definition generate_new_totp_secret `{Credentials} (n : nat) (self : t) : Result (string * t) :=
  match totp_token self with
  | Totp.Enabled _ => Err ErrorType.OperationFailed
  | _ =>
      let secret := new_totp_secret n in
      Ok (secret, set_totp_token self (Totp.Pending secret))
  end.

(** Enable TOTP using a given MFA response *)
Definition enable_totp `{Credentials} (now : Z) (response : MFAResponse.t) (self : t) : Result t :=
  match response with
  | MFAResponse.Totp totp_code =>
      code ← Totp.generate_code now (totp_token self);
      if bool_decide (code = totp_code) then
        match totp_token self with
        | Totp.Pending secret => Ok (set_totp_token self (Totp.Enabled secret))
        | _ => Err ErrorType.OperationFailed
        end
      else Err ErrorType.InvalidToken
  | _ => Err ErrorType.InvalidToken
  end.
End MultiFactorAuthentication.

Module Account.
Record t : Type := mk {
  id : string;
  email : string;
  email_normalised : string;
  password : string;
  disabled : bool;
  registration_ip : option string;
  registration_ip_at : option Z;
  verification : EmailVerification.t;
  password_reset : option PasswordReset.t;
  deletion : option DeletionInfo.t;
  lockout : option Lockout.t;
  mfa : MultiFactorAuthentication.t;
  subscription : option Subscription.t;
  cash_payment_request : option CashPaymentRequest.t
}.
Definition set_email (s : t) x : t :=
  mk (id s) x (email_normalised s) (password s) (disabled s) (registration_ip s)
    (registration_ip_at s) (verification s) (password_reset s) (deletion s) (lockout s) (mfa s)
    (subscription s) (cash_payment_request s).
Definition set_email_normalised (s : t) x : t :=
  mk (id s) (email s) x (password s) (disabled s) (registration_ip s) (registration_ip_at s)
    (verification s) (password_reset s) (deletion s) (lockout s) (mfa s) (subscription s)
    (cash_payment_request s).
Definition set_password (s : t) x : t :=
  mk (id s) (email s) (email_normalised s) x (disabled s) (registration_ip s)
    (registration_ip_at s) (verification s) (password_reset s) (deletion s) (lockout s) (mfa s)
    (subscription s) (cash_payment_request s).
Definition set_disabled (s : t) x : t :=
  mk (id s) (email s) (email_normalised s) (password s) x (registration_ip s)
    (registration_ip_at s) (verification s) (password_reset s) (deletion s) (lockout s) (mfa s)
    (subscription s) (cash_payment_request s).
Definition set_registration_ip (s : t) x : t :=
  mk (id s) (email s) (email_normalised s) (password s) (disabled s) x (registration_ip_at s)
    (verification s) (password_reset s) (deletion s) (lockout s) (mfa s) (subscription s)
    (cash_payment_request s).
Definition set_registration_ip_at (s : t) x : t :=
  mk (id s) (email s) (email_normalised s) (password s) (disabled s) (registration_ip s) x
    (verification s) (password_reset s) (deletion s) (lockout s) (mfa s) (subscription s)
    (cash_payment_request s).
Definition set_verification (s : t) x : t :=
  mk (id s) (email s) (email_normalised s) (password s) (disabled s) (registration_ip s)
    (registration_ip_at s) x (password_reset s) (deletion s) (lockout s) (mfa s)
    (subscription s) (cash_payment_request s).
Definition set_password_reset (s : t) x : t :=
  mk (id s) (email s) (email_normalised s) (password s) (disabled s) (registration_ip s)
    (registration_ip_at s) (verification s) x (deletion s) (lockout s) (mfa s) (subscription s)
    (cash_payment_request s).
Definition set_deletion (s : t) x : t :=
  mk (id s) (email s) (email_normalised s) (password s) (disabled s) (registration_ip s)
    (registration_ip_at s) (verification s) (password_reset s) x (lockout s) (mfa s)
    (subscription s) (cash_payment_request s).
Definition set_lockout (s : t) x : t :=
  mk (id s) (email s) (email_normalised s) (password s) (disabled s) (registration_ip s)
    (registration_ip_at s) (verification s) (password_reset s) (deletion s) x (mfa s)
    (subscription s) (cash_payment_request s).
Definition set_mfa (s : t) x : t :=
  mk (id s) (email s) (email_normalised s) (password s) (disabled s) (registration_ip s)
    (registration_ip_at s) (verification s) (password_reset s) (deletion s) (lockout s) x
    (subscription s) (cash_payment_request s).
Definition set_subscription (s : t) x : t :=
  mk (id s) (email s) (email_normalised s) (password s) (disabled s) (registration_ip s)
    (registration_ip_at s) (verification s) (password_reset s) (deletion s) (lockout s) (mfa s)
    x (cash_payment_request s).
Definition set_cash_payment_request (s : t) x : t :=
  mk (id s) (email s) (email_normalised s) (password s) (disabled s) (registration_ip s)
    (registration_ip_at s) (verification s) (password_reset s) (deletion s) (lockout s) (mfa s)
    (subscription s) x.
(** Verify a user's password is correct *)
Definition verify_password `{Credentials} (self : t) (plaintext_password : string) : Result unit :=
  match verify_encoded (password self) plaintext_password with
  | Some true => Ok tt
  | _ => Err ErrorType.InvalidCredentials
  end.
End Account.

Module WebPushSubscription.
Record t : Type := mk { endpoint : string; p256dh : string; auth : string }.
End WebPushSubscription.

Module Session.
Record t : Type := mk {
  id : string;
  user_id : string;
  token : string;
  name : string;
  last_seen : Z;
  origin : option string;
  subscription : option WebPushSubscription.t
}.
Definition set_name (s : t) x : t :=
  mk (id s) (user_id s) (token s) x (last_seen s) (origin s) (subscription s).
Definition set_last_seen (s : t) x : t :=
  mk (id s) (user_id s) (token s) (name s) x (origin s) (subscription s).
Definition set_subscription (s : t) x : t :=
  mk (id s) (user_id s) (token s) (name s) (last_seen s) (origin s) x.
End Session.

Module MFATicket.
Record t : Type := mk {
  id : string;
  account_id : string;
  token : string;
  validated : bool;
  authorised : bool;
  last_totp_code : option string
}.
Definition set_authorised (s : t) x : t :=
  mk (id s) (account_id s) (token s) (validated s) x (last_totp_code s).
Definition set_last_totp_code (s : t) x : t :=
  mk (id s) (account_id s) (token s) (validated s) (authorised s) x.

(** Populate an MFA ticket with valid MFA codes; a secret that is not base 32 panics *)
Definition populate `{Credentials} (now : Z) (mfa : MultiFactorAuthentication.t) (self : t) :
    Result t :=
  match Totp.generate_code now (MultiFactorAuthentication.totp_token mfa) with
  | Ok code => Ok (set_last_totp_code self (Some code))
  | Err _ => Ok (set_last_totp_code self None)
  | Panicked => Panicked
  end.

(** Check if this MFA ticket has expired *)
Definition is_expired `{Environment} (now : Z) (self : t) : Result bool :=
  ms ← unwrap (ulid_timestamp_ms (id self));
  limit ← unwrap (checked_add (ms * 10 ^ 6)%Z (minutes 5));
  Ok (limit <? now)%Z.
End MFATicket.

Module AccountInvite.
Record t : Type := mk { id : string; used : bool; claimed_by : option string }.
End AccountInvite.

(** ** Passwords ([util/password.rs]) *)

Section Checks.
Context `{Credentials}.

(** Hash a password using argon2; [salt] is what [nanoid!(24)] returns *)
Definition hash_with (salt plaintext_password : string) : Result string :=
  ok_or (hash_encoded plaintext_password salt) ErrorType.InternalError.

Definition assert_safe (password : string) : Result unit :=
  if bool_decide (String.length password < 8)%nat then Err ErrorType.ShortPassword else
  match easypwned password with
  | Some (Some true) => Ok tt
  | _ => if top_100k_compromised password then Err ErrorType.CompromisedPassword else Ok tt
  end.

(** ** Addresses ([util/email.rs]) *)

(** [email.split('@').next_back()] *)
Fixpoint last_segment (acc email : string) : string :=
  match email with
  | EmptyString => acc
  | String c email =>
      if bool_decide (c = "@"%char) then last_segment "" email
      else last_segment (acc +:+ String c "") email
  end.

Definition validate_email (email : string) : Result unit :=
  if negb (validator_email email) then Err (ErrorType.IncorrectData "email") else
  if revolt_source_list (last_segment "" email) then Err ErrorType.Blacklisted else Ok tt.
End Checks.

Definition newline : ascii := ascii_of_nat 10.

(** The longest prefix a class of characters matches, and the rest *)
Fixpoint span (f : ascii → bool) (s : string) : string * string :=
  match s with
  | EmptyString => (EmptyString, EmptyString)
  | String c s' => if f c then let '(a, b) := span f s' in (String c a, b) else (EmptyString, s)
  end.
Definition not_at (c : ascii) : bool := negb (bool_decide (c = "@"%char)).
Definition any (c : ascii) : bool := negb (bool_decide (c = newline)).

(** The groups of the leftmost match of [([^@]+)(@.+)]: from the first character that is no
    "@" on, everything up to the next "@", and the rest of that line. If nothing follows
    that "@" on its line, the search goes on behind it. [fuel] bounds the restarts. *)
Fixpoint split_email (fuel : nat) (s : string) : option (string * string) :=
  match fuel with
  | O => None
  | S fuel =>
      match span not_at (span (λ c, negb (not_at c)) s).2 with
      | (EmptyString, _) | (_, EmptyString) => None
      | (local, String at_ rest) =>
          match (span any rest).1 with
          | EmptyString => split_email fuel rest
          | domain => Some (local, String at_ domain)
          end
      end
  end.

(** [SYMBOL_RE.replace_all(local, "")] for [\+.+|\.]: a dot goes, and a plus with what
    follows it on its line *)
Fixpoint strip_symbols (skipping : bool) (s : string) : string :=
  match s with
  | EmptyString => EmptyString
  | String c s' =>
      if (skipping && any c) then strip_symbols true s' else
      if bool_decide (c = "."%char) then strip_symbols false s' else
      match s' with
      | String d _ =>
          if bool_decide (c = "+"%char) && any d then strip_symbols true s'
          else String c (strip_symbols false s')
      | EmptyString => String c EmptyString
      end
  end.

(** Strip special characters and aliases from emails; without a match the code panics *)
Definition normalise_email `{Lowercase} (original : string) : Result string :=
  '(local, domain) ← unwrap (split_email (S (String.length original)) original);
  Ok (to_lowercase (strip_symbols false local +:+ domain)).

Module EmailExamples.
#[local] Instance lowercase : Lowercase := ascii_lowercase.
Example alias : normalise_email "First.Last+news@Example.org" = Ok "firstlast@example.org".
Proof. reflexivity. Qed.
Example trailing_plus : normalise_email "a.b+@x" = Ok "ab+@x".
Proof. reflexivity. Qed.
Example leading_at : normalise_email "@a@b@c" = Ok "a@b@c".
Proof. reflexivity. Qed.
(** An address without "@" panics, also where it is not validated first. *)
Example malformed_panics : normalise_email "somebody" = Panicked ∧ normalise_email "a@" = Panicked.
Proof. by split. Qed.
End EmailExamples.

(** ** Tables *)

Module AccountsTable.
Abbreviation table := (gmap string Account.t).
Abbreviation T := (M ErrorType.t table).

(** The first account a predicate accepts, in the order of the map *)
Definition find_account `{HashIter} (f : Account.t → bool) : T (option Account.t) :=
  gets (λ accounts, List.find f (hash_values accounts)).

Definition fetch_account (id : string) : T Account.t := table_fetch id ErrorType.UnknownUser.
Definition fetch_account_by_normalised_email `{HashIter} (normalised_email : string) :
    T (option Account.t) :=
  find_account (λ account, bool_decide (Account.email_normalised account = normalised_email)).

(** Whether the verification, reset or deletion of an account has the token; the expiry of
    the token is not looked at. *)
Definition verifies (token_to_match : string) (account : Account.t) : bool :=
  match Account.verification account with
  | EmailVerification.Pending token _ | EmailVerification.Moving _ token _ =>
      bool_decide (token = token_to_match)
  | EmailVerification.Verified => false
  end.
Definition resets (token : string) (account : Account.t) : bool :=
  match Account.password_reset account with
  | Some reset => bool_decide (PasswordReset.token reset = token)
  | None => false
  end.
Definition deletes (token_to_match : string) (account : Account.t) : bool :=
  match Account.deletion account with
  | Some (DeletionInfo.WaitingForVerification token _) => bool_decide (token = token_to_match)
  | _ => false
  end.

Definition fetch_account_with_email_verification `{HashIter} (token : string) : T Account.t :=
  found ← find_account (verifies token); lift (ok_or found ErrorType.InvalidToken).
Definition fetch_account_with_password_reset `{HashIter} (token : string) : T Account.t :=
  found ← find_account (resets token); lift (ok_or found ErrorType.InvalidToken).
Definition fetch_account_with_deletion_token `{HashIter} (token : string) : T Account.t :=
  found ← find_account (deletes token); lift (ok_or found ErrorType.InvalidToken).

(** Scheduled for deletion at a time that has come *)
Definition due (now : Z) (account : Account.t) : bool :=
  match Account.deletion account with
  | Some (DeletionInfo.Scheduled after) => (after <=? now)%Z
  | _ => false
  end.
Definition fetch_accounts_due_for_deletion `{HashIter} (now : Z) : T (list Account.t) :=
  table_select (due now).

Definition clear_expired_registration_ips (before : Z) : T unit :=
  modify (fmap (λ account,
    match Account.registration_ip_at account with
    | Some recorded_at =>
        if (recorded_at <=? before)%Z
        then Account.set_registration_ip_at (Account.set_registration_ip account None) None
        else account
    | None => account
    end)).

(** [HashMap::insert] replaces the account that is there *)
Definition save_account (account : Account.t) : T unit :=
  modify <[Account.id account := account]>.
End AccountsTable.

Module SessionsTable.
Abbreviation table := (gmap string Session.t).
Abbreviation T := (M ErrorType.t table).

Definition fetch_session (id : string) : T Session.t := table_fetch id ErrorType.UnknownUser.
Definition fetch_sessions `{HashIter} (user_id : string) : T (list Session.t) :=
  table_select (λ session, bool_decide (Session.user_id session = user_id)).
Definition fetch_sessions_with_subscription `{HashIter} (user_ids : list string) :
    T (list Session.t) :=
  table_select (λ session,
    bool_decide (is_Some (Session.subscription session)) &&
    bool_decide (Session.user_id session ∈ user_ids)).
Definition fetch_session_by_token `{HashIter} (token : string) : T Session.t :=
  found ← gets (λ sessions,
    List.find (λ session, bool_decide (Session.token session = token)) (hash_values sessions));
  lift (ok_or found ErrorType.InvalidSession).
Definition save_session (session : Session.t) : T unit := modify <[Session.id session := session]>.
Definition delete_session (id : string) : T unit := table_delete id ErrorType.InvalidSession.
(** Delete the sessions of a user, but for one to be ignored *)
Definition delete_all_sessions (user_id : string) (ignore : option string) : T unit :=
  table_retain (λ _ session,
    if bool_decide (Session.user_id session = user_id)
    then match ignore with Some ignore => bool_decide (ignore = Session.id session) | None => false end
    else true).
Definition remove_push_subscription_by_session_id (session_id : string) : T unit :=
  modify (alter (λ session, Session.set_subscription session None) session_id).
Definition update_session_last_seen (session_id : string) (when : Z) : T unit :=
  modify (alter (λ session, Session.set_last_seen session when) session_id).
End SessionsTable.

Module TicketsTable.
Abbreviation table := (gmap string MFATicket.t).
Abbreviation T := (M ErrorType.t table).

(** Find ticket by token; a ticket is valid for five minutes *)
Definition fetch_ticket_by_token `{Environment, HashIter} (now : Z) (token : string) :
    T MFATicket.t :=
  found ← gets (λ tickets,
    List.find (λ ticket, bool_decide (MFATicket.token ticket = token)) (hash_values tickets));
  ticket ← lift (ok_or found ErrorType.InvalidToken);
  match ulid_timestamp_ms (MFATicket.id ticket) with
  | Some ms =>
      if (now <? ms * 10 ^ 6 + minutes 5)%Z then mret ticket else throw ErrorType.InvalidToken
  | None => throw ErrorType.InvalidToken
  end.
Definition save_ticket (ticket : MFATicket.t) : T unit := modify <[MFATicket.id ticket := ticket]>.
Definition delete_ticket (id : string) : T unit := table_delete id ErrorType.InvalidToken.
(** Delete all expired tickets; [threshold] is a new ULID of five minutes ago *)
Definition delete_expired_tickets (threshold : string) : T nat :=
  λ tickets,
    let kept := filter (λ kv, str_le threshold (MFATicket.id kv.2) = true) tickets in
    (Ok (size tickets - size kept)%nat, kept).
End TicketsTable.

Module AccountInvitesTable.
Abbreviation table := (gmap string AccountInvite.t).
Abbreviation T := (M ErrorType.t table).

Definition fetch_account_invite (id : string) : T AccountInvite.t :=
  table_fetch id ErrorType.InvalidInvite.
Definition save_account_invite (invite : AccountInvite.t) : T unit :=
  modify <[AccountInvite.id invite := invite]>.
End AccountInvitesTable.

(** ** Mails ([util/email.rs]) *)

(** The fields of [Templates] *)
Module Template.
Inductive t : Type := verify | reset | reset_existing | deletion | suspension.
(** URL to redirect people to from the email *)
Definition url (app : string) (self : t) : string :=
  match self with
  | verify => app +:+ "/login/verify/"
  | reset | reset_existing => app +:+ "/login/reset/"
  | deletion => app +:+ "/delete/"
  | suspension => ""
  end.
End Template.

(** A mail that was sent, with the variables of its template *)
Module Mail.
Record t : Type := mk {
  address : string;
  template : Template.t;
  variables : list (string * string)
}.
End Mail.
