(* ===== verification/Platform.v ===== *)
(** * Settings, policies, reports, snapshots, file hashes and rate limit events

    The small objects of [revolt-database] and their tables in the reference driver: modules
    [user_settings], [policy_changes], [safety_reports], [safety_snapshots], [file_hashes] and
    [ratelimit_events]. Times are nanoseconds since 1970. *)

From S2P Require Import Prelude Errors Files Users Servers Messages.
From stdpp Require Import base list gmap strings.
From Stdlib Require Import ZArith.

(** ** User settings: a timestamp and serialised data for each key *)

Abbreviation UserSettings := (gmap string (Z * string)).

Module UserSettingsTable.
Abbreviation table := (gmap string UserSettings).
Abbreviation T := (M ErrorType.t table).

Definition fetch_user_settings (id : string) (keys : list string) : T UserSettings :=
  λ user_settings,
    (ok_or ((λ settings : UserSettings, filter (λ kv, kv.1 ∈ keys) settings)
              <$> user_settings !! id) ErrorType.NotFound, user_settings).

(** The inner binding shadows the argument: settings that exist are extended by themselves. *)
Definition set_user_settings (id : string) (settings : UserSettings) : T unit :=
  λ user_settings,
    (Ok tt,
     match user_settings !! id with
     | Some settings => <[id := settings ∪ settings]> user_settings
     | None => <[id := settings]> user_settings
     end).

Definition delete_user_settings (id : string) : T unit := table_delete id ErrorType.NotFound.
End UserSettingsTable.

(** ** Policy changes *)

Module PolicyChange.
Record t : Type := mk {
  id : string;
  created_time : Z;
  effective_time : Z;
  description : string;
  url : string
}.
End PolicyChange.

Module PolicyChangesTable.
Abbreviation table := (gmap string PolicyChange.t).
Abbreviation T := (M ErrorType.t table).

Definition fetch_policy_changes `{HashIter} : T (list PolicyChange.t) :=
  gets (λ policy_changes, hash_values policy_changes).
End PolicyChangesTable.

(** [iter().max()] of times *)
Definition latest (times : list Z) : option Z :=
  match times with [] => None | t :: ts => Some (fold_left Z.max ts t) end.

Section Acknowledge.
Context `{HashIter}.
(** [acknowledge_policy_changes], on both tables *)
Definition acknowledge_policy_changes (user_id : string)
    (policy_changes : PolicyChangesTable.table) : UsersTable.T unit :=
  λ users,
    match users !! user_id with
    | None => (Panicked, users)
    | Some user =>
        let seen := default 0%Z (latest (PolicyChange.created_time <$> hash_values policy_changes)) in
        (Ok tt,
         <[user_id := User.mk (User.id user) (User.username user) (User.discriminator user)
             (User.display_name user) (User.pronouns user) (User.avatar user)
             (User.relations user) (User.badges user) (User.status user) (User.profile user)
             (User.flags user) (User.privileged user) (User.bot user)
             (User.suspended_until user) seen]> users)
    end.
End Acknowledge.

(** ** Reports *)

Module ContentReportReason.
Inductive t : Type :=
| NoneSpecified | Illegal | IllegalGoods | IllegalExtortion | IllegalPornography
| IllegalHacking | ExtremeViolence | PromotesHarm | UnsolicitedSpam | Raid | SpamAbuse
| ScamsFraud | Malware | Harassment.
End ContentReportReason.

Module UserReportReason.
Inductive t : Type :=
| NoneSpecified | UnsolicitedSpam | SpamAbuse | InappropriateProfile | Impersonation
| BanEvasion | Underage.
End UserReportReason.

Module ReportedContent.
Inductive t : Type :=
| Message (id : string) (report_reason : ContentReportReason.t)
| Server (id : string) (report_reason : ContentReportReason.t)
| User (id : string) (report_reason : UserReportReason.t) (message_id : option string).
End ReportedContent.

Module ReportStatus.
Inductive t : Type :=
| Created
| Rejected (rejection_reason : string) (closed_at : option Z)
| Resolved (closed_at : option Z).
End ReportStatus.

Module Report.
Record t : Type := mk {
  id : string;
  author_id : string;
  content : ReportedContent.t;
  additional_context : string;
  status : ReportStatus.t;
  notes : string
}.
End Report.

Module ReportsTable.
Abbreviation table := (gmap string Report.t).
Abbreviation T := (M ErrorType.t table).
Definition insert_report (report : Report.t) : T unit :=
  table_insert (Report.id report) report (create_database_error "insert" "report").
End ReportsTable.

(** ** Snapshots *)

Module SnapshotContent.
Inductive t : Type :=
| Message (prior_context leading_context : list Message.t) (message : Message.t)
| Server (server : Server.t)
| User (user : User.t).

Definition file_id (file : option File.t) : list string :=
  match file with Some file => [File.id file] | None => [] end.

(** Generate snapshot from a given server *)
Definition generate_from_server (server : Server.t) : t * list string :=
  (Server server, file_id (Server.icon server) ++ file_id (Server.banner server)).

(** Generate snapshot from a given user *)
Definition generate_from_user (user : User.t) : t * list string :=
  (User user, file_id (User.avatar user) ++ file_id (User.profile user ≫= UserProfile.background)).
End SnapshotContent.

Module Snapshot.
Record t : Type := mk { id : string; report_id : string; content : SnapshotContent.t }.
End Snapshot.

Module SnapshotsTable.
Abbreviation table := (gmap string Snapshot.t).
Abbreviation T := (M ErrorType.t table).
Definition insert_snapshot (snapshot : Snapshot.t) : T unit :=
  table_insert (Snapshot.id snapshot) snapshot (create_database_error "insert" "snapshot").
End SnapshotsTable.

(** ** File hashes *)

Module FileHash.
Record t : Type := mk {
  id : string;
  processed_hash : string;
  created_at : Z;
  bucket_id : string;
  path : string;
  iv : string;
  metadata : Metadata.t;
  content_type : string;
  size : Z
}.
Definition set_iv (h : t) (nonce : string) : t :=
  mk (id h) (processed_hash h) (created_at h) (bucket_id h) (path h) nonce (metadata h)
    (content_type h) (size h).
Definition set_metadata (h : t) (x : Metadata.t) : t :=
  mk (id h) (processed_hash h) (created_at h) (bucket_id h) (path h) (iv h) x
    (content_type h) (size h).

(** Create a file from a file hash; [now] is the clock *)
Definition into_file (self : t) (now : Z) (id_ tag filename uploader_id : string) : File.t :=
  File.mk id_ tag filename (Some (id self)) (Some now) (Some uploader_id) None None None
    (metadata self) (content_type self) (size self) None None None None.
End FileHash.

Module FileHashesTable.
Abbreviation table := (gmap string FileHash.t).
Abbreviation T := (M ErrorType.t table).

Definition insert_attachment_hash (hash : FileHash.t) : T unit :=
  table_insert (FileHash.id hash) hash (create_database_error "insert" "attachment").

Definition fetch_attachment_hash `{HashIter} (hash_value : string) : T FileHash.t :=
  λ hashes,
    (ok_or (List.find (λ hash, bool_decide (FileHash.id hash = hash_value) ||
                               bool_decide (FileHash.processed_hash hash = hash_value))
              (hash_values hashes)) ErrorType.NotFound, hashes).

Definition set_attachment_hash_nonce (hash nonce : string) : T unit :=
  table_update hash (λ file, FileHash.set_iv file nonce) ErrorType.NotFound.

Definition set_attachment_hash_animated (hash : string) (animated : bool) : T unit :=
  λ hashes,
    match hashes !! hash with
    | Some file =>
        match FileHash.metadata file with
        | Metadata.Image width height thumbhash (Some _) =>
            (Ok tt, <[hash := FileHash.set_metadata file
                        (Metadata.Image width height thumbhash (Some animated))]> hashes)
        | _ => (Err ErrorType.NotFound, hashes)
        end
    | None => (Err ErrorType.NotFound, hashes)
    end.

Definition delete_attachment_hash (id : string) : T unit := table_delete id ErrorType.NotFound.
End FileHashesTable.

(** ** Rate limit events *)

Module RatelimitEventType.
Inductive t : Type := DiscriminatorChange.
#[global] Instance t_eq_dec : EqDecision t.
Proof. solve_decision. Defined.
End RatelimitEventType.

Module RatelimitEvent.
Record t : Type := mk { id : string; target_id : string; event_type : RatelimitEventType.t }.
End RatelimitEvent.

Module RatelimitEventsTable.
Abbreviation table := (gmap string RatelimitEvent.t).
Abbreviation T := (M ErrorType.t table).

Definition insert_ratelimit_event (event : RatelimitEvent.t) : T unit :=
  table_insert (RatelimitEvent.id event) event (create_database_error "insert" "message").

(** Count number of events in given duration and check if we've hit the limit; [gte_cmp_id] is
    the ULID of the beginning of the period. *)
Definition has_ratelimited `{HashIter} (target_id : string) (event_type : RatelimitEventType.t)
    (gte_cmp_id : string) (count : nat) : T bool :=
  gets (λ ratelimit_events,
    bool_decide (count ≤ length (List.filter (λ e,
      negb (str_le e.1 gte_cmp_id) &&
      bool_decide (RatelimitEvent.target_id e.2 = target_id) &&
      bool_decide (RatelimitEvent.event_type e.2 = event_type)) (hash_iter ratelimit_events)))%nat).
End RatelimitEventsTable.

(** Settings that exist already are not updated. *)
Lemma settings_not_updated (id : string) (old new : UserSettings) (w : UserSettingsTable.table) :
  w !! id = Some old → (UserSettingsTable.set_user_settings id new w).2 = w.
Proof.
  intros Hw. unfold UserSettingsTable.set_user_settings. rewrite Hw. cbn [snd].
  rewrite (idemp_L (∪)). by apply insert_id.
Qed.
