(* ===== verification/World.v ===== *)
(** * The world the handlers run in

    The state every handler of [revolt-database] works on: the reference database (the
    tables of [drivers/reference.rs] that are modelled), the events published to Redis
    ([events/client.rs]), the messages handed to the message broker ([amqp/amqp.rs]), the
    queues of the background tasks ([tasks/*.rs]), the clock in nanoseconds and the
    count of generated ULIDs. A handler is a computation in [H]. *)

From S2P Require Import Prelude Errors Permissions Files Users Servers Channels Messages Unreads.
From S2P Require Import Config Emojis Webhooks Bots AuditLogs Accounts Platform.
From stdpp Require Import base list gmap strings.
From Stdlib Require Import ZArith.

(** ** The reference database *)

Module ReferenceDb.
Record t : Type := mk {
  audit_logs : AuditLogsTable.table;
  bots : BotsTable.table;
  channels : ChannelsTable.table;
  channel_invites : InvitesTable.table;
  channel_unreads : UnreadsTable.table;
  channel_webhooks : WebhooksTable.table;
  emojis : EmojisTable.table;
  file_hashes : FileHashesTable.table;
  files : FilesTable.table;
  messages : MessagesTable.table;
  policy_changes : PolicyChangesTable.table;
  ratelimit_events : RatelimitEventsTable.table;
  user_settings : UserSettingsTable.table;
  users : UsersTable.table;
  server_bans : BansTable.table;
  server_members : MembersTable.table;
  servers : ServersTable.table;
  safety_reports : ReportsTable.table;
  safety_snapshots : SnapshotsTable.table;
  accounts : AccountsTable.table;
  account_invites : AccountInvitesTable.table;
  sessions : SessionsTable.table;
  tickets : TicketsTable.table
}.
Definition empty : t :=
  mk ∅ ∅ ∅ ∅ ∅ ∅ ∅ ∅ ∅ ∅ ∅ ∅ ∅ ∅ ∅ ∅ ∅ ∅ ∅ ∅ ∅ ∅ ∅.

Definition set_audit_logs (d : t) x : t :=
  mk x (bots d) (channels d) (channel_invites d) (channel_unreads d) (channel_webhooks d)
    (emojis d) (file_hashes d) (files d) (messages d) (policy_changes d) (ratelimit_events d)
    (user_settings d) (users d) (server_bans d) (server_members d) (servers d) (safety_reports d)
    (safety_snapshots d) (accounts d) (account_invites d) (sessions d) (tickets d).
Definition set_bots (d : t) x : t :=
  mk (audit_logs d) x (channels d) (channel_invites d) (channel_unreads d) (channel_webhooks d)
    (emojis d) (file_hashes d) (files d) (messages d) (policy_changes d) (ratelimit_events d)
    (user_settings d) (users d) (server_bans d) (server_members d) (servers d) (safety_reports d)
    (safety_snapshots d) (accounts d) (account_invites d) (sessions d) (tickets d).
Definition set_channels (d : t) x : t :=
  mk (audit_logs d) (bots d) x (channel_invites d) (channel_unreads d) (channel_webhooks d)
    (emojis d) (file_hashes d) (files d) (messages d) (policy_changes d) (ratelimit_events d)
    (user_settings d) (users d) (server_bans d) (server_members d) (servers d) (safety_reports d)
    (safety_snapshots d) (accounts d) (account_invites d) (sessions d) (tickets d).
Definition set_channel_invites (d : t) x : t :=
  mk (audit_logs d) (bots d) (channels d) x (channel_unreads d) (channel_webhooks d) (emojis d)
    (file_hashes d) (files d) (messages d) (policy_changes d) (ratelimit_events d)
    (user_settings d) (users d) (server_bans d) (server_members d) (servers d) (safety_reports d)
    (safety_snapshots d) (accounts d) (account_invites d) (sessions d) (tickets d).
Definition set_channel_unreads (d : t) x : t :=
  mk (audit_logs d) (bots d) (channels d) (channel_invites d) x (channel_webhooks d) (emojis d)
    (file_hashes d) (files d) (messages d) (policy_changes d) (ratelimit_events d)
    (user_settings d) (users d) (server_bans d) (server_members d) (servers d) (safety_reports d)
    (safety_snapshots d) (accounts d) (account_invites d) (sessions d) (tickets d).
Definition set_channel_webhooks (d : t) x : t :=
  mk (audit_logs d) (bots d) (channels d) (channel_invites d) (channel_unreads d) x (emojis d)
    (file_hashes d) (files d) (messages d) (policy_changes d) (ratelimit_events d)
    (user_settings d) (users d) (server_bans d) (server_members d) (servers d) (safety_reports d)
    (safety_snapshots d) (accounts d) (account_invites d) (sessions d) (tickets d).
Definition set_emojis (d : t) x : t :=
  mk (audit_logs d) (bots d) (channels d) (channel_invites d) (channel_unreads d)
    (channel_webhooks d) x (file_hashes d) (files d) (messages d) (policy_changes d)
    (ratelimit_events d) (user_settings d) (users d) (server_bans d) (server_members d)
    (servers d) (safety_reports d) (safety_snapshots d) (accounts d) (account_invites d)
    (sessions d) (tickets d).
Definition set_file_hashes (d : t) x : t :=
  mk (audit_logs d) (bots d) (channels d) (channel_invites d) (channel_unreads d)
    (channel_webhooks d) (emojis d) x (files d) (messages d) (policy_changes d)
    (ratelimit_events d) (user_settings d) (users d) (server_bans d) (server_members d)
    (servers d) (safety_reports d) (safety_snapshots d) (accounts d) (account_invites d)
    (sessions d) (tickets d).
Definition set_files (d : t) x : t :=
  mk (audit_logs d) (bots d) (channels d) (channel_invites d) (channel_unreads d)
    (channel_webhooks d) (emojis d) (file_hashes d) x (messages d) (policy_changes d)
    (ratelimit_events d) (user_settings d) (users d) (server_bans d) (server_members d)
    (servers d) (safety_reports d) (safety_snapshots d) (accounts d) (account_invites d)
    (sessions d) (tickets d).
Definition set_messages (d : t) x : t :=
  mk (audit_logs d) (bots d) (channels d) (channel_invites d) (channel_unreads d)
    (channel_webhooks d) (emojis d) (file_hashes d) (files d) x (policy_changes d)
    (ratelimit_events d) (user_settings d) (users d) (server_bans d) (server_members d)
    (servers d) (safety_reports d) (safety_snapshots d) (accounts d) (account_invites d)
    (sessions d) (tickets d).
Definition set_policy_changes (d : t) x : t :=
  mk (audit_logs d) (bots d) (channels d) (channel_invites d) (channel_unreads d)
    (channel_webhooks d) (emojis d) (file_hashes d) (files d) (messages d) x (ratelimit_events d)
    (user_settings d) (users d) (server_bans d) (server_members d) (servers d) (safety_reports d)
    (safety_snapshots d) (accounts d) (account_invites d) (sessions d) (tickets d).
Definition set_ratelimit_events (d : t) x : t :=
  mk (audit_logs d) (bots d) (channels d) (channel_invites d) (channel_unreads d)
    (channel_webhooks d) (emojis d) (file_hashes d) (files d) (messages d) (policy_changes d) x
    (user_settings d) (users d) (server_bans d) (server_members d) (servers d) (safety_reports d)
    (safety_snapshots d) (accounts d) (account_invites d) (sessions d) (tickets d).
Definition set_user_settings (d : t) x : t :=
  mk (audit_logs d) (bots d) (channels d) (channel_invites d) (channel_unreads d)
    (channel_webhooks d) (emojis d) (file_hashes d) (files d) (messages d) (policy_changes d)
    (ratelimit_events d) x (users d) (server_bans d) (server_members d) (servers d)
    (safety_reports d) (safety_snapshots d) (accounts d) (account_invites d) (sessions d)
    (tickets d).
Definition set_users (d : t) x : t :=
  mk (audit_logs d) (bots d) (channels d) (channel_invites d) (channel_unreads d)
    (channel_webhooks d) (emojis d) (file_hashes d) (files d) (messages d) (policy_changes d)
    (ratelimit_events d) (user_settings d) x (server_bans d) (server_members d) (servers d)
    (safety_reports d) (safety_snapshots d) (accounts d) (account_invites d) (sessions d)
    (tickets d).
Definition set_server_bans (d : t) x : t :=
  mk (audit_logs d) (bots d) (channels d) (channel_invites d) (channel_unreads d)
    (channel_webhooks d) (emojis d) (file_hashes d) (files d) (messages d) (policy_changes d)
    (ratelimit_events d) (user_settings d) (users d) x (server_members d) (servers d)
    (safety_reports d) (safety_snapshots d) (accounts d) (account_invites d) (sessions d)
    (tickets d).
Definition set_server_members (d : t) x : t :=
  mk (audit_logs d) (bots d) (channels d) (channel_invites d) (channel_unreads d)
    (channel_webhooks d) (emojis d) (file_hashes d) (files d) (messages d) (policy_changes d)
    (ratelimit_events d) (user_settings d) (users d) (server_bans d) x (servers d)
    (safety_reports d) (safety_snapshots d) (accounts d) (account_invites d) (sessions d)
    (tickets d).
Definition set_servers (d : t) x : t :=
  mk (audit_logs d) (bots d) (channels d) (channel_invites d) (channel_unreads d)
    (channel_webhooks d) (emojis d) (file_hashes d) (files d) (messages d) (policy_changes d)
    (ratelimit_events d) (user_settings d) (users d) (server_bans d) (server_members d) x
    (safety_reports d) (safety_snapshots d) (accounts d) (account_invites d) (sessions d)
    (tickets d).
Definition set_safety_reports (d : t) x : t :=
  mk (audit_logs d) (bots d) (channels d) (channel_invites d) (channel_unreads d)
    (channel_webhooks d) (emojis d) (file_hashes d) (files d) (messages d) (policy_changes d)
    (ratelimit_events d) (user_settings d) (users d) (server_bans d) (server_members d)
    (servers d) x (safety_snapshots d) (accounts d) (account_invites d) (sessions d) (tickets d).
Definition set_safety_snapshots (d : t) x : t :=
  mk (audit_logs d) (bots d) (channels d) (channel_invites d) (channel_unreads d)
    (channel_webhooks d) (emojis d) (file_hashes d) (files d) (messages d) (policy_changes d)
    (ratelimit_events d) (user_settings d) (users d) (server_bans d) (server_members d)
    (servers d) (safety_reports d) x (accounts d) (account_invites d) (sessions d) (tickets d).
Definition set_accounts (d : t) x : t :=
  mk (audit_logs d) (bots d) (channels d) (channel_invites d) (channel_unreads d)
    (channel_webhooks d) (emojis d) (file_hashes d) (files d) (messages d) (policy_changes d)
    (ratelimit_events d) (user_settings d) (users d) (server_bans d) (server_members d)
    (servers d) (safety_reports d) (safety_snapshots d) x (account_invites d) (sessions d)
    (tickets d).
Definition set_account_invites (d : t) x : t :=
  mk (audit_logs d) (bots d) (channels d) (channel_invites d) (channel_unreads d)
    (channel_webhooks d) (emojis d) (file_hashes d) (files d) (messages d) (policy_changes d)
    (ratelimit_events d) (user_settings d) (users d) (server_bans d) (server_members d)
    (servers d) (safety_reports d) (safety_snapshots d) (accounts d) x (sessions d) (tickets d).
Definition set_sessions (d : t) x : t :=
  mk (audit_logs d) (bots d) (channels d) (channel_invites d) (channel_unreads d)
    (channel_webhooks d) (emojis d) (file_hashes d) (files d) (messages d) (policy_changes d)
    (ratelimit_events d) (user_settings d) (users d) (server_bans d) (server_members d)
    (servers d) (safety_reports d) (safety_snapshots d) (accounts d) (account_invites d) x
    (tickets d).
Definition set_tickets (d : t) x : t :=
  mk (audit_logs d) (bots d) (channels d) (channel_invites d) (channel_unreads d)
    (channel_webhooks d) (emojis d) (file_hashes d) (files d) (messages d) (policy_changes d)
    (ratelimit_events d) (user_settings d) (users d) (server_bans d) (server_members d)
    (servers d) (safety_reports d) (safety_snapshots d) (accounts d) (account_invites d)
    (sessions d) x.
End ReferenceDb.

(** ** Users as clients see them ([v0::User]) *)

Module V0User.
Record t : Type := mk {
  id : string;
  username : string;
  discriminator : string;
  display_name : option string;
  pronouns : option string;
  avatar : option File.t;
  relations : list Relationship.t;
  badges : Z;
  status : option UserStatus.t;
  flags : Z;
  privileged : bool;
  bot : option BotInformation.t;
  relationship : RelationshipStatus.t;
  online : bool
}.
End V0User.

(** Message Author Abstraction *)
Module MessageAuthor.
Inductive t : Type :=
| User (user : V0User.t)
| Webhook (webhook : Webhook.t)
| System (username : string) (avatar : option string).

Definition id (self : t) : string :=
  match self with
  | User user => V0User.id user
  | Webhook webhook => Webhook.id webhook
  | System _ _ => "00000000000000000000000000"
  end.
Definition avatar (self : t) : option string :=
  match self with
  | User user => File.id <$> V0User.avatar user
  | Webhook webhook => File.id <$> Webhook.avatar webhook
  | System _ avatar => avatar
  end.
Definition username (self : t) : string :=
  match self with
  | User user => V0User.username user
  | Webhook webhook => Webhook.name webhook
  | System username _ => username
  end.
End MessageAuthor.

(** ** Voice states ([v0::UserVoiceState]) *)

Module UserVoiceState.
Record t : Type := mk {
  id : string;
  joined_at : Z;
  is_receiving : bool;
  is_publishing : bool;
  screensharing : bool;
  camera : bool
}.
End UserVoiceState.

Module PartialUserVoiceState.
Record t : Type := mk {
  id : option string;
  joined_at : option Z;
  is_receiving : option bool;
  is_publishing : option bool;
  screensharing : option bool;
  camera : option bool
}.
Definition default : t := mk None None None None None None.
#[global] Instance t_eq_dec : EqDecision t.
Proof. solve_decision. Defined.
End PartialUserVoiceState.

(** ** Events *)

(** The events that are published; what only the gateway sends to its clients is in
    [Gateway]. Objects are carried as the
    database model has them: the conversion to the API models copies their fields, except
    for users, whose conversion hides fields and is modelled ([V0User]), and
    [v0::PartialEmoji], whose only field is the name. [v0::PartialUser] has a field [online]
    in addition to the fields of the database's partial; it is carried beside it. Without the
    feature "voice" the list of voice states of [ServerCreate] is empty; it is left out. *)
Module EventV1.
Inductive t : Type :=
| Message (message : Message.t) (user : option V0User.t) (member : option Member.t)
| MessageUpdate (id channel : string) (data : PartialMessage.t) (clear : list FieldsMessage.t)
| MessageAppend (id channel : string) (append : AppendMessage.t)
| MessageDelete (id channel : string)
| MessageReact (id channel_id user_id emoji_id : string)
| MessageUnreact (id channel_id user_id emoji_id : string)
| MessageRemoveReaction (id channel_id emoji_id : string)
| BulkMessageDelete (channel : string) (ids : list string)
| ChannelCreate (channel : Channel.t)
| ChannelUpdate (id : string) (data : PartialChannel.t) (clear : list FieldsChannel.t)
| ChannelDelete (id : string)
| ChannelGroupJoin (id user : string)
| ChannelGroupLeave (id user : string)
| ChannelAck (id user message_id : string)
| ServerCreate (id : string) (server : Server.t) (channels : list Channel.t)
    (emojis : list Emoji.t)
| ServerUpdate (id : string) (data : PartialServer.t) (clear : list FieldsServer.t)
| ServerDelete (id : string)
| ServerMemberJoin (id user : string) (member : Member.t)
| ServerMemberUpdate (id : MemberCompositeKey.t) (data : PartialMember.t)
    (clear : list FieldsMember.t)
| ServerMemberLeave (id user : string) (reason : RemovalIntention.t)
| ServerRoleUpdate (id role_id : string) (data : PartialRole.t) (clear : list FieldsRole.t)
| ServerRoleDelete (id role_id : string)
| ServerRoleRanksUpdate (id : string) (ranks : list string)
| UserRelationship (id : string) (user : V0User.t)
| UserUpdate (id : string) (data : PartialUser.t) (online : bool) (clear : list FieldsUser.t)
    (event_id : option string)
| EmojiCreate (emoji : Emoji.t)
| EmojiUpdate (id : string) (name : option string)
| EmojiDelete (id : string)
| WebhookCreate (webhook : Webhook.t)
| WebhookUpdate (id : string) (data : PartialWebhook.t) (remove : list FieldsWebhook.t)
| WebhookDelete (id : string)
| UserSettingsUpdate (id : string) (update : UserSettings)
| ReportCreate (report : Report.t)
| ChannelStartTyping (id user : string)
| ChannelStopTyping (id user : string)
| VoiceChannelJoin (id : string) (state : UserVoiceState.t)
| VoiceChannelLeave (id user : string)
| VoiceChannelMove (user from to : string) (state : UserVoiceState.t)
| UserVoiceStateUpdate (id channel_id : string) (data : PartialUserVoiceState.t)
| UserMoveVoiceChannel (node from to token : string)
| UserSlowmodes (channel_id : string) (duration retry_after : Z)
| UserPlatformWipe (user_id : string) (flags : Z)
| Logout
| CreateAccount (account : Account.t)
| CreateSession (session : Session.t)
| DeleteSession (user_id session_id : string)
| DeleteAllSessions (user_id : string) (exclude_session_id : option string).
End EventV1.

(** ** Push notifications ([v0::PushNotification]) *)

Module PushNotification.
Record t : Type := mk {
  author : string;
  icon : string;
  image : option string;
  body : string;
  raw_body : option string;
  tag : string;
  timestamp : Z;
  url : string;
  message : Message.t * option V0User.t * option Member.t;
  channel : Channel.t
}.

(** [impl From<SystemMessage> for String] *)
Definition system_text (s : SystemMessage.t) : string :=
  match s with
  | SystemMessage.Text content => content
  | SystemMessage.UserAdded _ _ => "User added to the channel."
  | SystemMessage.UserRemove _ _ => "User removed from the channel."
  | SystemMessage.UserJoined _ => "User joined the channel."
  | SystemMessage.UserLeft _ => "User left the channel."
  | SystemMessage.UserKicked _ => "User kicked from the channel."
  | SystemMessage.UserBanned _ => "User banned from the channel."
  | SystemMessage.ChannelRenamed _ _ => "Channel renamed."
  | SystemMessage.ChannelDescriptionChanged _ => "Channel description changed."
  | SystemMessage.ChannelIconChanged _ => "Channel icon changed."
  | SystemMessage.ChannelOwnershipChanged _ _ => "Channel ownership changed."
  | SystemMessage.MessagePinned _ _ => "Message pinned."
  | SystemMessage.MessageUnpinned _ _ => "Message unpinned."
  | SystemMessage.CallStarted _ _ => "Call started."
  end.

(** The text shown for the first embed *)
Definition embed_text (e : option Embed.t) : string :=
  match e with
  | Some (Embed.Image _) => "Sent an image"
  | Some (Embed.Video _) => "Sent a video"
  | Some (Embed.Text e) =>
      match Text.description e, Text.title e with
      | Some d, _ => d
      | None, Some x => x
      | None, None => "Empty Embed"
      end
  | Some (Embed.Website e) =>
      match WebsiteMetadata.title e, WebsiteMetadata.description e, WebsiteMetadata.site_name e with
      | Some x, _, _ => x
      | None, Some d, _ => d
      | None, None, Some n => n
      | None, None, None => "Empty Embed"
      end
  | Some Embed.None => "Empty Message"
  | None => "Empty Message"
  end.

(** Create a new notification from a given message, author and channel; [now] is the
    clock in nanoseconds. *)
Definition from `{Environment} (now : Z) (msg : Message.t) (user : option V0User.t)
    (member : option Member.t) (author : option MessageAuthor.t) (channel : Channel.t) : t :=
  let hosts := Settings.hosts config in
  {| author := match author with Some x => MessageAuthor.username x | None => "Revolt" end;
     icon := match author with
             | Some author =>
                 match MessageAuthor.avatar author with
                 | Some avatar => Hosts.autumn hosts +:+ "/avatars/" +:+ avatar
                 | None => Hosts.api hosts +:+ "/users/" +:+ MessageAuthor.id author +:+
                           "/default_avatar"
                 end
             | None => Hosts.app hosts +:+ "/assets/logo.png"
             end;
     image := attachments ← Message.attachments msg;
              v ← head attachments;
              Some (Hosts.autumn hosts +:+ "/attachments/" +:+ File.id v);
     body := match Message.system msg, Message.content msg, Message.embeds msg with
             | Some sys, _, _ => system_text sys
             | None, Some text, _ => text
             | None, None, Some embeds => embed_text (head embeds)
             | None, None, None => "Empty Message"
             end;
     raw_body := None;
     tag := Channel.id channel;
     timestamp := (now / 10 ^ 9)%Z;
     url := Hosts.app hosts +:+ "/channel/" +:+ Channel.id channel +:+ "/" +:+ Message.id msg;
     message := (msg, user, member);
     channel := channel |}.
End PushNotification.

(** ** Queues of the background tasks *)

Module LastMessageId.
Module Data.
Record t : Type := mk { channel : string; id : string; is_dm : bool }.
End Data.
End LastMessageId.

Module Ack.
(** push notification, message, recipients, push silenced *)
Abbreviation pending := (option PushNotification.t * Message.t * list string * bool)%type.

(** Enumeration of possible events *)
Module AckEvent.
Inductive t : Type :=
| ProcessMessage (messages : list pending)
| AckMessage (id : string).
End AckEvent.

Module Data.
Record t : Type := mk { channel : string; user : option string; event : AckEvent.t }.
End Data.
End Ack.

Module ProcessEmbeds.
Module EmbedTask.
Record t : Type := mk { channel : string; id : string; content : string }.
End EmbedTask.
End ProcessEmbeds.

(** [Q.try_push(task).ok()] on a queue of capacity 10,000: a full queue drops the task *)
Definition queue_capacity : nat := Z.to_nat 10000.
Definition try_push {A} (q : list A) (a : A) : list A :=
  if bool_decide (length q < queue_capacity)%nat then q ++ [a] else q.

(** ** Messages to the broker *)

Module Amqp.
Inductive t : Type :=
| FriendRequestAccepted (accepted_request_user sent_request_user : User.t)
| FriendRequestReceived (received_request_user sent_request_user : User.t)
| MessageSent (recipients : list string) (payload : PushNotification.t)
| MassMentionMessageSent (server_id : string) (payload : list PushNotification.t)
| AckNotificationMessage (user_id channel_id message_id : string)
| ProcessAck (user_id : string) (channel_id server_id : option string)
| GenericMessage (user : User.t) (title body : string) (icon : option string)
| DmCallUpdated (initiator_id channel_id : string) (started_at : option string) (ended : bool)
    (recipients : option (list string)).
End Amqp.

(** ** Requests to the voice servers *)

Module ParticipantPermission.
Record t : Type := mk { can_subscribe : bool; can_publish : bool; can_publish_data : bool }.
End ParticipantPermission.

(** The requests [livekit_api]'s [RoomClient] sends to a node *)
Module LiveKit.
Inductive t : Type :=
| CreateRoom (node room : string) (empty_timeout : Z) (metadata_server : option string)
| UpdateParticipant (node room identity : string) (permission : ParticipantPermission.t)
| RemoveParticipant (node room identity : string)
| DeleteRoom (node room : string).
End LiveKit.

(** ** The world *)

Module World.
(** [nonces] is the cache of idempotency keys ([util/idempotency.rs]). [redis] is the
    key-value store: the value of each key that holds a string and the time at which it
    expires, if any; [redis_sets] the members of each key that holds a set (the key of a
    string is never the key of a set: every key is a fixed prefix and ids, or two ids).
    [livekit] lists the requests made to the voice servers, [mails] the mails sent. *)
Record t : Type := mk {
  db : ReferenceDb.t;
  events : list (string * EventV1.t);
  broker : list Amqp.t;
  last_message_ids : list LastMessageId.Data.t;
  acks : list Ack.Data.t;
  embeds : list ProcessEmbeds.EmbedTask.t;
  now : Z;
  ulids : nat;
  nonces : list string;
  redis : gmap string (string * option Z);
  redis_sets : gmap string (gset string);
  livekit : list LiveKit.t;
  mails : list Mail.t
}.
Definition empty : t := mk ReferenceDb.empty [] [] [] [] [] 0 0 [] ∅ ∅ [] [].

Definition set_db (d : t) x : t :=
  mk x (events d) (broker d) (last_message_ids d) (acks d) (embeds d) (now d) (ulids d)
    (nonces d) (redis d) (redis_sets d) (livekit d) (mails d).
Definition set_events (d : t) x : t :=
  mk (db d) x (broker d) (last_message_ids d) (acks d) (embeds d) (now d) (ulids d) (nonces d)
    (redis d) (redis_sets d) (livekit d) (mails d).
Definition set_broker (d : t) x : t :=
  mk (db d) (events d) x (last_message_ids d) (acks d) (embeds d) (now d) (ulids d) (nonces d)
    (redis d) (redis_sets d) (livekit d) (mails d).
Definition set_last_message_ids (d : t) x : t :=
  mk (db d) (events d) (broker d) x (acks d) (embeds d) (now d) (ulids d) (nonces d) (redis d)
    (redis_sets d) (livekit d) (mails d).
Definition set_acks (d : t) x : t :=
  mk (db d) (events d) (broker d) (last_message_ids d) x (embeds d) (now d) (ulids d) (nonces d)
    (redis d) (redis_sets d) (livekit d) (mails d).
Definition set_embeds (d : t) x : t :=
  mk (db d) (events d) (broker d) (last_message_ids d) (acks d) x (now d) (ulids d) (nonces d)
    (redis d) (redis_sets d) (livekit d) (mails d).
Definition set_now (d : t) x : t :=
  mk (db d) (events d) (broker d) (last_message_ids d) (acks d) (embeds d) x (ulids d)
    (nonces d) (redis d) (redis_sets d) (livekit d) (mails d).
Definition set_ulids (d : t) x : t :=
  mk (db d) (events d) (broker d) (last_message_ids d) (acks d) (embeds d) (now d) x (nonces d)
    (redis d) (redis_sets d) (livekit d) (mails d).
Definition set_nonces (d : t) x : t :=
  mk (db d) (events d) (broker d) (last_message_ids d) (acks d) (embeds d) (now d) (ulids d) x
    (redis d) (redis_sets d) (livekit d) (mails d).
Definition set_redis (d : t) x : t :=
  mk (db d) (events d) (broker d) (last_message_ids d) (acks d) (embeds d) (now d) (ulids d)
    (nonces d) x (redis_sets d) (livekit d) (mails d).
Definition set_redis_sets (d : t) x : t :=
  mk (db d) (events d) (broker d) (last_message_ids d) (acks d) (embeds d) (now d) (ulids d)
    (nonces d) (redis d) x (livekit d) (mails d).
Definition set_livekit (d : t) x : t :=
  mk (db d) (events d) (broker d) (last_message_ids d) (acks d) (embeds d) (now d) (ulids d)
    (nonces d) (redis d) (redis_sets d) x (mails d).
Definition set_mails (d : t) x : t :=
  mk (db d) (events d) (broker d) (last_message_ids d) (acks d) (embeds d) (now d) (ulids d)
    (nonces d) (redis d) (redis_sets d) (livekit d) x.
End World.

(** A handler *)
Abbreviation H := (M ErrorType.t World.t).

(** Run an operation of one table of the database. *)
Definition on_table {T A} (get : ReferenceDb.t → T) (set : ReferenceDb.t → T → ReferenceDb.t)
    (m : M ErrorType.t T A) : H A :=
  λ w, let '(r, x) := m (get (World.db w)) in (r, World.set_db w (set (World.db w) x)).

Definition on_channels {A} : ChannelsTable.T A → H A :=
  on_table ReferenceDb.channels ReferenceDb.set_channels.
Definition on_unreads {A} : UnreadsTable.T A → H A :=
  on_table ReferenceDb.channel_unreads ReferenceDb.set_channel_unreads.
Definition on_emojis {A} : EmojisTable.T A → H A :=
  on_table ReferenceDb.emojis ReferenceDb.set_emojis.
Definition on_files {A} : FilesTable.T A → H A :=
  on_table ReferenceDb.files ReferenceDb.set_files.
Definition on_messages {A} : MessagesTable.T A → H A :=
  on_table ReferenceDb.messages ReferenceDb.set_messages.
Definition on_users {A} : UsersTable.T A → H A :=
  on_table ReferenceDb.users ReferenceDb.set_users.
Definition on_bans {A} : BansTable.T A → H A :=
  on_table ReferenceDb.server_bans ReferenceDb.set_server_bans.
Definition on_members {A} : MembersTable.T A → H A :=
  on_table ReferenceDb.server_members ReferenceDb.set_server_members.
Definition on_audit_logs {A} : AuditLogsTable.T A → H A :=
  on_table ReferenceDb.audit_logs ReferenceDb.set_audit_logs.
Definition on_bots {A} : BotsTable.T A → H A :=
  on_table ReferenceDb.bots ReferenceDb.set_bots.
Definition on_invites {A} : InvitesTable.T A → H A :=
  on_table ReferenceDb.channel_invites ReferenceDb.set_channel_invites.
Definition on_webhooks {A} : WebhooksTable.T A → H A :=
  on_table ReferenceDb.channel_webhooks ReferenceDb.set_channel_webhooks.
Definition on_servers {A} : ServersTable.T A → H A :=
  on_table ReferenceDb.servers ReferenceDb.set_servers.
Definition on_accounts {A} : AccountsTable.T A → H A :=
  on_table ReferenceDb.accounts ReferenceDb.set_accounts.
Definition on_account_invites {A} : AccountInvitesTable.T A → H A :=
  on_table ReferenceDb.account_invites ReferenceDb.set_account_invites.
Definition on_sessions {A} : SessionsTable.T A → H A :=
  on_table ReferenceDb.sessions ReferenceDb.set_sessions.
Definition on_user_settings {A} : UserSettingsTable.T A → H A :=
  on_table ReferenceDb.user_settings ReferenceDb.set_user_settings.
Definition on_policy_changes {A} : PolicyChangesTable.T A → H A :=
  on_table ReferenceDb.policy_changes ReferenceDb.set_policy_changes.
Definition on_reports {A} : ReportsTable.T A → H A :=
  on_table ReferenceDb.safety_reports ReferenceDb.set_safety_reports.
Definition on_snapshots {A} : SnapshotsTable.T A → H A :=
  on_table ReferenceDb.safety_snapshots ReferenceDb.set_safety_snapshots.
Definition on_tickets {A} : TicketsTable.T A → H A :=
  on_table ReferenceDb.tickets ReferenceDb.set_tickets.

(** ** Publishing *)

(** Publish helper wrapper *)
Definition p (event : EventV1.t) (channel : string) : H unit :=
  modify (λ w, World.set_events w (World.events w ++ [(channel, event)])).
(** Publish private event *)
Definition private (event : EventV1.t) (id : string) : H unit := p event (id +:+ "!").
(** Publish server member event *)
Definition server (event : EventV1.t) (id : string) : H unit := p event (id +:+ "u").
(** Publish internal global event *)
Definition global (event : EventV1.t) : H unit := p event "global".

(** Publish user event *)
Definition p_user `{HashIter} (event : EventV1.t) (id : string) : H unit :=
  p event id ;;
  members ← attempt (on_members (MembersTable.fetch_all_memberships id));
  match members with
  | Some members =>
      for_each members (λ member,
        server event (MemberCompositeKey.server (Member.id member)))
  | None => mret tt
  end.

(** Hand a message to the broker; the callers ignore whether that succeeds. *)
Definition amqp (message : Amqp.t) : H unit :=
  modify (λ w, World.set_broker w (World.broker w ++ [message])).

(** [tasks::last_message_id::queue], [tasks::ack::queue_message] and [queue_ack],
    [tasks::process_embeds::queue] *)
Definition queue_last_message_id (channel id : string) (is_dm : bool) : H unit :=
  modify (λ w, World.set_last_message_ids w
    (try_push (World.last_message_ids w) (LastMessageId.Data.mk channel id is_dm))).
Definition queue_ack (channel user : string) (event : Ack.AckEvent.t) : H unit :=
  modify (λ w, World.set_acks w
    (try_push (World.acks w) (Ack.Data.mk channel (Some user) event))).
Definition queue_message (channel : string) (event : Ack.AckEvent.t) : H unit :=
  modify (λ w, World.set_acks w (try_push (World.acks w) (Ack.Data.mk channel None event))).
Definition queue_embeds (channel id content : string) : H unit :=
  modify (λ w, World.set_embeds w
    (try_push (World.embeds w) (ProcessEmbeds.EmbedTask.mk channel id content))).

(** [Ulid::new().to_string()] *)
Definition ulid `{Environment} : H string :=
  λ w, (Ok (new_ulid (World.ulids w)), World.set_ulids w (S (World.ulids w))).

(** [nanoid!(n)] *)
Definition nanoid `{Environment} : H string :=
  λ w, (Ok (new_nanoid (World.ulids w)), World.set_ulids w (S (World.ulids w))).

(** The clock *)
Definition clock : H Z := gets World.now.

(** ** Frames: what a handler leaves alone *)

(** [m] does not change what [f] reads. *)
Definition keeps {A B} (f : World.t → B) (m : H A) : Prop := ∀ w, f (m w).2 = f w.

Lemma keeps_bind {A B C} (f : World.t → C) (m : H A) (k : A → H B) :
  keeps f m → (∀ a, keeps f (k a)) → keeps f (m ≫= k).
Proof.
  intros Hm Hk w. rewrite M_bind_unfold. specialize (Hm w).
  destruct (m w) as [[a| |] w']; simpl in *; [|done..]. by rewrite Hk.
Qed.

Lemma keeps_ret {A C} (f : World.t → C) (a : A) : keeps f (mret a).
Proof. done. Qed.
Lemma keeps_throw {A C} (f : World.t → C) e : keeps f (throw (A := A) e).
Proof. done. Qed.
Lemma keeps_lift {A C} (f : World.t → C) (o : Result A) : keeps f (lift o).
Proof. done. Qed.
Lemma keeps_gets {A C} (f : World.t → C) (g : World.t → A) : keeps f (gets g).
Proof. done. Qed.
Lemma keeps_attempt {A C} (f : World.t → C) (m : H A) : keeps f m → keeps f (attempt m).
Proof. intros Hm w. unfold attempt. specialize (Hm w). by destruct (m w) as [[]]. Qed.
Lemma keeps_modify {C} (f : World.t → C) g : (∀ w, f (g w) = f w) → keeps f (modify g).
Proof. intros Hg w. apply Hg. Qed.
Lemma keeps_table {T A C} (f : World.t → C) get set (m : M ErrorType.t T A) :
  (∀ w x, f (World.set_db w (set (World.db w) x)) = f w) → keeps f (on_table get set m).
Proof. intros Hf w. unfold on_table. destruct (m _) as [r x]. apply Hf. Qed.

Lemma for_each_keeps {A C} (f : World.t → C) (l : list A) (k : A → H unit) :
  (∀ a, keeps f (k a)) → keeps f (for_each l k).
Proof. intros Hk. induction l; simpl; [apply keeps_ret|apply keeps_bind; auto]. Qed.

Create HintDb keeps.
#[export] Hint Resolve keeps_ret keeps_throw keeps_lift keeps_gets keeps_attempt : keeps.

(** Decompose a handler and close its steps with the base [keeps]. *)
Ltac solve_keeps :=
  repeat first
    [ solve [auto with keeps]
    | apply keeps_bind; [|intros ?]
    | apply keeps_attempt
    | apply keeps_modify; done
    | apply keeps_table; done
    | match goal with
      | |- keeps _ (match ?x with _ => _ end) => destruct x
      end ].
