(* ===== verification/Database.v ===== *)
(** * The database as the permission query sees it

    Discharges [PermissionDatabase] for the database of [World.v]. Which servers and
    channels two users share is computed by the database driver: the production driver
    runs an aggregation on the database server, the reference driver's functions are
    [todo!()] and panic ([UsersTable.fetch_mutual_server_ids]). Handlers that need them take them from
    [MutualIds]. *)

From S2P Require Import Prelude Errors Permissions PermissionSpec Files Users Servers Channels.
From S2P Require Import PermissionQuery Messages Unreads Config Emojis World.
From stdpp Require Import base list gmap strings.
From Stdlib Require Import ZArith.

Class MutualIds := {
  mutual_server_ids : ReferenceDb.t → string → string → Result (list string);
  mutual_channel_ids : ReferenceDb.t → string → string → Result (list string)
}.

(** The reference driver *)
Definition reference_mutual_ids : MutualIds := {|
  mutual_server_ids d a b := (UsersTable.fetch_mutual_server_ids a b (ReferenceDb.users d)).1;
  mutual_channel_ids d a b := (UsersTable.fetch_mutual_channel_ids a b (ReferenceDb.users d)).1
|}.

#[export, program] Instance reference_database `{MutualIds} : PermissionDatabase ReferenceDb.t := {
  db_fetch_user d id := (UsersTable.fetch_user id (ReferenceDb.users d)).1;
  db_fetch_server d id := (ServersTable.fetch_server id (ReferenceDb.servers d)).1;
  db_fetch_member d s u := (MembersTable.fetch_member s u (ReferenceDb.server_members d)).1;
  db_fetch_mutual_server_ids := mutual_server_ids;
  db_fetch_mutual_channel_ids := mutual_channel_ids
}.
Next Obligation. intros ? d id. simpl. by destruct (ReferenceDb.users d !! id). Qed.
Next Obligation. intros ? d id. simpl. by destruct (ReferenceDb.servers d !! id). Qed.
Next Obligation.
  intros ? d s u. simpl. by destruct (ReferenceDb.server_members d !! _).
Qed.

(** ** A permission query inside a handler

    [DatabasePermissionQuery::new(db, perspective).user(..)...] over the current state of
    the database; the calculators only read it. *)

Section Queries.
Context `{MutualIds, HashIter}.

Definition run_query {A} (setup : DatabasePermissionQuery.t ReferenceDb.t →
      DatabasePermissionQuery.t ReferenceDb.t)
    (calculate : M Empty_set (DatabasePermissionQuery.t ReferenceDb.t) A)
    (perspective : User.t) : M ErrorType.t World.t A :=
  λ w, (infallible (calculate (setup
          (DatabasePermissionQuery.new (World.db w) perspective (World.now w)))).1, w).

Definition user_permissions (perspective user : User.t) : M ErrorType.t World.t PermissionValue.t :=
  run_query (λ q, DatabasePermissionQuery.with_user q (Some user))
    calculate_user_permissions perspective.

Definition channel_permissions (perspective : User.t) (channel : Channel.t) :
    M ErrorType.t World.t PermissionValue.t :=
  run_query (λ q, DatabasePermissionQuery.with_channel q (Some channel))
    calculate_channel_permissions perspective.

Definition server_channel_permissions (perspective : User.t) (server : Server.t)
    (channel : Channel.t) : M ErrorType.t World.t PermissionValue.t :=
  run_query (λ q, DatabasePermissionQuery.with_channel
                    (DatabasePermissionQuery.with_server q (Some server)) (Some channel))
    calculate_channel_permissions perspective.
End Queries.

(** ** Small objects to evaluate the definitions on *)

Module Fixture.
Definition user (id : string) (relations : list Relationship.t) : User.t :=
  User.mk id id "0000" None None None (Some relations) None None None None false None None 0.
Definition role (id : string) (rank allow deny : Z) : Role.t :=
  Role.mk id id (OverrideField.mk allow deny) None false rank None.
Definition server (id owner : string) (default_permissions : Z) (roles : list Role.t) : Server.t :=
  Server.mk id owner id None None [] None None
    (list_to_map ((λ r, (Role.id r, r)) <$> roles)) default_permissions None None None
    false false false false.
Definition text_channel (id server : string) (default_permissions : option OverrideField.t)
    (roles : list (string * OverrideField.t)) : TextChannel.t :=
  TextChannel.mk id server id None None None default_permissions (list_to_map roles) false
    None None None.
Definition member (server user : string) (roles : list string) (timeout : option Z) : Member.t :=
  Member.mk (MemberCompositeKey.mk server user) 0 None None None roles timeout true true.
Definition group (id owner : string) (recipients : list string) : Group.t :=
  Group.mk id id owner None recipients None None None false.
Definition dm (id : string) (recipients : list string) : DirectMessage.t :=
  DirectMessage.mk id true recipients None.

(** No shared servers or channels *)
Definition strangers : MutualIds :=
  {| mutual_server_ids _ _ _ := Ok []; mutual_channel_ids _ _ _ := Ok [] |}.

(** An environment: every string is an old enough ULID, generated ids are numbered. *)
Definition limits : FeaturesLimits.t :=
  FeaturesLimits.mk 10 5 2000 5 50 true (1920, 1080)%Z
    (SpecFloat.S754_finite false 10066330 (-25), SpecFloat.S754_finite false 10485760 (-22))
    (list_to_map ((λ tag, (tag, 1000%Z)) <$>
      ["attachments"; "avatars"; "backgrounds"; "icons"; "banners"; "emojis"])).
Definition environment (group_size : nat) : Environment :=
  {| config := Settings.mk (Hosts.mk "app" "api" "autumn")
       (FeaturesLimitsCollection.mk (GlobalLimits.mk group_size 5 5 20 100 200 200 72 1000 [])
          limits limits) true 5 None 2 86400;
     new_ulid n := Nat.iter n (λ s, "0" +:+ s) "id";
     new_nanoid n := Nat.iter n (λ s, "n" +:+ s) "id";
     ulid_timestamp_ms _ := Some 0%Z;
     is_online _ := false;
     permissible_emoji _ := true |}.

(** A query for [user] in the channel of a server *)
Definition query (d : ReferenceDb.t) (now : Z) (u : User.t) (c : option Channel.t)
    (s : option Server.t) (m : option Member.t) : DatabasePermissionQuery.t ReferenceDb.t :=
  DatabasePermissionQuery.mk d u None c s m None None None now.
End Fixture.
