(* ===== verification/PermissionTheorems.v ===== *)
(** * Theorems about the permissions of the database's query

    The generic results of [PermissionSpec.v] at the database's query, and what the
    iteration order of [HashMap]s does to them. *)

From S2P Require Import Prelude Errors Permissions PermissionSpec Files Users Servers Channels.
From S2P Require Import PermissionQuery Messages Unreads Config Emojis World Database.
From stdpp Require Import base list gmap strings.
From Stdlib Require Import ZArith Lia Sorting.Sorted.

Import DatabasePermissionQuery.

(** ** Ranked role overrides *)

(** Different roles of the server have different ranks. *)
Definition roles_distinct (s : Server.t) : Prop :=
  ∀ i j ri rj, Server.roles s !! i = Some ri → Server.roles s !! j = Some rj →
    Role.rank ri = Role.rank rj → i = j.

Lemma filter_perm {A} (f : A → bool) (l1 l2 : list A) :
  l1 ≡ₚ l2 → List.filter f l1 ≡ₚ List.filter f l2.
Proof.
  induction 1 as [| |x y l|l1 l2 l3 _ IH1 _ IH2]; simpl; [done| | |by etrans].
  - case (f x); [by constructor|done].
  - case (f x), (f y); try done. constructor.
Qed.

Section Roles.
Context `{HashIter}.

Lemma elem_of_ranked_server_roles s held x :
  x ∈ ranked_server_roles s held ↔
  ∃ id r, Server.roles s !! id = Some r ∧ id ∈ held ∧
    x = (Role.rank r, OverrideField.into_override (Role.permissions r)).
Proof.
  unfold ranked_server_roles. rewrite list_elem_of_fmap. split.
  - intros ([id r] & -> & Hin). rewrite list_elem_of_In, filter_In in Hin.
    destruct Hin as [Hin Hheld]. rewrite <- list_elem_of_In, elem_of_hash_iter in Hin.
    apply bool_decide_eq_true in Hheld. eauto.
  - intros (id & r & Hr & Hheld & ->). exists (id, r). split; [done|].
    rewrite list_elem_of_In, filter_In, <- list_elem_of_In, elem_of_hash_iter.
    by rewrite bool_decide_eq_true_2.
Qed.

Lemma ranked_server_roles_nodup s held :
  roles_distinct s → NoDup (ranked_server_roles s held).*1.
Proof.
  intros Hd. unfold ranked_server_roles. rewrite <- list_fmap_compose.
  assert (NoDup (List.filter (λ r, bool_decide (r.1 ∈ held)) (hash_iter (Server.roles s)))) as Hn.
  { apply NoDup_ListNoDup, List.NoDup_filter, NoDup_ListNoDup.
    eapply NoDup_fmap_1, hash_iter_nodup_keys. }
  assert (∀ x, x ∈ List.filter (λ r, bool_decide (r.1 ∈ held)) (hash_iter (Server.roles s)) →
            Server.roles s !! x.1 = Some x.2) as Hin.
  { intros [id r]. rewrite list_elem_of_In, filter_In, <- list_elem_of_In, elem_of_hash_iter.
    by intros [? _]. }
  induction Hn as [|[id r] l Hx Hl IH]; simpl; [constructor|].
  constructor; [|apply IH; set_solver].
  rewrite list_elem_of_fmap. intros ([id' r'] & Hrank & Hin'). simpl in Hrank.
  assert (id = id') as <-.
  { eapply Hd; [exact (Hin (id, r) ltac:(left))|exact (Hin (id', r') ltac:(by right))|done]. }
  assert (Some r = Some r') as [= <-].
  { pose proof (Hin (id, r) ltac:(left)). pose proof (Hin (id, r') ltac:(by right)).
    simpl in *. congruence. }
  done.
Qed.

Lemma ranked_channel_roles_nodup rp s held :
  roles_distinct s → NoDup (ranked_channel_roles rp s held).*1.
Proof.
  intros Hd. unfold ranked_channel_roles.
  assert (NoDup (List.filter (λ r, bool_decide (r.1 ∈ held)) (hash_iter rp)).*1) as Hn.
  { pose proof (hash_iter_nodup_keys rp) as Hk.
    induction (hash_iter rp) as [|[i o] l IH]; simpl; [constructor|].
    simpl in Hk. apply NoDup_cons in Hk as [Hi Hk]. case_bool_decide; [|by apply IH].
    simpl. constructor; [|by apply IH]. intros Hin. apply Hi.
    rewrite list_elem_of_fmap in Hin |- *. destruct Hin as (y & Hy & Hin).
    exists y. split; [done|]. rewrite list_elem_of_In, filter_In in Hin.
    rewrite list_elem_of_In. tauto. }
  induction (List.filter _ _) as [|[i o] l IH]; simpl; [constructor|].
  simpl in Hn. apply NoDup_cons in Hn as [Hi Hn]. specialize (IH Hn).
  destruct (Server.roles s !! i) as [r|] eqn:Hr; simpl; [|done].
  constructor; [|done]. rewrite list_elem_of_fmap. intros ([k v] & Hk & Hin).
  rewrite list_elem_of_omap in Hin. destruct Hin as ([i' o'] & Hin & Hr').
  simpl in Hr'. destruct (Server.roles s !! i') as [r'|] eqn:Hri; simplify_eq/=.
  apply Hi. rewrite (Hd i i' r r') by done. rewrite list_elem_of_fmap. by exists (i', o').
Qed.

(** If a held role's rank is below the ranks of the other held roles, its override is
    applied last. *)
Lemma top_role_last s held id r :
  Server.roles s !! id = Some r → id ∈ held →
  (∀ id' r', id' ∈ held → id' ≠ id → Server.roles s !! id' = Some r' →
     (Role.rank r < Role.rank r')%Z) →
  ∃ os, sorted_overrides (ranked_server_roles s held) =
        os ++ [OverrideField.into_override (Role.permissions r)].
Proof.
  intros Hr Hheld Hmin. unfold sorted_overrides.
  assert ((id, r) ∈ List.filter (λ r, bool_decide (r.1 ∈ held)) (hash_iter (Server.roles s)))
    as Hin.
  { rewrite list_elem_of_In, filter_In, <- list_elem_of_In, elem_of_hash_iter.
    by rewrite bool_decide_eq_true_2. }
  apply list_elem_of_split in Hin as (l1 & l2 & Heq).
  destruct (sort_desc_last fst
    (Role.rank r, OverrideField.into_override (Role.permissions r))
    (ranked_server_roles s held)
    ((λ r, (Role.rank r.2, OverrideField.into_override (Role.permissions r.2))) <$> (l1 ++ l2)))
    as [l0 Hl0].
  - unfold ranked_server_roles. rewrite Heq, !fmap_app, fmap_cons. simpl.
    by rewrite <- Permutation_middle.
  - intros x. rewrite list_elem_of_fmap. intros ([id' r'] & -> & Hin'). simpl.
    assert ((id', r') ∈ List.filter (λ r, bool_decide (r.1 ∈ held))
              (hash_iter (Server.roles s))) as Hin2 by (rewrite Heq; set_solver).
    rewrite list_elem_of_In, filter_In, <- list_elem_of_In, elem_of_hash_iter in Hin2.
    destruct Hin2 as [Hr' Hheld'%bool_decide_eq_true].
    apply (Hmin id'); [done| |done]. intros ->.
    pose proof (hash_iter_nodup_keys (Server.roles s)) as Hn.
    assert (NoDup (l1 ++ (id, r) :: l2)) as Hnd.
    { rewrite <- Heq. apply NoDup_ListNoDup, List.NoDup_filter, NoDup_ListNoDup.
      by eapply NoDup_fmap_1. }
    rewrite <- Permutation_middle in Hnd. apply NoDup_cons in Hnd as [Hnot _].
    apply Hnot. by simplify_eq.
  - exists l0.*2. by rewrite Hl0, fmap_app.
Qed.
End Roles.

(** ** The view of the database's query *)

Section View.
Context {D : Type} `{PermissionDatabase D}.
Abbreviation Q := (DatabasePermissionQuery.t D).

Lemma sorted_overrides_wf (l : list (Z * Override.t)) :
  (∀ x, x ∈ l → Override.wf x.2) → Forall Override.wf (sorted_overrides l).
Proof.
  intros Hl. unfold sorted_overrides. apply Forall_fmap, Forall_forall.
  intros x Hx. apply Hl. unfold sort_desc in Hx. by rewrite sort_by_perm in Hx.
Qed.

(** Every value the query hands to the calculators is an unsigned 64-bit integer. *)
Lemma db_view_wf `{HashIter} (q : Q) : view_wf (db_view q).
Proof.
  unfold view_wf, db_view, eval; simpl. split_and!.
  - destruct (server q); [apply as_u64_range|done].
  - unfold server_role_overrides, gets; simpl. destruct (server q); simpl; [|constructor].
    apply sorted_overrides_wf. intros x (?&?&_&_&->)%elem_of_ranked_server_roles.
    apply into_override_wf.
  - unfold default_channel_override. destruct (channel q) as [[]|]; try done.
    + split; [apply as_u64_range|done].
    + apply into_override_wf.
  - unfold channel_role_overrides, gets; simpl.
    destruct (channel q) as [[]|]; simpl; try constructor.
    destruct (server q); simpl; [|constructor]. apply sorted_overrides_wf.
    intros x. unfold ranked_channel_roles. rewrite list_elem_of_omap.
    intros ([i o] & _ & Hx). destruct (Server.roles _ !! _); simplify_eq/=.
    apply into_override_wf.
Qed.

Lemma server_from_channel_text `{HashIter} (q : Q) c :
  channel q = Some (Channel.TextChannel c) →
  ∃ q1, server_from_channel q = (Ok tt, q1) ∧ perspective q1 = perspective q ∧
    channel q1 = channel q.
Proof.
  intros Hc. unfold server_from_channel. rewrite M_bind_unfold; simpl. rewrite Hc.
  destruct (match server q with Some _ => _ | None => _ end); [by eexists|].
  destruct (db_fetch_server (database q) (TextChannel.server c)) eqn:Hf; simpl; [by eexists..|].
  by destruct (db_fetch_server_returns (database q) (TextChannel.server c)).
Qed.

(** The channel of the query belongs to the server that was already selected. *)
Lemma server_from_channel_known `{HashIter} (q : Q) c s :
  channel q = Some (Channel.TextChannel c) → server q = Some s →
  TextChannel.server c = Server.id s → server_from_channel q = (Ok tt, q).
Proof.
  intros Hc Hs He. unfold server_from_channel. rewrite M_bind_unfold; simpl.
  by rewrite Hc, Hs, bool_decide_eq_true_2.
Qed.

(** In a text channel the calculation on the query always answers, with the bits that
    [channel_bit] gives for what the query knows. *)
Lemma channel_query_bits `{HashIter} (q : Q) (c : TextChannel.t) :
  channel q = Some (Channel.TextChannel c) →
  ∃ q1 p q', server_from_channel q = (Ok tt, q1) ∧
    calculate_channel_permissions q = (Ok p, q') ∧ PermissionValue.wf p ∧
    value_matches p (channel_bit (db_view q1)).
Proof.
  intros Hc. destruct (server_from_channel_text q c Hc) as (q1 & Hset & Hp & _).
  destruct (calculate_server_channel_matches q q1) as (p & q' & Hcalc & Hm & Hwf).
  - simpl. unfold eval, channel_type, gets. simpl. by rewrite Hc.
  - exact Hset.
  - simpl. by rewrite Hp.
  - exists q1, p, q'. split_and!; [done..| |done]. apply Hwf, db_view_wf.
Qed.

(** The calculation of server permissions on the database's query always answers,
    with the bits of the specification. *)
Theorem server_permissions_bits `{HashIter} (q : Q) :
  ∃ p q', calculate_server_permissions q = (Ok p, q') ∧ PermissionValue.wf p ∧
    value_matches p (server_bit (db_view q)).
Proof.
  destruct (calculate_server_matches q) as (p & q' & Hcalc & _ & Hm & _ & Hwf).
  exists p, q'. split_and!; [done| |done]. apply Hwf, db_view_wf.
Qed.

(** The calculation in a channel of the selected server. *)
Lemma known_channel_permissions `{HashIter} (q : Q) c s :
  channel q = Some (Channel.TextChannel c) → server q = Some s →
  TextChannel.server c = Server.id s →
  ∃ p q', calculate_channel_permissions q = (Ok p, q') ∧ PermissionValue.wf p ∧
    value_matches p (channel_bit (db_view q)).
Proof.
  intros Hc Hs He.
  destruct (calculate_server_channel_matches q q) as (p & q' & Hcalc & Hm & Hwf).
  - simpl. unfold eval, channel_type, gets. simpl. by rewrite Hc.
  - exact (server_from_channel_known q c s Hc Hs He).
  - done.
  - exists p, q'. split_and!; [done| |done]. apply Hwf, db_view_wf.
Qed.

(** Values with the same 64 bits are equal. *)
Lemma value_matches_unique p1 p2 f :
  PermissionValue.wf p1 → PermissionValue.wf p2 →
  value_matches p1 f → value_matches p2 f → p1 = p2.
Proof.
  destruct p1 as [v1], p2 as [v2]. unfold value_matches, PermissionValue.wf; simpl.
  intros H1 H2 Hm1 Hm2. f_equal. apply Z.bits_inj'. intros i Hi.
  destruct (Z.ltb_spec i 64).
  - by rewrite Hm1, Hm2 by lia.
  - by rewrite !testbit_u64_high by done.
Qed.

(** What the view says of a plain member. *)
Lemma db_view_plain `{HashIter} (q : Q) s :
  server q = Some s → User.privileged (perspective q) = false →
  Server.owner s ≠ User.id (perspective q) →
  v_privileged (db_view q) = false ∧ v_owner (db_view q) = false.
Proof.
  intros Hs Hp Ho. simpl. unfold eval, server_owner, gets; simpl. rewrite Hs, Hp.
  by rewrite bool_decide_eq_false_2.
Qed.

(** While a member is in timeout, the member can do nothing in a channel of the
    server but view it and read its history, whatever the roles and the channel's
    overrides allow. *)
Theorem timeout_restricts_channel `{HashIter} (q : Q) (c : TextChannel.t) (s : Server.t)
    (m : Member.t) :
  channel q = Some (Channel.TextChannel c) → server q = Some s → member q = Some m →
  TextChannel.server c = Server.id s → User.privileged (perspective q) = false →
  Server.owner s ≠ User.id (perspective q) → Member.in_timeout m (now q) = true →
  ∃ p q', calculate_channel_permissions q = (Ok p, q') ∧
    ∀ perm, is_flag perm = true → PermissionValue.has_channel_permission p perm = true →
      perm = ChannelPermission.ViewChannel ∨ perm = ChannelPermission.ReadMessageHistory.
Proof.
  intros Hc Hs Hmem He Hp Ho Ht.
  destruct (known_channel_permissions q c s Hc Hs He) as (p & q' & Hcalc & _ & Hmatch).
  destruct (db_view_plain q s Hs Hp Ho) as [Hvp Hvo].
  assert (v_timed_out (db_view q) = true) as Hvt.
  { simpl. unfold effective_member. rewrite Hs, Hmem. simpl. done. }
  exists p, q'. split; [done|]. intros perm Hflag. rewrite (value_has_flag p _ _ Hmatch) by done.
  unfold channel_bit, layered_bit, timeout_mask. rewrite Hvp, Hvo, Hvt. simpl.
  intros [_ Hb]%andb_prop. apply andb_prop in Hb as [_ Hb].
  destruct perm; try done; auto.
Qed.

(** A channel that cannot be viewed grants nothing: in a text channel, a calculated
    value that lacks the permission to view the channel is zero. *)
Theorem hidden_channel_grants_nothing `{HashIter} (q q' : Q) (c : TextChannel.t)
    (p : PermissionValue.t) :
  channel q = Some (Channel.TextChannel c) →
  calculate_channel_permissions q = (Ok p, q') →
  PermissionValue.has_channel_permission p ChannelPermission.ViewChannel = false →
  p = PermissionValue.from_u64 0.
Proof.
  intros Hc Hcalc Hview.
  destruct (server_from_channel_text q c Hc) as (q1 & Hset & Hp & _).
  destruct (calculate_server_channel_matches q q1) as (p1 & q1' & Hcalc' & Hm & Hwf).
  - simpl. unfold eval, channel_type, gets. simpl. by rewrite Hc.
  - exact Hset.
  - simpl. by rewrite Hp.
  - rewrite Hcalc in Hcalc'. injection Hcalc' as <- _.
    apply (value_matches_unique _ _ (channel_bit (db_view q1))); [apply Hwf, db_view_wf|done|done|].
    rewrite (value_has_flag p _ _ Hm) in Hview by done.
    apply value_matches_zero. intros i. unfold channel_bit in Hview |- *.
    destruct (v_privileged _ || v_owner _); [done|].
    destruct (v_member _); [|done]. simpl in Hview |- *.
    by destruct (layered_bit _ (flag_bit ChannelPermission.ViewChannel)).
Qed.

(** The highest role decides: for a member who is not muted, deafened or in timeout,
    what the member's role of strictly lowest rank denies on the server is denied, and
    what it allows and does not deny is granted, whatever the other roles say. *)
Theorem highest_role_decides `{HashIter} (q : Q) (s : Server.t) (m : Member.t) (id : string)
    (r : Role.t) :
  server q = Some s → member q = Some m → User.privileged (perspective q) = false →
  Server.owner s ≠ User.id (perspective q) →
  Member.in_timeout m (now q) = false → Member.can_publish m = true →
  Member.can_receive m = true →
  Server.roles s !! id = Some r → id ∈ Member.roles m →
  (∀ id' r', id' ∈ Member.roles m → id' ≠ id → Server.roles s !! id' = Some r' →
     (Role.rank r < Role.rank r')%Z) →
  ∃ p q', calculate_server_permissions q = (Ok p, q') ∧
    ∀ perm, is_flag perm = true →
      let o := OverrideField.into_override (Role.permissions r) in
      (Z.testbit (Override.deny o) (flag_bit perm) = true →
         PermissionValue.has_channel_permission p perm = false) ∧
      (Z.testbit (Override.allow o) (flag_bit perm) = true →
       Z.testbit (Override.deny o) (flag_bit perm) = false →
         PermissionValue.has_channel_permission p perm = true).
Proof.
  intros Hs Hm Hp Ho Ht Hpub Hrec Hr Hheld Hmin.
  destruct (calculate_server_matches q) as (p & q' & Hcalc & _ & Hmatch & _).
  destruct (db_view_plain q s Hs Hp Ho) as [Hvp Hvo].
  destruct (top_role_last s (Member.roles m) id r Hr Hheld Hmin) as [os Hos].
  exists p, q'. split; [done|]. intros perm Hf o.
  fold o in Hos; clearbody o. rewrite (value_has_flag p _ _ Hmatch Hf). change (view q) with (db_view q).
  unfold server_bit, voice_mask, timeout_mask. rewrite Hvp, Hvo.
  unfold db_view, effective_member, eval, server_role_overrides, publish_overwrites,
    receive_overwrites, timed_out, gets; simpl.
  rewrite Hs, Hm; simpl. rewrite Hos, Ht, Hpub, Hrec, fold_left_app.
  cbn [fold_left negb orb andb]. rewrite !andb_true_r.
  split; [intros Hd|intros Ha Hd]; unfold override_bit at 1; by rewrite ?Hd, ?Ha.
Qed.
End View.

(** ** Iteration order *)

Section Order.
Context {D : Type} `{PermissionDatabase D}.
Abbreviation Q := (DatabasePermissionQuery.t D).

Lemma ranked_server_roles_perm (i1 i2 : HashIter) s held :
  @ranked_server_roles i1 s held ≡ₚ @ranked_server_roles i2 s held.
Proof.
  unfold ranked_server_roles. f_equiv. apply filter_perm.
  by rewrite !hash_iter_perm.
Qed.

Lemma ranked_channel_roles_perm (i1 i2 : HashIter) rp s held :
  @ranked_channel_roles i1 rp s held ≡ₚ @ranked_channel_roles i2 rp s held.
Proof.
  unfold ranked_channel_roles. f_equiv. apply filter_perm.
  by rewrite !hash_iter_perm.
Qed.

(** With distinct ranks the view does not depend on the iteration order. *)
Lemma db_view_order (i1 i2 : HashIter) (q : Q) s :
  server q = Some s → roles_distinct s → @db_view D _ i1 q = @db_view D _ i2 q.
Proof.
  intros Hs Hd. unfold db_view. f_equal.
  - unfold eval, server_role_overrides, gets; simpl. rewrite Hs. unfold sorted_overrides. f_equal.
    apply sort_desc_perm_eq; [apply ranked_server_roles_perm|by apply ranked_server_roles_nodup].
  - unfold eval, channel_role_overrides, gets; simpl.
    destruct (channel q) as [[]|]; try done. rewrite Hs. unfold sorted_overrides. f_equal.
    apply sort_desc_perm_eq; [apply ranked_channel_roles_perm|by apply ranked_channel_roles_nodup].
Qed.

(** When the ranks of a server's roles are distinct, the permissions in its channels
    do not depend on the unspecified order in which hash maps are iterated. *)
Theorem channel_permissions_deterministic (i1 i2 : HashIter) (q : Q) (c : TextChannel.t)
    (s : Server.t) :
  channel q = Some (Channel.TextChannel c) → server q = Some s →
  TextChannel.server c = Server.id s → roles_distinct s →
  (@calculate_channel_permissions Q (@query D _ i1) q).1 =
  (@calculate_channel_permissions Q (@query D _ i2) q).1.
Proof.
  intros Hc Hs He Hd.
  destruct (@known_channel_permissions D _ i1 q c s Hc Hs He) as (p1 & q1 & -> & Hw1 & Hm1).
  destruct (@known_channel_permissions D _ i2 q c s Hc Hs He) as (p2 & q2 & -> & Hw2 & Hm2).
  simpl. f_equal. rewrite (db_view_order i1 i2 q s Hs Hd) in Hm1.
  by eapply value_matches_unique.
Qed.
End Order.

(** ** Direct messages *)

Section DirectMessages.
Context {D : Type} `{PermissionDatabase D} `{HashIter}.
Abbreviation Q := (DatabasePermissionQuery.t D).

Lemma recipient_as_user_found (q : Q) dm rid u :
  channel q = Some (Channel.DirectMessage dm) →
  List.find (λ r, negb (bool_decide (r = User.id (perspective q))))
    (DirectMessage.recipients dm) = Some rid →
  db_fetch_user (database q) rid = Ok u →
  recipient_as_user q = (Ok tt, with_user q (Some u)).
Proof.
  intros Hc Hf Hu. unfold recipient_as_user. rewrite M_bind_unfold; simpl.
  by rewrite Hc, Hf, Hu.
Qed.

(** The permission to send a message, from the value of [user_value]. *)
Lemma user_value_send (u : UserView) :
  uv_privileged u = false → uv_same u = false →
  (λ v, PermissionValue.has_user_permission (PermissionValue.from_u64 v)
          UserPermission.SendMessage) <$> user_value u =
  match uv_relationship u with
  | RelationshipStatus.Friend => Ok true
  | RelationshipStatus.Blocked | RelationshipStatus.BlockedOther => Ok false
  | _ => (λ mutual, mutual && uv_any_bot u) <$> uv_mutual u
  end.
Proof.
  intros Hp Hs. unfold user_value. rewrite Hp, Hs; simpl.
  destruct (uv_relationship u); try reflexivity;
    destruct (uv_mutual u) as [[]| |], (uv_any_bot u); reflexivity.
Qed.

Definition grant_messages (b : bool) : PermissionValue.t :=
  PermissionValue.from_u64
    (if b then DEFAULT_PERMISSION_DIRECT_MESSAGE else DEFAULT_PERMISSION_VIEW_ONLY).

Lemma direct_message_calculation (q : Q) dm rid u :
  channel q = Some (Channel.DirectMessage dm) →
  User.privileged (perspective q) = false →
  User.id (perspective q) ∈ DirectMessage.recipients dm →
  List.find (λ r, negb (bool_decide (r = User.id (perspective q))))
    (DirectMessage.recipients dm) = Some rid →
  db_fetch_user (database q) rid = Ok u →
  (calculate_channel_permissions q).1 =
  (λ v, grant_messages (PermissionValue.has_user_permission (PermissionValue.from_u64 v)
                          UserPermission.SendMessage)) <$>
    user_value (user_view (with_user q (Some u))).
Proof.
  intros Hc Hp Hpart Hf Hu. destruct (calculate_user_value (with_user q (Some u))) as [q' Hcalc].
  generalize dependent (user_value (user_view (with_user q (Some u)))). intros v Hcalc.
  unfold calculate_channel_permissions. rewrite M_bind_unfold; simpl. rewrite Hp.
  rewrite M_bind_unfold; simpl. rewrite Hc.
  rewrite M_bind_unfold; simpl. rewrite Hc, bool_decide_eq_true_2 by done.
  rewrite M_bind_unfold. change (set_recipient_as_user q) with (recipient_as_user q).
  rewrite (recipient_as_user_found q dm rid u Hc Hf Hu), M_bind_unfold, Hcalc.
  destruct v as [v| |]; [|done..]. cbn [fmap outcome_fmap].
  by destruct (PermissionValue.has_user_permission _ _).
Qed.

(** Who may write in a direct message channel: a participant may if the recipient is
    a friend; may only view it when either has blocked the other, whatever else they
    share; and otherwise may if they share a server or a group and one of them is a bot.
    *)
Theorem direct_message_permissions (q : Q) (dm : DirectMessage.t) (rid : string) (u : User.t) :
  channel q = Some (Channel.DirectMessage dm) →
  User.privileged (perspective q) = false →
  User.id (perspective q) ∈ DirectMessage.recipients dm →
  List.find (λ r, negb (bool_decide (r = User.id (perspective q))))
    (DirectMessage.recipients dm) = Some rid →
  db_fetch_user (database q) rid = Ok u → User.id u = rid →
  let q1 := with_user q (Some u) in
  (calculate_channel_permissions q).1 =
  match (relationship q1).1 with
  | Ok RelationshipStatus.Friend => Ok (grant_messages true)
  | Ok (RelationshipStatus.Blocked | RelationshipStatus.BlockedOther) => Ok (grant_messages false)
  | _ => (λ mutual, grant_messages (mutual && (bool_decide (is_Some (User.bot u)) ||
                                      bool_decide (is_Some (User.bot (perspective q)))))) <$>
         (mutual_connection q1).1
  end.
Proof.
  intros Hc Hp Hpart Hf Hu Hid q1. pose proof (find_some _ _ Hf) as [_ Hne].
  apply negb_true_iff, bool_decide_eq_false in Hne.
  rewrite (direct_message_calculation q dm rid u Hc Hp Hpart Hf Hu). fold q1.
  assert (uv_same (user_view q1) = false) as Hsame.
  { simpl. unfold eval, users_same, gets; simpl. apply bool_decide_eq_false_2. congruence. }
  pose proof (user_value_send (user_view q1) Hp Hsame) as Hsend.
  change (relationship q1).1 with (Ok (E := Empty_set) (uv_relationship (user_view q1))).
  change (mutual_connection q1).1 with (uv_mutual (user_view q1)).
  change (bool_decide (is_Some (User.bot u)) || bool_decide (is_Some (User.bot (perspective q))))
    with (uv_any_bot (user_view q1)).
  generalize dependent (user_view q1). intros v _ Hsend.
  destruct (user_value v), (uv_relationship v); simplify_eq/=; try congruence;
    destruct (uv_mutual v); simplify_eq/=; congruence.
Qed.
End DirectMessages.

(** ** From what is stored

    The permissions in a text channel told from the stored server, member and channel alone:
    overrides are read bit by bit as the database holds them, and the roles are only required
    to be listed from the highest rank number, the lowest role, to the lowest. *)

(** What an override leaves of bit [i]: what it denies is off, what it allows is on. *)
Definition stored_bit (i : Z) (b : bool) (o : OverrideField.t) : bool :=
  if Z.testbit (OverrideField.d o) i then false
  else if Z.testbit (OverrideField.a o) i then true else b.

(** [l] lists the roles that [P] describes, each once and from the lowest to the highest. *)
Definition ranked (P : string → Z → OverrideField.t → Prop) (l : list (string * (Z * OverrideField.t))) :
    Prop :=
  NoDup l.*1 ∧ (∀ id rank o, (id, (rank, o)) ∈ l ↔ P id rank o) ∧
  StronglySorted (λ x y, (y.2.1 ≤ x.2.1)%Z) l.
Definition overrides_of (l : list (string * (Z * OverrideField.t))) : list OverrideField.t := l.*2.*2.

(** The member's roles on the server, and those the channel has an override for *)
Definition on_server (s : Server.t) (m : Member.t) (id : string) (rank : Z) (o : OverrideField.t) : Prop :=
  id ∈ Member.roles m ∧
  ∃ r, Server.roles s !! id = Some r ∧ rank = Role.rank r ∧ o = Role.permissions r.
Definition on_channel (s : Server.t) (c : TextChannel.t) (m : Member.t) (id : string) (rank : Z)
    (o : OverrideField.t) : Prop :=
  id ∈ Member.roles m ∧ TextChannel.role_permissions c !! id = Some o ∧
  ∃ r, Server.roles s !! id = Some r ∧ rank = Role.rank r.

(** In timeout only viewing (bit 20) and reading the history (bit 21) are left. *)
Definition past_timeout (m : Member.t) (time i : Z) : bool :=
  match Member.timeout m with
  | Some until => negb (time <? until)%Z || (i =? 20)%Z || (i =? 21)%Z
  | None => true
  end.
(** Who is muted neither speaks (bit 31) nor shows a video (bit 32), who is deafened does not
    listen (bit 36). *)
Definition past_mute (m : Member.t) (i : Z) : bool :=
  (Member.can_publish m || negb ((i =? 31)%Z || (i =? 32)%Z)) &&
  (Member.can_receive m || negb (i =? 36)%Z).
Definition stored_server_bit (s : Server.t) (m : Member.t) (time : Z)
    (roles : list (string * (Z * OverrideField.t))) (i : Z) : bool :=
  foldl (stored_bit i) (Z.testbit (Server.default_permissions s) i) (overrides_of roles) &&
  past_mute m i && past_timeout m time i.
Definition stored_channel_bit (s : Server.t) (c : TextChannel.t) (m : Member.t) (time : Z)
    (roles overrides : list (string * (Z * OverrideField.t))) (i : Z) : bool :=
  let b := stored_server_bit s m time roles i in
  let b := match TextChannel.default_permissions c with Some o => stored_bit i b o | None => b end in
  foldl (stored_bit i) b (overrides_of overrides) && past_timeout m time i.

(** The value that user [u] should have in channel [c] of a server, as the server and the membership
    of the user are known *)
Definition permitted_value (u : User.t) (c : TextChannel.t) (server : option Server.t)
    (member : Server.t → option Member.t) (time : Z) (p : PermissionValue.t) : Prop :=
  if User.privileged u || bool_decide (Server.owner <$> server = Some (User.id u))
  then ∀ i, (0 ≤ i < 64)%Z → Z.testbit (PermissionValue.into_raw p) i = (i <? 52)%Z else
  match server with
  | Some s =>
      match member s with
      | Some m =>
          ∃ roles overrides, ranked (on_server s m) roles ∧ ranked (on_channel s c m) overrides ∧
            ∀ i, (0 ≤ i < 64)%Z → Z.testbit (PermissionValue.into_raw p) i =
              stored_channel_bit s c m time roles overrides 20 &&
              stored_channel_bit s c m time roles overrides i
      | None => PermissionValue.into_raw p = 0%Z
      end
  | None => PermissionValue.into_raw p = 0%Z
  end.

(** The server and the member that are stored *)
Definition stored_member (d : ReferenceDb.t) (u : User.t) (s : Server.t) : option Member.t :=
  ReferenceDb.server_members d !! MemberCompositeKey.mk (Server.id s) (User.id u).
Definition stored_permissions (d : ReferenceDb.t) (time : Z) (u : User.t) (c : TextChannel.t) :
    PermissionValue.t → Prop :=
  permitted_value u c (ReferenceDb.servers d !! TextChannel.server c) (stored_member d u) time.

Lemma stored_bit_override i b o :
  (0 ≤ i < 64)%Z → override_bit i b (OverrideField.into_override o) = stored_bit i b o.
Proof.
  intros Hi. unfold override_bit, stored_bit, OverrideField.into_override, as_u64; simpl.
  by rewrite !Z.mod_pow2_bits_low by lia.
Qed.
Lemma stored_bits_overrides i b os :
  (0 ≤ i < 64)%Z →
  fold_left (override_bit i) (OverrideField.into_override <$> os) b = foldl (stored_bit i) b os.
Proof.
  intros Hi. revert b. induction os as [|o os IH]; intros b; simpl; [done|].
  by rewrite stored_bit_override, IH.
Qed.

Lemma ranked_sorted (P : string → Z → OverrideField.t → Prop) l :
  NoDup l.*1 → (∀ id rank o, (id, (rank, o)) ∈ l ↔ P id rank o) → ranked P (sort_desc (λ x, x.2.1) l).
Proof.
  intros Hn HP. split_and!.
  - unfold sort_desc. by rewrite sort_by_perm.
  - intros id rank o. rewrite <- HP. unfold sort_desc. by rewrite sort_by_perm.
  - apply sort_desc_sorted.
Qed.
Lemma sorted_overrides_map (l : list (string * (Z * OverrideField.t))) :
  sorted_overrides ((λ x, (x.2.1, OverrideField.into_override x.2.2)) <$> l) =
  OverrideField.into_override <$> overrides_of (sort_desc (λ x, x.2.1) l).
Proof.
  unfold sorted_overrides, overrides_of.
  rewrite (sort_desc_fmap _ _ (λ x, x.2.1)) by done. by rewrite <- !list_fmap_compose.
Qed.

Lemma value_zero p :
  PermissionValue.wf p → (∀ i, (0 ≤ i < 64)%Z → Z.testbit (PermissionValue.into_raw p) i = false) →
  PermissionValue.into_raw p = 0%Z.
Proof.
  intros Hwf Hz. apply Z.bits_inj_0. intros i. destruct (Z.ltb_spec i 0); [by apply Z.testbit_neg_r|].
  destruct (Z.ltb_spec i 64); [by apply Hz|by apply testbit_u64_high].
Qed.

Section Stored.
Context `{MutualIds, HashIter}.

(** The roles as the query lists them, with their identifiers *)
Lemma server_roles_ranked s m :
  ∃ l, ranked (on_server s m) l ∧
    sorted_overrides (ranked_server_roles s (Member.roles m)) =
    OverrideField.into_override <$> overrides_of l.
Proof.
  set (held := List.filter (λ r, bool_decide (r.1 ∈ Member.roles m)) (hash_iter (Server.roles s))).
  set (l := (λ r, (r.1, (Role.rank r.2, Role.permissions r.2))) <$> held).
  exists (sort_desc (λ x, x.2.1) l). split.
  - apply ranked_sorted.
    + unfold l. rewrite <- list_fmap_compose. apply (filter_keys_nodup _ _ (hash_iter_nodup_keys _)).
    + intros id rank o. unfold l, held, on_server. rewrite list_elem_of_fmap. split.
      * intros ([id' r] & [= -> -> ->] & Hin). rewrite list_elem_of_In, filter_In in Hin.
        destruct Hin as [Hin Hheld]. rewrite <- list_elem_of_In, elem_of_hash_iter in Hin.
        apply bool_decide_eq_true in Hheld. eauto.
      * intros (Hheld & r & Hr & -> & ->). exists (id, r). split; [done|].
        rewrite list_elem_of_In, filter_In, <- list_elem_of_In, elem_of_hash_iter.
        by rewrite bool_decide_eq_true_2.
  - rewrite <- sorted_overrides_map. unfold l. by rewrite <- list_fmap_compose.
Qed.

Lemma channel_roles_ranked s c m :
  ∃ l, ranked (on_channel s c m) l ∧
    sorted_overrides (ranked_channel_roles (TextChannel.role_permissions c) s (Member.roles m)) =
    OverrideField.into_override <$> overrides_of l.
Proof.
  set (held := List.filter (λ r, bool_decide (r.1 ∈ Member.roles m))
                 (hash_iter (TextChannel.role_permissions c))).
  set (l := omap (λ r, (λ role, (r.1, (Role.rank role, r.2))) <$> Server.roles s !! r.1) held).
  exists (sort_desc (λ x, x.2.1) l). split.
  - apply ranked_sorted.
    + pose proof (filter_keys_nodup (λ r, bool_decide (r.1 ∈ Member.roles m)) _
        (hash_iter_nodup_keys (TextChannel.role_permissions c))) as Hn. fold held in Hn.
      apply (omap_keys_nodup _ held); [|done]. intros x y.
      by destruct (Server.roles s !! x.1); intros [= <-].
    + intros id rank o. unfold l, held, on_channel. rewrite list_elem_of_omap. split.
      * intros ([id' o'] & Hin & Hx). rewrite list_elem_of_In, filter_In in Hin.
        destruct Hin as [Hin Hheld]. rewrite <- list_elem_of_In, elem_of_hash_iter in Hin.
        apply bool_decide_eq_true in Hheld. simpl in Hx.
        destruct (Server.roles s !! id') as [r|] eqn:Hr; simplify_eq/=. eauto.
      * intros (Hheld & Ho & r & Hr & ->). exists (id, o). simpl. rewrite Hr.
        rewrite list_elem_of_In, filter_In, <- list_elem_of_In, elem_of_hash_iter.
        by rewrite bool_decide_eq_true_2.
  - rewrite <- sorted_overrides_map. unfold l, ranked_channel_roles. fold held. f_equal.
    induction held as [|x held IH]; csimpl; [done|]. destruct (Server.roles s !! x.1); csimpl; by rewrite IH.
Qed.
(** The query for a text channel, once its server was found *)
Lemma layered_stored (q : DatabasePermissionQuery.t ReferenceDb.t) s c m roles overrides i :
  server q = Some s → channel q = Some (Channel.TextChannel c) → effective_member q = Some m →
  User.privileged (perspective q) = false → Server.owner s ≠ User.id (perspective q) →
  sorted_overrides (ranked_server_roles s (Member.roles m)) =
    OverrideField.into_override <$> overrides_of roles →
  sorted_overrides (ranked_channel_roles (TextChannel.role_permissions c) s (Member.roles m)) =
    OverrideField.into_override <$> overrides_of overrides →
  (0 ≤ i < 64)%Z →
  layered_bit (db_view q) i = stored_channel_bit s c m (now q) roles overrides i.
Proof.
  intros Hs Hc Hm Hp Ho Hroles Hover Hi. destruct (db_view_plain q s Hs Hp Ho) as [Hvp Hvo].
  assert (Ht : timeout_mask (db_view q) i = past_timeout m (now q) i).
  { unfold timeout_mask, past_timeout. cbn [v_timed_out db_view]. unfold eval, timed_out, gets. simpl.
    rewrite Hm. unfold Member.in_timeout. by destruct (Member.timeout m). }
  assert (Hsb : server_bit (db_view q) i = stored_server_bit s m (now q) roles i).
  { unfold server_bit, stored_server_bit. rewrite Hvp, Hvo, Ht. simpl orb. cbv iota.
    assert (Hvm : v_member (db_view q) = true).
    { cbn [v_member db_view]. rewrite Hm. by apply bool_decide_eq_true_2. }
    assert (Hmask : voice_mask (db_view q) i = past_mute m i).
    { unfold voice_mask, past_mute. cbn [v_publish v_receive db_view].
      unfold eval, publish_overwrites, receive_overwrites, gets. simpl. by rewrite Hm. }
    assert (Hr : v_server_roles (db_view q) = OverrideField.into_override <$> overrides_of roles).
    { cbn [v_server_roles db_view]. unfold eval, server_role_overrides, gets. simpl. rewrite Hs, Hm. done. }
    assert (Hd : v_default (db_view q) = as_u64 (Server.default_permissions s)).
    { cbn [v_default db_view]. unfold eval, default_server_permissions, gets. simpl. by rewrite Hs. }
    rewrite Hvm, Hmask, Hr, Hd, stored_bits_overrides by done. unfold as_u64.
    by rewrite Z.mod_pow2_bits_low by lia. }
  assert (Hcr : v_channel_roles (db_view q) = OverrideField.into_override <$> overrides_of overrides).
  { cbn [v_channel_roles db_view]. unfold eval, channel_role_overrides, gets. simpl. rewrite Hc, Hs, Hm. done. }
  unfold layered_bit, stored_channel_bit. rewrite Hcr, Ht, Hsb. cbn [fold_left].
  rewrite stored_bits_overrides by done. do 2 f_equal. cbn [v_channel_default db_view].
  unfold default_channel_override. rewrite Hc, stored_bit_override by done.
  destruct (TextChannel.default_permissions c); [done|]. unfold stored_bit. by rewrite !Z.bits_0.
Qed.

(** A query that may already know the server and the member *)
Lemma query_permitted (q : DatabasePermissionQuery.t ReferenceDb.t) c :
  channel q = Some (Channel.TextChannel c) →
  (∀ s, server q = Some s → TextChannel.server c = Server.id s) →
  ∃ p q', calculate_channel_permissions q = (Ok p, q') ∧ PermissionValue.wf p ∧
    permitted_value (perspective q) c
      (match server q with Some s => Some s | None => ReferenceDb.servers (database q) !! TextChannel.server c end)
      (λ s, match member q with Some m => Some m | None => stored_member (database q) (perspective q) s end)
      (now q) p.
Proof.
  intros Hc Hid. destruct (channel_query_bits q c Hc) as (q1 & p & q' & Hset & Hcalc & Hwf & Hm).
  exists p, q'. split; [done|]. split; [done|].
  set (found := match server q with Some s => Some s | None => _ end).
  assert (Hq1 : q1 = with_server q found).
  { unfold found. destruct (server q) as [s|] eqn:Hs.
    - rewrite (server_from_channel_known q c s Hc Hs (Hid s eq_refl)) in Hset. injection Hset as <-.
      destruct q. by simpl in *; subst.
    - unfold server_from_channel in Hset. rewrite M_bind_unfold in Hset. simpl in Hset.
      rewrite Hc, Hs in Hset. cbn in Hset. unfold ServersTable.fetch_server, table_fetch in Hset.
      destruct (ReferenceDb.servers (database q) !! TextChannel.server c) as [s|] eqn:Hdb;
        cbn in Hset; rewrite ?Hdb in Hset; injection Hset as <-; [done|]. destruct q. by simpl in *; subst. }
  subst q1. unfold permitted_value.
  destruct (User.privileged (perspective q) || bool_decide _) eqn:Hall.
  { intros i Hi. rewrite Hm by done. unfold channel_bit. apply orb_true_iff in Hall.
    assert (v_privileged (db_view (with_server q found)) || v_owner (db_view (with_server q found)) = true)
      as ->; [|done].
    apply orb_true_iff. destruct Hall as [Hall|Hall]; [by left|right].
    apply bool_decide_eq_true, fmap_Some in Hall as (s & Hs & Ho). cbn. rewrite Hs.
    by apply bool_decide_eq_true. }
  apply orb_false_iff in Hall as [Hp Ho]. apply bool_decide_eq_false in Ho.
  destruct found as [s|].
  2:{ apply value_zero; [done|]. intros i Hi. rewrite Hm by done. unfold channel_bit. cbn. by rewrite Hp. }
  assert (Hown : Server.owner s ≠ User.id (perspective q)) by (intros Heq; apply Ho; cbn; by rewrite Heq).
  destruct (db_view_plain (with_server q (Some s)) s eq_refl Hp Hown) as [Hvp Hvo].
  assert (Heff : effective_member (with_server q (Some s)) =
    match member q with Some m => Some m | None => stored_member (database q) (perspective q) s end).
  { unfold effective_member, stored_member. cbn. destruct (member q); [done|].
    unfold MembersTable.fetch_member, table_fetch. by destruct (ReferenceDb.server_members (database q) !! _). }
  destruct (match member q with Some m => _ | None => _ end) as [m|] eqn:Hmem.
  - destruct (server_roles_ranked s m) as (roles & Hr1 & Hr2).
    destruct (channel_roles_ranked s c m) as (overrides & Ho1 & Ho2).
    exists roles, overrides. split; [done|]. split; [done|]. intros i Hi. rewrite Hm by done.
    unfold channel_bit. rewrite Hvp, Hvo. cbn [orb].
    assert (v_member (db_view (with_server q (Some s))) = true) as ->.
    { cbn [v_member db_view]. rewrite Heff. by apply bool_decide_eq_true_2. }
    change (flag_bit ChannelPermission.ViewChannel) with 20%Z.
    by rewrite !(layered_stored (with_server q (Some s)) s c m roles overrides) by (done || lia).
  - apply value_zero; [done|]. intros i Hi. rewrite Hm by done. unfold channel_bit.
    rewrite Hvp, Hvo. cbn [orb].
    assert (v_member (db_view (with_server q (Some s))) = false) as ->; [|done].
    cbn [v_member db_view]. rewrite Heff. by apply bool_decide_eq_false_2.
Qed.

Lemma channel_permissions_stored (u : User.t) (c : TextChannel.t) (w : World.t) :
  ∃ p, channel_permissions u (Channel.TextChannel c) w = (Ok p, w) ∧ PermissionValue.wf p ∧
    stored_permissions (World.db w) (World.now w) u c p.
Proof.
  set (q := with_channel (new (World.db w) u (World.now w)) (Some (Channel.TextChannel c))).
  destruct (query_permitted q c eq_refl ltac:(done)) as (p & q' & Hcalc & Hwf & Hp).
  exists p. split; [|split; [done|exact Hp]]. unfold channel_permissions, run_query. fold q. by rewrite Hcalc.
Qed.

(** C1: in a text channel the permissions of a user always have an answer, a 64-bit value, told from
    what is stored: all safe permissions for privileged users and the server's owner; otherwise
    nothing for who is not a member, and for a member the server's default permissions, overridden
    by the member's roles from the lowest to the highest, less what muting and a timeout take away,
    overridden by the channel's default and by its overrides for the member's roles from the lowest
    to the highest, less what a timeout takes away, and nothing at all when the channel cannot be
    viewed. *)
Theorem text_channel_permissions (u : User.t) (c : TextChannel.t) (w : World.t) :
  ∃ p, channel_permissions u (Channel.TextChannel c) w = (Ok p, w) ∧ PermissionValue.wf p ∧
    stored_permissions (World.db w) (World.now w) u c p.
Proof. apply channel_permissions_stored. Qed.
End Stored.

(** ** Witnesses *)

Section Witnesses.
#[local] Existing Instance canonical_iter.
#[local] Existing Instance Fixture.strangers.
Abbreviation D := ReferenceDb.t.

(** A member with a moderator role above a muted role, in a channel that shows itself. *)
Definition example_server : Server.t :=
  Fixture.server "S" "O" DEFAULT_PERMISSION_SERVER
    [Fixture.role "mod" 0 (ChannelPermission.as_u64 ChannelPermission.ManageMessages) 0;
     Fixture.role "muted" 1 0 (ChannelPermission.as_u64 ChannelPermission.ManageMessages)].
Definition example_channel : TextChannel.t :=
  Fixture.text_channel "C" "S" None
    [("mod", OverrideField.mk (ChannelPermission.as_u64 ChannelPermission.SendMessage) 0)].
Definition example_member (timeout : option Z) : Member.t :=
  Fixture.member "S" "A" ["mod"; "muted"] timeout.
Definition example_query (timeout : option Z) : DatabasePermissionQuery.t D :=
  Fixture.query ReferenceDb.empty 100 (Fixture.user "A" [])
    (Some (Channel.TextChannel example_channel)) (Some example_server)
    (Some (example_member timeout)).

Lemma timeout_restricts_channel_witness :
  ∃ p q', calculate_channel_permissions (example_query (Some 200%Z)) = (Ok p, q') ∧
    ∀ perm, is_flag perm = true → PermissionValue.has_channel_permission p perm = true →
      perm = ChannelPermission.ViewChannel ∨ perm = ChannelPermission.ReadMessageHistory.
Proof.
  apply (timeout_restricts_channel (example_query (Some 200%Z)) example_channel example_server
           (example_member (Some 200%Z))); try reflexivity. by intros [=].
Defined.

(** A channel whose default override hides it. *)
Definition hidden_channel : TextChannel.t :=
  Fixture.text_channel "C" "S"
    (Some (OverrideField.mk 0 (ChannelPermission.as_u64 ChannelPermission.ViewChannel))) [].
Definition hidden_query : DatabasePermissionQuery.t D :=
  Fixture.query ReferenceDb.empty 100 (Fixture.user "A" [])
    (Some (Channel.TextChannel hidden_channel)) (Some example_server)
    (Some (example_member None)).

Lemma hidden_channel_grants_nothing_witness :
  ∃ p, (calculate_channel_permissions hidden_query).1 = Ok p ∧ p = PermissionValue.from_u64 0.
Proof.
  eexists. split; [vm_compute; reflexivity|].
  eapply (hidden_channel_grants_nothing hidden_query _ hidden_channel);
    [reflexivity|vm_compute; reflexivity|reflexivity].
Defined.

Lemma example_roles_distinct : roles_distinct example_server.
Proof.
  intros i j ri rj Hi Hj Hr.
  apply elem_of_list_to_map_2 in Hi, Hj. simpl in Hi, Hj.
  repeat (apply elem_of_cons in Hi as [Hi|Hi]); repeat (apply elem_of_cons in Hj as [Hj|Hj]);
    try (by apply not_elem_of_nil in Hi); try (by apply not_elem_of_nil in Hj);
    simplify_eq; done.
Qed.

Lemma highest_role_decides_witness :
  ∃ p q', calculate_server_permissions (example_query None) = (Ok p, q') ∧
    ∀ perm, is_flag perm = true →
      let o := OverrideField.into_override (OverrideField.mk
                 (ChannelPermission.as_u64 ChannelPermission.ManageMessages) 0) in
      (Z.testbit (Override.deny o) (flag_bit perm) = true →
         PermissionValue.has_channel_permission p perm = false) ∧
      (Z.testbit (Override.allow o) (flag_bit perm) = true →
       Z.testbit (Override.deny o) (flag_bit perm) = false →
         PermissionValue.has_channel_permission p perm = true).
Proof.
  apply (highest_role_decides (example_query None) example_server (example_member None) "mod"
    (Fixture.role "mod" 0 (ChannelPermission.as_u64 ChannelPermission.ManageMessages) 0));
    try reflexivity.
  - by intros [=].
  - left.
  - intros id' r' Hin Hne Hr. simpl in Hin.
    apply elem_of_list_to_map_2 in Hr. simpl in Hr.
    apply elem_of_cons in Hr as [[= -> ->]|Hr]; [done|].
    apply elem_of_cons in Hr as [[= -> ->]|Hr]; [done|]. by apply not_elem_of_nil in Hr.
Defined.

(** The iteration order of [canonical_iter] reversed. *)
Definition reversed_iter : HashIter.
Proof.
  refine {| hash_iter := λ K V _ _ m, rev (map_to_list m) |}.
  intros K V ? ? m. by rewrite <- Permutation_rev.
Defined.

Lemma channel_permissions_deterministic_witness :
  (@calculate_channel_permissions _ (@query D _ canonical_iter) (example_query None)).1 =
  (@calculate_channel_permissions _ (@query D _ reversed_iter) (example_query None)).1.
Proof.
  apply (channel_permissions_deterministic canonical_iter reversed_iter (example_query None)
           example_channel example_server); try reflexivity.
  exact example_roles_distinct.
Defined.

(** Two roles of the same rank make the permissions depend on the iteration order of
    the role map: one order grants what the other denies. (The ranks [Role::create]
    hands out can tie after a role was deleted.) *)
Theorem tied_roles_ambiguous :
  ∃ (q : DatabasePermissionQuery.t D) p1 p2,
    (@calculate_server_permissions _ (@query D _ canonical_iter) q).1 = Ok p1 ∧
    (@calculate_server_permissions _ (@query D _ reversed_iter) q).1 = Ok p2 ∧
    PermissionValue.has_channel_permission p1 ChannelPermission.ManageMessages ≠
    PermissionValue.has_channel_permission p2 ChannelPermission.ManageMessages.
Proof.
  exists (Fixture.query ReferenceDb.empty 100 (Fixture.user "A" []) None
    (Some (Fixture.server "S" "O" DEFAULT_PERMISSION_SERVER
      [Fixture.role "mod" 1 (ChannelPermission.as_u64 ChannelPermission.ManageMessages) 0;
       Fixture.role "muted" 1 0 (ChannelPermission.as_u64 ChannelPermission.ManageMessages)]))
    (Some (Fixture.member "S" "A" ["mod"; "muted"] None))).
  eexists _, _. split; [vm_compute; reflexivity|]. split; [vm_compute; reflexivity|].
  vm_compute. discriminate.
Qed.

(** A blocks B, and writes to B. *)
Definition dm_query : DatabasePermissionQuery.t D :=
  Fixture.query
    (ReferenceDb.set_users ReferenceDb.empty {["B" := Fixture.user "B" []]}) 100
    (Fixture.user "A" [Relationship.mk "B" RelationshipStatus.Blocked])
    (Some (Channel.DirectMessage (Fixture.dm "D" ["A"; "B"]))) None None.

Lemma direct_message_permissions_witness :
  (calculate_channel_permissions dm_query).1 =
  Ok (PermissionValue.from_u64 DEFAULT_PERMISSION_VIEW_ONLY).
Proof.
  etrans; [apply (direct_message_permissions dm_query (Fixture.dm "D" ["A"; "B"]) "B"
                    (Fixture.user "B" [])); try reflexivity; left|].
  reflexivity.
Defined.
End Witnesses.
