(* ===== verification/BulkPermissions.v ===== *)
(** * Permissions of many members at once ([util/bulk_permissions.rs])

    [BulkDatabasePermissionQuery] repeats the calculation of server and channel
    permissions for a list of members, to decide which of them a mention may notify.
    The theorem relates it to the calculators of [Permissions.v]. *)

From S2P Require Import Prelude Errors Permissions PermissionSpec Files Users Servers Channels.
From S2P Require Import PermissionQuery Messages Unreads Config Emojis World Database.
From S2P Require Import PermissionTheorems.
From stdpp Require Import base list gmap strings.
From Stdlib Require Import ZArith Lia.

Module BulkDatabasePermissionQuery.
Record t : Type := mk {
  database : ReferenceDb.t;
  server : Server.t;
  channel : option Channel.t;
  users : option (list User.t);
  members : option (list Member.t);
  cached_users : option (list User.t);
  cached_members : option (list Member.t);
  cached_member_perms : option (gmap string PermissionValue.t);
  now : Z
}.

Definition new (database : ReferenceDb.t) (server : Server.t) (now : Z) : t :=
  mk database server None None None None None None now.

Definition from_server_id (db : ReferenceDb.t) (server : string) (now : Z) : Result t :=
  match ServersTable.fetch_server server (ReferenceDb.servers db) with
  | (Ok server, _) => Ok (new db server now)
  | _ => Panicked
  end.

Definition with_channel (self : t) (channel : Channel.t) : t :=
  mk (database self) (server self) (Some channel) (users self) (members self)
     (cached_users self) (cached_members self) (cached_member_perms self) (now self).
Definition with_members (self : t) (members : list Member.t) : t :=
  mk (database self) (server self) (channel self) None (Some members) None None None (now self).
Definition with_users (self : t) (users : list User.t) : t :=
  mk (database self) (server self) (channel self) (Some users) None None None None (now self).
End BulkDatabasePermissionQuery.

Module Bulk.
Import BulkDatabasePermissionQuery.
Section Bulk.
Context `{HashIter}.

(** Calculates a member's server permissions *)
Definition calculate_server_permissions (now : Z) (server : Server.t) (user : User.t)
    (member : Member.t) : PermissionValue.t :=
  if User.privileged user || bool_decide (Server.owner server = User.id user)
  then PermissionValue.from_permission ChannelPermission.GrantAllSafe else
  let permissions := PermissionValue.from_i64 (Server.default_permissions server) in
  let role_overrides :=
    (sort_desc fst
      ((λ r, (Role.rank r.2, OverrideField.into_override (Role.permissions r.2))) <$>
        List.filter (λ r, bool_decide (r.1 ∈ Member.roles member))
          (hash_iter (Server.roles server)))).*2 in
  let permissions := fold_left PermissionValue.apply role_overrides permissions in
  if Member.in_timeout member now
  then PermissionValue.restrict permissions ALLOW_IN_TIMEOUT else permissions.

(** The body of the loop over the users *)
Definition user_permissions (query : t) (role_permissions : gmap string OverrideField.t)
    (default_permissions : option OverrideField.t) (members : gmap string Member.t)
    (user : User.t) : PermissionValue.t :=
  match members !! User.id user with
  | None => PermissionValue.from_u64 0
  | Some member =>
      if User.privileged user
      then PermissionValue.from_permission ChannelPermission.GrantAllSafe else
      if bool_decide (User.id user = Server.owner (server query))
      then PermissionValue.from_permission ChannelPermission.GrantAllSafe else
      let permission := calculate_server_permissions (now query) (server query) user member in
      let permission :=
        match default_permissions with
        | Some defaults => PermissionValue.apply permission (OverrideField.into_override defaults)
        | None => permission
        end in
      let overrides :=
        (sort_desc fst
          (omap (λ r, (λ role, (Role.rank role, OverrideField.into_override r.2)) <$>
                        Server.roles (server query) !! r.1)
            (List.filter (λ r, bool_decide (r.1 ∈ Member.roles member))
              (hash_iter role_permissions)))).*2 in
      fold_left PermissionValue.apply overrides permission
  end.

(** [HashMap::from_iter]: of two entries for a key the later one stays *)
Definition from_iter {V} (l : list (string * V)) : gmap string V :=
  fold_left (λ m kv, <[kv.1 := kv.2]> m) l ∅.

(** The users of the query, fetched by the members' ids if they were not given *)
Definition query_users (query : t) : Result (list User.t) :=
  match users query with
  | Some users => Ok users
  | None =>
      members ← unwrap (members query);
      let ids := (λ m, MemberCompositeKey.user (Member.id m)) <$> members in
      match UsersTable.fetch_users ids (ReferenceDb.users (database query)) with
      | (Ok users, _) => Ok users
      | _ => Panicked
      end
  end.

(** The members of the query, fetched by the users' ids if they were not given *)
Definition query_members (query : t) (users : list User.t) : Result (list Member.t) :=
  match members query with
  | Some members => Ok members
  | None =>
      match MembersTable.fetch_members (Server.id (server query)) (User.id <$> users)
              (ReferenceDb.server_members (database query)) with
      | (Ok members, _) => Ok members
      | _ => Panicked
      end
  end.

(** Calculate members permissions in a server channel. *)
Definition calculate_members_permissions (query : t) : Result (gmap string PermissionValue.t) :=
  match channel query with
  | Some (Channel.TextChannel c) =>
      users ← query_users query;
      members ← query_members query users;
      let members := from_iter ((λ m, (MemberCompositeKey.user (Member.id m), m)) <$> members) in
      Ok (fold_left (λ resp user,
            <[User.id user := user_permissions query (TextChannel.role_permissions c)
                                (TextChannel.default_permissions c) members user]> resp) users ∅)
  | _ => Panicked
  end.

Definition members_can_see_channel (query : t) : Result (gmap string bool) :=
  let can_see (perms : gmap string PermissionValue.t) : gmap string bool :=
    (λ p, PermissionValue.has_channel_permission p ChannelPermission.ViewChannel) <$> perms in
  match cached_member_perms query with
  | Some perms => Ok (can_see perms)
  | None => can_see <$> calculate_members_permissions query
  end.
End Bulk.
End Bulk.

(** ** Agreement with the single calculator *)

Section Agreement.
Context {D : Type} `{PermissionDatabase D} `{HashIter}.

(** The single calculator's query for one member. *)
Definition single_query (d : D) (now : Z) (user : User.t) (c : TextChannel.t) (s : Server.t)
    (m : Member.t) : DatabasePermissionQuery.t D :=
  DatabasePermissionQuery.mk d user None (Some (Channel.TextChannel c)) (Some s) (Some m)
    None None None now.

(** Bit [i] of the bulk calculator's value for a plain member. *)
Lemma bulk_bit q c ms user m i :
  ms !! User.id user = Some m → User.privileged user = false →
  Server.owner (BulkDatabasePermissionQuery.server q) ≠ User.id user → (0 ≤ i < 64)%Z →
  Z.testbit (PermissionValue.into_raw
    (Bulk.user_permissions q (TextChannel.role_permissions c)
       (TextChannel.default_permissions c) ms user)) i =
  fold_left (override_bit i)
    (DatabasePermissionQuery.default_channel_override (Some (Channel.TextChannel c)) ::
     DatabasePermissionQuery.sorted_overrides
       (DatabasePermissionQuery.ranked_channel_roles (TextChannel.role_permissions c)
          (BulkDatabasePermissionQuery.server q) (Member.roles m)))
    (fold_left (override_bit i)
       (DatabasePermissionQuery.sorted_overrides
         (DatabasePermissionQuery.ranked_server_roles (BulkDatabasePermissionQuery.server q)
            (Member.roles m)))
       (Z.testbit (as_u64 (Server.default_permissions (BulkDatabasePermissionQuery.server q))) i)
     && (negb (Member.in_timeout m (BulkDatabasePermissionQuery.now q)) ||
         (i =? flag_bit ChannelPermission.ViewChannel)%Z ||
         (i =? flag_bit ChannelPermission.ReadMessageHistory)%Z)).
Proof.
  intros Hm Hp Ho Hi. unfold Bulk.user_permissions. rewrite Hm, Hp.
  rewrite bool_decide_eq_false_2 by congruence.
  rewrite testbit_fold_apply by done. cbn [fold_left]. f_equal.
  assert (Z.testbit (PermissionValue.into_raw (Bulk.calculate_server_permissions
            (BulkDatabasePermissionQuery.now q) (BulkDatabasePermissionQuery.server q) user m)) i =
    fold_left (override_bit i)
       (DatabasePermissionQuery.sorted_overrides
         (DatabasePermissionQuery.ranked_server_roles (BulkDatabasePermissionQuery.server q)
            (Member.roles m)))
       (Z.testbit (as_u64 (Server.default_permissions (BulkDatabasePermissionQuery.server q))) i)
     && (negb (Member.in_timeout m (BulkDatabasePermissionQuery.now q)) ||
         (i =? flag_bit ChannelPermission.ViewChannel)%Z ||
         (i =? flag_bit ChannelPermission.ReadMessageHistory)%Z)) as Hserver.
  { unfold Bulk.calculate_server_permissions. rewrite Hp, bool_decide_eq_false_2 by done.
    cbn [orb]. destruct (Member.in_timeout m _); cbn [negb orb].
    - by rewrite testbit_restrict, testbit_fold_apply, testbit_allow_in_timeout by lia.
    - by rewrite testbit_fold_apply, andb_true_r. }
  rewrite <- Hserver. cbn [DatabasePermissionQuery.default_channel_override].
  destruct (TextChannel.default_permissions c) as [o|].
  - change (default OverrideField.default (Some o)) with o. rewrite testbit_apply by lia. unfold override_bit.
    rewrite (proj2 (Z.ltb_lt i 64)) by lia. destruct_bits.
  - unfold override_bit. simpl. by rewrite !Z.bits_0.
Qed.

Lemma fold_insert_lookup {A V} (k : A → string) (v : A → V) (l : list A) (m0 : gmap string V) a :
  NoDup (k <$> l) → a ∈ l →
  fold_left (λ m a, <[k a := v a]> m) l m0 !! k a = Some (v a).
Proof.
  assert (∀ l (m0 : gmap string V), k a ∉ k <$> l →
    fold_left (λ m a, <[k a := v a]> m) l m0 !! k a = m0 !! k a) as Hother.
  { intros l'. induction l' as [|b l' IH]; intros m0' Hn; simpl; [done|].
    csimpl in Hn. apply not_elem_of_cons in Hn as [Hne Hn]. rewrite IH by done.
    by rewrite lookup_insert_ne. }
  revert m0. induction l as [|b l IH]; intros m0 Hn Hin; [by apply not_elem_of_nil in Hin|].
  csimpl in Hn. apply NoDup_cons in Hn as [Hb Hn]. simpl.
  apply elem_of_cons in Hin as [->|Hin]; [|by apply IH].
  rewrite Hother by done. apply lookup_insert_eq.
Qed.

Lemma from_iter_member ms m :
  NoDup ((λ m, MemberCompositeKey.user (Member.id m)) <$> ms) → m ∈ ms →
  Bulk.from_iter ((λ m, (MemberCompositeKey.user (Member.id m), m)) <$> ms) !!
    MemberCompositeKey.user (Member.id m) = Some m.
Proof.
  intros Hn Hm. unfold Bulk.from_iter.
  apply (fold_insert_lookup fst snd _ ∅ (MemberCompositeKey.user (Member.id m), m)).
  - by rewrite <- list_fmap_compose.
  - apply list_elem_of_fmap. by exists m.
Qed.

(** What the bulk calculation finds for one member, however its users and members were
    obtained. *)
Lemma bulk_view_for (q : BulkDatabasePermissionQuery.t) (d : D) (c : TextChannel.t)
    (us : list User.t) (ms : list Member.t) (user : User.t) (m : Member.t) :
  BulkDatabasePermissionQuery.channel q = Some (Channel.TextChannel c) →
  Bulk.query_users q = Ok us → Bulk.query_members q us = Ok ms →
  BulkDatabasePermissionQuery.cached_member_perms q = None →
  TextChannel.server c = Server.id (BulkDatabasePermissionQuery.server q) →
  NoDup (User.id <$> us) → NoDup ((λ m, MemberCompositeKey.user (Member.id m)) <$> ms) →
  user ∈ us → m ∈ ms → MemberCompositeKey.user (Member.id m) = User.id user →
  ∃ seen p q', Bulk.members_can_see_channel q = Ok seen ∧
    calculate_channel_permissions
      (single_query d (BulkDatabasePermissionQuery.now q) user c
         (BulkDatabasePermissionQuery.server q) m) = (Ok p, q') ∧
    seen !! User.id user =
      Some (PermissionValue.has_channel_permission p ChannelPermission.ViewChannel).
Proof.
  intros Hc Hus Hms Hcache Hs Hnu Hnm Hu Hm Hid.
  set (s := BulkDatabasePermissionQuery.server q) in *.
  set (sq := single_query d (BulkDatabasePermissionQuery.now q) user c s m).
  destruct (known_channel_permissions sq c s eq_refl eq_refl Hs) as (p & q' & Hcalc & _ & Hp).
  eexists _, p, q'. split; [|split; [exact Hcalc|]].
  { unfold Bulk.members_can_see_channel, Bulk.calculate_members_permissions.
    rewrite Hcache, Hc, Hus. simpl. by rewrite Hms. }
  rewrite lookup_fmap, (fold_insert_lookup User.id _ us ∅ user) by done. simpl. f_equal.
  rewrite (value_has_flag p _ _ Hp) by done.
  pose proof (from_iter_member ms m Hnm Hm) as Hlook. rewrite Hid in Hlook.
  set (members := Bulk.from_iter _) in *.
  unfold channel_bit. change (v_privileged (db_view sq)) with (User.privileged user).
  change (v_owner (db_view sq)) with (bool_decide (Server.owner s = User.id user)).
  destruct (User.privileged user) eqn:Hpriv.
  { unfold Bulk.user_permissions. by rewrite Hlook, Hpriv. }
  destruct (decide (Server.owner s = User.id user)) as [Ho|Ho].
  { unfold Bulk.user_permissions. rewrite Hlook, Hpriv. fold s.
    rewrite (bool_decide_eq_true_2 (User.id user = Server.owner s)) by done.
    by rewrite (bool_decide_eq_true_2 (Server.owner s = User.id user)) by done. }
  rewrite has_flag by done. rewrite (bulk_bit q c members user m) by (done || vm_compute; auto).
  rewrite bool_decide_eq_false_2 by done.
  cbn [orb]. change (v_member (db_view sq)) with true. rewrite andb_true_l, andb_diag.
  unfold layered_bit, server_bit.
  change (v_privileged (db_view sq)) with (User.privileged user).
  change (v_owner (db_view sq)) with (bool_decide (Server.owner s = User.id user)).
  change (v_member (db_view sq)) with true.
  rewrite Hpriv, bool_decide_eq_false_2 by done. cbn [orb]. rewrite andb_true_l.
  set (i := flag_bit _). unfold timeout_mask, voice_mask.
  fold i. rewrite Z.eqb_refl, !orb_true_r, !andb_true_r.
  reflexivity.
Qed.
(** C19: the bulk calculation and the calculation for one user agree on who sees a
    channel: for every member of the list, [members_can_see_channel] reports exactly
    whether the single calculation grants the permission to view the channel, whether
    the member is privileged, the owner, in timeout or none of these. *)
Theorem bulk_agrees_on_view (q : BulkDatabasePermissionQuery.t) (d : D) (c : TextChannel.t)
    (us : list User.t) (ms : list Member.t) (user : User.t) (m : Member.t) :
  BulkDatabasePermissionQuery.channel q = Some (Channel.TextChannel c) →
  BulkDatabasePermissionQuery.users q = Some us →
  BulkDatabasePermissionQuery.members q = Some ms →
  BulkDatabasePermissionQuery.cached_member_perms q = None →
  TextChannel.server c = Server.id (BulkDatabasePermissionQuery.server q) →
  NoDup (User.id <$> us) → NoDup ((λ m, MemberCompositeKey.user (Member.id m)) <$> ms) →
  user ∈ us → m ∈ ms → MemberCompositeKey.user (Member.id m) = User.id user →
  ∃ seen p q', Bulk.members_can_see_channel q = Ok seen ∧
    calculate_channel_permissions
      (single_query d (BulkDatabasePermissionQuery.now q) user c
         (BulkDatabasePermissionQuery.server q) m) = (Ok p, q') ∧
    seen !! User.id user =
      Some (PermissionValue.has_channel_permission p ChannelPermission.ViewChannel).
Proof.
  intros Hc Hus Hms. apply bulk_view_for; [done| |].
  - unfold Bulk.query_users. by rewrite Hus.
  - unfold Bulk.query_members. by rewrite Hms.
Qed.
End Agreement.

Section Witness.
#[local] Existing Instance canonical_iter.
#[local] Existing Instance Fixture.strangers.

Definition bulk_example : BulkDatabasePermissionQuery.t :=
  BulkDatabasePermissionQuery.mk ReferenceDb.empty example_server
    (Some (Channel.TextChannel example_channel))
    (Some [Fixture.user "A" []; Fixture.user "B" []]) (Some [example_member (Some 200%Z)])
    None None None 100.

Lemma bulk_agrees_on_view_witness :
  ∃ seen p q', Bulk.members_can_see_channel bulk_example = Ok seen ∧
    calculate_channel_permissions
      (single_query ReferenceDb.empty 100 (Fixture.user "A" []) example_channel example_server
         (example_member (Some 200%Z))) = (Ok p, q') ∧
    seen !! "A" =
      Some (PermissionValue.has_channel_permission p ChannelPermission.ViewChannel).
Proof.
  apply (bulk_agrees_on_view bulk_example ReferenceDb.empty example_channel
           [Fixture.user "A" []; Fixture.user "B" []] [example_member (Some 200%Z)]
           (Fixture.user "A" []) (example_member (Some 200%Z))); try reflexivity.
  - apply (bool_decide_unpack _). vm_compute. exact I.
  - apply (bool_decide_unpack _). vm_compute. exact I.
  - left.
  - left.
Defined.
End Witness.
