(* ===== verification/Relationships.v ===== *)
(** * Relationships between users

    The handlers of [models/users/model.rs] that change how two users relate (friend
    requests, friendships, blocks), the conversion of a user to the API model
    ([util/bridge/v0.rs]) and the routes of [crates/delta/src/routes/users] that call
    them. The theorems say which pairs of statuses two users can have, that each route
    makes the transition its specification gives, and what a stale copy of a user does. *)

From S2P Require Import Prelude Errors Permissions PermissionSpec Files Users Servers Channels.
From S2P Require Import PermissionQuery Messages Unreads Config Emojis World Database.
From stdpp Require Import base list gmap strings.
From Stdlib Require Import ZArith Lia Ascii.

(** ** Users as clients see them *)

(** [v as u32] *)
Definition as_u32 (v : Z) : Z := (v mod 2 ^ 32)%Z.
(** [UserBadges::EarlyAdopter] *)
Definition early_adopter : Z := 256.

(** [UserStatus::into(discard_invisible)] *)
Definition status_into (self : UserStatus.t) (discard_invisible : bool) : option UserStatus.t :=
  let presence :=
    match UserStatus.presence self with
    | Some presence =>
        if discard_invisible && bool_decide (presence = Presence.Invisible) then None
        else Some presence
    | None => None
    end in
  match UserStatus.text self, presence with
  | None, None => None
  | text, presence => Some (UserStatus.mk text presence)
  end.

Definition is_invisible (u : User.t) : bool :=
  match User.status u with
  | Some s => bool_decide (UserStatus.presence s = Some Presence.Invisible)
  | None => false
  end.

Section Handlers.
Context `{Environment, MutualIds, HashIter}.

(** Gets the user's badges along with calculating any dynamic badges *)
Definition get_badges (self : User.t) : Result Z :=
  let badges := as_u32 (default 0%Z (User.badges self)) in
  match Settings.early_adopter_cutoff config with
  | Some cutoff =>
      ms ← unwrap (ulid_timestamp_ms (User.id self));
      if (ms <? cutoff)%Z then Ok (as_u32 (badges + early_adopter)) else Ok badges
  | None => Ok badges
  end.

(** The relationship and whether the profile can be seen, from a perspective *)
Definition visibility (self : User.t) (perspective : option User.t) :
    H (RelationshipStatus.t * bool) :=
  if bool_decide (is_Some (User.bot self)) then mret (RelationshipStatus.None, true) else
  match perspective with
  | Some perspective =>
      if bool_decide (User.id perspective = User.id self)
      then mret (RelationshipStatus.User, true)
      else
        permissions ← user_permissions perspective self;
        mret (match User.relations perspective with
              | Some relations =>
                  match List.find (λ r, bool_decide (Relationship.id r = User.id self))
                          relations with
                  | Some relationship => Relationship.status relationship
                  | None => RelationshipStatus.None
                  end
              | None => RelationshipStatus.None
              end,
              PermissionValue.has_user_permission permissions UserPermission.ViewProfile)
  | None => mret (RelationshipStatus.None, false)
  end.

(** [User::into] *)
Definition into_model (self : User.t) (perspective : option User.t) : H V0User.t :=
  v ← visibility self perspective;
  let relationship : RelationshipStatus.t := v.1 in
  let can_see_profile : bool := v.2 in
  badges ← lift (get_badges self);
  mret {|
    V0User.id := User.id self;
    V0User.username := User.username self;
    V0User.discriminator := User.discriminator self;
    V0User.display_name := User.display_name self;
    V0User.pronouns := User.pronouns self;
    V0User.avatar := User.avatar self;
    V0User.relations :=
      match perspective with
      | Some p => if bool_decide (User.id p = User.id self)
                  then default [] (User.relations self) else []
      | None => []
      end;
    V0User.badges := badges;
    V0User.status :=
      if can_see_profile then User.status self ≫= (λ s, status_into s true) else None;
    V0User.flags := as_u32 (default 0%Z (User.flags self));
    V0User.privileged := User.privileged self;
    V0User.bot := User.bot self;
    V0User.relationship := relationship;
    V0User.online := can_see_profile && is_online (User.id self) && negb (is_invisible self)
  |}.

(** ** Relationship handlers

    [&mut self] and [&mut target] are the caller's copies of the users: a handler
    returns the copies it leaves. *)

(** Set a relationship to another user *)
Definition set_relationship (self user_b : User.t) (status : RelationshipStatus.t) : H User.t :=
  on_users (UsersTable.set_relationship (User.id self) (User.id user_b) status) ;;
  mret (match status with
        | RelationshipStatus.None | RelationshipStatus.User =>
            match User.relations self with
            | Some relations =>
                User.set_relations self (Some (drop_relation (User.id user_b) relations))
            | None => self
            end
        | _ =>
            let relation := Relationship.mk (User.id user_b) status in
            match User.relations self with
            | Some relations =>
                User.set_relations self
                  (Some (drop_relation (User.id user_b) relations ++ [relation]))
            | None => User.set_relations self (Some [relation])
            end
        end).

(** Apply a certain relationship between two users *)
Definition apply_relationship (self target : User.t) (local remote : RelationshipStatus.t) :
    H (User.t * User.t) :=
  target ← set_relationship target self remote;
  self ← set_relationship self target local;
  user ← into_model self (Some target);
  private (EventV1.UserRelationship (User.id target) user) (User.id target) ;;
  user ← into_model target (Some self);
  private (EventV1.UserRelationship (User.id self) user) (User.id self) ;;
  mret (self, target).

(** This user's current count of outgoing friend requests *)
Definition outgoing_requests (self : User.t) : nat :=
  match User.relations self with
  | Some relations =>
      length (List.filter
        (λ r, bool_decide (Relationship.status r = RelationshipStatus.Outgoing)) relations)
  | None => 0
  end.

(** Add another user as a friend *)
Definition add_friend (self target : User.t) : H (User.t * User.t) :=
  match User.relationship_with self (User.id target) with
  | RelationshipStatus.User => throw ErrorType.NoEffect
  | RelationshipStatus.Friend => throw ErrorType.AlreadyFriends
  | RelationshipStatus.Outgoing => throw ErrorType.AlreadySentRequest
  | RelationshipStatus.Blocked => throw ErrorType.Blocked
  | RelationshipStatus.BlockedOther => throw ErrorType.BlockedByOther
  | RelationshipStatus.Incoming =>
      amqp (Amqp.FriendRequestAccepted self target) ;;
      apply_relationship self target RelationshipStatus.Friend RelationshipStatus.Friend
  | RelationshipStatus.None =>
      now ← clock;
      limits ← lift (user_limits now (User.id self));
      if bool_decide
           (FeaturesLimits.outgoing_friend_requests limits ≤ outgoing_requests self)%nat
      then throw (ErrorType.TooManyPendingFriendRequests
                    (Z.of_nat (FeaturesLimits.outgoing_friend_requests limits)))
      else
        amqp (Amqp.FriendRequestReceived target self) ;;
        apply_relationship self target RelationshipStatus.Outgoing RelationshipStatus.Incoming
  end.

(** Remove another user as a friend *)
Definition remove_friend (self target : User.t) : H (User.t * User.t) :=
  match User.relationship_with self (User.id target) with
  | RelationshipStatus.Friend | RelationshipStatus.Outgoing | RelationshipStatus.Incoming =>
      apply_relationship self target RelationshipStatus.None RelationshipStatus.None
  | _ => throw ErrorType.NoEffect
  end.

(** Block another user *)
Definition block_user (self target : User.t) : H (User.t * User.t) :=
  match User.relationship_with self (User.id target) with
  | RelationshipStatus.User | RelationshipStatus.Blocked => throw ErrorType.NoEffect
  | RelationshipStatus.BlockedOther =>
      apply_relationship self target RelationshipStatus.Blocked RelationshipStatus.Blocked
  | RelationshipStatus.None | RelationshipStatus.Friend | RelationshipStatus.Incoming
  | RelationshipStatus.Outgoing =>
      apply_relationship self target RelationshipStatus.Blocked RelationshipStatus.BlockedOther
  end.

(** Unblock another user *)
Definition unblock_user (self target : User.t) : H (User.t * User.t) :=
  match User.relationship_with self (User.id target) with
  | RelationshipStatus.Blocked =>
      match User.relationship_with target (User.id self) with
      | RelationshipStatus.Blocked =>
          apply_relationship self target RelationshipStatus.BlockedOther
            RelationshipStatus.Blocked
      | RelationshipStatus.BlockedOther =>
          apply_relationship self target RelationshipStatus.None RelationshipStatus.None
      | _ => throw ErrorType.InternalError
      end
  | _ => throw ErrorType.NoEffect
  end.

(** ** Routes ([crates/delta/src/routes/users])

    [user] is the requester, loaded by the request guard; [target] is the id of the
    path. *)

Definition is_bot (u : User.t) : bool := bool_decide (is_Some (User.bot u)).

(** [PUT /users/<target>/friend] *)
Definition route_add_friend (user : User.t) (target : string) : H V0User.t :=
  target ← on_users (UsersTable.fetch_user target);
  if is_bot user || is_bot target then throw ErrorType.IsBot else
  copies ← add_friend user target;
  into_model copies.2 (Some copies.1).

(** [DELETE /users/<target>/friend] *)
Definition route_remove_friend (user : User.t) (target : string) : H V0User.t :=
  target ← on_users (UsersTable.fetch_user target);
  if is_bot user || is_bot target then throw ErrorType.IsBot else
  copies ← remove_friend user target;
  into_model copies.2 (Some copies.1).

(** [PUT /users/<target>/block] *)
Definition route_block (user : User.t) (target : string) : H V0User.t :=
  target ← on_users (UsersTable.fetch_user target);
  copies ← block_user user target;
  into_model copies.2 (Some copies.1).

(** [DELETE /users/<target>/block] *)
Definition route_unblock (user : User.t) (target : string) : H V0User.t :=
  target ← on_users (UsersTable.fetch_user target);
  copies ← unblock_user user target;
  into_model copies.2 (Some copies.1).

(** [str::split_once('#')], the part before the separator or the whole string *)
Fixpoint before_hash (s : string) : string :=
  match s with
  | EmptyString => EmptyString
  | String c s' => if Ascii.eqb c "#"%char then EmptyString else String c (before_hash s')
  end.

(** [POST /users/friend] *)
Definition route_send_friend_request `{Lowercase} (user : User.t) (username : string) :
    H V0User.t :=
  let username := before_hash username in
  if negb (bool_decide (username = "")) then
    target ← on_users (UsersTable.fetch_user_by_username username "0000");
    if is_bot user || is_bot target then throw ErrorType.IsBot else
    copies ← add_friend user target;
    into_model copies.2 (Some copies.1)
  else throw ErrorType.InvalidProperty.
End Handlers.

(** ** What the handlers do to the users table *)

Definition users (w : World.t) : UsersTable.table := ReferenceDb.users (World.db w).
Definition set_users (w : World.t) (t : UsersTable.table) : World.t :=
  World.set_db w (ReferenceDb.set_users (World.db w) t).

(** The status [a] stores about [b] *)
Definition rel (t : UsersTable.table) (a b : string) : RelationshipStatus.t :=
  match t !! a with Some u => User.relationship_with u b | None => RelationshipStatus.None end.

(** Users are stored under their own id. *)
Definition users_keyed (t : UsersTable.table) : Prop :=
  ∀ id u, t !! id = Some u → User.id u = id.

Section Effects.
Context `{Environment, MutualIds, HashIter}.

Lemma set_relationship_ok self b s u w :
  users w !! User.id self = Some u →
  set_relationship self b s w =
  (Ok (with_relation (User.id b) s self),
   set_users w (<[User.id self := with_relation (User.id b) s u]> (users w))).
Proof.
  intros Hu. unfold set_relationship. rewrite M_bind_unfold. unfold on_users, on_table.
  change (ReferenceDb.users (World.db w)) with (users w).
  rewrite set_relationship_spec. unfold table_update. rewrite Hu. cbn.
  f_equal. f_equal. by destruct s; simpl; destruct (User.relations self).
Qed.

Lemma visibility_state u p w : (visibility u p w).2 = w.
Proof.
  unfold visibility. destruct (bool_decide _); [done|]. destruct p as [p|]; [|done].
  destruct (bool_decide _); [done|]. rewrite M_bind_unfold.
  unfold user_permissions, run_query. by destruct (infallible _).
Qed.

Lemma into_model_state u p w : (into_model u p w).2 = w.
Proof.
  unfold into_model. rewrite M_bind_unfold. pose proof (visibility_state u p w) as Hv.
  destruct (visibility u p w) as [[v| |] w']; simpl in Hv; subst; try done.
  rewrite M_bind_unfold. unfold lift. by destruct (get_badges u).
Qed.

(** The users table after [apply_relationship], whether or not the events could be
    built: both relations are written first. *)
Lemma apply_relationship_users self target local remote su tu w :
  users w !! User.id self = Some su → users w !! User.id target = Some tu →
  User.id self ≠ User.id target →
  users (apply_relationship self target local remote w).2 =
  <[User.id self := with_relation (User.id target) local su]>
    (<[User.id target := with_relation (User.id self) remote tu]> (users w)).
Proof.
  intros Hs Ht Hne. unfold apply_relationship.
  rewrite M_bind_unfold, (set_relationship_ok target self remote tu) by done.
  rewrite M_bind_unfold, (set_relationship_ok self _ local su); last first.
  { unfold users, set_users; simpl. by rewrite lookup_insert_ne. }
  rewrite with_relation_id. set (w2 := set_users _ _).
  assert (users w2 = <[User.id self := with_relation (User.id target) local su]>
    (<[User.id target := with_relation (User.id self) remote tu]> (users w))) as Hw2 by done.
  set (s' := with_relation _ _ self). set (t' := with_relation _ _ target).
  clearbody w2. rewrite M_bind_unfold. pose proof (into_model_state s' (Some t') w2) as H1'.
  destruct (into_model s' (Some t') w2) as [[v1| |] w3]; simpl in H1'; subst w3; try done.
  rewrite M_bind_unfold. cbn. rewrite M_bind_unfold. set (w4 := World.set_events _ _).
  pose proof (into_model_state t' (Some s') w4) as H4.
  destruct (into_model t' (Some s') w4) as [[v2| |] w5]; simpl in H4; subst w5; done.
Qed.
End Effects.

(** ** The specification: transitions of a pair of statuses *)

Module Relation.
Inductive op : Type := Add | Remove | Block | Unblock.

(** What an operation of a user with status [s] towards a target with status [t]
    towards the user does: an error, or the new pair of statuses. *)
Definition transition (o : op) (s t : RelationshipStatus.t) :
    ErrorType.t + RelationshipStatus.t * RelationshipStatus.t :=
  match o, s with
  | Add, RelationshipStatus.User => inl ErrorType.NoEffect
  | Add, RelationshipStatus.Friend => inl ErrorType.AlreadyFriends
  | Add, RelationshipStatus.Outgoing => inl ErrorType.AlreadySentRequest
  | Add, RelationshipStatus.Blocked => inl ErrorType.Blocked
  | Add, RelationshipStatus.BlockedOther => inl ErrorType.BlockedByOther
  | Add, RelationshipStatus.Incoming =>
      inr (RelationshipStatus.Friend, RelationshipStatus.Friend)
  | Add, RelationshipStatus.None =>
      inr (RelationshipStatus.Outgoing, RelationshipStatus.Incoming)
  | Remove, (RelationshipStatus.Friend | RelationshipStatus.Outgoing
            | RelationshipStatus.Incoming) =>
      inr (RelationshipStatus.None, RelationshipStatus.None)
  | Remove, _ => inl ErrorType.NoEffect
  | Block, (RelationshipStatus.User | RelationshipStatus.Blocked) => inl ErrorType.NoEffect
  | Block, RelationshipStatus.BlockedOther =>
      inr (RelationshipStatus.Blocked, RelationshipStatus.Blocked)
  | Block, _ => inr (RelationshipStatus.Blocked, RelationshipStatus.BlockedOther)
  | Unblock, RelationshipStatus.Blocked =>
      match t with
      | RelationshipStatus.Blocked =>
          inr (RelationshipStatus.BlockedOther, RelationshipStatus.Blocked)
      | RelationshipStatus.BlockedOther =>
          inr (RelationshipStatus.None, RelationshipStatus.None)
      | _ => inl ErrorType.InternalError
      end
  | Unblock, _ => inl ErrorType.NoEffect
  end.

(** The pairs of statuses two different users can have towards each other. *)
Definition valid_pair (s t : RelationshipStatus.t) : bool :=
  match s, t with
  | RelationshipStatus.None, RelationshipStatus.None
  | RelationshipStatus.Friend, RelationshipStatus.Friend
  | RelationshipStatus.Outgoing, RelationshipStatus.Incoming
  | RelationshipStatus.Incoming, RelationshipStatus.Outgoing
  | RelationshipStatus.Blocked, RelationshipStatus.BlockedOther
  | RelationshipStatus.BlockedOther, RelationshipStatus.Blocked
  | RelationshipStatus.Blocked, RelationshipStatus.Blocked => true
  | _, _ => false
  end.

Lemma valid_pair_sym s t : valid_pair s t = valid_pair t s.
Proof. by destruct s, t. Qed.

Lemma transition_valid o s t s' t' :
  valid_pair s t = true → transition o s t = inr (s', t') → valid_pair s' t' = true.
Proof. destruct o, s; simpl; try done; destruct t; simpl; intros; by simplify_eq. Qed.

Lemma transition_no_internal_error o s t :
  valid_pair s t = true → transition o s t ≠ inl ErrorType.InternalError.
Proof. destruct o, s, t; done. Qed.

(** Every pair of different users in the table has a valid pair of statuses. *)
Definition consistent (t : UsersTable.table) : Prop :=
  ∀ a b, a ≠ b → is_Some (t !! a) → is_Some (t !! b) → valid_pair (rel t a b) (rel t b a) = true.

Section Perform.
Context `{Environment, MutualIds, HashIter}.

Definition perform (o : op) (self target : User.t) : H (User.t * User.t) :=
  match o with
  | Add => add_friend self target
  | Remove => remove_friend self target
  | Block => block_user self target
  | Unblock => unblock_user self target
  end.

Definition route (o : op) (user : User.t) (target : string) : H V0User.t :=
  match o with
  | Add => route_add_friend user target
  | Remove => route_remove_friend user target
  | Block => route_block user target
  | Unblock => route_unblock user target
  end.

(** The requester's limit on pending friend requests, where the request asks for one. *)
Definition under_limit (o : op) (self : User.t) (s : RelationshipStatus.t) (w : World.t) : Prop :=
  o = Add → s = RelationshipStatus.None →
  ∃ limits, user_limits (World.now w) (User.id self) = Ok limits ∧
    (outgoing_requests self < FeaturesLimits.outgoing_friend_requests limits)%nat.

(** Writing a valid pair: what two writes do to the statuses of all users. *)
Lemma rel_two_writes t a b su tu s' t' :
  users_keyed t → t !! a = Some su → t !! b = Some tu → a ≠ b →
  s' ≠ RelationshipStatus.User → t' ≠ RelationshipStatus.User →
  let new := <[a := with_relation b s' su]> (<[b := with_relation a t' tu]> t) in
  rel new a b = s' ∧ rel new b a = t' ∧
  ∀ c d, (c, d) ≠ (a, b) → (c, d) ≠ (b, a) → rel new c d = rel t c d.
Proof.
  intros Hk Ha Hb Hne Hs Ht new.
  assert (User.id su = a) as Hida by eauto. assert (User.id tu = b) as Hidb by eauto.
  assert (new !! a = Some (with_relation b s' su)) as Hna by (apply lookup_insert_eq).
  assert (new !! b = Some (with_relation a t' tu)) as Hnb.
  { subst new. rewrite lookup_insert_ne by done. apply lookup_insert_eq. }
  unfold rel. rewrite Hna, Hnb. split_and!.
  - rewrite relationship_with_set by congruence. by destruct s'.
  - rewrite relationship_with_set by congruence. by destruct t'.
  - intros c d H1' H2'. destruct (decide (c = a)) as [->|Hca].
    { rewrite Hna, Ha. apply relationship_with_set_other. congruence. }
    destruct (decide (c = b)) as [->|Hcb].
    { rewrite Hnb, Hb. apply relationship_with_set_other. congruence. }
    subst new. by rewrite !lookup_insert_ne by congruence.
Qed.

(** The two ends of a case: a rejection, and two writes by the lemma [H]. *)
Ltac rejected := left; eexists; split; [reflexivity|by split; intros; simplify_eq/=].
Ltac written H := right; eexists _, _; split; [reflexivity|]; split_and!; [done..|]; apply H.

(** An operation either is rejected without an effect or writes the pair of the
    specification. *)
Lemma perform_cases o self target w :
  users w !! User.id self = Some self → users w !! User.id target = Some target →
  User.id self ≠ User.id target →
  let s := User.relationship_with self (User.id target) in
  let t := User.relationship_with target (User.id self) in
  (∃ r, perform o self target w = (r, w) ∧
     (∀ e, transition o s t = inl e → r = Err e) ∧
     (∀ p, transition o s t = inr p → ¬ under_limit o self s w)) ∨
  (∃ s' t', transition o s t = inr (s', t') ∧
     s' ≠ RelationshipStatus.User ∧ t' ≠ RelationshipStatus.User ∧
     users (perform o self target w).2 =
       <[User.id self := with_relation (User.id target) s' self]>
         (<[User.id target := with_relation (User.id self) t' target]> (users w))).
Proof.
  intros Hs Ht Hne s t.
  assert (∀ local remote,
    users (apply_relationship self target local remote w).2 =
      <[User.id self := with_relation (User.id target) local self]>
        (<[User.id target := with_relation (User.id self) remote target]> (users w))) as Happly.
  { intros local remote. by apply apply_relationship_users. }
  assert (∀ m local remote,
    users ((amqp m ;; apply_relationship self target local remote) w).2 =
      <[User.id self := with_relation (User.id target) local self]>
        (<[User.id target := with_relation (User.id self) remote target]> (users w))) as Hamqp.
  { intros m local remote. rewrite M_bind_unfold. cbn.
    exact (apply_relationship_users self target local remote self target
             (World.set_broker w _) Hs Ht Hne). }
  destruct o; unfold perform, add_friend, remove_friend, block_user, unblock_user, under_limit;
    fold s; fold t.
  - destruct s; try rejected.
    + rewrite M_bind_unfold; unfold clock, gets. rewrite M_bind_unfold; unfold lift.
      destruct (user_limits (World.now w) (User.id self)) as [l|e|] eqn:Hl.
      * case_bool_decide as Hlim.
        -- left. eexists. split; [reflexivity|]. split; [done|]. intros _ _ Hu.
           destruct (Hu eq_refl eq_refl) as (l' & Hl' & Hlt). simplify_eq. lia.
        -- written Hamqp.
      * left. eexists. split; [reflexivity|]. split; [done|]. intros _ _ Hu.
        by destruct (Hu eq_refl eq_refl) as (l' & Hl' & _).
      * left. eexists. split; [reflexivity|]. split; [done|]. intros _ _ Hu.
        by destruct (Hu eq_refl eq_refl) as (l' & Hl' & _).
    + written Hamqp.
  - destruct s; (written Happly || rejected).
  - destruct s; (written Happly || rejected).
  - destruct s; try rejected.
    destruct t; (written Happly || rejected).
Qed.
(** C2: the handlers implement the specification: on the current copies of two
    different users, an operation the specification rejects fails with its error and
    changes nothing, and an operation it accepts (a friend request within the limit)
    writes exactly the new pair and leaves every other pair of users alone. *)
Theorem relationship_handlers_refine (o : op) (self target : User.t) (w : World.t) :
  users_keyed (users w) →
  users w !! User.id self = Some self → users w !! User.id target = Some target →
  User.id self ≠ User.id target →
  under_limit o self (User.relationship_with self (User.id target)) w →
  match transition o (User.relationship_with self (User.id target))
          (User.relationship_with target (User.id self)) with
  | inl e => perform o self target w = (Err e, w)
  | inr (s', t') =>
      let new := users (perform o self target w).2 in
      rel new (User.id self) (User.id target) = s' ∧
      rel new (User.id target) (User.id self) = t' ∧
      ∀ c d, (c, d) ≠ (User.id self, User.id target) →
        (c, d) ≠ (User.id target, User.id self) → rel new c d = rel (users w) c d
  end.
Proof.
  intros Hk Hs Ht Hne Hlim.
  destruct (perform_cases o self target w Hs Ht Hne)
    as [(r & Hr & Herr & Hok)|(s' & t' & Htr & Hsu & Htu & Hnew)].
  - destruct (transition o _ _) as [e|[s' t']]; [by rewrite Hr, (Herr e)|].
    by destruct (Hok _ eq_refl).
  - rewrite Htr. cbv zeta. rewrite Hnew. by apply rel_two_writes.
Qed.

(** The two writes keep every pair valid. *)
Lemma consistent_two_writes t a b su tu s' t' :
  users_keyed t → consistent t → t !! a = Some su → t !! b = Some tu → a ≠ b →
  s' ≠ RelationshipStatus.User → t' ≠ RelationshipStatus.User → valid_pair s' t' = true →
  let new := <[a := with_relation b s' su]> (<[b := with_relation a t' tu]> t) in
  users_keyed new ∧ consistent new.
Proof.
  intros Hk Hc Ha Hb Hne Hs Ht Hv new.
  destruct (rel_two_writes t a b su tu s' t' Hk Ha Hb Hne Hs Ht) as (Hab & Hba & Hother).
  fold new in Hab, Hba, Hother. split.
  - intros id u. subst new. rewrite !lookup_insert_Some.
    intros [[<- <-]|[_ [[<- <-]|[_ Hu]]]]; rewrite ?with_relation_id; eauto.
  - intros c d Hcd Hcs Hds.
    assert (∀ x, is_Some (new !! x) → is_Some (t !! x)) as Hdom.
    { intros x [y Hy]. subst new. rewrite !lookup_insert_Some in Hy.
      destruct Hy as [[<- _]|[_ [[<- _]|[_ ?]]]]; eauto. }
    destruct (decide ((c, d) = (a, b))) as [[= -> ->]|H1']; [by rewrite Hab, Hba|].
    destruct (decide ((c, d) = (b, a))) as [[= -> ->]|H2'].
    { by rewrite Hab, Hba, valid_pair_sym. }
    rewrite !Hother by congruence. by apply Hc; auto.
Qed.

(** A route changes the users only through its operation. *)
Lemma route_users o user target w :
  users w !! User.id user = Some user → users_keyed (users w) →
  users (route o user target w).2 = users w ∨
  (∃ tu, users w !! target = Some tu ∧ User.id tu = target ∧
     users (route o user target w).2 = users (perform o user tu w).2).
Proof.
  intros Hu Hk.
  assert (∀ m : User.t → H V0User.t,
    (∀ tu, users w !! target = Some tu → users (m tu w).2 = users w ∨
       users (m tu w).2 = users (perform o user tu w).2) →
    let r := (tu ← on_users (UsersTable.fetch_user target); m tu) w in
    users r.2 = users w ∨
    (∃ tu, users w !! target = Some tu ∧ User.id tu = target ∧
       users r.2 = users (perform o user tu w).2)) as Hfetch.
  { intros m Hm r. subst r. rewrite M_bind_unfold.
    unfold on_users, on_table, UsersTable.fetch_user, table_fetch.
    change (ReferenceDb.users (World.db w)) with (users w).
    assert (World.set_db w (ReferenceDb.set_users (World.db w) (users w)) = w) as Hw.
    { by destruct w as [[]]. }
    destruct (users w !! target) as [tu|] eqn:Ht; simpl; rewrite Hw; [|by left].
    destruct (Hm tu eq_refl) as [->| ->]; [by left|]. right. exists tu. eauto. }
  assert (∀ tu, users ((copies ← perform o user tu; into_model copies.2 (Some copies.1)) w).2 =
                users (perform o user tu w).2) as Hmodel.
  { intros tu. rewrite M_bind_unfold. destruct (perform o user tu w) as [[c| |] w']; [|done..].
    by rewrite into_model_state. }
  destruct o; apply Hfetch; intros tu Htu; try (right; exact (Hmodel tu));
    (destruct (is_bot user || is_bot tu); [by left|right; exact (Hmodel tu)]).
Qed.

(** ** Reachable states *)

(** The states of the database reached from [w0] by the routes, each called by a stored
    user (not on itself) and whatever its outcome, while anything else may change that
    is not the users table. *)
Inductive reachable (w0 : World.t) : World.t → Prop :=
| reachable_start : reachable w0 w0
| reachable_route w o user target :
    reachable w0 w → users w !! User.id user = Some user → User.id user ≠ target →
    reachable w0 (route o user target w).2
| reachable_other w w' : reachable w0 w → users w' = users w → reachable w0 w'.

Lemma reachable_consistent w0 w :
  users_keyed (users w0) → consistent (users w0) → reachable w0 w →
  users_keyed (users w) ∧ consistent (users w).
Proof.
  intros Hk0 Hc0. induction 1 as [|w o user target _ [Hk Hc] Hu Hne|w w' _ IH Heq].
  - done.
  - destruct (route_users o user target w Hu Hk) as [->|(tu & Ht & Hid & ->)]; [done|].
    subst target.
    destruct (perform_cases o user tu w Hu Ht Hne)
      as [(r & -> & _)|(s' & t' & Htr & Hs & Ht' & ->)]; [done|].
    apply consistent_two_writes; try done. eapply transition_valid; [|exact Htr].
    assert (valid_pair (rel (users w) (User.id user) (User.id tu))
              (rel (users w) (User.id tu) (User.id user)) = true) as Hv.
    { by apply Hc; eauto. }
    unfold rel in Hv. by rewrite Hu, Ht in Hv.
  - by rewrite Heq.
Qed.

(** C3: the statuses of two users always fit together: in every state reached from one
    without relations, two users are strangers, friends, requester and requested,
    blocker and blocked, or block each other; and the [InternalError] of unblocking is
    never reached. *)
Theorem relationships_consistent (w0 w : World.t) (a b : string) :
  users_keyed (users w0) → (∀ c d, c ≠ d → rel (users w0) c d = RelationshipStatus.None) →
  reachable w0 w → a ≠ b → is_Some (users w !! a) → is_Some (users w !! b) →
  valid_pair (rel (users w) a b) (rel (users w) b a) = true ∧
  transition Unblock (rel (users w) a b) (rel (users w) b a) ≠ inl ErrorType.InternalError.
Proof.
  intros Hk Hnone Hr Hne Ha Hb.
  destruct (reachable_consistent w0 w Hk) as [_ Hc]; [|done|].
  { intros c d Hcd _ _. by rewrite !Hnone. }
  split; [by apply Hc|]. by apply transition_no_internal_error, Hc.
Qed.

(** The handlers decide on the copies they were given. Two users whose copies say
    that [self] has a request from [target] end up as friends even if the database
    says that [target] has blocked [self] in the meantime: a block made while an
    acceptance is in flight is undone. *)
Theorem stale_accept_undoes_block (self target : User.t) (w : World.t) :
  users_keyed (users w) →
  is_Some (users w !! User.id self) → is_Some (users w !! User.id target) →
  User.id self ≠ User.id target →
  User.relationship_with self (User.id target) = RelationshipStatus.Incoming →
  rel (users w) (User.id target) (User.id self) = RelationshipStatus.Blocked →
  let new := users (add_friend self target w).2 in
  rel new (User.id self) (User.id target) = RelationshipStatus.Friend ∧
  rel new (User.id target) (User.id self) = RelationshipStatus.Friend.
Proof.
  intros Hk [su Hsu] [tu Htu] Hne Hcopy _ new. subst new. unfold add_friend. rewrite Hcopy.
  rewrite M_bind_unfold. cbn.
  rewrite (apply_relationship_users self target _ _ su tu (World.set_broker w _) Hsu Htu Hne).
  change (users (World.set_broker w _)) with (users w).
  by destruct (rel_two_writes (users w) (User.id self) (User.id target) su tu
    RelationshipStatus.Friend RelationshipStatus.Friend) as (? & ? & _).
Qed.
End Perform.

(** ** Witnesses *)

Section Witnesses.
#[local] Existing Instance canonical_iter.
#[local] Existing Instance Fixture.strangers.
#[local] Instance example_environment : Environment := Fixture.environment 10.

Definition example_world (ab ba : list Relationship.t) : World.t :=
  World.set_db World.empty (ReferenceDb.set_users ReferenceDb.empty
    (<["A" := Fixture.user "A" ab]> {["B" := Fixture.user "B" ba]})).

Lemma example_keyed ab ba : users_keyed (users (example_world ab ba)).
Proof.
  intros id u. unfold example_world, users; simpl. rewrite lookup_insert_Some, lookup_singleton_Some.
  by intros [[<- <-]|[_ [<- <-]]].
Qed.

Lemma relationship_handlers_refine_witness :
  let w := example_world [] [] in
  let new := users (perform Add (Fixture.user "A" []) (Fixture.user "B" []) w).2 in
  rel new "A" "B" = RelationshipStatus.Outgoing ∧ rel new "B" "A" = RelationshipStatus.Incoming ∧
  ∀ c d, (c, d) ≠ ("A", "B") → (c, d) ≠ ("B", "A") → rel new c d = rel (users w) c d.
Proof.
  apply (relationship_handlers_refine Add (Fixture.user "A" []) (Fixture.user "B" [])
           (example_world [] [])); try reflexivity.
  - apply example_keyed.
  - by intros [=].
  - intros _ _. eexists. split; [reflexivity|]. vm_compute. lia.
Defined.

Lemma relationships_consistent_witness :
  let w0 := example_world [] [] in
  let w := (route Add (Fixture.user "A" []) "B" w0).2 in
  valid_pair (rel (users w) "A" "B") (rel (users w) "B" "A") = true ∧
  transition Unblock (rel (users w) "A" "B") (rel (users w) "B" "A") ≠
    inl ErrorType.InternalError.
Proof.
  apply (relationships_consistent (example_world [] []) _ "A" "B").
  - apply example_keyed.
  - intros c d Hcd. unfold rel, users, example_world; simpl.
    destruct (decide (c = "A")) as [->|Ha]; [rewrite lookup_insert_eq|rewrite lookup_insert_ne by done].
    + unfold User.relationship_with. by rewrite bool_decide_eq_false_2.
    + destruct (decide (c = "B")) as [->|Hb].
      * rewrite lookup_singleton_eq. unfold User.relationship_with. by rewrite bool_decide_eq_false_2.
      * by rewrite lookup_singleton_ne.
  - apply reachable_route; [constructor|reflexivity|done].
  - done.
  - vm_compute. eauto.
  - vm_compute. eauto.
Defined.

Lemma stale_accept_undoes_block_witness :
  let w := example_world [Relationship.mk "B" RelationshipStatus.BlockedOther]
             [Relationship.mk "A" RelationshipStatus.Blocked] in
  let new := users (add_friend
    (Fixture.user "A" [Relationship.mk "B" RelationshipStatus.Incoming])
    (Fixture.user "B" [Relationship.mk "A" RelationshipStatus.Outgoing]) w).2 in
  rel new "A" "B" = RelationshipStatus.Friend ∧ rel new "B" "A" = RelationshipStatus.Friend.
Proof.
  apply (stale_accept_undoes_block
    (Fixture.user "A" [Relationship.mk "B" RelationshipStatus.Incoming])
    (Fixture.user "B" [Relationship.mk "A" RelationshipStatus.Outgoing])); try reflexivity.
  - apply example_keyed.
  - vm_compute. eauto.
  - vm_compute. eauto.
  - done.
Defined.
End Witnesses.
End Relation.

(** ** What a user sees of another *)

Section Visibility.
Context `{Environment, MutualIds, HashIter}.

(** A user who blocked someone, or was blocked, is shown neither the other's status
    nor whether the other is online, and nobody is shown the relations of anybody else:
    the conversion of a user who is no bot, for another user who is not privileged,
    hides them. *)
Theorem blocked_user_is_hidden (self perspective : User.t) (w w' : World.t) (v : V0User.t) :
  User.bot self = None → User.privileged perspective = false →
  User.id perspective ≠ User.id self →
  User.relationship_with perspective (User.id self) = RelationshipStatus.Blocked ∨
  User.relationship_with perspective (User.id self) = RelationshipStatus.BlockedOther →
  into_model self (Some perspective) w = (Ok v, w') →
  V0User.status v = None ∧ V0User.online v = false ∧ V0User.relations v = [] ∧
  V0User.relationship v = User.relationship_with perspective (User.id self).
Proof.
  intros Hbot Hpriv Hne Hrel. unfold into_model, visibility.
  rewrite M_bind_unfold, Hbot, (bool_decide_eq_false_2 (User.id perspective = User.id self)) by done.
  simpl. rewrite M_bind_unfold. unfold user_permissions, run_query.
  set (q := DatabasePermissionQuery.with_user _ _).
  assert (uv_relationship (db_user_view q) = User.relationship_with perspective (User.id self)) as Hr.
  { subst q. unfold db_user_view, eval, DatabasePermissionQuery.relationship, gets,
      User.relationship_with; simpl. rewrite Hbot.
    by rewrite (bool_decide_eq_false_2 (User.id perspective = User.id self)). }
  assert (uv_same (db_user_view q) = false) as Hsame.
  { subst q. unfold db_user_view, eval, DatabasePermissionQuery.users_same, gets; simpl.
    by rewrite bool_decide_eq_false_2. }
  pose proof (user_value_blocked (db_user_view q) Hpriv Hsame) as Hv.
  rewrite Hr in Hv. specialize (Hv Hrel).
  change (user_value (db_user_view q)) with (user_value (user_view q)) in Hv.
  destruct (calculate_user_value q) as [q' Hq]. rewrite Hq, Hv. simpl.
  destruct (get_badges self) as [badges|e|]; rewrite M_bind_unfold; simpl; try done.
  intros [= <- _]. simpl. split_and!; try done.
  unfold User.relationship_with. by rewrite bool_decide_eq_false_2 by done.
Qed.
End Visibility.

Section VisibilityWitness.
#[local] Existing Instance canonical_iter.
#[local] Existing Instance Fixture.strangers.
#[local] Existing Instance Relation.example_environment.

Lemma blocked_user_is_hidden_witness :
  ∃ v, (into_model (Fixture.user "B" [])
          (Some (Fixture.user "A" [Relationship.mk "B" RelationshipStatus.Blocked]))
          World.empty).1 = Ok v ∧
  V0User.status v = None ∧ V0User.online v = false ∧ V0User.relations v = [] ∧
  V0User.relationship v = RelationshipStatus.Blocked.
Proof.
  eexists. split; [reflexivity|].
  eapply (blocked_user_is_hidden (Fixture.user "B" [])
    (Fixture.user "A" [Relationship.mk "B" RelationshipStatus.Blocked]) World.empty);
    try reflexivity; [by intros [=]|by left].
Defined.
End VisibilityWitness.
