(* ===== verification/MessageOps.v ===== *)
(** * Message and emoji handlers

    The handlers of [models/messages/model.rs] that write to the database, publish
    events and queue background tasks (sending, editing, reacting, deleting), and those
    of [models/emojis/model.rs]. *)

From stdpp Require Import base list gmap strings.
From Stdlib Require Import ZArith Lia.
From S2P Require Import Prelude Errors Permissions PermissionSpec Files Users Servers Channels.
From S2P Require Import PermissionQuery Messages Unreads Config Emojis World Database.

Section Handlers.
Context `{Environment}.

(** ** Sending *)

(** Send a message without any notifications. [mentions_elsewhere] says that the caller
    queues the mentions. *)
Definition send_without_notifications (self : Message.t) (user : option V0User.t)
    (member : option Member.t) (is_dm generate_embeds mentions_elsewhere : bool) : H unit :=
  on_messages (MessagesTable.insert_message self) ;;
  p (EventV1.Message self user member) (Message.channel self) ;;
  queue_last_message_id (Message.channel self) (Message.id self) is_dm ;;
  (if negb mentions_elsewhere then
     match Message.mentions self with
     | Some mentions =>
         queue_message (Message.channel self)
           (Ack.AckEvent.ProcessMessage
              [(None, self, mentions, Message.has_suppressed_notifications self)])
     | None => mret tt
     end
   else mret tt) ;;
  (if (generate_embeds : bool) then
     match Message.content self with
     | Some content => queue_embeds (Message.channel self) (Message.id self) content
     | None => mret tt
     end
   else mret tt).

(** Whom a message notifies *)
Definition notified (self : Message.t) (author : MessageAuthor.t) (channel : Channel.t) :
    list string :=
  match channel with
  | Channel.DirectMessage c =>
      List.filter (λ uid, negb (bool_decide (uid = MessageAuthor.id author)))
        (DirectMessage.recipients c)
  | Channel.Group c =>
      List.filter (λ uid, negb (bool_decide (uid = MessageAuthor.id author)))
        (Group.recipients c)
  | Channel.TextChannel _ => default [] (Message.mentions self)
  | Channel.SavedMessages _ => []
  end.

(** Send a message *)
Definition send (self : Message.t) (author : MessageAuthor.t) (user : option V0User.t)
    (member : option Member.t) (channel : Channel.t) (generate_embeds : bool) : H unit :=
  send_without_notifications self user member
    (match channel with Channel.DirectMessage _ => true | _ => false end)
    generate_embeds true ;;
  let is_dm_or_group :=
    match channel with Channel.DirectMessage _ | Channel.Group _ => true | _ => false end in
  if negb (Message.has_suppressed_notifications self) &&
     (is_dm_or_group || bool_decide (is_Some (Message.mentions self)) ||
      Message.contains_mass_push_mention self)
  then
    now ← clock;
    queue_message (Message.channel self)
      (Ack.AckEvent.ProcessMessage
        [(Some (PushNotification.from now self user member (Some author) channel),
          self, notified self author channel, false)])
  else mret tt.

(** [system.into_message(channel)] followed by sending it *)
Definition system_message (system : SystemMessage.t) (channel : string) : H Message.t :=
  id ← ulid; mret (into_message system channel id).

(** ** Editing *)

(** Update message data *)
Definition update_message `{OptionalStruct Message.t PartialMessage.t} (self : Message.t)
    (partial : PartialMessage.t) (remove : list FieldsMessage.t) : H Message.t :=
  let self := fold_left Message.remove_field remove (apply_options self partial) in
  on_messages (MessagesTable.update_message (Message.id self) partial remove) ;;
  p (EventV1.MessageUpdate (Message.id self) (Message.channel self) partial remove)
    (Message.channel self) ;;
  mret self.

(** Append content to message *)
Definition append (id channel : string) (append : AppendMessage.t) : H unit :=
  on_messages (MessagesTable.append_message id append) ;;
  p (EventV1.MessageAppend id channel append) channel.

(** ** Reactions *)

(** Add a reaction to a message *)
Definition add_reaction `{IndexMaps} (self : Message.t) (user : string) (emoji : string) : H unit :=
  if bool_decide (GlobalLimits.message_reactions global_limits ≤ length (Message.reactions self))%nat
     && negb (bool_decide (is_Some (assoc emoji (Message.reactions self))))
  then throw ErrorType.InvalidOperation else
  if negb (Interactions.can_use (Message.interactions self) emoji)
  then throw ErrorType.InvalidOperation else
  usable ← on_emojis (EmojisTable.can_use emoji);
  if negb usable then throw ErrorType.InvalidOperation else
  p (EventV1.MessageReact (Message.id self) (Message.channel self) user emoji)
    (Message.channel self) ;;
  on_messages (MessagesTable.add_reaction (Message.id self) emoji user).

(** Remove a reaction from a message *)
Definition remove_reaction `{IndexMaps} (self : Message.t) (user : string) (emoji : string) :
    H unit :=
  match assoc emoji (Message.reactions self) with
  | Some users =>
      if negb (bool_decide (user ∈ users)) then throw ErrorType.NotFound else
      let empty := bool_decide (length users = 1) in
      p (EventV1.MessageUnreact (Message.id self) (Message.channel self) user emoji)
        (Message.channel self) ;;
      if empty
      then on_messages (MessagesTable.clear_reaction (Message.id self) emoji)
      else on_messages (MessagesTable.remove_reaction (Message.id self) emoji user)
  | None => throw ErrorType.NotFound
  end.

(** Remove a reaction from a message *)
Definition clear_reaction `{IndexMaps} (self : Message.t) (emoji : string) : H unit :=
  p (EventV1.MessageRemoveReaction (Message.id self) (Message.channel self) emoji)
    (Message.channel self) ;;
  on_messages (MessagesTable.clear_reaction (Message.id self) emoji).

(** ** Deleting *)

(** Delete a message *)
Definition delete_message (self : Message.t) : H unit :=
  let file_ids := File.id <$> default [] (Message.attachments self) in
  (if negb (bool_decide (file_ids = []))
   then on_files (FilesTable.mark_attachments_as_deleted file_ids)
   else mret tt) ;;
  on_messages (MessagesTable.delete_message (Message.id self)) ;;
  p (EventV1.MessageDelete (Message.id self) (Message.channel self)) (Message.channel self).

(** Bulk delete messages *)
Definition bulk_delete (channel : string) (ids : list string) : H unit :=
  messages ← on_messages (MessagesTable.fetch_messages_by_id ids);
  let valid_ids :=
    Message.id <$> List.filter (λ msg, bool_decide (Message.channel msg = channel)) messages in
  on_messages (MessagesTable.delete_messages channel valid_ids) ;;
  p (EventV1.BulkMessageDelete channel valid_ids) channel.

(** The test of [delete_messages_by_author_since]; [threshold] is the ULID of the time *)
Definition by_author_since (channels : list string) (author threshold id : string)
    (message : Message.t) : bool :=
  bool_decide (Message.author message = author) &&
  bool_decide (Message.channel message ∈ channels) && str_le threshold id.

(** The reference driver's [delete_messages_by_author_since]: three steps, each locking
    one table *)
Definition delete_messages_by_author_since `{HashIter} (channels : list string)
    (author threshold : string) : H (gmap string (list string)) :=
  entries ← gets (λ w, List.filter
                    (λ e, by_author_since channels author threshold e.1 e.2)
                    (hash_iter (ReferenceDb.messages (World.db w))));
  let attachment_ids :=
    mjoin ((λ e, File.id <$> default [] (Message.attachments e.2)) <$> entries) in
  let deleted_messages :=
    fold_left (λ (m : gmap string (list string)) e,
      <[Message.channel e.2 := default [] (m !! Message.channel e.2) ++ [e.1]]> m) entries ∅ in
  (if negb (bool_decide (attachment_ids = [])) then
     on_files (modify (λ files, fold_left (λ files id,
       match files !! id with
       | Some file => <[id := File.set_deleted file]> files
       | None => files
       end) attachment_ids files))
   else mret tt) ;;
  on_messages (table_retain (λ id message,
    negb (by_author_since channels author threshold id message))) ;;
  mret deleted_messages.

(** Bulk delete messages by an author since a given time *)
Definition bulk_delete_by_author_since `{HashIter} (channels : list string)
    (author threshold : string) : H unit :=
  deleted_groups ← delete_messages_by_author_since channels author threshold;
  for_each (hash_iter deleted_groups) (λ group,
    if negb (bool_decide (group.2 = []))
    then p (EventV1.BulkMessageDelete group.1 group.2) group.1 else mret tt).

(** Validate interactions info is correct *)
Fixpoint all_usable (reactions : list string) : H unit :=
  match reactions with
  | [] => mret tt
  | reaction :: reactions =>
      usable ← on_emojis (EmojisTable.can_use reaction);
      if negb usable then throw ErrorType.InvalidOperation else all_usable reactions
  end.
Definition validate_interactions (self : Interactions.t) (permissions : PermissionValue.t) :
    H unit :=
  match Interactions.reactions self with
  | Some reactions =>
      lift (PermissionValue.throw_if_lacking_channel_permission permissions
              ChannelPermission.React) ;;
      if bool_decide (GlobalLimits.message_reactions global_limits < length reactions)%nat
      then throw ErrorType.InvalidOperation else all_usable reactions
  | None => mret tt
  end.

(** ** Emoji handlers *)

(** Create an emoji *)
Definition create_emoji (self : Emoji.t) : H unit :=
  on_emojis (EmojisTable.insert_emoji self) ;;
  p (EventV1.EmojiCreate self) (Emoji.parent_id self).

(** Delete an emoji *)
Definition delete_emoji (self : Emoji.t) : H unit :=
  p (EventV1.EmojiDelete (Emoji.id self)) (Emoji.parent_id self) ;;
  on_emojis (EmojisTable.detach_emoji self).

(** Update an emoji *)
Definition update_emoji (self : Emoji.t) (partial : PartialEmoji.t) : H Emoji.t :=
  let self := match PartialEmoji.name partial with
              | Some name => Emoji.set_name self name
              | None => self
              end in
  on_emojis (EmojisTable.update_emoji (Emoji.id self) partial) ;;
  p (EventV1.EmojiUpdate (Emoji.id self) (PartialEmoji.name partial)) (Emoji.parent_id self) ;;
  mret self.
End Handlers.

(** ** Reactions: what they do to the stored message *)

Definition messages (w : World.t) : MessagesTable.table := ReferenceDb.messages (World.db w).

(** [user] has reacted with [emoji]. *)
Definition reacted (m : Message.t) (emoji user : string) : Prop :=
  ∃ us, assoc emoji (Message.reactions m) = Some us ∧ user ∈ us.

(** Reactions are a map from emojis to sets of users that are not empty. *)
Definition reactions_wf (m : Message.t) : Prop :=
  NoDup (Message.reactions m).*1 ∧
  ∀ emoji us, assoc emoji (Message.reactions m) = Some us → NoDup us ∧ us ≠ [].

Section Reactions.
Context `{Environment, IndexMaps}.

Lemma reacted_reactions (m : Message.t) r emoji user :
  reacted (Message.set_reactions m r) emoji user ↔
  ∃ us, assoc emoji r = Some us ∧ user ∈ us.
Proof. done. Qed.

(** The message after the table's [add_reaction]. *)
Definition with_reaction (emoji user : string) (m : Message.t) : Message.t :=
  match assoc emoji (Message.reactions m) with
  | Some _ => Message.set_reactions m (map_alter (set_insert user) emoji (Message.reactions m))
  | None => Message.set_reactions m (map_insert emoji (set_insert user []) (Message.reactions m))
  end.

Lemma with_reaction_assoc emoji user m e :
  assoc e (Message.reactions (with_reaction emoji user m)) =
  if bool_decide (emoji = e)
  then Some (set_insert user (default [] (assoc e (Message.reactions m))))
  else assoc e (Message.reactions m).
Proof.
  unfold with_reaction. destruct (assoc emoji _) as [us|] eqn:He; simpl.
  - rewrite assoc_map_alter. case_bool_decide; subst; [by rewrite He|].
    by destruct (assoc e _).
  - rewrite assoc_map_insert. case_bool_decide; subst; by rewrite ?He.
Qed.

Lemma with_reaction_wf emoji user m : reactions_wf m → reactions_wf (with_reaction emoji user m).
Proof.
  intros [Hk Hs]. split.
  - unfold with_reaction. destruct (assoc emoji _); simpl.
    + by rewrite map_alter_keys.
    + by apply map_insert_nodup.
  - intros e us. rewrite with_reaction_assoc. case_bool_decide; [|by apply Hs]. subst.
    intros [= <-].
    assert (NoDup (default [] (assoc e (Message.reactions m)))) as Hn.
    { destruct (assoc e _) eqn:He; simpl; [by apply (Hs e)|constructor]. }
    split; [by apply set_insert_nodup|]. intros Hnil.
    assert (user ∈ set_insert user (default [] (assoc e (Message.reactions m)))) as Hin.
    { rewrite elem_of_set_insert. by left. }
    rewrite Hnil in Hin. by apply not_elem_of_nil in Hin.
Qed.

Lemma reacted_with_reaction emoji user m e u :
  reacted (with_reaction emoji user m) e u ↔ reacted m e u ∨ (e = emoji ∧ u = user).
Proof.
  unfold reacted at 1. rewrite with_reaction_assoc. case_bool_decide as He; subst.
  - split.
    + intros (us & [= <-] & Hin). rewrite elem_of_set_insert in Hin.
      destruct Hin as [->|Hin]; [by right|]. left. unfold reacted.
      destruct (assoc e _); simpl in Hin; [by eexists|by apply not_elem_of_nil in Hin].
    + intros Hr. eexists. split; [done|]. rewrite elem_of_set_insert.
      destruct Hr as [(us & Hus & Hin)|[_ ->]]; [|by left]. right. by rewrite Hus.
  - unfold reacted. split; [by left|]. intros [?|[-> _]]; done.
Qed.

(** The number of different emojis on a message. *)
Lemma with_reaction_length emoji user m :
  reactions_wf m →
  (length (Message.reactions (with_reaction emoji user m)) ≤
   if bool_decide (is_Some (assoc emoji (Message.reactions m)))
   then length (Message.reactions m) else S (length (Message.reactions m)))%nat.
Proof.
  intros Hwf. pose proof (with_reaction_wf emoji user m Hwf) as [Hk _]. unfold with_reaction in *.
  destruct (assoc emoji (Message.reactions m)) as [us|] eqn:He; simpl in *.
  - rewrite <- (length_fmap fst), map_alter_keys, length_fmap. lia.
  - rewrite <- (length_fmap fst (map_insert _ _ _)), <- (length_fmap fst (Message.reactions m)).
    change (S (length (Message.reactions m).*1)) with (length (emoji :: (Message.reactions m).*1)).
    apply submseteq_length, NoDup_submseteq; [done|]. intros e Hin.
    apply elem_of_cons. destruct (decide (e = emoji)) as [|Hne]; [by left|right].
    assert (is_Some (assoc e (map_insert emoji (set_insert user [])
              (Message.reactions m)))) as Hs by (by apply assoc_is_Some).
    rewrite assoc_map_insert, bool_decide_eq_false_2 in Hs by done. by apply assoc_is_Some.
Qed.

(** The message after the writes of [remove_reaction]: the set of the emoji loses the
    user, and the emoji goes with its last user. *)
Definition without_reaction (emoji user : string) (us : list string) (m : Message.t) : Message.t :=
  if bool_decide (length us = 1)
  then Message.set_reactions m (map_swap_remove emoji (Message.reactions m))
  else Message.set_reactions m
         (map_alter (set_swap_remove user) emoji (Message.reactions m)).

Lemma without_reaction_assoc emoji user us m e :
  NoDup (Message.reactions m).*1 → assoc emoji (Message.reactions m) = Some us →
  assoc e (Message.reactions (without_reaction emoji user us m)) =
  if bool_decide (emoji = e)
  then if bool_decide (length us = 1) then None else Some (set_swap_remove user us)
  else assoc e (Message.reactions m).
Proof.
  intros Hk Hus. unfold without_reaction. case_bool_decide; simpl.
  - by rewrite assoc_map_swap_remove.
  - rewrite assoc_map_alter. case_bool_decide; subst; [by rewrite Hus|].
    by destruct (assoc e _).
Qed.

Lemma swap_remove_nonempty user us :
  NoDup us → us ≠ [] → length us ≠ 1 → set_swap_remove user us ≠ [].
Proof.
  intros Hn Hne Hlen Hnil. destruct us as [|a [|b us]]; try done.
  apply NoDup_cons in Hn as [Ha Hn]. apply NoDup_cons in Hn as [Hb Hn].
  assert (∃ x, x ∈ a :: b :: us ∧ x ≠ user) as (x & Hx & Hxu).
  { destruct (decide (a = user)) as [->|]; [|exists a; split; [left|done]].
    exists b. split; [right; left|]. intros ->. apply Ha. left. }
  assert (x ∈ set_swap_remove user (a :: b :: us)) as Hin.
  { rewrite elem_of_set_swap_remove; [done|]. by repeat constructor. }
  rewrite Hnil in Hin. by apply not_elem_of_nil in Hin.
Qed.

Lemma without_reaction_spec emoji user us m :
  reactions_wf m → assoc emoji (Message.reactions m) = Some us → user ∈ us →
  reactions_wf (without_reaction emoji user us m) ∧
  ∀ e u, reacted (without_reaction emoji user us m) e u ↔
    reacted m e u ∧ ¬ (e = emoji ∧ u = user).
Proof.
  intros [Hk Hs] Hus Hin. destruct (Hs emoji us Hus) as [Hn Hne]. split; [split|].
  - unfold without_reaction. case_bool_decide; simpl.
    + by apply map_swap_remove_nodup.
    + by rewrite map_alter_keys.
  - intros e us'. rewrite (without_reaction_assoc emoji user us) by done.
    repeat case_bool_decide; try done; [|by apply Hs]. intros [= <-].
    split; [by apply set_swap_remove_nodup|by apply swap_remove_nonempty].
  - intros e u. unfold reacted. rewrite (without_reaction_assoc emoji user us) by done.
    case_bool_decide as He; subst; [|naive_solver].
    rewrite Hus. case_bool_decide as Hl.
    + split; [by intros (? & ? & _)|]. intros [(us' & [= <-] & Hu) Hnot].
      destruct us as [|x [|]]; try done. apply list_elem_of_singleton in Hin, Hu. naive_solver.
    + split.
      * intros (us' & [= <-] & Hu). rewrite elem_of_set_swap_remove in Hu by done. naive_solver.
      * intros [(us' & [= <-] & Hu) Hnot]. eexists. split; [done|].
        rewrite elem_of_set_swap_remove by done. naive_solver.
Qed.

Lemma on_messages_update id f e m w :
  messages w !! id = Some m →
  ∃ w', on_messages (table_update id f e) w = (Ok tt, w') ∧
    messages w' = <[id := f m]> (messages w).
Proof.
  intros Hm. unfold on_messages, on_table, table_update.
  change (ReferenceDb.messages (World.db w)) with (messages w). rewrite Hm. by eexists.
Qed.

Lemma can_use_state emoji w : (on_emojis (EmojisTable.can_use emoji) w).2 = w.
Proof.
  unfold on_emojis, on_table, EmojisTable.can_use. destruct w as [[]]; simpl.
  destruct (bool_decide _); [|done]. rewrite M_bind_unfold.
  unfold EmojisTable.fetch_emoji, table_fetch. by destruct (_ !! emoji).
Qed.

(** A reaction that is accepted is stored: the message gains exactly the reaction
    of the user with the emoji, its reactions stay a map of nonempty sets, and the
    number of different emojis stays within the configured limit. A rejected one
    changes no message. *)
Theorem add_reaction_effect (self : Message.t) (user emoji : string) (w : World.t) :
  messages w !! Message.id self = Some self → reactions_wf self →
  (length (Message.reactions self) ≤ GlobalLimits.message_reactions global_limits)%nat →
  match add_reaction self user emoji w with
  | (Ok _, w') =>
      ∃ m, messages w' = <[Message.id self := m]> (messages w) ∧ reactions_wf m ∧
        (∀ e u, reacted m e u ↔ reacted self e u ∨ (e = emoji ∧ u = user)) ∧
        (length (Message.reactions m) ≤ GlobalLimits.message_reactions global_limits)%nat
  | (_, w') => w' = w
  end.
Proof.
  intros Hm Hwf Hlen. unfold add_reaction.
  destruct (bool_decide _ && _) eqn:Hlimit; [done|].
  destruct (Interactions.can_use _ _); [cbn [negb]|done]. rewrite M_bind_unfold.
  pose proof (can_use_state emoji w) as Hst.
  destruct (on_emojis (EmojisTable.can_use emoji) w) as [[[]| |] w1]; simpl in Hst; subst; try done.
  simpl. rewrite M_bind_unfold. cbn.
  destruct (on_messages_update (Message.id self) (with_reaction emoji user) ErrorType.NotFound
    self (World.set_events w (World.events w ++
      [(Message.channel self, EventV1.MessageReact (Message.id self) (Message.channel self)
          user emoji)])) Hm) as (w' & Hrun & Hw').
  unfold MessagesTable.add_reaction. unfold with_reaction in Hrun. rewrite Hrun.
  exists (with_reaction emoji user self). split_and!; [exact Hw'|by apply with_reaction_wf| |].
  - apply reacted_with_reaction.
  - pose proof (with_reaction_length emoji user self Hwf) as Hl.
    apply andb_false_iff in Hlimit as [Hb%bool_decide_eq_false|Hb].
    + destruct (bool_decide _) in Hl; lia.
    + apply negb_false_iff in Hb. rewrite Hb in Hl. lia.
Qed.

(** Removing a reaction undoes it: it succeeds exactly when the user has reacted
    with the emoji, takes away that reaction only, and leaves no emoji without users. *)
Theorem remove_reaction_effect (self : Message.t) (user emoji : string) (w : World.t) :
  messages w !! Message.id self = Some self → reactions_wf self →
  (¬ reacted self emoji user ∧ remove_reaction self user emoji w = (Err ErrorType.NotFound, w)) ∨
  (reacted self emoji user ∧ ∃ m w', remove_reaction self user emoji w = (Ok tt, w') ∧
     messages w' = <[Message.id self := m]> (messages w) ∧ reactions_wf m ∧
     ∀ e u, reacted m e u ↔ reacted self e u ∧ ¬ (e = emoji ∧ u = user)).
Proof.
  intros Hm Hwf. unfold remove_reaction, reacted at 1 2.
  destruct (assoc emoji (Message.reactions self)) as [us|] eqn:Hus; [|naive_solver].
  case_bool_decide as Hin; simpl; [right|left; naive_solver].
  split; [by eexists|]. rewrite M_bind_unfold. cbn.
  set (w1 := World.set_events _ _). destruct (without_reaction_spec emoji user us self) as [Hwf' Hr]; try done.
  exists (without_reaction emoji user us self). unfold without_reaction in *.
  case_bool_decide.
  - destruct (on_messages_update (Message.id self)
      (λ m, Message.set_reactions m (map_swap_remove emoji (Message.reactions m)))
      ErrorType.NotFound self w1 Hm) as (w' & Hrun & Hw'). by exists w'.
  - destruct (on_messages_update (Message.id self)
      (λ m, match assoc emoji (Message.reactions m) with
            | Some _ => Message.set_reactions m
                          (map_alter (set_swap_remove user) emoji (Message.reactions m))
            | None => m
            end) ErrorType.NotFound self w1 Hm) as (w' & Hrun & Hw').
    exists w'. rewrite Hus in Hw'. done.
Qed.
End Reactions.

(** ** Deleting and sending *)

Section Delivery.
Context `{Environment, HashIter}.

Lemma on_table_run {T A} (g : ReferenceDb.t → T) st (m : M ErrorType.t T A) w :
  on_table g st m w = ((m (g (World.db w))).1,
    World.set_db w (st (World.db w) (m (g (World.db w))).2)).
Proof. unfold on_table. by destruct (m (g (World.db w))). Qed.

(** Deleting a message does not release its attachments: the reference driver's
    [mark_attachments_as_deleted] sets the mark of reported files, so after a successful
    deletion none of the message's files is among those the collector of deleted files
    is given. *)
Theorem delete_message_keeps_attachments (self : Message.t) (w w' : World.t) (file : File.t) :
  (∀ id f, ReferenceDb.files (World.db w) !! id = Some f → File.id f = id) →
  file ∈ default [] (Message.attachments self) → delete_message self w = (Ok tt, w') →
  ∃ l, (FilesTable.fetch_deleted_attachments (ReferenceDb.files (World.db w'))).1 = Ok l ∧
    ∀ f, f ∈ l → File.id f ≠ File.id file.
Proof.
  intros Hkey Hin. unfold delete_message. set (ids := File.id <$> _).
  assert (File.id file ∈ ids) as Hid by (apply list_elem_of_fmap; eauto).
  rewrite M_bind_unfold, bool_decide_eq_false_2 by (intros Hnil; rewrite Hnil in Hid; set_solver).
  cbn [negb]. unfold on_files. rewrite on_table_run.
  destruct (FilesTable.mark_attachments_as_deleted ids (ReferenceDb.files (World.db w)))
    as [[[]| |] files'] eqn:Hmark; simpl; try done.
  rewrite M_bind_unfold. unfold on_messages. rewrite on_table_run. simpl.
  destruct (MessagesTable.delete_message _ _) as [[[]| |] ms]; simpl; try done.
  intros [= <-]. simpl. eexists. split; [reflexivity|]. intros f Hf.
  apply elem_of_table_select in Hf as [Hsel [k Hk]].
  rewrite (mark_attachments_lookup ids _ _ k Hmark) in Hk.
  destruct (ReferenceDb.files (World.db w) !! k) as [f0|] eqn:Hf0; [|done].
  intros Heq. case_bool_decide as Hk'; simplify_eq/=.
  - unfold FilesTable.fetch_deleted_attachments in Hsel; simpl in Hsel.
    by rewrite andb_false_r in Hsel.
  - apply Hk'. rewrite (Hkey k f Hf0) in Heq. by rewrite Heq.
Qed.

(** Marking files as deleted, one after the other. *)
Lemma mark_deleted_lookup ids (files : FilesTable.table) id :
  fold_left (λ files id,
    match files !! id with
    | Some file => <[id := File.set_deleted file]> files
    | None => files
    end) ids files !! id =
  (if bool_decide (id ∈ ids) then File.set_deleted else λ f, f) <$> files !! id.
Proof.
  revert files. induction ids as [|i ids IH]; intros files; simpl.
  { by destruct (files !! id). }
  rewrite IH. destruct (decide (i = id)) as [->|Hne].
  - rewrite (bool_decide_eq_true_2 (id ∈ id :: ids)) by left.
    destruct (files !! id) as [f|] eqn:Hf; rewrite ?lookup_insert_eq, ?Hf; [|done].
    by destruct (bool_decide _).
  - rewrite (bool_decide_ext (id ∈ i :: ids) (id ∈ ids)) by set_solver.
    destruct (files !! i) eqn:Hf; [by rewrite lookup_insert_ne|done].
Qed.

(** Deleting the messages of an author since a time deletes exactly the author's
    messages in the given channels with an id from the threshold on, keeps all others,
    and marks the deleted messages' stored attachments as deleted. *)
Theorem delete_by_author_since_exact (channels : list string) (author threshold : string)
    (w : World.t) :
  ∃ groups w', delete_messages_by_author_since channels author threshold w = (Ok groups, w') ∧
    (∀ id m, messages w' !! id = Some m ↔
       messages w !! id = Some m ∧ by_author_since channels author threshold id m = false) ∧
    (∀ id m file f, messages w !! id = Some m →
       by_author_since channels author threshold id m = true →
       file ∈ default [] (Message.attachments m) →
       ReferenceDb.files (World.db w) !! File.id file = Some f →
       ReferenceDb.files (World.db w') !! File.id file = Some (File.set_deleted f)).
Proof.
  unfold delete_messages_by_author_since. rewrite M_bind_unfold. unfold gets.
  set (entries := List.filter _ _). set (ids := mjoin _).
  assert (∀ id m file, messages w !! id = Some m →
    by_author_since channels author threshold id m = true →
    file ∈ default [] (Message.attachments m) → File.id file ∈ ids) as Hids.
  { intros id m file Hm Hb Hf. subst ids. rewrite list_elem_of_join.
    exists (File.id <$> default [] (Message.attachments m)).
    split; [apply list_elem_of_fmap; eauto|]. apply list_elem_of_fmap. exists (id, m).
    split; [done|]. subst entries.
    rewrite list_elem_of_In, filter_In, <- list_elem_of_In, elem_of_hash_iter. done. }
  assert (∀ (t : MessagesTable.table) id m,
    (filter (λ kv, negb (by_author_since channels author threshold kv.1 kv.2) = true) t) !! id = Some m
    ↔ t !! id = Some m ∧ by_author_since channels author threshold id m = false) as Hretain.
  { intros t id m. by rewrite map_lookup_filter_Some, negb_true_iff. }
  clearbody entries ids. rewrite M_bind_unfold. unfold on_files, on_messages.
  case_bool_decide as Hnil; cbn [negb mret M_ret]; rewrite ?on_table_run;
    rewrite M_bind_unfold, on_table_run; simpl;
    (eexists _, _; split; [reflexivity|]; split; [apply Hretain|]; simpl).
  - intros id m file f Hm Hb Hf. specialize (Hids id m file Hm Hb Hf). rewrite Hnil in Hids.
    by apply not_elem_of_nil in Hids.
  - intros id m file f Hm Hb Hf Hfile. rewrite mark_deleted_lookup, Hfile.
    by rewrite bool_decide_eq_true_2 by eauto.
Qed.

(** Sending: a message with a new id is stored, published on its channel and queued
    as the channel's last message; in a direct message channel or a group everyone but
    the author is queued for a notification, unless the message suppresses
    notifications. An id that is already taken is rejected and nothing happens. *)
Theorem send_effect (self : Message.t) (author : MessageAuthor.t) (channel : Channel.t)
    (w : World.t) :
  match messages w !! Message.id self with
  | Some _ => send self author None None channel false w =
                (Err (create_database_error "insert" "message"), w)
  | None =>
      ∃ w', send self author None None channel false w = (Ok tt, w') ∧
        messages w' = <[Message.id self := self]> (messages w) ∧
        World.events w' =
          World.events w ++ [(Message.channel self, EventV1.Message self None None)] ∧
        World.last_message_ids w' =
          try_push (World.last_message_ids w)
            (LastMessageId.Data.mk (Message.channel self) (Message.id self)
               (Channel.is_direct_dm channel)) ∧
        match channel with
        | Channel.DirectMessage _ | Channel.Group _ =>
            World.acks w' =
            if Message.has_suppressed_notifications self then World.acks w
            else try_push (World.acks w)
              (Ack.Data.mk (Message.channel self) None (Ack.AckEvent.ProcessMessage
                 [(Some (PushNotification.from (World.now w) self None None (Some author) channel),
                   self, notified self author channel, false)]))
        | Channel.SavedMessages _ | Channel.TextChannel _ => True
        end
  end.
Proof.
  unfold send, send_without_notifications, MessagesTable.insert_message, table_insert.
  unfold on_messages. rewrite M_bind_unfold, M_bind_unfold, on_table_run.
  change (ReferenceDb.messages (World.db w)) with (messages w).
  assert (World.set_db w (ReferenceDb.set_messages (World.db w) (messages w)) = w) as Hw.
  { by destruct w as [[]]. }
  destruct (messages w !! Message.id self); simpl; [by rewrite Hw|].
  destruct channel; simpl.
  - destruct (negb _ && _); (eexists; split; [reflexivity|by split_and!]).
  - destruct (Message.has_suppressed_notifications self);
      (eexists; split; [reflexivity|by split_and!]).
  - destruct (Message.has_suppressed_notifications self);
      (eexists; split; [reflexivity|by split_and!]).
  - destruct (negb _ && _); (eexists; split; [reflexivity|by split_and!]).
Qed.
End Delivery.

(** ** Witnesses *)

Definition list_map_insert {V} (k : string) (v : V) (l : list (string * V)) : list (string * V) :=
  List.filter (λ kv, negb (bool_decide (kv.1 = k))) l ++ [(k, v)].
Definition list_map_remove {V} (k : string) (l : list (string * V)) : list (string * V) :=
  List.filter (λ kv, negb (bool_decide (kv.1 = k))) l.

Lemma assoc_list_map_remove {V} k k' (l : list (string * V)) :
  assoc k' (list_map_remove k l) = if bool_decide (k = k') then None else assoc k' l.
Proof.
  unfold assoc, list_map_remove. induction l as [|[k1 v1] l IH]; simpl; [by case_bool_decide|].
  repeat case_bool_decide; simplify_eq/=; try done; repeat case_bool_decide; simplify_eq/=; done.
Qed.

Lemma assoc_app {V} k (l1 l2 : list (string * V)) :
  assoc k (l1 ++ l2) = match assoc k l1 with Some v => Some v | None => assoc k l2 end.
Proof.
  unfold assoc. induction l1 as [|[k1 v1] l1 IH]; simpl; [done|]. by case_bool_decide.
Qed.

Lemma list_map_remove_nodup {V} k (l : list (string * V)) :
  NoDup l.*1 → NoDup (list_map_remove k l).*1 ∧ k ∉ (list_map_remove k l).*1.
Proof.
  intros Hn. split; last first.
  { rewrite <- assoc_is_Some, assoc_list_map_remove, bool_decide_eq_true_2 by done.
    by intros [? ?]. }
  unfold list_map_remove. induction l as [|[k1 v1] l IH]; csimpl; [constructor|].
  csimpl in Hn. apply NoDup_cons in Hn as [Hk Hn]. case_bool_decide; simpl; [by apply IH|].
  constructor; [|by apply IH]. intros Hin. apply Hk. rewrite list_elem_of_fmap in Hin |- *.
  destruct Hin as (y & Hy & Hin). exists y. split; [done|].
  rewrite list_elem_of_In, filter_In in Hin. rewrite list_elem_of_In. tauto.
Qed.

(** Lists as insertion-ordered sets and maps. *)
#[program] Definition list_maps : IndexMaps := {|
  set_insert x s := if bool_decide (x ∈ s) then s else s ++ [x];
  set_swap_remove x s := List.filter (λ y, negb (bool_decide (y = x))) s;
  map_insert V k v l := list_map_insert k v l;
  map_swap_remove V k l := list_map_remove k l
|}.
Next Obligation. intros x y s. simpl. case_bool_decide; set_solver. Qed.
Next Obligation.
  intros x y s _. simpl. rewrite list_elem_of_In, filter_In, <- list_elem_of_In, negb_true_iff,
    bool_decide_eq_false. done.
Qed.
Next Obligation.
  intros x s Hs. simpl. case_bool_decide; [done|]. apply NoDup_app. split_and!; [done| |].
  - set_solver.
  - apply NoDup_singleton.
Qed.
Next Obligation. intros x s Hs. by apply NoDup_ListNoDup, List.NoDup_filter, NoDup_ListNoDup. Qed.
Next Obligation.
  intros V k k' v l. unfold list_map_insert. fold (list_map_remove k l).
  rewrite assoc_app, assoc_list_map_remove. unfold assoc at 2; simpl.
  repeat case_bool_decide; simplify_eq/=; try done. by destruct (assoc k' l).
Qed.
Next Obligation. intros V k k' l _. apply assoc_list_map_remove. Qed.
Next Obligation.
  intros V k v l Hn. unfold list_map_insert. fold (list_map_remove k l).
  destruct (list_map_remove_nodup k l Hn) as [Hn' Hk]. rewrite fmap_app. simpl.
  apply NoDup_app. split_and!; [done|set_solver|apply NoDup_singleton].
Qed.
Next Obligation. intros V k l Hn. by apply list_map_remove_nodup. Qed.

Section Witnesses.
#[local] Existing Instance canonical_iter.
#[local] Instance message_environment : Environment := Fixture.environment 10.
#[local] Existing Instance list_maps.

Definition example_file : File.t :=
  File.mk "F" "attachments" "f.txt" None None None None None None Metadata.Text "text/plain" 1
    None None None None.
Definition example_message (reactions : list (string * list string)) : Message.t :=
  Message.mk "M" None "C" "A" None (Some "hello") None (Some [example_file]) None None None None
    None reactions Interactions.default None None None None.
Definition message_world (reactions : list (string * list string)) : World.t :=
  World.set_db World.empty (ReferenceDb.set_files
    (ReferenceDb.set_emojis
      (ReferenceDb.set_messages ReferenceDb.empty {["M" := example_message reactions]})
      {["thumb" := Emoji.mk "thumb" (EmojiParent.Server "S") "A" "thumb" false false]})
    {["F" := example_file]}).

Lemma example_reactions_wf us : NoDup us → us ≠ [] → reactions_wf (example_message [("thumb", us)]).
Proof.
  intros Hn Hne. split; [apply NoDup_singleton|]. intros e us'. unfold assoc; simpl.
  case_bool_decide; [by intros [= <-]|done].
Qed.

Lemma add_reaction_effect_witness :
  let self := example_message [("thumb", ["A"])] in
  let w := message_world [("thumb", ["A"])] in
  is_ok (add_reaction self "B" "thumb" w).1 = true ∧
  match add_reaction self "B" "thumb" w with
  | (Ok _, w') =>
      ∃ m, messages w' = <[Message.id self := m]> (messages w) ∧ reactions_wf m ∧
        (∀ e u, reacted m e u ↔ reacted self e u ∨ (e = "thumb" ∧ u = "B")) ∧
        (length (Message.reactions m) ≤ GlobalLimits.message_reactions global_limits)%nat
  | (_, w') => w' = w
  end.
Proof.
  intros self w. split; [reflexivity|]. apply (add_reaction_effect self "B" "thumb" w).
  - reflexivity.
  - apply example_reactions_wf; [apply NoDup_singleton|done].
  - vm_compute. lia.
Defined.

Lemma remove_reaction_effect_witness :
  let self := example_message [("thumb", ["A"; "B"])] in
  let w := message_world [("thumb", ["A"; "B"])] in
  (¬ reacted self "thumb" "B" ∧ remove_reaction self "B" "thumb" w = (Err ErrorType.NotFound, w)) ∨
  (reacted self "thumb" "B" ∧ ∃ m w', remove_reaction self "B" "thumb" w = (Ok tt, w') ∧
     messages w' = <["M" := m]> (messages w) ∧ reactions_wf m ∧
     ∀ e u, reacted m e u ↔ reacted self e u ∧ ¬ (e = "thumb" ∧ u = "B")).
Proof.
  apply (remove_reaction_effect (example_message [("thumb", ["A"; "B"])]) "B" "thumb"
           (message_world [("thumb", ["A"; "B"])])).
  - reflexivity.
  - apply example_reactions_wf; [apply (bool_decide_unpack _); vm_compute; exact I|done].
Defined.

Lemma delete_message_keeps_attachments_witness :
  let w' := (delete_message (example_message []) (message_world [])).2 in
  ∃ l, (FilesTable.fetch_deleted_attachments (ReferenceDb.files (World.db w'))).1 = Ok l ∧
    ∀ f, f ∈ l → File.id f ≠ "F".
Proof.
  apply (delete_message_keeps_attachments (example_message []) (message_world []) _ example_file).
  - intros id f. simpl. by intros [<- <-]%lookup_singleton_Some.
  - left.
  - reflexivity.
Defined.
End Witnesses.
