(* ===== verification/ChannelOps.v ===== *)
(** * Channel handlers

    The handlers of [models/channels/model.rs] for groups and direct messages: creating,
    joining, leaving, updating and deleting. The theorems give the invariant of groups
    and what creating a direct message channel finds. *)

From stdpp Require Import base list gmap strings.
From Stdlib Require Import ZArith Lia.
From S2P Require Import Prelude Errors Permissions PermissionSpec Files Users Servers Channels.
From S2P Require Import PermissionQuery Messages Unreads Config Emojis World Database MessageOps.

Module DataCreateGroup.
Record t : Type := mk {
  name : string;
  description : option string;
  icon : option string;
  users : gset string;
  nsfw : option bool
}.
End DataCreateGroup.

Section Handlers.
Context `{Environment, HashIter}.

(** [HashSet::into_iter] *)
Definition hash_set_iter (s : gset string) : list string := (hash_iter (gset_to_gmap tt s)).*1.

(** [.await.ok()] *)
Definition ignore {A} (m : H A) : H unit := attempt m ;; mret tt.

(** Create a group *)
Definition create_group (data : DataCreateGroup.t) (owner_id : string) : H Channel.t :=
  let users := {[owner_id]} ∪ DataCreateGroup.users data in
  if bool_decide (GlobalLimits.group_size global_limits < size users)%nat
  then throw (ErrorType.GroupTooLarge (Z.of_nat (GlobalLimits.group_size global_limits))) else
  id ← ulid;
  icon ← match DataCreateGroup.icon data with
         | Some icon_id =>
             file ← on_files (UseFile.use_channel_icon icon_id id owner_id); mret (Some file)
         | None => mret None
         end;
  let recipients := hash_set_iter users in
  let channel :=
    Channel.Group (Group.mk id (DataCreateGroup.name data) owner_id
      (DataCreateGroup.description data) recipients icon None None
      (default false (DataCreateGroup.nsfw data))) in
  on_channels (ChannelsTable.insert_channel channel) ;;
  for_each recipients (λ recipient, private (EventV1.ChannelCreate channel) recipient) ;;
  mret channel.

(** Create a DM (or return the existing one / saved messages) *)
Definition create_dm (user_a user_b : string) : H Channel.t :=
  existing ← attempt (on_channels (ChannelsTable.find_direct_message_channel user_a user_b));
  match existing with
  | Some channel => mret channel
  | None =>
      id ← ulid;
      let channel :=
        if bool_decide (user_a = user_b)
        then Channel.SavedMessages (SavedMessages.mk id user_a)
        else Channel.DirectMessage (DirectMessage.mk id true [user_a; user_b] None) in
      on_channels (ChannelsTable.insert_channel channel) ;;
      match channel with
      | Channel.DirectMessage _ =>
          private (EventV1.ChannelCreate channel) user_a ;;
          private (EventV1.ChannelCreate channel) user_b ;;
          mret channel
      | _ => mret channel
      end
  end.

(** The author shown for a system message about a user *)
Definition system_author (user : User.t) : MessageAuthor.t :=
  MessageAuthor.System (User.username user) (File.id <$> User.avatar user).

(** Send a system message, ignoring whether it can be sent *)
Definition send_system (system : SystemMessage.t) (id : string) (author : MessageAuthor.t)
    (channel : Channel.t) : H unit :=
  message ← system_message system id;
  ignore (send message author None None channel false).

(** Add user to a group *)
Definition add_user_to_group (self : Channel.t) (user : User.t) (by_id : string) : H Channel.t :=
  match self with
  | Channel.Group c =>
      if bool_decide (User.id user ∈ Group.recipients c) then throw ErrorType.AlreadyInGroup else
      if bool_decide (GlobalLimits.group_size global_limits ≤ length (Group.recipients c))%nat
      then throw (ErrorType.GroupTooLarge (Z.of_nat (GlobalLimits.group_size global_limits))) else
      let self := Channel.Group (Group.set_recipients c (Group.recipients c ++ [User.id user])) in
      on_channels (ChannelsTable.add_user_to_group (Group.id c) (User.id user)) ;;
      p (EventV1.ChannelGroupJoin (Group.id c) (User.id user)) (Group.id c) ;;
      send_system (SystemMessage.UserAdded (User.id user) by_id) (Group.id c)
        (system_author user) self ;;
      private (EventV1.ChannelCreate self) (User.id user) ;;
      mret self
  | _ => throw ErrorType.InvalidOperation
  end.

(** Set role permission on a channel *)
Definition set_role_permission (self : Channel.t) (role_id : string)
    (permissions : OverrideField.t) : H Channel.t :=
  match self with
  | Channel.TextChannel c =>
      on_channels (ChannelsTable.set_channel_role_permission (TextChannel.id c) role_id permissions) ;;
      let role_permissions := <[role_id := permissions]> (TextChannel.role_permissions c) in
      p (EventV1.ChannelUpdate (TextChannel.id c)
           (PartialChannel.of_role_permissions role_permissions) []) (TextChannel.server c) ;;
      mret (Channel.TextChannel (TextChannel.set_role_permissions c role_permissions))
  | _ => throw ErrorType.InvalidOperation
  end.

(** Update channel data *)
Definition update_channel (self : Channel.t) (partial : PartialChannel.t)
    (remove : list FieldsChannel.t) : H Channel.t :=
  let self := Channel.apply_options (fold_left Channel.remove_field remove self) partial in
  let id := Channel.id self in
  on_channels (ChannelsTable.update_channel id partial remove) ;;
  p (EventV1.ChannelUpdate id partial remove)
    (match self with Channel.TextChannel c => TextChannel.server c | _ => id end) ;;
  mret self.

(** Delete a channel *)
Definition delete_channel (self : Channel.t) : H unit :=
  p (EventV1.ChannelDelete (Channel.id self)) (Channel.id self) ;;
  on_channels (ChannelsTable.delete_channel self).

(** The owner leaves: the first other recipient becomes the owner. Says whether somebody
    was left to become it. *)
Definition hand_over (self : Channel.t) (c : Group.t) (user : User.t) : H bool :=
  match List.find (λ x, negb (bool_decide (x = User.id user))) (Group.recipients c) with
  | Some new_owner =>
      on_channels (ChannelsTable.update_channel (Group.id c) (PartialChannel.of_owner new_owner) []) ;;
      send_system (SystemMessage.ChannelOwnershipChanged (Group.owner c) new_owner) (Group.id c)
        (MessageAuthor.System (Group.name c) None) self ;;
      mret true
  | None => mret false
  end.

(** Remove user from a group *)
Definition remove_user_from_group (self : Channel.t) (user : User.t) (by_id : option string)
    (silent : bool) : H unit :=
  match self with
  | Channel.Group c =>
      stays ← (if bool_decide (User.id user = Group.owner c)
               then hand_over self c user else mret true);
      if negb stays then delete_channel self else
      on_channels (ChannelsTable.remove_user_from_group (Group.id c) (User.id user)) ;;
      p (EventV1.ChannelGroupLeave (Group.id c) (User.id user)) (Group.id c) ;;
      if negb silent then
        send_system (match by_id with
                     | Some by_ => SystemMessage.UserRemove (User.id user) by_
                     | None => SystemMessage.UserLeft (User.id user)
                     end) (Group.id c) (system_author user) self
      else mret tt
  | _ => throw ErrorType.InvalidOperation
  end.
End Handlers.

(** ** Groups *)

Definition channels (w : World.t) : ChannelsTable.table := ReferenceDb.channels (World.db w).

Definition group_wf `{Environment} (c : Group.t) : Prop :=
  NoDup (Group.recipients c) ∧ Group.owner c ∈ Group.recipients c ∧
  (length (Group.recipients c) ≤ GlobalLimits.group_size global_limits)%nat.

(** Every group of the table is stored under its id, has no recipient twice, is owned by
    one of its recipients and is within the size limit. *)
Definition groups_wf `{Environment} (t : ChannelsTable.table) : Prop :=
  ∀ id c, t !! id = Some (Channel.Group c) → Group.id c = id ∧ group_wf c.

Definition set_owner (c : Group.t) (o : string) : Group.t :=
  Group.mk (Group.id c) (Group.name c) o (Group.description c) (Group.recipients c)
    (Group.icon c) (Group.last_message_id c) (Group.permissions c) (Group.nsfw c).

Section Groups.
Context `{Environment, HashIter}.

Lemma groups_wf_insert t id c :
  groups_wf t → Group.id c = id → group_wf c → groups_wf (<[id := Channel.Group c]> t).
Proof.
  intros Ht Hid Hc i g. rewrite lookup_insert_Some.
  intros [[<- [= <-]]|[_ Hg]]; [done|by apply Ht].
Qed.

Lemma groups_wf_delete t id : groups_wf t → groups_wf (delete id t).
Proof. intros Ht i g [_ Hg]%lookup_delete_Some. by apply Ht. Qed.

Lemma send_channels m a c w :
  ∃ r w', send m a None None c false w = (r, w') ∧ r ≠ Panicked ∧ channels w' = channels w.
Proof.
  unfold send, send_without_notifications, MessagesTable.insert_message, table_insert, on_messages.
  rewrite !M_bind_unfold, on_table_run. cbn.
  destruct (ReferenceDb.messages (World.db w) !! Message.id m); simpl; [by eexists _, _|].
  destruct (negb _ && _); by eexists _, _.
Qed.

(** Sending a system message always returns and does not touch the channels. *)
Lemma send_system_ok s id a c w :
  ∃ w', send_system s id a c w = (Ok tt, w') ∧ channels w' = channels w.
Proof.
  unfold send_system, ignore, attempt, system_message, ulid. rewrite !M_bind_unfold.
  destruct (send_channels (into_message s id (new_ulid (World.ulids w))) a c
    (World.set_ulids w (S (World.ulids w)))) as (r & w' & Hrun & Hr & Hw).
  exists w'. cbn [mret M_ret]. rewrite M_bind_unfold, Hrun. by destruct r.
Qed.

Lemma hash_set_iter_spec (s : gset string) :
  NoDup (hash_set_iter s) ∧ (∀ x, x ∈ hash_set_iter s ↔ x ∈ s) ∧ length (hash_set_iter s) = size s.
Proof.
  unfold hash_set_iter. pose proof (hash_iter_nodup_keys (gset_to_gmap tt s)) as Hn.
  split_and!; [done| |].
  - intros x. rewrite list_elem_of_fmap. split.
    + intros ([k []] & -> & Hin). apply elem_of_hash_iter, lookup_gset_to_gmap_Some in Hin. tauto.
    + intros Hx. exists (x, tt). split; [done|].
      by apply elem_of_hash_iter, lookup_gset_to_gmap_Some.
  - rewrite length_fmap, hash_iter_perm. rewrite length_map_to_list.
    by rewrite <- (dom_gset_to_gmap s tt) at 2; rewrite size_dom.
Qed.

Lemma for_each_private_channels l ev w :
  ∃ w', for_each l (λ r, private ev r) w = (Ok tt, w') ∧ channels w' = channels w.
Proof.
  revert w. induction l as [|r l IH]; intros w; simpl; [by eexists|].
  rewrite M_bind_unfold.
  change (private ev r w) with (Ok (E := ErrorType.t) tt, (private ev r w).2).
  destruct (IH (private ev r w).2) as (w' & -> & Hc). eauto.
Qed.

(** Creating a group adds a well-formed group or no channel at all. *)
Lemma create_group_channels data owner w :
  channels (create_group data owner w).2 = channels w ∨
  ∃ c, channels (create_group data owner w).2 = <[Group.id c := Channel.Group c]> (channels w) ∧
    group_wf c.
Proof.
  unfold create_group. set (users := {[owner]} ∪ _). case_bool_decide as Hsize; [by left|].
  rewrite M_bind_unfold. cbn. set (id := new_ulid _). rewrite M_bind_unfold.
  set (icon := match DataCreateGroup.icon data with Some _ => _ | None => _ end).
  set (w1 := World.set_ulids w _).
  assert (channels (icon w1).2 = channels w) as Hicon.
  { subst icon. destruct (DataCreateGroup.icon data); [|done].
    rewrite M_bind_unfold. unfold on_files. rewrite on_table_run.
    by destruct (UseFile.use_channel_icon _ _ _ _) as [[]]. }
  destruct (icon w1) as [[file| |] w2]; simpl in Hicon; [|by left..].
  set (c := Group.mk _ _ _ _ _ _ _ _ _). rewrite M_bind_unfold. unfold on_channels.
  rewrite on_table_run. unfold ChannelsTable.insert_channel, table_insert.
  change (ReferenceDb.channels (World.db w2)) with (channels w2). rewrite Hicon.
  destruct (channels w !! _) eqn:Hl; simpl; [by left; rewrite <- Hicon|].
  right. exists c. rewrite M_bind_unfold.
  destruct (for_each_private_channels (hash_set_iter users) (EventV1.ChannelCreate (Channel.Group c))
    (World.set_db w2 (ReferenceDb.set_channels (World.db w2)
       (<[id := Channel.Group c]> (channels w))))) as (w3 & Hrun & Hw3).
  rewrite Hrun. simpl. rewrite Hw3. split; [done|].
  destruct (hash_set_iter_spec users) as (Hn & Hin & Hlen).
  split_and!; [done| |]; simpl.
  - rewrite Hin. set_solver.
  - rewrite Hlen. lia.
Qed.

(** Adding a user to a stored group. *)
Lemma add_user_channels c user by_ w :
  channels w !! Group.id c = Some (Channel.Group c) → group_wf c →
  channels (add_user_to_group (Channel.Group c) user by_ w).2 = channels w ∨
  (∃ c', channels (add_user_to_group (Channel.Group c) user by_ w).2 =
           <[Group.id c := Channel.Group c']> (channels w) ∧
     Group.id c' = Group.id c ∧ group_wf c' ∧
     Group.recipients c' = Group.recipients c ++ [User.id user]).
Proof.
  intros Hc (Hn & Ho & Hlen). unfold add_user_to_group.
  case_bool_decide as Hin; [by left|]. case_bool_decide as Hsize; [by left|]. right.
  rewrite M_bind_unfold. unfold on_channels. rewrite on_table_run.
  unfold ChannelsTable.add_user_to_group.
  change (ReferenceDb.channels (World.db w)) with (channels w). rewrite Hc. simpl.
  set (c' := Group.set_recipients c _). exists c'.
  rewrite M_bind_unfold. cbn. rewrite M_bind_unfold.
  set (w1 := World.set_events _ _).
  destruct (send_system_ok (SystemMessage.UserAdded (User.id user) by_) (Group.id c)
    (system_author user) (Channel.Group c') w1) as (w2 & Hrun & Hw2).
  rewrite Hrun. split_and!; [exact Hw2|done| |done]. split_and!; simpl.
  - apply NoDup_app. split_and!; [done|set_solver|apply NoDup_singleton].
  - set_solver.
  - rewrite length_app. simpl. lia.
Qed.

Lemma find_other (user : string) l o :
  List.find (λ x, negb (bool_decide (x = user))) l = Some o → o ∈ l ∧ o ≠ user.
Proof.
  intros [Hin Hne]%find_some. apply list_elem_of_In in Hin.
  by apply negb_true_iff, bool_decide_eq_false in Hne.
Qed.

(** The group without a user: the owner is the one of [c] unless the owner left. *)
Definition without_user (c : Group.t) (user owner : string) : Group.t :=
  Group.set_recipients (set_owner c owner) (ChannelsTable.remove_first user (Group.recipients c)).

Lemma without_user_wf c user o :
  group_wf c → o ∈ Group.recipients c → o ≠ user → group_wf (without_user c user o).
Proof.
  intros (Hn & _ & Hlen) Ho Hne. split_and!; simpl.
  - by apply NoDup_remove_first.
  - by apply elem_of_remove_first.
  - destruct (decide (user ∈ Group.recipients c)) as [Hin|Hin].
    + pose proof (length_remove_first user _ Hin). lia.
    + etrans; [|exact Hlen]. clear -Hin. induction (Group.recipients c) as [|r l IH]; simpl; [done|].
      case_bool_decide; simpl; [lia|]. apply le_n_S, IH. set_solver.
Qed.

(** Leaving the table's group: the tail of the handler. *)
Lemma leave_group c c0 user by_ silent w :
  channels w !! Group.id c = Some (Channel.Group c0) → User.id user ∈ Group.recipients c0 →
  ∃ w', (on_channels (ChannelsTable.remove_user_from_group (Group.id c) (User.id user)) ;;
         p (EventV1.ChannelGroupLeave (Group.id c) (User.id user)) (Group.id c) ;;
         if negb silent then
           send_system (match by_ with
                        | Some by_ => SystemMessage.UserRemove (User.id user) by_
                        | None => SystemMessage.UserLeft (User.id user)
                        end) (Group.id c) (system_author user) (Channel.Group c)
         else mret tt) w = (Ok tt, w') ∧
    channels w' = <[Group.id c := Channel.Group (Group.set_recipients c0
      (ChannelsTable.remove_first (User.id user) (Group.recipients c0)))]> (channels w).
Proof.
  intros Hc Hin. rewrite M_bind_unfold. unfold on_channels. rewrite on_table_run.
  unfold ChannelsTable.remove_user_from_group.
  change (ReferenceDb.channels (World.db w)) with (channels w). rewrite Hc.
  rewrite (proj2 (existsb_elem_of _ _) Hin). cbn [fst snd]. rewrite M_bind_unfold.
  set (w1 := World.set_db _ _). set (ev := EventV1.ChannelGroupLeave _ _).
  change (p ev (Group.id c) w1) with (Ok (E := ErrorType.t) tt, (p ev (Group.id c) w1).2).
  destruct silent; simpl; [by eexists|].
  edestruct send_system_ok as (w' & -> & Hw'). eauto.
Qed.

(** Removing a recipient from a stored group: the last one takes the group along,
    otherwise the group stays without the user, with a recipient as its owner. *)
Lemma remove_user_channels c user by_ silent w :
  channels w !! Group.id c = Some (Channel.Group c) → group_wf c →
  User.id user ∈ Group.recipients c →
  (Group.recipients c = [User.id user] ∧ ∃ w',
     remove_user_from_group (Channel.Group c) user by_ silent w = (Ok tt, w') ∧
     channels w' = delete (Group.id c) (channels w)) ∨
  (∃ w' o, remove_user_from_group (Channel.Group c) user by_ silent w = (Ok tt, w') ∧
     channels w' = <[Group.id c := Channel.Group (without_user c (User.id user) o)]> (channels w) ∧
     o ∈ Group.recipients c ∧ o ≠ User.id user ∧
     (User.id user ≠ Group.owner c → o = Group.owner c)).
Proof.
  intros Hc (Hn & Ho & Hlen) Hin. unfold remove_user_from_group. rewrite M_bind_unfold.
  case_bool_decide as Hown.
  - unfold hand_over. destruct (List.find _ _) as [o|] eqn:Hf.
    + right. apply find_other in Hf as [Hoin Hone]. rewrite M_bind_unfold.
      unfold on_channels at 1. rewrite on_table_run. unfold ChannelsTable.update_channel, table_update.
      change (ReferenceDb.channels (World.db w)) with (channels w). rewrite Hc. cbn [fst snd].
      rewrite M_bind_unfold. set (w1 := World.set_db _ _).
      edestruct send_system_ok as (w2 & -> & Hw2). cbn [negb mret M_ret].
      change (channels w1) with (<[Group.id c := Channel.Group (set_owner c o)]> (channels w)) in Hw2.
      destruct (leave_group c (set_owner c o) user by_ silent w2) as (w3 & Hrun & Hw3);
        [rewrite Hw2; apply lookup_insert_eq|done|].
      exists w3, o. rewrite Hrun, Hw3, Hw2, insert_insert_eq. by split_and!.
    + left. assert (Group.recipients c = [User.id user]) as Hone.
      { assert (∀ x, x ∈ Group.recipients c → x = User.id user) as Hall.
        { intros x Hx. apply list_elem_of_In in Hx. pose proof (find_none _ _ Hf x Hx) as Hx'.
          by apply negb_false_iff, bool_decide_eq_true in Hx'. }
        clear -Hn Hin Hall. destruct (Group.recipients c) as [|a [|b l]]; [set_solver| |].
        - f_equal. apply Hall. left.
        - assert (a = b) as -> by (rewrite (Hall a), (Hall b) by set_solver; done).
          apply NoDup_cons in Hn as [Hn _]. set_solver. }
      split; [done|]. cbn [negb mret M_ret]. unfold delete_channel. rewrite M_bind_unfold.
      set (ev := EventV1.ChannelDelete _).
      change (p ev _ w) with (Ok (E := ErrorType.t) tt, (p ev (Group.id c) w).2).
      unfold on_channels. rewrite on_table_run. unfold ChannelsTable.delete_channel, table_delete.
      change (ReferenceDb.channels (World.db (p ev (Group.id c) w).2)) with (channels w).
      cbn [Channel.id]. rewrite Hc. by eexists.
  - right. cbn [negb mret M_ret].
    destruct (leave_group c c user by_ silent w Hc Hin) as (w' & Hrun & Hw').
    exists w', (Group.owner c). rewrite Hrun, Hw'. by split_and!.
Qed.

(** A user who is not in the group cannot be removed, and nothing happens. *)
Lemma remove_stranger c user by_ silent w :
  channels w !! Group.id c = Some (Channel.Group c) → group_wf c →
  User.id user ∉ Group.recipients c →
  ∃ w', remove_user_from_group (Channel.Group c) user by_ silent w = (Err ErrorType.NotFound, w') ∧
    channels w' = channels w.
Proof.
  intros Hc (_ & Ho & _) Hin. unfold remove_user_from_group. rewrite M_bind_unfold.
  rewrite bool_decide_eq_false_2 by congruence. cbn [negb mret M_ret].
  rewrite M_bind_unfold. unfold on_channels. rewrite on_table_run.
  unfold ChannelsTable.remove_user_from_group.
  change (ReferenceDb.channels (World.db w)) with (channels w). rewrite Hc.
  rewrite (proj2 (existsb_elem_of_false _ _) Hin). by eexists.
Qed.

(** ** Reachable states *)

(** The states reached by creating groups, adding users to stored groups and removing
    users from them, whatever the outcome, while anything else may change that is not
    the table of channels. *)
Inductive reachable (w0 : World.t) : World.t → Prop :=
| reachable_start : reachable w0 w0
| reachable_create w data owner :
    reachable w0 w → reachable w0 (create_group data owner w).2
| reachable_add w c user by_ :
    reachable w0 w → channels w !! Group.id c = Some (Channel.Group c) →
    reachable w0 (add_user_to_group (Channel.Group c) user by_ w).2
| reachable_remove w c user by_ silent :
    reachable w0 w → channels w !! Group.id c = Some (Channel.Group c) →
    reachable w0 (remove_user_from_group (Channel.Group c) user by_ silent w).2
| reachable_other w w' : reachable w0 w → channels w' = channels w → reachable w0 w'.

(** In every reachable state each group has no recipient twice, is owned by one of
    its recipients and is within the configured size: joining, leaving and handing
    over the ownership keep it so, and a group never stays behind without a recipient. *)
Theorem groups_stay_well_formed (w0 w : World.t) (id : string) (c : Group.t) :
  groups_wf (channels w0) → reachable w0 w → channels w !! id = Some (Channel.Group c) →
  NoDup (Group.recipients c) ∧ Group.owner c ∈ Group.recipients c ∧
  (1 ≤ length (Group.recipients c) ≤ GlobalLimits.group_size global_limits)%nat.
Proof.
  intros H0' Hr Hc. enough (groups_wf (channels w)) as Hwf.
  { destruct (Hwf id c Hc) as (_ & Hn & Ho & Hl). split_and!; try done.
    destruct (Group.recipients c); [set_solver|simpl; lia]. }
  clear Hc. induction Hr as [|w data owner _ IH|w g user by_ _ IH Hg
    |w g user by_ silent _ IH Hg|w w' _ IH ->]; [done| | | |done].
  - destruct (create_group_channels data owner w) as [->|(g & -> & Hg)]; [done|].
    by apply groups_wf_insert.
  - destruct (IH _ _ Hg) as [_ Hwf].
    destruct (add_user_channels g user by_ w Hg Hwf) as [->|(g' & -> & Hid & Hg' & _)]; [done|].
    by apply groups_wf_insert.
  - destruct (IH _ _ Hg) as [_ Hwf].
    destruct (decide (User.id user ∈ Group.recipients g)) as [Hin|Hin].
    + destruct (remove_user_channels g user by_ silent w Hg Hwf Hin)
        as [(_ & w' & -> & Hw')|(w' & o & -> & Hw' & Ho & Hne & _)]; cbn [snd]; rewrite Hw'.
      * by apply groups_wf_delete.
      * apply groups_wf_insert; [done|done|by apply without_user_wf].
    + destruct (remove_stranger g user by_ silent w Hg Hwf Hin) as (w' & -> & Hw').
      cbn [snd]. by rewrite Hw'.
Qed.

(** Leaving a group: a recipient of a stored group can always leave it; the last one
    takes the group along; otherwise the group keeps exactly the other recipients, and
    its owner unless it was the owner who left, in which case one of the others owns it
    now. *)
Theorem leaving_a_group (c : Group.t) (user : User.t) (by_ : option string) (silent : bool)
    (w : World.t) :
  channels w !! Group.id c = Some (Channel.Group c) → group_wf c →
  User.id user ∈ Group.recipients c →
  ∃ w', remove_user_from_group (Channel.Group c) user by_ silent w = (Ok tt, w') ∧
    match channels w' !! Group.id c with
    | None => Group.recipients c = [User.id user]
    | Some (Channel.Group c') =>
        (∀ x, x ∈ Group.recipients c' ↔ x ∈ Group.recipients c ∧ x ≠ User.id user) ∧
        Group.owner c' ∈ Group.recipients c' ∧
        (User.id user ≠ Group.owner c → Group.owner c' = Group.owner c)
    | Some _ => False
    end.
Proof.
  intros Hc Hwf Hin. destruct (remove_user_channels c user by_ silent w Hc Hwf Hin)
    as [(Hone & w' & Hrun & Hw')|(w' & o & Hrun & Hw' & Ho & Hne & Hkeep)]; exists w'.
  - split; [done|]. by rewrite Hw', lookup_delete_eq.
  - split; [done|]. rewrite Hw', lookup_insert_eq. destruct Hwf as (Hn & _).
    split_and!; simpl; [|by apply elem_of_remove_first|done].
    intros x. by apply elem_of_remove_first.
Qed.
End Groups.

(** ** Direct messages *)

Section DirectMessages.
Context `{Environment, HashIter}.

(** Opening a direct message channel between two users who share no channel creates
    it with exactly these two recipients, active, and tells both of them. *)
Theorem create_dm_new (user_a user_b : string) (w : World.t) :
  user_a ≠ user_b →
  (∀ id c, channels w !! id = Some c →
     Channel.contains_user c user_a && Channel.contains_user c user_b = false) →
  channels w !! new_ulid (World.ulids w) = None →
  let id := new_ulid (World.ulids w) in
  let channel := Channel.DirectMessage (DirectMessage.mk id true [user_a; user_b] None) in
  ∃ w', create_dm user_a user_b w = (Ok channel, w') ∧
    channels w' = <[id := channel]> (channels w) ∧
    World.events w' = World.events w ++
      [(user_a +:+ "!", EventV1.ChannelCreate channel);
       (user_b +:+ "!", EventV1.ChannelCreate channel)].
Proof.
  intros Hne Hnone Hfresh id channel. unfold create_dm. rewrite M_bind_unfold.
  unfold attempt, on_channels. rewrite on_table_run.
  unfold ChannelsTable.find_direct_message_channel.
  change (ReferenceDb.channels (World.db w)) with (channels w).
  assert (World.set_db w (ReferenceDb.set_channels (World.db w) (channels w)) = w) as Hw.
  { by destruct w as [[]]. }
  destruct (List.find _ _) as [c|] eqn:Hf; simpl.
  { apply find_some in Hf as [Hin Hboth]. rewrite <- list_elem_of_In, elem_of_hash_values in Hin.
    destruct Hin as [k Hk]. by rewrite (Hnone k c Hk) in Hboth. }
  rewrite Hw, M_bind_unfold. cbn [ulid]. rewrite bool_decide_eq_false_2 by done.
  fold id channel. fold id in Hfresh. rewrite M_bind_unfold, on_table_run.
  unfold ChannelsTable.insert_channel, table_insert. simpl.
  change (ReferenceDb.channels (World.db w)) with (channels w). rewrite Hfresh. simpl.
  eexists. split; [reflexivity|]. split; [done|]. simpl. by rewrite <- app_assoc.
Qed.

(** The reference driver looks for any channel that both users are in: if the only
    such channel is a group, opening a direct message with a friend returns the group
    and creates nothing. *)
Theorem create_dm_returns_group (user_a user_b : string) (g : Group.t) (w : World.t) :
  channels w = {[Group.id g := Channel.Group g]} →
  user_a ∈ Group.recipients g → user_b ∈ Group.recipients g →
  create_dm user_a user_b w = (Ok (Channel.Group g), w).
Proof.
  intros Hw Ha Hb. unfold create_dm. rewrite M_bind_unfold.
  unfold attempt, on_channels. rewrite on_table_run.
  unfold ChannelsTable.find_direct_message_channel.
  change (ReferenceDb.channels (World.db w)) with (channels w).
  assert (World.set_db w (ReferenceDb.set_channels (World.db w) (channels w)) = w) as Hsame.
  { by destruct w as [[]]. }
  destruct (List.find _ _) as [c|] eqn:Hf; simpl.
  - apply find_some in Hf as [Hin _]. rewrite <- list_elem_of_In, elem_of_hash_values in Hin.
    destruct Hin as [k Hk]. rewrite Hw, lookup_singleton_Some in Hk. destruct Hk as [_ <-].
    by rewrite Hsame.
  - assert (Channel.Group g ∈ hash_values (channels w)) as Hin.
    { rewrite elem_of_hash_values, Hw. exists (Group.id g). apply lookup_singleton_eq. }
    apply list_elem_of_In in Hin. pose proof (find_none _ _ Hf _ Hin) as Hx. simpl in Hx.
    by rewrite (proj2 (existsb_elem_of _ _) Ha), (proj2 (existsb_elem_of _ _) Hb) in Hx.
Qed.
End DirectMessages.

(** ** Witnesses *)

Section Witnesses.
#[local] Existing Instance canonical_iter.
#[local] Instance group_environment : Environment := Fixture.environment 3.

Definition example_group : Group.t := Fixture.group "G" "A" ["A"; "B"].
Definition group_world : World.t :=
  World.set_db World.empty
    (ReferenceDb.set_channels ReferenceDb.empty {["G" := Channel.Group example_group]}).

Lemma example_group_wf : group_wf example_group.
Proof.
  split_and!; [apply (bool_decide_unpack _); vm_compute; exact I|left|vm_compute; lia].
Qed.

Lemma groups_stay_well_formed_witness :
  let w := (add_user_to_group (Channel.Group example_group) (Fixture.user "C" []) "A"
              group_world).2 in
  let c := Group.set_recipients example_group ["A"; "B"; "C"] in
  NoDup (Group.recipients c) ∧ Group.owner c ∈ Group.recipients c ∧
  (1 ≤ length (Group.recipients c) ≤ GlobalLimits.group_size global_limits)%nat.
Proof.
  intros w c. apply (groups_stay_well_formed group_world w "G" c).
  - intros id g Hg. cbn in Hg. apply lookup_singleton_Some in Hg as [<- [= <-]].
    split; [reflexivity|exact example_group_wf].
  - apply reachable_add; [constructor|reflexivity].
  - vm_compute. reflexivity.
Defined.

Lemma leaving_a_group_witness :
  ∃ w', remove_user_from_group (Channel.Group example_group) (Fixture.user "A" []) None false
          group_world = (Ok tt, w') ∧
    match channels w' !! "G" with
    | None => Group.recipients example_group = ["A"]
    | Some (Channel.Group c') =>
        (∀ x, x ∈ Group.recipients c' ↔ x ∈ Group.recipients example_group ∧ x ≠ "A") ∧
        Group.owner c' ∈ Group.recipients c' ∧
        ("A" ≠ Group.owner example_group → Group.owner c' = Group.owner example_group)
    | Some _ => False
    end.
Proof.
  apply (leaving_a_group example_group (Fixture.user "A" []) None false group_world);
    [reflexivity|exact example_group_wf|left].
Defined.

Lemma create_dm_new_witness :
  let id := new_ulid (World.ulids group_world) in
  let channel := Channel.DirectMessage (DirectMessage.mk id true ["A"; "C"] None) in
  ∃ w', create_dm "A" "C" group_world = (Ok channel, w') ∧
    channels w' = <[id := channel]> (channels group_world) ∧
    World.events w' = World.events group_world ++
      [("A" +:+ "!", EventV1.ChannelCreate channel); ("C" +:+ "!", EventV1.ChannelCreate channel)].
Proof.
  apply (create_dm_new "A" "C" group_world).
  - done.
  - intros id c Hc. cbn in Hc. apply lookup_singleton_Some in Hc as [_ <-]. reflexivity.
  - reflexivity.
Defined.

Lemma create_dm_returns_group_witness :
  create_dm "A" "B" group_world = (Ok (Channel.Group example_group), group_world).
Proof.
  apply (create_dm_returns_group "A" "B" example_group group_world);
    [reflexivity|left|right; left].
Defined.
End Witnesses.
