(* ===== verification/ServerOps.v ===== *)
(** * Server, role and member handlers

    The handlers of [models/servers/model.rs], [models/server_members/model.rs] and
    [models/server_bans/model.rs], and [Channel::create_server_channel]. The theorems are
    about the order of roles, who can join a server and how many channels it can have. *)

From stdpp Require Import base list gmap strings sorting.
From Stdlib Require Import ZArith Lia.
From S2P Require Import Prelude Errors Permissions PermissionSpec Files Users Servers Channels.
From S2P Require Import PermissionQuery Messages Unreads Config Emojis World Database.
From S2P Require Import PermissionTheorems MessageOps ChannelOps.

Module DataCreateServer.
Record t : Type := mk {
  name : string;
  description : option string;
  announcement : option string;
  nsfw : option bool
}.
End DataCreateServer.

Module LegacyServerChannelType.
Inductive t : Type := Text | Voice.
End LegacyServerChannelType.

Module DataCreateServerChannel.
Record t : Type := mk {
  channel_type : LegacyServerChannelType.t;
  name : string;
  description : option string;
  nsfw : option bool;
  forum : option string;
  voice : option VoiceInformation.t
}.
End DataCreateServerChannel.

Section Handlers.
Context `{Environment, MutualIds, HashIter}.
Context `{OptionalStruct Server.t PartialServer.t, OptionalStruct Role.t PartialRole.t,
          OptionalStruct Member.t PartialMember.t}.

(** ** Servers *)

(** Update server data *)
Definition update_server (self : Server.t) (partial : PartialServer.t)
    (remove : list FieldsServer.t) : H Server.t :=
  let self := apply_options (fold_left Server.remove_field remove self) partial in
  on_servers (ServersTable.update_server (Server.id self) partial remove) ;;
  p (EventV1.ServerUpdate (Server.id self) partial remove) (Server.id self) ;;
  mret self.

(** Delete a server *)
Definition delete_server (self : Server.t) : H unit :=
  p (EventV1.ServerDelete (Server.id self)) (Server.id self) ;;
  on_servers (ServersTable.delete_server (Server.id self)).

(** The channel [create_server_channel] builds *)
Definition new_server_channel (id : string) (server : Server.t)
    (data : DataCreateServerChannel.t) : Channel.t :=
  let make voice forum :=
    Channel.TextChannel (TextChannel.mk id (Server.id server) (DataCreateServerChannel.name data)
      (DataCreateServerChannel.description data) None None None ∅
      (default false (DataCreateServerChannel.nsfw data)) voice None forum) in
  match DataCreateServerChannel.channel_type data with
  | LegacyServerChannelType.Text =>
      make (DataCreateServerChannel.voice data) (DataCreateServerChannel.forum data)
  | LegacyServerChannelType.Voice =>
      make (Some (default VoiceInformation.default (DataCreateServerChannel.voice data))) None
  end.

(** Create a server channel; returns the channel and the caller's copy of the server *)
Definition create_server_channel (server : Server.t) (data : DataCreateServerChannel.t)
    (update : bool) : H (Channel.t * Server.t) :=
  if bool_decide (GlobalLimits.server_channels global_limits < length (Server.channels server))%nat
  then throw (ErrorType.TooManyChannels (Z.of_nat (GlobalLimits.server_channels global_limits)))
  else
  id ← ulid;
  let channel := new_server_channel id server data in
  on_channels (ChannelsTable.insert_channel channel) ;;
  if (update : bool) then
    server ← update_server server (PartialServer.of_channels (Server.channels server ++ [id])) [];
    p (EventV1.ChannelCreate channel) (Server.id server) ;;
    mret (channel, server)
  else mret (channel, server).

(** Create a server *)
Definition create_server (data : DataCreateServer.t) (owner : User.t)
    (create_default_channels : bool) : H (Server.t * list Channel.t) :=
  id ← ulid;
  let server :=
    Server.mk id (User.id owner) (DataCreateServer.name data) (DataCreateServer.description data)
      None [] None None ∅ (as_i64 DEFAULT_PERMISSION_SERVER) None None None
      (default false (DataCreateServer.nsfw data)) false false false in
  created ← (if create_default_channels then
               c ← create_server_channel server
                     (DataCreateServerChannel.mk LegacyServerChannelType.Text "General" None None
                        None None) false;
               mret ([c.1], c.2)
             else mret ([], server));
  let channels : list Channel.t := created.1 in
  let server := Server.set_channels created.2 (Channel.id <$> channels) in
  on_servers (ServersTable.insert_server server) ;;
  mret (server, channels).

(** ** Roles *)

(** Update role data *)
Definition update_role (self : Role.t) (server_id : string) (partial : PartialRole.t)
    (remove : list FieldsRole.t) : H Role.t :=
  let self := apply_options (fold_left Role.remove_field remove self) partial in
  on_servers (ServersTable.update_role server_id (Role.id self) partial remove) ;;
  p (EventV1.ServerRoleUpdate server_id (Role.id self) partial remove) server_id ;;
  mret self.

(** Set role permission on a server *)
Definition set_server_role_permission (self : Server.t) (role_id : string)
    (permissions : OverrideField.t) : H Server.t :=
  match Server.roles self !! role_id with
  | Some role =>
      role ← update_role role (Server.id self)
               (PartialRole.mk None None (Some permissions) None None None None) [];
      mret (Server.set_roles self (<[role_id := role]> (Server.roles self)))
  | None => throw ErrorType.NotFound
  end.

(** [for (rank, id) in new_order.iter().enumerate() { roles.get_mut(id).unwrap().rank = rank }] *)
Fixpoint assign_ranks (rank : Z) (new_order : list string) (roles : gmap string Role.t) :
    Result (gmap string Role.t) :=
  match new_order with
  | [] => Ok roles
  | id :: new_order =>
      role ← unwrap (roles !! id);
      assign_ranks (rank + 1) new_order (<[id := Role.set_rank role rank]> roles)
  end.

(** Reorders the server's roles rankings *)
Definition set_role_ordering (self : Server.t) (new_order : list string) : H Server.t :=
  roles ← lift (assign_ranks 0 new_order (Server.roles self));
  let self := Server.set_roles self roles in
  on_servers (ServersTable.update_server (Server.id self) (PartialServer.of_roles roles) []) ;;
  p (EventV1.ServerRoleRanksUpdate (Server.id self) new_order) (Server.id self) ;;
  mret self.

(** Create a role *)
Definition create_role (server : Server.t) (name : string) : H Role.t :=
  id ← ulid;
  let role := Role.mk id name OverrideField.default None false
                (Z.of_nat (size (Server.roles server))) None in
  on_servers (ServersTable.insert_role (Server.id server) role) ;;
  p (EventV1.ServerRoleUpdate (Server.id server) (Role.id role) (Role.into_optional role) [])
    (Server.id server) ;;
  mret role.

(** Delete a role *)
Definition delete_role (self : Role.t) (server_id : string) : H unit :=
  p (EventV1.ServerRoleDelete server_id (Role.id self)) server_id ;;
  on_servers (ServersTable.delete_role server_id (Role.id self)).

(** ** Members *)

(** The channels of the server a user can view *)
Fixpoint viewable (user : User.t) (server : Server.t) (existing : list Channel.t) :
    H (list Channel.t) :=
  match existing with
  | [] => mret []
  | channel :: existing =>
      permissions ← server_channel_permissions user server channel;
      channels ← viewable user server existing;
      mret (if PermissionValue.has_channel_permission permissions ChannelPermission.ViewChannel
            then channel :: channels else channels)
  end.

(** Create a new member in a server *)
Definition create_member (server : Server.t) (user : User.t) (channels : option (list Channel.t)) :
    H (Member.t * list Channel.t) :=
  ban ← attempt (on_bans (BansTable.fetch_ban (Server.id server) (User.id user)));
  if bool_decide (is_Some ban) then throw ErrorType.Banned else
  existing ← attempt (on_members (MembersTable.fetch_member (Server.id server) (User.id user)));
  if bool_decide (is_Some existing) then throw ErrorType.AlreadyInServer else
  now ← clock;
  let member := Member.new (MemberCompositeKey.mk (Server.id server) (User.id user)) now in
  updated ← on_members (MembersTable.insert_or_merge_member member);
  let member : Member.t := default member updated in
  channels ← match channels with
             | Some channels => mret channels
             | None =>
                 existing ← on_channels (ChannelsTable.fetch_channels (Server.channels server));
                 viewable user server existing
             end;
  emojis ← on_emojis (EmojisTable.fetch_emoji_by_parent_id (Server.id server));
  p (EventV1.ServerMemberJoin (Server.id server) (User.id user) member) (Server.id server) ;;
  private (EventV1.ServerCreate (Server.id server) server channels emojis) (User.id user) ;;
  match Server.system_messages server ≫= SystemMessageChannels.user_joined with
  | Some id =>
      message ← system_message (SystemMessage.UserJoined (User.id user)) id;
      ignore (send_without_notifications message None None false false false)
  | None => mret tt
  end ;;
  mret (member, channels).

(** Update member data *)
Definition update_member (self : Member.t) (partial : PartialMember.t)
    (remove : list FieldsMember.t) : H Member.t :=
  let self := apply_options (fold_left Member.remove_field remove self) partial in
  on_members (MembersTable.update_member (Member.id self) partial remove) ;;
  p (EventV1.ServerMemberUpdate (Member.id self) partial remove)
    (MemberCompositeKey.server (Member.id self)) ;;
  mret self.

(** Remove member from server *)
Definition remove_member (self : Member.t) (server : Server.t)
    (intention : RemovalIntention.t) (silent : bool) : H unit :=
  now ← clock;
  on_members (MembersTable.soft_delete_member now (Member.id self)) ;;
  let user := MemberCompositeKey.user (Member.id self) in
  p (EventV1.ServerMemberLeave (MemberCompositeKey.server (Member.id self)) user intention)
    (MemberCompositeKey.server (Member.id self)) ;;
  if negb silent then
    match Server.system_messages server ≫= (λ x,
            match intention with
            | RemovalIntention.Leave => SystemMessageChannels.user_left x
            | RemovalIntention.Kick => SystemMessageChannels.user_kicked x
            | RemovalIntention.Ban => SystemMessageChannels.user_banned x
            end) with
    | Some id =>
        message ← system_message (match intention with
                                  | RemovalIntention.Leave => SystemMessage.UserLeft user
                                  | RemovalIntention.Kick => SystemMessage.UserKicked user
                                  | RemovalIntention.Ban => SystemMessage.UserBanned user
                                  end) id;
        ignore (send_without_notifications message None None false false false)
    | None => mret tt
    end
  else mret tt.

(** Create ban *)
Definition create_ban (server : Server.t) (user_id : string) (reason : option string) :
    H ServerBan.t :=
  let ban := ServerBan.mk (MemberCompositeKey.mk (Server.id server) user_id) reason in
  on_bans (BansTable.insert_ban ban) ;;
  mret ban.
End Handlers.

(** ** The order of roles *)

Definition servers (w : World.t) : ServersTable.table := ReferenceDb.servers (World.db w).
Definition members (w : World.t) : MembersTable.table := ReferenceDb.server_members (World.db w).
Definition bans (w : World.t) : BansTable.table := ReferenceDb.server_bans (World.db w).

(** What [set_role_ordering] does to the ranks: the roles named get consecutive ranks
    from [k]; the others keep theirs. *)
Lemma assign_ranks_spec order : ∀ k roles,
  NoDup order → (∀ id, id ∈ order → is_Some (roles !! id)) →
  ∃ roles', assign_ranks k order roles = Ok roles' ∧
    (∀ i id, order !! i = Some id → ∃ r, roles' !! id = Some r ∧ Role.rank r = (k + Z.of_nat i)%Z) ∧
    (∀ id, id ∉ order → roles' !! id = roles !! id) ∧ dom roles' = dom roles.
Proof.
  induction order as [|id order IH]; intros k roles Hn Hsome; simpl.
  { exists roles. by split_and!. }
  apply NoDup_cons in Hn as [Hid Hn].
  destruct (Hsome id ltac:(left)) as [r Hr]. rewrite Hr. simpl.
  destruct (IH (k + 1)%Z (<[id := Role.set_rank r k]> roles)) as (roles' & Hok & Hrank & Hkeep & Hdom).
  - done.
  - intros x Hx. destruct (decide (x = id)) as [->|Hne]; [by rewrite lookup_insert_eq|].
    rewrite lookup_insert_ne by done. apply Hsome. by right.
  - exists roles'. split_and!; [done| | |].
    + intros [|i] x Hx; simplify_eq/=.
      * exists (Role.set_rank r k). rewrite Hkeep, lookup_insert_eq by done. split; [done|simpl; lia].
      * destruct (Hrank i x Hx) as (r' & Hr' & Hk). exists r'. split; [done|lia].
    + intros x Hx. apply not_elem_of_cons in Hx as [Hne Hx].
      by rewrite Hkeep, lookup_insert_ne by done.
    + rewrite Hdom, dom_insert_L. apply elem_of_dom_2 in Hr. set_solver.
Qed.

(** A list of ids whose roles have the ranks [k], [k + 1], ... lists them in order. *)
Lemma ranked_list (m : gmap string Role.t) order : ∀ k,
  (∀ i id, order !! i = Some id → ∃ r, m !! id = Some r ∧ Role.rank r = (k + Z.of_nat i)%Z) →
  let l := omap (λ id, (λ r, (id, r)) <$> m !! id) order in
  l.*1 = order ∧ StronglySorted (λ a b, (Role.rank a.2 < Role.rank b.2)%Z) l ∧
  Forall (λ x, (k ≤ Role.rank x.2)%Z) l.
Proof.
  induction order as [|id order IH]; intros k Hrank; simpl; [by repeat constructor|].
  destruct (Hrank 0%nat id eq_refl) as (r & Hr & Hk). rewrite Hr. simpl.
  destruct (IH (k + 1)%Z) as (Hkeys & Hs & Hall).
  { intros i x Hx. destruct (Hrank (S i) x Hx) as (r' & ? & ?). exists r'. split; [done|lia]. }
  split_and!.
  - csimpl. by f_equal.
  - constructor; [done|]. eapply Forall_impl; [exact Hall|]. intros x Hx. simpl in *. lia.
  - constructor; [simpl; lia|]. eapply Forall_impl; [exact Hall|]. intros x Hx. simpl in *. lia.
Qed.

Section RoleOrder.
Context `{Environment, HashIter, OptionalStruct Server.t PartialServer.t}.

(** Roles with consecutive ranks are distinct, and listed in that order whatever the
    iteration order of the map. *)
Lemma consecutive_ranks (s : Server.t) order :
  (∀ id, id ∈ order ↔ is_Some (Server.roles s !! id)) → NoDup order →
  (∀ i id, order !! i = Some id →
     ∃ r, Server.roles s !! id = Some r ∧ Role.rank r = Z.of_nat i) →
  roles_distinct s ∧ (Server.ordered_roles s).*1 = order.
Proof.
  intros Hdom Hn Hrank. split.
  - intros i j ri rj Hi Hj Heq.
    assert (i ∈ order) as [ni Hni]%list_elem_of_lookup_1 by (apply Hdom; eauto).
    assert (j ∈ order) as [nj Hnj]%list_elem_of_lookup_1 by (apply Hdom; eauto).
    destruct (Hrank ni i Hni) as (? & ? & ?), (Hrank nj j Hnj) as (? & ? & ?). simplify_eq.
    assert (ni = nj) as -> by lia. by simplify_eq.
  - destruct (ranked_list (Server.roles s) order 0%Z) as (Hkeys & Hs & _); [by apply Hrank|].
    etrans; [|exact Hkeys]. f_equal. set (l := omap _ _) in *.
    assert (Server.ordered_roles s ≡ₚ l) as Hp.
    { unfold Server.ordered_roles, sort_asc. rewrite sort_by_perm, hash_iter_perm.
      apply NoDup_Permutation; [apply NoDup_map_to_list| |].
      - apply (NoDup_fmap_1 fst). by rewrite Hkeys.
      - intros [id r]. rewrite elem_of_map_to_list. subst l. rewrite list_elem_of_omap. split.
        + intros Hr. exists id. rewrite Hdom, Hr. eauto.
        + intros (x & _ & Hx). by destruct (Server.roles s !! x) eqn:Hr; simplify_eq/=. }
    apply (sorted_distinct_unique (λ a, (- Role.rank a.2)%Z)).
    + unfold Server.ordered_roles. eapply StronglySorted_impl; [|apply sort_asc_sorted].
      intros a b; simpl; lia.
    + eapply StronglySorted_impl; [|exact Hs]. intros a b; simpl; lia.
    + done.
    + rewrite Hp. clear -Hs. induction Hs as [|a l _ IH Ha]; csimpl; [constructor|].
      constructor; [|done]. rewrite list_elem_of_fmap. intros (b & Hb & Hin).
      rewrite Forall_forall in Ha. specialize (Ha b Hin). lia.
Qed.
End RoleOrder.

Section ServerTheorems.
Context `{Environment, MutualIds, HashIter}.
Context `{OptionalStruct Server.t PartialServer.t}.

(** Reordering roles: given an order that lists every role once, the handler
    succeeds, stores exactly the reordered roles, gives the roles distinct ranks, and
    the list of roles sorted by rank is then the requested order, whatever the iteration
    order of the role map. The hypothesis on [apply_options] is what the derive macro
    documents: a field of the partial that is set replaces the field of the struct. *)
Theorem set_role_ordering_orders (self stored : Server.t) (new_order : list string)
    (w : World.t) :
  (∀ s r, apply_options s (PartialServer.of_roles r) = Server.set_roles s r) →
  servers w !! Server.id self = Some stored →
  NoDup new_order → (∀ id, id ∈ new_order ↔ is_Some (Server.roles self !! id)) →
  ∃ self' w', set_role_ordering self new_order w = (Ok self', w') ∧
    servers w' !! Server.id self = Some (Server.set_roles stored (Server.roles self')) ∧
    roles_distinct self' ∧ (Server.ordered_roles self').*1 = new_order.
Proof.
  intros Hlaw Hstored Hn Hall. unfold set_role_ordering. rewrite M_bind_unfold. unfold lift.
  destruct (assign_ranks_spec new_order 0 (Server.roles self)) as (roles' & -> & Hrank & _ & Hdom).
  { done. }
  { intros id. apply Hall. }
  rewrite M_bind_unfold. unfold on_servers. rewrite on_table_run.
  unfold ServersTable.update_server, table_update. simpl.
  change (ReferenceDb.servers (World.db w)) with (servers w). rewrite Hstored. simpl.
  eexists _, _. split; [reflexivity|]. split.
  { unfold servers; simpl. rewrite lookup_insert_eq. by rewrite Hlaw. }
  apply consecutive_ranks; simpl; [|done|].
  - intros id. rewrite Hall, <- !elem_of_dom. by rewrite Hdom.
  - intros i id Hi. destruct (Hrank i id Hi) as (r & Hr & Hk). exists r. split; [done|lia].
Qed.

(** Ranks are below the number of roles. *)
Definition ranks_dense (s : Server.t) : Prop :=
  ∀ id r, Server.roles s !! id = Some r → (Role.rank r < Z.of_nat (size (Server.roles s)))%Z.

(** Creating a role: while the ranks of a server's roles are distinct and below
    their number, a new role is stored with a rank below all others' position (a higher
    number), and the ranks stay distinct and below the number of roles. *)
Theorem create_role_keeps_ranks (server : Server.t) (name : string) (w : World.t) :
  servers w !! Server.id server = Some server → roles_distinct server → ranks_dense server →
  Server.roles server !! new_ulid (World.ulids w) = None →
  ∃ role w' server', create_role server name w = (Ok role, w') ∧
    servers w' !! Server.id server = Some server' ∧
    Server.roles server' = <[Role.id role := role]> (Server.roles server) ∧
    (∀ id r, Server.roles server !! id = Some r → (Role.rank r < Role.rank role)%Z) ∧
    roles_distinct server' ∧ ranks_dense server'.
Proof.
  intros Hs Hd Hr Hfresh. unfold create_role. rewrite M_bind_unfold. cbn [ulid].
  rewrite M_bind_unfold. unfold on_servers. rewrite on_table_run.
  unfold ServersTable.insert_role, table_update. simpl.
  change (ReferenceDb.servers (World.db w)) with (servers w). rewrite Hs. simpl.
  set (id := new_ulid _) in *. set (role := Role.mk _ _ _ _ _ _ _).
  eexists role, _, (Server.set_roles server (<[id := role]> (Server.roles server))).
  split; [reflexivity|]. split; [by unfold servers; simpl; rewrite lookup_insert_eq|].
  split; [done|]. split; [by apply Hr|]. split.
  - intros i j ri rj. simpl. rewrite !lookup_insert_Some.
    intros [[<- <-]|[Hi Hri]] [[<- <-]|[Hj Hrj]] Heq; [done| | |by eapply Hd].
    + specialize (Hr j rj Hrj). simpl in Heq. lia.
    + specialize (Hr i ri Hri). simpl in Heq. lia.
  - intros i r. simpl. rewrite lookup_insert_Some, map_size_insert, Hfresh.
    intros [[<- <-]|[Hi Hri]]; simpl; [lia|]. specialize (Hr i r Hri). lia.
Qed.

(** ** Membership *)

Lemma viewable_keeps {B} (f : World.t → B) user server l : keeps f (viewable user server l).
Proof.
  induction l as [|c l IH]; simpl; [apply keeps_ret|].
  apply keeps_bind; [by intros w|intros ?]. apply keeps_bind; [done|intros ?]. apply keeps_ret.
Qed.

Lemma ulid_keeps {B} (f : World.t → B) : (∀ w n, f (World.set_ulids w n) = f w) → keeps f ulid.
Proof. intros Hf w. apply Hf. Qed.

Lemma send_keeps_members m user member a b c :
  keeps members (send_without_notifications m user member a b c).
Proof.
  unfold send_without_notifications, on_messages, p, queue_last_message_id, queue_message,
    queue_embeds. solve_keeps.
Qed.

Lemma fetch_state {T A} (g : ReferenceDb.t → T) st (m : M ErrorType.t T A) w :
  (∀ d, st d (g d) = d) → (m (g (World.db w))).2 = g (World.db w) →
  attempt (on_table g st m) w =
  (match (m (g (World.db w))).1 with Ok a => Ok (Some a) | Err _ => Ok None | Panicked => Panicked end,
   w).
Proof.
  intros Hst Hm. unfold attempt. rewrite on_table_run, Hm, Hst.
  assert (World.set_db w (World.db w) = w) as -> by (by destruct w).
  by destruct (m _).1.
Qed.

(** Joining: a banned user is rejected, so is a member, and neither changes
    anything; anybody else becomes a member without roles, timeout or voice
    restrictions. *)
Theorem create_member_membership (server : Server.t) (user : User.t)
    (channels : option (list Channel.t)) (w : World.t) :
  let key := MemberCompositeKey.mk (Server.id server) (User.id user) in
  let r := create_member server user channels w in
  match bans w !! key, members w !! key with
  | Some _, _ => r = (Err ErrorType.Banned, w)
  | None, Some _ => r = (Err ErrorType.AlreadyInServer, w)
  | None, None => members r.2 = <[key := Member.new key (World.now w)]> (members w)
  end.
Proof.
  intros key r. subst r. unfold create_member. rewrite M_bind_unfold. unfold on_bans.
  rewrite fetch_state by (by (done || intros [])). simpl.
  change (ReferenceDb.server_bans (World.db w)) with (bans w). fold key.
  destruct (bans w !! key); simpl; [done|]. rewrite M_bind_unfold. unfold on_members.
  rewrite fetch_state by (by (done || intros [])). simpl.
  change (ReferenceDb.server_members (World.db w)) with (members w). fold key.
  destruct (members w !! key) eqn:Hm; simpl; [done|].
  rewrite M_bind_unfold. cbn [clock gets]. rewrite M_bind_unfold, on_table_run. fold key.
  unfold MembersTable.insert_or_merge_member. rewrite M_bind_unfold. unfold table_insert.
  change (ReferenceDb.server_members (World.db w)) with (members w). simpl. rewrite Hm. simpl.
  match goal with |- members (?m ?w').2 = _ => assert (keeps members m) as Hk end.
  { unfold on_channels, on_emojis, p, private, p, system_message, ignore. solve_keeps.
    all: first [apply viewable_keeps|apply ulid_keeps; done|apply send_keeps_members]. }
  rewrite Hk. done.
Qed.

(** Announcing something in a channel without notifications always returns. *)
Lemma announce_ok system id w :
  ∃ w', (message ← system_message system id;
         ignore (send_without_notifications message None None false false false)) w = (Ok tt, w') ∧
    members w' = members w ∧ ∃ rest, World.events w' = World.events w ++ rest.
Proof.
  unfold system_message, ulid, ignore, attempt. rewrite !M_bind_unfold. cbn [mret M_ret].
  set (m := into_message _ _ _). rewrite M_bind_unfold. unfold send_without_notifications.
  rewrite M_bind_unfold. unfold on_messages. rewrite on_table_run.
  unfold MessagesTable.insert_message, table_insert.
  destruct (_ !! Message.id m); simpl; (eexists; split; [reflexivity|]; split; [done|]).
  - exists []. by rewrite app_nil_r.
  - by eexists.
Qed.

(** Leaving: a member who is not in timeout can be removed: the membership is gone,
    the other memberships stay, and the departure is published on the server. *)
Theorem remove_member_effect (self : Member.t) (server : Server.t)
    (intention : RemovalIntention.t) (silent : bool) (w : World.t) :
  members w !! Member.id self = Some self → Member.in_timeout self (World.now w) = false →
  ∃ w', remove_member self server intention silent w = (Ok tt, w') ∧
    members w' = delete (Member.id self) (members w) ∧
    ∃ rest, World.events w' = World.events w ++
      (MemberCompositeKey.server (Member.id self),
       EventV1.ServerMemberLeave (MemberCompositeKey.server (Member.id self))
         (MemberCompositeKey.user (Member.id self)) intention) :: rest.
Proof.
  intros Hm Ht. unfold remove_member. rewrite M_bind_unfold. cbn [clock gets].
  rewrite M_bind_unfold. unfold on_members. rewrite on_table_run.
  unfold MembersTable.soft_delete_member.
  change (ReferenceDb.server_members (World.db w)) with (members w). rewrite Hm, Ht. simpl.
  destruct silent; simpl; [eexists; split; [reflexivity|]; split; [done|by exists []]|].
  destruct (mbind (M := option) _ _) as [id|];
    [|eexists; split; [reflexivity|]; split; [done|by exists []]].
  edestruct announce_ok as (w' & Hrun & Hw' & rest & Hev).
  exists w'. split; [exact Hrun|]. split; [by rewrite Hw'|]. exists rest.
  rewrite Hev. simpl. by rewrite <- app_assoc.
Qed.

(** A ban keeps a user out: once the ban is stored, joining the server fails. *)
Theorem ban_keeps_out (server : Server.t) (user : User.t) (reason : option string)
    (ban : ServerBan.t) (channels : option (list Channel.t)) (w w' : World.t) :
  create_ban server (User.id user) reason w = (Ok ban, w') →
  create_member server user channels w' = (Err ErrorType.Banned, w').
Proof.
  unfold create_ban. rewrite M_bind_unfold. unfold on_bans. rewrite on_table_run.
  unfold BansTable.insert_ban, table_insert.
  destruct (ReferenceDb.server_bans (World.db w) !! _) eqn:Hb; simpl; [done|]. intros [= <- <-].
  unfold create_member. rewrite M_bind_unfold. unfold on_bans.
  rewrite fetch_state by (by (done || intros [])). simpl. by rewrite lookup_insert_eq.
Qed.

(** The limit on channels is exceeded by one: a server that has exactly the
    configured number of channels gets another one. *)
Theorem server_channels_exceed_limit (server : Server.t) (data : DataCreateServerChannel.t)
    (w : World.t) :
  (∀ s c, apply_options s (PartialServer.of_channels c) = Server.set_channels s c) →
  servers w !! Server.id server = Some server →
  length (Server.channels server) = GlobalLimits.server_channels global_limits →
  ReferenceDb.channels (World.db w) !! new_ulid (World.ulids w) = None →
  ∃ c s' w', create_server_channel server data true w = (Ok (c, s'), w') ∧
    servers w' !! Server.id server = Some s' ∧
    length (Server.channels s') = S (GlobalLimits.server_channels global_limits).
Proof.
  intros Hlaw Hs Hlen Hfresh. unfold create_server_channel.
  rewrite bool_decide_eq_false_2 by lia. rewrite M_bind_unfold. cbn [ulid].
  set (id := new_ulid _) in *.
  set (c := new_server_channel id server data).
  assert (Channel.id c = id) as Hid.
  { subst c. unfold new_server_channel. by destruct (DataCreateServerChannel.channel_type data). }
  clearbody c.
  rewrite M_bind_unfold. unfold on_channels. rewrite on_table_run.
  unfold ChannelsTable.insert_channel, table_insert. rewrite Hid.
  change (ReferenceDb.channels (World.db (World.set_ulids w (S (World.ulids w)))))
    with (ReferenceDb.channels (World.db w)). rewrite Hfresh. cbn [fst snd].
  rewrite M_bind_unfold. unfold update_server. rewrite M_bind_unfold. unfold on_servers.
  rewrite on_table_run. unfold ServersTable.update_server, table_update. cbn [fold_left].
  rewrite Hlaw. cbn [Server.id Server.set_channels]. simpl.
  change (ReferenceDb.servers (World.db w)) with (servers w). rewrite Hs. simpl.
  eexists _, _, _. split; [reflexivity|]. split.
  - unfold servers; simpl. rewrite lookup_insert_eq, Hlaw. done.
  - simpl. rewrite length_app. simpl. lia.
Qed.
End ServerTheorems.

(** ** Witnesses *)

Section Witnesses.
#[local] Existing Instance canonical_iter.
#[local] Existing Instance Fixture.strangers.

(** An environment whose limit is one channel for a server. *)
#[local] Instance server_environment : Environment :=
  {| config := Settings.mk (Hosts.mk "app" "api" "autumn")
       (FeaturesLimitsCollection.mk (GlobalLimits.mk 3 5 5 20 100 200 1 72 1000 [])
          Fixture.limits Fixture.limits) true 5 None 2 86400;
     new_ulid n := Nat.iter n (λ s, "0" +:+ s) "id";
     new_nanoid n := Nat.iter n (λ s, "n" +:+ s) "id";
     ulid_timestamp_ms _ := Some 0%Z;
     is_online _ := false;
     permissible_emoji _ := true |}.

(** What the derive macro generates for the fields the witnesses set. *)
#[local] Instance server_options : OptionalStruct Server.t PartialServer.t :=
  λ s partial,
    let s := match PartialServer.roles partial with Some r => Server.set_roles s r | None => s end in
    match PartialServer.channels partial with Some c => Server.set_channels s c | None => s end.

Definition roles_server : Server.t :=
  Server.set_channels
    (Fixture.server "S" "O" 0 [Fixture.role "a" 0 0 0; Fixture.role "b" 1 0 0]) ["C"].
Definition server_world : World.t :=
  World.set_db World.empty (ReferenceDb.set_server_members
    (ReferenceDb.set_servers ReferenceDb.empty {["S" := roles_server]})
    {[MemberCompositeKey.mk "S" "A" := Fixture.member "S" "A" [] None]}).

Lemma roles_server_lookup id r :
  Server.roles roles_server !! id = Some r →
  (id = "a" ∧ r = Fixture.role "a" 0 0 0) ∨ (id = "b" ∧ r = Fixture.role "b" 1 0 0).
Proof.
  simpl. rewrite !lookup_insert_Some, lookup_empty. naive_solver.
Qed.

Lemma set_role_ordering_orders_witness :
  ∃ self' w', set_role_ordering roles_server ["b"; "a"] server_world = (Ok self', w') ∧
    servers w' !! "S" = Some (Server.set_roles roles_server (Server.roles self')) ∧
    roles_distinct self' ∧ (Server.ordered_roles self').*1 = ["b"; "a"].
Proof.
  apply (set_role_ordering_orders roles_server roles_server ["b"; "a"] server_world).
  - reflexivity.
  - reflexivity.
  - apply (bool_decide_unpack _). vm_compute. exact I.
  - intros id. split.
    + intros Hin. apply elem_of_cons in Hin as [->|Hin]; [vm_compute; eauto|].
      apply list_elem_of_singleton in Hin as ->. vm_compute. eauto.
    + intros [r [[-> _]|[-> _]]%roles_server_lookup]; [right; left|left].
Defined.

Lemma create_role_keeps_ranks_witness :
  ∃ role w' server', create_role roles_server "c" server_world = (Ok role, w') ∧
    servers w' !! "S" = Some server' ∧
    Server.roles server' = <[Role.id role := role]> (Server.roles roles_server) ∧
    (∀ id r, Server.roles roles_server !! id = Some r → (Role.rank r < Role.rank role)%Z) ∧
    roles_distinct server' ∧ ranks_dense server'.
Proof.
  apply (create_role_keeps_ranks roles_server "c" server_world).
  - reflexivity.
  - intros i j ri rj Hi%roles_server_lookup Hj%roles_server_lookup Hr.
    destruct Hi as [[-> ->]|[-> ->]], Hj as [[-> ->]|[-> ->]]; done.
  - intros id r [[-> ->]|[-> ->]]%roles_server_lookup; vm_compute; reflexivity.
  - reflexivity.
Defined.

(** After a role was deleted, a new role can get the rank of an existing one: of
    the roles ranked 0 and 1 the first is deleted, and the role created then is ranked
    1 as well. *)
Theorem create_after_delete_ties :
  ∃ w1 s1 role w2,
    delete_role (Fixture.role "a" 0 0 0) "S" server_world = (Ok tt, w1) ∧
    servers w1 !! "S" = Some s1 ∧ create_role s1 "c" w1 = (Ok role, w2) ∧
    ∃ s2, servers w2 !! "S" = Some s2 ∧ ¬ roles_distinct s2.
Proof.
  eexists _, _, _, _. split; [reflexivity|]. split; [vm_compute; reflexivity|].
  split; [vm_compute; reflexivity|]. eexists. split; [vm_compute; reflexivity|].
  intros Hd. by assert ("b" = "id") by (eapply Hd; vm_compute; reflexivity).
Qed.

Lemma remove_member_effect_witness :
  ∃ w', remove_member (Fixture.member "S" "A" [] None) roles_server RemovalIntention.Kick false
          server_world = (Ok tt, w') ∧
    members w' = delete (MemberCompositeKey.mk "S" "A") (members server_world) ∧
    ∃ rest, World.events w' = World.events server_world ++
      ("S", EventV1.ServerMemberLeave "S" "A" RemovalIntention.Kick) :: rest.
Proof.
  apply (remove_member_effect (Fixture.member "S" "A" [] None) roles_server
           RemovalIntention.Kick false server_world); reflexivity.
Defined.

Lemma ban_keeps_out_witness :
  create_member roles_server (Fixture.user "B" []) (Some [])
    (create_ban roles_server "B" None server_world).2 =
  (Err ErrorType.Banned, (create_ban roles_server "B" None server_world).2).
Proof.
  apply (ban_keeps_out roles_server (Fixture.user "B" []) None
    (ServerBan.mk (MemberCompositeKey.mk "S" "B") None) (Some []) server_world).
  reflexivity.
Defined.

Lemma server_channels_exceed_limit_witness :
  let data := DataCreateServerChannel.mk LegacyServerChannelType.Text "new" None None None None in
  ∃ c s' w', create_server_channel roles_server data true server_world = (Ok (c, s'), w') ∧
    servers w' !! "S" = Some s' ∧
    length (Server.channels s') = S (GlobalLimits.server_channels global_limits).
Proof.
  intros data. apply (server_channels_exceed_limit roles_server data server_world); reflexivity.
Defined.
End Witnesses.
