(* ===== verification/Parser.v ===== *)
(** * The mention parser

    [crates/core/parser/src/lib.rs]: the iterator that drops what is escaped or inside a
    closed code block from the tokens of a message, and the collection of the mentions a
    message makes. The tokens themselves come from the lexer that the [logos] derive
    macro generates: it is a parameter, the list of tokens of a text. *)

From S2P Require Import Prelude.
From stdpp Require Import base list gmap strings.

(** ** Tokens and results *)

Module MessageToken.
Inductive t : Type :=
| Escape
| CodeblockMarker (ty : nat)
| UserMention (id : string)
| RoleMention (id : string)
| ChannelMention (id : string)
| Emoji (id : string)
| MentionEveryone
| MentionOnline.
#[global] Instance t_eq_dec : EqDecision t.
Proof. solve_decision. Defined.
End MessageToken.
Import MessageToken.

Module MessageResults.
Record t : Type := mk {
  user_mentions : gset string;
  role_mentions : gset string;
  channel_mentions : gset string;
  emojis : gset string;
  mentions_everyone : bool;
  mentions_online : bool
}.
Definition default : t := mk ∅ ∅ ∅ ∅ false false.
End MessageResults.

(** ** The iterator *)

Module MessageParserIterator.
Record t : Type := mk { inner : list MessageToken.t; temp : list MessageToken.t }.

(** The loop after a code block marker: [inner] is what the lexer still has, [temp] the
    queue filled so far. The token the loop breaks with, and the iterator after it. *)
Fixpoint block (ty : nat) (inner temp : list MessageToken.t) : option MessageToken.t * t :=
  match inner with
  | next_token :: inner =>
      if bool_decide (next_token = CodeblockMarker ty)
      then (Some next_token, mk inner [CodeblockMarker ty])
      else block ty inner (temp ++ [next_token])
  | [] => (Some (CodeblockMarker ty), mk [] temp)
  end.

Definition next (self : t) : option MessageToken.t * t :=
  match temp self with
  | token :: temp => (Some token, mk (inner self) temp)
  | [] =>
      match inner self with
      | Escape :: inner => (Some Escape, mk (tail inner) [])
      | CodeblockMarker ty :: inner => block ty inner []
      | token :: inner => (Some token, mk inner [])
      | [] => (None, mk [] [])
      end
  end.

(** Calling [next] until it returns [None], at most [fuel] times; [None] when the
    iterator has not ended by then. *)
Fixpoint run (fuel : nat) (self : t) : option (list MessageToken.t) :=
  match fuel with
  | O => None
  | S fuel =>
      match next self with
      | (None, _) => Some []
      | (Some token, self) => cons token <$> run fuel self
      end
  end.

(** What bounds the calls that are left *)
Definition measure (self : t) : nat := 2 * length (inner self) + length (temp self).
End MessageParserIterator.

(** ** Parsing *)

Section Parse.
(** [MessageToken::lexer(text).flatten()] *)
Context (lexer : string → list MessageToken.t).

Definition parse_message_iter (text : string) : MessageParserIterator.t :=
  MessageParserIterator.mk (lexer text) [].
End Parse.

(** The body of the loop of [parse_message] *)
Definition parse_token (results : MessageResults.t) (token : MessageToken.t) : MessageResults.t :=
  let '(MessageResults.mk us rs cs es everyone online) := results in
  match token with
  | Escape | CodeblockMarker _ => results
  | UserMention id => MessageResults.mk ({[id]} ∪ us) rs cs es everyone online
  | RoleMention id => MessageResults.mk us ({[id]} ∪ rs) cs es everyone online
  | ChannelMention id => MessageResults.mk us rs ({[id]} ∪ cs) es everyone online
  | Emoji id => MessageResults.mk us rs cs ({[id]} ∪ es) everyone online
  | MentionEveryone => MessageResults.mk us rs cs es true online
  | MentionOnline => MessageResults.mk us rs cs es everyone true
  end.

Definition parse_message (lexer : string → list MessageToken.t) (text : string) :
    option MessageResults.t :=
  let iter := parse_message_iter lexer text in
  (λ tokens, fold_left parse_token tokens MessageResults.default) <$>
    MessageParserIterator.run (S (MessageParserIterator.measure iter)) iter.

(** ** Specification: the tokens that count *)

(** A token that is neither an escape nor a code block marker *)
Definition plain (t : MessageToken.t) : bool :=
  match t with Escape | CodeblockMarker _ => false | _ => true end.

(** [closed l v]: in [l] every escape has its token and every code block is closed; [v]
    is [l] without the escaped tokens and without what is inside the code blocks. *)
Inductive closed : list MessageToken.t → list MessageToken.t → Prop :=
| closed_nil : closed [] []
| closed_plain t l v : plain t = true → closed l v → closed (t :: l) (t :: v)
| closed_escape t l v : closed l v → closed (Escape :: t :: l) (Escape :: v)
| closed_block ty inside l v :
    CodeblockMarker ty ∉ inside → closed l v →
    closed (CodeblockMarker ty :: inside ++ CodeblockMarker ty :: l)
           (CodeblockMarker ty :: CodeblockMarker ty :: v).

(** A message is closed, or ends with an escape of nothing, or with a code block that is
    never closed; everything after such a marker counts as it is. *)
Inductive visible : list MessageToken.t → list MessageToken.t → Prop :=
| visible_closed l v : closed l v → visible l v
| visible_escape l v : closed l v → visible (l ++ [Escape]) (v ++ [Escape])
| visible_open l v ty rest :
    closed l v → CodeblockMarker ty ∉ rest →
    visible (l ++ CodeblockMarker ty :: rest) (v ++ CodeblockMarker ty :: rest).

(** The iterator ends within its measure, with the tokens [out]. *)
Definition yields (self : MessageParserIterator.t) (out : list MessageToken.t) : Prop :=
  ∀ fuel, MessageParserIterator.measure self < fuel →
    MessageParserIterator.run fuel self = Some out.

(** ** Lemmas *)

Import MessageParserIterator.

Lemma yields_step (self self' : MessageParserIterator.t) (t : MessageToken.t) out :
  next self = (Some t, self') → measure self' < measure self →
  yields self' out → yields self (t :: out).
Proof.
  intros Hn Hm Hy [|fuel] Hf; [lia|]. simpl. rewrite Hn, (Hy fuel) by lia. done.
Qed.

Lemma yields_end : yields (mk [] []) [].
Proof. intros [|fuel] Hf; [simpl in Hf; lia|done]. Qed.

Lemma yields_temp (temp : list MessageToken.t) (inner : list MessageToken.t) out :
  yields (mk inner []) out → yields (mk inner temp) (temp ++ out).
Proof.
  intros Hy. induction temp as [|t temp IH]; [done|].
  eapply yields_step; [done| |exact IH]. unfold measure. simpl. lia.
Qed.

Lemma block_closed ty inside l temp :
  CodeblockMarker ty ∉ inside →
  block ty (inside ++ CodeblockMarker ty :: l) temp =
    (Some (CodeblockMarker ty), mk l [CodeblockMarker ty]).
Proof.
  revert temp. induction inside as [|t inside IH]; intros temp Hni; simpl.
  - by rewrite bool_decide_true.
  - apply not_elem_of_cons in Hni as [Ht Hni].
    rewrite bool_decide_false by (intros ->; done). by apply IH.
Qed.

Lemma block_open ty l temp :
  CodeblockMarker ty ∉ l → block ty l temp = (Some (CodeblockMarker ty), mk [] (temp ++ l)).
Proof.
  revert temp. induction l as [|t l IH]; intros temp Hni; simpl.
  - by rewrite app_nil_r.
  - apply not_elem_of_cons in Hni as [Ht Hni].
    rewrite bool_decide_false by (intros ->; done). rewrite IH by done. by rewrite <- app_assoc.
Qed.

Lemma closed_yields l v rest out :
  closed l v → yields (mk rest []) out → yields (mk (l ++ rest) []) (v ++ out).
Proof.
  intros Hc Hy. induction Hc as [|t l v Hp _ IH|t l v _ IH|ty inside l v Hni _ IH]; [done|..]; simpl.
  - eapply yields_step; [|..|exact IH]; [by destruct t|]. unfold measure. simpl. lia.
  - eapply yields_step; [done|..|exact IH]. unfold measure. simpl. lia.
  - rewrite <- app_assoc. simpl. eapply yields_step; [apply block_closed; done|..|].
    2: { apply (yields_temp [CodeblockMarker ty]), IH. }
    unfold measure. simpl. rewrite !length_app. simpl. rewrite length_app. lia.
Qed.

Lemma open_yields ty l :
  CodeblockMarker ty ∉ l → yields (mk (CodeblockMarker ty :: l) []) (CodeblockMarker ty :: l).
Proof.
  intros Hni. eapply yields_step; [apply block_open; done|..].
  - unfold measure. simpl. lia.
  - simpl. rewrite <- (app_nil_r l) at 2. apply yields_temp, yields_end.
Qed.

Lemma visible_yields l v : visible l v → yields (mk l []) v.
Proof.
  intros [l' v' Hc|l' v' Hc|l' v' ty rest Hc Hni].
  - rewrite <- (app_nil_r l'), <- (app_nil_r v'). by apply closed_yields, yields_end.
  - apply closed_yields; [done|]. eapply yields_step; [done|..|apply yields_end].
    unfold measure. simpl. lia.
  - by apply closed_yields, open_yields.
Qed.

Lemma visible_cons (p : list MessageToken.t) (w : list MessageToken.t) l v :
  (∀ l v, closed l v → closed (p ++ l) (w ++ v)) → visible l v → visible (p ++ l) (w ++ v).
Proof.
  intros Hp [l' v' Hc|l' v' Hc|l' v' ty rest Hc Hni]; rewrite ?(assoc_L (++)).
  - apply visible_closed; auto.
  - apply visible_escape; auto.
  - apply visible_open; auto.
Qed.

(** Every message has its visible tokens. *)
Lemma visible_total l : ∃ v, visible l v.
Proof.
  induction l as [l IH] using (induction_ltof1 _ length). unfold ltof in IH.
  destruct l as [|t l]; [exists []; do 2 constructor|]. destruct (plain t) eqn:Hp.
  - destruct (IH l) as [v Hv]; [simpl; lia|]. exists ([t] ++ v).
    apply (visible_cons [t] [t]); [by constructor|done].
  - destruct t as [|ty| | | | | |]; try done.
    + destruct l as [|t l]; [exists ([] ++ [Escape]); apply (visible_escape []); constructor|].
      destruct (IH l) as [v Hv]; [simpl; lia|]. exists ([Escape] ++ v).
      apply (visible_cons [Escape; t]); [by constructor|done].
    + destruct (decide (CodeblockMarker ty ∈ l)) as [Hin|Hni].
      * apply list_elem_of_split_l in Hin as (inside & l' & -> & Hni).
        destruct (IH l') as [v Hv]; [simpl; rewrite length_app; simpl; lia|].
        exists ([CodeblockMarker ty; CodeblockMarker ty] ++ v).
        assert (Hb := visible_cons (CodeblockMarker ty :: inside ++ [CodeblockMarker ty])
                        [CodeblockMarker ty; CodeblockMarker ty] l' v).
        simpl in Hb. rewrite <- app_assoc in Hb. apply Hb; [|done]. intros l0 v0 Hc.
        rewrite <- app_assoc. by constructor.
      * exists ([] ++ CodeblockMarker ty :: l). apply (visible_open []); [constructor|done].
Qed.

Lemma closed_app l v l' v' : closed l v → closed l' v' → closed (l ++ l') (v ++ v').
Proof.
  intros Hc Hc'. induction Hc; simpl; rewrite <- ?app_assoc; simpl; [done|by constructor..].
Qed.

(** ** What a message mentions *)

Definition results_of (tokens : list MessageToken.t) : MessageResults.t :=
  fold_left parse_token tokens MessageResults.default.

Lemma parse_message_visible (lexer : string → list MessageToken.t) text v :
  visible (lexer text) v → parse_message lexer text = Some (results_of v).
Proof.
  intros Hv. unfold parse_message, parse_message_iter. cbv zeta.
  by rewrite (visible_yields _ _ Hv _ (Nat.lt_succ_diag_r _)).
Qed.

(** The two folds differ only in what they started from. *)
Lemma fold_results_elem tokens r :
  let out := fold_left parse_token tokens r in
  (∀ id, id ∈ MessageResults.user_mentions out ↔
     id ∈ MessageResults.user_mentions r ∨ UserMention id ∈ tokens) ∧
  (∀ id, id ∈ MessageResults.role_mentions out ↔
     id ∈ MessageResults.role_mentions r ∨ RoleMention id ∈ tokens) ∧
  (∀ id, id ∈ MessageResults.channel_mentions out ↔
     id ∈ MessageResults.channel_mentions r ∨ ChannelMention id ∈ tokens) ∧
  (∀ id, id ∈ MessageResults.emojis out ↔
     id ∈ MessageResults.emojis r ∨ Emoji id ∈ tokens) ∧
  (MessageResults.mentions_everyone out = true ↔
     MessageResults.mentions_everyone r = true ∨ MentionEveryone ∈ tokens) ∧
  (MessageResults.mentions_online out = true ↔
     MessageResults.mentions_online r = true ∨ MentionOnline ∈ tokens).
Proof.
  revert r. induction tokens as [|t tokens IH]; intros [us rs cs es ev on]; simpl.
  - repeat split; intros; set_solver.
  - destruct (IH (parse_token (MessageResults.mk us rs cs es ev on) t)) as (A&B&C&D&E&F).
    repeat split; intros; rewrite ?A, ?B, ?C, ?D, ?E, ?F in *; destruct t; simpl in *; set_solver.
Qed.

(** Two lists with the same mentions give the same results. *)
Lemma results_of_ext tokens tokens' :
  (∀ t, plain t = true → t ∈ tokens ↔ t ∈ tokens') → results_of tokens = results_of tokens'.
Proof.
  intros Heq. unfold results_of.
  destruct (fold_results_elem tokens MessageResults.default) as (A&B&C&D&E&F).
  destruct (fold_results_elem tokens' MessageResults.default) as (A'&B'&C'&D'&E'&F').
  destruct (fold_left _ tokens _) as [us rs cs es ev on].
  destruct (fold_left _ tokens' _) as [us' rs' cs' es' ev' on']. simpl in *.
  f_equal.
  - apply set_eq. intros id. rewrite A, A', Heq by done. done.
  - apply set_eq. intros id. rewrite B, B', Heq by done. done.
  - apply set_eq. intros id. rewrite C, C', Heq by done. done.
  - apply set_eq. intros id. rewrite D, D', Heq by done. done.
  - apply eq_true_iff_eq. rewrite E, E', Heq by done. done.
  - apply eq_true_iff_eq. rewrite F, F', Heq by done. done.
Qed.

(** ** Properties *)


(** A closed code block mentions nobody: behind a part of the message in which
    everything is closed, a code block with whatever is inside can be taken out without
    changing the results. *)
Theorem code_block_mentions_nobody (lexer : string → list MessageToken.t)
    (text text' : string) (before shown inside after : list MessageToken.t) (ty : nat) :
  closed before shown → CodeblockMarker ty ∉ inside →
  lexer text = before ++ CodeblockMarker ty :: inside ++ CodeblockMarker ty :: after →
  lexer text' = before ++ after →
  parse_message lexer text = parse_message lexer text'.
Proof.
  intros Hc Hni Ht Ht'. destruct (visible_total after) as [v Hv].
  rewrite (parse_message_visible _ text'  (shown ++ v)).
  2: { rewrite Ht'. apply visible_cons; [|done]. intros. by apply closed_app. }
  rewrite (parse_message_visible _ text
             ((shown ++ [CodeblockMarker ty; CodeblockMarker ty]) ++ v)).
  - f_equal. apply results_of_ext. intros [] Hp; set_solver.
  - rewrite Ht.
    replace (before ++ _) with
      ((before ++ CodeblockMarker ty :: inside ++ [CodeblockMarker ty]) ++ after)
      by (by rewrite <- !app_assoc; simpl; rewrite <- app_assoc).
    apply visible_cons; [|done]. intros. rewrite <- !app_assoc. apply closed_app; [done|].
    simpl. rewrite <- app_assoc. by constructor.
Qed.

(** A marker that is never closed switches the hiding off for the rest of the
    message: every mention after it counts, even one that is escaped or inside a code
    block of another kind. *)
Theorem open_marker_reveals (lexer : string → list MessageToken.t) (text : string)
    (before shown after : list MessageToken.t) (ty : nat) :
  closed before shown → CodeblockMarker ty ∉ after →
  lexer text = before ++ CodeblockMarker ty :: after →
  ∃ results, parse_message lexer text = Some results ∧
    (∀ id, UserMention id ∈ after → id ∈ MessageResults.user_mentions results) ∧
    (∀ id, RoleMention id ∈ after → id ∈ MessageResults.role_mentions results) ∧
    (MentionEveryone ∈ after → MessageResults.mentions_everyone results = true) ∧
    (MentionOnline ∈ after → MessageResults.mentions_online results = true).
Proof.
  intros Hc Hni Ht. exists (results_of (shown ++ CodeblockMarker ty :: after)).
  split. { apply parse_message_visible. rewrite Ht. by constructor 3. }
  unfold results_of.
  destruct (fold_results_elem (shown ++ CodeblockMarker ty :: after) MessageResults.default)
    as (A&B&C&D&E&F).
  repeat split; intros; rewrite ?A, ?B, ?E, ?F; set_solver.
Qed.

(** ** Witnesses *)

(** The tokens of three messages: a code block with a mention, the message without the
    block, and an escaped mention and a code block behind an open marker. *)
Definition example_lexer (text : string) : list MessageToken.t :=
  match text with
  | "hi @online `@everyone`!" => [MentionOnline; CodeblockMarker 1; MentionEveryone; CodeblockMarker 1]
  | "hi @online !" => [MentionOnline]
  | "`` \@everyone `@online`" =>
      [CodeblockMarker 2; Escape; MentionEveryone; CodeblockMarker 1; MentionOnline; CodeblockMarker 1]
  | _ => []
  end%string.

Lemma code_block_mentions_nobody_witness :
  parse_message example_lexer "hi @online `@everyone`!" =
  parse_message example_lexer "hi @online !".
Proof.
  apply (code_block_mentions_nobody example_lexer _ _ [MentionOnline] [MentionOnline]
           [MentionEveryone] [] 1).
  - do 2 constructor.
  - apply (bool_decide_unpack _). by vm_compute.
  - reflexivity.
  - reflexivity.
Defined.

Lemma open_marker_reveals_witness :
  ∃ results, parse_message example_lexer "`` \@everyone `@online`" = Some results ∧
    MessageResults.mentions_everyone results = true ∧
    MessageResults.mentions_online results = true.
Proof.
  destruct (open_marker_reveals example_lexer "`` \@everyone `@online`" [] []
    [Escape; MentionEveryone; CodeblockMarker 1; MentionOnline; CodeblockMarker 1] 2)
    as (results & Hr & _ & _ & He & Ho).
  - constructor.
  - apply (bool_decide_unpack _). by vm_compute.
  - reflexivity.
  - exists results. split; [done|]. split; [apply He|apply Ho]; apply (bool_decide_unpack _); by vm_compute.
Defined.

Lemma code_block_example :
  parse_message example_lexer "hi @online `@everyone`!" =
  Some (MessageResults.mk ∅ ∅ ∅ ∅ false true).
Proof. reflexivity. Qed.
