(* ===== verification/Ratelimit.v ===== *)
(** * The rate limiter

    [crates/core/ratelimits/src/ratelimiter.rs], the limiter every request to the API
    passes, and [crates/delta/src/util/ratelimits.rs], which gives a request its bucket
    and the bucket its limit. The hash of a key is a parameter (the standard library does
    not specify it), and so is what [SystemTime::now] returns: the [k]-th reading of the
    clock. [u32] arithmetic panics or wraps around on overflow, depending on
    [overflow_checks], the compiler flag (on in debug builds, off in release builds). *)

From S2P Require Import Prelude.
From stdpp Require Import base list gmap strings.
From Stdlib Require Import ZArith Lia.

(** ** Data *)

(** Ratelimit Bucket *)
Module Entry.
Record t : Type := mk { used : Z; reset : Z }.
End Entry.

(** Ratelimit Guard *)
Module Ratelimiter.
Record t : Type := mk { key : Z; limit : Z; remaining : Z; reset : Z }.
End Ratelimiter.

(** The map shared by all requests, and how often the clock was read *)
Module Limiter.
Record t : Type := mk { map : gmap Z Entry.t; tick : nat }.
End Limiter.

(** A computation of the limiter; a rejected request is an error that carries its
    guard. *)
Abbreviation L := (M Ratelimiter.t Limiter.t).

(** ** Operations *)

Section Ratelimit.
(** [SystemTime::now().duration_since(UNIX_EPOCH)] in milliseconds *)
Context (clock : nat → Z).
(** [DefaultHasher]: the hash of the byte strings written to it *)
Context (hash : list string → Z).
Context (overflow_checks : bool).

Definition u32_max : Z := 2 ^ 32 - 1.
(** A result outside of [u32] *)
Definition u32_result (z : Z) : L Z :=
  if ((0 <=? z) && (z <=? u32_max))%Z then mret z
  else if overflow_checks then panic else mret (z mod 2 ^ 32)%Z.

(** Get the current time from Unix Epoch as a Duration *)
Definition now : L Z := λ s,
  let t := clock (Limiter.tick s) in
  (if (t <? 0)%Z then Panicked else Ok t, Limiter.mk (Limiter.map s) (S (Limiter.tick s))).

(** Find bucket by its key *)
Definition entry_from (key : Z) : L Entry.t :=
  map ← gets Limiter.map;
  match map !! key with
  | Some x => mret x
  | None => t ← now; mret (Entry.mk 0 (t + 10000))
  end.

(** Deduct one unit from the bucket *)
Definition deduct (self : Entry.t) : L Entry.t :=
  current_time ← now;
  if (current_time >? Entry.reset self)%Z
  then t ← now; mret (Entry.mk 1 (t + 10000))
  else used ← u32_result (Entry.used self + 1); mret (Entry.mk used (Entry.reset self)).

(** Save information *)
Definition save (self : Entry.t) (key : Z) : L unit :=
  modify (λ s, Limiter.mk (<[key := self]> (Limiter.map s)) (Limiter.tick s)).

(** Get remaining units in the bucket *)
Definition get_remaining (self : Entry.t) (limit : Z) : L Z :=
  t ← now;
  if (t >? Entry.reset self)%Z then mret limit else u32_result (limit - Entry.used self).

(** Get how long bucket has until reset *)
Definition left_until_reset (self : Entry.t) : L Z :=
  current_time ← now; mret (Z.max 0 (Entry.reset self - current_time)).

(** The key of a request *)
Definition request_key (identifier bucket : string) (resource : option string) : Z :=
  hash ([identifier; bucket] ++ match resource with Some id => [id] | None => [] end).

(** [Ratelimiter::from] after it has read the entry of the bucket *)
Definition admit_entry (key limit : Z) (entry : Entry.t) : L Ratelimiter.t :=
  remaining ← get_remaining entry limit;
  reset ← left_until_reset entry;
  if (remaining =? 0)%Z then throw (Ratelimiter.mk key limit remaining reset) else
  entry ← deduct entry;
  save entry key ;;
  remaining ← u32_result (remaining - 1);
  reset ← left_until_reset entry;
  mret (Ratelimiter.mk key limit remaining reset).

(** Generate guard from identifier and target bucket *)
Definition from (identifier : string) (limit : Z) (bucket : string * option string) :
    L Ratelimiter.t :=
  let key := request_key identifier bucket.1 bucket.2 in
  entry ← entry_from key;
  admit_entry key limit entry.

(** A number of requests of one bucket, one after another: their answers *)
Fixpoint requests (n : nat) (identifier : string) (limit : Z)
    (bucket : string * option string) (s : Limiter.t) :
    list (Outcome Ratelimiter.t Ratelimiter.t) * Limiter.t :=
  match n with
  | O => ([], s)
  | S n =>
      let '(r, s) := from identifier limit bucket s in
      let '(rs, s) := requests n identifier limit bucket s in
      (r :: rs, s)
  end.

(** Two requests of one bucket that run at the same time: both have read the entry
    before one of them saves it. *)
Definition concurrently (identifier : string) (limit : Z) (bucket : string * option string)
    (s : Limiter.t) :
    Outcome Ratelimiter.t Ratelimiter.t * Outcome Ratelimiter.t Ratelimiter.t * Limiter.t :=
  let key := request_key identifier bucket.1 bucket.2 in
  match entry_from key s with
  | (Ok entry1, s) =>
      match entry_from key s with
      | (Ok entry2, s) =>
          let '(r1, s) := admit_entry key limit entry1 s in
          let '(r2, s) := admit_entry key limit entry2 s in
          (r1, r2, s)
      | (_, s) => (Panicked, Panicked, s)
      end
  | (_, s) => (Panicked, Panicked, s)
  end.
End Ratelimit.

(** ** Buckets of the API *)

Module Method.
Inductive t : Type := Get | Put | Post | Delete | Patch | Other.
#[global] Instance t_eq_dec : EqDecision t.
Proof. solve_decision. Defined.
End Method.

Module DeltaRatelimits.
(** [segments] are the routed segments of the request's path. *)
Definition resolve_bucket (segments : list string) (method : Method.t) :
    string * option string :=
  let '(segment, resource, extra) :=
    if bool_decide (segments !! 0 = Some "0.8"%string)
    then (segments !! 1, segments !! 2, segments !! 3)
    else (segments !! 0, segments !! 1, segments !! 2) in
  match segment with
  | None => ("any", None)
  | Some segment =>
      if (segment =? "users")%string then
        match method with
        | Method.Patch => ("user_edit", resource)
        | _ => if bool_decide (extra = Some "default_avatar"%string)
               then ("default_avatar", None) else ("users", None)
        end
      else if (segment =? "bots")%string then ("bots", None)
      else if (segment =? "channels")%string then
        match resource with
        | Some id =>
            if bool_decide (method = Method.Post) && bool_decide (extra = Some "messages"%string)
            then ("messaging", Some id) else ("channels", Some id)
        | None => ("any", None)
        end
      else if (segment =? "servers")%string then
        match resource with Some id => ("servers", Some id) | None => ("any", None) end
      else if (segment =? "auth")%string then
        if bool_decide (method = Method.Delete) then ("auth_delete", None) else ("auth", None)
      else if (segment =? "swagger")%string then ("swagger", None)
      else if (segment =? "safety")%string then
        if bool_decide (resource = Some "report"%string) then ("safety_report", Some "report")
        else ("safety", None)
      else ("any", None)
  end%string.

Definition resolve_bucket_limit (bucket : string) : Z :=
  if (bucket =? "user_edit")%string then 2
  else if (bucket =? "users")%string then 20
  else if (bucket =? "bots")%string then 10
  else if (bucket =? "messaging")%string then 10
  else if (bucket =? "channels")%string then 15
  else if (bucket =? "servers")%string then 5
  else if (bucket =? "auth")%string then 15
  else if (bucket =? "auth_delete")%string then 255
  else if (bucket =? "default_avatar")%string then 255
  else if (bucket =? "swagger")%string then 100
  else if (bucket =? "safety")%string then 15
  else if (bucket =? "safety_report")%string then 3
  else 20.
End DeltaRatelimits.

(** ** Lemmas *)

Section Lemmas.
Context (clock : nat → Z) (hash : list string → Z) (overflow_checks : bool).

(** The next [n] readings of the clock are after the epoch and not after [t]. *)
Definition until (s : Limiter.t) (n : nat) (t : Z) : Prop :=
  ∀ k, (Limiter.tick s ≤ k < Limiter.tick s + n)%nat → (0 ≤ clock k ≤ t)%Z.

Lemma until_le s n n' t t' : until s n t → (n' ≤ n)%nat → (t ≤ t')%Z → until s n' t'.
Proof. intros Hu Hn Ht k Hk. specialize (Hu k ltac:(lia)). lia. Qed.

Lemma until_later map tick n t d map' :
  until (Limiter.mk map tick) (d + n) t → until (Limiter.mk map' (d + tick)) n t.
Proof. intros Hu k Hk. apply Hu. simpl in *. lia. Qed.

Lemma now_reads s :
  (0 ≤ clock (Limiter.tick s))%Z →
  now clock s = (Ok (clock (Limiter.tick s)),
                 Limiter.mk (Limiter.map s) (S (Limiter.tick s))).
Proof. intros Hc. unfold now. by rewrite (proj2 (Z.ltb_ge _ _) Hc). Qed.

Lemma u32_result_in z s :
  (0 ≤ z ≤ u32_max)%Z → u32_result overflow_checks z s = (Ok z, s).
Proof.
  intros [H0 H1]. unfold u32_result.
  by rewrite (proj2 (Z.leb_le _ _) H0), (proj2 (Z.leb_le _ _) H1).
Qed.

Lemma entry_from_fresh key s :
  Limiter.map s !! key = None → (0 ≤ clock (Limiter.tick s))%Z →
  entry_from clock key s =
    (Ok (Entry.mk 0 (clock (Limiter.tick s) + 10000)),
     Limiter.mk (Limiter.map s) (S (Limiter.tick s))).
Proof.
  intros Hk Hc. unfold entry_from. rewrite M_bind_unfold. simpl. rewrite Hk.
  rewrite M_bind_unfold, now_reads by done. done.
Qed.

Lemma entry_from_stored key s e :
  Limiter.map s !! key = Some e → entry_from clock key s = (Ok e, s).
Proof. intros Hk. unfold entry_from. rewrite M_bind_unfold. simpl. by rewrite Hk. Qed.

(** A bucket whose window is still open *)
Lemma admit_open key limit u R s :
  (0 ≤ u < limit)%Z → (limit ≤ u32_max)%Z → until s 4 R →
  ∃ reset, admit_entry clock overflow_checks key limit (Entry.mk u R) s =
    (Ok (Ratelimiter.mk key limit (limit - u - 1) reset),
     Limiter.mk (<[key := Entry.mk (u + 1) R]> (Limiter.map s)) (4 + Limiter.tick s)).
Proof.
  intros Hu Hl Hc. destruct s as [map tick]. unfold until in Hc. simpl in Hc.
  pose proof (Hc tick ltac:(lia)) as H0. pose proof (Hc (S tick) ltac:(lia)) as H1.
  pose proof (Hc (S (S tick)) ltac:(lia)) as H2.
  pose proof (Hc (S (S (S tick))) ltac:(lia)) as H3.
  eexists. unfold admit_entry, get_remaining, left_until_reset, deduct.
  rewrite !M_bind_unfold, now_reads by (simpl; lia). simpl.
  rewrite (Z.gtb_ltb _ R), (proj2 (Z.ltb_ge R _)) by lia. rewrite u32_result_in by lia.
  rewrite !M_bind_unfold, now_reads by (simpl; lia). simpl.
  rewrite (proj2 (Z.eqb_neq _ _)) by lia.
  rewrite !M_bind_unfold, now_reads by (simpl; lia). simpl.
  rewrite (Z.gtb_ltb _ R), (proj2 (Z.ltb_ge R _)) by lia.
  rewrite M_bind_unfold, u32_result_in by lia. simpl.
  rewrite M_bind_unfold. simpl. rewrite M_bind_unfold, u32_result_in by lia.
  rewrite !M_bind_unfold, now_reads by (simpl; lia). reflexivity.
Qed.

(** A bucket that is used up *)
Lemma admit_full key limit R s :
  (0 ≤ limit ≤ u32_max)%Z → until s 2 R →
  ∃ reset, admit_entry clock overflow_checks key limit (Entry.mk limit R) s =
    (Err (Ratelimiter.mk key limit 0 reset), Limiter.mk (Limiter.map s) (2 + Limiter.tick s)).
Proof.
  intros Hl Hc. destruct s as [map tick]. unfold until in Hc. simpl in Hc.
  pose proof (Hc tick ltac:(lia)) as H0. pose proof (Hc (S tick) ltac:(lia)) as H1.
  eexists. unfold admit_entry, get_remaining, left_until_reset.
  rewrite !M_bind_unfold, now_reads by (simpl; lia). simpl.
  rewrite (Z.gtb_ltb _ R), (proj2 (Z.ltb_ge R _)) by lia.
  rewrite Z.sub_diag, u32_result_in by (unfold u32_max in *; lia).
  rewrite !M_bind_unfold, now_reads by (simpl; lia). reflexivity.
Qed.

(** A bucket whose window is over starts a new one. *)
Lemma admit_expired key limit u R s :
  (0 < limit ≤ u32_max)%Z → (0 ≤ R)%Z →
  (∀ k, (Limiter.tick s ≤ k < Limiter.tick s + 3)%nat → (R < clock k)%Z) →
  (0 ≤ clock (4 + Limiter.tick s))%Z → (0 ≤ clock (3 + Limiter.tick s))%Z →
  ∃ reset, admit_entry clock overflow_checks key limit (Entry.mk u R) s =
    (Ok (Ratelimiter.mk key limit (limit - 1) reset),
     Limiter.mk (<[key := Entry.mk 1 (clock (3 + Limiter.tick s) + 10000)]> (Limiter.map s))
       (5 + Limiter.tick s)).
Proof.
  intros Hl HR Hc H4 H3. destruct s as [map tick]. simpl in Hc, H3, H4.
  pose proof (Hc tick ltac:(lia)) as H0. pose proof (Hc (S tick) ltac:(lia)) as H1.
  pose proof (Hc (S (S tick)) ltac:(lia)) as H2.
  eexists. unfold admit_entry, get_remaining, left_until_reset, deduct.
  rewrite !M_bind_unfold, now_reads by (simpl; lia). simpl.
  rewrite (Z.gtb_ltb _ R), (proj2 (Z.ltb_lt R _)) by lia.
  simpl. rewrite !M_bind_unfold, now_reads by (simpl; lia). simpl.
  rewrite (proj2 (Z.eqb_neq _ _)) by lia.
  rewrite !M_bind_unfold, now_reads by (simpl; lia). simpl.
  rewrite (Z.gtb_ltb _ R), (proj2 (Z.ltb_lt R _)) by lia.
  rewrite !M_bind_unfold, now_reads by (simpl; lia). simpl.
  rewrite M_bind_unfold. simpl. rewrite M_bind_unfold, u32_result_in by lia.
  rewrite !M_bind_unfold, now_reads by (simpl; lia). reflexivity.
Qed.

(** Requests within one window: the [i]-th one since its start is admitted while [i] is
    below the limit. *)
Lemma requests_open n u R identifier limit bucket s :
  let key := request_key hash identifier bucket.1 bucket.2 in
  Limiter.map s !! key = Some (Entry.mk (Z.min (Z.of_nat u) limit) R) →
  (0 ≤ limit ≤ u32_max)%Z → until s (4 * n) R →
  let r := requests clock hash overflow_checks n identifier limit bucket s in
  is_ok <$> r.1 = (λ i, bool_decide (Z.of_nat i < limit)%Z) <$> seq u n ∧
  ∀ k, k ≠ key → Limiter.map r.2 !! k = Limiter.map s !! k.
Proof.
  cbv zeta. revert u s. induction n as [|n IH]; intros u s Hk Hl Hc; [done|].
  cbn [requests]. unfold from. rewrite M_bind_unfold, (entry_from_stored _ _ _ Hk).
  destruct s as [map tick]. set (key := request_key _ _ _ _) in *.
  destruct (Z.lt_ge_cases (Z.of_nat u) limit) as [Hu|Hu].
  - rewrite Z.min_l in Hk |- * by lia.
    destruct (admit_open key limit (Z.of_nat u) R (Limiter.mk map tick)) as [reset ->];
      [lia|lia|eapply until_le; [done|lia..]|].
    simpl Limiter.map. simpl Limiter.tick.
    destruct (IH (S u) (Limiter.mk (<[key := Entry.mk (Z.of_nat u + 1) R]> map) (4 + tick)))
      as [Hr Ho].
    + simpl. rewrite lookup_insert_eq. do 2 f_equal. lia.
    + done.
    + apply (until_later map). eapply until_le; [done|lia..].
    + destruct (requests _ _ _ n _ _ _ _) as [rs s']. cbn [fst snd seq Limiter.map] in *.
      split.
      * rewrite !fmap_cons, Hr. simpl. f_equal. symmetry. by apply bool_decide_eq_true.
      * intros k Hne. rewrite Ho by done. by rewrite lookup_insert_ne.
  - rewrite Z.min_r in Hk |- * by lia.
    destruct (admit_full key limit R (Limiter.mk map tick)) as [reset ->];
      [lia|eapply until_le; [done|lia..]|].
    simpl Limiter.map. simpl Limiter.tick.
    destruct (IH (S u) (Limiter.mk map (2 + tick))) as [Hr Ho].
    + simpl in Hk |- *. rewrite Hk. do 2 f_equal. lia.
    + done.
    + apply (until_later map). eapply until_le; [done|lia..].
    + destruct (requests _ _ _ n _ _ _ _) as [rs s']. cbn [fst snd seq Limiter.map] in *.
      split; [|done]. rewrite !fmap_cons, Hr. simpl. f_equal. symmetry. apply bool_decide_eq_false. lia.
Qed.

(** The first request of a window is admitted and starts the window. *)
Lemma from_starts_window identifier limit bucket s :
  let key := request_key hash identifier bucket.1 bucket.2 in
  match Limiter.map s !! key with
  | Some e => (0 ≤ Entry.reset e < clock (Limiter.tick s))%Z
  | None => True
  end →
  (0 < limit ≤ u32_max)%Z → (0 ≤ clock (Limiter.tick s))%Z →
  (∀ k, (Limiter.tick s ≤ k < Limiter.tick s + 5)%nat →
     (clock (Limiter.tick s) ≤ clock k ≤ clock (Limiter.tick s) + 10000)%Z) →
  ∃ reset R, (clock (Limiter.tick s) + 10000 ≤ R)%Z ∧
    from clock hash overflow_checks identifier limit bucket s =
      (Ok (Ratelimiter.mk key limit (limit - 1) reset),
       Limiter.mk (<[key := Entry.mk 1 R]> (Limiter.map s)) (5 + Limiter.tick s)).
Proof.
  cbv zeta. intros He Hl H0 Hc. unfold from. rewrite M_bind_unfold.
  set (key := request_key _ _ _ _) in *. destruct s as [map tick]. simpl in *.
  destruct (map !! key) as [[u R]|] eqn:Hk.
  - rewrite (entry_from_stored _ _ (Entry.mk u R)) by done.
    destruct (admit_expired key limit u R (Limiter.mk map tick))
      as [reset ->]; simpl in *; [done|lia|..].
    + intros k Hk'. specialize (Hc k ltac:(lia)). lia.
    + specialize (Hc (S (S (S (S tick)))) ltac:(lia)). lia.
    + specialize (Hc (S (S (S tick))) ltac:(lia)). lia.
    + exists reset, (clock (S (S (S tick))) + 10000)%Z. split; [|done].
      specialize (Hc (S (S (S tick))) ltac:(lia)). lia.
  - rewrite entry_from_fresh by done. simpl.
    destruct (admit_open key limit 0 (clock tick + 10000)
                (Limiter.mk map (S tick))) as [reset ->]; [lia|lia| |].
    + intros k Hk'. simpl in Hk'. specialize (Hc k ltac:(lia)). lia.
    + exists reset, (clock tick + 10000)%Z. rewrite Z.sub_0_r. done.
Qed.
End Lemmas.

(** ** Properties *)

Section Properties.
Context (clock : nat → Z) (hash : list string → Z) (overflow_checks : bool).

(** C18: a bucket admits exactly its limit in a window: of any number of requests of one
    bucket, one after another, of which the first finds no entry, or one whose window is over, and
    which are all made within ten seconds, exactly the first [limit] are admitted and all later ones are rejected; the
    other buckets are not touched, and nothing panics or overflows. *)
Theorem window_admits_limit (n : nat) (identifier : string) (limit : Z)
    (bucket : string * option string) (s : Limiter.t) :
  let key := request_key hash identifier bucket.1 bucket.2 in
  match Limiter.map s !! key with
  | Some e => (0 ≤ Entry.reset e < clock (Limiter.tick s))%Z
  | None => True
  end →
  (0 < limit ≤ u32_max)%Z → (0 ≤ clock (Limiter.tick s))%Z →
  (∀ k, (Limiter.tick s ≤ k < Limiter.tick s + (5 + 4 * n))%nat →
     (clock (Limiter.tick s) ≤ clock k ≤ clock (Limiter.tick s) + 10000)%Z) →
  let r := requests clock hash overflow_checks n identifier limit bucket s in
  is_ok <$> r.1 = (λ i, bool_decide (Z.of_nat i < limit)%Z) <$> seq 0 n ∧
  ∀ k, k ≠ key → Limiter.map r.2 !! k = Limiter.map s !! k.
Proof.
  cbv zeta. intros He Hl H0 Hc. destruct n as [|n]; [done|].
  destruct (from_starts_window clock hash overflow_checks identifier limit bucket s)
    as (reset & R & HR & Hf); [done..|intros k Hk; apply Hc; lia|].
  cbn [requests]. rewrite Hf. destruct s as [map tick]. simpl in HR, H0, Hc |- *.
  set (key := request_key _ _ _ _) in *.
  destruct (requests_open clock hash overflow_checks n 1 R identifier limit bucket
    (Limiter.mk (<[key := Entry.mk 1 R]> map) (5 + tick))) as [Hr Ho].
  - cbn [Limiter.map]. fold key. by rewrite lookup_insert_eq, Z.min_l by lia.
  - lia.
  - intros k Hk. simpl in Hk. specialize (Hc k ltac:(lia)). lia.
  - cbn [fst snd Limiter.map] in Hr, Ho. destruct (requests _ _ _ n _ _ _ _) as [rs s'].
    cbn [fst snd seq] in *. split.
    + rewrite !fmap_cons, Hr. simpl. f_equal. symmetry. apply bool_decide_eq_true. lia.
    + intros k Hne. rewrite Ho by done. by rewrite lookup_insert_ne.
Qed.

(** The limit does not hold for requests at the same time: when one unit of the
    bucket is left, two requests that both read the entry before one of them saves it
    are both admitted, and only one of them is counted. *)
Theorem concurrent_requests_exceed (identifier : string) (limit : Z)
    (bucket : string * option string) (s : Limiter.t) (R : Z) :
  let key := request_key hash identifier bucket.1 bucket.2 in
  Limiter.map s !! key = Some (Entry.mk (limit - 1) R) →
  (0 < limit ≤ u32_max)%Z → until clock s 8 R →
  let '(r1, r2, s') := concurrently clock hash overflow_checks identifier limit bucket s in
  is_ok r1 = true ∧ is_ok r2 = true ∧ Limiter.map s' !! key = Some (Entry.mk limit R).
Proof.
  cbv zeta. intros Hk Hl Hc. unfold concurrently. rewrite !(entry_from_stored _ _ _ _ Hk).
  set (key := request_key _ _ _ _) in *. destruct s as [map tick].
  destruct (admit_open clock overflow_checks key limit (limit - 1) R (Limiter.mk map tick))
    as [reset ->]; [lia|lia|eapply until_le; [done|lia..]|].
  simpl Limiter.map. simpl Limiter.tick. rewrite Z.sub_add.
  destruct (admit_open clock overflow_checks key limit (limit - 1) R
    (Limiter.mk (<[key := Entry.mk limit R]> map) (4 + tick))) as [reset' ->]; [lia|lia| |].
  { apply (until_later clock map). eapply until_le; [done|lia..]. }
  simpl. rewrite Z.sub_add. by rewrite lookup_insert_eq.
Qed.
End Properties.

(** The bucket and the resource of a request, as they are written to the hash *)
Definition bucket_bytes (b : string * option string) : string :=
  b.1 +:+ match b.2 with Some r => r | None => "" end.

(** The buckets [resolve_bucket] can answer: with a resource of the path, or without one *)
Lemma resolve_bucket_cases segments method :
  let b := DeltaRatelimits.resolve_bucket segments method in
  (b.1 ∈ ["user_edit"; "messaging"; "channels"; "servers"; "safety_report"] ∨
   (b.2 = None ∧ b.1 ∈ ["any"; "default_avatar"; "users"; "bots"; "auth_delete"; "auth";
                        "swagger"; "safety"]))%string.
Proof.
  unfold DeltaRatelimits.resolve_bucket.
  repeat first [ case_match; simpl | set_solver ].
Qed.

(** Writing the bucket and the resource to the hash without a separator confuses no
    two buckets of the API: requests whose bytes are the same are in the same bucket, so
    they have the same limit. *)
Theorem bucket_bytes_unambiguous (segments segments' : list string) (method method' : Method.t) :
  let b := DeltaRatelimits.resolve_bucket segments method in
  let b' := DeltaRatelimits.resolve_bucket segments' method' in
  bucket_bytes b = bucket_bytes b' →
  b.1 = b'.1 ∧
  DeltaRatelimits.resolve_bucket_limit b.1 = DeltaRatelimits.resolve_bucket_limit b'.1.
Proof.
  cbv zeta. intros Hb. assert (Heq : (DeltaRatelimits.resolve_bucket segments method).1 =
    (DeltaRatelimits.resolve_bucket segments' method').1); [|by rewrite Heq].
  destruct (resolve_bucket_cases segments method) as [H1|[HN H1]];
    destruct (resolve_bucket_cases segments' method') as [H2|[HN' H2]];
    destruct (DeltaRatelimits.resolve_bucket segments method) as [b r];
    destruct (DeltaRatelimits.resolve_bucket segments' method') as [b' r']; simpl in *; subst;
    unfold bucket_bytes in Hb; simpl in Hb;
    repeat (apply elem_of_cons in H1 as [->|H1]); try (by apply not_elem_of_nil in H1);
    repeat (apply elem_of_cons in H2 as [->|H2]); try (by apply not_elem_of_nil in H2);
    done.
Qed.

(** ** Witnesses *)

(** A clock that reads the time every 100 milliseconds, and the length as a hash *)
Definition example_clock (k : nat) : Z := 1000 + 100 * Z.of_nat k.
Definition example_hash (l : list string) : Z := Z.of_nat (length l).

Lemma window_admits_limit_witness :
  is_ok <$> (requests example_clock example_hash false 4 "ip" 2 ("auth", None)%string
               (Limiter.mk ∅ 0)).1 = [true; true; false; false].
Proof.
  apply (window_admits_limit example_clock example_hash false 4 "ip" 2
    ("auth", None)%string (Limiter.mk ∅ 0)).
  - exact I.
  - unfold u32_max. lia.
  - unfold example_clock. simpl. lia.
  - intros k Hk. unfold example_clock. simpl in *. lia.
Defined.

Lemma concurrent_requests_exceed_witness :
  let s := Limiter.mk {[2%Z := Entry.mk 9 5000]} 0 in
  let '(r1, r2, s') :=
    concurrently example_clock example_hash false "session" 10 ("auth", None)%string s in
  is_ok r1 = true ∧ is_ok r2 = true ∧ Limiter.map s' !! 2%Z = Some (Entry.mk 10 5000).
Proof.
  apply (concurrent_requests_exceed example_clock example_hash false "session" 10
    ("auth", None)%string (Limiter.mk {[2%Z := Entry.mk 9 5000]} 0) 5000).
  - reflexivity.
  - unfold u32_max. lia.
  - intros k Hk. unfold example_clock. simpl in Hk. lia.
Defined.

Lemma bucket_bytes_unambiguous_witness :
  (DeltaRatelimits.resolve_bucket ["channels"; "C"; "messages"]%string Method.Post).1 =
  (DeltaRatelimits.resolve_bucket ["0.8"; "channels"; "C"; "messages"]%string Method.Post).1.
Proof.
  apply (bucket_bytes_unambiguous ["channels"; "C"; "messages"]%string
    ["0.8"; "channels"; "C"; "messages"]%string Method.Post Method.Post).
  vm_compute. reflexivity.
Defined.
