(* ===== verification/Tasks.v ===== *)
(** * Background tasks

    [tasks/mod.rs], [tasks/ack.rs] and [tasks/last_message_id.rs]: the delayed tasks, what
    the workers do with the queues that the handlers fill, and one round of a worker's
    loop (find the due tasks, commit them, take the queue over). A worker sleeps between
    rounds; the clock does not advance within a round. *)

From stdpp Require Import base list gmap strings.
From Stdlib Require Import ZArith Lia.
From S2P Require Import Prelude Errors Permissions PermissionSpec Files Users Servers Channels.
From S2P Require Import PermissionQuery Messages Unreads Config Emojis World Database MessageOps.
From S2P Require Import ChannelOps.

(** Commit to database every 30 seconds if the task is particularly active. *)
Definition EXPIRE_CONSTANT : Z := 30.
(** Otherwise, commit to database after 5 seconds. *)
Definition SAVE_CONSTANT : Z := 5.

(** Task with additional information on when it should run; [Instant]s are in
    nanoseconds *)
Module DelayedTask.
Record t (A : Type) : Type := mk {
  data : A;
  run_now : bool;
  last_updated : Z;
  first_seen : Z
}.
Arguments mk {A}.
Arguments data {A}.
Arguments run_now {A}.
Arguments last_updated {A}.
Arguments first_seen {A}.

(** Create a new delayed task *)
Definition new {A} (now : Z) (data : A) : t A := mk data false now now.
(** Push a task further back in time *)
Definition delay {A} (now : Z) (self : t A) : t A :=
  mk (data self) (run_now self) now (first_seen self).
(** Flag the task to run right away, regardless of the time *)
Definition run_immediately {A} (self : t A) : t A :=
  mk (data self) true (last_updated self) (first_seen self).
Definition set_data {A} (self : t A) (x : A) : t A :=
  mk x (run_now self) (last_updated self) (first_seen self).

(** [instant.elapsed().as_secs()] *)
Definition elapsed_secs (now instant : Z) : Z := Z.max 0 (now - instant) / 10 ^ 9.

(** Check if a task should run yet *)
Definition should_run {A} (now : Z) (self : t A) : bool :=
  run_now self || (elapsed_secs now (first_seen self) >? EXPIRE_CONSTANT)%Z ||
  (elapsed_secs now (last_updated self) >? SAVE_CONSTANT)%Z.
End DelayedTask.

(** The keys of the tasks to run now *)
Definition due_keys `{HashIter, Countable K} {A} (now : Z) (tasks : gmap K (DelayedTask.t A)) :
    list K :=
  fst <$> List.filter (λ kt, DelayedTask.should_run now kt.2) (hash_iter tasks).

(** ** Acknowledgements and mentions *)

Module AckWorker.
Abbreviation Key := (option string * string * Z)%type.
Abbreviation Tasks := (gmap Key (DelayedTask.t Ack.AckEvent.t)).

Section Worker.
Context `{Environment, HashIter}.

Definition recipients (m : Ack.pending) : list string := m.1.2.
Definition message (m : Ack.pending) : Message.t := m.1.1.2.

(** The ids of the messages that notify a user *)
Definition message_ids (messages : list Ack.pending) (user : string) : list string :=
  Message.id ∘ message <$>
    List.filter (λ m, bool_decide (user ∈ recipients m)) messages.

(** Whether a message is pushed, and as what *)
Definition pushed (m : Ack.pending) : option PushNotification.t :=
  let '(push, message, recipients, silenced) := m in
  if silenced || bool_decide (push = None) ||
     (bool_decide (recipients = []) && negb (Message.contains_mass_push_mention message))
  then None else push.

Definition handle_ack_message (user : option string) (channel id : string) : H unit :=
  user ← lift (unwrap user);
  unread ← on_unreads (UnreadsTable.fetch_unread user channel);
  updated ← on_unreads (UnreadsTable.acknowledge_message channel user id);
  match unread, updated with
  | Some before, Some after =>
      let before_mentions := length (default [] (ChannelUnread.mentions before)) in
      let after_mentions := length (default [] (ChannelUnread.mentions after)) in
      if bool_decide (before_mentions < after_mentions)%nat then panic else
      if bool_decide (0 < before_mentions - after_mentions)%nat
      then amqp (Amqp.AckNotificationMessage user channel id) else mret tt
  | _, _ => mret tt
  end.

Definition handle_process_message (channel : string) (messages : list Ack.pending) : H unit :=
  (* the log line names the channel of the first message *)
  if bool_decide (messages = []) then panic else
  let users : gset string := list_to_set (concat (recipients <$> messages)) in
  for_each (hash_set_iter users) (λ user,
    match message_ids messages user with
    | [] => mret tt
    | ids => on_unreads (UnreadsTable.add_mention_to_unread channel user ids)
    end) ;;
  for_each messages (λ m,
    match pushed m with
    | Some push => amqp (Amqp.MessageSent (recipients m) push)
    | None => mret tt
    end) ;;
  let mass_mentions :=
    omap (λ m, if Message.contains_mass_push_mention (message m) then pushed m else None)
      messages in
  match mass_mentions with
  | [] => mret tt
  | push :: _ =>
      channel ← attempt (on_channels (ChannelsTable.fetch_channel
                   (Message.channel (PushNotification.message push).1.1)));
      match channel with
      | Some (Channel.TextChannel c) =>
          amqp (Amqp.MassMentionMessageSent (TextChannel.server c) mass_mentions)
      | _ => panic
      end
  end.

Definition handle_ack_event (event : Ack.AckEvent.t) (user : option string) (channel : string) :
    H unit :=
  match event with
  | Ack.AckEvent.AckMessage id => handle_ack_message user channel id
  | Ack.AckEvent.ProcessMessage messages => handle_process_message channel messages
  end.

(** Commit due tasks; an error is reported, the task is gone all the same. *)
Fixpoint commit (keys : list Key) (tasks : Tasks) : H Tasks :=
  match keys with
  | [] => mret tasks
  | key :: keys =>
      match tasks !! key with
      | Some task =>
          attempt (handle_ack_event (DelayedTask.data task) key.1.1 key.1.2) ;;
          commit keys (delete key tasks)
      | None => commit keys tasks
      end
  end.

Definition task_key (d : Ack.Data.t) : Key :=
  (Ack.Data.user d, Ack.Data.channel d,
   match Ack.Data.event d with
   | Ack.AckEvent.AckMessage _ => 0
   | Ack.AckEvent.ProcessMessage _ => 1
   end%Z).

(** A task that is already there takes the event over. *)
Definition merge (now : Z) (task : DelayedTask.t Ack.AckEvent.t) (event : Ack.AckEvent.t) :
    Result (DelayedTask.t Ack.AckEvent.t) :=
  match event with
  | Ack.AckEvent.AckMessage _ => Ok (DelayedTask.delay now (DelayedTask.set_data task event))
  | Ack.AckEvent.ProcessMessage new_data =>
      match DelayedTask.data task with
      | Ack.AckEvent.AckMessage _ => Panicked
      | Ack.AckEvent.ProcessMessage existing =>
          match last new_data with
          | None => Ok task
          | Some new_event =>
              let existing := existing ++ [new_event] in
              let task := DelayedTask.set_data task (Ack.AckEvent.ProcessMessage existing) in
              if Message.contains_mass_push_mention (message new_event)
              then Ok (DelayedTask.run_immediately task)
              else if (Z.of_nat (length existing) mod 2 ^ 16 <?
                         Settings.process_message_delay_limit config)%Z
              then Ok (DelayedTask.delay now task) else Ok task
          end
      end
  end.

Definition enqueue (now : Z) (tasks : Tasks) (d : Ack.Data.t) : Result Tasks :=
  let key := task_key d in
  match tasks !! key with
  | Some task => task ← merge now task (Ack.Data.event d); Ok (<[key := task]> tasks)
  | None => Ok (<[key := DelayedTask.new now (Ack.Data.event d)]> tasks)
  end.

(** [while let Some(data) = Q.try_pop()], on the queue's content [q] *)
Fixpoint drain (q : list Ack.Data.t) (tasks : Tasks) : H Tasks :=
  match q with
  | [] => mret tasks
  | d :: q =>
      modify (λ w, World.set_acks w q) ;;
      now ← clock;
      tasks ← lift (enqueue now tasks d);
      drain q tasks
  end.

(** One round of the loop of [worker] *)
Definition round (tasks : Tasks) : H Tasks :=
  now ← clock;
  tasks ← commit (due_keys now tasks) tasks;
  q ← gets World.acks;
  drain q tasks.
End Worker.
End AckWorker.

(** ** The last message of a channel *)

Module LastMessageIdWorker.
Module Task.
Record t : Type := mk { id : string; is_dm : bool }.
End Task.

Abbreviation Tasks := (gmap string (DelayedTask.t Task.t)).

Section Worker.
Context `{HashIter}.

Definition task_partial (task : Task.t) : PartialChannel.t :=
  let p := PartialChannel.default in
  PartialChannel.mk (PartialChannel.name p) (PartialChannel.owner p)
    (PartialChannel.description p) (PartialChannel.icon p) (PartialChannel.nsfw p)
    (if Task.is_dm task then Some true else None) (PartialChannel.permissions p)
    (PartialChannel.role_permissions p) (PartialChannel.default_permissions p)
    (Some (Task.id task)) (PartialChannel.voice p) (PartialChannel.slowmode p).

Fixpoint commit (keys : list string) (tasks : Tasks) : H Tasks :=
  match keys with
  | [] => mret tasks
  | key :: keys =>
      match tasks !! key with
      | Some task =>
          attempt (on_channels (ChannelsTable.update_channel key
                     (task_partial (DelayedTask.data task)) [])) ;;
          commit keys (delete key tasks)
      | None => commit keys tasks
      end
  end.

Definition enqueue (now : Z) (tasks : Tasks) (d : LastMessageId.Data.t) : Tasks :=
  let channel := LastMessageId.Data.channel d in
  match tasks !! channel with
  | Some task =>
      <[channel := DelayedTask.delay now (DelayedTask.set_data task
          (Task.mk (LastMessageId.Data.id d) (Task.is_dm (DelayedTask.data task))))]> tasks
  | None =>
      <[channel := DelayedTask.new now
          (Task.mk (LastMessageId.Data.id d) (LastMessageId.Data.is_dm d))]> tasks
  end.

Fixpoint drain (q : list LastMessageId.Data.t) (tasks : Tasks) : H Tasks :=
  match q with
  | [] => mret tasks
  | d :: q =>
      modify (λ w, World.set_last_message_ids w q) ;;
      now ← clock;
      drain q (enqueue now tasks d)
  end.

Definition round (tasks : Tasks) : H Tasks :=
  now ← clock;
  tasks ← commit (due_keys now tasks) tasks;
  q ← gets World.last_message_ids;
  drain q tasks.
End Worker.
End LastMessageIdWorker.

(** ** Lemmas *)

Definition unreads (w : World.t) : UnreadsTable.table := ReferenceDb.channel_unreads (World.db w).
Definition set_unreads (w : World.t) (t : UnreadsTable.table) : World.t :=
  World.set_db w (ReferenceDb.set_channel_unreads (World.db w) t).

(** The same state at another time *)
Definition at_time (w : World.t) (t : Z) : World.t :=
  World.set_now w t.

Lemma on_unreads_run {A} (m : UnreadsTable.T A) w :
  on_unreads m w = ((m (unreads w)).1, set_unreads w (m (unreads w)).2).
Proof. unfold on_unreads, on_table, unreads. by destruct (m _). Qed.

Lemma set_unreads_twice w t t' : set_unreads (set_unreads w t) t' = set_unreads w t'.
Proof. done. Qed.
Lemma set_unreads_same w : set_unreads w (unreads w) = w.
Proof. by destruct w as [[]]. Qed.

Section AckLemmas.
Context `{Environment, HashIter}.
Import AckWorker.

Lemma due_keys_singleton `{Countable K} {A} now (k : K) (task : DelayedTask.t A) :
  DelayedTask.should_run now task = true → due_keys now {[k := task]} = [k].
Proof.
  intros Hs. unfold due_keys.
  assert (hash_iter {[k := task]} = [(k, task)]) as ->.
  { apply Permutation_singleton_r. rewrite hash_iter_perm. by rewrite map_to_list_singleton. }
  simpl. by rewrite Hs.
Qed.

Lemma due_keys_empty `{Countable K} {A} now : due_keys now (∅ : gmap K (DelayedTask.t A)) = [].
Proof.
  unfold due_keys. assert (hash_iter (∅ : gmap K (DelayedTask.t A)) = []) as ->; [|done].
  apply Permutation_nil_r. rewrite hash_iter_perm. by rewrite map_to_list_empty.
Qed.

(** Acknowledging in the database: what the worker writes, and that its subtraction never
    underflows. *)
Lemma handle_ack_message_run user channel id w :
  ∃ w', handle_ack_message (Some user) channel id w = (Ok tt, w') ∧
    unreads w' = (UnreadsTable.acknowledge_message channel user id (unreads w)).2 ∧
    World.acks w' = World.acks w ∧ World.now w' = World.now w.
Proof.
  rewrite (acknowledge_message_spec channel user id (unreads w)). cbn [snd].
  unfold handle_ack_message. rewrite M_bind_unfold. cbn [lift unwrap].
  rewrite M_bind_unfold, on_unreads_run. cbn [UnreadsTable.fetch_unread gets fst snd].
  rewrite set_unreads_same.
  rewrite M_bind_unfold, on_unreads_run, acknowledge_message_spec. simpl.
  set (key := ChannelCompositeKey.mk channel user). set (t := unreads w).
  destruct (t !! key) as [before|] eqn:Hb; [|by eexists]. rewrite bool_decide_false.
  - destruct (bool_decide _); by eexists.
  - unfold acked. destruct (ChannelUnread.last_id before); [destruct (str_le _ _)|]; simpl; lia.
Qed.

Definition acks_of (channel user : string) (ids : list string) : list Ack.Data.t :=
  (λ id, Ack.Data.mk channel (Some user) (Ack.AckEvent.AckMessage id)) <$> ids.

Lemma drain_acks channel user ids id0 w :
  let key : Key := (Some user, channel, 0%Z) in
  let task id := DelayedTask.new (World.now w) (Ack.AckEvent.AckMessage id) in
  World.acks w = acks_of channel user ids →
  drain (acks_of channel user ids) {[key := task id0]} w =
    (Ok {[key := task (default id0 (last ids))]}, World.set_acks w []).
Proof.
  cbv zeta. revert id0 w. induction ids as [|id ids IH]; intros id0 w Hq.
  - cbn. unfold mret, M_ret. f_equal. destruct w. simpl in *. by subst.
  - change (acks_of channel user (id :: ids)) with
      (Ack.Data.mk channel (Some user) (Ack.AckEvent.AckMessage id) :: acks_of channel user ids).
    cbn [drain]. rewrite !M_bind_unfold. simpl. rewrite !M_bind_unfold. simpl.
    unfold enqueue, task_key. simpl. rewrite lookup_singleton_eq. simpl.
    rewrite insert_singleton_eq.
    etrans; [by apply (IH id (World.set_acks w (acks_of channel user ids)))|].
    rewrite last_cons. by destruct (last ids).
Qed.

Lemma drain_first channel user ids id w :
  let key : Key := (Some user, channel, 0%Z) in
  World.acks w = acks_of channel user (ids ++ [id]) →
  drain (acks_of channel user (ids ++ [id])) ∅ w =
    (Ok {[key := DelayedTask.new (World.now w) (Ack.AckEvent.AckMessage id)]},
     World.set_acks w []).
Proof.
  cbv zeta. intros Hq. destruct ids as [|i ids]; [done|].
  change (acks_of channel user ((i :: ids) ++ [id])) with
    (Ack.Data.mk channel (Some user) (Ack.AckEvent.AckMessage i)
       :: acks_of channel user (ids ++ [id])).
  cbn [drain]. rewrite !M_bind_unfold. simpl. rewrite !M_bind_unfold. simpl.
  etrans; [by apply (drain_acks channel user (ids ++ [id]) i
             (World.set_acks w (acks_of channel user (ids ++ [id]))))|].
  by rewrite last_snoc.
Qed.

Lemma should_run_later {A} now t (data : A) :
  (now + 6 * 10 ^ 9 ≤ t)%Z → DelayedTask.should_run t (DelayedTask.new now data) = true.
Proof.
  intros Ht. unfold DelayedTask.should_run, DelayedTask.elapsed_secs. simpl.
  apply orb_true_intro. right. rewrite Z.gtb_ltb. apply Z.ltb_lt. unfold SAVE_CONSTANT.
  rewrite Z.max_r by lia. apply Z.lt_le_trans with 6%Z; [lia|].
  apply Z.div_le_lower_bound; lia.
Qed.

(** The worker keeps only the last acknowledgement: of several acknowledgements of one
    channel that a user queues, the first round takes them over without touching the
    database, and the round that comes at least six seconds later writes exactly the one
    that was queued last, even if an earlier one was of a newer message. *)
Theorem ack_debounce_last_wins (channel user id : string) (ids : list string) (w : World.t)
    (t : Z) :
  World.acks w = acks_of channel user (ids ++ [id]) → (World.now w + 6 * 10 ^ 9 ≤ t)%Z →
  ∃ tasks w1 w2, round ∅ w = (Ok tasks, w1) ∧ World.db w1 = World.db w ∧
    round tasks (at_time w1 t) = (Ok ∅, w2) ∧ World.acks w2 = [] ∧
    unreads w2 = (UnreadsTable.acknowledge_message channel user id (unreads w)).2.
Proof.
  intros Hq Ht. set (key := (Some user, channel, 0%Z)).
  set (task := DelayedTask.new (World.now w) (Ack.AckEvent.AckMessage id)).
  assert (round ∅ w = (Ok {[key := task]}, World.set_acks w [])) as Hfirst.
  { unfold round. rewrite M_bind_unfold. simpl. rewrite M_bind_unfold, due_keys_empty. simpl.
    rewrite M_bind_unfold. simpl. rewrite Hq. by apply drain_first. }
  destruct (handle_ack_message_run user channel id (at_time (World.set_acks w []) t))
    as (w2 & Hh & Hu & Ha & _).
  exists {[key := task]}, (World.set_acks w []), w2. split; [done|]. split; [done|].
  split; [|done]. unfold round. rewrite M_bind_unfold. simpl. rewrite M_bind_unfold.
  rewrite due_keys_singleton by (by apply should_run_later). cbn [commit].
  rewrite lookup_singleton_eq. rewrite M_bind_unfold. unfold attempt at 1.
  change (handle_ack_event _ _ _) with (handle_ack_message (Some user) channel id).
  rewrite Hh. cbn [commit]. rewrite delete_singleton_eq. unfold mret, M_ret.
  rewrite M_bind_unfold. simpl. by rewrite Ha.
Qed.

(** One user's unread after the mentions [ids] *)
Definition with_mentions (key : ChannelCompositeKey.t) (u : option ChannelUnread.t)
    (ids : list string) : ChannelUnread.t :=
  match u with
  | Some u => ChannelUnread.mk (ChannelUnread.id u) (ChannelUnread.last_id u) (Some ids)
  | None => ChannelUnread.mk key None (Some ids)
  end.

Lemma add_mention_run channel user ids t :
  let key := ChannelCompositeKey.mk channel user in
  UnreadsTable.add_mention_to_unread channel user ids t =
    (Ok tt, <[key := with_mentions key (t !! key) ids]> t).
Proof.
  cbv zeta. unfold UnreadsTable.add_mention_to_unread, modify, with_mentions.
  by destruct (t !! _).
Qed.

Lemma mention_users channel messages users w :
  NoDup users →
  ∃ t, for_each users (λ user,
    match message_ids messages user with
    | [] => mret tt
    | ids => on_unreads (UnreadsTable.add_mention_to_unread channel user ids)
    end) w = (Ok tt, set_unreads w t) ∧
  ∀ key, t !! key =
    if bool_decide (ChannelCompositeKey.channel key = channel ∧
                    ChannelCompositeKey.user key ∈ users ∧
                    message_ids messages (ChannelCompositeKey.user key) ≠ [])
    then Some (with_mentions key (unreads w !! key)
                 (message_ids messages (ChannelCompositeKey.user key)))
    else unreads w !! key.
Proof.
  intros Hnd. revert w. induction users as [|user users IH]; intros w.
  - exists (unreads w). rewrite set_unreads_same. split; [done|]. intros key.
    rewrite bool_decide_false by set_solver. done.
  - apply NoDup_cons in Hnd as [Hni Hnd]. cbn [for_each]. rewrite M_bind_unfold.
    set (k := ChannelCompositeKey.mk channel user).
    assert (∃ t, (match message_ids messages user with
      | [] => mret tt
      | ids => on_unreads (UnreadsTable.add_mention_to_unread channel user ids)
      end) w = (Ok tt, set_unreads w t) ∧
      (∀ key, key ≠ k → t !! key = unreads w !! key) ∧
      t !! k = if bool_decide (message_ids messages user ≠ [])
               then Some (with_mentions k (unreads w !! k) (message_ids messages user))
               else unreads w !! k) as (t1 & -> & Hne & Hk).
    { destruct (message_ids messages user) as [|i ids] eqn:Hids.
      - exists (unreads w). by rewrite set_unreads_same.
      - exists (<[k := with_mentions k (unreads w !! k) (i :: ids)]> (unreads w)).
        rewrite on_unreads_run, add_mention_run. split; [done|].
        split; [intros key Hkey; by rewrite lookup_insert_ne|].
        by rewrite lookup_insert_eq, bool_decide_true. }
    destruct (IH Hnd (set_unreads w t1)) as (t & -> & Ht). rewrite set_unreads_twice.
    exists t. split; [done|]. intros key. rewrite Ht. change (unreads (set_unreads w t1)) with t1.
    destruct (decide (key = k)) as [->|Hkey]; subst k; simpl.
    + rewrite bool_decide_false by tauto. rewrite Hk.
      rewrite (bool_decide_ext (channel = channel ∧ _) (message_ids messages user ≠ [])); [done|].
      rewrite elem_of_cons. tauto.
    + rewrite Hne by done. destruct key as [c u]. simpl in *.
      rewrite (bool_decide_ext (c = channel ∧ u ∈ user :: users ∧ _)
                 (c = channel ∧ u ∈ users ∧ message_ids messages u ≠ [])); [done|].
      rewrite elem_of_cons. split; [|tauto]. intros (-> & [->|Hu] & Hm); [done|tauto].
Qed.

Lemma push_messages messages w :
  for_each messages (λ m,
    match pushed m with
    | Some push => amqp (Amqp.MessageSent (recipients m) push)
    | None => mret tt
    end) w =
  (Ok tt, World.set_broker w (World.broker w ++
     omap (λ m, Amqp.MessageSent (recipients m) <$> pushed m) messages)).
Proof.
  revert w. induction messages as [|m messages IH]; intros w; cbn [for_each].
  - unfold mret, M_ret. f_equal. destruct w. simpl. by rewrite app_nil_r.
  - rewrite M_bind_unfold. destruct (pushed m) as [push|] eqn:Hp.
    + unfold amqp at 1, modify at 1. rewrite IH. simpl. rewrite Hp. simpl.
      by rewrite <- app_assoc.
    + unfold mret at 1, M_ret at 1. rewrite IH. simpl. by rewrite Hp.
Qed.

Lemma message_ids_nil messages user :
  message_ids messages user = [] ↔ user ∉ concat (recipients <$> messages).
Proof.
  unfold message_ids. induction messages as [|m messages IH]; simpl.
  - set_solver.
  - rewrite not_elem_of_app, <- IH. case_bool_decide; simpl; naive_solver.
Qed.

Lemma omap_none {A B} (f : A → option B) l : (∀ a, a ∈ l → f a = None) → omap f l = [].
Proof.
  induction l as [|a l IH]; intros Hf; simpl; [done|].
  rewrite Hf by set_solver. apply IH. set_solver.
Qed.

(** What processing messages writes: every user some message of the batch notifies has
    exactly the ids of those messages as mentions of the channel afterwards, in order (the
    mentions from before the batch are gone), with the read position unchanged; everybody
    else's unreads and all other channels' are untouched; and the broker gets exactly the
    messages that are to be pushed. (Messages that mention everybody are pushed to the
    server as well.) *)
Theorem process_message_effect (channel : string) (messages : list Ack.pending) (w : World.t) :
  messages ≠ [] →
  (∀ m, m ∈ messages → Message.contains_mass_push_mention (message m) = false) →
  ∃ w', handle_ack_event (Ack.AckEvent.ProcessMessage messages) None channel w = (Ok tt, w') ∧
    (∀ key, unreads w' !! key =
       if bool_decide (ChannelCompositeKey.channel key = channel ∧
                       message_ids messages (ChannelCompositeKey.user key) ≠ [])
       then Some (with_mentions key (unreads w !! key)
                    (message_ids messages (ChannelCompositeKey.user key)))
       else unreads w !! key) ∧
    World.broker w' =
      World.broker w ++ omap (λ m, Amqp.MessageSent (recipients m) <$> pushed m) messages.
Proof.
  intros Hne Hmass. cbn [handle_ack_event]. unfold handle_process_message.
  rewrite bool_decide_false by done.
  set (users := hash_set_iter _).
  assert (Hu : ∀ u, u ∈ users ↔ message_ids messages u ≠ []).
  { intros u. subst users. rewrite (proj1 (proj2 (hash_set_iter_spec _))), elem_of_list_to_set, message_ids_nil.
    destruct (decide (u ∈ concat (recipients <$> messages))); tauto. }
  destruct (mention_users channel messages users w) as (t & Hf & Ht);
    [apply hash_set_iter_spec|].
  rewrite M_bind_unfold, Hf, M_bind_unfold, push_messages.
  rewrite (omap_none (λ m, if Message.contains_mass_push_mention _ then _ else None))
    by (intros m Hm; by rewrite Hmass).
  eexists. split; [done|]. split; [|done]. intros key.
  change (unreads (World.set_broker _ _)) with t. rewrite Ht.
  rewrite (bool_decide_ext _ (ChannelCompositeKey.channel key = channel ∧
             message_ids messages (ChannelCompositeKey.user key) ≠ [])); [done|].
  rewrite Hu. tauto.
Qed.
End AckLemmas.

Section LastMessageLemmas.
Context `{HashIter}.
Import LastMessageIdWorker.

Lemma lm_drain q tasks w :
  World.last_message_ids w = q →
  ∃ tasks', drain q tasks w = (Ok tasks', World.set_last_message_ids w []).
Proof.
  revert tasks w. induction q as [|d q IH]; intros tasks w Hq.
  - exists tasks. cbn. unfold mret, M_ret. f_equal. destruct w. simpl in *. by subst.
  - cbn [drain]. rewrite !M_bind_unfold. simpl. rewrite M_bind_unfold. simpl.
    destruct (IH (enqueue (World.now w) tasks d) (World.set_last_message_ids w q)) as [t' Ht'];
      [done|]. by exists t'.
Qed.

(** What committing does to a stored channel *)
Definition committed (task : DelayedTask.t Task.t) (c : Channel.t) : Channel.t :=
  Channel.apply_options c (task_partial (DelayedTask.data task)).

Lemma lm_update key task w :
  ∃ r w', attempt (on_channels (ChannelsTable.update_channel key
                     (task_partial (DelayedTask.data task)) [])) w = (Ok r, w') ∧
    channels w' = alter (committed task) key (channels w) ∧
    World.last_message_ids w' = World.last_message_ids w.
Proof.
  unfold attempt, on_channels, on_table, ChannelsTable.update_channel, table_update, channels.
  destruct (ReferenceDb.channels (World.db w) !! key) as [c|] eqn:Hc; do 2 eexists;
    (split; [done|]); (split; [|done]); simpl; apply map_eq; intros k;
    destruct (decide (k = key)) as [->|Hk];
    rewrite ?lookup_insert_eq, ?lookup_alter_eq, ?lookup_insert_ne, ?lookup_alter_ne, ?Hc by done;
    done.
Qed.

Lemma lm_commit keys tasks w :
  NoDup keys → (∀ k, k ∈ keys → is_Some (tasks !! k)) →
  ∃ tasks' w', commit keys tasks w = (Ok tasks', w') ∧
    (∀ id, channels w' !! id =
       (if bool_decide (id ∈ keys)
        then from_option committed (λ c, c) (tasks !! id) else (λ c, c)) <$> channels w !! id) ∧
    World.last_message_ids w' = World.last_message_ids w.
Proof.
  intros Hnd. revert tasks w. induction keys as [|k keys IH]; intros tasks w Hin.
  - exists tasks, w. split; [done|]. split; [|done]. intros id.
    rewrite bool_decide_false by set_solver. by destruct (channels w !! id).
  - apply NoDup_cons in Hnd as [Hni Hnd]. cbn [commit].
    destruct (Hin k) as [task Htask]; [set_solver|]. rewrite Htask, M_bind_unfold.
    destruct (lm_update k task w) as (r & w1 & -> & Hc1 & Hl1).
    destruct (IH Hnd (delete k tasks) w1) as (tasks' & w' & -> & Hc & Hl).
    { intros k' Hk'. rewrite lookup_delete_ne by set_solver. apply Hin. set_solver. }
    exists tasks', w'. split; [done|]. split; [|congruence]. intros id. rewrite Hc, Hc1.
    destruct (decide (id = k)) as [->|Hne].
    + rewrite lookup_alter_eq, bool_decide_false, bool_decide_true, Htask by set_solver.
      simpl. by destruct (channels w !! k).
    + rewrite lookup_alter_ne, lookup_delete_ne by done.
      by rewrite (bool_decide_ext (id ∈ k :: keys) (id ∈ keys)) by set_solver.
Qed.

Lemma elem_of_due_keys `{Countable K} {A} now (tasks : gmap K (DelayedTask.t A)) k :
  k ∈ due_keys now tasks ↔ ∃ task, tasks !! k = Some task ∧ DelayedTask.should_run now task = true.
Proof.
  unfold due_keys. rewrite list_elem_of_fmap. split.
  - intros ([k' task] & -> & Hin). apply list_elem_of_In, filter_In in Hin as [Hin Hs].
    exists task. split; [|done]. by apply elem_of_hash_iter, list_elem_of_In.
  - intros (task & Hk & Hs). exists (k, task). split; [done|].
    apply list_elem_of_In, filter_In. split; [|done]. by apply list_elem_of_In, elem_of_hash_iter.
Qed.

Lemma due_keys_nodup `{Countable K} {A} now (tasks : gmap K (DelayedTask.t A)) :
  NoDup (due_keys now tasks).
Proof.
  unfold due_keys. pose proof (hash_iter_nodup_keys tasks) as Hn. revert Hn.
  generalize (hash_iter tasks) as l. induction l as [|[k t] l IH]; intros Hn; simpl; [done|].
  inversion Hn as [|? ? Hni Hn']; subst. destruct (DelayedTask.should_run now t); simpl; [|auto].
  constructor; [|auto]. intros Hin. apply Hni, list_elem_of_fmap.
  apply list_elem_of_fmap in Hin as (kt & -> & Hin). exists kt. split; [done|].
  apply list_elem_of_In. apply list_elem_of_In, filter_In in Hin. tauto.
Qed.

Definition last_message_id (c : Channel.t) : option string :=
  match c with
  | Channel.SavedMessages _ => None
  | Channel.DirectMessage c => DirectMessage.last_message_id c
  | Channel.Group c => Group.last_message_id c
  | Channel.TextChannel c => TextChannel.last_message_id c
  end.

(** A round of the worker always ends with the queue taken over; a direct message
    channel whose task is due becomes active; but on the reference driver no channel's
    last message id ever changes, which is what the task is there for: the driver's
    [apply_options] leaves it out. *)
Theorem last_message_round (tasks : Tasks) (w : World.t) :
  ∃ tasks' w', round tasks w = (Ok tasks', w') ∧ World.last_message_ids w' = [] ∧
    (∀ id c task, channels w !! id = Some (Channel.DirectMessage c) → tasks !! id = Some task →
       DelayedTask.should_run (World.now w) task = true →
       Task.is_dm (DelayedTask.data task) = true →
       channels w' !! id = Some (Channel.DirectMessage (DirectMessage.mk (DirectMessage.id c)
         true (DirectMessage.recipients c) (DirectMessage.last_message_id c)))) ∧
    (∀ id, last_message_id <$> channels w' !! id = last_message_id <$> channels w !! id).
Proof.
  unfold round. rewrite M_bind_unfold. simpl. rewrite M_bind_unfold.
  destruct (lm_commit (due_keys (World.now w) tasks) tasks w) as (t1 & w1 & -> & Hc & Hl).
  { apply due_keys_nodup. }
  { intros k Hk. apply elem_of_due_keys in Hk as (task & -> & _). by eexists. }
  rewrite M_bind_unfold. simpl. destruct (lm_drain (World.last_message_ids w1) t1 w1) as [t2 ->];
    [done|]. do 2 eexists. split; [done|]. split; [done|].
  change (channels (World.set_last_message_ids w1 [])) with (channels w1). split.
  - intros id c task Hid Ht Hs Hdm. rewrite Hc, Hid, bool_decide_true.
    + rewrite Ht. simpl. unfold committed, task_partial. simpl. by rewrite Hdm.
    + apply elem_of_due_keys. by exists task.
  - intros id. rewrite Hc. destruct (channels w !! id) as [c|]; [|done]. simpl.
    destruct (bool_decide _); [|done]. destruct (tasks !! id); [|done]. by destruct c.
Qed.
End LastMessageLemmas.

(** ** Witnesses *)

Section Witnesses.
#[local] Existing Instance canonical_iter.
#[local] Instance task_environment : Environment := Fixture.environment 10.

(** A user acknowledges the message "B" and, late, the older message "A". *)
Definition ack_world : World.t :=
  World.set_acks World.empty (acks_of "C" "u" ["B"; "A"]%string).

Lemma ack_debounce_last_wins_witness :
  ∃ tasks w1 w2,
    AckWorker.round ∅ ack_world = (Ok tasks, w1) ∧
    World.db w1 = World.db ack_world ∧
    AckWorker.round tasks (at_time w1 (6 * 10 ^ 9)) =
      (Ok ∅, w2) ∧ World.acks w2 = [] ∧
    unreads w2 = (UnreadsTable.acknowledge_message "C" "u" "A" (unreads ack_world)).2.
Proof.
  apply (ack_debounce_last_wins "C" "u" "A" ["B"]%string
    ack_world (6 * 10 ^ 9)); [reflexivity|simpl; lia].
Defined.

(** A message from a direct message channel, to be pushed to its other participant *)
Definition pending_message : Ack.pending :=
  let m := example_message [] in
  (Some (PushNotification.from 0 m None None None
      (Channel.DirectMessage (DirectMessage.mk "C" true ["a"; "u"]%string None))),
   m, ["u"]%string, false).

Lemma process_message_effect_witness :
  ∃ w', AckWorker.handle_ack_event
      (Ack.AckEvent.ProcessMessage [pending_message]) None "C" World.empty = (Ok tt, w') ∧
    length (World.broker w') = 1.
Proof.
  destruct (process_message_effect "C" [pending_message] World.empty)
    as (w' & Hw & _ & Hb).
  - done.
  - intros m Hm. apply list_elem_of_singleton in Hm as ->. reflexivity.
  - exists w'. split; [exact Hw|]. by rewrite Hb.
Defined.
End Witnesses.
