(* ===== verification/References.v ===== *)
(** * What every request goes through

    References to objects ([util/reference.rs]), idempotency keys ([util/idempotency.rs]),
    the reason header of the audit log ([delta/src/util/audit_log_reason.rs]), writing audit
    log entries ([models/audit_logs/model.rs]), the validation of request bodies and a
    permission query that is kept for later questions. The second half is a small logic for
    handlers: which of them only read ([reads]), and what must hold before one writes
    anything ([gated]). *)

From stdpp Require Import base list gmap strings.
From Stdlib Require Import ZArith Lia.
From S2P Require Import Prelude Errors Permissions PermissionSpec Files Users Servers Channels.
From S2P Require Import PermissionQuery Messages Unreads Config Emojis Webhooks Bots AuditLogs.
From S2P Require Import World Database.

(** ** Code that is not in the repository *)

(** The [lru] crate: a cache of at most 1,000 keys. [lru_get] may reorder the keys,
    [lru_put] may evict one when the cache is full. *)
Class Lru := {
  lru_get : string → list string → bool * list string;
  lru_put : string → list string → list string;
  lru_get_hit k c : (lru_get k c).1 = true ↔ k ∈ c;
  lru_get_keeps k c : (lru_get k c).2 ≡ₚ c;
  lru_put_hit k c : k ∈ lru_put k c;
  lru_put_keeps k k' c : (length c < 1000)%nat → k' ∈ c → k' ∈ lru_put k c
}.

(** The [validator] crate: the number of characters of a string, the regular expressions of
    the models, and the text of the errors found in a value. *)
Class Validator := {
  char_count : string → nat;
  (** [regex.is_match(s)] for the named regular expression *)
  is_match : string → string → bool;
  validation_text : ∀ {A : Type}, A → string
}.

(** [#[validate(length(min = .., max = ..))]] on a field that may be absent *)
Definition valid_length `{Validator} (lo hi : nat) (s : string) : bool :=
  bool_decide (lo ≤ char_count s)%nat && bool_decide (char_count s ≤ hi)%nat.
Definition valid_option {A} (valid : A → bool) (o : option A) : bool :=
  match o with Some a => valid a | None => true end.

(** [data.validate().map_err(|error| create_error!(FailedValidation { .. }))?] *)
Definition validate `{Validator} {A} (valid : A → bool) (data : A) : H unit :=
  if valid data then mret tt else throw (ErrorType.FailedValidation (validation_text data)).

(** [match m { Ok(..) => .., Err(e) => .. }]: run [m] and hand its result over *)
Definition outcome {A} (m : H A) : H (Result A) :=
  λ w, match m w with
       | (Panicked, w') => (Panicked, w')
       | (r, w') => (Ok r, w')
       end.

(** ** References *)

Module Reference.
Section Reference.
Context `{Environment}.

(** Fetch ban, bot, emoji, message, member, user, webhook from Ref *)
Definition as_ban (id server : string) : H ServerBan.t := on_bans (BansTable.fetch_ban server id).
Definition as_bot (id : string) : H Bot.t := on_bots (BotsTable.fetch_bot id).
Definition as_emoji (id : string) : H Emoji.t := on_emojis (EmojisTable.fetch_emoji id).
Definition as_message (id : string) : H Message.t := on_messages (MessagesTable.fetch_message id).
Definition as_member (id server : string) : H Member.t :=
  on_members (MembersTable.fetch_member server id).
Definition as_user (id : string) : H User.t := on_users (UsersTable.fetch_user id).
Definition as_webhook (id : string) : H Webhook.t := on_webhooks (WebhooksTable.fetch_webhook id).

(** Fetch channel from Ref *)
Definition as_channel (id : string) : H Channel.t :=
  channel ← on_channels (ChannelsTable.fetch_channel id);
  match Channel.server channel with
  | Some server_id =>
      server ← on_servers (ServersTable.fetch_server server_id);
      if Server.admin_suspended server then throw ErrorType.ServerSuspended else mret channel
  | None => mret channel
  end.

(** Fetch server from Ref *)
Definition as_server (id : string) : H Server.t :=
  server ← on_servers (ServersTable.fetch_server id);
  if Server.admin_suspended server then throw ErrorType.ServerSuspended else mret server.

(** Fetch message from Ref and validate channel *)
Definition as_message_in_channel (id channel : string) : H Message.t :=
  msg ← on_messages (MessagesTable.fetch_message id);
  if negb (bool_decide (Message.channel msg = channel)) then throw ErrorType.NotFound
  else mret msg.

(** Fetch invite from Ref or create invite to server if discoverable *)
Definition as_invite (id : string) : H Invite.t :=
  if bool_decide (is_Some (ulid_timestamp_ms id)) then
    server ← as_server id;
    if negb (Server.discoverable server) then throw ErrorType.NotFound else
    channel ← lift (ok_or (head (Server.channels server)) ErrorType.NotFound);
    mret (Invite.Server id (Server.id server) (Server.owner server) channel)
  else
    invite ← on_invites (InvitesTable.fetch_invite id);
    match invite with
    | Invite.Server _ server _ _ =>
        server ← on_servers (ServersTable.fetch_server server);
        if Server.admin_suspended server then throw ErrorType.ServerSuspended else mret invite
    | Invite.Group _ _ _ => mret invite
    end.
End Reference.
End Reference.

(** ** Idempotency keys *)

Module IdempotencyKey.
Record t : Type := mk { key : string }.

Section Idempotency.
Context `{Environment, Lru}.

(** [TOKEN_CACHE]: look a key up and, if it is new, put it into the cache; says whether
    it was new *)
Definition claim (k : string) : H bool :=
  λ w, let '(hit, cache) := lru_get k (World.nonces w) in
       if hit then (Ok false, World.set_nonces w cache)
       else (Ok true, World.set_nonces w (lru_put k cache)).

Definition consume_nonce (self : t) (v : option string) : H t :=
  match v with
  | Some v =>
      fresh ← claim v;
      if negb fresh then throw ErrorType.DuplicateNonce else mret (mk v)
  | None => mret self
  end.

Definition into_key (self : t) : string := key self.

(** The request guard; [header] is the value of [Idempotency-Key] *)
Definition from_request (header : option string) : H t :=
  match header with
  | Some key =>
      if bool_decide (64 < String.length key)%nat
      then throw (ErrorType.FailedValidation "idempotency key too long") else
      fresh ← claim key;
      if negb fresh then throw ErrorType.DuplicateNonce else mret (mk key)
  | None => id ← ulid; mret (mk id)
  end.
End Idempotency.
End IdempotencyKey.

(** ** The audit log *)

(** The request guard of [AuditLogReason]; [header] is the value of [x-audit-log-reason] *)
Definition audit_log_reason (header : option string) : Result (option string) :=
  if match header with
     | Some reason => bool_decide (512 < String.length reason)%nat
     | None => false
     end
  then Err ErrorType.HeaderTooLarge else Ok header.

(** Generates an [AuditLogEntry] for the current action and inserts it into the database.
    [Ulid::new] carries the clock in milliseconds. In production a spawned task does the
    insertion; it is done here at once, as in the tests. *)
Definition audit `{Environment} (action : AuditLogEntryAction.t) (server : string)
    (reason : option string) (user : string) (target : option string) : H AuditLogEntry.t :=
  id ← ulid;
  now ← clock;
  let expires_at :=
    (now / 10 ^ 6 * 10 ^ 6 + 10 ^ 9 * Settings.audit_logs_expires_after config)%Z in
  if (10 ^ 9 * 2 ^ 63 <=? expires_at)%Z then panic else
  let entry := AuditLogEntry.mk id expires_at server reason user target action in
  on_audit_logs (AuditLogsTable.insert_audit_log_entry entry) ;;
  mret entry.

(** ** A permission query whose caches are used again *)

Section KeptQueries.
Context `{MutualIds, HashIter}.
Abbreviation Query := (DatabasePermissionQuery.t ReferenceDb.t).

(** [DatabasePermissionQuery::new(db, perspective)] *)
Definition perms (perspective : User.t) : H Query :=
  gets (λ w, DatabasePermissionQuery.new (World.db w) perspective (World.now w)).

(** One question to a query: the answer and the query with its caches *)
Definition ask {A} (question : M Empty_set Query A) (query : Query) : H (A * Query) :=
  λ w, let '(r, query) := question query in
       ((λ a, (a, query)) <$> infallible r, w).

(** The channel permissions and the query after calculating them *)
Definition query_channel (perspective : User.t) (channel : Channel.t) :
    H (PermissionValue.t * Query) :=
  query ← perms perspective;
  ask calculate_channel_permissions (DatabasePermissionQuery.with_channel query (Some channel)).

(** The server permissions and the query after calculating them *)
Definition query_server (perspective : User.t) (server : Server.t) :
    H (PermissionValue.t * Query) :=
  query ← perms perspective;
  ask calculate_server_permissions (DatabasePermissionQuery.with_server query (Some server)).

(** [DatabasePermissionQuery::get_member_rank]: the member's rank in the server *)
Definition get_member_rank (query : Query) : Result (option Z) :=
  match DatabasePermissionQuery.member query with
  | Some member =>
      server ← unwrap (DatabasePermissionQuery.server query);
      Ok (Some (Member.get_ranking member server))
  | None => Ok None
  end.
End KeptQueries.

(** [permissions.throw_if_lacking_channel_permission(permission)?] *)
Definition require (permissions : PermissionValue.t) (permission : ChannelPermission.t) : H unit :=
  lift (PermissionValue.throw_if_lacking_channel_permission permissions permission).

(** ** Handlers that only read *)

Definition reads {A} (m : H A) : Prop := ∀ w, (m w).2 = w.

Lemma reads_keeps {A C} (f : World.t → C) (m : H A) : reads m → keeps f m.
Proof. intros Hm w. by rewrite Hm. Qed.
Lemma reads_ret {A} (a : A) : reads (mret a).
Proof. done. Qed.
Lemma reads_throw {A} e : reads (throw (A := A) e).
Proof. done. Qed.
Lemma reads_panic {A} : reads (panic (A := A)).
Proof. done. Qed.
Lemma reads_lift {A} (o : Result A) : reads (lift o).
Proof. done. Qed.
Lemma reads_gets {A} (f : World.t → A) : reads (gets f).
Proof. done. Qed.
Lemma reads_clock : reads clock.
Proof. done. Qed.
Lemma reads_bind {A B} (m : H A) (k : A → H B) : reads m → (∀ a, reads (k a)) → reads (m ≫= k).
Proof.
  intros Hm Hk w. rewrite M_bind_unfold. specialize (Hm w).
  destruct (m w) as [[a| |] w']; simpl in *; subst; [apply Hk|done..].
Qed.
Lemma reads_attempt {A} (m : H A) : reads m → reads (attempt m).
Proof. intros Hm w. unfold attempt. specialize (Hm w). by destruct (m w) as [[]]. Qed.
Lemma reads_outcome {A} (m : H A) : reads m → reads (outcome m).
Proof. intros Hm w. unfold outcome. specialize (Hm w). by destruct (m w) as [[]]. Qed.
Lemma reads_require permissions permission : reads (require permissions permission).
Proof. done. Qed.
Lemma reads_validate `{Validator} {A} valid (data : A) : reads (validate valid data).
Proof. intros w. unfold validate. by destruct (valid data). Qed.
Lemma reads_run_query `{MutualIds, HashIter} {A} setup (q : M Empty_set _ A) u :
  reads (run_query setup q u).
Proof. done. Qed.
Lemma reads_ask `{MutualIds, HashIter} {A} (question : M Empty_set _ A) q : reads (ask question q).
Proof. intros w. unfold ask. by destruct (question q). Qed.

(** Reading one table; the table is put back as it was. *)
Lemma reads_table {T A} get set (m : M ErrorType.t T A) :
  (∀ d, set d (get d) = d) → (∀ t, (m t).2 = t) → reads (on_table get set m).
Proof.
  intros Hset Hm w. unfold on_table. specialize (Hm (get (World.db w))).
  destruct (m _) as [r x]. simpl in *. subst x. rewrite Hset. by destruct w.
Qed.

Create HintDb reads.
#[export] Hint Resolve reads_ret reads_throw reads_panic reads_lift reads_gets reads_clock : reads.
#[export] Hint Resolve reads_require reads_validate reads_run_query reads_ask : reads.

(** Decompose a handler and close its steps with the base [reads]. *)
Ltac solve_reads :=
  repeat first
    [ solve [auto with reads]
    | apply reads_bind; [|intros ?]
    | apply reads_attempt
    | apply reads_outcome
    | apply reads_table; [by intros []|by intros ?]
    | progress cbv zeta
    | match goal with
      | |- reads (match ?x with _ => _ end) => destruct x
      end ].

Section ReferenceReads.
Context `{Environment}.
Lemma as_ban_reads id s : reads (Reference.as_ban id s).
Proof. unfold Reference.as_ban, on_bans. solve_reads. Qed.
Lemma as_bot_reads id : reads (Reference.as_bot id).
Proof. unfold Reference.as_bot, on_bots. solve_reads. Qed.
Lemma as_emoji_reads id : reads (Reference.as_emoji id).
Proof. unfold Reference.as_emoji, on_emojis. solve_reads. Qed.
Lemma as_message_reads id : reads (Reference.as_message id).
Proof. unfold Reference.as_message, on_messages. solve_reads. Qed.
Lemma as_member_reads id s : reads (Reference.as_member id s).
Proof. unfold Reference.as_member, on_members. solve_reads. Qed.
Lemma as_user_reads id : reads (Reference.as_user id).
Proof. unfold Reference.as_user, on_users. solve_reads. Qed.
Lemma as_webhook_reads id : reads (Reference.as_webhook id).
Proof. unfold Reference.as_webhook, on_webhooks. solve_reads. Qed.
Lemma as_channel_reads id : reads (Reference.as_channel id).
Proof. unfold Reference.as_channel, on_channels, on_servers. solve_reads. Qed.
Lemma as_server_reads id : reads (Reference.as_server id).
Proof. unfold Reference.as_server, on_servers. solve_reads. Qed.
Lemma as_message_in_channel_reads id c : reads (Reference.as_message_in_channel id c).
Proof. unfold Reference.as_message_in_channel, on_messages. solve_reads. Qed.
Lemma as_invite_reads id : reads (Reference.as_invite id).
Proof.
  unfold Reference.as_invite, Reference.as_server, on_invites, on_servers. solve_reads.
Qed.
Lemma query_channel_reads `{MutualIds, HashIter} u c : reads (query_channel u c).
Proof. unfold query_channel, perms. solve_reads. Qed.
Lemma query_server_reads `{MutualIds, HashIter} u s : reads (query_server u s).
Proof. unfold query_server, perms. solve_reads. Qed.
End ReferenceReads.

#[export] Hint Resolve as_ban_reads as_bot_reads as_emoji_reads as_message_reads : reads.
#[export] Hint Resolve as_member_reads as_user_reads as_webhook_reads as_channel_reads : reads.
#[export] Hint Resolve as_server_reads as_message_in_channel_reads as_invite_reads : reads.
#[export] Hint Resolve query_channel_reads query_server_reads : reads.

(** ** Handlers that succeed

    A sequence that returned went through each of its steps. *)

Lemma bind_Ok_inv {A B} (m : H A) (k : A → H B) w b w' :
  (m ≫= k) w = (Ok b, w') → ∃ a w1, m w = (Ok a, w1) ∧ k a w1 = (Ok b, w').
Proof. rewrite M_bind_unfold. destruct (m w) as [[a| |] w1]; [by eauto|done..]. Qed.

Lemma bind_Ok_inv_reads {A B} (m : H A) (k : A → H B) w b w' :
  reads m → (m ≫= k) w = (Ok b, w') → ∃ a, m w = (Ok a, w) ∧ k a w = (Ok b, w').
Proof.
  intros Hm (a & w1 & Hrun & Hk)%bind_Ok_inv. specialize (Hm w). rewrite Hrun in Hm.
  simpl in Hm. subst w1. eauto.
Qed.

Lemma require_Ok_inv {B} p permission (k : H B) w b w' :
  (require p permission ;; k) w = (Ok b, w') →
  PermissionValue.has_channel_permission p permission = true ∧ k w = (Ok b, w').
Proof.
  rewrite M_bind_unfold. unfold require, lift, PermissionValue.throw_if_lacking_channel_permission.
  by destruct (PermissionValue.has_channel_permission p permission).
Qed.

(** Take the first step of a run that succeeded: [unbind H a w1] names the value and the
    world after it. Steps that only read keep the world. *)
Ltac unbind H a :=
  first
    [ apply bind_Ok_inv_reads in H; [|solve [solve_reads]];
      let E := fresh "E" a in destruct H as (a & E & H)
    | apply bind_Ok_inv in H; let E := fresh "E" a in let w := fresh "w" a in
      destruct H as (a & w & E & H) ].

(** ** Handlers that write only under a condition

    [gated G m w]: run in [w], [m] leaves the world as it is (nothing written to the
    database, published, queued or sent to the broker) unless [G] holds. *)

Definition gated {A} (G : Prop) (m : H A) (w : World.t) : Prop := (m w).2 = w ∨ G.

Section Gates.
Context (G : Prop).

Lemma gated_reads {A} (m : H A) w : reads m → gated G m w.
Proof. intros Hm. left. apply Hm. Qed.

Lemma gated_open {A} (m : H A) w : G → gated G m w.
Proof. by right. Qed.

(** A step that only reads hands its value on in the same world. *)
Lemma gated_bind {A B} (m : H A) (k : A → H B) w :
  reads m → (∀ a, m w = (Ok a, w) → gated G (k a) w) → gated G (m ≫= k) w.
Proof.
  intros Hm Hk. unfold gated. rewrite M_bind_unfold. specialize (Hm w).
  destruct (m w) as [[a| |] w'] eqn:Hrun; simpl in *; subst; [by apply Hk|by left..].
Qed.

Lemma gated_bind_l {A B} (m : H A) (k : A → H B) w :
  (∀ a, reads (k a)) → gated G m w → gated G (m ≫= k) w.
Proof.
  intros Hk [Hm|HG]; [|by right]. left. rewrite M_bind_unfold.
  destruct (m w) as [[a| |] w']; simpl in *; subst; [apply Hk|done..].
Qed.

Lemma gated_assoc {A B C} (m : H A) (k : A → H B) (j : B → H C) w :
  gated G (x ← m; k x ≫= j) w → gated G ((x ← m; k x) ≫= j) w.
Proof.
  unfold gated. rewrite !M_bind_unfold. by destruct (m w) as [[a| |] w'].
Qed.

(** The check of a permission *)
Lemma gated_require {B} p permission (k : H B) w :
  (PermissionValue.has_channel_permission p permission = true → gated G k w) →
  gated G (require p permission ;; k) w.
Proof.
  intros Hk. apply gated_bind; [auto with reads|]. intros [].
  unfold require, lift, PermissionValue.throw_if_lacking_channel_permission.
  destruct (PermissionValue.has_channel_permission p permission); [auto|done].
Qed.
End Gates.

(** Walk through the checks of a handler: steps that read are passed with an equation for
    what they returned, a required permission becomes a hypothesis. *)
Ltac gate_step :=
  first
    [ apply gated_require; intros ?
    | apply gated_bind; [solve [solve_reads]|intros ? ?]
    | solve [apply gated_reads; solve_reads] ].

(** ** The permission a request needs *)

Section Holding.
Context `{MutualIds, HashIter}.

(** The user holds a permission in a channel, as calculated now. *)
Definition holds_in_channel (user : User.t) (channel : Channel.t) (permission : ChannelPermission.t)
    (w : World.t) : Prop :=
  ∃ p q, query_channel user channel w = (Ok (p, q), w) ∧
    PermissionValue.has_channel_permission p permission = true.

(** The user holds a permission in a server, as calculated now. *)
Definition holds_in_server (user : User.t) (server : Server.t) (permission : ChannelPermission.t)
    (w : World.t) : Prop :=
  ∃ p q, query_server user server w = (Ok (p, q), w) ∧
    PermissionValue.has_channel_permission p permission = true.
Lemma query_channel_run user channel w :
  query_channel user channel w =
  ask calculate_channel_permissions
    (DatabasePermissionQuery.with_channel
       (DatabasePermissionQuery.new (World.db w) user (World.now w)) (Some channel)) w.
Proof. done. Qed.

(** Permissions depend on the database and the time only. *)
Lemma holds_in_channel_ext user channel permission w1 w :
  World.db w1 = World.db w → World.now w1 = World.now w →
  holds_in_channel user channel permission w1 → holds_in_channel user channel permission w.
Proof.
  intros Hdb Hnow (p & q & Hq & Hp). exists p, q. split; [|done].
  rewrite query_channel_run in *. unfold ask in *. rewrite Hdb, Hnow in Hq.
  destruct (calculate_channel_permissions _) as [r x]. by injection Hq as ->.
Qed.

(** A question that was answered *)
Lemma query_channel_holds user channel permission p q w :
  query_channel user channel w = (Ok (p, q), w) →
  PermissionValue.has_channel_permission p permission = true →
  holds_in_channel user channel permission w.
Proof. intros Hq Hp. by exists p, q. Qed.
Lemma query_server_holds user server permission p q w :
  query_server user server w = (Ok (p, q), w) →
  PermissionValue.has_channel_permission p permission = true →
  holds_in_server user server permission w.
Proof. intros Hq Hp. by exists p, q. Qed.
End Holding.

(** ** Instances to evaluate the definitions on *)

Module Instances.
(** A cache that forgets its oldest keys *)
Definition fifo_put (k : string) (c : list string) : list string := take 1000 (k :: c).
Lemma fifo_put_keeps k k' c : (length c < 1000)%nat → k' ∈ c → k' ∈ fifo_put k c.
Proof.
  intros Hlen Hin. unfold fifo_put.
  rewrite take_ge by (cbn [length]; lia). by right.
Qed.
#[refine, local] Instance fifo : Lru := {|
  lru_get k c := (bool_decide (k ∈ c), c);
  lru_put := fifo_put;
  lru_put_keeps := fifo_put_keeps
|}.
Proof.
  - intros k c. apply bool_decide_eq_true.
  - done.
  - intros k c. left.
Defined.

(** Characters are bytes, every regular expression matches, and errors are not described. *)
Definition bytes : Validator :=
  {| char_count := String.length; is_match _ _ := true; validation_text _ _ := "" |}.
End Instances.
