(* ===== verification/Authors.v ===== *)
(** * Users as authors and as cached by clients

    The remaining conversions of [util/bridge/v0.rs] between users of the database and
    users of the API: for somebody with a mutual connection ([into_known]), for events that
    fill in presence later ([into_known_static]), for the user themselves ([into_self]), the
    author of a system message, and back from the API model. *)

From stdpp Require Import base list gmap strings.
From Stdlib Require Import ZArith Lia.
From S2P Require Import Prelude Errors Permissions Files Users Servers Channels Messages Unreads.
From S2P Require Import Config Emojis World Database Relationships.

(** [v as i32] *)
Definition as_i32 (v : Z) : Z :=
  let r := (v mod 2 ^ 32)%Z in
  if (r <? 2 ^ 31)%Z then r else (r - 2 ^ 32)%Z.

Section Conversions.
Context `{Environment}.

(** The relationship and whether the profile can be seen, assuming a mutual connection *)
Definition known_visibility (self : User.t) (perspective : option User.t) :
    RelationshipStatus.t * bool :=
  if bool_decide (is_Some (User.bot self)) then (RelationshipStatus.None, true) else
  match perspective with
  | Some perspective =>
      if bool_decide (User.id perspective = User.id self) then (RelationshipStatus.User, true) else
      let relationship :=
        match User.relations perspective with
        | Some relations =>
            match List.find (λ r, bool_decide (Relationship.id r = User.id self)) relations with
            | Some relationship => Relationship.status relationship
            | None => RelationshipStatus.None
            end
        | None => RelationshipStatus.None
        end in
      (relationship, negb (bool_decide (relationship = RelationshipStatus.BlockedOther)))
  | None => (RelationshipStatus.None, false)
  end.

(** Convert user object into user model assuming mutual connection *)
Definition into_known (self : User.t) (perspective : option User.t) (is_online : bool) :
    Result V0User.t :=
  let '(relationship, can_see_profile) := known_visibility self perspective in
  badges ← get_badges self;
  Ok (V0User.mk (User.id self) (User.username self) (User.discriminator self)
        (User.display_name self) (User.pronouns self) (User.avatar self) [] badges
        (if can_see_profile then User.status self ≫= (λ s, status_into s true) else None)
        (as_u32 (default 0%Z (User.flags self))) (User.privileged self) (User.bot self)
        relationship
        (can_see_profile && is_online && negb (is_invisible self))).

(** Convert user object into user model without presence information *)
Definition into_known_static (self : User.t) (is_online : bool) : Result V0User.t :=
  badges ← get_badges self;
  Ok (V0User.mk (User.id self) (User.username self) (User.discriminator self)
        (User.display_name self) (User.pronouns self) (User.avatar self) [] badges
        (User.status self ≫= (λ s, status_into s true))
        (as_u32 (default 0%Z (User.flags self))) (User.privileged self) (User.bot self)
        RelationshipStatus.None
        (is_online && negb (is_invisible self))).

Definition into_self (self : User.t) (force_online : bool) : Result V0User.t :=
  badges ← get_badges self;
  Ok (V0User.mk (User.id self) (User.username self) (User.discriminator self)
        (User.display_name self) (User.pronouns self) (User.avatar self)
        (default [] (User.relations self)) badges
        (User.status self ≫= (λ s, status_into s true))
        (as_u32 (default 0%Z (User.flags self))) (User.privileged self) (User.bot self)
        RelationshipStatus.User
        ((force_online || is_online (User.id self)) && negb (is_invisible self))).

Definition as_author_for_system (self : V0User.t) : MessageAuthor.t :=
  MessageAuthor.System (V0User.username self) (File.id <$> V0User.avatar self).

(** [impl From<v0::User> for User]: relations, profile and suspension are not carried. *)
Definition from_model (value : V0User.t) : User.t :=
  User.mk (V0User.id value) (V0User.username value) (V0User.discriminator value)
    (V0User.display_name value) (V0User.pronouns value) (V0User.avatar value) None
    (Some (as_i32 (V0User.badges value))) (V0User.status value) None
    (Some (as_i32 (V0User.flags value))) (V0User.privileged value) (V0User.bot value) None 0.

(** A user who is invisible is never shown online, and the status never says so. *)
Definition hides_invisible (v : V0User.t) : Prop :=
  V0User.online v = false ∧
  match V0User.status v with
  | Some s => UserStatus.presence s = None
  | None => True
  end.

(** Every conversion hides that a user is invisible, from everybody: the user is shown
    offline and without a presence, also to themselves and when the caller asks for
    [force_online]. *)
Theorem invisible_is_hidden (self : User.t) (perspective : option User.t) (online : bool)
    (v : V0User.t) :
  is_invisible self = true →
  (into_known self perspective online = Ok v ∨ into_known_static self online = Ok v ∨
   into_self self online = Ok v) →
  hides_invisible v.
Proof.
  intros Hinv Hv.
  assert (match User.status self ≫= (λ s, status_into s true) with
          | Some s => UserStatus.presence s = None | None => True end) as Hstatus.
  { unfold is_invisible in Hinv. destruct (User.status self) as [s|]; [|done].
    apply bool_decide_eq_true in Hinv. simpl. unfold status_into. rewrite Hinv. simpl.
    by destruct (UserStatus.text s). }
  destruct Hv as [Hv|[Hv|Hv]].
  - unfold into_known in Hv. destruct (known_visibility self perspective) as [r see].
    destruct (get_badges self); simpl in Hv; [|done..]. injection Hv as <-.
    unfold hides_invisible. simpl. rewrite Hinv, andb_false_r. by destruct see.
  - unfold into_known_static in Hv. destruct (get_badges self); simpl in Hv; [|done..].
    injection Hv as <-. unfold hides_invisible. simpl. by rewrite Hinv, andb_false_r.
  - unfold into_self in Hv. destruct (get_badges self); simpl in Hv; [|done..].
    injection Hv as <-. unfold hides_invisible. simpl. by rewrite Hinv, andb_false_r.
Qed.
End Conversions.

Lemma invisible_is_hidden_witness :
  hides_invisible (V0User.mk "A" "A" "0000" None None None [] 0 None 0 false None
                     RelationshipStatus.User false).
Proof.
  apply (@invisible_is_hidden (Fixture.environment 5)
           (User.set_status (Fixture.user "A" [])
              (Some (UserStatus.mk None (Some Presence.Invisible)))) None true);
    [reflexivity|right; right; vm_compute; reflexivity].
Defined.
