(* ===== verification/Bridge.v ===== *)
(** * The models of the API (crate [revolt-models])

    The objects clients see, [core/models/src/v0/], and the conversions between them and the
    objects of the database, [core/database/src/util/bridge/v0.rs]: [from_db] is
    [impl From<crate::X> for v0::X] and [into_db] is [impl From<v0::X> for crate::X]. Embeds,
    polls, reactions and permission overrides have one model for both. Users are converted in
    [Relationships] and [Authors], which decide what of them is shown; here is the conversion
    of the result to the API's files and back. The theorems say what survives a round trip,
    which is how the gateway gets its copies of objects. *)

From stdpp Require Import base list gmap strings.
From Stdlib Require Import ZArith Lia.
From S2P Require Import Prelude Errors Permissions Files Users Servers Channels Messages Unreads.
From S2P Require Import Config Emojis Webhooks Bots AuditLogs Accounts World Relationships Authors.

(** [v as usize], [v as isize] on a 64-bit target *)
Definition as_usize (v : Z) : Z := as_u64 v.
Definition as_isize (v : Z) : Z := as_i64 v.

Module V0.

(** ** Files *)

Module Metadata.
Inductive t : Type :=
| File
| Text
| Image (width height : Z) (thumbhash : option (list Z)) (animated : option bool)
| Video (width height : Z)
| Audio.

Definition from_db (value : Files.Metadata.t) : t :=
  match value with
  | Files.Metadata.File => File
  | Files.Metadata.Text => Text
  | Files.Metadata.Image width height thumbhash animated =>
      Image (as_usize width) (as_usize height) thumbhash animated
  | Files.Metadata.Video width height => Video (as_usize width) (as_usize height)
  | Files.Metadata.Audio => Audio
  end.

Definition into_db (value : t) : Files.Metadata.t :=
  match value with
  | File => Files.Metadata.File
  | Text => Files.Metadata.Text
  | Image width height thumbhash animated =>
      Files.Metadata.Image (as_isize width) (as_isize height) thumbhash animated
  | Video width height => Files.Metadata.Video (as_isize width) (as_isize height)
  | Audio => Files.Metadata.Audio
  end.
End Metadata.

Module File.
Record t : Type := mk {
  id : string;
  tag : string;
  filename : string;
  metadata : Metadata.t;
  content_type : string;
  size : Z;
  deleted : option bool;
  reported : option bool;
  message_id : option string;
  user_id : option string;
  server_id : option string;
  object_id : option string
}.

Definition from_db (value : Files.File.t) : t := {|
  id := Files.File.id value;
  tag := Files.File.tag value;
  filename := Files.File.filename value;
  metadata := Metadata.from_db (Files.File.metadata value);
  content_type := Files.File.content_type value;
  size := Files.File.size value;
  deleted := Files.File.deleted value;
  reported := Files.File.reported value;
  message_id := Files.File.message_id value;
  user_id := Files.File.user_id value;
  server_id := Files.File.server_id value;
  object_id := Files.File.object_id value |}.

Definition into_db (value : t) : Files.File.t := {|
  Files.File.id := id value;
  Files.File.tag := tag value;
  Files.File.filename := filename value;
  Files.File.metadata := Metadata.into_db (metadata value);
  Files.File.content_type := content_type value;
  Files.File.size := size value;
  Files.File.deleted := deleted value;
  Files.File.reported := reported value;
  Files.File.message_id := message_id value;
  Files.File.user_id := user_id value;
  Files.File.server_id := server_id value;
  Files.File.object_id := object_id value;
  Files.File.hash := None;
  Files.File.uploaded_at := None;
  Files.File.uploader_id := None;
  Files.File.used_for := None |}.
End File.

(** ** Channels *)

Module VoiceInformation.
Record t : Type := mk { max_users : option Z }.
Definition from_db (value : Channels.VoiceInformation.t) : t :=
  mk (Channels.VoiceInformation.max_users value).
Definition into_db (value : t) : Channels.VoiceInformation.t :=
  Channels.VoiceInformation.mk (max_users value).
End VoiceInformation.

Module Channel.
Inductive t : Type :=
| SavedMessages (id user : string)
| DirectMessage (id : string) (active : bool) (recipients : list string)
    (last_message_id : option string)
| Group (id name owner : string) (description : option string) (recipients : list string)
    (icon : option File.t) (last_message_id : option string) (permissions : option Z)
    (nsfw : bool)
| TextChannel (id server name : string) (description : option string) (icon : option File.t)
    (last_message_id : option string) (default_permissions : option OverrideField.t)
    (role_permissions : gmap string OverrideField.t) (nsfw : bool)
    (voice : option VoiceInformation.t) (slowmode : option Z) (forum : option string).

Definition id (self : t) : string :=
  match self with
  | SavedMessages id _ | DirectMessage id _ _ _ | Group id _ _ _ _ _ _ _ _
  | TextChannel id _ _ _ _ _ _ _ _ _ _ _ => id
  end.

Definition from_db (value : Channels.Channel.t) : t :=
  match value with
  | Channels.Channel.SavedMessages c =>
      SavedMessages (Channels.SavedMessages.id c) (Channels.SavedMessages.user c)
  | Channels.Channel.DirectMessage c =>
      DirectMessage (Channels.DirectMessage.id c) (Channels.DirectMessage.active c)
        (Channels.DirectMessage.recipients c) (Channels.DirectMessage.last_message_id c)
  | Channels.Channel.Group c =>
      Group (Channels.Group.id c) (Channels.Group.name c) (Channels.Group.owner c)
        (Channels.Group.description c) (Channels.Group.recipients c)
        (File.from_db <$> Channels.Group.icon c) (Channels.Group.last_message_id c)
        (Channels.Group.permissions c) (Channels.Group.nsfw c)
  | Channels.Channel.TextChannel c =>
      TextChannel (Channels.TextChannel.id c) (Channels.TextChannel.server c)
        (Channels.TextChannel.name c) (Channels.TextChannel.description c)
        (File.from_db <$> Channels.TextChannel.icon c)
        (Channels.TextChannel.last_message_id c) (Channels.TextChannel.default_permissions c)
        (Channels.TextChannel.role_permissions c) (Channels.TextChannel.nsfw c)
        (VoiceInformation.from_db <$> Channels.TextChannel.voice c)
        (Channels.TextChannel.slowmode c) (Channels.TextChannel.forum c)
  end.

Definition into_db (value : t) : Channels.Channel.t :=
  match value with
  | SavedMessages id user =>
      Channels.Channel.SavedMessages (Channels.SavedMessages.mk id user)
  | DirectMessage id active recipients last_message_id =>
      Channels.Channel.DirectMessage
        (Channels.DirectMessage.mk id active recipients last_message_id)
  | Group id name owner description recipients icon last_message_id permissions nsfw =>
      Channels.Channel.Group (Channels.Group.mk id name owner description recipients
        (File.into_db <$> icon) last_message_id permissions nsfw)
  | TextChannel id server name description icon last_message_id default_permissions
      role_permissions nsfw voice slowmode forum =>
      Channels.Channel.TextChannel (Channels.TextChannel.mk id server name description
        (File.into_db <$> icon) last_message_id default_permissions role_permissions nsfw
        (VoiceInformation.into_db <$> voice) slowmode forum)
  end.
End Channel.

Module PartialChannel.
Record t : Type := mk {
  name : option string;
  owner : option string;
  description : option string;
  icon : option File.t;
  nsfw : option bool;
  active : option bool;
  permissions : option Z;
  role_permissions : option (gmap string OverrideField.t);
  default_permissions : option OverrideField.t;
  last_message_id : option string;
  voice : option VoiceInformation.t;
  slowmode : option Z
}.

Definition from_db (value : Channels.PartialChannel.t) : t := {|
  name := Channels.PartialChannel.name value;
  owner := Channels.PartialChannel.owner value;
  description := Channels.PartialChannel.description value;
  icon := File.from_db <$> Channels.PartialChannel.icon value;
  nsfw := Channels.PartialChannel.nsfw value;
  active := Channels.PartialChannel.active value;
  permissions := Channels.PartialChannel.permissions value;
  role_permissions := Channels.PartialChannel.role_permissions value;
  default_permissions := Channels.PartialChannel.default_permissions value;
  last_message_id := Channels.PartialChannel.last_message_id value;
  voice := VoiceInformation.from_db <$> Channels.PartialChannel.voice value;
  slowmode := Channels.PartialChannel.slowmode value |}.

Definition into_db (value : t) : Channels.PartialChannel.t := {|
  Channels.PartialChannel.name := name value;
  Channels.PartialChannel.owner := owner value;
  Channels.PartialChannel.description := description value;
  Channels.PartialChannel.icon := File.into_db <$> icon value;
  Channels.PartialChannel.nsfw := nsfw value;
  Channels.PartialChannel.active := active value;
  Channels.PartialChannel.permissions := permissions value;
  Channels.PartialChannel.role_permissions := role_permissions value;
  Channels.PartialChannel.default_permissions := default_permissions value;
  Channels.PartialChannel.last_message_id := last_message_id value;
  Channels.PartialChannel.voice := VoiceInformation.into_db <$> voice value;
  Channels.PartialChannel.slowmode := slowmode value |}.
End PartialChannel.

Module FieldsChannel.
Inductive t : Type := Description | Icon | DefaultPermissions | Voice | Slowmode.
Definition from_db (value : Channels.FieldsChannel.t) : t :=
  match value with
  | Channels.FieldsChannel.Description => Description
  | Channels.FieldsChannel.Icon => Icon
  | Channels.FieldsChannel.DefaultPermissions => DefaultPermissions
  | Channels.FieldsChannel.Voice => Voice
  | Channels.FieldsChannel.Slowmode => Slowmode
  end.
Definition into_db (value : t) : Channels.FieldsChannel.t :=
  match value with
  | Description => Channels.FieldsChannel.Description
  | Icon => Channels.FieldsChannel.Icon
  | DefaultPermissions => Channels.FieldsChannel.DefaultPermissions
  | Voice => Channels.FieldsChannel.Voice
  | Slowmode => Channels.FieldsChannel.Slowmode
  end.
End FieldsChannel.

(** ** Emojis *)

Module EmojiParent.
Inductive t : Type := Server (id : string) | Detached.
Definition from_db (value : Emojis.EmojiParent.t) : t :=
  match value with
  | Emojis.EmojiParent.Detached => Detached
  | Emojis.EmojiParent.Server id => Server id
  end.
Definition into_db (value : t) : Emojis.EmojiParent.t :=
  match value with
  | Detached => Emojis.EmojiParent.Detached
  | Server id => Emojis.EmojiParent.Server id
  end.
End EmojiParent.

Module Emoji.
Record t : Type := mk {
  id : string;
  parent : EmojiParent.t;
  creator_id : string;
  name : string;
  animated : bool;
  nsfw : bool
}.
Definition from_db (value : Emojis.Emoji.t) : t :=
  mk (Emojis.Emoji.id value) (EmojiParent.from_db (Emojis.Emoji.parent value))
    (Emojis.Emoji.creator_id value) (Emojis.Emoji.name value) (Emojis.Emoji.animated value)
    (Emojis.Emoji.nsfw value).
End Emoji.

Module PartialEmoji.
Record t : Type := mk { name : option string }.
Definition from_db (value : Emojis.PartialEmoji.t) : t := mk (Emojis.PartialEmoji.name value).
End PartialEmoji.

(** ** Servers *)

Module Category.
Record t : Type := mk { id : string; title : string; channels : list string }.
Definition from_db (value : Servers.Category.t) : t :=
  mk (Servers.Category.id value) (Servers.Category.title value) (Servers.Category.channels value).
Definition into_db (value : t) : Servers.Category.t :=
  Servers.Category.mk (id value) (title value) (channels value).
End Category.

Module SystemMessageChannels.
Record t : Type := mk {
  user_joined : option string;
  user_left : option string;
  user_kicked : option string;
  user_banned : option string
}.
Definition from_db (value : Servers.SystemMessageChannels.t) : t :=
  mk (Servers.SystemMessageChannels.user_joined value)
    (Servers.SystemMessageChannels.user_left value)
    (Servers.SystemMessageChannels.user_kicked value)
    (Servers.SystemMessageChannels.user_banned value).
Definition into_db (value : t) : Servers.SystemMessageChannels.t :=
  Servers.SystemMessageChannels.mk (user_joined value) (user_left value) (user_kicked value)
    (user_banned value).
End SystemMessageChannels.

Module Role.
Record t : Type := mk {
  id : string;
  name : string;
  permissions : OverrideField.t;
  colour : option string;
  hoist : bool;
  rank : Z;
  icon : option File.t
}.
Definition from_db (value : Servers.Role.t) : t :=
  mk (Servers.Role.id value) (Servers.Role.name value) (Servers.Role.permissions value)
    (Servers.Role.colour value) (Servers.Role.hoist value) (Servers.Role.rank value)
    (File.from_db <$> Servers.Role.icon value).
Definition into_db (value : t) : Servers.Role.t :=
  Servers.Role.mk (id value) (name value) (permissions value) (colour value) (hoist value)
    (rank value) (File.into_db <$> icon value).
End Role.

Module PartialRole.
Record t : Type := mk {
  id : option string;
  name : option string;
  permissions : option OverrideField.t;
  colour : option string;
  hoist : option bool;
  rank : option Z;
  icon : option File.t
}.
Definition from_db (value : Servers.PartialRole.t) : t :=
  mk (Servers.PartialRole.id value) (Servers.PartialRole.name value)
    (Servers.PartialRole.permissions value) (Servers.PartialRole.colour value)
    (Servers.PartialRole.hoist value) (Servers.PartialRole.rank value)
    (File.from_db <$> Servers.PartialRole.icon value).
Definition into_db (value : t) : Servers.PartialRole.t :=
  Servers.PartialRole.mk (id value) (name value) (permissions value) (colour value)
    (hoist value) (rank value) (File.into_db <$> icon value).
End PartialRole.

Module FieldsRole.
Inductive t : Type := Colour | Icon.
Definition from_db (value : Servers.FieldsRole.t) : t :=
  match value with Servers.FieldsRole.Colour => Colour | Servers.FieldsRole.Icon => Icon end.
Definition into_db (value : t) : Servers.FieldsRole.t :=
  match value with Colour => Servers.FieldsRole.Colour | Icon => Servers.FieldsRole.Icon end.
End FieldsRole.

Module FieldsServer.
Inductive t : Type := Description | Announcement | Categories | SystemMessages | Icon | Banner.
Definition from_db (value : Servers.FieldsServer.t) : t :=
  match value with
  | Servers.FieldsServer.Banner => Banner
  | Servers.FieldsServer.Categories => Categories
  | Servers.FieldsServer.Description => Description
  | Servers.FieldsServer.Announcement => Announcement
  | Servers.FieldsServer.Icon => Icon
  | Servers.FieldsServer.SystemMessages => SystemMessages
  end.
Definition into_db (value : t) : Servers.FieldsServer.t :=
  match value with
  | Banner => Servers.FieldsServer.Banner
  | Categories => Servers.FieldsServer.Categories
  | Description => Servers.FieldsServer.Description
  | Announcement => Servers.FieldsServer.Announcement
  | Icon => Servers.FieldsServer.Icon
  | SystemMessages => Servers.FieldsServer.SystemMessages
  end.
End FieldsServer.

Module Server.
Record t : Type := mk {
  id : string;
  owner : string;
  name : string;
  description : option string;
  announcement : option string;
  channels : list string;
  categories : option (list Category.t);
  system_messages : option SystemMessageChannels.t;
  roles : gmap string Role.t;
  default_permissions : Z;
  icon : option File.t;
  banner : option File.t;
  flags : Z;
  nsfw : bool;
  analytics : bool;
  discoverable : bool
}.

Definition from_db (value : Servers.Server.t) : t := {|
  id := Servers.Server.id value;
  owner := Servers.Server.owner value;
  name := Servers.Server.name value;
  description := Servers.Server.description value;
  announcement := Servers.Server.announcement value;
  channels := Servers.Server.channels value;
  categories := fmap (M := list) Category.from_db <$> Servers.Server.categories value;
  system_messages := SystemMessageChannels.from_db <$> Servers.Server.system_messages value;
  roles := Role.from_db <$> Servers.Server.roles value;
  default_permissions := Servers.Server.default_permissions value;
  icon := File.from_db <$> Servers.Server.icon value;
  banner := File.from_db <$> Servers.Server.banner value;
  flags := as_u32 (default 0%Z (Servers.Server.flags value));
  nsfw := Servers.Server.nsfw value;
  analytics := Servers.Server.analytics value;
  discoverable := Servers.Server.discoverable value |}.

Definition into_db (value : t) : Servers.Server.t := {|
  Servers.Server.id := id value;
  Servers.Server.owner := owner value;
  Servers.Server.name := name value;
  Servers.Server.description := description value;
  Servers.Server.announcement := announcement value;
  Servers.Server.channels := channels value;
  Servers.Server.categories := fmap (M := list) Category.into_db <$> categories value;
  Servers.Server.system_messages := SystemMessageChannels.into_db <$> system_messages value;
  Servers.Server.roles := Role.into_db <$> roles value;
  Servers.Server.default_permissions := default_permissions value;
  Servers.Server.icon := File.into_db <$> icon value;
  Servers.Server.banner := File.into_db <$> banner value;
  Servers.Server.flags := Some (as_i32 (flags value));
  Servers.Server.nsfw := nsfw value;
  Servers.Server.analytics := analytics value;
  Servers.Server.discoverable := discoverable value;
  Servers.Server.admin_suspended := false |}.
End Server.

Module PartialServer.
Record t : Type := mk {
  id : option string;
  owner : option string;
  name : option string;
  description : option string;
  announcement : option string;
  channels : option (list string);
  categories : option (list Category.t);
  system_messages : option SystemMessageChannels.t;
  roles : option (gmap string Role.t);
  default_permissions : option Z;
  icon : option File.t;
  banner : option File.t;
  flags : option Z;
  nsfw : option bool;
  analytics : option bool;
  discoverable : option bool
}.

Definition from_db (value : Servers.PartialServer.t) : t := {|
  id := Servers.PartialServer.id value;
  owner := Servers.PartialServer.owner value;
  name := Servers.PartialServer.name value;
  description := Servers.PartialServer.description value;
  announcement := Servers.PartialServer.announcement value;
  channels := Servers.PartialServer.channels value;
  categories := fmap (M := list) Category.from_db <$> Servers.PartialServer.categories value;
  system_messages :=
    SystemMessageChannels.from_db <$> Servers.PartialServer.system_messages value;
  roles := fmap (M := gmap string) Role.from_db <$> Servers.PartialServer.roles value;
  default_permissions := Servers.PartialServer.default_permissions value;
  icon := File.from_db <$> Servers.PartialServer.icon value;
  banner := File.from_db <$> Servers.PartialServer.banner value;
  flags := as_u32 <$> Servers.PartialServer.flags value;
  nsfw := Servers.PartialServer.nsfw value;
  analytics := Servers.PartialServer.analytics value;
  discoverable := Servers.PartialServer.discoverable value |}.

Definition into_db (value : t) : Servers.PartialServer.t := {|
  Servers.PartialServer.id := id value;
  Servers.PartialServer.owner := owner value;
  Servers.PartialServer.name := name value;
  Servers.PartialServer.description := description value;
  Servers.PartialServer.announcement := announcement value;
  Servers.PartialServer.channels := channels value;
  Servers.PartialServer.categories := fmap (M := list) Category.into_db <$> categories value;
  Servers.PartialServer.system_messages :=
    SystemMessageChannels.into_db <$> system_messages value;
  Servers.PartialServer.roles := fmap (M := gmap string) Role.into_db <$> roles value;
  Servers.PartialServer.default_permissions := default_permissions value;
  Servers.PartialServer.icon := File.into_db <$> icon value;
  Servers.PartialServer.banner := File.into_db <$> banner value;
  Servers.PartialServer.flags := as_i32 <$> flags value;
  Servers.PartialServer.nsfw := nsfw value;
  Servers.PartialServer.analytics := analytics value;
  Servers.PartialServer.discoverable := discoverable value;
  Servers.PartialServer.admin_suspended := Some false |}.
End PartialServer.

(** ** Members *)

Module MemberCompositeKey.
Record t : Type := mk { server : string; user : string }.
Definition from_db (value : Servers.MemberCompositeKey.t) : t :=
  mk (Servers.MemberCompositeKey.server value) (Servers.MemberCompositeKey.user value).
Definition into_db (value : t) : Servers.MemberCompositeKey.t :=
  Servers.MemberCompositeKey.mk (server value) (user value).
End MemberCompositeKey.

Module Member.
Record t : Type := mk {
  id : MemberCompositeKey.t;
  joined_at : Z;
  nickname : option string;
  pronouns : option string;
  avatar : option File.t;
  roles : list string;
  timeout : option Z;
  can_publish : bool;
  can_receive : bool
}.
Definition from_db (value : Servers.Member.t) : t :=
  mk (MemberCompositeKey.from_db (Servers.Member.id value)) (Servers.Member.joined_at value)
    (Servers.Member.nickname value) (Servers.Member.pronouns value)
    (File.from_db <$> Servers.Member.avatar value) (Servers.Member.roles value)
    (Servers.Member.timeout value) (Servers.Member.can_publish value)
    (Servers.Member.can_receive value).
Definition into_db (value : t) : Servers.Member.t :=
  Servers.Member.mk (MemberCompositeKey.into_db (id value)) (joined_at value)
    (nickname value) (pronouns value) (File.into_db <$> avatar value) (roles value)
    (timeout value) (can_publish value) (can_receive value).
End Member.

Module PartialMember.
Record t : Type := mk {
  id : option MemberCompositeKey.t;
  joined_at : option Z;
  nickname : option string;
  pronouns : option string;
  avatar : option File.t;
  roles : option (list string);
  timeout : option Z;
  can_publish : option bool;
  can_receive : option bool
}.
Definition from_db (value : Servers.PartialMember.t) : t :=
  mk (MemberCompositeKey.from_db <$> Servers.PartialMember.id value)
    (Servers.PartialMember.joined_at value)
    (Servers.PartialMember.nickname value) (Servers.PartialMember.pronouns value)
    (File.from_db <$> Servers.PartialMember.avatar value) (Servers.PartialMember.roles value)
    (Servers.PartialMember.timeout value) (Servers.PartialMember.can_publish value)
    (Servers.PartialMember.can_receive value).
Definition into_db (value : t) : Servers.PartialMember.t :=
  Servers.PartialMember.mk (MemberCompositeKey.into_db <$> id value) (joined_at value)
    (nickname value) (pronouns value) (File.into_db <$> avatar value) (roles value)
    (timeout value) (can_publish value) (can_receive value).
End PartialMember.

Module FieldsMember.
Inductive t : Type :=
| Nickname | Pronouns | Avatar | Roles | Timeout | CanReceive | CanPublish | JoinedAt
| VoiceChannel.
#[global] Instance t_eq_dec : EqDecision t.
Proof. solve_decision. Defined.
Definition from_db (value : Servers.FieldsMember.t) : t :=
  match value with
  | Servers.FieldsMember.Avatar => Avatar
  | Servers.FieldsMember.Nickname => Nickname
  | Servers.FieldsMember.Pronouns => Pronouns
  | Servers.FieldsMember.Roles => Roles
  | Servers.FieldsMember.Timeout => Timeout
  | Servers.FieldsMember.CanReceive => CanReceive
  | Servers.FieldsMember.CanPublish => CanPublish
  | Servers.FieldsMember.JoinedAt => JoinedAt
  | Servers.FieldsMember.VoiceChannel => VoiceChannel
  end.
Definition into_db (value : t) : Servers.FieldsMember.t :=
  match value with
  | Avatar => Servers.FieldsMember.Avatar
  | Nickname => Servers.FieldsMember.Nickname
  | Pronouns => Servers.FieldsMember.Pronouns
  | Roles => Servers.FieldsMember.Roles
  | Timeout => Servers.FieldsMember.Timeout
  | CanReceive => Servers.FieldsMember.CanReceive
  | CanPublish => Servers.FieldsMember.CanPublish
  | JoinedAt => Servers.FieldsMember.JoinedAt
  | VoiceChannel => Servers.FieldsMember.VoiceChannel
  end.
End FieldsMember.

Module RemovalIntention.
Inductive t : Type := Leave | Kick | Ban.
Definition from_db (value : Servers.RemovalIntention.t) : t :=
  match value with
  | Servers.RemovalIntention.Ban => Ban
  | Servers.RemovalIntention.Kick => Kick
  | Servers.RemovalIntention.Leave => Leave
  end.
End RemovalIntention.

Module ServerBan.
Record t : Type := mk { id : MemberCompositeKey.t; reason : option string }.
Definition from_db (value : Servers.ServerBan.t) : t :=
  mk (MemberCompositeKey.from_db (Servers.ServerBan.id value)) (Servers.ServerBan.reason value).
End ServerBan.

(** ** Users *)

Module RelationshipStatus.
Inductive t : Type := None | User | Friend | Outgoing | Incoming | Blocked | BlockedOther.
#[global] Instance t_eq_dec : EqDecision t.
Proof. solve_decision. Defined.
Definition from_db (value : Permissions.RelationshipStatus.t) : t :=
  match value with
  | Permissions.RelationshipStatus.None => None
  | Permissions.RelationshipStatus.User => User
  | Permissions.RelationshipStatus.Friend => Friend
  | Permissions.RelationshipStatus.Outgoing => Outgoing
  | Permissions.RelationshipStatus.Incoming => Incoming
  | Permissions.RelationshipStatus.Blocked => Blocked
  | Permissions.RelationshipStatus.BlockedOther => BlockedOther
  end.
End RelationshipStatus.

Module Relationship.
Record t : Type := mk { user_id : string; status : RelationshipStatus.t }.
Definition from_db (value : Users.Relationship.t) : t :=
  mk (Users.Relationship.id value) (RelationshipStatus.from_db (Users.Relationship.status value)).

(** [impl CheckRelationship for Vec<Relationship>]: [with] *)
Definition relation_with (self : list t) (user : string) : RelationshipStatus.t :=
  match List.find (λ entry, bool_decide (user_id entry = user)) self with
  | Some entry => status entry
  | Datatypes.None => RelationshipStatus.None
  end.
End Relationship.

Module Presence.
Inductive t : Type := Online | Idle | Focus | Busy | Invisible.
Definition from_db (value : Users.Presence.t) : t :=
  match value with
  | Users.Presence.Online => Online
  | Users.Presence.Idle => Idle
  | Users.Presence.Focus => Focus
  | Users.Presence.Busy => Busy
  | Users.Presence.Invisible => Invisible
  end.
Definition into_db (value : t) : Users.Presence.t :=
  match value with
  | Online => Users.Presence.Online
  | Idle => Users.Presence.Idle
  | Focus => Users.Presence.Focus
  | Busy => Users.Presence.Busy
  | Invisible => Users.Presence.Invisible
  end.
End Presence.

Module UserStatus.
Record t : Type := mk { text : option string; presence : option Presence.t }.
(** [UserStatus::into(discard_invisible)] *)
Definition from_db (self : Users.UserStatus.t) (discard_invisible : bool) : option t :=
  (λ status, mk (Users.UserStatus.text status)
               (Presence.from_db <$> Users.UserStatus.presence status))
    <$> status_into self discard_invisible.
Definition into_db (value : t) : Users.UserStatus.t :=
  Users.UserStatus.mk (text value) (Presence.into_db <$> presence value).
End UserStatus.

Module UserProfile.
Record t : Type := mk {
  content : option string;
  background : option File.t;
  avatar_decoration : option string
}.
Definition from_db (value : Users.UserProfile.t) : t :=
  mk (Users.UserProfile.content value) (File.from_db <$> Users.UserProfile.background value)
    (Users.UserProfile.avatar_decoration value).
Definition into_db (value : t) : Users.UserProfile.t :=
  Users.UserProfile.mk (content value) (File.into_db <$> background value)
    (avatar_decoration value).
End UserProfile.

Module BotInformation.
Record t : Type := mk { owner_id : string }.
Definition from_db (value : Users.BotInformation.t) : t :=
  mk (Users.BotInformation.owner value).
Definition into_db (value : t) : Users.BotInformation.t :=
  Users.BotInformation.mk (owner_id value).
End BotInformation.

Module FieldsUser.
Inductive t : Type :=
| Avatar | StatusText | StatusPresence | ProfileContent | ProfileBackground | DisplayName
| Pronouns | Internal.
Definition from_db (value : Users.FieldsUser.t) : t :=
  match value with
  | Users.FieldsUser.Avatar => Avatar
  | Users.FieldsUser.ProfileBackground => ProfileBackground
  | Users.FieldsUser.ProfileContent => ProfileContent
  | Users.FieldsUser.StatusPresence => StatusPresence
  | Users.FieldsUser.StatusText => StatusText
  | Users.FieldsUser.DisplayName => DisplayName
  | Users.FieldsUser.Pronouns => Pronouns
  | Users.FieldsUser.Suspension => Internal
  | Users.FieldsUser.None => Internal
  end.
Definition into_db (value : t) : Users.FieldsUser.t :=
  match value with
  | Avatar => Users.FieldsUser.Avatar
  | ProfileBackground => Users.FieldsUser.ProfileBackground
  | ProfileContent => Users.FieldsUser.ProfileContent
  | StatusPresence => Users.FieldsUser.StatusPresence
  | StatusText => Users.FieldsUser.StatusText
  | DisplayName => Users.FieldsUser.DisplayName
  | Pronouns => Users.FieldsUser.Pronouns
  | Internal => Users.FieldsUser.None
  end.
End FieldsUser.

Module User.
Record t : Type := mk {
  id : string;
  username : string;
  discriminator : string;
  display_name : option string;
  pronouns : option string;
  avatar : option File.t;
  relations : list Relationship.t;
  badges : Z;
  status : option UserStatus.t;
  flags : Z;
  privileged : bool;
  bot : option BotInformation.t;
  relationship : RelationshipStatus.t;
  online : bool
}.

(** The result of one of the conversions, as it is sent *)
Definition of_user (v : V0User.t) : t := {|
  id := V0User.id v;
  username := V0User.username v;
  discriminator := V0User.discriminator v;
  display_name := V0User.display_name v;
  pronouns := V0User.pronouns v;
  avatar := File.from_db <$> V0User.avatar v;
  relations := Relationship.from_db <$> V0User.relations v;
  badges := V0User.badges v;
  status := V0User.status v ≫= (λ s, UserStatus.from_db s false);
  flags := V0User.flags v;
  privileged := V0User.privileged v;
  bot := BotInformation.from_db <$> V0User.bot v;
  relationship := RelationshipStatus.from_db (V0User.relationship v);
  online := V0User.online v |}.

Definition set_relationship (v : t) (r : RelationshipStatus.t) : t :=
  mk (id v) (username v) (discriminator v) (display_name v) (pronouns v) (avatar v)
    (relations v) (badges v) (status v) (flags v) (privileged v) (bot v) r (online v).

Definition into_db (value : t) : Users.User.t := {|
  Users.User.id := id value;
  Users.User.username := username value;
  Users.User.discriminator := discriminator value;
  Users.User.display_name := display_name value;
  Users.User.pronouns := pronouns value;
  Users.User.avatar := File.into_db <$> avatar value;
  Users.User.relations := None;
  Users.User.badges := Some (as_i32 (badges value));
  Users.User.status := UserStatus.into_db <$> status value;
  Users.User.profile := None;
  Users.User.flags := Some (as_i32 (flags value));
  Users.User.privileged := privileged value;
  Users.User.bot := BotInformation.into_db <$> bot value;
  Users.User.suspended_until := None;
  Users.User.last_acknowledged_policy_change := 0%Z |}.
End User.

Module PartialUser.
Record t : Type := mk {
  id : option string;
  username : option string;
  discriminator : option string;
  display_name : option string;
  pronouns : option string;
  avatar : option File.t;
  relations : option (list Relationship.t);
  badges : option Z;
  status : option UserStatus.t;
  flags : option Z;
  privileged : option bool;
  bot : option BotInformation.t;
  relationship : option RelationshipStatus.t;
  online : option bool
}.
Definition default : t :=
  mk None None None None None None None None None None None None None None.
Definition set_online (v : t) (o : option bool) : t :=
  mk (id v) (username v) (discriminator v) (display_name v) (pronouns v) (avatar v)
    (relations v) (badges v) (status v) (flags v) (privileged v) (bot v) (relationship v) o.

Definition from_db (value : Users.PartialUser.t) : t := {|
  id := Users.PartialUser.id value;
  username := Users.PartialUser.username value;
  discriminator := Users.PartialUser.discriminator value;
  display_name := Users.PartialUser.display_name value;
  pronouns := Users.PartialUser.pronouns value;
  avatar := File.from_db <$> Users.PartialUser.avatar value;
  relations := fmap (M := list) Relationship.from_db <$> Users.PartialUser.relations value;
  badges := as_u32 <$> Users.PartialUser.badges value;
  status := Users.PartialUser.status value ≫= (λ s, UserStatus.from_db s false);
  flags := as_u32 <$> Users.PartialUser.flags value;
  privileged := Users.PartialUser.privileged value;
  bot := BotInformation.from_db <$> Users.PartialUser.bot value;
  relationship := None;
  online := None |}.
End PartialUser.

(** ** Bots, invites, unreads, webhooks *)

Module Bot.
Record t : Type := mk {
  id : string;
  owner_id : string;
  token : string;
  public : bool;
  analytics : bool;
  discoverable : bool;
  interactions_url : string;
  terms_of_service_url : string;
  privacy_policy_url : string;
  flags : Z
}.
Definition from_db (value : Bots.Bot.t) : t :=
  mk (Bots.Bot.id value) (Bots.Bot.owner value) (Bots.Bot.token value) (Bots.Bot.public value)
    (Bots.Bot.analytics value) (Bots.Bot.discoverable value) (Bots.Bot.interactions_url value)
    (Bots.Bot.terms_of_service_url value) (Bots.Bot.privacy_policy_url value)
    (as_u32 (default 0%Z (Bots.Bot.flags value))).
End Bot.

Module PublicBot.
Record t : Type := mk { id : string; username : string; avatar : string; description : string }.
(** [Bot::into_public_bot]; [debug] says whether debug assertions are on *)
Definition into_public_bot (debug : bool) (self : Bots.Bot.t) (user : Users.User.t) : Result t :=
  if debug && negb (bool_decide (Bots.Bot.id self = Users.User.id user)) then Panicked else
  Ok (mk (Bots.Bot.id self) (Users.User.username user)
        (default "" (Files.File.id <$> Users.User.avatar user))
        (default "" (Users.User.profile user ≫= Users.UserProfile.content))).
End PublicBot.

Module FieldsBot.
Inductive t : Type := Token | InteractionsURL.
Definition from_db (value : Bots.FieldsBot.t) : t :=
  match value with
  | Bots.FieldsBot.InteractionsURL => InteractionsURL
  | Bots.FieldsBot.Token => Token
  end.
Definition into_db (value : t) : Bots.FieldsBot.t :=
  match value with
  | InteractionsURL => Bots.FieldsBot.InteractionsURL
  | Token => Bots.FieldsBot.Token
  end.
End FieldsBot.

Module Invite.
Inductive t : Type :=
| Server (code server creator channel : string)
| Group (code creator channel : string).
Definition from_db (value : Webhooks.Invite.t) : t :=
  match value with
  | Webhooks.Invite.Group code creator channel => Group code creator channel
  | Webhooks.Invite.Server code server creator channel => Server code server creator channel
  end.
End Invite.

Module ChannelCompositeKey.
Record t : Type := mk { channel : string; user : string }.
Definition from_db (value : Unreads.ChannelCompositeKey.t) : t :=
  mk (Unreads.ChannelCompositeKey.channel value) (Unreads.ChannelCompositeKey.user value).
End ChannelCompositeKey.

Module ChannelUnread.
Record t : Type := mk {
  id : ChannelCompositeKey.t;
  last_id : option string;
  mentions : list string
}.
Definition from_db (value : Unreads.ChannelUnread.t) : t :=
  mk (ChannelCompositeKey.from_db (Unreads.ChannelUnread.id value))
    (Unreads.ChannelUnread.last_id value) (default [] (Unreads.ChannelUnread.mentions value)).
End ChannelUnread.

Module Webhook.
Record t : Type := mk {
  id : string;
  name : string;
  avatar : option File.t;
  creator_id : string;
  channel_id : string;
  permissions : Z;
  token : option string
}.
Definition from_db (value : Webhooks.Webhook.t) : t :=
  mk (Webhooks.Webhook.id value) (Webhooks.Webhook.name value)
    (File.from_db <$> Webhooks.Webhook.avatar value) (Webhooks.Webhook.creator_id value)
    (Webhooks.Webhook.channel_id value) (Webhooks.Webhook.permissions value)
    (Webhooks.Webhook.token value).
End Webhook.

Module PartialWebhook.
Record t : Type := mk {
  id : option string;
  name : option string;
  avatar : option File.t;
  creator_id : option string;
  channel_id : option string;
  permissions : option Z;
  token : option string
}.
Definition from_db (value : Webhooks.PartialWebhook.t) : t :=
  mk (Webhooks.PartialWebhook.id value) (Webhooks.PartialWebhook.name value)
    (File.from_db <$> Webhooks.PartialWebhook.avatar value)
    (Webhooks.PartialWebhook.creator_id value) (Webhooks.PartialWebhook.channel_id value)
    (Webhooks.PartialWebhook.permissions value) (Webhooks.PartialWebhook.token value).
End PartialWebhook.

Module FieldsWebhook.
Inductive t : Type := Avatar.
Definition from_db (_value : Webhooks.FieldsWebhook.t) : t := Avatar.
Definition into_db (_value : t) : Webhooks.FieldsWebhook.t := Webhooks.FieldsWebhook.Avatar.
End FieldsWebhook.

Module ResponseWebhook.
Record t : Type := mk {
  id : string;
  name : string;
  avatar : option string;
  channel_id : string;
  permissions : Z
}.
Definition from_webhook (value : Webhook.t) : t :=
  mk (Webhook.id value) (Webhook.name value) (File.id <$> Webhook.avatar value)
    (Webhook.channel_id value) (Webhook.permissions value).
End ResponseWebhook.

(** ** Messages *)

Module SystemMessage.
Inductive t : Type :=
| Text (content : string)
| UserAdded (id by_ : string)
| UserRemove (id by_ : string)
| UserJoined (id : string)
| UserLeft (id : string)
| UserKicked (id : string)
| UserBanned (id : string)
| ChannelRenamed (name by_ : string)
| ChannelDescriptionChanged (by_ : string)
| ChannelIconChanged (by_ : string)
| ChannelOwnershipChanged (from to : string)
| MessagePinned (id by_ : string)
| MessageUnpinned (id by_ : string)
| CallStarted (by_ : string) (finished_at : option Z).
Definition from_db (value : Messages.SystemMessage.t) : t :=
  match value with
  | Messages.SystemMessage.ChannelDescriptionChanged by_ => ChannelDescriptionChanged by_
  | Messages.SystemMessage.ChannelIconChanged by_ => ChannelIconChanged by_
  | Messages.SystemMessage.ChannelOwnershipChanged from to => ChannelOwnershipChanged from to
  | Messages.SystemMessage.ChannelRenamed name by_ => ChannelRenamed name by_
  | Messages.SystemMessage.Text content => Text content
  | Messages.SystemMessage.UserAdded id by_ => UserAdded id by_
  | Messages.SystemMessage.UserBanned id => UserBanned id
  | Messages.SystemMessage.UserJoined id => UserJoined id
  | Messages.SystemMessage.UserKicked id => UserKicked id
  | Messages.SystemMessage.UserLeft id => UserLeft id
  | Messages.SystemMessage.UserRemove id by_ => UserRemove id by_
  | Messages.SystemMessage.MessagePinned id by_ => MessagePinned id by_
  | Messages.SystemMessage.MessageUnpinned id by_ => MessageUnpinned id by_
  | Messages.SystemMessage.CallStarted by_ finished_at => CallStarted by_ finished_at
  end.
End SystemMessage.

Module Interactions.
Record t : Type := mk { reactions : option (list string); restrict_reactions : bool }.
Definition from_db (value : Messages.Interactions.t) : t :=
  mk (Messages.Interactions.reactions value) (Messages.Interactions.restrict_reactions value).
Definition into_db (value : t) : Messages.Interactions.t :=
  Messages.Interactions.mk (reactions value) (restrict_reactions value).
End Interactions.

Module AppendMessage.
Record t : Type := mk { embeds : option (list Embed.t) }.
Definition from_db (value : Messages.AppendMessage.t) : t :=
  mk (Messages.AppendMessage.embeds value).
End AppendMessage.

Module Masquerade.
Record t : Type := mk { name : option string; avatar : option string; colour : option string }.
Definition from_db (value : Messages.Masquerade.t) : t :=
  mk (Messages.Masquerade.name value) (Messages.Masquerade.avatar value)
    (Messages.Masquerade.colour value).
Definition into_db (value : t) : Messages.Masquerade.t :=
  Messages.Masquerade.mk (name value) (avatar value) (colour value).
End Masquerade.

Module FieldsMessage.
Inductive t : Type := Pinned.
Definition from_db (value : Messages.FieldsMessage.t) : t :=
  match value with Messages.FieldsMessage.Pinned => Pinned end.
Definition into_db (value : t) : Messages.FieldsMessage.t :=
  match value with Pinned => Messages.FieldsMessage.Pinned end.
End FieldsMessage.

Module Message.
Record t : Type := mk {
  id : string;
  nonce : option string;
  channel : string;
  author : string;
  user : option User.t;
  member : option Member.t;
  webhook : option MessageWebhook.t;
  content : option string;
  system : option SystemMessage.t;
  attachments : option (list File.t);
  edited : option Z;
  embeds : option (list Embed.t);
  mentions : option (list string);
  role_mentions : option (list string);
  replies : option (list string);
  reactions : list (string * list string);
  interactions : Interactions.t;
  poll : option Poll.t;
  masquerade : option Masquerade.t;
  pinned : option bool;
  flags : Z
}.

Definition set_user (m : t) (u : option User.t) : t :=
  mk (id m) (nonce m) (channel m) (author m) u (member m) (webhook m) (content m) (system m)
    (attachments m) (edited m) (embeds m) (mentions m) (role_mentions m) (replies m)
    (reactions m) (interactions m) (poll m) (masquerade m) (pinned m) (flags m).

Definition into_model (self : Messages.Message.t) (user : option User.t)
    (member : option Member.t) : t := {|
  id := Messages.Message.id self;
  nonce := Messages.Message.nonce self;
  channel := Messages.Message.channel self;
  author := Messages.Message.author self;
  user := user;
  member := member;
  webhook := Messages.Message.webhook self;
  content := Messages.Message.content self;
  system := SystemMessage.from_db <$> Messages.Message.system self;
  attachments := fmap (M := list) File.from_db <$> Messages.Message.attachments self;
  edited := Messages.Message.edited self;
  embeds := Messages.Message.embeds self;
  mentions := Messages.Message.mentions self;
  role_mentions := Messages.Message.role_mentions self;
  replies := Messages.Message.replies self;
  reactions := Messages.Message.reactions self;
  interactions := Interactions.from_db (Messages.Message.interactions self);
  poll := Messages.Message.poll self;
  masquerade := Masquerade.from_db <$> Messages.Message.masquerade self;
  pinned := Messages.Message.pinned self;
  flags := default 0%Z (Messages.Message.flags self) |}.
End Message.

Module PartialMessage.
Record t : Type := mk {
  id : option string;
  nonce : option string;
  channel : option string;
  author : option string;
  user : option User.t;
  member : option Member.t;
  webhook : option MessageWebhook.t;
  content : option string;
  system : option SystemMessage.t;
  attachments : option (list File.t);
  edited : option Z;
  embeds : option (list Embed.t);
  mentions : option (list string);
  role_mentions : option (list string);
  replies : option (list string);
  reactions : option (list (string * list string));
  interactions : option Interactions.t;
  poll : option Poll.t;
  masquerade : option Masquerade.t;
  pinned : option bool;
  flags : option Z
}.

Definition from_db (value : Messages.PartialMessage.t) : t := {|
  id := Messages.PartialMessage.id value;
  nonce := Messages.PartialMessage.nonce value;
  channel := Messages.PartialMessage.channel value;
  author := Messages.PartialMessage.author value;
  user := None;
  member := None;
  webhook := Messages.PartialMessage.webhook value;
  content := Messages.PartialMessage.content value;
  system := SystemMessage.from_db <$> Messages.PartialMessage.system value;
  attachments := fmap (M := list) File.from_db <$> Messages.PartialMessage.attachments value;
  edited := Messages.PartialMessage.edited value;
  embeds := Messages.PartialMessage.embeds value;
  mentions := Messages.PartialMessage.mentions value;
  role_mentions := Messages.PartialMessage.role_mentions value;
  replies := Messages.PartialMessage.replies value;
  reactions := Messages.PartialMessage.reactions value;
  interactions := Interactions.from_db <$> Messages.PartialMessage.interactions value;
  poll := Messages.PartialMessage.poll value;
  masquerade := Masquerade.from_db <$> Messages.PartialMessage.masquerade value;
  pinned := Messages.PartialMessage.pinned value;
  flags := Messages.PartialMessage.flags value |}.
End PartialMessage.

(** ** Audit logs *)

Module AuditLogEntryAction.
Inductive t : Type :=
| MessageDelete (author channel : string)
| MessageBulkDelete (channel : string) (count : nat)
| MessagePin (message author channel : string)
| MessageUnpin (message author channel : string)
| BanCreate (user : string)
| BanDelete (user : string)
| ChannelCreate (channel name : string)
| ChannelEdit (channel : string) (before after : PartialChannel.t)
| ChannelRolePermissionsEdit (channel role : string) (permissions : Override.t)
| ChannelDelete (channel name : string)
| MemberEdit (user : string) (before after : PartialMember.t)
| MemberKick (user : string)
| ServerEdit (before after : PartialServer.t)
| RoleEdit (role : string) (before after : PartialRole.t)
| RoleCreate (role name : string)
| RoleDelete (role name : string)
| RolesReorder (before after : list string)
| InviteCreate (invite channel : string)
| InviteDelete (invite channel : string)
| WebhookCreate (webhook name channel : string)
| WebhookDelete (webhook name channel : string)
| EmojiCreate (emoji name : string)
| EmojiUpdate (emoji : string) (before after : PartialEmoji.t)
| EmojiDelete (emoji name : string).

Definition from_db (value : AuditLogs.AuditLogEntryAction.t) : t :=
  match value with
  | AuditLogs.AuditLogEntryAction.MessageDelete author channel => MessageDelete author channel
  | AuditLogs.AuditLogEntryAction.BanCreate user => BanCreate user
  | AuditLogs.AuditLogEntryAction.BanDelete user => BanDelete user
  | AuditLogs.AuditLogEntryAction.ChannelCreate channel name => ChannelCreate channel name
  | AuditLogs.AuditLogEntryAction.MemberEdit user before after =>
      MemberEdit user (PartialMember.from_db before) (PartialMember.from_db after)
  | AuditLogs.AuditLogEntryAction.MemberKick user => MemberKick user
  | AuditLogs.AuditLogEntryAction.ServerEdit before after =>
      ServerEdit (PartialServer.from_db before) (PartialServer.from_db after)
  | AuditLogs.AuditLogEntryAction.RoleEdit role before after =>
      RoleEdit role (PartialRole.from_db before) (PartialRole.from_db after)
  | AuditLogs.AuditLogEntryAction.RoleCreate role name => RoleCreate role name
  | AuditLogs.AuditLogEntryAction.RoleDelete role name => RoleDelete role name
  | AuditLogs.AuditLogEntryAction.RolesReorder before after => RolesReorder before after
  | AuditLogs.AuditLogEntryAction.MessageBulkDelete channel count =>
      MessageBulkDelete channel count
  | AuditLogs.AuditLogEntryAction.ChannelEdit channel before after =>
      ChannelEdit channel (PartialChannel.from_db before) (PartialChannel.from_db after)
  | AuditLogs.AuditLogEntryAction.ChannelRolePermissionsEdit channel role permissions =>
      ChannelRolePermissionsEdit channel role (OverrideField.into_override permissions)
  | AuditLogs.AuditLogEntryAction.ChannelDelete channel name => ChannelDelete channel name
  | AuditLogs.AuditLogEntryAction.InviteDelete invite channel => InviteDelete invite channel
  | AuditLogs.AuditLogEntryAction.WebhookCreate webhook name channel =>
      WebhookCreate webhook name channel
  | AuditLogs.AuditLogEntryAction.WebhookDelete webhook name channel =>
      WebhookDelete webhook name channel
  | AuditLogs.AuditLogEntryAction.EmojiCreate emoji name => EmojiCreate emoji name
  | AuditLogs.AuditLogEntryAction.EmojiUpdate emoji before after =>
      EmojiUpdate emoji (PartialEmoji.from_db before) (PartialEmoji.from_db after)
  | AuditLogs.AuditLogEntryAction.EmojiDelete emoji name => EmojiDelete emoji name
  | AuditLogs.AuditLogEntryAction.MessagePin message author channel =>
      MessagePin message author channel
  | AuditLogs.AuditLogEntryAction.MessageUnpin message author channel =>
      MessageUnpin message author channel
  | AuditLogs.AuditLogEntryAction.InviteCreate invite channel => InviteCreate invite channel
  end.
End AuditLogEntryAction.

Module AuditLogEntry.
Record t : Type := mk {
  id : string;
  server : string;
  reason : option string;
  user : string;
  target : option string;
  action : AuditLogEntryAction.t
}.
Definition from_db (value : AuditLogs.AuditLogEntry.t) : t :=
  mk (AuditLogs.AuditLogEntry.id value) (AuditLogs.AuditLogEntry.server value)
    (AuditLogs.AuditLogEntry.reason value) (AuditLogs.AuditLogEntry.user value)
    (AuditLogs.AuditLogEntry.target value)
    (AuditLogEntryAction.from_db (AuditLogs.AuditLogEntry.action value)).
End AuditLogEntry.

(** ** Accounts and sessions *)

Module AccountSubscription.
Record t : Type := mk {
  provider : string; tier : string; active_until : Z; cancel_at_period_end : bool
}.
End AccountSubscription.

Module CashPaymentRequest.
Record t : Type := mk { status : string; requested_at : Z }.
End CashPaymentRequest.

Module AccountInfo.
Record t : Type := mk {
  id : string;
  email : string;
  subscription : option AccountSubscription.t;
  cash_payment_request : option CashPaymentRequest.t
}.
Definition from_db (item : Accounts.Account.t) : t :=
  mk (Accounts.Account.id item) (Accounts.Account.email item)
    ((λ s, AccountSubscription.mk (Accounts.Subscription.provider s)
             (Accounts.Subscription.tier s) (Accounts.Subscription.active_until s)
             (Accounts.Subscription.cancel_at_period_end s))
       <$> Accounts.Account.subscription item)
    ((λ r, CashPaymentRequest.mk (Accounts.CashPaymentRequest.status r)
             (Accounts.CashPaymentRequest.requested_at r))
       <$> Accounts.Account.cash_payment_request item).
End AccountInfo.

Module MFATicket.
Record t : Type := mk {
  id : string;
  account_id : string;
  token : string;
  validated : bool;
  authorised : bool;
  last_totp_code : option string
}.
Definition from_db (value : Accounts.MFATicket.t) : t :=
  mk (Accounts.MFATicket.id value) (Accounts.MFATicket.account_id value)
    (Accounts.MFATicket.token value) (Accounts.MFATicket.validated value)
    (Accounts.MFATicket.authorised value) (Accounts.MFATicket.last_totp_code value).
End MFATicket.

Module MultiFactorStatus.
Record t : Type := mk {
  email_otp : bool;
  trusted_handover : bool;
  email_mfa : bool;
  totp_mfa : bool;
  security_key_mfa : bool;
  recovery_active : bool
}.
Definition default : t := mk false false false false false false.
Definition from_db (item : Accounts.MultiFactorAuthentication.t) : t :=
  mk (email_otp default) (trusted_handover default) (email_mfa default)
    (negb (Accounts.Totp.is_disabled (Accounts.MultiFactorAuthentication.totp_token item)))
    (security_key_mfa default)
    (negb (match Accounts.MultiFactorAuthentication.recovery_codes item with
           | [] => true | _ => false end)).
End MultiFactorStatus.

Module MFAMethod.
Inductive t : Type := Password | Recovery | Totp.
Definition from_db (value : Accounts.MFAMethod.t) : t :=
  match value with
  | Accounts.MFAMethod.Password => Password
  | Accounts.MFAMethod.Recovery => Recovery
  | Accounts.MFAMethod.Totp => Totp
  end.
End MFAMethod.

Module WebPushSubscription.
Record t : Type := mk { endpoint : string; p256dh : string; auth : string }.
Definition from_db (value : Accounts.WebPushSubscription.t) : t :=
  mk (Accounts.WebPushSubscription.endpoint value) (Accounts.WebPushSubscription.p256dh value)
    (Accounts.WebPushSubscription.auth value).
Definition into_db (value : t) : Accounts.WebPushSubscription.t :=
  Accounts.WebPushSubscription.mk (endpoint value) (p256dh value) (auth value).
End WebPushSubscription.

Module SessionInfo.
Record t : Type := mk { id : string; name : string }.
Definition from_db (item : Accounts.Session.t) : t :=
  mk (Accounts.Session.id item) (Accounts.Session.name item).
End SessionInfo.

Module Session.
Record t : Type := mk {
  id : string;
  user_id : string;
  token : string;
  name : string;
  last_seen : Z;
  origin : option string;
  subscription : option WebPushSubscription.t
}.
Definition from_db (value : Accounts.Session.t) : t :=
  mk (Accounts.Session.id value) (Accounts.Session.user_id value)
    (Accounts.Session.token value) (Accounts.Session.name value)
    (Accounts.Session.last_seen value) (Accounts.Session.origin value)
    (WebPushSubscription.from_db <$> Accounts.Session.subscription value).
End Session.

End V0.

(** ** Round trips *)

(** The range of [i32], and of the dimensions of a file *)
Definition is_i32 (v : Z) : Prop := (- 2 ^ 31 <= v < 2 ^ 31)%Z.
Definition is_u32 (v : Z) : Prop := (0 <= v < 2 ^ 32)%Z.

Definition metadata_wf (m : Files.Metadata.t) : Prop :=
  match m with
  | Files.Metadata.Image w h _ _ | Files.Metadata.Video w h => is_i64 w ∧ is_i64 h
  | _ => True
  end.
Definition api_metadata_wf (m : V0.Metadata.t) : Prop :=
  match m with
  | V0.Metadata.Image w h _ _ | V0.Metadata.Video w h => is_u64 w ∧ is_u64 h
  | _ => True
  end.

(** What holds of the value, if there is one *)
Definition of_some {A} (P : A → Prop) (o : option A) : Prop :=
  match o with Some x => P x | None => True end.

Definition file_wf (f : Files.File.t) : Prop := metadata_wf (Files.File.metadata f).
Definition api_file_wf (f : V0.File.t) : Prop := api_metadata_wf (V0.File.metadata f).

Definition channel_wf (c : Channels.Channel.t) : Prop :=
  match c with
  | Channels.Channel.Group g => of_some file_wf (Channels.Group.icon g)
  | Channels.Channel.TextChannel t => of_some file_wf (Channels.TextChannel.icon t)
  | _ => True
  end.
Definition server_wf (s : Servers.Server.t) : Prop :=
  of_some file_wf (Servers.Server.icon s) ∧ of_some file_wf (Servers.Server.banner s) ∧
  map_Forall (λ _ r, of_some file_wf (Servers.Role.icon r)) (Servers.Server.roles s) ∧
  of_some is_i32 (Servers.Server.flags s).
Definition member_wf (m : Servers.Member.t) : Prop := of_some file_wf (Servers.Member.avatar m).

(** What of a file, a channel, a server and a member the API carries *)
Definition public_file (f : Files.File.t) : Files.File.t :=
  Files.File.mk (Files.File.id f) (Files.File.tag f) (Files.File.filename f) None None None None
    (Files.File.deleted f) (Files.File.reported f) (Files.File.metadata f)
    (Files.File.content_type f) (Files.File.size f) (Files.File.message_id f)
    (Files.File.user_id f) (Files.File.server_id f) (Files.File.object_id f).

Definition public_channel (c : Channels.Channel.t) : Channels.Channel.t :=
  match c with
  | Channels.Channel.Group g =>
      Channels.Channel.Group (Channels.Group.mk (Channels.Group.id g) (Channels.Group.name g)
        (Channels.Group.owner g) (Channels.Group.description g) (Channels.Group.recipients g)
        (public_file <$> Channels.Group.icon g) (Channels.Group.last_message_id g)
        (Channels.Group.permissions g) (Channels.Group.nsfw g))
  | Channels.Channel.TextChannel t =>
      Channels.Channel.TextChannel (Channels.TextChannel.mk (Channels.TextChannel.id t)
        (Channels.TextChannel.server t) (Channels.TextChannel.name t)
        (Channels.TextChannel.description t) (public_file <$> Channels.TextChannel.icon t)
        (Channels.TextChannel.last_message_id t) (Channels.TextChannel.default_permissions t)
        (Channels.TextChannel.role_permissions t) (Channels.TextChannel.nsfw t)
        (Channels.TextChannel.voice t) (Channels.TextChannel.slowmode t)
        (Channels.TextChannel.forum t))
  | c => c
  end.

Definition public_role (r : Servers.Role.t) : Servers.Role.t :=
  Servers.Role.mk (Servers.Role.id r) (Servers.Role.name r) (Servers.Role.permissions r)
    (Servers.Role.colour r) (Servers.Role.hoist r) (Servers.Role.rank r)
    (public_file <$> Servers.Role.icon r).

Definition public_server (s : Servers.Server.t) : Servers.Server.t :=
  Servers.Server.mk (Servers.Server.id s) (Servers.Server.owner s) (Servers.Server.name s)
    (Servers.Server.description s) (Servers.Server.announcement s) (Servers.Server.channels s)
    (Servers.Server.categories s) (Servers.Server.system_messages s)
    (public_role <$> Servers.Server.roles s) (Servers.Server.default_permissions s)
    (public_file <$> Servers.Server.icon s) (public_file <$> Servers.Server.banner s)
    (Some (default 0%Z (Servers.Server.flags s))) (Servers.Server.nsfw s)
    (Servers.Server.analytics s) (Servers.Server.discoverable s) false.

Definition public_member (m : Servers.Member.t) : Servers.Member.t :=
  Servers.Member.mk (Servers.Member.id m) (Servers.Member.joined_at m)
    (Servers.Member.nickname m) (Servers.Member.pronouns m)
    (public_file <$> Servers.Member.avatar m) (Servers.Member.roles m)
    (Servers.Member.timeout m) (Servers.Member.can_publish m) (Servers.Member.can_receive m).

Lemma as_i32_as_u32 v : is_i32 v → as_i32 (as_u32 v) = v.
Proof.
  intros [Hl Hu]. unfold as_i32, as_u32. rewrite Zmod_mod.
  destruct (Z_lt_dec v 0).
  - rewrite <- (Z_mod_plus_full v 1 (2 ^ 32)), Z.mod_small by lia.
    destruct (Z.ltb_spec (v + 1 * 2 ^ 32) (2 ^ 31)); lia.
  - rewrite Z.mod_small by lia. destruct (Z.ltb_spec v (2 ^ 31)); lia.
Qed.

Lemma as_u32_as_i32 v : is_u32 v → as_u32 (as_i32 v) = v.
Proof.
  intros H. unfold is_u32 in H. unfold as_i32, as_u32. rewrite (Z.mod_small v) by lia.
  destruct (Z.ltb_spec v (2 ^ 31)); [apply Z.mod_small; lia|].
  rewrite <- (Z_mod_plus_full (v - 2 ^ 32) 1 (2 ^ 32)), Z.mod_small; lia.
Qed.

(** Two conversions in a row, under the functors *)
Lemma fmap_option_trip {A B C} (f : A → B) (g : B → C) (h : A → C) (P : A → Prop) o :
  (∀ x, P x → g (f x) = h x) → of_some P o → g <$> (f <$> o) = h <$> o.
Proof. intros Hgf. destruct o as [x|]; [|done]. intros Hx. exact (f_equal Some (Hgf x Hx)). Qed.

Lemma fmap_option_back {A B} (f : A → B) (g : B → A) (P : A → Prop) o :
  (∀ x, P x → g (f x) = x) → of_some P o → g <$> (f <$> o) = o.
Proof. intros Hgf Ho. rewrite (fmap_option_trip f g id P o Hgf Ho). apply option_fmap_id. Qed.

Lemma fmap_list_back {A B} (f : A → B) (g : B → A) (l : list A) :
  (∀ x, g (f x) = x) → g <$> (f <$> l) = l.
Proof. intros Hgf. induction l as [|x l IH]; [done|]. rewrite !fmap_cons. by rewrite Hgf, IH. Qed.

Lemma metadata_trip m : metadata_wf m → V0.Metadata.into_db (V0.Metadata.from_db m) = m.
Proof.
  destruct m as [| |w h th an|w h|]; simpl; try done; intros [Hw Hh];
    unfold as_isize, as_usize; by rewrite !as_i64_as_u64.
Qed.

Lemma api_metadata_trip m :
  api_metadata_wf m → V0.Metadata.from_db (V0.Metadata.into_db m) = m.
Proof.
  destruct m as [| |w h th an|w h|]; simpl; try done; intros [Hw Hh];
    unfold as_isize, as_usize; by rewrite !as_u64_as_i64.
Qed.

Lemma file_trip f : file_wf f → V0.File.into_db (V0.File.from_db f) = public_file f.
Proof.
  intros Hf. unfold V0.File.into_db, V0.File.from_db, public_file. simpl.
  by rewrite metadata_trip.
Qed.

Lemma api_file_trip f : api_file_wf f → V0.File.from_db (V0.File.into_db f) = f.
Proof.
  intros Hf. unfold V0.File.into_db, V0.File.from_db. simpl. rewrite api_metadata_trip by done.
  by destruct f.
Qed.

Lemma category_trip c : V0.Category.into_db (V0.Category.from_db c) = c.
Proof. by destruct c. Qed.

Lemma role_trip r :
  of_some file_wf (Servers.Role.icon r) → V0.Role.into_db (V0.Role.from_db r) = public_role r.
Proof.
  intros Hr. unfold V0.Role.into_db, V0.Role.from_db, public_role. simpl.
  by rewrite (fmap_option_trip _ _ _ _ _ file_trip Hr).
Qed.

Lemma channel_trip c :
  channel_wf c → V0.Channel.into_db (V0.Channel.from_db c) = public_channel c.
Proof.
  destruct c as [[]|[]|g|t]; try done; simpl; intros Hc;
    rewrite (fmap_option_trip _ _ _ _ _ file_trip Hc); [done|].
  rewrite (fmap_option_back V0.VoiceInformation.from_db V0.VoiceInformation.into_db
             (λ _, True)); [done|by intros []|by destruct (Channels.TextChannel.voice t)].
Qed.

Lemma member_trip m :
  member_wf m → V0.Member.into_db (V0.Member.from_db m) = public_member m.
Proof.
  intros Hm. unfold V0.Member.into_db, V0.Member.from_db, public_member. simpl.
  rewrite (fmap_option_trip _ _ _ _ _ file_trip Hm). by destruct (Servers.Member.id m).
Qed.

Lemma roles_trip (roles : gmap string Servers.Role.t) :
  map_Forall (λ _ r, of_some file_wf (Servers.Role.icon r)) roles →
  V0.Role.into_db <$> (V0.Role.from_db <$> roles) = public_role <$> roles.
Proof.
  intros Hr. apply map_eq. intros k. rewrite !lookup_fmap.
  destruct (roles !! k) as [r|] eqn:Hk; [|done]. simpl. f_equal.
  apply role_trip, (Hr k r Hk).
Qed.

Lemma server_trip s :
  server_wf s → V0.Server.into_db (V0.Server.from_db s) = public_server s.
Proof.
  intros (Hi & Hb & Hr & Hf). unfold V0.Server.into_db, V0.Server.from_db, public_server. simpl.
  rewrite !(fmap_option_trip _ _ _ _ _ file_trip) by done. rewrite roles_trip by done.
  rewrite as_i32_as_u32
    by (destruct (Servers.Server.flags s); [exact Hf|split; [done|reflexivity]]).
  rewrite (fmap_option_back (fmap (M := list) V0.Category.from_db)
             (fmap (M := list) V0.Category.into_db) (λ _, True));
    [|intros l _; apply (fmap_list_back _ _ _ category_trip)
     |by destruct (Servers.Server.categories s)].
  rewrite (fmap_option_back V0.SystemMessageChannels.from_db V0.SystemMessageChannels.into_db
             (λ _, True)); [done|by intros []|by destruct (Servers.Server.system_messages s)].
Qed.

(** C37: A channel, a server and a member that are sent as an event and read back, which is how
    the gateway gets its copies, come back with everything but the hash, the uploader, the
    time and the use of their files; whether the server is suspended is lost, and a server without
    flags comes back with the flags 0. *)
Theorem objects_survive_the_api (c : Channels.Channel.t) (s : Servers.Server.t)
    (m : Servers.Member.t) :
  channel_wf c → server_wf s → member_wf m →
  V0.Channel.into_db (V0.Channel.from_db c) = public_channel c ∧
  V0.Server.into_db (V0.Server.from_db s) = public_server s ∧
  V0.Member.into_db (V0.Member.from_db m) = public_member m.
Proof. intros. split_and!; [by apply channel_trip|by apply server_trip|by apply member_trip]. Qed.

(** An API object that is stored comes back as it was sent. *)
Lemma api_channel_trip (v : V0.Channel.t) :
  (match v with
   | V0.Channel.Group _ _ _ _ _ icon _ _ _
   | V0.Channel.TextChannel _ _ _ _ icon _ _ _ _ _ _ _ => of_some api_file_wf icon
   | _ => True
   end) →
  V0.Channel.from_db (V0.Channel.into_db v) = v.
Proof.
  destruct v; try done; simpl; intros Hi;
    rewrite (fmap_option_back _ _ _ _ api_file_trip Hi); [done|].
  rewrite (fmap_option_back V0.VoiceInformation.into_db V0.VoiceInformation.from_db
             (λ _, True)); [done|by intros []|by destruct voice].
Qed.

Lemma api_role_trip r :
  of_some api_file_wf (V0.Role.icon r) → V0.Role.from_db (V0.Role.into_db r) = r.
Proof.
  intros Hr. unfold V0.Role.into_db, V0.Role.from_db. simpl.
  rewrite (fmap_option_back _ _ _ _ api_file_trip Hr). by destruct r.
Qed.

Lemma api_server_trip (v : V0.Server.t) :
  of_some api_file_wf (V0.Server.icon v) → of_some api_file_wf (V0.Server.banner v) →
  map_Forall (λ _ r, of_some api_file_wf (V0.Role.icon r)) (V0.Server.roles v) →
  is_u32 (V0.Server.flags v) →
  V0.Server.from_db (V0.Server.into_db v) = v.
Proof.
  intros Hi Hb Hr Hf. unfold V0.Server.into_db, V0.Server.from_db. simpl.
  rewrite !(fmap_option_back _ _ _ _ api_file_trip) by done. rewrite as_u32_as_i32 by done.
  assert (V0.Role.from_db <$> (V0.Role.into_db <$> V0.Server.roles v) = V0.Server.roles v)
    as ->.
  { apply map_eq. intros k. rewrite !lookup_fmap.
    destruct (V0.Server.roles v !! k) as [r|] eqn:Hk; [|done]. simpl. f_equal.
    apply api_role_trip, (Hr k r Hk). }
  rewrite (fmap_option_back (fmap (M := list) V0.Category.into_db)
             (fmap (M := list) V0.Category.from_db) (λ _, True));
    [|intros l _; apply fmap_list_back; by intros []|by destruct (V0.Server.categories v)].
  rewrite (fmap_option_back V0.SystemMessageChannels.into_db V0.SystemMessageChannels.from_db
             (λ _, True)); [by destruct v|by intros []|by destruct (V0.Server.system_messages v)].
Qed.

(** ** Examples *)

Module Sample.
Definition file : Files.File.t :=
  Files.File.mk "f" "icons" "a.png" (Some "hash") (Some 3%Z) (Some "u") None None None
    (Files.Metadata.Image 16 16 None None) "image/png" 100 None None None None.
Definition channel : Channels.Channel.t :=
  Channels.Channel.TextChannel (Channels.TextChannel.mk "c" "s" "general" None (Some file) None
    None ∅ false (Some (Channels.VoiceInformation.mk (Some 5%Z))) None None).
Definition server : Servers.Server.t :=
  Servers.Server.mk "s" "o" "Server" None None ["c"] (Some [Servers.Category.mk "1" "x" ["c"]])
    None {[ "r" := Servers.Role.mk "r" "Role" OverrideField.default None false 1 (Some file) ]}
    0 (Some file) None (Some (-1)%Z) false false false true.
Definition member : Servers.Member.t :=
  Servers.Member.new (Servers.MemberCompositeKey.mk "s" "u") 7.

Lemma file_ok : file_wf file.
Proof. split; split; vm_compute; congruence. Qed.

Lemma objects_survive_the_api_witness :
  V0.Channel.into_db (V0.Channel.from_db channel) = public_channel channel ∧
  V0.Server.into_db (V0.Server.from_db server) = public_server server ∧
  V0.Member.into_db (V0.Member.from_db member) = public_member member.
Proof.
  apply objects_survive_the_api.
  - exact file_ok.
  - split_and!; [exact file_ok|done| |split; vm_compute; congruence].
    apply map_Forall_singleton. exact file_ok.
  - done.
Defined.

(** The update of a user that is published when their status changes says that they are
    invisible, unlike every other conversion ([invisible_is_hidden]). *)
Example update_reveals_invisible :
  V0.UserStatus.presence <$> V0.PartialUser.status (V0.PartialUser.from_db
    (Users.PartialUser.mk None None None None None None None None
       (Some (Users.UserStatus.mk None (Some Users.Presence.Invisible))) None None None None None
       None)) = Some (Some V0.Presence.Invisible).
Proof. reflexivity. Qed.
End Sample.
