(* ===== verification/Redis.v ===== *)
(** * The key-value store

    What the handlers use of Redis: connections, commands on keys whose values may expire,
    and what is promised of them. The store is the field [redis] of the world. *)

From stdpp Require Import base list gmap strings.
From Stdlib Require Import ZArith Lia.
From S2P Require Import Prelude Errors World References.

Abbreviation store := (gmap string (string * option Z)).

(** The value of a key that is set and has not expired *)
Definition live (k : string) (now : Z) (r : store) : option string :=
  match r !! k with
  | Some (v, None) => Some v
  | Some (v, Some e) => if (now <? e)%Z then Some v else None
  | None => None
  end.

(** A command that fails leaves the store alone and answers [None]. The laws are the
    documented behaviour of [SET NX EX], [TTL], [GET], [SET], [GETSET] and [GETDEL]: the time to
    live is answered in seconds, and whether it is rounded up or down is left open; adding to a
    set under one key leaves the other keys alone. *)
Class Redis := {
  redis_connects : Z → bool;
  redis_set_nx_ex : string → string → Z → Z → store → bool * store;
  redis_ttl : string → Z → store → option Z;
  redis_sadd_expire : string → string → Z → Z → store → store;
  redis_get : string → Z → store → option (option string);
  redis_set : string → string → Z → store → option unit * store;
  redis_getset : string → string → Z → store → option (option string) * store;
  redis_getdel : string → Z → store → option (option string) * store;
  redis_set_sets k v s now r r' :
    redis_set_nx_ex k v s now r = (true, r') → r' !! k = Some (v, Some (now + s * 10 ^ 9)%Z);
  redis_set_present k v s now r x :
    live k now r = Some x → redis_set_nx_ex k v s now r = (false, r);
  redis_ttl_seconds k now r v e t :
    r !! k = Some (v, Some e) → (now < e)%Z → redis_ttl k now r = Some t →
    ((e - now) / 10 ^ 9 ≤ t ≤ (e - now) / 10 ^ 9 + 1)%Z;
  redis_sadd_keeps k member s now r k' :
    k ≠ k' → redis_sadd_expire k member s now r !! k' = r !! k';
  redis_get_live k now r x : redis_get k now r = Some x → x = live k now r;
  redis_set_effect k v now r x r' :
    redis_set k v now r = (x, r') → r' = match x with Some _ => <[k := (v, None)]> r | None => r end;
  redis_getset_effect k v now r x r' :
    redis_getset k v now r = (x, r') →
    match x with Some y => y = live k now r ∧ r' = <[k := (v, None)]> r | None => r' = r end;
  redis_getdel_effect k now r x r' :
    redis_getdel k now r = (x, r') →
    match x with Some y => y = live k now r ∧ r' = delete k r | None => r' = r end
}.

(** One command to the store *)
Definition on_redis {A} (command : Z → store → A * store) : H A :=
  λ w, let '(a, r) := command (World.now w) (World.redis w) in (Ok a, World.set_redis w r).

(** [.to_internal_error()?] *)
Definition internal {A} (o : option A) : H A := lift (ok_or o ErrorType.InternalError).

(** [get_connection().await.map_err(|_| create_error!(InternalError))?] *)
Definition connection `{Redis} : H unit :=
  now ← clock; if redis_connects now then mret tt else throw ErrorType.InternalError.

Lemma connection_reads `{Redis} : reads connection.
Proof. unfold connection. solve_reads. Qed.
Lemma internal_reads {A} (o : option A) : reads (internal o).
Proof. done. Qed.
#[export] Hint Resolve connection_reads internal_reads : reads.

Lemma live_no_expiry k v now r : r !! k = Some (v, None) → live k now r = Some v.
Proof. unfold live. by intros ->. Qed.

Lemma live_insert_ne k k' x now (r : store) : k ≠ k' → live k' now (<[k := x]> r) = live k' now r.
Proof. intros Hne. unfold live. by rewrite lookup_insert_ne. Qed.

Lemma live_insert_eq k v now (r : store) : live k now (<[k := (v, None)]> r) = Some v.
Proof. unfold live. by rewrite lookup_insert_eq. Qed.

(** A store in which every command succeeds *)
Module Store.
Section Store.
Definition set_nx_ex (k v : string) (s now : Z) (r : store) : bool * store :=
  match live k now r with
  | Some _ => (false, r)
  | None => (true, <[k := (v, Some (now + s * 10 ^ 9)%Z)]> r)
  end.
(** The server rounds to the nearest second. *)
Definition ttl (k : string) (now : Z) (r : store) : Z :=
  match r !! k with
  | Some (_, Some e) => if (now <? e)%Z then ((e - now + 5 * 10 ^ 8) / 10 ^ 9)%Z else (-2)%Z
  | Some (_, None) => (-1)%Z
  | None => (-2)%Z
  end.
End Store.

#[refine, local] Instance reliable : Redis := {|
  redis_connects _ := true;
  redis_set_nx_ex := set_nx_ex;
  redis_ttl k now r := Some (ttl k now r);
  redis_sadd_expire k member s now r := <[k := (member, Some (now + s * 10 ^ 9)%Z)]> r;
  redis_get k now r := Some (live k now r);
  redis_set k v now r := (Some tt, <[k := (v, None)]> r);
  redis_getset k v now r := (Some (live k now r), <[k := (v, None)]> r);
  redis_getdel k now r := (Some (live k now r), delete k r)
|}.
Proof.
  - intros k v s now r r'. unfold set_nx_ex. destruct (live k now r); [done|].
    intros [= <-]. apply lookup_insert_eq.
  - intros k v s now r x Hx. unfold set_nx_ex. by rewrite Hx.
  - intros k now r v e t Hk Hlt. unfold ttl. rewrite Hk, (proj2 (Z.ltb_lt _ _) Hlt). intros [= <-].
    split.
    + apply Z.div_le_mono; lia.
    + replace ((e - now) / 10 ^ 9 + 1)%Z with ((e - now + 1 * 10 ^ 9) / 10 ^ 9)%Z by (by rewrite Z.div_add by lia).
      apply Z.div_le_mono; lia.
  - intros k member s now r k' Hne. by apply lookup_insert_ne.
  - by intros k now r x [= <-].
  - by intros k v now r x r' [= <- <-].
  - by intros k v now r x r' [= <- <-].
  - by intros k now r x r' [= <- <-].
Defined.
End Store.
