(* ===== verification/MessageCreate.v ===== *)
(** * Creating messages from requests

    [Message::create_from_api] with [attach_sendable_embed] and [create_embed] of
    [models/messages/model.rs], and the route [message_send]
    ([delta/src/routes/channels/message_send.rs]) with its checks of permissions and the slow
    mode of a channel. The theorems are in [MessageTheorems.v]. *)

From stdpp Require Import base list gmap strings pretty.
From Stdlib Require Import ZArith Lia.
From S2P Require Import Prelude Errors Permissions PermissionSpec Files Users Servers Channels.
From S2P Require Import PermissionQuery Messages Unreads Config Emojis Webhooks Bots AuditLogs.
From S2P Require Import World Database PermissionTheorems BulkPermissions Relationships.
From S2P Require Import MessageOps ChannelOps Parser References Authors Redis.

(** ** The request *)

Module ReplyIntent.
Record t : Type := mk { id : string; mention : bool; fail_if_not_exists : option bool }.
End ReplyIntent.

Module SendableEmbed.
Record t : Type := mk {
  icon_url : option string;
  url : option string;
  title : option string;
  description : option string;
  media : option string;
  colour : option string
}.
Definition valid `{Validator} (e : t) : bool :=
  valid_option (valid_length 1 256) (icon_url e) && valid_option (valid_length 1 256) (url e) &&
  valid_option (valid_length 1 100) (title e) &&
  valid_option (valid_length 1 2000) (description e) &&
  valid_option (λ c, valid_length 1 128 c && is_match "RE_COLOUR" c) (colour e).
End SendableEmbed.

Definition masquerade_valid `{Validator} (m : Masquerade.t) : bool :=
  valid_option (valid_length 1 32) (Masquerade.name m) &&
  valid_option (valid_length 1 256) (Masquerade.avatar m) &&
  valid_option (λ c, valid_length 1 128 c && is_match "RE_COLOUR" c) (Masquerade.colour m).

Module PollCreate.
Record t : Type := mk {
  question : string; options : list string; multiple : option bool; duration : option Z
}.
Definition valid `{Validator} (p : t) : bool :=
  valid_length 1 256 (question p) &&
  bool_decide (2 ≤ length (options p))%nat && bool_decide (length (options p) ≤ 10)%nat &&
  valid_option (λ d, (60 <=? d)%Z && (d <=? 31536000)%Z) (duration p).
End PollCreate.

Module DataMessageSend.
Record t : Type := mk {
  nonce : option string;
  content : option string;
  attachments : option (list string);
  replies : option (list ReplyIntent.t);
  embeds : option (list SendableEmbed.t);
  masquerade : option Masquerade.t;
  interactions : option Interactions.t;
  poll : option PollCreate.t;
  flags : option Z
}.
Definition valid `{Validator} (d : t) : bool :=
  valid_option (valid_length 1 64) (nonce d) &&
  valid_option (forallb SendableEmbed.valid) (embeds d) &&
  valid_option masquerade_valid (masquerade d) && valid_option PollCreate.valid (poll d).
End DataMessageSend.

(** [str::trim] *)
Class Trim := str_trim : string → string.

(** The lexer that the derive macro of [logos] generates *)
Class Lexer := lex : string → list MessageToken.t.

(** [v.as_ref().is_none_or(|v| v.is_empty())] *)
Definition none_or_empty {A} (v : option (list A)) : bool :=
  match v with Some (_ :: _) => false | _ => true end.
Definition none_or_blank (v : option string) : bool :=
  match v with Some (String _ _) => false | _ => true end.

Definition set_attachments (m : Message.t) (x : option (list File.t)) : Message.t :=
  Message.mk (Message.id m) (Message.nonce m) (Message.channel m) (Message.author m)
    (Message.webhook m) (Message.content m) (Message.system m) x (Message.edited m)
    (Message.embeds m) (Message.mentions m) (Message.role_mentions m) (Message.replies m)
    (Message.reactions m) (Message.interactions m) (Message.poll m) (Message.masquerade m)
    (Message.pinned m) (Message.flags m).
Definition set_content_nonce (m : Message.t) (content nonce : option string) : Message.t :=
  Message.mk (Message.id m) nonce (Message.channel m) (Message.author m)
    (Message.webhook m) content (Message.system m) (Message.attachments m) (Message.edited m)
    (Message.embeds m) (Message.mentions m) (Message.role_mentions m) (Message.replies m)
    (Message.reactions m) (Message.interactions m) (Message.poll m) (Message.masquerade m)
    (Message.pinned m) (Message.flags m).

Section Create.
Context `{Environment, MutualIds, HashIter, Lru, Validator, Lowercase, Trim, Lexer}.

(** ** Embeds and polls *)

(** The media of an embed, claimed for the message *)
Definition embed_media (self : Message.t) (media : option string) : H (option File.t) :=
  match media with
  | Some id =>
      file ← on_files (UseFile.use_attachment id (Message.id self) (Message.author self));
      mret (Some file)
  | None => mret None
  end.

Definition embed_text (embed : SendableEmbed.t) (media : option File.t) : Embed.t :=
  Embed.Text (Text.mk (SendableEmbed.icon_url embed) (SendableEmbed.url embed)
    (SendableEmbed.title embed) (SendableEmbed.description embed) media
    (SendableEmbed.colour embed)).

(** Create text embed from sendable embed *)
Definition create_embed (self : Message.t) (embed : SendableEmbed.t) : H Embed.t :=
  validate SendableEmbed.valid embed ;;
  media ← embed_media self (SendableEmbed.media embed);
  mret (embed_text embed media).

(** Convert sendable embed to text embed and attach to message *)
Definition attach_sendable_embed (self : Message.t) (embed : SendableEmbed.t) : H Message.t :=
  media ← embed_media self (SendableEmbed.media embed);
  let embed := embed_text embed media in
  mret (Message.set_embeds self
          (Some (match Message.embeds self with
                 | Some embeds => embeds ++ [embed]
                 | None => [embed]
                 end))).

(** [for sendable_embed in data.embeds { message.attach_sendable_embed(..)?; }] *)
Fixpoint attach_sendable_embeds (message : Message.t) (embeds : list SendableEmbed.t) :
    H Message.t :=
  match embeds with
  | [] => mret message
  | embed :: embeds =>
      message ← attach_sendable_embed message embed; attach_sendable_embeds message embeds
  end.

(** [poll.options.iter().any(..)]: an option that is blank, or the same as an earlier one;
    [options] is the set of those seen *)
Fixpoint invalid_options (options : gset string) (l : list string) : bool :=
  match l with
  | [] => false
  | option :: l =>
      bool_decide (str_trim option = "") ||
      let key := to_lowercase (str_trim option) in
      bool_decide (key ∈ options) || invalid_options ({[key]} ∪ options) l
  end.

Definition new_poll (now : Z) (poll : PollCreate.t) : Poll.t :=
  Poll.mk (PollCreate.question poll)
    (imap (λ index text, PollOption.mk (pretty (N.of_nat (index + 1))) text)
       (PollCreate.options poll))
    (default false (PollCreate.multiple poll)) false
    ((λ duration, (as_i64 (now / 10 ^ 6) + duration * 1000)%Z) <$> PollCreate.duration poll) [].

(** ** Mentions *)

Definition mentions_any (everyone online : bool) (roles : gset string) : bool :=
  everyone || online || negb (bool_decide (roles = ∅)).

(** Of the roles mentioned in a server, those that exist; a server that cannot be fetched
    panics *)
Definition known_roles (allow_mass_mentions : bool) (server_id : option string)
    (role_mentions : gset string) : H (gset string) :=
  match server_id with
  | Some server_id =>
      if allow_mass_mentions && negb (bool_decide (role_mentions = ∅)) then
        server ← outcome (on_servers (ServersTable.fetch_server server_id));
        match server with
        | Ok server_data =>
            mret (filter (λ role_id, is_Some (Server.roles server_data !! role_id)) role_mentions)
        | _ => panic
        end
      else mret role_mentions
  | None => mret role_mentions
  end.

(** Validate the user can perform a mass mention: what is left of it *)
Definition mass_mentions (author : MessageAuthor.t) (channel : Channel.t)
    (everyone online : bool) (roles : gset string) : H (bool * bool * gset string) :=
  if negb (Settings.mass_mentions_enabled config) && mentions_any everyone online roles
  then mret (false, false, ∅) else
  if mentions_any everyone online roles then
    match author with
    | MessageAuthor.User user =>
        found ← query_channel (from_model user) channel;
        if negb (PermissionValue.has_channel_permission found.1
                   ChannelPermission.PingEveryoneAndRoles)
        then throw (ErrorType.MissingPermission
                      (ChannelPermission.to_string ChannelPermission.PingEveryoneAndRoles))
        else mret (everyone, online, roles)
    | MessageAuthor.System _ _ => throw ErrorType.InvalidProperty
    | MessageAuthor.Webhook _ => mret (everyone, online, roles)
    end
  else mret (everyone, online, roles).

(** The loop over the replies: the users mentioned so far and the replies so far *)
Fixpoint collect_replies (allow_mentions : bool) (entries : list ReplyIntent.t)
    (user_mentions : gset string) (replies : list string) : H (gset string * list string) :=
  match entries with
  | [] => mret (user_mentions, replies)
  | entry :: entries =>
      found ← outcome (on_messages (MessagesTable.fetch_message (ReplyIntent.id entry)));
      match found with
      | Ok message =>
          collect_replies allow_mentions entries
            (if ReplyIntent.mention entry && allow_mentions
             then {[Message.author message]} ∪ user_mentions else user_mentions)
            (if bool_decide (Message.id message ∈ replies) then replies
             else replies ++ [Message.id message])
      | Err e =>
          if negb (match e with ErrorType.NotFound => true | _ => false end) ||
             default true (ReplyIntent.fail_if_not_exists entry)
          then throw e else collect_replies allow_mentions entries user_mentions replies
      | Panicked => panic
      end
  end.

Definition check_replies (allow_mentions : bool) (entries : option (list ReplyIntent.t))
    (user_mentions : gset string) : H (gset string * list string) :=
  match entries with
  | Some entries =>
      if bool_decide (GlobalLimits.message_replies global_limits < length entries)%nat
      then throw (ErrorType.TooManyReplies
                    (Z.of_nat (GlobalLimits.message_replies global_limits)))
      else collect_replies allow_mentions entries user_mentions []
  | None => mret (user_mentions, [])
  end.

(** The members of the server among the mentioned who can see the channel *)
Definition mentions_in_server (channel : Channel.t) (server : string)
    (user_mentions : gset string) : H (gset string) :=
  valid_members ← on_members (MembersTable.fetch_members server (hash_set_iter user_mentions));
  let user_mentions : gset string :=
    filter (λ m, m ∈ ((λ m, MemberCompositeKey.user (Member.id m)) <$> valid_members))
      user_mentions in
  if bool_decide (user_mentions = ∅) then mret user_mentions else
  w ← get;
  query ← lift (BulkDatabasePermissionQuery.from_server_id (World.db w) server (World.now w));
  seen ← lift (Bulk.members_can_see_channel
            (BulkDatabasePermissionQuery.with_members
               (BulkDatabasePermissionQuery.with_channel query channel) valid_members));
  mret (filter (λ m, default false (seen !! m) = true) user_mentions).

(** Validate the mentions go to users in the channel/server *)
Definition valid_mentions (channel : Channel.t) (user_mentions role_mentions : gset string) :
    H (gset string * gset string) :=
  if bool_decide (user_mentions = ∅) then mret (user_mentions, role_mentions) else
  match channel with
  | Channel.DirectMessage c => mret (filter (.∈ DirectMessage.recipients c) user_mentions, ∅)
  | Channel.Group c => mret (filter (.∈ Group.recipients c) user_mentions, ∅)
  | Channel.TextChannel c =>
      user_mentions ← mentions_in_server channel (TextChannel.server c) user_mentions;
      mret (user_mentions, role_mentions)
  | Channel.SavedMessages _ => mret (∅, role_mentions)
  end.

(** ** Attachments *)

Fixpoint use_attachments (ids : list string) (message_id author : string) : H (list File.t) :=
  match ids with
  | [] => mret []
  | attachment_id :: ids =>
      file ← on_files (UseFile.use_attachment attachment_id message_id author);
      files ← use_attachments ids message_id author;
      mret (file :: files)
  end.

Definition too_many {A} (v : option (list A)) (max : nat) : bool :=
  match v with Some v => bool_decide (max < length v)%nat | None => false end.

(** ** Create message from API data *)

(** The checks of the request before anything is looked up: not empty, flags (read as
    suppress, everyone, online), reactions, poll *)
Definition check_data (data : DataMessageSend.t) (user : option V0User.t)
    (allow_mentions : bool) : Result (bool * bool * bool) :=
  if none_or_blank (DataMessageSend.content data) &&
     none_or_empty (DataMessageSend.attachments data) &&
     none_or_empty (DataMessageSend.embeds data) &&
     negb (bool_decide (is_Some (DataMessageSend.poll data)))
  then Err ErrorType.EmptyMessage else
  flags ← request_flags (DataMessageSend.flags data) allow_mentions
            (match user with
             | Some u => negb (bool_decide (is_Some (V0User.bot u)))
             | None => false
             end);
  if match DataMessageSend.interactions data with
     | Some interactions =>
         Interactions.restrict_reactions interactions &&
         none_or_empty (Interactions.reactions interactions)
     | None => false
     end
  then Err ErrorType.InvalidProperty else
  if match DataMessageSend.poll data with
     | Some poll => invalid_options ∅ (PollCreate.options poll)
     | None => false
     end
  then Err ErrorType.InvalidProperty else Ok flags.

Definition message_webhook (author : MessageAuthor.t) : option MessageWebhook.t :=
  match author with
  | MessageAuthor.Webhook webhook =>
      Some (MessageWebhook.mk (Webhook.name webhook) (File.id <$> Webhook.avatar webhook))
  | _ => None
  end.

(** A set as the optional list of a message: [None] when it is empty *)
Definition some_set (s : gset string) : option (list string) :=
  if bool_decide (s = ∅) then None else Some (hash_set_iter s).
Definition some_list {A} (l : list A) : option (list A) :=
  match l with [] => None | _ => Some l end.

Definition create_from_api (channel : Channel.t) (data : DataMessageSend.t)
    (author : MessageAuthor.t) (user : option V0User.t) (member : option Member.t)
    (limits : FeaturesLimits.t) (idempotency : IdempotencyKey.t)
    (generate_embeds allow_mentions : bool) : H Message.t :=
  lift (Message.validate_sum (DataMessageSend.content data)
          (SendableEmbed.description <$> default [] (DataMessageSend.embeds data))
          (Z.of_nat (FeaturesLimits.message_length limits))) ;;
  consumed ← attempt (IdempotencyKey.consume_nonce idempotency (DataMessageSend.nonce data));
  idempotency ← lift (ok_or consumed ErrorType.InvalidOperation);
  flags ← lift (check_data data user allow_mentions);
  let '(suppress_notifications, mentions_everyone, mentions_online) := flags in
  let allow_mass_mentions := allow_mentions && Settings.mass_mentions_enabled config in
  message_id ← ulid;
  now ← clock;
  parsed ← match DataMessageSend.content data with
           | Some raw_content => lift (unwrap (parse_message lex raw_content))
           | None => mret MessageResults.default
           end;
  role_mentions ← known_roles allow_mass_mentions (Channel.server channel)
                    (MessageResults.role_mentions parsed);
  mass ← mass_mentions author channel
           (MessageResults.mentions_everyone parsed || mentions_everyone)
           (MessageResults.mentions_online parsed || mentions_online) role_mentions;
  let '(mentions_everyone, mentions_online, role_mentions) := mass in
  replied ← check_replies allow_mentions (DataMessageSend.replies data)
              (MessageResults.user_mentions parsed);
  let '(user_mentions, replies) := replied in
  mentioned ← valid_mentions channel user_mentions role_mentions;
  let '(user_mentions, role_mentions) := mentioned in
  let message :=
    Message.mk message_id None (Channel.id channel) (MessageAuthor.id author)
      (message_webhook author) None None None None None
      (some_set user_mentions) (some_set role_mentions) (some_list replies) []
      (default Interactions.default (DataMessageSend.interactions data))
      (new_poll now <$> DataMessageSend.poll data) (DataMessageSend.masquerade data) None
      (Some (final_flags suppress_notifications mentions_everyone mentions_online)) in
  if too_many (DataMessageSend.attachments data) (FeaturesLimits.message_attachments limits)
  then throw (ErrorType.TooManyAttachments (Z.of_nat (FeaturesLimits.message_attachments limits)))
  else
  if too_many (DataMessageSend.embeds data) (GlobalLimits.message_embeds global_limits)
  then throw (ErrorType.TooManyEmbeds (Z.of_nat (GlobalLimits.message_embeds global_limits)))
  else
  attachments ← use_attachments (default [] (DataMessageSend.attachments data)) message_id
                  (MessageAuthor.id author);
  let message := set_attachments message (some_list attachments) in
  message ← attach_sendable_embeds message (default [] (DataMessageSend.embeds data));
  let message := set_content_nonce message (DataMessageSend.content data)
                   (Some (IdempotencyKey.into_key idempotency)) in
  send message author user member channel generate_embeds ;;
  mret message.
End Create.

(** ** Slow mode and the route *)

Section Send.
Context `{Environment, MutualIds, HashIter, Lru, Validator, Lowercase, Trim, Lexer, Redis}.

Definition slowmode_key (user channel : string) : string :=
  "slowmode:" +:+ user +:+ ":" +:+ channel.
Definition slowmode_index (user : string) : string := "slowmode_idx:" +:+ user.

(** The slow mode of a channel for a user who cannot bypass it *)
Definition check_slowmode (user : User.t) (channel_id : string) (channel_slowmode : Z) : H unit :=
  now ← clock;
  if redis_connects now then
    let key := slowmode_key (User.id user) channel_id in
    set_result ← on_redis (redis_set_nx_ex key "1" channel_slowmode);
    (if (set_result : bool) then
       on_redis (λ now r, (tt, redis_sadd_expire (slowmode_index (User.id user)) channel_id
                                 channel_slowmode now r))
     else mret tt) ;;
    if negb set_result then
      ttl ← on_redis (λ now r, (default 0%Z (redis_ttl key now r), r));
      if (0 <? ttl)%Z then
        private (EventV1.UserSlowmodes channel_id channel_slowmode ttl) (User.id user) ;;
        throw (ErrorType.InSlowmode ttl)
      else mret tt
    else private (EventV1.UserSlowmodes channel_id channel_slowmode channel_slowmode) (User.id user)
  else mret tt.

(** Whether a message may mention anybody: new users may not in discoverable servers *)
Definition may_mention (now : Z) (user : string) (server : option Server.t) : Result bool :=
  match server with
  | Some server =>
      if Server.discoverable server then
        ms ← unwrap (ulid_timestamp_ms user);
        if (now <? ms * 10 ^ 6)%Z then Panicked
        else Ok (12 * 3600 * 10 ^ 9 <=? now - ms * 10 ^ 6)%Z
      else Ok true
  | None => Ok true
  end.

(** The permissions that parts of the request need *)
Definition require_for_parts (permissions : PermissionValue.t) (data : DataMessageSend.t) : H unit :=
  match DataMessageSend.masquerade data with
  | Some masq =>
      require permissions ChannelPermission.Masquerade ;;
      if bool_decide (is_Some (Masquerade.colour masq))
      then require permissions ChannelPermission.ManageRole else mret tt
  | None => mret tt
  end ;;
  (if negb (none_or_empty (DataMessageSend.embeds data))
   then require permissions ChannelPermission.SendEmbeds else mret tt) ;;
  (if negb (none_or_empty (DataMessageSend.attachments data))
   then require permissions ChannelPermission.UploadFiles else mret tt).

(** Send Message; the XP that the route awards afterwards exists only on MongoDB *)
Definition message_send (user : User.t) (target : string) (data : DataMessageSend.t)
    (idempotency : IdempotencyKey.t) : H (Message.t * V0User.t * option Member.t) :=
  validate DataMessageSend.valid data ;;
  channel ← Reference.as_channel target;
  found ← query_channel user channel;
  let '(permissions, query) := found in
  require permissions ChannelPermission.SendMessage ;;
  require_for_parts permissions data ;;
  (if negb (PermissionValue.has_channel_permission permissions ChannelPermission.BypassSlowmode) then
     match channel with
     | Channel.TextChannel c =>
         match TextChannel.slowmode c with
         | Some channel_slowmode =>
             if (0 <? channel_slowmode)%Z
             then check_slowmode user (TextChannel.id c) channel_slowmode else mret tt
         | None => mret tt
         end
     | _ => mret tt
     end
   else mret tt) ;;
  match DataMessageSend.interactions data with
  | Some interactions => validate_interactions interactions permissions
  | None => mret tt
  end ;;
  now ← clock;
  allow_mentions ← lift (may_mention now (User.id user) (DatabasePermissionQuery.server query));
  author ← into_model user (Some user);
  membership ← ask DatabasePermissionQuery.a_member query;
  model_user ← lift (into_known_static user (is_online (User.id user)));
  let model_member := DatabasePermissionQuery.member membership.2 in
  limits ← lift (user_limits now (User.id user));
  message ← create_from_api channel data (MessageAuthor.User author) (Some model_user) model_member
              limits idempotency
              (PermissionValue.has_channel_permission permissions ChannelPermission.SendEmbeds)
              allow_mentions;
  mret (message, model_user, model_member).
End Send.
