(* ===== verification/MessageTheorems.v ===== *)
(** * Properties of creating messages

    The theorems about [create_from_api] and [message_send] of [MessageCreate.v]: whom a
    message may mention, what a mass mention requires, which limits hold of a stored
    message, that a nonce is used once, what sending needs and how slow mode works. *)

From stdpp Require Import base list gmap strings pretty.
From Stdlib Require Import ZArith Lia.
From S2P Require Import Prelude Errors Permissions PermissionSpec Files Users Servers Channels.
From S2P Require Import PermissionQuery Messages Unreads Config Emojis Webhooks Bots AuditLogs.
From S2P Require Import World Database PermissionTheorems BulkPermissions Relationships.
From S2P Require Import MessageOps ChannelOps Parser References Authors Redis MessageCreate.

(** ** The stages of a message that was created *)

Section Stages.
Context `{Environment, MutualIds, HashIter, Lru, Validator, Lowercase, Trim, Lexer}.

Lemma known_roles_reads a s r : reads (known_roles a s r).
Proof. unfold known_roles, on_servers. solve_reads. Qed.
Lemma mass_mentions_reads author c e o r : reads (mass_mentions author c e o r).
Proof. unfold mass_mentions. solve_reads. Qed.
Lemma collect_replies_reads a l : ∀ um rs, reads (collect_replies a l um rs).
Proof. induction l as [|x l IH]; intros um rs; simpl; unfold on_messages; solve_reads; apply IH. Qed.
Lemma check_replies_reads a l um : reads (check_replies a l um).
Proof. unfold check_replies. pose proof collect_replies_reads. solve_reads. Qed.
Lemma mentions_in_server_reads c s um : reads (mentions_in_server c s um).
Proof.
  unfold mentions_in_server, on_members. apply reads_bind; [solve_reads|intros ms]. cbv zeta.
  case_bool_decide; [solve_reads|]. apply reads_bind; [done|intros w0]. solve_reads.
Qed.
Lemma valid_mentions_reads c um rm : reads (valid_mentions c um rm).
Proof.
  unfold valid_mentions. pose proof mentions_in_server_reads.
  case_bool_decide; [solve_reads|]. destruct c; solve_reads.
Qed.
Hint Resolve known_roles_reads mass_mentions_reads check_replies_reads : reads.
Hint Resolve mentions_in_server_reads valid_mentions_reads : reads.

(** Attaching embeds changes only the embeds of the message. *)
Lemma attach_sendable_embeds_fields l : ∀ m w m' w',
  attach_sendable_embeds m l w = (Ok m', w') →
  m' = Message.set_embeds m (Message.embeds m') ∧
  length (default [] (Message.embeds m')) = (length (default [] (Message.embeds m)) + length l)%nat.
Proof.
  induction l as [|e l IH]; intros m w m' w' Hrun; simpl in Hrun.
  - injection Hrun as <- <-. destruct m; simpl. split; [done|lia].
  - apply bind_Ok_inv in Hrun as (m1 & w1 & Hone & Hrun). unfold attach_sendable_embed in Hone.
    apply bind_Ok_inv in Hone as (media & w2 & _ & Hone). injection Hone as <- <-.
    apply IH in Hrun as [-> Hlen]. split; [done|]. simpl in *. rewrite Hlen.
    destruct (Message.embeds m); simpl; rewrite ?length_app; simpl; lia.
Qed.

Lemma use_attachments_length l mid a w files w' :
  use_attachments l mid a w = (Ok files, w') → length files = length l.
Proof.
  revert w files. induction l as [|x l IH]; intros w files Hrun; simpl in Hrun.
  - by injection Hrun as <- <-.
  - apply bind_Ok_inv in Hrun as (f & w1 & _ & Hrun).
    apply bind_Ok_inv in Hrun as (fs & w2 & Hfs & Hrun). injection Hrun as <- <-.
    simpl. f_equal. by eapply IH.
Qed.

(** What a run of [create_from_api] that succeeded went through. [wx] is the world in which
    mentions are resolved: that of the call, except for the nonce and the new id. *)
Record created (channel : Channel.t) (data : DataMessageSend.t) (author : MessageAuthor.t)
    (user : option V0User.t) (member : option Member.t) (limits : FeaturesLimits.t)
    (idempotency : IdempotencyKey.t) (generate_embeds allow_mentions : bool)
    (w : World.t) (message : Message.t) (w' : World.t) : Prop := {
  created_sum : Message.validate_sum (DataMessageSend.content data)
      (SendableEmbed.description <$> default [] (DataMessageSend.embeds data))
      (Z.of_nat (FeaturesLimits.message_length limits)) = Ok tt;
  created_stages : ∃ idempotency' w1 suppress everyone online parsed roles0 everyone' online'
      roles1 users0 replies users1 roles2 files w2 message1 w3,
    let wx := World.set_ulids w1 (S (World.ulids w1)) in
    IdempotencyKey.consume_nonce idempotency (DataMessageSend.nonce data) w =
      (Ok idempotency', w1) ∧
    check_data data user allow_mentions = Ok (suppress, everyone, online) ∧
    known_roles (allow_mentions && Settings.mass_mentions_enabled config) (Channel.server channel)
      (MessageResults.role_mentions parsed) wx = (Ok roles0, wx) ∧
    mass_mentions author channel (MessageResults.mentions_everyone parsed || everyone)
      (MessageResults.mentions_online parsed || online) roles0 wx =
      (Ok (everyone', online', roles1), wx) ∧
    check_replies allow_mentions (DataMessageSend.replies data)
      (MessageResults.user_mentions parsed) wx = (Ok (users0, replies), wx) ∧
    valid_mentions channel users0 roles1 wx = (Ok (users1, roles2), wx) ∧
    too_many (DataMessageSend.attachments data) (FeaturesLimits.message_attachments limits) = false ∧
    too_many (DataMessageSend.embeds data) (GlobalLimits.message_embeds global_limits) = false ∧
    use_attachments (default [] (DataMessageSend.attachments data)) (Message.id message)
      (MessageAuthor.id author) wx = (Ok files, w2) ∧
    attach_sendable_embeds message1 (default [] (DataMessageSend.embeds data)) w2 =
      (Ok (Message.set_embeds message1 (Message.embeds message)), w3) ∧
    Message.embeds message1 = None ∧
    send message author user member channel generate_embeds w3 = (Ok tt, w') ∧
    message = Message.mk (new_ulid (World.ulids w1)) (Some (IdempotencyKey.into_key idempotency'))
      (Channel.id channel) (MessageAuthor.id author) (message_webhook author)
      (DataMessageSend.content data) None (some_list files) None (Message.embeds message)
      (some_set users1) (some_set roles2) (some_list replies) []
      (default Interactions.default (DataMessageSend.interactions data))
      (new_poll (World.now w1) <$> DataMessageSend.poll data) (DataMessageSend.masquerade data) None
      (Some (final_flags suppress everyone' online'))
}.

Lemma create_from_api_created channel data author user member limits idem ge am w message w' :
  create_from_api channel data author user member limits idem ge am w = (Ok message, w') →
  created channel data author user member limits idem ge am w message w'.
Proof.
  unfold create_from_api. intros Hrun. unbind Hrun u.
  apply bind_Ok_inv in Hrun as (consumed & w1 & Hconsume & Hrun).
  unbind Hrun idem'. unbind Hrun flags. destruct flags as [[suppress everyone] online].
  apply bind_Ok_inv in Hrun as (mid & wx & Hid & Hrun). injection Hid as <- <-.
  unbind Hrun now. injection Enow as <-. unbind Hrun parsed. clear Eparsed. unbind Hrun roles0.
  unbind Hrun mass. destruct mass as [[everyone' online'] roles1].
  unbind Hrun replied. destruct replied as [users0 replies].
  unbind Hrun mentioned. destruct mentioned as [users1 roles2].
  destruct (too_many (DataMessageSend.attachments data) _) eqn:Hatt; [done|].
  destruct (too_many (DataMessageSend.embeds data) _) eqn:Hemb; [done|].
  apply bind_Ok_inv in Hrun as (files & w2 & Hfiles & Hrun).
  apply bind_Ok_inv in Hrun as (message1 & w3 & Hembeds & Hrun).
  apply bind_Ok_inv in Hrun as ([] & w4 & Hsend & Hrun). injection Hrun as <- <-.
  pose proof (attach_sendable_embeds_fields _ _ _ _ _ Hembeds) as [Hm1 _].
  assert (IdempotencyKey.consume_nonce idem (DataMessageSend.nonce data) w = (Ok idem', w1)) as Hc.
  { unfold attempt in Hconsume. unfold lift in Eidem'.
    by destruct (IdempotencyKey.consume_nonce _ _ w) as [[x| |] wc]; simplify_eq/=. }
  destruct u. split; [unfold lift in Eu; by simplify_eq|].
  eexists idem', w1, suppress, everyone, online, parsed, roles0, everyone', online', roles1, users0,
    replies, users1, roles2, files, w2, _, w3. cbv zeta.
  split_and!; try done.
  - unfold lift in Eflags. by simplify_eq.
  - rewrite Hm1. exact Hfiles.
  - rewrite Hembeds. rewrite Hm1 at 1. done.
  - done.
  - rewrite Hm1 at 1. done.
Qed.
End Stages.

(** ** Whom a message mentions *)

Definition members_keyed (t : MembersTable.table) : Prop :=
  ∀ k m, t !! k = Some m → Member.id m = k.
Definition servers_keyed (t : ServersTable.table) : Prop :=
  ∀ k s, t !! k = Some s → Server.id s = k.
(** Users, members and servers are stored under their ids. *)
Definition keyed (d : ReferenceDb.t) : Prop :=
  users_keyed (ReferenceDb.users d) ∧ members_keyed (ReferenceDb.server_members d) ∧
  servers_keyed (ReferenceDb.servers d).

Section Mentions.
Context `{Environment, MutualIds, HashIter, Lru, Validator, Lowercase, Trim, Lexer}.

(** A member of the server of [c] who is granted the permission to view it *)
Definition can_view (d : ReferenceDb.t) (now : Z) (c : TextChannel.t) (u : string) : Prop :=
  ∃ s user m p q,
    ReferenceDb.servers d !! TextChannel.server c = Some s ∧
    ReferenceDb.users d !! u = Some user ∧
    ReferenceDb.server_members d !! MemberCompositeKey.mk (TextChannel.server c) u = Some m ∧
    calculate_channel_permissions (single_query d now user c s m) = (Ok p, q) ∧
    PermissionValue.has_channel_permission p ChannelPermission.ViewChannel = true.

(** Fetching members by user ids gives each of them once. *)
Lemma fetched_members t server ids :
  members_keyed t → NoDup ids →
  let ms := omap (λ id, t !! MemberCompositeKey.mk server id) ids in
  NoDup ((λ m, MemberCompositeKey.user (Member.id m)) <$> ms) ∧
  ∀ m, m ∈ ms → MemberCompositeKey.user (Member.id m) ∈ ids ∧
    t !! MemberCompositeKey.mk server (MemberCompositeKey.user (Member.id m)) = Some m.
Proof.
  intros Hk. induction ids as [|id ids IH]; intros Hn; simpl; [by split; [constructor|set_solver]|].
  apply NoDup_cons in Hn as [Hid Hn]. destruct (IH Hn) as [Hnd Hin].
  destruct (t !! _) as [m|] eqn:Hm; [|split; [done|]; intros m' Hm'; destruct (Hin m' Hm'); by split; [right|]].
  pose proof (Hk _ _ Hm) as Heq. split.
  - csimpl. constructor; [|done]. rewrite Heq. simpl. intros (m' & Hu & Hm')%list_elem_of_fmap.
    apply Hin in Hm' as [Hm' _]. by rewrite <- Hu in Hm'.
  - intros m' [->|Hm']%elem_of_cons; [rewrite Heq; by split; [left|]|].
    destruct (Hin m' Hm'). by split; [right|].
Qed.

Lemma fetched_users t ids us :
  users_keyed t → collect (λ k, ok_or (t !! k) ErrorType.NotFound) ids = Ok us →
  User.id <$> us = ids ∧ ∀ u, u ∈ us → t !! User.id u = Some u.
Proof.
  intros Hk Hc. apply collect_Ok_iff in Hc.
  induction Hc as [|id user ids us Hu _ [IH1 IH2]]; [by split; [|set_solver]|].
  destruct (t !! id) as [x|] eqn:Hx; simpl in Hu; [|done]. injection Hu as ->.
  pose proof (Hk _ _ Hx) as Hid. split; [csimpl; by rewrite IH1, Hid|].
  intros u [->|Hu]%elem_of_cons; [by rewrite Hid|by apply IH2].
Qed.

Lemma mentions_in_server_view c um w um' u :
  keyed (World.db w) →
  mentions_in_server (Channel.TextChannel c) (TextChannel.server c) um w = (Ok um', w) →
  u ∈ um' → can_view (World.db w) (World.now w) c u.
Proof.
  intros (Hku & Hkm & Hks) Hrun Hu. unfold mentions_in_server, on_members in Hrun.
  unbind Hrun ms. injection Ems as Hms. cbv zeta in Hrun.
  destruct (hash_set_iter_spec um) as (Hnd & Hin & _).
  pose proof (fetched_members _ (TextChannel.server c) _ Hkm Hnd) as [Hndm Hmem].
  cbv zeta in *. rewrite Hms in Hndm, Hmem.
  case_bool_decide as Hempty; [injection Hrun as <-; rewrite Hempty in Hu; set_solver|].
  apply bind_Ok_inv in Hrun as (w0 & w1 & Hg & Hrun). injection Hg as <- <-.
  unbind Hrun query. unbind Hrun seen. injection Hrun as <-.
  unfold lift in Equery, Eseen. injection Equery as Hquery. injection Eseen as Hseen.
  apply elem_of_filter in Hu as [Hview [Hmu _]%elem_of_filter].
  apply list_elem_of_fmap in Hmu as (m & -> & Hm).
  unfold BulkDatabasePermissionQuery.from_server_id in Hquery. simpl in Hquery.
  destruct (ReferenceDb.servers (World.db w) !! TextChannel.server c) as [s|] eqn:Hs; simpl in Hquery;
    [|done]. injection Hquery as <-.
  set (q := BulkDatabasePermissionQuery.with_members _ ms) in *.
  destruct (Bulk.query_users q) as [us| |] eqn:Hus;
    [|unfold Bulk.members_can_see_channel, Bulk.calculate_members_permissions in Hseen;
      simpl in Hseen; by rewrite Hus in Hseen..].
  pose proof Hus as Hcol. unfold Bulk.query_users in Hcol. simpl in Hcol.
  unfold UsersTable.fetch_users, table_fetch_all in Hcol.
  destruct (collect _ _) as [us'| |] eqn:Hcollect; simpl in Hcol; [|done..]. injection Hcol as ->.
  apply fetched_users in Hcollect as [Hids Hfound]; [|done].
  assert (MemberCompositeKey.user (Member.id m) ∈ User.id <$> us) as (user & Huid & Huser)%list_elem_of_fmap.
  { rewrite Hids. apply list_elem_of_fmap. eauto. }
  destruct (bulk_view_for (D := ReferenceDb.t) q (World.db w) c us ms user m) as (seen' & p & q' & Hs' & Hcalc & Hlook);
    try done.
  - simpl. symmetry. by apply Hks.
  - by rewrite Hids.
  - rewrite Hs' in Hseen. injection Hseen as ->. rewrite <- Huid in Hlook.
    rewrite Hlook in Hview. simpl in Hview.
    exists s, user, m, p, q'. split_and!; [done| |by apply Hmem|done|done].
    rewrite Huid. by apply Hfound.
Qed.

Lemma valid_mentions_spec channel um rm w um' rm' u :
  keyed (World.db w) → valid_mentions channel um rm w = (Ok (um', rm'), w) → u ∈ um' →
  match channel with
  | Channel.SavedMessages _ => False
  | Channel.DirectMessage c => u ∈ DirectMessage.recipients c
  | Channel.Group c => u ∈ Group.recipients c
  | Channel.TextChannel c => can_view (World.db w) (World.now w) c u
  end.
Proof.
  intros Hk Hrun Hu. unfold valid_mentions in Hrun.
  case_bool_decide as Hempty; [injection Hrun as <- _; rewrite Hempty in Hu; set_solver|].
  destruct channel as [c|c|c|c].
  - injection Hrun as <- _. set_solver.
  - injection Hrun as <- _. by apply elem_of_filter in Hu as [? _].
  - injection Hrun as <- _. by apply elem_of_filter in Hu as [? _].
  - apply bind_Ok_inv_reads in Hrun; [|apply mentions_in_server_reads].
    destruct Hrun as (x & Hx & Hrun). injection Hrun as -> _. by eapply mentions_in_server_view.
Qed.
End Mentions.

(** ** Properties of created messages *)

Section Properties.
Context `{Environment, MutualIds, HashIter, Lru, Validator, Lowercase, Trim, Lexer}.

Lemma claim_world k w b w' :
  IdempotencyKey.claim k w = (Ok b, w') →
  World.db w' = World.db w ∧ World.now w' = World.now w ∧ k ∈ World.nonces w' ∧
  (b = false ↔ k ∈ World.nonces w).
Proof.
  unfold IdempotencyKey.claim. pose proof (lru_get_hit k (World.nonces w)) as Hhit.
  pose proof (lru_get_keeps k (World.nonces w)) as Hkeep.
  destruct (lru_get k (World.nonces w)) as [hit cache]. simpl in *.
  destruct hit; intros Heq; injection Heq as <- <-; simpl; split_and!; try done.
  - rewrite Hkeep. by apply Hhit.
  - split; [|done]. intros _. by apply Hhit.
  - apply lru_put_hit.
  - split; [done|]. intros Hin. by apply Hhit in Hin.
Qed.

Lemma consume_nonce_world idem v w idem' w' :
  IdempotencyKey.consume_nonce idem v w = (Ok idem', w') →
  World.db w' = World.db w ∧ World.now w' = World.now w ∧
  match v with
  | Some v => v ∉ World.nonces w ∧ v ∈ World.nonces w' ∧ IdempotencyKey.into_key idem' = v
  | None => w' = w ∧ idem' = idem
  end.
Proof.
  destruct v as [v|]; simpl; [|by intros [= <- <-]].
  intros (fresh & w1 & Hclaim & Hrun)%bind_Ok_inv.
  apply claim_world in Hclaim as (Hdb & Hnow & Hin & Hfresh).
  destruct fresh; simpl in Hrun; [|done]. injection Hrun as <- <-.
  split_and!; try done. intros Hv. by apply Hfresh in Hv.
Qed.

Lemma some_set_elem (s : gset string) u : u ∈ default [] (some_set s) ↔ u ∈ s.
Proof.
  unfold some_set. case_bool_decide as He; simpl; [subst; set_solver|].
  destruct (hash_set_iter_spec s) as (_ & Hin & _). apply Hin.
Qed.

(** C11: a message created from a request mentions only users who can see it: recipients of
    the group or direct message, and in a server channel members of the server to whom the
    permission calculation grants viewing the channel; a message to oneself mentions
    nobody. This holds for mentions in the text and for authors of messages replied to. *)
Theorem created_mentions_can_view (channel : Channel.t) (data : DataMessageSend.t)
    (author : MessageAuthor.t) (user : option V0User.t) (member : option Member.t)
    (limits : FeaturesLimits.t) (idempotency : IdempotencyKey.t)
    (generate_embeds allow_mentions : bool) (w w' : World.t) (message : Message.t) (u : string) :
  create_from_api channel data author user member limits idempotency generate_embeds
    allow_mentions w = (Ok message, w') →
  keyed (World.db w) → u ∈ default [] (Message.mentions message) →
  match channel with
  | Channel.SavedMessages _ => False
  | Channel.DirectMessage c => u ∈ DirectMessage.recipients c
  | Channel.Group c => u ∈ Group.recipients c
  | Channel.TextChannel c => can_view (World.db w) (World.now w) c u
  end.
Proof.
  intros Hrun Hk Hu. apply create_from_api_created in Hrun as [_ Hstages].
  destruct Hstages as (idem' & w1 & suppress & everyone & online & parsed & roles0 & everyone' &
    online' & roles1 & users0 & replies & users1 & roles2 & files & w2 & m1 & w3 & Hnonce & _ & _ &
    _ & _ & Hvalid & _ & _ & _ & _ & _ & _ & Hmsg).
  rewrite Hmsg in Hu. simpl in Hu. rewrite some_set_elem in Hu.
  apply consume_nonce_world in Hnonce as (Hdb & Hnow & _).
  eapply valid_mentions_spec in Hvalid; [|simpl; by rewrite Hdb|exact Hu].
  simpl in Hvalid. by rewrite Hdb, Hnow in Hvalid.
Qed.

(** A message that notifies everybody, everybody online or the members of a role *)
Definition mass_mentions_of (m : Message.t) : bool :=
  let flags := MessageFlagsValue.mk (default 0%Z (Message.flags m)) in
  MessageFlagsValue.has flags MessageFlags.MentionsEveryone ||
  MessageFlagsValue.has flags MessageFlags.MentionsOnline ||
  bool_decide (is_Some (Message.role_mentions m)).

Lemma final_flags_has suppress everyone online :
  MessageFlagsValue.has (MessageFlagsValue.mk (final_flags suppress everyone online))
    MessageFlags.MentionsEveryone = everyone ∧
  MessageFlagsValue.has (MessageFlagsValue.mk (final_flags suppress everyone online))
    MessageFlags.MentionsOnline = online.
Proof. by destruct suppress, everyone, online. Qed.

Lemma valid_mentions_roles channel um rm w um' rm' :
  valid_mentions channel um rm w = (Ok (um', rm'), w) → rm' = rm ∨ rm' = ∅.
Proof.
  unfold valid_mentions. case_bool_decide; [intros [= _ <-]; by left|].
  destruct channel as [c|c|c|c]; try (intros [= _ <-]; by (left + right)).
  intros Hrun. apply bind_Ok_inv_reads in Hrun; [|apply mentions_in_server_reads].
  destruct Hrun as (x & _ & Hrun). injection Hrun as _ <-. by left.
Qed.

Lemma mass_mentions_allowed author channel e o r w e' o' r' :
  mass_mentions author channel e o r w = (Ok (e', o', r'), w) → mentions_any e' o' r' = true →
  Settings.mass_mentions_enabled config = true ∧
  match author with
  | MessageAuthor.User v =>
      holds_in_channel (from_model v) channel ChannelPermission.PingEveryoneAndRoles w
  | MessageAuthor.Webhook _ => True
  | MessageAuthor.System _ _ => False
  end.
Proof.
  unfold mass_mentions. intros Hrun Hany.
  destruct (negb _ && _) eqn:Hoff; [by injection Hrun as <- <- <-|].
  destruct (mentions_any e o r) eqn:Hasked; [|injection Hrun as <- <- <-; congruence].
  rewrite andb_true_r in Hoff. apply negb_false_iff in Hoff. split; [done|].
  destruct author as [v|h|n a]; [|done|done].
  unbind Hrun found. destruct found as [p q]. simpl in Hrun.
  destruct (PermissionValue.has_channel_permission p _) eqn:Hp; simpl in Hrun; [|done].
  by exists p, q.
Qed.

(** A message that notifies everybody, everybody online or a role exists only where mass
    mentions are enabled, is never a system message, and if a user sent it, then the user
    holds the permission to ping everyone and roles in the channel at that time. Webhooks
    are exempt. *)
Theorem mass_mention_needs_permission (channel : Channel.t) (data : DataMessageSend.t)
    (author : MessageAuthor.t) (user : option V0User.t) (member : option Member.t)
    (limits : FeaturesLimits.t) (idempotency : IdempotencyKey.t)
    (generate_embeds allow_mentions : bool) (w w' : World.t) (message : Message.t) :
  create_from_api channel data author user member limits idempotency generate_embeds
    allow_mentions w = (Ok message, w') →
  mass_mentions_of message = true →
  Settings.mass_mentions_enabled config = true ∧
  match author with
  | MessageAuthor.User v =>
      holds_in_channel (from_model v) channel ChannelPermission.PingEveryoneAndRoles w
  | MessageAuthor.Webhook _ => True
  | MessageAuthor.System _ _ => False
  end.
Proof.
  intros Hrun Hmass. apply create_from_api_created in Hrun as [_ Hstages].
  destruct Hstages as (idem' & w1 & suppress & everyone & online & parsed & roles0 & everyone' &
    online' & roles1 & users0 & replies & users1 & roles2 & files & w2 & m1 & w3 & Hnonce & _ & _ &
    Hm & _ & Hvalid & _ & _ & _ & _ & _ & _ & Hmsg).
  apply consume_nonce_world in Hnonce as (Hdb & Hnow & _).
  assert (mentions_any everyone' online' roles1 = true) as Hany.
  { rewrite Hmsg in Hmass. unfold mass_mentions_of in Hmass. simpl in Hmass.
    destruct (final_flags_has suppress everyone' online') as [He Ho].
    rewrite He, Ho in Hmass. unfold mentions_any. destruct everyone', online'; try done.
    simpl in *. apply negb_true_iff, bool_decide_eq_false. intros ->.
    apply bool_decide_eq_true in Hmass. destruct (valid_mentions_roles _ _ _ _ _ _ Hvalid) as [->| ->];
      unfold some_set in Hmass; rewrite bool_decide_eq_true_2 in Hmass by done; by destruct Hmass. }
  destruct (mass_mentions_allowed _ _ _ _ _ _ _ _ _ Hm Hany) as [Hon Hauthor]. split; [done|].
  destruct author; [|done..]. by eapply holds_in_channel_ext; [| |exact Hauthor].
Qed.
End Properties.

(** ** Limits, storage and nonces *)

Section Stored.
Context `{Environment, MutualIds, HashIter, Lru, Validator, Lowercase, Trim, Lexer}.

Lemma collect_replies_length a l : ∀ um rs w um' rs' w',
  collect_replies a l um rs w = (Ok (um', rs'), w') → NoDup rs →
  NoDup rs' ∧ (length rs' ≤ length rs + length l)%nat.
Proof.
  induction l as [|x l IH]; intros um rs w um' rs' w' Hrun Hn; simpl in Hrun.
  { injection Hrun as <- <- <-. split; [done|lia]. }
  apply bind_Ok_inv in Hrun as (found & w1 & _ & Hrun). destruct found as [m|e|]; [|case_match; [done|]|done].
  - apply IH in Hrun as [Hn' Hlen].
    + split; [done|]. simpl. case_bool_decide; rewrite ?length_app in Hlen; simpl in Hlen; lia.
    + case_bool_decide as Hin; [done|]. apply NoDup_app. split_and!; [done| |apply NoDup_singleton].
      set_solver.
  - apply IH in Hrun as [Hn' Hlen]; [|done]. split; [done|]. simpl. lia.
Qed.

Lemma some_list_default {A} (l : list A) : default [] (some_list l) = l.
Proof. by destruct l. Qed.

(** The limits hold of every message that is created: the texts together are within the
    length the user's limits give, attachments, embeds and replies are within their limits,
    no message is replied to twice, and the message is not empty. *)
Theorem created_message_within_limits (channel : Channel.t) (data : DataMessageSend.t)
    (author : MessageAuthor.t) (user : option V0User.t) (member : option Member.t)
    (limits : FeaturesLimits.t) (idempotency : IdempotencyKey.t)
    (generate_embeds allow_mentions : bool) (w w' : World.t) (message : Message.t) :
  create_from_api channel data author user member limits idempotency generate_embeds
    allow_mentions w = (Ok message, w') →
  (String.length (default "" (Message.content message)) ≤ FeaturesLimits.message_length limits)%nat ∧
  (length (default [] (Message.attachments message)) ≤ FeaturesLimits.message_attachments limits)%nat ∧
  (length (default [] (Message.embeds message)) ≤ GlobalLimits.message_embeds global_limits)%nat ∧
  (length (default [] (Message.replies message)) ≤ GlobalLimits.message_replies global_limits)%nat ∧
  NoDup (default [] (Message.replies message)) ∧
  (default "" (Message.content message) ≠ "" ∨ Message.attachments message ≠ None ∨
   Message.embeds message ≠ None ∨ Message.poll message ≠ None).
Proof.
  intros Hrun. apply create_from_api_created in Hrun as [Hsum Hstages].
  destruct Hstages as (idem' & w1 & suppress & everyone & online & parsed & roles0 & everyone' &
    online' & roles1 & users0 & replies & users1 & roles2 & files & w2 & m1 & w3 & _ & Hcheck & _ &
    _ & Hreplies & _ & Hatt & Hemb & Hfiles & Hembeds & Hnone & _ & Hmsg).
  pose proof (use_attachments_length _ _ _ _ _ _ Hfiles) as Hflen.
  pose proof (attach_sendable_embeds_fields _ _ _ _ _ Hembeds) as [_ Helen].
  rewrite Hnone in Helen. simpl in Helen.
  rewrite Hmsg. simpl. rewrite !some_list_default. split_and!.
  - unfold Message.validate_sum in Hsum. case_match eqn:Hle; [|done]. apply Z.leb_le in Hle.
    assert (∀ l t, (t ≤ fold_left (λ total desc, match desc with
        Some d => total + Z.of_nat (String.length d) | None => total end) l t)%Z) as Hmono.
    { intros l. induction l as [|[d|] l IH]; intros t; simpl; [lia| |apply IH].
      specialize (IH (t + Z.of_nat (String.length d))%Z). lia. }
    destruct (DataMessageSend.content data) as [c|]; simpl; [|lia].
    specialize (Hmono (SendableEmbed.description <$> default [] (DataMessageSend.embeds data))
                  (Z.of_nat (String.length c))). simpl in Hmono, Hle. lia.
  - rewrite Hflen. destruct (DataMessageSend.attachments data); simpl in *; [|lia].
    apply bool_decide_eq_false in Hatt. lia.
  - rewrite Helen. destruct (DataMessageSend.embeds data); simpl in *; [|lia].
    apply bool_decide_eq_false in Hemb. lia.
  - unfold check_replies in Hreplies. destruct (DataMessageSend.replies data) as [l|].
    + case_bool_decide; [done|]. apply collect_replies_length in Hreplies as [_ Hl]; [|constructor].
      simpl in Hl. lia.
    + injection Hreplies as _ <-. simpl. lia.
  - unfold check_replies in Hreplies. destruct (DataMessageSend.replies data) as [l|].
    + case_bool_decide; [done|]. by apply collect_replies_length in Hreplies as [Hn _]; [|constructor].
    + injection Hreplies as _ <-. constructor.
  - unfold check_data in Hcheck.
    destruct (none_or_blank _) eqn:Hc; [|left; destruct (DataMessageSend.content data) as [[]|]; done].
    destruct (none_or_empty (DataMessageSend.attachments data)) eqn:Ha.
    2:{ right; left. destruct (DataMessageSend.attachments data) as [[]|]; try done. simpl in Hflen.
        by destruct files. }
    destruct (none_or_empty (DataMessageSend.embeds data)) eqn:He.
    2:{ right; right; left. destruct (DataMessageSend.embeds data) as [[]|]; try done.
        simpl in Helen. by destruct (Message.embeds message). }
    right; right; right. destruct (DataMessageSend.poll data); done.
Qed.

(** The steps between resolving mentions and sending write only files. *)
Lemma use_attachments_keeps {B} (f : World.t → B) l mid a :
  (∀ w x, f (World.set_db w (ReferenceDb.set_files (World.db w) x)) = f w) →
  keeps f (use_attachments l mid a).
Proof.
  intros Hf. induction l as [|x l IH]; simpl; [done|].
  apply keeps_bind; [by apply keeps_table|intros ?]. apply keeps_bind; [done|intros ?; done].
Qed.

Lemma attach_sendable_embeds_keeps {B} (f : World.t → B) l :
  (∀ w x, f (World.set_db w (ReferenceDb.set_files (World.db w) x)) = f w) →
  ∀ m, keeps f (attach_sendable_embeds m l).
Proof.
  intros Hf. induction l as [|x l IH]; intros m; simpl; [done|].
  apply keeps_bind; [|intros ?; apply IH]. unfold attach_sendable_embed.
  apply keeps_bind; [|intros ?; done]. unfold embed_media. destruct (SendableEmbed.media x); [|done].
  apply keeps_bind; [by apply keeps_table|intros ?; done].
Qed.

Lemma keeps_run {A B} (f : World.t → B) (m : H A) w r w' :
  keeps f m → m w = (r, w') → f w' = f w.
Proof. intros Hm Hrun. specialize (Hm w). by rewrite Hrun in Hm. Qed.

(** What [send] does when it succeeds *)
Lemma send_Ok m author user member channel ge w w' :
  send m author user member channel ge w = (Ok tt, w') →
  MessageOps.messages w !! Message.id m = None ∧
  MessageOps.messages w' = <[Message.id m := m]> (MessageOps.messages w) ∧
  World.nonces w' = World.nonces w ∧
  World.events w' = World.events w ++ [(Message.channel m, EventV1.Message m user member)].
Proof.
  unfold send, send_without_notifications. rewrite !M_bind_unfold.
  unfold on_messages. rewrite on_table_run.
  unfold MessagesTable.insert_message, table_insert.
  fold (MessageOps.messages w). destruct (MessageOps.messages w !! Message.id m) eqn:Hm; [done|].
  unfold MessageOps.messages in *. destruct ge, (Message.content m); simpl;
    (case_match; intros Heq; injection Heq as <-; by split_and!).
Qed.

(** Creating a message stores exactly one new message, under an id that was free, by
    the given author in the given channel, publishes it on that channel and changes no
    other message. *)
Theorem create_stores_message (channel : Channel.t) (data : DataMessageSend.t)
    (author : MessageAuthor.t) (user : option V0User.t) (member : option Member.t)
    (limits : FeaturesLimits.t) (idempotency : IdempotencyKey.t)
    (generate_embeds allow_mentions : bool) (w w' : World.t) (message : Message.t) :
  create_from_api channel data author user member limits idempotency generate_embeds
    allow_mentions w = (Ok message, w') →
  MessageOps.messages w !! Message.id message = None ∧
  MessageOps.messages w' = <[Message.id message := message]> (MessageOps.messages w) ∧
  Message.author message = MessageAuthor.id author ∧
  Message.channel message = Channel.id channel ∧
  Message.content message = DataMessageSend.content data ∧
  World.events w' =
    World.events w ++ [(Channel.id channel, EventV1.Message message user member)].
Proof.
  intros Hrun. pose proof Hrun as Hc.
  assert (∀ k v w0 b w1, IdempotencyKey.consume_nonce k v w0 = (Ok b, w1) →
    World.events w1 = World.events w0) as Hevents.
  { intros k v w0 b w1. destruct v as [v|]; simpl; [|by intros [= <- <-]].
    unfold IdempotencyKey.claim. rewrite M_bind_unfold.
    destruct (lru_get v _) as [[] c]; simpl; [done|]. by intros [= <- <-]. }
  apply create_from_api_created in Hc as [_ Hstages].
  destruct Hstages as (idem' & w1 & suppress & everyone & online & parsed & roles0 & everyone' &
    online' & roles1 & users0 & replies & users1 & roles2 & files & w2 & m1 & w3 & Hnonce & _ & _ &
    _ & _ & _ & _ & _ & Hfiles & Hembeds & _ & Hsend & Hmsg).
  set (f := λ w, (MessageOps.messages w, World.events w)).
  pose proof (keeps_run f _ _ _ _ (use_attachments_keeps f _ _ _ (λ _ _, eq_refl)) Hfiles) as K1.
  pose proof (keeps_run f _ _ _ _
    (attach_sendable_embeds_keeps f _ (λ _ _, eq_refl) _) Hembeds) as K2.
  unfold f in K1, K2. injection K1 as K1 K1'. injection K2 as K2 K2'.
  pose proof (Hevents _ _ _ _ _ Hnonce) as He.
  apply consume_nonce_world in Hnonce as (Hdb & _ & _).
  apply send_Ok in Hsend as (Hfree & Hstore & _ & Hpub).
  assert (MessageOps.messages w3 = MessageOps.messages w) as Hsame.
  { rewrite K2, K1. unfold MessageOps.messages. simpl. by rewrite Hdb. }
  rewrite Hsame in Hfree, Hstore. split_and!; [done|done| | | |]; try (by rewrite Hmsg).
  rewrite Hpub, K2', K1'. simpl. rewrite He. by rewrite Hmsg at 1.
Qed.

(** A nonce is good for one message: after a message was created with a nonce, every
    further request with that nonce fails while the cache remembers it, and writes nothing
    to the database, publishes nothing and queues nothing. *)
Theorem nonce_used_once (channel channel2 : Channel.t) (data data2 : DataMessageSend.t)
    (author author2 : MessageAuthor.t) (user user2 : option V0User.t)
    (member member2 : option Member.t) (limits limits2 : FeaturesLimits.t)
    (idempotency idempotency2 : IdempotencyKey.t) (ge ge2 am am2 : bool)
    (w w1 w2 : World.t) (message : Message.t) (nonce : string) :
  create_from_api channel data author user member limits idempotency ge am w = (Ok message, w1) →
  DataMessageSend.nonce data = Some nonce → DataMessageSend.nonce data2 = Some nonce →
  (∀ k, k ∈ World.nonces w1 → k ∈ World.nonces w2) →
  ∃ e c, create_from_api channel2 data2 author2 user2 member2 limits2 idempotency2 ge2 am2 w2 =
    (Err e, World.set_nonces w2 c).
Proof.
  intros Hrun Hn Hn2 Hcache. apply create_from_api_created in Hrun as [_ Hstages].
  destruct Hstages as (idem' & w3 & suppress & everyone & online & parsed & roles0 & everyone' &
    online' & roles1 & users0 & replies & users1 & roles2 & files & w4 & m1 & w5 & Hnonce & _ & _ &
    _ & _ & _ & _ & _ & Hfiles & Hembeds & _ & Hsend & Hmsg).
  pose proof (keeps_run _ _ _ _ _
    (use_attachments_keeps World.nonces _ _ _ (λ _ _, eq_refl)) Hfiles) as K1.
  pose proof (keeps_run _ _ _ _ _
    (attach_sendable_embeds_keeps World.nonces _ (λ _ _, eq_refl) _) Hembeds) as K2.
  apply consume_nonce_world in Hnonce as (_ & _ & Hin). rewrite Hn in Hin.
  destruct Hin as (_ & Hin & _). apply send_Ok in Hsend as (_ & _ & K3 & _).
  assert (nonce ∈ World.nonces w2) as Hold by (apply Hcache; rewrite K3, K2, K1; done).
  unfold create_from_api. rewrite M_bind_unfold. unfold lift at 1.
  destruct (Message.validate_sum _ _ _) as [[]|e|] eqn:Hsum.
  - rewrite M_bind_unfold. unfold attempt at 1, IdempotencyKey.consume_nonce. rewrite Hn2.
    rewrite M_bind_unfold. unfold IdempotencyKey.claim.
    destruct (lru_get nonce (World.nonces w2)) as [hit c] eqn:Hget.
    assert (hit = true) as -> by (change hit with (hit, c).1; rewrite <- Hget; by apply lru_get_hit).
    simpl. eexists _, c. reflexivity.
  - eexists e, (World.nonces w2). by destruct w2.
  - unfold Message.validate_sum in Hsum. by destruct (_ <=? _)%Z.
Qed.
End Stored.

(** ** What sending a message needs *)

Section Sending.
Context `{Environment, MutualIds, HashIter, Lru, Validator, Lowercase, Trim, Lexer, Redis}.

(** The permissions a request to send a message needs in the channel. *)
Definition may_send (user : User.t) (channel : Channel.t) (data : DataMessageSend.t)
    (w : World.t) : Prop :=
  holds_in_channel user channel ChannelPermission.SendMessage w ∧
  (DataMessageSend.masquerade data ≠ None →
     holds_in_channel user channel ChannelPermission.Masquerade w) ∧
  ((DataMessageSend.masquerade data ≫= Masquerade.colour) ≠ None →
     holds_in_channel user channel ChannelPermission.ManageRole w) ∧
  (default [] (DataMessageSend.embeds data) ≠ [] →
     holds_in_channel user channel ChannelPermission.SendEmbeds w) ∧
  (default [] (DataMessageSend.attachments data) ≠ [] →
     holds_in_channel user channel ChannelPermission.UploadFiles w).

Lemma require_for_parts_reads p data : reads (require_for_parts p data).
Proof. unfold require_for_parts. solve_reads. Qed.

Lemma require_Ok p permission w :
  require p permission w = (Ok tt, w) →
  PermissionValue.has_channel_permission p permission = true.
Proof.
  unfold require, lift, PermissionValue.throw_if_lacking_channel_permission.
  by destruct (PermissionValue.has_channel_permission p permission).
Qed.

Lemma require_for_parts_Ok user channel data p q w :
  query_channel user channel w = (Ok (p, q), w) →
  PermissionValue.has_channel_permission p ChannelPermission.SendMessage = true →
  require_for_parts p data w = (Ok tt, w) → may_send user channel data w.
Proof.
  intros Hq Hsend Hrun. unfold require_for_parts in Hrun.
  unbind Hrun u. unbind Hrun u1.
  assert (∀ c, PermissionValue.has_channel_permission p c = true → holds_in_channel user channel c w)
    as Hh by (intros c; by apply query_channel_holds with q).
  split_and!; [by apply Hh| | | |].
  - destruct (DataMessageSend.masquerade data) as [m|]; [|done]. intros _.
    apply require_Ok_inv in Eu as [Hp _]. by apply Hh.
  - destruct (DataMessageSend.masquerade data) as [m|]; [|done]. simpl. intros Hcolour.
    apply require_Ok_inv in Eu as [_ Eu].
    rewrite bool_decide_eq_true_2 in Eu by (by apply not_eq_None_Some). destruct u.
    by apply Hh, (require_Ok _ _ w).
  - destruct (DataMessageSend.embeds data) as [[|e l]|]; [done| |done]. intros _. destruct u1.
    by apply Hh, (require_Ok _ _ w).
  - destruct (DataMessageSend.attachments data) as [[|e l]|]; [done| |done]. intros _.
    by apply Hh, (require_Ok _ _ w).
Qed.

(** C21: nothing happens without permission: the route leaves the world as it was (nothing
    is written, published, queued or remembered as a nonce) unless the channel exists and
    the user may send the message there: the permission to send messages, and for a
    masquerade, a coloured masquerade, embeds and attachments the permission of each. *)
Theorem message_send_authorised (user : User.t) (target : string) (data : DataMessageSend.t)
    (idempotency : IdempotencyKey.t) (w : World.t) :
  (message_send user target data idempotency w).2 = w ∨
  ∃ channel, Reference.as_channel target w = (Ok channel, w) ∧ may_send user channel data w.
Proof.
  fold (gated (∃ channel, Reference.as_channel target w = (Ok channel, w) ∧
                 may_send user channel data w) (message_send user target data idempotency) w).
  unfold message_send. gate_step. gate_step. gate_step. destruct a1 as [p q]. gate_step.
  apply gated_bind; [apply require_for_parts_reads|]. intros [] Hparts.
  apply gated_open. eexists. split; [eassumption|]. by eapply require_for_parts_Ok.
Qed.

Lemma slowmode_keys_differ user user' channel : slowmode_index user ≠ slowmode_key user' channel.
Proof. unfold slowmode_index, slowmode_key. simpl. intros Heq. discriminate. Qed.

(** [check_slowmode] after a message that set the key *)
Lemma check_slowmode_live user c s w e :
  redis_connects (World.now w) = true →
  World.redis w !! slowmode_key (User.id user) c = Some ("1", Some e) →
  (World.now w + 10 ^ 9 ≤ e)%Z →
  is_Some (redis_ttl (slowmode_key (User.id user) c) (World.now w) (World.redis w)) →
  ∃ ttl w', (0 < ttl)%Z ∧ (World.now w + (ttl - 1) * 10 ^ 9 ≤ e)%Z ∧
    check_slowmode user c s w = (Err (ErrorType.InSlowmode ttl), w') ∧ World.db w' = World.db w.
Proof.
  intros Hc Hkey Hsecond [t Ht]. assert (Hlive : (World.now w < e)%Z) by lia.
  pose proof (redis_ttl_seconds _ _ _ _ _ _ Hkey Hlive Ht) as [Hlow Hhigh].
  assert (0 < t)%Z as Httl.
  { enough (1 ≤ (e - World.now w) / 10 ^ 9)%Z by lia. apply Z.div_le_lower_bound; lia. }
  assert (World.now w + (t - 1) * 10 ^ 9 ≤ e)%Z.
  { pose proof (Z.mul_div_le (e - World.now w) (10 ^ 9)). lia. }
  unfold check_slowmode. rewrite M_bind_unfold. cbn [clock gets].
  rewrite Hc. rewrite M_bind_unfold. unfold on_redis at 1.
  assert (live (slowmode_key (User.id user) c) (World.now w) (World.redis w) = Some "1") as Hset.
  { unfold live. by rewrite Hkey, (proj2 (Z.ltb_lt _ _) Hlive). }
  rewrite (redis_set_present _ _ _ _ _ _ Hset). rewrite M_bind_unfold. cbn [mret M_ret negb].
  rewrite M_bind_unfold. unfold on_redis. simpl.
  rewrite Ht. simpl. rewrite (proj2 (Z.ltb_lt _ _) Httl), M_bind_unfold. simpl.
  eexists _, _. split; [exact Httl|]. split; [done|]. by split.
Qed.

Lemma check_slowmode_sets user c s w r w' :
  redis_connects (World.now w) = true →
  redis_set_nx_ex (slowmode_key (User.id user) c) "1" s (World.now w) (World.redis w) = (true, r) →
  check_slowmode user c s w = (Ok tt, w') →
  World.redis w' !! slowmode_key (User.id user) c =
    Some ("1", Some (World.now w + s * 10 ^ 9)%Z) ∧
  World.now w' = World.now w.
Proof.
  intros Hc Hset. unfold check_slowmode. rewrite M_bind_unfold. cbn [clock gets].
  rewrite Hc, M_bind_unfold. unfold on_redis. rewrite Hset, !M_bind_unfold. simpl.
  intros Hrun. injection Hrun as <-. split; [|done]. simpl.
  rewrite redis_sadd_keeps by apply slowmode_keys_differ. by eapply redis_set_sets.
Qed.

(** C35: slow mode: once a user's message in a server channel with slow mode was
    acknowledged by the store, further messages of the user to the channel fail up to the last
    second of the slow mode, and the database is not changed, unless the user holds the permission
    to bypass it, the store cannot be reached or it does not tell the time to live. *)
Theorem slowmode_blocks (user : User.t) (c : TextChannel.t) (s : Z) (target : string)
    (data : DataMessageSend.t) (idempotency : IdempotencyKey.t) (w w1 w2 : World.t)
    (r : store) :
  redis_connects (World.now w) = true →
  redis_set_nx_ex (slowmode_key (User.id user) (TextChannel.id c)) "1" s (World.now w)
    (World.redis w) = (true, r) →
  check_slowmode user (TextChannel.id c) s w = (Ok tt, w1) →
  World.redis w2 = World.redis w1 → (World.now w2 ≤ World.now w + (s - 1) * 10 ^ 9)%Z →
  redis_connects (World.now w2) = true →
  is_Some (redis_ttl (slowmode_key (User.id user) (TextChannel.id c)) (World.now w2) (World.redis w2)) →
  Reference.as_channel target w2 = (Ok (Channel.TextChannel c), w2) →
  TextChannel.slowmode c = Some s → (0 < s)%Z →
  ¬ holds_in_channel user (Channel.TextChannel c) ChannelPermission.BypassSlowmode w2 →
  ∃ result w', message_send user target data idempotency w2 = (result, w') ∧
    is_ok result = false ∧ World.db w' = World.db w2.
Proof.
  intros Hc Hset Hfirst Hredis Htime Hc2 Httl Hchannel Hslow Hs Hbypass.
  apply check_slowmode_sets with (r := r) in Hfirst as [Hkey _]; [|done..].
  rewrite <- Hredis in Hkey.
  destruct (check_slowmode_live user (TextChannel.id c) s w2 _ Hc2 Hkey ltac:(lia) Httl)
    as (ttl & w' & _ & _ & Hrun & Hdb).
  unfold message_send.
  rewrite M_bind_unfold. destruct (validate DataMessageSend.valid data w2) as [rv wv] eqn:Hv.
  pose proof (reads_validate DataMessageSend.valid data w2) as Hr. rewrite Hv in Hr. simpl in Hr. subst wv.
  destruct rv as [[]|e|]; [|by eexists _, _..].
  rewrite M_bind_unfold, Hchannel, M_bind_unfold.
  destruct (query_channel user (Channel.TextChannel c) w2) as [rq wq] eqn:Hq.
  pose proof (query_channel_reads user (Channel.TextChannel c) w2) as Hr. rewrite Hq in Hr. simpl in Hr. subst wq.
  destruct rq as [[p q]|e|]; [|by eexists _, _..].
  rewrite M_bind_unfold. unfold require at 1, lift at 1.
  destruct (PermissionValue.throw_if_lacking_channel_permission p _) as [[]|e|]; [|by eexists _, _..].
  rewrite M_bind_unfold. destruct (require_for_parts p data w2) as [rp wp] eqn:Hp.
  pose proof (require_for_parts_reads p data w2) as Hr. rewrite Hp in Hr. simpl in Hr. subst wp.
  destruct rp as [[]|e|]; [|by eexists _, _..].
  destruct (PermissionValue.has_channel_permission p ChannelPermission.BypassSlowmode) eqn:Hb.
  { exfalso. apply Hbypass. by exists p, q. }
  cbn [negb]. rewrite Hslow, (proj2 (Z.ltb_lt _ _) Hs), M_bind_unfold.
  rewrite Hrun. eexists _, _. by split_and!.
Qed.

(** A request that asks nothing of [allow_mentions] but in its text: no replies, no flags,
    and no role named in the text. *)
Definition text_only (data : DataMessageSend.t) : Prop :=
  DataMessageSend.replies data = None ∧ DataMessageSend.flags data = None ∧
  ∀ t parsed, DataMessageSend.content data = Some t → parse_message lex t = Some parsed →
    MessageResults.role_mentions parsed = ∅.

(** [allow_mentions] is what the route computes to keep new users of a discoverable
    server from mentioning anybody, but it does not reach the text: a message whose mentions
    are in its text (of users, of everyone or of everyone online) is treated the same
    whether mentions are allowed or not. *)
Theorem text_mentions_ignore_trust (channel : Channel.t) (data : DataMessageSend.t)
    (author : MessageAuthor.t) (user : option V0User.t) (member : option Member.t)
    (limits : FeaturesLimits.t) (idempotency : IdempotencyKey.t) (generate_embeds : bool)
    (w : World.t) :
  text_only data →
  create_from_api channel data author user member limits idempotency generate_embeds false w =
  create_from_api channel data author user member limits idempotency generate_embeds true w.
Proof.
  intros (Hreplies & Hflags & Hroles).
  assert (∀ a s, known_roles a s ∅ = mret ∅) as Hknown.
  { intros a [s|]; simpl; [|done]. by rewrite bool_decide_eq_true_2, andb_false_r by done. }
  assert (∀ a, check_data data user a = check_data data user true) as Hcheck.
  { intros a. unfold check_data. by rewrite Hflags. }
  unfold create_from_api. rewrite (Hcheck false), Hreplies.
  rewrite !M_bind_unfold. destruct (lift _ w) as [[[]| |] w1]; [|done..].
  rewrite !M_bind_unfold. destruct (attempt _ w1) as [[consumed| |] w2]; [|done..].
  rewrite !M_bind_unfold. destruct (lift _ w2) as [[idem| |] w3]; [|done..].
  rewrite !M_bind_unfold. destruct (lift (check_data _ _ _) w3) as [[flags| |] w4]; [|done..].
  destruct flags as [[suppress everyone] online].
  rewrite !M_bind_unfold. destruct (ulid w4) as [[mid| |] w5]; [|done..].
  rewrite !M_bind_unfold. destruct (clock w5) as [[now| |] w6]; [|done..].
  rewrite !M_bind_unfold.
  assert (∀ parsed w7, (match DataMessageSend.content data with
            | Some raw_content => lift (unwrap (parse_message lex raw_content))
            | None => mret MessageResults.default end : H _) w6 = (Ok parsed, w7) →
          MessageResults.role_mentions parsed = ∅) as Hparsed.
  { intros parsed w7. destruct (DataMessageSend.content data) as [t|] eqn:Ht; [|by intros [= <- _]].
    unfold lift. destruct (parse_message lex t) eqn:Hparse; simpl; [|done]. intros [= <- _].
    by eapply Hroles. }
  match type of Hparsed with
  | ∀ parsed w7, ?run = _ → _ => destruct run as [[parsed| |] w7]; [|done..]
  end.
  rewrite !M_bind_unfold, (Hparsed parsed w7) by done. by rewrite !Hknown.
Qed.
End Sending.

(** ** Evaluations *)

Module Sample.
#[local] Existing Instance canonical_iter.
#[local] Existing Instance Fixture.strangers.
#[local] Existing Instance Instances.fifo.
#[local] Existing Instance Instances.bytes.
#[local] Existing Instance Store.reliable.
#[local] Instance lowercase : Lowercase := ascii_lowercase.
#[local] Instance trim : Trim := λ s, s.
#[local] Instance environment : Environment := Fixture.environment 5.
#[local] Instance lexer : Lexer := λ s,
  if bool_decide (s = "@B") then [MessageToken.UserMention "B"] else
  if bool_decide (s = "@everyone") then [MessageToken.MentionEveryone] else [].

(** The owner A and the member B of the server S with the channel T *)
Definition channel : TextChannel.t :=
  TextChannel.mk "T" "S" "T" None None None None ∅ false None (Some 10%Z) None.
Definition world : World.t :=
  World.set_db World.empty
    (ReferenceDb.set_channels
      (ReferenceDb.set_servers
        (ReferenceDb.set_server_members
          (ReferenceDb.set_users ReferenceDb.empty
            {["A" := Fixture.user "A" []; "B" := Fixture.user "B" []]})
          {[MemberCompositeKey.mk "S" "A" := Fixture.member "S" "A" [] None;
            MemberCompositeKey.mk "S" "B" := Fixture.member "S" "B" [] None]})
        {["S" := Fixture.server "S" "A" (as_i64 DEFAULT_PERMISSION_SERVER) []]})
      {["T" := Channel.TextChannel channel]}).

Definition request (text : string) (nonce : option string) : DataMessageSend.t :=
  DataMessageSend.mk nonce (Some text) None None None None None None None.
Definition author (id : string) : MessageAuthor.t :=
  MessageAuthor.User (V0User.mk id id "0000" None None None [] 0 None 0 false None
                        RelationshipStatus.User false).

Definition run (text : string) (nonce : option string) (id : string) (w : World.t) :
    Result Message.t * World.t :=
  create_from_api (Channel.TextChannel channel) (request text nonce) (author id) None None
    Fixture.limits (IdempotencyKey.mk "key") false true w.
Definition message_of (r : Result Message.t * World.t) : Message.t :=
  match r.1 with Ok m => m | _ => Message.default end.

Lemma world_keyed : keyed (World.db world).
Proof.
  split_and!.
  - apply (bool_decide_unpack (map_Forall (λ id u, User.id u = id) _)). vm_compute. exact I.
  - apply (bool_decide_unpack (map_Forall (λ id m, Member.id m = id) _)). vm_compute. exact I.
  - apply (bool_decide_unpack (map_Forall (λ id s, Server.id s = id) _)). vm_compute. exact I.
Qed.

Lemma created_mentions_can_view_witness :
  can_view (World.db world) (World.now world) channel "B".
Proof.
  apply (created_mentions_can_view (Channel.TextChannel channel) (request "@B" None) (author "A")
           None None Fixture.limits (IdempotencyKey.mk "key") false true world
           (run "@B" None "A" world).2 (message_of (run "@B" None "A" world))).
  - vm_compute. reflexivity.
  - exact world_keyed.
  - apply (bool_decide_unpack _). vm_compute. exact I.
Defined.

Lemma mass_mention_needs_permission_witness :
  Settings.mass_mentions_enabled config = true ∧
  holds_in_channel (from_model (V0User.mk "A" "A" "0000" None None None [] 0 None 0 false None
                                  RelationshipStatus.User false))
    (Channel.TextChannel channel) ChannelPermission.PingEveryoneAndRoles world.
Proof.
  apply (mass_mention_needs_permission (Channel.TextChannel channel) (request "@everyone" None)
           (author "A") None None Fixture.limits (IdempotencyKey.mk "key") false true world
           (run "@everyone" None "A" world).2 (message_of (run "@everyone" None "A" world)));
    vm_compute; reflexivity.
Defined.

Lemma created_message_within_limits_witness :
  (String.length "@B" ≤ FeaturesLimits.message_length Fixture.limits)%nat.
Proof.
  apply (created_message_within_limits (Channel.TextChannel channel) (request "@B" None)
           (author "A") None None Fixture.limits (IdempotencyKey.mk "key") false true world
           (run "@B" None "A" world).2 (message_of (run "@B" None "A" world))).
  vm_compute. reflexivity.
Defined.

Lemma create_stores_message_witness :
  MessageOps.messages (run "@B" None "A" world).2 =
  <[Message.id (message_of (run "@B" None "A" world)) := message_of (run "@B" None "A" world)]>
    (MessageOps.messages world).
Proof.
  apply (create_stores_message (Channel.TextChannel channel) (request "@B" None) (author "A")
           None None Fixture.limits (IdempotencyKey.mk "key") false true world
           (run "@B" None "A" world).2 (message_of (run "@B" None "A" world))).
  vm_compute. reflexivity.
Defined.

Lemma nonce_used_once_witness :
  ∃ e c, run "again" (Some "n") "B" (run "@B" (Some "n") "A" world).2 =
    (Err e, World.set_nonces (run "@B" (Some "n") "A" world).2 c).
Proof.
  apply (nonce_used_once (Channel.TextChannel channel) (Channel.TextChannel channel)
           (request "@B" (Some "n")) (request "again" (Some "n")) (author "A") (author "B")
           None None None None Fixture.limits Fixture.limits (IdempotencyKey.mk "key")
           (IdempotencyKey.mk "key") false false true true world
           (run "@B" (Some "n") "A" world).2 (run "@B" (Some "n") "A" world).2
           (message_of (run "@B" (Some "n") "A" world)) "n").
  - vm_compute. reflexivity.
  - reflexivity.
  - reflexivity.
  - intros k Hk. exact Hk.
Defined.

Definition first_message : Result unit * World.t :=
  check_slowmode (Fixture.user "B" []) "T" 10 world.

(** The store rounds to seconds: in the last half second of the slow mode the time to live is 0,
    and the next message passes without a new key. *)
Lemma last_half_second_passes :
  let w := World.set_now first_message.2 (World.now world + 96 * 10 ^ 8)%Z in
  (check_slowmode (Fixture.user "B" []) "T" 10 w).1 = Ok tt ∧
  live (slowmode_key "B" "T") (World.now w) (World.redis w) = Some "1".
Proof. vm_compute. done. Qed.

Lemma slowmode_blocks_witness :
  ∃ result w', message_send (Fixture.user "B" []) "T" (request "hi" None)
      (IdempotencyKey.mk "key") first_message.2 = (result, w') ∧
    is_ok result = false ∧ World.db w' = World.db first_message.2.
Proof.
  eapply (slowmode_blocks (Fixture.user "B" []) channel 10 "T" (request "hi" None)
            (IdempotencyKey.mk "key") world first_message.2 first_message.2);
    [vm_compute; reflexivity|vm_compute; reflexivity|vm_compute; reflexivity|reflexivity
    |vm_compute; discriminate|vm_compute; reflexivity|vm_compute; by eexists|vm_compute; reflexivity
    |reflexivity|lia|].
  intros (p & q & Hq & Hp). rewrite query_channel_run in Hq.
  assert (p = (match (ask calculate_channel_permissions
    (DatabasePermissionQuery.with_channel
       (DatabasePermissionQuery.new (World.db first_message.2) (Fixture.user "B" [])
          (World.now first_message.2)) (Some (Channel.TextChannel channel)))
    first_message.2).1 with Ok x => x.1 | _ => p end)) as Hpe by (by rewrite Hq).
  rewrite Hpe in Hp. vm_compute in Hp. discriminate.
Defined.

Lemma text_mentions_ignore_trust_witness :
  create_from_api (Channel.TextChannel channel) (request "@B" None) (author "A") None None
    Fixture.limits (IdempotencyKey.mk "key") false false world = run "@B" None "A" world.
Proof.
  apply (text_mentions_ignore_trust (Channel.TextChannel channel) (request "@B" None) (author "A")
           None None Fixture.limits (IdempotencyKey.mk "key") false world).
  split_and!; [reflexivity|reflexivity|]. intros t parsed Ht Hp. injection Ht as <-.
  vm_compute in Hp. injection Hp as <-. reflexivity.
Defined.
End Sample.
