(* ===== verification/Acker.v ===== *)
(** * Acknowledgements: from a request to the database

    A client acknowledges a message ([Channel::ack], [util/acker.rs]): the newest position
    is kept in the key-value store and a job is queued at the broker; the daemon
    ([daemons/crond/src/tasks/acks.rs]) takes jobs from the queue and writes the position to
    the database. The steps of this pipeline are a transition system; it refines a map from
    users and channels to the newest message acknowledged, and draining the queue brings
    every acknowledgement to the database. *)

From stdpp Require Import base list gmap strings.
From Stdlib Require Import ZArith Lia.
From S2P Require Import Prelude Errors Permissions PermissionSpec Files Users Servers Channels.
From S2P Require Import PermissionQuery Messages Unreads Config Emojis World Database.
From S2P Require Import MessageOps ChannelOps References Redis.

(** Whether the broker accepts a message at a time *)
Class Broker := broker_accepts : Z → bool.

Definition acker_key (user channel : string) : string :=
  "acker:" +:+ user +:+ "+" +:+ channel.

Section Acker.
Context `{Redis, Broker}.

(** [amqp.process_ack(..).await.to_internal_error()?] *)
Definition process_ack (user : string) (channel server : option string) : H unit :=
  now ← clock;
  if broker_accepts now then amqp (Amqp.ProcessAck user channel server)
  else throw ErrorType.InternalError.

Definition ack_channel (user channel message : string) : H unit :=
  connection ;;
  let key := acker_key user channel in
  old ← on_redis (λ now r, (redis_get key now r, r));
  old ← internal old;
  if match old with Some old => str_le message old | None => false end then mret tt else
  done ← on_redis (redis_set key message);
  internal done ;;
  process_ack user (Some channel) None.

(** [Channel::ack] *)
Definition ack (self : Channel.t) (user message : string) : H unit :=
  private (EventV1.ChannelAck (Channel.id self) user message) user ;;
  ack_channel user (Channel.id self) message.

(** The loop of [ack_server] over the channels of the server *)
Fixpoint ack_channels `{MutualIds, HashIter} (user : User.t) (server : Server.t)
    (channels : list Channel.t) : H unit :=
  match channels with
  | [] => mret tt
  | channel :: channels =>
      permissions ← server_channel_permissions user server channel;
      (if PermissionValue.has_channel_permission permissions ChannelPermission.ViewChannel then
         channel_last_msg ← match channel with
                            | Channel.TextChannel c => mret (TextChannel.last_message_id c)
                            | _ => panic
                            end;
         match channel_last_msg with
         | Some channel_last_msg =>
             old ← on_redis (redis_getset (acker_key (User.id user) (Channel.id channel))
                               channel_last_msg);
             old ← internal old;
             if match old with
                | Some old => bool_decide (old = channel_last_msg)
                | None => true
                end
             then
               process_ack (User.id user) (Some (Channel.id channel)) (Some (Server.id server)) ;;
               private (EventV1.ChannelAck (Channel.id channel) (User.id user) channel_last_msg)
                 (User.id user)
             else mret tt
         | None => mret tt
         end
       else mret tt) ;;
      ack_channels user server channels
  end.

Definition ack_server `{MutualIds, HashIter} (user : User.t) (server : Server.t) : H unit :=
  connection ;;
  channels ← on_channels (ChannelsTable.fetch_channels (Server.channels server));
  ack_channels user server channels.

(** ** The daemon *)

Definition mention_count (u : ChannelUnread.t) : nat := length (default [] (ChannelUnread.mentions u)).

Definition process_channel_ack (user channel : string) : H unit :=
  message_id ← on_redis (redis_getdel (acker_key user channel));
  message_id ← internal message_id;
  match message_id with
  | Some message_id =>
      unread ← on_unreads (UnreadsTable.fetch_unread user channel);
      updated ← on_unreads (UnreadsTable.acknowledge_message channel user message_id);
      match unread, updated with
      | Some before, Some after =>
          if bool_decide (mention_count after < mention_count before)%nat then
            now ← clock;
            if broker_accepts now then amqp (Amqp.AckNotificationMessage user channel message_id)
            else mret tt
          else mret tt
      | _, _ => mret tt
      end
  | None => throw ErrorType.InternalError
  end.

(** The next acknowledgement in the queue and the queue without it *)
Fixpoint take_ack (queue : list Amqp.t) : option (string * option string * list Amqp.t) :=
  match queue with
  | [] => None
  | Amqp.ProcessAck user channel _ :: queue => Some (user, channel, queue)
  | message :: queue =>
      match take_ack queue with
      | Some (user, channel, queue) => Some (user, channel, message :: queue)
      | None => None
      end
  end.

(** One turn of the loop of [task]: a delivery that cannot be processed is rejected without
    being queued again *)
Definition deliver : H unit :=
  λ w, match take_ack (World.broker w) with
       | Some (user, channel, queue) =>
           (channel ← lift (unwrap channel);
            ignore (process_channel_ack user channel)) (World.set_broker w queue)
       | None => (Ok tt, w)
       end.
End Acker.

(** ** The newest of two positions *)

Definition join (a b : option string) : option string :=
  match a, b with
  | Some x, Some y => if str_le x y then Some y else Some x
  | Some x, None => Some x
  | None, b => b
  end.

Lemma join_None_r a : join a None = a.
Proof. by destruct a. Qed.

Lemma join_comm a b : join a b = join b a.
Proof.
  destruct a as [x|], b as [y|]; simpl; try done.
  destruct (str_le x y) eqn:Hxy, (str_le y x) eqn:Hyx; try done.
  - by rewrite (str_le_antisym x y).
  - apply str_le_total in Hxy. congruence.
Qed.

Lemma join_idem a : join a a = a.
Proof. destruct a as [x|]; simpl; [by rewrite str_le_refl|done]. Qed.

Lemma join_assoc a b c : join a (join b c) = join (join a b) c.
Proof.
  destruct a as [x|], b as [y|], c as [z|]; simpl; try done; try (by rewrite ?join_None_r).
  - destruct (str_le y z) eqn:Hyz, (str_le x y) eqn:Hxy; simpl; rewrite ?Hyz, ?Hxy; try done.
    + by rewrite (str_le_trans x y z).
    + destruct (str_le x z) eqn:Hxz; [|done]. apply str_le_total in Hyz.
      by rewrite (str_le_trans x z y) in Hxy.
Qed.

Lemma join_absorb x y : str_le y x = true → join (Some x) (Some y) = Some x.
Proof.
  intros Hle. rewrite join_comm. simpl. by rewrite Hle.
Qed.

(** ** The pipeline as a transition system *)

(** The ids of users are ULIDs of 26 characters, so the keys of two users differ. *)
Definition ulid_length : nat := 26.

Lemma append_inj a b x y : String.length a = String.length b → a +:+ x = b +:+ y → a = b ∧ x = y.
Proof.
  revert b. induction a as [|c a IH]; intros [|d b]; simpl; intros Hlen Heq; try done.
  injection Heq as -> Heq. injection Hlen as Hlen. destruct (IH b Hlen Heq) as [-> ->]. done.
Qed.

Lemma acker_key_inj u c u' c' :
  String.length u = ulid_length → String.length u' = ulid_length →
  acker_key u c = acker_key u' c' → u = u' ∧ c = c'.
Proof.
  intros Hu Hu' Heq. apply append_inj in Heq as [_ Heq]; [|done].
  apply append_inj in Heq as [-> Heq]; [|congruence]. by apply append_inj in Heq as [_ ->].
Qed.

Section Pipeline.
Context `{Redis, Broker}.

(** The read position in the database, and the one that is still on its way *)
Definition stored (w : World.t) (c u : string) : option string :=
  ReferenceDb.channel_unreads (World.db w) !! ChannelCompositeKey.mk c u ≫= ChannelUnread.last_id.
Definition pending (w : World.t) (c u : string) : option string :=
  live (acker_key u c) (World.now w) (World.redis w).

(** What the pipeline stands for: the newest position acknowledged *)
Definition position (w : World.t) (c u : string) : option string :=
  join (stored w c u) (pending w c u).

(** The steps: a client acknowledges, the daemon handles one job, time passes. A job for
    which the store does not answer is lost, so the daemon's step asks for an answer. *)
Inductive label : Type := Acked (user channel message : string) | Delivered | Tick.
Inductive step : World.t → label → World.t → Prop :=
| step_ack w w' user channel message :
    String.length user = ulid_length →
    ack_channel user channel message w = (Ok tt, w') → step w (Acked user channel message) w'
| step_deliver w w' user channel queue :
    take_ack (World.broker w) = Some (user, Some channel, queue) →
    String.length user = ulid_length →
    (redis_getdel (acker_key user channel) (World.now w) (World.redis w)).1 ≠ None →
    deliver w = (Ok tt, w') → step w Delivered w'
| step_tick w t : step w Tick (World.set_now w t).

(** Positions on their way do not expire, and each has a job in the queue. *)
Definition queued (w : World.t) (u c : string) : Prop :=
  ∃ s, Amqp.ProcessAck u (Some c) s ∈ World.broker w.
Definition pipeline_inv (w : World.t) : Prop :=
  (∀ u c v e, String.length u = ulid_length →
     World.redis w !! acker_key u c = Some (v, e) → e = None ∧ queued w u c).

Lemma pending_of_inv w u c v :
  pipeline_inv w → String.length u = ulid_length →
  World.redis w !! acker_key u c = v → pending w c u = fst <$> v.
Proof.
  intros Hinv Hu Hv. unfold pending, live. rewrite Hv. destruct v as [[x e]|]; [|done].
  by destruct (Hinv u c x e Hu Hv) as [-> _].
Qed.

(** A successful acknowledgement: nothing when the pending position is newer, otherwise
    the position and a job. *)
Lemma ack_channel_run u c m w w' :
  ack_channel u c m w = (Ok tt, w') →
  (∃ old, pending w c u = Some old ∧ str_le m old = true ∧ w' = w) ∨
  (join (pending w c u) (Some m) = Some m ∧
   w' = World.set_broker
          (World.set_redis w (<[acker_key u c := (m, None)]> (World.redis w)))
          (World.broker w ++ [Amqp.ProcessAck u (Some c) None])).
Proof.
  unfold ack_channel. intros Hrun.
  apply bind_Ok_inv_reads in Hrun as ([] & _ & Hrun); [|apply connection_reads].
  rewrite M_bind_unfold in Hrun. unfold on_redis at 1 in Hrun.
  assert (World.set_redis w (World.redis w) = w) as Hsame by (by destruct w).
  rewrite Hsame in Hrun. clear Hsame.
  rewrite M_bind_unfold in Hrun. unfold internal at 1, lift at 1 in Hrun.
  destruct (redis_get _ _ _) as [old|] eqn:Hget; simpl in Hrun; [|done].
  apply redis_get_live in Hget. fold (pending w c u) in Hget. subst old.
  destruct (match pending w c u with Some old => str_le m old | None => false end) eqn:Hold.
  { left. destruct (pending w c u) as [old|]; [|done]. exists old. injection Hrun as <-. by split_and!. }
  right. split.
  { destruct (pending w c u) as [old|]; [|done]. simpl. by rewrite (str_le_total _ _ Hold). }
  rewrite M_bind_unfold in Hrun. unfold on_redis in Hrun.
  destruct (redis_set _ _ _ _) as [x r] eqn:Hset. apply redis_set_effect in Hset.
  rewrite M_bind_unfold in Hrun. destruct x as [[]|]; simpl in Hrun; [|done].
  unfold process_ack in Hrun. rewrite M_bind_unfold in Hrun. simpl in Hrun.
  destruct (broker_accepts _); [|done]. injection Hrun as <-. by subst r.
Qed.
End Pipeline.

(** *** The daemon's step *)

Section Delivery.
Context `{Redis, Broker}.

Lemma take_ack_spec queue u c rest :
  take_ack queue = Some (u, c, rest) →
  ∃ l1 s l2, queue = l1 ++ Amqp.ProcessAck u c s :: l2 ∧ rest = l1 ++ l2 ∧ take_ack l1 = None.
Proof.
  revert rest. induction queue as [|m queue IH]; intros rest Htake; simpl in Htake; [done|].
  assert ((∃ c', take_ack (m :: queue) = Some (u, c', rest)) →
    match m with Amqp.ProcessAck _ _ _ => True | _ => False end ∨
    ∃ l1 s l2, m :: queue = l1 ++ Amqp.ProcessAck u c s :: l2 ∧ rest = l1 ++ l2 ∧ take_ack l1 = None)
    as Hcase.
  { intros _. destruct m; try (by left); right;
      (destruct (take_ack queue) as [[[u' c'] q]|] eqn:Hq; [|done]);
      injection Htake as -> -> <-;
      destruct (IH q eq_refl) as (l1 & s & l2 & -> & -> & Hnone);
      eexists (_ :: l1), s, l2;
      (split_and!; [reflexivity|reflexivity|simpl; by rewrite Hnone]). }
  destruct (Hcase (ex_intro _ c Htake)) as [Hm|Hdone]; [|done].
  destruct m; try done. injection Htake as -> -> <-. by exists [], server_id, queue.
Qed.

(** The number of jobs in the queue *)
Definition jobs (queue : list Amqp.t) : nat :=
  length (List.filter (λ m, match m with Amqp.ProcessAck _ _ _ => true | _ => false end) queue).

Lemma take_ack_jobs queue :
  match take_ack queue with
  | Some (_, _, rest) => jobs queue = S (jobs rest)
  | None => jobs queue = 0
  end.
Proof.
  induction queue as [|m queue IH]; [done|].
  destruct m; simpl; try done; unfold jobs in *; simpl;
    destruct (take_ack queue) as [[[u c] rest]|]; done.
Qed.

(** What handling a job does: the pending position goes to the database, and at most a
    notification is added to the queue. *)
Lemma deliver_run w w' u c queue :
  take_ack (World.broker w) = Some (u, Some c, queue) →
  (redis_getdel (acker_key u c) (World.now w) (World.redis w)).1 ≠ None →
  deliver w = (Ok tt, w') →
  ∃ notice, World.now w' = World.now w ∧ World.redis w' = delete (acker_key u c) (World.redis w) ∧
    World.broker w' = queue ++ notice ∧ jobs notice = 0 ∧
    ReferenceDb.channel_unreads (World.db w') =
      match pending w c u with
      | Some m =>
          <[ChannelCompositeKey.mk c u :=
              acked (ChannelCompositeKey.mk c u)
                (ReferenceDb.channel_unreads (World.db w) !! ChannelCompositeKey.mk c u) m]>
            (ReferenceDb.channel_unreads (World.db w))
      | None => ReferenceDb.channel_unreads (World.db w)
      end.
Proof.
  intros Htake Hans Hrun. unfold deliver in Hrun. rewrite Htake in Hrun.
  rewrite M_bind_unfold in Hrun. simpl in Hrun. unfold ignore, attempt in Hrun.
  rewrite M_bind_unfold in Hrun. unfold process_channel_ack in Hrun.
  rewrite M_bind_unfold in Hrun. unfold on_redis in Hrun. simpl in Hrun.
  destruct (redis_getdel _ _ _) as [x r] eqn:Hget. apply redis_getdel_effect in Hget.
  destruct x as [y|]; [|done]. destruct Hget as [-> ->]. fold (pending w c u) in *.
  rewrite M_bind_unfold in Hrun. simpl in Hrun.
  destruct (pending w c u) as [m|].
  - rewrite M_bind_unfold in Hrun. simpl in Hrun. rewrite M_bind_unfold in Hrun.
    unfold on_unreads in Hrun. rewrite on_table_run in Hrun.
    cbn [ReferenceDb.channel_unreads World.db World.set_db World.set_redis World.set_broker] in Hrun.
    rewrite !acknowledge_message_spec in Hrun. simpl in Hrun.
    set (t := ReferenceDb.channel_unreads (World.db w)) in *.
    set (key := ChannelCompositeKey.mk c u) in *.
    destruct (t !! key) as [before|]; simpl in Hrun; 
      [|injection Hrun as <-; exists []; rewrite app_nil_r; by split_and!].
    case_bool_decide; 
      [|injection Hrun as <-; exists []; rewrite app_nil_r; by split_and!].
    rewrite M_bind_unfold in Hrun. simpl in Hrun.
    destruct (broker_accepts _); injection Hrun as <-;
      [eexists; by split_and!|exists []; rewrite app_nil_r; by split_and!].
  - injection Hrun as <-. exists []. rewrite app_nil_r. by split_and!.
Qed.

Lemma acked_last key u m :
  ChannelUnread.last_id (acked key u m) = join (u ≫= ChannelUnread.last_id) (Some m).
Proof.
  destruct u as [u|]; [|done]. simpl. destruct (ChannelUnread.last_id u) as [l|] eqn:Hl; [|done].
  simpl. by destruct (str_le l m).
Qed.

(** The daemon's step, seen from one user and channel *)
Lemma deliver_stored w w' u c queue u' c' :
  take_ack (World.broker w) = Some (u, Some c, queue) →
  (redis_getdel (acker_key u c) (World.now w) (World.redis w)).1 ≠ None →
  deliver w = (Ok tt, w') →
  stored w' c' u' = if bool_decide (u' = u ∧ c' = c) then position w c u else stored w c' u'.
Proof.
  intros Htake Hans Hrun.
  destruct (deliver_run _ _ _ _ _ Htake Hans Hrun) as (n & _ & _ & _ & _ & Hdb).
  unfold stored, position. rewrite Hdb. case_bool_decide as Heq.
  - destruct Heq as [-> ->]. unfold stored. destruct (pending w c u) as [m|].
    + simpl. rewrite lookup_insert_eq. apply acked_last.
    + by rewrite join_None_r.
  - destruct (pending w c u) as [m|]; [|done]. simpl. rewrite lookup_insert_ne; [done|].
    intros Hk. apply Heq. by injection Hk as -> ->.
Qed.
End Delivery.

(** ** Properties of the pipeline *)

Section Properties.
Context `{Redis, Broker}.

Lemma pending_delete w u c u' c' :
  String.length u = ulid_length → String.length u' = ulid_length →
  live (acker_key u' c') (World.now w) (delete (acker_key u c) (World.redis w)) =
  if bool_decide (u' = u ∧ c' = c) then None else pending w c' u'.
Proof.
  intros Hu Hu'. unfold pending, live. case_bool_decide as Heq.
  - destruct Heq as [-> ->]. by rewrite lookup_delete_eq.
  - rewrite lookup_delete_ne; [done|]. intros Hk. apply Heq.
    apply acker_key_inj in Hk as [-> ->]; done.
Qed.

Lemma step_inv w l w' : step w l w' → pipeline_inv w → pipeline_inv w'.
Proof.
  intros Hstep Hinv. destruct Hstep as [w w' u c m Hu Hrun|w w' u c queue Htake Hu Hans Hrun|w t].
  - destruct (ack_channel_run u c m w w' Hrun) as [(old & _ & _ & ->)|[_ ->]]; [done|].
    intros u' c' v e Hu' Hlook. simpl in Hlook. rewrite lookup_insert_Some in Hlook.
    destruct Hlook as [[Hk [= <- <-]]|[_ Hlook]].
    + apply acker_key_inj in Hk as [-> ->]; [|done..]. split; [done|]. exists None. set_solver.
    + destruct (Hinv u' c' v e Hu' Hlook) as [-> [s Hin]]. split; [done|]. exists s. set_solver.
  - destruct (deliver_run _ _ _ _ _ Htake Hans Hrun) as (n & _ & Hr & Hb & _ & _).
    intros u' c' v e Hu' Hlook. rewrite Hr, lookup_delete_Some in Hlook.
    destruct Hlook as [Hk Hlook]. destruct (Hinv u' c' v e Hu' Hlook) as [-> [s Hin]].
    split; [done|]. exists s. rewrite Hb.
    apply take_ack_spec in Htake as (l1 & s1 & l2 & Hq & -> & _). rewrite Hq in Hin.
    apply elem_of_app in Hin as [Hin|[Heq|Hin]%elem_of_cons]; [set_solver| |set_solver].
    injection Heq as -> -> _. done.
  - intros u' c' v e Hu' Hlook. by apply (Hinv u' c' v e Hu').
Qed.

(** What a label means for the abstract map *)
Definition advance (l : label) (c u : string) (p : option string) : option string :=
  match l with
  | Acked user channel message =>
      if bool_decide (u = user ∧ c = channel) then join p (Some message) else p
  | _ => p
  end.

Lemma step_position w l w' c u :
  step w l w' → pipeline_inv w → String.length u = ulid_length →
  position w' c u = advance l c u (position w c u).
Proof.
  intros Hstep Hinv Hu'.
  destruct Hstep as [w w' u0 c0 m Hu Hrun|w w' u0 c0 queue Htake Hu Hans Hrun|w t]; simpl.
  - destruct (ack_channel_run u0 c0 m w w' Hrun) as [(old & Hp & Hle & ->)|[Hjoin ->]].
    + case_bool_decide as Heq; [|done]. destruct Heq as [-> ->]. unfold position.
      rewrite Hp, <- join_assoc. f_equal. symmetry. by apply join_absorb.
    + unfold position, stored, pending. simpl. case_bool_decide as Heq.
      * destruct Heq as [-> ->]. rewrite live_insert_eq, <- join_assoc.
        fold (pending w c0 u0). by rewrite Hjoin.
      * rewrite live_insert_ne; [done|]. intros Hk. apply Heq.
        apply acker_key_inj in Hk as [-> ->]; done.
  - destruct (deliver_run _ _ _ _ _ Htake Hans Hrun) as (n & Hnow & Hr & _ & _ & _).
    unfold position at 1. rewrite (deliver_stored w w' u0 c0 queue u c Htake Hans Hrun).
    unfold pending at 1. rewrite Hnow, Hr, pending_delete by done.
    case_bool_decide as Heq; [|done]. destruct Heq as [-> ->]. by rewrite join_None_r.
  - unfold position. f_equal. unfold pending, live. simpl.
    destruct (World.redis w !! acker_key u c) as [[v e]|] eqn:Hk; [|done].
    by destruct (Hinv u c v e Hu' Hk) as [-> _].
Qed.

(** C14: the pipeline refines a map from users and channels to positions: every step of a
    client, of the daemon or of time keeps the invariant (a position on its way does not
    expire and has a job in the queue) and changes the position the pipeline stands for
    exactly as the step says: an acknowledgement takes the newer of the two, the rest
    changes nothing. The steps are those of one channel; acknowledging a whole server writes to the
    database past the pipeline. *)
Theorem pipeline_refines_positions (w w' : World.t) (l : label) :
  step w l w' → pipeline_inv w →
  pipeline_inv w' ∧
  ∀ c u, String.length u = ulid_length → position w' c u = advance l c u (position w c u).
Proof.
  intros Hstep Hinv. split; [by eapply step_inv|]. intros c u Hu. by apply step_position.
Qed.

(** Runs *)
Inductive run : World.t → list label → World.t → Prop :=
| run_nil w : run w [] w
| run_cons w l w1 ls w2 : step w l w1 → run w1 ls w2 → run w (l :: ls) w2.

Lemma run_position w ls w' c u :
  run w ls w' → pipeline_inv w → String.length u = ulid_length →
  pipeline_inv w' ∧
  position w' c u = fold_left (λ p l, advance l c u p) ls (position w c u).
Proof.
  intros Hrun Hinv Hu. induction Hrun as [w|w l w1 ls w2 Hstep _ IH]; [done|].
  destruct (IH ltac:(by eapply step_inv)) as [Hinv' Hpos]. split; [done|].
  rewrite Hpos. simpl. f_equal. by apply step_position.
Qed.

(** The messages a user acknowledged in a channel during a run *)
Definition acknowledged (ls : list label) (c u : string) : list string :=
  omap (λ l, match l with
             | Acked user channel message =>
                 if bool_decide (u = user ∧ c = channel) then Some message else None
             | _ => None
             end) ls.

Lemma fold_advance ls c u p :
  fold_left (λ p l, advance l c u p) ls p =
  fold_left (λ p m, join p (Some m)) (acknowledged ls c u) p.
Proof.
  revert p. induction ls as [|l ls IH]; intros p; simpl; [done|].
  destruct l as [u' c' m| |]; simpl; [|apply IH..]. case_bool_decide; simpl; apply IH.
Qed.

(** After a run the newest position has been stored, once no job is left. *)
Lemma drained_position w w' ls c u :
  run w ls w' → pipeline_inv w → pending w c u = None → jobs (World.broker w') = 0 →
  String.length u = ulid_length →
  stored w' c u = fold_left (λ p m, join p (Some m)) (acknowledged ls c u) (stored w c u).
Proof.
  intros Hrun Hinv Hnone Hdrained Hu.
  destruct (run_position w ls w' c u Hrun Hinv Hu) as [Hinv' Hpos].
  rewrite fold_advance in Hpos. unfold position at 2 in Hpos. rewrite Hnone, join_None_r in Hpos.
  rewrite <- Hpos. unfold position.
  destruct (World.redis w' !! acker_key u c) as [[v e]|] eqn:Hk.
  - destruct (Hinv' u c v e Hu Hk) as [_ [s Hin]]. exfalso. unfold jobs in Hdrained.
    apply length_zero_iff_nil in Hdrained.
    assert (Amqp.ProcessAck u (Some c) s ∈
      List.filter (λ m, match m with Amqp.ProcessAck _ _ _ => true | _ => false end)
        (World.broker w')) as Hf.
    { apply list_elem_of_In, filter_In. split; [|done]. by apply list_elem_of_In. }
    rewrite Hdrained in Hf. by apply not_elem_of_nil in Hf.
  - rewrite (pending_of_inv w' u c None) by done. by rewrite join_None_r.
Qed.

(** The jobs the API queues: for a channel and a user *)
Definition proper_jobs (w : World.t) : Prop :=
  ∀ u c s, Amqp.ProcessAck u c s ∈ World.broker w → is_Some c ∧ String.length u = ulid_length.

(** One turn of the daemon: it never fails, takes one job off the queue and adds none. *)
Lemma deliver_takes_job w u c rest :
  take_ack (World.broker w) = Some (u, Some c, rest) →
  ∃ w1, deliver w = (Ok tt, w1) ∧ jobs (World.broker w1) = jobs rest ∧
    ∀ a b s, Amqp.ProcessAck a b s ∈ World.broker w1 → Amqp.ProcessAck a b s ∈ World.broker w.
Proof.
  intros Htake. pose proof (take_ack_spec _ _ _ _ Htake) as (l1 & s & l2 & Hq & Hrest & _).
  assert (∃ w1, deliver w = (Ok tt, w1) ∧
    (World.broker w1 = rest ∨ ∃ a b m, World.broker w1 = rest ++ [Amqp.AckNotificationMessage a b m]))
    as (w1 & Hdel & Hb).
  { unfold deliver. rewrite Htake, M_bind_unfold. simpl. unfold ignore, attempt.
    rewrite M_bind_unfold. unfold process_channel_ack. rewrite M_bind_unfold.
    unfold on_redis. simpl. destruct (redis_getdel _ _ _) as [[[m|]|] r].
    - rewrite M_bind_unfold. simpl. rewrite M_bind_unfold. simpl. rewrite M_bind_unfold.
      unfold on_unreads. rewrite on_table_run, !acknowledge_message_spec. simpl.
      set (t := ReferenceDb.channel_unreads (World.db w)).
      destruct (t !! _) as [before|]; simpl; [|by eexists; split; [done|left]].
      case_bool_decide; [|by eexists; split; [done|left]].
      rewrite M_bind_unfold. simpl.
      destruct (broker_accepts _); eexists; (split; [done|]); [right|by left]. by eexists _, _, _.
    - rewrite M_bind_unfold. simpl. eexists. split; [done|]. by left.
    - rewrite M_bind_unfold. simpl. eexists. split; [done|]. by left. }
  assert (∀ x, x ∈ rest → x ∈ World.broker w) as Hsub by (rewrite Hq, Hrest; set_solver).
  exists w1. split; [done|]. destruct Hb as [->|(a & b & m & ->)].
  - split; [done|]. intros. by apply Hsub.
  - split; [unfold jobs; rewrite List.filter_app; simpl; by rewrite app_nil_r|].
    intros a' b' s' [Hx|Hx]%elem_of_app; [by apply Hsub|].
    by apply list_elem_of_singleton in Hx.
Qed.

(** As many turns as there are jobs *)
Definition drain (w : World.t) : H unit :=
  for_each (replicate (jobs (World.broker w)) tt) (λ _, deliver).

(** The daemon empties the queue: each turn of its loop takes one job off the queue and
    adds none, so as many turns as there are jobs leave none, whether or not the store and
    the broker answer. *)
Theorem daemon_drains_queue (w : World.t) :
  (∀ u c s, Amqp.ProcessAck u c s ∈ World.broker w → is_Some c) →
  ∃ w', drain w w = (Ok tt, w') ∧ jobs (World.broker w') = 0.
Proof.
  unfold drain. remember (jobs (World.broker w)) as n eqn:Hn. revert w Hn.
  induction n as [|n IH]; intros w Hn Hsome; simpl; [by exists w|].
  pose proof (take_ack_jobs (World.broker w)) as Hjobs.
  destruct (take_ack (World.broker w)) as [[[u c] rest]|] eqn:Htake; [|lia].
  pose proof (take_ack_spec _ _ _ _ Htake) as (l1 & s & l2 & Hq & _).
  destruct (Hsome u c s) as [ch ->]; [rewrite Hq; set_solver|].
  destruct (deliver_takes_job w u ch rest Htake) as (w1 & Hdel & Hj & Hin).
  rewrite M_bind_unfold, Hdel. apply IH; [lia|]. intros u' c' s' Hx. by eapply Hsome, Hin.
Qed.

(** Draining is a run when the store answers. *)
Lemma drain_run w :
  (∀ k now r, (redis_getdel k now r).1 ≠ None) → proper_jobs w →
  ∃ ls w', drain w w = (Ok tt, w') ∧ run w ls w' ∧ jobs (World.broker w') = 0 ∧
    ∀ c u, acknowledged ls c u = [].
Proof.
  intros Hanswers. unfold drain. remember (jobs (World.broker w)) as n eqn:Hn. revert w Hn.
  induction n as [|n IH]; intros w Hn Hproper; simpl; [exists [], w; by repeat constructor|].
  pose proof (take_ack_jobs (World.broker w)) as Hjobs.
  destruct (take_ack (World.broker w)) as [[[u c] rest]|] eqn:Htake; [|lia].
  pose proof (take_ack_spec _ _ _ _ Htake) as (l1 & s & l2 & Hq & _).
  destruct (Hproper u c s) as [[ch ->] Hu]; [rewrite Hq; set_solver|].
  destruct (deliver_takes_job w u ch rest Htake) as (w1 & Hdel & Hj & Hin).
  destruct (IH w1) as (ls & w2 & Hloop & Hrun & Hnone & Hacks);
    [lia|intros u' c' s' Hx; by eapply Hproper, Hin|].
  exists (Delivered :: ls), w2. rewrite M_bind_unfold, Hdel.
  split_and!; [done| |done|done]. apply run_cons with w1; [|done]. by apply (step_deliver _ _ u ch rest).
Qed.

Lemma run_proper_jobs w ls w' : run w ls w' → proper_jobs w → proper_jobs w'.
Proof.
  intros Hrun. induction Hrun as [w|w l w1 ls w2 Hstep _ IH]; [done|]. intros Hproper. apply IH.
  destruct Hstep as [w w1 u c m Hu Hack|w w1 u c queue Htake _ _ Hdel|w t]; [| |done].
  - apply ack_channel_run in Hack as [(? & _ & _ & ->)|[_ ->]]; [done|].
    intros u' c' s' [Hx|Hx]%elem_of_app; [by eapply Hproper|].
    apply list_elem_of_singleton in Hx as [= -> -> ->]. split; [by eexists|done].
  - destruct (deliver_takes_job w u c queue Htake) as (w1' & Hdel' & _ & Hin).
    rewrite Hdel in Hdel'. injection Hdel' as <-. intros u' c' s' Hx. by eapply Hproper, Hin.
Qed.

Lemma run_app w ls w1 ls' w2 : run w ls w1 → run w1 ls' w2 → run w (ls ++ ls') w2.
Proof. induction 1; [done|]. intros. simpl. econstructor; eauto. Qed.

(** C15: acknowledgements that were accepted reach the database: take any run of acknowledgements of
    channels that succeeded, steps of the daemon that succeeded and passing time (no acknowledgement
    that failed half-way, none of a whole server), from a state with nothing under way for a user
    and a channel, and let the store answer every read of the daemon. Then the daemon's loop, run as
    often as there are jobs in the queue, ends, leaves no job, and the position stored is the newest
    of the one stored before and all messages the user acknowledged during the run, in whatever
    order they arrived and were processed. *)
Theorem acknowledgements_reach_database (w w' : World.t) (ls : list label) (c u : string) :
  (∀ k now r, (redis_getdel k now r).1 ≠ None) →
  run w ls w' → pipeline_inv w → proper_jobs w → pending w c u = None →
  String.length u = ulid_length →
  ∃ w'', drain w' w' = (Ok tt, w'') ∧ jobs (World.broker w'') = 0 ∧
    stored w'' c u = fold_left (λ p m, join p (Some m)) (acknowledged ls c u) (stored w c u).
Proof.
  intros Hanswers Hrun Hinv Hproper Hnone Hu.
  destruct (drain_run w' Hanswers) as (ls' & w'' & Hdrain & Hrun' & Hleft & Hacks);
    [by eapply run_proper_jobs|].
  exists w''. split_and!; [done|done|].
  rewrite (drained_position w w'' (ls ++ ls') c u) by (done || by eapply run_app).
  unfold acknowledged. rewrite omap_app. fold (acknowledged ls c u) (acknowledged ls' c u).
  by rewrite Hacks, app_nil_r.
Qed.
End Properties.

(** ** Where acknowledgements get lost *)

Section Losses.
Context `{Redis, Broker}.

(** [ack_channel] with a connection, in one equation *)
Lemma ack_channel_connected u c m w :
  redis_connects (World.now w) = true →
  ack_channel u c m w =
  match redis_get (acker_key u c) (World.now w) (World.redis w) with
  | None => (Err ErrorType.InternalError, w)
  | Some old =>
      if match old with Some old => str_le m old | None => false end then (Ok tt, w) else
      match redis_set (acker_key u c) m (World.now w) (World.redis w) with
      | (None, r) => (Err ErrorType.InternalError, World.set_redis w r)
      | (Some _, r) => process_ack u (Some c) None (World.set_redis w r)
      end
  end.
Proof.
  intros Hc. assert (World.set_redis w (World.redis w) = w) as Hsame by (by destruct w).
  unfold ack_channel, connection. rewrite !M_bind_unfold. cbn [clock gets]. rewrite Hc.
  cbn [mret M_ret]. rewrite M_bind_unfold. unfold on_redis at 1. rewrite Hsame, M_bind_unfold.
  destruct (redis_get _ _ _) as [old|]; [|done]. cbn [internal lift ok_or].
  destruct (match old with Some _ => _ | None => _ end); [done|].
  rewrite M_bind_unfold. unfold on_redis.
  destruct (redis_set _ _ _ _) as [[[]|] r]; by rewrite M_bind_unfold.
Qed.

(** An acknowledgement that could not be queued is lost although the client tries again:
    when the broker refuses the job, the request fails but the position stays in the store;
    the second try finds it there, succeeds and queues nothing, so no job will ever move
    the position to the database. *)
Theorem retry_after_failure_is_dropped (user channel message : string) (w : World.t)
    (t : Z) :
  redis_connects (World.now w) = true → redis_connects t = true →
  broker_accepts (World.now w) = false →
  redis_get (acker_key user channel) (World.now w) (World.redis w) = Some None →
  (redis_set (acker_key user channel) message (World.now w) (World.redis w)).1 = Some tt →
  (∀ r, redis_get (acker_key user channel) t r ≠ None) →
  ∃ w1, ack_channel user channel message w = (Err ErrorType.InternalError, w1) ∧
    World.broker w1 = World.broker w ∧
    ack_channel user channel message (World.set_now w1 t) = (Ok tt, World.set_now w1 t).
Proof.
  intros Hc Ht Hdown Hget Hset Hans.
  rewrite ack_channel_connected, Hget by done.
  destruct (redis_set _ _ _ _) as [x r] eqn:Hs. apply redis_set_effect in Hs. simpl in Hset. subst x r.
  unfold process_ack at 1. rewrite M_bind_unfold. cbn [clock gets World.now World.set_redis].
  rewrite Hdown. eexists. split; [reflexivity|]. split; [done|].
  rewrite ack_channel_connected by done. simpl.
  destruct (redis_get _ t _) as [y|] eqn:Hg; [|by apply Hans in Hg].
  apply redis_get_live in Hg. rewrite live_insert_eq in Hg. subst y. by rewrite str_le_refl.
Qed.

(** Acknowledging a server can undo an acknowledgement: for every channel the user can
    see, the position on its way becomes the last message the database knows of the
    channel, also when the user has acknowledged a newer message that the worker which
    records last messages has not caught up with. *)
Theorem server_ack_overwrites_pending `{MutualIds, HashIter} (user : User.t) (server : Server.t)
    (c : TextChannel.t) (last : string) (w w' : World.t) :
  ack_channels user server [Channel.TextChannel c] w = (Ok tt, w') →
  TextChannel.last_message_id c = Some last →
  (∃ p, server_channel_permissions user server (Channel.TextChannel c) w = (Ok p, w) ∧
     PermissionValue.has_channel_permission p ChannelPermission.ViewChannel = true) →
  pending w' (TextChannel.id c) (User.id user) = Some last.
Proof.
  intros Hrun Hlast (p & Hp & Hview). cbn [ack_channels] in Hrun. rewrite M_bind_unfold, Hp, Hview in Hrun.
  apply bind_Ok_inv in Hrun as ([] & w1 & Hrun & Hend). injection Hend as <-.
  rewrite M_bind_unfold in Hrun. cbn [mret M_ret] in Hrun. rewrite Hlast in Hrun.
  rewrite M_bind_unfold in Hrun. unfold on_redis in Hrun.
  destruct (redis_getset _ _ _ _) as [x r] eqn:Hset. apply redis_getset_effect in Hset.
  rewrite M_bind_unfold in Hrun. destruct x as [old|]; simpl in Hrun; [|done].
  destruct Hset as [_ ->].
  assert (World.now w1 = World.now w ∧
    World.redis w1 = <[acker_key (User.id user) (TextChannel.id c) := (last, None)]> (World.redis w))
    as [Hn Hr].
  { destruct (match old with Some _ => _ | None => _ end); [|by injection Hrun as <-].
    apply bind_Ok_inv in Hrun as ([] & w2 & Hack & Hrun). injection Hrun as <-.
    unfold process_ack in Hack. rewrite M_bind_unfold in Hack. simpl in Hack.
    destruct (broker_accepts _); [|done]. by injection Hack as <-. }
  unfold pending. rewrite Hn, Hr. apply live_insert_eq.
Qed.
End Losses.

(** ** Evaluations *)

Module Sample.
#[local] Existing Instance Store.reliable.
#[local] Existing Instance canonical_iter.
#[local] Existing Instance Fixture.strangers.

(** The broker is down at time 0. *)
#[local] Instance broker : Broker := λ now, negb (now =? 0)%Z.

Definition user : string := "01HZZZZZZZZZZZZZZZZZZZZZZZ".
Definition world : World.t := World.set_now World.empty 1.
Definition acked_once : World.t := (ack_channel user "C" "02" world).2.
Definition acked_twice : World.t := (ack_channel user "C" "01" acked_once).2.

Lemma world_inv : pipeline_inv world.
Proof.
  intros u c v e _ Hk. change (World.redis world) with (∅ : store) in Hk.
  by rewrite lookup_empty in Hk.
Qed.

Lemma step_once : step world (Acked user "C" "02") acked_once.
Proof. apply step_ack; [reflexivity|vm_compute; reflexivity]. Qed.
Lemma step_twice : step acked_once (Acked user "C" "01") acked_twice.
Proof. apply step_ack; [reflexivity|vm_compute; reflexivity]. Qed.
Lemma both_runs : run world [Acked user "C" "02"; Acked user "C" "01"] acked_twice.
Proof.
  apply run_cons with acked_once; [apply step_once|].
  apply run_cons with acked_twice; [apply step_twice|]. constructor.
Qed.

Lemma pipeline_refines_positions_witness :
  position acked_once "C" user = Some "02".
Proof.
  apply (pipeline_refines_positions world acked_once (Acked user "C" "02") step_once world_inv).
  reflexivity.
Defined.

Lemma acknowledgements_reach_database_witness :
  ∃ w'', drain acked_twice acked_twice = (Ok tt, w'') ∧ jobs (World.broker w'') = 0 ∧
    stored w'' "C" user = Some "02".
Proof.
  apply (acknowledgements_reach_database world acked_twice [Acked user "C" "02"; Acked user "C" "01"]
           "C" user); [done|apply both_runs|apply world_inv| |reflexivity|reflexivity].
  intros u c s Hin. by apply not_elem_of_nil in Hin.
Defined.

Lemma daemon_drains_queue_witness :
  ∃ w', drain acked_twice acked_twice = (Ok tt, w') ∧ jobs (World.broker w') = 0.
Proof.
  apply (daemon_drains_queue acked_twice). intros u c s Hin. vm_compute in Hin.
  apply list_elem_of_singleton in Hin. injection Hin as _ -> _. by eexists.
Defined.

Lemma retry_after_failure_is_dropped_witness :
  ∃ w1, ack_channel user "C" "02" World.empty = (Err ErrorType.InternalError, w1) ∧
    World.broker w1 = [] ∧
    ack_channel user "C" "02" (World.set_now w1 5) = (Ok tt, World.set_now w1 5).
Proof.
  apply (retry_after_failure_is_dropped user "C" "02" World.empty 5); try reflexivity. done.
Defined.

Definition owner : User.t := Fixture.user user [].
Definition server : Server.t := Fixture.server "S" user 0 [].
Definition channel : TextChannel.t :=
  TextChannel.mk "C" "S" "C" None None (Some "01") None ∅ false None None None.

Lemma server_ack_overwrites_pending_witness :
  pending acked_once "C" user = Some "02" ∧
  pending (ack_channels owner server [Channel.TextChannel channel] acked_once).2 "C" user =
    Some "01".
Proof.
  split; [vm_compute; reflexivity|].
  apply (server_ack_overwrites_pending owner server channel "01" acked_once
           (ack_channels owner server [Channel.TextChannel channel] acked_once).2);
    [vm_compute; reflexivity|reflexivity|].
  eexists. split; vm_compute; reflexivity.
Defined.
End Sample.
