(* ===== verification/MessageRoutes.v ===== *)
(** * Routes on messages ([delta/src/routes/channels/message_*.rs])

    Fetching, searching, editing, deleting, pinning and voting on messages, and reacting to
    them: the checks of each route around the handlers of [MessageOps.v]. The theorems say
    which permission each request needs before anything changes, who can read messages, and
    what a vote does to a poll. *)

From stdpp Require Import base list gmap strings.
From Stdlib Require Import ZArith Lia.
From S2P Require Import Prelude Errors Permissions PermissionSpec Files Users Servers Channels.
From S2P Require Import PermissionQuery Messages Unreads Config Emojis Webhooks Bots AuditLogs.
From S2P Require Import World Database Relationships MessageOps ChannelOps References Authors.
From S2P Require Import MessageCreate.

(** ** Requests *)

Module DataEditMessage.
Record t : Type := mk { content : option string; embeds : option (list SendableEmbed.t) }.
Definition valid `{Validator} (d : t) : bool :=
  valid_option (λ c, bool_decide (1 ≤ char_count c)%nat) (content d) &&
  valid_option (λ l, bool_decide (length l ≤ 10)%nat) (embeds d).
End DataEditMessage.

Module OptionsBulkDelete.
Record t : Type := mk { ids : list string }.
Definition valid (o : t) : bool :=
  bool_decide (1 ≤ length (ids o))%nat && bool_decide (length (ids o) ≤ 100)%nat.
End OptionsBulkDelete.

Module OptionsUnreact.
Record t : Type := mk { user_id : option string; remove_all : option bool }.
End OptionsUnreact.

Module PollVote.
Record t : Type := mk { option_id : string; selected : bool }.
End PollVote.

Definition valid_limit (l : Z) : bool := (1 <=? l)%Z && (l <=? 100)%Z.

Module OptionsQueryMessages.
Record t : Type := mk {
  limit : option Z; before : option string; after : option string;
  sort : option MessageSort.t; nearby : option string; include_users : option bool
}.
Definition valid `{Validator} (o : t) : bool :=
  valid_option valid_limit (limit o) && valid_option (valid_length 26 26) (before o) &&
  valid_option (valid_length 26 26) (after o) && valid_option (valid_length 26 26) (nearby o).
End OptionsQueryMessages.

Module DataMessageSearch.
Record t : Type := mk {
  query : option string; pinned : option bool; limit : option Z; before : option string;
  after : option string; sort : MessageSort.t; include_users : option bool
}.
Definition valid `{Validator} (o : t) : bool :=
  valid_option (valid_length 1 64) (query o) && valid_option valid_limit (limit o) &&
  valid_option (valid_length 26 26) (before o) && valid_option (valid_length 26 26) (after o).
End DataMessageSearch.

Module BulkMessageResponse.
Inductive t : Type :=
| JustMessages (messages : list Message.t)
| MessagesAndUsers (messages : list Message.t) (users : list V0User.t)
    (members : option (list Member.t)).
Definition messages (r : t) : list Message.t :=
  match r with JustMessages l | MessagesAndUsers l _ _ => l end.
End BulkMessageResponse.

(** Partial messages with the fields the routes set *)
Definition partial_edit (edited : Z) (content : option string) (embeds : list Embed.t) :
    PartialMessage.t :=
  PartialMessage.mk None None None None None content None None (Some edited) (Some embeds) None
    None None None None None None None None.
Definition partial_reactions (r : list (string * list string)) : PartialMessage.t :=
  PartialMessage.mk None None None None None None None None None None None None None (Some r) None
    None None None None.
Definition partial_poll (p : Poll.t) : PartialMessage.t :=
  PartialMessage.mk None None None None None None None None None None None None None None None
    (Some p) None None None.
Definition partial_pinned (b : option bool) : PartialMessage.t :=
  PartialMessage.mk None None None None None None None None None None None None None None None None
    None b None.

(** [IndexSet::shift_remove] *)
Class ShiftRemove := {
  set_shift_remove : string → list string → list string;
  elem_of_set_shift_remove x y s : NoDup s → (y ∈ set_shift_remove x s ↔ y ∈ s ∧ y ≠ x);
  set_shift_remove_nodup x s : NoDup s → NoDup (set_shift_remove x s)
}.

(** ** Votes *)

Section Votes.
Context `{IndexMaps, ShiftRemove}.

(** [poll.votes.entry(option_id).or_default()] followed by writing the voters *)
Definition alter_votes (f : list string → list string) (option_id : string)
    (votes : list (string * list string)) : list (string * list string) :=
  match assoc option_id votes with
  | Some _ => map_alter f option_id votes
  | None => map_insert option_id (f []) votes
  end.

(** What [vote] does to the votes of the poll *)
Definition cast_vote (poll : Poll.t) (user : string) (vote : PollVote.t) : Poll.t :=
  let votes :=
    if negb (Poll.multiple poll) && PollVote.selected vote
    then (λ kv, (kv.1, set_shift_remove user kv.2)) <$> Poll.votes poll
    else Poll.votes poll in
  let votes :=
    alter_votes (if PollVote.selected vote then set_insert user else set_shift_remove user)
      (PollVote.option_id vote) votes in
  Poll.mk (Poll.question poll) (Poll.options poll) (Poll.multiple poll) (Poll.closed poll)
    (Poll.closes_at poll) votes.

Definition poll_closed (now : Z) (poll : Poll.t) : bool :=
  Poll.closed poll ||
  match Poll.closes_at poll with Some closes_at => (closes_at <=? now)%Z | None => false end.
End Votes.

Definition set_edited (m : Message.t) (edited : Z) : Message.t :=
  Message.mk (Message.id m) (Message.nonce m) (Message.channel m) (Message.author m)
    (Message.webhook m) (Message.content m) (Message.system m) (Message.attachments m) (Some edited)
    (Message.embeds m) (Message.mentions m) (Message.role_mentions m) (Message.replies m)
    (Message.reactions m) (Message.interactions m) (Message.poll m) (Message.masquerade m)
    (Message.pinned m) (Message.flags m).
Definition set_poll (m : Message.t) (poll : Poll.t) : Message.t :=
  Message.mk (Message.id m) (Message.nonce m) (Message.channel m) (Message.author m)
    (Message.webhook m) (Message.content m) (Message.system m) (Message.attachments m)
    (Message.edited m) (Message.embeds m) (Message.mentions m) (Message.role_mentions m)
    (Message.replies m) (Message.reactions m) (Message.interactions m) (Some poll)
    (Message.masquerade m) (Message.pinned m) (Message.flags m).

Section Routes.
Context `{Environment, MutualIds, HashIter, Validator, Lowercase, IndexMaps, ShiftRemove}.
Context `{OptionalStruct Message.t PartialMessage.t}.

(** [calculate_channel_permissions(&mut query).await.throw_if_lacking_channel_permission(..)?] *)
Definition require_in_channel (user : User.t) (channel : Channel.t)
    (permission : ChannelPermission.t) : H PermissionValue.t :=
  found ← query_channel user channel;
  require found.1 permission ;;
  mret found.1.

(** ** Reading *)

(** [User::fetch_many_ids_as_mutuals] *)
Definition fetch_many_ids_as_mutuals (perspective : User.t) (ids : list string) :
    H (list V0User.t) :=
  users ← on_users (UsersTable.fetch_users ids);
  lift (collect (λ user, into_known user (Some perspective) (is_online (User.id user))) users).

(** The users a message names: its author and those of a system message *)
Definition users_of (m : Message.t) : list string :=
  Message.author m ::
  match Message.system m with
  | Some (SystemMessage.ChannelDescriptionChanged by_)
  | Some (SystemMessage.ChannelIconChanged by_)
  | Some (SystemMessage.ChannelRenamed _ by_)
  | Some (SystemMessage.MessagePinned _ by_)
  | Some (SystemMessage.MessageUnpinned _ by_)
  | Some (SystemMessage.CallStarted by_ _) => [by_]
  | Some (SystemMessage.ChannelOwnershipChanged from to) => [from; to]
  | Some (SystemMessage.UserAdded id by_) | Some (SystemMessage.UserRemove id by_) => [by_; id]
  | Some (SystemMessage.UserBanned id) | Some (SystemMessage.UserKicked id)
  | Some (SystemMessage.UserJoined id) | Some (SystemMessage.UserLeft id) => [id]
  | Some (SystemMessage.Text _) | None => []
  end.

(** [Message::fetch_with_users] *)
Definition fetch_with_users (query : MessageQuery.t) (perspective : User.t)
    (include_users : option bool) (server_id : option string) : H BulkMessageResponse.t :=
  messages ← on_messages (MessagesTable.fetch_messages query);
  match include_users with
  | Some true =>
      let user_ids := hash_set_iter (list_to_set (mjoin (users_of <$> messages))) in
      users ← fetch_many_ids_as_mutuals perspective user_ids;
      members ← match server_id with
                | Some server_id =>
                    members ← on_members (MembersTable.fetch_members server_id user_ids);
                    mret (Some members)
                | None => mret None
                end;
      mret (BulkMessageResponse.MessagesAndUsers messages users members)
  | _ => mret (BulkMessageResponse.JustMessages messages)
  end.

(** Fetch Message *)
Definition message_fetch (user : User.t) (target msg : string) : H Message.t :=
  channel ← Reference.as_channel target;
  require_in_channel user channel ChannelPermission.ViewChannel ;;
  message ← Reference.as_message msg;
  if negb (bool_decide (Message.channel message = Channel.id channel))
  then throw ErrorType.NotFound else mret message.

(** Fetch Messages *)
Definition message_query (user : User.t) (target : string) (options : OptionsQueryMessages.t) :
    H BulkMessageResponse.t :=
  validate OptionsQueryMessages.valid options ;;
  match OptionsQueryMessages.sort options with
  | Some MessageSort.Relevance => throw ErrorType.InvalidOperation
  | _ => mret tt
  end ;;
  channel ← Reference.as_channel target;
  require_in_channel user channel ChannelPermission.ReadMessageHistory ;;
  fetch_with_users
    (MessageQuery.mk (OptionsQueryMessages.limit options)
       (MessageFilter.mk (Some (Channel.id channel)) None None None)
       (match OptionsQueryMessages.nearby options with
        | Some nearby => MessageTimePeriod.Relative nearby
        | None => MessageTimePeriod.Absolute (OptionsQueryMessages.before options)
                    (OptionsQueryMessages.after options) (OptionsQueryMessages.sort options)
        end))
    user (OptionsQueryMessages.include_users options) (Channel.server channel).

(** Search for Messages *)
Definition message_search (user : User.t) (target : string) (options : DataMessageSearch.t) :
    H BulkMessageResponse.t :=
  (if is_bot user then throw ErrorType.IsBot else mret tt) ;;
  validate DataMessageSearch.valid options ;;
  (if bool_decide (is_Some (DataMessageSearch.query options)) &&
      bool_decide (is_Some (DataMessageSearch.pinned options))
   then throw ErrorType.InvalidOperation else mret tt) ;;
  channel ← Reference.as_channel target;
  require_in_channel user channel ChannelPermission.ReadMessageHistory ;;
  fetch_with_users
    (MessageQuery.mk (DataMessageSearch.limit options)
       (MessageFilter.mk (Some (Channel.id channel)) None (DataMessageSearch.query options)
          (DataMessageSearch.pinned options))
       (MessageTimePeriod.Absolute (DataMessageSearch.before options)
          (DataMessageSearch.after options) (Some (DataMessageSearch.sort options))))
    user (DataMessageSearch.include_users options) (Channel.server channel).

(** ** Deleting *)

(** The age of every message to delete: at most a week *)
Fixpoint recent (now : Z) (ids : list string) : Result unit :=
  match ids with
  | [] => Ok tt
  | id :: ids =>
      ms ← ok_or (ulid_timestamp_ms id) ErrorType.InvalidOperation;
      if (now <? ms * 10 ^ 6)%Z then Panicked else
      if (7 * 24 * 3600 * 10 ^ 9 <? now - ms * 10 ^ 6)%Z then Err ErrorType.InvalidOperation
      else recent now ids
  end.

(** An entry in the audit log, if the channel belongs to a server *)
Definition audit_in_channel (channel : Channel.t) (action : AuditLogEntryAction.t)
    (reason : option string) (user : string) (target : option string) : H unit :=
  match Channel.server channel with
  | Some server => audit action server reason user target ;; mret tt
  | None => mret tt
  end.

(** Bulk Delete Messages *)
Definition message_bulk_delete (user : User.t) (reason : option string) (target : string)
    (options : OptionsBulkDelete.t) : H unit :=
  validate OptionsBulkDelete.valid options ;;
  now ← clock;
  lift (recent now (OptionsBulkDelete.ids options)) ;;
  channel ← Reference.as_channel target;
  require_in_channel user channel ChannelPermission.ManageMessages ;;
  bulk_delete target (OptionsBulkDelete.ids options) ;;
  audit_in_channel channel
    (AuditLogEntryAction.MessageBulkDelete (Channel.id channel)
       (length (OptionsBulkDelete.ids options))) reason (User.id user) None.

(** Delete Message *)
Definition message_delete (user : User.t) (reason : option string) (target msg : string) : H unit :=
  message ← Reference.as_message_in_channel msg target;
  channel ← (if negb (bool_decide (Message.author message = User.id user)) then
               channel ← Reference.as_channel target;
               require_in_channel user channel ChannelPermission.ManageMessages ;;
               mret (Some channel)
             else mret None);
  delete_message message ;;
  match channel with
  | Some channel =>
      audit_in_channel channel
        (AuditLogEntryAction.MessageDelete (Message.author message) (Message.channel message))
        reason (User.id user) (Some (Message.author message))
  | None => mret tt
  end.

(** ** Editing *)

Fixpoint create_embeds (message : Message.t) (embeds : list SendableEmbed.t) : H (list Embed.t) :=
  match embeds with
  | [] => mret []
  | embed :: embeds =>
      e ← create_embed message embed;
      es ← create_embeds message embeds;
      mret (e :: es)
  end.

(** The embeds that were not generated *)
Definition text_embeds (m : Message.t) : list Embed.t :=
  List.filter (λ e, match e with Embed.Text _ => true | _ => false end)
    (default [] (Message.embeds m)).

(** Edit Message *)
Definition message_edit (user : User.t) (target msg : string) (edit : DataEditMessage.t) :
    H Message.t :=
  validate DataEditMessage.valid edit ;;
  now ← clock;
  limits ← lift (user_limits now (User.id user));
  lift (Message.validate_sum (DataEditMessage.content edit)
          (SendableEmbed.description <$> default [] (DataEditMessage.embeds edit))
          (Z.of_nat (FeaturesLimits.message_length limits))) ;;
  channel ← Reference.as_channel target;
  permissions ← require_in_channel user channel ChannelPermission.SendMessage;
  message ← Reference.as_message_in_channel msg (Channel.id channel);
  if negb (bool_decide (Message.author message = User.id user))
  then throw ErrorType.CannotEditMessage else
  let message := set_edited message now in
  new_embeds ← match DataEditMessage.embeds edit with
               | Some embeds =>
                   require permissions ChannelPermission.SendEmbeds ;;
                   create_embeds message embeds
               | None => mret (text_embeds message)
               end;
  message ← update_message message (partial_edit now (DataEditMessage.content edit) new_embeds) [];
  (if PermissionValue.has_channel_permission permissions ChannelPermission.SendEmbeds then
     match DataEditMessage.content edit with
     | Some content => queue_embeds (Message.channel message) (Message.id message) content
     | None => mret tt
     end
   else mret tt) ;;
  mret message.

(** Pinning is allowed to everybody in direct messages *)
Definition require_to_pin (user : User.t) (channel : Channel.t) : H unit :=
  match channel with
  | Channel.DirectMessage _ => mret tt
  | _ => require_in_channel user channel ChannelPermission.ManageMessages ;; mret tt
  end.

(** Pins a message *)
Definition message_pin (user : User.t) (reason : option string) (target msg : string) : H unit :=
  channel ← Reference.as_channel target;
  require_to_pin user channel ;;
  message ← Reference.as_message_in_channel msg (Channel.id channel);
  if default false (Message.pinned message) then throw ErrorType.AlreadyPinned else
  message ← update_message message (partial_pinned (Some true)) [];
  notice ← system_message (SystemMessage.MessagePinned (Message.id message) (User.id user))
             (Channel.id channel);
  send notice (system_author user) None None channel false ;;
  audit_in_channel channel
    (AuditLogEntryAction.MessagePin (Message.id message) (Message.author message)
       (Message.channel message)) reason (User.id user) (Some (Message.author message)).

(** Unpins a message *)
Definition message_unpin (user : User.t) (reason : option string) (target msg : string) : H unit :=
  channel ← Reference.as_channel target;
  require_to_pin user channel ;;
  message ← Reference.as_message_in_channel msg (Channel.id channel);
  if negb (default false (Message.pinned message)) then throw ErrorType.NotPinned else
  message ← update_message message (partial_pinned None) [FieldsMessage.Pinned];
  notice ← system_message (SystemMessage.MessageUnpinned (Message.id message) (User.id user))
             (Channel.id channel);
  send notice (system_author user) None None channel false ;;
  audit_in_channel channel
    (AuditLogEntryAction.MessageUnpin (Message.id message) (Message.author message)
       (Message.channel message)) reason (User.id user) (Some (Message.author message)).

(** ** Polls *)

(** Vote in a native message poll *)
Definition poll_vote (user : User.t) (target msg : string) (vote : PollVote.t) : H Message.t :=
  channel ← Reference.as_channel target;
  require_in_channel user channel ChannelPermission.ViewChannel ;;
  message ← Reference.as_message_in_channel msg (Channel.id channel);
  now ← clock;
  poll ← lift (ok_or (Message.poll message) ErrorType.InvalidOperation);
  if poll_closed (as_i64 (now / 10 ^ 6)) poll then throw ErrorType.InvalidOperation else
  if negb (existsb (λ o, bool_decide (PollOption.id o = PollVote.option_id vote))
             (Poll.options poll))
  then throw ErrorType.InvalidProperty else
  let poll := cast_vote poll (User.id user) vote in
  update_message (set_poll message poll) (partial_poll poll) [].

(** Close a native message poll *)
Definition poll_close (user : User.t) (target msg : string) : H Message.t :=
  channel ← Reference.as_channel target;
  message ← Reference.as_message_in_channel msg (Channel.id channel);
  if negb (bool_decide (Message.author message = User.id user)) then throw ErrorType.NotFound else
  poll ← lift (ok_or (Message.poll message) ErrorType.InvalidOperation);
  let poll := Poll.mk (Poll.question poll) (Poll.options poll) (Poll.multiple poll) true
                (Poll.closes_at poll) (Poll.votes poll) in
  update_message (set_poll message poll) (partial_poll poll) [].

(** ** Reactions *)

(** Remove All Reactions from Message *)
Definition message_clear_reactions (user : User.t) (target msg : string) : H unit :=
  channel ← Reference.as_channel target;
  require_in_channel user channel ChannelPermission.ManageMessages ;;
  message ← Reference.as_message_in_channel msg (Channel.id channel);
  update_message message (partial_reactions []) [] ;;
  mret tt.

(** Add Reaction to Message *)
Definition message_react (user : User.t) (target msg emoji : string) : H unit :=
  channel ← Reference.as_channel target;
  require_in_channel user channel ChannelPermission.React ;;
  message ← Reference.as_message_in_channel msg (Channel.id channel);
  add_reaction message (User.id user) emoji.

(** Remove Reaction(s) to Message *)
Definition message_unreact (user : User.t) (target msg emoji : string)
    (options : OptionsUnreact.t) : H unit :=
  channel ← Reference.as_channel target;
  permissions ← require_in_channel user channel ChannelPermission.React;
  let remove_all := default false (OptionsUnreact.remove_all options) in
  (if bool_decide (is_Some (OptionsUnreact.user_id options)) || remove_all
   then require permissions ChannelPermission.ManageMessages else mret tt) ;;
  message ← Reference.as_message_in_channel msg (Channel.id channel);
  if remove_all then clear_reaction message emoji else
  remove_reaction message (default (User.id user) (OptionsUnreact.user_id options)) emoji.
End Routes.

(** ** What each request needs *)

Module MessageRequest.
Inductive t : Type :=
| BulkDelete (reason : option string) (target : string) (options : OptionsBulkDelete.t)
| Delete (reason : option string) (target msg : string)
| Edit (target msg : string) (edit : DataEditMessage.t)
| Pin (reason : option string) (target msg : string)
| Unpin (reason : option string) (target msg : string)
| Vote (target msg : string) (vote : PollVote.t)
| ClosePoll (target msg : string)
| ClearReactions (target msg : string)
| React (target msg emoji : string)
| Unreact (target msg emoji : string) (options : OptionsUnreact.t).

Definition target (r : t) : string :=
  match r with
  | BulkDelete _ x _ | Delete _ x _ | Edit x _ _ | Pin _ x _ | Unpin _ x _ | Vote x _ _
  | ClosePoll x _ | ClearReactions x _ | React x _ _ | Unreact x _ _ _ => x
  end.
End MessageRequest.

Section Requests.
Context `{Environment, MutualIds, HashIter, Validator, Lowercase, IndexMaps, ShiftRemove}.
Context `{OptionalStruct Message.t PartialMessage.t}.

(** The route of a request; what it returns is dropped *)
Definition handle (user : User.t) (r : MessageRequest.t) : H unit :=
  match r with
  | MessageRequest.BulkDelete reason target options => message_bulk_delete user reason target options
  | MessageRequest.Delete reason target msg => message_delete user reason target msg
  | MessageRequest.Edit target msg edit => message_edit user target msg edit ;; mret tt
  | MessageRequest.Pin reason target msg => message_pin user reason target msg
  | MessageRequest.Unpin reason target msg => message_unpin user reason target msg
  | MessageRequest.Vote target msg vote => poll_vote user target msg vote ;; mret tt
  | MessageRequest.ClosePoll target msg => poll_close user target msg ;; mret tt
  | MessageRequest.ClearReactions target msg => message_clear_reactions user target msg
  | MessageRequest.React target msg emoji => message_react user target msg emoji
  | MessageRequest.Unreact target msg emoji options => message_unreact user target msg emoji options
  end.

(** The user holds a permission in the channel of an id. *)
Definition holds_at (user : User.t) (target : string) (permission : ChannelPermission.t)
    (w : World.t) : Prop :=
  ∃ channel, Reference.as_channel target w = (Ok channel, w) ∧
    holds_in_channel user channel permission w.

(** The message is in the channel of an id and was written by the user. *)
Definition own_message (user : User.t) (channel msg : string) (w : World.t) : Prop :=
  ∃ m, Reference.as_message_in_channel msg channel w = (Ok m, w) ∧ Message.author m = User.id user.

(** The channel of an id is a direct message. *)
Definition direct_message (target : string) (w : World.t) : Prop :=
  ∃ c, Reference.as_channel target w = (Ok (Channel.DirectMessage c), w).

Definition allowed (user : User.t) (r : MessageRequest.t) (w : World.t) : Prop :=
  match r with
  | MessageRequest.BulkDelete _ target _ | MessageRequest.ClearReactions target _ =>
      holds_at user target ChannelPermission.ManageMessages w
  | MessageRequest.Delete _ target msg =>
      own_message user target msg w ∨ holds_at user target ChannelPermission.ManageMessages w
  | MessageRequest.Edit target msg edit =>
      holds_at user target ChannelPermission.SendMessage w ∧
      (∃ channel, Reference.as_channel target w = (Ok channel, w) ∧
         own_message user (Channel.id channel) msg w) ∧
      (DataEditMessage.embeds edit ≠ None → holds_at user target ChannelPermission.SendEmbeds w)
  | MessageRequest.Pin _ target _ | MessageRequest.Unpin _ target _ =>
      direct_message target w ∨ holds_at user target ChannelPermission.ManageMessages w
  | MessageRequest.Vote target _ _ => holds_at user target ChannelPermission.ViewChannel w
  | MessageRequest.ClosePoll target msg =>
      ∃ channel, Reference.as_channel target w = (Ok channel, w) ∧
        own_message user (Channel.id channel) msg w
  | MessageRequest.React target _ _ => holds_at user target ChannelPermission.React w
  | MessageRequest.Unreact target _ _ options =>
      holds_at user target ChannelPermission.React w ∧
      (OptionsUnreact.user_id options ≠ None ∨ OptionsUnreact.remove_all options = Some true →
         holds_at user target ChannelPermission.ManageMessages w)
  end.

Lemma require_in_channel_reads user channel permission :
  reads (require_in_channel user channel permission).
Proof. unfold require_in_channel. solve_reads. Qed.

Lemma require_in_channel_Ok user channel permission p w :
  require_in_channel user channel permission w = (Ok p, w) →
  (∃ q, query_channel user channel w = (Ok (p, q), w)) ∧
  PermissionValue.has_channel_permission p permission = true.
Proof.
  unfold require_in_channel. intros Hrun. unbind Hrun found. destruct found as [p' q].
  apply require_Ok_inv in Hrun as [Hp Hrun]. injection Hrun as <-. eauto.
Qed.

Lemma require_in_channel_holds user channel permission p w :
  require_in_channel user channel permission w = (Ok p, w) →
  holds_in_channel user channel permission w.
Proof. intros [[q Hq] Hp]%require_in_channel_Ok. by exists p, q. Qed.
Hint Resolve require_in_channel_reads : reads.

(** The check of a permission at the start of a route *)
Lemma gated_at {A} (G : Prop) user target permission (k : Channel.t → PermissionValue.t → H A) w :
  (∀ channel p, Reference.as_channel target w = (Ok channel, w) →
     require_in_channel user channel permission w = (Ok p, w) →
     holds_at user target permission w → gated G (k channel p) w) →
  gated G (channel ← Reference.as_channel target;
           p ← require_in_channel user channel permission; k channel p) w.
Proof.
  intros Hk. gate_step. gate_step. apply Hk; [done..|]. eexists. split; [done|].
  by eapply require_in_channel_holds.
Qed.

Lemma require_to_pin_reads user channel : reads (require_to_pin user channel).
Proof. unfold require_to_pin. solve_reads. Qed.
Hint Resolve require_to_pin_reads : reads.

Lemma gated_pin {A} user target (k : Channel.t → H A) w :
  gated (direct_message target w ∨ holds_at user target ChannelPermission.ManageMessages w)
    (channel ← Reference.as_channel target; require_to_pin user channel ;; k channel) w.
Proof.
  gate_step. apply gated_bind; [auto with reads|]. intros [] Hpin. apply gated_open.
  unfold require_to_pin in Hpin.
  destruct a as [c|c|c|c]; try (left; by exists c); right;
    unbind Hpin pv; eexists; (split; [done|]); by eapply require_in_channel_holds.
Qed.

(** C12: no request on messages does anything without authority, except that anybody pins and unpins
    the direct messages of others, where nothing is checked: unless the user holds what the request
    needs, the route leaves the world as it was. Deleting in bulk and clearing
    reactions need the permission to manage messages; deleting, that or being the author;
    editing, being the author and the permissions to send messages and (with embeds) embeds;
    voting, to view the channel; closing a poll, being its author; reacting, to react, and
    removing the reactions of others also to manage messages. Pinning and unpinning elsewhere than
    in direct messages need the permission to manage messages. *)
Theorem message_requests_authorised (user : User.t) (r : MessageRequest.t) (w : World.t) :
  (handle user r w).2 = w ∨ allowed user r w.
Proof.
  fold (gated (allowed user r w) (handle user r) w).
  destruct r as [reason target options|reason target msg|target msg edit|reason target msg
                |reason target msg|target msg vote|target msg|target msg|target msg emoji
                |target msg emoji options]; cbn [handle allowed].
  - unfold message_bulk_delete. do 3 gate_step. apply gated_at. intros. by apply gated_open.
  - unfold message_delete. gate_step. case_bool_decide as Hown; cbn [negb].
    + apply gated_open. left. eexists. by split.
    + apply gated_bind; [solve_reads|]. intros c Hc. apply gated_open. right.
      unbind Hc ch. unbind Hc pv. eexists. split; [done|]. by eapply require_in_channel_holds.
  - unfold message_edit. apply gated_bind_l; [done|]. do 4 gate_step. apply gated_at. intros channel p Hc Hp Hat.
    gate_step. case_bool_decide as Hown; cbn [negb]; [|by apply gated_reads].
    destruct (DataEditMessage.embeds edit) as [embeds|].
    + apply gated_assoc, gated_require. intros He. apply gated_open. split_and!; [done| |].
      * eexists. split; [done|]. by eexists.
      * intros _. eexists. split; [done|].
        apply require_in_channel_Ok in Hp as [[q Hq] _]. by exists p, q.
    + apply gated_open. split_and!; [done| |done]. eexists. split; [done|]. by eexists.
  - apply gated_pin.
  - apply gated_pin.
  - apply gated_bind_l; [done|]. apply gated_at. intros. by apply gated_open.
  - unfold poll_close. apply gated_bind_l; [done|]. do 2 gate_step.
    case_bool_decide as Hown; cbn [negb]; [|by apply gated_reads]. apply gated_open.
    eexists. split; [done|]. by eexists.
  - apply gated_at. intros. by apply gated_open.
  - apply gated_at. intros. by apply gated_open.
  - apply gated_at. intros channel p Hc Hp Hat. cbv zeta.
    destruct (bool_decide _ || _) eqn:Hmore.
    + apply gated_require. intros Hm. apply gated_open. split; [done|]. intros _. eexists. split; [done|].
      apply require_in_channel_Ok in Hp as [[q Hq] _]. by exists p, q.
    + apply gated_open. split; [done|]. intros Hor. exfalso.
      apply orb_false_elim in Hmore as [Hu Hr]. apply bool_decide_eq_false in Hu.
      destruct Hor as [Hne|Hall]; [by apply Hu, not_eq_None_Some|]. by rewrite Hall in Hr.
Qed.
End Requests.

(** ** Reading messages *)

Section Reading.
Context `{Environment, MutualIds, HashIter, Validator, Lowercase}.

(** A request that returns messages *)
Inductive read_request : Type :=
| FetchOne (target msg : string)
| Query (target : string) (options : OptionsQueryMessages.t)
| Search (target : string) (options : DataMessageSearch.t).

Definition read_messages (user : User.t) (r : read_request) : H (list Message.t) :=
  match r with
  | FetchOne target msg => m ← message_fetch user target msg; mret [m]
  | Query target options =>
      r ← message_query user target options; mret (BulkMessageResponse.messages r)
  | Search target options =>
      r ← message_search user target options; mret (BulkMessageResponse.messages r)
  end.

Lemma fetch_with_users_channel query perspective include server w r w' c :
  fetch_with_users query perspective include server w = (Ok r, w') →
  MessageFilter.channel (MessageQuery.filter query) = Some c →
  ∀ m, m ∈ BulkMessageResponse.messages r → Message.channel m = c.
Proof.
  intros Hrun Hc m Hm. unfold fetch_with_users in Hrun.
  apply bind_Ok_inv in Hrun as (ms & w1 & Hms & Hrun).
  assert (BulkMessageResponse.messages r = ms) as Heq.
  { destruct include as [[]|]; [|by injection Hrun as <- <-..].
    apply bind_Ok_inv in Hrun as (us & w2 & _ & Hrun).
    apply bind_Ok_inv in Hrun as (mem & w3 & _ & Hrun). by injection Hrun as <- <-. }
  rewrite Heq in Hm. unfold on_messages in Hms. rewrite on_table_run in Hms. injection Hms as <- _.
  apply elem_of_table_select in Hm as [Hsel _]. unfold MessagesTable.message_matches in Hsel.
  rewrite Hc in Hsel. do 3 apply andb_prop in Hsel as [Hsel _]. by apply bool_decide_eq_true in Hsel.
Qed.

(** C36: messages are read only with permission, and only those of the channel: whoever gets
    messages from the routes that fetch, list or search them holds the permission to view the
    channel (for a single message) or to read its history (for the others), and every message
    returned belongs to the channel that was checked. *)
Theorem messages_read_with_permission (user : User.t) (r : read_request) (w w' : World.t)
    (ms : list Message.t) :
  read_messages user r w = (Ok ms, w') →
  ∃ channel,
    Reference.as_channel (match r with
                          | FetchOne target _ | Query target _ | Search target _ => target
                          end) w = (Ok channel, w) ∧
    holds_in_channel user channel
      (match r with
       | FetchOne _ _ => ChannelPermission.ViewChannel
       | _ => ChannelPermission.ReadMessageHistory
       end) w ∧
    ∀ m, m ∈ ms → Message.channel m = Channel.id channel.
Proof.
  pose proof require_in_channel_reads as Hreads. intros Hrun. destruct r as [target msg|target o|target o];
    cbn [read_messages] in Hrun; apply bind_Ok_inv in Hrun as (x & w1 & Hrun & Hend);
    injection Hend as <- _.
  - unfold message_fetch in Hrun. unbind Hrun ch. unbind Hrun pv. unbind Hrun m0.
    case_bool_decide as Hid; [|done]. injection Hrun as <- _. exists ch. split; [done|].
    split; [by eapply require_in_channel_holds|]. by intros m ->%list_elem_of_singleton.
  - unfold message_query in Hrun. unbind Hrun u1. unbind Hrun u2. unbind Hrun ch. unbind Hrun pv.
    exists ch. split; [done|]. split; [by eapply require_in_channel_holds|].
    by eapply fetch_with_users_channel.
  - unfold message_search in Hrun. unbind Hrun u1. unbind Hrun u2. unbind Hrun u3. unbind Hrun ch.
    unbind Hrun pv. exists ch. split; [done|]. split; [by eapply require_in_channel_holds|].
    by eapply fetch_with_users_channel.
Qed.
End Reading.

(** ** Votes *)

Section VoteProperties.
Context `{IndexMaps, ShiftRemove}.

(** [user] votes for an option of the poll. *)
Definition voted (poll : Poll.t) (option_id user : string) : Prop :=
  ∃ voters, assoc option_id (Poll.votes poll) = Some voters ∧ user ∈ voters.

(** Options are listed once, voters once per option, and in a poll with a single choice a
    user votes for at most one option. *)
Definition poll_wf (poll : Poll.t) : Prop :=
  NoDup (Poll.votes poll).*1 ∧
  (∀ o voters, assoc o (Poll.votes poll) = Some voters → NoDup voters) ∧
  (Poll.multiple poll = false → ∀ o o' u, voted poll o u → voted poll o' u → o = o').

Lemma assoc_fmap_value {V} (f : V → V) k (l : list (string * V)) :
  assoc k ((λ kv, (kv.1, f kv.2)) <$> l) = f <$> assoc k l.
Proof.
  unfold assoc. induction l as [|[k' v] l IH]; csimpl; [done|]. case_bool_decide; [done|apply IH].
Qed.

Lemma assoc_alter_votes f k k' votes :
  assoc k' (alter_votes f k votes) =
  if bool_decide (k = k') then Some (f (default [] (assoc k votes))) else assoc k' votes.
Proof.
  unfold alter_votes. destruct (assoc k votes) as [v|] eqn:Hk.
  - rewrite assoc_map_alter. case_bool_decide; subst; [by rewrite Hk|]. by destruct (assoc k' votes).
  - by rewrite assoc_map_insert.
Qed.

Lemma alter_votes_keys f k votes : NoDup votes.*1 → NoDup (alter_votes f k votes).*1.
Proof.
  intros Hn. unfold alter_votes. destruct (assoc k votes); [by rewrite map_alter_keys|].
  by apply map_insert_nodup.
Qed.

(** The voters of an option after a vote *)
Lemma cast_vote_voted poll user vote o u :
  poll_wf poll →
  voted (cast_vote poll user vote) o u ↔
  (u ≠ user ∧ voted poll o u) ∨
  (u = user ∧ if bool_decide (o = PollVote.option_id vote) then PollVote.selected vote = true
              else voted poll o u ∧ (Poll.multiple poll || negb (PollVote.selected vote)) = true).
Proof.
  intros (Hk & Hv & _). unfold voted at 1, cast_vote. cbn [Poll.votes].
  set (single := negb (Poll.multiple poll) && PollVote.selected vote).
  set (votes := if single then _ else _).
  assert (∀ o, assoc o votes =
    (if single then set_shift_remove user else λ v, v) <$> assoc o (Poll.votes poll)) as Hvotes.
  { intros o'. unfold votes. destruct single; [apply assoc_fmap_value|]. by destruct (assoc o' _). }
  assert (∀ o' us, assoc o' (Poll.votes poll) = Some us →
    ∀ x, x ∈ (if single then set_shift_remove user us else us) ↔ x ∈ us ∧ (single = true → x ≠ user)) as Hsingle.
  { intros o' us Hus x. destruct single; [|naive_solver].
    rewrite elem_of_set_shift_remove by (by eapply Hv). naive_solver. }
  rewrite assoc_alter_votes. rewrite Hvotes.
  case_bool_decide as Ho; [subst o; rewrite bool_decide_eq_true_2 by done|
                           rewrite bool_decide_eq_false_2 by done; rewrite Hvotes].
  - assert (voted poll (PollVote.option_id vote) u ↔
      u ∈ default [] (assoc (PollVote.option_id vote) (Poll.votes poll))) as Hvoted.
    { unfold voted. destruct (assoc _ _) as [us|]; simpl; [naive_solver|].
      split; [by intros (? & [=] & _)|]. intros Hn. by apply not_elem_of_nil in Hn. }
    rewrite Hvoted. clear Hvoted.
    assert (NoDup (default [] (assoc (PollVote.option_id vote) (Poll.votes poll)))) as Hnd.
    { destruct (assoc _ _) eqn:Hus; simpl; [by eapply Hv|constructor]. }
    assert (∀ x, x ∈ default [] ((if single then set_shift_remove user else λ v, v) <$>
               assoc (PollVote.option_id vote) (Poll.votes poll)) ↔
             x ∈ default [] (assoc (PollVote.option_id vote) (Poll.votes poll)) ∧
             (single = true → x ≠ user)) as Hmem.
    { intros x. destruct (assoc (PollVote.option_id vote) (Poll.votes poll)) as [us|] eqn:Hus; simpl.
      - rewrite <- (Hsingle _ _ Hus). by destruct single.
      - split; [intros Hn; by apply not_elem_of_nil in Hn|]. by intros [Hn _]. }
    destruct (PollVote.selected vote) eqn:Hsel.
    + split.
      * intros (voters & [= <-] & Hin). rewrite elem_of_set_insert, Hmem in Hin.
        destruct (decide (u = user)); naive_solver.
      * intros Hcase. eexists. split; [done|]. rewrite elem_of_set_insert, Hmem.
        destruct (decide (u = user)); naive_solver.
    + assert (single = false) as Hsf by (unfold single; apply andb_false_r).
      rewrite Hsf in *.
      assert (∀ v : option (list string), (λ v : list string, v) <$> v = v) as Hid by (by intros []).
      rewrite Hid. split.
      * intros (voters & [= <-] & Hin). rewrite elem_of_set_shift_remove in Hin by done. naive_solver.
      * intros Hcase. eexists. split; [done|]. rewrite elem_of_set_shift_remove by done. naive_solver.
  - assert ((Poll.multiple poll || negb (PollVote.selected vote)) = negb single) as ->.
    { unfold single. by destruct (Poll.multiple poll), (PollVote.selected vote). }
    unfold voted. destruct (assoc o (Poll.votes poll)) as [us|] eqn:Hus; simpl.
    + specialize (Hsingle o us Hus u). destruct single; simpl in *;
        destruct (decide (u = user)); naive_solver.
    + naive_solver.
Qed.

Lemma cast_vote_nodup poll user vote :
  poll_wf poll →
  NoDup (Poll.votes (cast_vote poll user vote)).*1 ∧
  ∀ o voters, assoc o (Poll.votes (cast_vote poll user vote)) = Some voters → NoDup voters.
Proof.
  intros (Hk & Hv & _). unfold cast_vote. cbn [Poll.votes].
  set (single := negb (Poll.multiple poll) && PollVote.selected vote).
  set (votes := if single then _ else _).
  assert (NoDup votes.*1 ∧ ∀ o voters, assoc o votes = Some voters → NoDup voters) as [Hk' Hv'].
  { unfold votes. destruct single; [|done]. split; [by rewrite <- list_fmap_compose|].
    intros o voters. rewrite assoc_fmap_value. destruct (assoc o _) as [us|] eqn:Hus; [|done].
    intros [= <-]. apply set_shift_remove_nodup. by eapply Hv. }
  split; [by apply alter_votes_keys|]. intros o voters. rewrite assoc_alter_votes.
  case_bool_decide; [|apply Hv']. intros [= <-].
  assert (NoDup (default [] (assoc (PollVote.option_id vote) votes))) as Hd.
  { destruct (assoc _ votes) eqn:Hus; simpl; [by eapply Hv'|constructor]. }
  destruct (PollVote.selected vote); [by apply set_insert_nodup|by apply set_shift_remove_nodup].
Qed.

(** A vote changes only the voter's own votes and keeps the poll well-formed: voting for
    an option adds the voter to it (and, with a single choice, removes them from every other
    option), taking a vote back removes them from that option; nobody else's vote changes,
    and in a poll with a single choice nobody ever votes for two options. *)
Theorem vote_effect (poll : Poll.t) (user : string) (vote : PollVote.t) :
  poll_wf poll →
  poll_wf (cast_vote poll user vote) ∧
  (∀ o u, u ≠ user → voted (cast_vote poll user vote) o u ↔ voted poll o u) ∧
  (voted (cast_vote poll user vote) (PollVote.option_id vote) user ↔ PollVote.selected vote = true) ∧
  (∀ o, o ≠ PollVote.option_id vote →
     voted (cast_vote poll user vote) o user ↔
     voted poll o user ∧ (Poll.multiple poll = true ∨ PollVote.selected vote = false)).
Proof.
  intros Hwf. pose proof (λ o u, cast_vote_voted poll user vote o u Hwf) as Hspec.
  pose proof (cast_vote_nodup poll user vote Hwf) as [Hk Hv].
  split_and!; [split_and!; [done|done|]| | |].
  - change (Poll.multiple (cast_vote poll user vote)) with (Poll.multiple poll).
    intros Hm o o' u Ho Ho'. rewrite Hspec, Hm in Ho, Ho'. destruct Hwf as (_ & _ & Hone).
    specialize (Hone Hm). repeat case_bool_decide; subst; try done;
      destruct (PollVote.selected vote); naive_solver.
  - intros o u Hu. rewrite Hspec. naive_solver.
  - rewrite Hspec, bool_decide_eq_true_2 by done. naive_solver.
  - intros o Ho. rewrite Hspec, bool_decide_eq_false_2 by done.
    rewrite orb_true_iff, negb_true_iff. naive_solver.
Qed.
End VoteProperties.

(** ** Evaluations *)

Module Sample.
#[local] Existing Instance canonical_iter.
#[local] Existing Instance Fixture.strangers.
#[local] Existing Instance Instances.bytes.
#[local] Existing Instance list_maps.
#[local] Instance lowercase : Lowercase := ascii_lowercase.
#[local] Instance environment : Environment := Fixture.environment 5.

#[local, refine] Instance filter_remove : ShiftRemove := {|
  set_shift_remove x s := List.filter (λ y, negb (bool_decide (y = x))) s
|}.
Proof.
  - intros x y s _. rewrite list_elem_of_In, filter_In, <- list_elem_of_In, negb_true_iff,
      bool_decide_eq_false. done.
  - intros x s Hs. by apply NoDup_ListNoDup, List.NoDup_filter, NoDup_ListNoDup.
Defined.

(** What the derive macro generates for the field that is set here *)
#[local] Instance message_options : OptionalStruct Message.t PartialMessage.t :=
  λ m partial,
    match PartialMessage.pinned partial with
    | Some pinned =>
        Message.mk (Message.id m) (Message.nonce m) (Message.channel m) (Message.author m)
          (Message.webhook m) (Message.content m) (Message.system m) (Message.attachments m)
          (Message.edited m) (Message.embeds m) (Message.mentions m) (Message.role_mentions m)
          (Message.replies m) (Message.reactions m) (Message.interactions m) (Message.poll m)
          (Message.masquerade m) (Some pinned) (Message.flags m)
    | None => m
    end.

(** A message of A in the direct messages of A and B *)
Definition message : Message.t :=
  Message.mk "M" None "D" "A" None (Some "hello") None None None None None None None []
    Interactions.default None None None None.
Definition world : World.t :=
  World.set_db World.empty
    (ReferenceDb.set_channels
      (ReferenceDb.set_messages
        (ReferenceDb.set_users ReferenceDb.empty
          {["A" := Fixture.user "A" []; "B" := Fixture.user "B" []]})
        {["M" := message]})
      {["D" := Channel.DirectMessage (Fixture.dm "D" ["A"; "B"])]}).

(** Anybody can pin a message in the direct messages of others: whoever asks, the message
    of A to B gets pinned. *)
Theorem stranger_pins_direct_message (user : User.t) :
  ∃ w', message_pin user None "D" "M" world = (Ok tt, w') ∧
    (Message.pinned <$> MessageOps.messages w' !! "M") = Some (Some true).
Proof. eexists. split; [vm_compute; reflexivity|vm_compute; reflexivity]. Qed.

Lemma messages_read_with_permission_witness :
  ∃ channel, Reference.as_channel "D" world = (Ok channel, world) ∧
    holds_in_channel (Fixture.user "A" [Relationship.mk "B" RelationshipStatus.Friend]) channel
      ChannelPermission.ViewChannel world ∧
    ∀ m, m ∈ [message] → Message.channel m = Channel.id channel.
Proof.
  apply (messages_read_with_permission
           (Fixture.user "A" [Relationship.mk "B" RelationshipStatus.Friend])
           (FetchOne "D" "M") world world [message]).
  vm_compute. reflexivity.
Defined.

Definition poll : Poll.t :=
  Poll.mk "?" [PollOption.mk "1" "yes"; PollOption.mk "2" "no"] false false None [("1", ["A"])].

Lemma poll_is_wf : poll_wf poll.
Proof.
  split_and!.
  - repeat constructor; set_solver.
  - intros o voters. unfold assoc. simpl. case_bool_decide; [|done]. intros [= <-].
    repeat constructor; set_solver.
  - intros _ o o' u (v & Hv & _) (v' & Hv' & _). unfold assoc in *. simpl in *.
    repeat case_bool_decide; by simplify_eq/=.
Qed.

Lemma vote_effect_witness : ¬ voted (cast_vote poll "A" (PollVote.mk "2" true)) "1" "A".
Proof.
  destruct (vote_effect poll "A" (PollVote.mk "2" true) poll_is_wf) as (_ & _ & _ & Hother).
  intros Hv. apply (Hother "1") in Hv; [|discriminate]. destruct Hv as [_ [Hv|Hv]]; discriminate.
Defined.
End Sample.
