(* ===== verification/Voice.v ===== *)
(** * Voice channels

    The voice states kept in Redis and the permissions of participants ([voice/mod.rs]),
    and the client of the voice servers ([voice/voice_client.rs]). Redis and LiveKit are
    classes; what the code relies on is a law of them. The theorems relate the two sets the
    code keeps of who is in which channel to one relation, read back the state that was
    stored, and show what synchronising permissions leaves a participant. *)

From stdpp Require Import base list gmap strings.
From Stdlib Require Import ZArith Lia Ascii.
From S2P Require Import Prelude Errors Permissions PermissionSpec Files Users Servers Channels.
From S2P Require Import PermissionQuery Messages Unreads Config Emojis Webhooks Bots AuditLogs.
From S2P Require Import World Database Relationships MessageOps ChannelOps References Redis.

(** ** Commands of Redis *)

Module Command.
(** [SetEx] carries the arguments its value is written as *)
Inductive t : Type :=
| Set_ (key value : string)
| SetEx (key : string) (seconds : Z) (values : list string)
| Del (keys : list string)
| SAdd (key member : string)
| SRem (key member : string)
| SMove (source destination member : string)
| GetDel (key : string).

(** Redis refuses a command with the wrong number of arguments. *)
Definition well_formed (c : t) : bool :=
  match c with SetEx _ _ values => bool_decide (length values = 1) | _ => true end.
End Command.

(** The keys that hold strings and the keys that hold sets *)
Abbreviation sets := (gmap string (gset string)).
Definition members_of (k : string) (s : sets) : gset string := default ∅ (s !! k).

Definition execute (now : Z) (r : store * sets) (c : Command.t) : store * sets :=
  match c with
  | Command.Set_ k v => (<[k := (v, None)]> r.1, r.2)
  | Command.SetEx k s vs => (<[k := (default "" (head vs), Some (now + s * 10 ^ 9)%Z)]> r.1, r.2)
  | Command.Del ks => (foldr delete r.1 ks, foldr delete r.2 ks)
  | Command.SAdd k m => (r.1, <[k := {[m]} ∪ members_of k r.2]> r.2)
  | Command.SRem k m => (r.1, <[k := members_of k r.2 ∖ {[m]}]> r.2)
  | Command.SMove a b m =>
      if bool_decide (m ∈ members_of a r.2)
      then let s := <[a := members_of a r.2 ∖ {[m]}]> r.2 in (r.1, <[b := {[m]} ∪ members_of b s]> s)
      else r
  | Command.GetDel k => (delete k r.1, r.2)
  end.

(** A pipeline answers when each of its commands was executed; when it fails, some of them
    were. A command that only reads answers what the store holds, or fails. Booleans and
    numbers are read back as they were written. *)
Class RedisCommands := {
  redis_runs : list Command.t → Z → store * sets → bool * (store * sets);
  redis_answers : Z → store * sets → bool;
  bool_arg : bool → string;
  bool_value : string → option bool;
  i64_arg : Z → string;
  i64_value : string → option Z;
  redis_runs_all cs now r r' :
    redis_runs cs now r = (true, r') →
    Forall (λ c, Command.well_formed c = true) cs ∧ r' = fold_left (execute now) cs r;
  redis_runs_some cs now r r' :
    redis_runs cs now r = (false, r') →
    ∃ executed, sublist executed cs ∧ r' = fold_left (execute now) executed r;
  bool_arg_value b : bool_value (bool_arg b) = Some b;
  i64_arg_value i : is_i64 i → i64_value (i64_arg i) = Some i
}.

(** The [livekit_api] crate: which nodes there are a client for, whether a request succeeds
    after the requests before it, and the signed token for a set of grants. *)
Module VideoGrants.
Record t : Type := mk {
  name : string;
  identity : string;
  metadata : V0User.t;
  ttl : Z;
  room_join : bool;
  can_publish : bool;
  can_publish_data : bool;
  can_publish_sources : list string;
  can_subscribe : bool;
  room : string
}.
End VideoGrants.

Class VoiceClient := {
  rooms : gset string;
  livekit_accepts : list LiveKit.t → LiveKit.t → bool;
  to_jwt : string → VideoGrants.t → option string
}.

(** ** Channels as the sets name them *)

Module UserVoiceChannel.
Record t : Type := mk { id : string; server_id : option string }.
#[global] Instance t_eq_dec : EqDecision t.
Proof. solve_decision. Defined.

(** [input.splitn(2, '-')]: the text before the first dash and, if there is one, after it *)
Fixpoint split_dash (input : string) : string * option string :=
  match input with
  | EmptyString => (EmptyString, None)
  | String a rest =>
      if Ascii.eqb a "-"%char then (EmptyString, Some rest) else
      let '(id, server_id) := split_dash rest in (String a id, server_id)
  end.
Definition from_string (input : string) : t :=
  let '(id, server_id) := split_dash input in mk id server_id.

Definition from_channel (channel : Channel.t) : t :=
  mk (Channel.id channel) (Channel.server channel).

(** [impl Display] *)
Definition to_string (self : t) : string :=
  id self +:+ match server_id self with Some server_id => "-" +:+ server_id | None => "" end.
End UserVoiceChannel.

Section Store.
Context `{Redis, RedisCommands, HashIter}.

(** [pipeline.query_async(&mut get_connection().await?).await.to_internal_error()] *)
Definition run_commands (cs : list Command.t) : H unit :=
  λ w, let '(ok, r) := redis_runs cs (World.now w) (World.redis w, World.redis_sets w) in
       (if ok then Ok tt else Err ErrorType.InternalError,
        World.set_redis_sets (World.set_redis w r.1) r.2).

Definition pipeline (cs : list Command.t) : H unit := connection ;; run_commands cs.

(** A command that reads: [None] is a value that cannot be read as what is expected *)
Definition redis_query {A} (f : Z → store * sets → option A) : H A :=
  connection ;;
  answer ← gets (λ w,
    let r := (World.redis w, World.redis_sets w) in
    if redis_answers (World.now w) r then f (World.now w) r else None);
  lift (ok_or answer ErrorType.InternalError).

(** [GET], [SISMEMBER], [SCARD] and [SMEMBERS] *)
Definition get_key (k : string) : H (option string) := redis_query (λ now r, Some (live k now r.1)).
Definition sismember (k m : string) : H bool :=
  redis_query (λ _ r, Some (bool_decide (m ∈ members_of k r.2))).
Definition scard (k : string) : H nat := redis_query (λ _ r, Some (size (members_of k r.2))).
Definition smembers (k : string) : H (list string) :=
  redis_query (λ _ r, Some (hash_set_iter (members_of k r.2))).

(** [GETDEL] *)
Definition get_del (k : string) : H (option string) :=
  value ← gets (λ w, live k (World.now w) (World.redis w));
  pipeline [Command.GetDel k] ;;
  mret value.

(** ** Keys *)

Definition vc_key (user_id : string) : string := "vc:" +:+ user_id.
Definition vc_members_key (channel_id : string) : string := "vc_members:" +:+ channel_id.
Definition node_key (channel_id : string) : string := "node:" +:+ channel_id.

(** The id of the server, or of a channel that has none *)
Definition parent_id (channel : UserVoiceChannel.t) : string :=
  default (UserVoiceChannel.id channel) (UserVoiceChannel.server_id channel).
Definition unique_key (channel : UserVoiceChannel.t) (user_id : string) : string :=
  user_id +:+ ":" +:+ parent_id channel.
Definition state_keys (unique_key : string) : list string :=
  ["joined_at:" +:+ unique_key; "is_publishing:" +:+ unique_key; "is_receiving:" +:+ unique_key;
   "screensharing:" +:+ unique_key; "camera:" +:+ unique_key; unique_key].

(** ** Operations *)

Definition raise_if_in_voice (user : User.t) (channel : UserVoiceChannel.t) : H unit :=
  connected ← (if bool_decide (is_Some (User.bot user))
               then sismember (vc_key (User.id user)) (UserVoiceChannel.to_string channel)
               else n ← scard (vc_key (User.id user)); mret (bool_decide (0 < n)%nat));
  if (connected : bool) then throw ErrorType.AlreadyConnected else mret tt.

Definition set_channel_node (channel_id node : string) : H unit :=
  pipeline [Command.Set_ (node_key channel_id) node].
Definition get_channel_node (channel_id : string) : H (option string) :=
  get_key (node_key channel_id).
Definition delete_channel_node (channel_id : string) : H unit :=
  pipeline [Command.Del [node_key channel_id]].

Definition get_user_voice_channels (user_id : string) : H (list UserVoiceChannel.t) :=
  channels ← smembers (vc_key user_id); mret (UserVoiceChannel.from_string <$> channels).

Definition set_user_moved_from_voice (old_channel_id : string) (new_channel : UserVoiceChannel.t)
    (user_id : string) : H unit :=
  pipeline [Command.SetEx ("moved_from:" +:+ user_id +:+ ":" +:+ old_channel_id) 10
              [UserVoiceChannel.to_string new_channel]].
Definition get_user_moved_from_voice (channel_id user_id : string) : H (option string) :=
  get_del ("moved_from:" +:+ user_id +:+ ":" +:+ channel_id).
Definition set_user_moved_to_voice (new_channel_id : string) (old_channel : UserVoiceChannel.t)
    (user_id : string) : H unit :=
  pipeline [Command.SetEx ("moved_to:" +:+ user_id +:+ ":" +:+ new_channel_id) 10
              [UserVoiceChannel.to_string old_channel]].
Definition get_user_moved_to_voice (channel_id user_id : string) : H (option UserVoiceChannel.t) :=
  value ← get_del ("moved_to:" +:+ user_id +:+ ":" +:+ channel_id);
  mret (UserVoiceChannel.from_string <$> value).

Definition is_in_voice_channel (user_id : string) (channel : UserVoiceChannel.t) : H bool :=
  sismember (vc_key user_id) (UserVoiceChannel.to_string channel).
Definition get_user_voice_channel_in_server (user_id server_id : string) : H (option string) :=
  get_key (user_id +:+ ":" +:+ server_id).

(** [joined_at] is in nanoseconds since the epoch; it is stored in milliseconds *)
Definition create_voice_state (channel : UserVoiceChannel.t) (user_id : string) (joined_at : Z) :
    H UserVoiceState.t :=
  let key := unique_key channel user_id in
  let voice_state := UserVoiceState.mk user_id joined_at true false false false in
  pipeline
    [Command.SAdd (vc_members_key (UserVoiceChannel.id channel)) user_id;
     Command.SAdd (vc_key user_id) (UserVoiceChannel.to_string channel);
     Command.Set_ key (UserVoiceChannel.id channel);
     Command.Set_ ("joined_at:" +:+ key) (i64_arg (as_i64 (Z.quot joined_at (10 ^ 6))));
     Command.Set_ ("is_publishing:" +:+ key) (bool_arg (UserVoiceState.is_publishing voice_state));
     Command.Set_ ("is_receiving:" +:+ key) (bool_arg (UserVoiceState.is_receiving voice_state));
     Command.Set_ ("screensharing:" +:+ key) (bool_arg (UserVoiceState.screensharing voice_state));
     Command.Set_ ("camera:" +:+ key) (bool_arg (UserVoiceState.camera voice_state))] ;;
  mret voice_state.

Definition delete_voice_state (channel : UserVoiceChannel.t) (user_id : string) : H unit :=
  pipeline
    [Command.SRem (vc_members_key (UserVoiceChannel.id channel)) user_id;
     Command.SRem (vc_key user_id) (UserVoiceChannel.to_string channel);
     Command.Del (state_keys (unique_key channel user_id))].

Definition delete_channel_voice_state (channel : UserVoiceChannel.t) (user_ids : list string) :
    H unit :=
  pipeline
    (Command.Del [vc_members_key (UserVoiceChannel.id channel)] ::
     Command.Del [node_key (UserVoiceChannel.id channel)] ::
     user_ids ≫= (λ user_id,
       [Command.SRem (vc_key user_id) (UserVoiceChannel.to_string channel);
        Command.Del (state_keys (unique_key channel user_id))])).

(** One command for each field that is set *)
Definition set_flag (prefix key : string) (flag : option bool) : list Command.t :=
  match flag with
  | Some b => [Command.Set_ (prefix +:+ key) (bool_arg b)]
  | None => []
  end.
Definition update_voice_state (channel : UserVoiceChannel.t) (user_id : string)
    (partial : PartialUserVoiceState.t) : H unit :=
  let key := unique_key channel user_id in
  pipeline
    (set_flag "camera:" key (PartialUserVoiceState.camera partial) ++
     set_flag "is_publishing:" key (PartialUserVoiceState.is_publishing partial) ++
     set_flag "is_receiving:" key (PartialUserVoiceState.is_receiving partial) ++
     set_flag "screensharing:" key (PartialUserVoiceState.screensharing partial)).

(** [track] is LiveKit's [TrackSource]; a number that is none panics *)
Definition track_partial (added : bool) (track : Z) : Result PartialUserVoiceState.t :=
  if bool_decide (track = 0)%Z then Ok PartialUserVoiceState.default else
  if bool_decide (track = 1)%Z
  then Ok (PartialUserVoiceState.mk None None None None None (Some added)) else
  if bool_decide (track = 2)%Z
  then Ok (PartialUserVoiceState.mk None None None (Some added) None None) else
  if bool_decide (track = 3 ∨ track = 4)%Z
  then Ok (PartialUserVoiceState.mk None None None None (Some added) None) else Panicked.
Definition update_voice_state_tracks (channel : UserVoiceChannel.t) (user_id : string)
    (added : bool) (track : Z) : H PartialUserVoiceState.t :=
  partial ← lift (track_partial added track);
  update_voice_state channel user_id partial ;;
  mret partial.

Definition get_voice_channel_members (channel : UserVoiceChannel.t) : H (option (list string)) :=
  members ← smembers (vc_members_key (UserVoiceChannel.id channel));
  mret (if bool_decide (members = []) then None else Some members).

(** What [MGET] answers for a key: nothing, a value, or one that cannot be read *)
Definition read_as {A} (value : string → option A) (k : string) (now : Z) (r : store) :
    option (option A) :=
  match live k now r with Some v => Some <$> value v | None => Some None end.

(** A time that no date has would panic; every time stored is that of a date. *)
Definition get_voice_state (channel : UserVoiceChannel.t) (user_id : string) :
    H (option UserVoiceState.t) :=
  let key := unique_key channel user_id in
  redis_query (λ now r,
    joined_at ← read_as i64_value ("joined_at:" +:+ key) now r.1;
    is_publishing ← read_as bool_value ("is_publishing:" +:+ key) now r.1;
    is_receiving ← read_as bool_value ("is_receiving:" +:+ key) now r.1;
    screensharing ← read_as bool_value ("screensharing:" +:+ key) now r.1;
    camera ← read_as bool_value ("camera:" +:+ key) now r.1;
    Some (joined_at ← joined_at; is_publishing ← is_publishing; is_receiving ← is_receiving;
          screensharing ← screensharing; camera ← camera;
          Some (UserVoiceState.mk user_id (joined_at * 10 ^ 6) is_receiving is_publishing
                  screensharing camera))).

(** The states of the members; a member without a state is removed from the channel *)
Fixpoint participants (channel : UserVoiceChannel.t) (members : list string) :
    H (list UserVoiceState.t) :=
  match members with
  | [] => mret []
  | user_id :: members =>
      voice_state ← get_voice_state channel user_id;
      match voice_state with
      | Some voice_state =>
          states ← participants channel members; mret (voice_state :: states)
      | None => delete_voice_state channel user_id ;; participants channel members
      end
  end.
Definition get_channel_voice_state (channel : UserVoiceChannel.t) :
    H (option (string * list UserVoiceState.t)) :=
  members ← get_voice_channel_members channel;
  match members with
  | Some members =>
      participants ← participants channel members;
      mret (Some (UserVoiceChannel.id channel, participants))
  | None => mret None
  end.

Definition move_user (user from_channel_id to_channel_id : string) : H unit :=
  pipeline [Command.SMove (vc_members_key from_channel_id) (vc_members_key to_channel_id) user].

Definition set_channel_call_started_system_message (channel_id message_id : string) : H unit :=
  pipeline [Command.Set_ ("call_started_message:" +:+ channel_id) message_id].
Definition take_channel_call_started_system_message (channel_id : string) : H (option string) :=
  get_del ("call_started_message:" +:+ channel_id).

(** A slice of strings is written as one argument for each of its elements. *)
Definition set_call_notification_recipients (channel_id user_id : string)
    (recipients : list string) : H unit :=
  pipeline [Command.SetEx ("call_notification_recipients:" +:+ channel_id +:+ "-" +:+ user_id) 10
              recipients].
End Store.

(** ** The client of the voice servers *)

Definition get_allowed_sources (limits : FeaturesLimits.t) (permissions : PermissionValue.t) :
    list string :=
  (if PermissionValue.has permissions (ChannelPermission.as_u64 ChannelPermission.Speak)
   then ["microphone"] else []) ++
  (if PermissionValue.has permissions (ChannelPermission.as_u64 ChannelPermission.Video) &&
      FeaturesLimits.video limits
   then ["camera"; "screen_share"; "screen_share_audio"] else []).

Section Client.
Context `{Environment, MutualIds, HashIter, Redis, RedisCommands, VoiceClient}.

Definition is_enabled : bool := negb (bool_decide (rooms = ∅)).
Definition get_node (name : string) : Result unit :=
  if bool_decide (name ∈ rooms) then Ok tt else Err ErrorType.UnknownNode.

(** Send a request to the client of a node *)
Definition send_request (r : LiveKit.t) : H unit :=
  λ w, (if livekit_accepts (World.livekit w) r then Ok tt else Err ErrorType.InternalError,
        World.set_livekit w (World.livekit w ++ [r])).

Definition livekit_request (node : string) (r : LiveKit.t) : H unit :=
  lift (get_node node) ;; send_request r.

Definition create_room (node : string) (channel : Channel.t) : H unit :=
  livekit_request node (LiveKit.CreateRoom node (Channel.id channel) (5 * 60) (Channel.server channel)).
Definition update_permissions (node : string) (user : User.t) (channel_id : string)
    (new_permissions : ParticipantPermission.t) : H unit :=
  livekit_request node (LiveKit.UpdateParticipant node channel_id (User.id user) new_permissions).
Definition remove_user (node user_id channel_id : string) : H unit :=
  livekit_request node (LiveKit.RemoveParticipant node channel_id user_id).
Definition delete_room (node channel_id : string) : H unit :=
  livekit_request node (LiveKit.DeleteRoom node channel_id).

(** What a token lets its bearer do *)
Definition grants (user : User.t) (model : V0User.t) (limits : FeaturesLimits.t)
    (permissions : PermissionValue.t) (channel : Channel.t) : VideoGrants.t :=
  VideoGrants.mk (User.username user) (User.id user) model 10 true true false
    (get_allowed_sources limits permissions)
    (PermissionValue.has_channel_permission permissions ChannelPermission.Listen)
    (Channel.id channel).
Definition create_token (node : string) (user : User.t) (permissions : PermissionValue.t)
    (channel : Channel.t) : H string :=
  lift (get_node node) ;;
  now ← clock;
  limits ← lift (user_limits now (User.id user));
  model ← into_model user None;
  lift (ok_or (to_jwt node (grants user model limits permissions channel)) ErrorType.InternalError).

(** ** Permissions of participants *)

(** [v.then_some(w)] *)
Definition then_some (v w : bool) : option bool := if v then Some w else None.

(** The change to a voice state when permissions changed *)
Definition permission_update (user_id : string) (voice_state : UserVoiceState.t)
    (can_video can_speak : bool) : PartialUserVoiceState.t :=
  PartialUserVoiceState.mk (Some user_id) None None
    (then_some (UserVoiceState.is_publishing voice_state) can_speak)
    (then_some (UserVoiceState.screensharing voice_state) can_video)
    (then_some (UserVoiceState.camera voice_state) can_video).

(** The permissions of a participant in the channel *)
Definition participant_permissions (user : User.t) (channel : Channel.t) (server : option Server.t)
    (member : option Member.t) : H PermissionValue.t :=
  run_query (λ q,
      let q := DatabasePermissionQuery.with_user
                 (DatabasePermissionQuery.with_channel q (Some channel)) (Some user) in
      match server, member with
      | Some server, Some member =>
          DatabasePermissionQuery.with_server
            (DatabasePermissionQuery.with_member q (Some member)) (Some server)
      | _, _ => q
      end)
    calculate_channel_permissions user.

(** The member a user of a server is *)
Definition member_in (user_id : string) (server : option Server.t) : H (option Member.t) :=
  match server with
  | Some server => member ← Reference.as_member user_id (Server.id server); mret (Some member)
  | None => mret None
  end.

Definition sync_user_voice_permissions (node : string) (user : User.t) (channel : Channel.t)
    (server : option Server.t) (role_id : option string) : H unit :=
  member ← member_in (User.id user) server;
  let concerned :=
    match role_id, member with
    | Some role_id, Some member => bool_decide (role_id ∈ Member.roles member)
    | _, _ => true
    end in
  if negb concerned then mret tt else
  let user_voice_channel := UserVoiceChannel.from_channel channel in
  voice_state ← get_voice_state user_voice_channel (User.id user);
  match voice_state with
  | None => mret tt
  | Some voice_state =>
      permissions ← participant_permissions user channel server member;
      now ← clock;
      limits ← lift (user_limits now (User.id user));
      let can_video := FeaturesLimits.video limits &&
        PermissionValue.has_channel_permission permissions ChannelPermission.Video in
      let can_speak := PermissionValue.has_channel_permission permissions ChannelPermission.Speak in
      let can_listen := PermissionValue.has_channel_permission permissions ChannelPermission.Listen in
      let update_event := permission_update (User.id user) voice_state can_video can_speak in
      update_voice_state user_voice_channel (User.id user) update_event ;;
      update_permissions node user (Channel.id channel)
        (ParticipantPermission.mk can_listen can_speak can_speak) ;;
      let before := PartialUserVoiceState.mk (Some (User.id user)) None None None None None in
      if bool_decide (update_event = before) then mret tt else
      p (EventV1.UserVoiceStateUpdate (User.id user) (Channel.id channel) update_event)
        (Channel.id channel)
  end.

Definition sync_voice_permissions (channel : Channel.t) (server : option Server.t)
    (role_id : option string) : H unit :=
  node ← get_channel_node (Channel.id channel);
  match node with
  | None => mret tt
  | Some node =>
      members ← get_voice_channel_members (UserVoiceChannel.from_channel channel);
      for_each (default [] members) (λ user_id,
        user ← Reference.as_user user_id;
        sync_user_voice_permissions node user channel server role_id)
  end.

Definition remove_user_from_voice_channel (channel : UserVoiceChannel.t) (user_id : string) :
    H unit :=
  node ← get_channel_node (UserVoiceChannel.id channel);
  match node with
  | Some node => ignore (remove_user node user_id (UserVoiceChannel.id channel))
  | None => mret tt
  end ;;
  delete_voice_state channel user_id.

Definition remove_user_from_voice_channels (user_id : string) : H unit :=
  channels ← get_user_voice_channels user_id;
  for_each channels (λ channel, remove_user_from_voice_channel channel user_id).

Definition delete_voice_channel (channel : UserVoiceChannel.t) : H unit :=
  users ← get_voice_channel_members channel;
  match users with
  | Some users =>
      node ← get_channel_node (UserVoiceChannel.id channel);
      node ← lift (unwrap node);
      delete_room node (UserVoiceChannel.id channel) ;;
      delete_channel_voice_state channel users
  | None => mret tt
  end.
End Client.

(** ** What the operations leave alone *)

Section Frames.
Context `{Environment, MutualIds, HashIter, Redis, RedisCommands, VoiceClient}.

Lemma redis_query_reads {A} (f : Z → store * sets → option A) : reads (redis_query f).
Proof. unfold redis_query. solve_reads. Qed.

(** A pipeline only touches Redis. *)
Lemma pipeline_keeps {C} (f : World.t → C) cs :
  (∀ w a b, f (World.set_redis_sets (World.set_redis w a) b) = f w) → keeps f (pipeline cs).
Proof.
  intros Hf. unfold pipeline. apply keeps_bind; [intros w; by rewrite (connection_reads w)|].
  intros _ w. unfold run_commands. destruct (redis_runs _ _ _) as [ok r]. apply Hf.
Qed.
Lemma livekit_request_keeps {C} (f : World.t → C) node r :
  (∀ w l, f (World.set_livekit w l) = f w) → keeps f (livekit_request node r).
Proof.
  intros Hf. unfold livekit_request. apply keeps_bind; [apply keeps_lift|].
  intros _ w. apply Hf.
Qed.

Lemma delete_voice_state_db c u : keeps World.db (delete_voice_state c u).
Proof. by apply pipeline_keeps. Qed.
Lemma remove_user_from_voice_channel_db c u : keeps World.db (remove_user_from_voice_channel c u).
Proof.
  unfold remove_user_from_voice_channel, get_channel_node, get_key.
  apply keeps_bind; [apply reads_keeps, redis_query_reads|]. intros [node|].
  - apply keeps_bind; [|intros _; apply delete_voice_state_db]. unfold ignore.
    apply keeps_bind; [|intros; apply keeps_ret]. by apply keeps_attempt, livekit_request_keeps.
  - apply keeps_bind; [apply keeps_ret|]. intros _. apply delete_voice_state_db.
Qed.
Lemma member_in_reads u server : reads (member_in u server).
Proof. unfold member_in. destruct server; solve_reads. Qed.
Lemma sync_user_voice_permissions_db node u c s r :
  keeps World.db (sync_user_voice_permissions node u c s r).
Proof.
  unfold sync_user_voice_permissions. apply keeps_bind.
  { apply reads_keeps, member_in_reads. }
  intros member. cbv zeta. destruct (negb _); [apply keeps_ret|].
  apply keeps_bind; [apply reads_keeps, redis_query_reads|]. intros [vs|]; [|apply keeps_ret].
  apply keeps_bind; [by apply reads_keeps|]. intros permissions.
  apply keeps_bind; [by apply reads_keeps|]. intros now.
  apply keeps_bind; [by apply reads_keeps|]. intros limits.
  apply keeps_bind; [by apply pipeline_keeps|]. intros _.
  apply keeps_bind; [by apply livekit_request_keeps|]. intros _.
  case_bool_decide; [apply keeps_ret|]. by apply keeps_modify.
Qed.
Lemma sync_voice_permissions_db c s r : keeps World.db (sync_voice_permissions c s r).
Proof.
  unfold sync_voice_permissions. apply keeps_bind; [apply reads_keeps, redis_query_reads|].
  intros [node|]; [|apply keeps_ret]. apply keeps_bind.
  { apply reads_keeps. unfold get_voice_channel_members, smembers.
    apply reads_bind; [apply redis_query_reads|by intros]. }
  intros members. apply for_each_keeps. intros u. apply keeps_bind.
  - apply reads_keeps, as_user_reads.
  - intros. apply sync_user_voice_permissions_db.
Qed.
End Frames.

(** ** Ids *)

(** An id as ULIDs are: 26 characters, none of them a colon or a dash *)
Definition id_char (a : ascii) : bool := negb (Ascii.eqb a ":"%char) && negb (Ascii.eqb a "-"%char).
Fixpoint id_chars (s : string) : bool :=
  match s with EmptyString => true | String a s => id_char a && id_chars s end.
Definition plain_id (s : string) : bool := id_chars s && bool_decide (String.length s = 26).

Lemma string_app_cons (a : ascii) s t : String a s +:+ t = String a (s +:+ t).
Proof. done. Qed.
Lemma string_app_nil (s : string) : s +:+ "" = s.
Proof. induction s as [|a s IH]; [done|]. rewrite string_app_cons. by f_equal. Qed.

Lemma split_dash_app id rest :
  id_chars id = true →
  UserVoiceChannel.split_dash (id +:+ rest) =
  (id +:+ (UserVoiceChannel.split_dash rest).1, (UserVoiceChannel.split_dash rest).2).
Proof.
  induction id as [|a id IH]; cbn [id_chars]; intros Hid.
  { change (EmptyString +:+ rest) with rest. apply surjective_pairing. }
  apply andb_prop in Hid as [Ha Hid]. apply andb_prop in Ha as [_ Ha].
  apply negb_true_iff in Ha. rewrite !string_app_cons.
  cbn [UserVoiceChannel.split_dash]. by rewrite Ha, IH.
Qed.

(** The text a voice channel is stored as is read back as that channel, provided its id
    has no dash; the id of the server may be anything. *)
Theorem voice_channel_roundtrip (c : UserVoiceChannel.t) :
  id_chars (UserVoiceChannel.id c) = true →
  UserVoiceChannel.from_string (UserVoiceChannel.to_string c) = c.
Proof.
  destruct c as [id server]. simpl. intros Hid.
  unfold UserVoiceChannel.from_string, UserVoiceChannel.to_string. simpl.
  rewrite split_dash_app by done. destruct server; simpl; by rewrite string_app_nil.
Qed.

Lemma to_string_inj c c' :
  id_chars (UserVoiceChannel.id c) = true → id_chars (UserVoiceChannel.id c') = true →
  UserVoiceChannel.to_string c = UserVoiceChannel.to_string c' → c = c'.
Proof.
  destruct c as [id s], c' as [id' s']. simpl. intros Hid Hid' Heq.
  apply (f_equal UserVoiceChannel.split_dash) in Heq.
  unfold UserVoiceChannel.to_string in Heq. simpl in Heq.
  rewrite !split_dash_app in Heq by done.
  destruct s, s'; simpl in Heq; rewrite !string_app_nil in Heq; by simplify_eq.
Qed.

(** The key of a user and a server is neither the key of a set nor of a node. *)
Lemma unique_key_fresh c u x :
  plain_id u = true → unique_key c u ≠ vc_key x ∧ unique_key c u ≠ vc_members_key x.
Proof.
  unfold plain_id. intros [Hc Hl]%andb_prop. apply bool_decide_eq_true in Hl. unfold unique_key.
  do 12 (destruct u as [|? u]; [discriminate|]). cbn [id_chars] in Hc.
  repeat match goal with Hc : _ && _ = true |- _ => apply andb_prop in Hc as [? Hc] end.
  repeat match goal with Hi : id_char _ = true |- _ => apply andb_prop in Hi as [Hi _] end.
  split; intros Heq; injection Heq; intros; subst; discriminate.
Qed.

(** ** Who is in which channel *)

Section Presence.
Context `{Environment, MutualIds, HashIter, Redis, RedisCommands, VoiceClient}.
(** the server of each channel *)
Context (server_of : string → option string).

Definition channel_of (id : string) : UserVoiceChannel.t := UserVoiceChannel.mk id (server_of id).

(** The sets of the store say that [P] holds the pairs of a user and the channel they are
    in, both in the set of the channel and in the set of the user; the sets of channels hold
    ids of users. *)
Definition represents (s : sets) (P : gset (string * string)) : Prop :=
  (∀ id u, u ∈ members_of (vc_members_key id) s → plain_id u = true) ∧
  ∀ u id, plain_id u = true → plain_id id = true →
    ((u, id) ∈ P ↔ u ∈ members_of (vc_members_key id) s) ∧
    ((u, id) ∈ P ↔ UserVoiceChannel.to_string (channel_of id) ∈ members_of (vc_key u) s).

Inductive voice_op : Type :=
| Join (user channel : string) (joined_at : Z)
| Leave (user channel : string)
| Close (channel : string).

Definition run_voice_op (o : voice_op) : H unit :=
  match o with
  | Join u id at_ => create_voice_state (channel_of id) u at_ ;; mret tt
  | Leave u id => remove_user_from_voice_channel (channel_of id) u
  | Close id => delete_voice_channel (channel_of id)
  end.

Definition present_after (o : voice_op) (P : gset (string * string)) : gset (string * string) :=
  match o with
  | Join u id _ => {[(u, id)]} ∪ P
  | Leave u id => P ∖ {[(u, id)]}
  | Close id => filter (λ x, x.2 ≠ id) P
  end.

Definition op_ids (o : voice_op) : list string :=
  match o with Join u id _ | Leave u id => [u; id] | Close id => [id] end.

(** A pipeline that succeeded executed each of its commands. *)
Lemma pipeline_Ok cs w w' :
  pipeline cs w = (Ok tt, w') →
  let r := fold_left (execute (World.now w)) cs (World.redis w, World.redis_sets w) in
  w' = World.set_redis_sets (World.set_redis w r.1) r.2 ∧
  Forall (λ c, Command.well_formed c = true) cs.
Proof.
  unfold pipeline. intros (? & E & Hrun)%bind_Ok_inv_reads; [|apply connection_reads].
  unfold run_commands in Hrun. destruct (redis_runs _ _ _) as [[] r] eqn:Hr; [|done].
  apply redis_runs_all in Hr as [Hwf ->]. by injection Hrun as <-.
Qed.

Lemma members_of_insert k s m k' :
  members_of k' (<[k := m]> s : sets) = if bool_decide (k = k') then m else members_of k' s.
Proof.
  unfold members_of. case_bool_decide; subst; [by rewrite lookup_insert_eq|].
  by rewrite lookup_insert_ne.
Qed.
Lemma members_of_delete k (s : sets) k' :
  members_of k' (delete k s) = if bool_decide (k = k') then ∅ else members_of k' s.
Proof.
  unfold members_of. case_bool_decide; subst; [by rewrite lookup_delete_eq|].
  by rewrite lookup_delete_ne.
Qed.
Lemma members_of_delete_fresh ks (s : sets) k :
  k ∉ ks → members_of k (foldr delete s ks) = members_of k s.
Proof.
  induction ks as [|x ks IH]; simpl; [done|]. intros [Hne Hks]%not_elem_of_cons.
  rewrite members_of_delete, bool_decide_false, IH; done.
Qed.
Lemma state_keys_fresh c u x :
  plain_id u = true →
  vc_key x ∉ state_keys (unique_key c u) ∧ vc_members_key x ∉ state_keys (unique_key c u).
Proof.
  intros Hu. destruct (unique_key_fresh c u x Hu) as [Hk Hm]. unfold state_keys.
  split; rewrite !not_elem_of_cons; split_and!; try done; try congruence; apply not_elem_of_nil.
Qed.

(** The commands for one user who leaves a channel, on the sets *)
Lemma leave_commands_sets now c u (r : store * sets) k :
  plain_id u = true → (∃ x, k = vc_key x ∨ k = vc_members_key x) →
  members_of k (fold_left (execute now)
    [Command.SRem (vc_key u) (UserVoiceChannel.to_string c); Command.Del (state_keys (unique_key c u))]
    r).2 =
  if bool_decide (k = vc_key u) then members_of k r.2 ∖ {[UserVoiceChannel.to_string c]}
  else members_of k r.2.
Proof.
  intros Hu [x Hx]. cbn [fold_left execute snd]. rewrite members_of_delete_fresh.
  - rewrite members_of_insert. repeat case_bool_decide; by subst.
  - destruct (state_keys_fresh c u x Hu). by destruct Hx; subst.
Qed.

(** Closing a channel takes it out of the set of each of the users. *)
Lemma close_commands_sets now c users (r : store * sets) k :
  Forall (λ u, plain_id u = true) users → (∃ x, k = vc_key x ∨ k = vc_members_key x) →
  members_of k (fold_left (execute now)
    (users ≫= (λ u, [Command.SRem (vc_key u) (UserVoiceChannel.to_string c);
                     Command.Del (state_keys (unique_key c u))])) r).2 =
  if bool_decide (k ∈ vc_key <$> users) then members_of k r.2 ∖ {[UserVoiceChannel.to_string c]}
  else members_of k r.2.
Proof.
  intros Hus Hk. revert r. induction Hus as [|u users Hu Hus IH]; intros r; [done|].
  rewrite bind_cons, fold_left_app, IH, leave_commands_sets by done.
  csimpl. repeat case_bool_decide; try set_solver.
Qed.

Lemma vc_key_inj u u' : vc_key u = vc_key u' → u = u'.
Proof. intros Heq. injection Heq as Heq. exact Heq. Qed.
Lemma vc_members_key_inj u u' : vc_members_key u = vc_members_key u' → u = u'.
Proof. intros Heq. injection Heq as Heq. exact Heq. Qed.

(** The users of a channel, as listed *)
Lemma voice_members_Ok c w r :
  get_voice_channel_members c w = (Ok r, w) →
  ∀ u, u ∈ default [] r ↔ u ∈ members_of (vc_members_key (UserVoiceChannel.id c)) (World.redis_sets w).
Proof.
  unfold get_voice_channel_members, smembers. intros (l & Hl & Hr)%bind_Ok_inv_reads;
    [|apply redis_query_reads].
  unfold redis_query in Hl. apply bind_Ok_inv_reads in Hl as (? & _ & Hl); [|apply connection_reads].
  apply bind_Ok_inv_reads in Hl as (ans & Hans & Hl); [|apply reads_gets].
  injection Hans as <-. simpl in Hl. destruct (redis_answers _ _); [|done].
  injection Hl as <-. injection Hr as <-. intros u.
  destruct (hash_set_iter_spec (members_of (vc_members_key (UserVoiceChannel.id c))
    (World.redis_sets w))) as (_ & Hin & _).
  rewrite <- Hin. by case_bool_decide as Hnil; [rewrite Hnil|].
Qed.

Lemma channel_of_inj id id' :
  plain_id id = true → plain_id id' = true →
  UserVoiceChannel.to_string (channel_of id) = UserVoiceChannel.to_string (channel_of id') → id = id'.
Proof.
  unfold plain_id. intros [Hid _]%andb_prop [Hid' _]%andb_prop Heq.
  by apply to_string_inj in Heq; [injection Heq|..].
Qed.

Lemma represents_join now s P u id r' :
  represents s P → plain_id u = true → plain_id id = true →
  represents (fold_left (execute now)
    [Command.SAdd (vc_members_key id) u;
     Command.SAdd (vc_key u) (UserVoiceChannel.to_string (channel_of id))] (r', s)).2
    ({[(u, id)]} ∪ P).
Proof.
  intros [Hwf HP] Hu Hid. cbn [fold_left execute fst snd]. split.
  - intros id' u'. rewrite members_of_insert, bool_decide_false by done.
    rewrite members_of_insert. case_bool_decide as Hk; [|apply Hwf].
    apply vc_members_key_inj in Hk as <-. specialize (Hwf id u'). set_solver.
  - intros u' id' Hu' Hid'. destruct (HP u' id' Hu' Hid') as [Hc Hv].
    rewrite elem_of_union, elem_of_singleton. split.
    + rewrite members_of_insert, bool_decide_false by done. rewrite members_of_insert.
      case_bool_decide as Hk; [apply vc_members_key_inj in Hk as <-; set_solver|].
      rewrite Hc. split; [|by right]. intros [[= -> ->]|]; [by destruct Hk|done].
    + rewrite members_of_insert. case_bool_decide as Hk.
      * apply vc_key_inj in Hk as <-. rewrite members_of_insert, bool_decide_false by done.
        rewrite elem_of_union, elem_of_singleton, <- Hv. split.
        -- intros [[= ->]|]; auto.
        -- intros [Heq|]; [left|by right]. f_equal. by apply channel_of_inj.
      * rewrite members_of_insert, bool_decide_false by done. rewrite Hv. split; [|by right].
        intros [[= -> ->]|]; [by destruct Hk|done].
Qed.

Lemma represents_leave now s P u id r' :
  represents s P → plain_id u = true → plain_id id = true →
  represents (fold_left (execute now)
    [Command.SRem (vc_members_key id) u;
     Command.SRem (vc_key u) (UserVoiceChannel.to_string (channel_of id));
     Command.Del (state_keys (unique_key (channel_of id) u))] (r', s)).2 (P ∖ {[(u, id)]}).
Proof.
  intros [Hwf HP] Hu Hid.
  set (r1 := execute now (r', s) (Command.SRem (vc_members_key id) u)).
  change (fold_left _ (_ :: ?l) (r', s)) with (fold_left (execute now) l r1). split.
  - intros id' u'. rewrite leave_commands_sets, bool_decide_false by eauto.
    unfold r1. cbn [execute snd]. rewrite members_of_insert.
    case_bool_decide as Hk; [apply vc_members_key_inj in Hk as <-|by apply Hwf].
    specialize (Hwf id u'). set_solver.
  - intros u' id' Hu' Hid'. destruct (HP u' id' Hu' Hid') as [Hc Hv].
    rewrite elem_of_difference, elem_of_singleton. split.
    + rewrite leave_commands_sets, bool_decide_false by eauto. unfold r1. cbn [execute snd].
      rewrite members_of_insert. case_bool_decide as Hk.
      * apply vc_members_key_inj in Hk as <-. set_solver.
      * rewrite Hc. split; [tauto|]. intros Hin. split; [done|]. by intros [= -> ->].
    + rewrite leave_commands_sets by eauto. unfold r1. cbn [execute snd].
      rewrite members_of_insert, (bool_decide_false (vc_members_key _ = _)) by done.
      case_bool_decide as Hk.
      * apply vc_key_inj in Hk as ->. rewrite elem_of_difference, elem_of_singleton, <- Hv. split.
        -- intros [Hin Hne]. split; [done|]. intros Heq. apply Hne. f_equal. by apply channel_of_inj.
        -- intros [Hin Hne]. split; [done|]. by intros [= ->].
      * rewrite Hv. split; [tauto|]. intros Hin. split; [done|]. by intros [= -> ->].
Qed.

Lemma represents_close now s P id users r' :
  represents s P → plain_id id = true →
  (∀ u, u ∈ users ↔ u ∈ members_of (vc_members_key id) s) →
  represents (fold_left (execute now)
    (Command.Del [vc_members_key id] :: Command.Del [node_key id] ::
     users ≫= (λ u, [Command.SRem (vc_key u) (UserVoiceChannel.to_string (channel_of id));
                     Command.Del (state_keys (unique_key (channel_of id) u))])) (r', s)).2
    (filter (λ x, x.2 ≠ id) P).
Proof.
  intros [Hwf HP] Hid Husers.
  assert (Forall (λ u, plain_id u = true) users) as Hplain.
  { apply Forall_forall. intros u Hu. by eapply Hwf, Husers. }
  set (r1 := execute now (execute now (r', s) (Command.Del [vc_members_key id]))
               (Command.Del [node_key id])).
  change (fold_left _ (_ :: _ :: ?l) (r', s)) with (fold_left (execute now) l r1).
  assert (∀ k, (∃ x, k = vc_key x ∨ k = vc_members_key x) →
    members_of k r1.2 = if bool_decide (k = vc_members_key id) then ∅ else members_of k s) as Hr1.
  { intros k [x Hx]. unfold r1. cbn [execute snd foldr]. rewrite !members_of_delete.
    rewrite (bool_decide_false (node_key _ = _)) by (by destruct Hx; subst).
    repeat case_bool_decide; congruence. }
  assert (∀ x, vc_members_key x ∉ vc_key <$> users) as Hdis.
  { by intros x (? & ? & _)%list_elem_of_fmap. }
  split.
  - intros id' u'. rewrite close_commands_sets, bool_decide_false, Hr1 by eauto.
    case_bool_decide; [set_solver|apply Hwf].
  - intros u' id' Hu' Hid'. destruct (HP u' id' Hu' Hid') as [Hc Hv].
    rewrite elem_of_filter. cbn [snd]. rewrite !close_commands_sets, !Hr1 by eauto.
    rewrite (bool_decide_false (vc_members_key _ ∈ _)), (bool_decide_false (vc_key _ = _)) by done.
    split.
    + case_bool_decide as Hk; [apply vc_members_key_inj in Hk as ->; set_solver|].
      rewrite Hc. split; [tauto|]. intros Hin. split; [|done]. by intros ->.
    + case_bool_decide as Hk.
      * apply list_elem_of_fmap in Hk as (u0 & ->%vc_key_inj & Hin).
        rewrite elem_of_difference, elem_of_singleton, <- Hv. split.
        -- intros [Hne HPu]. split; [done|]. intros Heq. by apply Hne, channel_of_inj.
        -- intros [HPu Hne]. split; [|done]. by intros ->.
      * rewrite <- Hv. split; [tauto|]. intros HPu. split; [|done]. intros ->. apply Hk.
        apply list_elem_of_fmap. exists u'. split; [done|]. by apply Husers, Hc.
Qed.

(** The node of a channel is read and the participant removed; Redis stays as it is. *)
Lemma ignore_request_redis node r w w' :
  ignore (livekit_request node r) w = (Ok tt, w') →
  World.redis_sets w' = World.redis_sets w ∧ World.redis w' = World.redis w.
Proof.
  intros Hrun.
  assert (keeps (λ w, (World.redis_sets w, World.redis w)) (ignore (livekit_request node r))) as Hk.
  { unfold ignore. apply keeps_bind; [|by intros]. by apply keeps_attempt, livekit_request_keeps. }
  specialize (Hk w). rewrite Hrun in Hk. simpl in Hk. by injection Hk.
Qed.

Lemma remove_user_sets c u w w' :
  remove_user_from_voice_channel c u w = (Ok tt, w') →
  ∃ now w1, delete_voice_state c u w1 = (Ok tt, w') ∧ World.redis_sets w1 = World.redis_sets w ∧
    World.now w1 = now.
Proof.
  unfold remove_user_from_voice_channel. intros Hrun.
  apply bind_Ok_inv_reads in Hrun as (node & _ & Hrun); [|apply redis_query_reads].
  apply bind_Ok_inv in Hrun as ([] & w1 & Hnode & Hrun). exists (World.now w1), w1.
  split_and!; [done| |done]. destruct node; [by eapply ignore_request_redis|by injection Hnode as <-].
Qed.

(** The two kinds of sets that record who is in which voice channel agree, and are one
    relation: joining a channel adds the pair of the user and the channel to it, leaving
    removes that pair, and closing a channel removes the pairs of that channel. *)
Theorem voice_presence_refines (o : voice_op) (P : gset (string * string)) (w w' : World.t) :
  represents (World.redis_sets w) P → Forall (λ x, plain_id x = true) (op_ids o) →
  run_voice_op o w = (Ok tt, w') →
  represents (World.redis_sets w') (present_after o P).
Proof.
  intros HP Hids Hrun. destruct o as [u id t|u id|id]; cbn [run_voice_op op_ids present_after] in *.
  - apply Forall_cons in Hids as [Hu [Hid _]%Forall_cons].
    unfold create_voice_state in Hrun. apply bind_Ok_inv in Hrun as (? & w1 & Hrun & [= <-]).
    apply bind_Ok_inv in Hrun as ([] & w2 & [-> _]%pipeline_Ok & [= _ <-]).
    exact (represents_join (World.now w) _ P u id (World.redis w) HP Hu Hid).
  - apply Forall_cons in Hids as [Hu [Hid _]%Forall_cons].
    apply remove_user_sets in Hrun as (now & w1 & Hrun & Hsets & _).
    unfold delete_voice_state in Hrun. apply pipeline_Ok in Hrun as [-> _].
    rewrite <- Hsets in HP. by eapply represents_leave.
  - apply Forall_cons in Hids as [Hid _]. unfold delete_voice_channel in Hrun.
    apply bind_Ok_inv_reads in Hrun as (users & Hmem & Hrun); [|].
    2: { unfold get_voice_channel_members, smembers.
         apply reads_bind; [apply redis_query_reads|by intros]. }
    pose proof (voice_members_Ok _ _ _ Hmem) as Husers. destruct users as [users|].
    + apply bind_Ok_inv_reads in Hrun as (node & _ & Hrun); [|apply redis_query_reads].
      apply bind_Ok_inv_reads in Hrun as (n & _ & Hrun); [|apply reads_lift].
      apply bind_Ok_inv in Hrun as ([] & w1 & Hroom & Hrun).
      assert (World.redis_sets w1 = World.redis_sets w) as Hsets.
      { pose proof (livekit_request_keeps World.redis_sets n (LiveKit.DeleteRoom n id)
          ltac:(done) w) as Hk. unfold delete_room in Hroom. simpl in Hroom. by rewrite Hroom in Hk. }
      unfold delete_channel_voice_state in Hrun. apply pipeline_Ok in Hrun as [-> _].
      rewrite <- Hsets in HP, Husers. by eapply represents_close.
    + injection Hrun as <-. destruct HP as [Hwf HP]. split; [done|].
      intros u' id' Hu' Hid'. destruct (HP u' id' Hu' Hid') as [Hc Hv].
      assert (u' ∉ members_of (vc_members_key id) (World.redis_sets w)) as Hno.
      { intros Hin%Husers. by apply elem_of_nil in Hin. }
      rewrite elem_of_filter. cbn [snd]. rewrite <- Hc, <- Hv.
      split; (split; [tauto|]); intros Hin; (split; [|done]); intros ->; by apply Hno, Hc.
Qed.
End Presence.

(** ** The state of a participant *)

Section States.
Context `{Redis, RedisCommands, HashIter}.

(** Redis can be reached and answers. *)
Definition answering (w : World.t) : Prop :=
  redis_connects (World.now w) = true ∧
  redis_answers (World.now w) (World.redis w, World.redis_sets w) = true.

Lemma redis_query_answer {A} (f : Z → store * sets → option A) w :
  answering w →
  redis_query f w = (ok_or (f (World.now w) (World.redis w, World.redis_sets w))
                       ErrorType.InternalError, w).
Proof.
  intros [Hc Ha]. unfold redis_query, connection, clock. rewrite !M_bind_unfold. cbn [gets].
  rewrite Hc. cbn [mret M_ret]. rewrite M_bind_unfold. cbn [gets]. by rewrite Ha.
Qed.

Lemma as_i64_id v : is_i64 v → as_i64 v = v.
Proof. intros Hv. rewrite <- (as_i64_as_u64 v) at 2 by done. unfold as_i64, as_u64. by rewrite Zmod_mod. Qed.

(** What a key holds after commands that set others *)
Lemma read_as_insert_ne {A} (value : string → option A) k k' x now (r : store) :
  k ≠ k' → read_as value k' now (<[k := x]> r) = read_as value k' now r.
Proof. intros Hne. unfold read_as. by rewrite live_insert_ne. Qed.
Lemma read_as_insert_eq {A} (value : string → option A) k v now (r : store) :
  read_as value k now (<[k := (v, None)]> r) = Some <$> value v.
Proof. unfold read_as. by rewrite live_insert_eq. Qed.
Lemma read_as_absent {A} (value : string → option A) k now (r : store) :
  r !! k = None → read_as value k now r = Some None.
Proof. intros Hk. unfold read_as, live. by rewrite Hk. Qed.

(** Read each flag of a state whose keys were just set. *)
Ltac read_keys :=
  repeat first
    [ rewrite read_as_insert_eq
    | rewrite read_as_insert_ne by done ].

(** The state stored for a user who joins a voice channel is the one read back, with the
    time they joined cut to milliseconds. *)
Theorem voice_state_roundtrip (c : UserVoiceChannel.t) (u : string) (joined_at : Z)
    (s : UserVoiceState.t) (w w' : World.t) :
  is_i64 (Z.quot joined_at (10 ^ 6)) →
  create_voice_state c u joined_at w = (Ok s, w') → answering w' →
  get_voice_state c u w' =
  (Ok (Some (UserVoiceState.mk u (Z.quot joined_at (10 ^ 6) * 10 ^ 6) true false false false)), w').
Proof.
  intros Hms Hrun Ha. unfold create_voice_state in Hrun.
  apply bind_Ok_inv in Hrun as ([] & w1 & [-> _]%pipeline_Ok & [= <- <-]).
  unfold get_voice_state. rewrite redis_query_answer by done.
  set (k := unique_key c u). cbn [World.now World.redis World.redis_sets World.set_redis
    World.set_redis_sets fold_left execute fst snd].
  read_keys. rewrite as_i64_id, i64_arg_value, !bool_arg_value by done. done.
Qed.

(** A user has one voice state for all the channels of a server: after leaving one of
    them, the state in any other channel of that server is gone too. Bots can be in several
    channels at once. *)
Theorem voice_state_shared_in_server (c c' : UserVoiceChannel.t) (u : string) (w w' : World.t) :
  parent_id c = parent_id c' →
  delete_voice_state c u w = (Ok tt, w') → answering w' →
  get_voice_state c' u w' = (Ok None, w').
Proof.
  intros Hp Hrun Ha. unfold delete_voice_state in Hrun. apply pipeline_Ok in Hrun as [-> _].
  unfold get_voice_state. rewrite redis_query_answer by done.
  assert (unique_key c' u = unique_key c u) as -> by (unfold unique_key; by rewrite Hp).
  cbn [World.now World.redis World.redis_sets World.set_redis World.set_redis_sets fold_left
    execute fst snd].
  assert (∀ k, k ∈ state_keys (unique_key c u) →
    foldr delete (World.redis w) (state_keys (unique_key c u)) !! k = None) as Hdel.
  { generalize (state_keys (unique_key c u)) as ks. intros ks k. induction ks as [|k' ks IH]; simpl.
    - by intros ?%elem_of_nil.
    - intros [->|Hk]%elem_of_cons; [apply lookup_delete_eq|].
      apply lookup_delete_None. right. by apply IH. }
  rewrite !read_as_absent by (apply Hdel; unfold state_keys; set_solver). done.
Qed.

(** The recipients of a call can be stored only when there is exactly one: the command
    that stores them gets one argument for each, and Redis refuses it otherwise. *)
Theorem call_recipients_need_one (channel user : string) (recipients : list string) (w : World.t) :
  length recipients ≠ 1 →
  (set_call_notification_recipients channel user recipients w).1 = Err ErrorType.InternalError.
Proof.
  intros Hlen. destruct (set_call_notification_recipients channel user recipients w) as [[[]|e|] w'] eqn:Hrun.
  - apply pipeline_Ok in Hrun as [_ Hwf]. apply Forall_cons in Hwf as [Hwf _].
    simpl in Hwf. by apply bool_decide_eq_true in Hwf.
  - revert Hrun. unfold set_call_notification_recipients, pipeline, connection, clock, run_commands.
    rewrite !M_bind_unfold. cbn [gets]. destruct (redis_connects _); cbn [mret M_ret].
    + destruct (redis_runs _ _ _) as [[] r]; [done|]. by intros [= <- _].
    + by intros [= <- _].
  - revert Hrun. unfold set_call_notification_recipients, pipeline, connection, clock, run_commands.
    rewrite !M_bind_unfold. cbn [gets]. destruct (redis_connects _); cbn [mret M_ret]; [|done].
    by destruct (redis_runs _ _ _) as [[] r].
Qed.
End States.

(** ** Synchronising permissions *)

Section Sync.
Context `{Environment, MutualIds, HashIter, Redis, RedisCommands, VoiceClient}.

(** What a participant with a state may do *)
Definition within (state : UserVoiceState.t) (permissions : PermissionValue.t)
    (limits : FeaturesLimits.t) : Prop :=
  (UserVoiceState.is_publishing state = true →
     PermissionValue.has_channel_permission permissions ChannelPermission.Speak = true) ∧
  (UserVoiceState.camera state = true ∨ UserVoiceState.screensharing state = true →
     FeaturesLimits.video limits = true ∧
     PermissionValue.has_channel_permission permissions ChannelPermission.Video = true).

(** A query depends on Redis and the time only. *)
Lemma redis_query_ext {A} (f : Z → store * sets → option A) w1 w r :
  World.redis w1 = World.redis w → World.now w1 = World.now w →
  World.redis_sets w1 = World.redis_sets w →
  redis_query f w1 = (r, w1) → redis_query f w = (r, w).
Proof.
  intros Hr Hn Hs. unfold redis_query, connection, clock. rewrite !M_bind_unfold. cbn [gets].
  rewrite Hn. destruct (redis_connects _); cbn [mret M_ret throw]; [|congruence].
  rewrite !M_bind_unfold. cbn [gets]. unfold lift. rewrite Hr, Hn, Hs. congruence.
Qed.

(** The flag that is read after an update: the new value, or what was there *)
Lemma read_after_update c u partial now (r : store * sets) :
  let key := unique_key c u in
  let r' := fold_left (execute now)
    (set_flag "camera:" key (PartialUserVoiceState.camera partial) ++
     set_flag "is_publishing:" key (PartialUserVoiceState.is_publishing partial) ++
     set_flag "is_receiving:" key (PartialUserVoiceState.is_receiving partial) ++
     set_flag "screensharing:" key (PartialUserVoiceState.screensharing partial)) r in
  let new old flag := match flag with Some b => Some (Some b) | None => old end in
  read_as i64_value ("joined_at:" +:+ key) now r'.1 = read_as i64_value ("joined_at:" +:+ key) now r.1 ∧
  read_as bool_value ("camera:" +:+ key) now r'.1 =
    new (read_as bool_value ("camera:" +:+ key) now r.1) (PartialUserVoiceState.camera partial) ∧
  read_as bool_value ("is_publishing:" +:+ key) now r'.1 =
    new (read_as bool_value ("is_publishing:" +:+ key) now r.1)
      (PartialUserVoiceState.is_publishing partial) ∧
  read_as bool_value ("is_receiving:" +:+ key) now r'.1 =
    new (read_as bool_value ("is_receiving:" +:+ key) now r.1)
      (PartialUserVoiceState.is_receiving partial) ∧
  read_as bool_value ("screensharing:" +:+ key) now r'.1 =
    new (read_as bool_value ("screensharing:" +:+ key) now r.1)
      (PartialUserVoiceState.screensharing partial).
Proof.
  intros key. destruct r as [r s], partial as [id at_ recv pub scr cam]. simpl.
  destruct cam, pub, recv, scr; cbn [set_flag app fold_left execute fst snd];
    repeat first [rewrite read_as_insert_eq | rewrite read_as_insert_ne by done];
    rewrite ?bool_arg_value; done.
Qed.

(** A state that was read: its parts are what the keys hold *)
Lemma get_voice_state_Ok c u w vs :
  get_voice_state c u w = (Ok (Some vs), w) →
  let key := unique_key c u in
  read_as bool_value ("camera:" +:+ key) (World.now w) (World.redis w) =
    Some (Some (UserVoiceState.camera vs)) ∧
  read_as bool_value ("is_publishing:" +:+ key) (World.now w) (World.redis w) =
    Some (Some (UserVoiceState.is_publishing vs)) ∧
  read_as bool_value ("screensharing:" +:+ key) (World.now w) (World.redis w) =
    Some (Some (UserVoiceState.screensharing vs)).
Proof.
  unfold get_voice_state, redis_query. intros Hrun.
  apply bind_Ok_inv_reads in Hrun as (? & _ & Hrun); [|apply connection_reads].
  apply bind_Ok_inv_reads in Hrun as (ans & [= <-] & Hrun); [|apply reads_gets].
  destruct (redis_answers _ _); [|done]. cbn [fst] in Hrun.
  destruct (read_as i64_value _ _ _) as [ja|]; [|done].
  destruct (read_as bool_value ("is_publishing:" +:+ _) _ _) as [pub|]; [|done].
  destruct (read_as bool_value ("is_receiving:" +:+ _) _ _) as [recv|]; [|done].
  destruct (read_as bool_value ("screensharing:" +:+ _) _ _) as [scr|]; [|done].
  destruct (read_as bool_value ("camera:" +:+ _) _ _) as [cam|]; [|done].
  destruct ja, pub, recv, scr, cam; try done. simpl in Hrun. by injection Hrun as <-.
Qed.

(** The update that synchronising makes leaves a state within the permissions. *)
Lemma permission_update_within c u vs vs' w w' p limits :
  get_voice_state c u w = (Ok (Some vs), w) →
  update_voice_state c u (permission_update u vs
    (FeaturesLimits.video limits && PermissionValue.has_channel_permission p ChannelPermission.Video)
    (PermissionValue.has_channel_permission p ChannelPermission.Speak)) w = (Ok tt, w') →
  get_voice_state c u w' = (Ok (Some vs'), w') →
  within vs' p limits.
Proof.
  intros (Hcam & Hpub & Hscr)%get_voice_state_Ok Hrun (Hcam' & Hpub' & Hscr')%get_voice_state_Ok.
  unfold update_voice_state in Hrun. apply pipeline_Ok in Hrun as [-> _].
  cbn [World.now World.redis World.set_redis World.set_redis_sets] in *.
  set (partial := permission_update _ _ _ _) in *.
  destruct (read_after_update c u partial (World.now w) (World.redis w, World.redis_sets w))
    as (_ & Ec & Ep & _ & Es).
  rewrite Ec in Hcam'. rewrite Ep in Hpub'. rewrite Es in Hscr'. simpl in *.
  rewrite Hcam in Hcam'. rewrite Hpub in Hpub'. rewrite Hscr in Hscr'. unfold within.
  destruct (UserVoiceState.camera vs), (UserVoiceState.is_publishing vs),
    (UserVoiceState.screensharing vs); simpl in *;
    injection Hcam' as <-; injection Hpub' as <-; injection Hscr' as <-;
    (split; [done|]); intros [Hx|Hx]; try done; by apply andb_prop in Hx.
Qed.

(** Synchronising enforces the permissions of a participant: when it succeeded, the state
    stored for the user has them publish only with the permission to speak, and use camera or
    screen sharing only with the permission to send video and a limit that allows it; and
    the voice server was last told exactly the permissions calculated for them. This is so in
    groups and in servers, where they are calculated for the stored member. *)
Theorem sync_enforces_permissions (node : string) (user : User.t) (channel : Channel.t)
    (server : option Server.t) (vs vs' : UserVoiceState.t) (w w' : World.t) :
  get_voice_state (UserVoiceChannel.from_channel channel) (User.id user) w = (Ok (Some vs), w) →
  sync_user_voice_permissions node user channel server None w = (Ok tt, w') →
  get_voice_state (UserVoiceChannel.from_channel channel) (User.id user) w' = (Ok (Some vs'), w') →
  ∃ member p limits,
    member_in (User.id user) server w = (Ok member, w) ∧
    participant_permissions user channel server member w = (Ok p, w) ∧
    user_limits (World.now w) (User.id user) = Ok limits ∧
    within vs' p limits ∧
    World.livekit w' = World.livekit w ++
      [LiveKit.UpdateParticipant node (Channel.id channel) (User.id user)
         (ParticipantPermission.mk
            (PermissionValue.has_channel_permission p ChannelPermission.Listen)
            (PermissionValue.has_channel_permission p ChannelPermission.Speak)
            (PermissionValue.has_channel_permission p ChannelPermission.Speak))].
Proof.
  intros Hvs Hrun Hvs'. unfold sync_user_voice_permissions in Hrun.
  apply bind_Ok_inv_reads in Hrun as (m & Hm & Hrun); [|apply member_in_reads].
  replace (negb _) with false in Hrun by (by destruct m).
  apply bind_Ok_inv_reads in Hrun as (vs0 & Hvs0 & Hrun); [|apply redis_query_reads].
  rewrite Hvs in Hvs0. injection Hvs0 as <-.
  apply bind_Ok_inv_reads in Hrun as (pv & Hp & Hrun); [|apply reads_run_query].
  apply bind_Ok_inv_reads in Hrun as (now & [= <-] & Hrun); [|apply reads_clock].
  apply bind_Ok_inv_reads in Hrun as (limits & Hlim & Hrun); [|apply reads_lift].
  apply bind_Ok_inv in Hrun as ([] & w1 & Hupd & Hrun).
  apply bind_Ok_inv in Hrun as ([] & w2 & Hlk & Hrun).
  exists m, pv, limits. split; [done|]. split; [done|]. split; [by injection Hlim|].
  unfold update_permissions, livekit_request in Hlk.
  apply bind_Ok_inv_reads in Hlk as (? & _ & Hlk); [|apply reads_lift]. unfold send_request in Hlk.
  destruct (livekit_accepts _ _); [|done]. injection Hlk as <-.
  pose proof Hupd as Hl. unfold update_voice_state in Hl. apply pipeline_Ok in Hl as [Hw1 _].
  assert (World.redis w' = World.redis w1 ∧ World.now w' = World.now w1 ∧
          World.redis_sets w' = World.redis_sets w1 ∧
          World.livekit w' = World.livekit w1 ++
            [LiveKit.UpdateParticipant node (Channel.id channel) (User.id user)
               (ParticipantPermission.mk
                  (PermissionValue.has_channel_permission pv ChannelPermission.Listen)
                  (PermissionValue.has_channel_permission pv ChannelPermission.Speak)
                  (PermissionValue.has_channel_permission pv ChannelPermission.Speak))])
    as (Hr & Hn & Hs & Hk).
  { case_bool_decide; [by injection Hrun as <-|]. by injection Hrun as <-. }
  split.
  - eapply permission_update_within; [exact Hvs|exact Hupd|].
    by eapply redis_query_ext.
  - rewrite Hk, Hw1. done.
Qed.
End Sync.

(** ** Examples *)

Module VoiceInstances.
(** Each command succeeds; flags are one character, numbers are written in unary. *)
Definition unary (i : Z) : string :=
  (if (i <? 0)%Z then "-" else "") +:+ Nat.iter (Z.to_nat (Z.abs i)) (String "1"%char) "".
Definition of_unary (s : string) : option Z :=
  match s with
  | String "-"%char s => Some (- Z.of_nat (String.length s))%Z
  | s => Some (Z.of_nat (String.length s))
  end.
Lemma of_unary_unary i : of_unary (unary i) = Some i.
Proof.
  unfold unary. destruct (Z.ltb_spec i 0).
  - change ("-" +:+ ?s) with (String "-"%char s). cbn [of_unary].
    f_equal. assert (∀ n, String.length (Nat.iter n (String "1"%char) "") = n) as ->; [|lia].
    intros n. induction n; simpl; congruence.
  - change ("" +:+ ?s) with s. generalize (Z.to_nat (Z.abs i)) as n, (Z2Nat.id (Z.abs i)).
    intros n Hn. destruct n as [|n].
    + simpl. f_equal. lia.
    + cbn [Nat.iter nat_rect of_unary]. f_equal.
      assert (∀ n, String.length (Nat.iter n (String "1"%char) "") = n) as Hl.
      { clear. intros n. induction n; simpl; congruence. }
      change (Z.of_nat (S (String.length (Nat.iter n (String "1"%char) ""))) = i). rewrite Hl. lia.
Qed.

Definition runs (cs : list Command.t) (now : Z) (r : store * sets) : bool * (store * sets) :=
  if forallb Command.well_formed cs then (true, fold_left (execute now) cs r) else (false, r).

#[refine, local] Instance commands : RedisCommands := {|
  redis_runs := runs;
  redis_answers _ _ := true;
  bool_arg b := if b then "1" else "0";
  bool_value s := if String.eqb s "1" then Some true else if String.eqb s "0" then Some false else None;
  i64_arg := unary;
  i64_value := of_unary
|}.
Proof.
  - intros cs now r r'. unfold runs. destruct (forallb _ cs) eqn:Hwf; [|done]. intros [= <-].
    split; [|done]. apply Forall_forall. intros c Hc. rewrite forallb_forall in Hwf.
    by apply Hwf, list_elem_of_In.
  - intros cs now r r'. unfold runs. destruct (forallb _ cs); [done|]. intros [= <-].
    exists []. split; [apply sublist_nil_l|done].
  - by intros [].
  - intros i _. apply of_unary_unary.
Defined.

(** One node, "N", that accepts every request *)
Definition client : VoiceClient :=
  {| rooms := {["N"]}; livekit_accepts _ _ := true; to_jwt _ _ := Some "token" |}.
End VoiceInstances.

Module Sample.
#[local] Existing Instance canonical_iter.
#[local] Existing Instance Store.reliable.
#[local] Existing Instance VoiceInstances.commands.
#[local] Existing Instance VoiceInstances.client.
#[local] Existing Instance Fixture.strangers.
#[local] Instance voice_environment : Environment := Fixture.environment 10.

Definition lounge : UserVoiceChannel.t := UserVoiceChannel.mk "lounge" (Some "S").
Definition stage : UserVoiceChannel.t := UserVoiceChannel.mk "stage" (Some "S").

Lemma voice_channel_roundtrip_witness :
  UserVoiceChannel.from_string (UserVoiceChannel.to_string lounge) = lounge.
Proof. apply (voice_channel_roundtrip lounge). reflexivity. Defined.

Definition member_id : string := "01ARZ3NDEKTSV4RRFFQ69G5FAV".
Definition channel_id : string := "01BX5ZZKBKACTAV9WEVGEMMVRZ".

Lemma voice_presence_refines_witness :
  represents (λ _, Some "S")
    (World.redis_sets (run_voice_op (λ _, Some "S") (Join member_id channel_id 0) World.empty).2)
    ({[(member_id, channel_id)]} ∪ ∅).
Proof.
  apply (voice_presence_refines (λ _, Some "S") (Join member_id channel_id 0) ∅ World.empty).
  - split.
    + intros id u Hu. by apply elem_of_empty in Hu.
    + intros u id _ _. split; split; intros Hx; by apply elem_of_empty in Hx.
  - repeat constructor; reflexivity.
  - reflexivity.
Defined.

(** The world after somebody joined the lounge *)
Definition joined : World.t := (create_voice_state lounge "A" 5000000 World.empty).2.

Lemma voice_state_roundtrip_witness :
  get_voice_state lounge "A" joined =
  (Ok (Some (UserVoiceState.mk "A" 5000000 true false false false)), joined).
Proof.
  apply (voice_state_roundtrip lounge "A" 5000000 (UserVoiceState.mk "A" 5000000 true false false false)
           World.empty joined).
  - vm_compute. split; [discriminate|reflexivity].
  - reflexivity.
  - by split.
Defined.

(** A bot in the lounge and on the stage of the same server leaves the lounge. *)
Definition on_stage : World.t := (create_voice_state stage "B" 0 (create_voice_state lounge "B" 0 World.empty).2).2.
Definition left_lounge : World.t := (delete_voice_state lounge "B" on_stage).2.

Lemma voice_state_shared_in_server_witness :
  get_voice_state stage "B" left_lounge = (Ok None, left_lounge) ∧
  is_in_voice_channel "B" stage left_lounge = (Ok true, left_lounge).
Proof.
  split; [|vm_compute; reflexivity].
  apply (voice_state_shared_in_server lounge stage "B" on_stage left_lounge); [reflexivity..|by split].
Defined.

Lemma call_recipients_need_one_witness :
  (set_call_notification_recipients "C" "A" ["B"; "D"] World.empty).1 = Err ErrorType.InternalError.
Proof. apply (call_recipients_need_one "C" "A" ["B"; "D"] World.empty). done. Defined.

(** A participant of a group whose camera is on *)
Definition call : Channel.t := Channel.Group (Fixture.group "G" "A" ["A"; "B"]).
Definition filming : World.t :=
  (update_voice_state_tracks (UserVoiceChannel.from_channel call) "A" true 1
     (create_voice_state (UserVoiceChannel.from_channel call) "A" 0 World.empty).2).2.
Definition synced : World.t :=
  (sync_user_voice_permissions "N" (Fixture.user "A" []) call None None filming).2.

Lemma sync_enforces_permissions_witness :
  ∃ member p limits,
    member_in "A" None filming = (Ok member, filming) ∧
    participant_permissions (Fixture.user "A" []) call None member filming = (Ok p, filming) ∧
    user_limits (World.now filming) "A" = Ok limits ∧
    within (UserVoiceState.mk "A" 0 true false false true) p limits ∧
    World.livekit synced = World.livekit filming ++
      [LiveKit.UpdateParticipant "N" "G" "A"
         (ParticipantPermission.mk
            (PermissionValue.has_channel_permission p ChannelPermission.Listen)
            (PermissionValue.has_channel_permission p ChannelPermission.Speak)
            (PermissionValue.has_channel_permission p ChannelPermission.Speak))].
Proof.
  apply (sync_enforces_permissions "N" (Fixture.user "A" []) call None
           (UserVoiceState.mk "A" 0 true false false true)
           (UserVoiceState.mk "A" 0 true false false true) filming synced);
    vm_compute; reflexivity.
Defined.
End Sample.
