(* ===== verification/VoiceIngress.v ===== *)
(** * Calls: joining them, and what the voice servers say of them

    The routes that ask for a token and stop the ringing ([voice_join.rs], [voice_stop_ring.rs])
    and the daemon that takes the webhooks of LiveKit ([voice-ingress/src/api.rs]), through which
    alone the voice states come to be. Checking the signature of a webhook, the lists of
    participants and the format of times are what the [livekit_api] and time crates do; they are
    parameters. Widths and heights are [u32] and wrap, as in the profile the daemon is built with;
    their ratio is an [f32]. *)

From stdpp Require Import base list gmap strings.
From Stdlib Require Import ZArith NArith Ascii Lia.
From Stdlib Require SpecFloat.
From S2P Require Import Prelude Errors Permissions PermissionSpec Files Users Servers Channels.
From S2P Require Import PermissionQuery Messages Unreads Config Emojis Webhooks Bots AuditLogs.
From S2P Require Import World Database Relationships MessageOps ChannelOps References Redis Acker Voice.

(** ** Events of LiveKit *)

Module TrackInfo.
Record t : Type := mk { type_ : Z; width : Z; height : Z; source : Z }.
(** [TrackType] *)
Definition Video : Z := 1.
Definition Data : Z := 2.
End TrackInfo.

Module WebhookEvent.
Record t : Type := mk {
  event : string;
  (** the name and the metadata of the room *)
  room : option (string * string);
  (** the identity of the participant *)
  participant : option string;
  track : option TrackInfo.t;
  (** in seconds since the epoch *)
  created_at : Z
}.
End WebhookEvent.

Module DataJoinCall.
Record t : Type := mk {
  node : option string; force_disconnect : option bool; recipients : option (list string)
}.
End DataJoinCall.

(** The names and keys of [api.livekit.nodes], the URLs of [hosts.livekit]; [receive] checks the
    token of the header, for the key and secret of the node, and that it is of this body; the
    answers of the servers; metadata of a room, as [RoomMetadata]; and dates. *)
Class LiveKitServer := {
  node_keys : gmap string (string * string);
  node_hosts : gmap string string;
  receive : string → string → string → string → option WebhookEvent.t;
  room_metadata : string → option (option string);
  num_participants : Z → string → string → Z;
  list_participants : Z → string → string → option nat;
  representable : Z → bool;
  format_short : Z → string;
  ulid_from_datetime : Z → nat → string
}.

(** ** Limits of a video *)

Section Video.
Definition as_f32 (v : Z) : SpecFloat.spec_float := SpecFloat.binary_normalize 24 128 v 0 false.
Definition f32_div (a b : SpecFloat.spec_float) : SpecFloat.spec_float := SpecFloat.SFdiv 24 128 a b.

(** [(a..=b).contains(&v)] *)
Definition contains (range : SpecFloat.spec_float * SpecFloat.spec_float) (v : SpecFloat.spec_float) :
    bool := SpecFloat.SFleb range.1 v && SpecFloat.SFleb v range.2.

Definition out_of_bounds_resolution (limits : FeaturesLimits.t) (track : TrackInfo.t) : bool :=
  let '(w, h) := FeaturesLimits.video_resolution limits in
  negb (w =? 0)%Z && negb (h =? 0)%Z &&
  (as_u32 (w * h) <? as_u32 (TrackInfo.width track * TrackInfo.height track))%Z.
Definition out_of_bounds_aspect_ratio (limits : FeaturesLimits.t) (track : TrackInfo.t) : bool :=
  let range := FeaturesLimits.video_aspect_ratio limits in
  negb (SpecFloat.SFeqb range.1 range.2) &&
  negb (contains range (f32_div (as_f32 (TrackInfo.width track)) (as_f32 (TrackInfo.height track)))).

(** Who publishes such a track is disconnected. *)
Definition forbidden_track (limits : FeaturesLimits.t) (track : TrackInfo.t) : bool :=
  (TrackInfo.type_ track =? TrackInfo.Data)%Z ||
  ((TrackInfo.type_ track =? TrackInfo.Video)%Z &&
   (out_of_bounds_resolution limits track || out_of_bounds_aspect_ratio limits track)).
End Video.

(** ** Joining a call *)

Section Calls.
Context `{Environment, MutualIds, HashIter, Redis, RedisCommands, VoiceClient, LiveKitServer, Broker}.
Context `{OptionalStruct Message.t PartialMessage.t}.

(** The channel is full: as many members as it may have, and the user does not manage it. *)
Definition call_is_full (members : option (list string)) (voice_info : VoiceInformation.t)
    (permissions : PermissionValue.t) : bool :=
  match members, VoiceInformation.max_users voice_info with
  | Some members, Some max_users =>
      (max_users <=? Z.of_nat (length members))%Z &&
      negb (PermissionValue.has permissions (ChannelPermission.as_u64 ChannelPermission.ManageChannel))
  | _, _ => false
  end.

(** Disconnect the user from every call they are in. *)
Definition disconnect_everywhere (user_id : string) : H unit :=
  channels ← get_user_voice_channels user_id;
  for_each channels (λ previous_channel,
    node ← get_channel_node (UserVoiceChannel.id previous_channel);
    match node with
    | Some node => ignore (remove_user node user_id (UserVoiceChannel.id previous_channel))
    | None => mret tt
    end ;;
    delete_voice_state previous_channel user_id).

(** # Join Call *)
Definition call (user : User.t) (target : string) (data : DataJoinCall.t) : H (string * string) :=
  if negb is_enabled then throw ErrorType.LiveKitUnavailable else
  let force_disconnect := bool_decide (DataJoinCall.force_disconnect data = Some true) in
  if bool_decide (is_Some (User.bot user)) && force_disconnect then throw ErrorType.IsBot else
  channel ← Reference.as_channel target;
  match Channel.voice channel with
  | None => throw ErrorType.NotAVoiceChannel
  | Some voice_info =>
      answer ← query_channel user channel;
      let current_permissions := answer.1 in
      require current_permissions ChannelPermission.Connect ;;
      let user_voice_channel := UserVoiceChannel.from_channel channel in
      members ← get_voice_channel_members user_voice_channel;
      if call_is_full members voice_info current_permissions then throw ErrorType.CannotJoinCall else
      existing_node ← get_channel_node (Channel.id channel);
      node ← lift (ok_or (match existing_node with
                          | Some node => Some node
                          | None => DataJoinCall.node data
                          end) ErrorType.UnknownNode);
      node_host ← lift (ok_or (node_hosts !! node) ErrorType.UnknownNode);
      (if force_disconnect then disconnect_everywhere (User.id user)
       else raise_if_in_voice user user_voice_channel) ;;
      token ← create_token node user current_permissions channel;
      create_room node channel ;;
      now ← clock;
      let participants := num_participants now node (Channel.id channel) in
      (match existing_node with
       | Some _ => mret tt
       | None => set_channel_node (Channel.id channel) node
       end) ;;
      (match DataJoinCall.recipients data with
       | Some recipients =>
           if (participants =? 0)%Z && negb (bool_decide (recipients = []))
           then set_call_notification_recipients (Channel.id channel) (User.id user) recipients
           else mret tt
       | None => mret tt
       end) ;;
      mret (token, node_host)
  end.

(** [amqp.dm_call_updated] *)
Definition dm_call_updated (initiator_id channel_id : string) (started_at : option string)
    (ended : bool) (recipients : option (list string)) : H unit :=
  now ← clock;
  if broker_accepts now
  then amqp (Amqp.DmCallUpdated initiator_id channel_id started_at ended recipients)
  else throw ErrorType.InternalError.

(** # Stop Ring *)
Definition stop_ring (user : User.t) (target target_user : string) : H unit :=
  if negb is_enabled then throw ErrorType.LiveKitUnavailable else
  channel ← Reference.as_channel target;
  if bool_decide (is_Some (Channel.server channel)) then throw ErrorType.NoEffect else
  voice_state ← get_voice_state (UserVoiceChannel.mk (Channel.id channel) None) (User.id user);
  match voice_state with
  | None => throw ErrorType.NotConnected
  | Some _ =>
      members ← match channel with
                | Channel.DirectMessage c => mret (DirectMessage.recipients c)
                | Channel.Group c => mret (Group.recipients c)
                | _ => throw ErrorType.NoEffect
                end;
      if bool_decide (target_user ∈ members)
      then dm_call_updated (User.id user) (Channel.id channel) None true (Some [target_user])
      else throw ErrorType.NotFound
  end.

(** ** The daemon *)

(** The recipients to notify, if whoever starts the call narrowed them: [GETDEL] reads one
    string as a list of one. *)
Definition get_call_notification_recipients (channel_id user_id : string) :
    H (option (list string)) :=
  value ← get_del ("call_notification_recipients:" +:+ channel_id +:+ "-" +:+ user_id);
  mret ((λ v, [v]) <$> value).

(** [VoiceClient::get_room_participants] *)
Definition get_room_participants (node channel_id : string) : H nat :=
  lift (get_node node) ;;
  now ← clock;
  internal (list_participants now node channel_id).

(** [Timestamp::UNIX_EPOCH.checked_add(Duration::seconds(s)).unwrap()], in nanoseconds *)
Definition from_seconds (s : Z) : Result Z :=
  if representable s then Ok (s * 10 ^ 9)%Z else Panicked.

(** The message that a call started, and who is rung *)
Definition call_started (channel : Channel.t) (channel_id user_id : string) (created_at : Z) : H unit :=
  user ← Reference.as_user user_id;
  joined_at ← lift (from_seconds created_at);
  n ← gets World.ulids;
  modify (λ w, World.set_ulids w (S n)) ;;
  let message :=
    into_message (SystemMessage.CallStarted user_id None) channel_id
      (ulid_from_datetime joined_at n) in
  set_channel_call_started_system_message channel_id (Message.id message) ;;
  send message (MessageAuthor.System (User.username user) (File.id <$> User.avatar user)) None None
    channel false ;;
  recipients ← get_call_notification_recipients channel_id user_id;
  ignore (dm_call_updated (User.id user) channel_id (Some (format_short joined_at)) false recipients).

Definition participant_joined (node : string) (voice_channel : UserVoiceChannel.t) (user_id : string)
    (created_at : Z) : H unit :=
  let channel_id := UserVoiceChannel.id voice_channel in
  channel ← Reference.as_channel channel_id;
  joined_at ← lift (from_seconds created_at);
  voice_state ← create_voice_state voice_channel user_id joined_at;
  moved_from ← get_user_moved_to_voice channel_id user_id;
  (match moved_from with
   | Some moved_from =>
       p (EventV1.VoiceChannelMove user_id (UserVoiceChannel.id moved_from) channel_id voice_state)
         channel_id
   | None => p (EventV1.VoiceChannelJoin channel_id voice_state) channel_id
   end) ;;
  participants ← get_room_participants node channel_id;
  if bool_decide (participants = 1%nat) then call_started channel channel_id user_id created_at
  else mret tt.

(** When the last participant left: nobody is rung any more, and the message says so. *)
Definition call_finished (channel_id user_id : string) : H unit :=
  ignore (dm_call_updated user_id channel_id None true None) ;;
  message_id ← take_channel_call_started_system_message channel_id;
  match message_id with
  | None => mret tt
  | Some message_id =>
      message ← attempt (Reference.as_message message_id);
      match message with
      | None => mret tt
      | Some message =>
          match Message.system message with
          | Some (SystemMessage.CallStarted by_ _) =>
              now ← clock;
              let system := SystemMessage.CallStarted by_ (Some now) in
              update_message message
                (PartialMessage.mk None None None None None None (Some system) None None None None
                   None None None None None None None None) [] ;;
              mret tt
          | _ => mret tt
          end
      end
  end.

Definition participant_left (voice_channel : UserVoiceChannel.t) (user_id : string) : H unit :=
  let channel_id := UserVoiceChannel.id voice_channel in
  delete_voice_state voice_channel user_id ;;
  moved ← get_user_moved_from_voice channel_id user_id;
  (match moved with
   | Some _ => mret tt
   | None => p (EventV1.VoiceChannelLeave channel_id user_id) channel_id
   end) ;;
  members ← get_voice_channel_members voice_channel;
  match default [] members with
  | [] => call_finished channel_id user_id
  | _ => mret tt
  end.

(** A track was published, unpublished, muted or unmuted *)
Definition track_changed (node event : string) (channel : UserVoiceChannel.t) (user_id : string)
    (track : TrackInfo.t) : H unit :=
  let channel_id := UserVoiceChannel.id channel in
  user ← Reference.as_user user_id;
  now ← clock;
  limits ← lift (user_limits now (User.id user));
  if bool_decide (event = "track_published") && forbidden_track limits track then
    ignore (remove_user node user_id channel_id) ;;
    delete_voice_state channel user_id
  else
    partial ← update_voice_state_tracks channel user_id
                (bool_decide (event = "track_published") || bool_decide (event = "track_unmuted"))
                (TrackInfo.source track);
    p (EventV1.UserVoiceStateUpdate user_id channel_id partial) channel_id.

Definition is_track_event (event : string) : bool :=
  bool_decide (event ∈ ["track_published"; "track_unpublished"; "track_unmuted"; "track_muted"]).

(** The body of [ingress] once the event was received *)
Definition handle_event (node : string) (event : WebhookEvent.t) : H unit :=
  let channel_id := fst <$> WebhookEvent.room event in
  let user_id := WebhookEvent.participant event in
  metadata ← match WebhookEvent.room event with
             | Some room => metadata ← internal (room_metadata room.2); mret (Some metadata)
             | None => mret None
             end;
  if bool_decide (WebhookEvent.event event = "participant_joined") then
    channel_id ← internal channel_id;
    user_id ← internal user_id;
    server_id ← internal metadata;
    participant_joined node (UserVoiceChannel.mk channel_id server_id) user_id
      (WebhookEvent.created_at event)
  else if bool_decide (WebhookEvent.event event = "participant_left") then
    channel_id ← internal channel_id;
    user_id ← internal user_id;
    server_id ← internal metadata;
    participant_left (UserVoiceChannel.mk channel_id server_id) user_id
  else if is_track_event (WebhookEvent.event event) then
    channel_id ← internal channel_id;
    user_id ← internal user_id;
    track ← internal (WebhookEvent.track event);
    server_id ← internal metadata;
    track_changed node (WebhookEvent.event event) (UserVoiceChannel.mk channel_id server_id) user_id
      track
  else if bool_decide (WebhookEvent.event event = "room_finished") then
    channel_id ← internal channel_id;
    server_id ← internal metadata;
    delete_channel_voice_state (UserVoiceChannel.mk channel_id server_id) []
  else mret tt.

(** [body.trim().is_empty()]: nothing but white space, as UTF-8 *)
Section Blank.
Local Open Scope N_scope.
Definition space1 (a : N) : bool := ((9 <=? a) && (a <=? 13)) || (a =? 32).
Definition space2 (a b : N) : bool := (a =? 0xC2) && ((b =? 0x85) || (b =? 0xA0)).
Definition space3 (a b c : N) : bool :=
  ((a =? 0xE1) && (b =? 0x9A) && (c =? 0x80)) ||
  ((a =? 0xE2) && (b =? 0x80) &&
   (((0x80 <=? c) && (c <=? 0x8A)) || (c =? 0xA8) || (c =? 0xA9) || (c =? 0xAF))) ||
  ((a =? 0xE2) && (b =? 0x81) && (c =? 0x9F)) || ((a =? 0xE3) && (b =? 0x80) && (c =? 0x80)).
Fixpoint blank_bytes (l : list N) : bool :=
  match l with
  | [] => true
  | a :: l =>
      if space1 a then blank_bytes l else
      match l with
      | b :: l =>
          if space2 a b then blank_bytes l else
          match l with c :: l => space3 a b c && blank_bytes l | [] => false end
      | [] => false
      end
  end.
End Blank.
Definition blank (body : string) : bool :=
  blank_bytes (Ascii.N_of_ascii <$> String.list_ascii_of_string body).

Definition ingress (node : string) (auth_header : option string) (body : string) : H unit :=
  auth_header ← lift (ok_or auth_header ErrorType.NotAuthenticated);
  if blank body then mret tt else
  keys ← internal (node_keys !! node);
  event ← internal (receive keys.1 keys.2 body auth_header);
  handle_event node event.
End Calls.

(** ** Who may join and who may stop the ringing *)

Section Authorised.
Context `{Environment, MutualIds, HashIter, Redis, RedisCommands, VoiceClient, LiveKitServer, Broker}.

(** The entries of a set of the store, and how a channel is named in the set of a user's calls *)
Definition entries (w : World.t) (k : string) : gset string := default ∅ (World.redis_sets w !! k).
Definition entry_of (channel : Channel.t) : string :=
  Channel.id channel +:+ match Channel.server channel with Some server => "-" +:+ server | None => "" end.
Definition node_of (channel : Channel.t) (w : World.t) : option string :=
  live ("node:" +:+ Channel.id channel) (World.now w) (World.redis w).

(** A person in no call at all, a bot not in the call of this channel *)
Definition free_to_join (user : User.t) (channel : Channel.t) (w : World.t) : Prop :=
  match User.bot user with
  | None => entries w ("vc:" +:+ User.id user) = ∅
  | Some _ => entry_of channel ∉ entries w ("vc:" +:+ User.id user)
  end.

(** The channel is a voice channel with room or with nobody in it, on a node that is known, the user may connect to it,
    and is in no call, for a bot not in this one, or wants to leave the others. *)
Definition may_join (user : User.t) (target : string) (data : DataJoinCall.t) (w : World.t) : Prop :=
  let forced := DataJoinCall.force_disconnect data = Some true in
  rooms ≠ ∅ ∧ (forced → User.bot user = None) ∧
  ∃ channel info node host,
    Reference.as_channel target w = (Ok channel, w) ∧ Channel.voice channel = Some info ∧
    holds_in_channel user channel ChannelPermission.Connect w ∧
    (∀ max, VoiceInformation.max_users info = Some max →
       (Z.of_nat (size (entries w ("vc_members:" +:+ Channel.id channel))) < max)%Z ∨
       entries w ("vc_members:" +:+ Channel.id channel) = ∅ ∨
       holds_in_channel user channel ChannelPermission.ManageChannel w) ∧
    (node_of channel w = Some node ∨ node_of channel w = None ∧ DataJoinCall.node data = Some node) ∧
    node_hosts !! node = Some host ∧
    (forced ∨ free_to_join user channel w).

(** What a token is for: the room of the channel, hearing the others with the permission to listen,
    the microphone with the permission to speak, and the camera and the screen with the permission
    to show a video if the limits of the user allow videos *)
Definition entitles (user : User.t) (channel : Channel.t) (limits : FeaturesLimits.t) (w : World.t)
    (g : VideoGrants.t) : Prop :=
  VideoGrants.identity g = User.id user ∧ VideoGrants.room g = Channel.id channel ∧
  VideoGrants.room_join g = true ∧ VideoGrants.can_publish_data g = false ∧
  (VideoGrants.can_subscribe g = true ↔ holds_in_channel user channel ChannelPermission.Listen w) ∧
  ∀ source, source ∈ VideoGrants.can_publish_sources g ↔
    source = "microphone" ∧ holds_in_channel user channel ChannelPermission.Speak w ∨
    source ∈ ["camera"; "screen_share"; "screen_share_audio"] ∧
      holds_in_channel user channel ChannelPermission.Video w ∧ FeaturesLimits.video limits = true.

(** The user is in the call of the group or direct message, and the other one is a recipient. *)
Definition may_stop_ring (user : User.t) (target target_user : string) (w : World.t) : Prop :=
  rooms ≠ ∅ ∧
  ∃ channel state,
    Reference.as_channel target w = (Ok channel, w) ∧ Channel.server channel = None ∧
    get_voice_state (UserVoiceChannel.mk (Channel.id channel) None) (User.id user) w =
      (Ok (Some state), w) ∧
    match channel with
    | Channel.DirectMessage c => target_user ∈ DirectMessage.recipients c
    | Channel.Group c => target_user ∈ Group.recipients c
    | _ => False
    end.

Lemma raise_if_in_voice_reads user channel : reads (raise_if_in_voice user channel).
Proof.
  unfold raise_if_in_voice, sismember, scard. apply reads_bind; [|intros []; solve_reads].
  destruct (bool_decide _); [apply redis_query_reads|].
  apply reads_bind; [apply redis_query_reads|intros; apply reads_ret].
Qed.
Lemma get_voice_channel_members_reads channel : reads (get_voice_channel_members channel).
Proof.
  unfold get_voice_channel_members, smembers.
  apply reads_bind; [apply redis_query_reads|intros; apply reads_ret].
Qed.
Lemma get_channel_node_reads channel : reads (get_channel_node channel).
Proof. apply redis_query_reads. Qed.
Lemma get_voice_state_reads channel user : reads (get_voice_state channel user).
Proof. apply redis_query_reads. Qed.
#[local] Hint Resolve raise_if_in_voice_reads get_voice_channel_members_reads : reads.
#[local] Hint Resolve get_channel_node_reads get_voice_state_reads : reads.

Lemma has_is_has_channel_permission pv permission :
  PermissionValue.has pv (ChannelPermission.as_u64 permission) =
  PermissionValue.has_channel_permission pv permission.
Proof. done. Qed.

Lemma is_enabled_rooms : is_enabled = true → rooms ≠ ∅.
Proof. unfold is_enabled. intros Hn%negb_true_iff. by apply bool_decide_eq_false in Hn. Qed.

Lemma redis_query_Ok {A} (f : Z → store * sets → option A) w a w' :
  redis_query f w = (Ok a, w') → f (World.now w) (World.redis w, World.redis_sets w) = Some a.
Proof.
  intros Hrun. unfold redis_query in Hrun. unbind Hrun c. unbind Hrun answer. injection Eanswer as Eanswer.
  destruct (redis_answers _ _); [|by subst]. rewrite Eanswer. unfold lift, ok_or in Hrun.
  destruct answer; [by injection Hrun as ->|done].
Qed.

Lemma free_if_not_raised user channel w w' :
  raise_if_in_voice user (UserVoiceChannel.from_channel channel) w = (Ok tt, w') →
  free_to_join user channel w.
Proof.
  intros Hrun. unfold raise_if_in_voice in Hrun. apply bind_Ok_inv in Hrun as (connected & w1 & Hc & Hrun).
  destruct connected; [done|]. unfold free_to_join. destruct (User.bot user) as [bot|]; cbn in Hc.
  - apply redis_query_Ok in Hc. injection Hc as Hc. by apply bool_decide_eq_false in Hc.
  - apply bind_Ok_inv in Hc as (n & w2 & Hn & Hc). apply redis_query_Ok in Hn. injection Hn as <-.
    injection Hc as Hc _. apply bool_decide_eq_false in Hc.
    apply leibniz_equiv, size_empty_iff. change (size (members_of (vc_key (User.id user)) (World.redis_sets w)) = 0).
    lia.
Qed.

Lemma not_full user channel info members pv q w w' :
  query_channel user channel w = (Ok (pv, q), w) →
  get_voice_channel_members (UserVoiceChannel.from_channel channel) w = (Ok members, w') →
  call_is_full members info pv = false →
  ∀ max, VoiceInformation.max_users info = Some max →
    (Z.of_nat (size (entries w ("vc_members:" +:+ Channel.id channel))) < max)%Z ∨
    entries w ("vc_members:" +:+ Channel.id channel) = ∅ ∨
    holds_in_channel user channel ChannelPermission.ManageChannel w.
Proof.
  intros Hq Hm Hfull max Hmax. unfold get_voice_channel_members in Hm.
  apply bind_Ok_inv in Hm as (l & w1 & Hl & Hm). apply redis_query_Ok in Hl. injection Hl as Hl.
  change (members_of _ _) with (entries w ("vc_members:" +:+ Channel.id channel)) in Hl.
  generalize dependent (entries w ("vc_members:" +:+ Channel.id channel)). intros X Hl.
  destruct (hash_set_iter_spec X) as (Hn & Hin & _). rewrite Hl in Hn, Hin. injection Hm as Hm _.
  assert (list_to_set l = X) as HX by (apply set_eq; intros x; by rewrite elem_of_list_to_set).
  unfold call_is_full in Hfull. rewrite Hmax in Hfull. destruct l as [|x l]; [right; left; set_solver|].
  rewrite <- Hm in Hfull. cbn [andb] in Hfull. rewrite <- HX, size_list_to_set by done.
  apply andb_false_iff in Hfull as [Hlt%Z.leb_gt|Hp%negb_false_iff]; [by left|right; right].
  rewrite has_is_has_channel_permission in Hp. by eapply query_channel_holds.
Qed.

Lemma call_gated user target data w : gated (may_join user target data w) (call user target data) w.
Proof.
  unfold call. destruct is_enabled eqn:Hon; [|apply gated_reads; solve_reads]. cbn [negb].
  destruct (_ && _) eqn:Hbot; [apply gated_reads; solve_reads|].
  gate_step. rename a into channel. destruct (Channel.voice channel) as [info|] eqn:Hinfo;
    [|apply gated_reads; solve_reads].
  gate_step. destruct a as [pv q]. cbn [fst]. apply gated_require. intros Hconnect.
  gate_step. rename a into members. destruct (call_is_full _ _ _) eqn:Hfull;
    [apply gated_reads; solve_reads|].
  gate_step. rename a into existing. gate_step. rename a into node. gate_step. rename a into host.
  assert ((DataJoinCall.force_disconnect data = Some true ∨ free_to_join user channel w) →
    may_join user target data w) as Hmay.
  { intros Hin. split; [by apply is_enabled_rooms|]. split.
    { intros Hf. rewrite (bool_decide_eq_true_2 _ Hf), andb_true_r in Hbot.
      apply bool_decide_eq_false in Hbot. destruct (User.bot user); [|done]. by destruct Hbot. }
    exists channel, info, node, host. split; [done|]. split; [done|].
    split; [by eapply query_channel_holds|]. split.
    { by eapply not_full. }
    split; [|split; [|done]].
    - match goal with He : get_channel_node _ _ = (Ok existing, _) |- _ =>
        apply redis_query_Ok in He; injection He as He; change (node_of channel w = existing) in He end.
      destruct existing as [e|]; [left|right]; unfold lift, ok_or in *; [congruence|].
      split; [done|]. destruct (DataJoinCall.node data); [congruence|done].
    - unfold lift, ok_or in *. destruct (node_hosts !! node); [congruence|done]. }
  destruct (bool_decide (DataJoinCall.force_disconnect data = Some true)) eqn:Hf.
  { apply bool_decide_eq_true in Hf. apply gated_open. auto. }
  gate_step. destruct a. apply gated_open. apply Hmay. right. by eapply free_if_not_raised.
Qed.

Lemma stop_ring_gated user target other w :
  gated (may_stop_ring user target other w) (stop_ring user target other) w.
Proof.
  unfold stop_ring. destruct is_enabled eqn:Hon; [|apply gated_reads; solve_reads]. cbn [negb].
  gate_step. rename a into channel.
  destruct (bool_decide (is_Some (Channel.server channel))) eqn:Hs; [apply gated_reads; solve_reads|].
  gate_step. destruct a as [state|]; [|apply gated_reads; solve_reads].
  gate_step. rename a into members.
  destruct (bool_decide (other ∈ members)) eqn:Hin; [|apply gated_reads; solve_reads].
  apply bool_decide_eq_true in Hin. apply bool_decide_eq_false in Hs. apply gated_open.
  split; [by apply is_enabled_rooms|]. exists channel, state. split; [done|]. split.
  { destruct (Channel.server channel); [|done]. by destruct Hs. }
  split; [done|].
  destruct channel; try done;
    match goal with Hm : mret _ _ = (Ok members, _) |- _ => by injection Hm as <- end.
Qed.

(** The clock is not what leaving calls changes. *)
Lemma disconnect_everywhere_now user : keeps World.now (disconnect_everywhere user).
Proof.
  unfold disconnect_everywhere, get_user_voice_channels, smembers.
  apply keeps_bind; [apply keeps_bind; [apply reads_keeps, redis_query_reads|by intros]|].
  intros channels. apply for_each_keeps. intros channel.
  apply keeps_bind; [apply reads_keeps, redis_query_reads|]. intros node.
  apply keeps_bind; [|intros _; by apply pipeline_keeps].
  destruct node; [|apply keeps_ret]. unfold ignore.
  apply keeps_bind; [|by intros]. by apply keeps_attempt, livekit_request_keeps.
Qed.

Lemma holds_iff user channel pv q permission w :
  query_channel user channel w = (Ok (pv, q), w) →
  holds_in_channel user channel permission w ↔ PermissionValue.has_channel_permission pv permission = true.
Proof.
  intros Hq. split; [|intros Hp; by exists pv, q]. intros (pv' & q' & Hq' & Hp).
  rewrite Hq in Hq'. by injection Hq' as <- <-.
Qed.
Lemma grants_entitle user model limits pv q channel w :
  query_channel user channel w = (Ok (pv, q), w) →
  entitles user channel limits w (grants user model limits pv channel).
Proof.
  intros Hq. unfold entitles. rewrite (holds_iff user channel pv q ChannelPermission.Listen w Hq).
  do 5 (split; [done|]). intros source. rewrite !(holds_iff user channel pv q _ w Hq).
  cbn [VideoGrants.can_publish_sources grants]. unfold get_allowed_sources.
  rewrite !has_is_has_channel_permission, elem_of_app.
  destruct (PermissionValue.has_channel_permission pv ChannelPermission.Speak),
    (PermissionValue.has_channel_permission pv ChannelPermission.Video), (FeaturesLimits.video limits);
    cbn [andb]; rewrite ?list_elem_of_singleton, ?elem_of_nil; naive_solver.
Qed.

(** A run that gave a token *)
Lemma call_token user target data w :
  match (call user target data w).1 with
  | Ok (token, host) =>
      ∃ channel limits node g,
        Reference.as_channel target w = (Ok channel, w) ∧
        user_limits (World.now w) (User.id user) = Ok limits ∧ entitles user channel limits w g ∧
        to_jwt node g = Some token ∧ node_hosts !! node = Some host
  | _ => True
  end.
Proof.
  destruct (call user target data w) as [[[token host]| |] w'] eqn:Hrun; [|done..]. cbn [fst].
  revert Hrun. unfold call. destruct is_enabled; [|done]. cbn [negb]. destruct (_ && _); [done|].
  intros Hrun. unbind Hrun channel. destruct (Channel.voice channel) as [info|]; [|done].
  unbind Hrun answer. destruct answer as [pv q]. cbn [fst] in Hrun.
  apply require_Ok_inv in Hrun as [_ Hrun]. unbind Hrun members.
  destruct (call_is_full _ _ _); [done|]. unbind Hrun existing. unbind Hrun node. unbind Hrun h.
  apply bind_Ok_inv in Hrun as ([] & w1 & Hin & Hrun).
  apply bind_Ok_inv in Hrun as (tk & w2 & Htoken & Hrun).
  assert (World.now w1 = World.now w) as Hnow.
  { destruct (bool_decide _).
    - pose proof (disconnect_everywhere_now (User.id user) w) as Hk. by rewrite Hin in Hk.
    - pose proof (raise_if_in_voice_reads user (UserVoiceChannel.from_channel channel) w) as Hk.
      rewrite Hin in Hk. simpl in Hk. by subst. }
  unfold create_token in Htoken. unbind Htoken known. unbind Htoken now. unbind Htoken limits.
  unbind Htoken model. injection Enow as <-.
  exists channel, limits, node, (grants user model limits pv channel). split; [done|].
  split; [rewrite <- Hnow; unfold lift in Elimits; congruence|].
  split; [by eapply grants_entitle|].
  apply bind_Ok_inv in Hrun as (u3 & w3 & _ & Hrun). apply bind_Ok_inv in Hrun as (t & w4 & _ & Hrun).
  cbv zeta in Hrun. apply bind_Ok_inv in Hrun as (u5 & w5 & _ & Hrun).
  apply bind_Ok_inv in Hrun as (u6 & w6 & _ & Hrun).
  injection Hrun as <- <- _. unfold lift, ok_or in Htoken, Eh. split.
  - destruct (to_jwt _ _); [congruence|done].
  - destruct (node_hosts !! node); [congruence|done].
Qed.

(** C30: a call is joined by who may: unless the caller may connect to the voice channel, it has
    room or they manage it, the voice server is known, and they are in no call, for a bot not in
    this one, or ask to leave their calls (which bots may not), the route leaves everything as it
    was. The token it gives is for the room of the channel, for hearing with the permission to
    listen, and for exactly the microphone with the permission to speak and the camera and the
    screen with the permission to show a video, if the limits of the caller allow it. And only who
    is in the call of a group or direct message stops the ringing of one of its recipients. *)
Theorem calls_authorised (user : User.t) (target target_user : string) (data : DataJoinCall.t)
    (w : World.t) :
  ((call user target data w).2 = w ∨ may_join user target data w) ∧
  match (call user target data w).1 with
  | Ok (token, host) =>
      ∃ channel limits node g,
        Reference.as_channel target w = (Ok channel, w) ∧
        user_limits (World.now w) (User.id user) = Ok limits ∧ entitles user channel limits w g ∧
        to_jwt node g = Some token ∧ node_hosts !! node = Some host
  | _ => True
  end ∧
  ((stop_ring user target target_user w).2 = w ∨ may_stop_ring user target target_user w).
Proof. split; [apply call_gated|]. split; [apply call_token|apply stop_ring_gated]. Qed.
End Authorised.

(** ** The sets say what the voice servers said *)

Section Mirror.
Context `{Environment, MutualIds, HashIter, Redis, RedisCommands, VoiceClient, LiveKitServer, Broker}.
Context `{OptionalStruct Message.t PartialMessage.t}.
Context (server_of : string → option string).

(** Commands on strings leave the sets alone, also when only some of them were executed. *)
Definition string_command (c : Command.t) : bool :=
  match c with
  | Command.Set_ _ _ | Command.SetEx _ _ _ | Command.GetDel _ => true
  | _ => false
  end.
Lemma strings_keep_sets cs :
  forallb string_command cs = true → keeps World.redis_sets (pipeline cs).
Proof.
  intros Hcs.
  assert (∀ cs' now (r : store * sets), forallb string_command cs' = true →
    (fold_left (execute now) cs' r).2 = r.2) as Hfold.
  { intros cs' now. induction cs' as [|c cs' IH]; intros r; [done|].
    intros [Hc Hcs']%andb_prop. simpl. rewrite IH by done. by destruct c. }
  unfold pipeline. apply keeps_bind; [apply reads_keeps, connection_reads|]. intros _ w.
  unfold run_commands. destruct (redis_runs _ _ _) as [[] r] eqn:Hr; simpl.
  - apply redis_runs_all in Hr as [_ ->]. by rewrite Hfold.
  - apply redis_runs_some in Hr as (executed & Hsub & ->). rewrite Hfold; [done|].
    apply forallb_forall. intros c Hc. rewrite forallb_forall in Hcs. apply Hcs.
    apply list_elem_of_In. apply list_elem_of_In in Hc. eapply sublist_subseteq; eauto.
Qed.

Lemma get_del_sets k : keeps World.redis_sets (get_del k).
Proof.
  unfold get_del. apply keeps_bind; [apply keeps_gets|]. intros v.
  apply keeps_bind; [by apply strings_keep_sets|]. intros _. apply keeps_ret.
Qed.
Lemma send_sets message author user member channel embeds :
  keeps World.redis_sets (send message author user member channel embeds).
Proof.
  unfold send, send_without_notifications, clock, queue_message, queue_embeds.
  unfold queue_last_message_id, p, on_messages. solve_keeps.
Qed.
Lemma update_message_sets message partial remove :
  keeps World.redis_sets (update_message message partial remove).
Proof. unfold update_message, p, on_messages. solve_keeps. Qed.
Lemma dm_call_updated_sets a b c d e : keeps World.redis_sets (dm_call_updated a b c d e).
Proof. unfold dm_call_updated, clock, amqp. solve_keeps. Qed.
Lemma ignore_keeps {A C} (f : World.t → C) (m : H A) : keeps f m → keeps f (ignore m).
Proof. intros Hm. unfold ignore. apply keeps_bind; [by apply keeps_attempt|by intros]. Qed.
Lemma as_keeps {A} (m : H A) : reads m → keeps World.redis_sets m.
Proof. apply reads_keeps. Qed.
#[local] Hint Resolve get_del_sets send_sets update_message_sets dm_call_updated_sets : keeps.
#[local] Hint Resolve ignore_keeps : keeps.

Lemma call_started_sets channel id user t : keeps World.redis_sets (call_started channel id user t).
Proof.
  unfold call_started. apply keeps_bind; [apply as_keeps; auto with reads|]. intros u.
  apply keeps_bind; [apply keeps_lift|]. intros joined_at. apply keeps_bind; [apply keeps_gets|].
  intros n. apply keeps_bind; [by apply keeps_modify|]. intros _.
  apply keeps_bind; [by apply strings_keep_sets|]. intros _.
  apply keeps_bind; [auto with keeps|]. intros _. unfold get_call_notification_recipients.
  apply keeps_bind; [apply keeps_bind; [apply get_del_sets|intros; apply keeps_ret]|].
  intros recipients. auto with keeps.
Qed.
Lemma call_finished_sets id user : keeps World.redis_sets (call_finished id user).
Proof.
  unfold call_finished. apply keeps_bind; [auto with keeps|]. intros _.
  apply keeps_bind; [apply get_del_sets|]. intros [message_id|]; [|apply keeps_ret].
  apply keeps_bind; [apply keeps_attempt, as_keeps; auto with reads|].
  intros [message|]; [|apply keeps_ret].
  destruct (Message.system message) as [[]|]; try apply keeps_ret.
  apply keeps_bind; [apply keeps_gets|]. intros now.
  apply keeps_bind; [apply update_message_sets|]. intros _. apply keeps_ret.
Qed.

(** What limits forbid: data, and a video of more pixels than they allow (counted modulo [2 ^ 32],
    and not if a side of the limit is 0) or of a width divided by its height, as 32-bit floats,
    outside of their range (unless its ends are equal). *)
Definition pixels (width height : Z) : Z := ((width * height) mod 2 ^ 32)%Z.
Definition ratio (width height : Z) : SpecFloat.spec_float :=
  SpecFloat.SFdiv 24 128 (SpecFloat.binary_normalize 24 128 width 0 false)
    (SpecFloat.binary_normalize 24 128 height 0 false).
Inductive forbidden (limits : FeaturesLimits.t) (track : TrackInfo.t) : Prop :=
  | forbidden_data : TrackInfo.type_ track = 2%Z → forbidden limits track
  | forbidden_size width height :
      TrackInfo.type_ track = 1%Z → FeaturesLimits.video_resolution limits = (width, height) →
      width ≠ 0%Z → height ≠ 0%Z →
      (pixels width height < pixels (TrackInfo.width track) (TrackInfo.height track))%Z →
      forbidden limits track
  | forbidden_shape lo hi :
      TrackInfo.type_ track = 1%Z → FeaturesLimits.video_aspect_ratio limits = (lo, hi) →
      SpecFloat.SFeqb lo hi = false →
      ¬ (SpecFloat.SFleb lo (ratio (TrackInfo.width track) (TrackInfo.height track)) = true ∧
         SpecFloat.SFleb (ratio (TrackInfo.width track) (TrackInfo.height track)) hi = true) →
      forbidden limits track.

Lemma forbidden_track_spec limits track : forbidden_track limits track = true ↔ forbidden limits track.
Proof.
  unfold forbidden_track, out_of_bounds_resolution, out_of_bounds_aspect_ratio, contains.
  destruct (FeaturesLimits.video_resolution limits) as [width height] eqn:Hres.
  destruct (FeaturesLimits.video_aspect_ratio limits) as [lo hi] eqn:Hratio. cbn [fst snd].
  change (f32_div _ _) with (ratio (TrackInfo.width track) (TrackInfo.height track)).
  change (as_u32 (width * height)) with (pixels width height).
  change (as_u32 (TrackInfo.width track * TrackInfo.height track))
    with (pixels (TrackInfo.width track) (TrackInfo.height track)).
  rewrite orb_true_iff, !andb_true_iff, orb_true_iff, !andb_true_iff, !negb_true_iff, andb_false_iff.
  rewrite !Z.eqb_eq, !Z.eqb_neq, Z.ltb_lt. split.
  - intros [Hd|[Hv [[[Hw Hh] Hlt]|[Heq Hout]]]]; [by apply forbidden_data|by eapply forbidden_size|].
    eapply forbidden_shape; [done..|]. intros [Hlo Hhi]. destruct Hout; congruence.
  - intros [Hd|width' height' Hv Hr Hw Hh Hlt|lo' hi' Hv Hr Heq Hout]; [by left|right; split; [done|]..].
    + left. rewrite Hres in Hr. by injection Hr as -> ->.
    + right. rewrite Hratio in Hr. injection Hr as -> ->. split; [done|].
      destruct (SpecFloat.SFleb lo' _); [|by left]. destruct (SpecFloat.SFleb _ hi'); [|by right]. by destruct Hout.
Qed.
#[local] Instance forbidden_dec limits track : Decision (forbidden limits track).
Proof.
  destruct (forbidden_track limits track) eqn:Hf; [left; by apply forbidden_track_spec|right].
  rewrite <- forbidden_track_spec. congruence.
Defined.
Lemma forbidden_track_decide limits track : forbidden_track limits track = bool_decide (forbidden limits track).
Proof. apply eq_bool_prop_intro. by rewrite bool_decide_spec, Is_true_true, forbidden_track_spec. Qed.

(** A track is published that the limits of its publisher forbid. *)
Definition kicks (event : string) (track : option TrackInfo.t) (user_id : string) (w : World.t) : bool :=
  match Reference.as_user user_id w, track with
  | (Ok user, _), Some track =>
      match user_limits (World.now w) (User.id user) with
      | Ok limits => bool_decide (event = "track_published") && bool_decide (forbidden limits track)
      | _ => false
      end
  | _, _ => false
  end.

(** Who is where after an event on a user and a channel *)
Definition heard (event : WebhookEvent.t) (user_id channel_id : string) (w : World.t)
    (P : gset (string * string)) : gset (string * string) :=
  let name := WebhookEvent.event event in
  if bool_decide (name = "participant_joined") then {[(user_id, channel_id)]} ∪ P else
  if bool_decide (name = "participant_left") then P ∖ {[(user_id, channel_id)]} else
  if is_track_event name && kicks name (WebhookEvent.track event) user_id w
  then P ∖ {[(user_id, channel_id)]} else P.

Lemma created_represents u id t P vs w w' :
  represents server_of (World.redis_sets w) P → plain_id u = true → plain_id id = true →
  create_voice_state (channel_of server_of id) u t w = (Ok vs, w') →
  represents server_of (World.redis_sets w') ({[(u, id)]} ∪ P).
Proof.
  intros HP Hu Hid Hrun. unfold create_voice_state in Hrun.
  apply bind_Ok_inv in Hrun as ([] & w2 & [-> _]%pipeline_Ok & [= _ <-]).
  exact (represents_join server_of (World.now w) _ P u id (World.redis w) HP Hu Hid).
Qed.
Lemma deleted_represents u id P w w' :
  represents server_of (World.redis_sets w) P → plain_id u = true → plain_id id = true →
  delete_voice_state (channel_of server_of id) u w = (Ok tt, w') →
  represents server_of (World.redis_sets w') (P ∖ {[(u, id)]}).
Proof.
  intros HP Hu Hid Hrun. unfold delete_voice_state in Hrun. apply pipeline_Ok in Hrun as [-> _].
  by apply represents_leave.
Qed.

(** Steps that follow keep the sets. *)
Lemma run_keeps_sets {A} (m : H A) w r w' :
  keeps World.redis_sets m → m w = (r, w') → World.redis_sets w' = World.redis_sets w.
Proof. intros Hm Hrun. specialize (Hm w). by rewrite Hrun in Hm. Qed.

Lemma joined_represents node u id t P w w' :
  represents server_of (World.redis_sets w) P → plain_id u = true → plain_id id = true →
  participant_joined node (channel_of server_of id) u t w = (Ok tt, w') →
  represents server_of (World.redis_sets w') ({[(u, id)]} ∪ P).
Proof.
  intros HP Hu Hid Hrun. unfold participant_joined in Hrun. cbv zeta in Hrun.
  unbind Hrun channel. unbind Hrun joined_at. apply bind_Ok_inv in Hrun as (vs & w1 & Hc & Hrun).
  pose proof (created_represents u id joined_at P vs w w1 HP Hu Hid Hc) as HP1.
  apply run_keeps_sets in Hrun; [by rewrite Hrun|].
  apply keeps_bind; [apply keeps_bind; [apply get_del_sets|intros; apply keeps_ret]|]. intros moved.
  apply keeps_bind; [destruct moved; by apply keeps_modify|]. intros _.
  apply keeps_bind; [apply as_keeps; unfold get_room_participants, internal; solve_reads|].
  intros n. case_bool_decide; [apply call_started_sets|apply keeps_ret].
Qed.

Lemma left_represents u id P w w' :
  represents server_of (World.redis_sets w) P → plain_id u = true → plain_id id = true →
  participant_left (channel_of server_of id) u w = (Ok tt, w') →
  represents server_of (World.redis_sets w') (P ∖ {[(u, id)]}).
Proof.
  intros HP Hu Hid Hrun. unfold participant_left in Hrun. cbv zeta in Hrun.
  apply bind_Ok_inv in Hrun as ([] & w1 & Hc & Hrun).
  pose proof (deleted_represents u id P w w1 HP Hu Hid Hc) as HP1.
  apply run_keeps_sets in Hrun; [by rewrite Hrun|].
  apply keeps_bind; [apply get_del_sets|]. intros moved.
  apply keeps_bind; [destruct moved; [apply keeps_ret|by apply keeps_modify]|]. intros _.
  apply keeps_bind; [apply as_keeps, get_voice_channel_members_reads|]. intros members.
  destruct (default [] members); [apply call_finished_sets|apply keeps_ret].
Qed.

Lemma track_represents node name u id track P w w' :
  represents server_of (World.redis_sets w) P → plain_id u = true → plain_id id = true →
  track_changed node name (channel_of server_of id) u track w = (Ok tt, w') →
  represents server_of (World.redis_sets w')
    (if kicks name (Some track) u w then P ∖ {[(u, id)]} else P).
Proof.
  intros HP Hu Hid Hrun. unfold track_changed in Hrun. cbv zeta in Hrun.
  unbind Hrun user. unbind Hrun now. injection Enow as <-. unbind Hrun limits.
  unfold kicks. rewrite Euser. unfold lift in Elimits. injection Elimits as Elimits. rewrite Elimits.
  rewrite <- forbidden_track_decide. destruct (_ && _).
  - apply bind_Ok_inv in Hrun as ([] & w1 & Hr & Hrun).
    eapply deleted_represents; [|done|done|exact Hrun].
    apply run_keeps_sets in Hr; [by rewrite Hr|]. by apply ignore_keeps, livekit_request_keeps.
  - apply run_keeps_sets in Hrun; [by rewrite Hrun|].
    apply keeps_bind; [|intros; by apply keeps_modify].
    unfold update_voice_state_tracks. apply keeps_bind; [apply keeps_lift|]. intros partial.
    apply keeps_bind; [|intros; apply keeps_ret]. unfold update_voice_state. apply strings_keep_sets.
    destruct partial as [? ? receiving publishing sharing camera].
    by destruct camera, publishing, receiving, sharing.
Qed.

Lemma finished_represents id P w w' :
  represents server_of (World.redis_sets w) P → plain_id id = true →
  (∀ u, (u, id) ∉ P) →
  delete_channel_voice_state (channel_of server_of id) [] w = (Ok tt, w') →
  represents server_of (World.redis_sets w') P.
Proof.
  intros HP Hid Hno Hrun. unfold delete_channel_voice_state in Hrun.
  apply pipeline_Ok in Hrun as [-> _].
  assert (filter (λ x, x.2 ≠ id) P = P) as Hsame.
  { apply set_eq. intros [u id']. rewrite elem_of_filter. split; [tauto|].
    intros Hin. split; [|done]. simpl. intros ->. by eapply Hno. }
  rewrite <- Hsame. apply represents_close; [done|done|].
  intros u. split; [by intros ?%elem_of_nil|]. intros Hu. destruct HP as [Hwf HP].
  pose proof (proj2 (proj1 (HP u id (Hwf _ _ Hu) Hid)) Hu) as Hin. by destruct (Hno u).
Qed.

End Mirror.

(** ** Examples *)

Module IngressSample.
#[local] Existing Instance canonical_iter.
#[local] Existing Instance Store.reliable.
#[local] Existing Instance VoiceInstances.commands.
#[local] Existing Instance VoiceInstances.client.
#[local] Existing Instance Fixture.strangers.
#[local] Instance ingress_environment : Environment := Fixture.environment 10.
#[local] Instance accepts : Broker := λ _, true.
#[local] Instance keeps_messages : OptionalStruct Message.t PartialMessage.t := λ m _, m.
#[local] Instance servers : LiveKitServer := {|
  node_keys := {[ "N" := ("key", "secret") ]};
  node_hosts := {[ "N" := "wss://voice" ]};
  receive _ _ _ _ := None;
  room_metadata _ := Some None;
  num_participants _ _ _ := 0%Z;
  list_participants _ _ _ := Some 2;
  representable _ := true;
  format_short _ := "now";
  ulid_from_datetime _ _ := "01CALL"
|}.

Definition user_id : string := "01ARZ3NDEKTSV4RRFFQ69G5FAV".
Definition channel_id : string := "01BX5ZZKBKACTAV9WEVGEMMVRZ".
Definition group : Channel.t := Channel.Group (Fixture.group channel_id user_id [user_id; "B"; "C"]).
Definition world : World.t :=
  World.set_db World.empty
    (ReferenceDb.set_users (ReferenceDb.set_channels ReferenceDb.empty {[ channel_id := group ]})
       {[ user_id := Fixture.user user_id [] ]}).
Definition event (name : string) : WebhookEvent.t :=
  WebhookEvent.mk name (Some (channel_id, "{}")) (Some user_id) None 0.
Definition joined : World.t := (handle_event "N" (event "participant_joined") world).2.

Lemma joined_runs : handle_event "N" (event "participant_joined") world = (Ok tt, joined).
Proof.
  unfold joined. rewrite (surjective_pairing (handle_event _ _ world)) at 1.
  apply pair_equal_spec. split; [vm_compute|]; reflexivity.
Qed.


(** A room that finishes while a participant is still in it, as far as was heard, leaves them
    in the call for ever: they cannot join another. *)
Definition finished : World.t := (handle_event "N" (event "room_finished") joined).2.
Lemma finished_room_strands_participants :
  get_voice_channel_members (UserVoiceChannel.mk channel_id None) finished = (Ok None, finished) ∧
  (raise_if_in_voice (Fixture.user user_id []) (UserVoiceChannel.mk "other" None) finished).1 =
    Err ErrorType.AlreadyConnected.
Proof. split; vm_compute; reflexivity. Qed.

(** The size of a video wraps: one of 65536 by 65536 has no pixels. *)
Lemma huge_video_is_small :
  out_of_bounds_resolution Fixture.limits (TrackInfo.mk TrackInfo.Video 65536 65536 1) = false ∧
  out_of_bounds_resolution Fixture.limits (TrackInfo.mk TrackInfo.Video 2000 2000 1) = true.
Proof. by split. Qed.

(** 16 by 9 is allowed; 9 by 48 and a height of 0 are not. *)
Lemma aspect_ratio_examples :
  out_of_bounds_aspect_ratio Fixture.limits (TrackInfo.mk TrackInfo.Video 1280 720 1) = false ∧
  out_of_bounds_aspect_ratio Fixture.limits (TrackInfo.mk TrackInfo.Video 9 48 1) = true ∧
  out_of_bounds_aspect_ratio Fixture.limits (TrackInfo.mk TrackInfo.Video 16 0 1) = true.
Proof. split_and!; vm_compute; reflexivity. Qed.

(** Whoever starts a call and narrows whom to notify to two users gets an error after the room
    was made: the list is written as two arguments. *)
Lemma two_recipients_fail :
  (call (Fixture.user user_id []) channel_id
     (DataJoinCall.mk (Some "N") None (Some ["B"; "C"])) world).1 = Err ErrorType.InternalError ∧
  (call (Fixture.user user_id []) channel_id
     (DataJoinCall.mk (Some "N") None (Some ["B"])) world).1 = Ok ("token", "wss://voice").
Proof. split; vm_compute; reflexivity. Qed.
End IngressSample.
