(* ===== verification/Decimal.v ===== *)
(** * Numbers and separators in text

    [u32] as decimal digits and back, and splitting text at a character. *)

From stdpp Require Import base list strings pretty.
From Stdlib Require Import ZArith Lia Ascii.
From S2P Require Import Prelude.

(** ** Numbers as text *)

(** [u32::to_string] *)
Definition u32_to_string (n : Z) : string := pretty (Z.to_N n).

Definition digit (c : ascii) : option Z :=
  let n := Z.of_nat (nat_of_ascii c) in
  if (48 <=? n)%Z && (n <=? 57)%Z then Some (n - 48)%Z else None.

Fixpoint read_digits (acc : Z) (s : string) : option Z :=
  match s with
  | EmptyString => Some acc
  | String c s =>
      d ← digit c;
      let acc := (10 * acc + d)%Z in
      if (acc <? 2 ^ 32)%Z then read_digits acc s else None
  end.

(** [str::parse::<u32>] *)
Definition parse_u32 (s : string) : option Z :=
  match s with
  | EmptyString => None
  | String "+"%char EmptyString => None
  | String "+"%char s => read_digits 0 s
  | s => read_digits 0 s
  end.

(** [str::split] at a character *)
Fixpoint split_at (sep : ascii) (s : string) : list string :=
  match s with
  | EmptyString => [EmptyString]
  | String c s =>
      if Ascii.eqb c sep then EmptyString :: split_at sep s else
      match split_at sep s with
      | part :: parts => String c part :: parts
      | [] => [String c EmptyString]
      end
  end.

(** ** Text and back *)

Lemma digit_char (d : N) : (d < 10)%N → digit (pretty_N_char d) = Some (Z.of_N d).
Proof.
  intros Hd. assert (d = 0 ∨ d = 1 ∨ d = 2 ∨ d = 3 ∨ d = 4 ∨ d = 5 ∨ d = 6 ∨ d = 7 ∨ d = 8 ∨
    d = 9)%N as Hc by lia. by destruct_or!; subst.
Qed.

Lemma read_digits_go (n : N) s :
  (0 < n)%N → (Z.of_N n < 2 ^ 32)%Z →
  read_digits 0 (pretty_N_go n s) = read_digits (Z.of_N n) s.
Proof.
  revert s. induction (N.lt_wf_0 n) as [n _ IH]. intros s Hn Hlt.
  rewrite pretty_N_go_step by done.
  assert (n mod 10 < 10)%N as Hmod by (apply N.mod_lt; done).
  pose proof (N.div_mod n 10 ltac:(done)) as Hdm.
  destruct (N.eq_dec (n / 10) 0) as [Hz|Hnz].
  - rewrite Hz, pretty_N_go_0. cbn [read_digits]. rewrite digit_char by done. cbn [mbind option_bind].
    replace (10 * 0 + Z.of_N (n mod 10))%Z with (Z.of_N n) by lia.
    rewrite (proj2 (Z.ltb_lt _ _)) by done. done.
  - rewrite IH; [|by apply N.div_lt|by apply N.neq_0_lt_0|].
    2: { assert (n / 10 ≤ n)%N by (apply N.Div0.div_le_upper_bound; lia). lia. }
    cbn [read_digits]. rewrite digit_char by done. cbn [mbind option_bind].
    replace (10 * Z.of_N (n / 10) + Z.of_N (n mod 10))%Z with (Z.of_N n) by lia.
    by rewrite (proj2 (Z.ltb_lt _ _)).
Qed.

Lemma pretty_go_first (n : N) s :
  (0 < n)%N → ∃ d s', (d < 10)%N ∧ pretty_N_go n s = String (pretty_N_char d) s'.
Proof.
  revert s. induction (N.lt_wf_0 n) as [n _ IH]. intros s Hn. rewrite pretty_N_go_step by done.
  destruct (N.eq_dec (n / 10) 0) as [Hz|Hnz].
  - rewrite Hz, pretty_N_go_0. eexists _, _. split; [|done]. by apply N.mod_lt.
  - apply IH; [by apply N.div_lt|by apply N.neq_0_lt_0].
Qed.

(** A number is read back as it was written. *)
Lemma parse_u32_to_string (n : Z) : (0 ≤ n < 2 ^ 32)%Z → parse_u32 (u32_to_string n) = Some n.
Proof.
  intros Hn. unfold u32_to_string, pretty, pretty_N. case_decide as Hz.
  - assert (n = 0)%Z as -> by lia. done.
  - assert (0 < Z.to_N n)%N as Hpos by lia.
    pose proof (read_digits_go (Z.to_N n) "" Hpos ltac:(lia)) as Hr. rewrite Z2N.id in Hr by lia.
    destruct (pretty_go_first (Z.to_N n) "" Hpos) as (d & s' & Hd & Hs). rewrite Hs in *.
    unfold parse_u32. simpl in Hr |- *.
    assert (d = 0 ∨ d = 1 ∨ d = 2 ∨ d = 3 ∨ d = 4 ∨ d = 5 ∨ d = 6 ∨ d = 7 ∨ d = 8 ∨ d = 9)%N
      as Hc by lia.
    by destruct_or!; subst.
Qed.

(** Text without a character *)
Fixpoint lacks (sep : ascii) (s : string) : bool :=
  match s with EmptyString => true | String c s => negb (Ascii.eqb c sep) && lacks sep s end.

Lemma split_at_lacks sep s : lacks sep s = true → split_at sep s = [s].
Proof.
  induction s as [|c s IH]; [done|]. simpl. intros [Hc Hs]%andb_prop.
  apply negb_true_iff in Hc. by rewrite Hc, IH.
Qed.

Lemma split_at_app sep s t :
  lacks sep s = true → split_at sep (s +:+ String sep t) = s :: split_at sep t.
Proof.
  induction s as [|c s IH]; intros Hs.
  - change (split_at sep (String sep t) = EmptyString :: split_at sep t). simpl. 
    by rewrite Ascii.eqb_refl.
  - simpl in Hs. apply andb_prop in Hs as [Hc Hs]. apply negb_true_iff in Hc.
    change (split_at sep (String c (s +:+ String sep t)) = String c s :: split_at sep t).
    cbn [split_at]. by rewrite Hc, IH.
Qed.

Lemma lacks_pretty_go n s : lacks ":" s = true → lacks ":" (pretty_N_go n s) = true.
Proof.
  revert s. induction (N.lt_wf_0 n) as [n _ IH]. intros s Hs.
  destruct (N.eq_dec n 0) as [->|Hn]; [done|]. rewrite pretty_N_go_step by lia.
  apply IH; [apply N.div_lt; lia|]. simpl. rewrite Hs, andb_true_r.
  assert (n mod 10 < 10)%N by (by apply N.mod_lt). revert H. generalize (n mod 10)%N. intros d Hd.
  assert (d = 0 ∨ d = 1 ∨ d = 2 ∨ d = 3 ∨ d = 4 ∨ d = 5 ∨ d = 6 ∨ d = 7 ∨ d = 8 ∨ d = 9)%N
    as Hc by lia.
  by destruct_or!; subst.
Qed.

Lemma u32_to_string_lacks n : lacks ":" (u32_to_string n) = true.
Proof. unfold u32_to_string, pretty, pretty_N. case_decide; [done|]. by apply lacks_pretty_go. Qed.

Lemma u32_to_string_inj n n' :
  (0 ≤ n < 2 ^ 32)%Z → (0 ≤ n' < 2 ^ 32)%Z → u32_to_string n = u32_to_string n' → n = n'.
Proof.
  intros Hn Hn' Heq. apply (f_equal parse_u32) in Heq. rewrite !parse_u32_to_string in Heq by done.
  congruence.
Qed.
