(* ===== verification/Presence.v ===== *)
(** * Presence ([crates/core/presence])

    Which users are online, kept in sets of Redis: the sessions of each user, the users that are
    online, and the sessions of this region, which are cleared when its gateway starts again.
    The operations refine a set of pairs of a user and a session, while Redis accepts their
    commands. Random numbers are drawn by position. *)

From stdpp Require Import base list gmap strings pretty.
From Stdlib Require Import ZArith Lia Ascii.
From S2P Require Import Prelude Decimal Errors Users World Database ChannelOps References Redis Voice.

(** ** Operations *)

Class Region := {
  region_id : Z;
  (** [rng.gen::<u32>()] *)
  random_u32 : nat → Z;
  random_u32_range n : (0 ≤ random_u32 n < 2 ^ 32)%Z
}.

Definition ONLINE_SET : string := "online".
Definition FLAG_BITS : Z := 1.
Definition sessions_key (user_id : string) : string := "sessions:" +:+ user_id.
(** [format!("{user_id}:{session_id}")] *)
Definition region_entry (user_id : string) (session_id : Z) : string :=
  user_id +:+ ":" +:+ u32_to_string session_id.

Section Presence.
Context `{HashIter, Redis, RedisCommands, Region}.

Definition REGION_KEY : string := "region" +:+ u32_to_string region_id.

(** [get_connection().await], and what to do without one *)
Definition with_connection {A} (fallback : A) (m : H A) : H A :=
  now ← clock; if redis_connects now then m else mret fallback.

(** [.expect(..)] *)
Definition expecting {A} (m : H A) : H A :=
  λ w, match m w with (Err _, w) => (Panicked, w) | r => r end.

Definition add_to_set (key value : string) : H unit :=
  attempt (run_commands [Command.SAdd key value]) ;; mret tt.
Definition remove_from_set (key value : string) : H unit :=
  attempt (run_commands [Command.SRem key value]) ;; mret tt.
Definition get_set_members_as_string (key : string) : H (list string) := expecting (smembers key).
Definition get_set_size (key : string) : H nat := expecting (scard key).
Definition delete_key (key : string) : H unit := expecting (run_commands [Command.Del [key]]).

Definition gen_u32 : H Z :=
  λ w, (Ok (random_u32 (World.ulids w)), World.set_ulids w (S (World.ulids w))).

(** A session ID is comprised of random data and any flags ORed to the end *)
Definition session_id_of (random flags : Z) : Z :=
  Z.lor (Z.land random (Z.lxor FLAG_BITS (2 ^ 32 - 1))) (Z.land flags FLAG_BITS).

(** Create a new presence session, returns the ID of this session *)
Definition create_session (user_id : string) (flags : Z) : H (bool * Z) :=
  with_connection (false, 0%Z) (
    size ← get_set_size (sessions_key user_id);
    random ← gen_u32;
    let session_id := session_id_of random flags in
    add_to_set (sessions_key user_id) (u32_to_string session_id) ;;
    add_to_set ONLINE_SET user_id ;;
    add_to_set REGION_KEY (region_entry user_id session_id) ;;
    mret (bool_decide (size = 0), session_id)).

(** Delete existing presence session (but also choose whether to skip region) *)
Definition delete_session_internal (user_id : string) (session_id : Z) (skip_region : bool) : H bool :=
  with_connection false (
    remove_from_set (sessions_key user_id) (u32_to_string session_id) ;;
    (if skip_region then mret tt
     else remove_from_set REGION_KEY (region_entry user_id session_id)) ;;
    size ← get_set_size (sessions_key user_id);
    let is_empty := bool_decide (size = 0) in
    (if is_empty then remove_from_set ONLINE_SET user_id else mret tt) ;;
    mret is_empty).

Definition delete_session (user_id : string) (session_id : Z) : H bool :=
  delete_session_internal user_id session_id false.

(** [EXISTS] of a set *)
Definition exists_set (key : string) : H bool :=
  redis_query (λ _ r, Some (negb (bool_decide (members_of key r.2 = ∅)))).

(** Check whether a given user ID is online *)
Definition is_user_online (user_id : string) : H bool :=
  with_connection false (
    answer ← attempt (exists_set (sessions_key user_id)); mret (default false answer)).

(** [SMISMEMBER] *)
Definition smismember (key : string) (values : list string) : H (list bool) :=
  redis_query (λ _ r, Some ((λ v, bool_decide (v ∈ members_of key r.2)) <$> values)).

(** Check whether a set of users is online (with the feature [redis-is-patched]) *)
Definition filter_online (user_ids : list string) : H (gset string) :=
  match user_ids with
  | [] => mret ∅
  | [user_id] => online ← is_user_online user_id; mret (if (online : bool) then {[user_id]} else ∅)
  | _ =>
      with_connection ∅ (
        data ← expecting (smismember ONLINE_SET user_ids);
        mret (list_to_set (omap (λ ud : string * bool, if ud.2 then Some ud.1 else None)
                             (zip user_ids data))))
  end.

(** The same without the feature *)
Definition filter_online_unpatched (user_ids : list string) : H (gset string) :=
  match user_ids with
  | [] => mret ∅
  | _ =>
      with_connection ∅ (
        members ← attempt (smembers ONLINE_SET);
        mret (list_to_set (default [] members) ∩ list_to_set user_ids))
  end.

(** The user and the session of an entry of a region *)
Definition parse_entry (session : string) : option (string * Z) :=
  match split_at ":"%char session with
  | user_id :: session_id :: _ => session_id ← parse_u32 session_id; Some (user_id, session_id)
  | _ => None
  end.

(** Reset any stale presence data *)
Definition clear_region (region_id : option string) : H unit :=
  let region_id := default REGION_KEY region_id in
  now ← clock;
  if negb (redis_connects now) then panic else
  sessions ← get_set_members_as_string region_id;
  if bool_decide (sessions = []) then mret tt else
  for_each sessions (λ session,
    match parse_entry session with
    | Some (user_id, session_id) => delete_session_internal user_id session_id true ;; mret tt
    | None => mret tt
    end) ;;
  delete_key region_id.
End Presence.

(** ** Entries *)

(** An entry of a region names the user and the session. *)
Lemma parse_region_entry u id :
  lacks ":" u = true → (0 ≤ id < 2 ^ 32)%Z → parse_entry (region_entry u id) = Some (u, id).
Proof.
  intros Hu Hid. unfold parse_entry, region_entry.
  change (u +:+ ":" +:+ u32_to_string id) with (u +:+ String ":" (u32_to_string id)).
  rewrite split_at_app by done. rewrite split_at_lacks by apply u32_to_string_lacks.
  by rewrite parse_u32_to_string.
Qed.

Lemma region_entry_inj u id u' id' :
  lacks ":" u = true → lacks ":" u' = true → (0 ≤ id < 2 ^ 32)%Z → (0 ≤ id' < 2 ^ 32)%Z →
  region_entry u id = region_entry u' id' → u = u' ∧ id = id'.
Proof.
  intros Hu Hu' Hid Hid' Heq. apply (f_equal parse_entry) in Heq.
  rewrite !parse_region_entry in Heq by done. by injection Heq.
Qed.

Lemma sessions_key_inj u u' : sessions_key u = sessions_key u' → u = u'.
Proof. unfold sessions_key. intros Heq. by injection Heq. Qed.

Lemma session_id_of_range random flags :
  (0 ≤ session_id_of random flags < 2 ^ 32)%Z.
Proof.
  assert (Z.land (session_id_of random flags) (Z.ones 32) = session_id_of random flags) as <-.
  { unfold session_id_of. rewrite Z.land_lor_distr_l, <- !Z.land_assoc.
    by change (Z.land (Z.lxor FLAG_BITS (2 ^ 32 - 1)) (Z.ones 32)) with (Z.lxor FLAG_BITS (2 ^ 32 - 1)). }
  rewrite Z.land_ones by lia. apply Z.mod_pos_bound. lia.
Qed.

(** The flags are the last bit of a session's id. *)
Lemma session_id_of_flags random flags :
  Z.land (session_id_of random flags) FLAG_BITS = Z.land flags FLAG_BITS.
Proof.
  unfold session_id_of. rewrite Z.land_lor_distr_l, <- !Z.land_assoc.
  change (Z.land (Z.lxor FLAG_BITS (2 ^ 32 - 1)) FLAG_BITS) with 0%Z.
  by rewrite Z.land_0_r.
Qed.

(** ** What the sets represent *)

Section Refinement.
Context `{HashIter, Redis, RedisCommands, Region}.

(** Redis accepts connections and commands, and answers. *)
Record reliable : Prop := Reliable {
  connects now : redis_connects now = true;
  answers now r : redis_answers now r = true;
  executes c now r : Command.well_formed c = true → (redis_runs [c] now r).1 = true
}.

Abbreviation presences := (gset (string * Z)).

(** The sessions of all users, and those of the region, are in the sets. *)
Record represents_sessions (sessions region : presences) (s : sets) : Prop := Represents {
  rep_plain u id : (u, id) ∈ sessions ∪ region → lacks ":" u = true ∧ (0 ≤ id < 2 ^ 32)%Z;
  rep_sessions u x :
    x ∈ members_of (sessions_key u) s ↔ ∃ id, (u, id) ∈ sessions ∧ x = u32_to_string id;
  rep_online u : u ∈ members_of ONLINE_SET s ↔ ∃ id, (u, id) ∈ sessions;
  rep_region x :
    x ∈ members_of REGION_KEY s ↔ ∃ u id, (u, id) ∈ region ∧ x = region_entry u id
}.

Definition online (sessions : presences) (u : string) : Prop := ∃ id, (u, id) ∈ sessions.

#[global] Instance online_dec sessions u : Decision (online sessions u).
Proof.
  refine (cast_if (decide (∃ x, x ∈ sessions ∧ x.1 = u)));
    [abstract (destruct e as ([u' id] & Hin & <-); by exists id)
    |abstract (intros [id Hin]; apply n; by exists (u, id))].
Defined.

Lemma size_zero_online sessions region s u :
  represents_sessions sessions region s →
  size (members_of (sessions_key u) s) = 0 ↔ ¬ online sessions u.
Proof.
  intros Hr. rewrite size_empty_iff, elem_of_equiv_empty. split.
  - intros He [id Hin]. apply (He (u32_to_string id)). apply Hr. by exists id.
  - intros Hn x [id [Hin _]]%(rep_sessions _ _ _ Hr). apply Hn. by exists id.
Qed.

Lemma region_key_fresh u : REGION_KEY ≠ sessions_key u ∧ REGION_KEY ≠ ONLINE_SET.
Proof. done. Qed.
Lemma online_key_fresh u : ONLINE_SET ≠ sessions_key u.
Proof. done. Qed.

(** *** The sets after a command *)

Definition added (k v : string) (s : sets) : sets := <[k := {[v]} ∪ members_of k s]> s.
Definition removed (k v : string) (s : sets) : sets := <[k := members_of k s ∖ {[v]}]> s.

Definition on_sets (f : sets → sets) (w : World.t) : World.t :=
  World.set_redis_sets w (f (World.redis_sets w)).

Lemma run_one c w :
  reliable → Command.well_formed c = true →
  run_commands [c] w =
    let r := execute (World.now w) (World.redis w, World.redis_sets w) c in
    (Ok tt, World.set_redis_sets (World.set_redis w r.1) r.2).
Proof.
  intros Hrel Hc. unfold run_commands.
  pose proof (executes Hrel c (World.now w) (World.redis w, World.redis_sets w) Hc) as Hok.
  destruct (redis_runs _ _ _) as [ok r] eqn:Hr. simpl in Hok. subst ok.
  apply redis_runs_all in Hr as [_ ->]. done.
Qed.

Lemma add_to_set_runs k v w : reliable → add_to_set k v w = (Ok tt, on_sets (added k v) w).
Proof.
  intros Hrel. unfold add_to_set. rewrite M_bind_unfold. unfold attempt.
  rewrite run_one by done. by destruct w.
Qed.
Lemma remove_from_set_runs k v w : reliable → remove_from_set k v w = (Ok tt, on_sets (removed k v) w).
Proof.
  intros Hrel. unfold remove_from_set. rewrite M_bind_unfold. unfold attempt.
  rewrite run_one by done. by destruct w.
Qed.

Lemma with_connection_runs {A} fallback (m : H A) w : reliable → with_connection fallback m w = m w.
Proof.
  intros Hrel. unfold with_connection. rewrite M_bind_unfold. simpl. by rewrite (connects Hrel).
Qed.

Lemma query_runs {A} (f : Z → store * sets → option A) a w :
  reliable → f (World.now w) (World.redis w, World.redis_sets w) = Some a →
  redis_query f w = (Ok a, w).
Proof.
  intros Hrel Hf. unfold redis_query, connection. rewrite !M_bind_unfold. simpl.
  rewrite (connects Hrel). cbn [mret M_ret]. rewrite M_bind_unfold. unfold gets, lift. simpl.
  by rewrite (answers Hrel), Hf.
Qed.

Lemma members_added k v s k' :
  members_of k' (added k v s) = if bool_decide (k = k') then {[v]} ∪ members_of k s else members_of k' s.
Proof. apply members_of_insert. Qed.
Lemma members_removed k v s k' :
  members_of k' (removed k v s) = if bool_decide (k = k') then members_of k s ∖ {[v]} else members_of k' s.
Proof. apply members_of_insert. Qed.

(** *** Each operation on the sets *)

Lemma represents_create sessions region u id s :
  represents_sessions sessions region s → lacks ":" u = true → (0 ≤ id < 2 ^ 32)%Z →
  represents_sessions ({[(u, id)]} ∪ sessions) ({[(u, id)]} ∪ region)
    (added REGION_KEY (region_entry u id)
       (added ONLINE_SET u (added (sessions_key u) (u32_to_string id) s))).
Proof.
  intros Hr Hu Hid. destruct (region_key_fresh u) as [Hk1 Hk2]. split.
  - intros u' id' Hin. destruct (decide ((u', id') = (u, id))) as [[= -> ->]|Hne]; [done|].
    apply (rep_plain _ _ _ Hr). set_solver.
  - intros u' x. destruct (region_key_fresh u') as [Hk3 _]. pose proof (online_key_fresh u') as Hk4.
    rewrite members_added, bool_decide_false, members_added, bool_decide_false, members_added by done.
    case_bool_decide as Hk.
    + apply sessions_key_inj in Hk as ->. rewrite elem_of_union, elem_of_singleton, (rep_sessions _ _ _ Hr).
      split; [intros [->|(id' & Hin & ->)]; eexists; (split; [|done]); set_solver|].
      intros (id' & [Hin|Hin]%elem_of_union & ->); [left; set_solver|right; by exists id'].
    + rewrite (rep_sessions _ _ _ Hr). split; intros (id' & Hin & ->); exists id'; (split; [|done]).
      * set_solver.
      * apply elem_of_union in Hin as [[= -> ->]%elem_of_singleton|Hin]; [by destruct Hk|done].
  - intros u'. rewrite members_added, bool_decide_false, members_added, bool_decide_true by done.
    rewrite members_added, bool_decide_false, elem_of_union, elem_of_singleton, (rep_online _ _ _ Hr) by done.
    split.
    + intros [->|[id' Hin]]; [exists id|exists id']; set_solver.
    + intros (id' & [[= -> ->]%elem_of_singleton|Hin]%elem_of_union); [by left|right; by exists id'].
  - intros x. rewrite members_added, bool_decide_true, members_added, bool_decide_false by done.
    rewrite members_added, bool_decide_false, elem_of_union, elem_of_singleton, (rep_region _ _ _ Hr) by done.
    split.
    + intros [->|(u' & id' & Hin & ->)]; eexists _, _; (split; [|done]); set_solver.
    + intros (u' & id' & [[= -> ->]%elem_of_singleton|Hin]%elem_of_union & ->); [by left|].
      right. by exists u', id'.
Qed.

Definition deleted (u : string) (id : Z) (skip_region : bool) (s : sets) : sets :=
  let s := removed (sessions_key u) (u32_to_string id) s in
  let s := if skip_region then s else removed REGION_KEY (region_entry u id) s in
  if bool_decide (size (members_of (sessions_key u) s) = 0) then removed ONLINE_SET u s else s.

Lemma represents_delete (sessions region : presences) u id (skip_region : bool) s :
  represents_sessions sessions region s → lacks ":" u = true → (0 ≤ id < 2 ^ 32)%Z →
  represents_sessions (sessions ∖ {[(u, id)]}) (if skip_region then region else region ∖ {[(u, id)]})
    (deleted u id skip_region s) ∧
  ∀ s', s' = (let s := removed (sessions_key u) (u32_to_string id) s in
              if skip_region then s else removed REGION_KEY (region_entry u id) s) →
    (size (members_of (sessions_key u) s') = 0 ↔ ¬ online (sessions ∖ {[(u, id)]}) u).
Proof.
  intros Hr Hu Hid. destruct (region_key_fresh u) as [Hk1 Hk2].
  set (s1 := removed (sessions_key u) (u32_to_string id) s).
  set (s2 := if skip_region then s1 else removed REGION_KEY (region_entry u id) s1).
  assert (∀ u' x, x ∈ members_of (sessions_key u') s2 ↔
            ∃ id', (u', id') ∈ sessions ∖ {[(u, id)]} ∧ x = u32_to_string id') as Hs2.
  { intros u' x. assert (members_of (sessions_key u') s2 = members_of (sessions_key u') s1) as ->.
    { unfold s2. destruct skip_region; [done|]. by rewrite members_removed, bool_decide_false. }
    unfold s1. rewrite members_removed. case_bool_decide as Hk.
    - apply sessions_key_inj in Hk as <-.
      rewrite elem_of_difference, elem_of_singleton, (rep_sessions _ _ _ Hr). split.
      + intros [(id' & Hin & ->) Hne]. exists id'. split; [|done]. set_solver.
      + intros (id' & [Hin Hne]%elem_of_difference & ->). split; [by exists id'|].
        intros Heq. apply u32_to_string_inj in Heq as ->; [set_solver| |done].
        apply (rep_plain _ _ _ Hr u). set_solver.
    - rewrite (rep_sessions _ _ _ Hr). split; intros (id' & Hin & ->); exists id'; (split; [|done]);
        set_solver. }
  assert (size (members_of (sessions_key u) s2) = 0 ↔ ¬ online (sessions ∖ {[(u, id)]}) u) as Hsize.
  { rewrite size_empty_iff, elem_of_equiv_empty. split.
    - intros He [id' Hin]. apply (He (u32_to_string id')). apply Hs2. by exists id'.
    - intros Hn x (id' & Hin & _)%Hs2. apply Hn. by exists id'. }
  split; [|by intros ? ->].
  assert (∀ u', u' ∈ members_of ONLINE_SET s2 ↔ online sessions u') as Ho2.
  { intros u'. assert (members_of ONLINE_SET s2 = members_of ONLINE_SET s) as ->.
    { unfold s2, s1. destruct skip_region; rewrite ?members_removed, ?bool_decide_false; done. }
    apply Hr. }
  assert (∀ k, k ≠ ONLINE_SET → members_of k (deleted u id skip_region s) = members_of k s2) as Hother.
  { intros k Hk. unfold deleted. fold s1. fold s2. case_bool_decide; [|done].
    by rewrite members_removed, bool_decide_false. }
  split.
  - intros u' id' Hin. apply (rep_plain _ _ _ Hr). destruct skip_region; set_solver.
  - intros u' x. rewrite Hother by (intros Heq; by apply (online_key_fresh u')). apply Hs2.
  - intros u'. unfold deleted. fold s1. fold s2.
    assert (u' ≠ u → online sessions u' ↔ ∃ id', (u', id') ∈ sessions ∖ {[(u, id)]}) as Hne.
    { intros Hne. unfold online. split; intros [id' Hin]; exists id'; set_solver. }
    case_bool_decide as Hz.
    + rewrite members_removed, bool_decide_true, elem_of_difference, elem_of_singleton, Ho2 by done.
      apply Hsize in Hz. destruct (decide (u' = u)) as [->|Hu']; [|rewrite Hne by done; tauto].
      split; [by intros [_ []]|]. intros Hin. by destruct Hz.
    + rewrite Ho2. destruct (decide (u' = u)) as [->|Hu']; [|by apply Hne].
      rewrite Hsize in Hz. apply dec_stable in Hz. split; [done|]. intros _.
      destruct Hz as [id' Hin]. exists id'. set_solver.
  - intros x. rewrite Hother by done. unfold s2, s1. destruct skip_region.
    + rewrite members_removed, bool_decide_false by done. apply Hr.
    + rewrite members_removed, bool_decide_true, members_removed, bool_decide_false by done.
      rewrite elem_of_difference, elem_of_singleton, (rep_region _ _ _ Hr). split.
      * intros [(u' & id' & Hin & ->) Hx]. exists u', id'. split; [|done]. set_solver.
      * intros (u' & id' & [Hin Hx]%elem_of_difference & ->). split; [by exists u', id'|].
        intros Heq. destruct (rep_plain _ _ _ Hr u' id') as [Hp Hp']; [set_solver|].
        apply region_entry_inj in Heq as [-> ->]; [set_solver|done..].
Qed.

(** *** The operations *)

Lemma get_set_size_runs k w :
  reliable → get_set_size k w = (Ok (size (members_of k (World.redis_sets w))), w).
Proof. intros Hrel. unfold get_set_size, expecting, scard. by erewrite query_runs. Qed.

Lemma create_session_runs sessions region u flags w :
  reliable → represents_sessions sessions region (World.redis_sets w) → lacks ":" u = true →
  ∃ id w', create_session u flags w = (Ok (bool_decide (¬ online sessions u), id), w') ∧
    (0 ≤ id < 2 ^ 32)%Z ∧ Z.land id FLAG_BITS = Z.land flags FLAG_BITS ∧
    represents_sessions ({[(u, id)]} ∪ sessions) ({[(u, id)]} ∪ region) (World.redis_sets w').
Proof.
  intros Hrel Hr Hu. unfold create_session. rewrite with_connection_runs by done.
  rewrite M_bind_unfold, get_set_size_runs by done. rewrite M_bind_unfold. unfold gen_u32.
  set (id := session_id_of _ flags). rewrite M_bind_unfold, add_to_set_runs by done.
  rewrite M_bind_unfold, add_to_set_runs by done. rewrite M_bind_unfold, add_to_set_runs by done.
  eexists id, _. split; [|split; [|split]].
  - unfold mret, M_ret. do 2 f_equal. f_equal. apply bool_decide_ext. by eapply size_zero_online.
  - apply session_id_of_range.
  - apply session_id_of_flags.
  - apply represents_create; [done|done|apply session_id_of_range].
Qed.

Lemma delete_session_runs sessions region u id skip_region w :
  reliable → represents_sessions sessions region (World.redis_sets w) → lacks ":" u = true →
  (0 ≤ id < 2 ^ 32)%Z →
  delete_session_internal u id skip_region w =
    (Ok (bool_decide (¬ online (sessions ∖ {[(u, id)]}) u)),
     on_sets (deleted u id skip_region) w).
Proof.
  intros Hrel Hr Hu Hid. unfold delete_session_internal. rewrite with_connection_runs by done.
  rewrite M_bind_unfold, remove_from_set_runs by done.
  destruct (represents_delete sessions region u id skip_region _ Hr Hu Hid) as [_ Hsize].
  set (s1 := removed (sessions_key u) (u32_to_string id) (World.redis_sets w)) in *.
  set (s2 := if skip_region then s1 else removed REGION_KEY (region_entry u id) s1) in *.
  assert ((if skip_region then mret tt else remove_from_set REGION_KEY (region_entry u id))
            (on_sets (removed (sessions_key u) (u32_to_string id)) w) =
          (Ok tt, World.set_redis_sets w s2)) as Hstep.
  { unfold s2. destruct skip_region; [done|]. by rewrite remove_from_set_runs. }
  rewrite M_bind_unfold, Hstep. rewrite M_bind_unfold, get_set_size_runs by done.
  cbn [World.redis_sets World.set_redis_sets].
  specialize (Hsize s2 eq_refl). rewrite M_bind_unfold. unfold on_sets, deleted. fold s1. fold s2.
  rewrite (bool_decide_ext _ _ Hsize). case_bool_decide; [|done].
  by rewrite remove_from_set_runs.
Qed.

(** Deleting the sessions of a list, each by its entry *)
Lemma clear_runs (l : list string) sessions region w :
  reliable → represents_sessions sessions region (World.redis_sets w) →
  (∀ x, x ∈ l → ∃ u id, (u, id) ∈ region ∧ x = region_entry u id) →
  ∃ w', for_each l (λ session,
    match parse_entry session with
    | Some (user_id, session_id) => delete_session_internal user_id session_id true ;; mret tt
    | None => mret tt
    end) w = (Ok tt, w') ∧
    represents_sessions (filter (λ x, region_entry x.1 x.2 ∉ l) sessions) region (World.redis_sets w').
Proof.
  intros Hrel. revert sessions w. induction l as [|x l IH]; intros sessions w Hr Hl; simpl.
  - exists w. split; [done|].
    match goal with |- represents_sessions ?S _ _ => assert (S = sessions) as -> end.
    { apply set_eq. intros y. rewrite elem_of_filter. split; [by intros []|].
      intros Hy. split; [|done]. apply not_elem_of_nil. }
    done.
  - destruct (Hl x) as (u & id & Hin & ->); [left|].
    destruct (rep_plain _ _ _ Hr u id) as [Hu Hid]; [set_solver|].
    rewrite M_bind_unfold, parse_region_entry by done.
    rewrite M_bind_unfold, (delete_session_runs sessions region u id true w) by done.
    destruct (represents_delete sessions region u id true _ Hr Hu Hid) as [Hr' _].
    destruct (IH (sessions ∖ {[(u, id)]}) (on_sets (deleted u id true) w)) as (w' & Hw' & Hrep).
    { exact Hr'. }
    { intros y Hy. apply Hl. by right. }
    exists w'. split; [exact Hw'|].
    match goal with |- represents_sessions ?S _ _ =>
      assert (S = filter (λ x, region_entry x.1 x.2 ∉ l) (sessions ∖ {[(u, id)]})) as ->; [|done] end.
    apply set_eq. intros [u' id']. rewrite !elem_of_filter, elem_of_difference, elem_of_singleton.
    simpl. rewrite not_elem_of_cons. split.
    + intros [[Hne Hnl] Hs]. split_and!; [done..|]. by intros [= -> ->].
    + intros [Hnl [Hs Hne]]. split_and!; [|done..]. intros Heq.
      destruct (rep_plain _ _ _ Hr u' id') as [Hu' Hid']; [set_solver|].
      by apply region_entry_inj in Heq as [-> ->].
Qed.

Lemma is_user_online_runs sessions region u w :
  reliable → represents_sessions sessions region (World.redis_sets w) →
  is_user_online u w = (Ok (bool_decide (online sessions u)), w).
Proof.
  intros Hrel Hr. unfold is_user_online. rewrite with_connection_runs by done.
  rewrite M_bind_unfold. unfold attempt, exists_set.
  erewrite (query_runs _ (negb (bool_decide (members_of (sessions_key u) (World.redis_sets w) = ∅))))
    by done.
  unfold mret, M_ret. simpl. do 2 f_equal. rewrite <- bool_decide_not. apply bool_decide_ext.
  pose proof (size_zero_online _ _ _ u Hr) as Hs. rewrite size_empty_iff in Hs. unfold_leibniz.
  rewrite Hs. split; [apply dec_stable|]. tauto.
Qed.

Definition online_among (sessions : presences) (user_ids : list string) : gset string :=
  filter (online sessions) (list_to_set user_ids).

Lemma keep_flagged (f : string → bool) (l : list string) :
  omap (λ ud : string * bool, if ud.2 then Some ud.1 else None) (zip l (f <$> l)) = List.filter f l.
Proof. induction l as [|x l IH]; [done|]. csimpl. destruct (f x); csimpl; by rewrite IH. Qed.

Lemma filter_online_runs sessions region user_ids w :
  reliable → represents_sessions sessions region (World.redis_sets w) →
  filter_online user_ids w = (Ok (online_among sessions user_ids), w).
Proof.
  intros Hrel Hr. unfold filter_online, online_among.
  destruct user_ids as [|u [|u' user_ids]]; [done| |].
  - rewrite M_bind_unfold, (is_user_online_runs sessions region u w) by done.
    unfold mret, M_ret. do 2 f_equal. simpl. rewrite (right_id_L ∅ (∪)).
    case_bool_decide as Ho.
    + apply set_eq. intros x. rewrite elem_of_filter, elem_of_singleton. split; [|tauto].
      intros ->. by split.
    + apply set_eq. intros x. rewrite elem_of_filter, elem_of_singleton. split; [set_solver|].
      by intros [? ->].
  - generalize (u :: u' :: user_ids). intros l. rewrite with_connection_runs by done.
    rewrite M_bind_unfold. unfold expecting, smismember. erewrite query_runs by done. cbn beta iota.
    change (World.redis w, World.redis_sets w).2 with (World.redis_sets w).
    unfold mret, M_ret. do 2 f_equal. apply set_eq. intros x.
    rewrite elem_of_list_to_set, elem_of_filter, elem_of_list_to_set.
    rewrite keep_flagged.
    rewrite list_elem_of_In, filter_In, <- list_elem_of_In, bool_decide_eq_true, (rep_online _ _ _ Hr).
    tauto.
Qed.

(** Both ways of asking who is online answer the same. *)
Lemma filter_online_unpatched_runs sessions region user_ids w :
  reliable → represents_sessions sessions region (World.redis_sets w) →
  filter_online_unpatched user_ids w = (Ok (online_among sessions user_ids), w).
Proof.
  intros Hrel Hr. unfold filter_online_unpatched, online_among.
  destruct user_ids as [|u user_ids]; [done|]. rewrite with_connection_runs by done.
  rewrite M_bind_unfold. unfold attempt, smembers. erewrite query_runs by done.
  unfold mret, M_ret. simpl. do 2 f_equal. apply set_eq. intros x.
  rewrite elem_of_intersection, elem_of_filter, elem_of_list_to_set.
  destruct (hash_set_iter_spec (members_of ONLINE_SET (World.redis_sets w))) as (_ & Hin & _).
  by rewrite Hin, (rep_online _ _ _ Hr).
Qed.

(** *** The specification *)

Inductive presence_op : Type :=
| Create (user_id : string) (flags : Z)
| Delete (user_id : string) (session_id : Z)
| IsOnline (user_id : string)
| FilterOnline (user_ids : list string)
| ClearRegion.

Inductive answer : Type :=
| Created (first_session : bool) (session_id : Z)
| Deleted (last_session : bool)
| Is (online : bool)
| Who (online : gset string)
| Cleared.

Definition run_presence (o : presence_op) : H answer :=
  match o with
  | Create u flags => r ← create_session u flags; mret (Created r.1 r.2)
  | Delete u id => r ← delete_session u id; mret (Deleted r)
  | IsOnline u => r ← is_user_online u; mret (Is r)
  | FilterOnline us => r ← filter_online us; mret (Who r)
  | ClearRegion => clear_region None ;; mret Cleared
  end.

Definition presence_op_wf (o : presence_op) : Prop :=
  match o with
  | Create u _ => lacks ":" u = true
  | Delete u id => lacks ":" u = true ∧ (0 ≤ id < 2 ^ 32)%Z
  | _ => True
  end.

(** What each operation answers and does to the sessions of all users and of the region. An id
    is drawn that ends in the flags; nothing says that it is new. *)
Inductive presence_step (sessions region : presences) :
    presence_op → answer → presences → presences → Prop :=
| step_create u flags id :
    (0 ≤ id < 2 ^ 32)%Z → Z.land id FLAG_BITS = Z.land flags FLAG_BITS →
    presence_step sessions region (Create u flags)
      (Created (bool_decide (¬ online sessions u)) id)
      ({[(u, id)]} ∪ sessions) ({[(u, id)]} ∪ region)
| step_delete u id :
    presence_step sessions region (Delete u id)
      (Deleted (bool_decide (¬ online (sessions ∖ {[(u, id)]}) u)))
      (sessions ∖ {[(u, id)]}) (region ∖ {[(u, id)]})
| step_is_online u :
    presence_step sessions region (IsOnline u) (Is (bool_decide (online sessions u))) sessions region
| step_filter_online us :
    presence_step sessions region (FilterOnline us) (Who (online_among sessions us)) sessions region
| step_clear_region :
    presence_step sessions region ClearRegion Cleared (sessions ∖ region) ∅.

Lemma clear_region_runs sessions region w :
  reliable → represents_sessions sessions region (World.redis_sets w) →
  ∃ w', clear_region None w = (Ok tt, w') ∧
    represents_sessions (sessions ∖ region) ∅ (World.redis_sets w').
Proof.
  intros Hrel Hr. unfold clear_region. simpl. rewrite M_bind_unfold. simpl. rewrite (connects Hrel).
  simpl. rewrite M_bind_unfold.
  assert (get_set_members_as_string REGION_KEY w =
            (Ok (hash_set_iter (members_of REGION_KEY (World.redis_sets w))), w)) as ->.
  { unfold get_set_members_as_string, expecting, smembers. by erewrite query_runs. }
  destruct (hash_set_iter_spec (members_of REGION_KEY (World.redis_sets w))) as (_ & Hin & _).
  set (l := hash_set_iter _) in *.
  assert (∀ u id, (u, id) ∈ sessions ∪ region → region_entry u id ∈ l ↔ (u, id) ∈ region) as Hl.
  { intros u id Hx. destruct (rep_plain _ _ _ Hr u id Hx) as [Hu Hid].
    rewrite Hin, (rep_region _ _ _ Hr). split; [|by exists u, id].
    intros (u' & id' & Hin' & Heq).
    destruct (rep_plain _ _ _ Hr u' id') as [Hu' Hid']; [set_solver|].
    by apply region_entry_inj in Heq as [-> ->]. }
  case_bool_decide as Hnil.
  - exists w. split; [done|].
    assert (∀ x, x ∉ region) as Hempty.
    { intros [u id] Hx. rewrite <- Hl in Hx by set_solver. rewrite Hnil in Hx.
      by apply elem_of_nil in Hx. }
    assert (region = ∅) as -> by (apply set_eq; set_solver).
    by rewrite difference_empty_L.
  - destruct (clear_runs l sessions region w Hrel Hr) as (w1 & Hw1 & Hr1).
    { intros x. by rewrite Hin, (rep_region _ _ _ Hr). }
    rewrite M_bind_unfold, Hw1. unfold delete_key, expecting. rewrite run_one by done.
    eexists. split; [done|]. cbn [execute snd fst World.redis_sets World.set_redis_sets foldr].
    match type of Hr1 with represents_sessions ?S _ _ =>
      assert (S = sessions ∖ region) as Heq end.
    { apply set_eq. intros [u id]. rewrite elem_of_filter, elem_of_difference. simpl. split.
      - intros [Hn Hs]. split; [done|]. by rewrite <- Hl by set_solver.
      - intros [Hs Hn]. split; [|done]. by rewrite Hl by set_solver. }
    rewrite Heq in Hr1. destruct Hr1 as [Hp Hs Ho _].
    split.
    + intros u id Hx. apply Hp. set_solver.
    + intros u x. rewrite members_of_delete, bool_decide_false by apply region_key_fresh. apply Hs.
    + intros u. rewrite members_of_delete, bool_decide_false by apply (region_key_fresh u). apply Ho.
    + intros x. rewrite members_of_delete, bool_decide_true by done. split; [set_solver|].
      intros (u & id & Hx & _). set_solver.
Qed.

(** C34: While Redis accepts connections and commands, presence is what it means: every operation
    succeeds and answers for the set of sessions that the sets of Redis hold. Creating a session
    says whether the user had none and draws an id that ends in the flags; deleting one says
    whether the user has none left; a user is online exactly while there is a session; and
    clearing the region ends the sessions of the region and no others. *)
Theorem presence_refines (o : presence_op) (sessions region : presences) (w : World.t) :
  reliable → represents_sessions sessions region (World.redis_sets w) → presence_op_wf o →
  ∃ a sessions' region' w', run_presence o w = (Ok a, w') ∧
    presence_step sessions region o a sessions' region' ∧
    represents_sessions sessions' region' (World.redis_sets w').
Proof.
  intros Hrel Hr Hwf. destruct o as [u flags|u id|u|us|]; simpl in Hwf |- *.
  - destruct (create_session_runs sessions region u flags w Hrel Hr Hwf)
      as (id & w' & Hrun & Hid & Hflags & Hr').
    eexists _, _, _, w'. rewrite M_bind_unfold, Hrun. split; [done|]. by split; [constructor|].
  - destruct Hwf as [Hu Hid]. eexists _, _, _, _. unfold delete_session.
    rewrite M_bind_unfold, (delete_session_runs sessions region u id false w) by done.
    split; [done|]. split; [constructor|]. by apply (represents_delete sessions region u id false).
  - eexists _, _, _, w. rewrite M_bind_unfold, (is_user_online_runs sessions region) by done.
    split; [done|]. by split; [constructor|].
  - eexists _, _, _, w. rewrite M_bind_unfold, (filter_online_runs sessions region) by done.
    split; [done|]. by split; [constructor|].
  - destruct (clear_region_runs sessions region w Hrel Hr) as (w' & Hrun & Hr').
    eexists _, _, _, w'. rewrite M_bind_unfold, Hrun. split; [done|]. by split; [constructor|].
Qed.
End Refinement.

(** ** Examples *)

Module PresenceSample.
#[local] Existing Instance canonical_iter.
#[local] Existing Instance Store.reliable.
#[local] Existing Instance VoiceInstances.commands.

Lemma zero_range (n : nat) : (0 ≤ 0 < 2 ^ 32)%Z.
Proof. done. Qed.
#[local] Instance region : Region := Build_Region 0 (λ _, 0%Z) zero_range.

Lemma store_reliable : reliable.
Proof.
  split; [done..|]. intros c now r Hc. simpl. unfold VoiceInstances.runs. simpl. by rewrite Hc.
Qed.

Lemma nobody_online : represents_sessions ∅ ∅ (World.redis_sets World.empty).
Proof.
  assert (∀ k x, x ∈ members_of k (World.redis_sets World.empty) ↔ False) as He.
  { intros k x. unfold members_of. simpl. rewrite lookup_empty. simpl. set_solver. }
  split.
  - intros u id Hin. set_solver.
  - intros u x. rewrite He. split; [done|]. by intros (id & Hin%elem_of_empty & _).
  - intros u. rewrite He. split; [done|]. by intros (id & Hin%elem_of_empty).
  - intros x. rewrite He. split; [done|]. by intros (u & id & Hin%elem_of_empty & _).
Qed.

Lemma presence_refines_witness :
  ∃ a sessions' region' w', run_presence (Create "U" 1) World.empty = (Ok a, w') ∧
    presence_step ∅ ∅ (Create "U" 1) a sessions' region' ∧
    represents_sessions sessions' region' (World.redis_sets w').
Proof.
  apply (presence_refines (Create "U" 1) ∅ ∅ World.empty store_reliable nobody_online).
  reflexivity.
Defined.

(** Two sessions that draw the same number are one: when the first ends, the user is said to be
    offline though the second is still there. *)
Lemma session_ids_collide :
  let twice := run_presence (Create "U" 0) (run_presence (Create "U" 0) World.empty).2 in
  twice.1 = Ok (Created false 0) ∧
  (run_presence (Delete "U" 0) twice.2).1 = Ok (Deleted true).
Proof. vm_compute. done. Qed.
End PresenceSample.
