(* ===== verification/Coalesced.v ===== *)
(** * The coalescing service ([crates/core/coalesced])

    Tasks that ask for the same id at the same time share one execution. Each lock of the service
    is taken for one step; between two steps other tasks may run, and a task may be dropped where
    it waits. [advance] is what a task does in its next step; a run interleaves the steps of any
    tasks. The cache, a feature that is switched off in every user of the crate, is not
    modelled. *)

From stdpp Require Import base list gmap strings.
From Stdlib Require Import Lia.
From S2P Require Import Prelude.

Module CoalescionError.
Inductive t : Type := RecvError | MaxConcurrent | MaxQueue | DowncastError.
#[global] Instance t_eq_dec : EqDecision t.
Proof. solve_decision. Defined.
End CoalescionError.

Module CoalescionServiceConfig.
Record t : Type := mk {
  max_concurrent : option nat;
  queue_requests : bool;
  max_queue : option nat
}.
Definition default : t := mk (Some 100) true (Some 100).
End CoalescionServiceConfig.

Section Service.
Context {Id V : Type} `{Countable Id}.
Context (config : CoalescionServiceConfig.t).

(** [Arc<dyn Any + Send + Sync>]: a value and its type *)
Record Any : Type := mk_any { any_type : string; any_value : V }.

Inductive response : Type := Good (value : Any) | Bad (e : CoalescionError.t).

(** [Arc::downcast] of what was received *)
Definition downcast (wanted : string) (r : response) : response :=
  match r with
  | Good value =>
      if bool_decide (any_type value = wanted) then r else Bad CoalescionError.DowncastError
  | Bad _ => r
  end.

(** A [watch] channel: the id it is for, what was sent, and whether its sender is alive *)
Record channel : Type := mk_channel { about : Id; sent : option response; alive : bool }.

(** Where a task is. [Calling] and [Called] hold the channel of the execution; a task that was
    queued has one of its own, for those who found it in the queue. *)
Inductive place : Type :=
| Start
| Looked (receiver : option nat) (length : nat)
| Waiting (receiver : nat)
| Inserting (mine : option nat)
| Calling (execution : nat) (mine : option nat)
| Called (execution : nat) (value : Any) (mine : option nat)
| LookedQueue (receiver : option nat) (length : nat)
| Queued (mine : nat)
| Free (mine : nat)
| First (mine : nat)
| Done (r : response)
| Dropped.

Record task : Type := mk_task { task_id : Id; task_type : string; at_ : place }.

Record service : Type := mk_service {
  watchers : gmap Id nat;
  queue : list (Id * nat);
  channels : list channel;
  tasks : list task;
  (** what functions returned, and for which id; kept for the statements *)
  returned : list (Id * Any)
}.

Definition put (t : nat) (p : place) (s : service) : service :=
  mk_service (watchers s) (queue s) (channels s)
    (alter (λ k, mk_task (task_id k) (task_type k) p) t (tasks s)) (returned s).
Definition set_watchers (s : service) x : service :=
  mk_service x (queue s) (channels s) (tasks s) (returned s).
Definition set_queue (s : service) x : service :=
  mk_service (watchers s) x (channels s) (tasks s) (returned s).
Definition set_channels (s : service) x : service :=
  mk_service (watchers s) (queue s) x (tasks s) (returned s).

(** [watch_channel(None)]: the new channel is the last *)
Definition open_channel (id : Id) (s : service) : service :=
  set_channels s (channels s ++ [mk_channel id None true]).

(** [send.send_modify(|opt| opt.replace(..))] *)
Definition send_to (c : nat) (r : response) (s : service) : service :=
  set_channels s (alter (λ ch, mk_channel (about ch) (Some r) (alive ch)) c (channels s)).

(** The sender goes out of scope. *)
Definition close_channel (c : nat) (s : service) : service :=
  set_channels s (alter (λ ch, mk_channel (about ch) (sent ch) false) c (channels s)).

(** [IndexMap::insert]: a key that is there keeps its place *)
Fixpoint index_insert (id : Id) (c : nat) (q : list (Id * nat)) : list (Id * nat) :=
  match q with
  | [] => [(id, c)]
  | (id', c') :: q => if decide (id = id') then (id, c) :: q else (id', c') :: index_insert id c q
  end.
Definition index_get (id : Id) (q : list (Id * nat)) : option nat :=
  snd <$> List.find (λ kc, bool_decide (kc.1 = id)) q.
(** [IndexMap::shift_remove] *)
Definition shift_remove (id : Id) (q : list (Id * nat)) : list (Id * nat) :=
  List.filter (λ kc, negb (bool_decide (kc.1 = id))) q.

(** What a receiver has got; [None] while there is nothing *)
Definition received (c : nat) (s : service) : option response :=
  match channels s !! c with
  | Some ch =>
      match sent ch with
      | Some r => Some r
      | None => if alive ch then None else Some (Bad CoalescionError.RecvError)
      end
  | None => None
  end.

(** The response is given to those who found the task in the queue, and returned. *)
Definition respond (t : nat) (r : response) (mine : option nat) (s : service) : service :=
  put t (Done r)
    (match mine with Some c => close_channel c (send_to c r s) | None => s end).

(** The next step of a task; [value] is what its function returns if it does so in this step. A
    task that waits for what is not there does not move. *)
Definition advance (t : nat) (value : V) (s : service) : service :=
  match tasks s !! t with
  | None => s
  | Some k =>
      let id := task_id k in
      match at_ k with
      | Start => put t (Looked (watchers s !! id) (size (watchers s))) s
      | Looked (Some receiver) _ => put t (Waiting receiver) s
      | Looked None length =>
          match CoalescionServiceConfig.max_concurrent config with
          | Some max_concurrent =>
              if max_concurrent <=? length then
                if CoalescionServiceConfig.queue_requests config
                then put t (LookedQueue (index_get id (queue s)) (base.length (queue s))) s
                else put t (Done (Bad CoalescionError.MaxConcurrent)) s
              else put t (Inserting None) s
          | None => put t (Inserting None) s
          end
      | Waiting receiver =>
          match received receiver s with
          | Some r => put t (Done (downcast (task_type k) r)) s
          | None => s
          end
      | Inserting mine =>
          let execution := length (channels s) in
          put t (Calling execution mine)
            (set_watchers (open_channel id s) (<[id := execution]> (watchers s)))
      | Calling execution mine =>
          let value := mk_any (task_type k) value in
          put t (Called execution value mine)
            (let s := send_to execution (Good value) s in
             mk_service (watchers s) (queue s) (channels s) (tasks s) ((id, value) :: returned s))
      | Called execution value mine =>
          respond t (Good value) mine
            (close_channel execution (set_watchers s (delete id (watchers s))))
      | LookedQueue (Some receiver) _ => put t (Waiting receiver) s
      | LookedQueue None length =>
          if match CoalescionServiceConfig.max_queue config with
             | Some max_queue => length <=? max_queue
             | None => false
             end
          then put t (Done (Bad CoalescionError.MaxQueue)) s
          else
            let mine := base.length (channels s) in
            put t (Queued mine) (set_queue (open_channel id s) (index_insert id mine (queue s)))
      | Queued mine =>
          match CoalescionServiceConfig.max_concurrent config with
          | Some max_concurrent =>
              if size (watchers s) <? max_concurrent then put t (Free mine) s else s
          | None => s
          end
      | Free mine =>
          put t (if bool_decide (fst <$> head (queue s) = Some id) then First mine
                 else Queued mine) s
      | First mine => put t (Inserting (Some mine)) (set_queue s (shift_remove id (queue s)))
      | Done _ | Dropped => s
      end
  end.

(** A task is dropped where it waits: its senders go with it, and what it put in the maps
    stays. *)
Definition drop_task (t : nat) (s : service) : service :=
  match at_ <$> tasks s !! t with
  | Some (Calling execution mine) | Some (Called execution _ mine) =>
      put t Dropped
        (match mine with
         | Some c => close_channel c (close_channel execution s)
         | None => close_channel execution s
         end)
  | Some (Queued mine) | Some (Free mine) | Some (First mine) | Some (Inserting (Some mine)) =>
      put t Dropped (close_channel mine s)
  | Some (Done _) | None => s
  | Some _ => put t Dropped s
  end.

(** A new task *)
Definition arrive (id : Id) (type : string) (s : service) : service :=
  mk_service (watchers s) (queue s) (channels s) (tasks s ++ [mk_task id type Start]) (returned s).

Definition idle : service := mk_service ∅ [] [] [] [].

Inductive event : Type :=
| Arrive (id : Id) (type : string)
| Advance (t : nat) (value : V)
| Drop (t : nat).

Definition happen (s : service) (e : event) : service :=
  match e with
  | Arrive id type => arrive id type s
  | Advance t value => advance t value s
  | Drop t => drop_task t s
  end.
Definition run (events : list event) : service := fold_left happen events idle.

(** [current_task_count] and [current_queue_len] *)
Definition current_task_count (s : service) : nat := size (watchers s).
Definition current_queue_len (s : service) : nat := length (queue s).
End Service.
Arguments Any V : clear implicits.
Arguments response V : clear implicits.
Arguments place V : clear implicits.
Arguments task Id V : clear implicits.
Arguments channel Id V : clear implicits.
Arguments service Id V {_ _}.

(** ** What is always so *)

Section Invariants.
Context {Id V : Type} `{Countable Id}.
Context (config : CoalescionServiceConfig.t).
Implicit Types (s : service Id V) (k : task Id V).

Definition is_about s (c : nat) (id : Id) : Prop :=
  ∃ ch, channels s !! c = Some ch ∧ about ch = id.

Definition maybe_about s (c : option nat) (id : Id) : Prop :=
  match c with Some c => is_about s c id | None => True end.

(** A task is where channels for its id are, and has what was returned for its id. *)
Definition placed s k : Prop :=
  let id := task_id k in
  match at_ k with
  | Start | Dropped | Done (Bad _) => True
  | Looked receiver _ | LookedQueue receiver _ => maybe_about s receiver id
  | Waiting receiver => is_about s receiver id
  | Inserting mine => maybe_about s mine id
  | Calling execution mine => is_about s execution id ∧ maybe_about s mine id
  | Called execution value mine =>
      is_about s execution id ∧ maybe_about s mine id ∧ (id, value) ∈ returned s ∧
      any_type value = task_type k
  | Queued mine | Free mine | First mine => is_about s mine id
  | Done (Good value) => (id, value) ∈ returned s ∧ any_type value = task_type k
  end.

Record sound s : Prop := Sound {
  sound_sent c ch value :
    channels s !! c = Some ch → sent ch = Some (Good value) → (about ch, value) ∈ returned s;
  sound_watchers id c : watchers s !! id = Some c → is_about s c id;
  sound_queue id c : (id, c) ∈ queue s → is_about s c id;
  sound_tasks t k : tasks s !! t = Some k → placed s k
}.

(** Channels keep their ids, and what was returned stays. *)
Definition extends s s' : Prop :=
  (∀ c id, is_about s c id → is_about s' c id) ∧ (∀ x, x ∈ returned s → x ∈ returned s').

Lemma placed_extends s s' k : extends s s' → placed s k → placed s' k.
Proof.
  intros [Ha Hr]. unfold placed, maybe_about. destruct (at_ k) as [|[] ?| |[]|? []|? ? []|[] ?| | | |[]|];
    naive_solver.
Qed.

Lemma lookup_put t p s t' :
  tasks (put t p s) !! t' =
    if decide (t' = t) then (λ k, mk_task (task_id k) (task_type k) p) <$> tasks s !! t
    else tasks s !! t'.
Proof.
  simpl. case_decide as Ht; [subst; by rewrite list_lookup_alter_eq|by rewrite list_lookup_alter_ne].
Qed.

(** A step of one task keeps the invariant if the service and the task do. *)
Lemma sound_put s s1 t k p :
  sound s → tasks s !! t = Some k → tasks s1 = tasks s → extends s s1 →
  (∀ c ch value, channels s1 !! c = Some ch → sent ch = Some (Good value) →
     (about ch, value) ∈ returned s1) →
  (∀ id c, watchers s1 !! id = Some c → is_about s1 c id) →
  (∀ id c, (id, c) ∈ queue s1 → is_about s1 c id) →
  placed s1 (mk_task (task_id k) (task_type k) p) →
  sound (put t p s1).
Proof.
  intros Hs Hk Ht He Hsent Hw Hq Hp.
  assert (extends s1 (put t p s1)) as He1 by done.
  split; [done|done|done|]. intros t' k' Hk'. rewrite lookup_put, Ht, Hk in Hk'.
  case_decide; simplify_eq/=; [done|].
  apply (placed_extends s); [|by eapply sound_tasks]. exact He.
Qed.

Lemma extends_refl s : extends s s.
Proof. done. Qed.

Lemma is_about_alter f c s c' id :
  (∀ ch, about (f ch) = about ch) → is_about s c' id → is_about (set_channels s (alter f c (channels s))) c' id.
Proof.
  intros Hf (ch & Hch & <-). unfold is_about. simpl. destruct (decide (c = c')) as [->|Hne].
  - rewrite list_lookup_alter_eq, Hch. eexists. split; [done|]. apply Hf.
  - rewrite list_lookup_alter_ne by done. by exists ch.
Qed.

Lemma is_about_send c r s c' id : is_about s c' id → is_about (send_to c r s) c' id.
Proof. by apply is_about_alter. Qed.
Lemma is_about_close c s c' id : is_about s c' id → is_about (close_channel c s) c' id.
Proof. by apply is_about_alter. Qed.
Lemma is_about_open x s c id : is_about s c id → is_about (open_channel x s) c id.
Proof. intros (ch & Hch & <-). exists ch. split; [|done]. simpl. by apply lookup_app_l_Some. Qed.
Lemma is_about_new x s : is_about (open_channel x s) (length (channels s)) x.
Proof.
  exists (mk_channel x None true). split; [|done]. simpl. by rewrite lookup_app_r, Nat.sub_diag by done.
Qed.

(** Opening and closing channels sends nothing. *)
Definition sent_ok s : Prop :=
  ∀ c ch value, channels s !! c = Some ch → sent ch = Some (Good value) →
    (about ch, value) ∈ returned s.

Lemma sent_open x s : sent_ok s → sent_ok (open_channel x s).
Proof.
  intros Hs c ch value Hch Hv. simpl in Hch. apply lookup_app_Some in Hch as [Hch|[_ Hch]].
  - by eapply Hs.
  - apply list_lookup_singleton_Some in Hch as [_ <-]. done.
Qed.
Lemma sent_close c s : sent_ok s → sent_ok (close_channel c s).
Proof.
  intros Hs c' ch value Hch Hv. simpl in Hch. destruct (decide (c = c')) as [->|Hne].
  - rewrite list_lookup_alter_eq in Hch. destruct (channels s !! c') as [ch0|] eqn:Hc; simplify_eq/=.
    by eapply Hs.
  - rewrite list_lookup_alter_ne in Hch by done. by eapply Hs.
Qed.
Lemma sent_send c value id s :
  sent_ok s → is_about s c id → (id, value) ∈ returned s → sent_ok (send_to c (Good value) s).
Proof.
  intros Hs (ch & Hch & <-) Hin c' ch' value' Hch' Hv. simpl in Hch'.
  destruct (decide (c = c')) as [->|Hne].
  - rewrite list_lookup_alter_eq, Hch in Hch'. by simplify_eq/=.
  - rewrite list_lookup_alter_ne in Hch' by done. by eapply Hs.
Qed.

Lemma elem_of_index_insert (id : Id) (c : nat) q x :
  x ∈ index_insert id c q → x = (id, c) ∨ x ∈ q.
Proof.
  induction q as [|[id' c'] q IH]; simpl.
  - intros Hx%list_elem_of_singleton. by left.
  - case_decide; intros [->|Hx]%elem_of_cons; [by left|by right; right|by right; left|].
    apply IH in Hx as [->|Hx]; [by left|right; by right].
Qed.

Lemma index_get_in (id : Id) q c : index_get id q = Some c → (id, c) ∈ q.
Proof.
  unfold index_get. destruct (List.find _ q) as [[id' c']|] eqn:Hf; [|done]. intros [= <-].
  apply List.find_some in Hf as [Hin He]. apply bool_decide_eq_true in He. simpl in He. subst.
  by apply list_elem_of_In.
Qed.

Lemma received_returned s c id value :
  sound s → is_about s c id → received c s = Some (Good value) → (id, value) ∈ returned s.
Proof.
  intros Hs (ch & Hch & <-) Hr. unfold received in Hr. rewrite Hch in Hr.
  destruct (sent ch) as [r|] eqn:Hsent; [|by destruct (alive ch)]. simplify_eq.
  by eapply sound_sent.
Qed.

(** *** One step *)

Lemma extends_channels s s1 :
  (∀ c id, is_about s c id → is_about s1 c id) → returned s1 = returned s → extends s s1.
Proof. intros Ha Hr. split; [done|]. by rewrite Hr. Qed.

Lemma maybe_about_extends s s1 c id : extends s s1 → maybe_about s c id → maybe_about s1 c id.
Proof. intros [Ha _]. by destruct c; [apply Ha|]. Qed.

(** Steps that only change where the task is *)
Lemma sound_move s t k p :
  sound s → tasks s !! t = Some k → placed s (mk_task (task_id k) (task_type k) p) →
  sound (put t p s).
Proof. intros Hs Hk Hp. eapply sound_put; try done; [exact (sound_sent _ Hs)|exact (sound_watchers _ Hs)|exact (sound_queue _ Hs)]. Qed.

Lemma downcast_good wanted (r : response V) value :
  downcast wanted r = Good value → r = Good value ∧ any_type value = wanted.
Proof. destruct r as [v|e]; simpl; [|done]. case_bool_decide; [|done]. by intros [= <-]. Qed.

Lemma advance_sound t value s : sound s → sound (advance config t value s).
Proof.
  intros Hs. unfold advance. destruct (tasks s !! t) as [k|] eqn:Hk; [|done].
  pose proof (sound_tasks _ Hs t k Hk) as Hp. unfold placed in Hp.
  destruct (at_ k) as [|[receiver|] n|receiver|mine|execution mine|execution v mine|[receiver|] n|mine|
    mine|mine|r|] eqn:Hat; simpl in Hp.
  - (* Start *) apply (sound_move s t k); [done..|]. simpl.
    destruct (watchers s !! task_id k) eqn:Hw; [|done]. by eapply sound_watchers.
  - (* Looked *) by apply (sound_move s t k).
  - destruct (CoalescionServiceConfig.max_concurrent config) as [m|]; [|by apply (sound_move s t k)].
    destruct (m <=? n); [|by apply (sound_move s t k)].
    destruct (CoalescionServiceConfig.queue_requests config); apply (sound_move s t k); try done.
    simpl. destruct (index_get _ _) as [c|] eqn:Hq; [|done].
    apply (sound_queue _ Hs). by apply index_get_in.
  - (* Waiting *) destruct (received receiver s) as [r|] eqn:Hr; [|done].
    apply (sound_move s t k); [done..|]. unfold placed. simpl.
    destruct (downcast (task_type k) r) as [v|] eqn:Hd; [|done].
    apply downcast_good in Hd as [-> Hty]. split; [|done]. by eapply received_returned.
  - (* Inserting *)
    apply (sound_put s _ t k); try done.
    + apply extends_channels; [|done]. intros c id. apply is_about_open.
    + apply sent_open. exact (sound_sent _ Hs).
    + intros id c Hc. simpl in Hc. apply lookup_insert_Some in Hc as [[<- <-]|[_ Hc]]; [apply is_about_new|].
      by apply is_about_open, (sound_watchers _ Hs).
    + intros id c Hc. by apply is_about_open, (sound_queue _ Hs).
    + split; [apply is_about_new|]. destruct mine; [|done]. apply is_about_open; exact Hp.
  - (* Calling *) destruct Hp as [He Hm].
    assert (∀ c id, is_about s c id → is_about (mk_service (watchers s) (queue s)
              (channels (send_to execution (Good (mk_any (task_type k) value)) s)) (tasks s)
              ((task_id k, mk_any (task_type k) value) :: returned s)) c id) as Ha.
    { intros c id. apply is_about_send. }
    apply (sound_put s _ t k); try done.
    + split; [exact Ha|]. intros x Hx. by right.
    + intros c ch v Hch Hv. simpl in Hch.
      destruct (decide (execution = c)) as [->|Hne].
      * destruct He as (ch0 & Hch0 & Hab). rewrite list_lookup_alter_eq, Hch0 in Hch.
        simplify_eq/=. rewrite Hab. left.
      * rewrite list_lookup_alter_ne in Hch by done. right. by eapply (sound_sent _ Hs).
    + intros id c Hc. by apply Ha, (sound_watchers _ Hs).
    + intros id c Hc. by apply Ha, (sound_queue _ Hs).
    + split_and!; [by apply Ha|destruct mine; [apply Ha; exact Hm|done]|left|done].
  - (* Called *) destruct Hp as (He & Hm & Hin & Hty).
    set (s0 := close_channel execution (set_watchers s (delete (task_id k) (watchers s)))).
    assert (∀ c id, is_about s c id → is_about s0 c id) as Ha.
    { intros c id Hc. apply is_about_close. exact Hc. }
    assert (sent_ok s0) as Hs0 by (apply sent_close; exact (sound_sent _ Hs)).
    assert (∀ id c, watchers s0 !! id = Some c → is_about s0 c id) as Hw0.
    { intros id c Hc. simpl in Hc. apply lookup_delete_Some in Hc as [_ Hc].
      by apply Ha, (sound_watchers _ Hs). }
    assert (∀ id c, (id, c) ∈ queue s0 → is_about s0 c id) as Hq0.
    { intros id c Hc. by apply Ha, (sound_queue _ Hs). }
    unfold respond. destruct mine as [c|].
    + apply (sound_put s _ t k); try done.
      * apply extends_channels; [|done]. intros c' id Hc'. by apply is_about_close, is_about_send, Ha.
      * apply sent_close, (sent_send c v (task_id k)); [done|by apply Ha|done].
      * intros id c' Hc. by apply is_about_close, is_about_send, Hw0.
      * intros id c' Hc. by apply is_about_close, is_about_send, Hq0.
    + apply (sound_put s _ t k); try done.
  - (* LookedQueue *) by apply (sound_move s t k).
  - destruct (match CoalescionServiceConfig.max_queue config with Some _ => _ | None => _ end);
      [by apply (sound_move s t k)|].
    apply (sound_put s _ t k); try done.
    + apply extends_channels; [|done]. intros c id. apply is_about_open.
    + apply sent_open. exact (sound_sent _ Hs).
    + intros id c Hc. by apply is_about_open, (sound_watchers _ Hs).
    + intros id c Hc. simpl in Hc. apply elem_of_index_insert in Hc as [[= -> ->]|Hc]; [apply is_about_new|].
      by apply is_about_open, (sound_queue _ Hs).
    + apply is_about_new.
  - (* Queued *) destruct (CoalescionServiceConfig.max_concurrent config); [|done].
    destruct (_ <? _); [|done]. by apply (sound_move s t k).
  - (* Free *) apply (sound_move s t k); [done..|]. by case_bool_decide.
  - (* First *) apply (sound_put s _ t k); try done.
    + exact (sound_sent _ Hs).
    + exact (sound_watchers _ Hs).
    + intros id c Hc. simpl in Hc. apply (sound_queue _ Hs). unfold shift_remove in Hc.
      by apply list_elem_of_In, filter_In in Hc as [Hc%list_elem_of_In _].
  - done.
  - done.
Qed.

Lemma drop_sound t s : sound s → sound (drop_task t s).
Proof.
  intros Hs. unfold drop_task. destruct (tasks s !! t) as [k|] eqn:Hk; [|done]. simpl.
  assert (∀ s1, tasks s1 = tasks s → watchers s1 = watchers s → queue s1 = queue s →
            returned s1 = returned s → (∀ c id, is_about s c id → is_about s1 c id) →
            sent_ok s1 → sound (put t Dropped s1)) as Hput.
  { intros s1 Ht Hw Hq Hr Ha Hsent. apply (sound_put s _ t k); try done.
    - by apply extends_channels.
    - intros id c Hc. rewrite Hw in Hc. by apply Ha, (sound_watchers _ Hs).
    - intros id c Hc. rewrite Hq in Hc. by apply Ha, (sound_queue _ Hs). }
  pose proof (sound_sent _ Hs) as Hsent.
  destruct (at_ k) as [| | |[]|? []|? ? []| | | | | |]; try done; apply Hput; try done;
    try (by intros c id Hc; repeat apply is_about_close); by repeat apply sent_close.
Qed.

Lemma arrive_sound id type s : sound s → sound (arrive id type s).
Proof.
  intros Hs. split; [apply Hs|apply Hs|apply Hs|]. intros t k Hk. simpl in Hk.
  apply lookup_app_Some in Hk as [Hk|[_ Hk]]; [by apply (sound_tasks _ Hs t)|].
  apply list_lookup_singleton_Some in Hk as [_ <-]. done.
Qed.

Lemma run_sound events : sound (run config events : service Id V).
Proof.
  unfold run. assert (sound (idle : service Id V)) as Hidle.
  { split; simpl; [intros c ch v Hc; by rewrite lookup_nil in Hc| | |
      intros t k Hk; by rewrite lookup_nil in Hk].
    - intros id c. by rewrite lookup_empty.
    - by intros id c ?%elem_of_nil. }
  revert Hidle. generalize (idle : service Id V). induction events as [|e events IH]; intros s Hs;
    [done|]. simpl. apply IH. destruct e; [by apply arrive_sound|by apply advance_sound|by apply drop_sound].
Qed.

(** Whatever the order in which tasks arrive, take their steps and are dropped: a task that
    ends with a value has one of the type it asked for, which a function returned for the id it
    asked for. *)
Theorem results_are_returned events t (k : task Id V) value :
  tasks (run config events) !! t = Some k → at_ k = Done (Good value) →
  (task_id k, value) ∈ returned (run config events) ∧ any_type value = task_type k.
Proof.
  intros Hk Hat. pose proof (sound_tasks _ (run_sound events) t k Hk) as Hp.
  unfold placed in Hp. by rewrite Hat in Hp.
Qed.

(** ** Nobody waits for nothing *)

(** The task will send to the channel. *)
Definition drives (k : task Id V) (c : nat) : Prop :=
  match at_ k with
  | Calling execution mine => execution = c ∨ mine = Some c
  | Inserting mine | Called _ _ mine => mine = Some c
  | Queued mine | Free mine | First mine => mine = c
  | _ => False
  end.

Definition driven s : Prop :=
  ∀ c ch, channels s !! c = Some ch → sent ch = None →
    alive ch = true ∧ ∃ t k, tasks s !! t = Some k ∧ drives k c.

Lemma driven_put s s1 t k p :
  driven s → tasks s !! t = Some k → tasks s1 = tasks s →
  (∀ c ch, channels s1 !! c = Some ch → sent ch = None →
     alive ch = true ∧
     (drives (mk_task (task_id k) (task_type k) p) c ∨
      ∃ t' k', t' ≠ t ∧ tasks s !! t' = Some k' ∧ drives k' c)) →
  driven (put t p s1).
Proof.
  intros Hs Hk Ht Hc c ch Hch Hsent. destruct (Hc c ch Hch Hsent) as [Halive Hd]. split; [done|].
  destruct Hd as [Hd|(t' & k' & Hne & Hk' & Hd')].
  - exists t, (mk_task (task_id k) (task_type k) p). split; [|done].
    by rewrite lookup_put, decide_True, Ht, Hk.
  - exists t', k'. split; [|done]. by rewrite lookup_put, Ht, decide_False.
Qed.

(** Whoever sends to a channel is the task that moves or another. *)
Lemma driven_by s t k c ch :
  driven s → tasks s !! t = Some k → channels s !! c = Some ch → sent ch = None →
  alive ch = true ∧ (drives k c ∨ ∃ t' k', t' ≠ t ∧ tasks s !! t' = Some k' ∧ drives k' c).
Proof.
  intros Hs Hk Hch Hsent. destruct (Hs c ch Hch Hsent) as (Halive & t' & k' & Hk' & Hd).
  split; [done|]. destruct (decide (t' = t)) as [->|Hne]; [left; by simplify_eq|].
  right. by exists t', k'.
Qed.

Lemma driven_move s s1 t k p :
  driven s → tasks s !! t = Some k → tasks s1 = tasks s → channels s1 = channels s →
  (∀ c, drives k c → drives (mk_task (task_id k) (task_type k) p) c) → driven (put t p s1).
Proof.
  intros Hs Hk Ht Hch Hp. apply (driven_put s _ t k); [done..|]. intros c ch Hc Hsent.
  rewrite Hch in Hc. destruct (driven_by s t k c ch Hs Hk Hc Hsent) as [Halive [Hd|Hd]].
  - split; [done|]. left. by apply Hp.
  - split; [done|]. by right.
Qed.

(** A channel that is sent to, or closed after, needs nobody. *)
Lemma lookup_close c s c' ch :
  channels (close_channel c s) !! c' = Some ch →
  ∃ ch0, channels s !! c' = Some ch0 ∧ sent ch = sent ch0 ∧ (c' ≠ c → ch = ch0).
Proof.
  simpl. destruct (decide (c = c')) as [->|Hne].
  - rewrite list_lookup_alter_eq. destruct (channels s !! c') as [ch0|]; [|done]. intros [= <-].
    by exists ch0.
  - rewrite list_lookup_alter_ne by done. intros Hch. by exists ch.
Qed.
Lemma lookup_send c r s c' ch :
  channels (send_to c r s) !! c' = Some ch → sent ch = None → channels s !! c' = Some ch ∧ c' ≠ c.
Proof.
  simpl. destruct (decide (c = c')) as [->|Hne].
  - rewrite list_lookup_alter_eq. destruct (channels s !! c') as [ch0|]; [|done]. by intros [= <-].
  - rewrite list_lookup_alter_ne by done. done.
Qed.
Lemma lookup_open x s c ch :
  channels (open_channel x s) !! c = Some ch →
  channels s !! c = Some ch ∨ c = length (channels s) ∧ alive ch = true.
Proof.
  simpl. intros [Hc|[Hle Hc]]%lookup_app_Some; [by left|right].
  apply list_lookup_singleton_Some in Hc as [Hz <-]. split; [lia|done].
Qed.

(** The execution of a task that was called has been answered. *)
Definition answered s : Prop :=
  ∀ t k execution value mine, tasks s !! t = Some k → at_ k = Called execution value mine →
    ∃ ch, channels s !! execution = Some ch ∧ sent ch ≠ None.

Lemma advance_driven t value s :
  sound s → answered s → driven s → driven (advance config t value s).
Proof.
  intros Hsound Ha Hs. unfold advance. destruct (tasks s !! t) as [k|] eqn:Hk; [|done].
  pose proof (sound_tasks _ Hsound t k Hk) as Hp. unfold placed in Hp.
  assert (∀ p, (∀ c, drives k c → drives (mk_task (task_id k) (task_type k) p) c) → driven (put t p s))
    as Hmove by (intros p Hd; by apply (driven_move s s t k)).
  destruct (at_ k) as [|[receiver|] n|receiver|mine|execution mine|execution v mine|[receiver|] n|mine|
    mine|mine|r|] eqn:Hat; simpl in Hp;
    try (apply Hmove; unfold drives; rewrite Hat; simpl; by intros c ?).
  - destruct (CoalescionServiceConfig.max_concurrent config) as [m|];
      [destruct (m <=? n); [destruct (CoalescionServiceConfig.queue_requests config)|]|];
      apply Hmove; unfold drives; rewrite Hat; by intros c ?.
  - destruct (received receiver s); [|done]. apply Hmove. unfold drives. rewrite Hat. by intros c ?.
  - (* Inserting *) apply (driven_put s _ t k); [done..|]. intros c ch Hch Hsent.
    apply lookup_open in Hch as [Hch|[-> Halive]]; [|split; [done|by left; left]].
    destruct (driven_by s t k c ch Hs Hk Hch Hsent) as [Halive [Hd|Hd]]; (split; [done|]); [|by right].
    unfold drives in Hd. rewrite Hat in Hd. left. by right.
  - (* Calling *) apply (driven_put s _ t k); [done..|]. intros c ch Hch Hsent.
    apply lookup_send in Hch as [Hch Hne]; [|done].
    destruct (driven_by s t k c ch Hs Hk Hch Hsent) as [Halive [Hd|Hd]]; (split; [done|]); [|by right].
    unfold drives in Hd. rewrite Hat in Hd. destruct Hd as [->|Hd]; [done|]. by left.
  - (* Called *) destruct (Ha t k execution v mine Hk Hat) as (che & Hche & Hsente).
    assert (∀ c ch, channels (close_channel execution (set_watchers s (delete (task_id k) (watchers s)))) !! c = Some ch →
              sent ch = None → c ≠ execution ∧ channels s !! c = Some ch) as Hclose.
    { intros c ch Hch Hsent. apply lookup_close in Hch as (ch0 & Hch0 & Heq & Hsame). simpl in Hch0.
      destruct (decide (c = execution)) as [->|Hne]; [|by rewrite (Hsame Hne)].
      rewrite Hche in Hch0. simplify_eq. congruence. }
    unfold respond. destruct mine as [c0|].
    + apply (driven_put s _ t k); [done..|]. intros c ch Hch Hsent.
      apply lookup_close in Hch as (ch0 & Hch0 & Heq & Hsame). rewrite Heq in Hsent.
      apply lookup_send in Hch0 as [Hch0 Hne]; [|done]. rewrite (Hsame Hne).
      apply Hclose in Hch0 as [_ Hch0]; [|done].
      destruct (driven_by s t k c ch0 Hs Hk Hch0 Hsent) as [Halive [Hd|Hd]]; (split; [done|]); [|by right].
      unfold drives in Hd. rewrite Hat in Hd. by simplify_eq.
    + apply (driven_put s _ t k); [done..|]. intros c ch Hch Hsent.
      apply Hclose in Hch as [_ Hch]; [|done].
      destruct (driven_by s t k c ch Hs Hk Hch Hsent) as [Halive [Hd|Hd]]; (split; [done|]); [|by right].
      unfold drives in Hd. by rewrite Hat in Hd.
  - (* LookedQueue *)
    destruct (match CoalescionServiceConfig.max_queue config with Some _ => _ | None => _ end);
      [apply Hmove; unfold drives; rewrite Hat; by intros c ?|].
    apply (driven_put s _ t k); [done..|]. intros c ch Hch Hsent.
    apply lookup_open in Hch as [Hch|[-> Halive]]; [|split; [done|by left]].
    destruct (driven_by s t k c ch Hs Hk Hch Hsent) as [Halive [Hd|Hd]]; (split; [done|]); [|by right].
    unfold drives in Hd. by rewrite Hat in Hd.
  - (* Queued *) destruct (CoalescionServiceConfig.max_concurrent config); [|done].
    destruct (_ <? _); [|done]. apply Hmove. unfold drives. rewrite Hat. by intros c ?.
  - (* Free *) apply Hmove. unfold drives. rewrite Hat. intros c ?. by case_bool_decide.
  - (* First *) apply (driven_move s _ t k); [done..|]. unfold drives. rewrite Hat. simpl. by intros c ->.
  - done.
  - done.
Qed.

Definition has_sent s (c : nat) : Prop := ∃ ch, channels s !! c = Some ch ∧ sent ch ≠ None.

Lemma has_sent_close c s c' : has_sent s c' → has_sent (close_channel c s) c'.
Proof.
  intros (ch & Hch & Hs). unfold has_sent. simpl. destruct (decide (c = c')) as [->|Hne].
  - rewrite list_lookup_alter_eq, Hch. by eexists.
  - rewrite list_lookup_alter_ne by done. by exists ch.
Qed.
Lemma has_sent_send c r s c' : has_sent s c' → has_sent (send_to c r s) c'.
Proof.
  intros (ch & Hch & Hs). unfold has_sent. simpl. destruct (decide (c = c')) as [->|Hne].
  - rewrite list_lookup_alter_eq, Hch. by eexists.
  - rewrite list_lookup_alter_ne by done. by exists ch.
Qed.
Lemma has_sent_open x s c : has_sent s c → has_sent (open_channel x s) c.
Proof. intros (ch & Hch & Hs). exists ch. split; [|done]. simpl. by apply lookup_app_l_Some. Qed.

Lemma answered_put s s1 t k p :
  answered s → tasks s !! t = Some k → tasks s1 = tasks s →
  (∀ c, has_sent s c → has_sent s1 c) →
  (∀ execution value mine, p = Called execution value mine → has_sent s1 execution) →
  answered (put t p s1).
Proof.
  intros Ha Hk Ht Hmono Hp t' k' execution value mine Hk' Hat. rewrite lookup_put, Ht, Hk in Hk'.
  case_decide; simplify_eq/=; [by eapply Hp|]. apply Hmono. by eapply Ha.
Qed.

Lemma advance_answered t value s : sound s → answered s → answered (advance config t value s).
Proof.
  intros Hsound Ha. unfold advance. destruct (tasks s !! t) as [k|] eqn:Hk; [|done].
  pose proof (sound_tasks _ Hsound t k Hk) as Hp. unfold placed in Hp.
  assert (∀ p, (∀ execution value mine, p ≠ Called execution value mine) → answered (put t p s)) as Hmove.
  { intros p Hn. apply (answered_put s s t k); [done..|]. intros e v m ->. by destruct (Hn e v m). }
  destruct (at_ k) as [|[receiver|] n|receiver|mine|execution mine|execution v mine|[receiver|] n|mine|
    mine|mine|r|] eqn:Hat; simpl in Hp; try (by apply Hmove).
  - destruct (CoalescionServiceConfig.max_concurrent config) as [m|];
      [destruct (m <=? n); [destruct (CoalescionServiceConfig.queue_requests config)|]|]; by apply Hmove.
  - destruct (received receiver s); [by apply Hmove|done].
  - apply (answered_put s _ t k); [done..| |done]. intros c. apply has_sent_open.
  - apply (answered_put s _ t k); [done..| |].
    + intros c Hc. by apply (has_sent_send execution (Good (mk_any (task_type k) value))).
    + intros e v' m [= <- <- <-]. destruct Hp as [(ch & Hch & _) _]. unfold has_sent. simpl.
      rewrite list_lookup_alter_eq, Hch. by eexists.
  - unfold respond. destruct mine as [c0|]; apply (answered_put s _ t k); try done.
    + intros c Hc. apply has_sent_close, has_sent_send, has_sent_close. exact Hc.
    + intros c Hc. apply has_sent_close. exact Hc.
  - destruct (match CoalescionServiceConfig.max_queue config with Some _ => _ | None => _ end);
      [by apply Hmove|].
    apply (answered_put s _ t k); [done..| |done]. intros c Hc. by apply has_sent_open.
  - destruct (CoalescionServiceConfig.max_concurrent config); [|done].
    destruct (_ <? _); [by apply Hmove|done].
  - apply Hmove. intros e v m. by case_bool_decide.
  - done.
  - done.
Qed.

(** Nobody is dropped. *)
Definition no_drop (e : event) : Prop := match e : @event Id V with Drop _ => False | _ => True end.

Lemma run_driven events :
  Forall no_drop events → driven (run config events) ∧ answered (run config events).
Proof.
  unfold run. intros Hev.
  assert (sound (idle : service Id V) ∧ driven (idle : service Id V) ∧ answered (idle : service Id V))
    as Hidle.
  { split; [exact (run_sound [])|]. split.
    - intros c ch Hc. cbn in Hc; by rewrite lookup_nil in Hc.
    - intros t k e v m Hk. cbn in Hk; by rewrite lookup_nil in Hk. }
  revert Hidle. generalize (idle : service Id V).
  induction Hev as [|e events He Hev IH]; intros s (Hs & Hd & Ha); [done|]. simpl. apply IH.
  destruct e as [id type|t value|t]; [| |done]; simpl.
  - split_and!; [by apply arrive_sound| |].
    + intros c ch Hc Hsent. destruct (Hd c ch Hc Hsent) as (Halive & t & k & Hk & Hdr).
      split; [done|]. exists t, k. split; [|done]. simpl. by apply lookup_app_l_Some.
    + intros t k e v m Hk Hat. simpl in Hk. apply lookup_app_Some in Hk as [Hk|[_ Hk]].
      * by apply (Ha t k e v m).
      * apply list_lookup_singleton_Some in Hk as [_ <-]. done.
  - split_and!; [by apply advance_sound|by apply advance_driven|by apply advance_answered].
Qed.

(** C32: While no task is dropped, a task that waits has been answered (with a result, or with the
    error that its channel was closed), or somebody will answer: a task that has still to send to
    the channel it waits on. *)
Theorem no_lost_wakeups events t (k : task Id V) receiver :
  Forall no_drop events → tasks (run config events) !! t = Some k → at_ k = Waiting receiver →
  is_Some (received receiver (run config events)) ∨
  ∃ t' k', tasks (run config events) !! t' = Some k' ∧ drives k' receiver.
Proof.
  intros Hev Hk Hat. destruct (run_driven events Hev) as [Hd _].
  pose proof (sound_tasks _ (run_sound events) t k Hk) as Hp. unfold placed in Hp. rewrite Hat in Hp.
  destruct Hp as (ch & Hch & _). destruct (sent ch) as [r|] eqn:Hsent.
  - left. unfold received. rewrite Hch, Hsent. by eexists.
  - right. by apply (Hd receiver ch).
Qed.

(** ** The limit of the queue *)

(** With a limit on the queue, whatever it is, nothing is ever queued: a task that finds the
    service full is refused. *)
Theorem queue_with_a_limit_is_never_used events n :
  CoalescionServiceConfig.max_queue config = Some n →
  queue (run config events : service Id V) = [] ∧
  ∀ t (k : task Id V) mine, tasks (run config events) !! t = Some k →
    at_ k ≠ Queued mine ∧ at_ k ≠ Free mine ∧ at_ k ≠ First mine.
Proof.
  intros Hn.
  set (unqueued := λ s : service Id V, queue s = [] ∧
    ∀ t k, tasks s !! t = Some k →
      match at_ k with
      | Queued _ | Free _ | First _ => False
      | LookedQueue receiver length => receiver = None ∧ length = 0
      | _ => True
      end).
  assert (unqueued (run config events)) as [Hq Ht].
  2: { split; [done|]. intros t k mine Hk. specialize (Ht t k Hk). by destruct (at_ k). }
  unfold run. assert (unqueued idle) as Hidle.
  { split; [done|]. intros t k Hk. cbn in Hk; by rewrite lookup_nil in Hk. }
  revert Hidle. generalize (idle : service Id V). induction events as [|e events IH]; intros s Hs; [done|].
  simpl. apply IH. clear IH.
  assert (∀ t p s1, queue s1 = [] → tasks s1 = tasks s →
            match p with
            | Queued _ | Free _ | First _ => False
            | LookedQueue receiver length => receiver = None ∧ length = 0
            | _ => True
            end → unqueued (put t p s1)) as Hput.
  { intros t p s1 Hq Ht Hp. split; [done|]. intros t' k' Hk'. rewrite lookup_put, Ht in Hk'.
    destruct Hs as [_ Hs]. case_decide; [|by apply (Hs t')].
    destruct (tasks s !! t); simplify_eq/=. done. }
  destruct Hs as [Hq Hs]. destruct e as [id type|t value|t]; simpl.
  - split; [done|]. intros t k Hk. simpl in Hk. apply lookup_app_Some in Hk as [Hk|[_ Hk]];
      [by apply (Hs t)|]. apply list_lookup_singleton_Some in Hk as [_ <-]. done.
  - unfold advance. destruct (tasks s !! t) as [k|] eqn:Hk; [|by split]. pose proof (Hs t k Hk) as Hk'.
    destruct (at_ k) as [|[receiver|] len|receiver|mine|execution mine|execution v mine|receiver len|mine|
      mine|mine|r|] eqn:Hat; try done; try (by apply Hput); try (by split).
    + destruct (CoalescionServiceConfig.max_concurrent config) as [m|];
        [destruct (m <=? len); [destruct (CoalescionServiceConfig.queue_requests config)|]|];
        apply Hput; try done. by rewrite Hq.
    + destruct (received receiver s); [by apply Hput|by split].
    + unfold respond. by destruct mine; apply Hput.
    + destruct Hk' as [-> ->]. rewrite Hn. simpl. by apply Hput.
  - unfold drop_task. destruct (tasks s !! t) as [k|] eqn:Hk; [|by split]. simpl. pose proof (Hs t k Hk) as Hk'.
    destruct (at_ k) as [| | |[]|? []|? ? []| | | | | |]; try done; try (by split); by apply Hput.
Qed.
End Invariants.

(** ** Examples *)

Module CoalescedSample.
(** Two tasks for one id that look before either has started: both call their function. *)
Definition together : list (event (Id := string) (V := nat)) :=
  [Arrive "a" "T"; Arrive "a" "T"; Advance 0 0; Advance 1 0; Advance 0 0; Advance 1 0;
   Advance 0 0; Advance 1 0; Advance 0 1; Advance 1 2].
Lemma same_id_runs_twice :
  returned (run CoalescionServiceConfig.default together) =
    [("a", mk_any "T" 2); ("a", mk_any "T" 1)].
Proof. vm_compute. reflexivity. Qed.

(** Two tasks for different ids run at once where one is allowed. *)
Definition one : CoalescionServiceConfig.t := CoalescionServiceConfig.mk (Some 1) true None.
Lemma limit_is_exceeded :
  current_task_count (run one [Arrive "a" "T"; Arrive "b" "T"; Advance 0 0; Advance 1 0; Advance 0 0;
    Advance 1 0; Advance 0 0; Advance 1 (0 : nat)]) = 2.
Proof. vm_compute. reflexivity. Qed.

(** A task that is dropped while its function runs leaves its id behind: who comes later gets
    an error, every time. *)
Definition abandoned : service string nat :=
  run one [Arrive "a" "T"; Advance 0 0; Advance 0 0; Advance 0 0; Drop 0;
           Arrive "a" "T"; Advance 1 0; Advance 1 0; Advance 1 0].
Lemma dropped_id_is_lost :
  (λ k, at_ k) <$> tasks abandoned !! 1 = Some (Done (Bad CoalescionError.RecvError)) ∧
  watchers abandoned !! "a" = Some 0.
Proof. vm_compute. done. Qed.

(** Two tasks for one id that look at the queue together are queued under one key: when the
    first has run, the second is in the queue no more and turns in its loop without end. *)
Definition shared_key : service string nat :=
  run one
    ([Arrive "x" "T"; Advance 0 0; Advance 0 0; Advance 0 0; Arrive "a" "T"; Arrive "a" "T";
      Advance 1 0; Advance 2 0; Advance 1 0; Advance 2 0; Advance 1 0; Advance 2 0;
      Advance 0 0; Advance 0 0] ++
     [Advance 1 0; Advance 1 0; Advance 1 0; Advance 1 0; Advance 1 0; Advance 1 0]).
Lemma queued_task_is_forgotten :
  (λ k, at_ k) <$> tasks shared_key = [Done (Good (mk_any "T" 0)); Done (Good (mk_any "T" 0)); Queued 2] ∧
  queue shared_key = [] ∧ current_task_count shared_key = 0 ∧
  ∀ n, ∃ s, Nat.iter n (advance one 2 0) shared_key = s ∧ queue s = [] ∧
    ((λ k, at_ k) <$> tasks s !! 2 = Some (Queued 2) ∨ (λ k, at_ k) <$> tasks s !! 2 = Some (Free 2)).
Proof.
  split_and!; [vm_compute; reflexivity..|]. 
  assert (∃ other, shared_key = other ∧ advance one 2 0 (advance one 2 0 other) = other) as (o & Ho & Hoo).
  { eexists. split; [reflexivity|]. vm_compute. reflexivity. }
  assert (∀ n, Nat.iter n (advance one 2 0) shared_key = shared_key ∨
               Nat.iter n (advance one 2 0) shared_key = advance one 2 0 shared_key) as Hiter.
  { intros n. induction n as [|n IH]; [by left|]. rewrite Nat.iter_succ.
    destruct IH as [->| ->]; [by right|]. left. by rewrite Ho, Hoo. }
  intros n. eexists. split; [reflexivity|]. destruct (Hiter n) as [-> | ->]; vm_compute; auto.
Qed.

(** What the examples of the invariants run on *)
Definition sharing : list (event (Id := string) (V := nat)) :=
  [Arrive "a" "T"; Arrive "a" "T"; Advance 0 0; Advance 0 0; Advance 0 0; Advance 1 0; Advance 1 0].

Lemma no_lost_wakeups_witness :
  is_Some (received 0 (run one sharing)) ∨
  ∃ t' k', tasks (run one sharing) !! t' = Some k' ∧ drives k' 0.
Proof.
  apply (no_lost_wakeups one sharing 1 (mk_task "a" "T" (Waiting 0)) 0);
    [repeat constructor|vm_compute; reflexivity|reflexivity].
Defined.

Lemma results_are_returned_witness :
  ("a", mk_any "T" 7) ∈ returned (run one (sharing ++ [Advance 0 7; Advance 1 0])) ∧ "T" = "T".
Proof.
  apply (results_are_returned one (sharing ++ [Advance 0 7; Advance 1 0]) 1
           (mk_task "a" "T" (Done (Good (mk_any "T" 7)))) (mk_any "T" 7));
    [vm_compute; reflexivity|reflexivity].
Defined.

Lemma queue_with_a_limit_is_never_used_witness :
  queue (run CoalescionServiceConfig.default together) = [].
Proof.
  apply (queue_with_a_limit_is_never_used CoalescionServiceConfig.default together 100). reflexivity.
Defined.
End CoalescedSample.
