(* ===== verification/Gifbox.v ===== *)
(** * The GIF service ([crates/services/gifbox])

    The wrapper of the Tenor API with its caches ([tenor/mod.rs]) and the routes ([routes/]),
    one request at a time: what happens to requests that run together is the coalescing service
    ([Coalesced.v]). The HTTP client, the JSON decoder, the time cache, the body of an upload and
    whether the disk works are parameters; floating-point numbers are only passed on. *)

From stdpp Require Import base list gmap strings.
From Stdlib Require Import ZArith Lia Ascii.
From S2P Require Import Prelude Decimal Errors.

(** ** Tenor's models ([tenor/types.rs]) *)

Class Floats := { f64 : Type }.

Module Tenor.
Section Types.
Context `{Floats}.
Record MediaObject : Type := mk_object {
  url : string; dims : list Z; duration : f64; size : f64
}.
Record MediaResponse : Type := mk_response {
  created : f64;
  hasaudio : bool;
  id : string;
  media_formats : gmap string MediaObject;
  tags : list string;
  title : string;
  content_description : string;
  itemurl : string;
  hascaption : bool;
  flags : list string;
  bg_color : option string;
  response_url : string
}.
Record PaginatedMediaResponse : Type := mk_page { results : list MediaResponse; next : string }.
Record CategoryResponse : Type := mk_category {
  searchterm : string; path : string; image : string; name : string
}.
Record CategoriesResponse : Type := mk_categories {
  locale : string; category_tags : list CategoryResponse
}.
End Types.
End Tenor.

(** ** The service's models ([types.rs]) *)

Module MediaObject.
Record t : Type := mk { url : string; dimensions : list Z }.
Definition from `{Floats} (value : Tenor.MediaObject) : t := mk (Tenor.url value) (Tenor.dims value).
End MediaObject.

Module MediaResult.
Record t : Type := mk { id : string; media_formats : gmap string MediaObject.t; url : string }.
Definition from `{Floats} (value : Tenor.MediaResponse) : t :=
  mk (Tenor.id value) (MediaObject.from <$> Tenor.media_formats value) (Tenor.response_url value).
End MediaResult.

Module PaginatedMediaResponse.
Record t : Type := mk { results : list MediaResult.t; next : option string }.
Definition from `{Floats} (value : Tenor.PaginatedMediaResponse) : t :=
  mk (MediaResult.from <$> Tenor.results value)
    (if bool_decide (Tenor.next value = "") then None else Some (Tenor.next value)).
End PaginatedMediaResponse.

Module CategoryResponse.
Record t : Type := mk { title : string; image : string }.
Definition from `{Floats} (value : Tenor.CategoryResponse) : t :=
  mk (Tenor.searchterm value) (Tenor.image value).
End CategoryResponse.

(** ** Crates *)

(** A request to Tenor: the path and the query *)
Module TenorRequest.
Record t : Type := mk { path : string; query : list (string * string) }.
End TenorRequest.

(** [reqwest] and [serde_json]: the text Tenor answers after the requests before, and what a
    text decodes to *)
Class TenorApi `{Floats} := {
  send : list TenorRequest.t → TenorRequest.t → option string;
  decode_media : string → option Tenor.PaginatedMediaResponse;
  decode_categories : string → option Tenor.CategoriesResponse
}.

(** [lru_time_cache::LruCache]: what it holds, by key *)
Class ExpiringCache := {
  expiring : Type → Type;
  expiring_empty {A} : expiring A;
  expiring_contains_key {A} : string → Z → expiring A → bool;
  expiring_get {A} : string → Z → expiring A → option A * expiring A;
  expiring_insert {A} : string → A → Z → expiring A → expiring A;
  holds {A} : expiring A → string → A → Prop;
  holds_empty {A} k (v : A) : ¬ holds expiring_empty k v;
  contains_holds {A} k now (c : expiring A) :
    expiring_contains_key k now c = true → ∃ v, holds c k v;
  get_holds {A} k now (c : expiring A) v : (expiring_get k now c).1 = Some v → holds c k v;
  get_keeps {A} k now (c : expiring A) k' v : holds (expiring_get k now c).2 k' v → holds c k' v;
  insert_holds {A} k v now (c : expiring A) k' v' :
    holds (expiring_insert k v now c) k' v' → (k' = k ∧ v' = v) ∨ holds c k' v';
  (** what was just put in is there *)
  insert_contains {A} k (v : A) now c :
    expiring_contains_key k now (expiring_insert k v now c) = true;
  insert_get {A} k (v : A) now c : (expiring_get k now (expiring_insert k v now c)).1 = Some v;
  (** what was just read is there *)
  get_contains {A} k (v : A) now c :
    (expiring_get k now c).1 = Some v → expiring_contains_key k now (expiring_get k now c).2 = true;
  get_again {A} k (v : A) now c :
    (expiring_get k now c).1 = Some v → (expiring_get k now (expiring_get k now c).2).1 = Some v
}.

(** The disk: whether it works at a time *)
Class Disk := { disk_works : Z → bool }.

(** A part of a multipart body, [None] where the body breaks off *)
Module Field.
Record t : Type := mk {
  name : option string; content_type : option string; bytes : option string
}.
End Field.

(** ** State of the service

    The time, the caches, the requests that were sent to Tenor, the files under [/data/gifs]
    while the directory exists, and how many ids were drawn *)

Module GifState.
Section State.
Context `{Floats} `{ExpiringCache}.
Record t : Type := mk {
  now : Z;
  cache : expiring Tenor.PaginatedMediaResponse;
  categories : expiring Tenor.CategoriesResponse;
  featured : expiring Tenor.PaginatedMediaResponse;
  requests : list TenorRequest.t;
  gifs : option (gmap string string);
  ulids : nat
}.
Definition set_cache (s : t) x : t :=
  mk (now s) x (categories s) (featured s) (requests s) (gifs s) (ulids s).
Definition set_categories (s : t) x : t :=
  mk (now s) (cache s) x (featured s) (requests s) (gifs s) (ulids s).
Definition set_featured (s : t) x : t :=
  mk (now s) (cache s) (categories s) x (requests s) (gifs s) (ulids s).
Definition set_requests (s : t) x : t :=
  mk (now s) (cache s) (categories s) (featured s) x (gifs s) (ulids s).
Definition set_gifs (s : t) x : t :=
  mk (now s) (cache s) (categories s) (featured s) (requests s) x (ulids s).
Definition set_ulids (s : t) x : t :=
  mk (now s) (cache s) (categories s) (featured s) (requests s) (gifs s) x.
(** [Tenor::new] *)
Definition new (now : Z) : t := mk now expiring_empty expiring_empty expiring_empty [] None 0.
End State.
End GifState.

Module TenorError.
Inductive t : Type := HttpError.
End TenorError.

(** Text helpers of the standard library, on bytes *)
Definition ascii_alphanumeric (c : ascii) : bool :=
  let n := nat_of_ascii c in
  ((48 <=? n) && (n <=? 57) || (65 <=? n) && (n <=? 90) || (97 <=? n) && (n <=? 122))%nat.
Fixpoint all_characters (f : ascii → bool) (s : string) : bool :=
  match s with EmptyString => true | String c s => f c && all_characters f s end.

(** [str::strip_suffix] *)
Fixpoint strip_suffix (suffix s : string) : option string :=
  if String.eqb s suffix then Some EmptyString else
  match s with
  | EmptyString => None
  | String c s => String c <$> strip_suffix suffix s
  end.
Definition ends_with (suffix s : string) : bool := bool_decide (is_Some (strip_suffix suffix s)).
(** [str::trim_end_matches], the length as fuel: each round drops the suffix once *)
Fixpoint trim_end_matches (fuel : nat) (suffix s : string) : string :=
  match fuel with
  | O => s
  | S fuel =>
      match strip_suffix suffix s with Some s => trim_end_matches fuel suffix s | None => s end
  end.

Section Gifbox.
Context `{Floats} {tenor_api : TenorApi} `{ExpiringCache, HashIter, Disk}.
Context (new_ulid : nat → string).
Abbreviation G := (M TenorError.t GifState.t).

(** ** The Tenor API ([tenor/mod.rs]) *)

(** [self.client.get(..).query(query).send()]: fields that are [None] are left out *)
Definition request {T} (decode : string → option T) (path : string)
    (query : list (option (string * string))) : G T :=
  λ s,
    let r := TenorRequest.mk path (omap id query) in
    let s' := GifState.set_requests s (GifState.requests s ++ [r]) in
    match send (GifState.requests s) r with
    | Some text => match decode text with Some value => (Ok value, s') | None => (Panicked, s') end
    | None => (Err TenorError.HttpError, s')
    end.

(** [condition.then_some(value)] *)
Definition then_some {A} (condition : bool) (value : A) : option A :=
  if condition then Some value else None.

(** Look in a cache: the key has to be in the first before the second is read. *)
Definition look_up {A B} (known : GifState.t → expiring A) (get : GifState.t → expiring B)
    (set : GifState.t → expiring B → GifState.t) (key : string) : G (option B) :=
  λ s,
    if expiring_contains_key key (GifState.now s) (known s) then
      let '(found, cache) := expiring_get key (GifState.now s) (get s) in (Ok found, set s cache)
    else (Ok None, s).

(** Ask Tenor, once for all who ask at the same time, and keep what it answers. *)
Definition ask {T} (decode : string → option T) (get : GifState.t → expiring T)
    (set : GifState.t → expiring T → GifState.t) (key path : string)
    (query : list (option (string * string))) : G T :=
  resp ← request decode path query;
  modify (λ s, set s (expiring_insert key resp (GifState.now s) (get s))) ;;
  mret resp.

Definition bool_to_string (b : bool) : string := if b then "true" else "false".

Definition search_key (query locale : string) (is_category : bool) (position : string) : string :=
  "s:" +:+ query +:+ ":" +:+ locale +:+ ":" +:+ bool_to_string is_category +:+ ":" +:+ position.
Definition search_query (key query locale : string) (limit : Z) (is_category : bool)
    (position : string) : list (option (string * string)) :=
  [Some ("key", key); Some ("q", query); Some ("client_key", "Gifbox");
   Some ("media_filter", "webm,tinywebm"); Some ("locale", locale); Some ("contentfilter", "high");
   Some ("limit", u32_to_string limit);
   then_some (bool_decide (position = "")) ("pos", position);
   then_some is_category ("component", "categories")].
Definition tenor_search (key query locale : string) (limit : Z) (is_category : bool)
    (position : string) : G Tenor.PaginatedMediaResponse :=
  let unique_key := search_key query locale is_category position in
  found ← look_up GifState.cache GifState.cache GifState.set_cache unique_key;
  match found with
  | Some response => mret response
  | None =>
      ask decode_media GifState.cache GifState.set_cache unique_key "/search"
        (search_query key query locale limit is_category position)
  end.

Definition categories_key (locale : string) : string := "c-" +:+ locale.
Definition tenor_categories (key locale : string) : G Tenor.CategoriesResponse :=
  let unique_key := categories_key locale in
  found ← look_up GifState.categories GifState.categories GifState.set_categories unique_key;
  match found with
  | Some response => mret response
  | None =>
      ask decode_categories GifState.categories GifState.set_categories unique_key "/categories"
        [Some ("key", key); Some ("client_key", "Gifbox"); Some ("locale", locale);
         Some ("contentfilter", "high")]
  end.

Definition featured_key (locale : string) (limit : Z) (position : string) : string :=
  "f-" +:+ locale +:+ "-" +:+ u32_to_string limit +:+ "-" +:+ position.
Definition featured_query (key locale : string) (limit : Z) (position : string) :
    list (option (string * string)) :=
  [Some ("key", key); Some ("client_key", "Gifbox"); Some ("media_filter", "webm,tinywebm");
   Some ("locale", locale); Some ("contentfilter", "high"); Some ("limit", u32_to_string limit);
   then_some (bool_decide (position = "")) ("pos", position)].
Definition tenor_featured (key locale : string) (limit : Z) (position : string) :
    G Tenor.PaginatedMediaResponse :=
  let unique_key := featured_key locale limit position in
  found ← look_up GifState.categories GifState.featured GifState.set_featured unique_key;
  match found with
  | Some response => mret response
  | None =>
      ask decode_media GifState.featured GifState.set_featured unique_key "/featured"
        (featured_query key locale limit position)
  end.

(** ** Routes *)

(** [.map_err(|_| create_error!(InternalError))] *)
Definition or_internal {A B} (f : A → B) (m : G A) : M ErrorType.t GifState.t B :=
  λ s, match m s with
       | (Ok a, s) => (Ok (f a), s)
       | (Err _, s) => (Err ErrorType.InternalError, s)
       | (Panicked, s) => (Panicked, s)
       end.

Definition route_search (key query locale : string) (limit : option Z) (is_category : option bool)
    (position : option string) : M ErrorType.t GifState.t PaginatedMediaResponse.t :=
  or_internal PaginatedMediaResponse.from
    (tenor_search key query locale (default 50%Z limit) (default false is_category)
       (default "" position)).
Definition route_trending (key locale : string) (limit : option Z) (position : option string) :
    M ErrorType.t GifState.t PaginatedMediaResponse.t :=
  or_internal PaginatedMediaResponse.from
    (tenor_featured key locale (default 50%Z limit) (default "" position)).
Definition route_categories (key locale : string) :
    M ErrorType.t GifState.t (list CategoryResponse.t) :=
  or_internal (λ r, CategoryResponse.from <$> Tenor.category_tags r) (tenor_categories key locale).

Definition MAX_GIF_SIZE : Z := 20 * 1024 * 1024.

(** The contents of the first part named "file" *)
Fixpoint upload_contents (parts : list (option Field.t)) : Result (option string) :=
  match parts with
  | [] => Ok None
  | None :: _ => Err ErrorType.InvalidOperation
  | Some field :: parts =>
      if negb (bool_decide (Field.name field = Some "file")) then upload_contents parts else
      if negb (bool_decide (Field.content_type field = Some "image/gif"))
      then Err ErrorType.InvalidOperation else
      match Field.bytes field with
      | None => Err ErrorType.InvalidOperation
      | Some bytes =>
          if bool_decide (bytes = "") then Err ErrorType.InvalidOperation else
          if (MAX_GIF_SIZE <? Z.of_nat (String.length bytes))%Z
          then Err (ErrorType.FileTooLarge MAX_GIF_SIZE) else Ok (Some bytes)
      end
  end.

(** An operation on the disk *)
Definition on_disk {A} (e : ErrorType.t) (f : option (gmap string string) → option (A * option (gmap string string))) :
    M ErrorType.t GifState.t A :=
  λ s,
    if disk_works (GifState.now s) then
      match f (GifState.gifs s) with
      | Some (a, gifs) => (Ok a, GifState.set_gifs s gifs)
      | None => (Err e, s)
      end
    else (Err e, s).

Definition upload (parts : list (option Field.t)) : M ErrorType.t GifState.t string :=
  contents ← lift (upload_contents parts);
  contents ← lift (ok_or contents ErrorType.InvalidOperation);
  n ← gets GifState.ulids;
  modify (λ s, GifState.set_ulids s (S n)) ;;
  let filename := new_ulid n +:+ ".gif" in
  on_disk ErrorType.InternalError (λ gifs, Some (tt, Some (default ∅ gifs))) ;;
  on_disk ErrorType.InternalError
    (λ gifs, (λ gifs, (tt, Some (<[filename := contents]> gifs))) <$> gifs) ;;
  mret ("/media/" +:+ filename).

(** The name of a file that can be asked for *)
Definition media_filename (filename : string) : bool :=
  match strip_suffix ".gif" filename with
  | Some stem => negb (String.length filename <? 5) && all_characters ascii_alphanumeric stem
  | None => false
  end.

(** The content, and the headers that are set *)
Definition media (filename : string) :
    M ErrorType.t GifState.t (string * list (string * string)) :=
  if negb (media_filename filename) then throw ErrorType.InvalidOperation else
  bytes ← on_disk ErrorType.NotFound (λ gifs, (λ b, (b, gifs)) <$> (default ∅ gifs !! filename));
  mret (bytes, [("Content-Type", "image/gif");
                ("Cache-Control", "public, max-age=31536000, immutable")]).

Definition recent_result (filename : string) : MediaResult.t :=
  let url := "/media/" +:+ filename in
  MediaResult.mk (trim_end_matches (String.length filename) ".gif" filename)
    {[ "gif" := MediaObject.mk url [] ]} url.

Definition recent (limit : option nat) : M ErrorType.t GifState.t PaginatedMediaResponse.t :=
  let limit := Nat.min (default 50 limit) 100 in
  entries ← on_disk ErrorType.InternalError
              (λ gifs, (λ g, ((hash_iter g).*1, Some g)) <$> gifs);
  let filenames := sort_by (λ left right, String.ltb right left)
                     (List.filter (ends_with ".gif") entries) in
  mret (PaginatedMediaResponse.mk (recent_result <$> take limit filenames) None).
End Gifbox.

(** ** Rate limits ([ratelimits.rs]) *)

(** [path.trim_matches('/').split_terminator('/').next()]: the first segment of a path *)
Fixpoint trim_start (s : string) : string :=
  match s with String "/"%char s => trim_start s | s => s end.
Definition first_segment (path : string) : option string :=
  match trim_start path with
  | EmptyString => None
  | s => head (split_at "/"%char s)
  end.
Definition resolve_bucket (path : string) : string :=
  match first_segment path with
  | Some segment =>
      if bool_decide (segment ∈ ["categories"; "trending"; "search"]) then segment else "any"
  | None => "any"
  end.
Definition resolve_bucket_limit (bucket : string) : Outcome Empty_set Z :=
  if bool_decide (bucket = "categories") then Ok 2%Z else
  if bool_decide (bucket = "trending") then Ok 5%Z else
  if bool_decide (bucket = "search") then Ok 10%Z else
  if bool_decide (bucket = "any") then Ok (2 ^ 32 - 1)%Z else Panicked.

(** ** What the service does over time *)

(** What clients ask for, and time that passes *)
Inductive GifRequest : Type :=
| Search (query locale : string) (limit : option Z) (is_category : option bool)
    (position : option string)
| Trending (locale : string) (limit : option Z) (position : option string)
| Categories (locale : string)
| Upload (parts : list (option Field.t))
| Media (filename : string)
| Recent (limit : option nat)
| Elapse (now : Z).

Section Serving.
Context `{Floats} {tenor_api : TenorApi} `{ExpiringCache, HashIter, Disk}.
Context (new_ulid : nat → string) (key : string).

Definition serve (s : GifState.t) (r : GifRequest) : GifState.t :=
  match r with
  | Search query locale limit is_category position =>
      (route_search key query locale limit is_category position s).2
  | Trending locale limit position => (route_trending key locale limit position s).2
  | Categories locale => (route_categories key locale s).2
  | Upload parts => (upload new_ulid parts s).2
  | Media filename => (media filename s).2
  | Recent limit => (recent limit s).2
  | Elapse now =>
      GifState.mk now (GifState.cache s) (GifState.categories s) (GifState.featured s)
        (GifState.requests s) (GifState.gifs s) (GifState.ulids s)
  end.
Definition serving : list GifRequest → GifState.t → GifState.t := fun rs s => fold_left serve rs s.

(** A way for the wrapper to change the state: ask Tenor, or change a cache *)
Definition asked (path : string) (query : list (option (string * string))) (s : GifState.t) :
    GifState.t :=
  GifState.set_requests s (GifState.requests s ++ [TenorRequest.mk path (omap id query)]).

Lemma look_up_state {A B} known (get : GifState.t → expiring B) set k s :
  (@look_up _ _ A B known get set k s).2 = s
  ∨ (@look_up _ _ A B known get set k s).2
    = set s (expiring_get k (GifState.now s) (get s)).2.
Proof. unfold look_up. destruct expiring_contains_key; [|by left]. destruct expiring_get; by right. Qed.

Lemma ask_state {T} decode (get : GifState.t → expiring T) set k path query s :
  (ask decode get set k path query s).2 = asked path query s
  ∨ ∃ v, (ask decode get set k path query s).2
         = set (asked path query s)
             (expiring_insert k v (GifState.now (asked path query s)) (get (asked path query s))).
Proof.
  unfold ask, request, mbind, M_bind, modify, mret, M_ret, asked.
  destruct (send _ _); [|by left]. destruct (decode _); [|by left]. right. eexists. reflexivity.
Qed.

Lemma or_internal_state {A B} (f : A → B) m s : (or_internal f m s).2 = (m s).2.
Proof. unfold or_internal. destruct (m s) as [[|[]|] ?]; reflexivity. Qed.

(** The requests the wrapper makes *)
Inductive wrapper_query : string → list (option (string * string)) → Prop :=
| SearchQuery query locale limit is_category position :
    wrapper_query "/search" (search_query key query locale limit is_category position)
| CategoriesQuery locale :
    wrapper_query "/categories"
      [Some ("key", key); Some ("client_key", "Gifbox"); Some ("locale", locale);
       Some ("contentfilter", "high")]
| FeaturedQuery locale limit position :
    wrapper_query "/featured" (featured_query key locale limit position).

(** What the wrapper keeps: it makes such requests, and changes caches. *)
Section Keeps.
Context (P : GifState.t → Prop)
  (keeps_asked : ∀ s path query, wrapper_query path query → P s → P (asked path query s))
  (keeps_cache : ∀ s x, P s → P (GifState.set_cache s x))
  (keeps_featured : ∀ s x, P s → P (GifState.set_featured s x))
  (keeps_got : ∀ s k,
     P s → P (GifState.set_categories s (expiring_get k (GifState.now s) (GifState.categories s)).2))
  (keeps_inserted : ∀ s locale v,
     P s → P (GifState.set_categories s
                (expiring_insert (categories_key locale) v (GifState.now s) (GifState.categories s)))).

Lemma route_search_keeps query locale limit is_category position s :
  P s → P (route_search key query locale limit is_category position s).2.
Proof.
  intros HP. unfold route_search. rewrite or_internal_state. unfold tenor_search.
  unfold mbind, M_bind at 1. pose proof (look_up_state GifState.cache GifState.cache
    GifState.set_cache (search_key query locale (default false is_category) (default "" position)) s)
    as Hl.
  destruct (look_up _ _ _ _ s) as [o s1]. cbn in Hl.
  assert (P s1) as HP1 by (destruct Hl as [->| ->]; auto).
  destruct o as [[v|]| |]; try done.
  match goal with |- P (ask ?d ?g ?f ?k ?p ?q s1).2 =>
    destruct (ask_state d g f k p q s1) as [->|[v ->]] end;
  auto using SearchQuery.
Qed.

Lemma route_trending_keeps locale limit position s :
  P s → P (route_trending key locale limit position s).2.
Proof.
  intros HP. unfold route_trending. rewrite or_internal_state. unfold tenor_featured.
  unfold mbind, M_bind at 1. pose proof (look_up_state GifState.categories GifState.featured
    GifState.set_featured (featured_key locale (default 50%Z limit) (default "" position)) s) as Hl.
  destruct (look_up _ _ _ _ s) as [o s1]. cbn in Hl.
  assert (P s1) as HP1 by (destruct Hl as [->| ->]; auto).
  destruct o as [[v|]| |]; try done.
  match goal with |- P (ask ?d ?g ?f ?k ?p ?q s1).2 =>
    destruct (ask_state d g f k p q s1) as [->|[v ->]] end;
  auto using FeaturedQuery.
Qed.

Lemma route_categories_keeps locale s : P s → P (route_categories key locale s).2.
Proof.
  intros HP. unfold route_categories. rewrite or_internal_state. unfold tenor_categories.
  unfold mbind, M_bind at 1. pose proof (look_up_state GifState.categories GifState.categories
    GifState.set_categories (categories_key locale) s) as Hl.
  destruct (look_up _ _ _ _ s) as [o s1]. cbn in Hl.
  assert (P s1) as HP1 by (destruct Hl as [->| ->]; auto).
  destruct o as [[v|]| |]; try done.
  match goal with |- P (ask ?d ?g ?f ?k ?p ?q s1).2 =>
    destruct (ask_state d g f k p q s1) as [->|[v ->]] end;
  auto using CategoriesQuery.
Qed.

Lemma serving_keeps rs s :
  (∀ s r, match r with Search _ _ _ _ _ | Trending _ _ _ | Categories _ => True
          | _ => P s → P (serve s r) end) →
  P s → P (serving rs s).
Proof.
  intros Hother. revert s. induction rs as [|r rs IH]; intros s HP; [done|]. apply IH.
  specialize (Hother s r).
  destruct r; cbn in *; auto using route_search_keeps, route_trending_keeps, route_categories_keeps.
Qed.
End Keeps.

(** Uploads and downloads change neither the caches nor what was sent to Tenor. *)
Lemma on_disk_others {A} e f s (a : Outcome _ A) s' :
  on_disk e f s = (a, s') → ∃ gifs, s' = GifState.set_gifs s gifs.
Proof.
  unfold on_disk. intros. exists (GifState.gifs s').
  repeat case_match; simplify_eq/=; (reflexivity || by destruct s').
Qed.

Lemma local_keeps (P : GifState.t → Prop) :
  (∀ s gifs, P s → P (GifState.set_gifs s gifs)) → (∀ s n, P s → P (GifState.set_ulids s n)) →
  (∀ s now, P s → P (serve s (Elapse now))) →
  ∀ s r, match r with Search _ _ _ _ _ | Trending _ _ _ | Categories _ => True
         | _ => P s → P (serve s r) end.
Proof.
  intros Hg Hu He s r. destruct r; auto; intros HP; cbn.
  - unfold upload, mbind, M_bind, lift, gets, modify, mret, M_ret.
    destruct (upload_contents parts) as [[c|]| |]; cbn; try done.
    destruct (on_disk _ _ (GifState.set_ulids s _)) as [o1 s1] eqn:E1.
    apply on_disk_others in E1 as [g1 ->]. destruct o1; cbn; auto.
    destruct (on_disk _ _ (GifState.set_gifs _ _)) as [o2 s2] eqn:E2.
    apply on_disk_others in E2 as [g2 ->]. destruct o2; cbn; auto.
  - unfold media. destruct (negb _); [done|]. unfold mbind, M_bind, mret, M_ret.
    destruct (on_disk _ _ s) as [o1 s1] eqn:E1. apply on_disk_others in E1 as [g1 ->].
    destruct o1; cbn; auto.
  - unfold recent, mbind, M_bind, mret, M_ret.
    destruct (on_disk _ _ s) as [o1 s1] eqn:E1. apply on_disk_others in E1 as [g1 ->].
    destruct o1; cbn; auto.
Qed.

(** The page to search on from is never sent to Tenor, although it is part of the key of the
    cache: clients that ask for the next page get the first one again. *)
Lemma pages_are_never_asked_for rs now r p :
  r ∈ GifState.requests (serving rs (GifState.new now)) → ("pos", p) ∈ TenorRequest.query r → p = "".
Proof.
  revert r p.
  apply (serving_keeps (λ s, ∀ r p, r ∈ GifState.requests s → ("pos", p) ∈ TenorRequest.query r → p = ""));
    [|done|done|done|done|by apply local_keeps|cbn; set_solver].
  intros s path query Hq IH r p [Hr|Hr%list_elem_of_singleton]%elem_of_app Hp; [by eapply IH|].
  subst r. cbn in Hp. destruct Hq; cbn in Hp.
  - unfold then_some in Hp. case_bool_decide; destruct is_category; cbn in Hp; set_solver.
  - set_solver.
  - unfold then_some in Hp. case_bool_decide; cbn in Hp; set_solver.
Qed.

Lemma categories_key_featured locale locale' limit position :
  categories_key locale ≠ featured_key locale' limit position.
Proof. done. Qed.

(** What is trending is asked of Tenor each time, although the answers are kept. *)
Lemma trending_is_always_asked rs now locale limit position s :
  s = serving rs (GifState.new now) →
  GifState.requests (serve s (Trending locale limit position))
  = GifState.requests s
    ++ [TenorRequest.mk "/featured"
          (omap id (featured_query key locale (default 50%Z limit) (default "" position)))].
Proof.
  intros ->.
  assert (∀ k v, holds (GifState.categories (serving rs (GifState.new now))) k v →
          ∃ locale, k = categories_key locale) as Hk.
  { apply (serving_keeps (λ s, ∀ k v, holds (GifState.categories s) k v →
             ∃ locale, k = categories_key locale)); try done.
    - intros s k IH k' v Hv%get_keeps. eauto.
    - intros s l v IH k' v' [[-> _]|Hv]%insert_holds; eauto.
    - by apply local_keeps.
    - intros k v Hv. by apply holds_empty in Hv. }
  cbn. unfold route_trending. rewrite or_internal_state. unfold tenor_featured.
  unfold mbind, M_bind at 1, look_up.
  destruct (expiring_contains_key _ _ _) eqn:E.
  { apply contains_holds in E as [v [l Hl]%Hk]. by apply eq_sym, categories_key_featured in Hl. }
  match goal with |- GifState.requests (ask ?d ?g ?f ?k ?p ?q ?s).2 = _ =>
    destruct (ask_state d g f k p q s) as [->|[v ->]] end; done.
Qed.

(** A search that was answered is answered from the cache while nothing else happens, whatever
    limit it gives. *)
Lemma searches_are_cached query locale limit limit' is_category position s s' answer :
  route_search key query locale limit is_category position s = (Ok answer, s') →
  ∃ s'', route_search key query locale limit' is_category position s' = (Ok answer, s'')
         ∧ GifState.requests s'' = GifState.requests s'.
Proof.
  set (k := search_key query locale (default false is_category) (default "" position)).
  assert (∀ s v, expiring_contains_key k (GifState.now s) (GifState.cache s) = true →
          (expiring_get k (GifState.now s) (GifState.cache s)).1 = Some v →
          ∃ s'', route_search key query locale limit' is_category position s
                 = (Ok (PaginatedMediaResponse.from v), s'')
                 ∧ GifState.requests s'' = GifState.requests s) as Hhit.
  { intros s1 v Hc Hg. unfold route_search, or_internal, tenor_search, look_up.
    fold k. unfold mbind, M_bind at 1. rewrite Hc.
    destruct (expiring_get k _ _) as [found c]. cbn in Hg. subst found. eexists; done. }
  unfold route_search at 1, or_internal, tenor_search, look_up. fold k.
  unfold mbind, M_bind at 1.
  destruct (expiring_contains_key k _ _) eqn:Hc; [destruct (expiring_get k _ _) as [[v|] c] eqn:Hg|].
  - cbn. intros [= <- <-]. apply Hhit; cbn.
    + pose proof (get_contains k v (GifState.now s) (GifState.cache s)) as Hin. rewrite Hg in Hin.
      by apply Hin.
    + pose proof (get_again k v (GifState.now s) (GifState.cache s)) as Hin. rewrite Hg in Hin.
      by apply Hin.
  - unfold ask, request, mbind, M_bind, modify, mret, M_ret.
    destruct (send _ _); [|done]. destruct (decode_media _); [|done]. cbn. intros [= <- <-].
    apply Hhit; cbn; [apply insert_contains|apply insert_get].
  - unfold ask, request, mbind, M_bind, modify, mret, M_ret.
    destruct (send _ _); [|done]. destruct (decode_media _); [|done]. cbn. intros [= <- <-].
    apply Hhit; cbn; [apply insert_contains|apply insert_get].
Qed.

(** *** Uploads *)

(** The names that can be asked for *)
Lemma string_length_app s t : String.length (s +:+ t) = (String.length s + String.length t)%nat.
Proof.
  induction s as [|c s IH]; [done|].
  change (S (String.length (s +:+ t)) = S (String.length s + String.length t)). by rewrite IH.
Qed.

Lemma strip_suffix_eq suffix s :
  strip_suffix suffix s
  = if String.eqb s suffix then Some "" else
    match s with "" => None | String c s => String c <$> strip_suffix suffix s end.
Proof. by destruct s. Qed.

Lemma strip_suffix_app suffix s : strip_suffix suffix (s +:+ suffix) = Some s.
Proof.
  induction s as [|c s IH]; rewrite strip_suffix_eq.
  - change ("" +:+ suffix) with suffix. by rewrite (String.eqb_refl suffix).
  - replace (String.eqb (String c s +:+ suffix) suffix) with false;
      [change (String c <$> strip_suffix suffix (s +:+ suffix) = Some (String c s)); by rewrite IH|].
    symmetry. apply String.eqb_neq. intros Heq. apply (f_equal String.length) in Heq.
    rewrite string_length_app in Heq. cbn in Heq. lia.
Qed.

Lemma strip_suffix_Some suffix s t : strip_suffix suffix s = Some t → s = t +:+ suffix.
Proof.
  revert t. induction s as [|c s IH]; intros t; rewrite strip_suffix_eq;
    (destruct (String.eqb _ _) eqn:E; [apply String.eqb_eq in E as <-; by intros [= <-]|]); [done|].
  destruct (strip_suffix suffix s) eqn:E'; [|done]. cbn. intros [= <-].
  change (String c s = String c (s0 +:+ suffix)). f_equal. by apply IH.
Qed.

Lemma media_filename_gif stem :
  stem ≠ "" → all_characters ascii_alphanumeric stem = true → media_filename (stem +:+ ".gif") = true.
Proof.
  intros Hne Hall. unfold media_filename. rewrite strip_suffix_app, Hall.
  rewrite string_length_app. destruct stem; [done|]. cbn.
  rewrite Nat.add_comm. done.
Qed.

(** What a client may read is a file directly in the directory. *)
Lemma media_stays_in_directory filename :
  media_filename filename = true →
  ∃ stem, filename = stem +:+ ".gif" ∧ stem ≠ "" ∧ all_characters ascii_alphanumeric stem = true.
Proof.
  unfold media_filename. destruct (strip_suffix _ filename) as [stem|] eqn:E; [|done].
  intros [Hl Ha]%andb_true_iff. apply strip_suffix_Some in E as ->. exists stem. split_and!; try done.
  intros ->. done.
Qed.

Context (ulid_alphanumeric : ∀ n, new_ulid n ≠ "" ∧ all_characters ascii_alphanumeric (new_ulid n) = true)
  (ulid_injective : ∀ n n', new_ulid n = new_ulid n' → n = n').

Definition kept (n : nat) (contents : string) (s : GifState.t) : Prop :=
  n < GifState.ulids s ∧ ∃ g, GifState.gifs s = Some g ∧ g !! (new_ulid n +:+ ".gif") = Some contents.

Lemma upload_keeps n contents parts s :
  kept n contents s → kept n contents (upload new_ulid parts s).2.
Proof.
  intros (Hn & g & Hg & Hf). unfold upload, mbind, M_bind, lift, gets, modify, mret, M_ret.
  destruct (upload_contents parts) as [[c|]| |]; cbn; [|split; cbn; eauto..].
  unfold on_disk. cbn. destruct (disk_works _) eqn:Hd; cbn; [|split; cbn; [lia|eauto]].
  rewrite Hg. cbn. rewrite Hd. cbn. split; cbn; [lia|]. eexists. split; [done|].
  rewrite lookup_insert_ne; [done|]. intros Heq.
  apply (f_equal (strip_suffix ".gif")) in Heq. rewrite !strip_suffix_app in Heq.
  injection Heq as Heq. apply ulid_injective in Heq. lia.
Qed.

Lemma serving_kept rs n contents s : kept n contents s → kept n contents (serving rs s).
Proof.
  apply (serving_keeps (kept n contents)); try done. intros s1 r.
  destruct r; try done; intros HK; cbn.
  - by apply upload_keeps.
  - unfold media. destruct (negb _); [done|]. unfold mbind, M_bind, mret, M_ret, on_disk.
    destruct (disk_works _); [|done]. destruct (_ <$> _) as [[? ?]|] eqn:E; [|done].
    destruct (_ !! _); cbn in E; [|done]. by injection E as <- <-.
  - unfold recent, mbind, M_bind, mret, M_ret, on_disk.
    destruct (disk_works _); [|done]. destruct (_ <$> _) as [[? ?]|] eqn:E; [|done].
    destruct (GifState.gifs s1) eqn:E1; cbn in E; [|done]. injection E as <- <-.
    unfold kept in *. cbn. by rewrite E1 in HK.
Qed.

(** An uploaded image can be asked for at any later time, whatever else is asked of the service:
    its contents are what was uploaded. *)
Theorem uploads_are_kept rs parts s url s' :
  upload new_ulid parts s = (Ok url, s') →
  ∃ contents filename,
    upload_contents parts = Ok (Some contents) ∧ url = "/media/" +:+ filename
    ∧ let s := serving rs s' in
      disk_works (GifState.now s) = true →
      media filename s
      = (Ok (contents, [("Content-Type", "image/gif");
                        ("Cache-Control", "public, max-age=31536000, immutable")]), s).
Proof.
  intros Hup.
  assert (∃ contents, upload_contents parts = Ok (Some contents)
            ∧ url = "/media/" +:+ new_ulid (GifState.ulids s) +:+ ".gif"
            ∧ kept (GifState.ulids s) contents s') as (contents & Hc & -> & Hkept).
  { revert Hup. unfold upload, mbind, M_bind, lift, gets, modify, mret, M_ret.
    destruct (upload_contents parts) as [[c|]| |]; cbn; try done. unfold on_disk. cbn.
    destruct (disk_works _); cbn; [|done]. destruct (disk_works _); cbn; [|done].
    intros [= <- <-]. exists c. split_and!; try done. split; cbn; [lia|].
    eexists; split; [done|]. apply lookup_insert_eq. }
  exists contents, (new_ulid (GifState.ulids s) +:+ ".gif"). split_and!; try done.
  set (n := GifState.ulids s) in *. cbn. intros Hd.
  destruct (serving_kept rs n contents s' Hkept) as [_ (g & Hg & Hf)].
  unfold media. destruct (ulid_alphanumeric n) as [Hne Ha]. rewrite media_filename_gif by done.
  cbn. unfold mbind, M_bind, on_disk. rewrite Hd, Hg. cbn. rewrite Hf. cbn.
  destruct (serving rs s'); cbn in *. by rewrite Hg.
Qed.
End Serving.

(** ** Examples *)

Module GifSample.
#[local] Existing Instance canonical_iter.
#[global] Instance floats : Floats := {| f64 := unit |}.

(** Tenor answers each request with a page that has the number of requests before it as title. *)
Definition page (answer : string) : Tenor.PaginatedMediaResponse :=
  Tenor.mk_page
    [Tenor.mk_response tt false "1" ∅ [] answer "" "" false [] None "https://tenor.com/view/1"] "p2".
#[global] Instance tenor_api : TenorApi := {|
  send before _ := Some (u32_to_string (Z.of_nat (length before)));
  decode_media answer := Some (page answer);
  decode_categories answer :=
    Some (Tenor.mk_categories "en" [Tenor.mk_category "hello" "/search" "hello.gif" answer])
|}.

Lemma map_insert {A} k (v : A) (c : gmap string A) k' v' :
  <[k := v]> c !! k' = Some v' → (k' = k ∧ v' = v) ∨ c !! k' = Some v'.
Proof. intros [[-> ->]|[]]%lookup_insert_Some; auto. Qed.
Lemma map_contains {A} k (c : gmap string A) :
  bool_decide (is_Some (c !! k)) = true → ∃ v, c !! k = Some v.
Proof. by intros ?%bool_decide_eq_true. Qed.
Lemma map_insert_contains {A} k (v : A) (c : gmap string A) :
  bool_decide (is_Some (<[k := v]> c !! k)) = true.
Proof. rewrite lookup_insert_eq. by apply bool_decide_eq_true. Qed.
Lemma map_insert_get {A} k (v : A) (c : gmap string A) : <[k := v]> c !! k = Some v.
Proof. apply lookup_insert_eq. Qed.
Lemma map_get_contains {A} k (v : A) (c : gmap string A) :
  c !! k = Some v → bool_decide (is_Some (c !! k)) = true.
Proof. intros ->. by apply bool_decide_eq_true. Qed.

(** A cache nothing expires from *)
#[global] Instance cache : ExpiringCache := {|
  expiring A := gmap string A;
  expiring_empty A := ∅;
  expiring_contains_key A k _ c := bool_decide (is_Some (c !! k));
  expiring_get A k _ c := (c !! k, c);
  expiring_insert A k v _ c := <[k := v]> c;
  holds A c k v := c !! k = Some v;
  holds_empty A k v := ltac:(cbn; rewrite lookup_empty; discriminate);
  contains_holds A k _ c := map_contains k c;
  get_holds A k _ c v E := E;
  get_keeps A k _ c k' v E := E;
  insert_holds A k v _ c k' v' := map_insert k v c k' v';
  insert_contains A k v _ c := map_insert_contains k v c;
  insert_get A k v _ c := map_insert_get k v c;
  get_contains A k v _ c := map_get_contains k v c;
  get_again A k v _ c E := E
|}.
#[global] Instance disk : Disk := {| disk_works now := bool_decide (now ≠ 0%Z) |}.

(** Ids of different lengths *)
Fixpoint ulid (n : nat) : string := match n with O => "0" | S n => String "0" (ulid n) end.
Lemma ulid_alphanumeric n : ulid n ≠ "" ∧ all_characters ascii_alphanumeric (ulid n) = true.
Proof. split; [by destruct n|]. by induction n. Qed.
Lemma ulid_injective n n' : ulid n = ulid n' → n = n'.
Proof. revert n'. induction n; destruct n'; cbn; intros [=]; auto; destruct n || destruct n'; done. Qed.

Definition gif (contents : string) : list (option Field.t) :=
  [Some (Field.mk (Some "name") None (Some "x")); Some (Field.mk (Some "file") (Some "image/gif") (Some contents))].

Lemma uploads_are_kept_witness :
  let '(url, s) := upload ulid (gif "GIF89a") (GifState.new 1) in
  url = Ok "/media/0.gif"
  ∧ let s := serving ulid "key"
               [Upload (gif "GIF87a"); Media "0.gif"; Trending "en" None None; Elapse 60%Z] s in
    (media "0.gif" s).1
    = Ok ("GIF89a", [("Content-Type", "image/gif");
                     ("Cache-Control", "public, max-age=31536000, immutable")]).
Proof.
  destruct (upload ulid (gif "GIF89a") (GifState.new 1)) as [url s] eqn:E.
  assert (url = Ok "/media/0.gif") as -> by (by injection E as <- _). split; [done|].
  destruct (uploads_are_kept ulid "key" ulid_alphanumeric ulid_injective
    [Upload (gif "GIF87a"); Media "0.gif"; Trending "en" None None; Elapse 60%Z] _ _ _ _ E)
    as (contents & filename & Hc & Hf & Hm).
  injection Hc as <-. assert (filename = "0.gif") as -> by (vm_compute in Hf; by injection Hf as <-).
  cbn zeta in Hm |- *. rewrite Hm; [done|]. injection E as <-. reflexivity.
Defined.

(** Asking for the second page gives what was answered to another request for the first one. *)
Lemma second_page_is_asked_as_the_first :
  GifState.requests (serving ulid "key" [Search "cat" "en" None None (Some "p2")] (GifState.new 1))
  = [TenorRequest.mk "/search"
       [("key", "key"); ("q", "cat"); ("client_key", "Gifbox"); ("media_filter", "webm,tinywebm");
        ("locale", "en"); ("contentfilter", "high"); ("limit", "50")]].
Proof. reflexivity. Qed.

(** Asked twice for what is trending, the service asks Tenor twice. *)
Lemma trending_is_asked_twice :
  length (GifState.requests
            (serving ulid "key" [Trending "en" None None; Trending "en" None None] (GifState.new 1)))
  = 2%nat.
Proof. reflexivity. Qed.

(** Asked for fewer results, the service answers with those of the other limit. *)
Lemma limit_is_not_part_of_the_key :
  length (GifState.requests
            (serving ulid "key" [Search "cat" "en" (Some 50%Z) None None;
                                 Search "cat" "en" (Some 1%Z) None None] (GifState.new 1)))
  = 1%nat.
Proof. reflexivity. Qed.
End GifSample.
