(* ===== verification/ServerRoutes.v ===== *)
(** * Routes for servers

    The routes of [delta/src/routes/servers]: creating, editing, deleting and leaving
    servers, their channels, members, bans, roles and permissions. Each route is the whole
    handler, from the validation of the request to the entry in the audit log and the voice
    channels that are updated. The theorems say what each request needs, and that nobody
    acts on members and roles that are not ranked below them. *)

From stdpp Require Import base list gmap strings sorting.
From Stdlib Require Import ZArith Lia.
From S2P Require Import Prelude Errors Permissions PermissionSpec Files Users Servers Channels.
From S2P Require Import PermissionQuery Messages Unreads Config Emojis Webhooks Bots AuditLogs.
From S2P Require Import World Database PermissionTheorems Relationships MessageOps ChannelOps.
From S2P Require Import ServerOps References Authors Redis Acker MessageCreate MessageTheorems MessageRoutes Voice.

(** ** Requests *)

Module DataBanCreate.
Record t : Type := mk { reason : option string; delete_message_seconds : option Z }.
Definition valid `{Validator} (d : t) : bool :=
  valid_option (valid_length 0 1024) (reason d) &&
  valid_option (λ s, (0 <=? s)%Z && (s <=? 604800)%Z) (delete_message_seconds d).
End DataBanCreate.

Module DataCreateRole.
Record t : Type := mk { name : string; rank : option Z }.
Definition valid `{Validator} (d : t) : bool := valid_length 1 32 (name d).
End DataCreateRole.

Module DataEditRole.
Record t : Type := mk {
  name : option string;
  colour : option string;
  hoist : option bool;
  rank : option Z;
  icon : option string;
  remove : list FieldsRole.t
}.
Definition valid `{Validator} (d : t) : bool :=
  valid_option (valid_length 1 32) (name d) &&
  valid_option (λ s, valid_length 1 128 s && is_match "RE_COLOUR" s) (colour d) &&
  valid_option (valid_length 1 128) (icon d).
End DataEditRole.

Module DataEditServer.
Record t : Type := mk {
  name : option string;
  description : option string;
  announcement : option string;
  icon : option string;
  banner : option string;
  categories : option (list Category.t);
  system_messages : option SystemMessageChannels.t;
  flags : option Z;
  discoverable : option bool;
  analytics : option bool;
  owner : option string;
  remove : list FieldsServer.t
}.
Definition valid `{Validator} (d : t) : bool :=
  valid_option (valid_length 1 32) (name d) &&
  valid_option (valid_length 0 1024) (description d) &&
  valid_option (valid_length 0 1024) (announcement d) &&
  valid_option (forallb (λ c, valid_length 1 32 (Category.id c) && valid_length 1 32 (Category.title c)))
    (categories d).
End DataEditServer.

Module DataMemberEdit.
Record t : Type := mk {
  nickname : option string;
  pronouns : option string;
  avatar : option string;
  roles : option (list string);
  timeout : option Z;
  can_publish : option bool;
  can_receive : option bool;
  voice_channel : option string;
  remove : list FieldsMember.t
}.
Definition valid `{Validator} (d : t) : bool :=
  valid_option (valid_length 1 32) (nickname d) && valid_option (valid_length 1 24) (pronouns d).

(** [data.field.is_some()] and [data.remove.contains(field)] *)
Definition removes (d : t) (field : FieldsMember.t) : bool := bool_decide (field ∈ remove d).
End DataMemberEdit.

Definition valid_create_server `{Validator} (d : DataCreateServer.t) : bool :=
  valid_length 1 32 (DataCreateServer.name d) &&
  valid_option (valid_length 0 1024) (DataCreateServer.description d) &&
  valid_option (valid_length 0 1024) (DataCreateServer.announcement d).
Definition valid_create_channel `{Validator} (d : DataCreateServerChannel.t) : bool :=
  valid_length 1 32 (DataCreateServerChannel.name d) &&
  valid_option (valid_length 0 1024) (DataCreateServerChannel.description d).

(** [Ulid::from_datetime(time)], with random bits: the [n]-th id the process generates *)
Class UlidAt := ulid_from_datetime : Z → nat → string.

Definition is_some {A} (o : option A) : bool := bool_decide (is_Some o).

Section Routes.
Context `{Environment, MutualIds, HashIter, Validator, Redis, RedisCommands, VoiceClient, UlidAt}.
Context `{Broker, OptionalStruct Server.t PartialServer.t, OptionalStruct Role.t PartialRole.t,
          OptionalStruct Member.t PartialMember.t}.
Abbreviation Query := (DatabasePermissionQuery.t ReferenceDb.t).

(** ** Shared steps *)

(** [calculate_server_permissions(&mut query).await.throw_if_lacking_channel_permission(..)?] *)
Definition require_in_server (user : User.t) (server : Server.t)
    (permission : ChannelPermission.t) : H (PermissionValue.t * Query) :=
  found ← query_server user server;
  require found.1 permission ;;
  mret found.

(** [query.get_member_rank().unwrap_or(i64::MIN)] *)
Definition our_rank (query : Query) : Result Z :=
  rank ← get_member_rank query; Ok (default (- 2 ^ 63)%Z rank).

(** [member.get_ranking(query.server_ref().as_ref().unwrap())] *)
Definition their_rank (query : Query) (member : Member.t) : Result Z :=
  server ← unwrap (DatabasePermissionQuery.server query);
  Ok (Member.get_ranking member server).

(** [query.are_we_a_member().await] on a new query for the server *)
Definition are_we_member (user : User.t) (server : Server.t) : H (bool * Query) :=
  query ← perms user;
  ask are_we_a_member (DatabasePermissionQuery.with_server query (Some server)).

(** The loop that updates the permissions of participants after a change to a server *)
Definition sync_channels (server : Server.t) (role_id : option string) : H unit :=
  for_each (Server.channels server) (λ channel_id,
    channel ← Reference.as_channel channel_id;
    sync_voice_permissions channel (Some server) role_id).

(** If the user is in a voice channel of the server, remove them from it. *)
Definition remove_from_voice (server : Server.t) (user_id : string) : H unit :=
  channel_id ← get_user_voice_channel_in_server user_id (Server.id server);
  match channel_id with
  | Some channel_id =>
      remove_user_from_voice_channel
        (UserVoiceChannel.mk channel_id (Some (Server.id server))) user_id
  | None => mret tt
  end.

(** ** Bans and kicks *)

(** Ban User *)
Definition ban (user : User.t) (reason : option string) (server target : string)
    (data : DataBanCreate.t) : H ServerBan.t :=
  validate DataBanCreate.valid data ;;
  server ← Reference.as_server server;
  if bool_decide (target = User.id user) then throw ErrorType.CannotRemoveYourself else
  if bool_decide (target = Server.owner server) then throw ErrorType.InvalidOperation else
  found ← require_in_server user server ChannelPermission.BanMembers;
  member ← attempt (Reference.as_member target (Server.id server));
  match member with
  | Some member =>
      theirs ← lift (their_rank found.2 member);
      ours ← lift (our_rank found.2);
      if (theirs <=? ours)%Z then throw ErrorType.NotElevated else
      remove_member member server RemovalIntention.Ban false ;;
      remove_from_voice server target
  | None => mret tt
  end ;;
  match DataBanCreate.delete_message_seconds data with
  | Some seconds =>
      if (0 <? seconds)%Z then
        now ← clock;
        n ← gets World.ulids;
        modify (λ w, World.set_ulids w (S n)) ;;
        bulk_delete_by_author_since (Server.channels server) target
          (ulid_from_datetime (now - seconds * 10 ^ 9) n)
      else mret tt
  | None => mret tt
  end ;;
  ban ← create_ban server target (DataBanCreate.reason data);
  audit (AuditLogEntryAction.BanCreate target) (Server.id server)
    (match reason with Some r => Some r | None => DataBanCreate.reason data end)
    (User.id user) (Some target) ;;
  mret ban.

(** Fetch Bans *)
Definition ban_list (user : User.t) (target : string) : H (list V0User.t * list ServerBan.t) :=
  server ← Reference.as_server target;
  require_in_server user server ChannelPermission.BanMembers ;;
  bans ← on_bans (BansTable.fetch_bans (Server.id server));
  users ← on_users (UsersTable.fetch_users
            ((λ b, MemberCompositeKey.user (ServerBan.id b)) <$> bans));
  users ← lift (collect (λ u, into_self u false) users);
  mret (users, bans).

(** Unban user *)
Definition unban (user : User.t) (reason : option string) (server target : string) : H unit :=
  server ← Reference.as_server server;
  require_in_server user server ChannelPermission.BanMembers ;;
  ban ← Reference.as_ban target (Server.id server);
  on_bans (BansTable.delete_ban (ServerBan.id ban)) ;;
  audit (AuditLogEntryAction.BanDelete target) (Server.id server) reason (User.id user)
    (Some target) ;;
  mret tt.

(** Kick Member *)
Definition kick (user : User.t) (reason : option string) (server_id member_id : string) : H unit :=
  server ← Reference.as_server server_id;
  if bool_decide (member_id = User.id user) then throw ErrorType.CannotRemoveYourself else
  if bool_decide (member_id = Server.owner server) then throw ErrorType.InvalidOperation else
  found ← require_in_server user server ChannelPermission.KickMembers;
  member ← Reference.as_member member_id (Server.id server);
  theirs ← lift (their_rank found.2 member);
  ours ← lift (our_rank found.2);
  if (theirs <=? ours)%Z then throw ErrorType.NotElevated else
  remove_member member server RemovalIntention.Kick false ;;
  audit (AuditLogEntryAction.MemberKick (MemberCompositeKey.user (Member.id member)))
    (Server.id server) reason (User.id user)
    (Some (MemberCompositeKey.user (Member.id member))) ;;
  remove_from_voice server member_id.

(** ** Channels *)

(** Create Channel *)
Definition route_create_server_channel (user : User.t) (reason : option string) (server : string)
    (data : DataCreateServerChannel.t) : H Channel.t :=
  validate valid_create_channel data ;;
  server ← Reference.as_server server;
  require_in_server user server ChannelPermission.ManageChannel ;;
  created ← create_server_channel server data true;
  audit (AuditLogEntryAction.ChannelCreate (Channel.id created.1) (DataCreateServerChannel.name data))
    (Server.id created.2) reason (User.id user) None ;;
  mret created.1.

(** ** Roles *)

(** Create Role *)
Definition route_create_role (user : User.t) (reason : option string) (target : string)
    (data : DataCreateRole.t) : H Role.t :=
  validate DataCreateRole.valid data ;;
  server ← Reference.as_server target;
  require_in_server user server ChannelPermission.ManageRole ;;
  if bool_decide (GlobalLimits.server_roles global_limits ≤ size (Server.roles server))%nat
  then throw (ErrorType.TooManyRoles (Z.of_nat (GlobalLimits.server_roles global_limits))) else
  role ← create_role server (DataCreateRole.name data);
  audit (AuditLogEntryAction.RoleCreate (Role.id role) (Role.name role)) (Server.id server) reason
    (User.id user) None ;;
  mret role.

(** Delete Role; the role is taken out of the caller's copy of the server *)
Definition route_delete_role (user : User.t) (reason : option string) (target role_id : string) :
    H unit :=
  server ← Reference.as_server target;
  found ← require_in_server user server ChannelPermission.ManageRole;
  member_rank ← lift (our_rank found.2);
  role ← lift (ok_or (Server.roles server !! role_id) ErrorType.NotFound);
  let server := Server.set_roles server (delete role_id (Server.roles server)) in
  if (Role.rank role <=? member_rank)%Z then throw ErrorType.NotElevated else
  delete_role role (Server.id server) ;;
  audit (AuditLogEntryAction.RoleDelete role_id (Role.name role)) (Server.id server) reason
    (User.id user) None ;;
  sync_channels server (Some role_id).

(** Edit Role *)
Definition route_edit_role (user : User.t) (reason : option string) (target role_id : string)
    (data : DataEditRole.t) : H Role.t :=
  validate DataEditRole.valid data ;;
  server ← Reference.as_server target;
  found ← require_in_server user server ChannelPermission.ManageRole;
  member_rank ← lift (our_rank found.2);
  match Server.roles server !! role_id with
  | Some role =>
      let server := Server.set_roles server (delete role_id (Server.roles server)) in
      if (Role.rank role <=? member_rank)%Z then throw ErrorType.NotElevated else
      let remove := DataEditRole.remove data in
      match Role.icon role with
      | Some existing_icon =>
          if bool_decide (FieldsRole.Icon ∈ remove)
          then on_files (FilesTable.mark_attachment_as_deleted (File.id existing_icon)) else mret tt
      | None => mret tt
      end ;;
      final_icon ← match DataEditRole.icon data with
                   | Some icon_id =>
                       file ← on_files (UseFile.use_role_icon icon_id role_id (User.id user));
                       mret (Some file)
                   | None => mret None
                   end;
      let partial := PartialRole.mk None (DataEditRole.name data) None (DataEditRole.colour data)
                       (DataEditRole.hoist data) None final_icon in
      let before := Role.generate_diff role partial remove in
      role ← update_role role (Server.id server) partial remove;
      audit (AuditLogEntryAction.RoleEdit role_id before partial) (Server.id server) reason
        (User.id user) None ;;
      sync_channels server (Some role_id) ;;
      mret role
  | None => throw ErrorType.NotFound
  end.

(** [l.iter().position(|x| x == id)] *)
Definition position (id : string) (l : list string) : option nat :=
  fst <$> list_find (λ x, x = id) l.

(** A role the member may not reorder *)
Definition above (top_rank : option Z) (role : Role.t) : bool :=
  match top_rank with Some top_rank => (Role.rank role <=? top_rank)%Z | None => true end.

(** Edit Role Positions *)
Definition edit_role_ranks (user : User.t) (reason : option string) (target : string)
    (ranks : list string) : H Server.t :=
  server ← Reference.as_server target;
  found ← require_in_server user server ChannelPermission.ManageRole;
  let existing_order := (Server.ordered_roles server).*1 in
  let new_order := ranks in
  if negb (bool_decide (length ranks = size (Server.roles server))) ||
     negb (forallb (λ e, bool_decide (e.1 ∈ ranks)) (hash_iter (Server.roles server)))
  then throw ErrorType.InvalidOperation else
  (if negb (bool_decide (Server.owner server = User.id user)) then
     member_top_rank ← lift (get_member_rank found.2);
     if existsb (λ e, negb (bool_decide (position e.1 existing_order = position e.1 new_order)))
          (List.filter (λ e, above member_top_rank e.2) (hash_iter (Server.roles server)))
     then throw ErrorType.NotElevated else mret tt
   else mret tt) ;;
  server ← set_role_ordering server new_order;
  audit (AuditLogEntryAction.RolesReorder existing_order new_order) (Server.id server) reason
    (User.id user) None ;;
  sync_channels server None ;;
  mret server.

(** Fetch Role *)
Definition route_fetch_role (user : User.t) (target role_id : string) : H Role.t :=
  server ← Reference.as_server target;
  member ← are_we_member user server;
  if negb member.1 then throw ErrorType.NotFound else
  lift (ok_or (Server.roles server !! role_id) ErrorType.NotFound).

(** ** Permissions *)

(** Set Role Permission *)
Definition route_set_role_permission (user : User.t) (reason : option string)
    (target role_id : string) (permissions : Override.t) : H Server.t :=
  server ← Reference.as_server target;
  role ← lift (ok_or (Server.roles server !! role_id) ErrorType.NotFound);
  let current_value := Role.permissions role in
  found ← require_in_server user server ChannelPermission.ManagePermissions;
  ours ← lift (our_rank found.2);
  if (Role.rank role <=? ours)%Z then throw ErrorType.NotElevated else
  lift (PermissionValue.throw_permission_override found.1
          (Some (OverrideField.into_override current_value)) permissions) ;;
  let override_field := OverrideField.from_override permissions in
  server ← set_server_role_permission server role_id override_field;
  audit (AuditLogEntryAction.RoleEdit role_id
           (PartialRole.mk None None (Some current_value) None None None None)
           (PartialRole.mk None None (Some override_field) None None None None))
    (Server.id server) reason (User.id user) None ;;
  sync_channels server (Some role_id) ;;
  mret server.

(** The partial server with its default permissions *)
Definition partial_default_permissions (v : Z) : PartialServer.t :=
  PartialServer.mk None None None None None None None None None (Some v) None None None None None
    None None.

(** Set Default Permission *)
Definition set_default_server_permissions (user : User.t) (reason : option string)
    (target : string) (permissions : Z) : H Server.t :=
  server ← Reference.as_server target;
  found ← require_in_server user server ChannelPermission.ManagePermissions;
  lift (PermissionValue.throw_permission_override found.1 None (Override.mk permissions 0)) ;;
  let partial := partial_default_permissions (as_i64 permissions) in
  let before := Server.generate_diff server partial [] in
  server ← update_server server partial [];
  audit (AuditLogEntryAction.ServerEdit before partial) (Server.id server) reason (User.id user)
    None ;;
  sync_channels server None ;;
  mret server.

(** ** Members *)

(** [.map_err(|_| e)] *)
Definition map_err {A} (m : H A) (e : ErrorType.t) : H A :=
  λ w, match m w with (Err _, w') => (Err e, w') | r => r end.

(** The permissions an edit of a member needs, field by field *)
Definition check_member_edit (user : User.t) (member : Member.t)
    (permissions target_permissions : PermissionValue.t) (data : DataMemberEdit.t) : Result unit :=
  let lacking := PermissionValue.throw_if_lacking_channel_permission permissions in
  let removes := DataMemberEdit.removes data in
  let own := bool_decide (User.id user = MemberCompositeKey.user (Member.id member)) in
  (if is_some (DataMemberEdit.nickname data) || removes FieldsMember.Nickname
   then if own then lacking ChannelPermission.ChangeNickname
        else lacking ChannelPermission.ManageNicknames
   else Ok tt) ;;
  (if is_some (DataMemberEdit.pronouns data) || removes FieldsMember.Pronouns
   then if own then Ok tt else Err ErrorType.InvalidOperation else Ok tt) ;;
  (if is_some (DataMemberEdit.avatar data) || removes FieldsMember.Avatar
   then if own then lacking ChannelPermission.ChangeAvatar
        else if removes FieldsMember.Avatar then lacking ChannelPermission.RemoveAvatars
        else Err ErrorType.InvalidOperation
   else Ok tt) ;;
  (if is_some (DataMemberEdit.roles data) || removes FieldsMember.Roles
   then lacking ChannelPermission.AssignRoles else Ok tt) ;;
  (if is_some (DataMemberEdit.timeout data) || removes FieldsMember.Timeout then
     (if is_some (DataMemberEdit.timeout data) then
        if own then Err ErrorType.CannotTimeoutYourself else
        if PermissionValue.has_channel_permission target_permissions ChannelPermission.TimeoutMembers
        then Err ErrorType.IsElevated else Ok tt
      else Ok tt) ;;
     lacking ChannelPermission.TimeoutMembers
   else Ok tt) ;;
  (if is_some (DataMemberEdit.can_publish data)
   then lacking ChannelPermission.MuteMembers else Ok tt) ;;
  (if is_some (DataMemberEdit.can_receive data)
   then lacking ChannelPermission.DeafenMembers else Ok tt) ;;
  (if is_some (DataMemberEdit.voice_channel data) && removes FieldsMember.VoiceChannel
   then Err ErrorType.InvalidOperation else Ok tt) ;;
  (if is_some (DataMemberEdit.voice_channel data) || removes FieldsMember.VoiceChannel then
     if negb is_enabled then Err ErrorType.LiveKitUnavailable else
     if negb own then lacking ChannelPermission.MoveMembers else Ok tt
   else Ok tt).

(** The voice channel a member is moved to: it has to be one of the server that the acting
    user can connect to, and the member has to be in a voice channel *)
Definition find_new_channel (query : Query) (server : Server.t) (target_user : User.t)
    (member : Member.t) (voice_channel : option string) : H (option Channel.t) :=
  match voice_channel with
  | Some new_channel =>
      channel ← map_err (Reference.as_channel new_channel) ErrorType.UnknownChannel;
      if match Channel.server channel with
         | Some v => negb (bool_decide (v = MemberCompositeKey.server (Member.id member)))
         | None => true
         end
      then throw ErrorType.UnknownChannel else
      found ← ask calculate_channel_permissions
                (DatabasePermissionQuery.with_channel query (Some channel));
      require found.1 ChannelPermission.Connect ;;
      current ← get_user_voice_channel_in_server (User.id target_user) (Server.id server);
      if bool_decide (current = None) then throw ErrorType.NotConnected else mret (Some channel)
  | None => mret None
  end.

(** The loop over the roles that are added: each has to be ranked below us. The roles are
    taken out of the caller's copy of the server. *)
Fixpoint check_added_roles (our_ranking : Z) (added : list string) (roles : gmap string Role.t) :
    Result (gmap string Role.t) :=
  match added with
  | [] => Ok roles
  | role_id :: added =>
      match roles !! role_id with
      | Some role =>
          if (Role.rank role <=? our_ranking)%Z then Err ErrorType.NotElevated
          else check_added_roles our_ranking added (delete role_id roles)
      | None => Err ErrorType.InvalidRole
      end
  end.

Definition check_roles (our_ranking : Z) (member : Member.t) (server : Server.t)
    (roles : option (list string)) : Result Server.t :=
  match roles with
  | Some roles =>
      let added := hash_set_iter (list_to_set roles ∖ list_to_set (Member.roles member)) in
      left ← check_added_roles our_ranking added (Server.roles server);
      Ok (Server.set_roles server left)
  | None => Ok server
  end.

(** Move a member from the voice channel they are in to another one *)
Definition move_to_channel (target_user : User.t) (server : Server.t)
    (new_voice_channel : Channel.t) : H unit :=
  current ← get_user_voice_channel_in_server (User.id target_user) (Server.id server);
  match current with
  | Some channel =>
      old_node ← get_channel_node channel;
      old_node ← lift (unwrap old_node);
      node ← get_channel_node (Channel.id new_voice_channel);
      new_node ← match node with
                 | Some node => mret node
                 | None => set_channel_node (Channel.id new_voice_channel) old_node ;; mret old_node
                 end;
      let new_user_voice_channel := UserVoiceChannel.from_channel new_voice_channel in
      let old_user_voice_channel :=
        UserVoiceChannel.mk channel (UserVoiceChannel.server_id new_user_voice_channel) in
      set_user_moved_from_voice channel new_user_voice_channel (User.id target_user) ;;
      set_user_moved_to_voice (Channel.id new_voice_channel) old_user_voice_channel
        (User.id target_user) ;;
      permissions ← channel_permissions target_user new_voice_channel;
      create_room new_node new_voice_channel ;;
      token ← create_token new_node target_user permissions new_voice_channel;
      remove_user old_node (User.id target_user) channel ;;
      private (EventV1.UserMoveVoiceChannel new_node channel (Channel.id new_voice_channel) token)
        (User.id target_user)
  | None => mret tt
  end.

(** Apply the new permissions to speak and listen to the voice channel of the member; it is
    the acting user who is synchronised. *)
Definition sync_publishing (user target_user : User.t) (server : Server.t) : H unit :=
  current ← get_user_voice_channel_in_server (User.id target_user) (Server.id server);
  match current with
  | Some channel =>
      node ← get_channel_node channel;
      node ← lift (unwrap node);
      channel ← Reference.as_channel channel;
      sync_user_voice_permissions node user channel (Some server) None
  | None => mret tt
  end.

(** Disconnect the member; it is the acting user who is removed from the room. *)
Definition disconnect (user target_user : User.t) (server : Server.t) : H unit :=
  current ← get_user_voice_channel_in_server (User.id target_user) (Server.id server);
  match current with
  | Some channel =>
      node ← get_channel_node channel;
      node ← lift (unwrap node);
      remove_user node (User.id user) channel
  | None => mret tt
  end.

(** The permissions of a member, for the member *)
Definition target_server_permissions (target_user : User.t) (server : Server.t)
    (member : Member.t) : H PermissionValue.t :=
  run_query (λ q, DatabasePermissionQuery.with_member
                    (DatabasePermissionQuery.with_server q (Some server)) (Some member))
    calculate_server_permissions target_user.

(** Store the changes of an edit *)
Definition apply_member_edit (user : User.t) (reason : option string) (server : Server.t)
    (member : Member.t) (data : DataMemberEdit.t) : H Member.t :=
  let remove := DataMemberEdit.remove data in
  match Member.avatar member with
  | Some avatar =>
      if bool_decide (FieldsMember.Avatar ∈ remove)
      then on_files (FilesTable.mark_attachment_as_deleted (File.id avatar)) else mret tt
  | None => mret tt
  end ;;
  avatar ← match DataMemberEdit.avatar data with
           | Some avatar =>
               file ← on_files (UseFile.use_user_avatar avatar (User.id user) (User.id user));
               mret (Some file)
           | None => mret None
           end;
  let partial :=
    PartialMember.mk None None (DataMemberEdit.nickname data) (DataMemberEdit.pronouns data) avatar
      (DataMemberEdit.roles data) (DataMemberEdit.timeout data) (DataMemberEdit.can_publish data)
      (DataMemberEdit.can_receive data) in
  let before := Member.generate_diff member partial remove in
  member ← update_member member partial remove;
  audit (AuditLogEntryAction.MemberEdit (MemberCompositeKey.user (Member.id member)) before partial)
    (Server.id server) reason (User.id user) (Some (MemberCompositeKey.user (Member.id member))) ;;
  mret member.

(** Edit Member *)
Definition member_edit (user : User.t) (reason : option string) (server_id member_id : string)
    (data : DataMemberEdit.t) : H Member.t :=
  validate DataMemberEdit.valid data ;;
  server ← Reference.as_server server_id;
  target_user ← Reference.as_user member_id;
  member ← Reference.as_member member_id (Server.id server);
  found ← query_server user server;
  target_permissions ← target_server_permissions target_user server member;
  lift (check_member_edit user member found.1 target_permissions data) ;;
  new_voice_channel ← find_new_channel found.2 server target_user member
                        (DataMemberEdit.voice_channel data);
  our_ranking ← lift (our_rank found.2);
  theirs ← lift (their_rank found.2 member);
  if negb (bool_decide (MemberCompositeKey.user (Member.id member) = User.id user)) &&
     (theirs <=? our_ranking)%Z
  then throw ErrorType.NotElevated else
  server ← lift (check_roles our_ranking member server (DataMemberEdit.roles data));
  member ← apply_member_edit user reason server member data;
  match new_voice_channel with
  | Some channel => move_to_channel target_user server channel
  | None =>
      if is_some (DataMemberEdit.can_publish data) || is_some (DataMemberEdit.can_receive data) ||
         DataMemberEdit.removes data FieldsMember.CanPublish ||
         DataMemberEdit.removes data FieldsMember.CanReceive
      then sync_publishing user target_user server else mret tt
  end ;;
  (if DataMemberEdit.removes data FieldsMember.VoiceChannel
   then disconnect user target_user server else mret tt) ;;
  mret member.

(** Fetch Member *)
Definition member_fetch (user : User.t) (server_id member_id : string) (roles : option bool) :
    H (Member.t * option (gmap string Role.t)) :=
  server ← Reference.as_server server_id;
  we ← are_we_member user server;
  if negb we.1 then throw ErrorType.NotFound else
  member ← Reference.as_member member_id (Server.id server);
  mret (member, match roles with
                | Some true => Some (filter (λ kv, kv.1 ∈ Member.roles member) (Server.roles server))
                | _ => None
                end).

(** [a.cmp(b)] on strings as the order of [sort_by] *)
Definition str_lt (a b : string) : bool := negb (str_le b a).

(** [members.retain(|_| iter.next().unwrap().online)]: the iterator over the users runs along *)
Fixpoint retain_online (members : list Member.t) (users : list V0User.t) : Result (list Member.t) :=
  match members with
  | [] => Ok []
  | member :: members =>
      user ← unwrap (head users);
      kept ← retain_online members (tail users);
      Ok (if V0User.online user then member :: kept else kept)
  end.

(** Fetch Members *)
Definition member_fetch_all (user : User.t) (target : string) (exclude_offline : option bool) :
    H (list Member.t * list V0User.t) :=
  server ← Reference.as_server target;
  we ← are_we_member user server;
  if negb we.1 then throw ErrorType.NotFound else
  members ← on_members (MembersTable.fetch_all_members (Server.id server));
  users ← fetch_many_ids_as_mutuals user
            ((λ m, MemberCompositeKey.user (Member.id m)) <$> members);
  let members := sort_by (λ a b, str_lt (MemberCompositeKey.user (Member.id a))
                                   (MemberCompositeKey.user (Member.id b))) members in
  let users := sort_by (λ a b, str_lt (V0User.id a) (V0User.id b)) users in
  match exclude_offline with
  | Some true =>
      members ← lift (retain_online members users);
      mret (members, List.filter V0User.online users)
  | _ => mret (members, users)
  end.

(** ** Servers *)

(** Check if this user can acquire another server *)
Definition can_acquire_server (self : User.t) : H unit :=
  count ← on_members (MembersTable.fetch_server_count (User.id self));
  now ← clock;
  limits ← lift (user_limits now (User.id self));
  if (count <=? Z.of_nat (FeaturesLimits.servers limits))%Z then mret tt
  else throw (ErrorType.TooManyServers (Z.of_nat (FeaturesLimits.servers limits))).

(** Create Server *)
Definition route_create_server (user : User.t) (data : DataCreateServer.t) :
    H (Server.t * list Channel.t) :=
  if is_bot user then throw ErrorType.IsBot else
  let allowed := GlobalLimits.restrict_server_creation global_limits in
  if negb (bool_decide (allowed = [])) && negb (bool_decide (User.id user ∈ allowed))
  then throw ErrorType.CantCreateServers else
  validate valid_create_server data ;;
  can_acquire_server user ;;
  created ← create_server data user true;
  joined ← create_member created.1 user (Some created.2);
  mret (created.1, joined.2).

(** Delete / Leave Server *)
Definition route_delete_server (user : User.t) (target : string) (leave_silently : option bool) :
    H unit :=
  server ← Reference.as_server target;
  member ← on_members (MembersTable.fetch_member target (User.id user));
  if bool_decide (Server.owner server = User.id user) then
    for_each (Server.channels server) (λ channel_id,
      delete_voice_channel (UserVoiceChannel.mk channel_id (Some (Server.id server)))) ;;
    delete_server server
  else
    remove_from_voice server (User.id user) ;;
    remove_member member server RemovalIntention.Leave (default false leave_silently).

(** The request changes nothing *)
Definition edits_nothing (d : DataEditServer.t) : bool :=
  negb (is_some (DataEditServer.name d)) && negb (is_some (DataEditServer.description d)) &&
  negb (is_some (DataEditServer.announcement d)) && negb (is_some (DataEditServer.icon d)) &&
  negb (is_some (DataEditServer.banner d)) && negb (is_some (DataEditServer.system_messages d)) &&
  negb (is_some (DataEditServer.categories d)) && negb (is_some (DataEditServer.flags d)) &&
  negb (is_some (DataEditServer.analytics d)) && negb (is_some (DataEditServer.discoverable d)) &&
  negb (is_some (DataEditServer.owner d)) && bool_decide (DataEditServer.remove d = []).

(** The request changes what needs the permission to manage the server *)
Definition manages_server (d : DataEditServer.t) : bool :=
  is_some (DataEditServer.name d) || is_some (DataEditServer.description d) ||
  is_some (DataEditServer.announcement d) || is_some (DataEditServer.icon d) ||
  is_some (DataEditServer.banner d) || is_some (DataEditServer.system_messages d) ||
  is_some (DataEditServer.analytics d) || negb (bool_decide (DataEditServer.remove d = [])).

(** What an edit of a server needs; [ticket] says whether an MFA ticket was validated *)
Definition check_server_edit (user : User.t) (server : Server.t) (permissions : PermissionValue.t)
    (ticket : bool) (d : DataEditServer.t) : Result unit :=
  (if manages_server d
   then PermissionValue.throw_if_lacking_channel_permission permissions ChannelPermission.ManageServer
   else Ok tt) ;;
  (if is_some (DataEditServer.owner d) then
     if negb (bool_decide (User.id user = Server.owner server)) && negb (User.privileged user)
     then Err ErrorType.NotOwner else
     if negb ticket then Err ErrorType.InvalidCredentials else Ok tt
   else Ok tt) ;;
  (if (is_some (DataEditServer.flags d) || is_some (DataEditServer.discoverable d)) &&
      negb (User.privileged user)
   then Err ErrorType.NotPrivileged else Ok tt) ;;
  (if is_some (DataEditServer.categories d)
   then PermissionValue.throw_if_lacking_channel_permission permissions ChannelPermission.ManageChannel
   else Ok tt).

(** The channels of a category, none of which may have been listed before *)
Fixpoint list_channels (channel_ids : gset string) (channels : list string) : Result (gset string) :=
  match channels with
  | [] => Ok channel_ids
  | channel :: channels =>
      if bool_decide (channel ∈ channel_ids) then Err ErrorType.InvalidOperation
      else list_channels ({[channel]} ∪ channel_ids) channels
  end.

(** The categories with the channels that are of the server *)
Fixpoint tidy_categories (server : Server.t) (channel_ids : gset string)
    (categories : list Category.t) : Result (list Category.t) :=
  match categories with
  | [] => Ok []
  | category :: categories =>
      channel_ids ← list_channels channel_ids (Category.channels category);
      let category := Category.mk (Category.id category) (Category.title category)
        (List.filter (λ item, bool_decide (item ∈ Server.channels server))
           (Category.channels category)) in
      categories ← tidy_categories server channel_ids categories;
      Ok (category :: categories)
  end.

(** [if let Some(a) = o { Some(f(a)?) }] *)
Definition traverse {A B} (f : A → H B) (o : option A) : H (option B) :=
  match o with Some a => b ← f a; mret (Some b) | None => mret None end.

(** Remove the file of a field that is removed *)
Definition discard (field : FieldsServer.t) (file : option File.t) (remove : list FieldsServer.t) :
    H unit :=
  if bool_decide (field ∈ remove) then
    match file with
    | Some file => on_files (FilesTable.mark_attachment_as_deleted (File.id file))
    | None => mret tt
    end
  else mret tt.

(** Check that the new owner is a member and no bot *)
Definition check_new_owner (server : Server.t) (owner : string) : H string :=
  Reference.as_member owner (Server.id server) ;;
  owner_user ← Reference.as_user owner;
  if is_bot owner_user then throw ErrorType.InvalidOperation else mret owner.

(** The caller's copy of the server with what is already known of the change *)
Definition with_new (server : Server.t) (icon banner : option File.t) (owner : option string) :
    Server.t :=
  Server.mk (Server.id server) (default (Server.owner server) owner) (Server.name server)
    (Server.description server) (Server.announcement server) (Server.channels server)
    (Server.categories server) (Server.system_messages server) (Server.roles server)
    (Server.default_permissions server)
    (match icon with Some icon => Some icon | None => Server.icon server end)
    (match banner with Some banner => Some banner | None => Server.banner server end)
    (Server.flags server) (Server.nsfw server) (Server.analytics server)
    (Server.discoverable server) (Server.admin_suspended server).

(** Edit Server *)
Definition route_edit_server (user : User.t) (reason : option string) (target : string)
    (data : DataEditServer.t) (ticket : bool) : H Server.t :=
  validate DataEditServer.valid data ;;
  server ← Reference.as_server target;
  found ← query_server user server;
  if edits_nothing data then mret server else
  lift (check_server_edit user server found.1 ticket data) ;;
  let remove := DataEditServer.remove data in
  discard FieldsServer.Banner (Server.banner server) remove ;;
  discard FieldsServer.Icon (Server.icon server) remove ;;
  (if match DataEditServer.system_messages data with
      | Some s => forallb (λ id, bool_decide (id ∈ Server.channels server))
                    (hash_set_iter (SystemMessageChannels.into_channel_ids s))
      | None => true
      end
   then mret tt else throw ErrorType.NotFound) ;;
  categories ← traverse (λ c, lift (tidy_categories server ∅ c)) (DataEditServer.categories data);
  icon ← traverse (λ icon, on_files (UseFile.use_server_icon icon (Server.id server) (User.id user)))
           (DataEditServer.icon data);
  banner ← traverse (λ b, on_files (UseFile.use_server_banner b (Server.id server) (User.id user)))
             (DataEditServer.banner data);
  owner ← traverse (check_new_owner server) (DataEditServer.owner data);
  let server := with_new server icon banner owner in
  let partial :=
    PartialServer.mk None owner (DataEditServer.name data) (DataEditServer.description data)
      (DataEditServer.announcement data) None categories (DataEditServer.system_messages data) None
      None icon banner (DataEditServer.flags data) None (DataEditServer.analytics data)
      (DataEditServer.discoverable data) None in
  let before := Server.generate_diff server partial remove in
  server ← update_server server partial remove;
  audit (AuditLogEntryAction.ServerEdit before partial) (Server.id server) reason (User.id user)
    None ;;
  mret server.

(** The channels that can be viewed, from copies of one query *)
Fixpoint visible_channels (query : Query) (channels : list Channel.t) : H (list Channel.t) :=
  match channels with
  | [] => mret []
  | channel :: channels =>
      found ← ask calculate_channel_permissions
                (DatabasePermissionQuery.with_channel query (Some channel));
      rest ← visible_channels query channels;
      mret (if PermissionValue.has_channel_permission found.1 ChannelPermission.ViewChannel
            then channel :: rest else rest)
  end.

(** Fetch Server *)
Definition route_fetch_server (user : User.t) (target : string) (include_channels : option bool) :
    H (Server.t * option (list Channel.t)) :=
  server ← Reference.as_server target;
  we ← are_we_member user server;
  if negb we.1 then throw ErrorType.NotFound else
  match include_channels with
  | Some true =>
      all_channels ← on_channels (ChannelsTable.fetch_channels (Server.channels server));
      visible ← visible_channels we.2 all_channels;
      mret (server, Some visible)
  | _ => mret (server, None)
  end.

(** Mark Server As Read *)
Definition route_ack_server (user : User.t) (target : string) : H unit :=
  if is_bot user then throw ErrorType.IsBot else
  server ← Reference.as_server target;
  we ← are_we_member user server;
  if negb we.1 then throw ErrorType.NotFound else ack_server user server.

(** Fetch Invites *)
Definition route_invites (user : User.t) (target : string) : H (list Invite.t) :=
  server ← Reference.as_server target;
  require_in_server user server ChannelPermission.ManageServer ;;
  on_invites (InvitesTable.fetch_invites_for_server (Server.id server)).

(** Fetch Server Emoji *)
Definition list_emoji (user : User.t) (target : string) : H (list Emoji.t) :=
  server ← Reference.as_server target;
  we ← are_we_member user server;
  if negb we.1 then throw ErrorType.NotFound else
  on_emojis (EmojisTable.fetch_emoji_by_parent_id (Server.id server)).
End Routes.

(** ** Ranks *)

Section Ranks.
Context `{Environment, MutualIds, HashIter}.

(** The highest role of a member: the smallest rank number, or the largest integer without a role *)
Definition best_rank (server : Server.t) (m : Member.t) : Z :=
  foldr Z.min (2 ^ 63 - 1)%Z (omap (λ id, Role.rank <$> Server.roles server !! id) (Member.roles m)).
Lemma get_ranking_best m server : Member.get_ranking m server = best_rank server m.
Proof.
  unfold Member.get_ranking, best_rank. change Member.i64_max with (2 ^ 63 - 1)%Z. generalize (2 ^ 63 - 1)%Z.
  induction (Member.roles m) as [|id ids IH]; intros z; csimpl; [done|].
  destruct (Server.roles server !! id) as [role|]; csimpl; [|apply IH]. rewrite IH.
  generalize (omap (λ id, Role.rank <$> Server.roles server !! id) ids). intros l.
  assert (∀ a b, foldr Z.min (Z.min a b) l = Z.min a (foldr Z.min b l)) as Hmin.
  { intros a b. induction l as [|x l IHl]; simpl; [done|]. rewrite IHl. lia. }
  destruct (Z.ltb_spec (Role.rank role) z).
  - rewrite <- Hmin. f_equal. lia.
  - rewrite <- Hmin. f_equal. lia.
Qed.

(** The rank of the acting user: the owner and privileged users are above everybody, as is
    (without any permission) somebody who is no member. *)
Definition actor_rank (user : User.t) (server : Server.t) (w : World.t) : Z :=
  if User.privileged user || bool_decide (Server.owner server = User.id user) then (- 2 ^ 63)%Z else
  match members w !! MemberCompositeKey.mk (Server.id server) (User.id user) with
  | Some member => best_rank server member
  | None => (- 2 ^ 63)%Z
  end.

Lemma query_server_rank user server p q w :
  query_server user server w = (Ok (p, q), w) →
  our_rank q = Ok (actor_rank user server w) ∧ DatabasePermissionQuery.server q = Some server.
Proof.
  unfold query_server, perms, actor_rank. rewrite M_bind_unfold. cbn [gets]. unfold ask.
  set (q0 := DatabasePermissionQuery.with_server _ _).
  unfold calculate_server_permissions, or_else. rewrite !M_bind_unfold. cbn [are_we_privileged
    are_we_server_owner DatabasePermissionQuery.query DatabasePermissionQuery.we_privileged
    DatabasePermissionQuery.server_owner gets].
  destruct (User.privileged user) eqn:Hp.
  { replace (User.privileged (DatabasePermissionQuery.perspective q0)) with true by (by symmetry).
    cbn. intros Heq. injection Heq as _ <-. done. }
  replace (User.privileged (DatabasePermissionQuery.perspective q0)) with false by (by symmetry).
  cbn [mret M_ret orb].
  change (DatabasePermissionQuery.server_owner q0)
    with (Ok (E := Empty_set) (bool_decide (Server.owner server = User.id user)), q0).
  destruct (decide (Server.owner server = User.id user)) as [Hown|Hown].
  { rewrite !bool_decide_true by done. cbn. intros Heq. injection Heq as _ <-. done. }
  rewrite !bool_decide_false by done.
  rewrite M_bind_unfold. cbn [are_we_a_member DatabasePermissionQuery.query].
  unfold DatabasePermissionQuery.a_member. rewrite M_bind_unfold. cbn [get].
  change (DatabasePermissionQuery.server q0) with (Some server).
  change (DatabasePermissionQuery.member q0) with (@None Member.t).
  cbn [db_fetch_member reference_database].
  change (DatabasePermissionQuery.database q0) with (World.db w).
  change (DatabasePermissionQuery.perspective q0) with user.
  unfold MembersTable.fetch_member, table_fetch. cbn [fst].
  change (ReferenceDb.server_members (World.db w)) with (members w).
  destruct (members w !! _) as [m|]; cbn [ok_or]; [|cbn; intros Heq; injection Heq as _ <-; done].
  do 6 (rewrite ?M_bind_unfold; cbn).
  match goal with |- context [Member.in_timeout ?a ?b] => destruct (Member.in_timeout a b) end;
    cbn; intros Heq; injection Heq as _ <-; (split; [|done]);
    by rewrite <- get_ranking_best.
Qed.

(** Roles at or above the rank of the acting user are not moved by an order that passed. *)
Lemma unmoved user server w q best old new id role :
  our_rank q = Ok (actor_rank user server w) → get_member_rank q = Ok best →
  existsb (λ e, negb (bool_decide (position e.1 old = position e.1 new)))
    (List.filter (λ e, above best e.2) (hash_iter (Server.roles server))) = false →
  Server.roles server !! id = Some role → (Role.rank role ≤ actor_rank user server w)%Z →
  position id old = position id new.
Proof.
  intros Hrank Hbest Hex Hid Hle.
  destruct (decide (position id old = position id new)) as [|Hne]; [done|]. exfalso.
  apply not_true_iff_false in Hex. apply Hex, existsb_exists. exists (id, role).
  split; [|by rewrite bool_decide_false].
  apply filter_In. split; [by apply list_elem_of_In, elem_of_hash_iter|].
  unfold our_rank in Hrank. rewrite Hbest in Hrank. destruct best as [best|]; [|done].
  simpl in Hrank. injection Hrank as Hrank. cbn [above snd]. apply Z.leb_le. by rewrite Hrank.
Qed.
End Ranks.

(** ** What each request needs *)

Module ServerRequest.
Inductive t : Type :=
| Ban (reason : option string) (server target : string) (data : DataBanCreate.t)
| Unban (reason : option string) (server target : string)
| Kick (reason : option string) (server member : string)
| CreateChannel (reason : option string) (server : string) (data : DataCreateServerChannel.t)
| CreateRole (reason : option string) (server : string) (data : DataCreateRole.t)
| DeleteRole (reason : option string) (server role : string)
| EditRole (reason : option string) (server role : string) (data : DataEditRole.t)
| ReorderRoles (reason : option string) (server : string) (ranks : list string)
| SetRolePermission (reason : option string) (server role : string) (permissions : Override.t)
| SetDefaultPermissions (reason : option string) (server : string) (permissions : Z)
| EditMember (reason : option string) (server member : string) (data : DataMemberEdit.t)
| EditServer (reason : option string) (server : string) (data : DataEditServer.t) (ticket : bool).

Definition server (r : t) : string :=
  match r with
  | Ban _ s _ _ | Unban _ s _ | Kick _ s _ | CreateChannel _ s _ | CreateRole _ s _
  | DeleteRole _ s _ | EditRole _ s _ _ | ReorderRoles _ s _ | SetRolePermission _ s _ _
  | SetDefaultPermissions _ s _ | EditMember _ s _ _ | EditServer _ s _ _ => s
  end.
End ServerRequest.

Section Requests.
Context `{Environment, MutualIds, HashIter, Validator, Redis, RedisCommands, VoiceClient, UlidAt}.
Context `{OptionalStruct Server.t PartialServer.t, OptionalStruct Role.t PartialRole.t,
          OptionalStruct Member.t PartialMember.t}.

(** The route of a request; what it returns is dropped *)
Definition serve (user : User.t) (r : ServerRequest.t) : H unit :=
  match r with
  | ServerRequest.Ban reason server target data => ban user reason server target data ;; mret tt
  | ServerRequest.Unban reason server target => unban user reason server target
  | ServerRequest.Kick reason server member => kick user reason server member
  | ServerRequest.CreateChannel reason server data =>
      route_create_server_channel user reason server data ;; mret tt
  | ServerRequest.CreateRole reason server data => route_create_role user reason server data ;; mret tt
  | ServerRequest.DeleteRole reason server role => route_delete_role user reason server role
  | ServerRequest.EditRole reason server role data =>
      route_edit_role user reason server role data ;; mret tt
  | ServerRequest.ReorderRoles reason server ranks => edit_role_ranks user reason server ranks ;; mret tt
  | ServerRequest.SetRolePermission reason server role permissions =>
      route_set_role_permission user reason server role permissions ;; mret tt
  | ServerRequest.SetDefaultPermissions reason server permissions =>
      set_default_server_permissions user reason server permissions ;; mret tt
  | ServerRequest.EditMember reason server member data =>
      member_edit user reason server member data ;; mret tt
  | ServerRequest.EditServer reason server data ticket =>
      route_edit_server user reason server data ticket ;; mret tt
  end.

(** The acting user ranks above a member, above a role *)
Definition above_member (user : User.t) (server : Server.t) (member : string) (w : World.t) : Prop :=
  ∀ m, members w !! MemberCompositeKey.mk (Server.id server) member = Some m →
    (actor_rank user server w < best_rank server m)%Z.
Definition above_role (user : User.t) (server : Server.t) (role : string) (w : World.t) : Prop :=
  ∃ r, Server.roles server !! role = Some r ∧ (actor_rank user server w < Role.rank r)%Z.

(** The actor holds every permission that the change of an override grants or stops denying. *)
Definition holds_what_changes (user : User.t) (server : Server.t) (current next : Override.t)
    (w : World.t) : Prop :=
  ∃ p q, query_server user server w = (Ok (p, q), w) ∧
    ∀ i, (0 ≤ i < 64)%Z →
      (Z.testbit (Override.allow next) i = true ∧ Z.testbit (Override.allow current) i = false) ∨
      (Z.testbit (Override.deny current) i = true ∧ Z.testbit (Override.deny next) i = false) →
      Z.testbit (PermissionValue.into_raw p) i = true.

(** A field of the request is set or removed. *)
Definition touches {A} (o : option A) (field : FieldsMember.t) (data : DataMemberEdit.t) : Prop :=
  is_Some o ∨ field ∈ DataMemberEdit.remove data.

(** Who may edit which fields of a member: their own name and avatar or those of others, and roles,
    timeouts and voice with the permission of each. Pronouns are one's own, nobody sets the avatar
    of another or puts themselves in timeout, and who may put others in timeout is spared it. *)
Definition may_edit_member (user : User.t) (server : Server.t) (target : string) (m : Member.t)
    (data : DataMemberEdit.t) (w : World.t) : Prop :=
  let own := User.id user = MemberCompositeKey.user (Member.id m) in
  let holds permission := holds_in_server user server permission w in
  (touches (DataMemberEdit.nickname data) FieldsMember.Nickname data →
     (own ∧ holds ChannelPermission.ChangeNickname) ∨ (¬ own ∧ holds ChannelPermission.ManageNicknames)) ∧
  (touches (DataMemberEdit.pronouns data) FieldsMember.Pronouns data → own) ∧
  (touches (DataMemberEdit.avatar data) FieldsMember.Avatar data →
     (own ∧ holds ChannelPermission.ChangeAvatar) ∨
     (¬ own ∧ FieldsMember.Avatar ∈ DataMemberEdit.remove data ∧
      holds ChannelPermission.RemoveAvatars)) ∧
  (touches (DataMemberEdit.roles data) FieldsMember.Roles data →
     holds ChannelPermission.AssignRoles) ∧
  (touches (DataMemberEdit.timeout data) FieldsMember.Timeout data →
     holds ChannelPermission.TimeoutMembers) ∧
  (is_Some (DataMemberEdit.timeout data) → ¬ own ∧
     ∃ target_user p, Reference.as_user target w = (Ok target_user, w) ∧
       target_server_permissions target_user server m w = (Ok p, w) ∧
       PermissionValue.has_channel_permission p ChannelPermission.TimeoutMembers = false) ∧
  (is_Some (DataMemberEdit.can_publish data) → holds ChannelPermission.MuteMembers) ∧
  (is_Some (DataMemberEdit.can_receive data) → holds ChannelPermission.DeafenMembers) ∧
  (touches (DataMemberEdit.voice_channel data) FieldsMember.VoiceChannel data → ¬ own →
     holds ChannelPermission.MoveMembers).

(** Who may edit what of a server. Its owner changes only by the owner, or by privileged users, with
    a ticket; flags and discovery are for privileged users. *)
Definition may_edit_server (user : User.t) (server : Server.t) (data : DataEditServer.t)
    (ticket : bool) (w : World.t) : Prop :=
  let holds permission := holds_in_server user server permission w in
  (is_Some (DataEditServer.name data) ∨ is_Some (DataEditServer.description data) ∨
   is_Some (DataEditServer.announcement data) ∨ is_Some (DataEditServer.icon data) ∨
   is_Some (DataEditServer.banner data) ∨ is_Some (DataEditServer.system_messages data) ∨
   is_Some (DataEditServer.analytics data) ∨ DataEditServer.remove data ≠ [] →
     holds ChannelPermission.ManageServer) ∧
  (is_Some (DataEditServer.owner data) →
     (User.id user = Server.owner server ∨ User.privileged user = true) ∧ ticket = true) ∧
  (is_Some (DataEditServer.flags data) ∨ is_Some (DataEditServer.discoverable data) →
     User.privileged user = true) ∧
  (is_Some (DataEditServer.categories data) → holds ChannelPermission.ManageChannel).

Definition may (user : User.t) (server : Server.t) (r : ServerRequest.t) (w : World.t) : Prop :=
  let holds permission := holds_in_server user server permission w in
  match r with
  | ServerRequest.Ban _ _ target _ =>
      holds ChannelPermission.BanMembers ∧ target ≠ User.id user ∧ target ≠ Server.owner server ∧
      above_member user server target w
  | ServerRequest.Unban _ _ _ => holds ChannelPermission.BanMembers
  | ServerRequest.Kick _ _ member =>
      holds ChannelPermission.KickMembers ∧ member ≠ User.id user ∧ member ≠ Server.owner server ∧
      above_member user server member w
  | ServerRequest.CreateChannel _ _ _ => holds ChannelPermission.ManageChannel
  | ServerRequest.CreateRole _ _ _ => holds ChannelPermission.ManageRole
  | ServerRequest.DeleteRole _ _ role | ServerRequest.EditRole _ _ role _ =>
      holds ChannelPermission.ManageRole ∧ above_role user server role w
  | ServerRequest.ReorderRoles _ _ ranks =>
      holds ChannelPermission.ManageRole ∧
      (Server.owner server = User.id user ∨
       ∀ id role, Server.roles server !! id = Some role →
         (Role.rank role ≤ actor_rank user server w)%Z →
         position id (Server.ordered_roles server).*1 = position id ranks)
  | ServerRequest.SetRolePermission _ _ role permissions =>
      holds ChannelPermission.ManagePermissions ∧ above_role user server role w ∧
      ∃ r, Server.roles server !! role = Some r ∧
        holds_what_changes user server (OverrideField.into_override (Role.permissions r))
          permissions w
  | ServerRequest.SetDefaultPermissions _ _ permissions =>
      holds ChannelPermission.ManagePermissions ∧
      holds_what_changes user server (Override.mk 0 0) (Override.mk permissions 0) w
  | ServerRequest.EditMember _ _ member data =>
      (∀ m, members w !! MemberCompositeKey.mk (Server.id server) member = Some m →
         MemberCompositeKey.user (Member.id m) ≠ User.id user →
         (actor_rank user server w < best_rank server m)%Z) ∧
      (∀ m roles role, members w !! MemberCompositeKey.mk (Server.id server) member = Some m →
         DataMemberEdit.roles data = Some roles → role ∈ roles → role ∉ Member.roles m →
         above_role user server role w) ∧
      ∃ m, members w !! MemberCompositeKey.mk (Server.id server) member = Some m ∧
        may_edit_member user server member m data w
  | ServerRequest.EditServer _ _ data ticket =>
      may_edit_server user server data ticket w
  end.

Lemma require_in_server_reads user server permission :
  reads (require_in_server user server permission).
Proof. unfold require_in_server. solve_reads. Qed.
Lemma map_err_reads {A} (m : H A) e : reads m → reads (map_err m e).
Proof. intros Hm w. unfold map_err. specialize (Hm w). by destruct (m w) as [[]]. Qed.
Lemma find_new_channel_reads q s u m c : reads (find_new_channel q s u m c).
Proof.
  unfold find_new_channel, get_user_voice_channel_in_server, get_key.
  pose proof @redis_query_reads. pose proof @map_err_reads. solve_reads; auto with reads.
Qed.
Lemma target_server_permissions_reads u s m : reads (target_server_permissions u s m).
Proof. unfold target_server_permissions. solve_reads. Qed.
Hint Resolve require_in_server_reads find_new_channel_reads target_server_permissions_reads : reads.

(** The check of a permission in a server *)
Lemma gated_in_server {A} (G : Prop) user server permission
    (k : PermissionValue.t * DatabasePermissionQuery.t ReferenceDb.t → H A) w :
  (∀ p q, query_server user server w = (Ok (p, q), w) →
     holds_in_server user server permission w →
     our_rank q = Ok (actor_rank user server w) →
     DatabasePermissionQuery.server q = Some server → gated G (k (p, q)) w) →
  gated G (found ← require_in_server user server permission; k found) w.
Proof.
  intros Hk. apply gated_bind; [auto with reads|]. intros [p q] Hreq.
  unfold require_in_server in Hreq. unbind Hreq found.
  apply require_Ok_inv in Hreq as [Hp [= ->]].
  destruct (query_server_rank _ _ _ _ _ Efound). apply Hk; try done.
  by eapply query_server_holds.
Qed.

Lemma gated_lift {A B} (G : Prop) (r : Result A) (k : A → H B) w :
  (∀ a, r = Ok a → gated G (k a) w) → gated G (a ← lift r; k a) w.
Proof.
  intros Hk. apply gated_bind; [auto with reads|]. intros a Ha. apply Hk.
  unfold lift in Ha. by injection Ha.
Qed.

Lemma as_member_Ok id server w r :
  Reference.as_member id server w = (r, w) →
  r = ok_or (members w !! MemberCompositeKey.mk server id) ErrorType.NotFound.
Proof. unfold Reference.as_member, on_members. rewrite on_table_run. by intros [= <-]. Qed.

Lemma check_added_roles_Ok ours added : ∀ roles left role,
  check_added_roles ours added roles = Ok left → role ∈ added →
  ∃ r, roles !! role = Some r ∧ (ours < Role.rank r)%Z.
Proof.
  induction added as [|id added IH]; intros roles left role Hok Hin; [by apply elem_of_nil in Hin|].
  simpl in Hok. destruct (roles !! id) as [r|] eqn:Hr; [|done].
  destruct (Z.leb_spec (Role.rank r) ours); [done|].
  apply elem_of_cons in Hin as [->|Hin]; [by exists r|].
  destruct (IH _ _ _ Hok Hin) as (r' & [_ Hr']%lookup_delete_Some & Hlt). by exists r'.
Qed.

(** A test that guards the rest of a check *)
Lemma guard_Ok (b : bool) (r : Result unit) :
  (if b then r else Ok tt) = Ok tt → b = true → r = Ok tt.
Proof. by intros Hif ->. Qed.
Lemma seq_Ok (r k : Result unit) : (r ;; k) = Ok tt → r = Ok tt ∧ k = Ok tt.
Proof. by destruct r as [[]| |]. Qed.
Lemma is_some_or {A} (o : option A) field data :
  touches o field data → is_some o || DataMemberEdit.removes data field = true.
Proof.
  unfold touches, is_some, DataMemberEdit.removes.
  intros [Ho|Hin]; apply orb_true_iff; [left|right]; by apply bool_decide_eq_true.
Qed.
Lemma is_some_true {A} (o : option A) : is_Some o → is_some o = true.
Proof. apply bool_decide_eq_true_2. Qed.
Lemma lacking_holds user server p q permission w :
  query_server user server w = (Ok (p, q), w) →
  PermissionValue.throw_if_lacking_channel_permission p permission = Ok tt →
  holds_in_server user server permission w.
Proof.
  unfold PermissionValue.throw_if_lacking_channel_permission. intros Hq Hp.
  eapply query_server_holds; [exact Hq|]. by destruct (PermissionValue.has_channel_permission p _).
Qed.

Lemma check_member_edit_may user server target target_user m p q tp data w :
  query_server user server w = (Ok (p, q), w) →
  Reference.as_user target w = (Ok target_user, w) →
  target_server_permissions target_user server m w = (Ok tp, w) →
  check_member_edit user m p tp data = Ok tt → may_edit_member user server target m data w.
Proof.
  intros Hq Huser Htarget. unfold check_member_edit. cbv zeta.
  intros (Hnick & (Hpron & (Havatar & (Hroles & (Htime & (Hpub & (Hrec & (_ & Hvoice)%seq_Ok)%seq_Ok)
    %seq_Ok)%seq_Ok)%seq_Ok)%seq_Ok)%seq_Ok)%seq_Ok.
  assert (∀ permission, PermissionValue.throw_if_lacking_channel_permission p permission = Ok tt →
            holds_in_server user server permission w) as Hlacks by (intros ?; by eapply lacking_holds).
  unfold may_edit_member. cbv zeta.
  split_and!.
  - intros Ht%is_some_or. apply (guard_Ok _ _ Hnick) in Ht. case_bool_decide; auto.
  - intros Ht%is_some_or. apply (guard_Ok _ _ Hpron) in Ht. by case_bool_decide.
  - intros Ht%is_some_or. apply (guard_Ok _ _ Havatar) in Ht. case_bool_decide; [by auto|].
    right. split; [done|]. destruct (DataMemberEdit.removes data FieldsMember.Avatar) eqn:Hr; [|done].
    apply bool_decide_eq_true in Hr. auto.
  - intros Ht%is_some_or. apply (guard_Ok _ _ Hroles) in Ht. auto.
  - intros Ht%is_some_or. apply (guard_Ok _ _ Htime) in Ht. by apply seq_Ok in Ht as [_ Ht]; auto.
  - intros Hset. assert (touches (DataMemberEdit.timeout data) FieldsMember.Timeout data) as Ht
      by (by left).
    apply is_some_or, (guard_Ok _ _ Htime), seq_Ok in Ht as [Ht _].
    pose proof (guard_Ok _ _ Ht (is_some_true _ Hset)) as Hown. clear Ht.
    case_bool_decide; [done|]. split; [done|]. exists target_user, tp. split_and!; [done..|].
    by destruct (PermissionValue.has_channel_permission tp _).
  - intros Hset%is_some_true. apply (guard_Ok _ _ Hpub) in Hset. auto.
  - intros Hset%is_some_true. apply (guard_Ok _ _ Hrec) in Hset. auto.
  - intros Ht%is_some_or Hown. apply (guard_Ok _ _ Hvoice) in Ht.
    destruct (negb is_enabled); [done|]. rewrite bool_decide_false in Ht by done. auto.
Qed.

Lemma override_holds user server p q current next w :
  query_server user server w = (Ok (p, q), w) →
  PermissionValue.throw_permission_override p (Some current) next = Ok tt →
  holds_what_changes user server current next w.
Proof.
  intros Hq [Hallow Hdeny]%throw_permission_override_iff. exists p, q. split; [done|].
  intros i Hi. rewrite has_iff in Hallow, Hdeny. specialize (Hallow i ltac:(lia)).
  specialize (Hdeny i ltac:(lia)). rewrite Z.land_spec in Hallow, Hdeny.
  rewrite testbit_u64_not in Hallow, Hdeny by lia.
  rewrite (proj2 (Z.ltb_lt i 64)) in Hallow, Hdeny by lia.
  intros [[Hn Hc]|[Hc Hn]]; [apply Hallow|apply Hdeny]; by rewrite Hn, Hc.
Qed.
Lemma grant_holds user server p q permissions w :
  query_server user server w = (Ok (p, q), w) →
  PermissionValue.throw_permission_override p None (Override.mk permissions 0) = Ok tt →
  holds_what_changes user server (Override.mk 0 0) (Override.mk permissions 0) w.
Proof.
  intros Hq Hok. exists p, q. split; [done|]. intros i Hi. cbn [Override.allow Override.deny].
  unfold PermissionValue.throw_permission_override, Override.allows in Hok.
  cbn [Override.allow] in Hok. destruct (PermissionValue.has p permissions) eqn:Hp; [|done].
  rewrite has_iff in Hp. intros [[Hn _]|[Hc _]]; [apply Hp; [lia|done]|by rewrite Z.bits_0 in Hc].
Qed.

Lemma check_server_edit_may user server p q data ticket w :
  query_server user server w = (Ok (p, q), w) →
  check_server_edit user server p ticket data = Ok tt → may_edit_server user server data ticket w.
Proof.
  intros Hq. unfold check_server_edit.
  intros (Hmanage & (Howner & (Hflags & Hcat)%seq_Ok)%seq_Ok)%seq_Ok.
  unfold may_edit_server. cbv zeta. split_and!.
  - intros Hset. eapply lacking_holds; [exact Hq|]. apply (guard_Ok _ _ Hmanage).
    unfold manages_server, is_some. rewrite !orb_true_iff, negb_true_iff, bool_decide_eq_false.
    rewrite !bool_decide_eq_true. tauto.
  - intros Hset%is_some_true. apply (guard_Ok _ _ Howner) in Hset.
    case_bool_decide; cbn [negb andb] in Hset; destruct (User.privileged user), ticket;
      cbn [negb andb] in Hset; try discriminate; auto.
  - intros Hset. destruct (User.privileged user); [done|]. exfalso. rewrite andb_true_r in Hflags.
    assert (is_some (DataEditServer.flags data) || is_some (DataEditServer.discoverable data) = true)
      as Hb by (unfold is_some; rewrite orb_true_iff, !bool_decide_eq_true; tauto).
    by apply (guard_Ok _ _ Hflags) in Hb.
  - intros Hset%is_some_true. eapply lacking_holds; [exact Hq|]. by apply (guard_Ok _ _ Hcat).
Qed.

(** Nothing is written unless the user may send the request. *)
Definition authorised (user : User.t) (r : ServerRequest.t) (w : World.t) : Prop :=
  ∃ s, Reference.as_server (ServerRequest.server r) w = (Ok s, w) ∧ may user s r w.

Lemma gated_throw {A B} (G : Prop) e (k : A → H B) w : gated G (throw e ≫= k) w.
Proof. by left. Qed.

(** Looking a member up gives the one stored. *)
Lemma as_member_attempt id server w m :
  attempt (Reference.as_member id server) w = (Ok m, w) →
  m = members w !! MemberCompositeKey.mk server id.
Proof.
  unfold attempt. pose proof (as_member_reads id server w) as Hw.
  destruct (Reference.as_member id server w) as [r w'] eqn:Hr. simpl in Hw. subst w'.
  apply as_member_Ok in Hr. subst r. by destruct (members w !! _); intros [= <-].
Qed.

(** The ranks two lookups give are those of the member and of the acting user. *)
Lemma rank_check {A} (G : Prop) user server w q m (k : H A) e :
  our_rank q = Ok (actor_rank user server w) → DatabasePermissionQuery.server q = Some server →
  ((actor_rank user server w < best_rank server m)%Z → gated G k w) →
  gated G (theirs ← lift (their_rank q m); ours ← lift (our_rank q);
           if (theirs <=? ours)%Z then throw e else k) w.
Proof.
  intros Hrank Hserver Hk. apply gated_lift. intros theirs Ht. apply gated_lift. intros ours Ho.
  unfold their_rank in Ht. rewrite Hserver in Ht. injection Ht as <-. rewrite get_ranking_best.
  rewrite Hrank in Ho. injection Ho as <-.
  destruct (Z.leb_spec (best_rank server m) (actor_rank user server w));
    [by apply gated_reads|by apply Hk].
Qed.

Lemma ban_authorised user reason server target data w :
  gated (authorised user (ServerRequest.Ban reason server target data) w)
    (ban user reason server target data) w.
Proof.
  unfold ban. gate_step. gate_step. rename a0 into s.
  case_bool_decide as Hself; [by apply gated_reads|].
  case_bool_decide as Howner; [by apply gated_reads|].
  apply gated_in_server. intros p q Hq Hholds Hrank Hserver.
  apply gated_bind; [apply reads_attempt; auto with reads|]. intros m Hm%as_member_attempt.
  destruct m as [m|].
  - apply gated_assoc, gated_lift. intros theirs Ht. apply gated_assoc, gated_lift. intros ours Ho.
    cbn [snd] in *. unfold their_rank in Ht. rewrite Hserver in Ht. injection Ht as <-. rewrite get_ranking_best.
    rewrite Hrank in Ho. injection Ho as <-.
    destruct (Z.leb_spec (best_rank s m) (actor_rank user s w)); [apply gated_throw|].
    apply gated_open. exists s. split; [done|]. split_and!; [done..|]. intros m' Hm'. congruence.
  - apply gated_open. exists s. split; [done|]. split_and!; [done..|]. intros m' Hm'. congruence.
Qed.

Lemma kick_authorised user reason server member w :
  gated (authorised user (ServerRequest.Kick reason server member) w)
    (kick user reason server member) w.
Proof.
  unfold kick. gate_step. rename a into s.
  case_bool_decide as Hself; [by apply gated_reads|].
  case_bool_decide as Howner; [by apply gated_reads|].
  apply gated_in_server. intros p q Hq Hholds Hrank Hserver.
  apply gated_bind; [auto with reads|]. intros m Hm%as_member_Ok. cbn [snd].
  apply (rank_check _ user s); [done..|]. intros Hlt. apply gated_open. exists s. split; [done|].
  split_and!; [done..|]. intros m' Hm'. rewrite Hm' in Hm. by injection Hm as <-.
Qed.

(** The rank of the acting user, where only theirs is looked up *)
Lemma gated_our_rank {A} (G : Prop) user server w q (k : Z → H A) :
  our_rank q = Ok (actor_rank user server w) → gated G (k (actor_rank user server w)) w →
  gated G (ours ← lift (our_rank q); k ours) w.
Proof. intros Hrank Hk. apply gated_lift. intros ours. rewrite Hrank. by intros [= <-]. Qed.

Lemma roles_authorised user r w :
  match r with
  | ServerRequest.DeleteRole _ _ _ | ServerRequest.EditRole _ _ _ _
  | ServerRequest.SetRolePermission _ _ _ _ => True
  | _ => False
  end →
  gated (authorised user r w) (serve user r) w.
Proof.
  destruct r as [| | | | |reason server role|reason server role data| |reason server role o| | |];
    intros []; cbn [serve].
  - unfold route_delete_role. gate_step. rename a into s.
    apply gated_in_server. intros p q Hq Hholds Hrank Hserver.
    apply (gated_our_rank _ user s); [done|]. apply gated_lift. intros x Hx. cbv zeta.
    destruct (Z.leb_spec (Role.rank x) (actor_rank user s w)); [by apply gated_reads|].
    apply gated_open. exists s. split; [done|]. split; [done|]. exists x.
    by destruct (Server.roles s !! role); [injection Hx as <-|].
  - apply gated_bind_l; [done|]. unfold route_edit_role. gate_step. gate_step. rename a0 into s.
    apply gated_in_server. intros p q Hq Hholds Hrank Hserver.
    apply (gated_our_rank _ user s); [done|].
    destruct (Server.roles s !! role) as [x|] eqn:Hx; [|by apply gated_reads]. cbv zeta.
    destruct (Z.leb_spec (Role.rank x) (actor_rank user s w)); [by apply gated_reads|].
    apply gated_open. exists s. split; [done|]. split; [done|]. by exists x.
  - apply gated_bind_l; [done|]. unfold route_set_role_permission. gate_step. rename a into s.
    apply gated_lift. intros x Hx. cbv zeta.
    apply gated_in_server. intros p q Hq Hholds Hrank Hserver.
    apply (gated_our_rank _ user s); [done|].
    destruct (Z.leb_spec (Role.rank x) (actor_rank user s w)); [by apply gated_reads|].
    apply gated_lift. intros [] Ho. cbn [fst] in Ho. apply gated_open. exists s. split; [done|].
    destruct (Server.roles s !! role) eqn:Hr; [injection Hx as ->|done].
    split_and!; [done|by exists x|]. exists x. split; [done|]. by eapply override_holds.
Qed.

Lemma reorder_authorised user reason server ranks w :
  gated (authorised user (ServerRequest.ReorderRoles reason server ranks) w)
    (edit_role_ranks user reason server ranks) w.
Proof.
  unfold edit_role_ranks. gate_step. rename a into s.
  apply gated_in_server. intros p q Hq Hholds Hrank Hserver. cbv zeta. cbn [snd].
  destruct (_ || _); [by apply gated_reads|].
  destruct (decide (Server.owner s = User.id user)) as [Hown|Hown].
  { rewrite bool_decide_true by done. apply gated_open. exists s. split; [done|]. split; [done|].
    by left. }
  rewrite bool_decide_false by done. cbn [negb].
  apply gated_assoc, gated_lift. intros top Htop.
  destruct (existsb _ _) eqn:Hmoved; [apply gated_throw|]. apply gated_open.
  exists s. split; [done|]. split; [done|]. right. intros id role Hid Hle.
  by eapply unmoved.
Qed.

Lemma member_edit_authorised user reason server member data w :
  gated (authorised user (ServerRequest.EditMember reason server member data) w)
    (member_edit user reason server member data) w.
Proof.
  unfold member_edit. gate_step. gate_step. rename a0 into s. gate_step. rename a0 into target_user.
  apply gated_bind; [auto with reads|]. intros m Hm%as_member_Ok.
  apply gated_bind; [auto with reads|]. intros [p q] Hq.
  destruct (query_server_rank _ _ _ _ _ Hq) as [Hrank Hserver].
  apply gated_bind; [auto with reads|]. intros tp Htp.
  apply gated_lift. intros [] Hcheck. cbn [fst snd] in *.
  apply gated_bind; [auto with reads|]. intros channel _.
  apply (gated_our_rank _ user s); [done|]. apply gated_lift. intros theirs Ht.
  unfold their_rank in Ht. rewrite Hserver in Ht. injection Ht as <-. rewrite get_ranking_best.
  destruct (members w !! MemberCompositeKey.mk (Server.id s) member) as [m'|] eqn:Hmem; [|done].
  injection Hm as ->.
  destruct (_ && _) eqn:Helev; [by apply gated_reads|].
  apply gated_lift. intros s' Hroles. apply gated_open. exists s. split; [done|]. split_and!.
  - intros x Hx Hne. rewrite Hmem in Hx. injection Hx as <-.
    rewrite bool_decide_false in Helev by done. by apply Z.leb_gt in Helev.
  - intros x roles role Hx Hd Hin Hnot. rewrite Hmem in Hx. injection Hx as <-.
    unfold check_roles in Hroles. rewrite Hd in Hroles.
    destruct (check_added_roles _ _ _) as [left| |] eqn:Hadd; [|done..].
    eapply check_added_roles_Ok; [exact Hadd|].
    destruct (hash_set_iter_spec (list_to_set roles ∖ list_to_set (Member.roles m'))) as (_ & Hel & _).
    apply Hel. rewrite elem_of_difference, !elem_of_list_to_set. done.
  - exists m'. split; [done|]. by eapply check_member_edit_may.
Qed.

(** C4: no request on a server does anything without authority: unless the user may send it,
    the route leaves the world as it was. Each request needs its permission in the server;
    in addition kicking, banning and editing a member need a rank above the member's, roles
    are edited, deleted, given and granted permissions only by somebody ranked above them, a
    new order of the roles leaves those at or above one's own rank where they are, and a
    permission can only be granted by somebody who holds it. Editing a member or the server
    takes the permission that goes with each field the request sets or removes. *)
Theorem server_requests_authorised (user : User.t) (r : ServerRequest.t) (w : World.t) :
  (serve user r w).2 = w ∨ authorised user r w.
Proof.
  fold (gated (authorised user r w) (serve user r) w).
  destruct r as [reason server target data|reason server target|reason server member
                |reason server data|reason server data|reason server role|reason server role data
                |reason server ranks|reason server role o|reason server permissions
                |reason server member data|reason server data ticket];
    try (by apply roles_authorised); cbn [serve].
  - apply gated_bind_l; [done|]. apply ban_authorised.
  - unfold unban. gate_step. rename a into s. apply gated_in_server. intros. apply gated_open.
    by exists s.
  - apply kick_authorised.
  - apply gated_bind_l; [done|]. unfold route_create_server_channel. gate_step. gate_step.
    rename a0 into s. apply gated_in_server. intros. apply gated_open. by exists s.
  - apply gated_bind_l; [done|]. unfold route_create_role. gate_step. gate_step.
    rename a0 into s. apply gated_in_server. intros. apply gated_open. by exists s.
  - apply gated_bind_l; [done|]. apply reorder_authorised.
  - apply gated_bind_l; [done|]. unfold set_default_server_permissions. gate_step. rename a into s.
    apply gated_in_server. intros p q Hq Hholds _ _. apply gated_lift. intros [] Ho.
    apply gated_open. exists s. split; [done|]. split; [done|]. by eapply grant_holds.
  - apply gated_bind_l; [done|]. apply member_edit_authorised.
  - apply gated_bind_l; [done|]. unfold route_edit_server. gate_step. gate_step. rename a0 into s.
    apply gated_bind; [auto with reads|]. intros [p q] Hq.
    destruct (edits_nothing data); [by apply gated_reads|].
    apply gated_lift. intros [] Hc. apply gated_open. exists s. split; [done|].
    by eapply check_server_edit_may.
Qed.
End Requests.

(** ** What bans and kicks do *)

Section Removals.
Context `{Environment, MutualIds, HashIter, Validator, Redis, RedisCommands, VoiceClient, UlidAt}.

(** Memberships and bans *)
Definition roster (w : World.t) : MembersTable.table * BansTable.table := (members w, bans w).

Lemma db_keeps {A C} (f : World.t → C) (m : H A) :
  (∀ w w', World.db w = World.db w' → f w = f w') → keeps World.db m → keeps f m.
Proof. intros Hf Hm w. apply Hf, Hm. Qed.

Lemma audit_roster action server reason user target :
  keeps roster (audit action server reason user target).
Proof.
  unfold audit, ulid, clock, on_audit_logs. apply keeps_bind; [by intros w|intros id].
  apply keeps_bind; [by intros w|intros now]. cbv zeta. case_match; [by intros w|].
  apply keeps_bind; [by apply keeps_table|intros []]. apply keeps_ret.
Qed.

Lemma remove_from_voice_roster server user : keeps roster (remove_from_voice server user).
Proof.
  apply db_keeps; [intros w w' Hw; unfold roster, members, bans; by rewrite Hw|].
  unfold remove_from_voice, get_user_voice_channel_in_server, get_key.
  apply keeps_bind; [apply reads_keeps, redis_query_reads|].
  intros [c|]; [apply remove_user_from_voice_channel_db|apply keeps_ret].
Qed.

Lemma bulk_delete_roster channels author threshold :
  keeps roster (bulk_delete_by_author_since channels author threshold).
Proof.
  unfold bulk_delete_by_author_since, delete_messages_by_author_since, on_files, on_messages.
  apply keeps_bind.
  - apply keeps_bind; [by intros w|intros entries]. cbv zeta.
    apply keeps_bind; [destruct (negb _); [by apply keeps_table|apply keeps_ret]|intros []].
    apply keeps_bind; [by apply keeps_table|intros []]. apply keeps_ret.
  - intros groups. apply for_each_keeps. intros g. destruct (negb _); [by apply keeps_modify|apply keeps_ret].
Qed.

Lemma announce_roster system id w w' :
  (message ← system_message system id;
   ignore (send_without_notifications message None None false false false)) w = (Ok tt, w') →
  roster w' = roster w.
Proof.
  intros Hrun.
  assert (keeps roster (message ← system_message system id;
    ignore (send_without_notifications message None None false false false))) as Hk.
  { unfold system_message, ulid, ignore, send_without_notifications, on_messages, p,
      queue_last_message_id, queue_message, queue_embeds. solve_keeps. }
  specialize (Hk w). by rewrite Hrun in Hk.
Qed.

(** A member who was removed is no longer one. *)
Lemma remove_member_roster self server intention silent w w' :
  remove_member self server intention silent w = (Ok tt, w') →
  roster w' = (delete (Member.id self) (members w), bans w).
Proof.
  unfold remove_member. rewrite M_bind_unfold. cbn [clock gets].
  rewrite M_bind_unfold. unfold on_members. rewrite on_table_run.
  unfold MembersTable.soft_delete_member.
  change (ReferenceDb.server_members (World.db w)) with (members w).
  destruct (members w !! Member.id self) as [m|] eqn:Hm; [|done].
  destruct (Member.in_timeout m (World.now w)); [done|]. cbn [fst snd]. rewrite M_bind_unfold.
  cbn [p modify]. destruct silent; cbn [negb].
  { by intros [= <-]. }
  destruct (mbind (M := option) _ _) as [id|]; [|by intros [= <-]].
  intros Hrun%announce_roster. rewrite Hrun. done.
Qed.

(** A step of a successful run that keeps the roster *)
Lemma bind_roster {A B} (m : H A) (k : A → H B) w b w' :
  keeps roster m → (m ≫= k) w = (Ok b, w') →
  ∃ a w1, k a w1 = (Ok b, w') ∧ roster w1 = roster w.
Proof.
  intros Hm (a & w1 & Hrun & Hk)%bind_Ok_inv. exists a, w1. split; [done|].
  specialize (Hm w). by rewrite Hrun in Hm.
Qed.

Lemma require_in_server_Ok user server permission found w :
  require_in_server user server permission w = (Ok found, w) →
  query_server user server w = (Ok found, w).
Proof.
  unfold require_in_server. intros Hrun. unbind Hrun x.
  by apply require_Ok_inv in Hrun as [_ [= ->]].
Qed.

(** The part of a ban that concerns a member *)
Lemma ban_member_roster server target m w w' :
  (remove_member m server RemovalIntention.Ban false ;; remove_from_voice server target) w =
    (Ok tt, w') →
  roster w' = (delete (Member.id m) (members w), bans w).
Proof.
  intros Hrun. apply bind_Ok_inv in Hrun as ([] & w1 & Hrem%remove_member_roster & Hrun).
  pose proof (remove_from_voice_roster server target w1) as Hk. rewrite Hrun in Hk. simpl in Hk.
  by rewrite Hk, Hrem.
Qed.

(** A ban takes effect: when the route succeeds, the user is no member of the server any
    more (the other memberships are as before) and the ban is stored, so that they cannot
    join again. *)
Theorem ban_effect (user : User.t) (reason : option string) (server target : string)
    (data : DataBanCreate.t) (b : ServerBan.t) (w w' : World.t) :
  members_keyed (members w) → ban user reason server target data w = (Ok b, w') →
  ∃ s, Reference.as_server server w = (Ok s, w) ∧
    let key := MemberCompositeKey.mk (Server.id s) target in
    members w' = delete key (members w) ∧ bans w !! key = None ∧
    bans w' = <[key := ServerBan.mk key (DataBanCreate.reason data)]> (bans w).
Proof.
  intros Hkeyed Hrun. pose proof require_in_server_reads as Hr. unfold ban in Hrun.
  unbind Hrun u. unbind Hrun s. exists s. split; [done|]. cbv zeta.
  case_bool_decide; [done|]. case_bool_decide; [done|]. unbind Hrun found.
  unbind Hrun m. apply as_member_attempt in Em.
  apply bind_Ok_inv in Hrun as ([] & w1 & Hmem & Hrun).
  assert (roster w1 = (delete (MemberCompositeKey.mk (Server.id s) target) (members w), bans w)) as Hw1.
  { destruct m as [m|].
    - unbind Hmem theirs. unbind Hmem ours. destruct (theirs <=? ours)%Z; [done|].
      apply ban_member_roster in Hmem. by rewrite (Hkeyed _ _ (eq_sym Em)) in Hmem.
    - injection Hmem as <-. unfold roster. by rewrite delete_id. }
  apply bind_roster in Hrun as ([] & w2 & Hrun & Hw2).
  2: { destruct (DataBanCreate.delete_message_seconds data) as [z|]; [|apply keeps_ret].
       destruct (0 <? z)%Z; [|apply keeps_ret]. apply keeps_bind; [by intros ?|intros now].
       apply keeps_bind; [by intros ?|intros n]. apply keeps_bind; [by apply keeps_modify|intros []].
       apply bulk_delete_roster. }
  apply bind_Ok_inv in Hrun as (ban & w3 & Hban & Hrun).
  apply bind_roster in Hrun as (? & w4 & [= _ <-] & Hw4); [|apply audit_roster].
  unfold create_ban in Hban. apply bind_Ok_inv in Hban as ([] & w5 & Hins & [= _ <-]).
  unfold on_bans in Hins. rewrite on_table_run in Hins.
  unfold BansTable.insert_ban, table_insert in Hins.
  change (ReferenceDb.server_bans (World.db w2)) with (bans w2) in Hins. cbn [ServerBan.id] in Hins.
  rewrite Hw1 in Hw2. injection Hw2 as Hm2 Hb2. rewrite Hb2 in Hins.
  destruct (bans w !! _) eqn:Hnone; [done|]. injection Hins as <-.
  injection Hw4 as -> ->. rewrite <- Hm2. done.
Qed.

(** A kick takes effect: when the route succeeds, the user is no member of the server any
    more; the other memberships and the bans are as before. *)
Theorem kick_effect (user : User.t) (reason : option string) (server member : string)
    (w w' : World.t) :
  members_keyed (members w) → kick user reason server member w = (Ok tt, w') →
  ∃ s, Reference.as_server server w = (Ok s, w) ∧
    members w' = delete (MemberCompositeKey.mk (Server.id s) member) (members w) ∧
    bans w' = bans w.
Proof.
  intros Hkeyed Hrun. pose proof require_in_server_reads as Hr. unfold kick in Hrun.
  unbind Hrun s. exists s. split; [done|].
  case_bool_decide; [done|]. case_bool_decide; [done|]. unbind Hrun found.
  unbind Hrun m. apply as_member_Ok in Em. unbind Hrun theirs. unbind Hrun ours.
  destruct (theirs <=? ours)%Z; [done|].
  destruct (members w !! _) as [m'|] eqn:Hm; [|done]. injection Em as ->.
  apply bind_Ok_inv in Hrun as ([] & w1 & Hrem%remove_member_roster & Hrun).
  apply bind_roster in Hrun as (? & w2 & Hrun & Hw2); [|apply audit_roster].
  pose proof (remove_from_voice_roster s member w2) as Hk. rewrite Hrun in Hk. simpl in Hk.
  rewrite Hw2, Hrem, (Hkeyed _ _ Hm) in Hk. by injection Hk.
Qed.
End Removals.

(** ** A new order of the roles *)

Section Reorder.
Context `{Environment, MutualIds, HashIter, Redis, RedisCommands, VoiceClient}.
Context `{OptionalStruct Server.t PartialServer.t}.

(** A list as long as there are roles that lists each of them lists each of them once. *)
Lemma all_roles_once (roles : gmap string Role.t) ranks :
  length ranks = size roles →
  forallb (λ e, bool_decide (e.1 ∈ ranks)) (hash_iter roles) = true →
  NoDup ranks ∧ ∀ id, id ∈ ranks ↔ is_Some (roles !! id).
Proof.
  intros Hlen Hall. rewrite forallb_forall in Hall.
  assert ((hash_iter roles).*1 ≡ₚ ranks) as Hperm.
  { apply submseteq_length_Permutation.
    - apply NoDup_submseteq; [apply hash_iter_nodup_keys|]. intros id ([k r] & -> & Hin)%list_elem_of_fmap.
      apply list_elem_of_In in Hin. by apply Hall, bool_decide_eq_true in Hin.
    - rewrite length_fmap, hash_iter_perm, length_map_to_list. lia. }
  split; [rewrite <- Hperm; apply hash_iter_nodup_keys|]. intros id. rewrite <- Hperm, list_elem_of_fmap.
  split.
  - intros ([k r] & -> & Hin%elem_of_hash_iter). simpl. eauto.
  - intros [r Hr]. exists (id, r). split; [done|]. by apply elem_of_hash_iter.
Qed.

Lemma set_role_ordering_Ok self order self' w w' :
  NoDup order → (∀ id, id ∈ order ↔ is_Some (Server.roles self !! id)) →
  set_role_ordering self order w = (Ok self', w') →
  roles_distinct self' ∧ (Server.ordered_roles self').*1 = order.
Proof.
  intros Hn Hall Hrun. unfold set_role_ordering in Hrun. unbind Hrun roles.
  destruct (assign_ranks_spec order 0 (Server.roles self)) as (roles' & Hok & Hrank & _ & Hdom);
    [done|by intros id; apply Hall|]. unfold lift in Eroles. rewrite Hok in Eroles.
  injection Eroles as <-. apply bind_Ok_inv in Hrun as ([] & w1 & _ & Hrun).
  apply bind_Ok_inv in Hrun as ([] & w2 & _ & [= <- _]).
  apply consecutive_ranks; simpl; [|done|].
  - intros id. rewrite Hall, <- !elem_of_dom. by rewrite Hdom.
  - intros i id Hi. destruct (Hrank i id Hi) as (r & Hr & Hk). exists r. split; [done|lia].
Qed.

(** A new order of the roles is the one that was asked for, and respects the hierarchy:
    when the route succeeds, the roles have distinct ranks and are listed in the requested
    order, and unless the owner asked, each role at or above the rank of whoever asked is at
    the position it was before. *)
Theorem roles_reordered (user : User.t) (reason : option string) (server : string)
    (ranks : list string) (s' : Server.t) (w w' : World.t) :
  edit_role_ranks user reason server ranks w = (Ok s', w') →
  ∃ s, Reference.as_server server w = (Ok s, w) ∧
    roles_distinct s' ∧ (Server.ordered_roles s').*1 = ranks ∧
    (Server.owner s ≠ User.id user → ∀ id role,
       Server.roles s !! id = Some role → (Role.rank role ≤ actor_rank user s w)%Z →
       position id (Server.ordered_roles s').*1 = position id (Server.ordered_roles s).*1).
Proof.
  intros Hrun. pose proof require_in_server_reads as Hr.
  unfold edit_role_ranks in Hrun. unbind Hrun s. exists s. split; [done|]. unbind Hrun found.
  cbv zeta in Hrun. destruct (_ || _) eqn:Hlist; [done|].
  apply orb_false_elim in Hlist as [Hlen%negb_false_iff Hin%negb_false_iff].
  apply bool_decide_eq_true in Hlen. destruct (all_roles_once _ _ Hlen Hin) as [Hn Hiff].
  destruct found as [p q]. apply require_in_server_Ok in Efound.
  destruct (query_server_rank _ _ _ _ _ Efound) as [Hrank _]. cbn [snd] in Hrun.
  apply bind_Ok_inv in Hrun as ([] & w1 & Hmoved & Hrun).
  apply bind_Ok_inv in Hrun as (s1 & w2 & Hset & Hrun).
  apply bind_Ok_inv in Hrun as (? & w3 & _ & Hrun).
  apply bind_Ok_inv in Hrun as (? & w4 & _ & [= <- _]).
  destruct (set_role_ordering_Ok _ _ _ _ _ Hn Hiff Hset) as [Hd Ho]. split; [done|]. split; [done|].
  intros Hown id role Hid Hle. rewrite Ho.
  rewrite bool_decide_false in Hmoved by done. cbn [negb] in Hmoved. unbind Hmoved best.
  destruct (existsb _ _) eqn:Hex; [done|].
  symmetry. eapply unmoved; [done| |done..]. unfold lift in Ebest. by injection Ebest.
Qed.
End Reorder.

(** ** Examples *)

Module Sample.
#[local] Existing Instance canonical_iter.
#[local] Existing Instance Fixture.strangers.
#[local] Existing Instance Instances.bytes.
#[local] Existing Instance Store.reliable.
#[local] Existing Instance VoiceInstances.commands.
#[local] Existing Instance VoiceInstances.client.
#[local] Instance route_environment : Environment := Fixture.environment 10.
#[local] Instance ulid_at : UlidAt := λ _ _, "0".

(** A field of the partial that is set replaces the field of the struct. *)
Definition or_keep {A} (o : option A) (a : A) : A := default a o.
Definition or_keep_option {A} (o a : option A) : option A :=
  match o with Some x => Some x | None => a end.
#[local] Instance member_options : OptionalStruct Member.t PartialMember.t := λ m p,
  Member.mk (or_keep (PartialMember.id p) (Member.id m))
    (or_keep (PartialMember.joined_at p) (Member.joined_at m))
    (or_keep_option (PartialMember.nickname p) (Member.nickname m))
    (or_keep_option (PartialMember.pronouns p) (Member.pronouns m))
    (or_keep_option (PartialMember.avatar p) (Member.avatar m))
    (or_keep (PartialMember.roles p) (Member.roles m))
    (or_keep_option (PartialMember.timeout p) (Member.timeout m))
    (or_keep (PartialMember.can_publish p) (Member.can_publish m))
    (or_keep (PartialMember.can_receive p) (Member.can_receive m)).
#[local] Instance server_options : OptionalStruct Server.t PartialServer.t := λ s p,
  Server.mk (or_keep (PartialServer.id p) (Server.id s))
    (or_keep (PartialServer.owner p) (Server.owner s))
    (or_keep (PartialServer.name p) (Server.name s))
    (or_keep_option (PartialServer.description p) (Server.description s))
    (or_keep_option (PartialServer.announcement p) (Server.announcement s))
    (or_keep (PartialServer.channels p) (Server.channels s))
    (or_keep_option (PartialServer.categories p) (Server.categories s))
    (or_keep_option (PartialServer.system_messages p) (Server.system_messages s))
    (or_keep (PartialServer.roles p) (Server.roles s))
    (or_keep (PartialServer.default_permissions p) (Server.default_permissions s))
    (or_keep_option (PartialServer.icon p) (Server.icon s))
    (or_keep_option (PartialServer.banner p) (Server.banner s))
    (or_keep_option (PartialServer.flags p) (Server.flags s))
    (or_keep (PartialServer.nsfw p) (Server.nsfw s))
    (or_keep (PartialServer.analytics p) (Server.analytics s))
    (or_keep (PartialServer.discoverable p) (Server.discoverable s))
    (or_keep (PartialServer.admin_suspended p) (Server.admin_suspended s)).

(** A server of "O" with a moderator "M" and a member "A" who was muted *)
Definition moderation : Z :=
  fold_right Z.lor 0%Z (ChannelPermission.as_u64 <$>
    [ChannelPermission.KickMembers; ChannelPermission.BanMembers; ChannelPermission.ManageRole;
     ChannelPermission.MoveMembers]).
Definition guild : Server.t :=
  Fixture.server "S" "O" 0
    [Fixture.role "mod" 0 moderation 0; Fixture.role "r" 1 0 0; Fixture.role "q" 2 0 0].
Definition muted : Member.t :=
  Member.mk (MemberCompositeKey.mk "S" "A") 0 None None None [] None false true.
Definition roster_of (ms : list Member.t) : MembersTable.table :=
  list_to_map ((λ m, (Member.id m, m)) <$> ms).
Definition guild_world : World.t :=
  World.set_db World.empty
    (ReferenceDb.set_server_members
       (ReferenceDb.set_users
          (ReferenceDb.set_servers ReferenceDb.empty {["S" := guild]})
          (list_to_map ((λ u, (User.id u, u)) <$>
             [Fixture.user "O" []; Fixture.user "M" []; Fixture.user "A" []])))
       (roster_of [muted; Fixture.member "S" "M" ["mod"] None; Fixture.member "S" "O" [] None])).

Lemma guild_keyed : members_keyed (members guild_world).
Proof.
  intros k m Hm. change (members guild_world) with
    (roster_of [muted; Fixture.member "S" "M" ["mod"] None; Fixture.member "S" "O" [] None]) in Hm.
  unfold roster_of in Hm. apply elem_of_list_to_map_2 in Hm.
  cbn in Hm. rewrite !elem_of_cons in Hm. destruct Hm as [[= -> ->]|[[= -> ->]|[[= -> ->]|Hm]]];
    [done..|by apply elem_of_nil in Hm].
Qed.

Definition banned : World.t :=
  (ban (Fixture.user "M" []) None "S" "A" (DataBanCreate.mk (Some "spam") (Some 60%Z)) guild_world).2.
Lemma ban_effect_witness :
  ∃ s, Reference.as_server "S" guild_world = (Ok s, guild_world) ∧
    let key := MemberCompositeKey.mk (Server.id s) "A" in
    members banned = delete key (members guild_world) ∧ bans guild_world !! key = None ∧
    bans banned = <[key := ServerBan.mk key (Some "spam")]> (bans guild_world).
Proof.
  apply (ban_effect (Fixture.user "M" []) None "S" "A" (DataBanCreate.mk (Some "spam") (Some 60%Z))
           (ServerBan.mk (MemberCompositeKey.mk "S" "A") (Some "spam")) guild_world banned).
  - exact guild_keyed.
  - vm_compute. reflexivity.
Defined.

Definition kicked : World.t := (kick (Fixture.user "M" []) None "S" "A" guild_world).2.
Lemma kick_effect_witness :
  ∃ s, Reference.as_server "S" guild_world = (Ok s, guild_world) ∧
    members kicked = delete (MemberCompositeKey.mk (Server.id s) "A") (members guild_world) ∧
    bans kicked = bans guild_world.
Proof.
  apply (kick_effect (Fixture.user "M" []) None "S" "A" guild_world kicked).
  - exact guild_keyed.
  - vm_compute. reflexivity.
Defined.

(** The moderator swaps the two roles below their own. *)
Definition swapped : Server.t :=
  Server.set_roles guild (list_to_map ((λ r, (Role.id r, r)) <$>
    [Fixture.role "mod" 0 moderation 0; Fixture.role "q" 1 0 0; Fixture.role "r" 2 0 0])).
Lemma roles_reordered_witness :
  ∃ s, Reference.as_server "S" guild_world = (Ok s, guild_world) ∧
    roles_distinct swapped ∧ (Server.ordered_roles swapped).*1 = ["mod"; "q"; "r"] ∧
    (Server.owner s ≠ "M" → ∀ id role,
       Server.roles s !! id = Some role →
       (Role.rank role ≤ actor_rank (Fixture.user "M" []) s guild_world)%Z →
       position id (Server.ordered_roles swapped).*1 = position id (Server.ordered_roles s).*1).
Proof.
  apply (roles_reordered (Fixture.user "M" []) None "S" ["mod"; "q"; "r"] swapped guild_world
           (edit_role_ranks (Fixture.user "M" []) None "S" ["mod"; "q"; "r"] guild_world).2).
  vm_compute. reflexivity.
Defined.

Definition unmute : DataMemberEdit.t :=
  DataMemberEdit.mk None None None None None None None None [FieldsMember.CanPublish].
(** A member who was muted for the whole server unmutes themselves: setting the flag
    needs the permission to mute members, removing it needs nothing. *)
Theorem muted_member_unmutes :
  Member.can_publish muted = false ∧
  (∃ p q, query_server (Fixture.user "A" []) guild guild_world = (Ok (p, q), guild_world) ∧
     PermissionValue.has_channel_permission p ChannelPermission.MuteMembers = false) ∧
  ∃ m w', member_edit (Fixture.user "A" []) None "S" "A" unmute guild_world = (Ok m, w') ∧
    members w' !! MemberCompositeKey.mk "S" "A" = Some m ∧ Member.can_publish m = true.
Proof.
  split_and!; [reflexivity| |].
  - eexists _, _. split; [vm_compute; reflexivity|]. vm_compute. reflexivity.
  - eexists _, _. split; [vm_compute; reflexivity|]. split; vm_compute; reflexivity.
Qed.

Definition talking : World.t :=
  (set_channel_node "V" "N"
     (create_voice_state (UserVoiceChannel.mk "V" (Some "S")) "A" 0 guild_world).2).2.
(** Disconnecting a member from a voice channel removes the moderator instead: the
    request to the voice server names the acting user. *)
Theorem disconnect_removes_moderator :
  ∃ m w', member_edit (Fixture.user "M" []) None "S" "A"
            (DataMemberEdit.mk None None None None None None None None [FieldsMember.VoiceChannel])
            talking = (Ok m, w') ∧
    World.livekit w' = [LiveKit.RemoveParticipant "N" "V" "M"].
Proof. eexists _, _. split; vm_compute; reflexivity. Qed.

(** The audit log of a change of ownership names the new owner as the owner before: the
    entry is built after the server was changed. *)
Theorem owner_change_logged_as_new :
  ∃ s w' entry, route_edit_server (Fixture.user "O" []) None "S"
      (DataEditServer.mk None None None None None None None None None None (Some "A") [])
      true guild_world = (Ok s, w') ∧
    ReferenceDb.audit_logs (World.db w') !! "id" = Some entry ∧
    match AuditLogEntry.action entry with
    | AuditLogEntryAction.ServerEdit before _ => PartialServer.owner before = Some "A"
    | _ => False
    end.
Proof. eexists _, _, _. split; [vm_compute; reflexivity|]. split; vm_compute; reflexivity. Qed.
End Sample.
