(* ===== verification/ChannelRoutes.v ===== *)
(** * Routes for channels

    The routes of [delta/src/routes/channels] that are not about messages: reading, editing
    and deleting channels, groups and their members, permissions, invites and webhooks, with
    [Invite::create_channel_invite] and the handlers of [models/channel_webhooks/model.rs].
    The theorems say what each request needs, that the token of a webhook is not published,
    and that a channel override can grant what the actor does not have. *)

From stdpp Require Import base list gmap strings.
From Stdlib Require Import ZArith Lia.
From S2P Require Import Prelude Errors Permissions PermissionSpec Files Users Servers Channels.
From S2P Require Import PermissionQuery Messages Unreads Config Emojis Webhooks Bots AuditLogs.
From S2P Require Import World Database PermissionTheorems Relationships MessageOps ChannelOps.
From S2P Require Import ServerOps References Authors Redis Acker MessageCreate MessageTheorems.
From S2P Require Import MessageRoutes Voice ServerRoutes.

(** ** Requests *)

Module DataEditChannel.
Record t : Type := mk {
  name : option string;
  description : option string;
  owner : option string;
  icon : option string;
  nsfw : option bool;
  archived : option bool;
  voice : option VoiceInformation.t;
  slowmode : option Z;
  remove : list FieldsChannel.t
}.
Definition valid `{Validator} (d : t) : bool :=
  valid_option (valid_length 1 32) (name d) &&
  valid_option (valid_length 0 1024) (description d) &&
  valid_option (valid_length 1 128) (icon d) &&
  valid_option (λ s, (0 <=? s)%Z && (s <=? 21600)%Z) (slowmode d).
End DataEditChannel.

Module DataDefaultChannelPermissions.
Inductive t : Type :=
| Value (permissions : Z)
| Field (permissions : Override.t).
End DataDefaultChannelPermissions.

Module CreateWebhookBody.
Record t : Type := mk { name : string; avatar : option string }.
Definition valid `{Validator} (d : t) : bool :=
  valid_length 1 32 (name d) && valid_option (valid_length 1 128) (avatar d).
End CreateWebhookBody.

Definition valid_create_group `{Validator} (d : DataCreateGroup.t) : bool :=
  valid_length 1 32 (DataCreateGroup.name d) &&
  valid_option (valid_length 0 1024) (DataCreateGroup.description d) &&
  valid_option (valid_length 1 128) (DataCreateGroup.icon d) &&
  bool_decide (size (DataCreateGroup.users d) ≤ 49)%nat.

Definition DEFAULT_WEBHOOK_PERMISSIONS : Z :=
  (ChannelPermission.as_u64 ChannelPermission.SendMessage +
   ChannelPermission.as_u64 ChannelPermission.SendEmbeds +
   ChannelPermission.as_u64 ChannelPermission.Masquerade +
   ChannelPermission.as_u64 ChannelPermission.React)%Z.

(** ** Handlers of invites and webhooks *)

Section Objects.
Context `{Environment}.

(** Create a new invite from given information *)
Definition create_channel_invite (creator : User.t) (channel : Channel.t) : H Invite.t :=
  code ← nanoid;
  invite ← match channel with
           | Channel.Group c => mret (Invite.Group code (User.id creator) (Group.id c))
           | Channel.TextChannel c =>
               mret (Invite.Server code (TextChannel.server c) (User.id creator) (TextChannel.id c))
           | _ => throw ErrorType.InvalidOperation
           end;
  on_invites (InvitesTable.insert_invite invite) ;;
  mret invite.

(** Create, update and delete a webhook; events do not carry its token *)
Definition create_webhook (self : Webhook.t) : H unit :=
  on_webhooks (WebhooksTable.insert_webhook self) ;;
  p (EventV1.WebhookCreate (Webhook.set_token self None)) (Webhook.channel_id self).
Definition update_webhook `{OptionalStruct Webhook.t PartialWebhook.t} (self : Webhook.t)
    (partial : PartialWebhook.t) (remove : list FieldsWebhook.t) : H Webhook.t :=
  let self := apply_options (fold_left webhook_remove_field remove self) partial in
  on_webhooks (WebhooksTable.update_webhook (Webhook.id self) partial remove) ;;
  let partial := PartialWebhook.set_token partial None in
  p (EventV1.WebhookUpdate (Webhook.id self) partial remove) (Webhook.channel_id self) ;;
  mret self.
Definition delete_webhook (self : Webhook.t) : H unit :=
  on_webhooks (WebhooksTable.delete_webhook (Webhook.id self)) ;;
  p (EventV1.WebhookDelete (Webhook.id self)) (Webhook.channel_id self).
End Objects.

Section Routes.
Context `{Environment, MutualIds, HashIter, Validator, Redis, RedisCommands, VoiceClient, Broker}.

(** If a user is in the voice channel, remove them from it. *)
Definition leave_voice (channel : Channel.t) (user_id : string) : H unit :=
  let user_voice_channel := UserVoiceChannel.from_channel channel in
  there ← is_in_voice_channel user_id user_voice_channel;
  if (there : bool) then remove_user_from_voice_channel user_voice_channel user_id else mret tt.

(** ** Reading *)

(** Acknowledge Message *)
Definition channel_ack (user : User.t) (target message : string) : H unit :=
  if is_bot user then throw ErrorType.IsBot else
  channel ← Reference.as_channel target;
  require_in_channel user channel ChannelPermission.ViewChannel ;;
  ack channel (User.id user) message.

(** Fetch Channel *)
Definition channel_fetch (user : User.t) (target : string) : H Channel.t :=
  channel ← Reference.as_channel target;
  require_in_channel user channel ChannelPermission.ViewChannel ;;
  mret channel.

(** Fetch Group Members *)
Definition fetch_members (user : User.t) (target : string) : H (list V0User.t) :=
  channel ← Reference.as_channel target;
  require_in_channel user channel ChannelPermission.ViewChannel ;;
  match channel with
  | Channel.Group c => fetch_many_ids_as_mutuals user (Group.recipients c)
  | _ => throw ErrorType.InvalidOperation
  end.

(** Gets all webhooks inside a channel *)
Definition fetch_webhooks (user : User.t) (channel_id : string) : H (list Webhook.t) :=
  channel ← Reference.as_channel channel_id;
  require_in_channel user channel ChannelPermission.ManageWebhooks ;;
  on_webhooks (WebhooksTable.fetch_webhooks_for_channel (Channel.id channel)).

(** ** Deleting and editing *)

(** Close Channel *)
Definition channel_delete (user : User.t) (reason : option string) (target : string)
    (leave_silently : option bool) : H unit :=
  channel ← Reference.as_channel target;
  permissions ← require_in_channel user channel ChannelPermission.ViewChannel;
  match channel with
  | Channel.SavedMessages _ => throw ErrorType.NoEffect
  | Channel.DirectMessage _ =>
      update_channel channel
        (PartialChannel.mk None None None None None (Some false) None None None None None None) [] ;;
      mret tt
  | Channel.Group _ =>
      remove_user_from_group channel user None (default false leave_silently) ;;
      leave_voice channel (User.id user)
  | Channel.TextChannel c =>
      require permissions ChannelPermission.ManageChannel ;;
      delete_channel channel ;;
      audit (AuditLogEntryAction.ChannelDelete (Channel.id channel) (TextChannel.name c))
        (TextChannel.server c) reason (User.id user) None ;;
      delete_voice_channel (UserVoiceChannel.from_channel channel)
  end.

(** The request changes nothing *)
Definition channel_edit_empty (d : DataEditChannel.t) : bool :=
  negb (is_some (DataEditChannel.name d)) && negb (is_some (DataEditChannel.description d)) &&
  negb (is_some (DataEditChannel.icon d)) && negb (is_some (DataEditChannel.nsfw d)) &&
  negb (is_some (DataEditChannel.owner d)) && negb (is_some (DataEditChannel.voice d)) &&
  negb (is_some (DataEditChannel.slowmode d)) && bool_decide (DataEditChannel.remove d = []).

(** Transfer the ownership of a group; returns the group with its new owner *)
Definition transfer (user : User.t) (channel : Channel.t) (new_owner : option string) : H Channel.t :=
  match new_owner with
  | Some new_owner =>
      match channel with
      | Channel.Group c =>
          if negb (bool_decide (Group.owner c = User.id user)) then throw ErrorType.NotOwner else
          if negb (bool_decide (new_owner ∈ Group.recipients c)) then throw ErrorType.NotInGroup else
          let channel := Channel.Group (set_owner c new_owner) in
          send_system (SystemMessage.ChannelOwnershipChanged (Group.owner c) new_owner) (Group.id c)
            (system_author user) channel ;;
          mret channel
      | _ => throw ErrorType.InvalidOperation
      end
  | None => mret channel
  end.

(** A field that can be removed, after an edit *)
Definition edited {A} (remove : list FieldsChannel.t) (field : FieldsChannel.t) (old new : option A) :
    option A :=
  match new with
  | Some new => Some new
  | None => if bool_decide (field ∈ remove) then None else old
  end.

(** Remove the icon from storage when the edit removes it, and use the new one *)
Definition edit_icon (user : User.t) (id : string) (icon : option File.t) (data : DataEditChannel.t) :
    H (option File.t) :=
  match icon with
  | Some icon =>
      if bool_decide (FieldsChannel.Icon ∈ DataEditChannel.remove data)
      then on_files (FilesTable.mark_attachment_as_deleted (File.id icon)) else mret tt
  | None => mret tt
  end ;;
  traverse (λ icon_id, on_files (UseFile.use_channel_icon icon_id id (User.id user)))
    (DataEditChannel.icon data).

(** Send out mutation system messages. *)
Definition announce_edit (user : User.t) (channel : Channel.t) (partial : PartialChannel.t) : H unit :=
  match PartialChannel.name partial with
  | Some name => send_system (SystemMessage.ChannelRenamed name (User.id user)) (Channel.id channel)
                   (system_author user) channel
  | None => mret tt
  end ;;
  (if is_some (PartialChannel.description partial)
   then send_system (SystemMessage.ChannelDescriptionChanged (User.id user)) (Channel.id channel)
          (system_author user) channel
   else mret tt) ;;
  (if is_some (PartialChannel.icon partial)
   then send_system (SystemMessage.ChannelIconChanged (User.id user)) (Channel.id channel)
          (system_author user) channel
   else mret tt).

(** The edit of a group and of a server channel: the caller's copy and the partial *)
Definition edit_group (user : User.t) (c : Group.t) (owner : option string)
    (data : DataEditChannel.t) : H (Channel.t * PartialChannel.t) :=
  let remove := DataEditChannel.remove data in
  icon ← edit_icon user (Group.id c) (Group.icon c) data;
  let partial := PartialChannel.mk (DataEditChannel.name data) owner (DataEditChannel.description data)
    icon (DataEditChannel.nsfw data) None None None None None None None in
  let channel := Channel.Group (Group.mk (Group.id c)
    (default (Group.name c) (DataEditChannel.name data)) (Group.owner c)
    (edited remove FieldsChannel.Description (Group.description c) (DataEditChannel.description data))
    (Group.recipients c) (edited remove FieldsChannel.Icon (Group.icon c) icon)
    (Group.last_message_id c) (Group.permissions c)
    (default (Group.nsfw c) (DataEditChannel.nsfw data))) in
  announce_edit user channel partial ;;
  mret (channel, partial).
Definition edit_text (user : User.t) (c : TextChannel.t) (data : DataEditChannel.t) :
    H (Channel.t * PartialChannel.t) :=
  let remove := DataEditChannel.remove data in
  icon ← edit_icon user (TextChannel.id c) (TextChannel.icon c) data;
  let partial := PartialChannel.mk (DataEditChannel.name data) None (DataEditChannel.description data)
    icon (DataEditChannel.nsfw data) None None None None None (DataEditChannel.voice data)
    (DataEditChannel.slowmode data) in
  let channel := Channel.TextChannel (TextChannel.mk (TextChannel.id c) (TextChannel.server c)
    (default (TextChannel.name c) (DataEditChannel.name data))
    (edited remove FieldsChannel.Description (TextChannel.description c)
       (DataEditChannel.description data))
    (edited remove FieldsChannel.Icon (TextChannel.icon c) icon) (TextChannel.last_message_id c)
    (TextChannel.default_permissions c) (TextChannel.role_permissions c)
    (default (TextChannel.nsfw c) (DataEditChannel.nsfw data))
    (edited remove FieldsChannel.Voice (TextChannel.voice c) (DataEditChannel.voice data))
    (edited remove FieldsChannel.Slowmode (TextChannel.slowmode c) (DataEditChannel.slowmode data))
    (TextChannel.forum c)) in
  mret (channel, partial).

(** The part of an edit that depends on the kind of channel *)
Definition change_channel (user : User.t) (channel : Channel.t) (data : DataEditChannel.t) :
    H (Channel.t * PartialChannel.t) :=
  match channel with
  | Channel.Group c => edit_group user c (DataEditChannel.owner data) data
  | Channel.TextChannel c => edit_text user c data
  | _ => throw ErrorType.InvalidOperation
  end.

(** Edit Channel *)
Definition channel_edit (user : User.t) (reason : option string) (target : string)
    (data : DataEditChannel.t) : H Channel.t :=
  validate DataEditChannel.valid data ;;
  channel ← Reference.as_channel target;
  require_in_channel user channel ChannelPermission.ManageChannel ;;
  if channel_edit_empty data then mret channel else
  channel ← transfer user channel (DataEditChannel.owner data);
  let before_channel := channel in
  changed ← change_channel user channel data;
  let remove := DataEditChannel.remove data in
  let partial : PartialChannel.t := changed.2 in
  let before := if is_some (Channel.server before_channel)
                then Some (Channel.generate_diff before_channel partial remove) else None in
  channel ← update_channel changed.1 partial remove;
  (if negb (is_some (Channel.voice channel))
   then delete_voice_channel (UserVoiceChannel.from_channel channel) else mret tt) ;;
  match before with
  | Some before =>
      server ← lift (unwrap (Channel.server channel));
      audit (AuditLogEntryAction.ChannelEdit (Channel.id channel) before partial) server reason
        (User.id user) None ;;
      mret channel
  | None => mret channel
  end.

(** ** Groups *)

(** Create Group *)
Definition route_create_group (user : User.t) (data : DataCreateGroup.t) : H Channel.t :=
  if is_bot user then throw ErrorType.IsBot else
  validate valid_create_group data ;;
  if negb (forallb (User.is_friends_with user) (hash_set_iter (DataCreateGroup.users data)))
  then throw ErrorType.NotFriends else
  create_group data (User.id user).

(** Add Member to Group *)
Definition add_member (user : User.t) (group_id member_id : string) : H unit :=
  if is_bot user then throw ErrorType.IsBot else
  channel ← Reference.as_channel group_id;
  require_in_channel user channel ChannelPermission.InviteOthers ;;
  match channel with
  | Channel.Group _ =>
      member ← Reference.as_user member_id;
      if negb (User.is_friends_with user (User.id member)) then throw ErrorType.NotFriends else
      add_user_to_group channel member (User.id user) ;;
      mret tt
  | _ => throw ErrorType.InvalidOperation
  end.

(** Remove Member from Group *)
Definition route_remove_member (user : User.t) (group_id member_id : string) : H unit :=
  if is_bot user then throw ErrorType.IsBot else
  channel ← Reference.as_channel group_id;
  match channel with
  | Channel.Group c =>
      if negb (bool_decide (User.id user = Group.owner c))
      then throw (ErrorType.MissingPermission
                    (ChannelPermission.to_string ChannelPermission.ManageChannel)) else
      member ← Reference.as_user member_id;
      if bool_decide (User.id user = User.id member) then throw ErrorType.CannotRemoveYourself else
      if negb (bool_decide (User.id member ∈ Group.recipients c)) then throw ErrorType.NotInGroup else
      remove_user_from_group channel member (Some (User.id user)) false
  | _ => throw ErrorType.InvalidOperation
  end ;;
  leave_voice channel member_id.

(** ** Invites and webhooks *)

(** Create Invite *)
Definition create_invite (user : User.t) (reason : option string) (target : string) : H Invite.t :=
  if is_bot user then throw ErrorType.IsBot else
  channel ← Reference.as_channel target;
  require_in_channel user channel ChannelPermission.InviteOthers ;;
  invite ← create_channel_invite user channel;
  audit_in_channel channel
    (AuditLogEntryAction.InviteCreate (Invite.code invite) (Channel.id channel)) reason
    (User.id user) None ;;
  mret invite.

(** Creates a webhook which 3rd party platforms can use to send messages *)
Definition route_create_webhook (user : User.t) (reason : option string) (channel_id : string)
    (data : CreateWebhookBody.t) : H Webhook.t :=
  validate CreateWebhookBody.valid data ;;
  channel ← Reference.as_channel channel_id;
  if match channel with Channel.TextChannel _ | Channel.Group _ => false | _ => true end
  then throw ErrorType.InvalidOperation else
  require_in_channel user channel ChannelPermission.ManageWebhooks ;;
  webhook_id ← ulid;
  avatar ← traverse (λ id, on_files (UseFile.use_webhook_avatar id webhook_id (User.id user)))
             (CreateWebhookBody.avatar data);
  token ← nanoid;
  let webhook := Webhook.mk webhook_id (CreateWebhookBody.name data) avatar (User.id user)
                   (Channel.id channel) DEFAULT_WEBHOOK_PERMISSIONS (Some token) in
  create_webhook webhook ;;
  audit_in_channel channel
    (AuditLogEntryAction.WebhookCreate (Webhook.id webhook) (Webhook.name webhook)
       (Webhook.channel_id webhook)) reason (User.id user) None ;;
  mret webhook.

(** ** Permissions *)

(** Set Role Permission *)
Definition set_role_permissions (user : User.t) (reason : option string) (target role_id : string)
    (permissions : Override.t) : H Channel.t :=
  channel ← Reference.as_channel target;
  found ← query_channel user channel;
  known ← ask set_server_from_channel found.2;
  let query := known.2 in
  require found.1 ChannelPermission.ManagePermissions ;;
  match DatabasePermissionQuery.server query with
  | Some server =>
      match Server.roles server !! role_id with
      | Some role =>
          ours ← lift (our_rank query);
          if negb (bool_decide (Server.owner server = User.id user)) && (Role.rank role <=? ours)%Z
          then throw ErrorType.NotElevated else
          lift (PermissionValue.throw_permission_override found.1
                  (Some (OverrideField.into_override (Role.permissions role))) permissions) ;;
          let override_field := OverrideField.from_override permissions in
          new_channel ← set_role_permission channel role_id override_field;
          sync_voice_permissions new_channel (Some server) (Some role_id) ;;
          audit (AuditLogEntryAction.ChannelRolePermissionsEdit (Channel.id new_channel) role_id
                   override_field) (Server.id server) reason (User.id user) None ;;
          mret new_channel
      | None => throw ErrorType.NotFound
      end
  | None => throw ErrorType.InvalidOperation
  end.

(** Partial channels with permissions *)
Definition partial_permissions (v : Z) : PartialChannel.t :=
  PartialChannel.mk None None None None None None (Some v) None None None None None.
Definition partial_default_override (v : OverrideField.t) : PartialChannel.t :=
  PartialChannel.mk None None None None None None None None (Some v) None None None.

(** Set Default Permission *)
Definition set_default_channel_permissions (user : User.t) (reason : option string)
    (target : string) (data : DataDefaultChannelPermissions.t) : H Channel.t :=
  channel ← Reference.as_channel target;
  permissions ← require_in_channel user channel ChannelPermission.ManagePermissions;
  channel ← match channel, data with
            | Channel.Group _, DataDefaultChannelPermissions.Value v =>
                update_channel channel (partial_permissions (as_i64 v)) []
            | Channel.TextChannel c, DataDefaultChannelPermissions.Field field =>
                lift (PermissionValue.throw_permission_override permissions
                        (OverrideField.into_override <$> TextChannel.default_permissions c) field) ;;
                let partial := partial_default_override (OverrideField.from_override field) in
                let before := Channel.generate_diff channel partial [] in
                changed ← update_channel channel partial [];
                audit (AuditLogEntryAction.ChannelEdit (TextChannel.id c) before partial)
                  (TextChannel.server c) reason (User.id user) None ;;
                mret changed
            | _, _ => throw ErrorType.InvalidOperation
            end;
  server ← traverse Reference.as_server (Channel.server channel);
  sync_voice_permissions channel server None ;;
  mret channel.
End Routes.

(** ** What each request needs *)

Module ChannelRequest.
Inductive t : Type :=
| Ack (target message : string)
| Delete (reason : option string) (target : string) (leave_silently : option bool)
| Edit (reason : option string) (target : string) (data : DataEditChannel.t)
| CreateGroup (data : DataCreateGroup.t)
| AddMember (group member : string)
| RemoveMember (group member : string)
| CreateInvite (reason : option string) (target : string)
| CreateWebhook (reason : option string) (target : string) (data : CreateWebhookBody.t)
| SetRolePermissions (reason : option string) (target role : string) (permissions : Override.t)
| SetDefaultPermissions (reason : option string) (target : string)
    (data : DataDefaultChannelPermissions.t).
End ChannelRequest.

Section Requests.
Context `{Environment, MutualIds, HashIter, Validator, Redis, RedisCommands, VoiceClient, Broker}.

(** The route of a request; what it returns is dropped *)
Definition perform_channel (user : User.t) (r : ChannelRequest.t) : H unit :=
  match r with
  | ChannelRequest.Ack target message => channel_ack user target message
  | ChannelRequest.Delete reason target silently => channel_delete user reason target silently
  | ChannelRequest.Edit reason target data => channel_edit user reason target data ;; mret tt
  | ChannelRequest.CreateGroup data => route_create_group user data ;; mret tt
  | ChannelRequest.AddMember group member => add_member user group member
  | ChannelRequest.RemoveMember group member => route_remove_member user group member
  | ChannelRequest.CreateInvite reason target => create_invite user reason target ;; mret tt
  | ChannelRequest.CreateWebhook reason target data =>
      route_create_webhook user reason target data ;; mret tt
  | ChannelRequest.SetRolePermissions reason target role permissions =>
      set_role_permissions user reason target role permissions ;; mret tt
  | ChannelRequest.SetDefaultPermissions reason target data =>
      set_default_channel_permissions user reason target data ;; mret tt
  end.

(** The channel of an id *)
Definition channel_at (target : string) (channel : Channel.t) (w : World.t) : Prop :=
  Reference.as_channel target w = (Ok channel, w).

Definition entitled (user : User.t) (r : ChannelRequest.t) (w : World.t) : Prop :=
  match r with
  | ChannelRequest.Ack target _ =>
      is_bot user = false ∧ holds_at user target ChannelPermission.ViewChannel w
  | ChannelRequest.Delete _ target _ =>
      holds_at user target ChannelPermission.ViewChannel w ∧
      (∀ c, channel_at target (Channel.TextChannel c) w →
         holds_at user target ChannelPermission.ManageChannel w)
  | ChannelRequest.Edit _ target data =>
      holds_at user target ChannelPermission.ManageChannel w ∧
      (∀ o, DataEditChannel.owner data = Some o →
         ∃ c, channel_at target (Channel.Group c) w ∧ Group.owner c = User.id user ∧
           o ∈ Group.recipients c)
  | ChannelRequest.CreateGroup data =>
      is_bot user = false ∧
      ∀ u, u ∈ DataCreateGroup.users data → User.is_friends_with user u = true
  | ChannelRequest.AddMember group member =>
      is_bot user = false ∧ holds_at user group ChannelPermission.InviteOthers w ∧
      ∃ m, Reference.as_user member w = (Ok m, w) ∧ User.is_friends_with user (User.id m) = true
  | ChannelRequest.RemoveMember group member =>
      is_bot user = false ∧
      ∃ c, channel_at group (Channel.Group c) w ∧ Group.owner c = User.id user
  | ChannelRequest.CreateInvite _ target =>
      is_bot user = false ∧ holds_at user target ChannelPermission.InviteOthers w
  | ChannelRequest.CreateWebhook _ target _ =>
      holds_at user target ChannelPermission.ManageWebhooks w
  | ChannelRequest.SetRolePermissions _ target _ _ =>
      holds_at user target ChannelPermission.ManagePermissions w
  | ChannelRequest.SetDefaultPermissions _ target data =>
      holds_at user target ChannelPermission.ManagePermissions w ∧
      (∀ c field, channel_at target (Channel.TextChannel c) w →
         data = DataDefaultChannelPermissions.Field field →
         ∃ p q, query_channel user (Channel.TextChannel c) w = (Ok (p, q), w) ∧
           PermissionValue.throw_permission_override p
             (OverrideField.into_override <$> TextChannel.default_permissions c) field = Ok tt)
  end.

Hint Resolve require_in_channel_reads : reads.

Lemma channel_delete_entitled user reason target silently w :
  gated (entitled user (ChannelRequest.Delete reason target silently) w)
    (channel_delete user reason target silently) w.
Proof.
  unfold channel_delete. apply gated_at. intros channel p Hc Hp Hat.
  destruct channel as [c|c|c|c].
  - by apply gated_reads.
  - apply gated_open. split; [done|]. intros c'. unfold channel_at. by rewrite Hc.
  - apply gated_open. split; [done|]. intros c'. unfold channel_at. by rewrite Hc.
  - apply gated_require. intros Hm. apply gated_open. split; [done|]. intros _ _.
    exists (Channel.TextChannel c). split; [done|].
    apply require_in_channel_Ok in Hp as [[q Hq] _]. by exists p, q.
Qed.

Lemma channel_edit_entitled user reason target data w :
  gated (entitled user (ChannelRequest.Edit reason target data) w)
    (channel_edit user reason target data) w.
Proof.
  unfold channel_edit. gate_step. apply gated_at. intros channel p Hc Hp Hat.
  destruct (channel_edit_empty data); [by apply gated_reads|]. unfold transfer.
  destruct (DataEditChannel.owner data) as [o|] eqn:Ho;
    [|apply gated_open; split; [done|]; intros; congruence].
  destruct channel as [c|c|c|c]; try apply gated_throw.
  case_bool_decide as Hown; cbn [negb]; [|apply gated_throw].
  case_bool_decide as Hin; cbn [negb]; [|apply gated_throw].
  apply gated_open. split; [done|]. intros o' Ho'. rewrite Ho in Ho'. injection Ho' as <-. by exists c.
Qed.

Lemma set_default_entitled user reason target data w :
  gated (entitled user (ChannelRequest.SetDefaultPermissions reason target data) w)
    (set_default_channel_permissions user reason target data) w.
Proof.
  unfold set_default_channel_permissions. apply gated_at. intros channel p Hc Hp Hat.
  apply require_in_channel_Ok in Hp as [[q Hq] _].
  destruct channel as [c|c|c|c], data as [v|field]; try apply gated_throw.
  - apply gated_open. split; [done|]. intros c' field'. unfold channel_at. by rewrite Hc.
  - apply gated_assoc, gated_lift. intros [] Ho. apply gated_open. split; [done|].
    intros c' field' Hc'. unfold channel_at in Hc'. rewrite Hc in Hc'. injection Hc' as <-.
    intros [= <-]. by exists p, q.
Qed.

(** C5: no request on channels does anything without authority: unless the user is entitled to
    it, the route leaves the world as it was. Each request needs its permission in the
    channel; a group is handed over, and its members removed, only by its owner, only
    friends are added to groups, and a default override of a server channel only grants
    what the actor holds. *)
Theorem channel_requests_authorised (user : User.t) (r : ChannelRequest.t) (w : World.t) :
  (perform_channel user r w).2 = w ∨ entitled user r w.
Proof.
  fold (gated (entitled user r w) (perform_channel user r) w).
  destruct r as [target message|reason target silently|reason target data|data|group member
                |group member|reason target|reason target data|reason target role o|reason target data];
    cbn [perform_channel].
  - unfold channel_ack. destruct (is_bot user) eqn:Hbot; [by apply gated_reads|].
    apply gated_at. intros. by apply gated_open.
  - apply channel_delete_entitled.
  - apply gated_bind_l; [done|]. apply channel_edit_entitled.
  - apply gated_bind_l; [done|]. unfold route_create_group.
    destruct (is_bot user) eqn:Hbot; [by apply gated_reads|]. gate_step.
    destruct (forallb _ _) eqn:Hall; cbn [negb]; [|by apply gated_reads]. apply gated_open.
    split; [done|]. intros u Hu. rewrite forallb_forall in Hall. apply Hall, list_elem_of_In.
    by apply hash_set_iter_spec.
  - unfold add_member. destruct (is_bot user) eqn:Hbot; [by apply gated_reads|].
    apply gated_at. intros channel p Hc Hp Hat. destruct channel; try (by apply gated_reads).
    gate_step. destruct (User.is_friends_with user (User.id a)) eqn:Hf; cbn [negb];
      [|by apply gated_reads]. apply gated_open. split_and!; [done..|]. by eexists.
  - unfold route_remove_member. destruct (is_bot user) eqn:Hbot; [by apply gated_reads|]. gate_step.
    destruct a as [c|c|c|c]; try apply gated_throw.
    case_bool_decide as Hown; cbn [negb]; [|apply gated_throw]. apply gated_open. split; [done|].
    by exists c.
  - apply gated_bind_l; [done|]. unfold create_invite.
    destruct (is_bot user) eqn:Hbot; [by apply gated_reads|]. apply gated_at. intros. by apply gated_open.
  - apply gated_bind_l; [done|]. unfold route_create_webhook. gate_step. gate_step.
    destruct a0 as [c|c|c|c]; try (by apply gated_reads);
      (apply gated_bind; [auto with reads|]); intros p Hp; apply gated_open; eexists;
      (split; [done|]); by eapply require_in_channel_holds.
  - apply gated_bind_l; [done|]. unfold set_role_permissions. gate_step. gate_step. gate_step.
    apply gated_require. intros Hp. apply gated_open. destruct a0 as [p q]. eexists. split; [done|].
    by exists p, q.
  - apply gated_bind_l; [done|]. apply set_default_entitled.
Qed.
End Requests.

(** ** Groups stay well-formed *)

Section Invariant.
Context `{Environment, MutualIds, HashIter, Validator, Redis, RedisCommands, VoiceClient, Broker}.

Definition keeps_groups {A} (m : H A) : Prop :=
  ∀ w, groups_wf (channels w) → groups_wf (channels (m w).2).

Lemma keeps_groups_channels {A} (m : H A) : keeps channels m → keeps_groups m.
Proof. intros Hm w Hw. by rewrite Hm. Qed.

Lemma keeps_groups_bind {A B} (m : H A) (k : A → H B) :
  keeps_groups m → (∀ a, keeps_groups (k a)) → keeps_groups (m ≫= k).
Proof.
  intros Hm Hk w Hw. rewrite M_bind_unfold. specialize (Hm w Hw).
  destruct (m w) as [[a| |] w']; simpl in *; [|done..]. by apply Hk.
Qed.

(** After a step that reads, what it returned is known. *)
Lemma keeps_groups_reads {A B} (m : H A) (k : A → H B) :
  reads m →
  (∀ w a, groups_wf (channels w) → m w = (Ok a, w) → groups_wf (channels (k a w).2)) →
  keeps_groups (m ≫= k).
Proof.
  intros Hm Hk w Hw. rewrite M_bind_unfold. specialize (Hm w).
  destruct (m w) as [[a| |] w'] eqn:Hrun; simpl in *; subst; [by apply Hk|done..].
Qed.

Lemma as_channel_stored target w channel :
  Reference.as_channel target w = (Ok channel, w) → channels w !! target = Some channel.
Proof.
  unfold Reference.as_channel. intros Hrun.
  apply bind_Ok_inv in Hrun as (c & w1 & Hc & Hrun).
  unfold on_channels in Hc. rewrite on_table_run in Hc.
  unfold ChannelsTable.fetch_channel, table_fetch in Hc.
  change (ReferenceDb.channels (World.db w)) with (channels w) in Hc. simpl in Hc.
  destruct (channels w !! target) as [x|]; [|done]. injection Hc as -> _. f_equal.
  destruct (Channel.server c) as [sid|]; [|by injection Hrun].
  apply bind_Ok_inv in Hrun as (s & w2 & _ & Hrun). destruct (Server.admin_suspended s); [done|].
  by injection Hrun.
Qed.

(** What the invariant is about: id, owner and recipients of a group *)
Definition group_core (c : Channel.t) : option (string * string * list string) :=
  match c with
  | Channel.Group c => Some (Group.id c, Group.owner c, Group.recipients c)
  | _ => None
  end.

Lemma remove_fields_core c remove : group_core (Channel.remove_fields c remove) = group_core c.
Proof.
  unfold Channel.remove_fields. revert c. induction remove as [|f remove IH]; intros c; simpl; [done|].
  rewrite IH. by destruct f, c.
Qed.

Lemma apply_options_core c partial :
  group_core (Channel.apply_options c partial) =
  (λ x, (x.1.1, default x.1.2 (PartialChannel.owner partial), x.2)) <$> group_core c.
Proof. by destruct c. Qed.

(** A table whose groups have the same cores, but for owners among the recipients *)
Lemma groups_wf_core t id c c' :
  groups_wf t → t !! id = Some c →
  (∀ i o r, group_core c' = Some (i, o, r) →
     ∃ o', group_core c = Some (i, o', r) ∧ (o = o' ∨ o ∈ r)) →
  groups_wf (<[id := c']> t).
Proof.
  intros Ht Hc Hcore i g. rewrite lookup_insert_Some. intros [[<- ->]|[_ Hg]]; [|by apply Ht].
  destruct (Hcore _ _ _ eq_refl) as (o' & Hc' & Ho). destruct c as [| |c|]; [done|done| |done].
  injection Hc' as Hid Howner Hrec. destruct (Ht _ _ Hc) as (Hi & Hn & Hin & Hlen).
  split; [congruence|]. unfold group_wf. rewrite <- Hrec. split_and!; [done| |done].
  destruct Ho as [Ho|Ho]; [by rewrite Ho, <- Howner|by rewrite Hrec].
Qed.

Lemma update_channel_groups self partial remove w :
  groups_wf (channels w) →
  (∀ o c, PartialChannel.owner partial = Some o →
     channels w !! Channel.id (Channel.apply_options (fold_left Channel.remove_field remove self) partial)
       = Some (Channel.Group c) → o ∈ Group.recipients c) →
  groups_wf (channels (update_channel self partial remove w).2).
Proof.
  intros Hw Ho. unfold update_channel. set (id := Channel.id _) in *. rewrite M_bind_unfold.
  unfold on_channels. rewrite on_table_run. unfold ChannelsTable.update_channel, table_update.
  change (ReferenceDb.channels (World.db w)) with (channels w).
  destruct (channels w !! id) as [c|] eqn:Hc; [|done]. cbn [fst snd]. rewrite M_bind_unfold.
  cbn [p modify snd fst mret M_ret].
  change (channels _) with (<[id := Channel.remove_fields (Channel.apply_options c partial) remove]> (channels w)).
  eapply groups_wf_core; [done..|]. intros i o r. rewrite remove_fields_core, apply_options_core.
  destruct c as [| |g|]; [done|done| |done]. simpl. intros [= <- <- <-].
  exists (Group.owner g). split; [done|].
  destruct (PartialChannel.owner partial) as [o|]; [right|by left]. by eapply Ho.
Qed.

Lemma set_role_permission_groups self role o : keeps_groups (set_role_permission self role o).
Proof.
  intros w Hw. unfold set_role_permission. destruct self as [| | |c]; [done|done|done|].
  rewrite M_bind_unfold. unfold on_channels. rewrite on_table_run.
  unfold ChannelsTable.set_channel_role_permission.
  change (ReferenceDb.channels (World.db w)) with (channels w).
  destruct (channels w !! TextChannel.id c) as [[| | |c']|] eqn:Hc; try done.
  destruct (TextChannel.role_permissions c' !! role); [|done].
  intros i g. unfold channels. simpl. rewrite lookup_insert_Some. intros [[_ [=]]|[_ Hg]]. by apply Hw.
Qed.

Lemma delete_channel_groups self : keeps_groups (delete_channel self).
Proof.
  intros w Hw. unfold delete_channel, ChannelsTable.delete_channel, table_delete.
  rewrite M_bind_unfold. cbn [p modify]. unfold on_channels. rewrite on_table_run.
  change (ReferenceDb.channels (World.db (World.set_events w _))) with (channels w).
  destruct (channels w !! Channel.id self); [|done]. by apply groups_wf_delete.
Qed.

Lemma create_group_groups data owner : keeps_groups (create_group data owner).
Proof.
  intros w Hw. destruct (create_group_channels data owner w) as [->|(c & -> & Hc)]; [done|].
  by apply groups_wf_insert.
Qed.

Lemma add_user_groups c user by_ w :
  groups_wf (channels w) → channels w !! Group.id c = Some (Channel.Group c) →
  groups_wf (channels (add_user_to_group (Channel.Group c) user by_ w).2).
Proof.
  intros Hw Hc. destruct (Hw _ _ Hc) as [_ Hwf].
  destruct (add_user_channels c user by_ w Hc Hwf) as [->|(c' & -> & Hid & Hwf' & _)]; [done|].
  by apply groups_wf_insert.
Qed.

Lemma remove_user_groups c user by_ silent w :
  groups_wf (channels w) → channels w !! Group.id c = Some (Channel.Group c) →
  groups_wf (channels (remove_user_from_group (Channel.Group c) user by_ silent w).2).
Proof.
  intros Hw Hc. destruct (Hw _ _ Hc) as [_ Hwf].
  destruct (decide (User.id user ∈ Group.recipients c)) as [Hin|Hin].
  - destruct (remove_user_channels c user by_ silent w Hc Hwf Hin)
      as [(_ & w' & -> & Hw')|(w' & o & -> & Hw' & Ho & Hne & _)].
    + simpl. rewrite Hw'. by apply groups_wf_delete.
    + simpl. rewrite Hw'. apply groups_wf_insert; [done|done|]. by apply without_user_wf.
  - destruct (remove_stranger c user by_ silent w Hc Hwf Hin) as (w' & -> & Hw'). simpl. by rewrite Hw'.
Qed.

(** ** What the other steps leave alone *)

Lemma db_channels {A} (m : H A) : keeps World.db m → keeps channels m.
Proof. apply db_keeps. intros w w' Hw. unfold channels. by rewrite Hw. Qed.

Lemma send_system_channels system id author channel :
  keeps channels (send_system system id author channel).
Proof. intros w. by destruct (send_system_ok system id author channel w) as (w' & -> & Hw'). Qed.

Lemma audit_channels action server reason user target :
  keeps channels (audit action server reason user target).
Proof.
  unfold audit, ulid, clock, on_audit_logs. apply keeps_bind; [by intros w|intros id].
  apply keeps_bind; [by intros w|intros now]. cbv zeta. case_match; [by intros w|].
  apply keeps_bind; [by apply keeps_table|intros []]. apply keeps_ret.
Qed.
Lemma audit_in_channel_channels channel action reason user target :
  keeps channels (audit_in_channel channel action reason user target).
Proof.
  unfold audit_in_channel. destruct (Channel.server channel); [|apply keeps_ret].
  apply keeps_bind; [apply audit_channels|intros; apply keeps_ret].
Qed.

Lemma leave_voice_channels channel user : keeps channels (leave_voice channel user).
Proof.
  apply db_channels. unfold leave_voice, is_in_voice_channel, sismember.
  apply keeps_bind; [apply reads_keeps, redis_query_reads|].
  intros [|]; [apply remove_user_from_voice_channel_db|apply keeps_ret].
Qed.

Lemma delete_voice_channel_channels channel : keeps channels (delete_voice_channel channel).
Proof.
  apply db_channels. unfold delete_voice_channel. apply keeps_bind.
  { apply reads_keeps. unfold get_voice_channel_members, smembers.
    apply reads_bind; [apply redis_query_reads|by intros]. }
  intros [users|]; [|apply keeps_ret].
  apply keeps_bind; [apply reads_keeps, redis_query_reads|intros node].
  apply keeps_bind; [apply keeps_lift|intros n].
  apply keeps_bind; [by apply livekit_request_keeps|intros _]. by apply pipeline_keeps.
Qed.

Lemma traverse_keeps {A B C} (f : World.t → C) (g : A → H B) o :
  (∀ a, keeps f (g a)) → keeps f (traverse g o).
Proof.
  intros Hg. destruct o; simpl; [|apply keeps_ret]. apply keeps_bind; [done|intros; apply keeps_ret].
Qed.

Lemma edit_icon_channels user id icon data : keeps channels (edit_icon user id icon data).
Proof.
  unfold edit_icon. apply keeps_bind.
  - destruct icon; [|apply keeps_ret]. case_bool_decide; [by apply keeps_table|apply keeps_ret].
  - intros _. apply traverse_keeps. intros a. by apply keeps_table.
Qed.
Lemma announce_edit_channels user channel partial : keeps channels (announce_edit user channel partial).
Proof.
  unfold announce_edit. apply keeps_bind; [|intros _; apply keeps_bind; [|intros _]].
  - destruct (PartialChannel.name partial); [apply send_system_channels|apply keeps_ret].
  - destruct (is_some _); [apply send_system_channels|apply keeps_ret].
  - destruct (is_some _); [apply send_system_channels|apply keeps_ret].
Qed.

Lemma on_redis_db {A} (command : Z → store → A * store) : keeps World.db (on_redis command).
Proof. intros w. unfold on_redis. by destruct (command _ _). Qed.

Lemma ack_channels_kept channel user message : keeps channels (ack channel user message).
Proof.
  apply db_channels. unfold ack, private, p, ack_channel.
  apply keeps_bind; [by apply keeps_modify|intros _].
  apply keeps_bind; [apply reads_keeps, connection_reads|intros _]. cbv zeta.
  apply keeps_bind; [apply on_redis_db|intros old].
  apply keeps_bind; [apply keeps_lift|intros o]. destruct (match o with _ => _ end); [apply keeps_ret|].
  apply keeps_bind; [apply on_redis_db|intros d]. apply keeps_bind; [apply keeps_lift|intros _].
  unfold process_ack. apply keeps_bind; [by intros w|intros now].
  destruct (broker_accepts now); [by apply keeps_modify|apply keeps_throw].
Qed.

(** ** The routes *)

Lemma channel_delete_groups user reason target silently :
  keeps_groups (channel_delete user reason target silently).
Proof.
  pose proof require_in_channel_reads as Hreads.
  unfold channel_delete. apply keeps_groups_reads; [auto with reads|]. intros w channel Hw Hc.
  pose proof (as_channel_stored _ _ _ Hc) as Hstored. revert w Hw Hc Hstored.
  intros w Hw _ Hstored. rewrite M_bind_unfold. pose proof (Hreads user channel ChannelPermission.ViewChannel w) as Hr.
  destruct (require_in_channel user channel ChannelPermission.ViewChannel w) as [[p| |] w'];
    simpl in Hr; subst w'; [|done..].
  destruct channel as [c|c|c|c].
  - done.
  - apply keeps_groups_bind; [|by intros ? ?|done]. intros w' Hw'. by apply update_channel_groups.
  - apply Hw in Hstored as Hid. destruct Hid as [Hid _]. rewrite <- Hid in Hstored.
    rewrite M_bind_unfold. pose proof (remove_user_groups c user None (default false silently) w Hw Hstored) as Hrm.
    destruct (remove_user_from_group _ _ _ _ w) as [[[]| |] w']; simpl in *; [|done..].
    rewrite leave_voice_channels. done.
  - revert Hw. generalize w. apply keeps_groups_bind; [by apply keeps_groups_channels, reads_keeps, reads_require|intros _].
    apply keeps_groups_bind; [apply delete_channel_groups|intros _].
    apply keeps_groups_bind; [apply keeps_groups_channels, audit_channels|intros _].
    apply keeps_groups_channels, delete_voice_channel_channels.
Qed.

(** The rest of an edit once the changes are known *)
Lemma finish_edit_groups user reason changed partial remove before w :
  groups_wf (channels w) →
  (∀ o c, PartialChannel.owner partial = Some o →
     channels w !! Channel.id (Channel.apply_options (fold_left Channel.remove_field remove changed) partial)
       = Some (Channel.Group c) → o ∈ Group.recipients c) →
  groups_wf (channels ((channel ← update_channel changed partial remove;
    (if negb (is_some (Channel.voice channel))
     then delete_voice_channel (UserVoiceChannel.from_channel channel) else mret tt) ;;
    match before with
    | Some before =>
        server ← lift (unwrap (Channel.server channel));
        audit (AuditLogEntryAction.ChannelEdit (Channel.id channel) before partial) server reason
          (User.id user) None ;;
        mret channel
    | None => mret channel
    end) w).2).
Proof.
  intros Hw Ho. rewrite M_bind_unfold. pose proof (update_channel_groups _ _ _ _ Hw Ho) as Hupd.
  destruct (update_channel changed partial remove w) as [[channel| |] w1]; simpl in *; [|done..].
  revert w1 Hupd. apply keeps_groups_bind; [|intros _].
  - apply keeps_groups_channels. destruct (negb _); [apply delete_voice_channel_channels|apply keeps_ret].
  - apply keeps_groups_channels. destruct before; [|apply keeps_ret].
    apply keeps_bind; [apply keeps_lift|intros server].
    apply keeps_bind; [apply audit_channels|intros _]. apply keeps_ret.
Qed.

Lemma remove_field_id (c : Channel.t) remove :
  Channel.id (fold_left Channel.remove_field remove c) = Channel.id c.
Proof.
  revert c. induction remove as [|f remove IH]; intros c; simpl; [done|]. rewrite IH. by destruct f, c.
Qed.

Lemma edit_group_Ok user c owner data channel partial w w' :
  edit_group user c owner data w = (Ok (channel, partial), w') →
  channels w' = channels w ∧ PartialChannel.owner partial = owner ∧ Channel.id channel = Group.id c.
Proof.
  unfold edit_group. intros Hrun. apply bind_Ok_inv in Hrun as (icon & w1 & Hicon & Hrun).
  apply bind_Ok_inv in Hrun as ([] & w2 & Hann & [= <- <- <-]).
  pose proof (edit_icon_channels user (Group.id c) (Group.icon c) data w) as Hk1. rewrite Hicon in Hk1.
  match type of Hann with announce_edit ?u ?ch ?p _ = _ =>
    pose proof (announce_edit_channels u ch p w1) as Hk2 end.
  rewrite Hann in Hk2. simpl in *. split; [congruence|done].
Qed.

Lemma edit_group_channels user c owner data : keeps channels (edit_group user c owner data).
Proof.
  unfold edit_group. apply keeps_bind; [apply edit_icon_channels|intros icon].
  apply keeps_bind; [apply announce_edit_channels|intros _]. apply keeps_ret.
Qed.
Lemma edit_text_channels user c data : keeps channels (edit_text user c data).
Proof. unfold edit_text. apply keeps_bind; [apply edit_icon_channels|intros icon]. apply keeps_ret. Qed.

Lemma transfer_channels user channel o : keeps channels (transfer user channel o).
Proof.
  unfold transfer. destruct o as [o|]; [|apply keeps_ret].
  destruct channel as [c|c|c|c]; try apply keeps_throw.
  destruct (negb _); [apply keeps_throw|]. destruct (negb _); [apply keeps_throw|].
  apply keeps_bind; [apply send_system_channels|intros _]. apply keeps_ret.
Qed.
Lemma transfer_Ok user channel o channel' w w' :
  transfer user channel o w = (Ok channel', w') →
  (o = None ∧ channel' = channel) ∨
  ∃ c n, channel = Channel.Group c ∧ o = Some n ∧ n ∈ Group.recipients c ∧
    channel' = Channel.Group (set_owner c n).
Proof.
  unfold transfer. destruct o as [n|]; intros Hrun; [right|left; by injection Hrun].
  destruct channel as [c|c|c|c]; try done. revert Hrun.
  case_bool_decide; cbn [negb]; [|done]. case_bool_decide; cbn [negb]; [|done].
  intros (? & w1 & _ & [= <- _])%bind_Ok_inv. by exists c, n.
Qed.

Lemma change_channel_channels user channel data : keeps channels (change_channel user channel data).
Proof.
  destruct channel; [apply keeps_throw|apply keeps_throw|apply edit_group_channels|apply edit_text_channels].
Qed.

(** The owner an edit stores is a recipient of the stored group. *)
Lemma change_channel_owner user channel channel' data changed partial w o c :
  (∀ g, channel = Channel.Group g → channels w !! Group.id g = Some channel) →
  (DataEditChannel.owner data = None ∧ channel' = channel ∨
   ∃ g n, channel = Channel.Group g ∧ DataEditChannel.owner data = Some n ∧ n ∈ Group.recipients g ∧
     channel' = Channel.Group (set_owner g n)) →
  (change_channel user channel' data w).1 = Ok (changed, partial) →
  PartialChannel.owner partial = Some o → channels w !! Channel.id changed = Some (Channel.Group c) →
  o ∈ Group.recipients c.
Proof.
  intros Hstored Htr Hch Ho Hc.
  destruct (change_channel user channel' data w) as [r w'] eqn:Hrun. simpl in Hch. subst r.
  destruct channel' as [x|x|x|x]; [done|done| |].
  - apply edit_group_Ok in Hrun as (_ & Hown & Hid). rewrite Hown in Ho.
    destruct Htr as [[Hn _]|(g & n & -> & Hn & Hin & [= ->])]; rewrite Hn in Ho; [done|].
    injection Ho as <-. rewrite Hid in Hc. simpl in Hc. rewrite (Hstored g) in Hc by done. by injection Hc as <-.
  - apply bind_Ok_inv in Hrun as (icon & w1 & _ & [= _ <- _]). done.
Qed.

Lemma channel_edit_groups user reason target data : keeps_groups (channel_edit user reason target data).
Proof.
  pose proof require_in_channel_reads as Hreads. unfold channel_edit.
  apply keeps_groups_reads; [auto with reads|]. intros w0 [] Hw0 _. revert w0 Hw0.
  apply keeps_groups_reads; [auto with reads|]. intros w channel Hw Hc%as_channel_stored.
  rewrite M_bind_unfold.
  pose proof (Hreads user channel ChannelPermission.ManageChannel w) as Hr.
  destruct (require_in_channel user channel ChannelPermission.ManageChannel w) as [[p| |] w'];
    simpl in Hr; subst w'; [|done..].
  destruct (channel_edit_empty data); [done|]. rewrite M_bind_unfold.
  pose proof (transfer_channels user channel (DataEditChannel.owner data) w) as Hk.
  destruct (transfer user channel (DataEditChannel.owner data) w) as [[channel'| |] w1] eqn:Htr;
    simpl in Hk; [|by simpl; rewrite Hk..].
  apply transfer_Ok in Htr. cbv zeta. rewrite M_bind_unfold.
  pose proof (change_channel_channels user channel' data w1) as Hk1.
  destruct (change_channel user channel' data w1) as [[[changed partial]| |] w2] eqn:Hch;
    simpl in Hk1; [|by simpl; rewrite Hk1, Hk..].
  cbn [fst snd]. apply finish_edit_groups; [by rewrite Hk1, Hk|]. intros o c Ho. rewrite Hk1, Hk.
  assert (Channel.id (Channel.apply_options (fold_left Channel.remove_field (DataEditChannel.remove data) changed)
            partial) = Channel.id changed) as ->.
  { rewrite <- (remove_field_id changed (DataEditChannel.remove data)).
    by destruct (fold_left _ _ _). }
  rewrite <- Hk. apply (change_channel_owner user channel channel' data changed partial w1); try done.
  - intros g ->. rewrite Hk. by rewrite (proj1 (Hw _ _ Hc)).
  - by rewrite Hch.
Qed.

Lemma route_remove_member_groups user group member : keeps_groups (route_remove_member user group member).
Proof.
  unfold route_remove_member. destruct (is_bot user); [by intros w|].
  apply keeps_groups_reads; [auto with reads|]. intros w channel Hw Hc%as_channel_stored.
  destruct channel as [c|c|c|c]; try done. destruct (Hw _ _ Hc) as [Hid _]. rewrite <- Hid in Hc.
  rewrite M_bind_unfold.
  match goal with |- context [match ?m w with _ => _ end] =>
    assert (groups_wf (channels (m w).2)) as Hm; [|destruct (m w) as [[[]| |] w']] end.
  - destruct (negb _); [done|]. rewrite M_bind_unfold. pose proof (as_user_reads member w) as Hr.
    destruct (Reference.as_user member w) as [[u| |] w']; simpl in Hr; subst w'; [|done..].
    case_bool_decide; [done|]. destruct (negb _); [done|]. by apply remove_user_groups.
  - simpl in Hm. rewrite leave_voice_channels. done.
  - done.
  - done.
Qed.

Lemma add_member_groups user group member : keeps_groups (add_member user group member).
Proof.
  pose proof require_in_channel_reads as Hreads. unfold add_member.
  destruct (is_bot user); [by intros w|].
  apply keeps_groups_reads; [auto with reads|]. intros w channel Hw Hc%as_channel_stored.
  rewrite M_bind_unfold. pose proof (Hreads user channel ChannelPermission.InviteOthers w) as Hr.
  destruct (require_in_channel user channel ChannelPermission.InviteOthers w) as [[p| |] w'];
    simpl in Hr; subst w'; [|done..].
  destruct channel as [c|c|c|c]; try done. destruct (Hw _ _ Hc) as [Hid _]. rewrite <- Hid in Hc.
  rewrite M_bind_unfold. pose proof (as_user_reads member w) as Hr.
  destruct (Reference.as_user member w) as [[u| |] w']; simpl in Hr; subst w'; [|done..].
  destruct (negb _); [done|]. rewrite M_bind_unfold.
  pose proof (add_user_groups c u (User.id user) w Hw Hc) as Hadd.
  by destruct (add_user_to_group _ _ _ w) as [[]].
Qed.

Lemma set_default_groups user reason target data :
  keeps_groups (set_default_channel_permissions user reason target data).
Proof.
  pose proof require_in_channel_reads as Hreads. unfold set_default_channel_permissions.
  apply keeps_groups_reads; [auto with reads|]. intros w0 channel Hw0 _. revert w0 Hw0.
  apply keeps_groups_reads; [auto with reads|]. intros w0 p Hw0 _. revert w0 Hw0.
  apply keeps_groups_bind.
  - destruct channel as [c|c|c|c], data as [v|field]; try (by intros w).
    + intros w Hw. by apply update_channel_groups.
    + apply keeps_groups_bind; [by apply keeps_groups_channels, keeps_lift|intros _].
      apply keeps_groups_bind; [intros w Hw; by apply update_channel_groups|intros ch].
      apply keeps_groups_channels. apply keeps_bind; [apply audit_channels|intros _; apply keeps_ret].
  - intros ch. apply keeps_groups_channels. apply keeps_bind.
    + apply traverse_keeps. intros a. apply reads_keeps, as_server_reads.
    + intros server. apply keeps_bind; [|intros _; apply keeps_ret].
      apply db_channels, sync_voice_permissions_db.
Qed.

Lemma set_role_permissions_groups user reason target role o :
  keeps_groups (set_role_permissions user reason target role o).
Proof.
  unfold set_role_permissions. repeat (apply keeps_groups_bind;
    [apply keeps_groups_channels, reads_keeps; solve_reads|intros ?]).
  destruct (DatabasePermissionQuery.server _) as [server|]; [|by intros w].
  destruct (Server.roles server !! role) as [r|]; [|by intros w].
  apply keeps_groups_bind; [by apply keeps_groups_channels, keeps_lift|intros ours].
  destruct (_ && _); [by intros w|].
  apply keeps_groups_bind; [by apply keeps_groups_channels, keeps_lift|intros _].
  apply keeps_groups_bind; [apply set_role_permission_groups|intros ch].
  apply keeps_groups_channels. apply keeps_bind; [apply db_channels, sync_voice_permissions_db|intros _].
  apply keeps_bind; [apply audit_channels|intros _]. apply keeps_ret.
Qed.

Lemma create_invite_channels user reason target : keeps channels (create_invite user reason target).
Proof.
  pose proof require_in_channel_reads as Hreads. unfold create_invite.
  destruct (is_bot user); [apply keeps_throw|].
  apply keeps_bind; [apply reads_keeps; auto with reads|intros channel].
  apply keeps_bind; [apply reads_keeps; auto with reads|intros p].
  apply keeps_bind.
  - unfold create_channel_invite. apply keeps_bind; [by intros w|intros code].
    apply keeps_bind; [destruct channel; (apply keeps_ret || apply keeps_throw)|intros invite].
    apply keeps_bind; [by apply keeps_table|intros _]. apply keeps_ret.
  - intros invite. apply keeps_bind; [apply audit_in_channel_channels|intros _]. apply keeps_ret.
Qed.

Lemma route_create_webhook_channels user reason target data :
  keeps channels (route_create_webhook user reason target data).
Proof.
  pose proof require_in_channel_reads as Hreads. unfold route_create_webhook.
  apply keeps_bind; [apply reads_keeps; auto with reads|intros _].
  apply keeps_bind; [apply reads_keeps; auto with reads|intros channel].
  match goal with |- keeps _ (if ?b then _ else _) => destruct b end; [apply keeps_throw|].
  apply keeps_bind; [apply reads_keeps; auto with reads|intros p].
  apply keeps_bind; [by intros w|intros id].
  apply keeps_bind; [apply traverse_keeps; intros a; by apply keeps_table|intros avatar].
  apply keeps_bind; [by intros w|intros token]. cbv zeta. unfold create_webhook.
  apply keeps_bind; [apply keeps_bind; [by apply keeps_table|intros _; by apply keeps_modify]|intros _].
  apply keeps_bind; [apply audit_in_channel_channels|intros _]. apply keeps_ret.
Qed.

(** C6: whatever request on channels comes in, and whether it succeeds, fails or panics, the
    groups stay well-formed: stored under their ids, without a recipient twice, owned by one
    of their recipients, and within the limit on their size. *)
Theorem channel_requests_keep_groups (user : User.t) (r : ChannelRequest.t) (w : World.t) :
  groups_wf (channels w) → groups_wf (channels (perform_channel user r w).2).
Proof.
  revert w. fold (keeps_groups (perform_channel user r)).
  pose proof require_in_channel_reads as Hreads.
  destruct r as [target message|reason target silently|reason target data|data|group member
                |group member|reason target|reason target data|reason target role o|reason target data];
    cbn [perform_channel]; try (apply keeps_groups_bind; [|by intros ? ?]).
  - unfold channel_ack. destruct (is_bot user); [by intros w|].
    apply keeps_groups_channels. apply keeps_bind; [apply reads_keeps; auto with reads|intros channel].
    apply keeps_bind; [apply reads_keeps; auto with reads|intros _]. apply ack_channels_kept.
  - apply channel_delete_groups.
  - apply channel_edit_groups.
  - unfold route_create_group. destruct (is_bot user); [by intros w|].
    apply keeps_groups_bind; [apply keeps_groups_channels, reads_keeps; auto with reads|intros _].
    destruct (negb _); [by intros w|]. apply create_group_groups.
  - apply add_member_groups.
  - apply route_remove_member_groups.
  - apply keeps_groups_channels, create_invite_channels.
  - apply keeps_groups_channels, route_create_webhook_channels.
  - apply set_role_permissions_groups.
  - apply set_default_groups.
Qed.
End Invariant.

(** ** Tokens of webhooks *)

Section Tokens.
Context `{Environment, MutualIds, HashIter, Validator, OptionalStruct Webhook.t PartialWebhook.t}.

(** The event carries no token of a webhook. *)
Definition tokenless (e : EventV1.t) : Prop :=
  match e with
  | EventV1.WebhookCreate webhook => Webhook.token webhook = None
  | EventV1.WebhookUpdate _ data _ => PartialWebhook.token data = None
  | _ => True
  end.

(** The events published since [w] carry no token. *)
Definition no_token_published (w w' : World.t) : Prop :=
  ∃ es, World.events w' = World.events w ++ es ∧ Forall (λ e, tokenless e.2) es.

Lemma no_token_same w w' : World.events w' = World.events w → no_token_published w w'.
Proof. intros Hw. exists []. by rewrite app_nil_r, Hw. Qed.

Inductive webhook_op : Type :=
| Create (webhook : Webhook.t)
| Update (webhook : Webhook.t) (partial : PartialWebhook.t) (remove : list FieldsWebhook.t)
| Remove (webhook : Webhook.t).

Definition run_webhook_op (o : webhook_op) : H unit :=
  match o with
  | Create webhook => create_webhook webhook
  | Update webhook partial remove => update_webhook webhook partial remove ;; mret tt
  | Remove webhook => delete_webhook webhook
  end.

(** The token of a webhook, which lets anybody who has it post to the channel, is never
    published: no handler of webhooks publishes an event that carries one, not even the
    event of an update that sets a new token. *)
Theorem webhook_token_hidden (o : webhook_op) (w : World.t) :
  no_token_published w (run_webhook_op o w).2.
Proof.
  destruct o as [x|x partial remove|x]; cbn [run_webhook_op].
  - unfold create_webhook, on_webhooks, p, WebhooksTable.insert_webhook, table_insert.
    rewrite M_bind_unfold, on_table_run. destruct (_ !! Webhook.id x); [by apply no_token_same|].
    eexists. split; [done|]. by repeat constructor.
  - unfold update_webhook, on_webhooks, p, WebhooksTable.update_webhook, table_update.
    rewrite !M_bind_unfold, on_table_run. cbv zeta.
    destruct (_ !! Webhook.id _); [|by apply no_token_same].
    eexists. split; [done|]. by repeat constructor.
  - unfold delete_webhook, on_webhooks, p, WebhooksTable.delete_webhook, table_delete.
    rewrite M_bind_unfold, on_table_run. destruct (_ !! Webhook.id x); [|by apply no_token_same].
    eexists. split; [done|]. by repeat constructor.
Qed.
End Tokens.

(** ** Examples *)

Module Sample.
#[local] Existing Instance canonical_iter.
#[local] Existing Instance Fixture.strangers.
#[local] Existing Instance Instances.bytes.
#[local] Existing Instance Store.reliable.
#[local] Existing Instance VoiceInstances.commands.
#[local] Existing Instance VoiceInstances.client.
#[local] Instance broker : Broker := λ _, true.
#[local] Instance channel_environment : Environment := Fixture.environment 10.

(** A group of "A" and "B"; "A" hands it over to "B". *)
Definition club : Group.t := Fixture.group "G" "A" ["A"; "B"].
Definition club_world : World.t :=
  World.set_db World.empty
    (ReferenceDb.set_channels ReferenceDb.empty {["G" := Channel.Group club]}).
Definition hand_over_club : ChannelRequest.t :=
  ChannelRequest.Edit None "G"
    (DataEditChannel.mk None None (Some "B") None None None None None []).
Lemma channel_requests_keep_groups_witness :
  groups_wf (channels (perform_channel (Fixture.user "A" []) hand_over_club club_world).2) ∧
  match channels (perform_channel (Fixture.user "A" []) hand_over_club club_world).2 !! "G" with
  | Some (Channel.Group c) => Group.owner c = "B"
  | _ => False
  end.
Proof.
  split; [|vm_compute; reflexivity].
  apply (channel_requests_keep_groups (Fixture.user "A" []) hand_over_club club_world).
  intros i c. change (channels club_world) with ({["G" := Channel.Group club]} : ChannelsTable.table).
  rewrite lookup_singleton_Some. intros [<- [= <-]]. split; [done|]. split_and!.
  - apply (bool_decide_unpack _). vm_compute. exact I.
  - left.
  - vm_compute. lia.
Defined.

(** "M" can manage permissions but not send messages; the role "r" can, except in the
    channel "C". *)
Definition manager : Role.t :=
  Fixture.role "m" 0
    (Z.lor (ChannelPermission.as_u64 ChannelPermission.ManagePermissions)
       (ChannelPermission.as_u64 ChannelPermission.ViewChannel)) 0.
Definition speaker : Role.t :=
  Fixture.role "r" 1 (ChannelPermission.as_u64 ChannelPermission.SendMessage) 0.
Definition hall : Server.t :=
  Fixture.server "S" "O" (ChannelPermission.as_u64 ChannelPermission.ViewChannel)
    [manager; speaker].
Definition quiet : Channel.t :=
  Channel.TextChannel (Fixture.text_channel "C" "S" None
    [("r", OverrideField.mk 0 (ChannelPermission.as_u64 ChannelPermission.SendMessage))]).
Definition hall_world : World.t :=
  World.set_db World.empty
    (ReferenceDb.set_channels
       (ReferenceDb.set_server_members
          (ReferenceDb.set_servers ReferenceDb.empty {["S" := hall]})
          (list_to_map ((λ m, (Member.id m, m)) <$>
             [Fixture.member "S" "M" ["m"] None; Fixture.member "S" "A" ["r"] None])))
       {["C" := quiet]}).

(** Whether a user can send messages in the channel "C" of a world *)
Definition can_send (u : string) (w : World.t) : option bool :=
  match channels w !! "C" with
  | Some c =>
      match channel_permissions (Fixture.user u []) c w with
      | (Ok p, _) => Some (PermissionValue.has_channel_permission p ChannelPermission.SendMessage)
      | _ => None
      end
  | None => None
  end.

Definition allow_sending : H Channel.t :=
  set_role_permissions (Fixture.user "M" []) None "C" "r"
    (Override.mk (ChannelPermission.as_u64 ChannelPermission.SendMessage) 0).

(** An override of a channel can grant what the actor does not have: the check compares
    the new override with the permissions of the role in the server instead of its current
    override in the channel. "M" may not send messages anywhere, but lets the role "r", whose
    override denies it, send messages in the channel. *)
Theorem channel_override_escalates :
  can_send "M" hall_world = Some false ∧ can_send "A" hall_world = Some false ∧
  (∃ c, (allow_sending hall_world).1 = Ok c) ∧
  can_send "M" (allow_sending hall_world).2 = Some false ∧
  can_send "A" (allow_sending hall_world).2 = Some true.
Proof.
  split; [vm_compute; reflexivity|]. split; [vm_compute; reflexivity|].
  split; [eexists; vm_compute; reflexivity|]. split; vm_compute; reflexivity.
Qed.
End Sample.
