(* ===== verification/UserOps.v ===== *)
(** * Handlers of users and bots

    Creating, renaming, updating and deleting users ([models/users/model.rs]) and bots
    ([models/bots/model.rs]), and the generator that hands out the rows of a query in chunks
    ([util/chunked.rs]). Suspension works on accounts and is not modelled.

    Names stay unique whatever their case under creating and renaming; deleting a user
    removes what they own, wrote and belong to; a reset of a bot's token takes effect. *)

From stdpp Require Import base list gmap strings.
From Stdlib Require Import ZArith Lia Ascii.
From S2P Require Import Prelude Errors Permissions PermissionSpec Files Users Servers Channels.
From S2P Require Import PermissionQuery Messages Unreads Config Emojis Webhooks Bots AuditLogs.
From S2P Require Import World Database Relationships MessageOps ChannelOps ServerOps References.

(** ** Rows in chunks *)

Module ChunkedDatabaseGenerator.
Section Generator.
Context {T : Type}.

(** The variant of the reference driver *)
Record t : Type := mk { offset : nat; data : list T }.

Definition new_reference (data : list T) : t := mk 0 data.

Definition next (self : t) : option T * t :=
  match data self !! offset self with
  | Some value => (Some value, mk (S (offset self)) (data self))
  | None => (None, self)
  end.

(** The loop of [next_n]: [n] is how many rows are missing *)
Fixpoint fill (n : nat) (docs : list T) (self : t) : option (list T) * t :=
  match n with
  | O => (Some docs, self)
  | S n =>
      match next self with
      | (Some doc, self) => fill n (docs ++ [doc]) self
      | (None, self) => (match docs with [] => None | _ => Some docs end, self)
      end
  end.
Definition next_n (n : nat) (self : t) : option (list T) * t := fill n [] self.

(** The rows that are left *)
Definition rest (self : t) : list T := drop (offset self) (data self).

Lemma fill_spec n docs self :
  fill n docs self =
  (match docs ++ take n (rest self) with
   | [] => match n with O => Some [] | S _ => None end
   | l => Some l
   end, mk (offset self + length (take n (rest self))) (data self)).
Proof.
  revert docs self. induction n as [|n IH]; intros docs [o d]; unfold rest in *; simpl.
  - rewrite take_0, app_nil_r, Nat.add_0_r. by destruct docs.
  - unfold next. simpl. destruct (d !! o) as [x|] eqn:Hx.
    + rewrite (drop_S d x o) by done. simpl. rewrite IH. simpl.
      rewrite <- app_assoc. simpl. rewrite Nat.add_succ_r. by destruct docs.
    + apply lookup_ge_None in Hx. rewrite drop_ge by done. simpl.
      rewrite app_nil_r, Nat.add_0_r. by destruct docs.
Qed.

(** A chunk is the next rows, and the generator goes on behind them. *)
Lemma next_n_spec n self :
  next_n (S n) self =
  match rest self with
  | [] => (None, self)
  | _ => (Some (take (S n) (rest self)), mk (offset self + length (take (S n) (rest self))) (data self))
  end.
Proof.
  unfold next_n. rewrite fill_spec. destruct (rest self) as [|x l] eqn:Hl; [|done].
  simpl. rewrite Nat.add_0_r. by destruct self.
Qed.

Lemma rest_advance n self :
  rest (mk (offset self + length (take n (rest self))) (data self)) = drop n (rest self).
Proof.
  unfold rest at 1. simpl. rewrite <- drop_drop. fold (rest self).
  rewrite length_take. destruct (decide (n ≤ length (rest self))) as [Hle|Hgt].
  - by rewrite Nat.min_l.
  - rewrite Nat.min_r by lia. rewrite !drop_ge by lia. done.
Qed.
End Generator.
Arguments t : clear implicits.
End ChunkedDatabaseGenerator.

(** [decancer::cure(name, options)]: the name with look-alike characters replaced *)
Class Cure := cure : string → option string.

(** ["_".repeat(n)] *)
Fixpoint underscores (n : nat) : string :=
  match n with O => "" | S n => String "_"%char (underscores n) end.

Section Handlers.
Context `{Environment, MutualIds, HashIter, Lowercase, Validator, Cure}.
Context `{OptionalStruct User.t PartialUser.t, OptionalStruct Bot.t PartialBot.t}.

(** ** Names *)

(** Validate a username *)
Definition validate_username (username : string) : Result unit :=
  let username_lowercase := to_lowercase username in
  if bool_decide (username_lowercase ∈ ["admin"; "revolt"; "stoat"]) ||
     is_match "BLOCKED_USERNAME_PATTERNS" username
  then Err ErrorType.InvalidUsername else Ok tt.

(** Sanitise a username *)
Definition sanitise_username (username : string) : Result string :=
  username ← ok_or (cure username) ErrorType.InvalidUsername;
  Ok (username +:+ underscores (Settings.min_username_length config - String.length username)).

(** [db.fetch_user_by_username(name, "0000").await.is_ok()] *)
Definition name_taken (username : string) : H bool :=
  found ← attempt (on_users (UsersTable.fetch_user_by_username username "0000"));
  mret (bool_decide (is_Some found)).

(** ** Users *)

Definition new_user (id username : string) (now : Z) : User.t :=
  User.mk id username "0000" None None None None None None None None false None None now.

(** Create a new user *)
Definition create_user (username : string) (account_id : option string)
    (data : option PartialUser.t) : H User.t :=
  new_username ← lift (sanitise_username username);
  lift (validate_username new_username) ;;
  taken ← name_taken new_username;
  if (taken : bool) then throw ErrorType.UsernameTaken else
  id ← match account_id with Some id => mret id | None => ulid end;
  now ← clock;
  let user := new_user id new_username now in
  let user := match data with Some data => apply_options user data | None => user end in
  on_users (UsersTable.insert_user user) ;;
  mret user.

(** Update user data *)
Definition update_user (self : User.t) (partial : PartialUser.t) (remove : list FieldsUser.t) :
    H User.t :=
  let self := apply_options (fold_left User.remove_field remove self) partial in
  on_users (UsersTable.update_user (User.id self) partial remove) ;;
  event_id ← ulid;
  p_user (EventV1.UserUpdate (User.id self) partial
            (is_online (User.id self) && negb (is_invisible self)) remove (Some event_id))
    (User.id self) ;;
  mret self.

(** The partial users that are written *)
Definition partial_name (username : string) (discriminator : option string) : PartialUser.t :=
  PartialUser.mk None (Some username) discriminator None None None None None None None None None
    None None None.
Definition partial_deleted (id : string) : PartialUser.t :=
  PartialUser.mk None (Some ("Deleted User " +:+ id)) (Some "0000") None None None (Some []) None
    None None (Some 2%Z) None None None None.
Definition partial_bot (owner : string) : PartialUser.t :=
  PartialUser.mk None None None None None None None None None None None None
    (Some (BotInformation.mk owner)) None None.

(** Update a user's username *)
Definition update_username (self : User.t) (username : string) : H User.t :=
  new_username ← lift (sanitise_username username);
  lift (validate_username new_username) ;;
  if bool_decide (to_lowercase (User.username self) = to_lowercase new_username)
  then update_user self (partial_name new_username None) []
  else
    taken ← name_taken new_username;
    if (taken : bool) then throw ErrorType.UsernameTaken else
    update_user self (partial_name new_username (Some "0000")) [].

(** Mark as deleted *)
Definition mark_deleted (self : User.t) : H User.t :=
  update_user self (partial_deleted (User.id self))
    [FieldsUser.Avatar; FieldsUser.StatusText; FieldsUser.StatusPresence;
     FieldsUser.ProfileContent; FieldsUser.ProfileBackground; FieldsUser.Suspension].

(** Removes all relationships which include the user *)
Definition clear_relationships (self : User.t) : H unit :=
  on_users (UsersTable.clear_user_relationships (User.id self)
              (Relationship.id <$> default [] (User.relations self))).

(** [while let Some(groups) = generator.next_n(100).await?]; [fuel] bounds the rounds *)
Fixpoint remove_chunks (fuel : nat) (user_id : string)
    (generator : ChunkedDatabaseGenerator.t Channel.t) : H unit :=
  match fuel with
  | O => panic
  | S fuel =>
      match ChunkedDatabaseGenerator.next_n 100 generator with
      | (Some groups, generator) =>
          on_channels (ChannelsTable.remove_user_from_groups (Channel.id <$> groups) user_id) ;;
          remove_chunks fuel user_id generator
      | (None, _) => mret tt
      end
  end.

(** Removes user from all joined groups *)
Definition remove_from_all_groups (self : User.t) : H unit :=
  groups ← on_channels (ChannelsTable.find_group_message_channels (User.id self));
  remove_chunks (S (length groups)) (User.id self)
    (ChunkedDatabaseGenerator.new_reference groups).

(** ** Bots *)

(** Create a new bot *)
Definition create_bot (username : string) (owner : User.t) (data : option PartialBot.t) :
    H (Bot.t * User.t) :=
  if bool_decide (is_Some (User.bot owner)) then throw ErrorType.IsBot else
  count ← on_bots (BotsTable.get_number_of_bots_by_user (User.id owner));
  now ← clock;
  limits ← lift (user_limits now (User.id owner));
  if bool_decide (FeaturesLimits.bots limits ≤ count)%nat then throw ErrorType.ReachedMaximumBots else
  id ← ulid;
  user ← create_user username (Some id) (Some (partial_bot (User.id owner)));
  token ← nanoid;
  let bot := Bot.mk id (User.id owner) token false false false "" "" "" None in
  let bot := match data with Some data => apply_options bot data | None => bot end in
  on_bots (BotsTable.insert_bot bot) ;;
  mret (bot, user).

(** [nanoid!(64)] for every removal of the token; the last one remains *)
Fixpoint last_token (token : string) (remove : list FieldsBot.t) : H string :=
  match remove with
  | [] => mret token
  | FieldsBot.Token :: remove => token ← nanoid; last_token token remove
  | FieldsBot.InteractionsURL :: remove => last_token token remove
  end.

(** Update this bot *)
Definition update_bot (self : Bot.t) (partial : PartialBot.t) (remove : list FieldsBot.t) :
    H Bot.t :=
  partial ← (if bool_decide (FieldsBot.Token ∈ remove)
             then token ← nanoid; mret (PartialBot.set_token partial (Some token))
             else mret partial);
  token ← last_token (Bot.token self) remove;
  let self := fold_left (bot_remove_field token) remove self in
  token ← last_token "" remove;
  on_bots (BotsTable.update_bot token (Bot.id self) partial remove) ;;
  (if bool_decide (is_Some (PartialBot.token partial))
   then private EventV1.Logout (Bot.id self) else mret tt) ;;
  mret (apply_options self partial).

(** Delete this bot *)
Definition delete_bot (self : Bot.t) : H unit :=
  user ← on_users (UsersTable.fetch_user (Bot.id self));
  mark_deleted user ;;
  on_bots (BotsTable.delete_bot (Bot.id self)).

(** Deletes the user along with owned bots and servers, messages, groups, relationships *)
Definition delete_user (self : User.t) : H User.t :=
  bots ← on_bots (BotsTable.fetch_bots_by_user (User.id self));
  for_each bots delete_bot ;;
  servers ← on_servers (ServersTable.fetch_owned_servers (User.id self));
  for_each servers delete_server ;;
  remove_from_all_groups self ;;
  on_members (MembersTable.clear_memberships (User.id self)) ;;
  clear_relationships self ;;
  on_messages (MessagesTable.delete_messages_by_user (User.id self)) ;;
  on_users (UsersTable.delete_user_private_data (User.id self)) ;;
  mark_deleted self.
End Handlers.

(** ** What the derive macro does to a user and a bot

    A field of the partial that is given replaces the field; the others stay. *)

Definition merge_option {A} (old new : option A) : option A :=
  match new with Some a => Some a | None => old end.

Definition user_merge (u : User.t) (p : PartialUser.t) : User.t :=
  User.mk (default (User.id u) (PartialUser.id p))
    (default (User.username u) (PartialUser.username p))
    (default (User.discriminator u) (PartialUser.discriminator p))
    (merge_option (User.display_name u) (PartialUser.display_name p))
    (merge_option (User.pronouns u) (PartialUser.pronouns p))
    (merge_option (User.avatar u) (PartialUser.avatar p))
    (merge_option (User.relations u) (PartialUser.relations p))
    (merge_option (User.badges u) (PartialUser.badges p))
    (merge_option (User.status u) (PartialUser.status p))
    (merge_option (User.profile u) (PartialUser.profile p))
    (merge_option (User.flags u) (PartialUser.flags p))
    (default (User.privileged u) (PartialUser.privileged p))
    (merge_option (User.bot u) (PartialUser.bot p))
    (merge_option (User.suspended_until u) (PartialUser.suspended_until p))
    (default (User.last_acknowledged_policy_change u)
       (PartialUser.last_acknowledged_policy_change p)).

Definition bot_merge (b : Bot.t) (p : PartialBot.t) : Bot.t :=
  Bot.mk (default (Bot.id b) (PartialBot.id p)) (default (Bot.owner b) (PartialBot.owner p))
    (default (Bot.token b) (PartialBot.token p)) (default (Bot.public b) (PartialBot.public p))
    (default (Bot.analytics b) (PartialBot.analytics p))
    (default (Bot.discoverable b) (PartialBot.discoverable p))
    (default (Bot.interactions_url b) (PartialBot.interactions_url p))
    (default (Bot.terms_of_service_url b) (PartialBot.terms_of_service_url p))
    (default (Bot.privacy_policy_url b) (PartialBot.privacy_policy_url p))
    (merge_option (Bot.flags b) (PartialBot.flags p)).

Section Names.
Context `{Environment, MutualIds, HashIter, Lowercase, Validator, Cure}.
Context `{OptionalStruct User.t PartialUser.t}.

(** What the derive macro promises *)
Hypothesis user_options : ∀ u p, apply_options u p = user_merge u p.

(** Users are stored under their ids. *)
Definition users_keyed (t : UsersTable.table) : Prop := ∀ i u, t !! i = Some u → User.id u = i.

(** Nobody has the name, whatever its case. *)
Definition name_free (username : string) (t : UsersTable.table) : Prop :=
  ∀ i u, t !! i = Some u → User.discriminator u = "0000" →
    to_lowercase (User.username u) ≠ to_lowercase username.

(** No two users with the discriminator that is given out have the same name, whatever its case. *)
Definition names_unique (t : UsersTable.table) : Prop :=
  ∀ i j u v, t !! i = Some u → t !! j = Some v →
    User.discriminator u = "0000" → User.discriminator v = "0000" →
    to_lowercase (User.username u) = to_lowercase (User.username v) → i = j.

Lemma names_unique_insert t id u :
  names_unique t → (User.discriminator u = "0000" → name_free (User.username u) (delete id t)) →
  names_unique (<[id := u]> t).
Proof.
  intros Ht Hfree i j a b Hi Hj Ha Hb Heq.
  apply lookup_insert_Some in Hi as [[<- <-]|[Hi Hti]], Hj as [[<- <-]|[Hj Htj]].
  - done.
  - exfalso. apply (Hfree Ha j b); [by rewrite lookup_delete_ne|done|by symmetry].
  - exfalso. apply (Hfree Hb i a); [by rewrite lookup_delete_ne|done|done].
  - by apply (Ht i j a b).
Qed.

Lemma users_keyed_insert t u : users_keyed t → users_keyed (<[User.id u := u]> t).
Proof. intros Ht i x [[<- <-]|[_ Hx]]%lookup_insert_Some; [done|by apply Ht]. Qed.

Lemma name_taken_reads username : reads (name_taken username).
Proof. unfold name_taken, on_users. solve_reads. Qed.

Lemma name_not_taken username w :
  name_taken username w = (Ok false, w) → name_free username (users w).
Proof.
  unfold name_taken, on_users. rewrite M_bind_unfold. unfold attempt. rewrite on_table_run.
  unfold UsersTable.fetch_user_by_username. cbn [fst snd].
  destruct (List.find _ _) as [x|] eqn:Hfind; cbn [ok_or]; [by intros [= ?]|]. intros _ i u Hu Hd Heq.
  apply (find_none _ _) with (x := u) in Hfind.
  - rewrite bool_decide_eq_true_2, bool_decide_eq_true_2 in Hfind by done. done.
  - apply list_elem_of_In, elem_of_hash_values. by exists i.
Qed.

(** What is kept by publishing *)
Lemma p_user_db event id : keeps World.db (p_user event id).
Proof.
  unfold p_user, p, on_members. apply keeps_bind; [by apply keeps_modify|intros _].
  apply keeps_bind; [|intros [ms|]; [|apply keeps_ret]].
  - apply keeps_attempt. intros w. unfold on_table, MembersTable.fetch_all_memberships, table_select.
    cbn [fst snd World.db World.set_db]. by destruct (World.db w).
  - induction ms as [|m ms IH]; simpl; [apply keeps_ret|].
    apply keeps_bind; [by apply keeps_modify|done].
Qed.

(** Updating writes one row of the users. *)
Lemma update_user_db self partial remove w :
  let id := User.id (apply_options (fold_left User.remove_field remove self) partial) in
  World.db (update_user self partial remove w).2 =
  ReferenceDb.set_users (World.db w)
    match users w !! id with
    | Some v => <[id := apply_options (fold_left User.remove_field remove v) partial]> (users w)
    | None => users w
    end.
Proof.
  intros id. unfold update_user. cbv zeta. fold id. rewrite M_bind_unfold. unfold on_users.
  rewrite on_table_run. unfold UsersTable.update_user, table_update. fold (users w).
  destruct (users w !! id) as [v|]; cbn [fst snd]; [|done].
  rewrite M_bind_unfold. unfold ulid at 1. rewrite M_bind_unfold.
  match goal with |- context [p_user ?e ?i ?w1] => pose proof (p_user_db e i w1) as Hdb;
    destruct (p_user e i w1) as [[[]| |] w2] end; simpl in *; by rewrite Hdb.
Qed.

Lemma remove_fields_id remove u :
  User.id (fold_left User.remove_field remove u) = User.id u ∧
  User.username (fold_left User.remove_field remove u) = User.username u ∧
  User.discriminator (fold_left User.remove_field remove u) = User.discriminator u.
Proof.
  revert u. induction remove as [|f remove IH]; intros u; simpl; [done|].
  destruct (IH (User.remove_field u f)) as (-> & -> & ->).
  destruct f; simpl; try done; [destruct (User.status u)|destruct (User.status u)|
    destruct (User.profile u)|destruct (User.profile u)]; done.
Qed.

(** Operations that give names *)
Inductive names_op : Type :=
| Create (username : string) (account_id : option string) (data : option PartialUser.t)
| Rename (self : User.t) (username : string).

Definition run_names_op (o : names_op) : H User.t :=
  match o with
  | Create username account_id data => create_user username account_id data
  | Rename self username => update_username self username
  end.

(** The data of a new user gives neither id nor name (the callers give none, or who owns the
    bot); a user who is renamed is as stored. *)
Definition names_op_ok (o : names_op) (t : UsersTable.table) : Prop :=
  match o with
  | Create _ _ data =>
      ∀ d, data = Some d → PartialUser.id d = None ∧ PartialUser.username d = None ∧
        PartialUser.discriminator d = None
  | Rename self _ => t !! User.id self = Some self
  end.

Lemma create_user_names username account_id data w :
  names_op_ok (Create username account_id data) (users w) →
  users_keyed (users w) → names_unique (users w) →
  let w' := (create_user username account_id data w).2 in
  users_keyed (users w') ∧ names_unique (users w').
Proof.
  intros Hok Hkeyed Hunique. unfold create_user. rewrite M_bind_unfold.
  destruct (sanitise_username username) as [name| |]; cbn [lift fst snd]; [|done..].
  rewrite M_bind_unfold. destruct (validate_username name) as [[]| |]; cbn [lift fst snd]; [|done..].
  rewrite M_bind_unfold. pose proof (name_taken_reads name w) as Hreads.
  destruct (name_taken name w) as [[[]| |] w0] eqn:Htaken; cbn [fst snd] in *; subst w0; [done| |done..].
  apply name_not_taken in Htaken. rewrite M_bind_unfold.
  set (idm := match account_id with Some id => mret id | None => ulid end).
  assert (∃ id w1, idm w = (Ok id, w1) ∧ users w1 = users w) as (id & w1 & Hid & Hw1).
  { unfold idm. destruct account_id; by eexists _, _. }
  rewrite Hid, M_bind_unfold. unfold clock, gets.
  set (u := match data with Some d => _ | None => _ end).
  assert (User.id u = id ∧ User.username u = name ∧ User.discriminator u = "0000") as (Hi & Hn & Hd).
  { unfold u. destruct data as [d|]; [|done]. destruct (Hok d eq_refl) as (E1 & E2 & E3).
    rewrite user_options. unfold user_merge. simpl. by rewrite E1, E2, E3. }
  rewrite M_bind_unfold. unfold on_users. rewrite on_table_run.
  unfold UsersTable.insert_user, table_insert. fold (users w1). rewrite Hw1, Hi.
  destruct (users w !! id) as [v|] eqn:Hv; cbn [fst snd].
  - replace (users _) with (users w); [done|]. rewrite <- Hw1. by destruct w1.
  - change (users_keyed (<[id := u]> (users w)) ∧ names_unique (<[id := u]> (users w))). split.
    + rewrite <- Hi. by apply users_keyed_insert.
    + apply names_unique_insert; [done|]. intros _. rewrite Hn, delete_id by done. exact Htaken.
Qed.

Lemma update_name_users self name disc w :
  users w !! User.id self = Some self →
  users (update_user self (partial_name name disc) [] w).2 =
  <[User.id self := user_merge self (partial_name name disc)]> (users w).
Proof.
  intros Hself. unfold users at 1. rewrite update_user_db. cbn [ReferenceDb.users ReferenceDb.set_users].
  rewrite user_options. change (User.id (user_merge _ _)) with (User.id self). cbn [fold_left].
  by rewrite Hself, user_options.
Qed.

(** C29: names stay unique: creating users and renaming them, whether that succeeds or fails,
    never leads to two users with discriminator 0000, the only one this code gives out, and the
    same name, not even in different case. *)
Theorem usernames_stay_unique (o : names_op) (w : World.t) :
  names_op_ok o (users w) → users_keyed (users w) → names_unique (users w) →
  let w' := (run_names_op o w).2 in users_keyed (users w') ∧ names_unique (users w').
Proof.
  destruct o as [username account_id data|self username]; cbn [run_names_op];
    [apply create_user_names|]. intros Hself Hkeyed Hunique. cbn [names_op_ok] in Hself.
  unfold update_username. rewrite M_bind_unfold.
  destruct (sanitise_username username) as [name| |]; cbn [lift fst snd]; [|done..].
  rewrite M_bind_unfold. destruct (validate_username name) as [[]| |]; cbn [lift fst snd]; [|done..].
  case_bool_decide as Hcase.
  - rewrite update_name_users by done.
    split; [by apply (users_keyed_insert _ (user_merge self (partial_name name None)))|].
    apply names_unique_insert; [done|]. intros Hd i x [Hne Hx]%lookup_delete_Some Hxd Heq. apply Hne.
    apply (Hunique _ _ self x Hself Hx); [done|done|]. simpl in Heq. congruence.
  - rewrite M_bind_unfold. pose proof (name_taken_reads name w) as Hreads.
    destruct (name_taken name w) as [[[]| |] w0] eqn:Htaken; cbn [fst snd] in *; subst w0; [done| |done..].
    apply name_not_taken in Htaken. rewrite update_name_users by done.
    split; [by apply (users_keyed_insert _ (user_merge self (partial_name name (Some "0000"))))|].
    apply names_unique_insert; [done|]. intros _ i x [_ Hx]%lookup_delete_Some. exact (Htaken i x Hx).
Qed.
End Names.

(** ** Deleting a user *)

Definition bots (w : World.t) : BotsTable.table := ReferenceDb.bots (World.db w).

(** The user is in a group *)
Definition in_group (user_id : string) (c : Channel.t) : Prop :=
  match c with Channel.Group c => user_id ∈ Group.recipients c | _ => False end.

(** A channel without the user *)
Definition without (user_id : string) (c : Channel.t) : Channel.t :=
  match c with
  | Channel.Group c =>
      Channel.Group (Group.set_recipients c
        (List.filter (λ r, negb (bool_decide (r = user_id))) (Group.recipients c)))
  | c => c
  end.

Lemma without_not_in user_id c : ¬ in_group user_id (without user_id c).
Proof.
  destruct c as [c|c|c|c]; simpl; [tauto..| |tauto].
  rewrite list_elem_of_In, filter_In. intros [_ Hn]. by rewrite bool_decide_eq_true_2 in Hn.
Qed.

(** Removing a user from listed groups *)
Lemma remove_from_groups_lookup ids user_id (t : ChannelsTable.table) k :
  (ChannelsTable.remove_user_from_groups ids user_id t).2 !! k =
  if decide (k ∈ ids) then without user_id <$> t !! k else t !! k.
Proof.
  unfold ChannelsTable.remove_user_from_groups, modify. cbn [snd].
  revert t. induction ids as [|id ids IH]; intros t; cbn [fold_left];
    [by rewrite decide_False by apply not_elem_of_nil|].
  rewrite IH. clear IH. destruct (decide (k = id)) as [->|Hne].
  - rewrite (decide_True (P := id ∈ id :: ids)) by set_solver.
    destruct (t !! id) as [[c|c|c|c]|] eqn:Hid; rewrite ?Hid, ?lookup_insert_eq; simpl;
      destruct (decide (id ∈ ids)); try done.
    simpl. do 2 f_equal. unfold Group.set_recipients. simpl. f_equal.
    induction (Group.recipients c) as [|r l IHl]; simpl; [done|].
    destruct (negb (bool_decide (r = user_id))) eqn:Hr; simpl; rewrite ?Hr; by rewrite ?IHl.
  - assert ((k ∈ id :: ids) ↔ (k ∈ ids)) as Hiff by set_solver.
    rewrite (decide_ext (k ∈ id :: ids) (k ∈ ids)) by done.
    destruct (t !! id) as [[c|c|c|c]|]; rewrite ?lookup_insert_ne by done; done.
Qed.

(** Nobody listed has a relation to the user after clearing. *)
Definition unrelated (target : string) (u : User.t) : Prop :=
  ∀ r, r ∈ default [] (User.relations u) → Relationship.id r ≠ target.

Lemma unrelated_dropped target u l :
  unrelated target (User.set_relations u (Some (drop_relation target l))).
Proof.
  intros r Hr Heq. cbn in Hr. unfold drop_relation in Hr.
  apply list_elem_of_In, filter_In in Hr as [_ Hr]. by rewrite bool_decide_eq_true_2 in Hr.
Qed.

Lemma clear_relationships_lookup target ids (t : UsersTable.table) k u :
  (UsersTable.clear_user_relationships target ids t).2 !! k = Some u →
  k ∈ ids ∨ (∃ v, t !! k = Some v ∧ unrelated target v) → unrelated target u.
Proof.
  unfold UsersTable.clear_user_relationships, modify. cbn [snd].
  revert t. induction ids as [|id ids IH]; intros t; cbn [fold_left]; intros Hu Hk.
  - destruct Hk as [Hk|(v & Hv & Hun)]; [by apply not_elem_of_nil in Hk|].
    rewrite Hu in Hv. by injection Hv as ->.
  - apply (IH _ Hu). destruct (decide (k = id)) as [->|Hne].
    + destruct (decide (id ∈ ids)) as [Hin|Hout]; [by left|right].
      destruct (t !! id) as [v|] eqn:Hv.
      * destruct (User.relations v) as [l|] eqn:Hl.
        -- rewrite lookup_insert_eq. eexists. split; [done|]. apply unrelated_dropped.
        -- exists v. split; [done|]. intros r Hr. rewrite Hl in Hr. by apply not_elem_of_nil in Hr.
      * exfalso. revert Hu. clear -Hv Hout. revert t Hv. induction ids as [|i ids IH]; intros t Hv;
          cbn [fold_left]; [congruence|]. apply IH; [set_solver|].
        destruct (t !! i) as [x|]; [|done]. destruct (User.relations x); [|done].
        rewrite lookup_insert_ne by set_solver. done.
    + destruct Hk as [[Hk|Hk]%elem_of_cons|(v & Hv & Hun)]; [done|by left|right].
      exists v. split; [|done]. destruct (t !! id) as [x|]; [|done].
      destruct (User.relations x); [|done]. by rewrite lookup_insert_ne.
Qed.

(** A loop each of whose turns deletes one row *)
Lemma for_each_deletes {A V} (table : World.t → gmap string V) (key : A → string) (body : A → H unit)
    l w w' :
  (∀ a w w', body a w = (Ok tt, w') → table w' = delete (key a) (table w)) →
  for_each l body w = (Ok tt, w') →
  ∀ k, table w' !! k = if decide (k ∈ key <$> l) then None else table w !! k.
Proof.
  intros Hbody. revert w. induction l as [|a l IH]; intros w Hrun k.
  - injection Hrun as ->. by rewrite decide_False by apply not_elem_of_nil.
  - cbn [for_each] in Hrun. apply bind_Ok_inv in Hrun as ([] & w1 & Ha & Hrun).
    rewrite (IH w1 Hrun k), (Hbody _ _ _ Ha). cbn [fmap list_fmap].
    destruct (decide (k ∈ key <$> l)); [by rewrite decide_True by set_solver|].
    destruct (decide (k = key a)) as [->|Hne].
    + by rewrite lookup_delete_eq, decide_True by set_solver.
    + by rewrite lookup_delete_ne, decide_False by set_solver.
Qed.

Section Deletion.
Context `{Environment, MutualIds, HashIter, Lowercase, Validator, Cure}.
Context `{OptionalStruct User.t PartialUser.t}.

(** The chunks cover the list: the fuel is enough, and the loop does as one removal. *)
Lemma remove_chunks_run fuel user_id g w :
  length (ChunkedDatabaseGenerator.rest g) < fuel →
  remove_chunks fuel user_id g w =
  on_channels (ChannelsTable.remove_user_from_groups
                 (Channel.id <$> ChunkedDatabaseGenerator.rest g) user_id) w.
Proof.
  revert g w. induction fuel as [|fuel IH]; intros g w Hlen; [lia|]. cbn [remove_chunks].
  change 100 with (S 99). rewrite ChunkedDatabaseGenerator.next_n_spec.
  destruct (ChunkedDatabaseGenerator.rest g) as [|x l] eqn:Hrest.
  - unfold on_channels. rewrite on_table_run. cbn. by destruct w as [[]].
  - rewrite M_bind_unfold. unfold on_channels at 1. rewrite on_table_run.
    unfold ChannelsTable.remove_user_from_groups at 1. cbn [modify fst snd].
    rewrite IH; rewrite <- Hrest, ChunkedDatabaseGenerator.rest_advance.
    + rewrite Hrest. unfold on_channels. rewrite !on_table_run.
      unfold ChannelsTable.remove_user_from_groups. cbn [modify fst snd World.db World.set_db
        ReferenceDb.channels ReferenceDb.set_channels].
      rewrite <- fold_left_app, <- fmap_app, take_drop. done.
    + rewrite Hrest, length_drop. simpl in *. lia.
Qed.

(** Removing from all groups always ends, and leaves the user in no group. *)
Lemma remove_from_all_groups_run self w :
  (∀ k c, channels w !! k = Some c → Channel.id c = k) →
  ∃ t, remove_from_all_groups self w =
         (Ok tt, World.set_db w (ReferenceDb.set_channels (World.db w) t)) ∧
    ∀ k, t !! k = without (User.id self) <$> channels w !! k ∨
         t !! k = channels w !! k ∧ ∀ c, channels w !! k = Some c → ¬ in_group (User.id self) c.
Proof.
  intros Hkeyed. unfold remove_from_all_groups. rewrite M_bind_unfold. unfold on_channels at 1.
  rewrite on_table_run. unfold ChannelsTable.find_group_message_channels, table_select.
  cbn [fst snd]. fold (channels w).
  replace (World.set_db w (ReferenceDb.set_channels (World.db w) (channels w))) with w
    by (by destruct w as [[]]).
  rewrite remove_chunks_run by apply Nat.lt_succ_diag_r.
  unfold ChunkedDatabaseGenerator.rest. cbn [ChunkedDatabaseGenerator.offset
    ChunkedDatabaseGenerator.data ChunkedDatabaseGenerator.new_reference].
  rewrite drop_0. unfold on_channels. rewrite on_table_run. fold (channels w).
  eexists. split; [reflexivity|]. intros k. rewrite remove_from_groups_lookup. destruct (decide _) as [Hin|Hout]; [by left|].
  right. split; [done|]. intros c Hc Hin. apply Hout. apply list_elem_of_fmap. exists c.
  split; [symmetry; by apply Hkeyed|]. apply list_elem_of_In, filter_In. split.
  - apply list_elem_of_In, elem_of_hash_values. by exists k.
  - destruct c as [c|c|c|c]; try done. by apply existsb_elem_of.
Qed.

(** Updating a user and deleting a bot leave the other tables alone. *)
Lemma update_user_keeps {C} (f : ReferenceDb.t → C) self partial remove :
  (∀ d t, f (ReferenceDb.set_users d t) = f d) →
  keeps (λ w, f (World.db w)) (update_user self partial remove).
Proof. intros Hf w. by rewrite update_user_db, Hf. Qed.

Lemma delete_bot_keeps {C} (f : ReferenceDb.t → C) b :
  (∀ d t, f (ReferenceDb.set_users d t) = f d) → (∀ d t, f (ReferenceDb.set_bots d t) = f d) →
  keeps (λ w, f (World.db w)) (delete_bot b).
Proof.
  intros Hu Hb. unfold delete_bot, on_users, on_bots.
  apply keeps_bind; [apply keeps_table; intros; apply Hu|intros u].
  apply keeps_bind; [by apply update_user_keeps|intros _]. apply keeps_table. intros. apply Hb.
Qed.

Lemma delete_server_keeps {C} (f : ReferenceDb.t → C) s :
  (∀ d t, f (ReferenceDb.set_servers d t) = f d) →
  keeps (λ w, f (World.db w)) (delete_server s).
Proof.
  intros Hs. unfold delete_server, p, on_servers. apply keeps_bind; [by apply keeps_modify|].
  intros _. apply keeps_table. intros. apply Hs.
Qed.

(** What deleting a bot and a server does to the tables *)
Lemma delete_bot_bots b w w' :
  delete_bot b w = (Ok tt, w') → bots w' = delete (Bot.id b) (bots w).
Proof.
  unfold delete_bot, on_users, on_bots. intros Hrun. unbind Hrun u.
  apply bind_Ok_inv in Hrun as (v & w1 & Hmark & Hrun).
  assert (bots w1 = bots w) as <-.
  { pose proof (update_user_keeps ReferenceDb.bots u (partial_deleted (User.id u))
      [FieldsUser.Avatar; FieldsUser.StatusText; FieldsUser.StatusPresence;
       FieldsUser.ProfileContent; FieldsUser.ProfileBackground; FieldsUser.Suspension]
      ltac:(done) w) as Hdb.
    unfold mark_deleted in Hmark. by rewrite Hmark in Hdb. }
  rewrite on_table_run in Hrun. unfold BotsTable.delete_bot, table_delete in Hrun. fold (bots w1) in Hrun.
  destruct (bots w1 !! Bot.id b); [|done]. by injection Hrun as <-.
Qed.

Lemma delete_server_servers s w w' :
  delete_server s w = (Ok tt, w') → servers w' = delete (Server.id s) (servers w).
Proof.
  unfold delete_server, p, on_servers. intros Hrun.
  apply bind_Ok_inv in Hrun as ([] & w1 & [= <-] & Hrun). rewrite on_table_run in Hrun.
  unfold ServersTable.delete_server, table_delete in Hrun. cbn [World.db World.set_events] in Hrun.
  fold (servers w) in Hrun. destruct (servers w !! Server.id s); [|done]. by injection Hrun as <-.
Qed.

(** Rows selected by owner and deleted one by one are gone. *)
Lemma owned_deleted {V} (table : World.t → gmap string V) (key owner : V → string) (id : string)
    w w' (l : list V) :
  (∀ k v, table w !! k = Some v → key v = k) →
  List.filter (λ v, bool_decide (owner v = id)) (hash_values (table w)) = l →
  (∀ k, table w' !! k = if decide (k ∈ key <$> l) then None else table w !! k) →
  ∀ k v, table w' !! k = Some v → owner v ≠ id.
Proof.
  intros Hkeyed <- Hgone k v Hv Howner. rewrite Hgone in Hv.
  destruct (decide _) as [|Hout]; [done|]. apply Hout, list_elem_of_fmap. exists v.
  split; [symmetry; by apply Hkeyed|]. apply elem_of_table_select.
  split; [by apply bool_decide_eq_true|by exists k].
Qed.

(** Rows that were filtered out are gone. *)
Lemma retained_not {K V} `{Countable K} (attr : V → string) (id : string) (m : gmap K V) k v :
  (table_retain (E := ErrorType.t) (λ _ v, negb (bool_decide (attr v = id))) m).2 !! k = Some v →
  attr v ≠ id.
Proof.
  intros [_ Hv]%map_lookup_filter_Some. simpl in Hv. by apply negb_true_iff, bool_decide_eq_false in Hv.
Qed.

(** Nothing of a user is left: no bot or server they own, no group or server they are in,
    no message they wrote. *)
Definition gone (id : string) (w : World.t) : Prop :=
  (∀ k b, bots w !! k = Some b → Bot.owner b ≠ id) ∧
  (∀ k s, servers w !! k = Some s → Server.owner s ≠ id) ∧
  (∀ k c, channels w !! k = Some c → ¬ in_group id c) ∧
  (∀ k m, members w !! k = Some m → MemberCompositeKey.user (Member.id m) ≠ id) ∧
  (∀ k m, MessageOps.messages w !! k = Some m → Message.author m ≠ id).

Definition marked_deleted (id : string) (w : World.t) : Prop :=
  ∃ u, users w !! id = Some u ∧ User.username u = "Deleted User " +:+ id ∧
    User.flags u = Some 2%Z ∧ User.relations u = Some [] ∧ User.avatar u = None.

(** Everything is stored under its id. *)
Definition rows_keyed (w : World.t) : Prop :=
  (∀ k b, bots w !! k = Some b → Bot.id b = k) ∧
  (∀ k s, servers w !! k = Some s → Server.id s = k) ∧
  (∀ k c, channels w !! k = Some c → Channel.id c = k).

(** What the derive macro promises *)
Hypothesis user_options : ∀ u p, apply_options u p = user_merge u p.

Lemma mark_deleted_run self v w w' :
  mark_deleted self w = (Ok v, w') →
  (∃ u, World.db w' = ReferenceDb.set_users (World.db w) (<[User.id self := u]> (users w))) ∧
  marked_deleted (User.id self) w'.
Proof.
  unfold mark_deleted. set (fields := [_; _; _; _; _; _]). intros Hrun.
  pose proof (update_user_db self (partial_deleted (User.id self)) fields w) as Hdb.
  rewrite Hrun in Hdb. cbn [snd] in Hdb. rewrite user_options in Hdb.
  replace (User.id (user_merge _ _)) with (User.id self) in Hdb
    by (symmetry; apply (remove_fields_id fields self)).
  destruct (users w !! User.id self) as [u|] eqn:Hu.
  - split; [by eexists|]. unfold marked_deleted, users. rewrite Hdb. cbn [ReferenceDb.users ReferenceDb.set_users].
    rewrite lookup_insert_eq, user_options. eexists. split; [done|]. split_and!; try done.
    destruct u as [? ? ? ? ? ? ? ? [s|] [pr|] ? ? ? ? ?]; done.
  - exfalso. unfold update_user in Hrun. cbv zeta in Hrun. rewrite user_options in Hrun.
    replace (User.id (user_merge _ _)) with (User.id self) in Hrun
      by (symmetry; apply (remove_fields_id fields self)).
    apply bind_Ok_inv in Hrun as ([] & w1 & Hrun & _). unfold on_users in Hrun.
    rewrite on_table_run in Hrun. unfold UsersTable.update_user, table_update in Hrun.
    fold (users w) in Hrun. by rewrite Hu in Hrun.
Qed.

(** Deleting a user leaves nothing of them: when it succeeds, they own no bot and no
    server, are in no group and member of no server, none of their messages is left, nobody
    they had a relation with has one with them, and their row is marked as deleted, without
    name, picture and relations. *)
Theorem deleted_user_is_gone (self v : User.t) (w w' : World.t) :
  rows_keyed w → delete_user self w = (Ok v, w') →
  gone (User.id self) w' ∧ marked_deleted (User.id self) w' ∧
  ∀ k u, k ∈ Relationship.id <$> default [] (User.relations self) → k ≠ User.id self →
    users w' !! k = Some u → unrelated (User.id self) u.
Proof.
  intros (Kb & Ks & Kc) Hrun. unfold delete_user in Hrun. unbind Hrun bl.
  apply bind_Ok_inv in Hrun as ([] & w1 & Hbots & Hrun).
  pose proof (for_each_keeps _ bl _ (λ b, delete_bot_keeps ReferenceDb.servers b ltac:(done) ltac:(done)) w)
    as Hs1.
  pose proof (for_each_keeps _ bl _ (λ b, delete_bot_keeps ReferenceDb.channels b ltac:(done) ltac:(done)) w)
    as Hc1.
  rewrite Hbots in Hs1, Hc1. cbn [snd] in Hs1, Hc1.
  unbind Hrun sl. apply bind_Ok_inv in Hrun as ([] & w2 & Hservers & Hrun).
  pose proof (for_each_keeps _ sl _ (λ s, delete_server_keeps ReferenceDb.bots s ltac:(done)) w1) as Hb2.
  pose proof (for_each_keeps _ sl _ (λ s, delete_server_keeps ReferenceDb.channels s ltac:(done)) w1)
    as Hc2.
  rewrite Hservers in Hb2, Hc2. cbn [snd] in Hb2, Hc2.
  destruct (remove_from_all_groups_run self w2) as (t & Hgroups & Ht).
  { intros k c Hc. apply Kc. unfold channels in *. by rewrite <- Hc1, <- Hc2. }
  rewrite M_bind_unfold, Hgroups in Hrun.
  apply bind_Ok_inv in Hrun as ([] & w3 & [= <-] & Hrun).
  apply bind_Ok_inv in Hrun as ([] & w4 & [= <-] & Hrun).
  apply bind_Ok_inv in Hrun as ([] & w5 & [= <-] & Hrun).
  apply bind_Ok_inv in Hrun as ([] & w6 & [= <-] & Hrun).
  apply mark_deleted_run in Hrun as [[u Hdb] Hmarked]. split_and!; [|done|].
  - unfold gone, bots, servers, channels, members, MessageOps.messages. rewrite Hdb. split_and!.
    + intros k b Hb. apply (owned_deleted bots Bot.id Bot.owner (User.id self) w w1 bl Kb) with k.
      * by injection Ebl.
      * exact (for_each_deletes bots Bot.id _ _ _ _ delete_bot_bots Hbots).
      * unfold bots. by rewrite <- Hb2.
    + intros k s Hs.
      apply (owned_deleted servers Server.id Server.owner (User.id self) w1 w2 sl) with k; [| | |done].
      * intros k' s'. unfold servers. rewrite Hs1. apply Ks.
      * by injection Esl.
      * exact (for_each_deletes servers Server.id _ _ _ _ delete_server_servers Hservers).
    + intros k c Hc Hin. change (t !! k = Some c) in Hc. destruct (Ht k) as [Hk|[Hk Hno]].
      * rewrite Hk in Hc. destruct (channels w2 !! k) as [c'|]; [|done]. injection Hc as <-.
        by apply without_not_in in Hin.
      * rewrite Hk in Hc. by apply (Hno c).
    + intros k m Hm. exact (retained_not (λ m, MemberCompositeKey.user (Member.id m)) _ _ _ _ Hm).
    + intros k m Hm. exact (retained_not Message.author _ _ _ _ Hm).
  - intros k x Hk Hne Hx. unfold users in Hx. rewrite Hdb in Hx.
    cbn [ReferenceDb.users ReferenceDb.set_users] in Hx. rewrite lookup_insert_ne in Hx by done.
    eapply (clear_relationships_lookup (User.id self)); [exact Hx|by left].
Qed.
End Deletion.

(** ** Tokens of bots *)

Section Tokens.
Context `{Environment, HashIter}.
Context `{OptionalStruct Bot.t PartialBot.t}.

(** What the derive macro promises *)
Hypothesis bot_options : ∀ b p, apply_options b p = bot_merge b p.

(** No two bots have the same token. *)
Definition tokens_distinct (t : BotsTable.table) : Prop :=
  ∀ i j a b, t !! i = Some a → t !! j = Some b → Bot.token a = Bot.token b → i = j.

Lemma last_token_run token remove w :
  ∃ token' n, last_token token remove w = (Ok token', World.set_ulids w n).
Proof.
  revert token w. induction remove as [|[] remove IH]; intros token w; cbn [last_token].
  - exists token, (World.ulids w). by destruct w.
  - rewrite M_bind_unfold. unfold nanoid.
    destruct (IH (new_nanoid (World.ulids w)) (World.set_ulids w (S (World.ulids w)))) as (t & n & ->).
    by exists t, n.
  - apply IH.
Qed.

Lemma bot_remove_fields_id token remove b :
  Bot.id (fold_left (bot_remove_field token) remove b) = Bot.id b.
Proof.
  revert b. induction remove as [|[] remove IH]; intros b; simpl; [done|by rewrite IH..].
Qed.

(** Looking a token up that exactly one bot has, or none *)
Lemma fetch_by_token_none token (t : BotsTable.table) :
  (∀ k b, t !! k = Some b → Bot.token b ≠ token) →
  (BotsTable.fetch_bot_by_token token t).1 = Err ErrorType.NotFound.
Proof.
  intros Hno. unfold BotsTable.fetch_bot_by_token. cbn [fst].
  destruct (List.find _ _) as [b|] eqn:Hf; [|done]. exfalso.
  apply find_some in Hf as [Hin Hb%bool_decide_eq_true].
  apply list_elem_of_In, elem_of_hash_values in Hin as [k Hk]. by apply (Hno k b).
Qed.

Lemma fetch_by_token_some token (t : BotsTable.table) k b :
  t !! k = Some b → Bot.token b = token →
  (∀ k' b', t !! k' = Some b' → Bot.token b' = token → k' = k) →
  (BotsTable.fetch_bot_by_token token t).1 = Ok b.
Proof.
  intros Hb Htoken Honly. unfold BotsTable.fetch_bot_by_token. cbn [fst].
  destruct (List.find _ _) as [b'|] eqn:Hf; cbn [ok_or].
  - apply find_some in Hf as [Hin Hb'%bool_decide_eq_true].
    apply list_elem_of_In, elem_of_hash_values in Hin as [k' Hk'].
    rewrite (Honly k' b' Hk' Hb') in Hk'. congruence.
  - exfalso. apply (find_none _ _) with (x := b) in Hf.
    + by rewrite bool_decide_eq_true_2 in Hf.
    + apply list_elem_of_In, elem_of_hash_values. by exists k.
Qed.

(** Resetting a bot's token takes effect: when the update succeeds, the old token finds no
    bot any more, the new one finds this bot, and the sessions of the bot are told to log
    out. The random token generated has to be a new one. *)
Theorem token_reset_takes_effect (self b : Bot.t) (partial : PartialBot.t)
    (remove : list FieldsBot.t) (w w' : World.t) :
  let fresh := new_nanoid (World.ulids w) in
  bots w !! Bot.id self = Some self → tokens_distinct (bots w) →
  (∀ k b, bots w !! k = Some b → Bot.token b ≠ fresh) →
  PartialBot.id partial = None → FieldsBot.Token ∈ remove →
  update_bot self partial remove w = (Ok b, w') →
  Bot.token b = fresh ∧
  (BotsTable.fetch_bot_by_token (Bot.token self) (bots w')).1 = Err ErrorType.NotFound ∧
  (∃ stored, (BotsTable.fetch_bot_by_token fresh (bots w')).1 = Ok stored ∧
     Bot.owner stored = default (Bot.owner self) (PartialBot.owner partial)) ∧
  (Bot.id self +:+ "!", EventV1.Logout) ∈ World.events w'.
Proof.
  intros fresh Hself Hdistinct Hfresh Hid Hremove Hrun. unfold update_bot in Hrun.
  rewrite bool_decide_eq_true_2, M_bind_unfold, M_bind_unfold in Hrun by done.
  unfold nanoid at 1 in Hrun. cbn [mret M_ret] in Hrun. fold fresh in Hrun.
  rewrite M_bind_unfold in Hrun.
  destruct (last_token_run (Bot.token self) remove (World.set_ulids w (S (World.ulids w))))
    as (t1 & n1 & E1). rewrite E1 in Hrun. cbv zeta in Hrun. rewrite M_bind_unfold in Hrun.
  destruct (last_token_run "" remove (World.set_ulids (World.set_ulids w (S (World.ulids w))) n1))
    as (t2 & n2 & E2). rewrite E2 in Hrun. rewrite bot_remove_fields_id in Hrun.
  apply bind_Ok_inv in Hrun as ([] & w1 & Hupd & Hrun). unfold on_bots in Hupd.
  rewrite on_table_run in Hupd. unfold BotsTable.update_bot, table_update in Hupd.
  change (ReferenceDb.bots _) with (bots w) in Hupd. rewrite Hself in Hupd. injection Hupd as <-.
  unfold PartialBot.set_token at 2 in Hrun. cbn [PartialBot.token] in Hrun.
  rewrite bool_decide_eq_true_2 in Hrun by (by eexists).
  apply bind_Ok_inv in Hrun as ([] & w2 & [= <-] & [= <- <-]).
  rewrite !bot_options. set (p' := PartialBot.set_token partial (Some fresh)).
  set (stored := bot_merge (fold_left (bot_remove_field t2) remove self) p').
  assert (Bot.token stored = fresh) as Htok by done.
  assert (Bot.owner stored = default (Bot.owner self) (PartialBot.owner partial)) as Howner.
  { unfold stored, bot_merge. cbn [Bot.owner PartialBot.owner PartialBot.set_token p']. f_equal.
    generalize self. clear. induction remove as [|[] remove IH]; intros b; simpl; [done|by rewrite IH..]. }
  match goal with |- context [bots (World.set_events ?x ?y)] =>
    change (bots (World.set_events x y)) with (<[Bot.id self := stored]> (bots w)) end.
  split_and!; [done|..].
  - apply fetch_by_token_none. intros k x [[<- <-]|[Hne Hx]]%lookup_insert_Some Heq.
    + by apply (Hfresh (Bot.id self) self).
    + by apply Hne, (Hdistinct _ _ self x).
  - exists stored. split; [|done]. apply fetch_by_token_some with (Bot.id self);
      [by rewrite lookup_insert_eq|done|].
    intros k x [[<- _]|[_ Hx]]%lookup_insert_Some Heq; [done|]. by apply Hfresh in Hx.
  - cbn. set_solver.
Qed.
End Tokens.

(** ** The theorems on concrete inputs *)

Module Sample.
#[local] Existing Instance canonical_iter.
#[local] Existing Instance Fixture.strangers.
#[local] Instance user_environment : Environment := Fixture.environment 10.
#[local] Instance lowercase : Lowercase := ascii_lowercase.
(** No name is blocked by the patterns, and none needs a cure. *)
#[local] Instance lenient : Validator :=
  {| char_count := String.length; is_match _ _ := false; validation_text _ _ := "" |}.
#[local] Instance no_cure : Cure := Some.
#[local] Instance user_options : OptionalStruct User.t PartialUser.t := user_merge.
#[local] Instance bot_options : OptionalStruct Bot.t PartialBot.t := bot_merge.

(** "alice" owns the group "G" with "bob", the server "S" and a bot; "bob" is a friend. *)
Definition alice : User.t := Fixture.user "alice" [Relationship.mk "bob" RelationshipStatus.Friend].
Definition bob : User.t := Fixture.user "bob" [Relationship.mk "alice" RelationshipStatus.Friend].
Definition helper : Bot.t := Bot.mk "helper" "alice" "secret" false false false "" "" "" None.
Definition helper_user : User.t := Fixture.user "helper" [].
Definition people : UsersTable.table := {["alice" := alice; "bob" := bob; "helper" := helper_user]}.
Definition user_world : World.t :=
  World.set_db World.empty
    (ReferenceDb.set_bots
       (ReferenceDb.set_channels
          (ReferenceDb.set_server_members
             (ReferenceDb.set_servers (ReferenceDb.set_users ReferenceDb.empty people)
                {["S" := Fixture.server "S" "alice" 0 []]})
             {[MemberCompositeKey.mk "S" "alice" := Fixture.member "S" "alice" [] None]})
          {["G" := Channel.Group (Fixture.group "G" "alice" ["alice"; "bob"])]})
       {["helper" := helper]}).

Lemma people_lookup i u :
  people !! i = Some u → i = "alice" ∧ u = alice ∨ i = "bob" ∧ u = bob ∨ i = "helper" ∧ u = helper_user.
Proof.
  unfold people. intros [[<- <-]|[_ [[<- <-]|[_ [<- <-]%lookup_singleton_Some]]%lookup_insert_Some]]
    %lookup_insert_Some; tauto.
Qed.

(** Renaming "bob" to "Bob_2" changes only the name. *)
Example rename_runs :
  User.username <$> (update_username bob "Bob_2" user_world).1 = Ok "Bob_2".
Proof. vm_compute. reflexivity. Qed.
(** The name of somebody else is refused in any case, a reserved one always. *)
Example rename_refused :
  (update_username bob "ALICE" user_world).1 = Err ErrorType.UsernameTaken ∧
  (update_username bob "Admin" user_world).1 = Err ErrorType.InvalidUsername.
Proof. by vm_compute. Qed.

Definition renamed_world : World.t := (run_names_op (Rename bob "Bob_2") user_world).2.
Lemma usernames_stay_unique_witness :
  users_keyed (users renamed_world) ∧ names_unique (users renamed_world).
Proof.
  apply (usernames_stay_unique (λ _ _, eq_refl) (Rename bob "Bob_2") user_world).
  - by vm_compute.
  - intros i u Hu. change (people !! i = Some u) in Hu.
    by apply people_lookup in Hu as [[-> ->]|[[-> ->]|[-> ->]]].
  - intros i j u v Hu Hv _ _ Heq. change (people !! i = Some u) in Hu. change (people !! j = Some v) in Hv.
    apply people_lookup in Hu as [[-> ->]|[[-> ->]|[-> ->]]], Hv as [[-> ->]|[[-> ->]|[-> ->]]]; done.
Defined.

(** The value of a run that returned *)
Definition value_or {A} (d : A) (r : Result A) : A := match r with Ok a => a | _ => d end.

Definition after_deletion : World.t := (delete_user alice user_world).2.
Definition deleted_alice : User.t := value_or alice (delete_user alice user_world).1.

Lemma deletion_runs : delete_user alice user_world = (Ok deleted_alice, after_deletion).
Proof. vm_compute. reflexivity. Qed.

Lemma user_world_keyed : rows_keyed user_world.
Proof.
  split_and!; intros k x Hx.
  - change (({["helper" := helper]} : BotsTable.table) !! k = Some x) in Hx. by apply lookup_singleton_Some in Hx as [<- <-].
  - change (({["S" := Fixture.server "S" "alice" 0 []]} : ServersTable.table) !! k = Some x) in Hx.
    by apply lookup_singleton_Some in Hx as [<- <-].
  - change (({["G" := Channel.Group (Fixture.group "G" "alice" ["alice"; "bob"])]} : ChannelsTable.table) !! k = Some x) in Hx.
    by apply lookup_singleton_Some in Hx as [<- <-].
Qed.

Lemma deleted_user_is_gone_witness :
  gone "alice" after_deletion ∧ marked_deleted "alice" after_deletion.
Proof.
  destruct (deleted_user_is_gone (λ _ _, eq_refl) alice deleted_alice user_world after_deletion
              user_world_keyed deletion_runs) as (Hgone & Hmarked & _).
  by split.
Defined.

(** The group of a deleted owner remains, owned by somebody who is not in it: leaving a group
    hands it over, deleting the account does not. *)
Example deleted_owner_keeps_group :
  channels after_deletion !! "G" = Some (Channel.Group (Fixture.group "G" "alice" ["bob"])).
Proof. vm_compute. reflexivity. Qed.

Definition reset_world : World.t := (update_bot helper PartialBot.default [FieldsBot.Token] user_world).2.
Definition reset_bot : Bot.t :=
  value_or helper (update_bot helper PartialBot.default [FieldsBot.Token] user_world).1.

Lemma token_reset_takes_effect_witness :
  (BotsTable.fetch_bot_by_token "secret" (bots reset_world)).1 = Err ErrorType.NotFound.
Proof.
  refine (proj1 (proj2 (token_reset_takes_effect (λ _ _, eq_refl) helper reset_bot PartialBot.default
    [FieldsBot.Token] user_world reset_world _ _ _ eq_refl _ _))).
  - by vm_compute.
  - intros i j a b Ha Hb _. change (({["helper" := helper]} : BotsTable.table) !! i = Some a) in Ha.
    change (({["helper" := helper]} : BotsTable.table) !! j = Some b) in Hb.
    apply lookup_singleton_Some in Ha as [<- _], Hb as [<- _]. done.
  - intros k b Hb. change (({["helper" := helper]} : BotsTable.table) !! k = Some b) in Hb.
    by apply lookup_singleton_Some in Hb as [_ <-].
  - left.
  - vm_compute. reflexivity.
Defined.
End Sample.
