(* ===== verification/Triples.v ===== *)
(** * A Hoare logic for handlers

    [triple I P m Q] says that the handler [m] keeps the invariant [I], whether it succeeds,
    fails or panics, and that from a world with [P] a result [a] comes with [Q a]. [post] is the
    same for one run of any effectful code, with its errors. *)

From stdpp Require Import base tactics.
From S2P Require Import Prelude Errors World References.

Section Triples.
Context (I : World.t → Prop).

Definition triple {A} (P : World.t → Prop) (m : H A) (Q : A → World.t → Prop) : Prop :=
  ∀ w, I w → P w → I (m w).2 ∧ ∀ a, (m w).1 = Ok a → Q a (m w).2.

Lemma triple_bind {A B} P (m : H A) Q (k : A → H B) R :
  triple P m Q → (∀ a, triple (Q a) (k a) R) → triple P (m ≫= k) R.
Proof.
  intros Hm Hk w Iw Pw. rewrite M_bind_unfold. specialize (Hm w Iw Pw).
  destruct (m w) as [[a| |] w']; simpl in *; [|split; [apply Hm|done]..].
  destruct Hm as [Iw' HQ]. apply (Hk a w'); [done|by apply HQ].
Qed.

Lemma triple_ret {A} (P : World.t → Prop) (a : A) (Q : A → World.t → Prop) :
  (∀ w, P w → Q a w) → triple P (mret a) Q.
Proof. intros HPQ w Iw Pw. split; [done|]. intros ? [= <-]. by apply HPQ. Qed.

Lemma triple_throw {A} P e (Q : A → World.t → Prop) : triple P (throw e) Q.
Proof. by intros w Iw Pw. Qed.
Lemma triple_panic {A} P (Q : A → World.t → Prop) : triple P panic Q.
Proof. by intros w Iw Pw. Qed.

Lemma triple_lift {A} (P : World.t → Prop) (o : Result A) :
  triple P (lift o) (λ a w, P w ∧ o = Ok a).
Proof. intros w Iw Pw. by split. Qed.

Lemma triple_gets {A} (P : World.t → Prop) (f : World.t → A) :
  triple P (gets f) (λ a w, P w ∧ a = f w).
Proof. intros w Iw Pw. split; [done|]. by intros ? [= <-]. Qed.

Lemma triple_attempt {A} P (m : H A) Q :
  triple P m Q → triple P (attempt m) (λ o w, ∀ a, o = Some a → Q a w).
Proof.
  intros Hm w Iw Pw. specialize (Hm w Iw Pw). unfold attempt.
  destruct (m w) as [[a| |] w']; simpl in *; destruct Hm as [Iw' HQ];
    (split; [done|]); intros o [= <-]; [|done]. intros ? [= <-]. by apply HQ.
Qed.

Lemma triple_conseq {A} (P P' : World.t → Prop) (m : H A) (Q Q' : A → World.t → Prop) :
  triple P' m Q' → (∀ w, I w → P w → P' w) → (∀ a w, I w → Q' a w → Q a w) → triple P m Q.
Proof.
  intros Hm HP HQ w Iw Pw. destruct (Hm w Iw (HP w Iw Pw)) as [Iw' HQ']. split; [done|].
  intros a Ha. apply HQ, HQ', Ha. done.
Qed.

Lemma triple_any {A} P (m : H A) Q : triple (λ _, True) m Q → triple P m Q.
Proof. intros Hm w Iw _. by apply Hm. Qed.

(** A step that reads learns what it read. *)
Lemma triple_reads {A} (P : World.t → Prop) (m : H A) :
  reads m → triple P m (λ a w, P w ∧ m w = (Ok a, w)).
Proof.
  intros Hm w Iw Pw. specialize (Hm w). destruct (m w) as [r w'] eqn:Hrun. simpl in *. subst w'.
  split; [done|]. intros a ->. by split.
Qed.

(** A step that keeps what [I] and [P] depend on *)
Lemma triple_keeps {A C} (f : World.t → C) (P : World.t → Prop) (m : H A) :
  keeps f m → (∀ w w', f w' = f w → I w → P w → I w' ∧ P w') → triple P m (λ _ w, P w).
Proof. intros Hm Hf w Iw Pw. destruct (Hf w (m w).2 (Hm w) Iw Pw) as [Iw' Pw']. by split. Qed.

Lemma triple_if {A} P (b : bool) (m1 m2 : H A) Q :
  (b = true → triple P m1 Q) → (b = false → triple P m2 Q) → triple P (if b then m1 else m2) Q.
Proof. destruct b; auto. Qed.
End Triples.

(** ** Symbolic execution

    [post m w Q]: running [m] in [w] ends with an outcome and a state that satisfy [Q]. *)

Section Posts.
Context {E W : Type}.

Definition post {A} (m : M E W A) (w : W) (Q : Outcome E A → W → Prop) : Prop := Q (m w).1 (m w).2.

Lemma post_bind {A B} (m : M E W A) (k : A → M E W B) w Q :
  post m w (λ r w', match r with
                    | Ok a => post (k a) w' Q
                    | Err e => Q (Err e) w'
                    | Panicked => Q Panicked w'
                    end) →
  post (m ≫= k) w Q.
Proof. unfold post. rewrite M_bind_unfold. by destruct (m w) as [[] ?]. Qed.

Lemma post_ret {A} (a : A) w (Q : Outcome E A → W → Prop) : Q (Ok a) w → post (mret a) w Q.
Proof. done. Qed.

Lemma post_mono {A} (m : M E W A) w (Q Q' : Outcome E A → W → Prop) :
  post m w Q → (∀ r w', Q r w' → Q' r w') → post m w Q'.
Proof. intros Hm HQ. by apply HQ. Qed.

Lemma post_and {A} (m : M E W A) w (Q Q' : Outcome E A → W → Prop) :
  post m w Q → post m w Q' → post m w (λ r w', Q r w' ∧ Q' r w').
Proof. by split. Qed.

(** [m] does not change the state. *)
Lemma post_pure {A} (m : M E W A) w (Q : Outcome E A → W → Prop) :
  (m w).2 = w → (∀ r, (m w).1 = r → Q r w) → post m w Q.
Proof. unfold post. intros ->. auto. Qed.
End Posts.
