(* ===== verification/PlatformRoutes.v ===== *)
(** * Routes on settings, policies, reports, push subscriptions and onboarding

    [delta/src/routes/sync], [policy], [safety], [push] and [onboard], with
    [SnapshotContent::generate_from_message], [UserSettings::set] and the filter of usernames
    ([delta/src/util/username.rs]). A report keeps what was reported as it was. *)

From stdpp Require Import base list gmap strings.
From Stdlib Require Import ZArith Ascii Lia.
From S2P Require Import Prelude Errors Permissions PermissionSpec Files Users Servers Channels.
From S2P Require Import PermissionQuery Messages Unreads Config Emojis Webhooks Bots AuditLogs.
From S2P Require Import Accounts Platform World Database Relationships References Authors UserOps.
From S2P Require Import Triples.

(** ** Usernames *)

(** [char::to_ascii_lowercase], the substitutions and [is_ascii_alphanumeric], on one byte:
    the bytes of a character beyond ASCII are dropped with it. *)
Definition normalise_character (c : ascii) : option ascii :=
  let character := ascii_lower c in
  let replacement :=
    if Ascii.eqb character "0" then "o"%char else
    if Ascii.eqb character "1" then "i"%char else
    if Ascii.eqb character "3" then "e"%char else
    if Ascii.eqb character "4" then "a"%char else
    if Ascii.eqb character "5" then "s"%char else
    if Ascii.eqb character "7" then "t"%char else character in
  let n := nat_of_ascii replacement in
  if ((48 <=? n) && (n <=? 57) || (65 <=? n) && (n <=? 90) || (97 <=? n) && (n <=? 122))%nat
  then Some replacement else None.

Fixpoint normalised (username : string) : string :=
  match username with
  | EmptyString => EmptyString
  | String c rest =>
      match normalise_character c with
      | Some c => String c (normalised rest)
      | None => normalised rest
      end
  end.

Section Username.
(** [BLOCKED_TERMS] *)
Context (blocked_terms : list string).
Definition is_disallowed_username (username : string) : bool :=
  existsb (λ term, str_contains (normalised username) term) blocked_terms.

Lemma normalised_app a b : normalised (a +:+ b) = normalised a +:+ normalised b.
Proof.
  induction a as [|c a IH]; [done|].
  change (normalised (String c (a +:+ b)) = normalised (String c a) +:+ normalised b).
  simpl. destruct (normalise_character c) as [d|]; [exact (f_equal (String d) IH)|exact IH].
Qed.

(** Separators do not help: characters that are neither letters nor digits can be put anywhere
    in a name without changing the answer. *)
Lemma separators_ignored a b s :
  normalised s = "" → is_disallowed_username (a +:+ s +:+ b) = is_disallowed_username (a +:+ b).
Proof.
  intros Hs. unfold is_disallowed_username.
  by rewrite !normalised_app, Hs.
Qed.
End Username.

Section Routes.
Context `{Environment, HashIter, Lowercase, Validator, Cure}.
Context `{OptionalStruct User.t PartialUser.t}.

(** ** Settings *)

(** [UserSettings::set] *)
Definition set_settings (self : UserSettings) (user : string) : H unit :=
  on_user_settings (UserSettingsTable.set_user_settings user self) ;;
  private (EventV1.UserSettingsUpdate user self) user.

(** # Fetch Settings *)
Definition sync_fetch (user : User.t) (keys : list string) : H UserSettings :=
  on_user_settings (UserSettingsTable.fetch_user_settings (User.id user) keys).

(** # Set Settings; [data] has the new value of each key *)
Definition sync_set (user : User.t) (data : gmap string string) (timestamp : option Z) : H unit :=
  now ← clock;
  let current_time := (now / 10 ^ 6)%Z in
  let timestamp :=
    match timestamp with
    | Some timestamp => if (timestamp >? current_time)%Z then current_time else timestamp
    | None => current_time
    end in
  set_settings ((λ d, (timestamp, d)) <$> data) (User.id user).

(** # Fetch Unreads *)
Definition sync_unreads (user : User.t) : H (list ChannelUnread.t) :=
  on_unreads (UnreadsTable.fetch_unreads (User.id user)).

(** ** Policies *)

(** # Acknowledge Policy Changes *)
Definition route_acknowledge_policy_changes (user : User.t) : H unit :=
  policy_changes ← gets (λ w, ReferenceDb.policy_changes (World.db w));
  on_users (acknowledge_policy_changes (User.id user) policy_changes).

(** ** Push subscriptions *)

(** [Session::save] *)
Definition save_subscription (session : Session.t) (subscription : option WebPushSubscription.t) :
    H unit :=
  on_sessions (SessionsTable.save_session (Session.set_subscription session subscription)).

(** # Push Subscribe *)
Definition push_subscribe (session : Session.t) (data : WebPushSubscription.t) : H unit :=
  save_subscription session (Some data).

(** # Unsubscribe *)
Definition push_unsubscribe (session : Session.t) : H unit := save_subscription session None.

(** ** Onboarding *)

(** # Check Onboarding Status *)
Definition onboard_hello (user : option User.t) : bool := negb (bool_decide (is_Some user)).

(** [#[validate(length(min = 2, max = 32), regex = "RE_USERNAME")]] *)
Definition valid_onboard_username (username : string) : bool :=
  valid_length 2 32 username && is_match "RE_USERNAME" username.

(** # Complete Onboarding *)
Definition onboard_complete (blocked_terms : list string) (session : Session.t)
    (user : option User.t) (username : string) : H V0User.t :=
  match user with
  | Some _ => throw ErrorType.AlreadyOnboarded
  | None =>
      validate valid_onboard_username username ;;
      if is_disallowed_username blocked_terms username
      then throw (ErrorType.FailedValidation "You cannot use that username.") else
      user ← create_user username (Some (Session.user_id session)) None;
      lift (into_self user false)
  end.

(** ** Reports *)

(** Generate snapshot from a given message *)
Definition generate_from_message (message : Message.t) : H (SnapshotContent.t * list string) :=
  let files := default [] (fmap (M := list) File.id <$> Message.attachments message) in
  let filter := MessageFilter.mk (Some (Message.channel message)) None None None in
  prior_context ← on_messages (MessagesTable.fetch_messages
    (MessageQuery.mk (Some 15%Z) filter
       (MessageTimePeriod.Absolute (Some (Message.id message)) None (Some MessageSort.Latest))));
  leading_context ← on_messages (MessagesTable.fetch_messages
    (MessageQuery.mk (Some 15%Z) filter
       (MessageTimePeriod.Absolute None (Some (Message.id message)) (Some MessageSort.Oldest))));
  mret (SnapshotContent.Message prior_context leading_context message, files).

(** Find the content and create a snapshot of it; also retrieve any references to files *)
Definition snapshots_of (user : User.t) (content : ReportedContent.t) :
    H (list SnapshotContent.t * list string) :=
  match content with
  | ReportedContent.Message id _ =>
      message ← on_messages (MessagesTable.fetch_message id);
      if bool_decide (Message.author message = User.id user)
      then throw ErrorType.CannotReportYourself else
      snapshot ← generate_from_message message;
      mret ([snapshot.1], snapshot.2)
  | ReportedContent.Server id _ =>
      server ← on_servers (ServersTable.fetch_server id);
      if bool_decide (Server.owner server = User.id user)
      then throw ErrorType.CannotReportYourself else
      let snapshot := SnapshotContent.generate_from_server server in
      mret ([snapshot.1], snapshot.2)
  | ReportedContent.User id _ message_id =>
      reported_user ← on_users (UsersTable.fetch_user id);
      if bool_decide (User.id reported_user = User.id user)
      then throw ErrorType.CannotReportYourself else
      message ← match message_id with
                | Some id => attempt (on_messages (MessagesTable.fetch_message id))
                | None => mret None
                end;
      let snapshot := SnapshotContent.generate_from_user reported_user in
      match message with
      | Some message =>
          message_snapshot ← generate_from_message message;
          mret ([snapshot.1; message_snapshot.1], snapshot.2 ++ message_snapshot.2)
      | None => mret ([snapshot.1], snapshot.2)
      end
  end.

(** Save a snapshot of the content *)
Definition save_snapshot (report_id : string) (content : SnapshotContent.t) : H unit :=
  id ← ulid;
  on_snapshots (SnapshotsTable.insert_snapshot (Snapshot.mk id report_id content)).

(** # Report Content *)
Definition report_content (user : User.t) (content : ReportedContent.t)
    (additional_context : string) : H unit :=
  validate (valid_length 0 1000) additional_context ;;
  if bool_decide (is_Some (User.bot user)) then throw ErrorType.IsBot else
  found ← snapshots_of user content;
  for_each found.2 (λ file, on_files (FilesTable.mark_attachment_as_reported file)) ;;
  id ← ulid;
  for_each found.1 (save_snapshot id) ;;
  let report := Report.mk id (User.id user) content additional_context ReportStatus.Created "" in
  on_reports (ReportsTable.insert_report report) ;;
  global (EventV1.ReportCreate report).
End Routes.

(** ** What a report leaves *)

Section Report.
Context `{Environment, HashIter, Lowercase, Validator}.

Abbreviation tables w := (World.db w).

(** The snapshot is of the object the report names, as it is stored. *)
Definition shows (w : World.t) (content : ReportedContent.t) (c : SnapshotContent.t) : Prop :=
  match content, c with
  | ReportedContent.Message id _, SnapshotContent.Message _ _ message =>
      ReferenceDb.messages (tables w) !! id = Some message
  | ReportedContent.Server id _, SnapshotContent.Server server =>
      ReferenceDb.servers (tables w) !! id = Some server
  | ReportedContent.User id _ _, SnapshotContent.User user =>
      ReferenceDb.users (tables w) !! id = Some user
  | _, _ => False
  end.

(** The one whose object it is *)
Definition owner_of (c : SnapshotContent.t) : string :=
  match c with
  | SnapshotContent.Message _ _ message => Message.author message
  | SnapshotContent.Server server => Server.owner server
  | SnapshotContent.User user => User.id user
  end.

Lemma fetched {A} (get : ReferenceDb.t → gmap string A) set (id : string) w a w' :
  on_table get set (table_fetch id ErrorType.NotFound) w = (Ok a, w') →
  get (tables w) !! id = Some a.
Proof.
  unfold on_table, table_fetch. destruct (get (tables w) !! id) as [x|]; simpl; [|done].
  by intros [= <- <-].
Qed.

Lemma generate_from_message_spec message w w' c files :
  generate_from_message message w = (Ok (c, files), w') →
  ∃ prior leading, c = SnapshotContent.Message prior leading message.
Proof.
  unfold generate_from_message, on_messages, MessagesTable.fetch_messages, table_select.
  intros Hrun. unbind Hrun prior. unbind Hrun leading. injection Hrun as <- <- _. eauto.
Qed.

Lemma fetch_message_reads id : reads (on_messages (MessagesTable.fetch_message id)).
Proof. unfold on_messages, MessagesTable.fetch_message. solve_reads. Qed.
Lemma generate_reads message : reads (generate_from_message message).
Proof.
  unfold generate_from_message, on_messages, MessagesTable.fetch_messages, table_select.
  solve_reads.
Qed.
Hint Resolve fetch_message_reads generate_reads : reads.

Lemma snapshots_reads user content : reads (snapshots_of user content).
Proof.
  destruct content; simpl; unfold on_servers, ServersTable.fetch_server, on_users,
    UsersTable.fetch_user; solve_reads.
Qed.

(** The first snapshot is of the reported object, which is somebody else's. *)
Lemma snapshots_of_spec user content w found w' :
  snapshots_of user content w = (Ok found, w') →
  ∃ c rest, found.1 = c :: rest ∧ shows w content c ∧ owner_of c ≠ User.id user.
Proof.
  destruct content as [id r|id r|id r mid]; simpl.
  - intros Hrun. apply bind_Ok_inv_reads in Hrun; [|apply fetch_message_reads].
    destruct Hrun as (m & Hm & Hrun).
    case_bool_decide as Hself; [done|].
    apply bind_Ok_inv_reads in Hrun; [|apply generate_reads].
    destruct Hrun as ([c files] & Hc & [= <- <-]).
    destruct (generate_from_message_spec _ _ _ _ _ Hc) as (p & l & ->).
    eexists _, _. split; [done|]. split; [|done]. exact (fetched _ _ _ _ _ _ Hm).
  - intros (s & w1 & Hs & Hrun)%bind_Ok_inv. case_bool_decide as Hself; [done|].
    injection Hrun as <- _. eexists _, _. split; [done|]. split; [|done].
    exact (fetched _ _ _ _ _ _ Hs).
  - intros (u & w1 & Hu & Hrun)%bind_Ok_inv. case_bool_decide as Hself; [done|].
    apply bind_Ok_inv in Hrun. destruct Hrun as (m & w2 & Hm & Hrun).
    assert (∃ rest, found.1 = SnapshotContent.User u :: rest) as [rest Hrest].
    { destruct m as [m|]; [|injection Hrun as <- _; simpl; eauto].
      apply bind_Ok_inv in Hrun. destruct Hrun as (c & w3 & Hc & [= <- _]). simpl. eauto. }
    exists (SnapshotContent.User u), rest. split; [done|]. split; [|done].
    exact (fetched _ _ _ _ _ _ Hu).
Qed.

(** Snapshots that are stored stay; a new one is stored with its report. *)
Lemma save_snapshot_spec report_id c w w' :
  save_snapshot report_id c w = (Ok tt, w') →
  (∃ i, ReferenceDb.safety_snapshots (tables w') !! i = Some (Snapshot.mk i report_id c)) ∧
  (∀ i s, ReferenceDb.safety_snapshots (tables w) !! i = Some s →
    ReferenceDb.safety_snapshots (tables w') !! i = Some s).
Proof.
  unfold save_snapshot, ulid, on_snapshots, on_table, SnapshotsTable.insert_snapshot,
    table_insert. rewrite M_bind_unfold. cbn [World.db World.set_ulids Snapshot.id].
  destruct (ReferenceDb.safety_snapshots (tables w) !! new_ulid (World.ulids w)) eqn:Hk;
    [done|]. intros [= <-]. cbn. split.
  - eexists. by rewrite lookup_insert_eq.
  - intros i s Hi. rewrite lookup_insert_ne by congruence. done.
Qed.

Lemma save_snapshots_spec report_id cs w w' :
  for_each cs (save_snapshot report_id) w = (Ok tt, w') →
  (∀ c, c ∈ cs →
    ∃ i, ReferenceDb.safety_snapshots (tables w') !! i = Some (Snapshot.mk i report_id c)) ∧
  (∀ i s, ReferenceDb.safety_snapshots (tables w) !! i = Some s →
    ReferenceDb.safety_snapshots (tables w') !! i = Some s).
Proof.
  revert w. induction cs as [|c cs IH]; intros w; simpl.
  { intros [= ->]. split; [|done]. intros c Hc. by apply elem_of_nil in Hc. }
  intros ([] & w1 & Hc & Hcs)%bind_Ok_inv.
  destruct (save_snapshot_spec _ _ _ _ Hc) as [[i Hi] Hold].
  destruct (IH _ Hcs) as [Hnew Hkeep]. split; [|auto].
  intros c' [->|Hc']%elem_of_cons; [eauto|auto].
Qed.

Definition reported_as (w : World.t) (user : User.t) (content : ReportedContent.t)
    (context id : string) : Prop :=
  ReferenceDb.safety_reports (tables w) !! id =
    Some (Report.mk id (User.id user) content context ReportStatus.Created "").

(** A report that is accepted is stored and announced, together with a snapshot of the reported
    object as it was when it was reported; the object is somebody else's, and bots do not
    report. *)
Theorem report_keeps_what_was_reported (user : User.t) (content : ReportedContent.t)
    (context : string) (w w' : World.t) :
  report_content user content context w = (Ok tt, w') →
  User.bot user = None ∧
  ∃ id c i, reported_as w' user content context id ∧
    ReferenceDb.safety_snapshots (tables w') !! i = Some (Snapshot.mk i id c) ∧
    shows w content c ∧ owner_of c ≠ User.id user ∧
    ("global", EventV1.ReportCreate
       (Report.mk id (User.id user) content context ReportStatus.Created "")) ∈ World.events w'.
Proof.
  unfold report_content. intros Hrun. unbind Hrun ok. case_bool_decide as Hbot; [done|].
  assert (User.bot user = None) as Hnone by (destruct (User.bot user); [by destruct Hbot|done]).
  apply bind_Ok_inv_reads in Hrun; [|apply snapshots_reads]. destruct Hrun as (found & Hf & Hrun).
  apply bind_Ok_inv in Hrun. destruct Hrun as ([] & w1 & Hfiles & Hrun).
  apply bind_Ok_inv in Hrun. destruct Hrun as (id & w2 & Hid & Hrun).
  apply bind_Ok_inv in Hrun. destruct Hrun as ([] & w3 & Hsnap & Hrun).
  destruct (snapshots_of_spec _ _ _ _ _ Hf) as (c & rest & Hc & Hshows & Howner).
  destruct (save_snapshots_spec _ _ _ _ Hsnap) as [Hnew _].
  destruct (Hnew c) as [i Hi]; [rewrite Hc; left|].
  split; [done|]. exists id, c, i.
  unfold on_reports, on_table, ReportsTable.insert_report, table_insert in Hrun.
  rewrite M_bind_unfold in Hrun. cbn [Report.id] in Hrun.
  destruct (ReferenceDb.safety_reports (tables w3) !! id) eqn:Hk; [done|].
  injection Hrun as <-. unfold reported_as. cbn. split_and!; try done.
  - by rewrite lookup_insert_eq.
  - apply elem_of_app. right. by apply list_elem_of_singleton.
Qed.
End Report.

(** ** Examples *)

Module Sample.
#[local] Existing Instance canonical_iter.
#[local] Existing Instance Instances.bytes.
#[local] Instance lower : Lowercase := ascii_lowercase.
#[local] Instance env : Environment := Fixture.environment 5.

Definition alice : User.t := Fixture.user "alice" [].
Definition post_of_bob : Message.t :=
  Message.mk "m1" None "c1" "bob" None (Some "spam") None None None None None None None []
    Interactions.default None None None None.
Definition start : World.t :=
  World.set_db World.empty
    (ReferenceDb.set_user_settings
       (ReferenceDb.set_messages ReferenceDb.empty {[ "m1" := post_of_bob ]})
       {[ "alice" := {[ "theme" := (1%Z, "dark") ]} ]}).
Definition spam : ReportedContent.t :=
  ReportedContent.Message "m1" ContentReportReason.UnsolicitedSpam.
Definition reported : World.t := (report_content alice spam "please look" start).2.

Lemma report_keeps_what_was_reported_witness :
  report_content alice spam "please look" start = (Ok tt, reported) ∧
  User.bot alice = None ∧
  ∃ id c i, reported_as reported alice spam "please look" id ∧
    ReferenceDb.safety_snapshots (World.db reported) !! i = Some (Snapshot.mk i id c) ∧
    shows start spam c ∧ owner_of c ≠ User.id alice ∧
    ("global", EventV1.ReportCreate
       (Report.mk id (User.id alice) spam "please look" ReportStatus.Created ""))
      ∈ World.events reported.
Proof.
  assert (report_content alice spam "please look" start = (Ok tt, reported)) as Hrun
    by (vm_compute; reflexivity).
  split; [exact Hrun|]. exact (report_keeps_what_was_reported alice spam "please look" start _ Hrun).
Defined.

(** The reference driver drops an update of settings that exist already. *)
Example settings_update_lost :
  (sync_set alice {[ "theme" := "light" ]} None start).1 = Ok tt ∧
  (sync_fetch alice ["theme"] (sync_set alice {[ "theme" := "light" ]} None start).2).1
    = Ok {[ "theme" := (1%Z, "dark") ]}.
Proof. split; vm_compute; reflexivity. Qed.

(** Harmless names contain blocked terms. *)
Example raccoon_is_disallowed : is_disallowed_username ["coon"; "spic"] "Raccoon" = true.
Proof. reflexivity. Qed.
End Sample.
