(* ===== verification/Gateway.v ===== *)
(** * The gateway ([crates/bonfire])

    What a client of the gateway receives: the events ([events/client.rs]) as they are sent, the
    copies of objects and the subscriptions a connection keeps ([events/state.rs]), how they
    follow the events ([events/impl.rs]), and the loops that talk to the client and to Redis
    ([websocket.rs]), with the configuration of the protocol ([config.rs]).

    Events are published by the handlers ([World.events]) and converted to the API's models on
    the way; a connection receives those whose topic it subscribes to. Sockets, serialisation
    and tasks are outside; the crates [lru], [lru_time_cache] and [regex] and whether the
    pub/sub client accepts a command are parameters. *)

From stdpp Require Import base list gmap strings.
From Stdlib Require Import ZArith Lia.
From S2P Require Import Prelude Errors Permissions PermissionSpec Files Users Servers Channels.
From S2P Require Import PermissionQuery Messages Unreads Config Emojis Webhooks Bots AuditLogs.
From S2P Require Import Accounts Platform World Database Relationships ChannelOps References.
From S2P Require Import Authors Bridge Redis Voice.

(** ** Events and messages of clients *)

Module Ping.
Inductive t : Type := Binary (bytes : list Z) | Number (n : Z).
End Ping.

(** Fields provided in Ready payload *)
Module ReadyPayloadFields.
Record t : Type := mk {
  users : bool;
  servers : bool;
  channels : bool;
  members : bool;
  emojis : bool;
  voice_states : bool;
  user_settings : list string;
  channel_unreads : bool;
  policy_changes : bool
}.
Definition default : t := mk true true true true true true [] false true.
Definition none : t := mk false false false false false false [] false false.
End ReadyPayloadFields.

(** [v0::PolicyChange], [v0::ChannelSlowmode], [v0::ChannelVoiceState] *)
Module PolicyChangeModel.
Record t : Type := mk {
  created_time : Z; effective_time : Z; description : string; url : string
}.
Definition from_db (value : PolicyChange.t) : t :=
  mk (PolicyChange.created_time value) (PolicyChange.effective_time value)
    (PolicyChange.description value) (PolicyChange.url value).
End PolicyChangeModel.
Module ChannelSlowmode.
Record t : Type := mk { channel_id : string; duration : Z; retry_after : Z }.
End ChannelSlowmode.
Module ChannelVoiceState.
Record t : Type := mk { id : string; participants : list UserVoiceState.t }.
End ChannelVoiceState.

Module Event.
Inductive t : Type :=
| Bulk (v : list t)
| Error (data : ErrorType.t)
| Authenticated
| Logout
| Ready (users : option (list V0.User.t)) (servers : option (list V0.Server.t))
    (channels : option (list V0.Channel.t)) (members : option (list V0.Member.t))
    (emojis : option (list V0.Emoji.t)) (voice_states : option (list ChannelVoiceState.t))
    (user_settings : option UserSettings) (channel_unreads : option (list V0.ChannelUnread.t))
    (policy_changes : option (list PolicyChangeModel.t))
| Pong (data : Ping.t)
| Message (message : V0.Message.t)
| MessageUpdate (id channel : string) (data : V0.PartialMessage.t)
    (clear : list V0.FieldsMessage.t)
| MessageAppend (id channel : string) (append : V0.AppendMessage.t)
| MessageDelete (id channel : string)
| MessageReact (id channel_id user_id emoji_id : string)
| MessageUnreact (id channel_id user_id emoji_id : string)
| MessageRemoveReaction (id channel_id emoji_id : string)
| BulkMessageDelete (channel : string) (ids : list string)
| ServerCreate (id : string) (server : V0.Server.t) (channels : list V0.Channel.t)
    (emojis : list V0.Emoji.t) (voice_states : list ChannelVoiceState.t)
| ServerUpdate (id : string) (data : V0.PartialServer.t) (clear : list V0.FieldsServer.t)
| ServerDelete (id : string)
| ServerMemberUpdate (id : V0.MemberCompositeKey.t) (data : V0.PartialMember.t)
    (clear : list V0.FieldsMember.t)
| ServerMemberJoin (id user : string) (member : V0.Member.t)
| ServerMemberLeave (id user : string) (reason : V0.RemovalIntention.t)
| ServerRoleUpdate (id role_id : string) (data : V0.PartialRole.t) (clear : list V0.FieldsRole.t)
| ServerRoleDelete (id role_id : string)
| ServerRoleRanksUpdate (id : string) (ranks : list string)
| UserUpdate (id : string) (data : V0.PartialUser.t) (clear : list V0.FieldsUser.t)
    (event_id : option string)
| UserRelationship (id : string) (user : V0.User.t)
| UserSettingsUpdate (id : string) (update : UserSettings)
| UserPlatformWipe (user_id : string) (flags : Z)
| EmojiCreate (emoji : V0.Emoji.t)
| EmojiUpdate (id : string) (data : V0.PartialEmoji.t)
| EmojiDelete (id : string)
| ReportCreate (report : Report.t)
| ChannelCreate (channel : V0.Channel.t)
| ChannelUpdate (id : string) (data : V0.PartialChannel.t) (clear : list V0.FieldsChannel.t)
| ChannelDelete (id : string)
| ChannelGroupJoin (id user : string)
| ChannelGroupLeave (id user : string)
| ChannelStartTyping (id user : string)
| ChannelStopTyping (id user : string)
| ChannelAck (id user message_id : string)
| WebhookCreate (webhook : V0.Webhook.t)
| WebhookUpdate (id : string) (data : V0.PartialWebhook.t) (remove : list V0.FieldsWebhook.t)
| WebhookDelete (id : string)
| CreateAccount (account : Account.t)
| CreateSession (session : Session.t)
| DeleteSession (user_id session_id : string)
| DeleteAllSessions (user_id : string) (exclude_session_id : option string)
| VoiceChannelJoin (id : string) (state : UserVoiceState.t)
| VoiceChannelLeave (id user : string)
| VoiceChannelMove (user from to : string) (state : UserVoiceState.t)
| UserVoiceStateUpdate (id channel_id : string) (data : PartialUserVoiceState.t)
| UserMoveVoiceChannel (node from to token : string)
| UserSlowmodes (slowmodes : list ChannelSlowmode.t).

(** A published event as it is sent: the publishers convert the objects of the database. *)
Definition published (event : EventV1.t) : t :=
  match event with
  | EventV1.Message message user member =>
      Message (V0.Message.into_model message (V0.User.of_user <$> user)
                 (V0.Member.from_db <$> member))
  | EventV1.MessageUpdate id channel data clear =>
      MessageUpdate id channel (V0.PartialMessage.from_db data)
        (V0.FieldsMessage.from_db <$> clear)
  | EventV1.MessageAppend id channel append =>
      MessageAppend id channel (V0.AppendMessage.from_db append)
  | EventV1.MessageDelete id channel => MessageDelete id channel
  | EventV1.MessageReact id channel_id user_id emoji_id =>
      MessageReact id channel_id user_id emoji_id
  | EventV1.MessageUnreact id channel_id user_id emoji_id =>
      MessageUnreact id channel_id user_id emoji_id
  | EventV1.MessageRemoveReaction id channel_id emoji_id =>
      MessageRemoveReaction id channel_id emoji_id
  | EventV1.BulkMessageDelete channel ids => BulkMessageDelete channel ids
  | EventV1.ChannelCreate channel => ChannelCreate (V0.Channel.from_db channel)
  | EventV1.ChannelUpdate id data clear =>
      ChannelUpdate id (V0.PartialChannel.from_db data) (V0.FieldsChannel.from_db <$> clear)
  | EventV1.ChannelDelete id => ChannelDelete id
  | EventV1.ChannelGroupJoin id user => ChannelGroupJoin id user
  | EventV1.ChannelGroupLeave id user => ChannelGroupLeave id user
  | EventV1.ChannelAck id user message_id => ChannelAck id user message_id
  | EventV1.ServerCreate id server channels emojis =>
      ServerCreate id (V0.Server.from_db server) (V0.Channel.from_db <$> channels)
        (V0.Emoji.from_db <$> emojis) []
  | EventV1.ServerUpdate id data clear =>
      ServerUpdate id (V0.PartialServer.from_db data) (V0.FieldsServer.from_db <$> clear)
  | EventV1.ServerDelete id => ServerDelete id
  | EventV1.ServerMemberJoin id user member =>
      ServerMemberJoin id user (V0.Member.from_db member)
  | EventV1.ServerMemberUpdate id data clear =>
      ServerMemberUpdate (V0.MemberCompositeKey.from_db id) (V0.PartialMember.from_db data)
        (V0.FieldsMember.from_db <$> clear)
  | EventV1.ServerMemberLeave id user reason =>
      ServerMemberLeave id user (V0.RemovalIntention.from_db reason)
  | EventV1.ServerRoleUpdate id role_id data clear =>
      ServerRoleUpdate id role_id (V0.PartialRole.from_db data) (V0.FieldsRole.from_db <$> clear)
  | EventV1.ServerRoleDelete id role_id => ServerRoleDelete id role_id
  | EventV1.ServerRoleRanksUpdate id ranks => ServerRoleRanksUpdate id ranks
  | EventV1.UserRelationship id user => UserRelationship id (V0.User.of_user user)
  | EventV1.UserUpdate id data online clear event_id =>
      UserUpdate id (V0.PartialUser.set_online (V0.PartialUser.from_db data) (Some online))
        (V0.FieldsUser.from_db <$> clear) event_id
  | EventV1.EmojiCreate emoji => EmojiCreate (V0.Emoji.from_db emoji)
  | EventV1.EmojiUpdate id name => EmojiUpdate id (V0.PartialEmoji.mk name)
  | EventV1.EmojiDelete id => EmojiDelete id
  | EventV1.WebhookCreate webhook => WebhookCreate (V0.Webhook.from_db webhook)
  | EventV1.WebhookUpdate id data remove =>
      WebhookUpdate id (V0.PartialWebhook.from_db data) (V0.FieldsWebhook.from_db <$> remove)
  | EventV1.WebhookDelete id => WebhookDelete id
  | EventV1.UserSettingsUpdate id update => UserSettingsUpdate id update
  | EventV1.ReportCreate report => ReportCreate report
  | EventV1.ChannelStartTyping id user => ChannelStartTyping id user
  | EventV1.ChannelStopTyping id user => ChannelStopTyping id user
  | EventV1.VoiceChannelJoin id state => VoiceChannelJoin id state
  | EventV1.VoiceChannelLeave id user => VoiceChannelLeave id user
  | EventV1.VoiceChannelMove user from to state => VoiceChannelMove user from to state
  | EventV1.UserVoiceStateUpdate id channel_id data => UserVoiceStateUpdate id channel_id data
  | EventV1.UserMoveVoiceChannel node from to token => UserMoveVoiceChannel node from to token
  | EventV1.UserSlowmodes channel_id duration retry_after =>
      UserSlowmodes [ChannelSlowmode.mk channel_id duration retry_after]
  | EventV1.UserPlatformWipe user_id flags => UserPlatformWipe user_id flags
  | EventV1.Logout => Logout
  | EventV1.CreateAccount account => CreateAccount account
  | EventV1.CreateSession session => CreateSession session
  | EventV1.DeleteSession user_id session_id => DeleteSession user_id session_id
  | EventV1.DeleteAllSessions user_id exclude_session_id =>
      DeleteAllSessions user_id exclude_session_id
  end.
End Event.

Module ClientMessage.
Inductive t : Type :=
| Authenticate (token : string)
| BeginTyping (channel : string)
| EndTyping (channel : string)
| Subscribe (server_id : string)
| Ping (data : Ping.t) (responded : option unit).
End ClientMessage.

(** ** Crates *)

(** [lru::LruCache<String, ()>] of capacity 20 *)
Class SeenEvents := {
  seen_contains : string → list string → bool;
  seen_put : string → list string → list string;
  seen_contains_spec k c : seen_contains k c = true ↔ k ∈ c;
  seen_put_hit k c : k ∈ seen_put k c;
  seen_put_inv k k' c : k' ∈ seen_put k c → k' = k ∨ k' ∈ c;
  seen_put_keeps k k' c : length c < 20 → k' ∈ c → k' ∈ seen_put k c
}.

(** [lru_time_cache::LruCache<String, ()>] with an expiry of 900 seconds and a capacity of 5;
    [notify_iter] yields the entries, each once, and removes those that have expired. *)
Module TimedEntry.
Inductive t : Type := Valid (k : string) | Expired (k : string).
Definition key (e : t) : string := match e with Valid k | Expired k => k end.
End TimedEntry.

Class TimedCache := {
  timed : Type;
  timed_empty : timed;
  timed_keys : timed → list string;
  timed_contains_key : string → Z → timed → bool;
  timed_insert : string → Z → timed → timed;
  timed_notify_iter : Z → timed → list TimedEntry.t * timed;
  timed_empty_keys : timed_keys timed_empty = [];
  timed_insert_keys k now c k' : k' ∈ timed_keys (timed_insert k now c) → k' = k ∨ k' ∈ timed_keys c;
  timed_notify_nodup now c : NoDup (TimedEntry.key <$> (timed_notify_iter now c).1);
  timed_notify_keys now c e : e ∈ (timed_notify_iter now c).1 → TimedEntry.key e ∈ timed_keys c;
  timed_notify_rest now c k : k ∈ timed_keys (timed_notify_iter now c).2 → k ∈ timed_keys c
}.

(** ** The state of a connection *)

Module SubscriptionStateChange.
Inductive t : Type :=
| None
| Reset
| Change (add remove : list string).
End SubscriptionStateChange.

Module Cache.
Record t : Type := mk {
  user_id : string;
  is_bot : bool;
  users : gmap string User.t;
  channels : gmap string Channel.t;
  members : gmap string Member.t;
  servers : gmap string Server.t;
  seen_events : list string
}.
(** [impl Default for Cache] *)
Definition default : t := mk "" false ∅ ∅ ∅ ∅ [].
Definition set_is_bot (c : t) x : t :=
  mk (user_id c) x (users c) (channels c) (members c) (servers c) (seen_events c).
Definition set_users (c : t) x : t :=
  mk (user_id c) (is_bot c) x (channels c) (members c) (servers c) (seen_events c).
Definition set_channels (c : t) x : t :=
  mk (user_id c) (is_bot c) (users c) x (members c) (servers c) (seen_events c).
Definition set_members (c : t) x : t :=
  mk (user_id c) (is_bot c) (users c) (channels c) x (servers c) (seen_events c).
Definition set_servers (c : t) x : t :=
  mk (user_id c) (is_bot c) (users c) (channels c) (members c) x (seen_events c).
Definition set_seen_events (c : t) x : t :=
  mk (user_id c) (is_bot c) (users c) (channels c) (members c) (servers c) x.

(** Check whether we can subscribe to another user *)
Definition can_subscribe_to_user `{HashIter} (self : t) (user : string) : bool :=
  match users self !! user_id self with
  | Some us =>
      match User.relationship_with us user with
      | RelationshipStatus.Friend | RelationshipStatus.Incoming | RelationshipStatus.Outgoing
      | RelationshipStatus.User => true
      | _ =>
          existsb (λ channel,
            match channel with
            | Channel.DirectMessage c => bool_decide (user ∈ DirectMessage.recipients c)
            | Channel.Group c => bool_decide (user ∈ Group.recipients c)
            | _ => false
            end) (hash_values (channels self))
      end
  | None => false
  end.
End Cache.

Module State.
Section State.
Context `{TimedCache}.
Record t : Type := mk {
  cache : Cache.t;
  session_id : string;
  private_topic : string;
  state : SubscriptionStateChange.t;
  subscribed : gset string;
  active_servers : timed
}.
Definition set_cache (s : t) x : t :=
  mk x (session_id s) (private_topic s) (state s) (subscribed s) (active_servers s).
Definition set_state (s : t) x : t :=
  mk (cache s) (session_id s) (private_topic s) x (subscribed s) (active_servers s).
Definition set_subscribed (s : t) x : t :=
  mk (cache s) (session_id s) (private_topic s) (state s) x (active_servers s).
Definition set_active_servers (s : t) x : t :=
  mk (cache s) (session_id s) (private_topic s) (state s) (subscribed s) x.

(** Create state from User *)
Definition from (user : User.t) (session_id : string) : t :=
  let private_topic := User.id user +:+ "!" in
  mk (Cache.mk (User.id user) (Cache.is_bot Cache.default) {[ User.id user := user ]}
        (Cache.channels Cache.default) (Cache.members Cache.default)
        (Cache.servers Cache.default) (Cache.seen_events Cache.default))
    session_id private_topic SubscriptionStateChange.Reset
    {[ private_topic; User.id user ]} timed_empty.

(** Clone the active user *)
Definition clone_user (self : t) : Result User.t :=
  unwrap (Cache.users (cache self) !! Cache.user_id (cache self)).

(** Reset the current state *)
Definition reset_state (self : t) : t :=
  set_subscribed (set_state self SubscriptionStateChange.Reset) ∅.

(** Add a new subscription *)
Definition insert_subscription (subscription : string) (self : t) : t :=
  if bool_decide (subscription ∈ subscribed self) then self else
  let self :=
    match state self with
    | SubscriptionStateChange.None =>
        set_state self (SubscriptionStateChange.Change [subscription] [])
    | SubscriptionStateChange.Change add remove =>
        set_state self (SubscriptionStateChange.Change (add ++ [subscription]) remove)
    | SubscriptionStateChange.Reset => self
    end in
  set_subscribed self ({[subscription]} ∪ subscribed self).

(** Remove existing subscription *)
Definition remove_subscription (subscription : string) (self : t) : Result t :=
  if bool_decide (subscription ∉ subscribed self) then Ok self else
  self ←
    match state self with
    | SubscriptionStateChange.None =>
        Ok (set_state self (SubscriptionStateChange.Change [] [subscription]))
    | SubscriptionStateChange.Change add remove =>
        Ok (set_state self (SubscriptionStateChange.Change add (remove ++ [subscription])))
    | SubscriptionStateChange.Reset => Panicked
    end;
  Ok (set_subscribed self (subscribed self ∖ {[subscription]})).

(** Subscribe to the members of a server that is active, or stop *)
Definition active_server_change (entry : TimedEntry.t) (self : t) : Result t :=
  match entry with
  | TimedEntry.Valid k => Ok (insert_subscription (k +:+ "u") self)
  | TimedEntry.Expired k => remove_subscription (k +:+ "u") self
  end.
Fixpoint active_server_changes (entries : list TimedEntry.t) (self : t) : Result t :=
  match entries with
  | [] => Ok self
  | entry :: entries => self ← active_server_change entry self; active_server_changes entries self
  end.

(** Apply currently queued state; [now] is the clock *)
Definition apply_state (now : Z) (self : t) : Result (SubscriptionStateChange.t * t) :=
  self ←
    (if Cache.is_bot (cache self) then Ok self else
     let '(entries, rest) := timed_notify_iter now (active_servers self) in
     active_server_changes entries (set_active_servers self rest));
  let change := state self in
  let self := set_state self SubscriptionStateChange.None in
  Ok (change,
      match change with
      | SubscriptionStateChange.Change add remove =>
          set_subscribed self ((subscribed self ∪ list_to_set add) ∖ list_to_set remove)
      | _ => self
      end).
End State.
End State.

(** ** Handling events *)

(** What handling an event leaves to do: the server to recalculate, the subscription to add and
    the one to remove *)
Module Queue.
Record t : Type := mk { server : option string; add : option string; remove : option string }.
End Queue.

Section Gateway.
Context `{Environment, MutualIds, HashIter, SeenEvents, TimedCache}.
Context `{Redis, RedisCommands}.
Context `{OptionalStruct Server.t PartialServer.t, OptionalStruct Role.t PartialRole.t}.
Context `{OptionalStruct Member.t PartialMember.t}.

(** Operations of a connection *)
Abbreviation G := (M ErrorType.t (State.t * World.t)).

Definition on_world {A} (m : H A) : G A :=
  λ sw, let '(r, w) := m sw.2 in (r, (sw.1, w)).
Definition on_state (f : State.t → Result State.t) : G unit :=
  λ sw, match f sw.1 with
        | Ok s => (Ok tt, (s, sw.2))
        | Err e => (Err e, sw)
        | Panicked => (Panicked, sw)
        end.
Definition cached {A} (f : Cache.t → A) : G A := gets (λ sw, f (State.cache sw.1)).
Definition update_cache (f : Cache.t → Cache.t) : G unit :=
  on_state (λ s, Ok (State.set_cache s (f (State.cache s)))).
Definition insert_subscription (id : string) : G unit :=
  on_state (λ s, Ok (State.insert_subscription id s)).
Definition remove_subscription (id : string) : G unit := on_state (State.remove_subscription id).
Definition is_bot : G bool := cached Cache.is_bot.

(** [collect()] into a [HashMap]: of two entries with one key the later stays *)
Definition collect_map {A} (key : A → string) (l : list A) : gmap string A :=
  fold_left (λ m x, <[key x := x]> m) l ∅.

(** Check whether the current user can view a channel *)
Definition can_view_channel (self : Cache.t) (channel : Channel.t) : H bool :=
  match channel with
  | Channel.TextChannel c =>
      let member := Cache.members self !! TextChannel.server c in
      let server := Cache.servers self !! TextChannel.server c in
      user ← lift (unwrap (Cache.users self !! Cache.user_id self));
      permissions ←
        run_query (λ q,
          let q := DatabasePermissionQuery.with_channel q (Some channel) in
          let q := match member with
                   | Some member => DatabasePermissionQuery.with_member q (Some member)
                   | None => q
                   end in
          match server with
          | Some server => DatabasePermissionQuery.with_server q (Some server)
          | None => q
          end) calculate_channel_permissions user;
      mret (PermissionValue.has_channel_permission permissions ChannelPermission.ViewChannel)
  | _ => mret true
  end.

(** Filter a given vector of channels to only include the ones we can access *)
Fixpoint filter_accessible_channels (self : Cache.t) (channels : list Channel.t) :
    H (list Channel.t) :=
  match channels with
  | [] => mret []
  | channel :: channels =>
      can_view ← can_view_channel self channel;
      rest ← filter_accessible_channels self channels;
      mret (if (can_view : bool) then channel :: rest else rest)
  end.

(** The channels of a server that are cached, split by whether they can be viewed *)
Fixpoint split_channels (self : Cache.t) (channels : list (string * Channel.t)) :
    H (list string * list string) :=
  match channels with
  | [] => mret ([], [])
  | (channel_id, channel) :: channels =>
      can_view ← can_view_channel self channel;
      rest ← split_channels self channels;
      mret (if (can_view : bool) then (channel_id :: rest.1, rest.2)
            else (rest.1, channel_id :: rest.2))
  end.

(** [HashSet::difference(..).collect()] *)
Definition difference (a b : gset string) : list string := hash_set_iter (a ∖ b).

Definition drop_channel (id : string) : G unit :=
  remove_subscription id ;;
  update_cache (λ c, Cache.set_channels c (delete id (Cache.channels c))).
Definition take_channel (channel : Channel.t) : G unit :=
  update_cache (λ c, Cache.set_channels c (<[Channel.id channel := channel]> (Cache.channels c))) ;;
  insert_subscription (Channel.id channel).

(** Re-determine the currently accessible server channels *)
Definition recalculate_server (id : string) (event : Event.t) : G Event.t :=
  self ← cached (λ c, c);
  match Cache.servers self !! id with
  | Some server =>
      let ours := List.filter (λ kc, bool_decide (Channel.server kc.2 = Some id))
                    (hash_iter (Cache.channels self)) in
      split ← on_world (split_channels self ours);
      let channel_ids : gset string := list_to_set ours.*1 in
      let known_ids : gset string := list_to_set (Server.channels server) in
      for_each split.1 insert_subscription ;;
      for_each split.2 drop_channel ;;
      let bulk_events := Event.ChannelDelete <$> split.2 in
      let unknowns := difference known_ids channel_ids in
      new ← (if bool_decide (unknowns = []) then mret [] else
             fetched ← attempt (on_world (on_channels (ChannelsTable.fetch_channels unknowns)));
             match fetched with
             | Some channels =>
                 self ← cached (λ c, c);
                 viewable_channels ← on_world (filter_accessible_channels self channels);
                 for_each viewable_channels take_channel ;;
                 mret viewable_channels
             | None => mret []
             end);
      let bulk_events :=
        bulk_events ++ ((λ c, Event.ChannelCreate (V0.Channel.from_db c)) <$> new) in
      mret (if bool_decide (bulk_events = []) then event else Event.Bulk (bulk_events ++ [event]))
  | None => mret event
  end.

(** The channels of a server are forgotten with it *)
Definition forget_server (id : string) : G unit :=
  remove_subscription id ;;
  server ← cached (λ c, Cache.servers c !! id);
  update_cache (λ c, Cache.set_servers c (delete id (Cache.servers c))) ;;
  match server with
  | Some server => for_each (Server.channels server) drop_channel
  | None => mret tt
  end ;;
  update_cache (λ c, Cache.set_members c (delete id (Cache.members c))).

Definition nothing : Queue.t := Queue.mk None None None.
Definition queue_server (id : string) : Queue.t := Queue.mk (Some id) None None.

Definition channel_created (channel : V0.Channel.t) : G unit :=
  insert_subscription (V0.Channel.id channel) ;;
  update_cache (λ c, Cache.set_channels c
    (<[V0.Channel.id channel := V0.Channel.into_db channel]> (Cache.channels c))).

(** The cached channel after an update *)
Definition update_channel (data : V0.PartialChannel.t) (clear : list V0.FieldsChannel.t)
    (channel : Channel.t) : Channel.t :=
  Channel.apply_options
    (fold_left (λ channel field, Channel.remove_field channel (V0.FieldsChannel.into_db field))
       clear channel)
    (V0.PartialChannel.into_db data).

Definition channel_updated (id : string) (data : V0.PartialChannel.t)
    (clear : list V0.FieldsChannel.t) (event : Event.t) : G (Queue.t * Event.t) :=
  self ← cached (λ c, c);
  could_view ← match Cache.channels self !! id with
               | Some channel => on_world (can_view_channel self channel)
               | None => mret false
               end;
  update_cache (λ c, Cache.set_channels c
    (alter (update_channel data clear) id (Cache.channels c))) ;;
  (if bool_decide (is_Some (Cache.channels self !! id)) then mret tt else
   fetched ← attempt (on_world (on_channels (ChannelsTable.fetch_channel id)));
   match fetched with
   | Some channel =>
       update_cache (λ c, Cache.set_channels c (<[id := channel]> (Cache.channels c)))
   | None => mret tt
   end) ;;
  self ← cached (λ c, c);
  match Cache.channels self !! id with
  | Some channel =>
      can_view ← on_world (can_view_channel self channel);
      if bool_decide (could_view = can_view) then mret (nothing, event) else
      if (can_view : bool)
      then mret (Queue.mk None (Some id) None, Event.ChannelCreate (V0.Channel.from_db channel))
      else mret (Queue.mk None None (Some id), Event.ChannelDelete id)
  | None => mret (nothing, event)
  end.

Definition group_left (id user : string) : G unit :=
  self ← cached (λ c, c);
  if bool_decide (user = Cache.user_id self) then remove_subscription id else
  if Cache.can_subscribe_to_user self user then mret tt else remove_subscription user.

Definition server_created (id : string) (server : V0.Server.t) (channels : list V0.Channel.t) :
    G unit :=
  insert_subscription id ;;
  bot ← is_bot;
  (if (bot : bool) then insert_subscription (id +:+ "u") else mret tt) ;;
  now ← on_world clock;
  update_cache (λ c, Cache.set_servers c (<[id := V0.Server.into_db server]> (Cache.servers c))) ;;
  update_cache (λ c, Cache.set_members c
    (<[id := Member.new (MemberCompositeKey.mk (V0.Server.id server) (Cache.user_id c)) now]>
       (Cache.members c))) ;;
  update_cache (λ c, Cache.set_channels c
    (fold_left (λ m ch, <[V0.Channel.id ch := V0.Channel.into_db ch]> m) channels
       (Cache.channels c))).

Definition update_server (data : V0.PartialServer.t) (clear : list V0.FieldsServer.t)
    (server : Server.t) : Server.t :=
  apply_options
    (fold_left (λ server field, Server.remove_field server (V0.FieldsServer.into_db field))
       clear server)
    (V0.PartialServer.into_db data).

Definition update_member (data : V0.PartialMember.t) (clear : list V0.FieldsMember.t)
    (member : Member.t) : Member.t :=
  apply_options
    (fold_left (λ member field, Member.remove_field member (V0.FieldsMember.into_db field))
       clear member)
    (V0.PartialMember.into_db data).

Definition update_role (data : V0.PartialRole.t) (clear : list V0.FieldsRole.t) (role : Role.t) :
    Role.t :=
  apply_options
    (fold_left (λ role field, Role.remove_field role (V0.FieldsRole.into_db field)) clear role)
    (V0.PartialRole.into_db data).

(** The server, if the cached member of it has the role *)
Definition if_has_role (self : Cache.t) (id role_id : string) : Queue.t :=
  match Cache.members self !! id with
  | Some member => if bool_decide (role_id ∈ Member.roles member) then queue_server id else nothing
  | None => nothing
  end.

Definition member_updated (id : V0.MemberCompositeKey.t) (data : V0.PartialMember.t)
    (clear : list V0.FieldsMember.t) : G Queue.t :=
  self ← cached (λ c, c);
  let server := V0.MemberCompositeKey.server id in
  if bool_decide (V0.MemberCompositeKey.user id = Cache.user_id self) then
    update_cache (λ c, Cache.set_members c
      (alter (update_member data clear) server (Cache.members c))) ;;
    mret (if bool_decide (is_Some (V0.PartialMember.roles data)) ||
             bool_decide (V0.FieldsMember.Roles ∈ clear)
          then queue_server server else nothing)
  else mret nothing.

Definition role_updated (id role_id : string) (data : V0.PartialRole.t)
    (clear : list V0.FieldsRole.t) : G Queue.t :=
  update_cache (λ c, Cache.set_servers c
    (alter (λ server, Server.set_roles server
              (alter (update_role data clear) role_id (Server.roles server)))
       id (Cache.servers c))) ;;
  self ← cached (λ c, c);
  mret (if bool_decide (is_Some (V0.PartialRole.rank data)) ||
           bool_decide (is_Some (V0.PartialRole.permissions data))
        then if_has_role self id role_id else nothing).

Definition role_deleted (id role_id : string) : G Queue.t :=
  update_cache (λ c, Cache.set_servers c
    (alter (λ server, Server.set_roles server (delete role_id (Server.roles server)))
       id (Cache.servers c))) ;;
  self ← cached (λ c, c);
  mret (if_has_role self id role_id).

Definition relationship_changed (id : string) (user : V0.User.t) : G unit :=
  update_cache (λ c, Cache.set_users c (<[id := V0.User.into_db user]> (Cache.users c))) ;;
  self ← cached (λ c, c);
  if Cache.can_subscribe_to_user self id then insert_subscription id else remove_subscription id.

(** The relationship of the author with the current user *)
Definition message_received (message : V0.Message.t) : G Event.t :=
  match V0.Message.user message with
  | Some user =>
      self ← cached (λ c, c);
      us ← on_world (lift (unwrap (Cache.users self !! Cache.user_id self)));
      let relationship :=
        V0.RelationshipStatus.from_db (User.relationship_with us (V0.Message.author message)) in
      mret (Event.Message
              (V0.Message.set_user message (Some (V0.User.set_relationship user relationship))))
  | None => mret (Event.Message message)
  end.

(** The first match of [handle_incoming_event_v1]; [None] returns [false] *)
Definition follow_event (event : Event.t) : G (option (Queue.t * Event.t)) :=
  match event with
  | Event.ChannelCreate channel => channel_created channel ;; mret (Some (nothing, event))
  | Event.ChannelUpdate id data clear =>
      r ← channel_updated id data clear event; mret (Some r)
  | Event.ChannelDelete id => drop_channel id ;; mret (Some (nothing, event))
  | Event.ChannelGroupJoin _ user => insert_subscription user ;; mret (Some (nothing, event))
  | Event.ChannelGroupLeave id user => group_left id user ;; mret (Some (nothing, event))
  | Event.ServerCreate id server channels _ _ =>
      server_created id server channels ;; mret (Some (queue_server id, event))
  | Event.ServerUpdate id data clear =>
      update_cache (λ c, Cache.set_servers c
        (alter (update_server data clear) id (Cache.servers c))) ;;
      mret (Some (if bool_decide (is_Some (V0.PartialServer.default_permissions data))
                  then queue_server id else nothing, event))
  | Event.ServerMemberLeave id user _ =>
      self ← cached (λ c, c);
      (if bool_decide (user = Cache.user_id self) then forget_server id else mret tt) ;;
      mret (Some (nothing, event))
  | Event.ServerDelete id => forget_server id ;; mret (Some (nothing, event))
  | Event.ServerMemberUpdate id data clear =>
      q ← member_updated id data clear; mret (Some (q, event))
  | Event.ServerRoleUpdate id role_id data clear =>
      q ← role_updated id role_id data clear; mret (Some (q, event))
  | Event.ServerRoleDelete id role_id => q ← role_deleted id role_id; mret (Some (q, event))
  | Event.UserUpdate id data clear event_id =>
      self ← cached (λ c, c);
      match event_id with
      | Some event_id =>
          if seen_contains event_id (Cache.seen_events self) then mret None else
          update_cache (λ c, Cache.set_seen_events c (seen_put event_id (Cache.seen_events c))) ;;
          mret (Some (nothing, Event.UserUpdate id data clear None))
      | None => mret (Some (nothing, Event.UserUpdate id data clear None))
      end
  | Event.UserRelationship id user =>
      relationship_changed id user ;; mret (Some (nothing, event))
  | Event.Message message => event ← message_received message; mret (Some (nothing, event))
  | _ => mret (Some (nothing, event))
  end.

(** Handle an incoming event for protocol version 1: the event to send, if any *)
Definition handle_incoming_event_v1 (event : Event.t) : G (option Event.t) :=
  followed ← follow_event event;
  match followed with
  | Some (queue, event) =>
      event ← match Queue.server queue with
              | Some server_id => recalculate_server server_id event
              | None => mret event
              end;
      match Queue.add queue with Some id => insert_subscription id | None => mret tt end ;;
      match Queue.remove queue with Some id => remove_subscription id | None => mret tt end ;;
      mret (Some event)
  | None => mret None
  end.

(** Push presence change to the user and all associated server topics; [disabled] is
    [config.disable_events_dont_use] *)
Definition broadcast_presence_change (disabled target : bool) : G unit :=
  if disabled then mret tt else
  self ← cached (λ c, c);
  us ← on_world (lift (unwrap (Cache.users self !! Cache.user_id self)));
  if is_invisible us then mret tt else
  event_id ← on_world ulid;
  let event := EventV1.UserUpdate (Cache.user_id self) PartialUser.default target [] (Some event_id) in
  for_each (hash_iter (Cache.servers self)).*1 (λ server, on_world (p event server)) ;;
  on_world (p event (Cache.user_id self)).

(** ** The Ready payload *)

Definition has_voice (channel : Channel.t) : bool :=
  match channel with
  | Channel.DirectMessage _ | Channel.Group _ => true
  | Channel.TextChannel c => bool_decide (is_Some (TextChannel.voice c))
  | Channel.SavedMessages _ => false
  end.

(** The voice states of the channels, the participants by server, and all of them *)
Fixpoint collect_voice_states (channels : list Channel.t)
    (by_server : gmap string (gset string)) (user_ids : gset string) :
    H (list ChannelVoiceState.t * gmap string (gset string) * gset string) :=
  match channels with
  | [] => mret ([], by_server, user_ids)
  | channel :: channels =>
      voice_state ← attempt (get_channel_voice_state (UserVoiceChannel.from_channel channel));
      match voice_state with
      | Some (Some (id, participants)) =>
          let ids : gset string := list_to_set (UserVoiceState.id <$> participants) in
          let by_server :=
            match Channel.server channel with
            | Some server => <[server := default ∅ (by_server !! server) ∪ ids]> by_server
            | None => by_server
            end in
          rest ← collect_voice_states channels by_server (user_ids ∪ ids);
          mret (ChannelVoiceState.mk id participants :: rest.1.1, rest.1.2, rest.2)
      | _ => collect_voice_states channels by_server user_ids
      end
  end.

(** Fetch all the members for the participants who are in a server *)
Fixpoint fetch_voice_members (by_server : list (string * gset string)) : H (list Member.t) :=
  match by_server with
  | [] => mret []
  | (server, user_ids) :: by_server =>
      voice_members ← on_members (MembersTable.fetch_members server (hash_set_iter user_ids));
      rest ← fetch_voice_members by_server;
      mret (voice_members ++ rest)
  end.

Definition recipients_of (channel : Channel.t) : list string :=
  match channel with
  | Channel.DirectMessage c => DirectMessage.recipients c
  | Channel.Group c => Group.recipients c
  | _ => []
  end.

(** [Some(..)] if the field is wanted *)
Definition wanted {A} (field : bool) (value : A) : option A := if field then Some value else None.

Definition pending_policy_changes (user : User.t) (fields : ReadyPayloadFields.t) :
    H (option (list PolicyChangeModel.t)) :=
  if bool_decide (is_Some (User.bot user)) || negb (ReadyPayloadFields.policy_changes fields)
  then mret None else
  policies ← on_policy_changes PolicyChangesTable.fetch_policy_changes;
  mret (Some (PolicyChangeModel.from_db <$>
    List.filter (λ policy,
      (User.last_acknowledged_policy_change user <? PolicyChange.created_time policy)%Z) policies)).

(** Set subscription state internally *)
Definition reset_subscriptions (users : list V0.User.t) (servers : list Server.t)
    (channels : list Channel.t) : G unit :=
  on_state (λ s, Ok (State.reset_state s)) ;;
  private_topic ← gets (λ sw : State.t * World.t, State.private_topic sw.1);
  insert_subscription private_topic ;;
  for_each users (λ user, insert_subscription (V0.User.id user)) ;;
  bot ← is_bot;
  for_each servers (λ server,
    insert_subscription (Server.id server) ;;
    if (bot : bool) then insert_subscription (Server.id server +:+ "u") else mret tt) ;;
  for_each channels (λ channel, insert_subscription (Channel.id channel)).

(** Make all users appear from our perspective, and see our own user correctly *)
Definition users_as_seen (user : User.t) (users : list User.t) (online_ids : gset string) :
    Result (list V0User.t) :=
  others ← collect (λ other_user,
    into_known other_user (Some user) (bool_decide (User.id other_user ∈ online_ids))) users;
  self ← into_self user true;
  Ok (others ++ [self]).

(** Generate a Ready packet for the current user *)
Definition generate_ready_payload (fields : ReadyPayloadFields.t) : G Event.t :=
  user ← (s ← gets fst; lift (State.clone_user s));
  update_cache (λ c, Cache.set_is_bot c (bool_decide (is_Some (User.bot user)))) ;;
  policy_changes ← on_world (pending_policy_changes user fields);
  let user_ids : gset string :=
    list_to_set (Relationship.id <$> default [] (User.relations user)) in
  members ← on_world (on_members (MembersTable.fetch_all_memberships (User.id user)));
  servers ← on_world (on_servers (ServersTable.fetch_servers
              ((λ m, MemberCompositeKey.server (Member.id m)) <$> members)));
  update_cache (λ c, Cache.set_servers c (collect_map Server.id servers)) ;;
  direct ← on_world (on_channels (ChannelsTable.find_direct_messages (User.id user)));
  fetched ← on_world (on_channels (ChannelsTable.fetch_channels (servers ≫= Server.channels)));
  self ← cached (λ c, c);
  channels ← on_world (filter_accessible_channels self (direct ++ fetched));
  let user_ids := user_ids ∪ list_to_set (channels ≫= recipients_of) in
  voice ← (if ReadyPayloadFields.voice_states fields then
             found ← on_world (collect_voice_states (List.filter has_voice channels) ∅ user_ids);
             voice_members ← on_world (fetch_voice_members (hash_iter found.1.2));
             mret (Some found.1.1, voice_members, found.2)
           else mret (None, [], user_ids));
  let members := members ++ voice.1.2 in
  let user_ids := voice.2 in
  let online_ids : gset string := filter is_online user_ids in
  users ← on_world (on_users (UsersTable.fetch_users
            (List.filter (λ x, negb (bool_decide (x = User.id user))) (hash_set_iter user_ids))));
  update_cache (λ c, Cache.set_members c
    (collect_map (λ m, MemberCompositeKey.server (Member.id m)) members)) ;;
  emojis ← (if ReadyPayloadFields.emojis fields then
              emojis ← on_world (on_emojis
                (EmojisTable.fetch_emoji_by_parent_ids (Server.id <$> servers)));
              mret (Some (V0.Emoji.from_db <$> emojis))
            else mret None);
  user_settings ←
    (if bool_decide (ReadyPayloadFields.user_settings fields = []) then mret None else
     settings ← on_world (on_user_settings (UserSettingsTable.fetch_user_settings (User.id user)
                            (ReadyPayloadFields.user_settings fields)));
     mret (Some settings));
  channel_unreads ←
    (if ReadyPayloadFields.channel_unreads fields then
       unreads ← on_world (on_unreads (UnreadsTable.fetch_unreads (User.id user)));
       mret (Some (V0.ChannelUnread.from_db <$> unreads))
     else mret None);
  update_cache (λ c, Cache.set_users c (collect_map User.id users)) ;;
  update_cache (λ c, Cache.set_users c (<[Cache.user_id c := user]> (Cache.users c))) ;;
  update_cache (λ c, Cache.set_channels c (collect_map Channel.id channels)) ;;
  shown ← lift (users_as_seen user users online_ids);
  let shown := V0.User.of_user <$> shown in
  reset_subscriptions shown servers channels ;;
  mret (Event.Ready (wanted (ReadyPayloadFields.users fields) shown)
          (wanted (ReadyPayloadFields.servers fields) (V0.Server.from_db <$> servers))
          (wanted (ReadyPayloadFields.channels fields) (V0.Channel.from_db <$> channels))
          (wanted (ReadyPayloadFields.members fields) (V0.Member.from_db <$> members))
          emojis voice.1.1 user_settings channel_unreads policy_changes).
End Gateway.

(** ** The connection *)

(** Commands of the pub/sub client ([fred]) *)
Module PubSub.
Inductive t : Type := Subscribe (topic : string) | Unsubscribe (topic : string) | UnsubscribeAll.
End PubSub.

(** Whether the client accepts a command after those before it, and a message can be written to
    the socket *)
Class Transport := {
  pubsub_accepts : list PubSub.t → PubSub.t → bool;
  socket_accepts : list Event.t → Event.t → bool
}.

(** The topics subscribed to after a command *)
Definition execute_pubsub (topics : gset string) (c : PubSub.t) : gset string :=
  match c with
  | PubSub.Subscribe topic => {[topic]} ∪ topics
  | PubSub.Unsubscribe topic => topics ∖ {[topic]}
  | PubSub.UnsubscribeAll => ∅
  end.

Module Connection.
Section Connection.
Context `{TimedCache}.
(** The state, the topics the pub/sub client subscribes to, the commands it was given, what was
    written to the socket, and whether the loops still run *)
Record t : Type := mk {
  state : State.t;
  topics : gset string;
  commands : list PubSub.t;
  sent : list Event.t;
  open : bool
}.
Definition set_state (c : t) x : t := mk x (topics c) (commands c) (sent c) (open c).
Definition close (c : t) : t := mk (state c) (topics c) (commands c) (sent c) false.
End Connection.
End Connection.

Section Connections.
Context `{Environment, MutualIds, HashIter, SeenEvents, TimedCache, Transport}.
Context `{Redis, RedisCommands}.
Context `{OptionalStruct Server.t PartialServer.t, OptionalStruct Role.t PartialRole.t}.
Context `{OptionalStruct Member.t PartialMember.t}.
Import Connection.

(** Run commands until one fails, which breaks out of the loop *)
Fixpoint run_pubsub (cs : list PubSub.t) (c : Connection.t) : Connection.t :=
  match cs with
  | [] => c
  | command :: cs =>
      if pubsub_accepts (commands c) command
      then run_pubsub cs (mk (state c) (execute_pubsub (topics c) command)
                            (commands c ++ [command]) (sent c) (open c))
      else close c
  end.

Definition commands_of (change : SubscriptionStateChange.t) (subscribed : gset string) :
    list PubSub.t :=
  match change with
  | SubscriptionStateChange.Reset =>
      PubSub.UnsubscribeAll :: (PubSub.Subscribe <$> hash_set_iter subscribed)
  | SubscriptionStateChange.Change add remove =>
      (PubSub.Unsubscribe <$> remove) ++ (PubSub.Subscribe <$> add)
  | SubscriptionStateChange.None => []
  end.

(** The beginning of a round of [listener]: apply changes to the subscriptions *)
Definition adjust_subscriptions (now : Z) (c : Connection.t) : Result Connection.t :=
  applied ← State.apply_state now (state c);
  let '(change, s) := applied in
  Ok (run_pubsub (commands_of change (State.subscribed s)) (set_state c s)).

(** Write an event to the socket *)
Definition send (event : Event.t) (c : Connection.t) : Connection.t :=
  if socket_accepts (sent c) event
  then mk (state c) (topics c) (commands c) (sent c ++ [event])
         (match event with Event.Logout => false | _ => open c end)
  else close c.

(** What a session event means to this connection *)
Definition session_event (session_id : string) (event : Event.t) : option Event.t :=
  match event with
  | Event.DeleteSession _ deleted =>
      Some (if bool_decide (session_id = deleted) then Event.Logout else event)
  | Event.DeleteAllSessions _ exclude_session_id =>
      Some (match exclude_session_id with
            | Some excluded => if bool_decide (session_id = excluded) then event else Event.Logout
            | None => Event.Logout
            end)
  | _ => None
  end.

(** The rest of a round: an event was received *)
Definition receive (event : Event.t) (c : Connection.t) (w : World.t) :
    Result Connection.t * World.t :=
  match session_event (State.session_id (state c)) event with
  | Some event => (Ok (send event c), w)
  | None =>
      let '(r, (s, w)) := handle_incoming_event_v1 event (state c, w) in
      (match r with
       | Ok (Some event) => Ok (send event (set_state c s))
       | Ok None => Ok (set_state c s)
       | Err e => Err e
       | Panicked => Panicked
       end, w)
  end.

(** One round of [listener] on a published event: it is received if its topic is subscribed to *)
Definition round (now : Z) (message : string * EventV1.t) (c : Connection.t) (w : World.t) :
    Result Connection.t * World.t :=
  if Connection.open c then
    match adjust_subscriptions now c with
    | Ok c =>
        if Connection.open c && bool_decide (message.1 ∈ topics c)
        then receive (Event.published message.2) c w else (Ok c, w)
    | Err e => (Err e, w)
    | Panicked => (Panicked, w)
    end
  else (Ok c, w).

(** One message of the client, in [worker]; [disabled] is [config.disable_events_dont_use] *)
Definition client_message (disabled : bool) (message : ClientMessage.t) (c : Connection.t) :
    H Connection.t :=
  let user_id := Cache.user_id (State.cache (state c)) in
  match message with
  | ClientMessage.BeginTyping channel =>
      if disabled || negb (bool_decide (channel ∈ State.subscribed (state c))) then mret c else
      p (EventV1.ChannelStartTyping channel user_id) channel ;; mret c
  | ClientMessage.EndTyping channel =>
      if disabled || negb (bool_decide (channel ∈ State.subscribed (state c))) then mret c else
      p (EventV1.ChannelStopTyping channel user_id) channel ;; mret c
  | ClientMessage.Subscribe server_id =>
      now ← clock;
      mret (set_state c (State.set_active_servers (state c)
              (timed_insert server_id now (State.active_servers (state c)))))
  | ClientMessage.Ping data responded =>
      mret (match responded with
            | None =>
                if socket_accepts (sent c) (Event.Pong data)
                then mk (state c) (topics c) (commands c) (sent c ++ [Event.Pong data]) (open c)
                else c
            | Some _ => c
            end)
  | ClientMessage.Authenticate _ => mret c
  end.

(** The connection after the Ready payload: authenticated as the user of a session *)
Definition connect (fields : ReadyPayloadFields.t) (user : User.t) (session_id : string)
    (w : World.t) : Result Connection.t * World.t :=
  let '(r, (s, w)) := generate_ready_payload fields (State.from user session_id, w) in
  (match r with
   | Ok ready => Ok (mk s ∅ [] [Event.Authenticated; ready] true)
   | Err e => Err e
   | Panicked => Panicked
   end, w).
End Connections.
