(* ===== verification/Subscriptions.v ===== *)
(** * What keeps the subscriptions of a connection in order

    What is pending between two rounds of a connection leads from the topics Redis delivers to
    the subscriptions of its state, and nothing is pending twice: inserting, removing and
    applying changes, recalculating a server, following each event. *)

From stdpp Require Import base list gmap strings.
From Stdlib Require Import ZArith Lia.
From S2P Require Import Prelude Errors Permissions PermissionSpec Files Users Servers Channels.
From S2P Require Import PermissionQuery Messages Unreads Config Emojis Webhooks Bots AuditLogs.
From S2P Require Import Accounts Platform World Database PermissionTheorems Relationships.
From S2P Require Import ChannelOps ServerOps References Authors Bridge Redis Voice Triples Gateway.

(** ** Pending changes *)

Section Pending.
Context `{TimedCache}.

Definition adds (s : State.t) : list string :=
  match State.state s with SubscriptionStateChange.Change add _ => add | _ => [] end.
Definition removes (s : State.t) : list string :=
  match State.state s with SubscriptionStateChange.Change _ remove => remove | _ => [] end.

(** What is pending leads from the topics [B] to the subscriptions of the state, whatever the
    order: nothing is both added and removed. *)
Definition pending (B : gset string) (s : State.t) : Prop :=
  State.state s ≠ SubscriptionStateChange.Reset ∧
  (∀ x, x ∈ adds s → x ∈ removes s → False) ∧
  State.subscribed s = (B ∖ list_to_set (removes s)) ∪ list_to_set (adds s).

(** The pending changes are among given ones *)
Definition within (A R : string → Prop) (s : State.t) : Prop :=
  (∀ x, x ∈ adds s → A x) ∧ (∀ x, x ∈ removes s → R x).

Lemma insert_subscription_cache x s :
  State.cache (State.insert_subscription x s) = State.cache s ∧
  State.private_topic (State.insert_subscription x s) = State.private_topic s ∧
  State.active_servers (State.insert_subscription x s) = State.active_servers s.
Proof.
  unfold State.insert_subscription. case_bool_decide; [done|]. by destruct (State.state s).
Qed.

Lemma insert_subscription_subscribed x s :
  State.subscribed (State.insert_subscription x s) = {[x]} ∪ State.subscribed s.
Proof.
  unfold State.insert_subscription. case_bool_decide; [set_solver|].
  by destruct (State.state s).
Qed.

Lemma insert_subscription_reset x s :
  State.state s = SubscriptionStateChange.Reset →
  State.state (State.insert_subscription x s) = SubscriptionStateChange.Reset.
Proof. intros Hs. unfold State.insert_subscription. case_bool_decide; [done|]. by rewrite Hs. Qed.

Lemma insert_pending B A R x s :
  (∀ y, A y → R y → False) → A x → pending B s → within A R s →
  pending B (State.insert_subscription x s) ∧ within A R (State.insert_subscription x s).
Proof.
  intros HAR Hx (Hreset & Hdis & Hsub) [HA HR]. unfold State.insert_subscription.
  case_bool_decide as Hin; [done|].
  unfold pending, within, adds, removes in *.
  destruct (State.state s) as [| |add remove] eqn:Hs; [|done|]; simpl in *.
  - rewrite Hsub. split.
    + split_and!; [done| |set_solver]. intros y _ Hy. by apply elem_of_nil in Hy.
    + split; [|done]. intros y Hy. by apply list_elem_of_singleton in Hy as ->.
  - split.
    + split_and!; [done| |].
      * intros y [Hy|Hy]%elem_of_app Hr; [by eapply Hdis|].
        apply list_elem_of_singleton in Hy as ->. eapply (HAR x); [done|by apply HR].
      * rewrite Hsub, list_to_set_app_L. set_solver.
    + split; [|done]. intros y [Hy|Hy]%elem_of_app; [by apply HA|].
      by apply list_elem_of_singleton in Hy as ->.
Qed.

Lemma remove_pending B A R x s :
  (∀ y, A y → R y → False) → R x → pending B s → within A R s →
  ∃ s', State.remove_subscription x s = Ok s' ∧ pending B s' ∧ within A R s' ∧
    State.cache s' = State.cache s ∧ State.private_topic s' = State.private_topic s ∧
    State.subscribed s' = State.subscribed s ∖ {[x]}.
Proof.
  intros HAR Hx (Hreset & Hdis & Hsub) [HA HR]. unfold State.remove_subscription.
  case_bool_decide as Hin; [exists s; split_and!; [done..|set_solver]|].

  unfold pending, within, adds, removes in *.
  destruct (State.state s) as [| |add remove] eqn:Hs; [|done|]; simpl in *.
  - eexists. split; [done|]. simpl. rewrite Hsub. split_and!; try done.
    + intros y Hy. by apply elem_of_nil in Hy.
    + set_solver.
    + intros y Hy. by apply list_elem_of_singleton in Hy as ->.
  - eexists. split; [done|]. simpl. split_and!; try done.
    + intros y Hy [Hr|Hr]%elem_of_app; [by eapply Hdis|].
      apply list_elem_of_singleton in Hr as ->. eapply (HAR x); [by apply HA|done].
    + rewrite Hsub, list_to_set_app_L.
      assert (x ∉ add) as Hna by (intros Ha; eapply (HAR x); [by apply HA|done]). set_solver.
    + intros y [Hy|Hy]%elem_of_app; [by apply HR|].
      by apply list_elem_of_singleton in Hy as ->.
Qed.

Lemma within_mono (A R A' R' : string → Prop) s :
  (∀ x, A x → A' x) → (∀ x, R x → R' x) → within A R s → within A' R' s.
Proof. intros HA HR [H1 H2]. split; auto. Qed.

(** ** Applying them *)

Definition member_topic (x : string) : Prop := ∃ k, x = k +:+ "u".

Lemma member_topic_inj a b : a +:+ "u" = b +:+ "u" → a = b.
Proof.
  revert b. induction a as [|c a IH]; intros [|d b]; simpl; intros Heq; simplify_eq; try done.
  - by destruct b.
  - by destruct a.
  - by rewrite (IH b).
Qed.

Lemma changes_pending B A R entries s :
  (∀ y, A y → R y → False) →
  (∀ k, TimedEntry.Valid k ∈ entries → A (k +:+ "u")) →
  (∀ k, TimedEntry.Expired k ∈ entries → R (k +:+ "u")) →
  pending B s → within A R s →
  ∃ s', State.active_server_changes entries s = Ok s' ∧ pending B s' ∧
    State.cache s' = State.cache s ∧ State.private_topic s' = State.private_topic s.
Proof.
  intros HAR. revert s. induction entries as [|e entries IH]; intros s Hv He Hp Hw; simpl.
  { by exists s. }
  destruct e as [k|k]; simpl.
  - destruct (insert_pending B A R (k +:+ "u") s) as [Hp' Hw']; [done|apply Hv; left|done..|].
    destruct (insert_subscription_cache (k +:+ "u") s) as (Hc & Ht & _).
    destruct (IH (State.insert_subscription (k +:+ "u") s)) as (s' & Hs' & Hps' & Hcs & Hts);
      [intros; apply Hv; by right|intros; apply He; by right|done..|].
    exists s'. split_and!; [done..|by rewrite Hcs|by rewrite Hts].
  - destruct (remove_pending B A R (k +:+ "u") s) as (s1 & Hs1 & Hp' & Hw' & Hc & Ht & _);
      [done|apply He; left|done..|].
    rewrite Hs1. simpl.
    destruct (IH s1) as (s' & Hs' & Hps' & Hcs & Hts);
      [intros; apply Hv; by right|intros; apply He; by right|done..|].
    exists s'. split_and!; [done..|by rewrite Hcs|by rewrite Hts].
Qed.

(** The ids that are pending are not topics of members, which bots alone subscribe to as they
    subscribe to servers. *)
Definition plain_pending (s : State.t) : Prop :=
  Cache.is_bot (State.cache s) = true ∨
  ∀ x, x ∈ adds s ∨ x ∈ removes s → ¬ member_topic x.

(** Applying the pending changes empties them, and leaves the subscriptions they lead to. *)
Lemma apply_state_pending B now s :
  pending B s → plain_pending s →
  ∃ change s', State.apply_state now s = Ok (change, s') ∧
    State.state s' = SubscriptionStateChange.None ∧
    State.cache s' = State.cache s ∧ State.private_topic s' = State.private_topic s ∧
    ∃ s1, pending B s1 ∧ change = State.state s1 ∧ State.subscribed s' = State.subscribed s1.
Proof.
  intros Hp Hplain. unfold State.apply_state.
  assert (∃ s1, (if Cache.is_bot (State.cache s) then Ok s else
            let '(entries, rest) := timed_notify_iter now (State.active_servers s) in
            State.active_server_changes entries (State.set_active_servers s rest)) = Ok s1 ∧
            pending B s1 ∧ State.cache s1 = State.cache s ∧
            State.private_topic s1 = State.private_topic s) as (s1 & -> & Hp1 & Hc1 & Ht1).
  { destruct (Cache.is_bot (State.cache s)) eqn:Hbot; [by exists s|].
    pose proof (timed_notify_nodup now (State.active_servers s)) as Hnd.
    destruct (timed_notify_iter now (State.active_servers s)) as [entries rest]. simpl in Hnd.
    destruct (changes_pending B
                (λ x, x ∈ adds s ∨ ∃ k, TimedEntry.Valid k ∈ entries ∧ x = k +:+ "u")
                (λ x, x ∈ removes s ∨ ∃ k, TimedEntry.Expired k ∈ entries ∧ x = k +:+ "u")
                entries (State.set_active_servers s rest))
      as (s1 & Hs1 & Hp1 & Hc1 & Ht1); [| | | | |by exists s1].
    - destruct Hp as (_ & Hdis & _). destruct Hplain as [Hb|Hplain]; [congruence|].
      intros y [Ha|(k & Hk & ->)] [Hr|(k' & Hk' & Heq)]; [by eapply Hdis| | |].
      + eapply Hplain; [by left|]. by exists k'.
      + eapply Hplain; [by right|]. by exists k.
      + apply member_topic_inj in Heq as <-.
        apply (list_elem_of_fmap_2 TimedEntry.key) in Hk as Hi.
        apply list_elem_of_lookup in Hk as [i Hi1]. apply list_elem_of_lookup in Hk' as [j Hj1].
        assert (i = j) as <-; [|congruence].
        eapply (NoDup_lookup _ _ _ k Hnd); rewrite list_lookup_fmap;
          [by rewrite Hi1|by rewrite Hj1].
    - intros k Hk. right. by exists k.
    - intros k Hk. right. by exists k.
    - done.
    - split; intros x Hx; by left. }
  simpl. eexists _, _. split; [done|].
  destruct (State.state s1) as [| |add remove] eqn:Hst; simpl; split_and!; try done;
    exists s1; split_and!; try done.
  destruct Hp1 as (_ & Hdis & Hsub). unfold adds, removes in *. rewrite Hst in *. simpl in *.
  rewrite Hsub. apply set_eq. intros x. rewrite elem_of_difference, !elem_of_union,
    elem_of_difference, !elem_of_list_to_set. split; [tauto|].
  intros Hx. split; [tauto|]. intros Hr. destruct Hx as [[_ Hx]|Hx]; [tauto|by eapply Hdis].
Qed.
End Pending.

(** ** Operations of a connection that succeed *)

Section Runs.
Context `{Environment, MutualIds, HashIter, SeenEvents, TimedCache}.
Context `{Redis, RedisCommands}.
Context `{OptionalStruct Server.t PartialServer.t, OptionalStruct Role.t PartialRole.t}.
Context `{OptionalStruct Member.t PartialMember.t}.

(** The operation succeeds and leaves the world alone. *)
Definition runs {A} (m : M ErrorType.t (State.t * World.t) A) (s : State.t) (w : World.t)
    (Q : A → State.t → Prop) : Prop :=
  ∃ a s', m (s, w) = (Ok a, (s', w)) ∧ Q a s'.

Lemma runs_bind {A B} (m : M ErrorType.t (State.t * World.t) A)
    (k : A → M ErrorType.t (State.t * World.t) B) s w Q R :
  runs m s w Q → (∀ a s', Q a s' → runs (k a) s' w R) → runs (m ≫= k) s w R.
Proof.
  intros (a & s' & Hm & HQ) Hk. destruct (Hk a s' HQ) as (b & s2 & Hk2 & HR).
  exists b, s2. rewrite M_bind_unfold, Hm. by split.
Qed.
Lemma runs_ret {A} (a : A) s w (Q : A → State.t → Prop) : Q a s → runs (mret a) s w Q.
Proof. intros HQ. by exists a, s. Qed.
Lemma runs_mono {A} (m : M ErrorType.t (State.t * World.t) A) s w (Q Q' : A → State.t → Prop) :
  runs m s w Q → (∀ a s', Q a s' → Q' a s') → runs m s w Q'.
Proof. intros (a & s' & Hm & HQ) HQQ. exists a, s'. split; [done|by apply HQQ]. Qed.
Lemma runs_world {A} (m : H A) a s w (Q : A → State.t → Prop) :
  m w = (Ok a, w) → Q a s → runs (on_world m) s w Q.
Proof. intros Hm HQ. exists a, s. unfold on_world. simpl. by rewrite Hm. Qed.
Lemma runs_attempt {A} (m : H A) r s w (Q : option A → State.t → Prop) :
  m w = (r, w) → r ≠ Panicked → Q (match r with Ok a => Some a | _ => None end) s →
  runs (attempt (on_world m)) s w Q.
Proof.
  intros Hm Hr HQ. unfold runs, attempt, on_world. cbn [fst snd]. rewrite Hm.
  destruct r; [by eexists _, s|by eexists _, s|done].
Qed.
Lemma runs_cached {A} (f : Cache.t → A) s w (Q : A → State.t → Prop) :
  Q (f (State.cache s)) s → runs (cached f) s w Q.
Proof. intros HQ. by exists (f (State.cache s)), s. Qed.
Lemma runs_get {A C} (f : Cache.t → A) (k : A → M ErrorType.t (State.t * World.t) C) s w Q :
  runs (k (f (State.cache s))) s w Q → runs (cached f ≫= k) s w Q.
Proof. done. Qed.
Lemma runs_read {A C} (m : H A) a (k : A → M ErrorType.t (State.t * World.t) C) s w Q :
  m w = (Ok a, w) → runs (k a) s w Q → runs (on_world m ≫= k) s w Q.
Proof.
  intros Hm Hk. apply (runs_bind _ _ s w (λ b s', b = a ∧ s' = s)); [by eapply runs_world|].
  by intros ? ? [-> ->].
Qed.
Lemma runs_for_each {A} (l : list A) (body : A → M ErrorType.t (State.t * World.t) unit)
    (I : State.t → Prop) s w :
  I s → (∀ x s, x ∈ l → I s → runs (body x) s w (λ _, I)) →
  runs (for_each l body) s w (λ _, I).
Proof.
  revert s. induction l as [|x l IH]; intros s HI Hb; simpl; [by apply runs_ret|].
  eapply runs_bind; [apply Hb; [left|done]|]. intros [] s' HI'. apply IH; [done|].
  intros y s2 Hy. apply Hb. by right.
Qed.

(** ** Which channels can be viewed *)

Definition views (self : Cache.t) (w : World.t) (channel : Channel.t) : bool :=
  match (can_view_channel self channel w).1 with Ok b => b | _ => false end.

Definition self_known (self : Cache.t) : Prop := is_Some (Cache.users self !! Cache.user_id self).

Lemma can_view_runs self channel w :
  self_known self → can_view_channel self channel w = (Ok (views self w channel), w).
Proof.
  intros [u Hu]. unfold views. destruct channel as [c|c|c|c]; try done. simpl.
  rewrite !M_bind_unfold. rewrite Hu. simpl. rewrite !M_bind_unfold. unfold run_query.
  match goal with |- context[calculate_channel_permissions ?q] =>
    destruct (channel_query_bits q c) as (q1 & p & q' & _ & -> & _) end.
  { by destruct (Cache.servers self !! _), (Cache.members self !! _). }
  done.
Qed.

Lemma filter_accessible_runs self channels w :
  self_known self →
  filter_accessible_channels self channels w = (Ok (List.filter (views self w) channels), w).
Proof.
  intros Hs. induction channels as [|c channels IH]; [done|]. simpl.
  rewrite M_bind_unfold, (can_view_runs self c w Hs). rewrite M_bind_unfold, IH. simpl.
  by destruct (views self w c).
Qed.

Lemma split_channels_runs self (l : list (string * Channel.t)) w :
  self_known self →
  split_channels self l w =
    (Ok ((List.filter (λ kc, views self w kc.2) l).*1,
         (List.filter (λ kc, negb (views self w kc.2)) l).*1), w).
Proof.
  intros Hs. induction l as [|[k c] l IH]; [done|]. simpl.
  rewrite M_bind_unfold, (can_view_runs self c w Hs). rewrite M_bind_unfold, IH. simpl.
  by destruct (views self w c).
Qed.

(** ** The invariant of a connection *)

Section Invariant.
(** What is a channel's id; no such id is a topic of members. *)
Variable is_channel : string → Prop.
Hypothesis channels_plain : ∀ x, is_channel x → ¬ member_topic x.

Definition tame_server (s : Server.t) : Prop := ∀ x, x ∈ Server.channels s → is_channel x.

Definition tame_world (w : World.t) : Prop :=
  (∀ k ch, ReferenceDb.channels (World.db w) !! k = Some ch → Channel.id ch = k ∧ is_channel k) ∧
  (∀ k s, ReferenceDb.servers (World.db w) !! k = Some s → tame_server s).

Definition tame_cache (c : Cache.t) : Prop :=
  self_known c ∧
  (∀ k ch, Cache.channels c !! k = Some ch → is_channel k) ∧
  (∀ k s, Cache.servers c !! k = Some s → tame_server s).

(** The ids an event names are not taken for others. *)
Definition tame_event (e : Event.t) : Prop :=
  match e with
  | Event.ChannelCreate ch => is_channel (V0.Channel.id ch)
  | Event.ChannelUpdate id _ _ | Event.ChannelDelete id => is_channel id
  | Event.ChannelGroupJoin _ user => ¬ member_topic user
  | Event.ChannelGroupLeave id user => ¬ member_topic id ∧ ¬ member_topic user
  | Event.ServerCreate id server channels _ _ =>
      ¬ member_topic id ∧ ¬ is_channel id ∧ tame_server (V0.Server.into_db server) ∧
      (∀ ch, ch ∈ channels → is_channel (V0.Channel.id ch))
  | Event.ServerUpdate _ data clear => ∀ s, tame_server s → tame_server (update_server data clear s)
  | Event.ServerMemberLeave id _ _ | Event.ServerDelete id => ¬ member_topic id
  | Event.UserRelationship id _ => ¬ member_topic id
  | _ => True
  end.

Record good (B : gset string) (A R : string → Prop) (bot : bool) (s : State.t) : Prop := Good {
  good_pending : pending B s;
  good_within : within A R s;
  good_cache : tame_cache (State.cache s);
  good_bot : Cache.is_bot (State.cache s) = bot
}.

Context (B : gset string) (bot : bool) (w : World.t).
Implicit Types A R : string → Prop.

Definition apart A R : Prop := ∀ x, A x → R x → False.
Definition plain A R : Prop := ∀ x, A x ∨ R x → bot = true ∨ ¬ member_topic x.

Lemma insert_good A R x s :
  apart A R → A x → good B A R bot s →
  runs (insert_subscription x) s w (λ _ s', good B A R bot s' ∧ State.cache s' = State.cache s).
Proof.
  intros HAR Hx [Hp Hw Hc Hb].
  destruct (insert_pending B A R x s HAR Hx Hp Hw) as [Hp' Hw'].
  destruct (insert_subscription_cache x s) as (Hcs & _).
  exists tt, (State.insert_subscription x s). split; [done|].
  split; [|done]. split; [done..|by rewrite Hcs|by rewrite Hcs].
Qed.

Lemma remove_good A R x s :
  apart A R → R x → good B A R bot s →
  runs (remove_subscription x) s w (λ _ s', good B A R bot s' ∧ State.cache s' = State.cache s).
Proof.
  intros HAR Hx [Hp Hw Hc Hb].
  destruct (remove_pending B A R x s HAR Hx Hp Hw) as (s' & Hs' & Hp' & Hw' & Hcs & _).
  exists tt, s'. unfold remove_subscription, on_state. simpl. rewrite Hs'. split; [done|].
  split; [|done]. split; [done..|by rewrite Hcs|by rewrite Hcs].
Qed.

Lemma update_good A R f s :
  good B A R bot s → tame_cache (f (State.cache s)) →
  Cache.is_bot (f (State.cache s)) = Cache.is_bot (State.cache s) →
  runs (update_cache f) s w
    (λ _ s', good B A R bot s' ∧ State.cache s' = f (State.cache s)).
Proof.
  intros [Hp Hw Hc Hb] Ht Hbot. eexists tt, _. split; [done|]. split; [|done].
  split; [done..|by simpl; rewrite Hbot].
Qed.

Lemma good_mono A R A' R' s :
  (∀ x, A x → A' x) → (∀ x, R x → R' x) → good B A R bot s → good B A' R' bot s.
Proof. intros HA HR [Hp Hw Hc Hb]. split; try done. by eapply within_mono. Qed.

(** *** What the cache may become *)

Lemma tame_set_channels c m :
  tame_cache c → (∀ k ch, m !! k = Some ch → is_channel k) → tame_cache (Cache.set_channels c m).
Proof. by intros (Hs & _ & Hv) Hm. Qed.

Lemma tame_set_servers c m :
  tame_cache c → (∀ k s, m !! k = Some s → tame_server s) → tame_cache (Cache.set_servers c m).
Proof. by intros (Hs & Hch & _) Hm. Qed.

Lemma tame_set_members c m : tame_cache c → tame_cache (Cache.set_members c m).
Proof. by intros (Hs & Hch & Hv). Qed.

Lemma tame_set_seen_events c l : tame_cache c → tame_cache (Cache.set_seen_events c l).
Proof. by intros (Hs & Hch & Hv). Qed.

Lemma tame_insert_user c id u : tame_cache c → tame_cache (Cache.set_users c (<[id := u]> (Cache.users c))).
Proof.
  intros (Hs & Hch & Hv). split; [|done]. unfold self_known in *. simpl.
  destruct (decide (id = Cache.user_id c)) as [->|Hne];
    [rewrite lookup_insert_eq; by eexists|by rewrite lookup_insert_ne].
Qed.

Lemma tame_delete_channel c id :
  tame_cache c → tame_cache (Cache.set_channels c (delete id (Cache.channels c))).
Proof.
  intros Hc. apply tame_set_channels; [done|]. intros k ch [_ Hk]%lookup_delete_Some. by apply Hc in Hk.
Qed.

Lemma tame_insert_channel c id ch :
  tame_cache c → is_channel id → tame_cache (Cache.set_channels c (<[id := ch]> (Cache.channels c))).
Proof.
  intros Hc Hid. apply tame_set_channels; [done|].
  intros k ch' [[-> _]|[_ Hk]]%lookup_insert_Some; [done|]. by apply Hc in Hk.
Qed.

Lemma tame_alter_channel c id f :
  tame_cache c → tame_cache (Cache.set_channels c (alter f id (Cache.channels c))).
Proof.
  intros Hc. apply tame_set_channels; [done|].
  intros k ch' [(-> & ch & Hk & _)|[_ Hk]]%lookup_alter_Some; by apply Hc in Hk.
Qed.

(** *** Each operation keeps it *)

Lemma drop_good A R x s :
  apart A R → R x → good B A R bot s →
  runs (drop_channel x) s w (λ _ s', good B A R bot s').
Proof.
  intros HAR Hx Hg. eapply runs_bind; [by apply remove_good|]. intros [] s1 [Hg1 _].
  eapply runs_mono; [apply update_good; [done|apply tame_delete_channel, Hg1|done]|].
  by intros [] s2 [Hg2 _].
Qed.

Lemma take_good A R ch s :
  apart A R → A (Channel.id ch) → is_channel (Channel.id ch) → good B A R bot s →
  runs (take_channel ch) s w (λ _ s', good B A R bot s').
Proof.
  intros HAR Hx Hch Hg. eapply runs_bind.
  { apply update_good; [done|by apply tame_insert_channel; [apply Hg|]|done]. }
  intros [] s1 [Hg1 _]. eapply runs_mono; [by apply insert_good|]. by intros [] s2 [Hg2 _].
Qed.

(** Topics only leave. *)
Lemma forget_good A R id s :
  apart A R → R id → (∀ x, is_channel x → R x) → good B A R bot s →
  runs (forget_server id) s w (λ _ s', good B A R bot s').
Proof.
  intros HAR Hid HR Hg. eapply runs_bind; [by apply remove_good|]. intros [] s1 [Hg1 _].
  apply runs_get. eapply runs_bind.
  { apply update_good; [done| |done]. apply tame_set_servers; [apply Hg1|].
    intros k v [_ Hk]%lookup_delete_Some. by apply Hg1 in Hk. }
  intros [] s2 [Hg2 _]. eapply (runs_bind _ _ s2 w (λ _ s', good B A R bot s')).
  - destruct (Cache.servers (State.cache s1) !! id) as [server|] eqn:Hs; [|by apply runs_ret].
    apply runs_for_each; [done|]. intros x s3 Hx Hg3. apply drop_good; [done| |done].
    apply HR. apply Hg1 in Hs. by apply Hs.
  - intros [] s3 Hg3. eapply runs_mono; [apply update_good; [done|apply tame_set_members, Hg3|done]|].
    by intros [] s4 [Hg4 _].
Qed.

(** Fetching channels finds all of them or none. *)
Lemma fetch_channels_runs ids s :
  runs (attempt (on_world (on_channels (ChannelsTable.fetch_channels ids)))) s w (λ r s', s' = s ∧
    match r with
    | Some chs => Forall2 (λ id ch, ReferenceDb.channels (World.db w) !! id = Some ch) ids chs
    | None => ∃ id, id ∈ ids ∧ ReferenceDb.channels (World.db w) !! id = None
    end).
Proof.
  set (db := ReferenceDb.channels (World.db w)).
  assert (∃ r, on_channels (ChannelsTable.fetch_channels ids) w = (r, w) ∧
            r = collect (λ k, ok_or (db !! k) ErrorType.NotFound) ids) as (r & Hr & Hc).
  { eexists. split; [|done]. unfold on_channels, on_table, ChannelsTable.fetch_channels,
      table_fetch_all. simpl. by destruct w as [[]]. }
  assert (r ≠ Panicked) as Hne.
  { intros ->. clear Hr. induction ids as [|k ids IH]; [done|]. simpl in Hc.
    destruct (db !! k) as [x|]; simpl in Hc; [|done].
    destruct (collect _ ids) as [l|e'|] eqn:Hl; simplify_eq/=. }
  symmetry in Hc. eapply runs_attempt; [exact Hr|done|split; [done|]]. clear Hr.
  destruct r as [chs|e|]; [..|done].
  - apply collect_Ok_iff in Hc. eapply Forall2_impl; [exact Hc|]. intros k ch Hk. simpl in Hk.
    destruct (db !! k) as [x|] eqn:Hx; simplify_eq/=; done.
  - induction ids as [|k ids IH]; [done|]. simpl in Hc.
    destruct (db !! k) as [x|] eqn:Hx; simpl in Hc; [|exists k; split; [left|done]].
    destruct (collect _ ids) as [l|e'|] eqn:Hl; simplify_eq/=.
    destruct IH as (id & Hid & Hn); [done|]. exists id. split; [by right|done].
Qed.

(** The topics recalculating a server removes *)
Definition hidden_channels (self : Cache.t) (id : string) : list string :=
  (List.filter (λ kc, negb (views self w kc.2))
     (List.filter (λ kc, bool_decide (Channel.server kc.2 = Some id))
        (hash_iter (Cache.channels self)))).*1.

Lemma hidden_channels_spec self id x :
  x ∈ hidden_channels self id ↔
    ∃ ch, Cache.channels self !! x = Some ch ∧ Channel.server ch = Some id ∧ views self w ch = false.
Proof.
  unfold hidden_channels. rewrite list_elem_of_fmap. split.
  - intros ([k ch] & -> & Hin). apply list_elem_of_In, filter_In in Hin as [Hin Hv].
    apply filter_In in Hin as [Hin Hserver]. exists ch. simpl in *.
    apply list_elem_of_In, elem_of_hash_iter in Hin. split_and!; [done| |by apply negb_true_iff].
    by apply bool_decide_eq_true in Hserver.
  - intros (ch & Hk & Hserver & Hv). exists (x, ch). split; [done|].
    apply list_elem_of_In, filter_In. simpl. split; [|by rewrite Hv].
    apply filter_In. simpl. split; [by apply list_elem_of_In, elem_of_hash_iter|].
    by apply bool_decide_eq_true.
Qed.

Lemma hidden_channels_tame self id x :
  tame_cache self → x ∈ hidden_channels self id → is_channel x.
Proof. intros (_ & Hch & _) (ch & Hk & _)%hidden_channels_spec. by apply Hch in Hk. Qed.

(** What is new is not hidden. *)
Lemma recalculate_good A id event s :
  tame_world w → good B A (λ _, False) bot s → (∀ x, A x → ¬ is_channel x) →
  runs (recalculate_server id event) s w (λ _ s',
    good B (λ x, A x ∨ is_channel x ∧ x ∉ hidden_channels (State.cache s) id)
      (λ x, x ∈ hidden_channels (State.cache s) id) bot s').
Proof.
  intros Hw Hg HA. set (self := State.cache s).
  set (A' := λ x, A x ∨ is_channel x ∧ x ∉ hidden_channels self id).
  set (R := λ x, x ∈ hidden_channels self id).
  assert (apart A' R) as HAR.
  { intros x [Hx|[_ Hx]] Hr; [|done]. apply (HA x Hx). eapply hidden_channels_tame; [apply Hg|done]. }
  assert (good B A' R bot s) as Hg'.
  { eapply good_mono; [| |exact Hg]; [intros x Hx; by left|done]. }
  pose proof (good_cache _ _ _ _ _ Hg) as (Hself & Hch & Hsv). fold self in Hself, Hch, Hsv.
  unfold recalculate_server. apply runs_get. fold self. destruct (Cache.servers self !! id) as [server|] eqn:Hserver;
    [|by apply runs_ret].
  set (ours := List.filter _ (hash_iter (Cache.channels self))).
  assert (∀ k ch, (k, ch) ∈ ours → Cache.channels self !! k = Some ch) as Hours.
  { intros k ch Hin. apply list_elem_of_In, filter_In in Hin as [Hin _].
    by apply list_elem_of_In, elem_of_hash_iter in Hin. }
  eapply runs_read; [by apply split_channels_runs|]. cbn [fst snd].
  eapply runs_bind; [apply (runs_for_each _ _ (good B A' R bot)); [done|]|].
  { intros x s1 Hx Hg1. eapply runs_mono; [apply insert_good; [done| |done]|by intros [] s2 [Hg2 _]].
    apply list_elem_of_fmap in Hx as ([k ch] & -> & Hin).
    apply list_elem_of_In, filter_In in Hin as [Hin Hv]. simpl in Hv.
    apply list_elem_of_In, Hours in Hin. right. split; [by apply Hch in Hin|].
    intros (ch' & Hk & _ & Hv')%hidden_channels_spec. simpl in Hk. congruence. }
  intros [] s1 Hg1. eapply runs_bind; [apply (runs_for_each _ _ (good B A' R bot)); [done|]|].
  { intros x s2 Hx Hg2. by apply drop_good. }
  intros [] s2 Hg2.
  set (unknowns := difference _ _).
  eapply (runs_bind _ _ s2 w (λ _, good B A' R bot)); [|by intros ? s3 Hg3; apply runs_ret].
  case_bool_decide; [by apply runs_ret|].
  eapply runs_bind; [apply fetch_channels_runs|]. intros [chs|] s3 [-> Hf]; [|by apply runs_ret].
  apply runs_get. eapply runs_read; [apply filter_accessible_runs, Hg2|].
  eapply (runs_bind _ _ s2 w (λ _, good B A' R bot)); [|by intros [] s3 Hg3; apply runs_ret].
  apply runs_for_each; [done|]. intros ch s3 Hin Hg3.
  apply list_elem_of_In, filter_In in Hin as [Hin _]. apply list_elem_of_In in Hin.
  apply list_elem_of_lookup in Hin as [i Hi].
  destruct (Forall2_lookup_r _ _ _ _ _ Hf Hi) as (k & Hk & Hdb).
  destruct Hw as [Hw _]. apply Hw in Hdb as [<- Hc].
  apply take_good; [done| |done..]. right. split; [done|].
  intros (ch' & Hk' & Hs' & _)%hidden_channels_spec.
  apply list_elem_of_lookup_2 in Hk. unfold unknowns, difference in Hk.
  apply hash_set_iter_spec, elem_of_difference in Hk as [_ Hk]. apply Hk.
  apply elem_of_list_to_set, list_elem_of_fmap. exists (Channel.id ch, ch'). split; [done|].
  apply list_elem_of_In, filter_In. split; [by apply list_elem_of_In, elem_of_hash_iter|].
  by apply bool_decide_eq_true.
Qed.

(** *** Each event keeps it *)

Definition settled (s : State.t) : Prop := good B (λ _, False) (λ _, False) bot s.

Definition none : string → Prop := λ _, False.

Lemma apart_none_l R : apart none R.
Proof. by intros x []. Qed.
Lemma apart_none_r A : apart A none.
Proof. by intros x ? []. Qed.
Local Hint Resolve apart_none_l apart_none_r : core.

(** What following an event leaves to do fits what is pending. *)
Definition follows (r : option (Queue.t * Event.t)) (s : State.t) : Prop :=
  match r with
  | None => settled s
  | Some (q, _) =>
      ∃ A R, apart A R ∧ plain A R ∧ good B A R bot s ∧
        (∀ x, Queue.add q = Some x → A x) ∧ (∀ x, Queue.remove q = Some x → R x) ∧
        (is_Some (Queue.server q) → (∀ x, A x → ¬ is_channel x) ∧ (∀ x, ¬ R x) ∧
           Queue.add q = None ∧ Queue.remove q = None)
  end.

Lemma settled_good A R s : settled s → good B A R bot s.
Proof. by apply good_mono. Qed.

Lemma follows_settled q event s :
  Queue.add q = None → Queue.remove q = None → settled s → follows (Some (q, event)) s.
Proof.
  intros Ha Hr Hs. exists none, none. split_and!; [done| |done|by intros x; rewrite Ha|by intros x; rewrite Hr|].
  2: { intros _. split_and!; [by intros x []|by intros x []|done..]. }
  by intros x [].
Qed.

Lemma follows_add x event s :
  ¬ member_topic x → good B (eq x) none bot s → follows (Some (nothing, event)) s.
Proof.
  intros Hx Hs. exists (eq x), none. split_and!; try done.
  - intros y [<-|[]]. by right.
  - by intros [].
Qed.

Lemma follows_remove x event s :
  ¬ member_topic x → good B none (eq x) bot s → follows (Some (nothing, event)) s.
Proof.
  intros Hx Hs. exists none, (eq x). split_and!; try done.
  - intros y [[]|<-]. by right.
  - by intros [].
Qed.

Lemma update_settled f s :
  settled s → tame_cache (f (State.cache s)) →
  Cache.is_bot (f (State.cache s)) = Cache.is_bot (State.cache s) →
  runs (update_cache f) s w (λ _ s', settled s' ∧ State.cache s' = f (State.cache s)).
Proof. intros Hs Ht Hb. by apply update_good. Qed.

Lemma add_settled x event s :
  ¬ member_topic x → settled s →
  runs (insert_subscription x ;; mret (Some (nothing, event))) s w follows.
Proof.
  intros Hx Hs. eapply runs_bind; [apply (insert_good (eq x) none); [done|done|by apply settled_good]|].
  intros [] s1 [Hs1 _]. apply runs_ret. by eapply follows_add.
Qed.

Lemma remove_settled x event s :
  ¬ member_topic x → settled s →
  runs (remove_subscription x ;; mret (Some (nothing, event))) s w follows.
Proof.
  intros Hx Hs. eapply runs_bind; [apply (remove_good none (eq x)); [done|done|by apply settled_good]|].
  intros [] s1 [Hs1 _]. apply runs_ret. by eapply follows_remove.
Qed.

Lemma forget_settled id event s :
  ¬ member_topic id → settled s →
  runs (forget_server id ;; mret (Some (nothing, event))) s w follows.
Proof.
  intros Hid Hs. eapply runs_bind.
  { apply (forget_good none (λ x, x = id ∨ is_channel x)); [done|by left|by right|].
    by apply settled_good. }
  intros [] s1 Hs1. apply runs_ret. exists none, (λ x, x = id ∨ is_channel x). split_and!; try done.
  - intros x [[]|[->|Hx]]; right; [done|by apply channels_plain].
  - by intros [].
Qed.

Lemma channel_created_settled channel event s :
  is_channel (V0.Channel.id channel) → settled s →
  runs (channel_created channel ;; mret (Some (nothing, event))) s w follows.
Proof.
  intros Hc Hs. eapply (runs_bind _ _ s w (λ _, good B (eq (V0.Channel.id channel)) none bot)).
  - eapply runs_bind.
    { apply (insert_good (eq (V0.Channel.id channel)) none); [done|done|by apply settled_good]. }
    intros [] s1 [Hs1 _]. eapply runs_mono; [apply update_good; [done| |done]|by intros [] s2 [Hs2 _]].
    apply tame_insert_channel; [apply Hs1|done].
  - intros [] s1 Hs1. apply runs_ret. eapply follows_add; [by apply channels_plain|done].
Qed.

Lemma channel_updated_settled id data clear event s :
  is_channel id → settled s →
  runs (r ← channel_updated id data clear event; mret (Some r)) s w follows.
Proof.
  intros Hid Hs.
  assert (∀ s', settled s' → ∀ add remove event', (add = None ∨ remove = None) →
            (∀ x, add = Some x → x = id) → (∀ x, remove = Some x → x = id) →
            follows (Some (Queue.mk None add remove, event')) s') as Hfin.
  { intros s' Hs' add remove event' Hor Ha Hr.
    exists (λ x, add = Some x), (λ x, remove = Some x). split_and!; try done.
    - intros x Hx Hx'. destruct Hor; congruence.
    - intros x [Hx|Hx]; right; [apply Ha in Hx as ->|apply Hr in Hx as ->];
        by apply channels_plain.
    - by apply settled_good.
    - by intros []. }
  eapply (runs_bind _ _ s w (λ r s', follows (Some r) s')); [|intros r s1 Hr; by apply runs_ret].
  unfold channel_updated. apply runs_get.
  set (self := State.cache s). assert (self_known self) as Hself by apply Hs.
  eapply (runs_bind _ _ s w (λ _ s', s' = s)).
  { destruct (Cache.channels self !! id) as [ch|]; [|by apply runs_ret].
    eapply runs_world; [by apply can_view_runs|done]. }
  intros could s1 ->. eapply runs_bind.
  { apply update_settled; [done|apply tame_alter_channel, Hs|done]. }
  intros [] s1 [Hs1 _]. eapply (runs_bind _ _ s1 w (λ _, settled)).
  { case_bool_decide; [by apply runs_ret|].
    eapply (runs_bind _ _ s1 w (λ _ s', s' = s1)).
    { destruct (ReferenceDb.channels (World.db w) !! id) as [ch|] eqn:Hch.
      - apply (runs_attempt _ (Ok ch)); [|done|done].
        unfold on_channels, on_table, ChannelsTable.fetch_channel, table_fetch. simpl.
        rewrite Hch. by destruct w as [[]].
      - apply (runs_attempt _ (Err ErrorType.NotFound)); [|done|done].
        unfold on_channels, on_table, ChannelsTable.fetch_channel, table_fetch. simpl.
        rewrite Hch. by destruct w as [[]]. }
    intros [ch|] s2 ->; [|by apply runs_ret]. eapply runs_mono.
    { apply update_settled; [done|apply tame_insert_channel; [apply Hs1|done]|done]. }
    by intros [] s3 [Hs3 _]. }
  intros [] s2 Hs2. apply runs_get.
  destruct (Cache.channels (State.cache s2) !! id) as [ch|].
  - eapply runs_read; [apply can_view_runs, Hs2|].
    case_bool_decide; [apply runs_ret, Hfin; naive_solver|].
    destruct (views _ _ _); apply runs_ret, Hfin; naive_solver.
  - apply runs_ret, Hfin; naive_solver.
Qed.

Lemma server_created_settled id server channels event s :
  ¬ member_topic id → ¬ is_channel id → tame_server (V0.Server.into_db server) →
  (∀ ch, ch ∈ channels → is_channel (V0.Channel.id ch)) → settled s →
  runs (server_created id server channels ;; mret (Some (queue_server id, event))) s w follows.
Proof.
  intros Hid Hnc Hsv Hchs Hs.
  set (A := λ x, x = id ∨ bot = true ∧ x = id +:+ "u").
  eapply (runs_bind _ _ s w (λ _, good B A none bot)).
  - eapply runs_bind; [apply (insert_good A none); [done|by left|by apply settled_good]|].
    intros [] s1 [Hs1 _]. apply runs_get.
    eapply (runs_bind _ _ s1 w (λ _, good B A none bot)).
    { destruct (Cache.is_bot (State.cache s1)) eqn:Hb; [|by apply runs_ret].
      eapply runs_mono; [apply (insert_good A none); [done| |done]|by intros [] s2 [Hs2 _]].
      right. split; [|done]. by rewrite <- (good_bot _ _ _ _ _ Hs1). }
    intros [] s2 Hs2. eapply runs_read; [done|]. eapply runs_bind.
    { apply update_good; [done| |done]. apply tame_set_servers; [apply Hs2|].
      intros k sv [[_ <-]|[_ Hk]]%lookup_insert_Some; [done|]. by apply Hs2 in Hk. }
    intros [] s3 [Hs3 _]. eapply runs_bind.
    { apply update_good; [done| |done]. apply tame_set_members, Hs3. }
    intros [] s4 [Hs4 _].
    eapply runs_mono; [apply update_good; [done|apply tame_set_channels; [apply Hs4|]|done]|
      by intros [] s5 [Hs5 _]].
    assert (∀ k ch, Cache.channels (State.cache s4) !! k = Some ch → is_channel k) as Hm
      by apply Hs4.
    revert Hm. generalize (Cache.channels (State.cache s4)). clear -Hchs.
    induction channels as [|c channels IH]; intros m Hm; simpl; [done|]. apply IH.
    + intros ch Hch. apply Hchs. by right.
    + intros k ch [[<- _]|[_ Hk]]%lookup_insert_Some; [apply Hchs; left|by eapply Hm].
  - intros [] s1 Hs1. apply runs_ret. exists A, none. split_and!; try done.
    + intros x [[->|[Hb _]]|[]]; [by right|by left].
    + intros _. split_and!; [|by intros x []|done|done].
      intros x [->|[_ ->]]; [done|]. intros Hx%channels_plain. apply Hx. by exists id.
Qed.

Lemma member_updated_settled id data clear event s :
  settled s → runs (q ← member_updated id data clear; mret (Some (q, event))) s w follows.
Proof.
  intros Hs. unfold member_updated.
  apply (runs_bind _ _ s w (λ q s', Queue.add q = None ∧ Queue.remove q = None ∧ settled s'));
    [|intros q s1 (Ha & Hr & Hs1); apply runs_ret; by apply follows_settled].
  apply runs_get. case_bool_decide; [|by apply runs_ret]. eapply runs_bind.
  { apply update_settled; [done|apply tame_set_members, Hs|done]. }
  intros [] s1 [Hs1 _]. apply runs_ret.
  by destruct (bool_decide (is_Some (V0.PartialMember.roles data)) || _).
Qed.

Lemma roles_updated_settled (f : Server.t → Server.t) id (queue : Cache.t → Queue.t) event s :
  (∀ sv, Server.channels (f sv) = Server.channels sv) →
  (∀ c, Queue.add (queue c) = None ∧ Queue.remove (queue c) = None) → settled s →
  runs (q ← (update_cache (λ c, Cache.set_servers c (alter f id (Cache.servers c))) ;;
             self ← cached (λ c, c); mret (queue self)); mret (Some (q, event))) s w follows.
Proof.
  intros Hf Hq Hs.
  apply (runs_bind _ _ s w (λ q s', Queue.add q = None ∧ Queue.remove q = None ∧ settled s'));
    [|intros q s1 (Ha & Hr & Hs1); apply runs_ret; by apply follows_settled].
  eapply runs_bind.
  { apply update_settled; [done| |done]. apply tame_set_servers; [apply Hs|].
    intros k sv [(-> & sv' & Hk & ->)|[_ Hk]]%lookup_alter_Some; apply Hs in Hk; [|done].
    unfold tame_server. by rewrite Hf. }
  intros [] s1 [Hs1 _]. apply runs_get. apply runs_ret. split_and!; [apply Hq..|done].
Qed.

Lemma relationship_settled id user event s :
  ¬ member_topic id → settled s →
  runs (relationship_changed id user ;; mret (Some (nothing, event))) s w follows.
Proof.
  intros Hid Hs. unfold relationship_changed.
  eapply (runs_bind _ _ s w (λ _ s', follows (Some (nothing, event)) s'));
    [|intros [] s1 Hs1; by apply runs_ret].
  eapply runs_bind; [apply update_settled; [done|apply tame_insert_user, Hs|done]|].
  intros [] s1 [Hs1 _]. apply runs_get. destruct (Cache.can_subscribe_to_user _ _).
  - eapply runs_mono; [apply (insert_good (eq id) none); [done|done|by apply settled_good]|].
    intros [] s2 [Hs2 _]. by eapply follows_add.
  - eapply runs_mono; [apply (remove_good none (eq id)); [done|done|by apply settled_good]|].
    intros [] s2 [Hs2 _]. by eapply follows_remove.
Qed.

Lemma if_has_role_queue self id role_id :
  Queue.add (if_has_role self id role_id) = None ∧ Queue.remove (if_has_role self id role_id) = None.
Proof.
  unfold if_has_role. destruct (Cache.members self !! id); [|done]. by case_bool_decide.
Qed.

Lemma follow_settled event s :
  tame_event event → settled s → runs (follow_event event) s w follows.
Proof.
  intros He Hs. destruct event; simpl in He; cbn [follow_event];
    try (apply runs_ret; by apply follows_settled).
  - (* Message *)
    apply (runs_bind _ _ s w (λ _, settled));
      [|intros event s1 Hs1; apply runs_ret; by apply follows_settled].
    unfold message_received. destruct (V0.Message.user message); [|by apply runs_ret].
    apply runs_get. destruct (good_cache _ _ _ _ _ Hs) as ((u & Hu) & _).
    eapply runs_read; [by rewrite Hu|]. by apply runs_ret.
  - (* ServerCreate *) destruct He as (Hid & Hnc & Hsv & Hchs). by apply server_created_settled.
  - (* ServerUpdate *)
    eapply runs_bind.
    { apply update_settled; [done| |done]. apply tame_set_servers; [apply Hs|].
      intros k sv [(-> & sv' & Hk & ->)|[_ Hk]]%lookup_alter_Some; apply Hs in Hk; [|done].
      by apply He. }
    intros [] s1 [Hs1 _]. apply runs_ret. by case_bool_decide; apply follows_settled.
  - (* ServerDelete *) by apply forget_settled.
  - (* ServerMemberUpdate *) by apply member_updated_settled.
  - (* ServerMemberLeave *)
    apply runs_get. case_bool_decide; [by apply forget_settled|].
    apply runs_ret. by apply follows_settled.
  - (* ServerRoleUpdate *)
    apply (roles_updated_settled (λ server, Server.set_roles server
              (alter (update_role data clear) role_id (Server.roles server))) id
             (λ self, if bool_decide (is_Some (V0.PartialRole.rank data)) ||
                bool_decide (is_Some (V0.PartialRole.permissions data))
                then if_has_role self id role_id else nothing)); [done| |done].
    intros c. destruct (bool_decide _ || _); [apply if_has_role_queue|done].
  - (* ServerRoleDelete *)
    apply (roles_updated_settled (λ server, Server.set_roles server
              (delete role_id (Server.roles server))) id (λ self, if_has_role self id role_id));
      [done| |done]. intros c. apply if_has_role_queue.
  - (* UserUpdate *)
    apply runs_get. destruct event_id as [event_id|]; [|by apply runs_ret, follows_settled].
    destruct (seen_contains _ _); [by apply runs_ret|].
    eapply runs_bind; [apply update_settled; [done|apply tame_set_seen_events, Hs|done]|].
    intros [] s1 [Hs1 _]. by apply runs_ret, follows_settled.
  - (* UserRelationship *) by apply relationship_settled.
  - (* ChannelCreate *) by apply channel_created_settled.
  - (* ChannelUpdate *) by apply channel_updated_settled.
  - (* ChannelDelete *)
    pose proof (channels_plain _ He) as Hp. eapply runs_bind.
    { apply (drop_good none (eq id)); [done|done|by apply settled_good]. }
    intros [] s1 Hs1. apply runs_ret. by eapply follows_remove.
  - (* ChannelGroupJoin *) by apply add_settled.
  - (* ChannelGroupLeave *)
    destruct He as [Hid Huser]. unfold group_left.
    eapply (runs_bind _ _ s w (λ _ s', follows (Some (nothing, Event.ChannelGroupLeave id user)) s'));
      [|intros [] s1 Hs1; by apply runs_ret].
    apply runs_get. case_bool_decide; [|destruct (Cache.can_subscribe_to_user _ _)].
    + eapply runs_mono; [apply (remove_good none (eq id)); [done|done|by apply settled_good]|].
      intros [] s2 [Hs2 _]. by apply (follows_remove id).
    + apply runs_ret. by apply follows_settled.
    + eapply runs_mono; [apply (remove_good none (eq user)); [done|done|by apply settled_good]|].
      intros [] s2 [Hs2 _]. by apply (follows_remove user).
Qed.

(** Handling an event succeeds, and what is then pending can be applied in any order. *)
Lemma handle_settled event s :
  tame_world w → tame_event event → settled s →
  runs (handle_incoming_event_v1 event) s w (λ _ s', ∃ A R,
    apart A R ∧ plain A R ∧ good B A R bot s').
Proof.
  intros Hw He Hs. unfold handle_incoming_event_v1.
  eapply runs_bind; [by apply follow_settled|]. intros [[q event']|] s1 Hf.
  2: { apply runs_ret. exists none, none. split_and!; [done| |exact Hf]. by intros x [[]|[]]. }
  destruct Hf as (A & R & HAR & Hp & Hg & Ha & Hr & Hq).
  assert (∃ A R, apart A R ∧ plain A R ∧ (∀ x, Queue.add q = Some x → A x) ∧
            (∀ x, Queue.remove q = Some x → R x) ∧
            runs (match Queue.server q with
                  | Some server_id => recalculate_server server_id event'
                  | None => mret event'
                  end) s1 w (λ _, good B A R bot)) as (A' & R' & HAR' & Hp' & Ha' & Hr' & Hrun).
  { destruct (Queue.server q) as [id|].
    - destruct Hq as (HnA & HnR & Hna & Hnr); [done|].
      exists (λ x, A x ∨ is_channel x ∧ x ∉ hidden_channels (State.cache s1) id),
        (λ x, x ∈ hidden_channels (State.cache s1) id). split_and!.
      + intros x [Hx|[_ Hx]] Hh; [|done]. apply (HnA x Hx).
        eapply hidden_channels_tame; [apply Hg|done].
      + intros x [[Hx|[Hx _]]|Hx]; [apply Hp; by left|right; by apply channels_plain|].
        right. apply channels_plain. eapply hidden_channels_tame; [apply Hg|done].
      + intros x Hx. congruence.
      + intros x Hx. congruence.
      + apply recalculate_good; [done| |done]. eapply good_mono; [| |exact Hg]; [done|].
        intros x Hx. by apply (HnR x).
    - exists A, R. split_and!; [done..|]. by apply runs_ret. }
  eapply runs_bind; [exact Hrun|]. intros event2 s2 Hg2.
  apply (runs_bind _ _ s2 w (λ _, good B A' R' bot)).
  { destruct (Queue.add q) as [x|]; [|by apply runs_ret].
    eapply runs_mono; [apply (insert_good A' R'); [done|by apply Ha'|done]|by intros [] s3 [Hs3 _]]. }
  intros [] s3 Hg3. apply (runs_bind _ _ s3 w (λ _, good B A' R' bot)).
  { destruct (Queue.remove q) as [x|]; [|by apply runs_ret].
    eapply runs_mono; [apply (remove_good A' R'); [done|by apply Hr'|done]|by intros [] s4 [Hs4 _]]. }
  intros [] s4 Hg4. apply runs_ret. by exists A', R'.
Qed.
End Invariant.
End Runs.
