(* ===== verification/GatewayTheorems.v ===== *)
(** * What a connection of the gateway receives

    After the Ready payload a connection subscribes to the user's own topics, to those of the
    users and servers shown, and to the channels that the permissions let the user view; in
    every reachable state the topics Redis delivers are the subscriptions of the state, and the
    loop neither fails nor panics; recalculating a server leaves exactly the channels that can
    be viewed and tells the client the difference; an update that arrives on several topics is
    sent once; ending the session closes the connection. The examples show where the copies a
    connection keeps go wrong. *)

From stdpp Require Import base list gmap strings.
From Stdlib Require Import ZArith Lia.
From S2P Require Import Prelude Errors Permissions PermissionSpec Files Users Servers Channels.
From S2P Require Import PermissionQuery Messages Unreads Config Emojis Webhooks Bots AuditLogs.
From S2P Require Import Accounts Platform World Database PermissionTheorems Relationships.
From S2P Require Import ChannelOps ServerOps References Authors Bridge Redis Voice Gateway.
From S2P Require Import Subscriptions.

(** ** The Ready payload *)

Section Ready.
Context `{Environment, MutualIds, HashIter, SeenEvents, TimedCache}.
Context `{Redis, RedisCommands}.
Context `{OptionalStruct Server.t PartialServer.t, OptionalStruct Role.t PartialRole.t}.
Context `{OptionalStruct Member.t PartialMember.t}.

(** Whether the permissions let the user see a channel *)
Definition sees (user : User.t) (w : World.t) (channel : Channel.t) : bool :=
  match channel with
  | Channel.TextChannel _ =>
      match (channel_permissions user channel w).1 with
      | Ok permissions =>
          PermissionValue.has_channel_permission permissions ChannelPermission.ViewChannel
      | _ => false
      end
  | _ => true
  end.

(** For a channel of a server, that is bit 20 of the value told from what is stored. *)
Definition sees_as_stored (user : User.t) (w : World.t) : Prop :=
  ∀ c, ∃ p, stored_permissions (World.db w) (World.now w) user c p ∧
    sees user w (Channel.TextChannel c) = Z.testbit (PermissionValue.into_raw p) 20.
Lemma sees_stored user w : sees_as_stored user w.
Proof.
  intros c. destruct (channel_permissions_stored user c w) as (p & Hrun & _ & Hp). exists p. split; [done|].
  unfold sees. rewrite Hrun. simpl. by rewrite has_flag by done.
Qed.

(** The channels that are a user's own: direct messages and groups of the user, and the notes *)
Definition takes_part (user_id : string) (channel : Channel.t) : Prop :=
  match channel with
  | Channel.TextChannel _ => False
  | Channel.DirectMessage c => user_id ∈ DirectMessage.recipients c
  | Channel.Group c => user_id ∈ Group.recipients c
  | Channel.SavedMessages c => SavedMessages.user c = user_id
  end.

(** Whether a channel of the database is one to show to the user *)
Definition shown_to (user : User.t) (w : World.t) (channel : Channel.t) : Prop :=
  (∃ k, ReferenceDb.channels (World.db w) !! k = Some channel) ∧
  match channel with
  | Channel.TextChannel c =>
      ∃ p, stored_permissions (World.db w) (World.now w) user c p ∧
        Z.testbit (PermissionValue.into_raw p) 20 = true
  | _ => takes_part (User.id user) channel
  end.

Lemma contains_takes_part user_id channel :
  Channel.contains_user channel user_id = true ↔ takes_part user_id channel.
Proof.
  assert (∀ l, existsb (λ r, bool_decide (r = user_id)) l = true ↔ user_id ∈ l) as Hex.
  { intros l. rewrite existsb_exists. split.
    - intros (x & Hx & ->%bool_decide_eq_true). by apply list_elem_of_In.
    - intros Hx. exists user_id. split; [by apply list_elem_of_In|by apply bool_decide_eq_true]. }
  destruct channel as [c|c|c|c]; simpl; [by rewrite bool_decide_eq_true|apply Hex|apply Hex|done].
Qed.
Lemma direct_iff user_id direct w ch :
  on_channels (ChannelsTable.find_direct_messages user_id) w = (Ok direct, w) →
  ch ∈ direct ↔ (∃ k, ReferenceDb.channels (World.db w) !! k = Some ch) ∧ takes_part user_id ch.
Proof.
  intros Hf. unfold on_channels, on_table, ChannelsTable.find_direct_messages, table_select in Hf.
  simpl in Hf. injection Hf as <- _.
  by rewrite list_elem_of_In, filter_In, <- list_elem_of_In, elem_of_hash_values, contains_takes_part.
Qed.

Lemma fetched_by_id ids fetched w ch :
  on_channels (ChannelsTable.fetch_channels ids) w = (Ok fetched, w) → ch ∈ fetched →
  ∃ id, id ∈ ids ∧ ReferenceDb.channels (World.db w) !! id = Some ch.
Proof.
  intros Hf Hin. unfold on_channels, on_table, ChannelsTable.fetch_channels, table_fetch_all in Hf.
  simpl in Hf. injection Hf as Hf _. apply collect_Ok_iff in Hf.
  apply list_elem_of_lookup in Hin as [i Hi].
  destruct (Forall2_lookup_r _ _ _ _ _ Hf Hi) as (id & Hid & Hok). exists id.
  split; [by eapply list_elem_of_lookup_2|]. by destruct (_ !! id); simplify_eq/=.
Qed.

(** The servers of the cache are those of the database. *)
Definition servers_agree (self : Cache.t) (w : World.t) : Prop :=
  ∀ k s, Cache.servers self !! k = Some s →
    Server.id s = k ∧ ReferenceDb.servers (World.db w) !! k = Some s.

(** The copies of a connection answer as the database does, while they agree with it. *)
Lemma views_sees self user w channel :
  Cache.users self !! Cache.user_id self = Some user →
  Cache.members self = ∅ → servers_agree self w →
  views self w channel = sees user w channel.
Proof.
  intros Hu Hm Hs. unfold views, sees. destruct channel as [c|c|c|c]; try done. simpl.
  rewrite !M_bind_unfold, Hu, Hm, lookup_empty. simpl. rewrite !M_bind_unfold.
  unfold channel_permissions, run_query. cbn [fst].
  set (q := DatabasePermissionQuery.with_channel _ _).
  destruct (Cache.servers self !! TextChannel.server c) as [s|] eqn:Hserver.
  2: { by destruct (infallible _). }
  destruct (Hs _ _ Hserver) as [Hid Hdb].
  destruct (channel_query_bits q c eq_refl) as (q1 & p1 & q1' & Hq1 & Hc1 & Hwf1 & Hv1).
  set (q2 := DatabasePermissionQuery.with_server q (Some s)).
  destruct (channel_query_bits q2 c eq_refl) as (q3 & p2 & q2' & Hq2 & Hc2 & Hwf2 & Hv2).
  rewrite Hc1, Hc2. simpl.
  assert (q1 = q3) as ->.
  { rewrite (server_from_channel_known q2 c s) in Hq2 by done. injection Hq2 as <-.
    unfold DatabasePermissionQuery.server_from_channel in Hq1.
    rewrite M_bind_unfold in Hq1. simpl in Hq1. rewrite Hdb in Hq1. simpl in Hq1.
    by injection Hq1 as <-. }
  by rewrite (value_matches_unique p1 p2 _ Hwf1 Hwf2 Hv1 Hv2).
Qed.

(** Operations that change neither the state of the connection nor the database *)
Definition quiet {A} (m : M ErrorType.t (State.t * World.t) A) : Prop :=
  ∀ s w, (m (s, w)).2.1 = s ∧ World.db (m (s, w)).2.2 = World.db w.

Lemma quiet_world {A} (m : H A) : keeps World.db m → quiet (on_world m).
Proof. intros Hm s w. specialize (Hm w). unfold on_world. simpl. by destruct (m w). Qed.
Lemma quiet_bind {A B} (m : M ErrorType.t (State.t * World.t) A)
    (k : A → M ErrorType.t (State.t * World.t) B) :
  quiet m → (∀ a, quiet (k a)) → quiet (m ≫= k).
Proof.
  intros Hm Hk s w. rewrite M_bind_unfold. destruct (Hm s w) as [Hst Hdb].
  destruct (m (s, w)) as [[a| |] [s1 w1]]; simpl in *; subst; [|done..].
  rewrite <- Hdb. apply Hk.
Qed.
Lemma quiet_ret {A} (a : A) : quiet (mret a).
Proof. done. Qed.
Lemma quiet_if {A} (b : bool) (m1 m2 : M ErrorType.t (State.t * World.t) A) :
  quiet m1 → quiet m2 → quiet (if b then m1 else m2).
Proof. by destruct b. Qed.

Lemma bind_step_inv {A B} (m : M ErrorType.t (State.t * World.t) A)
    (k : A → M ErrorType.t (State.t * World.t) B) s w b sw :
  (m ≫= k) (s, w) = (Ok b, sw) → ∃ a s1 w1, m (s, w) = (Ok a, (s1, w1)) ∧ k a (s1, w1) = (Ok b, sw).
Proof.
  rewrite M_bind_unfold. destruct (m (s, w)) as [[a| |] [s1 w1]]; [|done..]. by exists a, s1, w1.
Qed.
Lemma quiet_inv {A B} (m : M ErrorType.t (State.t * World.t) A)
    (k : A → M ErrorType.t (State.t * World.t) B) s w b sw :
  (m ≫= k) (s, w) = (Ok b, sw) → quiet m →
  ∃ a w1, m (s, w) = (Ok a, (s, w1)) ∧ World.db w1 = World.db w ∧ k a (s, w1) = (Ok b, sw).
Proof.
  intros (a & s1 & w1 & Hm & Hk)%bind_step_inv Hq. destruct (Hq s w) as [Hst Hdb].
  rewrite Hm in Hst, Hdb. simpl in *. subst s1. by exists a, w1.
Qed.
Lemma read_inv {A B} (m : H A) (k : A → M ErrorType.t (State.t * World.t) B) s w b sw :
  (on_world m ≫= k) (s, w) = (Ok b, sw) → reads m →
  ∃ a, m w = (Ok a, w) ∧ k a (s, w) = (Ok b, sw).
Proof.
  intros (a & s1 & w1 & Hm & Hk)%bind_step_inv Hq. unfold on_world in Hm. simpl in Hm.
  specialize (Hq w). destruct (m w) as [r w2]. simpl in Hq. subst w2.
  injection Hm as -> <- <-. by exists a.
Qed.

Lemma list_bind_singletons {A B} (f : A → B) (l : list A) : (l ≫= λ x, [f x]) = f <$> l.
Proof. induction l as [|x l IH]; [done|]. simpl. by f_equal. Qed.

(** Two results that differ in how the topics are written *)
Ltac same_topics :=
  unfold State.set_subscribed, mret, M_ret; simpl;
  match goal with
  | |- (_, (State.mk _ _ _ _ ?a _, _)) = (_, (State.mk _ _ _ _ ?b _, _)) =>
      let E := fresh in assert (a = b) as E; [|by rewrite E]
  end; apply set_eq; intros ?; rewrite ?list_to_set_app_L, ?bind_app; set_solver.

Lemma reset_pending x s :
  State.state s = SubscriptionStateChange.Reset →
  State.insert_subscription x s = State.set_subscribed s ({[x]} ∪ State.subscribed s).
Proof.
  intros Hs. unfold State.insert_subscription. rewrite Hs. case_bool_decide; [|done].
  destruct s as [c i t st su a]. unfold State.set_subscribed. simpl in *. f_equal. set_solver.
Qed.

(** Subscribing to a list of things, while everything is to be subscribed to anew *)
Lemma subscribe_all {A} (key : A → list string) (l : list A)
    (body : A → M ErrorType.t (State.t * World.t) unit) s w :
  State.state s = SubscriptionStateChange.Reset →
  (∀ x s, State.state s = SubscriptionStateChange.Reset →
     body x (s, w) = (Ok tt, (State.set_subscribed s (list_to_set (key x) ∪ State.subscribed s), w))) →
  for_each l body (s, w) =
    (Ok tt, (State.set_subscribed s (list_to_set (l ≫= key) ∪ State.subscribed s), w)).
Proof.
  intros Hs Hb. revert s Hs. induction l as [|x l IH]; intros s Hs; simpl.
  - rewrite (left_id_L ∅ (∪)). by destruct s.
  - rewrite M_bind_unfold, Hb by done. rewrite IH by done. simpl.
    same_topics.
Qed.

(** The topics of a user who was shown users, servers and channels *)
Definition ready_topics (self : Cache.t) (private_topic : string) (users : list V0.User.t)
    (servers : list Server.t) (channels : list Channel.t) : gset string :=
  {[private_topic]} ∪ list_to_set (V0.User.id <$> users) ∪
  list_to_set (servers ≫= λ server, Server.id server ::
                 (if Cache.is_bot self then [Server.id server +:+ "u"] else [])) ∪
  list_to_set (Channel.id <$> channels).

Lemma reset_subscriptions_topics users servers channels s w :
  reset_subscriptions users servers channels (s, w) =
    (Ok tt, (State.set_subscribed (State.reset_state s)
       (ready_topics (State.cache s) (State.private_topic s) users servers channels), w)).
Proof.
  unfold reset_subscriptions. rewrite M_bind_unfold. simpl. rewrite M_bind_unfold. simpl.
  rewrite M_bind_unfold. unfold insert_subscription at 1, on_state at 1. simpl.
  rewrite reset_pending by done. rewrite M_bind_unfold.
  rewrite (subscribe_all (λ u, [V0.User.id u])); [|done|].
  2: { intros u s1 Hs1. unfold insert_subscription, on_state. simpl. rewrite reset_pending by done.
       by rewrite (right_id_L ∅ (∪)). }
  rewrite M_bind_unfold. simpl. rewrite M_bind_unfold.
  rewrite (subscribe_all (λ server, Server.id server ::
             (if Cache.is_bot (State.cache s) then [Server.id server +:+ "u"] else []))); [|done|].
  2: { intros u s1 Hs1. rewrite M_bind_unfold. unfold insert_subscription, on_state. simpl.
       rewrite reset_pending by done. destruct (Cache.is_bot (State.cache s)); simpl.
       - rewrite reset_pending by done. same_topics.
       - same_topics. }
  rewrite (subscribe_all (λ c, [Channel.id c])); [|done|].
  2: { intros u s1 Hs1. unfold insert_subscription, on_state. simpl. rewrite reset_pending by done.
       by rewrite (right_id_L ∅ (∪)). }
  unfold ready_topics. rewrite <- !list_bind_singletons. same_topics.
Qed.

Lemma collect_map_lookup {A} (key : A → string) (l : list A) k x :
  collect_map key l !! k = Some x → x ∈ l ∧ key x = k.
Proof.
  assert (∀ m : gmap string A, fold_left (λ m x, <[key x := x]> m) l m !! k = Some x →
            m !! k = Some x ∨ (x ∈ l ∧ key x = k)) as Hgen.
  { induction l as [|y l IH]; intros m Hk; simpl in Hk; [by left|].
    destruct (IH _ Hk) as [[[He Hx]|[_ Hx]]%lookup_insert_Some|[Hx Hkx]].
    - right. subst. split; [left|done].
    - by left.
    - right. split; [by right|done]. }
  by intros [|]%Hgen.
Qed.

Lemma fetched_servers_agree ids servers w self :
  (∀ k s, ReferenceDb.servers (World.db w) !! k = Some s → Server.id s = k) →
  on_servers (ServersTable.fetch_servers ids) w = (Ok servers, w) →
  Cache.servers self = collect_map Server.id servers → servers_agree self w.
Proof.
  intros Hkeyed Hf Hself k s Hk. rewrite Hself in Hk. apply collect_map_lookup in Hk as [Hin <-].
  split; [done|]. unfold on_servers, on_table, ServersTable.fetch_servers, table_fetch_all in Hf.
  simpl in Hf. injection Hf as Hf _. apply collect_Ok_iff in Hf.
  apply list_elem_of_lookup in Hin as [i Hi].
  destruct (Forall2_lookup_r _ _ _ _ _ Hf Hi) as (id & _ & Hid).
  destruct (ReferenceDb.servers (World.db w) !! id) as [s'|] eqn:Hs; simplify_eq/=.
  by rewrite (Hkeyed _ _ Hs).
Qed.

(** What a connection has been sent and keeps after the Ready payload *)
Definition ready_state (user : User.t) (session_id : string) (shown : list V0.User.t)
    (servers : list Server.t) (channels : list Channel.t) (s : State.t) : Prop :=
  State.state s = SubscriptionStateChange.Reset ∧
  State.session_id s = session_id ∧
  State.active_servers s = timed_empty ∧
  State.private_topic s = User.id user +:+ "!" ∧
  State.subscribed s =
    ready_topics (State.cache s) (State.private_topic s) shown servers channels ∧
  Cache.user_id (State.cache s) = User.id user ∧
  Cache.is_bot (State.cache s) = bool_decide (is_Some (User.bot user)) ∧
  Cache.users (State.cache s) !! User.id user = Some user ∧
  Cache.servers (State.cache s) = collect_map Server.id servers ∧
  Cache.channels (State.cache s) = collect_map Channel.id channels.

Lemma get_channel_voice_state_db channel : keeps World.db (get_channel_voice_state channel).
Proof.
  unfold get_channel_voice_state, get_voice_channel_members, smembers, get_voice_state.
  apply keeps_bind.
  { apply keeps_bind; [apply reads_keeps, redis_query_reads|by intros]. }
  intros [members|]; [|by apply keeps_ret]. apply keeps_bind; [|by intros].
  induction members as [|m members IH]; [by apply keeps_ret|]. simpl.
  apply keeps_bind; [apply reads_keeps, redis_query_reads|]. intros [st|].
  - apply keeps_bind; [done|by intros].
  - apply keeps_bind; [apply delete_voice_state_db|by intros].
Qed.

Lemma collect_voice_states_db channels by_server user_ids :
  keeps World.db (collect_voice_states channels by_server user_ids).
Proof.
  revert by_server user_ids. induction channels as [|c channels IH]; intros by_server user_ids;
    simpl; [by apply keeps_ret|].
  apply keeps_bind; [apply keeps_attempt, get_channel_voice_state_db|].
  intros [[[id participants]|]|]; [|apply IH..]. apply keeps_bind; [apply IH|by intros].
Qed.

Lemma fetch_voice_members_reads by_server : reads (fetch_voice_members by_server).
Proof.
  induction by_server as [|[server ids] by_server IH]; simpl; [done|].
  apply reads_bind; [unfold on_members; solve_reads|intros]. by apply reads_bind.
Qed.

Lemma ready_facts fields user session_id w ready s' w' :
  (∀ k s, ReferenceDb.servers (World.db w) !! k = Some s → Server.id s = k) →
  generate_ready_payload fields (State.from user session_id, w) = (Ok ready, (s', w')) →
  ∃ members servers direct fetched users online shown,
    on_members (MembersTable.fetch_all_memberships (User.id user)) w = (Ok members, w) ∧
    on_servers (ServersTable.fetch_servers
      ((λ m, MemberCompositeKey.server (Member.id m)) <$> members)) w = (Ok servers, w) ∧
    on_channels (ChannelsTable.find_direct_messages (User.id user)) w = (Ok direct, w) ∧
    on_channels (ChannelsTable.fetch_channels (servers ≫= Server.channels)) w = (Ok fetched, w) ∧
    (∀ u, u ∈ users → ∃ k, ReferenceDb.users (World.db w) !! k = Some u) ∧
    users_as_seen user users online = Ok shown ∧
    World.db w' = World.db w ∧
    let channels := List.filter (sees user w) (direct ++ fetched) in
    ready_state user session_id (V0.User.of_user <$> shown) servers channels s' ∧
    ∃ sent_members emojis voice_states settings unreads policies,
      ready = Event.Ready (wanted (ReadyPayloadFields.users fields) (V0.User.of_user <$> shown))
        (wanted (ReadyPayloadFields.servers fields) (V0.Server.from_db <$> servers))
        (wanted (ReadyPayloadFields.channels fields) (V0.Channel.from_db <$> channels))
        sent_members emojis voice_states settings unreads policies.
Proof.
  intros Hkeyed Hrun. unfold generate_ready_payload in Hrun.
  apply bind_step_inv in Hrun as (u & s1 & w1 & Hu & Hrun).
  unfold State.clone_user, State.from in Hu. rewrite M_bind_unfold in Hu. simpl in Hu.
  rewrite lookup_singleton_eq in Hu. injection Hu as <- <- <-.
  apply bind_step_inv in Hrun as ([] & s1 & w1 & Hu & Hrun). injection Hu as <- <-.
  apply read_inv in Hrun as (policies & _ & Hrun);
    [|unfold pending_policy_changes, on_policy_changes; solve_reads].
  apply read_inv in Hrun as (members & Hmembers & Hrun); [|unfold on_members; solve_reads].
  apply read_inv in Hrun as (servers & Hservers & Hrun); [|unfold on_servers; solve_reads].
  apply bind_step_inv in Hrun as ([] & s1 & w1 & Hu & Hrun). injection Hu as <- <-.
  apply read_inv in Hrun as (direct & Hdirect & Hrun); [|unfold on_channels; solve_reads].
  apply read_inv in Hrun as (fetched & Hfetched & Hrun); [|unfold on_channels; solve_reads].
  apply bind_step_inv in Hrun as (self & s1 & w1 & Hu & Hrun). injection Hu as <- <- <-.
  simpl in Hrun.
  match type of Hrun with context [filter_accessible_channels ?c _] => set (self := c) in * end.
  assert (self_known self) as Hself by (unfold self_known; simpl; rewrite lookup_singleton_eq; by eexists).
  apply bind_step_inv in Hrun as (channels & s1 & w1 & Hu & Hrun).
  unfold on_world in Hu. simpl in Hu. rewrite filter_accessible_runs in Hu by done.
  injection Hu as <- <- <-.
  rewrite (List.filter_ext _ (sees user w)) in Hrun.
  2: { intros ch. apply views_sees; [simpl; by rewrite lookup_singleton_eq|done|].
       by eapply fetched_servers_agree. }
  set (channels := List.filter (sees user w) (direct ++ fetched)) in *.
  apply quiet_inv in Hrun as (voice & w1 & Hvoice & Hdb1 & Hrun).
  2: { apply quiet_if; [|apply quiet_ret]. apply quiet_bind; [|intros found].
       - apply quiet_world, collect_voice_states_db.
       - apply quiet_bind; [|by intros]. apply quiet_world, reads_keeps, fetch_voice_members_reads. }
  apply read_inv in Hrun as (users & Husers & Hrun); [|unfold on_users; solve_reads].
  apply bind_step_inv in Hrun as ([] & s1 & w2 & Hu & Hrun). injection Hu as <- <-.
  apply quiet_inv in Hrun as (emojis & w2 & _ & Hdb2 & Hrun).
  2: { apply quiet_if; [|apply quiet_ret]. apply quiet_bind; [|by intros].
       apply quiet_world, reads_keeps. unfold on_emojis. solve_reads. }
  apply quiet_inv in Hrun as (settings & w3 & _ & Hdb3 & Hrun).
  2: { apply quiet_if; [apply quiet_ret|]. apply quiet_bind; [|by intros].
       apply quiet_world, reads_keeps. unfold on_user_settings. solve_reads. }
  apply quiet_inv in Hrun as (unreads & w4 & _ & Hdb4 & Hrun).
  2: { apply quiet_if; [|apply quiet_ret]. apply quiet_bind; [|by intros].
       apply quiet_world, reads_keeps. unfold on_unreads. solve_reads. }
  apply bind_step_inv in Hrun as ([] & s1 & w5 & Hu & Hrun). injection Hu as <- <-.
  apply bind_step_inv in Hrun as ([] & s1 & w5 & Hu & Hrun). injection Hu as <- <-.
  apply bind_step_inv in Hrun as ([] & s1 & w5 & Hu & Hrun). injection Hu as <- <-.
  apply bind_step_inv in Hrun as (shown & s1 & w5 & Hu & Hrun).
  unfold lift in Hu. injection Hu as Hshown <- <-.
  rewrite M_bind_unfold, reset_subscriptions_topics in Hrun. injection Hrun as <- <- <-.
  exists members, servers, direct, fetched, users, (filter is_online voice.2), shown.
  split_and!; try done.
  - intros u Hu. unfold on_users, on_table, UsersTable.fetch_users, table_fetch_all in Husers.
    simpl in Husers. injection Husers as Husers _. apply collect_Ok_iff in Husers.
    apply list_elem_of_lookup in Hu as [i Hi].
    destruct (Forall2_lookup_r _ _ _ _ _ Husers Hi) as (id & _ & Hid). exists id.
    rewrite <- Hdb1. destruct (ReferenceDb.users (World.db w1) !! id); by simplify_eq/=.
  - congruence.
  - cbv zeta. split; [|by eexists _, _, _, _, _, _].
    unfold ready_state. simpl. split_and!; try done. apply lookup_insert_eq.
Qed.

(** C39: The Ready payload is about the database as it is: the servers are those of the user's
    memberships, the direct channels are those the user takes part in, and of these and the
    channels of those servers exactly those are sent and kept that the permissions let the user
    view, which for a channel of a server is told from what is stored. The connection is then subscribed to
    the private topic of the user, the users and servers shown, for a bot the members of those
    servers, and those channels, and to nothing else. *)
Theorem ready_shows_what_is_viewable fields user session_id w ready s w' :
  (∀ k sv, ReferenceDb.servers (World.db w) !! k = Some sv → Server.id sv = k) →
  generate_ready_payload fields (State.from user session_id, w) = (Ok ready, (s, w')) →
  ∃ members servers direct fetched channels shown,
    on_members (MembersTable.fetch_all_memberships (User.id user)) w = (Ok members, w) ∧
    on_servers (ServersTable.fetch_servers
      ((λ m, MemberCompositeKey.server (Member.id m)) <$> members)) w = (Ok servers, w) ∧
    on_channels (ChannelsTable.find_direct_messages (User.id user)) w = (Ok direct, w) ∧
    on_channels (ChannelsTable.fetch_channels (servers ≫= Server.channels)) w = (Ok fetched, w) ∧
    (∀ ch, ch ∈ direct ↔
       (∃ k, ReferenceDb.channels (World.db w) !! k = Some ch) ∧ takes_part (User.id user) ch) ∧
    sees_as_stored user w ∧
    (∀ ch, ch ∈ channels ↔ (ch ∈ direct ∨ ch ∈ fetched) ∧ sees user w ch = true) ∧
    (∃ sent_members emojis voice_states settings unreads policies,
      ready = Event.Ready (wanted (ReadyPayloadFields.users fields) shown)
        (wanted (ReadyPayloadFields.servers fields) (V0.Server.from_db <$> servers))
        (wanted (ReadyPayloadFields.channels fields) (V0.Channel.from_db <$> channels))
        sent_members emojis voice_states settings unreads policies) ∧
    Cache.channels (State.cache s) = collect_map Channel.id channels ∧
    ∀ topic, topic ∈ State.subscribed s ↔
      topic = User.id user +:+ "!" ∨ topic ∈ V0.User.id <$> shown ∨ topic ∈ Server.id <$> servers ∨
      (is_Some (User.bot user) ∧ ∃ sv, sv ∈ servers ∧ topic = Server.id sv +:+ "u") ∨
      topic ∈ Channel.id <$> channels.
Proof.
  intros Hkeyed Hrun. apply ready_facts in Hrun as (members & servers & direct & fetched & users &
    online & shown & Hm & Hs & Hd & Hf & _ & _ & _ & Hstate & Hready); [|done].
  exists members, servers, direct, fetched, (List.filter (sees user w) (direct ++ fetched)),
    (V0.User.of_user <$> shown).
  destruct Hstate as (_ & _ & _ & Hprivate & Hsub & _ & Hbot & _ & _ & Hch).
  split_and!; try done.
  - intros ch. by apply direct_iff.
  - apply sees_stored.
  - intros ch. by rewrite list_elem_of_In, filter_In, <- list_elem_of_In, elem_of_app.
  - intros topic. rewrite Hsub. unfold ready_topics. rewrite Hprivate, Hbot.
    rewrite !elem_of_union, elem_of_singleton, !elem_of_list_to_set, list_elem_of_bind.
    rewrite (list_elem_of_fmap Server.id). split.
    + intros [[[Hx|Hx]|(sv & Hx & Hin)]|Hx]; [by left|right; by left| |by do 4 right].
      apply elem_of_cons in Hx as [->|Hx]; [right; right; left; by exists sv|].
      case_bool_decide; [|by apply elem_of_nil in Hx]. apply list_elem_of_singleton in Hx as ->.
      do 3 right. left. split; [done|by exists sv].
    + intros [Hx|[Hx|[(sv & -> & Hin)|[(Hb & sv & Hin & ->)|Hx]]]].
      * by do 3 left.
      * left. left. by right.
      * left. right. exists sv. split; [left|done].
      * left. right. exists sv. split; [|done]. rewrite bool_decide_eq_true_2 by done. right. left.
      * by right.
Qed.
End Ready.

(** ** The topics that Redis delivers *)

Section Commands.
Context `{TimedCache, HashIter, Transport}.
Import Connection.

Lemma run_pubsub_open cs c :
  Connection.open (run_pubsub cs c) = true →
  topics (run_pubsub cs c) = fold_left execute_pubsub cs (topics c).
Proof.
  revert c. induction cs as [|command cs IH]; intros c; [done|]. simpl.
  destruct (pubsub_accepts _ _); [|done]. intros Hc. by rewrite IH.
Qed.

Lemma run_pubsub_state cs c : Connection.state (run_pubsub cs c) = Connection.state c.
Proof.
  revert c. induction cs as [|command cs IH]; intros c; [done|]. simpl.
  destruct (pubsub_accepts _ _); [|done]. by rewrite IH.
Qed.

Lemma unsubscribe_topics remove topics :
  fold_left execute_pubsub (PubSub.Unsubscribe <$> remove) topics = topics ∖ list_to_set remove.
Proof.
  revert topics. induction remove as [|x remove IH]; intros topics; simpl; [set_solver|].
  rewrite IH. set_solver.
Qed.

Lemma subscribe_topics add topics :
  fold_left execute_pubsub (PubSub.Subscribe <$> add) topics = topics ∪ list_to_set add.
Proof.
  revert topics. induction add as [|x add IH]; intros topics; simpl; [set_solver|].
  rewrite IH. set_solver.
Qed.

(** The commands of a round lead to what is subscribed to. *)
Lemma commands_pending B s :
  pending B s → fold_left execute_pubsub (commands_of (State.state s) (State.subscribed s)) B =
                  State.subscribed s.
Proof.
  intros (Hr & _ & Hs). unfold adds, removes in Hs. unfold commands_of.
  destruct (State.state s) as [| |add remove]; simpl in *; [|done|].
  - rewrite Hs. set_solver.
  - by rewrite fold_left_app, unsubscribe_topics, subscribe_topics.
Qed.

Lemma commands_reset subscribed B :
  fold_left execute_pubsub (commands_of SubscriptionStateChange.Reset subscribed) B = subscribed.
Proof.
  simpl. rewrite subscribe_topics. apply set_eq. intros x.
  rewrite elem_of_union, elem_of_list_to_set. destruct (hash_set_iter_spec subscribed) as (_ & Hin & _).
  rewrite Hin. set_solver.
Qed.

(** Before the first round everything is subscribed to anew, and nothing removed. *)
Lemma reset_changes entries s :
  NoDup (TimedEntry.key <$> entries) → State.state s = SubscriptionStateChange.Reset →
  (∀ k, TimedEntry.Expired k ∈ entries → (k +:+ "u") ∉ State.subscribed s) →
  ∃ s', State.active_server_changes entries s = Ok s' ∧
    State.state s' = SubscriptionStateChange.Reset ∧ State.cache s' = State.cache s.
Proof.
  revert s. induction entries as [|e entries IH]; intros s Hnd Hs Hout; simpl; [by exists s|].
  apply NoDup_cons in Hnd as [Hni Hnd]. destruct e as [k|k]; simpl.
  - destruct (IH (State.insert_subscription (k +:+ "u") s)) as (s' & Hs' & Hst & Hc); [done|..].
    + by apply insert_subscription_reset.
    + intros k' Hk'. rewrite insert_subscription_subscribed.
      intros [Hx%elem_of_singleton|Hx]%elem_of_union.
      * apply member_topic_inj in Hx as ->. apply Hni. simpl.
        apply list_elem_of_fmap. by exists (TimedEntry.Expired k).
      * eapply Hout; [by right|done].
    + exists s'. split_and!; [done..|]. rewrite Hc. apply insert_subscription_cache.
  - unfold State.remove_subscription. rewrite bool_decide_eq_true_2 by (apply Hout; left). simpl.
    apply IH; [done..|]. intros k' Hk'. apply Hout. by right.
Qed.
End Commands.

Section Listener.
Context `{Environment, MutualIds, HashIter, SeenEvents, TimedCache, Transport}.
Context `{Redis, RedisCommands}.
Context `{OptionalStruct Server.t PartialServer.t, OptionalStruct Role.t PartialRole.t}.
Context `{OptionalStruct Member.t PartialMember.t}.
Variable is_channel : string → Prop.
Hypothesis channels_plain : ∀ x, is_channel x → ¬ member_topic x.
Import Connection.

(** Objects are stored under their ids, which are not taken for others. *)
Definition tame_start (user : User.t) (w : World.t) : Prop :=
  tame_world is_channel w ∧ ¬ member_topic (User.id user) ∧
  (∀ k s, ReferenceDb.servers (World.db w) !! k = Some s → Server.id s = k ∧ ¬ member_topic k) ∧
  (∀ k u, ReferenceDb.users (World.db w) !! k = Some u → ¬ member_topic (User.id u)).

(** A connection as it is found between two steps of its loops *)
Inductive reached : Connection.t → Prop :=
| reached_connect fields user session_id w c w' :
    tame_start user w → connect fields user session_id w = (Ok c, w') → reached c
| reached_round now message c w c' w' :
    reached c → tame_world is_channel w → tame_event is_channel (Event.published message.2) →
    round now message c w = (Ok c', w') → reached c'
| reached_client disabled message c w c' w' :
    reached c → client_message disabled message c w = (Ok c', w') → reached c'.

(** What holds of it *)
Definition in_order (c : Connection.t) : Prop :=
  let s := Connection.state c in
  let bot := Cache.is_bot (State.cache s) in
  Connection.open c = true →
  (State.state s = SubscriptionStateChange.Reset ∧ tame_cache is_channel (State.cache s) ∧
     (bot = false → ∀ x, x ∈ State.subscribed s → ¬ member_topic x)) ∨
  (∃ A R, apart A R ∧ plain bot A R ∧ good is_channel (topics c) A R bot s).

Lemma settled_state B s :
  State.state s = SubscriptionStateChange.None → tame_cache is_channel (State.cache s) →
  State.subscribed s = B → settled is_channel B (Cache.is_bot (State.cache s)) s.
Proof.
  intros Hst Ht Hsub. split; [| |done..].
  - split; [by rewrite Hst|]. unfold adds, removes. rewrite Hst, Hsub. simpl. split; [|set_solver].
    by intros x Hx%elem_of_nil.
  - unfold within, adds, removes. rewrite Hst. by split; intros x Hx%elem_of_nil.
Qed.

(** The beginning of a round leaves nothing pending. *)
Lemma adjust_in_order now c :
  in_order c → Connection.open c = true →
  ∃ c', adjust_subscriptions now c = Ok c' ∧
    (Connection.open c' = true →
     topics c' = State.subscribed (Connection.state c') ∧
     settled is_channel (topics c') (Cache.is_bot (State.cache (Connection.state c')))
       (Connection.state c')).
Proof.
  intros Hc Hopen. destruct c as [s B cs sent op]. simpl in *. unfold in_order in Hc. simpl in Hc.
  destruct (Hc Hopen) as [(Hs & Ht & Hp)|(A & R & HAR & Hp & Hg)]; clear Hc.
  - assert (∃ s1, (if Cache.is_bot (State.cache s) then Ok s else
            let '(entries, rest) := timed_notify_iter now (State.active_servers s) in
            State.active_server_changes entries (State.set_active_servers s rest)) = Ok s1 ∧
            State.state s1 = SubscriptionStateChange.Reset ∧ State.cache s1 = State.cache s)
      as (s1 & Hs1 & Hst1 & Hc1).
    { destruct (Cache.is_bot (State.cache s)); [by exists s|].
      pose proof (timed_notify_nodup now (State.active_servers s)) as Hnd.
      destruct (timed_notify_iter now (State.active_servers s)) as [entries rest].
      destruct (reset_changes entries (State.set_active_servers s rest)) as (s1 & Hs1 & Hst1 & Hc1);
        [done|done| |by exists s1].
      intros k _ Hk. eapply Hp; [done|exact Hk|]. by exists k. }
    unfold adjust_subscriptions, State.apply_state. simpl. rewrite Hs1. simpl.
    eexists. split; [done|]. intros Ho. rewrite run_pubsub_open, run_pubsub_state by done.
    rewrite Hst1 in *. cbn [topics Connection.state set_state]. rewrite commands_reset.
    split; [done|]. apply settled_state; [done|simpl; by rewrite Hc1|done].
  - destruct (apply_state_pending B now s) as (change & s' & Ha & Hst & Hcs & _ & s1 & Hp1 & -> & Hsub).
    { apply Hg. }
    { destruct (Cache.is_bot (State.cache s)) eqn:Hb; [by left|]. right. intros x Hx.
      destruct (Hp x) as [|]; [|done..]. destruct (good_within _ _ _ _ _ _ Hg) as [HA HR].
      destruct Hx; [left; by apply HA|right; by apply HR]. }
    unfold adjust_subscriptions. simpl. rewrite Ha. simpl. eexists. split; [done|]. intros Ho.
    rewrite run_pubsub_open, run_pubsub_state by done. simpl.
    rewrite Hsub, commands_pending by done. split; [done|].
    apply settled_state; [done|by rewrite Hcs; apply Hg|done].
Qed.

Lemma send_in_order event c : in_order c → in_order (send event c).
Proof.
  intros Hc. unfold send. destruct (socket_accepts _ _); [|done].
  intros Ho. simpl in *. apply Hc. destruct c; simpl in *. by destruct event.
Qed.

Lemma receive_in_order event c w :
  tame_world is_channel w → tame_event is_channel event → Connection.open c = true →
  settled is_channel (topics c) (Cache.is_bot (State.cache (Connection.state c))) (Connection.state c) →
  ∃ c', receive event c w = (Ok c', w) ∧ in_order c'.
Proof.
  intros Hw He Ho Hs. unfold receive.
  assert (in_order c) as Hc.
  { intros _. right. exists none, none. split_and!; [apply apart_none_l| |done]. by intros x [[]|[]]. }
  destruct (session_event _ _) as [event'|]; [eexists; split; [done|by apply send_in_order]|].
  destruct (handle_settled is_channel channels_plain _ _ w event (Connection.state c) Hw He Hs)
    as (r & s' & Hrun & A & R & HAR & Hp & Hg). rewrite Hrun.
  assert (in_order (set_state c s')) as Hc'.
  { intros _. right. simpl. rewrite (good_bot _ _ _ _ _ _ Hg). by exists A, R. }
  destruct r as [event'|]; eexists; (split; [done|]); [by apply send_in_order|done].
Qed.

Lemma round_in_order now message c w :
  in_order c → tame_world is_channel w → tame_event is_channel (Event.published message.2) →
  ∃ c', round now message c w = (Ok c', w) ∧ in_order c'.
Proof.
  intros Hc Hw He. unfold round. destruct (Connection.open c) eqn:Ho; [|by exists c].
  destruct (adjust_in_order now c Hc Ho) as (c1 & -> & Hc1).
  destruct (Connection.open c1) eqn:Ho1; [|eexists; split; [done|by intros Ho2; rewrite Ho1 in Ho2]].
  destruct Hc1 as [_ Hs]; [done|]. destruct (bool_decide _); simpl; [by apply receive_in_order|].
  eexists; split; [done|]. intros _. right. exists none, none.
  split_and!; [apply apart_none_l| |done]. by intros x [[]|[]].
Qed.

Lemma fetch_all_stored {A} (m : gmap string A) ids (l : list A) (x : A) :
  collect (λ k, ok_or (m !! k) ErrorType.NotFound) ids = Ok l → x ∈ l → ∃ k, m !! k = Some x.
Proof.
  intros Hl Hx. apply collect_Ok_iff in Hl. apply list_elem_of_lookup in Hx as [i Hi].
  destruct (Forall2_lookup_r _ _ _ _ _ Hl Hi) as (id & _ & Hid). exists id.
  by destruct (m !! id); simplify_eq/=.
Qed.

Lemma fetched_stored ids fetched w ch :
  on_channels (ChannelsTable.fetch_channels ids) w = (Ok fetched, w) → ch ∈ fetched →
  ∃ k, ReferenceDb.channels (World.db w) !! k = Some ch.
Proof.
  intros Hf. unfold on_channels, on_table, ChannelsTable.fetch_channels, table_fetch_all in Hf.
  simpl in Hf. injection Hf as Hf _. by eapply fetch_all_stored.
Qed.

Lemma servers_stored ids servers w sv :
  on_servers (ServersTable.fetch_servers ids) w = (Ok servers, w) → sv ∈ servers →
  ∃ k, ReferenceDb.servers (World.db w) !! k = Some sv.
Proof.
  intros Hf. unfold on_servers, on_table, ServersTable.fetch_servers, table_fetch_all in Hf.
  simpl in Hf. injection Hf as Hf _. by eapply fetch_all_stored.
Qed.

Lemma direct_stored user_id direct w ch :
  on_channels (ChannelsTable.find_direct_messages user_id) w = (Ok direct, w) → ch ∈ direct →
  ∃ k, ReferenceDb.channels (World.db w) !! k = Some ch.
Proof.
  intros Hf Hin. unfold on_channels, on_table, ChannelsTable.find_direct_messages, table_select in Hf.
  simpl in Hf. injection Hf as <- _. apply list_elem_of_In, filter_In in Hin as [Hin _].
  by apply list_elem_of_In, elem_of_hash_values in Hin.
Qed.

Lemma users_as_seen_ids user users online shown v :
  users_as_seen user users online = Ok shown → v ∈ shown →
  V0User.id v = User.id user ∨ ∃ u, V0User.id v = User.id u ∧ u ∈ users.
Proof.
  unfold users_as_seen. destruct (collect _ users) as [others| |] eqn:Hothers; [|done..]. simpl.
  destruct (into_self user true) as [self| |] eqn:Hself; [|done..]. simpl. intros [= <-].
  intros [Hv|Hv]%elem_of_app.
  - right. apply collect_Ok_iff in Hothers. apply list_elem_of_lookup in Hv as [i Hi].
    destruct (Forall2_lookup_r _ _ _ _ _ Hothers Hi) as (u & Hu & Hv). exists u.
    split; [|by eapply list_elem_of_lookup_2]. unfold into_known in Hv.
    destruct (known_visibility _ _). destruct (get_badges u); simplify_eq/=. done.
  - left. apply list_elem_of_singleton in Hv as ->. unfold into_self in Hself.
    by destruct (get_badges user); simplify_eq/=.
Qed.

Lemma private_topic_plain id : ¬ member_topic (id +:+ "!").
Proof.
  intros [k Hk]. revert k Hk. induction id as [|c id IH]; intros [|d k]; simpl; intros Hk; simplify_eq.
  - by destruct k.
  - by destruct id.
  - by eapply IH.
Qed.

Lemma connect_in_order fields user session_id w c w' :
  tame_start user w → connect fields user session_id w = (Ok c, w') → in_order c.
Proof.
  intros (Hw & Huser & Hservers & Husers) Hc. unfold connect in Hc.
  destruct (generate_ready_payload fields (State.from user session_id, w)) as [r [s w2]] eqn:Hready.
  destruct r as [ready| |]; simplify_eq/=.
  apply ready_facts in Hready as (members & servers & direct & fetched & users & online & shown & _ &
    Hsv & Hdirect & Hfetched & Husers' & Hshown & _ & Hs & _).
  2: { intros k sv Hk. exact (proj1 (Hservers k sv Hk)). }
  destruct Hs as (Hst & _ & _ & Hprivate & Hsub & Hid & Hbot & Hself & Hcsv & Hch).
  intros _. left. simpl. split; [done|].
  assert (∀ ch, ch ∈ direct ++ fetched → is_channel (Channel.id ch)) as Hchs.
  { intros ch [Hin|Hin]%elem_of_app; [eapply direct_stored in Hin as [k Hk]; [|done]|
      eapply fetched_stored in Hin as [k Hk]; [|done]]; destruct Hw as [Hw _];
      by destruct (Hw _ _ Hk) as [-> Hk']. }
  assert (∀ sv, sv ∈ servers → ∃ k, ReferenceDb.servers (World.db w) !! k = Some sv) as Hsvs.
  { intros sv Hin. by eapply servers_stored. }
  split.
  - split_and!.
    + unfold self_known. rewrite Hid, Hself. by eexists.
    + intros k ch Hk. rewrite Hch in Hk. apply collect_map_lookup in Hk as [Hin <-].
      apply Hchs. apply list_elem_of_In, filter_In in Hin as [Hin _]. by apply list_elem_of_In.
    + intros k sv Hk. rewrite Hcsv in Hk. apply collect_map_lookup in Hk as [[k' Hin]%Hsvs _].
      destruct Hw as [_ Hw]. by eapply Hw.
  - intros Hb x Hx. rewrite Hsub in Hx. unfold ready_topics in Hx. rewrite Hb, Hprivate in Hx.
    rewrite !elem_of_union, elem_of_singleton, !elem_of_list_to_set in Hx.
    destruct Hx as [[[->|Hx]|Hx]|Hx].
    + apply private_topic_plain.
    + apply list_elem_of_fmap in Hx as (v & -> & Hv). apply list_elem_of_fmap in Hv as (u & -> & Hu).
      change (V0.User.id (V0.User.of_user u)) with (V0User.id u).
      destruct (users_as_seen_ids _ _ _ _ _ Hshown Hu) as [->|(u' & -> & Hin)]; [done|].
      apply Husers' in Hin as [k Hk]. by eapply Husers.
    + apply list_elem_of_bind in Hx as (sv & Hx & Hin).
      apply list_elem_of_singleton in Hx as ->. apply Hsvs in Hin as [k Hk].
      by destruct (Hservers _ _ Hk) as [-> Hp].
    + apply list_elem_of_fmap in Hx as (ch & -> & Hin). apply channels_plain, Hchs.
      apply list_elem_of_In, filter_In in Hin as [Hin _]. by apply list_elem_of_In.
Qed.

Lemma client_message_in_order disabled message c w c' w' :
  in_order c → client_message disabled message c w = (Ok c', w') → in_order c'.
Proof.
  intros Hc Hm. destruct message as [token|channel|channel|server_id|data responded]; simpl in Hm.
  - by injection Hm as <- _.
  - destruct (_ || _); [by injection Hm as <- _|].
    apply bind_Ok_inv in Hm as ([] & w1 & _ & Hm). by injection Hm as <- _.
  - destruct (_ || _); [by injection Hm as <- _|].
    apply bind_Ok_inv in Hm as ([] & w1 & _ & Hm). by injection Hm as <- _.
  - injection Hm as <- _. intros Ho. simpl in *. destruct (Hc Ho) as [Hr|(A & R & HAR & Hp & Hg)].
    + by left.
    + right. exists A, R. split_and!; [done..|]. by destruct Hg.
  - destruct responded; [by injection Hm as <- _|].
    destruct (socket_accepts _ _); injection Hm as <- _; [|done]. intros Ho. simpl in *. by apply Hc.
Qed.

Lemma reached_in_order c : reached c → in_order c.
Proof.
  induction 1 as [|now message c w c' w' _ IH Hw He Hr|disabled message c w c' w' _ IH Hm].
  - by eapply connect_in_order.
  - destruct (round_in_order now message c w IH Hw He) as (c2 & Hr2 & Hc2).
    rewrite Hr in Hr2. by simplify_eq.
  - by eapply client_message_in_order.
Qed.

(** C33: In every reachable state of a connection, every published event that is received is
    handled without an error or a panic, whatever the database has become by then; and a round
    begins by giving Redis commands after which exactly the topics of the state's subscriptions
    are delivered, unless a command is refused, which closes the connection. *)
Theorem listener_mirrors_subscriptions c now :
  reached c → Connection.open c = true →
  (∃ c', adjust_subscriptions now c = Ok c' ∧
     (Connection.open c' = true → topics c' = State.subscribed (Connection.state c'))) ∧
  ∀ message w, tame_world is_channel w → tame_event is_channel (Event.published message.2) →
    ∃ c', round now message c w = (Ok c', w).
Proof.
  intros Hc%reached_in_order Ho. split.
  - destruct (adjust_in_order now c Hc Ho) as (c' & Ha & Hc'). exists c'. split; [done|].
    intros Ho'. by apply Hc'.
  - intros message w Hw He. destruct (round_in_order now message c w Hc Hw He) as (c' & Hr & _).
    by exists c'.
Qed.
End Listener.

(** ** Recalculating a server *)

Section Recalculation.
Context `{Environment, MutualIds, HashIter, SeenEvents, TimedCache}.
Context `{Redis, RedisCommands}.
Context `{OptionalStruct Server.t PartialServer.t, OptionalStruct Role.t PartialRole.t}.
Context `{OptionalStruct Member.t PartialMember.t}.

(** What decides what can be viewed *)
Definition perspective_of (c : Cache.t) : string * gmap string User.t * gmap string Member.t * gmap string Server.t :=
  (Cache.user_id c, Cache.users c, Cache.members c, Cache.servers c).

Lemma views_perspective self self' w ch :
  perspective_of self = perspective_of self' → views self w ch = views self' w ch.
Proof.
  destruct self, self'. unfold perspective_of. simpl. intros [= -> -> -> ->]. by destruct ch.
Qed.

Lemma self_known_perspective self self' :
  perspective_of self = perspective_of self' → self_known self → self_known self'.
Proof. destruct self, self'. unfold perspective_of, self_known. simpl. by intros [= -> -> -> ->]. Qed.

(** The channels that are cached and the topics, the rest being left alone *)
Definition now_has (s : State.t) (channels : gmap string Channel.t) (topics : gset string)
    (s' : State.t) : Prop :=
  State.state s' ≠ SubscriptionStateChange.Reset ∧
  perspective_of (State.cache s') = perspective_of (State.cache s) ∧
  Cache.channels (State.cache s') = channels ∧ State.subscribed s' = topics.

Lemma insert_has x s w :
  State.state s ≠ SubscriptionStateChange.Reset →
  runs (insert_subscription x) s w
    (λ _, now_has s (Cache.channels (State.cache s)) ({[x]} ∪ State.subscribed s)).
Proof.
  intros Hs. exists tt, (State.insert_subscription x s). split; [done|].
  destruct (insert_subscription_cache x s) as (Hc & _).
  split_and!; [|by rewrite Hc|by rewrite Hc|apply insert_subscription_subscribed].
  unfold State.insert_subscription. case_bool_decide; [done|]. by destruct (State.state s).
Qed.

Lemma drop_has x s w :
  State.state s ≠ SubscriptionStateChange.Reset →
  runs (drop_channel x) s w
    (λ _, now_has s (delete x (Cache.channels (State.cache s))) (State.subscribed s ∖ {[x]})).
Proof.
  intros Hs.
  assert (∃ s1, State.remove_subscription x s = Ok s1 ∧ State.cache s1 = State.cache s ∧
            State.state s1 ≠ SubscriptionStateChange.Reset ∧
            State.subscribed s1 = State.subscribed s ∖ {[x]}) as (s1 & Hs1 & Hc & Hst & Hsub).
  { unfold State.remove_subscription. case_bool_decide; [exists s; split_and!; [done..|set_solver]|].
    destruct (State.state s); simpl; [|done|]; by eexists. }
  exists tt, (State.set_cache s1 (Cache.set_channels (State.cache s1) (delete x (Cache.channels (State.cache s1))))).
  split; [|by split_and!; simpl; rewrite ?Hc].
  unfold drop_channel. rewrite M_bind_unfold. unfold remove_subscription, on_state. simpl.
  by rewrite Hs1.
Qed.

Lemma take_has ch s w :
  State.state s ≠ SubscriptionStateChange.Reset →
  runs (take_channel ch) s w
    (λ _, now_has s (<[Channel.id ch := ch]> (Cache.channels (State.cache s)))
            ({[Channel.id ch]} ∪ State.subscribed s)).
Proof.
  intros Hs. unfold take_channel.
  set (s0 := State.set_cache s (Cache.set_channels (State.cache s)
               (<[Channel.id ch := ch]> (Cache.channels (State.cache s))))).
  apply (runs_bind _ _ s w (λ _ s1, s1 = s0)); [by eexists tt, s0|]. intros [] ? ->.
  eapply runs_mono; [by apply insert_has|]. done.
Qed.

Lemma has_trans s c t s1 c' t' s2 : now_has s c t s1 → now_has s1 c' t' s2 → now_has s c' t' s2.
Proof. intros (_ & Hp & _) (? & Hp' & ? & ?). split_and!; [done|congruence|done..]. Qed.

Lemma insert_all_has l s w :
  State.state s ≠ SubscriptionStateChange.Reset →
  runs (for_each l insert_subscription) s w
    (λ _, now_has s (Cache.channels (State.cache s)) (list_to_set l ∪ State.subscribed s)).
Proof.
  revert s. induction l as [|x l IH]; intros s Hs; simpl.
  - apply runs_ret. split_and!; [done..|set_solver].
  - eapply runs_bind; [by apply insert_has|]. intros [] s1 Hs1.
    eapply runs_mono; [apply IH, Hs1|]. intros [] s2 Hs2. destruct Hs1 as (Hst & Hp & Hc & Ht).
    destruct Hs2 as (? & ? & Hc2 & Ht2). split_and!; [done|congruence|congruence|].
    rewrite Ht2, Ht. set_solver.
Qed.

Lemma drop_all_has l s w :
  State.state s ≠ SubscriptionStateChange.Reset →
  runs (for_each l drop_channel) s w
    (λ _, now_has s (filter (λ kc, kc.1 ∉ l) (Cache.channels (State.cache s)))
            (State.subscribed s ∖ list_to_set l)).
Proof.
  revert s. induction l as [|x l IH]; intros s Hs; simpl.
  - apply runs_ret. split_and!; [done..| |set_solver]. symmetry. apply map_filter_id.
    intros k ch _ Hk. by apply elem_of_nil in Hk.
  - eapply runs_bind; [by apply drop_has|]. intros [] s1 Hs1.
    eapply runs_mono; [apply IH, Hs1|]. intros [] s2 Hs2. destruct Hs1 as (Hst & Hp & Hc & Ht).
    destruct Hs2 as (? & ? & Hc2 & Ht2). split_and!; [done|congruence| |rewrite Ht2, Ht; set_solver].
    rewrite Hc2, Hc. apply map_eq. intros k. apply option_eq. intros ch.
    rewrite !map_lookup_filter_Some, lookup_delete_Some, not_elem_of_cons. naive_solver.
Qed.

Lemma take_all_has l s w :
  State.state s ≠ SubscriptionStateChange.Reset →
  runs (for_each l take_channel) s w
    (λ _, now_has s (fold_left (λ m ch, <[Channel.id ch := ch]> m) l (Cache.channels (State.cache s)))
            (list_to_set (Channel.id <$> l) ∪ State.subscribed s)).
Proof.
  revert s. induction l as [|x l IH]; intros s Hs; simpl.
  - apply runs_ret. split_and!; [done..|set_solver].
  - eapply runs_bind; [by apply take_has|]. intros [] s1 Hs1.
    eapply runs_mono; [apply IH, Hs1|]. intros [] s2 Hs2. destruct Hs1 as (Hst & Hp & Hc & Ht).
    destruct Hs2 as (? & ? & Hc2 & Ht2). split_and!; [done|congruence|congruence|].
    rewrite Ht2, Ht. set_solver.
Qed.

(** The cached channels of a server, and the ids of those it has that are not cached *)
Definition ours (self : Cache.t) (id : string) : list (string * Channel.t) :=
  List.filter (λ kc, bool_decide (Channel.server kc.2 = Some id)) (hash_iter (Cache.channels self)).
Definition unknown_channels (self : Cache.t) (id : string) (server : Server.t) : list string :=
  difference (list_to_set (Server.channels server)) (list_to_set (ours self id).*1).
Definition shown_channels (self : Cache.t) (id : string) (w : World.t) : list string :=
  (List.filter (λ kc, views self w kc.2) (ours self id)).*1.

(** What the client is told: the channels that are gone, those that are new, and the event *)
Definition told (gone : list string) (new : list Channel.t) (event : Event.t) : Event.t :=
  let changes := (Event.ChannelDelete <$> gone) ++
                 ((λ c, Event.ChannelCreate (V0.Channel.from_db c)) <$> new) in
  if bool_decide (changes = []) then event else Event.Bulk (changes ++ [event]).

Lemma recalculate_facts id event server s w :
  self_known (State.cache s) → State.state s ≠ SubscriptionStateChange.Reset →
  Cache.servers (State.cache s) !! id = Some server →
  let self := State.cache s in
  let gone := hidden_channels w self id in
  runs (recalculate_server id event) s w (λ event' s', ∃ new,
    match collect (λ k, ok_or (ReferenceDb.channels (World.db w) !! k) ErrorType.NotFound)
            (unknown_channels self id server) with
    | Ok found => new = List.filter (views self w) found
    | _ => new = []
    end ∧
    event' = told gone new event ∧
    now_has s (fold_left (λ m ch, <[Channel.id ch := ch]> m) new
                 (filter (λ kc, kc.1 ∉ gone) (Cache.channels self)))
      (list_to_set (Channel.id <$> new) ∪
        ((list_to_set (shown_channels self id w) ∪ State.subscribed s) ∖ list_to_set gone)) s').
Proof.
  intros Hself Hst Hserver. cbv zeta. set (self := State.cache s) in *.
  unfold recalculate_server. apply runs_get. fold self. rewrite Hserver.
  eapply runs_read; [by apply split_channels_runs|]. cbn [fst snd].
  fold (ours self id). fold (shown_channels self id w).
  set (gone := hidden_channels w self id).
  change (List.filter (λ kc, negb (views self w kc.2)) (ours self id)).*1 with gone.
  eapply runs_bind; [by apply insert_all_has|]. intros [] s1 (Hst1 & Hp1 & Hc1 & Ht1).
  eapply runs_bind; [by apply drop_all_has|]. intros [] s2 (Hst2 & Hp2 & Hc2 & Ht2).
  rewrite Hc1 in Hc2. rewrite Ht1 in Ht2.
  fold (unknown_channels self id server).
  set (found := collect _ (unknown_channels self id server)).
  apply (runs_bind _ _ s2 w (λ new s3,
    (match found with Ok l => new = List.filter (views self w) l | _ => new = [] end) ∧
    now_has s2 (fold_left (λ m ch, <[Channel.id ch := ch]> m) new (Cache.channels (State.cache s2)))
      (list_to_set (Channel.id <$> new) ∪ State.subscribed s2) s3)).
  2: { intros new s3 [Hnew (Hst3 & Hp3 & Hc3 & Ht3)]. apply runs_ret. exists new.
       split_and!; [done|done|]. split_and!; [done|congruence|by rewrite Hc3, Hc2|by rewrite Ht3, Ht2]. }
  assert (now_has s2 (Cache.channels (State.cache s2)) (list_to_set (Channel.id <$> []) ∪ State.subscribed s2) s2)
    as Hsame by (split_and!; [done..|set_solver]).
  case_bool_decide as Hu.
  { apply runs_ret. split; [|done]. unfold found. by rewrite Hu. }
  eapply runs_bind; [apply fetch_channels_runs|]. intros [chs|] ? [-> Hf]; simpl in Hf.
  - assert (found = Ok chs) as ->.
    { apply collect_Ok_iff. eapply Forall2_impl; [exact Hf|]. intros k ch Hk. simpl. by rewrite Hk. }
    apply runs_get. eapply runs_read.
    { apply filter_accessible_runs. eapply self_known_perspective; [|exact Hself]. by rewrite Hp2, Hp1. }
    eapply runs_bind; [by apply take_all_has|]. intros [] s3 Hs3. apply runs_ret.
    assert (List.filter (views (State.cache s2) w) chs = List.filter (views self w) chs) as Heq.
    { apply List.filter_ext. intros ch. apply views_perspective. by rewrite Hp2, Hp1. }
    rewrite Heq in Hs3 |- *. by split.
  - apply runs_ret. split; [|done]. destruct found as [l| |] eqn:Hl; [|done..].
    destruct Hf as (k & Hk & Hnone). apply collect_Ok_iff in Hl.
    apply list_elem_of_lookup in Hk as [i Hi].
    destruct (Forall2_lookup_l _ _ _ _ _ Hl Hi) as (ch & _ & Hch). by rewrite Hnone in Hch.
Qed.

Lemma elem_of_ours self id k ch :
  (k, ch) ∈ ours self id ↔ Cache.channels self !! k = Some ch ∧ Channel.server ch = Some id.
Proof.
  unfold ours. rewrite list_elem_of_In, filter_In, <- list_elem_of_In, elem_of_hash_iter. simpl.
  by rewrite bool_decide_eq_true.
Qed.

Lemma elem_of_shown self id w k :
  k ∈ shown_channels self id w ↔
    ∃ ch, Cache.channels self !! k = Some ch ∧ Channel.server ch = Some id ∧ views self w ch = true.
Proof.
  unfold shown_channels. rewrite list_elem_of_fmap. split.
  - intros ([k' ch] & -> & Hin). apply list_elem_of_In, filter_In in Hin as [Hin Hv].
    apply list_elem_of_In, elem_of_ours in Hin as [Hk Hs]. by exists ch.
  - intros (ch & Hk & Hs & Hv). exists (k, ch). split; [done|]. apply list_elem_of_In, filter_In.
    split; [|done]. by apply list_elem_of_In, elem_of_ours.
Qed.

Lemma elem_of_unknown self id server k :
  k ∈ unknown_channels self id server ↔
    k ∈ Server.channels server ∧
    ∀ old, Cache.channels self !! k = Some old → Channel.server old ≠ Some id.
Proof.
  unfold unknown_channels, difference.
  destruct (hash_set_iter_spec (list_to_set (Server.channels server) ∖
              list_to_set (ours self id).*1)) as (_ & Hin & _).
  rewrite Hin, elem_of_difference, !elem_of_list_to_set, list_elem_of_fmap. split.
  - intros [Hk Hno]. split; [done|]. intros old Hold Hs. apply Hno. exists (k, old).
    split; [done|]. by apply elem_of_ours.
  - intros [Hk Hno]. split; [done|]. intros ([k' old] & -> & [Hold Hs]%elem_of_ours).
    by apply (Hno old).
Qed.

(** Fetching known channels that are all there does not fail. *)
Lemma fetch_fails self id server (db : gmap string Channel.t) r :
  (∀ x, x ∈ unknown_channels self id server → is_Some (db !! x)) →
  collect (λ k, ok_or (db !! k) ErrorType.NotFound) (unknown_channels self id server) = r →
  (∀ l, r ≠ Ok l) → False.
Proof.
  intros Hk <-. revert Hk. generalize (unknown_channels self id server). intros ids.
  induction ids as [|k ids IH]; intros Hk Hr; [by apply (Hr [])|]. simpl in Hr.
  destruct (Hk k) as [c Hc]; [left|]. rewrite Hc in Hr. simpl in Hr. apply IH.
  - intros x Hx. apply Hk. by right.
  - intros l Hl. rewrite Hl in Hr. by apply (Hr (c :: l)).
Qed.

(** Channels of the database, put under their ids *)
Lemma take_all_lookup (db : gmap string Channel.t) l (m : gmap string Channel.t) k :
  (∀ ch, ch ∈ l → db !! Channel.id ch = Some ch) →
  fold_left (λ m ch, <[Channel.id ch := ch]> m) l m !! k =
    if decide (k ∈ Channel.id <$> l) then db !! k else m !! k.
Proof.
  revert m. induction l as [|c l IH]; intros m Hl; [done|]. cbn [fold_left]. rewrite IH.
  2: { intros ch Hch. apply Hl. by right. }
  destruct (decide (k ∈ Channel.id <$> l)) as [Hk|Hk].
  - by rewrite decide_True by (by right).
  - destruct (decide (k = Channel.id c)) as [->|Hne].
    + rewrite decide_True by left. rewrite lookup_insert_eq. symmetry. apply Hl. left.
    + rewrite decide_False, lookup_insert_ne by (try done; by rewrite fmap_cons, not_elem_of_cons).
      done.
Qed.

(** Whether a connection's user views a channel of a server: bit 20 of the value told from the
    copies of the server and of the membership, and from the database where there is no copy *)
Definition views_as_copied (self : Cache.t) (w : World.t) : Prop :=
  ∀ user c, Cache.users self !! Cache.user_id self = Some user → ∃ p,
    permitted_value user c
      (match Cache.servers self !! TextChannel.server c with
       | Some s => Some s
       | None => ReferenceDb.servers (World.db w) !! TextChannel.server c
       end)
      (λ s, match Cache.members self !! TextChannel.server c with
            | Some m => Some m
            | None => stored_member (World.db w) user s
            end) (World.now w) p ∧
    views self w (Channel.TextChannel c) = Z.testbit (PermissionValue.into_raw p) 20.
Lemma views_copied self w :
  (∀ k s, Cache.servers self !! k = Some s → Server.id s = k) → views_as_copied self w.
Proof.
  intros Hkeyed user c Hu. unfold views. simpl. rewrite M_bind_unfold, Hu. simpl. rewrite M_bind_unfold.
  unfold run_query. match goal with |- context [calculate_channel_permissions ?q] => set (q0 := q) end.
  destruct (query_permitted q0 c) as (p & q' & Hcalc & Hwf & Hp).
  - unfold q0. by destruct (Cache.servers self !! _), (Cache.members self !! _).
  - intros s Hs. unfold q0 in Hs. symmetry. apply Hkeyed.
    by destruct (Cache.servers self !! _), (Cache.members self !! _); simpl in Hs.
  - exists p. rewrite Hcalc. simpl. rewrite has_flag by done. split; [|done].
    unfold q0 in Hp. revert Hp.
    by destruct (Cache.servers self !! _), (Cache.members self !! _).
Qed.

(** A channel that the server has and that the connection does not keep as one of it *)
Definition to_take (self : Cache.t) (id : string) (server : Server.t) (k : string) : Prop :=
  k ∈ Server.channels server ∧ ∀ old, Cache.channels self !! k = Some old → Channel.server old ≠ Some id.
(** A channel of the server that the connection keeps *)
Definition kept_of (self : Cache.t) (id : string) (k : string) (ch : Channel.t) : Prop :=
  Cache.channels self !! k = Some ch ∧ Channel.server ch = Some id.

(** C28: Recalculating a server never fails, and what the client is told and what the connection
    keeps and is subscribed to are exactly these: of the channels of the server that it keeps, those
    that cannot be viewed, and no others, are told as deleted and leave the copies and the
    subscriptions, and those that can be viewed stay and are subscribed to; the channels told as
    created are channels the server has, not kept before and found in the database, that can be
    viewed, all of those if every such channel is found and none otherwise, and they are kept and
    subscribed to; nothing else of the copies or subscriptions changes. Viewing is told from the
    copies of the connection. *)
Theorem recalculation_shows_what_is_viewable id event server s w :
  (∀ k ch, ReferenceDb.channels (World.db w) !! k = Some ch → Channel.id ch = k) →
  (∀ k sv, Cache.servers (State.cache s) !! k = Some sv → Server.id sv = k) →
  self_known (State.cache s) → State.state s ≠ SubscriptionStateChange.Reset →
  let self := State.cache s in
  Cache.servers self !! id = Some server →
  views_as_copied self w ∧
  ∃ gone new s', recalculate_server id event (s, w) = (Ok (told gone new event), (s', w)) ∧
    (∀ k, k ∈ gone ↔ ∃ ch, kept_of self id k ch ∧ views self w ch = false) ∧
    (∀ ch, ch ∈ new → to_take self id server (Channel.id ch) ∧
       ReferenceDb.channels (World.db w) !! Channel.id ch = Some ch ∧ views self w ch = true) ∧
    ((∀ k, to_take self id server k → is_Some (ReferenceDb.channels (World.db w) !! k)) →
     ∀ k ch, to_take self id server k → ReferenceDb.channels (World.db w) !! k = Some ch →
       views self w ch = true → ch ∈ new) ∧
    ((∃ k, to_take self id server k ∧ ReferenceDb.channels (World.db w) !! k = None) → new = []) ∧
    (∀ k, k ∈ gone → Cache.channels (State.cache s') !! k = None ∧ k ∉ State.subscribed s') ∧
    (∀ ch, ch ∈ new → Cache.channels (State.cache s') !! Channel.id ch = Some ch ∧
       Channel.id ch ∈ State.subscribed s') ∧
    (∀ k, k ∉ gone → k ∉ Channel.id <$> new →
       Cache.channels (State.cache s') !! k = Cache.channels self !! k ∧
       (k ∈ State.subscribed s' ↔
          k ∈ State.subscribed s ∨ ∃ ch, kept_of self id k ch ∧ views self w ch = true)).
Proof.
  intros Hkeyed Hservers Hself Hst self Hserver. split; [by apply views_copied|].
  set (gone := hidden_channels w self id).
  destruct (recalculate_facts id event server s w Hself Hst Hserver)
    as (event' & s' & Hrun & new & Hnew & -> & _ & _ & Hch & Hsub).
  fold self gone in Hnew, Hrun, Hch, Hsub.
  set (db := ReferenceDb.channels (World.db w)) in *.
  assert (∀ ch, ch ∈ new → to_take self id server (Channel.id ch) ∧ db !! Channel.id ch = Some ch ∧
            views self w ch = true) as Hnews.
  { destruct (collect _ _) as [found| |] eqn:Hfound; [|subst new; by intros ? ?%elem_of_nil..].
    subst new. intros ch Hin. apply list_elem_of_In, filter_In in Hin as [Hin Hv].
    apply collect_Ok_iff in Hfound. apply list_elem_of_In, list_elem_of_lookup in Hin as [i Hi].
    destruct (Forall2_lookup_r _ _ _ _ _ Hfound Hi) as (k & Hk & Hok).
    destruct (db !! k) as [c|] eqn:Hc; simplify_eq/=. rewrite (Hkeyed _ _ Hc).
    split_and!; [|done|done]. apply elem_of_unknown. by eapply list_elem_of_lookup_2. }
  assert (∀ k, k ∈ Channel.id <$> new → to_take self id server k) as Hids.
  { intros k (ch & -> & Hin)%list_elem_of_fmap. by apply Hnews. }
  assert (∀ k, Cache.channels (State.cache s') !! k =
            if decide (k ∈ Channel.id <$> new) then db !! k
            else filter (λ kc, kc.1 ∉ gone) (Cache.channels self) !! k) as Hlook.
  { intros k. rewrite Hch. apply take_all_lookup. intros c Hin. by apply Hnews. }
  assert (∀ k, k ∈ gone ↔ ∃ ch, kept_of self id k ch ∧ views self w ch = false) as Hgone.
  { intros k. unfold gone. rewrite hidden_channels_spec. unfold kept_of. naive_solver. }
  assert (∀ k, k ∈ gone → k ∉ Channel.id <$> new) as Happart.
  { intros k (ch & [Hk Hs] & _)%Hgone [_ Hno]%Hids. by eapply Hno. }
  exists gone, new, s'. rewrite Hsub. do 3 (split; [done|]). split; [|split; [|split; [|split]]].
  - intros Hall k ch Hk Hdb Hv. destruct (collect _ _) as [found|e|] eqn:Hfound.
    + subst new. apply list_elem_of_In, filter_In. split; [|done]. apply list_elem_of_In.
      apply collect_Ok_iff in Hfound. apply elem_of_unknown, list_elem_of_lookup in Hk as [i Hi].
      destruct (Forall2_lookup_l _ _ _ _ _ Hfound Hi) as (c & Hc & Hok).
      rewrite Hdb in Hok. simplify_eq/=. by eapply list_elem_of_lookup_2.
    + exfalso. eapply fetch_fails; [|exact Hfound|done]. intros x Hx%elem_of_unknown. by apply Hall.
    + exfalso. eapply fetch_fails; [|exact Hfound|done]. intros x Hx%elem_of_unknown. by apply Hall.
  - intros (k & Hk & Hdb). destruct (collect _ _) as [found|e|] eqn:Hfound; [|done..].
    apply collect_Ok_iff in Hfound. apply elem_of_unknown, list_elem_of_lookup in Hk as [i Hi].
    destruct (Forall2_lookup_l _ _ _ _ _ Hfound Hi) as (c & _ & Hok). by rewrite Hdb in Hok.
  - intros k Hk. rewrite Hlook, decide_False by auto. split.
    + apply map_lookup_filter_None. right. by intros x _ Hx.
    + rewrite !elem_of_union, elem_of_difference, !elem_of_union, !elem_of_list_to_set.
      intros [Hin|[_ Hx]]; [by apply (Happart k)|done].
  - intros ch Hin. assert (Channel.id ch ∈ Channel.id <$> new) as Hkin by (by apply list_elem_of_fmap_2).
    rewrite Hlook, decide_True by done. split; [by apply Hnews|].
    rewrite !elem_of_union, elem_of_list_to_set. by left.
  - intros k Hng Hnn. rewrite Hlook, decide_False by done. split.
    + apply option_eq. intros ch. rewrite map_lookup_filter_Some. simpl. tauto.
    + rewrite !elem_of_union, elem_of_difference, !elem_of_union, !elem_of_list_to_set, elem_of_shown.
      unfold kept_of. naive_solver.
Qed.

(** ** Updates and the end of a session *)

(** An update of a user that arrives on several topics is sent once, without its event id. *)
Lemma update_is_sent_once id data clear event_id s w :
  seen_contains event_id (Cache.seen_events (State.cache s)) = false →
  runs (handle_incoming_event_v1 (Event.UserUpdate id data clear (Some event_id))) s w (λ r s',
    r = Some (Event.UserUpdate id data clear None) ∧
    handle_incoming_event_v1 (Event.UserUpdate id data clear (Some event_id)) (s', w) =
      (Ok None, (s', w))).
Proof.
  assert (∀ s, seen_contains event_id (Cache.seen_events (State.cache s)) = true →
            handle_incoming_event_v1 (Event.UserUpdate id data clear (Some event_id)) (s, w) =
              (Ok None, (s, w))) as Hskip.
  { intros s1 Hs1. unfold handle_incoming_event_v1. repeat (rewrite M_bind_unfold; simpl).
    by rewrite Hs1. }
  intros Hs. set (s1 := State.set_cache s (Cache.set_seen_events (State.cache s)
                          (seen_put event_id (Cache.seen_events (State.cache s))))).
  exists (Some (Event.UserUpdate id data clear None)), s1. split; [|split; [done|]].
  - unfold handle_incoming_event_v1. repeat (rewrite M_bind_unfold; simpl). rewrite Hs.
    by repeat (rewrite M_bind_unfold; simpl).
  - apply Hskip, seen_contains_spec, seen_put_hit.
Qed.
End Recalculation.

Section Sessions.
Context `{Environment, MutualIds, HashIter, SeenEvents, TimedCache, Transport}.
Context `{Redis, RedisCommands}.
Context `{OptionalStruct Server.t PartialServer.t, OptionalStruct Role.t PartialRole.t}.
Context `{OptionalStruct Member.t PartialMember.t}.
Import Connection.

(** Whether an event ends a session *)
Definition ends_session (session_id : string) (event : EventV1.t) : bool :=
  match event with
  | EventV1.DeleteSession _ deleted => bool_decide (session_id = deleted)
  | EventV1.DeleteAllSessions _ exclude_session_id =>
      negb (bool_decide (exclude_session_id = Some session_id))
  | _ => false
  end.

(** Such an event closes the connection and does nothing else; once it is closed nothing more
    is sent. *)
Lemma session_end_closes event c w :
  ends_session (State.session_id (Connection.state c)) event = true →
  ∃ c', receive (Event.published event) c w = (Ok c', w) ∧ Connection.open c' = false ∧
    (socket_accepts (sent c) Event.Logout = true → sent c' = sent c ++ [Event.Logout]) ∧
    ∀ now message w', round now message c' w' = (Ok c', w').
Proof.
  intros He.
  assert (receive (Event.published event) c w = (Ok (send Event.Logout c), w)) as Hr.
  { destruct event; try done; simpl in He; unfold receive; simpl.
    - apply bool_decide_eq_true in He as ->. by rewrite bool_decide_eq_true_2.
    - apply negb_true_iff, bool_decide_eq_false in He. destruct exclude_session_id as [x|]; [|done].
      by rewrite bool_decide_eq_false_2 by congruence. }
  exists (send Event.Logout c). split; [done|]. unfold send.
  destruct (socket_accepts _ _); split_and!; done.
Qed.
End Sessions.

(** ** The crates, as functions *)

Module GatewayInstances.
Definition put (k : string) (c : list string) : list string :=
  k :: take 19 (List.filter (λ x, negb (String.eqb x k)) c).

Lemma put_inv k k' c : k' ∈ put k c → k' = k ∨ k' ∈ c.
Proof.
  intros [->|Hk]%elem_of_cons; [by left|]. right.
  assert (k' ∈ take 19 (List.filter (λ x, negb (String.eqb x k)) c) ++
            drop 19 (List.filter (λ x, negb (String.eqb x k)) c)) as Hk'
    by (apply elem_of_app; by left).
  rewrite take_drop in Hk'. by apply list_elem_of_In, filter_In in Hk' as [Hk'%list_elem_of_In _].
Qed.
Lemma put_keeps k k' c : length c < 20 → k' ∈ c → k' ∈ put k c.
Proof.
  intros Hlen Hk. destruct (decide (k' = k)) as [->|Hne]; [left|]. right. rewrite take_ge.
  - apply list_elem_of_In, filter_In. split; [by apply list_elem_of_In|].
    apply negb_true_iff. by apply String.eqb_neq.
  - pose proof (List.filter_length_le (λ x, negb (String.eqb x k)) c). lia.
Qed.
Lemma contains_spec (k : string) (c : list string) : bool_decide (k ∈ c) = true ↔ k ∈ c.
Proof. apply bool_decide_eq_true. Qed.
Lemma put_hit k c : k ∈ put k c.
Proof. left. Qed.

Definition seen : SeenEvents :=
  Build_SeenEvents (λ k c, bool_decide (k ∈ c)) put contains_spec put_hit put_inv put_keeps.

(** The time each key was inserted at *)
Definition minutes_15 : Z := 900 * 10 ^ 9.
Definition entry (now : Z) (kt : string * Z) : TimedEntry.t :=
  if (now <? kt.2 + minutes_15)%Z then TimedEntry.Valid kt.1 else TimedEntry.Expired kt.1.
Abbreviation times := (gmap string Z).
Definition keys (c : times) : list string := (map_to_list c).*1.
Definition contains_key (k : string) (now : Z) (c : times) : bool :=
  match c !! k with Some t => (now <? t + minutes_15)%Z | None => false end.
Definition insert_key (k : string) (now : Z) (c : times) : times := <[k := now]> c.
Definition notify (now : Z) (c : times) : list TimedEntry.t * times :=
  (entry now <$> map_to_list c, filter (λ kt, (now <? kt.2 + minutes_15)%Z = true) c).

Lemma entry_key now kt : TimedEntry.key (entry now kt) = kt.1.
Proof. unfold entry. by destruct (now <? kt.2 + minutes_15)%Z. Qed.
Lemma elem_of_keys k c : k ∈ keys c ↔ is_Some (c !! k).
Proof.
  unfold keys. rewrite list_elem_of_fmap. split.
  - intros ([k' t] & -> & Hk). apply elem_of_map_to_list in Hk. by exists t.
  - intros [t Hk]. exists (k, t). by rewrite elem_of_map_to_list.
Qed.
Lemma no_keys : keys ∅ = [].
Proof. unfold keys. by rewrite map_to_list_empty. Qed.
Lemma insert_keys k now c k' : k' ∈ keys (insert_key k now c) → k' = k ∨ k' ∈ keys c.
Proof.
  rewrite !elem_of_keys. unfold insert_key.
  intros [t [[<- _]|[_ Hk]]%lookup_insert_Some]; [by left|right; by exists t].
Qed.
Lemma notify_nodup now c : NoDup (TimedEntry.key <$> (notify now c).1).
Proof.
  simpl. rewrite <- list_fmap_compose.
  rewrite (list_fmap_ext _ fst); [apply NoDup_fst_map_to_list|].
  intros i kt _. apply entry_key.
Qed.
Lemma notify_keys now c e : e ∈ (notify now c).1 → TimedEntry.key e ∈ keys c.
Proof.
  simpl. unfold keys. rewrite !list_elem_of_fmap. intros (kt & -> & Hk). exists kt.
  by rewrite entry_key.
Qed.
Lemma notify_rest now c k : k ∈ keys (notify now c).2 → k ∈ keys c.
Proof. rewrite !elem_of_keys. intros [t [Hk _]%map_lookup_filter_Some]. by exists t. Qed.

Definition timed_cache : TimedCache :=
  Build_TimedCache times ∅ keys contains_key insert_key notify no_keys insert_keys notify_nodup
    notify_keys notify_rest.

(** Nothing is refused. *)
Definition transport : Transport :=
  {| pubsub_accepts _ _ := true; socket_accepts _ _ := true |}.
End GatewayInstances.

Module Sample.
#[local] Existing Instance canonical_iter.
#[local] Existing Instance Store.reliable.
#[local] Existing Instance VoiceInstances.commands.
#[local] Existing Instance Fixture.strangers.
#[local] Existing Instance GatewayInstances.seen.
#[local] Existing Instance GatewayInstances.timed_cache.
#[local] Existing Instance GatewayInstances.transport.
#[local] Instance gateway_environment : Environment := Fixture.environment 10.
#[local] Instance server_options : OptionalStruct Server.t PartialServer.t := λ s p,
  Server.mk (Server.id s) (Server.owner s) (Server.name s) (Server.description s)
    (Server.announcement s) (default (Server.channels s) (PartialServer.channels p))
    (Server.categories s) (Server.system_messages s) (Server.roles s)
    (default (Server.default_permissions s) (PartialServer.default_permissions p)) (Server.icon s)
    (Server.banner s) (Server.flags s) (Server.nsfw s) (Server.analytics s) (Server.discoverable s)
    (Server.admin_suspended s).
#[local] Instance role_options : OptionalStruct Role.t PartialRole.t := λ r _, r.
#[local] Instance member_options : OptionalStruct Member.t PartialMember.t := λ m _, m.

(** The server "S" of "O", with a channel for all and one for those who may see it; "M" is a
    member without roles. *)
Definition view : Z := ChannelPermission.as_u64 ChannelPermission.ViewChannel.
Definition shop : Server.t :=
  Server.set_channels (Fixture.server "S" "O" view []) ["hall"; "vault"].
Definition hall : Channel.t := Channel.TextChannel (Fixture.text_channel "hall" "S" None []).
Definition vault : Channel.t :=
  Channel.TextChannel (Fixture.text_channel "vault" "S" (Some (OverrideField.mk 0 view)) []).
Definition the_world : World.t :=
  World.set_db World.empty
    (ReferenceDb.set_channels
      (ReferenceDb.set_servers
        (ReferenceDb.set_server_members
          (ReferenceDb.set_users ReferenceDb.empty
            {[ "M" := Fixture.user "M" []; "O" := Fixture.user "O" [] ]})
          {[ MemberCompositeKey.mk "S" "M" := Fixture.member "S" "M" [] None;
             MemberCompositeKey.mk "S" "O" := Fixture.member "S" "O" [] None ]})
        {[ "S" := shop ]})
      {[ "hall" := hall; "vault" := vault ]}).

Definition connected : Result Connection.t * World.t :=
  connect ReadyPayloadFields.default (Fixture.user "M" []) "session" the_world.

(** Run rounds on what was published *)
Fixpoint rounds (messages : list (string * EventV1.t)) (c : Connection.t) (w : World.t) :
    Result Connection.t * World.t :=
  match messages with
  | [] => (Ok c, w)
  | m :: messages =>
      match round 0 m c w with
      | (Ok c, w) => rounds messages c w
      | r => r
      end
  end.

Definition nobody : Connection.t :=
  Connection.mk (State.from (Fixture.user "" []) "") ∅ [] [] false.
Definition the_connection (r : Result Connection.t) : Connection.t :=
  match r with Ok c => c | _ => nobody end.
Definition first : Connection.t := the_connection connected.1.

Definition is_Ok {A} (r : Result A) : bool := match r with Ok _ => true | _ => false end.
Lemma ran (m : Result Connection.t * World.t) :
  is_Ok m.1 = true → m = (Ok (the_connection m.1), m.2).
Proof. by destruct m as [[]]. Qed.

Definition channel_id (x : string) : Prop := x = "hall" ∨ x = "vault".
Lemma channel_id_plain x : channel_id x → ¬ member_topic x.
Proof.
  intros [-> | ->] [k Hk]; (do 6 (destruct k as [|? k]; simplify_eq/=)).
Qed.

Lemma the_world_tame : tame_start channel_id (Fixture.user "M" []) the_world.
Proof.
  split_and!.
  - split.
    + intros k ch Hk. change (ReferenceDb.channels (World.db the_world)) with
        ({[ "hall" := hall; "vault" := vault ]} : gmap string Channel.t) in Hk.
      apply lookup_insert_Some in Hk as [[<- <-]|[_ Hk]]; [split; [done|by left]|].
      apply lookup_singleton_Some in Hk as [<- <-]. split; [done|by right].
    + intros k s Hk. change (ReferenceDb.servers (World.db the_world)) with
        ({[ "S" := shop ]} : gmap string Server.t) in Hk.
      apply lookup_singleton_Some in Hk as [<- <-]. intros x Hx.
      change (Server.channels shop) with ["hall"; "vault"] in Hx.
      rewrite !elem_of_cons in Hx. destruct Hx as [->|[->|Hx%elem_of_nil]]; [by left|by right|done].
  - intros [[|? [|? k]] Hk]; simplify_eq/=.
  - intros k s Hk. change (ReferenceDb.servers (World.db the_world)) with
      ({[ "S" := shop ]} : gmap string Server.t) in Hk.
    apply lookup_singleton_Some in Hk as [<- <-]. split; [done|].
    intros [[|? [|? k]] Hk]; simplify_eq/=.
  - intros k u Hk. change (ReferenceDb.users (World.db the_world)) with
      ({[ "M" := Fixture.user "M" []; "O" := Fixture.user "O" [] ]} : gmap string User.t) in Hk.
    apply lookup_insert_Some in Hk as [[<- <-]|[_ Hk]].
    + intros [[|? [|? k]] Hk]; simplify_eq/=.
    + apply lookup_singleton_Some in Hk as [<- <-]. intros [[|? [|? k]] Hk']; simplify_eq/=.
Qed.

Lemma first_reached : reached channel_id first.
Proof.
  apply (reached_connect channel_id ReadyPayloadFields.default (Fixture.user "M" []) "session"
           the_world first connected.2 the_world_tame).
  apply (ran connected). vm_compute. reflexivity.
Qed.

Lemma listener_mirrors_subscriptions_witness :
  ∃ c', adjust_subscriptions 0 first = Ok c' ∧
    (Connection.open c' = true →
     Connection.topics c' = State.subscribed (Connection.state c')).
Proof.
  apply (listener_mirrors_subscriptions channel_id channel_id_plain first 0);
    [apply first_reached|reflexivity].
Defined.

Definition subscribed (topic : string) (c : Connection.t) : bool :=
  bool_decide (topic ∈ State.subscribed (Connection.state c)).

(** Before anything else, "M" sees the hall and not the vault. *)
Lemma first_sees :
  sees (Fixture.user "M" []) the_world hall = true ∧
  sees (Fixture.user "M" []) the_world vault = false ∧
  subscribed "hall" first = true ∧ subscribed "vault" first = false.
Proof. vm_compute. done. Qed.

(** An event of the server after which its channels are recalculated *)
Definition permissions_set : string * EventV1.t :=
  ("S", EventV1.ServerUpdate "S"
          (PartialServer.mk None None None None None None None None None (Some view)
             None None None None None None None) []).

(** When "M" asks the owner to be friends, the update that reaches "M" names "M" and carries the
    owner, and the connection keeps the owner as "M". At the next recalculation "M" is
    subscribed to the vault and is sent it, though "M" may not see it. *)
Definition requested : World.t := (route_add_friend (Fixture.user "M" []) "O" the_world).2.
Definition as_owner : Connection.t :=
  the_connection (rounds (World.events requested ++ [permissions_set]) first requested).1.
Definition asking : User.t :=
  Fixture.user "M" [Relationship.mk "O" RelationshipStatus.Outgoing].

Lemma friend_request_reveals_channels :
  ReferenceDb.users (World.db requested) !! "M" = Some asking ∧
  sees asking requested vault = false ∧
  subscribed "vault" as_owner = true ∧
  last (Connection.sent as_owner) = Some (Event.Bulk
    [Event.ChannelCreate (V0.Channel.from_db vault); Event.published permissions_set.2]).
Proof. vm_compute. done. Qed.

(** A channel that is created is subscribed to by every member of the server, whether or not it
    can be viewed: here by default permissions of the server that grant nothing. *)
Definition closed_shop : World.t :=
  World.set_db the_world (ReferenceDb.set_servers (World.db the_world)
    {[ "S" := Server.set_channels (Fixture.server "S" "O" 0 []) [] ]}).
Definition outside : Connection.t :=
  the_connection (connect ReadyPayloadFields.default (Fixture.user "M" []) "session" closed_shop).1.

Lemma created_channels_are_not_checked :
  sees (Fixture.user "M" []) closed_shop hall = false ∧
  subscribed "hall" (the_connection
    (rounds [("S", EventV1.ChannelCreate hall)] outside closed_shop).1) = true.
Proof. vm_compute. done. Qed.

(** Nobody leaves the copy of a group: somebody who left it stays subscribed to. *)
Definition trio : Channel.t := Channel.Group (Fixture.group "G" "O" ["M"; "O"; "P"]).
Definition with_group : World.t :=
  World.set_db World.empty
    (ReferenceDb.set_channels
      (ReferenceDb.set_users ReferenceDb.empty
        {[ "M" := Fixture.user "M" []; "O" := Fixture.user "O" []; "P" := Fixture.user "P" [] ]})
      {[ "G" := trio ]}).
Definition in_group : Connection.t :=
  the_connection (connect ReadyPayloadFields.default (Fixture.user "M" []) "session" with_group).1.

Lemma who_left_stays_subscribed :
  subscribed "P" (the_connection
    (rounds [("G", EventV1.ChannelGroupLeave "G" "P")] in_group with_group).1) = true.
Proof. vm_compute. done. Qed.

(** A client receives the members' updates of any server it names. *)
Definition curious : Result Connection.t :=
  (client_message false (ClientMessage.Subscribe "X") in_group with_group).1.

Lemma subscribe_is_not_checked :
  match adjust_subscriptions 0 (the_connection curious) with
  | Ok c => bool_decide ("Xu" ∈ Connection.topics c)
  | _ => false
  end = true.
Proof. vm_compute. done. Qed.

(** While "O" is in a voice channel of the server, "M" connects and keeps the membership of "O"
    as that of "M". *)
Definition lounge : Channel.t :=
  Channel.TextChannel (TextChannel.mk "hall" "S" "hall" None None None None ∅ false
    (Some VoiceInformation.default) None None).
Definition talking : World.t :=
  (create_voice_state (UserVoiceChannel.from_channel lounge) "O" 0
    (World.set_db the_world (ReferenceDb.set_channels (World.db the_world)
       {[ "hall" := lounge; "vault" := vault ]}))).2.

Lemma members_are_mixed_up :
  Cache.members (State.cache (Connection.state (the_connection
    (connect ReadyPayloadFields.default (Fixture.user "M" []) "session" talking).1))) !! "S" =
  Some (Fixture.member "S" "O" [] None).
Proof. vm_compute. done. Qed.

Lemma ready_shows_what_is_viewable_witness :
  ∃ channels,
    (∀ ch, ch ∈ channels → sees (Fixture.user "M" []) the_world ch = true) ∧
    Cache.channels (State.cache (Connection.state first)) = collect_map Channel.id channels.
Proof.
  assert (∃ ready sw, generate_ready_payload ReadyPayloadFields.default
            (State.from (Fixture.user "M" []) "session", the_world) = (Ok ready, sw) ∧
            sw.1 = Connection.state first) as (ready & [s w'] & Hrun & Hs).
  { unfold first, connected, connect.
    assert (is_Ok connected.1 = true) as Hok by (vm_compute; reflexivity).
    revert Hok. unfold connected, connect.
    destruct (generate_ready_payload _ _) as [[ready| |] [s w']]; [|done..].
    intros _. by exists ready, (s, w'). }
  destruct (ready_shows_what_is_viewable ReadyPayloadFields.default (Fixture.user "M" []) "session"
              the_world ready s w')
    as (members & servers & direct & fetched & channels & shown & Hm & Hsv & Hd & Hf & _ & _ & Hsees & Hr &
        Hch & Ht); [|exact Hrun|].
  - intros k sv Hk. exact (proj1 (proj1 (proj2 (proj2 the_world_tame)) k sv Hk)).
  - exists channels. simpl in Hs. rewrite <- Hs. split; [|exact Hch].
    intros ch Hin. by apply Hsees in Hin as [_ Hin].
Defined.

(** The connection after its first round *)
Definition settled_first : State.t :=
  match adjust_subscriptions 0 first with Ok c => Connection.state c | _ => Connection.state nobody end.

Lemma recalculation_shows_what_is_viewable_witness :
  ∃ event' s', recalculate_server "S" Event.Logout (settled_first, the_world) =
                 (Ok event', (s', the_world)) ∧
    Cache.channels (State.cache s') !! "hall" = Some hall ∧ "hall" ∈ State.subscribed s'.
Proof.
  destruct (recalculation_shows_what_is_viewable "S" Event.Logout shop settled_first the_world)
    as (_ & gone & new & s' & Hrun & Hgone & Hnew & _ & _ & _ & _ & Hrest).
  - intros k ch Hk. exact (proj1 (proj1 (proj1 the_world_tame) k ch Hk)).
  - intros k sv Hk. change (({[ "S" := shop ]} : gmap string Server.t) !! k = Some sv) in Hk.
    by apply lookup_singleton_Some in Hk as [<- <-].
  - exists (Fixture.user "M" []). vm_compute. reflexivity.
  - vm_compute. discriminate.
  - vm_compute. reflexivity.
  - exists (told gone new Event.Logout), s'. split; [exact Hrun|].
    assert (Cache.channels (State.cache settled_first) !! "hall" = Some hall) as Hk by (vm_compute; reflexivity).
    destruct (Hrest "hall") as [-> ->].
    + intros (ch & [Hk' _] & Hv)%Hgone. assert (ch = hall) as -> by congruence.
      assert (views (State.cache settled_first) the_world hall = true) as Hv' by (vm_compute; reflexivity).
      congruence.
    + intros (ch & Hid & Hin)%list_elem_of_fmap. destruct (Hnew ch Hin) as [[_ Hno] _].
      by apply (Hno hall); [rewrite <- Hid|].
    + split; [done|]. left. apply (bool_decide_unpack _). vm_compute. exact I.
Defined.
End Sample.
