(* ===== verification/AccountOps.v ===== *)
(** * Handlers of accounts, sessions and tickets

    The handlers of [models/accounts/model.rs], [models/sessions/model.rs] and
    [models/mfa_tickets/model.rs], suspension and lookup by token of users
    ([models/users/model.rs]), and sending mail ([util/email.rs]). *)

From stdpp Require Import base list gmap strings pretty.
From Stdlib Require Import ZArith Lia.
From S2P Require Import Prelude Errors Permissions PermissionSpec Files Users Servers Channels.
From S2P Require Import PermissionQuery Messages Unreads Config Emojis Webhooks Bots AuditLogs.
From S2P Require Import Accounts World Database References UserOps.

(** ** Configuration and services *)

(** [api.smtp.host], [api.smtp.expiry], [api.registration.invite_only],
    [api.security.captcha.hcaptcha_key], [api.security.shield.host], [api.stripe],
    [api.privacy.registration_ip_retention_seconds] and [environment] *)
Module ApiSettings.
Record t : Type := mk {
  smtp_host : string;
  expire_verification : Z;
  expire_password_reset : Z;
  expire_account_deletion : Z;
  invite_only : bool;
  hcaptcha_key : string;
  shield_host : string;
  stripe_enabled : bool;
  stripe_secret_key : string;
  registration_ip_retention_seconds : Z;
  environment : string
}.
End ApiSettings.

Class Services := {
  api : ApiSettings.t;
  (** [address.parse()] succeeds *)
  address_parses : string → bool;
  (** the relay accepts the mail sent when the process has drawn [n] ids *)
  relay_accepts : nat → bool;
  (** what hCaptcha answers for a token, if it answers *)
  hcaptcha : string → option bool;
  (** what Shield answers for an IP and an address: no response, one that cannot be read, or
      whether the request is blocked *)
  shield : option string → string → option (option bool);
  (** cancelling a subscription at Stripe succeeds *)
  stripe_cancels : string → bool
}.

(** How to interpret a token *)
Module UserHint.
Inductive t : Type := Any | Bot | User.
End UserHint.

(** [reason.join(", ")] *)
Definition comma_separated (reason : list string) : string := String.concat ", " reason.

(** The partial user that suspension writes; the flag is [UserFlags::SuspendedUntil] *)
Definition partial_suspended (until : option Z) : PartialUser.t :=
  PartialUser.mk None None None None None None None None None None (Some 1%Z) None None until None.

Section Handlers.
Context `{Environment, HashIter, Lowercase, Credentials, Services}.
Context `{OptionalStruct User.t PartialUser.t}.

(** [config.api.smtp.host.is_empty()] *)
Definition mail_disabled : bool := bool_decide (ApiSettings.smtp_host api = "").

(** Send an email; an address that does not parse panics *)
Definition send_email (address : string) (template : Template.t)
    (variables : list (string * string)) : H unit :=
  if negb (address_parses address) then panic else
  n ← gets World.ulids;
  if relay_accepts n then
    modify (λ w, World.set_mails w (World.mails w ++ [Mail.mk address template variables]))
  else throw ErrorType.EmailFailed.

(** [hash_password]: the salt is [nanoid!(24)] *)
Definition hash_password (plaintext_password : string) : H string :=
  salt ← nanoid;
  lift (hash_with salt plaintext_password).

(** [Timestamp::now_utc().checked_add(d).unwrap()] *)
Definition in_future (d : Z) : H Z :=
  now ← clock;
  lift (unwrap (checked_add now d)).

(** ** Accounts *)

(** Save model *)
Definition save_account (self : Account.t) : H unit :=
  on_accounts (AccountsTable.save_account self).

(** Generate a token and mail it, with the address of the account *)
Definition mail_token (self : Account.t) (address : string) (template : Template.t) : H string :=
  token ← nanoid;
  send_email address template
    [("email", Account.email self);
     ("url", Template.url (Hosts.app (Settings.hosts config)) template +:+ token)] ;;
  mret token.

(** Send account verification email *)
Definition start_email_verification (self : Account.t) : H Account.t :=
  self ← (if mail_disabled then mret (Account.set_verification self EmailVerification.Verified)
          else
            token ← mail_token self (Account.email self) Template.verify;
            expiry ← in_future (seconds (ApiSettings.expire_verification api));
            mret (Account.set_verification self (EmailVerification.Pending token expiry)));
  save_account self ;;
  mret self.

(** Send account verification to new email *)
Definition start_email_move (self : Account.t) (new_email : string) : H Account.t :=
  if EmailVerification.is_pending (Account.verification self)
  then throw ErrorType.UnverifiedAccount else
  self ← (if mail_disabled then
            normalised ← lift (normalise_email new_email);
            mret (Account.set_email (Account.set_email_normalised self normalised) new_email)
          else
            token ← mail_token self new_email Template.verify;
            expiry ← in_future (seconds (ApiSettings.expire_verification api));
            mret (Account.set_verification self (EmailVerification.Moving new_email token expiry)));
  save_account self ;;
  mret self.

(** Send password reset email *)
Definition start_password_reset (self : Account.t) (existing_account : bool) : H Account.t :=
  if mail_disabled then throw ErrorType.OperationFailed else
  token ← mail_token self (Account.email self)
            (if existing_account then Template.reset_existing else Template.reset);
  expiry ← in_future (seconds (ApiSettings.expire_password_reset api));
  let self := Account.set_password_reset self (Some (PasswordReset.mk token expiry)) in
  save_account self ;;
  mret self.

(** Delete all sessions for an account *)
Definition delete_all_sessions (self : Account.t) (exclude_session_id : option string) : H unit :=
  on_sessions (SessionsTable.delete_all_sessions (Account.id self) exclude_session_id) ;;
  private (EventV1.DeleteAllSessions (Account.id self) exclude_session_id) (Account.id self).

(** Disable an account *)
Definition disable (self : Account.t) : H Account.t :=
  let self := Account.set_disabled self true in
  delete_all_sessions self None ;;
  save_account self ;;
  mret self.

(** Schedule an account for deletion *)
Definition schedule_deletion (self : Account.t) : H Account.t :=
  after ← in_future (weeks 1);
  disable (Account.set_deletion self (Some (DeletionInfo.Scheduled after))).

(** Begin account deletion process by sending confirmation email *)
Definition start_account_deletion (self : Account.t) : H Account.t :=
  if mail_disabled then schedule_deletion self else
  token ← mail_token self (Account.email self) Template.deletion;
  expiry ← in_future (seconds (ApiSettings.expire_password_reset api));
  let self := Account.set_deletion self
                (Some (DeletionInfo.WaitingForVerification token expiry)) in
  save_account self ;;
  mret self.

(** Removes all information from the account and marks it as fully deleted *)
Definition deleted_account (self : Account.t) : Account.t :=
  Account.mk (Account.id self) ("Deleted User " +:+ Account.id self)
    ("Deleted User " +:+ Account.id self) "" (Account.disabled self) None None
    EmailVerification.Verified None (Some DeletionInfo.Deleted) None
    MultiFactorAuthentication.default None None.
Definition mark_account_deleted (self : Account.t) : H Account.t :=
  save_account (deleted_account self) ;;
  mret (deleted_account self).

Definition new_account_of (id email email_normalised password : string) : Account.t :=
  Account.mk id email email_normalised password false None None EmailVerification.Verified None
    None None MultiFactorAuthentication.default None None.

(** Create a new account *)
Definition new_account (email plaintext_password : string) (verify_email : bool) : H Account.t :=
  email_normalised ← lift (normalise_email email);
  found ← on_accounts (AccountsTable.fetch_account_by_normalised_email email_normalised);
  match found with
  | Some account =>
      if EmailVerification.is_pending (Account.verification account)
      then start_email_verification account
      else start_password_reset account true
  | None =>
      password ← hash_password plaintext_password;
      id ← ulid;
      let account := new_account_of id email email_normalised password in
      account ← (if verify_email then start_email_verification account
                 else save_account account ;; mret account);
      global (EventV1.CreateAccount account) ;;
      mret account
  end.

(** Create a new session *)
Definition create_session (self : Account.t) (name : string) : H Session.t :=
  id ← ulid;
  token ← nanoid;
  now ← clock;
  let session := Session.mk id (Account.id self) token name now
                   (Some (ApiSettings.environment api)) None in
  on_sessions (SessionsTable.save_session session) ;;
  global (EventV1.CreateSession session) ;;
  mret session.

(** Remove the first element equal to [code] *)
Fixpoint remove_first (code : string) (codes : list string) : option (list string) :=
  match codes with
  | [] => None
  | x :: codes =>
      if bool_decide (x = code) then Some codes else cons x <$> remove_first code codes
  end.

(** Validate an MFA response *)
Definition consume_mfa_response (self : Account.t) (response : MFAResponse.t)
    (ticket : option MFATicket.t) : H Account.t :=
  let allowed_methods := MultiFactorAuthentication.get_methods (Account.mfa self) in
  match response with
  | MFAResponse.Password password =>
      if bool_decide (MFAMethod.Password ∈ allowed_methods)
      then lift (Account.verify_password self password) ;; mret self
      else throw ErrorType.DisallowedMFAMethod
  | MFAResponse.Totp totp_code =>
      if bool_decide (MFAMethod.Totp ∈ allowed_methods) then
        if bool_decide ((ticket ≫= MFATicket.last_totp_code) = Some totp_code) then mret self else
        now ← clock;
        code ← lift (Totp.generate_code now (MultiFactorAuthentication.totp_token (Account.mfa self)));
        if bool_decide (code = totp_code) then mret self else throw ErrorType.InvalidToken
      else throw ErrorType.DisallowedMFAMethod
  | MFAResponse.Recovery recovery_code =>
      if bool_decide (MFAMethod.Recovery ∈ allowed_methods) then
        match remove_first recovery_code
                (MultiFactorAuthentication.recovery_codes (Account.mfa self)) with
        | Some codes =>
            let self := Account.set_mfa self
                          (MultiFactorAuthentication.set_recovery_codes (Account.mfa self) codes) in
            save_account self ;; mret self
        | None => throw ErrorType.InvalidToken
        end
      else throw ErrorType.DisallowedMFAMethod
  end.

(** ** Sessions *)

(** Delete session *)
Definition delete_session (self : Session.t) : H unit :=
  on_sessions (SessionsTable.delete_session (Session.id self)) ;;
  private (EventV1.DeleteSession (Session.user_id self) (Session.id self)) (Session.user_id self).

(** ** Tickets *)

(** Create a new MFA ticket *)
Definition new_ticket (account_id : string) (validated : bool) : H MFATicket.t :=
  id ← ulid;
  token ← nanoid;
  mret (MFATicket.mk id account_id token validated false None).
Definition save_ticket (self : MFATicket.t) : H unit := on_tickets (TicketsTable.save_ticket self).

(** Claim and remove this MFA ticket *)
Definition claim (self : MFATicket.t) : H unit :=
  now ← clock;
  expired ← lift (MFATicket.is_expired now self);
  if (expired : bool) then throw ErrorType.InvalidToken else
  on_tickets (TicketsTable.delete_ticket (MFATicket.id self)).

(** ** Users and their accounts *)

Definition from_bot_token (token : string) : H (User.t * string) :=
  bot ← attempt (on_bots (BotsTable.fetch_bot_by_token token));
  bot ← lift (ok_or bot ErrorType.InvalidSession);
  user ← on_users (UsersTable.fetch_user (Bot.id bot));
  mret (user, "").
Definition from_session_token (token : string) : H (User.t * string) :=
  session ← on_sessions (SessionsTable.fetch_session_by_token token);
  user ← on_users (UsersTable.fetch_user (Session.user_id session));
  mret (user, Session.id session).

(** Find a user and session ID from a given token and hint *)
Definition from_token (token : string) (hint : UserHint.t) : H (User.t * string) :=
  match hint with
  | UserHint.Bot => from_bot_token token
  | UserHint.User => from_session_token token
  | UserHint.Any =>
      found ← attempt (from_session_token token);
      match found with Some result => mret result | None => from_bot_token token end
  end.

(** Suspend the user *)
Definition suspend (self : User.t) (duration_days : option nat) (reason : option (list string)) :
    H User.t :=
  account ← on_accounts (AccountsTable.fetch_account (User.id self));
  account ← disable account;
  delete_all_sessions account None ;;
  now ← clock;
  self ← update_user self
           (partial_suspended
              (dur ← duration_days; checked_add now (seconds (86400 * Z.of_nat dur)))) [];
  match reason with
  | Some reason =>
      if mail_disabled then mret self else
      let sent := send_email (Account.email account) Template.suspension
        [("email", Account.email account); ("list", comma_separated reason);
         ("duration", match duration_days with Some n => pretty n | None => "" end);
         ("duration_display", if duration_days then "block" else "none")] in
      λ w, match sent w with
           | (Err _, w) => (Err ErrorType.InternalError, w)
           | (Ok _, w) => (Ok self, w)
           | (Panicked, w) => (Panicked, w)
           end
  | None => mret self
  end.

(** Unsuspend the user: the update is written, and then the code panics *)
Definition unsuspend (self : User.t) : H User.t :=
  update_user self
    (PartialUser.mk None None None None None None None None None None (Some 0%Z) None None None None)
    [] ;;
  panic.
End Handlers.
