(* ===== verification/AccountRoutes.v ===== *)
(** * Routes on accounts, sessions and multi-factor authentication

    The request guards ([models/{accounts,sessions,mfa_tickets}/rocket.rs]), the routes of
    [delta/src/routes/account], [session] and [mfa], and the tasks of [crond] that delete
    accounts, prune registration addresses and tickets. A route runs its guards in the order of its
    parameters. The random delays of some routes have no effect and are left out; the routes
    of passkeys and payments work on MongoDB documents or on Stripe and are not modelled. *)

From stdpp Require Import base list gmap strings pretty.
From Stdlib Require Import ZArith Lia.
From S2P Require Import Prelude Errors Permissions PermissionSpec Files Users Servers Channels.
From S2P Require Import PermissionQuery Messages Unreads Config Emojis Webhooks Bots AuditLogs.
From S2P Require Import Accounts World Database References ServerOps UserOps AccountOps.

(** ** Requests and responses *)

(** What the guards read of a request: the headers "x-session-token" and "x-mfa-ticket", the
    session cookie and the address of the client *)
Module Credential.
Record t : Type := mk {
  session_token : option string;
  session_cookie : option string;
  mfa_ticket : option string;
  ip : string
}.
End Credential.

Module DataCreateAccount.
Record t : Type := mk {
  email : string; password : string; invite : option string; captcha : option string
}.
End DataCreateAccount.
Module DataChangeEmail.
Record t : Type := mk { email : string; current_password : string }.
End DataChangeEmail.
Module DataChangePassword.
Record t : Type := mk { password : string; current_password : string }.
End DataChangePassword.
Module DataPasswordReset.
Record t : Type := mk { token : string; password : string; remove_sessions : bool }.
End DataPasswordReset.
(** [DataResendVerification] and [DataSendPasswordReset] *)
Module DataResend.
Record t : Type := mk { email : string; captcha : option string }.
End DataResend.

Module DataLogin.
Inductive t : Type :=
| Email (email password : string) (friendly_name : option string)
| MFA (mfa_ticket : string) (mfa_response : option MFAResponse.t) (friendly_name : option string).
End DataLogin.

Module ResponseLogin.
Inductive t : Type :=
| Success (session : Session.t)
| MFA (ticket : string) (allowed_methods : list MFAMethod.t)
| Disabled (user_id : string) (reason : option string).
End ResponseLogin.

Module ResponseVerify.
Inductive t : Type := NoTicket | WithTicket (ticket : MFATicket.t).
End ResponseVerify.

Module SessionInfo.
Record t : Type := mk { id : string; name : string }.
Definition from (item : Session.t) : t := mk (Session.id item) (Session.name item).
End SessionInfo.

Module AccountSubscription.
Record t : Type := mk {
  provider : string; tier : string; active_until : Z; cancel_at_period_end : bool
}.
End AccountSubscription.
Module AccountInfo.
Record t : Type := mk {
  id : string;
  email : string;
  subscription : option AccountSubscription.t;
  cash_payment_request : option CashPaymentRequest.t
}.
Definition from (item : Account.t) : t :=
  mk (Account.id item) (Account.email item)
    ((λ s, AccountSubscription.mk (Subscription.provider s) (Subscription.tier s)
             (Subscription.active_until s) (Subscription.cancel_at_period_end s))
       <$> Account.subscription item)
    (Account.cash_payment_request item).
End AccountInfo.
Module MultiFactorStatus.
Record t : Type := mk {
  email_otp : bool; trusted_handover : bool; email_mfa : bool; totp_mfa : bool;
  security_key_mfa : bool; recovery_active : bool
}.
Definition from (item : MultiFactorAuthentication.t) : t :=
  mk false false false (negb (Totp.is_disabled (MultiFactorAuthentication.totp_token item))) false
    (MultiFactorAuthentication.has_recovery item).
End MultiFactorStatus.

(** [attempts += 1] on [i32], which wraps around in a release build *)
Definition i32_succ (n : Z) : Z := ((n + 1 + 2 ^ 31) mod 2 ^ 32 - 2 ^ 31)%Z.

(** The lockout after a wrong password: three attempts are free, the third locks for a
    minute, the fourth for five, the later ones for an hour. *)
Definition lock_further (now : Z) (lockout : option Lockout.t) : Lockout.t :=
  match lockout with
  | Some lockout =>
      let attempts := i32_succ (Lockout.attempts lockout) in
      Lockout.mk attempts
        (if (3 <=? attempts)%Z then
           Some (now + seconds (if (5 <=? attempts)%Z then 3600
                                else if (attempts =? 4)%Z then 300 else 60))%Z
         else Lockout.expiry lockout)
  | None => Lockout.mk 1 None
  end.

(** The account may not be tried before the lockout expires. *)
Definition locked_out (now : Z) (account : Account.t) : bool :=
  match Account.lockout account with
  | Some lockout =>
      match Lockout.expiry lockout with Some expiry => (now <? expiry)%Z | None => false end
  | None => false
  end.

Section Routes.
Context `{Environment, MutualIds, HashIter, Lowercase, Credentials, Services}.
Context `{OptionalStruct User.t PartialUser.t}.

(** ** Guards *)

(** [FromRequest for Session]: the header is preferred to the cookie *)
Definition session_guard (request : Credential.t) : H Session.t :=
  match match Credential.session_token request with
        | Some token => Some token
        | None => Credential.session_cookie request
        end with
  | Some token =>
      found ← attempt (on_sessions (SessionsTable.fetch_session_by_token token));
      lift (ok_or found ErrorType.InvalidSession)
  | None => throw ErrorType.MissingHeaders
  end.

(** [FromRequest for Account] *)
Definition account_guard (request : Credential.t) : H Account.t :=
  session ← session_guard request;
  found ← attempt (on_accounts (AccountsTable.fetch_account (Session.user_id session)));
  lift (ok_or found ErrorType.InternalError).

(** [FromRequest for MFATicket] *)
Definition ticket_guard (request : Credential.t) : H MFATicket.t :=
  match Credential.mfa_ticket request with
  | Some header_mfa_ticket =>
      now ← clock;
      found ← attempt (on_tickets (TicketsTable.fetch_ticket_by_token now header_mfa_ticket));
      lift (ok_or found ErrorType.InvalidToken)
  | None => throw ErrorType.MissingHeaders
  end.

(** [FromRequest for ValidatedTicket] *)
Definition validated_ticket_guard (request : Credential.t) : H MFATicket.t :=
  ticket ← ticket_guard request;
  if MFATicket.validated ticket then
    claimed ← attempt (claim ticket);
    match claimed with
    | Some _ => mret ticket
    | None => throw ErrorType.InvalidToken
    end
  else throw ErrorType.InvalidToken.

(** [FromRequest for UnvalidatedTicket] *)
Definition unvalidated_ticket_guard (request : Credential.t) : H MFATicket.t :=
  ticket ← ticket_guard request;
  if MFATicket.validated ticket then throw ErrorType.InvalidToken else mret ticket.

(** ** Services *)

Definition check_captcha (token : option string) : Result unit :=
  if bool_decide (ApiSettings.hcaptcha_key api = "") then Ok tt else
  match token with
  | Some token =>
      match hcaptcha token with Some true => Ok tt | _ => Err ErrorType.CaptchaFailed end
  | None => Err ErrorType.CaptchaFailed
  end.

Definition validate_shield (ip : option string) (email : string) : Result unit :=
  if bool_decide (ApiSettings.shield_host api = "") then Ok tt else
  match shield ip email with
  | Some (Some true) => Err ErrorType.BlockedByShield
  | Some (Some false) | None => Ok tt
  | Some None => Err ErrorType.InternalError
  end.

(** ** [routes/account] *)

(** The invite a registration needs *)
Definition fetch_invite (invite : option string) : H (option AccountInvite.t) :=
  if ApiSettings.invite_only api then
    match invite with
    | Some invite =>
        found ← on_account_invites (AccountInvitesTable.fetch_account_invite invite);
        mret (Some found)
    | None => throw ErrorType.MissingInvite
    end
  else mret None.

Definition create_account (request : Credential.t) (data : DataCreateAccount.t) : H unit :=
  let registration_ip := Some (Credential.ip request) in
  lift (check_captcha (DataCreateAccount.captcha data)) ;;
  lift (validate_shield registration_ip (DataCreateAccount.email data)) ;;
  lift (validate_email (DataCreateAccount.email data)) ;;
  lift (assert_safe (DataCreateAccount.password data)) ;;
  invite ← fetch_invite (DataCreateAccount.invite data);
  account ← new_account (DataCreateAccount.email data) (DataCreateAccount.password data) false;
  now ← clock;
  (if bool_decide (Account.registration_ip account = None)
   then save_account (Account.set_registration_ip_at
          (Account.set_registration_ip account registration_ip) (Some now))
   else mret tt) ;;
  match invite with
  | Some invite =>
      on_account_invites (AccountInvitesTable.save_account_invite
        (AccountInvite.mk (AccountInvite.id invite) true (Some (Account.id account))))
  | None => mret tt
  end.

Definition verify_email (code : string) : H ResponseVerify.t :=
  account ← on_accounts (AccountsTable.fetch_account_with_email_verification code);
  '(account, response) ←
    match Account.verification account with
    | EmailVerification.Moving new_email _ _ =>
        normalised ← lift (normalise_email new_email);
        mret (Account.set_email_normalised (Account.set_email account new_email) normalised,
              ResponseVerify.NoTicket)
    | _ =>
        ticket ← new_ticket (Account.id account) false;
        let ticket := MFATicket.set_authorised ticket true in
        save_ticket ticket ;;
        mret (account, ResponseVerify.WithTicket ticket)
    end;
  save_account (Account.set_verification account EmailVerification.Verified) ;;
  mret response.

Definition send_password_reset (data : DataResend.t) : H unit :=
  lift (check_captcha (DataResend.captcha data)) ;;
  lift (validate_email (DataResend.email data)) ;;
  email_normalised ← lift (normalise_email (DataResend.email data));
  found ← attempt (on_accounts (AccountsTable.fetch_account_by_normalised_email email_normalised));
  match found with
  | Some (Some account) =>
      if EmailVerification.is_pending (Account.verification account) then mret tt else
      attempt (start_password_reset account false) ;; mret tt
  | _ => mret tt
  end.

Definition password_reset (data : DataPasswordReset.t) : H unit :=
  account ← on_accounts
    (AccountsTable.fetch_account_with_password_reset (DataPasswordReset.token data));
  lift (assert_safe (DataPasswordReset.password data)) ;;
  password ← hash_password (DataPasswordReset.password data);
  let account := Account.set_lockout
    (Account.set_password_reset (Account.set_password account password) None) None in
  save_account account ;;
  if DataPasswordReset.remove_sessions data then delete_all_sessions account None else mret tt.

Definition resend_verification (data : DataResend.t) : H unit :=
  lift (check_captcha (DataResend.captcha data)) ;;
  lift (validate_email (DataResend.email data)) ;;
  email_normalised ← lift (normalise_email (DataResend.email data));
  found ← attempt (on_accounts (AccountsTable.fetch_account_by_normalised_email email_normalised));
  match found with
  | Some (Some account) =>
      match Account.verification account with
      | EmailVerification.Verified => start_password_reset account true ;; mret tt
      | EmailVerification.Pending _ _ => start_email_verification account ;; mret tt
      | EmailVerification.Moving _ _ _ => mret tt
      end
  | _ => mret tt
  end.

(** [account.mfa.is_active() && validated_ticket.is_none()] *)
Definition lacks_ticket (account : Account.t) (ticket : option MFATicket.t) : bool :=
  MultiFactorAuthentication.is_active (Account.mfa account) && bool_decide (ticket = None).

Definition change_email (request : Credential.t) (data : DataChangeEmail.t) : H unit :=
  validated_ticket ← attempt (validated_ticket_guard request);
  account ← account_guard request;
  lift (validate_email (DataChangeEmail.email data)) ;;
  if lacks_ticket account validated_ticket then throw ErrorType.InvalidCredentials else
  lift (Account.verify_password account (DataChangeEmail.current_password data)) ;;
  start_email_move account (DataChangeEmail.email data) ;;
  mret tt.

Definition change_password (request : Credential.t) (data : DataChangePassword.t) : H unit :=
  validated_ticket ← attempt (validated_ticket_guard request);
  account ← account_guard request;
  if lacks_ticket account validated_ticket then throw ErrorType.InvalidCredentials else
  lift (assert_safe (DataChangePassword.password data)) ;;
  lift (Account.verify_password account (DataChangePassword.current_password data)) ;;
  password ← hash_password (DataChangePassword.password data);
  save_account (Account.set_password account password).

(** Whether cancelling the subscription failed, if there is one at Stripe *)
Definition stripe_cancellation (account : Account.t) : option bool :=
  subscription ← Account.subscription account;
  if bool_decide (Subscription.provider subscription = "stripe") then
    Some match Subscription.provider_subscription_id subscription with
         | Some subscription_id =>
             if ApiSettings.stripe_enabled api &&
                negb (bool_decide (ApiSettings.stripe_secret_key api = ""))
             then negb (stripe_cancels subscription_id) else true
         | None => true
         end
  else None.

Definition delete_account (request : Credential.t) : H bool :=
  account ← account_guard request;
  validated_ticket_guard request ;;
  match stripe_cancellation account with
  | Some stripe_cancellation_failed =>
      let account := Account.set_subscription account None in
      save_account account ;;
      schedule_deletion account ;;
      mret stripe_cancellation_failed
  | None => schedule_deletion account ;; mret false
  end.

Definition confirm_deletion (token : string) : H unit :=
  account ← on_accounts (AccountsTable.fetch_account_with_deletion_token token);
  schedule_deletion account ;;
  mret tt.

Definition disable_account (request : Credential.t) : H unit :=
  account ← account_guard request;
  validated_ticket_guard request ;;
  disable account ;;
  mret tt.

Definition fetch_account (request : Credential.t) : H AccountInfo.t :=
  account ← account_guard request;
  mret (AccountInfo.from account).

(** ** [routes/session] *)

(** A wrong password was given *)
Definition login_failed (account : Account.t) : H unit :=
  now ← clock;
  save_account (Account.set_lockout account (Some (lock_further now (Account.lockout account)))).

(** The account an address and password log in to, or the ticket for the second factor *)
Definition login_email (email password : string) : H (Account.t + ResponseLogin.t) :=
  email_normalised ← lift (normalise_email email);
  found ← on_accounts (AccountsTable.fetch_account_by_normalised_email email_normalised);
  account ← lift (ok_or found ErrorType.InvalidCredentials);
  lift (assert_safe password) ;;
  now ← clock;
  if locked_out now account then throw ErrorType.LockedOut else
  match Account.verify_password account password with
  | Err err => login_failed account ;; throw err
  | Panicked => panic
  | Ok _ =>
      account ← (if bool_decide (is_Some (Account.lockout account))
                 then save_account (Account.set_lockout account None) ;;
                      mret (Account.set_lockout account None)
                 else mret account);
      if MultiFactorAuthentication.is_active (Account.mfa account) then
        ticket ← new_ticket (Account.id account) false;
        now ← clock;
        ticket ← lift (MFATicket.populate now (Account.mfa account) ticket);
        save_ticket ticket ;;
        mret (inr (ResponseLogin.MFA (MFATicket.token ticket)
                     (MultiFactorAuthentication.get_methods (Account.mfa account))))
      else mret (inl account)
  end.

(** The account a ticket and an answer log in to *)
Definition login_mfa (mfa_ticket : string) (mfa_response : option MFAResponse.t) : H Account.t :=
  now ← clock;
  ticket ← on_tickets (TicketsTable.fetch_ticket_by_token now mfa_ticket);
  account ← on_accounts (AccountsTable.fetch_account (MFATicket.account_id ticket));
  match mfa_response with
  | Some mfa_response => consume_mfa_response account mfa_response (Some ticket)
  | None => if MFATicket.authorised ticket then mret account else throw ErrorType.InvalidToken
  end.

(** The session for an account that may log in, and the cookie with its token; the reason
    of a ban is kept on MongoDB only. *)
Definition login_account (account : Account.t) (friendly_name : option string) :
    H (ResponseLogin.t * option string) :=
  let name := default "Unknown" friendly_name in
  if Account.disabled account then mret (ResponseLogin.Disabled (Account.id account) None, None) else
  session ← create_session account name;
  user ← attempt (on_users (UsersTable.fetch_user (Account.id account)));
  (match user with
   | Some user =>
       amqp (Amqp.GenericMessage user "New TailsTalk 2 login"
               ("A new session signed in as " +:+ Session.name session +:+ ".") None)
   | None => mret tt
   end) ;;
  mret (ResponseLogin.Success session, Some (Session.token session)).

Definition login (data : DataLogin.t) : H (ResponseLogin.t * option string) :=
  match data with
  | DataLogin.Email email password friendly_name =>
      found ← login_email email password;
      match found with
      | inl account => login_account account friendly_name
      | inr response => mret (response, None)
      end
  | DataLogin.MFA mfa_ticket mfa_response friendly_name =>
      account ← login_mfa mfa_ticket mfa_response;
      login_account account friendly_name
  end.

Definition logout (request : Credential.t) : H unit :=
  session ← session_guard request;
  delete_session session.

Definition session_edit (request : Credential.t) (id friendly_name : string) : H SessionInfo.t :=
  user ← session_guard request;
  session ← on_sessions (SessionsTable.fetch_session id);
  if negb (bool_decide (Session.user_id user = Session.user_id session))
  then throw ErrorType.InvalidSession else
  let session := Session.set_name session friendly_name in
  on_sessions (SessionsTable.save_session session) ;;
  mret (SessionInfo.from session).

Definition session_fetch_all (request : Credential.t) : H (list SessionInfo.t) :=
  session ← session_guard request;
  sessions ← on_sessions (SessionsTable.fetch_sessions (Session.user_id session));
  mret (SessionInfo.from <$> sessions).

Definition revoke (request : Credential.t) (id : string) : H unit :=
  validated_ticket_guard request ;;
  user ← session_guard request;
  session ← on_sessions (SessionsTable.fetch_session id);
  if negb (bool_decide (Session.user_id session = Session.user_id user))
  then throw ErrorType.InvalidToken else
  delete_session session.

Definition revoke_all (request : Credential.t) (revoke_self : option bool) : H unit :=
  validated_ticket_guard request ;;
  session ← session_guard request;
  account ← account_guard request;
  delete_all_sessions account
    (if default false revoke_self then None else Some (Session.id session)).

(** ** [routes/mfa] *)

(** The account a ticket is created for *)
Definition ticket_account (account : option Account.t) (existing_ticket : option MFATicket.t) :
    H Account.t :=
  match account, existing_ticket with
  | Some _, Some _ => throw ErrorType.OperationFailed
  | Some account, None => mret account
  | None, Some ticket =>
      on_tickets (TicketsTable.delete_ticket (MFATicket.id ticket)) ;;
      on_accounts (AccountsTable.fetch_account (MFATicket.account_id ticket))
  | None, None => throw ErrorType.InvalidToken
  end.

Definition create_ticket (request : Credential.t) (data : MFAResponse.t) : H MFATicket.t :=
  account ← attempt (account_guard request);
  existing_ticket ← attempt (unvalidated_ticket_guard request);
  account ← ticket_account account existing_ticket;
  account ← consume_mfa_response account data None;
  ticket ← new_ticket (Account.id account) true;
  save_ticket ticket ;;
  mret ticket.

Definition fetch_recovery (request : Credential.t) : H (list string) :=
  account ← account_guard request;
  validated_ticket_guard request ;;
  mret (MultiFactorAuthentication.recovery_codes (Account.mfa account)).

Definition fetch_status (request : Credential.t) : H MultiFactorStatus.t :=
  account ← account_guard request;
  mret (MultiFactorStatus.from (Account.mfa account)).

(** Draw [k] random values; the first is the [n]-th the process draws. *)
Definition draw (k : nat) : H nat :=
  λ w, (Ok (World.ulids w), World.set_ulids w (k + World.ulids w)).

Definition generate_recovery (request : Credential.t) : H (list string) :=
  account ← account_guard request;
  validated_ticket_guard request ;;
  n ← draw 20;
  let mfa := MultiFactorAuthentication.generate_recovery_codes n (Account.mfa account) in
  save_account (Account.set_mfa account mfa) ;;
  mret (MultiFactorAuthentication.recovery_codes mfa).

Definition get_mfa_methods (request : Credential.t) : H (list MFAMethod.t) :=
  account ← account_guard request;
  mret (MultiFactorAuthentication.get_methods (Account.mfa account)).

Definition totp_disable (request : Credential.t) : H unit :=
  account ← account_guard request;
  validated_ticket_guard request ;;
  save_account (Account.set_mfa account
    (MultiFactorAuthentication.set_totp_token (Account.mfa account) Totp.Disabled)).

Definition totp_enable (request : Credential.t) (data : MFAResponse.t) : H unit :=
  account ← account_guard request;
  now ← clock;
  mfa ← lift (MultiFactorAuthentication.enable_totp now data (Account.mfa account));
  save_account (Account.set_mfa account mfa).

Definition totp_generate_secret (request : Credential.t) : H string :=
  account ← account_guard request;
  validated_ticket_guard request ;;
  n ← draw 1;
  '(secret, mfa) ← lift (MultiFactorAuthentication.generate_new_totp_secret n (Account.mfa account));
  save_account (Account.set_mfa account mfa) ;;
  mret secret.

(** ** [crond/src/tasks] *)

(** Delete the user of an account that is due, and mark the account *)
Definition delete_due (account : Account.t) : H unit :=
  λ w, match on_users (UsersTable.fetch_user (Account.id account)) w with
       | (Ok user, w) => (delete_user user ;; mark_account_deleted account ;; mret tt) w
       | (Err ErrorType.NotFound, w) => (mark_account_deleted account ;; mret tt) w
       | (Err error, w) => (Err error, w)
       | (Panicked, w) => (Panicked, w)
       end.

(** One round of [delete_accounts] *)
Definition delete_accounts : H nat :=
  now ← clock;
  accounts ← on_accounts (AccountsTable.fetch_accounts_due_for_deletion now);
  for_each accounts delete_due ;;
  mret (length accounts).

(** One round of [prune_registration_ips] *)
Definition prune_registration_ips : H unit :=
  now ← clock;
  on_accounts (AccountsTable.clear_expired_registration_ips
    (now - seconds (ApiSettings.registration_ip_retention_seconds api))%Z).

(** One round of [prune_mfa_tickets]; [ulid_from_datetime] makes a new ULID of a time *)
Definition prune_mfa_tickets (ulid_from_datetime : Z → nat → string) : H nat :=
  now ← clock;
  n ← draw 1;
  on_tickets (TicketsTable.delete_expired_tickets (ulid_from_datetime (now - minutes 5)%Z n)).
End Routes.
