(* ===== verification/AccountTheorems.v ===== *)
(** * Theorems on accounts, sessions and multi-factor authentication

    Sessions are created only for valid credentials, disabled accounts have no sessions
    whatever requests come in, sensitive requests need a ticket that works once, guessing
    passwords is slow, recovery codes and password resets work once, and what a round of the
    task that deletes accounts does. *)

From stdpp Require Import base list gmap strings pretty.
From Stdlib Require Import ZArith Lia Sorted.
From S2P Require Import Prelude Errors Permissions PermissionSpec Files Users Servers Channels.
From S2P Require Import PermissionQuery Messages Unreads Config Emojis Webhooks Bots AuditLogs.
From S2P Require Import Accounts World Database Relationships MessageOps ChannelOps References.
From S2P Require Import Triples ServerOps UserOps AccountOps AccountRoutes.

(** ** The tables *)

Definition accounts (w : World.t) : AccountsTable.table := ReferenceDb.accounts (World.db w).
Definition sessions (w : World.t) : SessionsTable.table := ReferenceDb.sessions (World.db w).
Definition tickets (w : World.t) : TicketsTable.table := ReferenceDb.tickets (World.db w).
Definition account_invites (w : World.t) : AccountInvitesTable.table :=
  ReferenceDb.account_invites (World.db w).

(** ** Requests *)

(** The requests that change accounts, sessions or tickets, suspension, and the rounds of the
    tasks *)
Inductive account_request : Type :=
| CreateAccount (request : Credential.t) (data : DataCreateAccount.t)
| VerifyEmail (code : string)
| SendPasswordReset (data : DataResend.t)
| PasswordResetWith (data : DataPasswordReset.t)
| ResendVerification (data : DataResend.t)
| ChangeEmail (request : Credential.t) (data : DataChangeEmail.t)
| ChangePassword (request : Credential.t) (data : DataChangePassword.t)
| DeleteAccount (request : Credential.t)
| ConfirmDeletion (token : string)
| DisableAccount (request : Credential.t)
| Login (data : DataLogin.t)
| Logout (request : Credential.t)
| EditSession (request : Credential.t) (id friendly_name : string)
| Revoke (request : Credential.t) (id : string)
| RevokeAll (request : Credential.t) (revoke_self : option bool)
| CreateTicket (request : Credential.t) (data : MFAResponse.t)
| FetchRecovery (request : Credential.t)
| GenerateRecovery (request : Credential.t)
| TotpDisable (request : Credential.t)
| TotpEnable (request : Credential.t) (data : MFAResponse.t)
| TotpGenerateSecret (request : Credential.t)
| Suspend (user : User.t) (duration_days : option nat) (reason : option (list string))
| DeleteAccountsRound
| PruneRegistrationIps
| PruneMfaTickets (ulid_from_datetime : Z → nat → string).

Section Theorems.
Context `{Environment, MutualIds, HashIter, Lowercase, Credentials, Services}.
Context `{OptionalStruct User.t PartialUser.t}.

Definition run_request (r : account_request) : H unit :=
  match r with
  | CreateAccount request data => create_account request data
  | VerifyEmail code => verify_email code ;; mret tt
  | SendPasswordReset data => send_password_reset data
  | PasswordResetWith data => password_reset data
  | ResendVerification data => resend_verification data
  | ChangeEmail request data => change_email request data
  | ChangePassword request data => change_password request data
  | DeleteAccount request => delete_account request ;; mret tt
  | ConfirmDeletion token => confirm_deletion token
  | DisableAccount request => disable_account request
  | Login data => login data ;; mret tt
  | Logout request => logout request
  | EditSession request id friendly_name => session_edit request id friendly_name ;; mret tt
  | Revoke request id => revoke request id
  | RevokeAll request revoke_self => revoke_all request revoke_self
  | CreateTicket request data => create_ticket request data ;; mret tt
  | FetchRecovery request => fetch_recovery request ;; mret tt
  | GenerateRecovery request => generate_recovery request ;; mret tt
  | TotpDisable request => totp_disable request
  | TotpEnable request data => totp_enable request data
  | TotpGenerateSecret request => totp_generate_secret request ;; mret tt
  | Suspend user duration_days reason => suspend user duration_days reason ;; mret tt
  | DeleteAccountsRound => delete_accounts ;; mret tt
  | PruneRegistrationIps => prune_registration_ips
  | PruneMfaTickets ulid_from_datetime => prune_mfa_tickets ulid_from_datetime ;; mret tt
  end.

(** ** Steps that leave accounts and sessions alone *)

Definition auth (w : World.t) : AccountsTable.table * SessionsTable.table := (accounts w, sessions w).

Lemma ulid_auth : keeps auth ulid.
Proof. done. Qed.
Lemma nanoid_auth : keeps auth nanoid.
Proof. done. Qed.
Lemma draw_auth k : keeps auth (draw k).
Proof. done. Qed.
Lemma p_auth event channel : keeps auth (p event channel).
Proof. done. Qed.
Lemma amqp_auth message : keeps auth (amqp message).
Proof. done. Qed.
#[local] Hint Resolve ulid_auth nanoid_auth draw_auth p_auth amqp_auth : keeps.

Lemma send_email_auth address template variables : keeps auth (send_email address template variables).
Proof.
  unfold send_email. destruct (negb _); [done|]. apply keeps_bind; [done|]. intros n.
  by destruct (relay_accepts n).
Qed.
#[local] Hint Resolve send_email_auth : keeps.
Lemma hash_password_auth password : keeps auth (hash_password password).
Proof. unfold hash_password. solve_keeps. Qed.
Lemma mail_token_auth self address template : keeps auth (mail_token self address template).
Proof. unfold mail_token. solve_keeps. Qed.
Lemma in_future_auth d : keeps auth (in_future d).
Proof. unfold in_future, clock. solve_keeps. Qed.
Lemma new_ticket_auth id validated : keeps auth (new_ticket id validated).
Proof. unfold new_ticket. solve_keeps. Qed.
Lemma save_ticket_auth ticket : keeps auth (save_ticket ticket).
Proof. unfold save_ticket, on_tickets. solve_keeps. Qed.
Lemma on_tickets_auth {A} (m : TicketsTable.T A) : keeps auth (on_tickets m).
Proof. unfold on_tickets. solve_keeps. Qed.
Lemma on_users_auth {A} (m : UsersTable.T A) : keeps auth (on_users m).
Proof. unfold on_users. solve_keeps. Qed.
Lemma on_account_invites_auth {A} (m : AccountInvitesTable.T A) : keeps auth (on_account_invites m).
Proof. unfold on_account_invites. solve_keeps. Qed.
#[local] Hint Resolve hash_password_auth mail_token_auth in_future_auth new_ticket_auth
  save_ticket_auth on_tickets_auth on_users_auth on_account_invites_auth : keeps.
Lemma claim_auth ticket : keeps auth (claim ticket).
Proof. unfold claim, clock. solve_keeps. Qed.
#[local] Hint Resolve claim_auth : keeps.

Lemma update_user_auth self partial remove : keeps auth (update_user self partial remove).
Proof. intros w. unfold auth, accounts, sessions. by rewrite update_user_db. Qed.
#[local] Hint Resolve update_user_auth : keeps.

Lemma remove_chunks_auth fuel user_id generator : keeps auth (remove_chunks fuel user_id generator).
Proof.
  revert generator. induction fuel as [|fuel IH]; intros g; cbn [remove_chunks]; [done|].
  destruct (ChunkedDatabaseGenerator.next_n 100 g) as [[groups|] g']; [|done].
  unfold on_channels. apply keeps_bind; [by apply keeps_table|]. intros _. apply IH.
Qed.
#[local] Hint Resolve remove_chunks_auth : keeps.

Lemma delete_bot_auth b : keeps auth (delete_bot b).
Proof. unfold delete_bot, mark_deleted, on_bots. solve_keeps. Qed.
Lemma delete_server_auth server : keeps auth (delete_server server).
Proof. unfold delete_server, on_servers. solve_keeps. Qed.
Lemma remove_from_all_groups_auth self : keeps auth (remove_from_all_groups self).
Proof. unfold remove_from_all_groups, on_channels. solve_keeps. Qed.
#[local] Hint Resolve delete_bot_auth delete_server_auth remove_from_all_groups_auth
  for_each_keeps : keeps.

Lemma delete_user_auth self : keeps auth (delete_user self).
Proof.
  unfold delete_user, mark_deleted, clear_relationships, on_bots, on_servers, on_members, on_messages.
  solve_keeps.
Qed.
#[local] Hint Resolve delete_user_auth : keeps.

(** ** Disabled accounts *)

(** An assertion about accounts and sessions only *)
Definition of_auth (P : World.t → Prop) : Prop := ∀ w w', auth w' = auth w → P w → P w'.

(** The account is stored as it is. *)
Definition stored (a : Account.t) (w : World.t) : Prop := accounts w !! Account.id a = Some a.
Definition no_session (id : string) (w : World.t) : Prop :=
  ∀ k s, sessions w !! k = Some s → Session.user_id s ≠ id.

(** Accounts are stored under their ids, and disabled accounts have no session. *)
Definition auth_wf (w : World.t) : Prop :=
  (∀ k a, accounts w !! k = Some a → Account.id a = k) ∧
  (∀ k a, accounts w !! k = Some a → Account.disabled a = true → no_session k w).

Lemma of_auth_wf : of_auth auth_wf.
Proof. intros w w' [= E1 E2]. unfold auth_wf, no_session. by rewrite E1, E2. Qed.
Lemma of_auth_stored a : of_auth (stored a).
Proof. intros w w' [= E1 _]. unfold stored. by rewrite E1. Qed.
Lemma of_auth_no_session id : of_auth (no_session id).
Proof. intros w w' [= _ E2]. unfold no_session. by rewrite E2. Qed.
Lemma of_auth_true : of_auth (λ _, True).
Proof. done. Qed.
Lemma of_auth_and P Q : of_auth P → of_auth Q → of_auth (λ w, P w ∧ Q w).
Proof. intros HP HQ w w' E [Pw Qw]. split; [by apply (HP w)|by apply (HQ w)]. Qed.
Lemma of_auth_pure (P : Prop) : of_auth (λ _, P).
Proof. by intros w w' _ HP. Qed.
#[local] Hint Resolve of_auth_wf of_auth_stored of_auth_no_session of_auth_true of_auth_and
  of_auth_pure : of_auth.

Lemma triple_quiet {A} I P (m : H A) :
  of_auth I → of_auth P → keeps auth m → triple I P m (λ _ w, P w).
Proof.
  intros HI HP Hm. apply (triple_keeps I auth); [done|].
  intros w w' E Iw Pw. split; [by apply (HI w)|by apply (HP w)].
Qed.

(** Saving an account: a disabled one must have no session. *)
Lemma save_account_wf a :
  triple auth_wf (λ w, Account.disabled a = true → no_session (Account.id a) w) (save_account a)
    (λ _ w, stored a w).
Proof.
  intros w [Hkeyed Hlocked] Hno. unfold save_account, on_accounts. rewrite on_table_run.
  cbn [AccountsTable.save_account modify fst snd].
  match goal with |- context [World.set_db ?w ?d] => set (w' := World.set_db w d) end.
  assert (accounts w' = <[Account.id a := a]> (accounts w)) as Ha by done.
  assert (sessions w' = sessions w) as Hs by done. split; [split|].
  - intros k x. rewrite Ha. intros [[<- <-]|[_ Hx]]%lookup_insert_Some; [done|by apply Hkeyed].
  - intros k x. rewrite Ha. unfold no_session. rewrite Hs.
    intros [[<- <-]|[_ Hx]]%lookup_insert_Some Hd; [by apply Hno|by apply (Hlocked k x)].
  - intros _ _. unfold stored. by rewrite Ha, lookup_insert_eq.
Qed.

(** Saving a change to an account that does not disable it *)
Definition may_save (a : Account.t) (w : World.t) : Prop :=
  Account.disabled a = true → no_session (Account.id a) w.
Lemma of_auth_may_save a : of_auth (may_save a).
Proof. intros w w' E Ha Hd. apply (of_auth_no_session _ w); auto. Qed.
#[local] Hint Resolve of_auth_may_save : of_auth.
Lemma stored_may_save a w : auth_wf w → stored a w → may_save a w.
Proof. intros [_ Hlocked] Ha Hd. by apply (Hlocked _ a). Qed.

Definition alike (a a' : Account.t) : Prop :=
  Account.id a' = Account.id a ∧ Account.disabled a' = Account.disabled a.
Lemma may_save_alike a a' w : alike a a' → may_save a w → may_save a' w.
Proof. intros [Hid Hd] Ha. unfold may_save. by rewrite Hid, Hd. Qed.
Lemma save_alike_wf a0 a :
  alike a0 a → triple auth_wf (may_save a0) (save_account a) (λ _ w, stored a w).
Proof.
  intros Ha. eapply triple_conseq; [apply save_account_wf| |done].
  intros w _. by apply (may_save_alike a0).
Qed.

Lemma create_session_wf a name :
  triple auth_wf (λ w, stored a w ∧ Account.disabled a = false) (create_session a name)
    (λ _ _, True).
Proof.
  unfold create_session.
  do 3 (eapply triple_bind; [apply triple_quiet; [auto with of_auth..|solve_keeps; done]|intros ?]).
  cbv zeta. set (s := Session.mk _ _ _ _ _ _ _). eapply triple_bind with (Q := λ _ _, True).
  - intros w [Hkeyed Hlocked] [Ha Hd]. unfold on_sessions. rewrite on_table_run.
    cbn [SessionsTable.save_session modify fst snd]. split; [|done].
    match goal with |- auth_wf ?x => set (w' := x) end.
    assert (accounts w' = accounts w) as Eacc by done.
    assert (sessions w' = <[Session.id s := s]> (sessions w)) as Es by done. split.
    + intros k x. rewrite Eacc. apply Hkeyed.
    + intros k x. rewrite Eacc. intros Hx Hdx i y. rewrite Es.
      intros [[<- <-]|[_ Hy]]%lookup_insert_Some.
      * intros <-. cbn in Hx. unfold stored in Ha. rewrite Ha in Hx. congruence.
      * by apply (Hlocked k x Hx Hdx i).
  - intros []. eapply triple_bind; [apply triple_quiet; [auto with of_auth..|done]|].
    intros []. by apply triple_ret.
Qed.

(** Sessions that only become fewer *)
Lemma sessions_shrink {A} (m : SessionsTable.T A) P :
  (∀ t k s, (m t).2 !! k = Some s → t !! k = Some s) →
  (∀ w d, P w → P (World.set_db w (ReferenceDb.set_sessions (World.db w) d))) →
  triple auth_wf P (on_sessions m) (λ _ w, P w).
Proof.
  intros Hm HP w [Hkeyed Hlocked] Pw. unfold on_sessions. rewrite on_table_run.
  cbn [fst snd]. split; [split; [exact Hkeyed|]|intros _ _; by apply HP].
  intros k a Ha Hd i s Hs. apply (Hlocked k a Ha Hd i). by apply Hm.
Qed.

Lemma delete_all_sessions_wf a ignore P :
  (∀ w d, P w → P (World.set_db w (ReferenceDb.set_sessions (World.db w) d))) → of_auth P →
  triple auth_wf P (delete_all_sessions a ignore) (λ _ w, P w).
Proof.
  intros HP HP'. unfold delete_all_sessions. eapply triple_bind.
  - apply sessions_shrink; [|done]. intros t k s [Hs _]%map_lookup_filter_Some. done.
  - intros []. apply triple_quiet; [auto with of_auth..|done].
Qed.

Lemma delete_all_none a w :
  no_session (Account.id a) (delete_all_sessions a None w).2.
Proof.
  intros k s Hs. cbn in Hs. unfold sessions in Hs. cbn in Hs.
  apply map_lookup_filter_Some in Hs as [_ Hs]. cbn in Hs. intros Heq.
  by rewrite bool_decide_eq_true_2 in Hs.
Qed.

Lemma disable_wf a : triple auth_wf (λ _, True) (disable a) (λ a' w, stored a' w).
Proof.
  unfold disable. set (a' := Account.set_disabled a true).
  eapply triple_bind with (Q := λ _ w, no_session (Account.id a') w).
  - intros w Iw Ha. split; [|intros _ _; apply (delete_all_none a')].
    apply (delete_all_sessions_wf a' None (λ _, True)); auto with of_auth.
  - intros []. eapply triple_bind with (Q := λ _ w, stored a' w).
    + eapply triple_conseq; [apply save_account_wf|by intros w _ Hno _|done].
    + intros []. by apply triple_ret.
Qed.

Lemma clock_auth : keeps auth clock.
Proof. done. Qed.
Lemma private_auth event id : keeps auth (private event id).
Proof. done. Qed.
Lemma global_auth event : keeps auth (global event).
Proof. done. Qed.
#[local] Hint Resolve clock_auth private_auth global_auth : keeps.

(** ** Steps that read *)

Lemma fetch_session_by_token_reads token :
  reads (on_sessions (SessionsTable.fetch_session_by_token token)).
Proof. unfold on_sessions. solve_reads. Qed.
Lemma fetch_account_reads id : reads (on_accounts (AccountsTable.fetch_account id)).
Proof. unfold on_accounts. solve_reads. Qed.
Lemma find_by_email_reads email :
  reads (on_accounts (AccountsTable.fetch_account_by_normalised_email email)).
Proof. unfold on_accounts. solve_reads. Qed.
Lemma fetch_ticket_reads now token :
  reads (on_tickets (TicketsTable.fetch_ticket_by_token now token)).
Proof.
  unfold on_tickets. apply reads_table; [by intros []|]. intros t.
  unfold TicketsTable.fetch_ticket_by_token. rewrite !M_bind_unfold. cbn [gets].
  rewrite M_bind_unfold. destruct (List.find _ _) as [ticket|]; cbn [ok_or lift]; [|done].
  destruct (ulid_timestamp_ms _); [|done]. by destruct (_ <? _)%Z.
Qed.
#[local] Hint Resolve fetch_session_by_token_reads fetch_account_reads find_by_email_reads
  fetch_ticket_reads : reads.

Lemma session_guard_reads request : reads (session_guard request).
Proof. unfold session_guard. solve_reads. Qed.
#[local] Hint Resolve session_guard_reads : reads.
Lemma account_guard_reads request : reads (account_guard request).
Proof. unfold account_guard. solve_reads. Qed.
Lemma ticket_guard_reads request : reads (ticket_guard request).
Proof. unfold ticket_guard. solve_reads. Qed.
#[local] Hint Resolve account_guard_reads ticket_guard_reads : reads.


(** What the guards give *)
Lemma fetch_account_spec id a w :
  on_accounts (AccountsTable.fetch_account id) w = (Ok a, w) → accounts w !! id = Some a.
Proof.
  unfold on_accounts. rewrite on_table_run. unfold AccountsTable.fetch_account, table_fetch.
  intros [= Hr]. fold (accounts w) in Hr.
  destruct (accounts w !! id); simplify_eq/=; done.
Qed.
Lemma find_account_spec f a w :
  on_accounts (AccountsTable.find_account f) w = (Ok (Some a), w) →
  f a = true ∧ ∃ k, accounts w !! k = Some a.
Proof.
  unfold on_accounts. rewrite on_table_run. unfold AccountsTable.find_account, gets.
  intros [= Hr]. apply find_some in Hr as [Hin Hf]. split; [done|].
  by apply list_elem_of_In, elem_of_hash_values in Hin.
Qed.
Lemma attempt_ok {A} (m : H A) w a w' : attempt m w = (Ok (Some a), w') → m w = (Ok a, w').
Proof. unfold attempt. destruct (m w) as [[x| |] w1]; intros Hr; by simplify_eq. Qed.

Lemma session_guard_spec request s w :
  session_guard request w = (Ok s, w) → ∃ k, sessions w !! k = Some s.
Proof.
  unfold session_guard. destruct (match Credential.session_token request with Some _ => _ | None => _ end)
    as [token|]; [|done].
  intros Hrun. apply bind_Ok_inv_reads in Hrun as ([x|] & Hx & Hrun); [|done|solve_reads].
  injection Hrun as ->. apply attempt_ok in Hx. unfold on_sessions in Hx. rewrite on_table_run in Hx.
  unfold SessionsTable.fetch_session_by_token in Hx. cbn in Hx. injection Hx as Hx.
  destruct (List.find _ _) as [y|] eqn:Hf; [|done]. injection Hx as ->.
  apply find_some in Hf as [Hin _]. by apply list_elem_of_In, elem_of_hash_values in Hin.
Qed.
Lemma account_guard_spec request a w :
  account_guard request w = (Ok a, w) → ∃ k s, sessions w !! k = Some s ∧
    accounts w !! Session.user_id s = Some a.
Proof.
  unfold account_guard. intros Hrun. unbind Hrun s. apply session_guard_spec in Es as [k Hs].
  unbind Hrun x. destruct x as [x|]; [|done]. injection Hrun as ->.
  apply attempt_ok, fetch_account_spec in Ex. by exists k, s.
Qed.

(** ** Triples of the handlers and routes *)

Lemma validated_ticket_guard_auth request : keeps auth (validated_ticket_guard request).
Proof.
  unfold validated_ticket_guard. apply keeps_bind; [apply reads_keeps, ticket_guard_reads|intros t].
  solve_keeps.
Qed.
#[local] Hint Resolve validated_ticket_guard_auth : keeps.

(** A quiet step, then the rest *)
Ltac quiet :=
  eapply triple_bind; [apply triple_quiet; [auto with of_auth..|solve [solve_keeps]]|intros ?].
(** A quiet handler *)
Ltac all_quiet := eapply triple_conseq; [apply triple_quiet; [..|solve [solve_keeps]]|..]; auto with of_auth.

Lemma account_guard_wf request P :
  triple auth_wf P (account_guard request)
    (λ a w, stored a w ∧ Account.disabled a = false ∧ P w).
Proof.
  eapply triple_conseq; [apply triple_reads, account_guard_reads|by intros w _ Pw; apply Pw|].
  intros a w [Hkeyed Hlocked] [Pw Hrun]. apply account_guard_spec in Hrun as (k & s & Hs & Ha).
  split_and!; [|apply not_true_iff_false|done].
  - unfold stored. by rewrite (Hkeyed _ _ Ha).
  - intros Hd. by apply (Hlocked _ _ Ha Hd k s Hs).
Qed.

Lemma fetch_account_wf id P :
  triple auth_wf P (on_accounts (AccountsTable.fetch_account id)) (λ a w, stored a w ∧ P w).
Proof.
  eapply triple_conseq; [apply triple_reads, fetch_account_reads|by intros w _ Pw; apply Pw|].
  intros a w [Hkeyed _] [Pw Ha%fetch_account_spec]. split; [|done].
  unfold stored. by rewrite (Hkeyed _ _ Ha).
Qed.

Lemma find_account_wf f P :
  triple auth_wf P (on_accounts (AccountsTable.find_account f))
    (λ o w, ∀ a, o = Some a → stored a w ∧ f a = true).
Proof.
  eapply triple_conseq; [apply triple_reads; unfold on_accounts; solve_reads|by intros w _ Pw; apply Pw|].
  intros o w [Hkeyed _] [_ Hrun] a ->. apply find_account_spec in Hrun as [Hf [k Ha]].
  split; [|done]. unfold stored. by rewrite (Hkeyed _ _ Ha).
Qed.

(** Accounts found by a token *)
Lemma find_token_wf f P e :
  triple auth_wf P
    (on_accounts (found ← AccountsTable.find_account f; lift (ok_or found e)))
    (λ a w, stored a w).
Proof.
  intros w Iw Pw. destruct (find_account_wf f P w Iw Pw) as [Iw' HQ].
  unfold on_accounts in *. rewrite on_table_run in *. rewrite M_bind_unfold.
  unfold AccountsTable.find_account, gets in *. cbn in *. split; [done|].
  intros a. destruct (List.find _ _) as [x|] eqn:Hx; [|done]. intros [= ->]. by apply (HQ (Some a)).
Qed.

Lemma start_email_verification_wf a :
  triple auth_wf (may_save a) (start_email_verification a) (λ a' w, stored a' w).
Proof.
  unfold start_email_verification.
  eapply triple_bind with (Q := λ a' w, may_save a w ∧ alike a a').
  - destruct mail_disabled; [by apply triple_ret|]. quiet. quiet. by apply triple_ret.
  - intros a'. eapply triple_bind with (Q := λ _ w, stored a' w); [|intros []; by apply triple_ret].
    intros w Iw [Ha Halike]. by apply (save_alike_wf a a').
Qed.

Lemma start_email_move_wf a new_email :
  triple auth_wf (may_save a) (start_email_move a new_email) (λ a' w, stored a' w).
Proof.
  unfold start_email_move. destruct (EmailVerification.is_pending _); [apply triple_throw|].
  eapply triple_bind with (Q := λ a' w, may_save a w ∧ alike a a').
  - destruct mail_disabled; [quiet; by apply triple_ret|]. quiet. quiet. by apply triple_ret.
  - intros a'. eapply triple_bind with (Q := λ _ w, stored a' w); [|intros []; by apply triple_ret].
    intros w Iw [Ha Halike]. by apply (save_alike_wf a a').
Qed.

Lemma start_password_reset_wf a existing :
  triple auth_wf (may_save a) (start_password_reset a existing) (λ a' w, stored a' w).
Proof.
  unfold start_password_reset. destruct mail_disabled; [apply triple_throw|]. quiet. quiet. cbv zeta.
  eapply triple_bind; [by apply (save_alike_wf a)|intros []; by apply triple_ret].
Qed.

Lemma schedule_deletion_wf a : triple auth_wf (λ _, True) (schedule_deletion a) (λ a' w, stored a' w).
Proof. unfold schedule_deletion. quiet. apply disable_wf. Qed.

Lemma new_account_wf email password :
  triple auth_wf (λ _, True) (new_account email password false) (λ a' w, stored a' w).
Proof.
  unfold new_account. quiet. eapply triple_bind; [apply find_account_wf|intros [acc|]].
  - eapply triple_conseq with (P' := may_save acc) (Q' := λ a' w, stored a' w); [| |done].
    + destruct (EmailVerification.is_pending _);
        [apply start_email_verification_wf|apply start_password_reset_wf].
    + intros w Iw Ha. apply stored_may_save; [done|]. by apply Ha.
  - eapply triple_conseq with (P' := λ _, True); [|done|done].
    quiet. quiet. cbv zeta. eapply triple_bind with (Q := λ a' w, stored a' w).
    + eapply triple_bind; [eapply triple_conseq; [apply save_account_wf|done|done]|].
      intros []. by apply triple_ret.
    + intros a'. quiet. by apply triple_ret.
Qed.

Lemma consume_mfa_response_wf a response ticket :
  triple auth_wf (stored a) (consume_mfa_response a response ticket)
    (λ a' w, stored a' w ∧ alike a a').
Proof.
  unfold consume_mfa_response. destruct response as [password|code|code].
  - destruct (bool_decide _); [|apply triple_throw]. quiet. by apply triple_ret.
  - destruct (bool_decide _); [|apply triple_throw].
    destruct (remove_first _ _) as [codes|]; [|apply triple_throw]. cbv zeta.
    eapply triple_bind with (Q := λ _ w, stored (Account.set_mfa a
      (MultiFactorAuthentication.set_recovery_codes (Account.mfa a) codes)) w);
      [|intros []; by apply triple_ret].
    eapply triple_conseq; [by apply (save_alike_wf a)|apply stored_may_save|done].
  - destruct (bool_decide _); [|apply triple_throw].
    destruct (bool_decide _); [by apply triple_ret|]. quiet. quiet.
    destruct (bool_decide _); [by apply triple_ret|apply triple_throw].
Qed.

(** A stored account may be saved again. *)
Lemma from_stored {A} a (m : H A) Q :
  triple auth_wf (may_save a) m Q → triple auth_wf (stored a) m Q.
Proof. intros Hm. eapply triple_conseq; [apply Hm|apply stored_may_save|done]. Qed.

(** Save a change as the last step *)
Lemma save_last_wf a a' :
  alike a a' → triple auth_wf (stored a) (save_account a') (λ _ _, True).
Proof.
  intros Ha. apply from_stored. eapply triple_conseq; [by apply (save_alike_wf a)|done|done].
Qed.

Lemma login_account_wf a name :
  triple auth_wf (stored a) (login_account a name) (λ _ _, True).
Proof.
  unfold login_account. destruct (Account.disabled a) eqn:Hd; [by apply triple_ret|].
  eapply triple_bind; [eapply triple_conseq; [apply create_session_wf|done|done]|intros s].
  quiet. quiet. by apply triple_ret.
Qed.

Lemma login_email_wf email password :
  triple auth_wf (λ _, True) (login_email email password)
    (λ r w, ∀ a, r = inl a → stored a w).
Proof.
  unfold login_email. quiet. eapply triple_bind; [apply find_account_wf|intros found].
  eapply triple_bind with (Q := λ acc w, stored acc w).
  { eapply triple_conseq; [apply triple_lift|intros w _ Hw; exact Hw|].
    intros acc w _ [Hf Ho]. destruct found as [x|]; simplify_eq/=. by destruct (Hf acc eq_refl). }
  intros acc. quiet. quiet. destruct (locked_out _ _); [apply triple_throw|].
  destruct (Account.verify_password acc password) as [[]| |]; [|..|apply triple_panic].
  - eapply triple_bind with (Q := λ acc' w, stored acc' w).
    + destruct (bool_decide _); [|by apply triple_ret].
      eapply triple_bind; [by apply from_stored, (save_alike_wf acc)|intros []; by apply triple_ret].
    + intros acc'. destruct (MultiFactorAuthentication.is_active _).
      * do 4 quiet. by apply triple_ret.
      * apply triple_ret. by intros w Hw ? [= <-].
  - eapply triple_bind; [|intros ?; apply triple_throw]. unfold login_failed. quiet.
    by apply (save_last_wf acc).
Qed.

Lemma login_mfa_wf ticket response :
  triple auth_wf (λ _, True) (login_mfa ticket response) (λ a w, stored a w).
Proof.
  unfold login_mfa. quiet. quiet. eapply triple_bind; [apply fetch_account_wf|intros acc].
  destruct response as [response|].
  - eapply triple_conseq; [apply consume_mfa_response_wf|by intros w _ [Hw _]|by intros a' w _ [Hw _]].
  - destruct (MFATicket.authorised _); [|apply triple_throw]. apply triple_ret. by intros w [Hw _].
Qed.

Lemma login_wf data : triple auth_wf (λ _, True) (login data) (λ _ _, True).
Proof.
  destruct data as [email password name|ticket response name]; cbn [login].
  - eapply triple_bind; [apply login_email_wf|intros [acc|r]; [|by apply triple_ret]].
    eapply triple_conseq; [apply login_account_wf|by intros w _ Hw; apply Hw|done].
  - eapply triple_bind; [apply login_mfa_wf|intros acc; apply login_account_wf].
Qed.

(** The sessions of somebody who has one may change. *)
Lemma session_edit_wf request id name :
  triple auth_wf (λ _, True) (session_edit request id name) (λ _ _, True).
Proof.
  unfold session_edit. eapply triple_bind; [apply triple_reads, session_guard_reads|intros user].
  eapply triple_bind.
  { apply triple_reads. unfold on_sessions. solve_reads. }
  intros s. destruct (negb _); [apply triple_throw|]. cbv zeta.
  eapply triple_bind with (Q := λ _ _, True); [|intros []; by apply triple_ret].
  intros w [Hkeyed Hlocked] [_ Hs]. unfold on_sessions in *. rewrite on_table_run.
  rewrite on_table_run in Hs.
  unfold SessionsTable.fetch_session, table_fetch in Hs. fold (sessions w) in Hs.
  destruct (sessions w !! id) as [s'|] eqn:Hs'; [|done]. injection Hs as -> _.
  split; [|done]. split; [exact Hkeyed|]. intros k a Ha Hd i x Hx.
  change (<[Session.id s := Session.set_name s name]> (sessions w) !! i = Some x) in Hx.
  apply lookup_insert_Some in Hx as [[<- <-]|[_ Hx]]; [|by apply (Hlocked k a Ha Hd i)].
  exact (Hlocked k a Ha Hd id s Hs').
Qed.

Lemma delete_session_wf s P :
  (∀ w d, P w → P (World.set_db w (ReferenceDb.set_sessions (World.db w) d))) → of_auth P →
  triple auth_wf P (delete_session s) (λ _ w, P w).
Proof.
  intros HP HP'. unfold delete_session. eapply triple_bind; [apply sessions_shrink; [|done]|].
  - intros t k x. unfold SessionsTable.delete_session, table_delete.
    destruct (t !! Session.id s); [|done]. cbn [snd]. by intros [_ Hx]%lookup_delete_Some.
  - intros []. apply triple_quiet; auto with of_auth keeps.
Qed.

Lemma create_account_wf request data :
  triple auth_wf (λ _, True) (create_account request data) (λ _ _, True).
Proof.
  unfold create_account. do 4 quiet. eapply triple_bind with (Q := λ _ _, True).
  { apply triple_quiet; [auto with of_auth..|]. unfold fetch_invite. solve_keeps. }
  intros invite. eapply triple_bind; [apply new_account_wf|intros acc]. quiet.
  eapply triple_bind with (Q := λ _ _, True).
  - destruct (bool_decide _); [by apply (save_last_wf acc)|by apply triple_ret].
  - intros []. destruct invite; [|by apply triple_ret].
    apply triple_quiet; [auto with of_auth..|]. solve_keeps.
Qed.

Lemma verify_email_wf code : triple auth_wf (λ _, True) (verify_email code) (λ _ _, True).
Proof.
  unfold verify_email. eapply triple_bind; [apply find_token_wf|intros acc].
  eapply triple_bind with (Q := λ r w, stored acc w ∧ alike acc r.1).
  - destruct (Account.verification acc); [|..|quiet; by apply triple_ret];
      do 2 quiet; by apply triple_ret.
  - intros [acc' response]. eapply triple_bind with (Q := λ _ _, True); [|intros []; by apply triple_ret].
    intros w Iw [Ha Halike]. by apply (save_last_wf acc (Account.set_verification acc' _)).
Qed.

Lemma attempt_find_wf f :
  triple auth_wf (λ _, True) (attempt (on_accounts (AccountsTable.find_account f)))
    (λ o w, ∀ a, o = Some (Some a) → stored a w ∧ f a = true).
Proof.
  eapply triple_conseq; [apply triple_attempt, (find_account_wf f (λ _, True))|done|].
  intros o w _ Ho a ->. by apply (Ho (Some a) eq_refl).
Qed.

Lemma send_password_reset_wf data : triple auth_wf (λ _, True) (send_password_reset data) (λ _ _, True).
Proof.
  unfold send_password_reset. do 3 quiet. eapply triple_bind; [apply attempt_find_wf|intros found].
  destruct found as [[acc|]|]; [|by apply triple_ret..].
  destruct (EmailVerification.is_pending _); [by apply triple_ret|].
  eapply triple_bind with (Q := λ _ _, True); [|intros ?; by apply triple_ret].
  eapply triple_conseq; [apply triple_attempt, (start_password_reset_wf acc)| |done].
  intros w Iw Ha. apply stored_may_save; [done|]. by destruct (Ha acc eq_refl).
Qed.

Lemma resend_verification_wf data : triple auth_wf (λ _, True) (resend_verification data) (λ _ _, True).
Proof.
  unfold resend_verification. do 3 quiet. eapply triple_bind; [apply attempt_find_wf|intros found].
  destruct found as [[acc|]|]; [|by apply triple_ret..].
  eapply triple_conseq with (P' := may_save acc) (Q' := λ _ _, True); [| |done].
  - destruct (Account.verification acc); [| |by apply triple_ret];
      (eapply triple_bind; [|intros ?; by apply triple_ret]);
      [apply start_password_reset_wf|apply start_email_verification_wf].
  - intros w Iw Ha. apply stored_may_save; [done|]. by destruct (Ha acc eq_refl).
Qed.

Lemma password_reset_wf data : triple auth_wf (λ _, True) (password_reset data) (λ _ _, True).
Proof.
  unfold password_reset. eapply triple_bind; [apply find_token_wf|intros acc]. do 2 quiet. cbv zeta.
  eapply triple_bind; [by apply (save_last_wf acc)|intros []].
  destruct (DataPasswordReset.remove_sessions data); [|by apply triple_ret].
  apply delete_all_sessions_wf; auto with of_auth.
Qed.

Lemma change_email_wf request data : triple auth_wf (λ _, True) (change_email request data) (λ _ _, True).
Proof.
  unfold change_email. quiet. eapply triple_bind; [apply account_guard_wf|intros acc].
  eapply triple_conseq with (P' := stored acc) (Q' := λ _ _, True); [|by intros w _ (Ha & _ & _)|done]. quiet.
  destruct (lacks_ticket _ _); [apply triple_throw|]. quiet.
  eapply triple_bind; [apply from_stored, start_email_move_wf|intros ?; by apply triple_ret].
Qed.

Lemma change_password_wf request data :
  triple auth_wf (λ _, True) (change_password request data) (λ _ _, True).
Proof.
  unfold change_password. quiet. eapply triple_bind; [apply account_guard_wf|intros acc].
  eapply triple_conseq with (P' := stored acc) (Q' := λ _ _, True); [|by intros w _ (Ha & _ & _)|done].
  destruct (lacks_ticket _ _); [apply triple_throw|]. do 3 quiet. by apply (save_last_wf acc).
Qed.

(** An account and a ticket, then a change that the account allows *)
Lemma ticketed_wf {A} request (k : Account.t → MFATicket.t → H A) Q :
  (∀ a t, triple auth_wf (stored a) (k a t) Q) →
  triple auth_wf (λ _, True)
    (account ← account_guard request; ticket ← validated_ticket_guard request; k account ticket) Q.
Proof.
  intros Hk. eapply triple_bind; [apply (account_guard_wf _ (λ _, True))|intros acc].
  eapply triple_conseq with (P' := stored acc) (Q' := Q); [|by intros w _ (Ha & _ & _)|done].
  quiet. apply Hk.
Qed.

Lemma delete_account_wf request : triple auth_wf (λ _, True) (delete_account request) (λ _ _, True).
Proof.
  unfold delete_account. apply ticketed_wf. intros acc _.
  destruct (stripe_cancellation acc) as [failed|]; cbv zeta.
  - eapply triple_bind; [by apply (save_last_wf acc)|intros []].
    eapply triple_bind; [apply schedule_deletion_wf|intros ?; by apply triple_ret].
  - eapply triple_bind; [eapply triple_conseq; [apply schedule_deletion_wf|done|done]|].
    intros ?. by apply triple_ret.
Qed.

Lemma mark_account_deleted_wf a :
  triple auth_wf (may_save a) (mark_account_deleted a ;; mret tt) (λ _ _, True).
Proof.
  eapply triple_bind with (Q := λ _ _, True); [|intros ?; by apply triple_ret].
  unfold mark_account_deleted.
  eapply triple_bind with (Q := λ _ _, True); [|intros []; by apply triple_ret].
  eapply triple_conseq; [by apply (save_alike_wf a)|done|done].
Qed.

Lemma delete_due_wf a : triple auth_wf (may_save a) (delete_due a) (λ _ _, True).
Proof.
  assert (∀ user, triple auth_wf (may_save a)
    (delete_user user ;; mark_account_deleted a ;; mret tt) (λ _ _, True)) as Hdel.
  { intros user. quiet. apply mark_account_deleted_wf. }
  intros w Iw Ha. unfold delete_due.
  pose proof (on_users_auth (UsersTable.fetch_user (Account.id a)) w) as Hauth.
  destruct (on_users _ w) as [r w1]; cbn [snd] in Hauth.
  apply (of_auth_wf w w1 Hauth) in Iw. apply (of_auth_may_save a w w1 Hauth) in Ha.
  destruct r as [user|e|]; [by apply Hdel| |done].
  destruct e; try (by split). by apply mark_account_deleted_wf.
Qed.

Lemma auth_sessions {A} (m : H A) : keeps auth m → keeps sessions m.
Proof. intros Hm w. by injection (Hm w). Qed.
Lemma delete_due_sessions a : keeps sessions (delete_due a).
Proof.
  assert (keeps sessions (mark_account_deleted a ;; mret tt)) as Hmark by done.
  assert (∀ u, keeps sessions (delete_user u ;; mark_account_deleted a ;; mret tt)) as Hdel.
  { intros u. apply keeps_bind; [apply auth_sessions, delete_user_auth|done]. }
  intros w. unfold delete_due.
  pose proof (auth_sessions _ (on_users_auth (UsersTable.fetch_user (Account.id a))) w) as Hs.
  destruct (on_users _ w) as [r w1]; cbn [snd] in Hs. rewrite <- Hs.
  destruct r as [u|e|]; [apply Hdel| |done]. by destruct e.
Qed.

(** The tasks: accounts in a list that is worked off stay fit to be saved. *)
Lemma due_sessions_wf (l : list Account.t) :
  triple auth_wf (λ w, ∀ a, a ∈ l → may_save a w) (for_each l delete_due) (λ _ _, True).
Proof.
  intros w Iw Hl.
  assert (∀ w', sessions w' = sessions w → ∀ a, a ∈ l → may_save a w') as Hkeep.
  { intros w' Hs a Ha Hd. unfold no_session. rewrite Hs. by apply (Hl a Ha). }
  clear Hl. revert w Iw Hkeep. induction l as [|a l IH]; intros w Iw Hkeep; [by split|].
  cbn [for_each]. rewrite M_bind_unfold.
  destruct (delete_due_wf a w Iw (Hkeep w eq_refl a ltac:(left))) as [Iw1 _].
  pose proof (delete_due_sessions a w) as Hs.
  destruct (delete_due a w) as [[[]| |] w1]; cbn [snd] in *; [|by split..].
  apply IH; [done|]. intros w' Hw' x Hx. apply Hkeep; [congruence|by right].
Qed.

Lemma delete_accounts_wf : triple auth_wf (λ _, True) delete_accounts (λ _ _, True).
Proof.
  unfold delete_accounts. quiet. eapply triple_bind with (Q := λ l w, ∀ x, x ∈ l → may_save x w).
  - eapply triple_conseq; [apply triple_reads; unfold on_accounts; solve_reads|done|].
    intros l w Iw [_ Hl] x Hx. apply stored_may_save; [done|]. unfold on_accounts in Hl.
    rewrite on_table_run in Hl. injection Hl as Hl. subst l.
    apply elem_of_table_select in Hx as [_ [k Hk]]. destruct Iw as [Hkeyed _].
    unfold stored. by rewrite (Hkeyed k x Hk).
  - intros l. eapply triple_bind; [apply due_sessions_wf|intros []; by apply triple_ret].
Qed.

Lemma prune_registration_ips_wf :
  triple auth_wf (λ _, True) prune_registration_ips (λ _ _, True).
Proof.
  unfold prune_registration_ips. eapply triple_bind; [apply triple_gets|intros now].
  intros w [Hkeyed Hlocked] _. split; [|done]. unfold on_accounts. rewrite on_table_run.
  unfold AccountsTable.clear_expired_registration_ips, modify. cbn [snd].
  match goal with |- context [fmap ?f _] => set (g := f) end.
  assert (∀ a, alike a (g a)) as Hg.
  { intros a. unfold g. destruct (Account.registration_ip_at a) as [t|]; [|done].
    by destruct (t <=? _)%Z. }
  split; intros k a Ha; change ((g <$> accounts w) !! k = Some a) in Ha;
    apply lookup_fmap_Some in Ha as (a0 & <- & Ha0); destruct (Hg a0) as [Hid Hd].
  - rewrite Hid. by apply Hkeyed.
  - rewrite Hd. exact (Hlocked k a0 Ha0).
Qed.

Lemma suspend_wf user days reason : triple auth_wf (λ _, True) (suspend user days reason) (λ _ _, True).
Proof.
  unfold suspend. eapply triple_bind; [apply fetch_account_wf|intros acc].
  eapply triple_bind; [eapply triple_conseq; [apply disable_wf|done|done]|intros acc'].
  eapply triple_bind with (Q := λ _ _, True).
  { eapply triple_conseq with (P' := λ _, True); [apply delete_all_sessions_wf|..]; auto with of_auth. }
  intros []. do 2 quiet. destruct reason as [reason|]; [|by apply triple_ret].
  destruct mail_disabled; [by apply triple_ret|]. cbv zeta. intros w Iw _.
  pose proof (send_email_auth (Account.email acc') Template.suspension
    [("email", Account.email acc'); ("list", comma_separated reason);
     ("duration", match days with Some n => pretty n | None => "" end);
     ("duration_display", if days then "block" else "none")] w) as Hauth.
  destruct (send_email _ _ _ w) as [[[]| |] w1]; cbn [fst snd] in *;
    (split; [by apply (of_auth_wf w)|done]).
Qed.

Lemma run_request_wf r : triple auth_wf (λ _, True) (run_request r) (λ _ _, True).
Proof.
  assert (∀ {A} (m : H A), triple auth_wf (λ _, True) m (λ _ _, True) →
    triple auth_wf (λ _, True) (m ;; mret tt) (λ _ _, True)) as Hthen.
  { intros A m Hm. eapply triple_bind; [apply Hm|intros ?; by apply triple_ret]. }
  destruct r; cbn [run_request]; try apply Hthen.
  - apply create_account_wf.
  - apply verify_email_wf.
  - apply send_password_reset_wf.
  - apply password_reset_wf.
  - apply resend_verification_wf.
  - apply change_email_wf.
  - apply change_password_wf.
  - apply delete_account_wf.
  - unfold confirm_deletion. eapply triple_bind; [apply find_token_wf|intros acc].
    apply triple_any, Hthen. eapply triple_conseq; [apply schedule_deletion_wf|done|done].
  - unfold disable_account. apply ticketed_wf. intros acc _.
    apply triple_any, Hthen. eapply triple_conseq; [apply disable_wf|done|done].
  - apply login_wf.
  - unfold logout. eapply triple_bind; [apply triple_reads, session_guard_reads|intros s].
    apply triple_any, (delete_session_wf s (λ _, True)); auto with of_auth.
  - apply session_edit_wf.
  - unfold revoke. quiet. eapply triple_bind; [apply triple_reads, session_guard_reads|intros user].
    eapply triple_bind; [apply triple_reads; unfold on_sessions; solve_reads|intros s].
    destruct (negb _); [apply triple_throw|].
    apply triple_any, (delete_session_wf s (λ _, True)); auto with of_auth.
  - unfold revoke_all. quiet. eapply triple_bind; [apply triple_reads, session_guard_reads|intros s].
    eapply triple_bind; [apply triple_reads, account_guard_reads|intros acc].
    apply triple_any, (delete_all_sessions_wf acc _ (λ _, True)); auto with of_auth.
  - unfold create_ticket. eapply triple_bind.
    { apply triple_attempt, (account_guard_wf _ (λ _, True)). }
    intros o. eapply triple_bind with (Q := λ t w, ∀ a, o = Some a → stored a w).
    { eapply triple_conseq; [apply triple_reads; unfold unvalidated_ticket_guard; solve_reads| |].
      - intros w _ Ho. exact Ho.
      - intros t w _ [Ho _] a Ha. by destruct (Ho a Ha). }
    intros t. eapply triple_bind with (Q := λ a w, stored a w).
    { destruct o as [a|], t as [t|]; cbn [ticket_account]; [apply triple_throw|..|apply triple_throw].
      - apply triple_ret. intros w Ho. by apply Ho.
      - apply triple_any. quiet. eapply triple_conseq; [apply (fetch_account_wf _ (λ _, True))|done|by intros x w _ [Hx _]]. }
    intros a. eapply triple_bind; [apply consume_mfa_response_wf|intros a'].
    apply triple_any. do 2 quiet. by apply triple_ret.
  - unfold fetch_recovery. apply ticketed_wf. intros acc _. by apply triple_ret.
  - unfold generate_recovery. apply ticketed_wf. intros acc _. quiet. cbv zeta.
    eapply triple_bind; [by apply (save_last_wf acc)|intros []; by apply triple_ret].
  - unfold totp_disable. apply ticketed_wf. intros acc _. by apply (save_last_wf acc).
  - unfold totp_enable. eapply triple_bind; [apply (account_guard_wf _ (λ _, True))|intros acc].
    eapply triple_conseq with (P' := stored acc) (Q' := λ _ _, True); [|by intros w _ [Ha _]|done].
    do 2 quiet. by apply (save_last_wf acc).
  - unfold totp_generate_secret. apply ticketed_wf. intros acc _. do 2 quiet.
    destruct a0 as [secret mfa].
    eapply triple_bind; [by apply (save_last_wf acc)|intros []; by apply triple_ret].
  - apply suspend_wf.
  - apply delete_accounts_wf.
  - apply prune_registration_ips_wf.
  - apply triple_quiet; [auto with of_auth..|]. unfold prune_mfa_tickets. solve_keeps.
Qed.

(** Requests that come in one after the other, at any times *)
Definition run_requests (rs : list (Z * account_request)) (w : World.t) : World.t :=
  fold_left (λ w r, (run_request r.2 (World.set_now w r.1)).2) rs w.

Lemma run_requests_wf rs w : auth_wf w → auth_wf (run_requests rs w).
Proof.
  unfold run_requests. revert w. induction rs as [|[now r] rs IH]; intros w Iw; [done|].
  cbn [fold_left fst snd]. apply IH. by apply (run_request_wf r (World.set_now w now)).
Qed.

(** C10: whatever requests come in, successful or not, and whenever the tasks run, a disabled
    account has no session, and whoever the guard lets through has an account that is not
    disabled. *)
Theorem disabled_accounts_stay_out (rs : list (Z * account_request)) (w : World.t) :
  auth_wf w →
  let w' := run_requests rs w in
  (∀ id a, accounts w' !! id = Some a → Account.disabled a = true → no_session id w') ∧
  (∀ request a, account_guard request w' = (Ok a, w') → Account.disabled a = false).
Proof.
  intros Iw w'. pose proof (run_requests_wf rs w Iw) as Iw'. split; [apply Iw'|].
  intros request a Ha. destruct (account_guard_wf request (λ _, True) w' Iw' I) as [_ HQ].
  rewrite Ha in HQ. by destruct (HQ a eq_refl) as (_ & Hd & _).
Qed.

(** ** Sessions need credentials *)

(** The response is valid for the account and ticket at that time. *)
Definition valid_response (now : Z) (a : Account.t) (ticket : MFATicket.t) (r : MFAResponse.t) :
    Prop :=
  match r with
  | MFAResponse.Password password =>
      MultiFactorAuthentication.is_active (Account.mfa a) = false ∧
      Account.verify_password a password = Ok tt
  | MFAResponse.Totp code =>
      MultiFactorAuthentication.is_active (Account.mfa a) = true ∧
      (MFATicket.last_totp_code ticket = Some code ∨
       Totp.generate_code now (MultiFactorAuthentication.totp_token (Account.mfa a)) = Ok code)
  | MFAResponse.Recovery code =>
      MultiFactorAuthentication.is_active (Account.mfa a) = true ∧
      code ∈ MultiFactorAuthentication.recovery_codes (Account.mfa a)
  end.

(** A ticket with that token that is not older than five minutes *)
Definition ticket_for (token : string) (t : MFATicket.t) (w : World.t) : Prop :=
  (∃ k, tickets w !! k = Some t) ∧ MFATicket.token t = token ∧
  ∃ ms, ulid_timestamp_ms (MFATicket.id t) = Some ms ∧ (World.now w < ms * 10 ^ 6 + minutes 5)%Z.

(** The data logs in to the account: with the right password, if it is not locked and there
    is no second factor, or with a ticket and a valid response, or a ticket that is
    authorised. *)
Definition logs_in_to (data : DataLogin.t) (a : Account.t) (w : World.t) : Prop :=
  Account.disabled a = false ∧
  match data with
  | DataLogin.Email email password _ =>
      (∃ k, accounts w !! k = Some a) ∧ normalise_email email = Ok (Account.email_normalised a) ∧
      Account.verify_password a password = Ok tt ∧ locked_out (World.now w) a = false ∧
      MultiFactorAuthentication.is_active (Account.mfa a) = false
  | DataLogin.MFA token response _ =>
      ∃ t, ticket_for token t w ∧ accounts w !! MFATicket.account_id t = Some a ∧
        match response with
        | Some response => valid_response (World.now w) a t response
        | None => MFATicket.authorised t = true
        end
  end.

(** No session but those that were there *)
Definition no_new_session (w0 w : World.t) : Prop :=
  ∀ k s, sessions w !! k = Some s →
    ∃ k0 s0, sessions w0 !! k0 = Some s0 ∧ Session.user_id s0 = Session.user_id s ∧
      Session.token s0 = Session.token s.
Definition no_more {A} (m : H A) : Prop := ∀ w, no_new_session w (m w).2.

Lemma no_more_bind {A B} (m : H A) (k : A → H B) :
  no_more m → (∀ a, no_more (k a)) → no_more (m ≫= k).
Proof.
  intros Hm Hk w. rewrite M_bind_unfold. specialize (Hm w).
  destruct (m w) as [[a| |] w1]; cbn [snd] in *; [|done..]. intros i s Hs.
  destruct (Hk a w1 i s Hs) as (i1 & s1 & Hs1 & Hu1 & Ht1).
  destruct (Hm i1 s1 Hs1) as (i0 & s0 & Hs0 & Hu0 & Ht0). exists i0, s0.
  split_and!; [done|congruence..].
Qed.
Lemma no_more_keeps {A} (m : H A) : keeps sessions m → no_more m.
Proof. intros Hm w k s. rewrite Hm. by exists k, s. Qed.
Lemma no_more_auth {A} (m : H A) : keeps auth m → no_more m.
Proof. intros Hm. by apply no_more_keeps, auth_sessions. Qed.
Lemma no_more_attempt {A} (m : H A) : no_more m → no_more (attempt m).
Proof. intros Hm w. unfold attempt. specialize (Hm w). by destruct (m w) as [[]]. Qed.
Lemma no_more_accounts {A} (m : AccountsTable.T A) : no_more (on_accounts m).
Proof. apply no_more_keeps. unfold on_accounts. by apply keeps_table. Qed.
Lemma no_more_reads {A} (m : H A) : reads m → no_more m.
Proof. intros Hm. by apply no_more_keeps, reads_keeps. Qed.
Lemma no_more_shrink {A} (m : SessionsTable.T A) :
  (∀ t k s, (m t).2 !! k = Some s → t !! k = Some s) → no_more (on_sessions m).
Proof.
  intros Hm w k s Hs. unfold on_sessions in Hs. rewrite on_table_run in Hs.
  exists k, s. split; [|done]. by apply Hm.
Qed.

Create HintDb no_more.
#[local] Hint Resolve no_more_accounts : no_more.
#[local] Hint Extern 5 (no_more _) => apply no_more_auth; solve [solve_keeps] : no_more.
#[local] Hint Extern 6 (no_more _) => apply no_more_reads; solve [solve_reads] : no_more.

(** Decompose a handler and close its steps with the base [no_more]. *)
Ltac solve_no_more :=
  repeat first
    [ solve [auto with no_more]
    | apply no_more_bind; [|intros ?]
    | apply no_more_attempt
    | progress cbv zeta
    | match goal with |- no_more (match ?x with _ => _ end) => destruct x end ].

Lemma no_more_save a : no_more (save_account a).
Proof. apply no_more_accounts. Qed.
Lemma no_more_delete_all a ignore : no_more (delete_all_sessions a ignore).
Proof.
  unfold delete_all_sessions. apply no_more_bind; [|intros []; auto with no_more].
  apply no_more_shrink. by intros t k s [Hs _]%map_lookup_filter_Some.
Qed.
Lemma no_more_delete_session s : no_more (delete_session s).
Proof.
  unfold delete_session. apply no_more_bind; [|intros []; auto with no_more].
  apply no_more_shrink. intros t k x. unfold SessionsTable.delete_session, table_delete.
  destruct (t !! Session.id s); [|done]. cbn [snd]. by intros [_ Hx]%lookup_delete_Some.
Qed.
#[local] Hint Resolve no_more_save no_more_delete_all no_more_delete_session : no_more.

Lemma no_more_verification a : no_more (start_email_verification a).
Proof. unfold start_email_verification. solve_no_more. Qed.
Lemma no_more_move a e : no_more (start_email_move a e).
Proof. unfold start_email_move. solve_no_more. Qed.
Lemma no_more_reset a b : no_more (start_password_reset a b).
Proof. unfold start_password_reset. solve_no_more. Qed.
Lemma no_more_disable a : no_more (disable a).
Proof. unfold disable. solve_no_more. Qed.
#[local] Hint Resolve no_more_verification no_more_move no_more_reset no_more_disable : no_more.
Lemma no_more_schedule a : no_more (schedule_deletion a).
Proof. unfold schedule_deletion. solve_no_more. Qed.
Lemma no_more_new_account e q b : no_more (new_account e q b).
Proof. unfold new_account. solve_no_more. Qed.
Lemma no_more_consume a r t : no_more (consume_mfa_response a r t).
Proof. unfold consume_mfa_response. solve_no_more. Qed.
#[local] Hint Resolve no_more_schedule no_more_new_account no_more_consume : no_more.
Lemma no_more_delete_accounts : no_more delete_accounts.
Proof.
  unfold delete_accounts. apply no_more_bind; [auto with no_more|intros now].
  apply no_more_bind; [auto with no_more|intros l]. apply no_more_bind; [|intros []; auto with no_more].
  apply no_more_keeps, for_each_keeps, delete_due_sessions.
Qed.
Lemma no_more_suspend user days reason : no_more (suspend user days reason).
Proof.
  unfold suspend. do 5 (apply no_more_bind; [auto with no_more|intros ?]).
  destruct reason as [reason|]; [|auto with no_more]. destruct mail_disabled; [auto with no_more|].
  cbv zeta. intros w. pose proof (no_more_auth _ (send_email_auth (Account.email a0) Template.suspension
    [("email", Account.email a0); ("list", comma_separated reason);
     ("duration", match days with Some n => pretty n | None => "" end);
     ("duration_display", if days then "block" else "none")]) w) as Hs.
  by destruct (send_email _ _ _ w) as [[]].
Qed.
Lemma no_more_session_edit request id name : no_more (session_edit request id name).
Proof.
  unfold session_edit. apply no_more_bind; [auto with no_more|intros user].
  intros w. rewrite M_bind_unfold. unfold on_sessions at 1. rewrite on_table_run.
  unfold SessionsTable.fetch_session, table_fetch. cbn [fst snd].
  fold (sessions w). destruct (sessions w !! id) as [s|] eqn:Hs; cbn [ok_or].
  - replace (World.set_db w _) with w by (by destruct w as [[]]).
    destruct (negb _); [by apply no_more_auth|]. intros k x Hx.
    change (<[Session.id s := Session.set_name s name]> (sessions w) !! k = Some x) in Hx.
    apply lookup_insert_Some in Hx as [[<- <-]|[_ Hx]]; [by exists id, s|by exists k, x].
  - by intros k x Hx; exists k, x.
Qed.
#[local] Hint Resolve no_more_delete_accounts no_more_suspend no_more_session_edit : no_more.

Lemma no_more_requests r :
  match r with Login _ => True | _ => no_more (run_request r) end.
Proof.
  destruct r; cbn [run_request]; try done;
    unfold create_account, fetch_invite, verify_email, send_password_reset, password_reset,
      resend_verification, change_email, change_password, delete_account, confirm_deletion,
      disable_account, logout, revoke, revoke_all, create_ticket, unvalidated_ticket_guard, ticket_account, fetch_recovery,
      generate_recovery, totp_disable, totp_enable, totp_generate_secret, prune_registration_ips,
      prune_mfa_tickets; solve_no_more.
Qed.

(** What the steps of a login found *)
Lemma create_session_run a name w :
  ∃ s w', create_session a name w = (Ok s, w') ∧ Session.user_id s = Account.id a ∧
    sessions w' = <[Session.id s := s]> (sessions w) ∧ accounts w' = accounts w.
Proof.
  destruct (create_session a name w) as [r w'] eqn:Hrun. cbn in Hrun. injection Hrun as <- <-.
  eexists _, _. split; [reflexivity|]. by split_and!.
Qed.

Lemma login_email_found email password a w w' :
  login_email email password w = (Ok (inl a), w') →
  ∃ a0, alike a0 a ∧ (∃ k, accounts w !! k = Some a0) ∧
    normalise_email email = Ok (Account.email_normalised a0) ∧
    Account.verify_password a0 password = Ok tt ∧ locked_out (World.now w) a0 = false ∧
    MultiFactorAuthentication.is_active (Account.mfa a0) = false.
Proof.
  unfold login_email. intros Hrun. unbind Hrun n. unbind Hrun found. unbind Hrun acc. unbind Hrun u.
  unbind Hrun now. injection Enow as <-. injection En as En. injection Eacc as Eacc.
  destruct found as [a0|]; simplify_eq/=. apply find_account_spec in Efound as [Hn%bool_decide_eq_true [k Ha]].
  destruct (locked_out (World.now w) acc) eqn:Hlock; [done|].
  destruct (Account.verify_password acc password) as [[]| |] eqn:Hpw; [| |done].
  - apply bind_Ok_inv in Hrun as (acc' & w1 & Hacc' & Hrun).
    destruct (MultiFactorAuthentication.is_active (Account.mfa acc')) eqn:Hmfa.
    { unbind Hrun t. unbind Hrun now. unbind Hrun t'. unbind Hrun u'. done. }
    injection Hrun as <- <-. exists acc. rewrite Hn, En.
    assert (alike acc acc' ∧ Account.mfa acc' = Account.mfa acc) as [Halike Heq].
    { destruct (bool_decide _) in Hacc'.
      - apply bind_Ok_inv in Hacc' as ([] & w2 & _ & [= <- _]). done.
      - by injection Hacc' as <- _. }
    rewrite Heq in Hmfa. by split_and!; [|exists k|..].
  - apply bind_Ok_inv in Hrun as (? & ? & _ & Hrun). done.
Qed.

Lemma remove_first_elem code codes l : remove_first code codes = Some l → code ∈ codes.
Proof.
  revert l. induction codes as [|x codes IH]; intros l; simpl; [done|].
  case_bool_decide as Hx; [subst; left|]. destruct (remove_first code codes) as [l'|]; [|done].
  intros _. right. by apply (IH l').
Qed.

Lemma consume_found a response t a' w w' :
  consume_mfa_response a response (Some t) w = (Ok a', w') →
  alike a a' ∧ valid_response (World.now w) a t response.
Proof.
  unfold consume_mfa_response, valid_response, MultiFactorAuthentication.get_methods,
    MultiFactorAuthentication.is_active.
  destruct response as [password|code|code].
  - case_bool_decide as Hm; [|done]. intros Hrun. unbind Hrun u. injection Eu as Eu.
    injection Hrun as <- _. destruct u. split; [done|]. split; [|done].
    destruct (MultiFactorAuthentication.totp_token _); [done|done|].
    destruct (MultiFactorAuthentication.has_recovery _); set_solver.
  - case_bool_decide as Hm; [|done]. destruct (remove_first _ _) as [codes|] eqn:Hcode; [|done].
    cbv zeta. intros Hrun. apply bind_Ok_inv in Hrun as ([] & w1 & _ & [= <- _]). split; [done|].
    apply remove_first_elem in Hcode. split; [|done].
    by destruct (MultiFactorAuthentication.totp_token _); [set_solver..|].
  - case_bool_decide as Hm; [|done].
    assert (match MultiFactorAuthentication.totp_token (Account.mfa a) with
            | Totp.Enabled _ => true | _ => false end = true) as Hactive
      by (by destruct (MultiFactorAuthentication.totp_token _); [set_solver..|]).
    case_bool_decide as Hlast; [intros [= <- _]; split; [done|]; split; [done|by left]|].
    intros Hrun. unbind Hrun now. unbind Hrun c. injection Enow as <-. injection Ec as Ec.
    case_bool_decide as Hc; [|done]. injection Hrun as <- _. subst c.
    split; [done|]. split; [done|by right].
Qed.

Lemma fetch_ticket_found token t w :
  on_tickets (TicketsTable.fetch_ticket_by_token (World.now w) token) w = (Ok t, w) →
  ticket_for token t w.
Proof.
  unfold on_tickets. rewrite on_table_run. unfold TicketsTable.fetch_ticket_by_token.
  rewrite !M_bind_unfold. cbn [gets]. rewrite M_bind_unfold. fold (tickets w).
  destruct (List.find _ _) as [x|] eqn:Hf; cbn [ok_or lift]; [|done].
  apply find_some in Hf as [Hin Htok%bool_decide_eq_true].
  apply list_elem_of_In, elem_of_hash_values in Hin.
  destruct (ulid_timestamp_ms _) as [ms|] eqn:Hms; [|done].
  destruct (_ <? _)%Z eqn:Hlt; [|done]. intros [= <- _]. apply Z.ltb_lt in Hlt.
  split_and!; [done|done|]. by exists ms.
Qed.

Lemma login_mfa_found token response a w w' :
  login_mfa token response w = (Ok a, w') →
  ∃ a0 t, alike a0 a ∧ ticket_for token t w ∧ accounts w !! MFATicket.account_id t = Some a0 ∧
    match response with
    | Some response => valid_response (World.now w) a0 t response
    | None => MFATicket.authorised t = true
    end.
Proof.
  unfold login_mfa. intros Hrun. unbind Hrun now. injection Enow as <-. unbind Hrun t.
  apply fetch_ticket_found in Et. unbind Hrun a0. apply fetch_account_spec in Ea0.
  exists a0, t. destruct response as [response|].
  - apply consume_found in Hrun as [Ha Hr]. done.
  - destruct (MFATicket.authorised t); [|done]. by injection Hrun as <- _.
Qed.

Lemma login_email_no_more email password : no_more (login_email email password).
Proof. unfold login_email, login_failed. solve_no_more. Qed.
Lemma login_mfa_no_more token response : no_more (login_mfa token response).
Proof. unfold login_mfa. solve_no_more. Qed.

(** The session of a login, if there is one, is that of the account. *)
Lemma login_account_new a name w k s :
  sessions (login_account a name w).2 !! k = Some s →
  sessions w !! k = Some s ∨ Account.disabled a = false ∧ Session.user_id s = Account.id a.
Proof.
  unfold login_account. destruct (Account.disabled a); [by left|].
  rewrite M_bind_unfold. destruct (create_session_run a (default "Unknown" name) w)
    as (s1 & w1 & -> & Hu & Hs & _).
  match goal with |- sessions (?m w1).2 !! _ = _ → _ => assert (sessions (m w1).2 = sessions w1) as -> end.
  { apply auth_sessions. solve_keeps. }
  rewrite Hs. intros [[<- <-]|[_ Hx]]%lookup_insert_Some; [by right|by left].
Qed.

(** C7: nobody gets a session without credentials: a session that exists after a request was
    there before, or the request was a login with the password of the account, which is not
    locked, disabled or protected by a second factor, or with a fresh ticket for it and a
    valid code, or one authorised by verifying the address. *)
Theorem sessions_need_credentials (r : account_request) (w : World.t) (k : string) (s : Session.t) :
  sessions (run_request r w).2 !! k = Some s →
  (∃ k0 s0, sessions w !! k0 = Some s0 ∧ Session.user_id s0 = Session.user_id s ∧
     Session.token s0 = Session.token s) ∨
  (∃ data a, r = Login data ∧ logs_in_to data a w ∧ Session.user_id s = Account.id a).
Proof.
  pose proof (no_more_requests r) as Hno. destruct r; try (by intros Hs; left; apply (Hno w k)).
  clear Hno. cbn [run_request]. rewrite M_bind_unfold.
  replace (match login data w with (Ok _, w') => _ | _ => _ end).2 with (login data w).2
    by (by destruct (login data w) as [[]]).
  destruct data as [email password name|token response name]; cbn [login]; rewrite M_bind_unfold.
  - pose proof (login_email_no_more email password w) as Hno.
    destruct (login_email email password w) as [[[a|resp]| |] w1] eqn:Hrun; cbn [snd] in *;
      try (by intros Hs; left; apply (Hno k)).
    intros [Hs|[Hd Hu]]%login_account_new; [left; by apply (Hno k)|right].
    apply login_email_found in Hrun as (a0 & [Hid Hdis] & Hrest). eexists _, a0.
    split; [done|]. split; [|congruence]. split; [congruence|done].
  - pose proof (login_mfa_no_more token response w) as Hno.
    destruct (login_mfa token response w) as [[a| |] w1] eqn:Hrun; cbn [snd] in *;
      try (by intros Hs; left; apply (Hno k)).
    intros [Hs|[Hd Hu]]%login_account_new; [left; by apply (Hno k)|right].
    apply login_mfa_found in Hrun as (a0 & t & [Hid Hdis] & Hrest). eexists _, a0.
    split; [done|]. split; [|congruence]. split; [congruence|by exists t].
Qed.

(** ** Sensitive requests need a ticket *)

(** The requests that take a validated ticket, with what the guards read *)
Definition sensitive (r : account_request) : option Credential.t :=
  match r with
  | DeleteAccount request | DisableAccount request | Revoke request _ | RevokeAll request _
  | FetchRecovery request | GenerateRecovery request | TotpDisable request
  | TotpGenerateSecret request => Some request
  | _ => None
  end.

(** The request brought a fresh, validated ticket, and it is used up. *)
Definition ticket_used (request : Credential.t) (w w' : World.t) : Prop :=
  ∃ token t, Credential.mfa_ticket request = Some token ∧ ticket_for token t w ∧
    MFATicket.validated t = true ∧ tickets w' = delete (MFATicket.id t) (tickets w).

Definition needs_ticket {A} (request : Credential.t) (m : H A) (w : World.t) : Prop :=
  (auth (m w).2 = auth w ∨ ticket_used request w (m w).2) ∧
  ∀ a, (m w).1 = Ok a → ticket_used request w (m w).2.

Lemma ticket_guard_found request t w :
  ticket_guard request w = (Ok t, w) →
  ∃ token, Credential.mfa_ticket request = Some token ∧ ticket_for token t w.
Proof.
  unfold ticket_guard. destruct (Credential.mfa_ticket request) as [token|]; [|done].
  intros Hrun. unbind Hrun now. injection Enow as <-. unbind Hrun x.
  destruct x as [x|]; [|done]. injection Hrun as ->.
  apply attempt_ok, fetch_ticket_found in Ex. by exists token.
Qed.

Lemma validated_ticket_used request w t w' :
  validated_ticket_guard request w = (Ok t, w') → ticket_used request w w'.
Proof.
  unfold validated_ticket_guard. intros Hrun. unbind Hrun x.
  destruct (ticket_guard_found _ _ _ Ex) as (token & Htok & Hfor).
  destruct (MFATicket.validated x) eqn:Hv; [|done].
  apply bind_Ok_inv in Hrun as ([[]|] & w1 & Hclaim & Hrun); [|done]. apply attempt_ok in Hclaim.
  injection Hrun as <- <-. exists token, x. split_and!; [done..|].
  unfold claim in Hclaim. unbind Hclaim now. unbind Hclaim e. destruct e; [done|].
  unfold on_tickets in Hclaim. rewrite on_table_run in Hclaim.
  unfold TicketsTable.delete_ticket, table_delete in Hclaim. fold (tickets w) in Hclaim.
  destruct (tickets w !! MFATicket.id x); [|done]. by injection Hclaim as <-.
Qed.

Lemma needs_ticket_reads {A B} request (m : H A) (k : A → H B) w :
  reads m → (∀ a, needs_ticket request (k a) w) → needs_ticket request (m ≫= k) w.
Proof.
  intros Hm Hk. unfold needs_ticket. rewrite M_bind_unfold. specialize (Hm w).
  destruct (m w) as [[a| |] w1]; cbn [fst snd] in *; subst w1; [apply Hk|by split; [left|]..].
Qed.

Lemma needs_ticket_guard {B} request (k : MFATicket.t → H B) w :
  (∀ t, keeps tickets (k t)) → needs_ticket request (validated_ticket_guard request ≫= k) w.
Proof.
  intros Hk. unfold needs_ticket. rewrite M_bind_unfold.
  pose proof (validated_ticket_guard_auth request w) as Hauth.
  destruct (validated_ticket_guard request w) as [[t| |] w1] eqn:Hrun; cbn [fst snd] in *;
    [|by split; [left|]..].
  apply validated_ticket_used in Hrun as (token & x & Ht & Hfor & Hv & Hd).
  assert (ticket_used request w (k t w1).2) as Hused.
  { exists token, x. split_and!; [done..|]. by rewrite (Hk t w1). }
  by split; [right|].
Qed.

Lemma needs_ticket_then {A} request (m : H A) w :
  needs_ticket request m w → needs_ticket request (m ;; mret tt) w.
Proof.
  intros [Hm Hok]. unfold needs_ticket. rewrite M_bind_unfold.
  destruct (m w) as [[a| |] w1]; cbn [fst snd] in *; [|by split..]. split; [done|].
  intros ? _. by apply (Hok a).
Qed.

(** The handlers behind the guards leave the tickets alone. *)
Lemma save_account_tickets a : keeps tickets (save_account a).
Proof. done. Qed.
Lemma delete_all_sessions_tickets a i : keeps tickets (delete_all_sessions a i).
Proof. done. Qed.
Lemma on_sessions_tickets {A} (m : SessionsTable.T A) : keeps tickets (on_sessions m).
Proof. unfold on_sessions. by apply keeps_table. Qed.
Lemma draw_tickets k : keeps tickets (draw k).
Proof. done. Qed.
Lemma schedule_deletion_tickets a : keeps tickets (schedule_deletion a).
Proof.
  unfold schedule_deletion, in_future, clock, disable.
  repeat (apply keeps_bind; [first [done|solve [auto with keeps]]|intros ?]). done.
Qed.
#[local] Hint Resolve save_account_tickets delete_all_sessions_tickets on_sessions_tickets
  draw_tickets schedule_deletion_tickets : keeps.

Lemma sensitive_needs_ticket r request w :
  sensitive r = Some request → needs_ticket request (run_request r) w.
Proof.
  intros Hr. destruct r; simplify_eq/=; try apply needs_ticket_then;
    unfold delete_account, disable_account, revoke, revoke_all, fetch_recovery, generate_recovery,
      totp_disable, totp_generate_secret;
    repeat (apply needs_ticket_reads; [solve [solve_reads]|intros ?]);
    apply needs_ticket_guard; intros t.
  - solve_keeps.
  - unfold disable. solve_keeps.
  - apply keeps_bind; [apply reads_keeps, session_guard_reads|intros user].
    unfold delete_session. solve_keeps.
  - apply keeps_bind; [apply reads_keeps, session_guard_reads|intros s].
    apply keeps_bind; [apply reads_keeps, account_guard_reads|intros acc]. solve_keeps.
  - solve_keeps.
  - solve_keeps.
  - solve_keeps.
  - solve_keeps.
Qed.

(** C23: the requests to schedule the deletion of the account, to disable it, to revoke another or
    all other sessions, to show or make recovery codes, to disable the second factor and to make its
    secret change no account and no session without a validated ticket that is not older than five
    minutes; when they succeed, exactly this ticket is used up. (Not among them: logging out the own
    session, confirming the deletion with its token, and enabling the second factor with a code,
    which take no ticket.) *)
Theorem sensitive_requests_need_ticket (r : account_request) (request : Credential.t) (w : World.t) :
  sensitive r = Some request →
  let w' := (run_request r w).2 in
  (auth w' = auth w ∨ ticket_used request w w') ∧
  ∀ a, (run_request r w).1 = Ok a → ticket_used request w w'.
Proof. apply sensitive_needs_ticket. Qed.

(** Tickets are stored under their ids, and no two have the same token. *)
Definition tickets_wf (t : TicketsTable.table) : Prop :=
  (∀ k x, t !! k = Some x → MFATicket.id x = k) ∧
  (∀ i j x y, t !! i = Some x → t !! j = Some y → MFATicket.token x = MFATicket.token y → i = j).

(** A ticket works once: after a sensitive request that succeeded, every further one with
    the same ticket fails, at any time, and changes no account and no session. *)
Theorem ticket_works_once (r r' : account_request) (request request' : Credential.t) (w : World.t)
    (now : Z) :
  sensitive r = Some request → sensitive r' = Some request' →
  Credential.mfa_ticket request' = Credential.mfa_ticket request →
  tickets_wf (tickets w) → (run_request r w).1 = Ok tt →
  let w1 := World.set_now (run_request r w).2 now in
  (run_request r' w1).1 ≠ Ok tt ∧ auth (run_request r' w1).2 = auth w1.
Proof.
  intros Hr Hr' Hsame [Hkeyed Hdistinct] Hok w1.
  destruct (sensitive_needs_ticket r request w Hr) as [_ Hused].
  destruct (Hused tt Hok) as (token & t & Htok & ((k & Ht) & Htt & _) & _ & Hgone).
  change (tickets w1 = delete (MFATicket.id t) (tickets w)) in Hgone.
  assert (¬ ticket_used request' w1 (run_request r' w1).2) as Hnot.
  { intros (token' & t' & Htok' & ((k' & Ht') & Htt' & _) & _ & _).
    rewrite Hgone in Ht'. apply lookup_delete_Some in Ht' as [Hne Ht'].
    assert (token' = token) as -> by congruence. apply Hne.
    rewrite (Hkeyed k t Ht). apply (Hdistinct k k' t t' Ht Ht'). congruence. }
  destruct (sensitive_needs_ticket r' request' w1 Hr') as [[Hauth|Hu] Hok']; [|done].
  split; [|done]. intros Heq. by apply Hnot, (Hok' tt).
Qed.

(** ** Guessing passwords *)

(** Logins to an address, each with a time and a password: what they answer *)
Fixpoint guesses (email : string) (l : list (Z * string)) (w : World.t) :
    list (Result (ResponseLogin.t * option string)) :=
  match l with
  | [] => []
  | (now, password) :: l =>
      let '(r, w) := login (DataLogin.Email email password None) (World.set_now w now) in
      r :: guesses email l w
  end.

(** How many passwords were compared *)
Fixpoint compared (l : list (Result (ResponseLogin.t * option string))) : Z :=
  match l with
  | [] => 0
  | Err ErrorType.InvalidCredentials :: l => 1 + compared l
  | _ :: l => compared l
  end.

Definition hour : Z := seconds 3600.

(** [a] is the only account of the address. *)
Definition only_account (normalised : string) (a : Account.t) (w : World.t) : Prop :=
  Account.email_normalised a = normalised ∧ stored a w ∧
  ∀ k x, accounts w !! k = Some x → Account.email_normalised x = normalised → k = Account.id a.

(** [n] wrong passwords since the last right one, and from the third on locked until [s] *)
Definition lock_state (lockout : option Lockout.t) (n s : Z) : Prop :=
  match lockout with
  | None => n = 0%Z
  | Some l => Lockout.attempts l = n ∧ (1 ≤ n)%Z ∧
      if (3 <=? n)%Z then Lockout.expiry l = Some s else Lockout.expiry l = None
  end.

Definition wrong_for (a : Account.t) (password : string) : Prop :=
  Account.verify_password a password = Err ErrorType.InvalidCredentials.

(** One wrong guess: refused without looking at the password, or compared and counted *)
Lemma guess_step email normalised a now password w :
  normalise_email email = Ok normalised → only_account normalised a w → wrong_for a password →
  let '(r, w') := login (DataLogin.Email email password None) (World.set_now w now) in
  (accounts w' = accounts w ∧ ∃ e, r = Err e ∧ e ≠ ErrorType.InvalidCredentials) ∨
  (r = Err ErrorType.InvalidCredentials ∧ locked_out now a = false ∧
   only_account normalised (Account.set_lockout a (Some (lock_further now (Account.lockout a)))) w').
Proof.
  intros Hn (Hea & Ha & Honly) Hwrong. cbn [login]. rewrite M_bind_unfold. unfold login_email.
  rewrite Hn, M_bind_unfold. cbn [lift]. rewrite M_bind_unfold.
  set (w0 := World.set_now w now).
  assert (on_accounts (AccountsTable.fetch_account_by_normalised_email normalised) w0 =
          (Ok (Some a), w0)) as ->.
  { pose proof (find_by_email_reads normalised w0) as Hreads.
    destruct (on_accounts _ w0) as [r w1] eqn:Hrun. cbn [snd] in Hreads. subst w1.
    unfold on_accounts in Hrun. rewrite on_table_run in Hrun. injection Hrun as Hrun _.
    change (Ok (List.find (λ x, bool_decide (Account.email_normalised x = normalised))
      (hash_values (accounts w))) = r) in Hrun. subst r. do 2 f_equal.
    destruct (List.find _ _) as [x|] eqn:Hf.
    - apply find_some in Hf as [Hin Hx%bool_decide_eq_true].
      apply list_elem_of_In, elem_of_hash_values in Hin as [k Hk].
      rewrite (Honly k x Hk Hx) in Hk. unfold stored in Ha. congruence.
    - exfalso. apply (find_none _ _) with (x := a) in Hf.
      + by rewrite bool_decide_eq_true_2 in Hf.
      + apply list_elem_of_In, elem_of_hash_values. by exists (Account.id a). }
  rewrite M_bind_unfold. cbn [ok_or lift]. rewrite M_bind_unfold. unfold lift at 1.
  destruct (assert_safe password) as [[]|e|] eqn:Hsafe.
  - rewrite M_bind_unfold. unfold clock at 1, gets at 1. change (World.now w0) with now.
    destruct (locked_out now a) eqn:Hlock; [left; split; [done|by exists ErrorType.LockedOut]|].
    rewrite Hwrong. right. split_and!; [done|done|].
    split_and!; [done| |].
    + unfold stored. cbn. apply lookup_insert_eq.
    + intros k x Hx Hex. change (<[Account.id a := Account.set_lockout a
        (Some (lock_further now (Account.lockout a)))]> (accounts w) !! k = Some x) in Hx.
      apply lookup_insert_Some in Hx as [[<- _]|[_ Hx]]; [done|by apply (Honly k x)].
  - left. split; [done|]. exists e. split; [done|]. intros ->. unfold assert_safe in Hsafe.
    destruct (bool_decide _); [done|]. destruct (easypwned password) as [[[]|]|]; try done;
      by destruct (top_100k_compromised password).
  - exfalso. unfold assert_safe in Hsafe.
    destruct (bool_decide _); [done|]. destruct (easypwned password) as [[[]|]|]; try done;
      by destruct (top_100k_compromised password).
Qed.

(** The delay a wrong password causes *)
Lemma lock_further_state lockout n s now :
  lock_state lockout n s → (n + 1 < 2 ^ 31)%Z →
  ∃ s', lock_state (Some (lock_further now lockout)) (n + 1) s' ∧ (now ≤ s')%Z ∧
    ((4 ≤ n)%Z → s' = (now + hour)%Z) ∧ ((n + 1 < 3)%Z → s' = now).
Proof.
  intros Hl Hn. destruct lockout as [[n' e]|]; unfold lock_state, lock_further in *; cbn in *.
  - destruct Hl as (-> & Hpos & He).
    assert (i32_succ n = n + 1)%Z as -> by (unfold i32_succ; rewrite Z.mod_small; lia).
    destruct (3 <=? n + 1)%Z eqn:E3.
    + eexists. split; [split_and!; [done|lia|reflexivity]|]. unfold hour, seconds.
      destruct (5 <=? n + 1)%Z eqn:E5; [split_and!; lia|].
      apply Z.leb_gt in E5. destruct (n + 1 =? 4)%Z; split_and!; lia.
    + apply Z.leb_gt in E3. exists now. split; [|lia]. split_and!; [done|lia|].
      destruct (3 <=? n)%Z eqn:E3'; [apply Z.leb_le in E3'; lia|done].
  - subst n. exists now. split; [done|lia].
Qed.

Lemma locked_state_time a n s now :
  lock_state (Account.lockout a) n s → (3 ≤ n)%Z → locked_out now a = false → (s ≤ now)%Z.
Proof.
  unfold lock_state, locked_out. intros Hl Hn Hlock. destruct (Account.lockout a) as [l|]; [|lia].
  destruct Hl as (_ & _ & He). apply Z.leb_le in Hn. rewrite Hn in He. rewrite He in Hlock.
  by apply Z.ltb_ge in Hlock.
Qed.

Lemma guess_arithmetic n s s' t now c :
  (s ≤ now)%Z → (now ≤ t)%Z → (now ≤ s')%Z → ((4 ≤ n)%Z → s' = (now + hour)%Z) →
  (c ≤ if decide ((3 ≤ n + 1)%Z ∧ (t < s')%Z) then 0
       else 5 - Z.min (n + 1) 4 + Z.max 0 (t - s') / hour)%Z →
  (1 + c ≤ 5 - Z.min n 4 + Z.max 0 (t - s) / hour)%Z.
Proof.
  intros Hs Ht Hs' Hlong Hc. assert (0 < hour)%Z as Hh by done.
  pose proof (Z.div_pos (Z.max 0 (t - s)) hour ltac:(lia) Hh) as Hpos.
  destruct (decide _) as [_|Hdec]; [lia|]. destruct (decide (4 ≤ n)%Z) as [Hge|Hlt].
  - rewrite Hlong in Hc, Hdec by done.
    assert (Z.max 0 (t - (now + hour)) / hour + 1 ≤ Z.max 0 (t - s) / hour)%Z; [|lia].
    rewrite <- Z.div_add by lia. apply Z.div_le_mono; lia.
  - assert (Z.max 0 (t - s') / hour ≤ Z.max 0 (t - s) / hour)%Z; [apply Z.div_le_mono; lia|lia].
Qed.

(** The passwords that are compared between [s] and [t], after [n] wrong ones *)
Lemma guesses_bound email normalised l a n s t w :
  normalise_email email = Ok normalised → only_account normalised a w →
  lock_state (Account.lockout a) n s → (0 ≤ n)%Z → (n + Z.of_nat (length l) < 2 ^ 31)%Z →
  (∀ g, g ∈ l → wrong_for a g.2 ∧ ((n < 3)%Z → (s ≤ g.1)%Z) ∧ (g.1 ≤ t)%Z) →
  StronglySorted (λ g g', (g.1 ≤ g'.1)%Z) l →
  (compared (guesses email l w) ≤
     if decide ((3 ≤ n)%Z ∧ (t < s)%Z) then 0 else 5 - Z.min n 4 + Z.max 0 (t - s) / hour)%Z.
Proof.
  intros Hnorm. revert a n s w. induction l as [|[now password] l IH];
    intros a n s w Honly Hstate Hn0 Hlen Hall Hsorted.
  { cbn. destruct (decide _); [done|]. pose proof (Z.div_pos (Z.max 0 (t - s)) hour). unfold hour, seconds in *. lia. }
  cbn [guesses]. destruct (Hall (now, password) ltac:(left)) as (Hwrong & Hs & Hle). cbn [fst snd] in *.
  pose proof (guess_step email normalised a now password w Hnorm Honly Hwrong) as Hstep.
  destruct (login _ _) as [r w']. inversion Hsorted as [|? ? Hsorted' Hfirst]; subst.
  destruct Hstep as [[Hacc (e & -> & Hne)]|(-> & Hlock & Honly')].
  - assert (compared (Err e :: guesses email l w') = compared (guesses email l w')) as ->
      by (by destruct e).
    apply (IH a n s w'); [|done|done|simpl in Hlen; lia|by intros g Hg; apply Hall; right|done].
    unfold only_account, stored in *. by rewrite Hacc.
  - destruct (lock_further_state _ n s now Hstate ltac:(simpl in Hlen; lia)) as (s' & Hstate' & Hnow & Hlong & Hfree).
    assert (wrong_for (Account.set_lockout a (Some (lock_further now (Account.lockout a)))) =
            wrong_for a) as Hsamepw by done.
    specialize (IH _ (n + 1)%Z s' w' Honly' Hstate' ltac:(lia) ltac:(simpl in Hlen; lia)).
    assert (s ≤ now)%Z as Hsnow.
    { destruct (decide (3 ≤ n)%Z); [by apply (locked_state_time a n)|apply Hs; lia]. }
    cbn [compared]. rewrite decide_False by lia.
    apply (guess_arithmetic n s s' t now); [lia|lia|lia|done|]. apply IH; [|done].
    intros g Hg. destruct (Hall g ltac:(by right)) as (Hw & _ & Ht). split_and!; [done| |done].
    intros Hn. rewrite Hfree by done. rewrite Forall_forall in Hfirst. by apply (Hfirst g).
Qed.

(** C24: guessing is slow: of any number of wrong passwords sent to an account between two
    times, at most five and one more for every hour between them are compared with the
    password; the others are refused. *)
Theorem guessing_is_slow (email : string) (a : Account.t) (l : list (Z * string)) (t0 t : Z)
    (w : World.t) :
  normalise_email email = Ok (Account.email_normalised a) →
  only_account (Account.email_normalised a) a w → Account.lockout a = None →
  (t0 ≤ t)%Z → (Z.of_nat (length l) < 2 ^ 31)%Z →
  (∀ now password, (now, password) ∈ l → wrong_for a password ∧ (t0 ≤ now ≤ t)%Z) →
  StronglySorted (λ g g', (g.1 ≤ g'.1)%Z) l →
  (compared (guesses email l w) ≤ 5 + (t - t0) / hour)%Z.
Proof.
  intros Hn Honly Hlock Hle Hlen Hall Hsorted.
  pose proof (guesses_bound email _ l a 0 t0 t w Hn Honly) as Hb.
  rewrite Hlock in Hb. rewrite decide_False, Z.max_r in Hb by lia.
  apply Hb; [done|done|done| |done]. intros [now password] Hg.
  destruct (Hall now password Hg) as [Hw Ht]. cbn. split_and!; [done|lia|lia].
Qed.

(** ** Recovery codes *)

Lemma remove_first_spec code codes l :
  NoDup codes → remove_first code codes = Some l →
  code ∉ l ∧ NoDup l ∧ ∀ c, c ≠ code → c ∈ codes ↔ c ∈ l.
Proof.
  revert l. induction codes as [|x codes IH]; intros l Hnodup Hl; simpl in Hl; [done|].
  apply NoDup_cons in Hnodup as [Hx Hnodup]. case_bool_decide as Heq.
  - injection Hl as <-. subst x. split_and!; [done|done|]. intros c Hc. set_solver.
  - destruct (remove_first code codes) as [l'|] eqn:Hl'; [|done]. injection Hl as <-.
    destruct (IH l' Hnodup eq_refl) as (Hno & Hnd & Hiff). split_and!.
    + set_solver.
    + apply NoDup_cons. split; [|done]. intros Hin. apply Hx, Hiff; [done|done].
    + intros c Hc. rewrite !elem_of_cons, (Hiff c Hc). done.
Qed.
Lemma remove_first_none code codes : code ∉ codes → remove_first code codes = None.
Proof.
  induction codes as [|x codes IH]; intros Hno; simpl; [done|].
  rewrite bool_decide_eq_false_2 by set_solver. by rewrite IH by set_solver.
Qed.

(** A recovery code works once: when it was accepted, the account is stored without it
    and with all others, and answering with it again fails and changes nothing. *)
Theorem recovery_code_works_once (a a' : Account.t) (code : string) (ticket ticket' : option MFATicket.t)
    (w w' : World.t) :
  NoDup (MultiFactorAuthentication.recovery_codes (Account.mfa a)) →
  consume_mfa_response a (MFAResponse.Recovery code) ticket w = (Ok a', w') →
  accounts w' = <[Account.id a := a']> (accounts w) ∧
  (∀ c, c ∈ MultiFactorAuthentication.recovery_codes (Account.mfa a') ↔
        c ≠ code ∧ c ∈ MultiFactorAuthentication.recovery_codes (Account.mfa a)) ∧
  ∀ w1, ∃ e, consume_mfa_response a' (MFAResponse.Recovery code) ticket' w1 = (Err e, w1).
Proof.
  intros Hnodup Hrun. unfold consume_mfa_response in Hrun.
  destruct (bool_decide _) eqn:Hm; [|done].
  destruct (remove_first _ _) as [codes|] eqn:Hcodes; [|done]. cbv zeta in Hrun.
  apply bind_Ok_inv in Hrun as ([] & w1 & Hsave & [= <- <-]).
  destruct (remove_first_spec _ _ _ Hnodup Hcodes) as (Hno & _ & Hiff).
  split_and!.
  - unfold save_account, on_accounts in Hsave. rewrite on_table_run in Hsave. by injection Hsave as <-.
  - intros c. cbn. destruct (decide (c = code)) as [->|Hne]; [tauto|]. rewrite (Hiff c Hne). tauto.
  - intros w2. unfold consume_mfa_response. cbv zeta.
    cbn [Account.mfa Account.set_mfa MultiFactorAuthentication.recovery_codes
      MultiFactorAuthentication.set_recovery_codes]. rewrite remove_first_none by done.
    match goal with |- context [if ?b then _ else _] => destruct b end;
      [by exists ErrorType.InvalidToken|by exists ErrorType.DisallowedMFAMethod].
Qed.

(** ** Resetting a password *)

(** A password reset does what it says: when it succeeds, the one account with the token
    is stored with a password that verifies, without lockout and without the token, no other
    account changes, the token works for no account any more, and the sessions are gone if
    that was asked for. *)
Theorem password_reset_effect (data : DataPasswordReset.t) (w w' : World.t) :
  (∀ password salt hash, hash_encoded password salt = Some hash →
     verify_encoded hash password = Some true) →
  auth_wf w →
  (∀ i j x y, accounts w !! i = Some x → accounts w !! j = Some y →
     AccountsTable.resets (DataPasswordReset.token data) x = true →
     AccountsTable.resets (DataPasswordReset.token data) y = true → i = j) →
  password_reset data w = (Ok tt, w') →
  ∃ a a', stored a w ∧ AccountsTable.resets (DataPasswordReset.token data) a = true ∧
    accounts w' = <[Account.id a := a']> (accounts w) ∧
    Account.verify_password a' (DataPasswordReset.password data) = Ok tt ∧
    Account.lockout a' = None ∧
    (∀ k x, accounts w' !! k = Some x →
       AccountsTable.resets (DataPasswordReset.token data) x = false) ∧
    (DataPasswordReset.remove_sessions data = true → no_session (Account.id a) w').
Proof.
  intros Hargon Iw Hunique Hrun. unfold password_reset in Hrun.
  set (token := DataPasswordReset.token data) in *.
  apply bind_Ok_inv_reads in Hrun as (a & Ha & Hrun); [|unfold on_accounts; solve_reads].
  assert (stored a w ∧ AccountsTable.resets token a = true) as [Hstored Hresets].
  { unfold on_accounts in Ha. rewrite on_table_run in Ha.
    unfold AccountsTable.fetch_account_with_password_reset, AccountsTable.find_account in Ha.
    cbn in Ha. injection Ha as Ha _. destruct (List.find _ _) as [x|] eqn:Hf; [|done].
    injection Ha as ->. apply find_some in Hf as [Hin Hf]. split; [|done].
    apply list_elem_of_In, elem_of_hash_values in Hin as [k Hk]. destruct Iw as [Hkeyed _].
    unfold stored. by rewrite (Hkeyed k a Hk). }
  unbind Hrun u. apply bind_Ok_inv in Hrun as (hash & w1 & Hhash & Hrun).
  assert (∃ salt, hash_encoded (DataPasswordReset.password data) salt = Some hash) as [salt Hsalt].
  { unfold hash_password in Hhash. apply bind_Ok_inv in Hhash as (salt & w2 & _ & Hhash).
    exists salt. unfold hash_with, lift in Hhash. injection Hhash as Hhash _.
    destruct (hash_encoded _ salt); by simplify_eq/=. }
  assert (auth w1 = auth w) as [= Hacc Hses].
  { pose proof (hash_password_auth (DataPasswordReset.password data) w) as Hk. by rewrite Hhash in Hk. }
  cbv zeta in Hrun. set (a' := Account.set_lockout _ None) in Hrun.
  apply bind_Ok_inv in Hrun as ([] & w2 & Hsave & Hrun).
  unfold save_account, on_accounts in Hsave. rewrite on_table_run in Hsave. injection Hsave as <-.
  match type of Hrun with _ ?x = _ => set (w2 := x) in Hrun end.
  assert (accounts w2 = <[Account.id a := a']> (accounts w)) as Hw2.
  { rewrite <- Hacc. done. }
  assert (accounts w' = accounts w2) as Hw'.
  { destruct (DataPasswordReset.remove_sessions data); by injection Hrun as <-. }
  exists a, a'. rewrite Hw', Hw2. split_and!; [done|done|done| |done| |].
  - unfold Account.verify_password. cbn. by rewrite (Hargon _ _ _ Hsalt).
  - intros k x [[_ <-]|[Hne Hx]]%lookup_insert_Some; [done|].
    destruct (AccountsTable.resets token x) eqn:Hrx; [|done]. exfalso. apply Hne.
    by apply (Hunique _ _ a x).
  - intros Hremove. rewrite Hremove in Hrun. pose proof (delete_all_none a' w2) as Hnone.
    rewrite Hrun in Hnone. exact Hnone.
Qed.

(** ** Deleting accounts *)

Section Deleting.
(** What the derive macro promises *)
Hypothesis user_options : ∀ u p, apply_options u p = user_merge u p.
(** The users there were, and those deleted so far *)
Context (before : UsersTable.table) (D : string → Prop).

Definition deleted_row (id : string) (u : User.t) : Prop :=
  User.username u = "Deleted User " +:+ id ∧ User.flags u = Some 2%Z ∧
  User.relations u = Some [] ∧ User.avatar u = None.

(** Users are stored under their ids, nobody goes missing, and who is deleted stays so. *)
Definition users_ok (t : UsersTable.table) : Prop :=
  users_keyed t ∧ (∀ k, is_Some (before !! k) → is_Some (t !! k)) ∧
  (∀ id, D id → ∃ u, t !! id = Some u ∧ deleted_row id u).

Lemma users_ok_insert t id u :
  users_ok t → User.id u = id → (D id → deleted_row id u) → users_ok (<[id := u]> t).
Proof.
  intros (Hkeyed & Hdom & HD) Hid Hu. split_and!.
  - intros k x [[<- <-]|[_ Hx]]%lookup_insert_Some; [done|by apply Hkeyed].
  - intros k Hk. destruct (decide (id = k)) as [<-|Hne];
      [by rewrite lookup_insert_eq|rewrite lookup_insert_ne by done; by apply Hdom].
  - intros k Hk. destruct (decide (id = k)) as [<-|Hne].
    + exists u. rewrite lookup_insert_eq. by split; [|apply Hu].
    + rewrite lookup_insert_ne by done. by apply HD.
Qed.

Lemma users_ok_clear target ids t :
  users_ok t → users_ok (UsersTable.clear_user_relationships target ids t).2.
Proof.
  unfold UsersTable.clear_user_relationships, modify. cbn [snd]. revert t.
  induction ids as [|id ids IH]; intros t Ht; cbn [fold_left]; [done|]. apply IH.
  destruct (t !! id) as [u|] eqn:Hu; [|done]. destruct (User.relations u) as [l|] eqn:Hl; [|done].
  apply users_ok_insert; [done|exact (proj1 Ht id u Hu)|]. intros HD.
  destruct (proj2 (proj2 Ht) id HD) as (u' & Hu' & H1' & H2' & H3' & H4').
  rewrite Hu in Hu'. injection Hu' as <-. rewrite Hl in H3'. injection H3' as ->. by split_and!.
Qed.

Definition deletion_fields : list FieldsUser.t :=
  [FieldsUser.Avatar; FieldsUser.StatusText; FieldsUser.StatusPresence;
   FieldsUser.ProfileContent; FieldsUser.ProfileBackground; FieldsUser.Suspension].

Lemma deleted_row_merge v id :
  deleted_row id (user_merge (fold_left User.remove_field deletion_fields v) (partial_deleted id)).
Proof. destruct v as [? ? ? ? ? ? ? ? [s|] [pr|] ? ? ? ? ?]; by split_and!. Qed.

(** Keeping [users_ok] *)
Definition users_inv (w : World.t) : Prop := users_ok (users w).

Lemma users_inv_keeps {A} (m : H A) :
  keeps users m → triple users_inv (λ _, True) m (λ _ _, True).
Proof. intros Hm w Iw _. split; [|done]. unfold users_inv. by rewrite Hm. Qed.

Lemma mark_deleted_inv self :
  triple users_inv (λ _, True) (mark_deleted self) (λ _ _, True).
Proof.
  intros w Iw _. split; [|done]. unfold users_inv, users, mark_deleted.
  rewrite update_user_db, user_options. fold deletion_fields.
  replace (User.id (user_merge _ _)) with (User.id self)
    by (symmetry; apply (remove_fields_id deletion_fields self)).
  cbn [ReferenceDb.users ReferenceDb.set_users].
  destruct (users w !! User.id self) as [v|] eqn:Hv; [|done]. rewrite user_options.
  apply users_ok_insert; [done| |intros _; apply deleted_row_merge].
  destruct Iw as [Hkeyed _]. rewrite <- (Hkeyed _ _ Hv) at 2.
  apply (remove_fields_id deletion_fields v).
Qed.

Lemma delete_bot_inv b : triple users_inv (λ _, True) (delete_bot b) (λ _ _, True).
Proof.
  unfold delete_bot. eapply triple_bind; [apply users_inv_keeps, reads_keeps; unfold on_users; solve_reads|].
  intros u. eapply triple_bind; [apply mark_deleted_inv|intros ?].
  apply users_inv_keeps. unfold on_bots. by apply keeps_table.
Qed.

Lemma for_each_inv {A} (l : list A) (body : A → H unit) :
  (∀ a, triple users_inv (λ _, True) (body a) (λ _ _, True)) →
  triple users_inv (λ _, True) (for_each l body) (λ _ _, True).
Proof.
  intros Hbody. induction l as [|a l IH]; cbn [for_each]; [by apply triple_ret|].
  eapply triple_bind; [apply Hbody|intros ?; apply IH].
Qed.

Lemma remove_chunks_users fuel user_id generator : keeps users (remove_chunks fuel user_id generator).
Proof.
  revert generator. induction fuel as [|fuel IH]; intros g; cbn [remove_chunks]; [done|].
  destruct (ChunkedDatabaseGenerator.next_n 100 g) as [[groups|] g']; [|done].
  unfold on_channels. apply keeps_bind; [by apply keeps_table|]. intros _. apply IH.
Qed.

Lemma delete_user_inv self : triple users_inv (λ _, True) (delete_user self) (λ _ _, True).
Proof.
  unfold delete_user, on_bots, on_servers, on_members, on_messages.
  eapply triple_bind; [apply users_inv_keeps; by apply keeps_table|intros bl].
  eapply triple_bind; [apply for_each_inv, delete_bot_inv|intros ?].
  eapply triple_bind; [apply users_inv_keeps; by apply keeps_table|intros sl].
  eapply triple_bind.
  { apply users_inv_keeps, for_each_keeps. intros s. unfold delete_server, on_servers.
    apply keeps_bind; [done|intros ?; by apply keeps_table]. }
  intros ?. eapply triple_bind.
  { apply users_inv_keeps. unfold remove_from_all_groups, on_channels.
    apply keeps_bind; [by apply keeps_table|intros ?; apply remove_chunks_users]. }
  intros ?. eapply triple_bind; [apply users_inv_keeps; by apply keeps_table|intros ?].
  eapply triple_bind with (Q := λ _ _, True).
  { intros w Iw _. split; [|done]. unfold clear_relationships, on_users. rewrite on_table_run.
    apply users_ok_clear, Iw. }
  intros ?. eapply triple_bind; [apply users_inv_keeps; by apply keeps_table|intros ?].
  eapply triple_bind; [apply users_inv_keeps, reads_keeps; unfold on_users; solve_reads|intros ?].
  apply mark_deleted_inv.
Qed.
End Deleting.

Section DeletionRound.
(** What the derive macro promises *)
Hypothesis user_options : ∀ u p, apply_options u p = user_merge u p.

Lemma delete_user_marked self v w w' :
  delete_user self w = (Ok v, w') → ∃ u, users w' !! User.id self = Some u ∧ deleted_row (User.id self) u.
Proof.
  unfold delete_user. intros Hrun. unbind Hrun bl. do 7 (apply bind_Ok_inv in Hrun as (? & ? & _ & Hrun)).
  apply bind_Ok_inv in Hrun as (? & ? & _ & Hrun).
  apply (mark_deleted_run user_options) in Hrun as [_ (u & Hu & Hrest)]. by exists u.
Qed.

(** One account that is due *)
Lemma delete_due_run before D a w w' :
  users_inv before D w → delete_due a w = (Ok tt, w') →
  users_inv before (λ id, D id ∨ id = Account.id a ∧ is_Some (before !! id)) w' ∧
  accounts w' = <[Account.id a := deleted_account a]> (accounts w).
Proof.
  intros Iw Hrun. unfold delete_due in Hrun. unfold on_users in Hrun. rewrite on_table_run in Hrun.
  unfold UsersTable.fetch_user, table_fetch in Hrun. cbn [fst snd] in Hrun. fold (users w) in Hrun.
  replace (World.set_db w _) with w in Hrun by (by destruct w as [[]]).
  destruct (users w !! Account.id a) as [user|] eqn:Huser; cbn [ok_or] in Hrun.
  - apply bind_Ok_inv in Hrun as (v & w1 & Hdel & Hrun).
    apply bind_Ok_inv in Hrun as (a' & w2 & Hmark & [= <-]).
    assert (User.id user = Account.id a) as Hid by (by apply (proj1 Iw)).
    destruct (delete_user_inv user_options before D user w Iw I) as [Iw1 _].
    pose proof (delete_user_auth user w) as Hauth. rewrite Hdel in Iw1, Hauth. cbn [snd] in Iw1, Hauth.
    injection Hauth as Hacc _. destruct (delete_user_marked _ _ _ _ Hdel) as (u & Hu & Hrow).
    rewrite Hid in Hu, Hrow. injection Hmark as _ <-. split; [|by rewrite <- Hacc].
    destruct Iw1 as (Hkeyed & Hdom & HD). split_and!; [done|done|].
    intros id [Hd|[-> _]]; [by apply HD|by exists u].
  - injection Hrun as <-. split; [|done]. destruct Iw as (Hkeyed & Hdom & HD). split_and!; [done|done|].
    intros id [Hd|[-> Hsome]]; [by apply HD|]. apply Hdom in Hsome. rewrite Huser in Hsome.
    by destruct Hsome.
Qed.

(** The list is worked off: every account in it is marked, no other is touched. *)
Lemma delete_due_all before D (t0 : AccountsTable.table) l w w' :
  users_inv before D w → (∀ a, a ∈ l → t0 !! Account.id a = Some a) →
  for_each l delete_due w = (Ok tt, w') →
  users_inv before (λ id, D id ∨ id ∈ Account.id <$> l ∧ is_Some (before !! id)) w' ∧
  ∀ k, accounts w' !! k =
    if decide (k ∈ Account.id <$> l) then deleted_account <$> t0 !! k else accounts w !! k.
Proof.
  revert D w. induction l as [|a l IH]; intros D w Iw Hl Hrun.
  { injection Hrun as <-. split; [|by intros k; rewrite decide_False by apply not_elem_of_nil].
    destruct Iw as (Hkeyed & Hdom & HD). split_and!; [done|done|].
    intros id [Hd|[Hin _]]; [by apply HD|by apply not_elem_of_nil in Hin]. }
  cbn [for_each] in Hrun. apply bind_Ok_inv in Hrun as ([] & w1 & Ha & Hrun).
  destruct (delete_due_run _ _ _ _ _ Iw Ha) as [Iw1 Hacc].
  destruct (IH _ w1 Iw1 ltac:(intros x Hx; apply Hl; by right) Hrun) as [Iw' Hk]. split.
  - destruct Iw' as (Hkeyed & Hdom & HD). split_and!; [done|done|]. intros id Hid. apply HD.
    cbn [fmap list_fmap] in Hid. rewrite elem_of_cons in Hid. tauto.
  - intros k. rewrite (Hk k), Hacc. cbn [fmap list_fmap].
    destruct (decide (k ∈ Account.id <$> l)); [by rewrite decide_True by (by right)|].
    destruct (decide (k = Account.id a)) as [->|Hne].
    + rewrite decide_True by left. by rewrite lookup_insert_eq, (Hl a) by left.
    + rewrite decide_False by (by rewrite elem_of_cons; tauto). by rewrite lookup_insert_ne.
Qed.

(** A round of the task that deletes accounts: when it succeeds, every account whose
    deletion was scheduled for that time or earlier is marked as deleted without any of its
    data, the others are as before, nothing is due any more, and the users of the accounts
    that were due are marked as deleted. *)
Theorem delete_accounts_effect (n : nat) (w w' : World.t) :
  auth_wf w → users_keyed (users w) → delete_accounts w = (Ok n, w') →
  (∀ k, accounts w' !! k =
     (λ a, if AccountsTable.due (World.now w) a then deleted_account a else a) <$> accounts w !! k) ∧
  (∀ k a, accounts w' !! k = Some a → AccountsTable.due (World.now w) a = false) ∧
  (∀ k a, accounts w !! k = Some a → AccountsTable.due (World.now w) a = true →
     is_Some (users w !! k) → marked_deleted k w').
Proof.
  intros [Hkeyed _] Husers Hrun. unfold delete_accounts in Hrun. unbind Hrun now. injection Enow as <-.
  apply bind_Ok_inv_reads in Hrun as (l & Hl & Hrun); [|unfold on_accounts; solve_reads].
  apply bind_Ok_inv in Hrun as ([] & w1 & Hall & [= _ <-]).
  unfold on_accounts in Hl. rewrite on_table_run in Hl. injection Hl as Hl. fold (accounts w) in Hl.
  assert (∀ k a, accounts w !! k = Some a →
    (k ∈ Account.id <$> l ↔ AccountsTable.due (World.now w) a = true)) as Hdue.
  { intros k a Ha. rewrite <- Hl, list_elem_of_fmap. split.
    - intros (x & -> & Hx). apply elem_of_table_select in Hx as [Hx [i Hi]].
      rewrite (Hkeyed i x Hi) in Ha. rewrite Hi in Ha. by injection Ha as <-.
    - intros Hd. exists a. split; [by rewrite (Hkeyed k a Ha)|]. apply elem_of_table_select.
      by split; [|exists k]. }
  assert (users_inv (users w) (λ _, False) w) as Iw by (by split_and!).
  destruct (delete_due_all (users w) (λ _, False) (accounts w) l w w1 Iw) as [(_ & _ & HD) Hk]; [|done|].
  { intros a Ha. rewrite <- Hl in Ha. apply elem_of_table_select in Ha as [_ [i Hi]].
    by rewrite (Hkeyed i a Hi). }
  assert (∀ k, accounts w1 !! k =
     (λ a, if AccountsTable.due (World.now w) a then deleted_account a else a) <$> accounts w !! k) as Heq.
  { intros k. rewrite Hk. destruct (accounts w !! k) as [a|] eqn:Ha; [|by destruct (decide _)].
    specialize (Hdue k a Ha). cbn. destruct (decide _) as [Hin|Hout].
    - by rewrite (proj1 Hdue Hin).
    - destruct (AccountsTable.due (World.now w) a); [|done]. exfalso. by apply Hout, Hdue. }
  split_and!; [done| |].
  - intros k a Ha. rewrite Heq in Ha. destruct (accounts w !! k) as [a0|]; [|done]. injection Ha as <-.
    by destruct (AccountsTable.due (World.now w) a0) eqn:Hd.
  - intros k a Ha Hd Hu. destruct (HD k) as (u & Hu' & Hrow); [|by exists u].
    right. split; [|done]. by apply (Hdue k a).
Qed.
End DeletionRound.
End Theorems.

(** ** The theorems on concrete inputs *)

Module Sample.
#[local] Existing Instance canonical_iter.
#[local] Existing Instance Fixture.strangers.
#[local] Instance account_environment : Environment := Fixture.environment 10.
#[local] Instance lowercase : Lowercase := ascii_lowercase.
#[local] Instance user_options : OptionalStruct User.t PartialUser.t := user_merge.
(** A hash is the password with a mark; the code is always the same. *)
#[local] Instance plain : Credentials :=
  {| hash_encoded password _ := Some ("#" +:+ password);
     verify_encoded hash password := Some (bool_decide (hash = "#" +:+ password));
     top_100k_compromised _ := false; easypwned _ := None;
     new_totp_secret _ := "secret"; new_code_part _ := "part";
     totp_custom _ _ := Some "123456"; validator_email _ := true; revolt_source_list _ := false |}.
Definition settings (smtp_host : string) : ApiSettings.t :=
  ApiSettings.mk smtp_host 86400 3600 3600 true "" "" false "" 604800 "test".
Definition services (smtp_host : string) : Services :=
  {| api := settings smtp_host; address_parses _ := true; relay_accepts _ := true;
     hcaptcha _ := Some true; shield _ _ := None; stripe_cancels _ := true |}.
#[local] Instance mailing : Services := services "smtp".

(** "alice" has a second factor, a session and a reset that has expired, "mallory" a ticket of
    her own; "bob" is disabled and due for deletion. *)
Definition account (id email : string) (disabled : bool) (deletion : option DeletionInfo.t)
    (mfa : MultiFactorAuthentication.t) : Account.t :=
  Account.mk id email email ("#" +:+ "password of " +:+ id) disabled None None
    EmailVerification.Verified None deletion None mfa None None.
Definition factor : MultiFactorAuthentication.t :=
  MultiFactorAuthentication.mk (Totp.Enabled "secret") ["code-1"; "code-2"].
Definition alice : Account.t :=
  Account.set_password_reset (account "alice" "alice@x" false None factor)
    (Some (PasswordReset.mk "reset" 5)).
Definition mallory : Account.t :=
  account "mallory" "mallory@x" false None MultiFactorAuthentication.default.
Definition bob : Account.t :=
  account "bob" "bob@x" true (Some (DeletionInfo.Scheduled 1)) MultiFactorAuthentication.default.
Definition session : Session.t := Session.mk "s" "alice" "token of alice" "phone" 0 None None.
Definition ticket : MFATicket.t := MFATicket.mk "t" "mallory" "ticket" true false None.
Definition login_ticket : MFATicket.t :=
  MFATicket.mk "u" "alice" "login ticket" false false (Some "123456").
Definition account_table : AccountsTable.table :=
  {["alice" := alice; "mallory" := mallory; "bob" := bob]}.
Definition world : World.t :=
  World.set_now (World.set_db World.empty
    (ReferenceDb.set_users
       (ReferenceDb.set_account_invites
          (ReferenceDb.set_tickets
             (ReferenceDb.set_sessions
                (ReferenceDb.set_accounts ReferenceDb.empty account_table) {["s" := session]})
             {["t" := ticket; "u" := login_ticket]})
          {["invite" := AccountInvite.mk "invite" true (Some "bob")]})
       {["bob" := Fixture.user "bob" []]})) 10.
Definition request : Credential.t := Credential.mk (Some "token of alice") None (Some "ticket") "::1".

Lemma account_table_lookup i a :
  account_table !! i = Some a →
  i = "alice" ∧ a = alice ∨ i = "mallory" ∧ a = mallory ∨ i = "bob" ∧ a = bob.
Proof.
  unfold account_table. intros [[<- <-]|[_ [[<- <-]|[_ [<- <-]%lookup_singleton_Some]]%lookup_insert_Some]]
    %lookup_insert_Some; tauto.
Qed.
Lemma world_wf : auth_wf world.
Proof.
  split.
  - intros k a Ha. change (account_table !! k = Some a) in Ha.
    by apply account_table_lookup in Ha as [[-> ->]|[[-> ->]|[-> ->]]].
  - intros k a Ha Hd i s Hs. change (account_table !! k = Some a) in Ha.
    change (({["s" := session]} : SessionsTable.table) !! i = Some s) in Hs.
    apply lookup_singleton_Some in Hs as [<- <-].
    by apply account_table_lookup in Ha as [[-> ->]|[[-> ->]|[-> ->]]].
Qed.

(** "alice" disables her account. *)
Definition disabled_world : World.t := run_requests [(11%Z, DisableAccount request)] world.
Lemma disabled_accounts_stay_out_witness :
  (Account.disabled <$> accounts disabled_world !! "alice") = Some true ∧
  no_session "alice" disabled_world.
Proof.
  split; [vm_compute; reflexivity|].
  refine (proj1 (disabled_accounts_stay_out [(11%Z, DisableAccount request)] world world_wf)
    "alice" (Account.set_disabled alice true) _ _); vm_compute; reflexivity.
Defined.

Definition login_request : account_request :=
  Login (DataLogin.Email "mallory@x" "password of mallory" None).
Definition logged_in : Session.t :=
  Session.mk "id" "mallory" "nid" "Unknown" 10 (Some "test") None.
Lemma sessions_need_credentials_witness :
  (∃ k0 s0, sessions world !! k0 = Some s0 ∧ Session.user_id s0 = "mallory" ∧
     Session.token s0 = "nid") ∨
  (∃ data a, login_request = Login data ∧ logs_in_to data a world ∧ "mallory" = Account.id a).
Proof.
  refine (sessions_need_credentials login_request world "id" logged_in _).
  vm_compute. reflexivity.
Defined.

Lemma sensitive_requests_need_ticket_witness :
  ticket_used request world (run_request (DisableAccount request) world).2.
Proof.
  refine (proj2 (sensitive_requests_need_ticket (DisableAccount request) request world eq_refl) tt _).
  vm_compute. reflexivity.
Defined.

(** The ticket of somebody else is accepted: nothing compares its account with the one the
    session belongs to. *)
Example stranger_ticket_accepted :
  MFATicket.account_id ticket = "mallory" ∧
  (run_request (DisableAccount request) world).1 = Ok tt ∧
  Account.disabled <$> accounts (run_request (DisableAccount request) world).2 !! "alice" = Some true.
Proof. split_and!; vm_compute; reflexivity. Qed.

Lemma world_tickets_wf : tickets_wf (tickets world).
Proof.
  assert (∀ k x, tickets world !! k = Some x → k = "t" ∧ x = ticket ∨ k = "u" ∧ x = login_ticket) as Hcases.
  { intros k x Hx. change (({["t" := ticket; "u" := login_ticket]} : TicketsTable.table) !! k = Some x) in Hx.
    apply lookup_insert_Some in Hx as [[<- <-]|[_ [<- <-]%lookup_singleton_Some]]; tauto. }
  split.
  - intros k x [[-> ->]|[-> ->]]%Hcases; done.
  - intros i j x y [[-> ->]|[-> ->]]%Hcases [[-> ->]|[-> ->]]%Hcases; done.
Qed.
Definition after_ticket : World.t :=
  World.set_now (run_request (DisableAccount request) world).2 11.
Lemma ticket_works_once_witness :
  (run_request (Revoke request "s") after_ticket).1 ≠ Ok tt ∧
  auth (run_request (Revoke request "s") after_ticket).2 = auth after_ticket.
Proof.
  apply (ticket_works_once (DisableAccount request) (Revoke request "s") request request world 11
    eq_refl eq_refl eq_refl world_tickets_wf).
  vm_compute. reflexivity.
Defined.

(** A ticket for logging in is not used up: it logs in twice. *)
Definition second_factor : DataLogin.t :=
  DataLogin.MFA "login ticket" (Some (MFAResponse.Totp "123456")) None.
Definition logged_in_twice : World.t := (login second_factor (login second_factor world).2).2.
Example login_ticket_reused :
  size (sessions world) = 1 ∧ size (sessions logged_in_twice) = 3.
Proof. split; vm_compute; reflexivity. Qed.

(** An invite that was used creates another account. *)
Definition registration : DataCreateAccount.t :=
  DataCreateAccount.mk "new@x" "long enough" (Some "invite") None.
Example used_invite_accepted :
  AccountInvite.used <$> account_invites world !! "invite" = Some true ∧
  (create_account request registration world).1 = Ok tt ∧
  Account.email <$> accounts (create_account request registration world).2 !! "0id" = Some "new@x".
Proof. split_and!; vm_compute; reflexivity. Qed.

(** A password is reset with a token that has expired. *)
Definition reset_data : DataPasswordReset.t := DataPasswordReset.mk "reset" "new password" true.
Definition reset_world : World.t := (password_reset reset_data world).2.
Example expired_reset_accepted :
  PasswordReset.expiry <$> Account.password_reset alice = Some 5%Z ∧ World.now world = 10%Z ∧
  (password_reset reset_data world).1 = Ok tt.
Proof. split_and!; vm_compute; reflexivity. Qed.

(** Without mail, an address is changed to one that another account has, and asking for
    verification tells whether there is an account. *)
Definition mail_off : Services := services "".
Example address_taken_twice :
  let w := (change_email (H5 := mail_off) (Credential.mk (Some "token of alice") None (Some "ticket") "::1")
              (DataChangeEmail.mk "mallory@x" "password of alice") world).2 in
  Account.email_normalised <$> accounts w !! "alice" = Some "mallory@x" ∧
  Account.email_normalised <$> accounts w !! "mallory" = Some "mallory@x".
Proof. split; vm_compute; reflexivity. Qed.
Example reverification_reveals :
  (resend_verification (H5 := mail_off) (DataResend.mk "mallory@x" None) world).1 =
    Err ErrorType.OperationFailed ∧
  (resend_verification (H5 := mail_off) (DataResend.mk "nobody@x" None) world).1 = Ok tt.
Proof. split; vm_compute; reflexivity. Qed.

(** Seven wrong passwords in ten minutes: five are compared. *)
Definition wrong_guesses : list (Z * string) :=
  (λ n, (minutes n, "wrong password")) <$> [0; 1; 2; 3; 4; 8; 9]%Z.
Example wrong_guesses_compared : compared (guesses "mallory@x" wrong_guesses world) = 5%Z.
Proof. vm_compute. reflexivity. Qed.
Lemma guessing_is_slow_witness :
  (compared (guesses "mallory@x" wrong_guesses world) ≤ 5 + (minutes 10 - 0) / hour)%Z.
Proof.
  apply (guessing_is_slow "mallory@x" mallory wrong_guesses 0 (minutes 10) world).
  - reflexivity.
  - split_and!; [done|done|]. intros k x Hx. change (account_table !! k = Some x) in Hx.
    by apply account_table_lookup in Hx as [[-> ->]|[[-> ->]|[-> ->]]].
  - reflexivity.
  - by vm_compute.
  - by vm_compute.
  - intros now password Hin. apply list_elem_of_fmap in Hin as (n & [= -> ->] & Hn).
    split; [by vm_compute|]. unfold minutes, seconds.
    assert (0 ≤ n ≤ 9)%Z by (by repeat (apply elem_of_cons in Hn as [->|Hn]; [|try by apply not_elem_of_nil in Hn])).
    lia.
  - repeat constructor; cbn; unfold minutes, seconds; lia.
Defined.

Definition recovered : Account.t :=
  Account.set_mfa alice (MultiFactorAuthentication.set_recovery_codes factor ["code-2"]).
Lemma recovery_code_works_once_witness :
  ∃ e, consume_mfa_response recovered (MFAResponse.Recovery "code-1") None world = (Err e, world).
Proof.
  refine (proj2 (proj2 (recovery_code_works_once alice recovered "code-1" None None world
    (consume_mfa_response alice (MFAResponse.Recovery "code-1") None world).2 _ _)) world).
  - repeat constructor; set_solver.
  - vm_compute. reflexivity.
Defined.

Lemma password_reset_effect_witness :
  ∃ a a', stored a world ∧ accounts reset_world = <[Account.id a := a']> (accounts world) ∧
    Account.verify_password a' "new password" = Ok tt.
Proof.
  destruct (password_reset_effect reset_data world reset_world) as (a & a' & Ha & _ & Hacc & Hpw & _).
  - intros password salt hash [= <-]. cbn. by rewrite bool_decide_eq_true_2.
  - exact world_wf.
  - intros i j x y Hx Hy. change (account_table !! i = Some x) in Hx. change (account_table !! j = Some y) in Hy.
    apply account_table_lookup in Hx as [[-> ->]|[[-> ->]|[-> ->]]]; [|done..].
    by apply account_table_lookup in Hy as [[-> ->]|[[-> ->]|[-> ->]]].
  - vm_compute. reflexivity.
  - exists a, a'. exact (conj Ha (conj Hacc Hpw)).
Defined.

Lemma delete_accounts_effect_witness : marked_deleted "bob" (delete_accounts world).2.
Proof.
  refine (proj2 (proj2 (delete_accounts_effect (λ _ _, eq_refl) 1 world (delete_accounts world).2
    world_wf _ _)) "bob" bob _ _ _).
  - intros k u Hu. change (({["bob" := Fixture.user "bob" []]} : UsersTable.table) !! k = Some u) in Hu.
    by apply lookup_singleton_Some in Hu as [<- <-].
  - vm_compute. reflexivity.
  - reflexivity.
  - reflexivity.
  - vm_compute. by eexists.
Defined.
End Sample.
