(* ===== verification/UserRoutes.v ===== *)
(** * Routes on users, bots, invites and webhooks

    The routes of [delta/src/routes/users] (those on friends are in [Relationships.v]), [bots],
    [invites] and [webhooks], and what each of them needs. The bridges from other services to
    webhooks ([webhook_execute_github.rs], [stripe.rs]) and the routes on documents of MongoDB
    ([xp.rs], [warnings.rs], [profile_decorations.rs]) are not part of it. *)

From stdpp Require Import base list gmap strings.
From Stdlib Require Import ZArith Ascii Lia.
From S2P Require Import Prelude Errors Permissions PermissionSpec Files Users Servers Channels.
From S2P Require Import PermissionQuery Messages Unreads Config Emojis Webhooks Bots AuditLogs.
From S2P Require Import Accounts Platform World Database PermissionTheorems Relationships MessageOps.
From S2P Require Import ChannelOps ServerOps Parser References Authors Bridge Redis MessageCreate.
From S2P Require Import MessageTheorems Acker MessageRoutes Voice ServerRoutes ChannelRoutes UserOps.
From S2P Require Import PlatformRoutes AccountOps AccountRoutes.

(** ** Requests and responses *)

Module DataChangeUsername.
Record t : Type := mk { username : string; password : string }.
Definition valid `{Validator} (d : t) : bool :=
  valid_length 2 32 (username d) && is_match "RE_USERNAME" (username d) &&
  valid_length 8 1024 (password d).
End DataChangeUsername.

Module DataUserProfile.
Record t : Type := mk { content : option string; background : option string }.
Definition valid `{Validator} (d : t) : bool :=
  valid_option (valid_length 0 2000) (content d) && valid_option (valid_length 1 128) (background d).
End DataUserProfile.

Module DataEditUser.
Record t : Type := mk {
  display_name : option string;
  pronouns : option string;
  avatar : option string;
  status : option V0.UserStatus.t;
  profile : option DataUserProfile.t;
  badges : option Z;
  flags : option Z;
  remove : list V0.FieldsUser.t
}.
Definition valid `{Validator} (d : t) : bool :=
  valid_option (λ s, valid_length 2 32 s && is_match "RE_DISPLAY_NAME" s) (display_name d) &&
  valid_option (valid_length 1 24) (pronouns d) &&
  valid_option (valid_length 1 128) (avatar d) &&
  valid_option (λ s, valid_option (valid_length 0 128) (V0.UserStatus.text s)) (status d) &&
  valid_option DataUserProfile.valid (profile d).
Definition is_none {A} (o : option A) : bool := match o with Some _ => false | None => true end.
(** Nothing is changed *)
Definition is_empty (d : t) : bool :=
  is_none (display_name d) && is_none (pronouns d) && is_none (status d) && is_none (profile d) &&
  is_none (avatar d) && is_none (badges d) && is_none (flags d) && is_none (head (remove d)).
End DataEditUser.

Module MutualResponse.
Record t : Type := mk { users : list string; servers : list string; channels : list string }.
End MutualResponse.

Definition valid_bot_name `{Validator} (name : string) : bool :=
  valid_length 2 32 name && is_match "RE_USERNAME" name.

Module DataEditBot.
Record t : Type := mk {
  name : option string;
  public : option bool;
  analytics : option bool;
  interactions_url : option string;
  remove : list V0.FieldsBot.t
}.
Definition valid `{Validator} (d : t) : bool :=
  valid_option valid_bot_name (name d) && valid_option (valid_length 1 2048) (interactions_url d).
Definition is_empty (d : t) : bool :=
  DataEditUser.is_none (public d) && DataEditUser.is_none (analytics d) &&
  DataEditUser.is_none (interactions_url d) && DataEditUser.is_none (head (remove d)).
End DataEditBot.

Module BotWithUserResponse.
Record t : Type := mk { bot : V0.Bot.t; user : V0User.t }.
End BotWithUserResponse.

Module OwnedBotsResponse.
Record t : Type := mk { bots : list V0.Bot.t; users : list V0User.t }.
End OwnedBotsResponse.

Module InviteBotDestination.
Inductive t : Type := Server (server : string) | Group (group : string).
End InviteBotDestination.

Module InviteResponse.
Inductive t : Type :=
| Server (code server_id server_name : string) (server_icon server_banner : option V0.File.t)
    (server_flags : option Z) (channel_id channel_name : string)
    (channel_description : option string) (user_name : string) (user_avatar : option V0.File.t)
    (member_count : Z)
| Group (code channel_id channel_name : string) (channel_description : option string)
    (user_name : string) (user_avatar : option V0.File.t).
End InviteResponse.

Module InviteJoinResponse.
Inductive t : Type :=
| Server (channels : list Channel.t) (server : Server.t)
| Group (channel : Channel.t) (users : list V0User.t).
End InviteJoinResponse.

Module DataEditWebhook.
Record t : Type := mk {
  name : option string;
  avatar : option string;
  permissions : option Z;
  remove : list V0.FieldsWebhook.t
}.
Definition valid `{Validator} (d : t) : bool :=
  valid_option (valid_length 1 32) (name d) && valid_option (valid_length 1 128) (avatar d).
Definition is_empty (d : t) : bool :=
  DataEditUser.is_none (name d) && DataEditUser.is_none (avatar d) &&
  DataEditUser.is_none (head (remove d)).
End DataEditWebhook.

Section Routes.
Context `{Environment, MutualIds, HashIter, Validator, Lowercase, Cure, Credentials}.
Context `{OptionalStruct User.t PartialUser.t, OptionalStruct Bot.t PartialBot.t}.

(** [calculate_user_permissions(&mut query).await.throw_if_lacking_user_permission(..)?] *)
Definition require_of_user (user target : User.t) (permission : UserPermission.t) : H unit :=
  permissions ← user_permissions user target;
  lift (PermissionValue.throw_if_lacking_user_permission permissions permission).

(** ** Users *)

(** # Change Username *)
Definition change_username (blocked_terms : list string) (account : Account.t) (user : User.t)
    (data : DataChangeUsername.t) : H V0User.t :=
  validate DataChangeUsername.valid data ;;
  if is_disallowed_username blocked_terms (DataChangeUsername.username data)
  then throw (ErrorType.FailedValidation "You cannot use that username.") else
  match Account.verify_password account (DataChangeUsername.password data) with
  | Ok _ =>
      user ← update_username user (DataChangeUsername.username data);
      into_model user None
  | Err _ => throw ErrorType.InvalidCredentials
  | Panicked => panic
  end.

(** The user to edit: the requester, or somebody else with the permission for it *)
Definition user_to_edit (user : User.t) (target : string) : H User.t :=
  if negb (bool_decide (target = "@me")) && negb (bool_decide (target = User.id user)) then
    target_user ← Reference.as_user target;
    let is_bot_owner :=
      match User.bot target_user with
      | Some bot => bool_decide (BotInformation.owner bot = User.id user)
      | None => false
      end in
    if negb is_bot_owner && negb (User.privileged user) then throw ErrorType.NotPrivileged
    else mret target_user
  else mret user.

(** 1. Remove fields from object: the files that go are marked. *)
Definition remove_user_files (user : User.t) (remove : list V0.FieldsUser.t) : H unit :=
  match User.avatar user with
  | Some avatar =>
      if existsb (λ f, match f with V0.FieldsUser.Avatar => true | _ => false end) remove
      then on_files (FilesTable.mark_attachment_as_deleted (File.id avatar)) else mret tt
  | None => mret tt
  end ;;
  match User.profile user ≫= UserProfile.background with
  | Some background =>
      if existsb (λ f, match f with V0.FieldsUser.ProfileBackground => true | _ => false end) remove
      then on_files (FilesTable.mark_attachment_as_deleted (File.id background)) else mret tt
  | None => mret tt
  end.

(** 3. Apply new status *)
Definition new_status (old : option UserStatus.t) (status : V0.UserStatus.t) : UserStatus.t :=
  let old := default (UserStatus.mk None None) old in
  UserStatus.mk
    (match V0.UserStatus.text status with Some text => Some text | None => UserStatus.text old end)
    (match V0.UserStatus.presence status with
     | Some presence => Some (V0.Presence.into_db presence)
     | None => UserStatus.presence old
     end).

(** 4. Apply new profile *)
Definition new_profile (user_id : string) (old : option UserProfile.t) (profile : DataUserProfile.t) :
    H UserProfile.t :=
  let old := default (UserProfile.mk None None None) old in
  background ← match DataUserProfile.background profile with
               | Some background =>
                   file ← on_files (UseFile.use_background background user_id user_id);
                   mret (Some file)
               | None => mret (UserProfile.background old)
               end;
  mret (UserProfile.mk
          (match DataUserProfile.content profile with
           | Some content => Some content | None => UserProfile.content old end)
          background (UserProfile.avatar_decoration old)).

(** # Edit User *)
Definition edit_user (user : User.t) (target : string) (data : DataEditUser.t) : H V0User.t :=
  validate DataEditUser.valid data ;;
  if negb (User.privileged user) &&
     (is_some (DataEditUser.badges data) || is_some (DataEditUser.flags data))
  then throw ErrorType.NotPrivileged else
  user ← user_to_edit user target;
  if DataEditUser.is_empty data then lift (into_self user false) else
  remove_user_files user (DataEditUser.remove data) ;;
  let remove := V0.FieldsUser.into_db <$> DataEditUser.remove data in
  let user := fold_left User.remove_field remove user in
  avatar ← traverse (λ id, on_files (UseFile.use_user_avatar id (User.id user) (User.id user)))
             (DataEditUser.avatar data);
  let status := new_status (User.status user) <$> DataEditUser.status data in
  profile ← traverse (new_profile (User.id user) (User.profile user)) (DataEditUser.profile data);
  let user := if is_some status then User.set_status user None else user in
  let user := if is_some profile then User.set_profile user None else user in
  user ← update_user user
           (PartialUser.mk None None None (DataEditUser.display_name data)
              (DataEditUser.pronouns data) avatar None (DataEditUser.badges data) status profile
              (DataEditUser.flags data) None None None None) remove;
  lift (into_self user false).

(** # Fetch Direct Message Channels *)
Definition direct_messages (user : User.t) : H (list Channel.t) :=
  on_channels (ChannelsTable.find_direct_messages (User.id user)).

(** # Fetch User Profile *)
Definition fetch_profile (user : User.t) (target : string) : H V0.UserProfile.t :=
  let answer (u : User.t) :=
    default (V0.UserProfile.mk None None None) (V0.UserProfile.from_db <$> User.profile u) in
  if bool_decide (User.id user = target) then mret (answer user) else
  target ← Reference.as_user target;
  require_of_user user target UserPermission.ViewProfile ;;
  mret (answer target).

(** # Fetch Self *)
Definition fetch_self (user : User.t) : H V0User.t := lift (into_self user false).

(** # Fetch User *)
Definition fetch_user (user : User.t) (target : string) : H V0User.t :=
  if bool_decide (User.id user = target) then lift (into_self user false) else
  target ← Reference.as_user target;
  require_of_user user target UserPermission.Access ;;
  into_model target (Some user).

(** # Fetch User Flags *)
Definition fetch_user_flags (target : string) : H Z :=
  target ← attempt (Reference.as_user target);
  mret (match target with Some target => default 0%Z (User.flags target) | None => 0%Z end).

(** # Fetch Mutual Friends, Servers, Groups and DMs *)
Definition find_mutual (user : User.t) (target : string) : H MutualResponse.t :=
  if bool_decide (target = User.id user) then throw ErrorType.InvalidOperation else
  target ← Reference.as_user target;
  require_of_user user target UserPermission.ViewProfile ;;
  users ← on_users (UsersTable.fetch_mutual_user_ids (User.id user) (User.id target));
  servers ← ((λ w, (mutual_server_ids (World.db w) (User.id user) (User.id target), w)) : H _);
  channels ← ((λ w, (mutual_channel_ids (World.db w) (User.id user) (User.id target), w)) : H _);
  mret (MutualResponse.mk users servers channels).

(** # Open Direct Message *)
Definition open_dm (user : User.t) (target : string) : H Channel.t :=
  target ← Reference.as_user target;
  require_of_user user target UserPermission.SendMessage ;;
  create_dm (User.id user) (User.id target).

(** # Fetch Default Avatar: the number of the picture, by the last character of the id *)
Fixpoint last_character (s : string) : option ascii :=
  match s with
  | EmptyString => None
  | String c EmptyString => Some c
  | String _ s => last_character s
  end.
Definition default_avatar (target : string) : Outcome Empty_set nat :=
  match last_character target with
  | None => Panicked
  | Some c =>
      let in_ := λ l, existsb (Ascii.eqb c) (String.list_ascii_of_string l) in
      Ok (if in_ "0123SZ" then 2 else if in_ "4567T" then 3 else if in_ "89AB" then 4 else
          if in_ "CDEFV" then 5 else if in_ "GHJKW" then 6 else if in_ "MNPQX" then 7 else 1)%nat
  end.

(** ** Bots *)

(** # Create Bot *)
Definition route_create_bot (user : User.t) (name : string) : H BotWithUserResponse.t :=
  validate valid_bot_name name ;;
  created ← create_bot name user None;
  user ← lift (into_self created.2 false);
  mret (BotWithUserResponse.mk (V0.Bot.from_db created.1) user).

(** A bot of the user *)
Definition own_bot (user : User.t) (bot_id : string) : H Bot.t :=
  bot ← Reference.as_bot bot_id;
  if negb (bool_decide (Bot.owner bot = User.id user)) then throw ErrorType.NotFound else mret bot.

(** # Edit Bot *)
Definition edit_bot (user : User.t) (bot_id : string) (data : DataEditBot.t) :
    H BotWithUserResponse.t :=
  validate DataEditBot.valid data ;;
  bot ← own_bot user bot_id;
  user ← on_users (UsersTable.fetch_user (Bot.id bot));
  user ← match DataEditBot.name data with
         | Some name => update_username user name
         | None => mret user
         end;
  bot ← (if DataEditBot.is_empty data then mret bot else
           update_bot bot
             (PartialBot.of_edit (DataEditBot.public data) (DataEditBot.analytics data)
                (DataEditBot.interactions_url data))
             (V0.FieldsBot.into_db <$> DataEditBot.remove data));
  user ← lift (into_self user false);
  mret (BotWithUserResponse.mk (V0.Bot.from_db bot) user).

(** # Fetch Bot *)
Definition fetch_bot (user : User.t) (bot_id : string) : H BotWithUserResponse.t :=
  if is_bot user then throw ErrorType.IsBot else
  bot ← own_bot user bot_id;
  bot_user ← on_users (UsersTable.fetch_user (Bot.id bot));
  bot_user ← into_model bot_user None;
  mret (BotWithUserResponse.mk (V0.Bot.from_db bot) bot_user).

(** # Fetch Owned Bots *)
Definition fetch_owned_bots (user : User.t) : H OwnedBotsResponse.t :=
  bots ← on_bots (BotsTable.fetch_bots_by_user (User.id user));
  users ← on_users (UsersTable.fetch_users (Bot.id <$> bots));
  let bots := sort_by (λ a b, str_lt (Bot.id a) (Bot.id b)) bots in
  let users := sort_by (λ a b, str_lt (User.id a) (User.id b)) users in
  users ← lift (collect (λ user, into_self user false) users);
  mret (OwnedBotsResponse.mk (V0.Bot.from_db <$> bots) users).

(** # Fetch Public Bot; [debug] says whether debug assertions are on *)
Definition fetch_public_bot (debug : bool) (user : option User.t) (target : string) :
    H V0.PublicBot.t :=
  bot ← on_bots (BotsTable.fetch_bot target);
  if negb (Bot.public bot) &&
     match user with Some x => negb (bool_decide (User.id x = Bot.owner bot)) | None => true end
  then throw ErrorType.NotFound else
  user ← on_users (UsersTable.fetch_user (Bot.id bot));
  lift (V0.PublicBot.into_public_bot debug bot user).

(** # Invite Bot *)
Definition invite_bot (user : User.t) (target : string) (dest : InviteBotDestination.t) : H unit :=
  if is_bot user then throw ErrorType.IsBot else
  bot ← Reference.as_bot target;
  if negb (Bot.public bot) && negb (bool_decide (Bot.owner bot = User.id user))
  then throw ErrorType.BotIsPrivate else
  bot_user ← on_users (UsersTable.fetch_user (Bot.id bot));
  match dest with
  | InviteBotDestination.Server server =>
      server ← on_servers (ServersTable.fetch_server server);
      found ← query_server user server;
      require found.1 ChannelPermission.ManageServer ;;
      create_member server bot_user None ;;
      mret tt
  | InviteBotDestination.Group group =>
      channel ← on_channels (ChannelsTable.fetch_channel group);
      require_in_channel user channel ChannelPermission.InviteOthers ;;
      add_user_to_group channel bot_user (User.id user) ;;
      mret tt
  end.

(** ** Invites *)

(** # Fetch Invite *)
Definition invite_fetch (target : string) : H InviteResponse.t :=
  invite ← Reference.as_invite target;
  match invite with
  | Invite.Server _ _ creator channel =>
      channel ← on_channels (ChannelsTable.fetch_channel channel);
      user ← on_users (UsersTable.fetch_user creator);
      match channel with
      | Channel.TextChannel c =>
          server ← on_servers (ServersTable.fetch_server (TextChannel.server c));
          count ← on_members (MembersTable.fetch_member_count (Server.id server));
          mret (InviteResponse.Server target (Server.id server) (Server.name server)
                  (V0.File.from_db <$> Server.icon server)
                  (V0.File.from_db <$> Server.banner server) (Server.flags server)
                  (TextChannel.id c) (TextChannel.name c) (TextChannel.description c)
                  (User.username user) (V0.File.from_db <$> User.avatar user) count)
      | _ => panic
      end
  | Invite.Group _ creator channel =>
      channel ← on_channels (ChannelsTable.fetch_channel channel);
      user ← on_users (UsersTable.fetch_user creator);
      match channel with
      | Channel.Group c =>
          mret (InviteResponse.Group target (Group.id c) (Group.name c) (Group.description c)
                  (User.username user) (V0.File.from_db <$> User.avatar user))
      | _ => panic
      end
  end.

(** # Join Invite *)
Definition join (user : User.t) (target : string) : H InviteJoinResponse.t :=
  if is_bot user then throw ErrorType.IsBot else
  can_acquire_server user ;;
  invite ← Reference.as_invite target;
  match invite with
  | Invite.Server _ server _ _ =>
      server ← on_servers (ServersTable.fetch_server server);
      joined ← create_member server user None;
      mret (InviteJoinResponse.Server joined.2 server)
  | Invite.Group _ creator channel =>
      channel ← on_channels (ChannelsTable.fetch_channel channel);
      channel ← add_user_to_group channel user creator;
      match channel with
      | Channel.Group c =>
          users ← fetch_many_ids_as_mutuals user (Group.recipients c);
          mret (InviteJoinResponse.Group channel users)
      | _ => panic
      end
  end.

(** # Delete Invite *)
Definition delete_invite (user : User.t) (reason : option string) (target : string) : H unit :=
  invite ← Reference.as_invite target;
  if bool_decide (User.id user = Invite.creator invite) then
    on_invites (InvitesTable.delete_invite (Invite.code invite))
  else
    match invite with
    | Invite.Server code server creator channel =>
        server ← on_servers (ServersTable.fetch_server server);
        found ← query_server user server;
        require found.1 ChannelPermission.ManageServer ;;
        on_invites (InvitesTable.delete_invite code) ;;
        audit (AuditLogEntryAction.InviteDelete code channel) (Server.id server) reason
          (User.id user) (Some creator) ;;
        mret tt
    | Invite.Group _ _ _ => panic
    end.
End Routes.

Section Webhooks.
Context `{Environment, MutualIds, HashIter, Validator, Lowercase, Cure}.
Context `{OptionalStruct User.t PartialUser.t, OptionalStruct Webhook.t PartialWebhook.t}.
Context `{OptionalStruct Message.t PartialMessage.t}.
Context `{Redis, RedisCommands, VoiceClient}.

(** # Delete Bot *)
Definition route_delete_bot (user : User.t) (bot_id : string) : H unit :=
  bot ← own_bot user bot_id;
  delete_bot bot ;;
  remove_user_from_voice_channels (Bot.id bot).

(** ** Webhooks *)

(** The webhook of an id, if the token is its token *)
Definition webhook_with_token (webhook_id token : string) : H Webhook.t :=
  webhook ← Reference.as_webhook webhook_id;
  lift (Webhook.assert_token webhook token) ;;
  mret webhook.

(** The webhook of an id and its channel, where the user holds a permission *)
Definition webhook_in_channel (user : User.t) (webhook_id : string)
    (permission : ChannelPermission.t) : H (Webhook.t * Channel.t) :=
  webhook ← Reference.as_webhook webhook_id;
  channel ← on_channels (ChannelsTable.fetch_channel (Webhook.channel_id webhook));
  require_in_channel user channel permission ;;
  mret (webhook, channel).

(** # Gets a webhook *)
Definition webhook_fetch (user : User.t) (webhook_id : string) : H V0.ResponseWebhook.t :=
  found ← webhook_in_channel user webhook_id ChannelPermission.ViewChannel;
  mret (V0.ResponseWebhook.from_webhook (V0.Webhook.from_db found.1)).

(** # Gets a webhook with its token *)
Definition webhook_fetch_token (webhook_id token : string) : H V0.Webhook.t :=
  webhook ← webhook_with_token webhook_id token;
  mret (V0.Webhook.from_db webhook).

(** # Deletes a webhook *)
Definition webhook_delete (user : User.t) (reason : option string) (webhook_id : string) : H unit :=
  found ← webhook_in_channel user webhook_id ChannelPermission.ManageWebhooks;
  let '(webhook, channel) := found in
  delete_webhook webhook ;;
  match Channel.server channel with
  | Some server =>
      audit (AuditLogEntryAction.WebhookDelete (Webhook.id webhook) (Webhook.name webhook)
               (Webhook.channel_id webhook)) server reason (User.id user)
        (Some (Webhook.creator_id webhook)) ;;
      mret tt
  | None => panic
  end.

(** # Deletes a webhook with its token *)
Definition webhook_delete_token (webhook_id token : string) : H unit :=
  webhook ← webhook_with_token webhook_id token;
  delete_webhook webhook.

(** What both ways to edit a webhook do *)
Definition apply_webhook_edit (webhook : Webhook.t) (data : DataEditWebhook.t) : H V0.Webhook.t :=
  if DataEditWebhook.is_empty data then mret (V0.Webhook.from_db webhook) else
  let partial := PartialWebhook.of_edit (DataEditWebhook.name data)
                   (DataEditWebhook.permissions data) in
  partial ← match DataEditWebhook.avatar data with
            | Some avatar =>
                file ← on_files (UseFile.use_webhook_avatar avatar (Webhook.id webhook)
                                   (Webhook.creator_id webhook));
                mret (PartialWebhook.set_avatar partial (Some file))
            | None => mret partial
            end;
  webhook ← update_webhook webhook partial
              (V0.FieldsWebhook.into_db <$> DataEditWebhook.remove data);
  mret (V0.Webhook.from_db webhook).

(** # Edits a webhook *)
Definition webhook_edit (user : User.t) (webhook_id : string) (data : DataEditWebhook.t) :
    H V0.Webhook.t :=
  validate DataEditWebhook.valid data ;;
  found ← webhook_in_channel user webhook_id ChannelPermission.ManageWebhooks;
  apply_webhook_edit found.1 data.

(** # Edits a webhook with its token *)
Definition webhook_edit_token (webhook_id token : string) (data : DataEditWebhook.t) :
    H V0.Webhook.t :=
  validate DataEditWebhook.valid data ;;
  webhook ← webhook_with_token webhook_id token;
  apply_webhook_edit webhook data.

(** # Delete Message *)
Definition webhook_delete_message (webhook_id token message_id : string) : H unit :=
  webhook ← webhook_with_token webhook_id token;
  message ← Reference.as_message message_id;
  if negb (bool_decide (Message.author message = Webhook.id webhook))
  then throw ErrorType.CannotDeleteMessage else
  delete_message message.

(** # Edits a webhook message *)
Definition webhook_edit_message (webhook_id token message_id : string) (edit : DataEditMessage.t) :
    H Message.t :=
  validate DataEditMessage.valid edit ;;
  lift (Message.validate_sum (DataEditMessage.content edit)
          (SendableEmbed.description <$> default [] (DataEditMessage.embeds edit))
          (Z.of_nat (FeaturesLimits.message_length
             (FeaturesLimitsCollection.default (Settings.limits config))))) ;;
  webhook ← webhook_with_token webhook_id token;
  message ← Reference.as_message message_id;
  if negb (bool_decide (Message.author message = Webhook.id webhook))
  then throw ErrorType.CannotEditMessage else
  now ← clock;
  let message := set_edited message now in
  new_embeds ← match DataEditMessage.embeds edit with
               | Some embeds => create_embeds message embeds
               | None => mret (text_embeds message)
               end;
  message ← update_message message (partial_edit now (DataEditMessage.content edit) new_embeds) [];
  match DataEditMessage.content edit with
  | Some content => queue_embeds (Message.channel message) (Message.id message) content
  | None => mret tt
  end ;;
  mret message.
End Webhooks.

Section Execute.
Context `{Environment, MutualIds, HashIter, Lru, Validator, Lowercase, Trim, Lexer, Redis}.

(** The permissions of the webhook that parts of the request need *)
Definition require_of_webhook (permissions : PermissionValue.t) (data : DataMessageSend.t) : H unit :=
  require permissions ChannelPermission.SendMessage ;;
  (if negb (none_or_empty (DataMessageSend.attachments data))
   then require permissions ChannelPermission.UploadFiles else mret tt) ;;
  (if negb (none_or_empty (DataMessageSend.embeds data))
   then require permissions ChannelPermission.SendEmbeds else mret tt) ;;
  (if bool_decide (is_Some (DataMessageSend.masquerade data))
   then require permissions ChannelPermission.Masquerade else mret tt) ;;
  (if bool_decide (is_Some (DataMessageSend.interactions data))
   then require permissions ChannelPermission.React else mret tt).

(** # Executes a webhook *)
Definition webhook_execute (webhook_id token : string) (data : DataMessageSend.t)
    (idempotency : IdempotencyKey.t) : H Message.t :=
  validate DataMessageSend.valid data ;;
  webhook ← webhook_with_token webhook_id token;
  require_of_webhook (PermissionValue.from_u64 (Webhook.permissions webhook)) data ;;
  channel ← on_channels (ChannelsTable.fetch_channel (Webhook.channel_id webhook));
  create_from_api channel data (MessageAuthor.Webhook webhook) None None
    (FeaturesLimitsCollection.default (Settings.limits config)) idempotency true true.
End Execute.

(** ** What each request needs *)

Module UserRequest.
Inductive t : Type :=
| EditUser (target : string) (data : DataEditUser.t)
| ChangeUsername (account : Account.t) (data : DataChangeUsername.t)
| OpenDm (target : string)
| CreateBot (name : string)
| EditBot (bot : string) (data : DataEditBot.t)
| DeleteBot (bot : string)
| InviteBot (bot : string) (dest : InviteBotDestination.t)
| Join (invite : string)
| DeleteInvite (reason : option string) (invite : string)
| DeleteWebhook (reason : option string) (webhook : string)
| EditWebhook (webhook : string) (data : DataEditWebhook.t).
End UserRequest.

Module WebhookRequest.
Inductive t : Type :=
| Delete
| Edit (data : DataEditWebhook.t)
| DeleteMessage (message : string)
| EditMessage (message : string) (edit : DataEditMessage.t)
| Execute (data : DataMessageSend.t) (idempotency : IdempotencyKey.t).
End WebhookRequest.

Section Requests.
Context `{Environment, MutualIds, HashIter, Validator, Lowercase, Cure, Credentials}.
Context `{OptionalStruct User.t PartialUser.t, OptionalStruct Bot.t PartialBot.t}.
Context `{OptionalStruct Webhook.t PartialWebhook.t, OptionalStruct Message.t PartialMessage.t}.
Context `{Redis, RedisCommands, VoiceClient, Lru, Trim, Lexer}.
Context (blocked_terms : list string).

(** The route of a request; what it returns is dropped *)
Definition perform_user (user : User.t) (r : UserRequest.t) : H unit :=
  match r with
  | UserRequest.EditUser target data => edit_user user target data ;; mret tt
  | UserRequest.ChangeUsername account data =>
      change_username blocked_terms account user data ;; mret tt
  | UserRequest.OpenDm target => open_dm user target ;; mret tt
  | UserRequest.CreateBot name => route_create_bot user name ;; mret tt
  | UserRequest.EditBot bot data => edit_bot user bot data ;; mret tt
  | UserRequest.DeleteBot bot => route_delete_bot user bot
  | UserRequest.InviteBot bot dest => invite_bot user bot dest
  | UserRequest.Join invite => join user invite ;; mret tt
  | UserRequest.DeleteInvite reason invite => delete_invite user reason invite
  | UserRequest.DeleteWebhook reason webhook => webhook_delete user reason webhook
  | UserRequest.EditWebhook webhook data => webhook_edit user webhook data ;; mret tt
  end.

(** The same for requests that come with the token of a webhook instead of a session *)
Definition perform_webhook (id token : string) (r : WebhookRequest.t) : H unit :=
  match r with
  | WebhookRequest.Delete => webhook_delete_token id token
  | WebhookRequest.Edit data => webhook_edit_token id token data ;; mret tt
  | WebhookRequest.DeleteMessage message => webhook_delete_message id token message
  | WebhookRequest.EditMessage message edit => webhook_edit_message id token message edit ;; mret tt
  | WebhookRequest.Execute data idempotency => webhook_execute id token data idempotency ;; mret tt
  end.

Definition owns_bot (user : User.t) (id : string) (w : World.t) : Prop :=
  ∃ bot, Reference.as_bot id w = (Ok bot, w) ∧ Bot.owner bot = User.id user.

Definition manages_server (user : User.t) (server : string) (w : World.t) : Prop :=
  ∃ s p q, on_servers (ServersTable.fetch_server server) w = (Ok s, w) ∧
    query_server user s w = (Ok (p, q), w) ∧
    PermissionValue.has_channel_permission p ChannelPermission.ManageServer = true.

Definition manages_webhook (user : User.t) (id : string) (w : World.t) : Prop :=
  ∃ webhook channel, Reference.as_webhook id w = (Ok webhook, w) ∧
    on_channels (ChannelsTable.fetch_channel (Webhook.channel_id webhook)) w = (Ok channel, w) ∧
    holds_in_channel user channel ChannelPermission.ManageWebhooks w.

Definition may (user : User.t) (r : UserRequest.t) (w : World.t) : Prop :=
  match r with
  | UserRequest.EditUser target data =>
      (target = "@me" ∨ target = User.id user ∨
       ∃ u, Reference.as_user target w = (Ok u, w) ∧
         (User.privileged user = true ∨ User.bot u = Some (BotInformation.mk (User.id user)))) ∧
      (DataEditUser.badges data ≠ None ∨ DataEditUser.flags data ≠ None →
         User.privileged user = true)
  | UserRequest.ChangeUsername account data =>
      Account.verify_password account (DataChangeUsername.password data) = Ok tt ∧
      is_disallowed_username blocked_terms (DataChangeUsername.username data) = false
  | UserRequest.OpenDm target =>
      ∃ u p, Reference.as_user target w = (Ok u, w) ∧ user_permissions user u w = (Ok p, w) ∧
        PermissionValue.has_user_permission p UserPermission.SendMessage = true
  | UserRequest.CreateBot name => User.bot user = None
  | UserRequest.EditBot bot _ | UserRequest.DeleteBot bot => owns_bot user bot w
  | UserRequest.InviteBot bot dest =>
      is_bot user = false ∧
      (∃ b, Reference.as_bot bot w = (Ok b, w) ∧
         (Bot.public b = true ∨ Bot.owner b = User.id user)) ∧
      match dest with
      | InviteBotDestination.Server server => manages_server user server w
      | InviteBotDestination.Group group =>
          ∃ channel, on_channels (ChannelsTable.fetch_channel group) w = (Ok channel, w) ∧
            holds_in_channel user channel ChannelPermission.InviteOthers w
      end
  | UserRequest.Join target =>
      is_bot user = false ∧
      ∃ invite, Reference.as_invite target w = (Ok invite, w) ∧
        ∀ code server creator channel s ban,
          invite = Invite.Server code server creator channel →
          on_servers (ServersTable.fetch_server server) w = (Ok s, w) →
          on_bans (BansTable.fetch_ban (Server.id s) (User.id user)) w ≠ (Ok ban, w)
  | UserRequest.DeleteInvite _ target =>
      ∃ invite, Reference.as_invite target w = (Ok invite, w) ∧
        (Invite.creator invite = User.id user ∨
         ∃ code server creator channel, invite = Invite.Server code server creator channel ∧
           manages_server user server w)
  | UserRequest.DeleteWebhook _ webhook | UserRequest.EditWebhook webhook _ =>
      manages_webhook user webhook w
  end.

(** The token is the one of the webhook. *)
Definition has_token (id token : string) (webhook : Webhook.t) (w : World.t) : Prop :=
  Reference.as_webhook id w = (Ok webhook, w) ∧ Webhook.token webhook = Some token.

Definition webhook_has (webhook : Webhook.t) (permission : ChannelPermission.t) : Prop :=
  PermissionValue.has_channel_permission
    (PermissionValue.from_u64 (Webhook.permissions webhook)) permission = true.

Definition token_may (id token : string) (r : WebhookRequest.t) (w : World.t) : Prop :=
  ∃ webhook, has_token id token webhook w ∧
    match r with
    | WebhookRequest.Delete | WebhookRequest.Edit _ => True
    | WebhookRequest.DeleteMessage message | WebhookRequest.EditMessage message _ =>
        ∃ m, Reference.as_message message w = (Ok m, w) ∧ Message.author m = Webhook.id webhook
    | WebhookRequest.Execute data _ =>
        webhook_has webhook ChannelPermission.SendMessage ∧
        (none_or_empty (DataMessageSend.attachments data) = false →
           webhook_has webhook ChannelPermission.UploadFiles) ∧
        (none_or_empty (DataMessageSend.embeds data) = false →
           webhook_has webhook ChannelPermission.SendEmbeds) ∧
        (is_Some (DataMessageSend.masquerade data) →
           webhook_has webhook ChannelPermission.Masquerade) ∧
        (is_Some (DataMessageSend.interactions data) → webhook_has webhook ChannelPermission.React)
    end.

Hint Resolve require_in_channel_reads : reads.

Lemma fetch_channel_reads id : reads (on_channels (ChannelsTable.fetch_channel id)).
Proof. unfold on_channels. solve_reads. Qed.
Lemma fetch_server_reads id : reads (on_servers (ServersTable.fetch_server id)).
Proof. unfold on_servers. solve_reads. Qed.
Lemma fetch_user_reads id : reads (on_users (UsersTable.fetch_user id)).
Proof. unfold on_users. solve_reads. Qed.
Lemma fetch_ban_reads server id : reads (on_bans (BansTable.fetch_ban server id)).
Proof. unfold on_bans. solve_reads. Qed.
Hint Resolve fetch_channel_reads fetch_server_reads fetch_user_reads fetch_ban_reads : reads.

Lemma user_permissions_reads user target : reads (user_permissions user target).
Proof. unfold user_permissions. solve_reads. Qed.
Hint Resolve user_permissions_reads : reads.

Lemma require_of_user_reads user target permission : reads (require_of_user user target permission).
Proof. unfold require_of_user. solve_reads. Qed.
Lemma user_to_edit_reads user target : reads (user_to_edit user target).
Proof. unfold user_to_edit. solve_reads. Qed.
Lemma own_bot_reads user bot : reads (own_bot user bot).
Proof. unfold own_bot. solve_reads. Qed.
Lemma can_acquire_server_reads user : reads (can_acquire_server user).
Proof. unfold can_acquire_server, on_members, MembersTable.fetch_server_count. solve_reads. Qed.
Lemma webhook_with_token_reads id token : reads (webhook_with_token id token).
Proof. unfold webhook_with_token. solve_reads. Qed.
Lemma webhook_in_channel_reads user id permission : reads (webhook_in_channel user id permission).
Proof. unfold webhook_in_channel, on_channels. solve_reads. Qed.
Lemma require_of_webhook_reads permissions data : reads (require_of_webhook permissions data).
Proof. unfold require_of_webhook. solve_reads. Qed.
Hint Resolve require_of_user_reads user_to_edit_reads own_bot_reads : reads.
Hint Resolve can_acquire_server_reads webhook_with_token_reads : reads.
Hint Resolve webhook_in_channel_reads require_of_webhook_reads : reads.

Lemma own_bot_owns user id bot w : own_bot user id w = (Ok bot, w) → owns_bot user id w.
Proof.
  unfold own_bot. intros Hrun. unbind Hrun b. case_bool_decide; [|done]. injection Hrun as <-.
  by eexists.
Qed.

Lemma webhook_with_token_has id token webhook w :
  webhook_with_token id token w = (Ok webhook, w) → has_token id token webhook w.
Proof.
  unfold webhook_with_token. intros Hrun. unbind Hrun b. unbind Hrun u. injection Hrun as <-.
  split; [done|]. unfold lift, Webhook.assert_token in Eu. case_bool_decide; [done|done].
Qed.

Lemma webhook_in_channel_manages user id found w :
  webhook_in_channel user id ChannelPermission.ManageWebhooks w = (Ok found, w) →
  manages_webhook user id w.
Proof.
  unfold webhook_in_channel. intros Hrun. unbind Hrun webhook. unbind Hrun channel.
  unbind Hrun pv. eexists _, _. split_and!; [done..|]. by eapply require_in_channel_holds.
Qed.

Lemma edit_user_may user target data w :
  gated (may user (UserRequest.EditUser target data) w) (edit_user user target data) w.
Proof.
  unfold edit_user. gate_step. destruct (_ && _) eqn:Hf; [apply gated_reads; solve_reads|].
  apply gated_bind; [auto with reads|]. intros u Hu. apply gated_open. split.
  - unfold user_to_edit in Hu.
    destruct (bool_decide (target = "@me")) eqn:E1; [left; by apply bool_decide_eq_true in E1|].
    destruct (bool_decide (target = User.id user)) eqn:E2;
      [right; left; by apply bool_decide_eq_true in E2|].
    cbn [negb andb] in Hu. right. right. unbind Hu t. exists t. split; [done|].
    destruct (User.privileged user); [by left|]. right.
    destruct (User.bot t) as [[o]|]; [|done]. cbn in Hu. case_bool_decide; [|done]. by subst o.
  - intros Hb. destruct (User.privileged user); [done|]. cbn in Hf.
    apply orb_false_elim in Hf as [H1' H2'].
    destruct Hb as [Hb|Hb]; [destruct (DataEditUser.badges data)|destruct (DataEditUser.flags data)];
      done.
Qed.

Lemma invite_bot_may user bot dest w :
  gated (may user (UserRequest.InviteBot bot dest) w) (invite_bot user bot dest) w.
Proof.
  unfold invite_bot. destruct (is_bot user) eqn:Hbot; [apply gated_reads; solve_reads|].
  apply gated_bind; [auto with reads|]. intros b Hb.
  destruct (_ && _) eqn:Hpub; [apply gated_reads; solve_reads|].
  assert (Bot.public b = true ∨ Bot.owner b = User.id user) as Hp.
  { destruct (Bot.public b); [by left|]. right. cbn in Hpub.
    by apply negb_false_iff, bool_decide_eq_true in Hpub. }
  apply gated_bind; [auto with reads|]. intros bot_user _. destruct dest as [server|group].
  - apply gated_bind; [auto with reads|]. intros s Hs.
    apply gated_bind; [auto with reads|]. intros [p q] Hq. apply gated_require. intros Hm.
    apply gated_open. split_and!; [done|by eexists|]. by eexists _, _, _.
  - apply gated_bind; [auto with reads|]. intros channel Hc.
    apply gated_bind; [auto with reads|]. intros p Hm. apply gated_open.
    split_and!; [done|by eexists|]. eexists. split; [done|]. by eapply require_in_channel_holds.
Qed.

Lemma join_may user target w :
  gated (may user (UserRequest.Join target) w) (join user target) w.
Proof.
  unfold join. destruct (is_bot user) eqn:Hbot; [apply gated_reads; solve_reads|].
  apply gated_bind; [auto with reads|]. intros [] _.
  apply gated_bind; [auto with reads|]. intros invite Hi.
  destruct invite as [code server creator channel|code creator channel].
  - apply gated_bind; [auto with reads|]. intros s Hs. apply gated_bind_l; [solve_reads|].
    unfold create_member. apply gated_bind; [solve_reads|]. intros ban Hban.
    case_bool_decide as Hno; [apply gated_reads; solve_reads|].
    apply gated_open. split; [done|]. eexists. split; [done|].
    intros code' server' creator' channel' s' ban' [= <- <- <- <-] Hs' Hban'.
    rewrite Hs in Hs'. injection Hs' as <-. apply Hno. unfold attempt in Hban. rewrite Hban' in Hban.
    injection Hban as <-. by eexists.
  - apply gated_open. split; [done|]. eexists. split; [done|]. by intros.
Qed.

Lemma delete_invite_may user reason target w :
  gated (may user (UserRequest.DeleteInvite reason target) w) (delete_invite user reason target) w.
Proof.
  unfold delete_invite. apply gated_bind; [auto with reads|]. intros invite Hi.
  case_bool_decide as Hc; [apply gated_open; eexists; split; [done|by left]|].
  destruct invite as [code server creator channel|code creator channel];
    [|apply gated_reads; solve_reads].
  apply gated_bind; [auto with reads|]. intros s Hs.
  apply gated_bind; [auto with reads|]. intros [p q] Hq. apply gated_require. intros Hm.
  apply gated_open. eexists. split; [done|]. right. eexists _, _, _, _. split; [done|].
  by eexists _, _, _.
Qed.

(** C22: no request on users, bots, invites and webhooks does anything without authority: unless
    the user may send it, the route leaves the world as it was. A user is edited by themselves,
    by privileged users and, if it is a bot, by its owner, and badges and flags only by
    privileged users; names need the password; bots are edited and deleted by their owners and
    invited, if public or one's own, where the user may manage the server or invite others; who
    is banned does not join; invites are deleted by their creators or who manages the server,
    webhooks by who manages webhooks in the channel. *)
Theorem user_requests_authorised (user : User.t) (r : UserRequest.t) (w : World.t) :
  (perform_user user r w).2 = w ∨ may user r w.
Proof.
  fold (gated (may user r w) (perform_user user r) w).
  destruct r as [target data|account data|target|name|bot data|bot|bot dest|invite|reason invite
                |reason webhook|webhook data]; cbn [perform_user]; try (apply gated_bind_l; [done|]).
  - apply edit_user_may.
  - unfold change_username. gate_step.
    destruct (is_disallowed_username _ _) eqn:Hd; [apply gated_reads; solve_reads|].
    destruct (Account.verify_password _ _) as [[]| |] eqn:Hp; [|apply gated_reads; solve_reads..].
    by apply gated_open.
  - unfold open_dm. apply gated_bind; [auto with reads|]. intros u Hu.
    apply gated_bind; [auto with reads|]. intros [] Hp. apply gated_open. unfold require_of_user in Hp.
    unbind Hp pv. exists u, pv. split_and!; [done..|]. unfold lift in Hp.
    unfold PermissionValue.throw_if_lacking_user_permission in Hp.
    by destruct (PermissionValue.has_user_permission pv UserPermission.SendMessage).
  - unfold route_create_bot. gate_step. apply gated_bind_l; [intros; solve_reads|].
    unfold create_bot. case_bool_decide as Hb; [apply gated_reads; solve_reads|].
    apply gated_open. cbn. destruct (User.bot user); [|done]. destruct Hb. by eexists.
  - unfold edit_bot. gate_step. apply gated_bind; [auto with reads|]. intros b Hb.
    apply gated_open. by eapply own_bot_owns.
  - unfold route_delete_bot. apply gated_bind; [auto with reads|]. intros b Hb.
    apply gated_open. by eapply own_bot_owns.
  - apply invite_bot_may.
  - apply join_may.
  - apply delete_invite_may.
  - unfold webhook_delete. apply gated_bind; [auto with reads|]. intros found Hf.
    apply gated_open. by eapply webhook_in_channel_manages.
  - unfold webhook_edit. gate_step. apply gated_bind; [auto with reads|]. intros found Hf.
    apply gated_open. by eapply webhook_in_channel_manages.
Qed.

Lemma require_of_webhook_has permissions data w :
  require_of_webhook permissions data w = (Ok tt, w) →
  let has p := PermissionValue.has_channel_permission permissions p = true in
  has ChannelPermission.SendMessage ∧
  (none_or_empty (DataMessageSend.attachments data) = false → has ChannelPermission.UploadFiles) ∧
  (none_or_empty (DataMessageSend.embeds data) = false → has ChannelPermission.SendEmbeds) ∧
  (is_Some (DataMessageSend.masquerade data) → has ChannelPermission.Masquerade) ∧
  (is_Some (DataMessageSend.interactions data) → has ChannelPermission.React).
Proof.
  assert (∀ p w, require permissions p w = (Ok tt, w) →
          PermissionValue.has_channel_permission permissions p = true) as Hreq.
  { intros p w' Hp. unfold require, lift, PermissionValue.throw_if_lacking_channel_permission in Hp.
    by destruct (PermissionValue.has_channel_permission permissions p). }
  unfold require_of_webhook. cbv zeta. intros Hrun.
  unbind Hrun u1. unbind Hrun u2. unbind Hrun u3. unbind Hrun u4.
  destruct u1, u2, u3, u4. split_and!.
  - by eapply Hreq.
  - intros E. rewrite E in Eu2. by eapply Hreq.
  - intros E. rewrite E in Eu3. by eapply Hreq.
  - intros E. rewrite bool_decide_true in Eu4 by done. by eapply Hreq.
  - intros E. rewrite bool_decide_true in Hrun by done. by eapply Hreq.
Qed.

(** C38: who has no session does nothing to a webhook without its token: unless the token of the
    request is the one the webhook has, and the webhook holds the permissions that the parts of
    a message need, or is the author of the message that is edited or deleted, the route leaves
    the world as it was. *)
Theorem webhook_requests_authorised (id token : string) (r : WebhookRequest.t) (w : World.t) :
  (perform_webhook id token r w).2 = w ∨ token_may id token r w.
Proof.
  fold (gated (token_may id token r w) (perform_webhook id token r) w).
  destruct r as [|data|message|message edit|data idempotency]; cbn [perform_webhook];
    try (apply gated_bind_l; [done|]).
  - apply gated_bind; [auto with reads|]. intros webhook Hw%webhook_with_token_has.
    apply gated_open. by exists webhook.
  - unfold webhook_edit_token. gate_step. apply gated_bind; [auto with reads|].
    intros webhook Hw%webhook_with_token_has. apply gated_open. by exists webhook.
  - unfold webhook_delete_message. apply gated_bind; [auto with reads|].
    intros webhook Hw%webhook_with_token_has. gate_step.
    case_bool_decide; cbn [negb]; [|apply gated_reads; solve_reads].
    apply gated_open. exists webhook. split; [done|]. by eexists.
  - unfold webhook_edit_message. do 2 gate_step. apply gated_bind; [auto with reads|].
    intros webhook Hw%webhook_with_token_has. gate_step.
    case_bool_decide; cbn [negb]; [|apply gated_reads; solve_reads].
    apply gated_open. exists webhook. split; [done|]. by eexists.
  - unfold webhook_execute. gate_step. apply gated_bind; [auto with reads|].
    intros webhook Hw%webhook_with_token_has. apply gated_bind; [auto with reads|].
    intros [] Hp. apply gated_open. exists webhook. split; [done|].
    by apply require_of_webhook_has in Hp.
Qed.
End Requests.

(** ** What the routes do not do *)

Section Notes.
Context `{Environment, MutualIds, HashIter, Validator, Lowercase, Cure}.
Context `{OptionalStruct Webhook.t PartialWebhook.t}.

(** Both routes that edit webhooks take permissions, and ignore them when they come alone. *)
Lemma permissions_alone_are_ignored webhook permissions :
  apply_webhook_edit webhook (DataEditWebhook.mk None None permissions []) =
  mret (V0.Webhook.from_db webhook).
Proof. done. Qed.

(** An invite to a group that somebody else created cannot be deleted: the route panics. *)
Lemma deleting_group_invite_panics user reason target code creator channel w :
  Reference.as_invite target w = (Ok (Invite.Group code creator channel), w) →
  creator ≠ User.id user → (delete_invite user reason target w) = (Panicked, w).
Proof.
  intros Hi Hne. unfold delete_invite. rewrite M_bind_unfold, Hi.
  by rewrite bool_decide_false by (intros ?; cbn in *; congruence).
Qed.

(** The webhook of a group is deleted, and then the route panics. *)
Lemma deleting_group_webhook_panics user reason id webhook c w :
  webhook_in_channel user id ChannelPermission.ManageWebhooks w =
    (Ok (webhook, Channel.Group c), w) →
  (webhook_delete user reason id w).1 = match (delete_webhook webhook w).1 with
                                        | Ok _ => Panicked | r => r end ∧
  (webhook_delete user reason id w).2 = (delete_webhook webhook w).2.
Proof.
  intros Hf. unfold webhook_delete. rewrite M_bind_unfold, Hf. rewrite M_bind_unfold.
  destruct (delete_webhook webhook w) as [[[]| |] w']; done.
Qed.
End Notes.

(** ** Examples *)

Module UserRoutesSample.
#[local] Existing Instance canonical_iter.
#[local] Existing Instance Instances.bytes.
#[local] Instance webhook_environment : Environment := Fixture.environment 10.
#[local] Instance webhook_options : OptionalStruct Webhook.t PartialWebhook.t := λ webhook partial,
  Webhook.mk (Webhook.id webhook) (default (Webhook.name webhook) (PartialWebhook.name partial))
    (match PartialWebhook.avatar partial with Some x => Some x | None => Webhook.avatar webhook end)
    (Webhook.creator_id webhook) (Webhook.channel_id webhook)
    (default (Webhook.permissions webhook) (PartialWebhook.permissions partial))
    (Webhook.token webhook).

Definition hook : Webhook.t :=
  Webhook.mk "W" "hook" None "A" "C" DEFAULT_WEBHOOK_PERMISSIONS (Some "secret").
Definition hook_world : World.t :=
  World.set_db World.empty (ReferenceDb.set_channel_webhooks ReferenceDb.empty {[ "W" := hook ]}).

(** Who has the token gives the webhook a permission that it was not created with. *)
Definition widened : World.t :=
  (webhook_edit_token "W" "secret"
     (DataEditWebhook.mk (Some "hook") None
        (Some (ChannelPermission.as_u64 ChannelPermission.UploadFiles)) []) hook_world).2.

Lemma token_widens_permissions :
  PermissionValue.has_channel_permission (PermissionValue.from_u64 DEFAULT_WEBHOOK_PERMISSIONS)
    ChannelPermission.UploadFiles = false ∧
  (Webhook.permissions <$> ReferenceDb.channel_webhooks (World.db widened) !! "W") =
    Some (ChannelPermission.as_u64 ChannelPermission.UploadFiles).
Proof. split; vm_compute; reflexivity. Qed.

(** The picture follows the last character of the id. *)
Lemma default_avatar_example :
  default_avatar "01FSRTTGJC1XJ6ZEQQJ4CMG1XS" = Ok 2%nat ∧ default_avatar "" = Panicked.
Proof. by vm_compute. Qed.
End UserRoutesSample.
