(* ===== verification/Customisation.v ===== *)
(** * Routes on emojis and audit logs, and the search for members

    The routes of [delta/src/routes/customisation], the query of audit logs
    ([servers/audit_log_query.rs]) with the users its entries name
    ([models/audit_logs/model.rs]), and the search for members by name
    ([servers/member_experimental_query.rs]). *)

From stdpp Require Import base list gmap strings.
From Stdlib Require Import ZArith Lia.
From S2P Require Import Prelude Errors Permissions PermissionSpec Files Users Servers Channels.
From S2P Require Import PermissionQuery Messages Unreads Config Emojis Webhooks Bots AuditLogs.
From S2P Require Import World Database PermissionTheorems Relationships MessageOps ChannelOps.
From S2P Require Import ServerOps References Authors Bridge Redis MessageCreate MessageTheorems.
From S2P Require Import Acker MessageRoutes Voice ServerRoutes.

(** ** Requests *)

Module DataCreateEmoji.
Record t : Type := mk { name : string; parent : EmojiParent.t; nsfw : bool }.
Definition valid `{Validator} (d : t) : bool :=
  valid_length 1 32 (name d) && is_match "RE_EMOJI" (name d).
End DataCreateEmoji.

Module DataEditEmoji.
Record t : Type := mk { name : option string }.
Definition valid `{Validator} (d : t) : bool :=
  valid_option (λ name, valid_length 1 32 name && is_match "RE_EMOJI" name) (name d).
End DataEditEmoji.

Module OptionsAuditLogQuery.
Record t : Type := mk {
  user : option string; target : option string; type_ : option (list string);
  before : option string; after : option string; limit : option Z
}.
Definition valid `{Validator} (d : t) : bool :=
  valid_option (valid_length 26 26) (user d) && valid_option (valid_length 26 26) (target d) &&
  valid_option (valid_length 26 26) (before d) && valid_option (valid_length 26 26) (after d) &&
  valid_option (λ limit, (1 <=? limit)%Z && (limit <=? 100)%Z) (limit d).
End OptionsAuditLogQuery.

Module AuditLogQueryResponse.
Record t : Type := mk {
  audit_logs : list V0.AuditLogEntry.t; users : list V0User.t; members : list Member.t
}.
End AuditLogQueryResponse.

Module OptionsQueryMembers.
Record t : Type := mk { query : string; experimental_api : bool }.
End OptionsQueryMembers.

(** ** Emojis *)

Section Emojis.
Context `{Environment, MutualIds, HashIter, Validator}.

(** # Create New Emoji *)
Definition route_create_emoji (user : User.t) (reason : option string) (emoji_id : string)
    (data : DataCreateEmoji.t) : H Emoji.t :=
  validate DataCreateEmoji.valid data ;;
  match DataCreateEmoji.parent data with
  | EmojiParent.Detached => throw ErrorType.InvalidOperation
  | EmojiParent.Server id =>
      server ← on_servers (ServersTable.fetch_server id);
      require_in_server user server ChannelPermission.ManageCustomisation ;;
      emojis ← on_emojis (EmojisTable.fetch_emoji_by_parent_id (Server.id server));
      if bool_decide (GlobalLimits.server_emoji global_limits ≤ length emojis)%nat
      then throw (ErrorType.TooManyEmoji (Z.of_nat (GlobalLimits.server_emoji global_limits))) else
      attachment ← on_files (UseFile.use_emoji emoji_id emoji_id (User.id user));
      let emoji := Emoji.mk emoji_id (DataCreateEmoji.parent data) (User.id user)
                     (DataCreateEmoji.name data)
                     (bool_decide (File.content_type attachment = "image/gif"))
                     (DataCreateEmoji.nsfw data) in
      create_emoji emoji ;;
      audit (AuditLogEntryAction.EmojiCreate (Emoji.id emoji) (Emoji.name emoji)) id reason
        (User.id user) None ;;
      mret emoji
  end.

(** # Delete Emoji; the creator needs no permission *)
Definition route_delete_emoji (user : User.t) (reason : option string) (emoji_id : string) : H unit :=
  emoji ← Reference.as_emoji emoji_id;
  let delete :=
    delete_emoji emoji ;;
    match Emoji.parent emoji with
    | EmojiParent.Server server_id =>
        audit (AuditLogEntryAction.EmojiDelete (Emoji.id emoji) (Emoji.name emoji)) server_id reason
          (User.id user) (Some (Emoji.creator_id emoji)) ;;
        mret tt
    | EmojiParent.Detached => mret tt
    end in
  if bool_decide (Emoji.creator_id emoji = User.id user) then delete else
  match Emoji.parent emoji with
  | EmojiParent.Server id =>
      server ← on_servers (ServersTable.fetch_server id);
      require_in_server user server ChannelPermission.ManageCustomisation ;;
      delete
  | EmojiParent.Detached => mret tt
  end.

(** # Edit Emoji *)
Definition route_edit_emoji (user : User.t) (reason : option string) (emoji_id : string)
    (data : DataEditEmoji.t) : H Emoji.t :=
  validate DataEditEmoji.valid data ;;
  emoji ← Reference.as_emoji emoji_id;
  match Emoji.parent emoji with
  | EmojiParent.Detached => throw ErrorType.NotAuthenticated
  | EmojiParent.Server id =>
      server ← on_servers (ServersTable.fetch_server id);
      require_in_server user server ChannelPermission.ManageCustomisation ;;
      match DataEditEmoji.name data with
      | None => mret emoji
      | Some name =>
          let partial := PartialEmoji.mk None None None (Some name) None None in
          let before := PartialEmoji.generate_diff emoji partial in
          emoji ← update_emoji emoji partial;
          audit (AuditLogEntryAction.EmojiUpdate (Emoji.id emoji) before partial) id reason
            (User.id user) (Some (Emoji.creator_id emoji)) ;;
          mret emoji
      end
  end.

(** # Fetch Emoji *)
Definition route_fetch_emoji (emoji_id : string) : H Emoji.t := Reference.as_emoji emoji_id.
End Emojis.

(** ** Audit logs *)

Section AuditLogs.
Context `{Environment, MutualIds, HashIter, Validator}.

(** The users an entry names, besides who acted *)
Definition named_users (action : AuditLogEntryAction.t) : list string :=
  match action with
  | AuditLogEntryAction.MessageDelete author _ | AuditLogEntryAction.MessagePin _ author _
  | AuditLogEntryAction.MessageUnpin _ author _ => [author]
  | AuditLogEntryAction.BanCreate user | AuditLogEntryAction.BanDelete user
  | AuditLogEntryAction.MemberEdit user _ _ | AuditLogEntryAction.MemberKick user => [user]
  | _ => []
  end.

(** [AuditLogEntry::with_users] *)
Definition with_users (server_id : string) (user : User.t) (entries : list AuditLogEntry.t) :
    H (list V0User.t * list Member.t) :=
  let user_ids := hash_set_iter (list_to_set (mjoin ((λ entry,
    AuditLogEntry.user entry :: named_users (AuditLogEntry.action entry)) <$> entries))) in
  users ← fetch_many_ids_as_mutuals user user_ids;
  members ← on_members (MembersTable.fetch_members server_id user_ids);
  mret (users, members).

(** # Audit Log Query *)
Definition audit_log_query (user : User.t) (target : string) (options : OptionsAuditLogQuery.t) :
    H AuditLogQueryResponse.t :=
  validate OptionsAuditLogQuery.valid options ;;
  server ← Reference.as_server target;
  require_in_server user server ChannelPermission.ViewAuditLogs ;;
  audit_logs ← on_audit_logs (AuditLogsTable.get_server_audit_logs (Server.id server)
                 (AuditLogQuery.mk (OptionsAuditLogQuery.user options)
                    (OptionsAuditLogQuery.target options) (OptionsAuditLogQuery.type_ options)
                    (OptionsAuditLogQuery.before options) (OptionsAuditLogQuery.after options)
                    (default 50%Z (OptionsAuditLogQuery.limit options))));
  found ← with_users (Server.id server) user audit_logs;
  mret (AuditLogQueryResponse.mk (V0.AuditLogEntry.from_db <$> audit_logs) found.1 found.2).
End AuditLogs.

(** ** Searching members *)

Section MemberSearch.
Context `{Environment, MutualIds, HashIter}.

(** The name that is searched *)
Definition searched_name (mu : Member.t * User.t) : string :=
  default (User.username mu.2) (Member.nickname mu.1).

(** # Query members by name *)
Definition member_experimental_query (user : User.t) (target : string)
    (options : OptionsQueryMembers.t) : H (list Member.t * list V0User.t) :=
  if negb (OptionsQueryMembers.experimental_api options) then throw ErrorType.InternalError else
  server ← Reference.as_server target;
  is_member ← run_query (λ q, DatabasePermissionQuery.with_server q (Some server)) are_we_a_member user;
  if negb is_member then throw ErrorType.NotFound else
  members ← on_members (MembersTable.fetch_all_members (Server.id server));
  let user_ids := (λ m, MemberCompositeKey.user (Member.id m)) <$> members in
  users ← on_users (UsersTable.fetch_users user_ids);
  let members := sort_by (λ a b, negb (str_le (MemberCompositeKey.user (Member.id b))
                                         (MemberCompositeKey.user (Member.id a)))) members in
  let users := sort_by (λ a b, negb (str_le (User.id b) (User.id a))) users in
  let zipped := List.filter (λ mu, str_contains (searched_name mu) (OptionsQueryMembers.query options))
                  (zip members users) in
  let zipped := take 10 (sort_by (λ a b,
    (String.length (searched_name a) <? String.length (searched_name b))%nat) zipped) in
  users ← mapM (λ mu : Member.t * User.t, into_model mu.2 (Some user)) zipped;
  mret (zipped.*1, users).
End MemberSearch.

(** ** What the requests need *)

Module EmojiRequest.
Inductive t : Type :=
| Create (emoji_id : string) (data : DataCreateEmoji.t)
| Delete (emoji_id : string)
| Edit (emoji_id : string) (data : DataEditEmoji.t).
End EmojiRequest.

Section Authorised.
Context `{Environment, MutualIds, HashIter, Validator}.

Definition perform_emoji (user : User.t) (reason : option string) (r : EmojiRequest.t) : H unit :=
  match r with
  | EmojiRequest.Create id data => route_create_emoji user reason id data ;; mret tt
  | EmojiRequest.Delete id => route_delete_emoji user reason id
  | EmojiRequest.Edit id data => route_edit_emoji user reason id data ;; mret tt
  end.

(** The user manages the customisation of a server. *)
Definition customises (user : User.t) (server_id : string) (w : World.t) : Prop :=
  ∃ server, on_servers (ServersTable.fetch_server server_id) w = (Ok server, w) ∧
    holds_in_server user server ChannelPermission.ManageCustomisation w.

Definition may_emoji (user : User.t) (r : EmojiRequest.t) (w : World.t) : Prop :=
  match r with
  | EmojiRequest.Create _ data =>
      ∃ id server emojis, DataCreateEmoji.parent data = EmojiParent.Server id ∧ customises user id w ∧
        on_servers (ServersTable.fetch_server id) w = (Ok server, w) ∧
        on_emojis (EmojisTable.fetch_emoji_by_parent_id (Server.id server)) w = (Ok emojis, w) ∧
        (length emojis < GlobalLimits.server_emoji global_limits)%nat
  | EmojiRequest.Delete id =>
      ∃ emoji, Reference.as_emoji id w = (Ok emoji, w) ∧
        (Emoji.creator_id emoji = User.id user ∨
         ∃ server, Emoji.parent emoji = EmojiParent.Server server ∧ customises user server w)
  | EmojiRequest.Edit id data =>
      ∃ emoji server, Reference.as_emoji id w = (Ok emoji, w) ∧
        Emoji.parent emoji = EmojiParent.Server server ∧ customises user server w ∧
        is_Some (DataEditEmoji.name data)
  end.

Lemma fetch_server_reads' id : reads (on_servers (ServersTable.fetch_server id)).
Proof. unfold on_servers. solve_reads. Qed.
Lemma fetch_emojis_reads id : reads (on_emojis (EmojisTable.fetch_emoji_by_parent_id id)).
Proof. unfold on_emojis. solve_reads. Qed.
#[local] Hint Resolve fetch_server_reads' fetch_emojis_reads : reads.

Lemma require_in_server_holds user server permission found w :
  require_in_server user server permission w = (Ok found, w) → holds_in_server user server permission w.
Proof.
  unfold require_in_server. intros Hrun. unbind Hrun answer. destruct answer as [pv q].
  apply require_Ok_inv in Hrun as [Hp _]. by eapply query_server_holds.
Qed.
Lemma require_in_server_reads' user server permission :
  reads (require_in_server user server permission).
Proof. unfold require_in_server. solve_reads. Qed.
#[local] Hint Resolve require_in_server_reads' : reads.

(** An emoji is made and changed by who manages the customisation of its server, up to the number
    of emojis it may have, and deleted by them or by who made it; otherwise the route leaves
    everything as it was. *)
Theorem emoji_requests_authorised (user : User.t) (reason : option string) (r : EmojiRequest.t)
    (w : World.t) :
  (perform_emoji user reason r w).2 = w ∨ may_emoji user r w.
Proof.
  fold (gated (may_emoji user r w) (perform_emoji user reason r) w).
  destruct r as [id data|id|id data]; cbn [perform_emoji]; try (apply gated_bind_l; [done|]).
  - unfold route_create_emoji. gate_step.
    destruct (DataCreateEmoji.parent data) as [sid|] eqn:Hparent; [|apply gated_reads; solve_reads].
    gate_step. gate_step. gate_step. case_bool_decide as Hlimit; [apply gated_reads; solve_reads|].
    apply gated_open. eexists sid, _, _. split_and!; [done| |done|done|lia].
    eexists. split; [done|]. by eapply require_in_server_holds.
  - unfold route_delete_emoji. gate_step. cbv zeta. case_bool_decide as Hown.
    { apply gated_open. eexists. eauto. }
    destruct (Emoji.parent _) as [sid|] eqn:Hparent; [|apply gated_reads; solve_reads].
    gate_step. gate_step. apply gated_open. eexists. split; [done|]. right. exists sid.
    split; [done|]. eexists. split; [done|]. by eapply require_in_server_holds.
  - unfold route_edit_emoji. gate_step. gate_step.
    destruct (Emoji.parent _) as [sid|] eqn:Hparent; [|apply gated_reads; solve_reads].
    gate_step. gate_step.
    destruct (DataEditEmoji.name data) as [name|] eqn:Hname; [|apply gated_reads; solve_reads].
    apply gated_open. eexists _, sid. split_and!; [done|done| |by exists name].
    eexists. split; [done|]. by eapply require_in_server_holds.
Qed.

(** Who reads audit logs holds the permission to; what they get are at most 100 entries of the
    server, each of which matches the filters. *)
Theorem audit_logs_read_with_permission (user : User.t) (target : string)
    (options : OptionsAuditLogQuery.t) (w : World.t) :
  match audit_log_query user target options w with
  | (Ok response, w') =>
      w' = w ∧ ∃ server query,
        Reference.as_server target w = (Ok server, w) ∧
        holds_in_server user server ChannelPermission.ViewAuditLogs w ∧
        (length (AuditLogQueryResponse.audit_logs response) ≤ 100)%nat ∧
        AuditLogQuery.user query = OptionsAuditLogQuery.user options ∧
        AuditLogQuery.target query = OptionsAuditLogQuery.target options ∧
        Forall (λ shown, ∃ entry, shown = V0.AuditLogEntry.from_db entry ∧
            entry ∈ hash_values (ReferenceDb.audit_logs (World.db w)) ∧
            AuditLogsTable.entry_matches (Server.id server) query entry = true)
          (AuditLogQueryResponse.audit_logs response)
  | _ => True
  end.
Proof.
  destruct (audit_log_query user target options w) as [[response| |] w'] eqn:Hrun; [|done..].
  unfold audit_log_query in Hrun. unbind Hrun validated. unbind Hrun srv. unbind Hrun fnd.
  assert (∀ q, reads (on_audit_logs (AuditLogsTable.get_server_audit_logs (Server.id srv) q)))
    as Hreads by (intros q; apply reads_table; [by intros []|done]).
  apply bind_Ok_inv_reads in Hrun as (entries & Hentries & Hrun); [|apply Hreads].
  assert (∀ l, reads (with_users (Server.id srv) user l)) as Hwith.
  { intros l. unfold with_users, fetch_many_ids_as_mutuals, on_users, on_members. solve_reads. }
  apply bind_Ok_inv_reads in Hrun as (shown & _ & Hrun); [|apply Hwith]. injection Hrun as <- <-.
  set (query := AuditLogQuery.mk _ _ _ _ _ _) in Hentries.
  split; [done|]. exists srv, query. split; [done|]. split; [by eapply require_in_server_holds|].
  injection Hentries as <- _. cbn [AuditLogQueryResponse.audit_logs].
  set (sorted := sort_by _ _).
  assert (∀ e, e ∈ AuditLogsTable.truncate (AuditLogQuery.limit query) sorted →
    e ∈ hash_values (ReferenceDb.audit_logs (World.db w)) ∧
    AuditLogsTable.entry_matches (Server.id srv) query e = true) as Hin.
  { intros e He. assert (e ∈ sorted) as Hs.
    { unfold AuditLogsTable.truncate in He. destruct (_ <? 0)%Z; [done|].
      rewrite <-(take_drop (Z.to_nat (AuditLogQuery.limit query)) sorted), elem_of_app. by left. }
    unfold sorted in Hs. rewrite sort_by_perm in Hs.
    apply list_elem_of_In, List.filter_In in Hs as [Hs ?]. by rewrite list_elem_of_In. }
  assert (0 ≤ default 50 (OptionsAuditLogQuery.limit options) ≤ 100)%Z as Hlimit.
  { unfold validate in Evalidated. destruct (OptionsAuditLogQuery.valid options) eqn:Hvalid; [|done].
    apply andb_prop in Hvalid as [_ Hvalid]. destruct (OptionsAuditLogQuery.limit options); simpl in *;
      [|lia]. apply andb_prop in Hvalid as [?%Z.leb_le ?%Z.leb_le]. lia. }
  split.
  { rewrite length_fmap. unfold AuditLogsTable.truncate, query. cbn [AuditLogQuery.limit].
    destruct (Z.ltb_spec (default 50%Z (OptionsAuditLogQuery.limit options)) 0);
      [lia|]. rewrite length_take. lia. }
  do 2 (split; [reflexivity|]). apply Forall_fmap, Forall_forall. intros e He.
  exists e. split; [done|]. by apply Hin.
Qed.
End Authorised.
