(* ===== verification/Handshake.v ===== *)
(** * Opening and closing a connection of the gateway

    What a client asks for in the address it connects to ([crates/bonfire/src/config.rs]), and how a
    connection is authenticated, told what it starts with and ended
    ([crates/bonfire/src/websocket.rs], around the loops that are in [Gateway]). A connection needs
    the token of a session or of a bot; who is disabled has none. *)

From stdpp Require Import base list gmap strings.
From Stdlib Require Import ZArith Lia Ascii.
From S2P Require Import Prelude Decimal Errors Permissions PermissionSpec Files Users Servers.
From S2P Require Import Channels PermissionQuery Messages Unreads Config Emojis Webhooks Bots.
From S2P Require Import AuditLogs Accounts Platform World Database PermissionTheorems Relationships.
From S2P Require Import MessageOps ChannelOps ServerOps References Authors Bridge Redis Voice.
From S2P Require Import MessageCreate UserOps AccountOps Triples.
From S2P Require AccountTheorems GatewayTheorems Presence.
From S2P Require Import Gateway.

(** ** Crates *)

(** [querystring], [serde_json] and [rmp_serde] on messages of clients, and the groups of the
    pattern of [ready] parameters *)
Class Wire := {
  querify : string → list (string * string);
  from_json : string → option ClientMessage.t;
  from_msgpack : string → option ClientMessage.t;
  (** [READY_PAYLOAD_FIELD_REGEX.captures]: the first group and the second. The whole is matched:
      a word, or a word and something in brackets. *)
  captures : string → option (string * option string);
  captures_whole value word key :
    captures value = Some (word, key) →
    value = word +:+ match key with Some key => "[" +:+ key +:+ "]" | None => "" end
}.

(** The set of channels a user has slow mode in, kept in the store under one key; a request for
    several values may fail. *)
Class SlowmodeIndex := {
  smembers_index : string → Z → store → option (list string);
  pipe_ttls : Z → store → bool;
  srem_index : string → list string → Z → store → store
}.

(** ** What a client asks for ([config.rs]) *)

Module ProtocolFormat.
Inductive t : Type := Json | Msgpack.
End ProtocolFormat.

Module ProtocolConfiguration.
Record t : Type := mk {
  protocol_version : Z;
  format : ProtocolFormat.t;
  session_token : option string;
  ready_payload_fields : ReadyPayloadFields.t
}.
Definition set_protocol_version (c : t) x : t := mk x (format c) (session_token c) (ready_payload_fields c).
Definition set_format (c : t) x : t := mk (protocol_version c) x (session_token c) (ready_payload_fields c).
Definition set_session_token (c : t) (x : string) : t :=
  mk (protocol_version c) (format c) (Some x) (ready_payload_fields c).
Definition set_fields (c : t) x : t := mk (protocol_version c) (format c) (session_token c) x.
End ProtocolConfiguration.

(** A message of the socket *)
Module WsMessage.
Inductive t : Type := Text (text : string) | Binary (buf : string) | Control.
End WsMessage.

(** [str::parse::<i32>] *)
Definition parse_i32 (s : string) : option Z :=
  match s with
  | EmptyString => None
  | String "-"%char EmptyString => None
  | String "-"%char s => n ← read_digits 0 s; if (n <=? 2 ^ 31)%Z then Some (- n)%Z else None
  | s => n ← parse_u32 s; if (n <? 2 ^ 31)%Z then Some n else None
  end.

Section Config.
Context `{Wire}.

Definition decode (self : ProtocolConfiguration.t) (msg : WsMessage.t) : Result ClientMessage.t :=
  match ProtocolConfiguration.format self, msg with
  | ProtocolFormat.Json, WsMessage.Text text => ok_or (from_json text) ErrorType.InternalError
  | ProtocolFormat.Msgpack, WsMessage.Binary buf => ok_or (from_msgpack buf) ErrorType.InternalError
  | _, _ => Err ErrorType.InternalError
  end.

(** Re-enable a field the client specifies *)
Definition enable_field (value : string) (f : ReadyPayloadFields.t) : ReadyPayloadFields.t :=
  let '(ReadyPayloadFields.mk users servers channels members emojis voice_states user_settings
          channel_unreads policy_changes) := f in
  match captures value with
  | None => f
  | Some (word, key) =>
      if bool_decide (value = "users") then ReadyPayloadFields.mk true servers channels members emojis
        voice_states user_settings channel_unreads policy_changes else
      if bool_decide (value = "servers") then ReadyPayloadFields.mk users true channels members emojis
        voice_states user_settings channel_unreads policy_changes else
      if bool_decide (value = "channels") then ReadyPayloadFields.mk users servers true members emojis
        voice_states user_settings channel_unreads policy_changes else
      if bool_decide (value = "members") then ReadyPayloadFields.mk users servers channels true emojis
        voice_states user_settings channel_unreads policy_changes else
      if bool_decide (value = "emojis") then ReadyPayloadFields.mk users servers channels members true
        voice_states user_settings channel_unreads policy_changes else
      if bool_decide (value = "voice_states") then ReadyPayloadFields.mk users servers channels members
        emojis true user_settings channel_unreads policy_changes else
      if bool_decide (value = "channel_unreads") then ReadyPayloadFields.mk users servers channels
        members emojis voice_states user_settings true policy_changes else
      if bool_decide (value = "user_settings") then ReadyPayloadFields.mk users servers channels members
        emojis voice_states (user_settings ++ [word]) channel_unreads policy_changes else
      if bool_decide (value = "policy_changes") then ReadyPayloadFields.mk users servers channels members
        emojis voice_states user_settings channel_unreads true else f
  end.

(** The parameters one after the other *)
Definition apply_param (c : ProtocolConfiguration.t) (param : string * string) : ProtocolConfiguration.t :=
  let '(key, value) := param in
  if bool_decide (key = "version") then
    match parse_i32 value with
    | Some version => ProtocolConfiguration.set_protocol_version c version
    | None => c
    end
  else if bool_decide (key = "format") then
    if bool_decide (value = "json") then ProtocolConfiguration.set_format c ProtocolFormat.Json else
    if bool_decide (value = "msgpack") then ProtocolConfiguration.set_format c ProtocolFormat.Msgpack else c
  else if bool_decide (key = "token") then ProtocolConfiguration.set_session_token c value
  else if bool_decide (key = "ready") then
    ProtocolConfiguration.set_fields c (enable_field value (ProtocolConfiguration.ready_payload_fields c))
  else c.

(** [on_request]: the configuration that is sent back *)
Definition on_request (query : option string) : ProtocolConfiguration.t :=
  let params := querify (default "" query) in
  let fields := if bool_decide ("ready" ∈ params.*1) then ReadyPayloadFields.none
                else ReadyPayloadFields.default in
  fold_left apply_param params (ProtocolConfiguration.mk 1 ProtocolFormat.Json None fields).

(** Read messages until one authenticates; what remains is for the loops. *)
Fixpoint wait_for_token (config : ProtocolConfiguration.t) (incoming : list WsMessage.t) :
    ProtocolConfiguration.t * list WsMessage.t :=
  match incoming with
  | [] => (config, [])
  | message :: incoming =>
      match decode config message with
      | Ok (ClientMessage.Authenticate token) => (ProtocolConfiguration.set_session_token config token, incoming)
      | _ => wait_for_token config incoming
      end
  end.

Definition authenticate (config : ProtocolConfiguration.t) (incoming : list WsMessage.t) :
    ProtocolConfiguration.t * list WsMessage.t :=
  match ProtocolConfiguration.session_token config with
  | Some _ => (config, incoming)
  | None => wait_for_token config incoming
  end.
End Config.

(** ** Slow modes *)

Section Slowmodes.
Context `{Redis, SlowmodeIndex}.

(** [fetch_user_slowmodes]: the channels whose slow mode goes on; the others leave the index. *)
Definition fetch_user_slowmodes (user_id : string) : H (option (list ChannelSlowmode.t)) :=
  now ← clock;
  if redis_connects now then
    let idx_key := slowmode_index user_id in
    channel_ids ← on_redis (λ now r, (default [] (smembers_index idx_key now r), r));
    match channel_ids with
    | [] => mret (Some [])
    | _ =>
        ttls ← on_redis (λ now r,
          ((if pipe_ttls now r
            then default [] (mapM (λ channel_id, redis_ttl (slowmode_key user_id channel_id) now r) channel_ids)
            else []), r));
        let found := zip channel_ids ttls in
        let slowmodes := (λ ct : string * Z, ChannelSlowmode.mk ct.1 (as_u64 ct.2) (as_u64 ct.2)) <$>
                           List.filter (λ ct, 0 <? ct.2)%Z found in
        let expired := (List.filter (λ ct, negb (0 <? ct.2)%Z) found).*1 in
        (if bool_decide (expired = []) then mret tt
         else on_redis (λ now r, (tt, srem_index idx_key expired now r))) ;;
        mret (Some slowmodes)
    end
  else mret None.
End Slowmodes.

(** ** The connection ([client]) *)

(** What comes of a client that connects: it is sent something and dropped, or the loops run with
    the messages that remain, under a session of presence *)
Module Opening.
Inductive t `{TimedCache} : Type :=
| Refused (sent : list Event.t)
| Opened (connection : Connection.t) (incoming : list WsMessage.t) (presence_id : Z).
End Opening.

Section Client.
Context `{Environment, MutualIds, HashIter, SeenEvents, TimedCache, Transport}.
Context `{Redis, RedisCommands}.
Context `{OptionalStruct Server.t PartialServer.t, OptionalStruct Role.t PartialRole.t}.
Context `{OptionalStruct Member.t PartialMember.t}.
Context {wire : Wire} {index : SlowmodeIndex} {region : Presence.Region}.
Abbreviation G := (M ErrorType.t (State.t * World.t)).

(** Write to the socket: what was written then, unless it is closed *)
Definition say (sent : list Event.t) (event : Event.t) : option (list Event.t) :=
  if socket_accepts sent event then Some (sent ++ [event]) else None.

(** An operation of the gateway on a state; an error is handed over. *)
Definition run_gateway {A} (m : G A) (s : State.t) : H (Result A * State.t) :=
  λ w, let '(r, (s, w)) := m (s, w) in
       match r with Panicked => (Panicked, w) | _ => (Ok (r, s), w) end.

(** What follows once the user is known *)
Definition start (disabled : bool) (fields : ReadyPayloadFields.t) (incoming : list WsMessage.t)
    (user : User.t) (session_id : string) : H Opening.t :=
  let state := State.from user session_id in
  let user_id := Cache.user_id (State.cache state) in
  match say [] Event.Authenticated with
  | None => mret (Opening.Refused [])
  | Some sent =>
      ready ← run_gateway (generate_ready_payload fields) state;
      match ready with
      | (Ok payload, state) =>
          match say sent payload with
          | None => mret (Opening.Refused sent)
          | Some sent =>
              slowmodes ← fetch_user_slowmodes user_id;
              match (match default [] slowmodes with
                     | [] => Some sent
                     | slowmodes => say sent (Event.UserSlowmodes slowmodes)
                     end) with
              | None => mret (Opening.Refused sent)
              | Some sent =>
                  created ← Presence.create_session user_id 0;
                  (if (created.1 : bool) then
                     run_gateway (broadcast_presence_change disabled true) state ;; mret tt
                   else mret tt) ;;
                  mret (Opening.Opened (Connection.mk state ∅ [] sent true) incoming created.2)
              end
          end
      | (_, _) => mret (Opening.Refused sent)
      end
  end.

(** [client] up to its loops; [disabled] is [config.disable_events_dont_use] *)
Definition open_connection (disabled : bool) (query : option string) (incoming : list WsMessage.t) :
    H Opening.t :=
  let '(config, incoming) := authenticate (on_request query) incoming in
  match ProtocolConfiguration.session_token config with
  | None => mret (Opening.Refused (default [] (say [] (Event.Error ErrorType.InvalidSession))))
  | Some token =>
      found ← outcome (from_token token UserHint.Any);
      match found with
      | Ok (user, session_id) =>
          now ← clock;
          attempt (on_sessions (SessionsTable.update_session_last_seen session_id now)) ;;
          start disabled (ProtocolConfiguration.ready_payload_fields config) incoming user session_id
      | Err err => mret (Opening.Refused (default [] (say [] (Event.Error err))))
      | Panicked => panic
      end
  end.

(** [client] after its loops *)
Definition close_connection (disabled : bool) (c : Connection.t) (presence_id : Z) : H unit :=
  last_session ← Presence.delete_session (Cache.user_id (State.cache (Connection.state c))) presence_id;
  if (last_session : bool) then
    run_gateway (broadcast_presence_change disabled false) (Connection.state c) ;; mret tt
  else mret tt.
End Client.

(** ** The parameters of the address *)

Section Parameters.
Context `{Wire}.

Lemma append_nil_r (s : string) : s +:+ "" = s.
Proof. induction s as [|c s IH]; [done|]. change (String c (s +:+ "") = String c s). by rewrite IH. Qed.

(** A word with something in brackets ends in a bracket. *)
Lemma bracketed_word (value word key : string) :
  value = word +:+ "[" +:+ key +:+ "]" → lacks "]" value = true → False.
Proof.
  assert (∀ s t, lacks "]" (s +:+ t) = true → lacks "]" t = true) as Htail.
  { induction s as [|c s IH]; intros t Hl; [done|]. apply IH.
    change (negb (Ascii.eqb c "]") && lacks "]" (s +:+ t) = true) in Hl. by apply andb_prop in Hl as [_ ?]. }
  intros -> Hl. by do 3 apply Htail in Hl.
Qed.

(** Which parameters the key of a setting may come from *)
Lemma enable_field_settings value f x :
  x ∈ ReadyPayloadFields.user_settings (enable_field value f) →
  x ∈ ReadyPayloadFields.user_settings f ∨ x = "user_settings".
Proof.
  destruct f as [u s c m e v settings n p]. unfold enable_field.
  destruct (captures value) as [[word key]|] eqn:Hcap; [|by left].
  do 7 (case_bool_decide; [by left|]). case_bool_decide as Hvalue.
  - cbn. intros [?|Hx%list_elem_of_singleton]%elem_of_app; [by left|right]. subst x value.
    apply captures_whole in Hcap. destruct key as [key|].
    + exfalso. by eapply bracketed_word.
    + by rewrite append_nil_r in Hcap.
  - case_bool_decide; by left.
Qed.

Lemma apply_param_settings c param x :
  x ∈ ReadyPayloadFields.user_settings (ProtocolConfiguration.ready_payload_fields (apply_param c param)) →
  x ∈ ReadyPayloadFields.user_settings (ProtocolConfiguration.ready_payload_fields c) ∨ x = "user_settings".
Proof.
  destruct param as [key value], c as [version format token fields]. unfold apply_param.
  case_bool_decide; [destruct (parse_i32 value); by left|].
  case_bool_decide; [do 2 (case_bool_decide; [by left|]); by left|].
  case_bool_decide; [by left|]. case_bool_decide; [|by left]. apply enable_field_settings.
Qed.

(** No parameter asks for a setting: in place of the key in brackets the word before it is taken,
    and only where there are no brackets. *)
Lemma settings_cannot_be_asked_for query x :
  x ∈ ReadyPayloadFields.user_settings (ProtocolConfiguration.ready_payload_fields (on_request query)) →
  x = "user_settings".
Proof.
  unfold on_request. intros Hx.
  assert (∀ params c, x ∈ ReadyPayloadFields.user_settings (ProtocolConfiguration.ready_payload_fields
      (fold_left apply_param params c)) →
    x ∈ ReadyPayloadFields.user_settings (ProtocolConfiguration.ready_payload_fields c) ∨ x = "user_settings")
    as Hfold.
  { clear Hx. induction params as [|param params IH]; intros c Hx; [by left|]. cbn in Hx.
    apply IH in Hx as [Hx|Hx]; [|by right]. by apply apply_param_settings in Hx. }
  apply Hfold in Hx as [Hx|Hx]; [|done]. cbn in Hx. case_bool_decide; by apply elem_of_nil in Hx.
Qed.

(** The token is that of the address or of the first message that authenticates. *)
Lemma wait_for_token_spec config incoming token :
  ProtocolConfiguration.session_token config = None →
  ProtocolConfiguration.session_token (wait_for_token config incoming).1 = Some token →
  ∃ before message, decode config message = Ok (ClientMessage.Authenticate token) ∧
    incoming = before ++ message :: (wait_for_token config incoming).2.
Proof.
  intros Hnone. induction incoming as [|message incoming IH]; cbn; [congruence|].
  destruct (decode config message) as [m|e|] eqn:Hdecode.
  - destruct m as [t|ch|ch|srv|data responded].
    1: { cbn. intros [= ->]. by exists [], message. }
    all: intros Ht; destruct (IH Ht) as (before & m & Hm & Heq); exists (message :: before), m;
      (split; [done|]); cbn; by rewrite <-Heq.
  - intros Ht. destruct (IH Ht) as (before & m & Hm & Heq). exists (message :: before), m.
    split; [done|]. cbn. by rewrite <-Heq.
  - intros Ht. destruct (IH Ht) as (before & m & Hm & Heq). exists (message :: before), m.
    split; [done|]. cbn. by rewrite <-Heq.
Qed.
End Parameters.

(** ** Who gets a connection *)

Section Authenticated.
Context `{Environment, MutualIds, HashIter, SeenEvents, TimedCache, Transport}.
Context `{Redis, RedisCommands}.
Context `{OptionalStruct Server.t PartialServer.t, OptionalStruct Role.t PartialRole.t}.
Context `{OptionalStruct Member.t PartialMember.t}.
Context {wire : Wire} {index : SlowmodeIndex} {region : Presence.Region}.

(** The token that is offered, in the address or in a message *)
Definition offered (query : option string) (incoming : list WsMessage.t) : option string :=
  ProtocolConfiguration.session_token (authenticate (on_request query) incoming).1.

(** A token authenticates a user: it is that of a session of the user, whose account is not
    disabled, or that of the bot. *)
Definition authenticates (token : string) (user : User.t) (session_id : string) (w : World.t) : Prop :=
  (∃ session, session ∈ hash_values (AccountTheorems.sessions w) ∧ Session.token session = token ∧
     Session.id session = session_id ∧
     ReferenceDb.users (World.db w) !! Session.user_id session = Some user ∧
     ∀ account, AccountTheorems.accounts w !! Session.user_id session = Some account →
       Account.disabled account = false) ∨
  (session_id = "" ∧ ∃ bot, bot ∈ hash_values (ReferenceDb.bots (World.db w)) ∧
     Bot.token bot = token ∧ ReferenceDb.users (World.db w) !! Bot.id bot = Some user).

Lemma fetch_user_reads' id : reads (on_users (UsersTable.fetch_user id)).
Proof. unfold on_users. solve_reads. Qed.
Lemma fetch_user_stored id user w :
  on_users (UsersTable.fetch_user id) w = (Ok user, w) → ReferenceDb.users (World.db w) !! id = Some user.
Proof.
  unfold on_users, on_table, UsersTable.fetch_user, table_fetch.
  destruct (ReferenceDb.users (World.db w) !! id); [by intros [= ->]|done].
Qed.
Lemma fetch_bot_by_token_reads token : reads (on_bots (BotsTable.fetch_bot_by_token token)).
Proof. unfold on_bots. solve_reads. Qed.
#[local] Hint Resolve fetch_user_reads' fetch_bot_by_token_reads AccountTheorems.fetch_session_by_token_reads : reads.

Lemma from_session_token_reads token : reads (from_session_token token).
Proof. unfold from_session_token. solve_reads. Qed.
Lemma from_bot_token_reads token : reads (from_bot_token token).
Proof. unfold from_bot_token. solve_reads. Qed.
#[local] Hint Resolve from_session_token_reads from_bot_token_reads : reads.
Lemma from_token_reads token : reads (from_token token UserHint.Any).
Proof. unfold from_token. solve_reads. Qed.
#[local] Hint Resolve from_token_reads : reads.

Lemma from_session_token_inv token user session_id w :
  AccountTheorems.auth_wf w → from_session_token token w = (Ok (user, session_id), w) →
  authenticates token user session_id w.
Proof.
  intros [_ Hwf] Hrun. unfold from_session_token in Hrun. unbind Hrun sess. unbind Hrun found.
  injection Hrun as -> <-. left. exists sess.
  unfold on_sessions, on_table, SessionsTable.fetch_session_by_token in Esess.
  rewrite M_bind_unfold in Esess. cbn [gets] in Esess.
  destruct (List.find _ _) as [sn|] eqn:Hfind; [|done]. injection Esess as -> _.
  apply List.find_some in Hfind as [Hin Ht]. apply bool_decide_eq_true in Ht.
  split_and!; [by apply list_elem_of_In|done|done|by apply fetch_user_stored|].
  intros account Hacc. destruct (Account.disabled account) eqn:Hdis; [|done]. exfalso.
  apply list_elem_of_In, list_elem_of_fmap in Hin as ([k s] & -> & Hin%elem_of_hash_iter).
  by apply (Hwf _ _ Hacc Hdis k s).
Qed.

Lemma from_bot_token_inv token user session_id w :
  from_bot_token token w = (Ok (user, session_id), w) → authenticates token user session_id w.
Proof.
  intros Hrun. unfold from_bot_token in Hrun. unbind Hrun found. unbind Hrun owned. unbind Hrun account.
  injection Hrun as -> <-. right. split; [done|]. exists owned.
  unfold attempt, on_bots, on_table, BotsTable.fetch_bot_by_token in Efound.
  destruct (List.find _ _) as [b|] eqn:Hfind; cbn in Efound; simplify_eq/=.
  unfold lift in Eowned. simplify_eq.
  apply List.find_some in Hfind as [Hin Ht]. apply bool_decide_eq_true in Ht.
  split_and!; [by apply list_elem_of_In|done|by apply fetch_user_stored].
Qed.

Lemma from_token_inv token user session_id w :
  AccountTheorems.auth_wf w → from_token token UserHint.Any w = (Ok (user, session_id), w) →
  authenticates token user session_id w.
Proof.
  intros Hwf Hrun. unfold from_token in Hrun. unbind Hrun found. destruct found as [[u i]|].
  - injection Hrun as -> ->. apply from_session_token_inv; [done|].
    unfold attempt in Efound. destruct (from_session_token token w) as [[]]; by simplify_eq.
  - by apply from_bot_token_inv.
Qed.

(** What a connection starts with *)
Lemma start_inv disabled fields incoming user session_id w c rest presence_id w' :
  start disabled fields incoming user session_id w = (Ok (Opening.Opened c rest presence_id), w') →
  ∃ ready w1 slowmodes,
    generate_ready_payload fields (State.from user session_id, w) = (Ok ready, (Connection.state c, w1)) ∧
    Connection.sent c = [Event.Authenticated; ready] ++ slowmodes ∧
    (slowmodes = [] ∨ ∃ l, slowmodes = [Event.UserSlowmodes l]) ∧
    Connection.topics c = ∅ ∧ Connection.open c = true ∧ rest = incoming.
Proof.
  unfold start, say. intros Hrun. destruct (socket_accepts [] _); [|done].
  apply bind_Ok_inv in Hrun as ([ready state] & w1 & Hready & Hrun).
  unfold run_gateway in Hready.
  destruct (generate_ready_payload fields (State.from user session_id, w)) as [r [s w2]] eqn:Hgen.
  destruct r as [payload| |]; [|injection Hready as <- <- <-; done|done]. injection Hready as <- <- <-.
  destruct (socket_accepts _ payload); [|done].
  apply bind_Ok_inv in Hrun as (slowmodes & w3 & _ & Hrun).
  destruct (default [] slowmodes) as [|m l].
  - apply bind_Ok_inv in Hrun as (created & w4 & _ & Hrun).
    apply bind_Ok_inv in Hrun as ([] & w5 & _ & Hrun). injection Hrun as <- <- <- <-.
    exists payload, w2, []. split_and!; try done. by left.
  - destruct (socket_accepts _ _); [|done].
    apply bind_Ok_inv in Hrun as (created & w4 & _ & Hrun).
    apply bind_Ok_inv in Hrun as ([] & w5 & _ & Hrun). injection Hrun as <- <- <- <-.
    exists payload, w2, [Event.UserSlowmodes (m :: l)]. split_and!; try done. right. by eexists.
Qed.

(** The world after the time of the session was updated: the rest of the database stays. *)
Definition seen_at (session_id : string) (w : World.t) : World.t :=
  (on_sessions (SessionsTable.update_session_last_seen session_id (World.now w)) w).2.

(** C13: A client gets a connection only with a token that it offers: that of a session whose account
    is not disabled, or that of a bot. The connection is that user's; what was sent is the Ready
    payload of the user, in which every channel is stored and one of a server that the permissions
    told from what is stored let the user view, or a direct message or group with the user as
    recipient, or the user's notes (if only channels of servers are listed by servers). A client
    that offers no such token is sent nothing but an error, and nothing changes. *)
Theorem connections_are_authenticated (disabled : bool) (query : option string)
    (incoming : list WsMessage.t) (w : World.t) :
  AccountTheorems.auth_wf w →
  (∀ k s, ReferenceDb.servers (World.db w) !! k = Some s → Server.id s = k) →
  (∀ k s id ch, ReferenceDb.servers (World.db w) !! k = Some s → id ∈ Server.channels s →
     ReferenceDb.channels (World.db w) !! id = Some ch → ∃ c, ch = Channel.TextChannel c) →
  match open_connection disabled query incoming w with
  | (Ok (Opening.Opened c rest _), _) => ∃ token user session_id ready slowmodes,
      offered query incoming = Some token ∧ authenticates token user session_id w ∧
      Cache.user_id (State.cache (Connection.state c)) = User.id user ∧
      State.session_id (Connection.state c) = session_id ∧
      Connection.sent c = [Event.Authenticated; ready] ++ slowmodes ∧
      (∃ channels users servers members emojis voice_states settings unreads policies,
         ready = Event.Ready users servers channels members emojis voice_states settings unreads policies ∧
         ∀ ch, ch ∈ default [] channels → ∃ channel, ch = V0.Channel.from_db channel ∧
           GatewayTheorems.shown_to user (seen_at session_id w) channel) ∧
      rest = (authenticate (on_request query) incoming).2
  | (Ok (Opening.Refused sent), w') =>
      (w' = w ∧ (sent = [] ∨ ∃ err, sent = [Event.Error err])) ∨
      ∃ token user session_id, offered query incoming = Some token ∧ authenticates token user session_id w
  | _ => True
  end.
Proof.
  intros Hwf Hkeyed Htext. unfold open_connection, offered.
  destruct (authenticate (on_request query) incoming) as [config rest]. cbn [fst snd].
  assert (∀ err, default [] (say [] (Event.Error err)) = [] ∨
    ∃ e, default [] (say [] (Event.Error err)) = [Event.Error e]) as Hsay.
  { intros err. unfold say. destruct (socket_accepts _ _); [right; by eexists|by left]. }
  destruct (ProtocolConfiguration.session_token config) as [token|] eqn:Htoken; [|by left].
  rewrite M_bind_unfold. unfold outcome. pose proof (from_token_reads token w) as Hreads.
  destruct (from_token token UserHint.Any w) as [[[user session_id]|err|] w1] eqn:Hfrom; [|by left|done].
  cbn in Hreads. subst w1. pose proof (from_token_inv token user session_id w Hwf Hfrom) as Hauth.
  change (clock ≫= ?f) with (λ w, f (World.now w) w). cbv beta. rewrite M_bind_unfold.
  assert (attempt (on_sessions (SessionsTable.update_session_last_seen session_id (World.now w))) w =
    (Ok (Some tt), seen_at session_id w)) as -> by done.
  destruct (start _ _ _ _ _ _) as [[o|e|] w'] eqn:Hstart; [|done..].
  destruct o as [sent|c incoming' presence_id]; [right; eauto|].
  apply start_inv in Hstart as (ready & w1 & slowmodes & Hready & Hsent & _ & _ & _ & ->).
  exists token, user, session_id, ready, slowmodes.
  apply GatewayTheorems.ready_facts in Hready as (ms & svs & direct & fetched & us & online & shown &
    _ & Hservers & Hdirect & Hfetched & _ & _ & _ & Hstate & (sm & em & vs & st & ur & pl & ->)); [|done].
  destruct Hstate as (_ & Hsession & _ & _ & _ & Huser & _).
  split_and!; try done. eexists _, _, _, _, _, _, _, _, _. split; [done|].
  intros ch Hch. unfold wanted in Hch. destruct (ReadyPayloadFields.channels _); [|by apply elem_of_nil in Hch].
  cbn in Hch. apply list_elem_of_fmap in Hch as (channel & -> & Hin). exists channel. split; [done|].
  apply list_elem_of_In, List.filter_In in Hin as [Hin Hsees]. apply list_elem_of_In in Hin.
  apply elem_of_app in Hin as [Hin|Hin].
  - apply (GatewayTheorems.direct_iff _ _ _ _ Hdirect) in Hin as [Hstored Hpart]. split; [done|].
    by destruct channel.
  - destruct (GatewayTheorems.fetched_by_id _ _ _ _ Hfetched Hin) as (id & Hid & Hstored).
    apply list_elem_of_bind in Hid as (sv & Hid & Hsv).
    destruct (GatewayTheorems.servers_stored _ _ _ _ Hservers Hsv) as [k Hk].
    destruct (Htext k sv id channel Hk Hid Hstored) as [tc ->]. split; [by exists id|].
    destruct (GatewayTheorems.sees_stored user (seen_at session_id w) tc) as (pv & Hp & Hb).
    exists pv. by rewrite <- Hb.
Qed.
End Authenticated.

(** ** Examples *)

Module HandshakeSample.
#[local] Existing Instance canonical_iter.
#[local] Existing Instance Store.reliable.
#[local] Existing Instance VoiceInstances.commands.
#[local] Existing Instance Fixture.strangers.
#[local] Existing Instance GatewayTheorems.GatewayInstances.seen.
#[local] Existing Instance GatewayTheorems.GatewayInstances.timed_cache.
#[local] Existing Instance GatewayTheorems.GatewayInstances.transport.
#[local] Existing Instance GatewayTheorems.Sample.gateway_environment.
#[local] Existing Instance GatewayTheorems.Sample.server_options.
#[local] Existing Instance GatewayTheorems.Sample.role_options.
#[local] Existing Instance GatewayTheorems.Sample.member_options.
#[local] Existing Instance Presence.PresenceSample.region.

(** Two addresses, a message, and two values of the pattern *)
#[refine, local] Instance wire : Wire := {|
  querify query := if bool_decide (query = "?token=secret") then [("token", "secret")] else
                   if bool_decide (query = "?ready=user_settings[theme]")
                   then [("ready", "user_settings[theme]")] else [];
  from_json text := if bool_decide (text = "hello") then Some (ClientMessage.Authenticate "secret") else None;
  from_msgpack _ := None;
  captures value := if bool_decide (value = "user_settings[theme]")
                    then Some ("user_settings", Some "theme") else
                    if bool_decide (value = "user_settings") then Some ("user_settings", None) else None
|}.
Proof.
  intros value word key. case_bool_decide as Hv; [by intros [= <- <-]; subst|].
  case_bool_decide; [by intros [= <- <-]; subst|done].
Defined.
(** Nobody is in slow mode. *)
#[local] Instance index : SlowmodeIndex :=
  {| smembers_index _ _ _ := Some []; pipe_ttls _ _ := true; srem_index _ _ _ r := r |}.

(** "M" has a session. *)
Definition session : Session.t := Session.mk "s" "M" "secret" "Unknown" 10 None None.
Definition world : World.t :=
  let w := GatewayTheorems.Sample.the_world in
  World.set_db w (ReferenceDb.set_sessions (World.db w) {[ "s" := session ]}).

Definition opened (r : Result Opening.t * World.t) : bool :=
  match r.1 with Ok (Opening.Opened _ _ _) => true | _ => false end.

Lemma greeted_world_wf : AccountTheorems.auth_wf world.
Proof.
  assert (∀ k a, AccountTheorems.accounts world !! k ≠ Some a) as Hnone by (intros k a; apply lookup_empty_Some).
  split; intros k a Ha; by apply Hnone in Ha.
Qed.
Lemma greeted_world_keyed k s : ReferenceDb.servers (World.db world) !! k = Some s → Server.id s = k.
Proof.
  intros Hk. change (({[ "S" := GatewayTheorems.Sample.shop ]} : gmap string Server.t) !! k = Some s) in Hk.
  by apply lookup_singleton_Some in Hk as [<- <-].
Qed.

Lemma greeted_world_text k s id ch :
  ReferenceDb.servers (World.db world) !! k = Some s → id ∈ Server.channels s →
  ReferenceDb.channels (World.db world) !! id = Some ch → ∃ c, ch = Channel.TextChannel c.
Proof.
  intros _ _ Hch. assert (∀ k c, (k, c) ∈ map_to_list (ReferenceDb.channels (World.db world)) →
    ∃ t, c = Channel.TextChannel t) as Hall.
  { vm_compute. intros k' c Hin. repeat (apply elem_of_cons in Hin as [[= -> ->]|Hin]; [by eexists|]).
    by apply elem_of_nil in Hin. }
  apply (Hall id), elem_of_map_to_list, Hch.
Qed.

(** The token is in the address, in the second message, or nowhere. *)
Lemma three_clients :
  opened (open_connection false (Some "?token=secret") [] world) = true ∧
  opened (open_connection false None [WsMessage.Control; WsMessage.Text "hello"] world) = true ∧
  (open_connection false None [WsMessage.Control] world).1 =
    Ok (Opening.Refused [Event.Error ErrorType.InvalidSession]).
Proof. by vm_compute. Qed.

Lemma connections_are_authenticated_witness :
  ∃ token user session_id,
    offered (Some "?token=secret") [] = Some token ∧ authenticates token user session_id world.
Proof.
  pose proof (proj1 three_clients) as Hopened. unfold opened in Hopened.
  pose proof (connections_are_authenticated false (Some "?token=secret") [] world greeted_world_wf greeted_world_keyed
    greeted_world_text) as Hc.
  destruct (open_connection false (Some "?token=secret") [] world) as [[[sent|c rest i]|e|] w']; try done.
  destruct Hc as (token & user & session_id & _ & _ & ? & ? & _). by exists token, user, session_id.
Defined.

(** A client that asks for its settings gets nothing at all. *)
Lemma settings_are_not_understood :
  ProtocolConfiguration.ready_payload_fields (on_request (Some "?ready=user_settings[theme]")) =
    ReadyPayloadFields.none.
Proof. by vm_compute. Qed.
End HandshakeSample.
