(* ===== verification/Autumn.v ===== *)
(** * The file service ([crates/services/autumn]) and the storage of files ([crates/core/files])

    Uploads, previews and downloads ([api.rs]) with how types and metadata are found and private
    data is taken out ([mime_type.rs], [metadata.rs], [exif.rs], [utils.rs]), on top of encrypted
    objects in buckets ([encryption_impl.rs], [s3_impl.rs]), the decoding of images and their
    thumbnails ([media_impl.rs]), and the tasks of [crates/daemons/crond] that delete files. The
    object store, ciphers and hashes, the decoders of media, the scanner for malware and the cache
    are parameters. *)

From stdpp Require Import base list gmap strings.
From Stdlib Require Import ZArith Lia Ascii.
From Stdlib Require SpecFloat.
From S2P Require Import Prelude Decimal Errors Files Users Config Accounts Platform World.
From S2P Require Gifbox.

(** ** Configuration: the [Files] of [config] *)

Module FilesConfig.
Record t : Type := mk {
  encryption_key : string;
  webp_quality : SpecFloat.spec_float;
  blocked_mime_types : list string;
  clamd_host : string;
  scan_mime_types : list string;
  min_file_size : Z;
  preview : gmap string (Z * Z);
  default_bucket : string
}.
End FilesConfig.
Class FilesSettings := files : FilesConfig.t.

(** ** Crates *)

(** [base64], [aes_gcm] and [sha2], with what they document: decoding undoes encoding, decrypting
    under the same key and nonce undoes encrypting. *)
Class Crypto := {
  base64_decode : string → option string;
  base64_encode : string → string;
  aes256_gcm_encrypt : string → string → string → option string;
  aes256_gcm_decrypt : string → string → string → option string;
  (** [Aes256Gcm::generate_nonce(&mut OsRng)], the [n]-th that is drawn *)
  generate_nonce : nat → string;
  (** SHA-256, as [{:02x}] prints it *)
  sha256 : string → string;
  base64_round b : base64_decode (base64_encode b) = Some b;
  base64_nil : base64_encode "" = "";
  aes256_gcm_round key nonce text cipher :
    aes256_gcm_encrypt key nonce text = Some cipher → aes256_gcm_decrypt key nonce cipher = Some text;
  nonce_length n : String.length (generate_nonce n) = 12
}.

(** The object store: whether the [n]-th request is answered, and whether one that is not
    answered had its effect all the same *)
Class S3 := { answered : nat → bool; applied : nat → bool }.

(** Decoders and encoders of media; files and buffers are their bytes. *)
Class Media := {
  infer : string → option string;
  utf8 : string → bool;
  imagesize : string → option (Z * Z);
  ffprobe : string → option (list (option Z * option Z));
  ffmpeg : string → string → option string;
  (** [NamedTempFile::new] and writing to it: what is then read *)
  write_temp : string → option string;
  image : Type; decoder : Type; profile : Type; transform : Type;
  open_decoder : string → option decoder;
  icc_profile : decoder → option (option string);
  from_decoder : decoder → option image;
  orientation : string → option (option Z);
  fliph : image → image; rotate90 : image → image; rotate180 : image → image;
  rotate270 : image → image;
  width : image → Z; height : image → Z;
  has_alpha : image → bool;
  is_rgb8 : image → bool; is_rgba8 : image → bool;
  into_rgb8 : image → image; into_rgba8 : image → image;
  thumbnail : image → Z → Z → image;
  rgba_to_thumb_hash : image → list Z;
  (** an encoder by the name of its format *)
  encode : string → image → option string;
  new_icc : string → option profile;
  (** from a profile to sRGB, with or without alpha *)
  new_transform : profile → bool → option transform;
  transform_in_place : transform → image → image;
  gif_frames : string → option nat;
  png_decoder : string → option decoder;
  is_apng : decoder → option bool;
  webp_animation : string → option bool;
  decode_jxl : string → option image;
  svg : Type; pixmap : Type;
  svg_tree : string → option svg;
  svg_size : svg → Z * Z;
  new_pixmap : Z → Z → option pixmap;
  render_svg : svg → pixmap → pixmap;
  from_vec : Z → Z → pixmap → option image;
  webp_encoder : image → option image;
  webp_lossy : SpecFloat.spec_float → image → string;
  webp_lossless : image → string
}.

(** [revolt_clamav_client]: what the scanner at a host answers, and whether that says clean *)
Class ClamAV := { scan_buffer_tcp : string → string → option string; clean : string → option bool }.

(** [moka::future::Cache]: what it holds, by key *)
Class MokaCache := {
  moka : Type → Type;
  moka_empty {A} : moka A;
  moka_get {A} : string → Z → moka A → option A;
  moka_insert {A} : string → A → Z → moka A → moka A;
  moka_get_empty {A} k now : moka_get k now (moka_empty : moka A) = None;
  moka_get_insert {A} k (v : A) now c k' now' v' :
    moka_get k' now' (moka_insert k v now c) = Some v' →
    (k' = k ∧ v' = v) ∨ (k' ≠ k ∧ ∃ now'', moka_get k' now'' c = Some v')
}.

(** [axum]: whether a text can be the value of a header; [url_escape] *)
Class Axum := { header_value : string → bool; encode_component : string → string }.

(** ** State: the database and the clock, the objects by bucket and path, the requests made to the
    object store, the nonces drawn, and the cache of the service *)

Module Storage.
Section State.
Context `{MokaCache}.
Record t : Type := mk {
  world : World.t;
  objects : gmap (string * string) string;
  requests : nat;
  nonces : nat;
  S3_CACHE : moka (Result string)
}.
Definition set_world (s : t) x : t := mk x (objects s) (requests s) (nonces s) (S3_CACHE s).
Definition set_objects (s : t) x : t := mk (world s) x (requests s) (nonces s) (S3_CACHE s).
Definition set_requests (s : t) x : t := mk (world s) (objects s) x (nonces s) (S3_CACHE s).
Definition set_nonces (s : t) x : t := mk (world s) (objects s) (requests s) x (S3_CACHE s).
Definition set_cache (s : t) x : t := mk (world s) (objects s) (requests s) (nonces s) x.
End State.
End Storage.

Definition on_file_hashes {A} : FileHashesTable.T A → H A :=
  on_table ReferenceDb.file_hashes ReferenceDb.set_file_hashes.

(** [to_internal_error] and [report_internal_error!] *)
Definition internal_error {A} (o : option A) : Result A := ok_or o ErrorType.InternalError.

(** ** Encryption ([encryption_impl.rs]) *)

Section Encryption.
Context `{FilesSettings, Crypto}.

(** [EncryptionKey::create_cipher]: the key, 32 bytes in base64 *)
Definition create_cipher : Outcome unit string :=
  key ← unwrap (base64_decode (FilesConfig.encryption_key files));
  if bool_decide (String.length key = 32) then Ok key else Panicked.

Definition decrypt_buffer (buf iv : string) : Outcome unit string :=
  iv ← unwrap (base64_decode iv);
  if negb (bool_decide (String.length iv = 12)) then Panicked else
  key ← create_cipher;
  ok_or (aes256_gcm_decrypt key iv buf) tt.

(** [n] nonces were drawn before *)
Definition encrypt_buffer (n : nat) (buf : string) : Outcome unit (string * string) :=
  let iv := generate_nonce n in
  key ← create_cipher;
  buf ← ok_or (aes256_gcm_encrypt key iv buf) tt;
  Ok (buf, base64_encode iv).
End Encryption.

(** ** Objects ([s3_impl.rs] and the functions of [lib.rs] that use it) *)

Section Objects.
Context `{FilesSettings, Crypto, S3, MokaCache}.
Abbreviation A_ := (M unit Storage.t).

(** One request to the store: [effect] is what it does there. *)
Definition request {A} (effect : gmap (string * string) string →
    option A * gmap (string * string) string) : A_ A :=
  λ s,
    let n := Storage.requests s in
    let '(answer, objects) := effect (Storage.objects s) in
    let s := Storage.set_requests s (S n) in
    if answered n then (ok_or answer tt, Storage.set_objects s objects)
    else (Err tt, if applied n then Storage.set_objects s objects else s).

Definition get_object (bucket key : string) : A_ string :=
  request (λ objects, (objects !! (bucket, key), objects)).
Definition put_object (bucket key body : string) : A_ unit :=
  request (λ objects, (Some tt, <[(bucket, key) := body]> objects)).
Definition delete_object (bucket key : string) : A_ unit :=
  request (λ objects, (Some tt, delete (bucket, key) objects)).

Definition fetch_and_decrypt_file (bucket_id path iv : string) : A_ string :=
  buf ← get_object bucket_id path;
  if bool_decide (iv = "") then mret buf else lift (decrypt_buffer buf iv).

Definition encrypt_and_upload_file (bucket_id path buf : string) : A_ string :=
  n ← gets Storage.nonces;
  modify (λ s, Storage.set_nonces s (S n)) ;;
  encrypted ← lift (encrypt_buffer n buf);
  put_object bucket_id path encrypted.1 ;;
  mret encrypted.2.

Definition delete_file (bucket_id path : string) : A_ unit := delete_object bucket_id path.

(** [report_internal_error!] *)
Definition report_internal_error {A} (m : A_ A) : M ErrorType.t Storage.t A :=
  λ s, match m s with
       | (Ok a, s) => (Ok a, s)
       | (Err _, s) => (Err ErrorType.InternalError, s)
       | (Panicked, s) => (Panicked, s)
       end.

Definition fetch_from_s3 (bucket_id path iv : string) : M ErrorType.t Storage.t string :=
  report_internal_error (fetch_and_decrypt_file bucket_id path iv).
Definition upload_to_s3 (bucket_id path buf : string) : M ErrorType.t Storage.t string :=
  report_internal_error (encrypt_and_upload_file bucket_id path buf).
Definition delete_from_s3 (bucket_id path : string) : M ErrorType.t Storage.t unit :=
  report_internal_error (delete_file bucket_id path).
End Objects.

(** ** Images and videos ([media_impl.rs]) *)

Section MediaImpl.
Context `{FilesSettings, Media}.

Definition image_size (f : string) : option (Z * Z) := imagesize f.

Definition is_animated (f mime : string) : option bool :=
  if bool_decide (mime = "image/gif") then
    (λ frames, 1 <? Nat.min 2 frames)%nat <$> gif_frames f
  else if bool_decide (mime = "image/png") then d ← png_decoder f; is_apng d
  else if bool_decide (mime = "image/webp") then webp_animation f
  else Some false.

Fixpoint first_stream (streams : list (option Z * option Z)) : option (Z * Z) :=
  match streams with
  | (Some w, Some h) :: _ => Some (w, h)
  | _ :: streams => first_stream streams
  | [] => None
  end.
Definition video_size (f : string) : option (Z * Z) := streams ← ffprobe f; first_stream streams.

Definition decode_image (data mime : string) : option image :=
  if bool_decide (mime = "image/jxl") then decode_jxl data
  else if bool_decide (mime = "image/svg+xml") then
    tree ← svg_tree data;
    let '(w, h) := svg_size tree in
    canvas ← new_pixmap w h;
    from_vec w h (render_svg tree canvas)
  else d ← open_decoder data; from_decoder d.

Definition create_thumbnail (img : image) (tag : string) : Result string :=
  '(w, h) ← unwrap (FilesConfig.preview files !! tag);
  let img := thumbnail img (Z.min (width img) w) (Z.min (height img) h) in
  let img := if is_rgb8 img || is_rgba8 img then img
             else if has_alpha img then into_rgba8 img else into_rgb8 img in
  encoder ← unwrap (webp_encoder img);
  if negb (SpecFloat.SFeqb (FilesConfig.webp_quality files) (SpecFloat.S754_finite false 13107200 (-17)))
  then Ok (webp_lossy (FilesConfig.webp_quality files) encoder) else Ok (webp_lossless encoder).

(** [apply_icc_profile] of [utils.rs] *)
Definition apply_icc_profile (img : image) (icc : string) : image :=
  match new_icc icc with
  | None => img
  | Some src_profile =>
      match new_transform src_profile (has_alpha img) with
      | None => img
      | Some t =>
          transform_in_place t (if has_alpha img then into_rgba8 img else into_rgb8 img)
      end
  end.
End MediaImpl.

(** ** What a file is ([mime_type.rs], [metadata.rs]) *)

Section Types.
Context `{Media, Lowercase}.

Definition determine_mime_type (f buf file_name : string) : string :=
  if Gifbox.ends_with ".apk" (to_lowercase file_name)
  then "application/vnd.android.package-archive" else
  if Gifbox.ends_with ".exe" (to_lowercase file_name)
  then "application/vnd.microsoft.portable-executable" else
  let mime_type := default "application/octet-stream" (infer f) in
  if bool_decide (mime_type = "application/octet-stream") && utf8 buf then
    if Gifbox.ends_with ".svg" (to_lowercase file_name) then "image/svg+xml" else "plain/text"
  else mime_type.

Definition SUPPORTED_IMAGE_MIME : list string :=
  ["image/avif"; "image/bmp"; "image/gif"; "image/vnd.microsoft.icon"; "image/jpeg"; "image/jxl";
   "image/png"; "image/tiff"; "image/webp"].

(** The small picture that is shown while the image loads *)
Definition thumbhash_of (f : string) : option (list Z) :=
  d ← open_decoder f;
  let icc := mjoin (icc_profile d) in
  img ← from_decoder d;
  let img := match icc with Some icc => apply_icc_profile img icc | None => img end in
  Some (rgba_to_thumb_hash (into_rgba8 (thumbnail img 100 100))).

Definition generate_metadata (f mime_type : string) : Metadata.t :=
  if bool_decide (mime_type ∈ SUPPORTED_IMAGE_MIME) then
    match image_size f with
    | Some (w, h) =>
        Metadata.Image w h (thumbhash_of f)
          (match is_animated f mime_type with Some animated => Some animated | None => Some false end)
    | None => Metadata.File
    end
  else if String.prefix "video/" mime_type then
    match video_size f with Some (w, h) => Metadata.Video w h | None => Metadata.File end
  else if String.prefix "audio/" mime_type then Metadata.Audio
  else if bool_decide (mime_type = "plain/text") then Metadata.Text
  else Metadata.File.

(** ** Taking out private data ([exif.rs]) *)

Definition oriented (rotation : Z) (img : image) : image :=
  match rotation with
  | 2 => fliph img
  | 3 => rotate180 img
  | 4 => fliph (rotate180 img)
  | 5 => fliph (rotate90 img)
  | 6 => rotate90 img
  | 7 => fliph (rotate270 img)
  | 8 => rotate270 img
  | _ => img
  end%Z.

Definition strip_metadata (file buf : string) (metadata : Metadata.t) (mime : string) :
    Result (string * Metadata.t) :=
  match metadata with
  | Metadata.Image _ _ thumbhash animated =>
      if bool_decide (mime ∈ ["image/jpeg"; "image/png"; "image/avif"; "image/tiff"]) then
        d ← internal_error (open_decoder buf);
        icc ← internal_error (icc_profile d);
        img ← internal_error (from_decoder d);
        let rotation := default 0%Z (mjoin (orientation buf)) in
        let img := oriented rotation img in
        let img := match icc with Some icc => apply_icc_profile img icc | None => img end in
        bytes ← internal_error (encode mime img);
        Ok (bytes, Metadata.Image (width img) (height img) thumbhash animated)
      else Ok (buf, metadata)
  | Metadata.Video _ _ =>
      if bool_decide (mime ∈ ["video/mp4"; "video/webm"; "video/quicktime"]) then
        let ext := if bool_decide (mime = "video/mp4") then "mp4"
                   else if bool_decide (mime = "video/webm") then "webm" else "mov" in
        out ← internal_error (ffmpeg ext file);
        Ok (out, generate_metadata out mime)
      else Ok (buf, metadata)
  | _ => Ok (buf, metadata)
  end.
End Types.

(** ** Malware ([clamav.rs]) *)

Definition is_malware `{FilesSettings, ClamAV} (buf : string) : Result bool :=
  if bool_decide (FilesConfig.clamd_host files = "") then Ok false else
  scan_response ← internal_error (scan_buffer_tcp (FilesConfig.clamd_host files) buf);
  negb <$> internal_error (clean scan_response).

(** ** Requests and responses *)

Module Tag.
Inductive t : Type := attachments | avatars | backgrounds | icons | banners | emojis.
Definition into (tag : t) : string :=
  match tag with
  | attachments => "attachments" | avatars => "avatars" | backgrounds => "backgrounds"
  | icons => "icons" | banners => "banners" | emojis => "emojis"
  end.
#[global] Instance eq_dec : EqDecision t.
Proof. solve_decision. Defined.
End Tag.

(** A file in a form: the name it was given, and what is read of it unless reading fails *)
Module FieldData.
Record t : Type := mk { file_name : option string; contents : option string }.
End FieldData.

Module Response.
Inductive t : Type :=
| Data (content_type content_disposition : string) (body : string)
| Redirect (uri : string).
End Response.

Definition is_image (metadata : Metadata.t) : bool :=
  match metadata with Metadata.Image _ _ _ _ => true | _ => false end.

(** [AUTHENTICATION_TAG_SIZE_BYTES] *)
Definition AUTHENTICATION_TAG_SIZE_BYTES : Z := 16.

(** ** The service ([api.rs]) *)

Section Service.
Context `{Environment, HashIter, FilesSettings, Crypto, S3, Media, Lowercase, ClamAV, MokaCache, Axum}.
Abbreviation S_ := (M ErrorType.t Storage.t).

(** An operation on the database *)
Definition in_db {A} (m : H A) : S_ A :=
  λ s, let '(r, w) := m (Storage.world s) in (r, Storage.set_world s w).

Definition retrieve_file_by_hash (hash : FileHash.t) : S_ string :=
  λ s,
    match moka_get (FileHash.id hash) (World.now (Storage.world s)) (Storage.S3_CACHE s) with
    | Some data => (data, s)
    | None =>
        let '(data, s) := fetch_from_s3 (FileHash.bucket_id hash) (FileHash.path hash) (FileHash.iv hash) s in
        match data with
        | Panicked => (Panicked, s)
        | _ => (data, Storage.set_cache s
                 (moka_insert (FileHash.id hash) data (World.now (Storage.world s)) (Storage.S3_CACHE s)))
        end
    end.

(** Whether the account pays for larger attachments *)
Definition pays (now : Z) (account : option Account.t) : bool :=
  match account ≫= Account.subscription with
  | Some subscription =>
      (bool_decide (Subscription.provider subscription = "stripe") ||
       bool_decide (Subscription.provider subscription = "gift")) &&
      (now <? Subscription.active_until subscription)%Z
  | None => false
  end.

Definition size_limit (user : User.t) (tag : Tag.t) : H Z :=
  now ← clock;
  limits ← lift (user_limits now (User.id user));
  limit ← lift (unwrap (FeaturesLimits.file_upload_size_limit limits !! Tag.into tag));
  if bool_decide (tag = Tag.attachments) then
    account ← attempt (on_accounts (AccountsTable.fetch_account (User.id user)));
    mret (if pays now account then Z.max limit 2000000000 else limit)
  else mret limit.

(** What [upload_file] checks before it looks for a copy: the bytes, their type and metadata *)
Definition check_upload (user : User.t) (tag : Tag.t) (file : FieldData.t) :
    H (string * string * string * string * Metadata.t) :=
  let filename := default "unnamed-file" (FieldData.file_name file) in
  buf ← lift (internal_error (FieldData.contents file));
  let original_file_size := Z.of_nat (String.length buf) in
  if (original_file_size <? FilesConfig.min_file_size files)%Z then throw ErrorType.FileTooSmall else
  size_limit ← size_limit user tag;
  if (size_limit <? original_file_size)%Z then throw (ErrorType.FileTooLarge size_limit) else
  id ← (if bool_decide (tag = Tag.emojis) then ulid else nanoid);
  let mime_type := determine_mime_type buf buf filename in
  if bool_decide (mime_type ∈ FilesConfig.blocked_mime_types files)
  then throw ErrorType.FileTypeNotAllowed else
  let metadata := generate_metadata buf mime_type in
  if negb (bool_decide (tag = Tag.attachments)) && negb (is_image metadata)
  then throw ErrorType.FileTypeNotAllowed else
  mret (id, filename, buf, mime_type, metadata).

Definition insert_file (hash : FileHash.t) (id : string) (tag : Tag.t) (filename uploader : string) :
    H unit :=
  now ← clock;
  on_files (FilesTable.insert_attachment
    (FileHash.into_file hash now id (Tag.into tag) filename uploader)).

(** Whether the scanner has to look at a file of this type *)
Definition scanned (metadata : Metadata.t) (mime_type : string) : bool :=
  match metadata with
  | Metadata.File =>
      bool_decide (FilesConfig.scan_mime_types files = []) ||
      bool_decide (mime_type ∈ FilesConfig.scan_mime_types files)
  | _ => false
  end.

(** What remains when there is no copy that was stored *)
Definition store_upload (user : User.t) (tag : Tag.t) (file_hash_exists : bool)
    (id filename buf mime_type : string) (metadata : Metadata.t) : S_ string :=
  let original_hash := sha256 buf in
  stripped ← lift (strip_metadata buf buf metadata mime_type);
  let '(buf, metadata) := stripped in
  malware ← lift (if scanned metadata mime_type then is_malware buf else Ok false);
  if (malware : bool) then throw ErrorType.InternalError else
  created_at ← in_db clock;
  let file_hash := FileHash.mk original_hash (sha256 buf) created_at (FilesConfig.default_bucket files)
                     original_hash "" metadata mime_type
                     (Z.of_nat (String.length buf) + AUTHENTICATION_TAG_SIZE_BYTES)%Z in
  (if file_hash_exists then mret tt
   else in_db (on_file_hashes (FileHashesTable.insert_attachment_hash file_hash))) ;;
  nonce ← upload_to_s3 (FileHash.bucket_id file_hash) (FileHash.id file_hash) buf;
  in_db (on_file_hashes (FileHashesTable.set_attachment_hash_nonce (FileHash.id file_hash) nonce)) ;;
  in_db (insert_file file_hash id tag filename (User.id user)) ;;
  mret id.

(** Upload a file *)
Definition upload_file (user : User.t) (tag : Tag.t) (file : FieldData.t) : S_ string :=
  checked ← in_db (check_upload user tag file);
  let '(id, filename, buf, mime_type, metadata) := checked in
  found ← in_db (attempt (on_file_hashes (FileHashesTable.fetch_attachment_hash (sha256 buf))));
  match found with
  | Some file_hash =>
      if negb (bool_decide (FileHash.iv file_hash = "")) then
        in_db (insert_file file_hash id tag filename (User.id user)) ;; mret id
      else store_upload user tag true id filename buf mime_type metadata
  | None => store_upload user tag false id filename buf mime_type metadata
  end.

(** [file.as_hash] *)
Definition as_hash (file : File.t) : H FileHash.t :=
  hash ← lift (unwrap (File.hash file)); on_file_hashes (FileHashesTable.fetch_attachment_hash hash).

(** A file that is there for everyone: attached to something and not deleted *)
Definition served_file (tag : Tag.t) (file_id : string) : H File.t :=
  file ← on_files (FilesTable.fetch_attachment (Tag.into tag) file_id);
  if File.is_set (File.deleted file) then throw ErrorType.NotFound else
  if bool_decide (File.used_for file = None) then throw ErrorType.NotFound else mret file.

(** [Redirect::permanent(..).into_response()] *)
Definition redirect (uri : string) : S_ Response.t :=
  if header_value uri then mret (Response.Redirect uri) else panic.

Definition file_uri (tag : Tag.t) (file_id file_name : string) : string :=
  "/" +:+ Tag.into tag +:+ "/" +:+ file_id +:+ "/" +:+ file_name.

(** Whether an image is animated, and its data where that had to be read; what is found out is kept. *)
Definition animation (hash : FileHash.t) : S_ (bool * option string) :=
  match FileHash.metadata hash with
  | Metadata.Image _ _ _ (Some value) => mret (value, None)
  | Metadata.Image _ _ _ None =>
      file_data ← retrieve_file_by_hash hash;
      named_file ← lift (internal_error (write_temp file_data));
      let animated := default false (is_animated named_file (FileHash.content_type hash)) in
      in_db (on_file_hashes (FileHashesTable.set_attachment_hash_animated (FileHash.id hash) animated)) ;;
      mret (animated, Some file_data)
  | _ => mret (false, None)
  end.

(** Fetch preview of file *)
Definition fetch_preview (tag : Tag.t) (file_id : string) : S_ Response.t :=
  file ← in_db (served_file tag file_id);
  hash ← in_db (as_hash file);
  found ← animation hash;
  let '(is_animated, data) := found in
  if negb (is_image (FileHash.metadata hash)) ||
     (is_animated && negb (bool_decide (tag ∈ [Tag.avatars; Tag.icons])))
  then redirect (file_uri tag file_id (File.filename file)) else
  data ← (match data with Some data => mret data | None => retrieve_file_by_hash hash end);
  img ← lift (internal_error (decode_image data (File.content_type file)));
  data ← lift (create_thumbnail img (Tag.into tag));
  mret (Response.Data "image/webp" "inline" data).

(** Fetch original file *)
Definition fetch_file (tag : Tag.t) (file_id file_name : string) : S_ Response.t :=
  file ← in_db (served_file tag file_id);
  if bool_decide (file_name ≠ File.filename file) then
    if bool_decide (file_name = "original")
    then redirect (file_uri tag file_id (encode_component (File.filename file)))
    else throw ErrorType.NotFound
  else
    hash ← in_db (as_hash file);
    data ← retrieve_file_by_hash hash;
    mret (Response.Data (FileHash.content_type hash) "attachment" data).
End Service.

(** ** Rate limits ([ratelimits.rs]) *)

(** [path.trim_matches('/').split_terminator("/")] *)
Definition segments (path : string) : list string :=
  match Gifbox.trim_end_matches (S (String.length path)) "/" (Gifbox.trim_start path) with
  | EmptyString => []
  | s => split_at "/"%char s
  end.
Definition resolve_bucket (method path : string) : string * option string :=
  match bool_decide (method = "POST"), segments path with
  | true, [tag] => ("upload", Some tag)
  | _, _ => ("any", None)
  end.
Definition resolve_bucket_limit (bucket : string) : Outcome Empty_set Z :=
  if bool_decide (bucket = "upload") then Ok 10%Z else
  if bool_decide (bucket = "any") then Ok (2 ^ 32 - 1)%Z else Panicked.

(** ** The tasks of [crond] that delete files *)

Section FileTasks.
Context `{HashIter, FilesSettings, Crypto, S3, MokaCache}.
Abbreviation S_ := (M ErrorType.t Storage.t).

(** What of a deleted file is in the object store: the entry of its hash, and how many files
    refer to that *)
Definition references_of (hash : string) : S_ (option (FileHash.t * Z)) :=
  found ← in_db (λ w, match on_file_hashes (FileHashesTable.fetch_attachment_hash hash) w with
                      | (Ok file_hash, w) => (Ok (Some file_hash), w)
                      | (Err ErrorType.NotFound, w) => (Ok None, w)
                      | (Err error, w) => (Err error, w)
                      | (Panicked, w) => (Panicked, w)
                      end);
  match found with
  | Some file_hash =>
      count ← in_db (on_files (FilesTable.count_file_hash_references hash));
      mret (Some (file_hash, count))
  | None => mret None
  end.

(** No other file refers to what is stored: it goes. *)
Definition remove_object (found : option (FileHash.t * Z)) : S_ unit :=
  match found with
  | Some (file_hash, count) =>
      if (count <=? 1)%Z then
        delete_from_s3 (FileHash.bucket_id file_hash) (FileHash.path file_hash) ;;
        in_db (on_file_hashes (FileHashesTable.delete_attachment_hash (FileHash.id file_hash)))
      else mret tt
  | None => mret tt
  end.

(** The body of the loop over the deleted files *)
Definition remove_file (file : File.t) : S_ unit :=
  (match File.hash file with
   | Some hash => found ← references_of hash; remove_object found
   | None => mret tt
   end) ;;
  in_db (on_files (FilesTable.delete_attachment (File.id file))).

(** [file_deletion.rs]: one round *)
Definition file_deletion : S_ unit :=
  deleted ← in_db (on_files FilesTable.fetch_deleted_attachments);
  for_each deleted remove_file.

(** [prune_dangling_files.rs]: one round; nothing was done with the file for an hour *)
Definition stale (now : Z) (file : File.t) : bool :=
  match File.uploaded_at file with
  | Some uploaded_at => (60 * 60 * 10 ^ 9 <? now - uploaded_at)%Z
  | None => false
  end.
Definition prune_dangling_files : S_ unit :=
  dangling ← in_db (on_files FilesTable.fetch_dangling_files);
  now ← in_db clock;
  let file_ids := File.id <$> List.filter (stale now) dangling in
  if bool_decide (file_ids = []) then mret tt
  else in_db (on_files (FilesTable.mark_attachments_as_deleted file_ids)).
End FileTasks.
