(* ===== verification/AutumnTheorems.v ===== *)
(** * What the file service promises

    A file that was uploaded keeps its content until it is marked as deleted, whatever uploads,
    previews, downloads and rounds of the tasks come between; who downloads it gets that content;
    and what can be uploaded. Copies share one object, so this rests on an invariant between the
    files, the hashes and the objects in the buckets. *)

From stdpp Require Import base list gmap strings.
From stdpp Require Import relations.
From Stdlib Require Import ZArith Lia Ascii.
From S2P Require Import Prelude Errors Files Users Config Accounts Platform World Database References Autumn.

Definition file_table `{MokaCache} (s : Storage.t) : FilesTable.table :=
  ReferenceDb.files (World.db (Storage.world s)).
Definition hash_table `{MokaCache} (s : Storage.t) : FileHashesTable.table :=
  ReferenceDb.file_hashes (World.db (Storage.world s)).

(** ** Tables *)

Section Counting.
Context `{HashIter}.

Lemma count_references_two (hash : string) (files : FilesTable.table) i j f g :
  files !! i = Some f → files !! j = Some g → i ≠ j →
  File.hash f = Some hash → File.hash g = Some hash →
  ∃ n, FilesTable.count_file_hash_references hash files = (Ok n, files) ∧ (2 ≤ n)%Z.
Proof.
  intros Hi Hj Hne Hf Hg. unfold FilesTable.count_file_hash_references, table_select, hash_values.
  eexists. split; [done|].
  assert (hash_iter files ≡ₚ (i, f) :: (j, g) :: map_to_list (delete j (delete i files))) as Hperm.
  { rewrite hash_iter_perm. rewrite <-(insert_delete_id files i f) at 1 by done.
    rewrite map_to_list_insert by apply lookup_delete_eq. constructor.
    rewrite <-(insert_delete_id (delete i files) j g) at 1 by by rewrite lookup_delete_ne.
    by rewrite map_to_list_insert by apply lookup_delete_eq. }
  assert (∀ P (l k : list File.t), l ≡ₚ k → length (List.filter P l) = length (List.filter P k)) as Hlen.
  { intros P l k. induction 1 as [|x l k _ IH|x y l|l k m _ IH _ IH']; simpl; try lia.
    - destruct (P x); simpl; lia.
    - destruct (P x), (P y); done. }
  rewrite (Hlen _ _ _ (fmap_Permutation snd _ _ Hperm)). cbn -[Z.of_nat].
  rewrite !bool_decide_eq_true_2 by done. cbn -[Z.of_nat]. lia.
Qed.
End Counting.

Section Invariant.
Context `{HashIter, FilesSettings, Crypto, MokaCache}.

(** [c] is the encryption of [d] under the key of the service, with the nonce that [iv] encodes. *)
Definition sealed (c iv d : string) : Prop :=
  ∃ key nonce, base64_decode (FilesConfig.encryption_key files) = Some key ∧ String.length key = 32 ∧
    String.length nonce = 12 ∧ iv = base64_encode nonce ∧ aes256_gcm_encrypt key nonce d = Some c.

(** The object of a hash is the encryption of [d]. *)
Definition stored (s : Storage.t) (e : FileHash.t) (d : string) : Prop :=
  ∃ c, Storage.objects s !! (FileHash.bucket_id e, FileHash.path e) = Some c ∧ sealed c (FileHash.iv e) d.

(** Decrypting undoes encrypting, and encrypting encrypts. *)
Lemma sealed_decrypts c iv d : sealed c iv d → decrypt_buffer c iv = Ok d.
Proof.
  intros (key & nonce & Hkey & Hlen & Hnonce & -> & Henc). unfold decrypt_buffer, create_cipher.
  rewrite base64_round, Hkey. cbn. rewrite !bool_decide_eq_true_2 by done. cbn.
  by rewrite (aes256_gcm_round _ _ _ _ Henc).
Qed.
Lemma encrypt_seals n buf c iv : encrypt_buffer n buf = Ok (c, iv) → iv ≠ "" ∧ sealed c iv buf.
Proof.
  unfold encrypt_buffer. destruct create_cipher as [key| |] eqn:Hcipher; try done. cbn.
  destruct (aes256_gcm_encrypt _ _ _) as [cipher|] eqn:Henc; [|done]. cbn. intros [= <- <-].
  unfold create_cipher in Hcipher. destruct (base64_decode _) as [k|] eqn:Hkey; [|done]. cbn in Hcipher.
  case_bool_decide as Hlen; [|done]. injection Hcipher as ->. split.
  - intros Hnil. pose proof (base64_round (generate_nonce n)) as Hround.
    rewrite Hnil, <-base64_nil, base64_round in Hround. injection Hround as Hround.
    pose proof (nonce_length n) as Hl. by rewrite <-Hround in Hl.
  - exists key, (generate_nonce n). split_and!; [done|done|apply nonce_length|done|done].
Qed.

(** The content of a file *)
Definition content (s : Storage.t) (i d : string) : Prop :=
  ∃ f h e, file_table s !! i = Some f ∧ File.hash f = Some h ∧ hash_table s !! h = Some e ∧
    FileHash.iv e ≠ "" ∧ stored s e d.

(** The task that deletes files will take this one. *)
Definition doomed (s : Storage.t) (i : string) : Prop :=
  ∃ f, file_table s !! i = Some f ∧ File.is_set (File.deleted f) = true ∧
    File.is_set (File.reported f) = false.

(** Files and hashes are under their ids; each hash that has a nonce has an object it decrypts; each
    file has such a hash; the hash of what is stored under one entry is not the id of another;
    what the cache holds for an entry is what is stored. *)
Record consistent (s : Storage.t) : Prop := {
  files_keyed i f : file_table s !! i = Some f → File.id f = i;
  hashes_keyed k e : hash_table s !! k = Some e →
    FileHash.id e = k ∧ FileHash.path e = k ∧ FileHash.bucket_id e = FilesConfig.default_bucket files;
  hashes_stored k e : hash_table s !! k = Some e → FileHash.iv e ≠ "" → ∃ d, stored s e d;
  files_hashed i f h : file_table s !! i = Some f → File.hash f = Some h →
    ∃ e, hash_table s !! h = Some e ∧ FileHash.iv e ≠ "";
  hashes_distinct k e k' e' : hash_table s !! k = Some e → hash_table s !! k' = Some e' →
    FileHash.processed_hash e = k' → k = k';
  cache_coherent k now d e : moka_get k now (Storage.S3_CACHE s) = Some (Ok d) →
    hash_table s !! k = Some e → FileHash.iv e ≠ "" → stored s e d;
  cache_answers k now : moka_get k now (Storage.S3_CACHE s) ≠ Some Panicked
}.

(** A step that keeps the invariant, and the content of the files that are not deleted *)
Definition retains (s s' : Storage.t) : Prop :=
  consistent s → consistent s' ∧
    ∀ i, ¬ doomed s i → ¬ doomed s' i ∧ ∀ d, content s i d → content s' i d.

Lemma retains_refl s : retains s s.
Proof. done. Qed.
Lemma retains_trans s t u : retains s t → retains t u → retains s u.
Proof.
  intros Hst Htu Hs. destruct (Hst Hs) as [Ht Hkeep]. destruct (Htu Ht) as [Hu Hkeep'].
  split; [done|]. intros i Hi. destruct (Hkeep i Hi) as [Hi' Hc]. destruct (Hkeep' i Hi') as [? Hc'].
  split; [done|]. intros d Hd. by apply Hc', Hc.
Qed.

Lemma stored_fun s e d d' : stored s e d → stored s e d' → d = d'.
Proof.
  intros (c & Hc & Hd%sealed_decrypts) (c' & Hc' & Hd'%sealed_decrypts). congruence.
Qed.

(** *** Steps that change one part *)

Definition with_files (s : Storage.t) x : Storage.t :=
  Storage.set_world s (World.set_db (Storage.world s)
    (ReferenceDb.set_files (World.db (Storage.world s)) x)).
Definition with_hashes (s : Storage.t) x : Storage.t :=
  Storage.set_world s (World.set_db (Storage.world s)
    (ReferenceDb.set_file_hashes (World.db (Storage.world s)) x)).

Lemma in_files {A} (m : FilesTable.T A) s :
  in_db (on_files m) s = ((m (file_table s)).1, with_files s (m (file_table s)).2).
Proof.
  unfold in_db, on_files, on_table, file_table, with_files.
  by destruct (m (ReferenceDb.files (World.db (Storage.world s)))).
Qed.
Lemma in_hashes {A} (m : FileHashesTable.T A) s :
  in_db (on_file_hashes m) s = ((m (hash_table s)).1, with_hashes s (m (hash_table s)).2).
Proof.
  unfold in_db, on_file_hashes, on_table, hash_table, with_hashes.
  by destruct (m (ReferenceDb.file_hashes (World.db (Storage.world s)))).
Qed.

(** Only what the invariant reads matters. *)
Lemma retains_same s s' :
  file_table s' = file_table s → hash_table s' = hash_table s →
  Storage.objects s' = Storage.objects s → Storage.S3_CACHE s' = Storage.S3_CACHE s → retains s s'.
Proof.
  intros Hf Hh Ho Hc [].
  assert (∀ e d, stored s' e d ↔ stored s e d) as Hst by (intros e d; unfold stored; by rewrite Ho).
  split.
  - split; rewrite ?Hf, ?Hh, ?Hc; try done.
    + intros k e Hk Hiv. destruct (hashes_stored0 k e Hk Hiv) as [d Hd]. exists d. by apply Hst.
    + intros k now d e Hk He Hiv. apply Hst. eauto.
  - intros i Hi. unfold doomed, content. rewrite Hf, Hh. split; [done|].
    intros d (f & h & e & ? & ? & ? & ? & ?). exists f, h, e. by rewrite Hst.
Qed.

(** Rewriting a file without touching its hash, or adding one whose hash is usable *)
Lemma retains_insert_file s i f :
  File.id f = i →
  (∀ h, File.hash f = Some h → ∃ e, hash_table s !! h = Some e ∧ FileHash.iv e ≠ "") →
  (∀ f', file_table s !! i = Some f' → File.hash f' = File.hash f) →
  (∀ f', file_table s !! i = Some f' → File.is_set (File.deleted f) = true →
    File.is_set (File.reported f) = false →
    File.is_set (File.deleted f') = true ∧ File.is_set (File.reported f') = false) →
  (file_table s !! i = None → File.is_set (File.deleted f) = false) →
  retains s (with_files s (<[i := f]> (file_table s))).
Proof.
  intros Hid Hhash Hold Hdoom Hnew []. set (s' := with_files _ _).
  split.
  - split; try done; change (file_table s') with (<[i := f]> (file_table s)).
    + intros j g [[<- <-]|[_ ?]]%lookup_insert_Some; auto.
    + intros j g h [[<- <-]|[_ ?]]%lookup_insert_Some ?; [by apply Hhash|by eapply files_hashed0].
  - intros j Hj. split.
    + intros (g & Hg & Hdel & Hrep). change (file_table s') with (<[i := f]> (file_table s)) in Hg.
      apply lookup_insert_Some in Hg as [[<- <-]|[_ Hg]]; [|by apply Hj; exists g].
      destruct (file_table s !! i) as [f'|] eqn:Hf'.
      * destruct (Hdoom f' eq_refl Hdel Hrep). apply Hj. by exists f'.
      * rewrite Hnew in Hdel; done.
    + intros d (g & h & e & Hg & Hh & He & Hst). destruct (decide (i = j)) as [<-|Hne].
      * exists f, h, e. split; [apply lookup_insert_eq|]. rewrite <-(Hold g Hg). done.
      * exists g, h, e. split; [|done]. by apply lookup_insert_Some; right.
Qed.

(** An object under a key no usable hash has *)
Lemma retains_put s k c :
  (∀ e, hash_table s !! k = Some e → FileHash.iv e = "") →
  retains s (Storage.set_objects s (<[(FilesConfig.default_bucket files, k) := c]> (Storage.objects s))).
Proof.
  intros Hunused Hs. pose proof Hs as [].
  set (s' := Storage.set_objects _ _).
  assert (∀ k' e d, hash_table s !! k' = Some e → FileHash.iv e ≠ "" → stored s e d → stored s' e d) as Hst.
  { intros k' e d He Hiv (c' & Hc' & Hd). exists c'. split; [|done].
    apply lookup_insert_Some. right. split; [|done]. intros [= _ Hpath].
    destruct (hashes_keyed0 k' e He) as (_ & Hp & _). rewrite Hp in Hpath. subst k'.
    by rewrite (Hunused e He) in Hiv. }
  split.
  - split; try done.
    + intros k' e He Hiv. destruct (hashes_stored0 k' e He Hiv) as [d Hd]. exists d. by eapply Hst.
    + intros k' now d e Hk He Hiv. eapply Hst; [done..|]. by eapply cache_coherent0.
  - intros i Hi. split; [done|]. intros d (f & h & e & ? & ? & ? & ? & ?). exists f, h, e.
    split_and!; [done..|]. by eapply Hst.
Qed.

(** A new hash that has no object yet *)
Lemma retains_insert_hash s k n :
  hash_table s !! k = None → FileHash.id n = k → FileHash.path n = k →
  FileHash.bucket_id n = FilesConfig.default_bucket files → FileHash.iv n = "" →
  (∀ k' e, hash_table s !! k' = Some e → FileHash.processed_hash e ≠ k) →
  (∀ e, hash_table s !! FileHash.processed_hash n ≠ Some e) →
  retains s (with_hashes s (<[k := n]> (hash_table s))).
Proof.
  intros Hnone Hid Hpath Hbucket Hiv Hproc Hproc' Hs. pose proof Hs as [].
  assert (∀ k' e, <[k := n]> (hash_table s) !! k' = Some e → FileHash.iv e ≠ "" →
    hash_table s !! k' = Some e) as Hold.
  { intros k' e [[<- <-]|[_ ?]]%lookup_insert_Some ?; done. }
  assert (∀ k' e, hash_table s !! k' = Some e → <[k := n]> (hash_table s) !! k' = Some e) as Hkeep.
  { intros k' e He. rewrite lookup_insert_ne; [done|]. intros <-. by rewrite Hnone in He. }
  set (s' := with_hashes _ _). split.
  - split; try done; change (hash_table s') with (<[k := n]> (hash_table s)).
    + intros k' e [[<- <-]|[_ ?]]%lookup_insert_Some; auto.
    + intros k' e He Hne. by apply (hashes_stored0 k'); [apply Hold|].
    + intros i f h Hf Hh. destruct (files_hashed0 i f h Hf Hh) as (e & He & Hne).
      exists e. split; [by apply Hkeep|done].
    + intros k1 e1 k2 e2 H1' H2' Hp. apply lookup_insert_Some in H1' as [[<- <-]|[Hne1 H1']],
        H2' as [[<- <-]|[Hne2 H2']]; subst; try done.
      * by apply Hproc' in H2'.
      * by apply Hproc in H1'.
      * by eapply hashes_distinct0.
    + intros k' now d e Hk He Hne. eapply cache_coherent0; [done|by apply Hold|done].
  - intros i Hi. split; [done|]. intros d (f & h & e & ? & ? & ? & ?). exists f, h, e.
    split_and!; try done; [|naive_solver..]. by apply Hkeep.
Qed.

(** The nonce of an object that was just stored *)
Lemma retains_set_nonce s k e c iv d :
  hash_table s !! k = Some e → FileHash.iv e = "" → iv ≠ "" →
  Storage.objects s !! (FilesConfig.default_bucket files, k) = Some c →
  sealed c iv d →
  (∀ now d', moka_get k now (Storage.S3_CACHE s) ≠ Some (Ok d')) →
  retains s (with_hashes s (<[k := FileHash.set_iv e iv]> (hash_table s))).
Proof.
  intros He Hempty Hiv Hc Hd Hcold Hs. pose proof Hs as [].
  destruct (hashes_keyed0 k e He) as (Hid & Hpath & Hbucket).
  set (s' := with_hashes _ _).
  assert (stored s' (FileHash.set_iv e iv) d) as Hnew.
  { exists c. cbn. by rewrite Hpath, Hbucket. }
  assert (∀ i f h, file_table s !! i = Some f → File.hash f = Some h → h ≠ k) as Hfiles.
  { intros i f h Hf Hh ->. destruct (files_hashed0 i f k Hf Hh) as (e' & He' & Hne). congruence. }
  split.
  - split; try done; change (hash_table s') with (<[k := FileHash.set_iv e iv]> (hash_table s)).
    + intros k' e' [[<- <-]|[_ ?]]%lookup_insert_Some; auto.
    + intros k' e' [[<- <-]|[_ ?]]%lookup_insert_Some ?; [by eexists|by eapply hashes_stored0].
    + intros i f h Hf Hh. destruct (files_hashed0 i f h Hf Hh) as (e' & He' & Hne).
      exists e'. split; [|done]. rewrite lookup_insert_ne; [done|]. intros <-. by eapply Hfiles.
    + intros k1 e1 k2 e2 H1' H2' Hp.
      assert (∃ e1', hash_table s !! k1 = Some e1' ∧ FileHash.processed_hash e1' = k2) as (e1' & ? & ?).
      { apply lookup_insert_Some in H1' as [[<- <-]|[_ ?]]; eauto. }
      assert (∃ e2', hash_table s !! k2 = Some e2') as (e2' & ?).
      { apply lookup_insert_Some in H2' as [[<- <-]|[_ ?]]; eauto. }
      by eapply hashes_distinct0.
    + intros k' now d' e' Hk [[<- <-]|[_ He']]%lookup_insert_Some Hne.
      * by apply Hcold in Hk.
      * by eapply cache_coherent0.
  - intros i Hi. split; [done|]. intros d' (f & h & e' & Hf & Hh & He' & ?). exists f, h, e'.
    split_and!; try done; [|naive_solver..].
    change (hash_table s') with (<[k := FileHash.set_iv e iv]> (hash_table s)).
    rewrite lookup_insert_ne; [done|]. intros <-. by eapply Hfiles.
Qed.

(** What is known of the animation of an image *)
Lemma retains_set_metadata s k e x :
  hash_table s !! k = Some e →
  retains s (with_hashes s (<[k := FileHash.set_metadata e x]> (hash_table s))).
Proof.
  intros He Hs. pose proof Hs as [].
  assert (∀ k' e', <[k := FileHash.set_metadata e x]> (hash_table s) !! k' = Some e' →
    ∃ e'', hash_table s !! k' = Some e'' ∧ FileHash.id e'' = FileHash.id e' ∧
      FileHash.path e'' = FileHash.path e' ∧ FileHash.bucket_id e'' = FileHash.bucket_id e' ∧
      FileHash.iv e'' = FileHash.iv e' ∧ FileHash.processed_hash e'' = FileHash.processed_hash e') as Hback.
  { intros k' e' [[<- <-]|[_ ?]]%lookup_insert_Some; eauto 10. }
  assert (∀ k' e', hash_table s !! k' = Some e' →
    ∃ e'', <[k := FileHash.set_metadata e x]> (hash_table s) !! k' = Some e'' ∧
      FileHash.path e'' = FileHash.path e' ∧ FileHash.bucket_id e'' = FileHash.bucket_id e' ∧
      FileHash.iv e'' = FileHash.iv e') as Hforth.
  { intros k' e' He'. destruct (decide (k = k')) as [<-|Hne].
    - rewrite lookup_insert_eq. eexists. split; [done|]. by simplify_eq.
    - rewrite lookup_insert_ne by done. eauto 10. }
  set (s' := with_hashes _ _). split.
  - split; try done; change (hash_table s') with (<[k := FileHash.set_metadata e x]> (hash_table s)).
    + intros k' e' (e'' & ? & <- & <- & <- & _)%Hback. by apply hashes_keyed0.
    + intros k' e' (e'' & He'' & _ & Hp & Hb & Hi & _)%Hback. unfold stored. cbn.
      rewrite <-Hp, <-Hb, <-Hi. by apply (hashes_stored0 k').
    + intros i f h Hf Hh. destruct (files_hashed0 i f h Hf Hh) as (e' & (e'' & ? & _ & _ & Hi)%Hforth & Hne).
      exists e''. by rewrite Hi.
    + intros k1 e1 k2 e2 (? & ? & _ & _ & _ & _ & <-)%Hback (? & ? & _)%Hback. by eapply hashes_distinct0.
    + intros k' now d e' Hk (e'' & He'' & _ & Hp & Hb & Hi & _)%Hback. unfold stored. cbn.
      rewrite <-Hp, <-Hb, <-Hi. by apply (cache_coherent0 k' now).
  - intros i Hi. split; [done|].
    intros d (f & h & e' & Hf & Hh & (e'' & He'' & Hp & Hb & Hiv)%Hforth & Hne & Hst).
    exists f, h, e''. split_and!; try done.
    + by rewrite Hiv.
    + unfold stored in *. cbn. by rewrite Hp, Hb, Hiv.
Qed.

(** What is kept in the cache *)
Lemma retains_cache s k r now :
  r ≠ Panicked →
  (∀ d e, r = Ok d → hash_table s !! k = Some e → FileHash.iv e ≠ "" → stored s e d) →
  retains s (Storage.set_cache s (moka_insert k r now (Storage.S3_CACHE s))).
Proof.
  intros Hanswer Hr Hs. pose proof Hs as []. split; [|done]. split; try done.
  - intros k' now' d e [[-> <-]|[_ [now'' Hk]]]%moka_get_insert He Hne.
    + by apply Hr.
    + by eapply cache_coherent0.
  - intros k' now' [[_ Hp]|[_ [now'' Hk]]]%moka_get_insert; [done|]. by eapply cache_answers0.
Qed.
End Invariant.

Section Operations.
Context `{Environment, HashIter, FilesSettings, Crypto, S3, Media, Lowercase, ClamAV, MokaCache, Axum}.

(** *** Runs of the parts *)

Lemma retains_bind {A B} (m : M ErrorType.t Storage.t A) (k : A → M ErrorType.t Storage.t B) s :
  retains s (m s).2 → (∀ a, (m s).1 = Ok a → retains (m s).2 (k a (m s).2).2) →
  retains s ((m ≫= k) s).2.
Proof.
  intros Hm Hk. rewrite M_bind_unfold. destruct (m s) as [[a| |] s'] eqn:Hrun; [|done..].
  eapply retains_trans; [done|]. by apply Hk.
Qed.

Lemma in_db_reads {A} (m : H A) s : reads m → (in_db m s).2 = s.
Proof.
  intros Hm. unfold in_db. specialize (Hm (Storage.world s)). destruct (m _) as [r w].
  simpl in *. subst w. by destruct s.
Qed.

Lemma retains_reads {A B} (m : H A) (k : A → M ErrorType.t Storage.t B) s :
  reads m → (∀ a, m (Storage.world s) = (Ok a, Storage.world s) → retains s (k a s).2) →
  retains s ((in_db m ≫= k) s).2.
Proof.
  intros Hm Hk. pose proof (in_db_reads m s Hm) as Hs. rewrite M_bind_unfold.
  destruct (in_db m s) as [[a| |] s'] eqn:Hrun; simpl in Hs; subst s'; [|apply retains_refl..].
  apply Hk. unfold in_db in Hrun. specialize (Hm (Storage.world s)).
  destruct (m (Storage.world s)) as [r w]. simpl in *. subst w. congruence.
Qed.

Lemma upload_run bucket path buf s :
  let '(r, s') := upload_to_s3 bucket path buf s in
  Storage.world s' = Storage.world s ∧ Storage.S3_CACHE s' = Storage.S3_CACHE s ∧
  (Storage.objects s' = Storage.objects s ∨
   ∃ c, Storage.objects s' = <[(bucket, path) := c]> (Storage.objects s)) ∧
  ∀ iv, r = Ok iv → iv ≠ "" ∧ ∃ c,
    Storage.objects s' = <[(bucket, path) := c]> (Storage.objects s) ∧ sealed c iv buf.
Proof.
  unfold upload_to_s3, report_internal_error, encrypt_and_upload_file.
  rewrite !M_bind_unfold. cbn [gets modify]. rewrite M_bind_unfold. cbn [modify].
  rewrite M_bind_unfold. cbn [lift].
  destruct (encrypt_buffer (Storage.nonces s) buf) as [[c iv]| |] eqn:Henc;
    [|split_and!; naive_solver..].
  apply encrypt_seals in Henc as [Hiv Hdec]. rewrite M_bind_unfold. cbn [fst snd].
  unfold put_object, request. cbn.
  destruct (answered (Storage.requests s)); cbn; [naive_solver|].
  destruct (applied (Storage.requests s)); cbn; split_and!; naive_solver.
Qed.

Lemma fetch_run e s :
  let '(r, s') := fetch_from_s3 (FileHash.bucket_id e) (FileHash.path e) (FileHash.iv e) s in
  Storage.world s' = Storage.world s ∧ Storage.objects s' = Storage.objects s ∧
  Storage.S3_CACHE s' = Storage.S3_CACHE s ∧
  (FileHash.iv e ≠ "" → ∀ d, stored s e d →
    (r = Ok d ∨ r = Err ErrorType.InternalError) ∧ (answered (Storage.requests s) = true → r = Ok d)).
Proof.
  unfold fetch_from_s3, report_internal_error, fetch_and_decrypt_file. rewrite M_bind_unfold.
  unfold get_object, request. destruct (answered (Storage.requests s)); cbn.
  - destruct (Storage.objects s !! _) as [buf|] eqn:Hbuf; cbn.
    + case_bool_decide as Hiv; cbn; [split_and!; done|].
      destruct (decrypt_buffer buf (FileHash.iv e)) as [d'| |] eqn:Hd; cbn; split_and!; try done;
        intros _ d (c & Hc & Hd'%sealed_decrypts); simplify_eq; split_and!; naive_solver congruence.
    + split_and!; try done. intros _ d (c & Hc & _). congruence.
  - assert ((if applied (Storage.requests s) then Storage.set_objects
      (Storage.set_requests s (S (Storage.requests s))) (Storage.objects s)
      else Storage.set_requests s (S (Storage.requests s))) =
      Storage.set_requests s (S (Storage.requests s))) as -> by by destruct (applied _).
    cbn. split_and!; try done. intros _ d _. split; [by right|done].
Qed.

(** *** Looking for a hash *)

Lemma fetch_hash_inv hash hs e hs' :
  FileHashesTable.fetch_attachment_hash hash hs = (Ok e, hs') →
  hs' = hs ∧ ∃ k, hs !! k = Some e ∧ (FileHash.id e = hash ∨ FileHash.processed_hash e = hash).
Proof.
  unfold FileHashesTable.fetch_attachment_hash. destruct (List.find _ _) as [e'|] eqn:Hfind; [|done].
  cbn. intros [= <- <-]. split; [done|]. apply List.find_some in Hfind as [Hin Htest].
  apply list_elem_of_In in Hin. unfold hash_values in Hin.
  apply list_elem_of_fmap in Hin as ([k e] & -> & Hin). apply elem_of_hash_iter in Hin.
  exists k. split; [done|]. apply orb_prop in Htest as [Ht|Ht]; apply bool_decide_eq_true in Ht; auto.
Qed.

Lemma fetch_hash_none hash hs r hs' :
  FileHashesTable.fetch_attachment_hash hash hs = (r, hs') → (∀ e, r ≠ Ok e) →
  hs' = hs ∧ r = Err ErrorType.NotFound ∧
  ∀ k e, hs !! k = Some e → FileHash.id e ≠ hash ∧ FileHash.processed_hash e ≠ hash.
Proof.
  unfold FileHashesTable.fetch_attachment_hash. destruct (List.find _ _) as [e'|] eqn:Hfind; cbn.
  { intros [= <- <-] Hno. by destruct (Hno e'). }
  intros [= <- <-] _. split_and!; [done..|]. intros k e He.
  assert (e ∈ hash_values hs) as Hin.
  { unfold hash_values. apply list_elem_of_fmap. exists (k, e). split; [done|].
    by apply elem_of_hash_iter. }
  apply list_elem_of_In in Hin. apply (List.find_none _ _ Hfind) in Hin.
  apply orb_false_elim in Hin as [Ha%bool_decide_eq_false Hb%bool_decide_eq_false]. done.
Qed.

(** In a consistent state the hash of a file is found, and not another. *)
Lemma fetch_hash_found s k e :
  consistent s → hash_table s !! k = Some e →
  FileHashesTable.fetch_attachment_hash k (hash_table s) = (Ok e, hash_table s).
Proof.
  intros [] He. destruct (FileHashesTable.fetch_attachment_hash k (hash_table s)) as [[e'| |] hs] eqn:Hf.
  - apply fetch_hash_inv in Hf as (-> & k' & Hk' & Hor). f_equal. f_equal.
    destruct (hashes_keyed0 k' e' Hk') as (Hid & _). destruct Hor as [Hor|Hor].
    + congruence.
    + rewrite (hashes_distinct0 k' e' k e Hk' He Hor) in Hk'. congruence.
  - apply fetch_hash_none in Hf as (_ & _ & Hf); [|done].
    destruct (Hf k e He) as [Hne _]. by destruct (hashes_keyed0 k e He).
  - apply fetch_hash_none in Hf as (_ & _ & Hf); [|done].
    destruct (Hf k e He) as [Hne _]. by destruct (hashes_keyed0 k e He).
Qed.

(** *** Reading what is stored *)

Lemma retrieve_retains s k e :
  hash_table s !! k = Some e → FileHash.iv e ≠ "" → retains s (retrieve_file_by_hash e s).2.
Proof.
  intros He Hiv Hs. unfold retrieve_file_by_hash. destruct (moka_get _ _ _) as [data|]; [by split|].
  pose proof (fetch_run e s) as Hrun.
  destruct (fetch_from_s3 _ _ _ s) as [r s'] eqn:Hfetch. destruct Hrun as (Hw & Ho & Hc & Hd).
  assert (retains s s') as Hsame by (apply retains_same; unfold file_table, hash_table; congruence).
  destruct (hashes_keyed s Hs k e He) as (Hid & _).
  assert (r ≠ Panicked → retains s (Storage.set_cache s'
    (moka_insert (FileHash.id e) r (World.now (Storage.world s')) (Storage.S3_CACHE s')))) as Hok.
  { intros Hanswer. eapply retains_trans; [done|]. apply retains_cache; [done|]. intros d e' -> He' _.
    assert (e' = e) as -> by (unfold hash_table in *; rewrite Hw in He'; congruence).
    destruct (hashes_stored s Hs k e He Hiv) as [d' Hst].
    destruct (Hd Hiv d' Hst) as [[[= ->]|?] _]; [|done]. unfold stored in *. by rewrite Ho. }
  destruct r as [d| |]; [by apply Hok..|]. by apply Hsame.
Qed.

(** What is read is what is stored, or there is an error. *)
Lemma retrieve_content s k e d :
  consistent s → hash_table s !! k = Some e → FileHash.iv e ≠ "" → stored s e d →
  match (retrieve_file_by_hash e s).1 with Ok d' => d' = d | Err _ => True | Panicked => False end ∧
  ((∀ now, moka_get k now (Storage.S3_CACHE s) = None) → answered (Storage.requests s) = true →
    (retrieve_file_by_hash e s).1 = Ok d).
Proof.
  intros Hs He Hiv Hst. unfold retrieve_file_by_hash.
  destruct (hashes_keyed s Hs k e He) as (Hid & _). rewrite Hid.
  destruct (moka_get k _ _) as [data|] eqn:Hcache; cbn.
  - split; [|by intros Hnone; rewrite Hnone in Hcache]. destruct data as [d'| |]; [|done|by eapply cache_answers].
    eapply stored_fun; [by eapply cache_coherent|done].
  - pose proof (fetch_run e s) as Hrun.
    destruct (fetch_from_s3 _ _ _ s) as [r s'] eqn:Hfetch. destruct Hrun as (_ & _ & _ & Hd).
    destruct (Hd Hiv d Hst) as [Hr Ha]. destruct r; cbn; naive_solver.
Qed.

(** *** Uploads *)

(** The bytes are new, then nothing is left of them in the cache, and what they become is not the
    original of something else. *)
Definition unmistaken (s : Storage.t) (buf : string) : Prop :=
  (∀ e, hash_table s !! sha256 buf = Some e → FileHash.iv e = "") →
  (∀ now d, moka_get (sha256 buf) now (Storage.S3_CACHE s) ≠ Some (Ok d)) ∧
  ∀ mime data metadata,
    strip_metadata buf buf (generate_metadata buf mime) mime = Ok (data, metadata) →
    hash_table s !! sha256 buf = None → hash_table s !! sha256 data = None.

Lemma insert_file_run hash id tag filename uploader s :
  in_db (insert_file hash id tag filename uploader) s =
    match file_table s !! id with
    | Some _ => (Err (create_database_error "insert" "attachment"), s)
    | None => (Ok tt, with_files s (<[id := FileHash.into_file hash (World.now (Storage.world s)) id
                                            (Tag.into tag) filename uploader]> (file_table s)))
    end.
Proof.
  unfold insert_file, in_db. rewrite M_bind_unfold. cbn.
  unfold on_files, on_table, FilesTable.insert_attachment, table_insert, file_table, with_files. cbn.
  destruct (ReferenceDb.files _ !! id); [|done]. f_equal. destruct s as [[[]]]. done.
Qed.

Lemma insert_file_retains hash id tag filename uploader s e :
  hash_table s !! FileHash.id hash = Some e → FileHash.iv e ≠ "" →
  retains s (in_db (insert_file hash id tag filename uploader) s).2.
Proof.
  intros He Hiv. rewrite insert_file_run. destruct (file_table s !! id) as [f|] eqn:Hf; [done|].
  apply retains_insert_file; try congruence; try done. intros h [= <-]. eauto.
Qed.

(** What was stored is there. *)
Lemma insert_file_content hash id tag filename uploader s e d s' u :
  in_db (insert_file hash id tag filename uploader) s = (Ok u, s') →
  hash_table s !! FileHash.id hash = Some e → FileHash.iv e ≠ "" → stored s e d → content s' id d.
Proof.
  rewrite insert_file_run. destruct (file_table s !! id); [done|]. intros [= _ <-] He Hiv Hd.
  eexists _, (FileHash.id hash), e. split; [apply lookup_insert_eq|]. done.
Qed.

(** The entry of an upload while its object is on the way *)
Definition pending (s : Storage.t) (hash : string) : Prop :=
  (∀ now d, moka_get hash now (Storage.S3_CACHE s) ≠ Some (Ok d)) ∧
  (∀ e, hash_table s !! hash = Some e → FileHash.iv e = "").

(** Storing the object and committing its nonce, and then the file *)
Definition commit_upload (user : User.t) (tag : Tag.t) (file_hash : FileHash.t)
    (id filename buf : string) : M ErrorType.t Storage.t string :=
  nonce ← upload_to_s3 (FileHash.bucket_id file_hash) (FileHash.id file_hash) buf;
  in_db (on_file_hashes (FileHashesTable.set_attachment_hash_nonce (FileHash.id file_hash) nonce)) ;;
  in_db (insert_file file_hash id tag filename (User.id user)) ;;
  mret id.

Lemma commit_upload_retains user tag file_hash id filename buf s :
  FileHash.bucket_id file_hash = FilesConfig.default_bucket files →
  pending s (FileHash.id file_hash) →
  let '(r, s') := commit_upload user tag file_hash id filename buf s in
  retains s s' ∧ (consistent s → ∀ i, r = Ok i → i = id ∧ content s' id buf).
Proof.
  intros Hbucket [Hcold Hempty]. set (k := FileHash.id file_hash) in *. unfold commit_upload.
  rewrite M_bind_unfold. pose proof (upload_run (FileHash.bucket_id file_hash) k buf s) as Hrun.
  destruct (upload_to_s3 _ _ _ s) as [r s1] eqn:Hup. destruct Hrun as (Hw & Hcache & Ho & Hiv).
  assert (retains s s1) as Hput.
  { destruct Ho as [Ho|[c Ho]].
    - apply retains_same; unfold file_table, hash_table; congruence.
    - eapply retains_trans; [by apply (retains_put s k c)|]. rewrite <-Hbucket.
      apply retains_same; unfold file_table, hash_table; cbn; congruence. }
  destruct r as [iv| |]; [|done..]. destruct (Hiv iv eq_refl) as (Hne & c & Hobj & Hdec). clear Ho.
  rewrite M_bind_unfold, in_hashes. unfold FileHashesTable.set_attachment_hash_nonce, table_update.
  assert (hash_table s1 = hash_table s) as Hh by (unfold hash_table; by rewrite Hw). rewrite Hh.
  fold k. destruct (hash_table s !! k) as [e|] eqn:He; cbn [fst snd].
  2: { split; [|done]. eapply retains_trans; [done|]. rewrite <-Hh.
       apply retains_same; by destruct s1 as [[[]]]. }
  set (s2 := with_hashes s1 _).
  assert (Storage.objects s1 !! (FilesConfig.default_bucket files, k) = Some c) as Hc.
  { rewrite Hobj, <-Hbucket. apply lookup_insert_eq. }
  assert (retains s1 s2) as Hnonce.
  { subst s2. rewrite <-Hh. eapply retains_set_nonce; [by rewrite Hh| |done|done|done|].
    - by apply Hempty.
    - by rewrite Hcache. }
  assert (hash_table s2 !! k = Some (FileHash.set_iv e iv)) as He2 by apply lookup_insert_eq.
  rewrite M_bind_unfold.
  pose proof (insert_file_retains file_hash id tag filename (User.id user) s2 _ He2 Hne) as Hins.
  destruct (in_db _ s2) as [[u| |] s3] eqn:Hfile; cbn [fst snd] in *;
    (split; [by eapply retains_trans; [|eapply retains_trans]|]); [|done..].
  intros Hs i [= <-]. split; [done|]. eapply insert_file_content; [exact Hfile|exact He2|done|].
  destruct (hashes_keyed s Hs k e He) as (_ & Hp & Hb).
  exists c. split; [|exact Hdec]. cbn. by rewrite Hp, Hb.
Qed.

Lemma store_upload_retains user tag exists_ id filename buf mime metadata s :
  metadata = generate_metadata buf mime →
  (exists_ = false →
     ∀ k e, hash_table s !! k = Some e → FileHash.id e ≠ sha256 buf ∧ FileHash.processed_hash e ≠ sha256 buf) →
  (consistent s → ∀ e, hash_table s !! sha256 buf = Some e → FileHash.iv e = "") →
  unmistaken s buf →
  let '(r, s') := store_upload user tag exists_ id filename buf mime metadata s in
  retains s s' ∧ (consistent s → ∀ i, r = Ok i → i = id ∧ ∃ data metadata',
    strip_metadata buf buf metadata mime = Ok (data, metadata') ∧
    (scanned metadata' mime = true → is_malware data = Ok false) ∧ content s' id data).
Proof.
  intros -> Hnew Hunused Hfair. unfold store_upload. rewrite M_bind_unfold. cbn [lift].
  destruct (strip_metadata _ _ _ _) as [[data metadata']| |] eqn:Hstrip; [|done..].
  rewrite M_bind_unfold. cbn [lift].
  destruct (if scanned metadata' mime then is_malware data else Ok false) as [malware| |] eqn:Hscan;
    [|done..].
  destruct malware; [done|].
  assert (scanned metadata' mime = true → is_malware data = Ok false) as Hclean by by intros Ht; rewrite Ht in Hscan.
  rewrite M_bind_unfold.
  change (in_db clock s) with (Ok (World.now (Storage.world s)) : Result Z, Storage.set_world s (Storage.world s)).
  replace (Storage.set_world s (Storage.world s)) with s by by destruct s. cbv beta iota.
  set (file_hash := FileHash.mk _ _ _ _ _ _ _ _ _).
  rewrite M_bind_unfold.
  assert (∀ s1, retains s s1 → (consistent s → pending s1 (sha256 buf)) →
    let '(r, s') := commit_upload user tag file_hash id filename data s1 in
    retains s s' ∧ (consistent s → ∀ i, r = Ok i → i = id ∧ ∃ data' metadata'',
      Ok (E:=ErrorType.t) (data, metadata') = Ok (data', metadata'') ∧
      (scanned metadata'' mime = true → is_malware data' = Ok false) ∧ content s' id data')) as Hcommit.
  { intros s1 Hs1 Hpending.
    destruct (commit_upload _ _ _ _ _ _ s1) as [r s'] eqn:Hrun.
    assert (consistent s → retains s1 s' ∧ (consistent s1 → ∀ i, r = Ok i → i = id ∧ content s' id data)) as Hall.
    { intros Hs. pose proof (commit_upload_retains user tag file_hash id filename data s1 eq_refl (Hpending Hs)) as Hc.
      by rewrite Hrun in Hc. }
    split.
    - intros Hs. by apply (retains_trans s s1 s'); [|apply Hall|].
    - intros Hs i ->. destruct (Hs1 Hs) as [Hs1c _]. destruct (Hall Hs) as [_ Hr].
      destruct (Hr Hs1c i eq_refl) as [-> Hcontent]. split; [done|]. eauto 10. }
  assert (consistent s → pending s (sha256 buf)) as Hpending.
  { intros Hs. split; [|by apply Hunused]. apply Hfair. by apply Hunused. }
  destruct exists_; [by apply Hcommit|].
  rewrite in_hashes. unfold FileHashesTable.insert_attachment_hash, table_insert.
  change (FileHash.id file_hash) with (sha256 buf).
  assert (consistent s → hash_table s !! sha256 buf = None) as Hnone.
  { intros Hs. destruct (hash_table s !! sha256 buf) as [e|] eqn:He; [|done].
    destruct (Hnew eq_refl _ e He) as [Hne _]. by destruct (hashes_keyed s Hs _ e He). }
  destruct (hash_table s !! sha256 buf) as [e|] eqn:He; cbn [fst snd].
  { split; [|intros Hs; by specialize (Hnone Hs)]. intros Hs. by specialize (Hnone Hs). }
  apply Hcommit.
  - intros Hs. apply retains_insert_hash; try done.
    + intros k e Hk. by destruct (Hnew eq_refl k e Hk).
    + intros e. cbn. destruct Hfair as [_ Hf]; [by rewrite He|]. rewrite (Hf mime data metadata' Hstrip He). done.
  - intros Hs. destruct (Hpending Hs) as [Hcold _]. split; [done|].
    intros e He'. change (<[sha256 buf := file_hash]> (hash_table s) !! sha256 buf = Some e) in He'.
    rewrite lookup_insert_eq in He'. by injection He' as <-.
Qed.

Lemma fetch_account_reads' id : reads (on_accounts (AccountsTable.fetch_account id)).
Proof. unfold on_accounts. solve_reads. Qed.
#[local] Hint Resolve fetch_account_reads' : reads.
Lemma size_limit_reads user tag : reads (size_limit user tag).
Proof. unfold size_limit, clock. solve_reads. Qed.
#[local] Hint Resolve size_limit_reads : reads.

Lemma check_upload_db user tag file : keeps World.db (check_upload user tag file).
Proof.
  assert (keeps World.db (size_limit user tag)) as Hsize.
  { intros w. by rewrite (size_limit_reads user tag w). }
  unfold check_upload, ulid, nanoid. solve_keeps.
Qed.

(** What an upload has to be *)
Definition acceptable (user : User.t) (tag : Tag.t) (file : FieldData.t) (w : World.t)
    (filename buf mime : string) (metadata : Metadata.t) : Prop :=
  filename = default "unnamed-file" (FieldData.file_name file) ∧
  FieldData.contents file = Some buf ∧
  (∃ limit, (size_limit user tag w).1 = Ok limit ∧
    (FilesConfig.min_file_size files ≤ Z.of_nat (String.length buf) ≤ limit)%Z) ∧
  mime = determine_mime_type buf buf filename ∧
  mime ∉ FilesConfig.blocked_mime_types files ∧
  metadata = generate_metadata buf mime ∧
  (tag = Tag.attachments ∨ is_image metadata = true).

Lemma check_upload_inv user tag file w id filename buf mime metadata w' :
  check_upload user tag file w = (Ok (id, filename, buf, mime, metadata), w') →
  acceptable user tag file w filename buf mime metadata.
Proof.
  unfold check_upload. intros Hrun. unbind Hrun bytes. cbn in Ebytes.
  destruct (FieldData.contents file) as [b|] eqn:Hcontents; [|done]. injection Ebytes as <-.
  destruct (Z.ltb_spec (Z.of_nat (String.length b)) (FilesConfig.min_file_size files)) as [|Hmin]; [done|].
  unbind Hrun limit.
  destruct (Z.ltb_spec limit (Z.of_nat (String.length b))) as [|Hmax]; [done|].
  apply bind_Ok_inv in Hrun as (i & w1 & _ & Hrun).
  destruct (bool_decide (determine_mime_type _ _ _ ∈ _)) eqn:Hblocked; [done|].
  destruct (negb _ && negb _) eqn:Himage; [done|]. injection Hrun as <- <- <- <- <- <-.
  split_and!; try done.
  - exists limit. by rewrite Elimit.
  - by apply bool_decide_eq_false in Hblocked.
  - apply andb_false_iff in Himage as [Hi|Hi]; apply negb_false_iff in Hi; [left|by right].
    by apply bool_decide_eq_true in Hi.
Qed.

(** What an upload ends with: a copy of what is stored already, or what becomes of its bytes *)
Definition uploaded (s s' : Storage.t) (id buf mime : string) (metadata : Metadata.t) : Prop :=
  ∃ data, content s' id data ∧
    ((∃ k e, hash_table s !! k = Some e ∧ stored s e data ∧
        (FileHash.id e = sha256 buf ∨ FileHash.processed_hash e = sha256 buf)) ∨
     ∃ metadata', strip_metadata buf buf metadata mime = Ok (data, metadata') ∧
        (scanned metadata' mime = true → is_malware data = Ok false)).

Lemma upload_run_retains user tag file s :
  (∀ buf, FieldData.contents file = Some buf → unmistaken s buf) →
  let '(r, s') := upload_file user tag file s in
  retains s s' ∧ (consistent s → ∀ id, r = Ok id → ∃ filename buf mime metadata,
    acceptable user tag file (Storage.world s) filename buf mime metadata ∧
    uploaded s s' id buf mime metadata).
Proof.
  intros Hfair. unfold upload_file. rewrite M_bind_unfold.
  destruct (in_db (check_upload user tag file) s) as [r0 s1] eqn:Hcheck.
  assert (file_table s1 = file_table s ∧ hash_table s1 = hash_table s ∧
    Storage.objects s1 = Storage.objects s ∧ Storage.S3_CACHE s1 = Storage.S3_CACHE s) as (Hf & Hh & Ho & Hc).
  { unfold in_db in Hcheck. pose proof (check_upload_db user tag file (Storage.world s)) as Hdb.
    destruct (check_upload _ _ _ _) as [r w]. injection Hcheck as <- <-. simpl in Hdb.
    unfold file_table, hash_table. cbn. by rewrite Hdb. }
  assert (retains s s1) as Hkeep by by apply retains_same.
  destruct r0 as [[[[[id filename] buf] mime] metadata]| |]; [|done..].
  assert (acceptable user tag file (Storage.world s) filename buf mime metadata) as Hok.
  { unfold in_db in Hcheck. destruct (check_upload _ _ _ _) as [r w] eqn:Hrun.
    injection Hcheck as -> <-. by eapply check_upload_inv. }
  pose proof Hok as (_ & Hbytes & _ & _ & _ & Hmeta & _). specialize (Hfair buf Hbytes).
  assert (unmistaken s1 buf) as Hfair1 by (unfold unmistaken; by rewrite Hh, Hc).
  assert (∀ e d, stored s1 e d ↔ stored s e d) as Hst by (intros e d; unfold stored; by rewrite Ho).
  assert (∀ (r : Result string) s', retains s1 s' → (consistent s1 → ∀ i, r = Ok i → uploaded s s' i buf mime metadata) →
    retains s s' ∧ (consistent s → ∀ i, r = Ok i → ∃ filename buf mime metadata,
      acceptable user tag file (Storage.world s) filename buf mime metadata ∧
      uploaded s s' i buf mime metadata)) as Hdone.
  { intros r s' Hs' Hup. split; [by eapply retains_trans|]. intros Hs i Hi.
    destruct (Hkeep Hs) as [Hs1 _]. eauto 10. }
  rewrite M_bind_unfold.
  assert (in_db (attempt (on_file_hashes (FileHashesTable.fetch_attachment_hash (sha256 buf)))) s1 =
    (Ok (match (FileHashesTable.fetch_attachment_hash (sha256 buf) (hash_table s1)).1 with
         | Ok e => Some e | _ => None end), s1)) as ->.
  { unfold in_db, attempt, on_file_hashes, on_table, hash_table.
    unfold FileHashesTable.fetch_attachment_hash. destruct (List.find _ _); cbn; f_equal; by destruct s1 as [[[]]]. }
  destruct (FileHashesTable.fetch_attachment_hash (sha256 buf) (hash_table s1)) as [r hs] eqn:Hfetch.
  cbn [fst]. destruct r as [e| |].
  - apply fetch_hash_inv in Hfetch as (_ & k & Hk & Hor). case_bool_decide as Hiv; cbn [negb].
    + pose proof (store_upload_retains user tag true id filename buf mime metadata s1 Hmeta) as Hstore.
      destruct (store_upload _ _ _ _ _ _ _ _ s1) as [r s'].
      assert (consistent s1 → ∀ e', hash_table s1 !! sha256 buf = Some e' → FileHash.iv e' = "") as Hunused.
      { intros Hs1 e' He'. destruct (hashes_keyed s1 Hs1 k e Hk) as (Hid & _).
        assert (k = sha256 buf) as ->; [|congruence].
        destruct Hor as [Hor|Hor]; [congruence|]. by eapply (hashes_distinct s1 Hs1). }
      destruct Hstore as [Hret Hres]; [done|done|done|]. apply Hdone; [done|].
      intros Hs1 i Hi. destruct (Hres Hs1 i Hi) as (-> & data & metadata' & ? & ? & ?).
      exists data. split; [done|]. right. eauto.
    + rewrite M_bind_unfold.
      destruct (in_db (insert_file e id tag filename (User.id user)) s1) as [r s'] eqn:Hins.
      assert (retains s1 s') as Hret.
      { intros Hs1. destruct (hashes_keyed s1 Hs1 k e Hk) as (Hid & _).
        pose proof (insert_file_retains e id tag filename (User.id user) s1 e) as Hi.
        rewrite Hins, Hid in Hi. by apply Hi. }
      destruct r as [u| |]; (apply Hdone; [done|]); [|done..].
      intros Hs1 i [= <-]. destruct (hashes_keyed s1 Hs1 k e Hk) as (Hid & _).
      destruct (hashes_stored s1 Hs1 k e Hk Hiv) as [d Hd]. exists d. split.
      * eapply insert_file_content; [done|by rewrite Hid|done|done].
      * left. exists k, e. rewrite <-Hh. split_and!; [done|by apply Hst|done].
  - apply fetch_hash_none in Hfetch as (_ & _ & Hnone); [|done].
    pose proof (store_upload_retains user tag false id filename buf mime metadata s1 Hmeta) as Hstore.
    destruct (store_upload _ _ _ _ _ _ _ _ s1) as [r s'].
    destruct Hstore as [Hret Hres]; [done| |done|].
    { intros Hs1 e' He'. destruct (Hnone _ e' He') as [Hne _]. by destruct (hashes_keyed s1 Hs1 _ e' He'). }
    apply Hdone; [done|]. intros Hs1 i Hi. destruct (Hres Hs1 i Hi) as (-> & data & metadata' & ? & ? & ?).
    exists data. split; [done|]. right. eauto.
  - apply fetch_hash_none in Hfetch as (_ & ? & _); done.
Qed.

(** *** Previews and downloads *)

Lemma retains_assume s s' : (consistent s → retains s s') → retains s s'.
Proof. intros Hr Hs. by apply Hr. Qed.

Lemma served_file_reads tag id : reads (served_file tag id).
Proof.
  unfold served_file, on_files. apply reads_bind; [|intros f; solve_reads].
  apply reads_table; [by intros []|]. intros t. unfold FilesTable.fetch_attachment.
  destruct (t !! id) as [f|]; [by destruct (bool_decide _)|done].
Qed.
Lemma as_hash_reads file : reads (as_hash file).
Proof. unfold as_hash, on_file_hashes. solve_reads. Qed.
#[local] Hint Resolve served_file_reads as_hash_reads : reads.

Lemma served_file_inv tag id s file w :
  served_file tag id (Storage.world s) = (Ok file, w) →
  file_table s !! id = Some file ∧ File.tag file = Tag.into tag ∧
  File.is_set (File.deleted file) = false ∧ is_Some (File.used_for file).
Proof.
  unfold served_file, on_files, on_table. rewrite M_bind_unfold. unfold FilesTable.fetch_attachment.
  change (ReferenceDb.files (World.db (Storage.world s))) with (file_table s).
  destruct (file_table s !! id) as [f|]; [|done]. case_bool_decide as Htag; [|done]. cbn.
  destruct (File.is_set (File.deleted f)) eqn:Hdel; [done|]. case_bool_decide as Hused; [done|].
  intros [= <- _]. split_and!; try done. by destruct (File.used_for f).
Qed.

Lemma as_hash_inv s i file e w :
  consistent s → file_table s !! i = Some file → as_hash file (Storage.world s) = (Ok e, w) →
  ∃ h, File.hash file = Some h ∧ hash_table s !! h = Some e ∧ FileHash.iv e ≠ "".
Proof.
  intros Hs Hi. unfold as_hash. rewrite M_bind_unfold. cbn [lift].
  destruct (File.hash file) as [h|] eqn:Hh; [|done]. cbn [unwrap].
  unfold on_file_hashes, on_table.
  change (ReferenceDb.file_hashes (World.db (Storage.world s))) with (hash_table s).
  destruct (files_hashed s Hs i file h Hi Hh) as (e' & He' & Hiv).
  rewrite (fetch_hash_found s h e' Hs He'). intros [= <- _]. eauto.
Qed.

Lemma set_animated_retains k a s :
  retains s (in_db (on_file_hashes (FileHashesTable.set_attachment_hash_animated k a)) s).2.
Proof.
  assert (retains s (with_hashes s (hash_table s))) as Hsame by (apply retains_same; by destruct s as [[[]]]).
  rewrite in_hashes. cbn [snd]. unfold FileHashesTable.set_attachment_hash_animated.
  destruct (hash_table s !! k) as [e|] eqn:He; [|done].
  destruct (FileHash.metadata e) as [| |w h t [x|]| |]; try done. by apply retains_set_metadata.
Qed.

Lemma animation_retains s k e :
  hash_table s !! k = Some e → FileHash.iv e ≠ "" →
  retains s (animation e s).2 ∧ ∀ a, (animation e s).1 = Ok (a, None) → (animation e s).2 = s.
Proof.
  intros He Hiv. unfold animation. destruct (FileHash.metadata e) as [| |w h t [x|]| |]; try done.
  split.
  - apply retains_bind; [by eapply retrieve_retains|]. intros data _.
    apply retains_bind; [done|]. intros file _. cbn [lift snd].
    apply retains_bind; [apply set_animated_retains|done].
  - intros a Hrun. exfalso. rewrite M_bind_unfold in Hrun.
    destruct (retrieve_file_by_hash e s) as [[data| |] s']; [|done..]. rewrite M_bind_unfold in Hrun.
    cbn [lift] in Hrun. destruct (internal_error _) as [file| |]; [|done..].
    rewrite M_bind_unfold in Hrun. by destruct (in_db _ s') as [[]].
Qed.

Lemma fetch_preview_retains tag id s : retains s (fetch_preview tag id s).2.
Proof.
  apply retains_assume. intros Hs. unfold fetch_preview.
  apply retains_reads; [apply served_file_reads|]. intros file Hfile.
  apply served_file_inv in Hfile as (Hfile & _).
  apply retains_reads; [apply as_hash_reads|]. intros e Hhash.
  destruct (as_hash_inv s id file e _ Hs Hfile Hhash) as (h & _ & He & Hiv).
  destruct (animation_retains s h e He Hiv) as [Hanim Hnone].
  apply retains_bind; [done|]. intros [animated data] Hfound.
  destruct (negb (is_image _) || _); [by unfold redirect; destruct (header_value _)|].
  apply retains_bind.
  - destruct data as [data|]; [done|]. rewrite (Hnone _ Hfound). by eapply retrieve_retains.
  - intros d _. apply retains_bind; [done|]. intros img _. cbn [lift snd].
    apply retains_bind; [done|]. done.
Qed.

Lemma fetch_file_retains tag id name s : retains s (fetch_file tag id name s).2.
Proof.
  apply retains_assume. intros Hs. unfold fetch_file.
  apply retains_reads; [apply served_file_reads|]. intros file Hfile.
  apply served_file_inv in Hfile as (Hfile & _).
  case_bool_decide as Hname.
  { case_bool_decide; [|done]. by unfold redirect; destruct (header_value _). }
  apply retains_reads; [apply as_hash_reads|]. intros e Hhash.
  destruct (as_hash_inv s id file e _ Hs Hfile Hhash) as (h & _ & He & Hiv).
  apply retains_bind; [by eapply retrieve_retains|done].
Qed.

(** *** Deleting files *)

Lemma retains_delete s s' i f :
  file_table s !! i = Some f → doomed s i →
  file_table s' = delete i (file_table s) → Storage.S3_CACHE s' = Storage.S3_CACHE s →
  (hash_table s' = hash_table s ∧ Storage.objects s' = Storage.objects s ∨
   ∃ h e, hash_table s !! h = Some e ∧ hash_table s' = delete h (hash_table s) ∧
     Storage.objects s' = delete (FileHash.bucket_id e, FileHash.path e) (Storage.objects s) ∧
     ∀ j g, j ≠ i → file_table s !! j = Some g → File.hash g ≠ Some h) →
  retains s s'.
Proof.
  intros Hi Hdoomed Hf Hc Hcase Hs. pose proof Hs as [].
  assert (∀ k e, hash_table s' !! k = Some e → hash_table s !! k = Some e ∧
    ∀ d, stored s e d → stored s' e d) as Hback.
  { intros k e He. destruct Hcase as [[Hh Ho]|(h & e0 & He0 & Hh & Ho & _)].
    - rewrite Hh in He. split; [done|]. intros d. unfold stored. by rewrite Ho.
    - rewrite Hh in He. apply lookup_delete_Some in He as [Hne He]. split; [done|].
      intros d (c & Hc' & Hd). exists c. split; [|done]. rewrite Ho.
      apply lookup_delete_Some. split; [|done]. intros [= _ Hp].
      destruct (hashes_keyed0 h e0 He0) as (_ & Hp0 & _), (hashes_keyed0 k e He) as (_ & Hp' & _). congruence. }
  assert (∀ j g h e, j ≠ i → file_table s !! j = Some g → File.hash g = Some h →
    hash_table s !! h = Some e → hash_table s' !! h = Some e) as Hforth.
  { intros j g h e Hne Hg Hgh He. destruct Hcase as [[Hh _]|(h0 & e0 & _ & Hh & _ & Hother)].
    - by rewrite Hh.
    - rewrite Hh. apply lookup_delete_Some. split; [|done]. intros ->. by eapply Hother. }
  split.
  - split; rewrite ?Hf, ?Hc; try done.
    + intros j g [_ Hg]%lookup_delete_Some. by apply files_keyed0.
    + intros k e [He _]%Hback. by apply hashes_keyed0.
    + intros k e [He Hst]%Hback Hiv. destruct (hashes_stored0 k e He Hiv) as [d Hd]. eauto.
    + intros j g h [Hne Hg]%lookup_delete_Some Hgh.
      destruct (files_hashed0 j g h Hg Hgh) as (e & He & Hiv). exists e. split; [|done]. by eapply Hforth.
    + intros k e k' e' [He _]%Hback [He' _]%Hback. by eapply hashes_distinct0.
    + intros k now d e Hk [He Hst]%Hback Hiv. apply Hst. by eapply cache_coherent0.
  - intros j Hj. assert (i ≠ j) as Hne by congruence. split.
    + intros (g & Hg & Hdel). rewrite Hf in Hg. apply lookup_delete_Some in Hg as [_ Hg]. apply Hj. by exists g.
    + intros d (g & h & e & Hg & Hh & He & Hiv & Hst).
      assert (hash_table s' !! h = Some e) as He' by by eapply Hforth.
      exists g, h, e. split_and!; try done; [|by apply Hback in He' as [_ ?]; auto].
      rewrite Hf. by apply lookup_delete_Some.
Qed.

(** What is not answered was not done. *)
Definition honest : Prop := ∀ n, answered n = false → applied n = false.

Lemma references_of_run s i f h :
  consistent s → file_table s !! i = Some f → File.hash f = Some h →
  ∃ e n, hash_table s !! h = Some e ∧ references_of h s = (Ok (Some (e, n)), s) ∧
    ∀ j g, j ≠ i → file_table s !! j = Some g → File.hash g = Some h → (2 ≤ n)%Z.
Proof.
  intros Hs Hi Hh. destruct (files_hashed s Hs i f h Hi Hh) as (e & He & _).
  assert (∃ n, FilesTable.count_file_hash_references h (file_table s) = (Ok n, file_table s)) as [n Hn]
    by by eexists.
  exists e, n. split; [done|]. split.
  - unfold references_of. rewrite M_bind_unfold. unfold in_db at 1. unfold on_file_hashes, on_table.
    change (ReferenceDb.file_hashes (World.db (Storage.world s))) with (hash_table s).
    rewrite (fetch_hash_found s h e Hs He). cbn.
    replace (Storage.set_world s _) with s by by destruct s as [[[]]].
    rewrite M_bind_unfold, in_files, Hn. cbn [fst snd]. unfold with_files, file_table.
    f_equal. by destruct s as [[[]]].
  - intros j g Hne Hg Hgh. destruct (count_references_two h (file_table s) i j f g) as (n' & Hn' & ?); try done.
    congruence.
Qed.

Lemma delete_attachment_run s i f :
  file_table s !! i = Some f →
  in_db (on_files (FilesTable.delete_attachment i)) s = (Ok tt, with_files s (delete i (file_table s))).
Proof.
  intros Hi. rewrite in_files. unfold FilesTable.delete_attachment, table_delete. by rewrite Hi.
Qed.

(** The object of a hash goes with its entry, or nothing happens. *)
Lemma remove_object_run s h e n :
  honest → consistent s → hash_table s !! h = Some e → (n ≤ 1)%Z →
  let '(r, s') := remove_object (Some (e, n)) s in
  file_table s' = file_table s ∧ Storage.S3_CACHE s' = Storage.S3_CACHE s ∧
  match r with
  | Ok _ => hash_table s' = delete h (hash_table s) ∧
      Storage.objects s' = delete (FileHash.bucket_id e, FileHash.path e) (Storage.objects s)
  | _ => hash_table s' = hash_table s ∧ Storage.objects s' = Storage.objects s
  end.
Proof.
  intros Hhonest Hs He Hn. destruct (hashes_keyed s Hs h e He) as (Hid & _).
  unfold remove_object. rewrite (proj2 (Z.leb_le _ _) Hn). rewrite M_bind_unfold.
  unfold delete_from_s3, delete_file, report_internal_error, delete_object, request.
  destruct (answered (Storage.requests s)) eqn:Ha; cbn [fst snd ok_or].
  - rewrite in_hashes. unfold FileHashesTable.delete_attachment_hash, table_delete.
    rewrite Hid. change (hash_table (Storage.set_objects _ _)) with (hash_table s). by rewrite He.
  - by rewrite (Hhonest _ Ha).
Qed.

Lemma remove_file_retains s f :
  honest → consistent s → file_table s !! File.id f = Some f → doomed s (File.id f) →
  let '(r, s') := remove_file f s in
  retains s s' ∧
  match r with
  | Ok _ => file_table s' = delete (File.id f) (file_table s)
  | _ => file_table s' = file_table s
  end.
Proof.
  intros Hhonest Hs Hi Hdoomed. unfold remove_file. rewrite M_bind_unfold.
  destruct (File.hash f) as [h|] eqn:Hh.
  2: { cbn [mret M_ret]. rewrite (delete_attachment_run s _ f Hi). split; [|done].
       eapply retains_delete; try done. by left. }
  destruct (references_of_run s _ f h Hs Hi Hh) as (e & n & He & Hrun & Hcount).
  rewrite M_bind_unfold, Hrun.
  destruct (Z.leb_spec n 1) as [Hle|Hgt].
  - pose proof (remove_object_run s h e n Hhonest Hs He Hle) as Hobj.
    destruct (remove_object _ s) as [r s1]. destruct Hobj as (Hf & Hc & Hr).
    destruct r as [u| |].
    + rewrite (delete_attachment_run s1 _ f) by by rewrite Hf. rewrite Hf. split; [|done].
      eapply retains_delete; [done..| |].
      * by rewrite <-Hc.
      * right. exists h, e. destruct Hr as [Hh' Ho']. split_and!; [done|done|done|].
        intros j g Hne Hg Hgh. specialize (Hcount j g Hne Hg Hgh). lia.
    + split; [|done]. destruct Hr. by apply retains_same.
    + split; [|done]. destruct Hr. by apply retains_same.
  - unfold remove_object. rewrite (proj2 (Z.leb_gt _ _) Hgt). cbn [mret M_ret].
    rewrite (delete_attachment_run s _ f Hi). split; [|done]. eapply retains_delete; try done. by left.
Qed.

Lemma remove_files_retains l s :
  honest → NoDup (File.id <$> l) →
  (∀ f, f ∈ l → file_table s !! File.id f = Some f ∧ doomed s (File.id f)) →
  retains s (for_each l remove_file s).2.
Proof.
  intros Hhonest. revert s. induction l as [|f l IH]; intros s Hnd Hl; [apply retains_refl|].
  apply retains_assume. intros Hs. cbn [for_each]. apply NoDup_cons in Hnd as [Hnotin Hnd].
  destruct (Hl f) as [Hf Hd]; [by left|].
  pose proof (remove_file_retains s f Hhonest Hs Hf Hd) as Hrun. rewrite M_bind_unfold.
  destruct (remove_file f s) as [[u| |] s']; destruct Hrun as [Hret Htable]; [|done..].
  eapply retains_trans; [done|]. apply IH; [done|]. intros g Hg.
  assert (File.id f ≠ File.id g) as Hne.
  { intros Heq. apply Hnotin. rewrite Heq. apply list_elem_of_fmap. by exists g. }
  destruct (Hl g) as [Htg (g' & Hg' & Hdg)]; [by right|].
  unfold doomed. rewrite Htable, !lookup_delete_ne by done. eauto.
Qed.

Lemma file_deletion_retains s : honest → retains s (file_deletion s).2.
Proof.
  intros Hhonest. apply retains_assume. intros Hs. unfold file_deletion.
  rewrite M_bind_unfold, in_files. cbn [fst snd FilesTable.fetch_deleted_attachments table_select].
  eapply retains_trans; [by apply (retains_same s (with_files s (file_table s))); destruct s as [[[]]]|].
  apply remove_files_retains; [done|..].
  - assert (∀ P (l : list (string * File.t)), NoDup l.*1 → (∀ k f, (k, f) ∈ l → File.id f = k) →
      NoDup (File.id <$> List.filter P l.*2)) as Hall.
    { intros P l. induction l as [|[k f] l IH]; intros Hnd Hkey; [constructor|].
      apply NoDup_cons in Hnd as [Hnotin Hnd]. csimpl.
      assert (NoDup (File.id <$> List.filter P l.*2)) as Hrest.
      { apply IH; [done|]. intros k' f' Hin. apply Hkey. by right. }
      destruct (P f); [|done]. csimpl. constructor; [|done]. intros Hin.
      apply list_elem_of_fmap in Hin as (g & Hid & Hg). apply list_elem_of_In, List.filter_In in Hg as [Hg _].
      apply list_elem_of_In, list_elem_of_fmap in Hg as ([k' g'] & Heq & Hg). cbn in Heq. subst g'.
      apply Hnotin. apply list_elem_of_fmap. exists (k', g). split; [|done]. cbn.
      rewrite <-(Hkey k' g), <-(Hkey k f); [done|by left|by right]. }
    apply Hall.
    + rewrite hash_iter_perm. apply NoDup_fst_map_to_list.
    + intros k f Hin%elem_of_hash_iter. by apply (files_keyed s Hs).
  - intros f Hin. apply list_elem_of_In, List.filter_In in Hin as [Hin Hsel].
    apply list_elem_of_In, list_elem_of_fmap in Hin as ([k f'] & Heq & Hin). cbn in Heq. subst f'.
    apply elem_of_hash_iter in Hin. rewrite (files_keyed s Hs k f Hin). split; [done|].
    exists f. apply andb_prop in Hsel as [? ?%negb_true_iff]. done.
Qed.

Lemma table_ops_retain s x :
  (∀ i f', x !! i = Some f' → ∃ f, file_table s !! i = Some f ∧ File.id f' = File.id f ∧
    File.hash f' = File.hash f) →
  (∀ i, is_Some (file_table s !! i) → is_Some (x !! i)) →
  consistent s → consistent (with_files s x) ∧ ∀ i d, content s i d → content (with_files s x) i d.
Proof.
  intros Hx Hdom Hs. pose proof Hs as []. split.
  - split; try done.
    + intros i f' (f & Hf & -> & _)%Hx. by apply files_keyed0.
    + intros i f' h (f & Hf & _ & ->)%Hx. by eapply files_hashed0.
  - intros i d (f & h & e & Hf & Hh & He & Hst). destruct (Hdom i) as [f' Hf']; [by eexists|].
    destruct (Hx i f' Hf') as (f2 & Hf2 & _ & Hh2). exists f', h, e. split_and!; try done; [|naive_solver..].
    congruence.
Qed.
End Operations.

(** ** What happens over time *)

(** What the handlers of the API do to files ([models/files/model.rs] and its table) *)
Module FileOp.
Inductive t : Type :=
| Use (id tag : string) (used_for : FileUsedFor.t) (uploader_id : string)
| Report (id : string)
| Delete (id : string)
| DeleteMany (ids : list string).
Definition perform (op : t) : FilesTable.T unit :=
  match op with
  | Use id tag used_for uploader_id =>
      FilesTable.find_and_use_attachment id tag used_for uploader_id ;; mret tt
  | Report id => FilesTable.mark_attachment_as_reported id
  | Delete id => FilesTable.mark_attachment_as_deleted id
  | DeleteMany ids => FilesTable.mark_attachments_as_deleted ids
  end.
End FileOp.

Section Service.
Context `{Environment, HashIter, FilesSettings, Crypto, S3, Media, Lowercase, ClamAV, MokaCache, Axum}.

(** One step of the system: a request to the service, what the API does to files, a round of a
    task, and anything that leaves the tables of files and hashes alone *)
Inductive happens : Storage.t → Storage.t → Prop :=
| happens_upload user tag file s :
    (∀ buf, FieldData.contents file = Some buf → unmistaken s buf) →
    happens s (upload_file user tag file s).2
| happens_preview tag id s : happens s (fetch_preview tag id s).2
| happens_download tag id name s : happens s (fetch_file tag id name s).2
| happens_in_api op s : happens s (in_db (on_files (FileOp.perform op)) s).2
| happens_deletion s : happens s (file_deletion s).2
| happens_pruning s : happens s (prune_dangling_files s).2
| happens_elsewhere w s :
    ReferenceDb.files (World.db w) = file_table s →
    ReferenceDb.file_hashes (World.db w) = hash_table s → happens s (Storage.set_world s w).

Lemma file_op_tables op (t : FilesTable.table) :
  (∀ i f', (FileOp.perform op t).2 !! i = Some f' →
     ∃ f, t !! i = Some f ∧ File.id f' = File.id f ∧ File.hash f' = File.hash f) ∧
  (∀ i, is_Some (t !! i) → is_Some ((FileOp.perform op t).2 !! i)).
Proof.
  assert (∀ id (g : File.t → File.t) f, t !! id = Some f → File.id (g f) = File.id f →
    File.hash (g f) = File.hash f →
    (∀ i f', <[id := g f]> t !! i = Some f' →
      ∃ f, t !! i = Some f ∧ File.id f' = File.id f ∧ File.hash f' = File.hash f) ∧
    (∀ i, is_Some (t !! i) → is_Some (<[id := g f]> t !! i))) as Hinsert.
  { intros id g f Hf Hid Hhash. split.
    - intros i f' [[<- <-]|[_ ?]]%lookup_insert_Some; eauto.
    - intros i Hi. apply lookup_insert_is_Some. by destruct (decide (id = i)); auto. }
  destruct op as [id tag used uploader|id|id|ids]; cbn [FileOp.perform].
  - rewrite M_bind_unfold. unfold FilesTable.find_and_use_attachment.
    destruct (t !! id) as [f|] eqn:Hf; [|split; eauto]. destruct (bool_decide _); [|split; eauto].
    by apply (Hinsert id (File.set_used used uploader) f).
  - unfold FilesTable.mark_attachment_as_reported, table_update.
    destruct (t !! id) as [f|] eqn:Hf; [|split; eauto]. by apply (Hinsert id File.set_reported f).
  - unfold FilesTable.mark_attachment_as_deleted, table_update.
    destruct (t !! id) as [f|] eqn:Hf; [|split; eauto]. by apply (Hinsert id File.set_deleted f).
  - destruct (FilesTable.mark_attachments_as_deleted ids t) as [[[]|e|] t'] eqn:Hrun; cbn [snd].
    + pose proof (mark_attachments_lookup ids t t') as Hlook. split.
      * intros i f' Hf'. rewrite (Hlook i Hrun) in Hf'. destruct (t !! i) as [f|]; [|done].
        injection Hf' as <-. exists f. by destruct (bool_decide _).
      * intros i [f Hf]. rewrite (Hlook i Hrun), Hf. by eexists.
    + unfold FilesTable.mark_attachments_as_deleted in Hrun. destruct (forallb _ _); [done|].
      injection Hrun as <- <-. split; eauto.
    + unfold FilesTable.mark_attachments_as_deleted in Hrun. by destruct (forallb _ _).
Qed.

Lemma file_op_retains op s :
  consistent s → consistent (in_db (on_files (FileOp.perform op)) s).2 ∧
  ∀ i d, content s i d → content (in_db (on_files (FileOp.perform op)) s).2 i d.
Proof. intros Hs. rewrite in_files. cbn [snd]. apply table_ops_retain; [apply file_op_tables..|done]. Qed.

Lemma pruning_is_marking s :
  (prune_dangling_files s).2 = s ∨
  ∃ ids, (prune_dangling_files s).2 = (in_db (on_files (FileOp.perform (FileOp.DeleteMany ids))) s).2.
Proof.
  unfold prune_dangling_files. rewrite M_bind_unfold, in_files.
  cbn [fst snd FilesTable.fetch_dangling_files table_select].
  replace (with_files s (file_table s)) with s by by destruct s as [[[]]].
  rewrite M_bind_unfold. change (in_db clock s) with
    (Ok (World.now (Storage.world s)) : Result Z, Storage.set_world s (Storage.world s)).
  replace (Storage.set_world s (Storage.world s)) with s by by destruct s. cbv beta iota zeta.
  case_bool_decide; [by left|]. right. by eexists.
Qed.

Lemma step_retains s s' :
  honest → happens s s' → consistent s →
  consistent s' ∧ ∀ i d, ¬ doomed s i → content s i d → content s' i d.
Proof.
  assert (∀ s s', retains s s' → consistent s →
    consistent s' ∧ ∀ i d, ¬ doomed s i → content s i d → content s' i d) as Hret.
  { intros t t' Hr Ht. destruct (Hr Ht) as [? Hk]. split; [done|]. intros i d Hi. by apply Hk. }
  assert (∀ op s, consistent s → consistent (in_db (on_files (FileOp.perform op)) s).2 ∧
    ∀ i d, ¬ doomed s i → content s i d → content (in_db (on_files (FileOp.perform op)) s).2 i d) as Hop.
  { intros op t Ht. destruct (file_op_retains op t Ht) as [? Hk]. split; [done|]. intros i d _. apply Hk. }
  intros Hhonest. destruct 1 as [user tag file s Hfair|tag id s|tag id name s|op s|s|s|w s Hf Hh].
  - apply Hret. pose proof (upload_run_retains user tag file s Hfair) as Hrun.
    by destruct (upload_file user tag file s) as [r s'], Hrun.
  - apply Hret, fetch_preview_retains.
  - apply Hret, fetch_file_retains.
  - apply Hop.
  - by apply Hret, file_deletion_retains.
  - destruct (pruning_is_marking s) as [->|[ids ->]]; [|apply Hop]. intros Hs. by split.
  - by apply Hret, retains_same.
Qed.

(** C25: a file keeps its content, whatever uploads, previews, downloads, uses and rounds of the
    tasks that delete files come between, until it is marked as deleted; provided requests to the
    object store that are not answered had no effect ([honest]), and no upload of bytes that are not
    stored meets a cached answer for them, or becomes, when private data is taken out, the bytes of
    an entry that is there ([unmistaken]). The content is what the object is the encryption of. *)
Theorem files_keep_their_content (s s' : Storage.t) (id data : string) :
  honest → consistent s →
  rtc (λ t t', happens t t' ∧ ¬ doomed t id) s s' →
  content s id data → consistent s' ∧ content s' id data.
Proof.
  intros Hhonest Hs Hsteps. revert Hs.
  induction Hsteps as [t|t u v [Hstep Hnot] _ IH]; intros Hs Hc; [done|].
  destruct (step_retains t u Hhonest Hstep Hs) as [Hu Hkeep]. apply IH; [done|]. by apply Hkeep.
Qed.

(** C31: who downloads a file gets its content, that which the stored object is the encryption of, or
    an error, or, when asking for the original, is redirected (or the address cannot be written and
    the request panics); and gets the content where the file is
    in use, not deleted, asked for by its name, the cache holds nothing (it keeps errors, too) and
    the object store answers. *)
Theorem downloads_give_the_content (s : Storage.t) (tag : Tag.t) (id name data : string) :
  consistent s → content s id data →
  match (fetch_file tag id name s).1 with
  | Ok (Response.Data _ disposition body) => disposition = "attachment" ∧ body = data
  | Ok (Response.Redirect _) | Panicked => name = "original"
  | Err _ => True
  end ∧
  ∀ file, file_table s !! id = Some file → File.tag file = Tag.into tag → File.filename file = name →
    File.is_set (File.deleted file) = false → is_Some (File.used_for file) →
    (∀ k now, moka_get k now (Storage.S3_CACHE s) = None) → answered (Storage.requests s) = true →
    ∃ content_type,
      (fetch_file tag id name s).1 = Ok (Response.Data content_type "attachment" data).
Proof.
  intros Hs (f & h & e & Hf & Hh & He & Hiv & Hst). unfold fetch_file. rewrite M_bind_unfold.
  pose proof (in_db_reads (served_file tag id) s (served_file_reads tag id)) as Hsame.
  destruct (in_db (served_file tag id) s) as [r s1] eqn:Hrun. cbn [snd] in Hsame. subst s1.
  assert (r = (served_file tag id (Storage.world s)).1) as Hr.
  { unfold in_db in Hrun. destruct (served_file _ _ _) as [r' w]. by injection Hrun as -> _. }
  assert (in_db (as_hash f) s = (Ok e, s)) as Hhash.
  { pose proof (in_db_reads (as_hash f) s (as_hash_reads f)) as Hsame.
    unfold in_db, as_hash in *. rewrite M_bind_unfold in *. cbn [lift] in *. rewrite Hh in *. cbn [unwrap] in *.
    unfold on_file_hashes, on_table in *.
    change (ReferenceDb.file_hashes (World.db (Storage.world s))) with (hash_table s) in *.
    rewrite (fetch_hash_found s h e Hs He) in *. cbn [snd] in Hsame. by rewrite Hsame. }
  destruct (retrieve_content s h e data Hs He Hiv Hst) as [Hcontent Havailable].
  destruct r as [file|err|].
  - assert (served_file tag id (Storage.world s) = (Ok file, Storage.world s)) as Hserved.
    { rewrite (surjective_pairing (served_file _ _ _)), <-Hr. f_equal. apply served_file_reads. }
    apply served_file_inv in Hserved as (Hfile & _). assert (file = f) as -> by congruence.
    case_bool_decide as Hname.
    + split.
      * case_bool_decide as Horiginal; [|done]. unfold redirect. by destruct (header_value _).
      * intros file' Hf' _ Hn. congruence.
    + rewrite M_bind_unfold, Hhash, M_bind_unfold.
      destruct (retrieve_file_by_hash e s) as [[d| |] s']; cbn in *.
      * subst d. split; [done|]. eauto.
      * split; [done|]. intros file' _ _ _ _ _ Hcold Ha. by specialize (Havailable (Hcold h) Ha).
      * done.
  - split; [done|]. intros file Hfile Htag Hname Hdel Hused. exfalso.
    assert (file = f) as -> by congruence. revert Hr. unfold served_file, on_files, on_table.
    rewrite M_bind_unfold. unfold FilesTable.fetch_attachment.
    change (ReferenceDb.files (World.db (Storage.world s))) with (file_table s). rewrite Hf.
    rewrite bool_decide_eq_true_2 by done. cbn. rewrite Hdel.
    rewrite bool_decide_eq_false_2; [done|]. intros Hnone. rewrite Hnone in Hused. by destruct Hused.
  - exfalso. revert Hr. unfold served_file, on_files, on_table. rewrite M_bind_unfold.
    unfold FilesTable.fetch_attachment.
    change (ReferenceDb.files (World.db (Storage.world s))) with (file_table s). rewrite Hf.
    destruct (bool_decide _); [|done]. cbn. destruct (File.is_set _); [done|]. by destruct (bool_decide _).
Qed.

(** What was uploaded was acceptable: it has the size, the type and, but for attachments, the
    metadata it must have; and the new file's content is what became of its bytes when private data
    was taken out, which the scanner saw where it had to, or the content of a stored copy. *)
Theorem uploads_are_checked (user : User.t) (tag : Tag.t) (file : FieldData.t) (s : Storage.t) :
  consistent s → (∀ buf, FieldData.contents file = Some buf → unmistaken s buf) →
  match upload_file user tag file s with
  | (Ok id, s') => ∃ filename buf mime metadata,
      acceptable user tag file (Storage.world s) filename buf mime metadata ∧
      uploaded s s' id buf mime metadata
  | (_, s') => ∀ i d, ¬ doomed s i → content s i d → content s' i d
  end.
Proof.
  intros Hs Hfair. pose proof (upload_run_retains user tag file s Hfair) as Hrun.
  destruct (upload_file user tag file s) as [[id|e|] s']; destruct Hrun as [Hret Hok].
  - by apply Hok.
  - destruct (Hret Hs) as [_ Hkeep]. intros i d Hi. by apply Hkeep.
  - destruct (Hret Hs) as [_ Hkeep]. intros i d Hi. by apply Hkeep.
Qed.
End Service.

(** ** Examples *)

(** Texts that are their own hash, ciphers that mark the text, images that begin with "png" and
    hold private data after that, a scanner that is not there, and a cache that holds everything *)
Module AutumnInstances.
#[local] Instance settings : FilesSettings :=
  FilesConfig.mk "................................" (SpecFloat.S754_zero false) ["blocked/type"] "" [] 1
    (list_to_map [("avatars", (128, 128)%Z)]) "bucket".
#[refine, local] Instance crypto : Crypto := {|
  base64_decode s := Some s;
  base64_encode s := s;
  aes256_gcm_encrypt _ _ text := Some (String "*"%char text);
  aes256_gcm_decrypt _ _ cipher := match cipher with String "*"%char text => Some text | _ => None end;
  generate_nonce _ := "............";
  sha256 s := s
|}.
Proof.
  - done.
  - done.
  - by intros ? ? text ? [= <-].
  - done.
Defined.
(** The store answers every request. *)
#[local] Instance store_answers : S3 := {| answered _ := true; applied _ := false |}.
#[local] Instance media : Media := {|
  infer b := if String.prefix "png" b then Some "image/png" else None;
  utf8 _ := false;
  imagesize _ := Some (1, 1)%Z;
  ffprobe _ := None;
  ffmpeg _ _ := None;
  write_temp b := Some b;
  image := string; decoder := string; profile := unit; transform := unit;
  open_decoder b := Some b; icc_profile _ := Some None; from_decoder b := Some b;
  orientation _ := None;
  fliph i := i; rotate90 i := i; rotate180 i := i; rotate270 i := i;
  width _ := 1%Z; height _ := 1%Z; has_alpha _ := false; is_rgb8 _ := true; is_rgba8 _ := false;
  into_rgb8 i := i; into_rgba8 i := i; thumbnail i _ _ := i; rgba_to_thumb_hash _ := [];
  encode _ _ := Some "png";
  new_icc _ := None; new_transform _ _ := None; transform_in_place _ i := i;
  gif_frames _ := None; png_decoder b := Some b; is_apng _ := Some false; webp_animation _ := None;
  decode_jxl _ := None; svg := unit; pixmap := unit; svg_tree _ := None; svg_size _ := (0, 0)%Z;
  new_pixmap _ _ := None; render_svg _ p := p; from_vec _ _ _ := None;
  webp_encoder i := Some i; webp_lossy _ i := i; webp_lossless i := i
|}.
#[local] Instance lower : Lowercase := ascii_lowercase.
#[local] Instance scanner : ClamAV := {| scan_buffer_tcp _ _ := None; clean _ := None |}.
#[refine, local] Instance cache : MokaCache := {|
  moka A := gmap string A;
  moka_empty A := ∅;
  moka_get A k _ c := c !! k;
  moka_insert A k v _ c := <[k := v]> c
|}.
Proof.
  - done.
  - intros A k v now c k' now' v' [[-> ->]|[? ?]]%lookup_insert_Some; [by left|right]. split; [done|]. by exists now.
Defined.
#[local] Instance server : Axum := {| header_value _ := true; encode_component s := s |}.
#[local] Instance env : Environment := Fixture.environment 10.

Definition alice : User.t := Fixture.user "alice" [].
Definition empty : Storage.t := Storage.mk World.empty ∅ 0 0 (moka_empty).
Definition form (name bytes : string) : FieldData.t := FieldData.mk (Some name) (Some bytes).
End AutumnInstances.

Section Examples.
Import AutumnInstances.
#[local] Existing Instances canonical_iter settings crypto store_answers media lower scanner cache server env.

Definition upload_as (tag : Tag.t) (name bytes : string) (s : Storage.t) : Storage.t :=
  (upload_file alice tag (form name bytes) s).2.
Definition in_api (op : FileOp.t) (s : Storage.t) : Storage.t :=
  (in_db (on_files (FileOp.perform op)) s).2.
Definition use_avatar (id : string) : FileOp.t :=
  FileOp.Use id "avatars" (FileUsedFor.mk FileUsedForType.UserAvatar "alice") "alice".

Lemma empty_consistent : consistent AutumnInstances.empty.
Proof. split; try done; intros * ?; by rewrite lookup_empty in *. Qed.
Lemma anything_is_new buf : unmistaken AutumnInstances.empty buf.
Proof. intros _. split; [by intros now d|]. by intros. Qed.
Lemma uploads_are_consistent tag name bytes :
  consistent (upload_as tag name bytes AutumnInstances.empty).
Proof.
  unfold upload_as. pose proof (upload_run_retains alice tag (form name bytes) AutumnInstances.empty) as Hrun.
  destruct (upload_file _ _ _ _) as [r s]. destruct Hrun as [Hret _]; [intros; apply anything_is_new|].
  apply Hret, empty_consistent.
Qed.

(** An avatar with private data *)
Definition avatar_uploaded : Storage.t := upload_as Tag.avatars "me.png" "png+gps" AutumnInstances.empty.
Definition avatar_used : Storage.t := in_api (use_avatar "id") avatar_uploaded.

Lemma avatar_content : content avatar_uploaded "id" "png".
Proof.
  eexists _, _, _. split; [by vm_compute|]. split; [done|]. split; [by vm_compute|]. split; [done|].
  exists "*png". split; [by vm_compute|].
  exists "................................", "............". split_and!; by vm_compute.
Qed.

Lemma files_keep_their_content_witness :
  consistent (file_deletion avatar_uploaded).2 ∧ content (file_deletion avatar_uploaded).2 "id" "png".
Proof.
  apply (files_keep_their_content avatar_uploaded).
  - by intros n.
  - apply uploads_are_consistent.
  - apply rtc_once. split; [apply happens_deletion|]. intros (f & Hf & Hdel & _). vm_compute in Hf.
    by injection Hf as <-.
  - apply avatar_content.
Defined.

Lemma downloads_give_the_content_witness :
  (fetch_file Tag.avatars "id" "me.png" avatar_used).1 = Ok (Response.Data "image/png" "attachment" "png").
Proof.
  assert (consistent avatar_used ∧ content avatar_used "id" "png") as [Hs Hc].
  { destruct (file_op_retains (use_avatar "id") avatar_uploaded) as [? Hk]; [apply uploads_are_consistent|].
    split; [done|]. apply Hk, avatar_content. }
  destruct (downloads_give_the_content avatar_used Tag.avatars "id" "me.png" "png" Hs Hc) as [_ Hget].
  edestruct Hget as [content_type Hrun]; [by vm_compute|done|done|done|by eexists|done|done|].
  rewrite Hrun. vm_compute in Hrun. congruence.
Defined.

Lemma uploads_are_checked_witness :
  match upload_file alice Tag.avatars (form "me.png" "png+gps") AutumnInstances.empty with
  | (Ok id, s') => ∃ filename buf mime metadata,
      acceptable alice Tag.avatars (form "me.png" "png+gps") World.empty filename buf mime metadata ∧
      uploaded AutumnInstances.empty s' id buf mime metadata
  | _ => False
  end.
Proof.
  assert (is_ok (upload_file alice Tag.avatars (form "me.png" "png+gps") AutumnInstances.empty).1 = true) as Hok
    by by vm_compute.
  pose proof (uploads_are_checked alice Tag.avatars (form "me.png" "png+gps") AutumnInstances.empty
    empty_consistent (λ buf _, anything_is_new buf)) as Hrun.
  destruct (upload_file _ _ _ _) as [[id| |] s]; done.
Defined.

(** *** What the conditions of the theorems exclude *)

(** A picture that is what another becomes when its private data is taken out: the hash of the one
    finds the entry of the other, and deleting the copy deletes the other's file. *)
Lemma deleting_a_copy_deletes_another :
  let s := in_api (use_avatar "nid") (upload_as Tag.avatars "b.png" "png+gps"
             (upload_as Tag.avatars "a.png" "png" AutumnInstances.empty)) in
  (fetch_file Tag.avatars "nid" "b.png" s).1 = Ok (Response.Data "image/png" "attachment" "png") ∧
  (fetch_file Tag.avatars "nid" "b.png" (file_deletion (in_api (FileOp.Delete "id") s)).2).1 =
    Err ErrorType.NotFound.
Proof. by vm_compute. Qed.

(** A picture that was uploaded before as the attachment "a.apk" is no picture for anyone. *)
Lemma first_name_decides_the_type :
  let s := upload_as Tag.avatars "me.png" "png" (upload_as Tag.attachments "a.apk" "png" AutumnInstances.empty) in
  (λ f, (File.metadata f, File.content_type f)) <$> file_table s !! "nid" =
    Some (Metadata.File, "application/vnd.android.package-archive").
Proof. by vm_compute. Qed.
(** And its private data is not taken out. *)
Lemma first_name_keeps_private_data :
  let s := in_api (use_avatar "nid") (upload_as Tag.avatars "me.png" "png+gps"
             (upload_as Tag.attachments "a.apk" "png+gps" AutumnInstances.empty)) in
  (fetch_file Tag.avatars "nid" "me.png" s).1 =
    Ok (Response.Data "application/vnd.android.package-archive" "attachment" "png+gps").
Proof. by vm_compute. Qed.

(** An upload between counting the references and deleting the object is lost. *)
Lemma upload_during_deletion_is_lost :
  let s := in_api (FileOp.Delete "id") avatar_used in
  match references_of "png+gps" s with
  | (Ok found, s) =>
      let s := in_api (use_avatar "nid") (upload_as Tag.avatars "me.png" "png+gps" s) in
      is_ok (fetch_file Tag.avatars "nid" "me.png" s).1 = true ∧
      (fetch_file Tag.avatars "nid" "me.png" (remove_object found s).2).1 = Err ErrorType.NotFound
  | _ => False
  end.
Proof. by vm_compute. Qed.
End Examples.

(** The object was deleted, but the answer did not arrive: the entry stays, and who uploads the same
    bytes again gets a file that cannot be read. *)
Section LostAnswer.
Import AutumnInstances.
#[local] Existing Instances canonical_iter settings crypto media lower scanner cache server env.
#[local] Instance store_loses : S3 := {| answered n := negb (n =? 1)%nat; applied _ := true |}.

Lemma lost_answer_loses_uploads :
  let s := in_api (FileOp.Delete "id") (upload_file alice Tag.avatars (form "me.png" "png") AutumnInstances.empty).2 in
  match file_deletion s with
  | (Err ErrorType.InternalError, s) =>
      match upload_file alice Tag.avatars (form "again.png" "png") s with
      | (Ok id, s) => (fetch_file Tag.avatars id "again.png" (in_api (use_avatar id) s)).1 = Err ErrorType.InternalError
      | _ => False
      end
  | _ => False
  end.
Proof. by vm_compute. Qed.
End LostAnswer.

(** An image whose animation is not known has no preview: what is found out cannot be kept. *)
Lemma unknown_animation_has_no_preview
    `{Environment, HashIter, FilesSettings, Crypto, S3, Media, MokaCache}
    (e : FileHash.t) (s : Storage.t) w h t :
  hash_table s !! FileHash.id e = Some e → FileHash.metadata e = Metadata.Image w h t None →
  is_ok (animation e s).1 = false.
Proof.
  intros He Hm. unfold animation. rewrite Hm, M_bind_unfold.
  destruct (retrieve_file_by_hash e s) as [[data| |] s'] eqn:Hrun; [|done..].
  rewrite M_bind_unfold. cbn [lift]. destruct (internal_error _) as [file| |]; [|done..].
  rewrite M_bind_unfold, in_hashes. unfold FileHashesTable.set_attachment_hash_animated.
  assert (hash_table s' = hash_table s) as ->.
  { unfold retrieve_file_by_hash in Hrun. destruct (moka_get _ _ _); [by injection Hrun as _ <-|].
    pose proof (fetch_run e s) as Hfetch. destruct (fetch_from_s3 _ _ _ s) as [r s2].
    destruct Hfetch as (Hw & _). unfold hash_table. destruct r; injection Hrun as _ <-; cbn; by rewrite Hw. }
  by rewrite He, Hm.
Qed.
