(* ===== verification/Pushd.v ===== *)
(** * The daemon of push notifications ([crates/daemons/pushd])

    What the API hands to the broker ([amqp/amqp.rs]) is taken by the inbound consumers, which
    find the sessions to notify and queue a payload for each with the service of its
    subscription; the outbound consumers build the message of the vendor and send it. The
    vendors, regular expressions and [SET] with an expiry are parameters; [anyhow] errors, which
    are only logged, are all the same error. *)

From stdpp Require Import base list gmap strings.
From Stdlib Require Import ZArith Lia.
From S2P Require Import Prelude Errors Permissions PermissionSpec Files Users Servers Channels.
From S2P Require Import PermissionQuery Messages Unreads Config Emojis Webhooks Bots AuditLogs.
From S2P Require Import Accounts World Database PermissionTheorems BulkPermissions Relationships.
From S2P Require Import ChannelOps ServerOps Parser References Redis MessageCreate Acker UserOps Voice.
From S2P Require Import Decimal Presence.

(** ** Configuration ([config/src/lib.rs]) *)

Module Pushd.
Record t : Type := mk {
  production : bool;
  exchange : string;
  mass_mention_chunk_size : nat;
  render_cache_time : Z;
  message_queue : string;
  mass_mention_queue : string;
  dm_call_queue : string;
  fr_accepted_queue : string;
  fr_received_queue : string;
  generic_queue : string;
  ack_queue : string;
  vapid_queue : string;
  fcm_queue : string;
  apn_queue : string;
  (** whether [apn.pkcs8], [fcm.auth_uri] and [vapid.public_key] are set *)
  has_apn : bool;
  has_fcm : bool;
  has_vapid : bool;
  (** [api.livekit.call_ring_duration] *)
  call_ring_duration : Z
}.
Definition get_routing_key (self : t) (key : string) : string :=
  if production self then key +:+ "-prd" else key +:+ "-tst".
Definition get_message_routing_key (self : t) : string := get_routing_key self (message_queue self).
Definition get_mass_mention_routing_key (self : t) : string :=
  get_routing_key self (mass_mention_queue self).
Definition get_dm_call_routing_key (self : t) : string := get_routing_key self (dm_call_queue self).
Definition get_fr_accepted_routing_key (self : t) : string :=
  get_routing_key self (fr_accepted_queue self).
Definition get_fr_received_routing_key (self : t) : string :=
  get_routing_key self (fr_received_queue self).
Definition get_generic_routing_key (self : t) : string := get_routing_key self (generic_queue self).
End Pushd.

(** ** Payloads ([events/rabbit.rs]) *)

Module DmCallPayload.
Record t : Type := mk {
  initiator_id : string; channel_id : string; started_at : option string; ended : bool
}.
End DmCallPayload.

Module GenericPayload.
Record t : Type := mk { title : string; body : string; icon : option string; user : User.t }.
End GenericPayload.

(** What is serialised into a message of the broker *)
Module Delivery.
Inductive t : Type :=
| MessageSentPayload (notification : PushNotification.t) (users : list string)
| MassMessageSentPayload (notifications : list PushNotification.t) (server_id : string)
| FRAcceptedPayload (accepted_user : User.t) (user : string)
| FRReceivedPayload (from_user : User.t) (user : string)
| GenericPayload (payload : GenericPayload.t)
| InternalDmCallPayload (payload : DmCallPayload.t) (recipients : option (list string))
| AckPayload (user_id channel_id message_id : string).
End Delivery.

Module PayloadKind.
Inductive t : Type :=
| MessageNotification (alert : PushNotification.t)
| FRAccepted (accepted_user : User.t) (user : string)
| FRReceived (from_user : User.t) (user : string)
| BadgeUpdate (count : nat)
| Generic (alert : GenericPayload.t)
| DmCallStartEnd (alert : DmCallPayload.t).
End PayloadKind.

Module PayloadToService.
Record t : Type := mk {
  notification : PayloadKind.t;
  user_id : string;
  session_id : string;
  token : string;
  extras : gmap string string
}.
End PayloadToService.

(** ** Messages of the vendors *)

(** A value of a JSON object *)
Module JsonValue.
Inductive t : Type := String (s : string) | Bool (b : bool) | Number (n : Z).
End JsonValue.

(** [a2]'s payload: the alert, the badge and so on, and what is added to [aps] *)
Module ApnAlert.
Record t : Type := mk {
  title : option string; body : option string; loc_key : option string;
  loc_args : option (list string)
}.
End ApnAlert.
Module ApnData.
Inductive t : Type :=
| None
| Message (message : PushNotification.t) (channel_name : string)
| Call (initiator_id channel_id started_at : string) (ended : bool).
End ApnData.
Module APS.
Record t : Type := mk {
  alert : option ApnAlert.t; badge : option Z; sound : option string;
  thread_id : option string; mutable_content : option Z
}.
Definition default : t := mk None None None None None.
End APS.

(** The body of a web push: a sentence in an object, or a payload as it is *)
Module WebPushBody.
Inductive t : Type :=
| Sentence (body : string)
| Generic (alert : GenericPayload.t)
| Message (alert : PushNotification.t).
End WebPushBody.

Module VendorMessage.
Inductive t : Type :=
| Apn (token : string) (aps : APS.t) (data : ApnData.t)
| Fcm (token : string) (data : gmap string JsonValue.t)
| WebPush (endpoint auth p256dh : string) (body : WebPushBody.t).
End VendorMessage.

(** What a vendor answers: it took the message, it does not know the device (any more), or
    something else went wrong. *)
Module VendorAnswer.
Inductive t : Type := Accepted | Unregistered | Failed.
End VendorAnswer.
(** And whether the crate can encrypt and sign a web push for a subscription *)
Class Vendors := {
  vendor_answers : Z → VendorMessage.t → VendorAnswer.t;
  web_push_builds : VendorMessage.t → bool
}.

(** [Regex::new(pattern).unwrap()] and [replace_all(body, replacement)], pattern first;
    [SET] with an expiry in seconds *)
Class Render := {
  replace_all : string → string → string → string;
  redis_set_ex : string → string → Z → Z → store → option unit * store
}.

(** ** The daemon *)

(** The world, what is queued for the services (with the routing key), and what was sent to
    the vendors *)
Module Daemon.
Record t : Type := mk {
  world : World.t;
  queued : list (string * PayloadToService.t);
  sent : list VendorMessage.t
}.
Definition set_world (s : t) x : t := mk x (queued s) (sent s).
Definition set_queued (s : t) x : t := mk (world s) x (sent s).
Definition set_sent (s : t) x : t := mk (world s) (queued s) x.
End Daemon.

Abbreviation P := (M ErrorType.t Daemon.t).

Definition on_world {A} (m : H A) : P A :=
  λ s, let '(r, w) := m (Daemon.world s) in (r, Daemon.set_world s w).
(** [anyhow::bail!] *)
Definition bail {A} : P A := throw ErrorType.InternalError.

(** ** Rendering ([utils/renderer.rs]) *)

Section Renderer.
Context `{HashIter, Redis, Render, Lexer}.
Context (config : Pushd.t).

Definition user_key (server : option string) (id : string) : string :=
  "pushd-user-cache:" +:+ default "GLOBAL" server +:+ ":" +:+ id.

(** A name that is in the cache, or is looked up and kept there *)
Definition cached_name (key : string) (look_up : H string) : H string :=
  connection ;;
  now ← clock;
  cached ← gets (λ w, redis_get key now (World.redis w));
  match cached with
  | Some (Some name) => mret name
  | _ =>
      name ← look_up;
      stored ← on_redis (redis_set_ex key name (Pushd.render_cache_time config));
      internal stored ;;
      mret name
  end.

Definition get_user_display_name (id : string) (server : option string) : H string :=
  cached_name (user_key server id) (
    nickname ← match server with
               | Some server =>
                   member ← on_members (MembersTable.fetch_member server id);
                   mret (Member.nickname member)
               | None => mret None
               end;
    match nickname with
    | Some nickname => mret nickname
    | None =>
        user ← on_users (UsersTable.fetch_user id);
        mret (default (User.username user) (User.display_name user))
    end).

Definition get_channel_name (id : string) : H string :=
  cached_name ("pushd-channel-cache:" +:+ id) (
    channel ← on_channels (ChannelsTable.fetch_channel id);
    mret (match channel with
          | Channel.DirectMessage _ => "DM Channel"
          | Channel.Group c => Group.name c
          | Channel.TextChannel c => TextChannel.name c
          | Channel.SavedMessages _ => "Err"
          end)).

Definition get_role_name (id server : string) : H string :=
  cached_name ("pushd-role-cache:" +:+ server +:+ ":" +:+ id) (
    server ← on_servers (ServersTable.fetch_server server);
    role ← lift (ok_or (Server.roles server !! id) ErrorType.NotFound);
    mret (Role.name role)).

Definition get_emoji_name (id : string) : H string :=
  cached_name ("pushd-emoji-cache:" +:+ id) (
    emoji ← on_emojis (EmojisTable.fetch_emoji id);
    mret (Emoji.name emoji)).

(** The name of each item, or a replacement for it *)
Fixpoint get_items (items : list string) (getter : string → H string) (invalid : string) :
    H (list (string * string)) :=
  match items with
  | [] => mret []
  | id :: items =>
      name ← attempt (getter id);
      rest ← get_items items getter invalid;
      mret ((id, default invalid name) :: rest)
  end.

Definition replace_items (before after name_before name_after : string)
    (items : list (string * string)) (body : string) : string :=
  fold_left (λ body item, replace_all (before +:+ item.1 +:+ after) body
                            (name_before +:+ item.2 +:+ name_after))
    (hash_iter (list_to_map items : gmap string string)) body.

Definition get_channel_server_id (channel_id : string) : H string :=
  channel ← on_channels (ChannelsTable.fetch_channel channel_id);
  match channel with
  | Channel.TextChannel c => mret (TextChannel.server c)
  | _ => throw ErrorType.NotFound
  end.

Definition render_notification_content (notification : PushNotification.t) : H string :=
  let body := PushNotification.body notification in
  parsed ← lift (unwrap (parse_message lex body));
  server_id ← attempt (get_channel_server_id (Channel.id (PushNotification.channel notification)));
  user_mentions ← get_items (hash_set_iter (MessageResults.user_mentions parsed))
                    (λ id, get_user_display_name id server_id) "Unknown User";
  channel_mentions ← get_items (hash_set_iter (MessageResults.channel_mentions parsed))
                       get_channel_name "Unknown Channel";
  emojis ← get_items (hash_set_iter (MessageResults.emojis parsed)) get_emoji_name "Unknown Emoji";
  roles ← match server_id with
          | Some server =>
              get_items (hash_set_iter (MessageResults.role_mentions parsed))
                (λ id, get_role_name id server) "Unknown Role"
          | None => mret []
          end;
  mret (replace_items ":" ":" ":" ":" emojis
         (replace_items "<%" ">" "%" "" roles
           (replace_items "<#" ">" "#" "" channel_mentions
             (replace_items "<@" ">" "@" "" user_mentions body)))).

Definition rendered (notification : PushNotification.t) (body : string) : PushNotification.t :=
  PushNotification.mk (PushNotification.author notification) (PushNotification.icon notification)
    (PushNotification.image notification) body (Some (PushNotification.body notification))
    (PushNotification.tag notification) (PushNotification.timestamp notification)
    (PushNotification.url notification) (PushNotification.message notification)
    (PushNotification.channel notification).

(** The notification with its body rendered, if that succeeds *)
Definition render (notification : PushNotification.t) : P PushNotification.t :=
  body ← on_world (attempt (render_notification_content notification));
  mret (match body with Some body => rendered notification body | None => notification end).
End Renderer.

(** ** Inbound ([consumers/inbound]) *)

Section Inbound.
Context `{HashIter, Redis, RedisCommands, Render, Lexer, Broker}.
Context (config : Pushd.t).

(** [publish_message] *)
Definition publish_message (payload : PayloadToService.t) (routing_key : string) : P unit :=
  now ← on_world clock;
  if broker_accepts now
  then modify (λ s, Daemon.set_queued s (Daemon.queued s ++ [(routing_key, payload)])) else bail.

(** The queue of the service of a subscription, and what the service needs besides the token *)
Definition route (sub : WebPushSubscription.t) : string * gmap string string :=
  if bool_decide (WebPushSubscription.endpoint sub = "apn") then (Pushd.apn_queue config, ∅) else
  if bool_decide (WebPushSubscription.endpoint sub = "fcm") then (Pushd.fcm_queue config, ∅) else
  (Pushd.vapid_queue config,
   {[ "p256dh" := WebPushSubscription.p256dh sub;
      "endpoint" := WebPushSubscription.endpoint sub ]}).

Definition sendable (kind : PayloadKind.t) (session : Session.t) (sub : WebPushSubscription.t) :
    PayloadToService.t :=
  PayloadToService.mk kind (Session.user_id session) (Session.id session)
    (WebPushSubscription.auth sub) (route sub).2.

(** The loop over sessions: those with a subscription get a payload. *)
Definition push_to_sessions (kind : PayloadKind.t) (sessions : list Session.t) : P unit :=
  for_each sessions (λ session,
    match Session.subscription session with
    | Some sub => publish_message (sendable kind session sub) (route sub).1
    | None => mret tt
    end).

(** Sessions that cannot be fetched are not notified. *)
Definition push_to_users (kind : PayloadKind.t) (users : list string) : P unit :=
  sessions ← on_world (attempt (on_sessions (SessionsTable.fetch_sessions_with_subscription users)));
  push_to_sessions kind (default [] sessions).
Definition push_to_user (kind : PayloadKind.t) (user : string) : P unit :=
  sessions ← on_world (attempt (on_sessions (SessionsTable.fetch_sessions user)));
  push_to_sessions kind (default [] sessions).

(** [message.rs] *)
Definition consume_message (delivery : Delivery.t) : P unit :=
  match delivery with
  | Delivery.MessageSentPayload notification users =>
      notification ← render config notification;
      push_to_users (PayloadKind.MessageNotification notification) users
  | _ => bail
  end.

(** [generic.rs]: it reads what [message.rs] does. *)
Definition consume_generic (delivery : Delivery.t) : P unit :=
  match delivery with
  | Delivery.MessageSentPayload notification users =>
      push_to_users (PayloadKind.MessageNotification notification) users
  | _ => bail
  end.

(** [fr_accepted.rs] and [fr_received.rs] *)
Definition consume_fr_accepted (delivery : Delivery.t) : P unit :=
  match delivery with
  | Delivery.FRAcceptedPayload accepted_user user =>
      push_to_user (PayloadKind.FRAccepted accepted_user user) user
  | _ => bail
  end.
Definition consume_fr_received (delivery : Delivery.t) : P unit :=
  match delivery with
  | Delivery.FRReceivedPayload from_user user =>
      push_to_user (PayloadKind.FRReceived from_user user) user
  | _ => bail
  end.

(** [dm_call.rs] *)
Definition call_recipients (recipients : list string) (wanted : option (list string))
    (initiator : string) : list string :=
  match wanted with
  | Some wanted =>
      List.filter (λ id, bool_decide (id ∈ recipients) && negb (bool_decide (id = initiator))) wanted
  | None => List.filter (λ id, negb (bool_decide (id = initiator))) recipients
  end.
Definition consume_dm_call (delivery : Delivery.t) : P unit :=
  match delivery with
  | Delivery.InternalDmCallPayload payload wanted =>
      channel ← on_world (on_channels (ChannelsTable.fetch_channel (DmCallPayload.channel_id payload)));
      match match channel with
            | Channel.DirectMessage c => Some (DirectMessage.recipients c)
            | Channel.Group c => Some (Group.recipients c)
            | _ => None
            end with
      | Some recipients =>
          for_each (call_recipients recipients wanted (DmCallPayload.initiator_id payload))
            (push_to_user (PayloadKind.DmCallStartEnd payload))
      | None => mret tt
      end
  | _ => bail
  end.

(** [ack.rs]: the number of mentions, for the sessions on Apple's platforms *)
Definition apple_session (session : Session.t) : bool :=
  match Session.subscription session with
  | Some sub => bool_decide (WebPushSubscription.endpoint sub = "apn")
  | None => false
  end.
Fixpoint mention_count (unreads : list ChannelUnread.t) : Result nat :=
  match unreads with
  | [] => Ok 0
  | u :: unreads =>
      mentions ← unwrap (ChannelUnread.mentions u);
      rest ← mention_count unreads;
      Ok (length mentions + rest)
  end.
Definition consume_ack (delivery : Delivery.t) : P unit :=
  match delivery with
  | Delivery.AckPayload user_id _ _ =>
      unreads ← on_world (attempt (on_unreads (UnreadsTable.fetch_unread_mentions user_id)));
      match unreads with
      | None | Some [] => mret tt
      | Some unreads =>
          sessions ← on_world (attempt (on_sessions (SessionsTable.fetch_sessions user_id)));
          match sessions with
          | None => mret tt
          | Some sessions =>
              let apple_sessions := List.filter apple_session sessions in
              if bool_decide (length apple_sessions = 0) then mret tt else
              count ← lift (mention_count unreads);
              for_each apple_sessions (λ session,
                match Session.subscription session with
                | Some sub =>
                    publish_message
                      (PayloadToService.mk (PayloadKind.BadgeUpdate count) user_id
                         (Session.id session) (WebPushSubscription.auth sub) ∅)
                      (Pushd.apn_queue config)
                | None => panic
                end)
          end
      end
  | _ => bail
  end.

(** *** Mass mentions ([mass_mention.rs]) *)

(** The next rows of the generator, at most [n], and whether it is exhausted *)
Fixpoint next_chunk (n : nat) (self : ChunkedDatabaseGenerator.t Member.t) :
    list Member.t * bool * ChunkedDatabaseGenerator.t Member.t :=
  match n with
  | O => ([], false, self)
  | S n =>
      match ChunkedDatabaseGenerator.next self with
      | (Some member, self) =>
          let '(chunk, exhausted, self) := next_chunk n self in (member :: chunk, exhausted, self)
      | (None, self) => ([], true, self)
      end
  end.

Definition user_of (m : Member.t) : string := MemberCompositeKey.user (Member.id m).
Definition message_of (push : PushNotification.t) : Message.t := (PushNotification.message push).1.1.
Definition existing_mentions (push : PushNotification.t) : list string :=
  default [] (Message.mentions (message_of push)).

(** Everybody: those who are offline and not mentioned anyway *)
Definition notify_chunk (push : PushNotification.t) (chunk : list Member.t) : P unit :=
  let channel := Channel.id (PushNotification.channel push) in
  let userids := user_of <$> chunk in
  on_world (attempt (on_unreads
    (UnreadsTable.add_mention_to_many_unreads channel userids [channel]))) ;;
  online_users ← on_world (filter_online userids);
  push_to_users (PayloadKind.MessageNotification push)
    (List.filter (λ id, negb (bool_decide (id ∈ (online_users : gset string))) &&
                        negb (bool_decide (id ∈ existing_mentions push))) userids).

(** Roles: those of the chunk who can view the channel and are offline *)
Definition notify_role_chunk (query : BulkDatabasePermissionQuery.t) (push : PushNotification.t)
    (chunk : list Member.t) : P unit :=
  viewable ← lift (Bulk.members_can_see_channel
               (BulkDatabasePermissionQuery.with_members query chunk));
  let viewing_members :=
    (List.filter (λ uv : string * bool, uv.2 && negb (bool_decide (uv.1 ∈ existing_mentions push)))
       (hash_iter viewable)).*1 in
  online ← on_world (filter_online viewing_members);
  push_to_users (PayloadKind.MessageNotification push)
    (List.filter (λ id, negb (bool_decide (id ∈ (online : gset string)))) viewing_members).

(** The loop over chunks. With chunks of no members it does not end; the fuel is enough
    otherwise. *)
Fixpoint for_chunks (fuel : nat) (body : list Member.t → P unit)
    (members : ChunkedDatabaseGenerator.t Member.t) : P unit :=
  match fuel with
  | O => panic
  | S fuel =>
      let '(chunk, exhausted, members) :=
        next_chunk (Pushd.mass_mention_chunk_size config) members in
      body chunk ;;
      if exhausted then mret tt else for_chunks fuel body members
  end.
Definition in_chunks (body : list Member.t → P unit) (members : list Member.t) : P unit :=
  for_chunks (S (length members)) body (ChunkedDatabaseGenerator.new_reference members).

Definition query_from (w : World.t) (server_id : string) (push : PushNotification.t) :
    Result BulkDatabasePermissionQuery.t :=
  query ← BulkDatabasePermissionQuery.from_server_id (World.db w) server_id (World.now w);
  match ChannelsTable.fetch_channel (Channel.id (PushNotification.channel push))
          (ReferenceDb.channels (World.db w)) with
  | (Ok channel, _) => Ok (BulkDatabasePermissionQuery.with_channel query channel)
  | _ => Panicked
  end.
Definition query_of (server_id : string) (push : PushNotification.t) :
    P BulkDatabasePermissionQuery.t :=
  s ← get; lift (query_from (Daemon.world s) server_id push).

Definition everyone_is_mentioned (push : PushNotification.t) : bool :=
  MessageFlagsValue.has
    (MessageFlagsValue.mk (as_u32 (default 0%Z (Message.flags (message_of push)))))
    MessageFlags.MentionsEveryone.

Definition notify_mass (server_id : string) (query : BulkDatabasePermissionQuery.t)
    (push : PushNotification.t) : P unit :=
  if everyone_is_mentioned push then
    members ← on_world (on_members (MembersTable.fetch_all_members server_id));
    in_chunks (notify_chunk push) members
  else
    match Message.role_mentions (message_of push) with
    | Some roles =>
        members ← on_world (on_members (MembersTable.fetch_all_members_with_roles server_id roles));
        in_chunks (notify_role_chunk query push) members
    | None => mret tt
    end.

(** The permission query is made for the first notification and used for all of them. *)
Fixpoint notify_all (server_id : string) (query : option BulkDatabasePermissionQuery.t)
    (pushes : list PushNotification.t) : P unit :=
  match pushes with
  | [] => mret tt
  | push :: pushes =>
      query ← match query with Some query => mret query | None => query_of server_id push end;
      notify_mass server_id query push ;;
      notify_all server_id (Some query) pushes
  end.

Fixpoint render_all (pushes : list PushNotification.t) : P (list PushNotification.t) :=
  match pushes with
  | [] => mret []
  | push :: pushes => push ← render config push; rest ← render_all pushes; mret (push :: rest)
  end.

Definition consume_mass_mention (delivery : Delivery.t) : P unit :=
  match delivery with
  | Delivery.MassMessageSentPayload notifications server_id =>
      pushes ← render_all notifications;
      notify_all server_id None pushes
  | _ => bail
  end.
End Inbound.

(** ** Outbound ([consumers/outbound]) *)

Module NotificationData.
Inductive t : Type :=
| FRReceived (id username : string)
| FRAccepted (id username : string)
| Generic (title body : string) (image : option string)
| Message (message body image channel author author_name : string)
| DmCallStartEnd (initiator_id channel_id started_at : string) (ended : bool) (duration : Z).
Definition get_type (self : t) : string :=
  match self with
  | FRReceived _ _ => "push.fr.receive"
  | FRAccepted _ _ => "push.fr.accept"
  | Generic _ _ _ => "push.generic"
  | Message _ _ _ _ _ _ => "push.message"
  | DmCallStartEnd _ _ _ _ _ => "push.dm.call"
  end.
Definition into_payload (self : t) : gmap string JsonValue.t :=
  let data := {[ "type" := JsonValue.String (get_type self) ]} in
  match self with
  | FRReceived id username | FRAccepted id username =>
      <["username" := JsonValue.String username]> (<["id" := JsonValue.String id]> data)
  | Generic title body image =>
      let data := <["body" := JsonValue.String body]> (<["title" := JsonValue.String title]> data) in
      match image with Some image => <["image" := JsonValue.String image]> data | None => data end
  | Message message body image channel author author_name =>
      <["author_name" := JsonValue.String author_name]> (<["author" := JsonValue.String author]>
        (<["channel" := JsonValue.String channel]> (<["image" := JsonValue.String image]>
          (<["body" := JsonValue.String body]> (<["message" := JsonValue.String message]> data)))))
  | DmCallStartEnd initiator_id channel_id started_at ended duration =>
      <["duration" := JsonValue.Number duration]> (<["ended" := JsonValue.Bool ended]>
        (<["started_at" := JsonValue.String started_at]>
          (<["channel_id" := JsonValue.String channel_id]>
            (<["initiator_id" := JsonValue.String initiator_id]> data))))
  end.
End NotificationData.

Section Outbound.
Context `{HashIter, Vendors}.
Context (config : Pushd.t).

(** The loop's end, which the three services share: a device the vendor does not know loses
    its subscription. *)
Definition send (session_id : string) (message : VendorMessage.t) : P unit :=
  now ← on_world clock;
  modify (λ s, Daemon.set_sent s (Daemon.sent s ++ [message])) ;;
  match vendor_answers now message with
  | VendorAnswer.Accepted => mret tt
  | VendorAnswer.Unregistered =>
      on_world (attempt (on_sessions
        (SessionsTable.remove_push_subscription_by_session_id session_id))) ;;
      mret tt
  | VendorAnswer.Failed => bail
  end.

Definition name_of (user : User.t) : string := default (User.username user) (User.display_name user).

(** *** [fcm.rs] *)

Definition notification_data (kind : PayloadKind.t) : option NotificationData.t :=
  match kind with
  | PayloadKind.FRReceived from_user _ =>
      Some (NotificationData.FRReceived (User.id from_user) (name_of from_user))
  | PayloadKind.FRAccepted accepted_user _ =>
      Some (NotificationData.FRAccepted (User.id accepted_user) (name_of accepted_user))
  | PayloadKind.Generic alert =>
      Some (NotificationData.Generic (GenericPayload.title alert) (GenericPayload.body alert)
              (GenericPayload.icon alert))
  | PayloadKind.MessageNotification alert =>
      let message := (PushNotification.message alert).1.1 in
      Some (NotificationData.Message (Message.id message) (PushNotification.body alert)
              (PushNotification.icon alert) (Message.channel message) (Message.author message)
              (PushNotification.author alert))
  | PayloadKind.DmCallStartEnd alert =>
      Some (NotificationData.DmCallStartEnd (DmCallPayload.initiator_id alert)
              (DmCallPayload.channel_id alert) (default "" (DmCallPayload.started_at alert))
              (DmCallPayload.ended alert) (Pushd.call_ring_duration config))
  | PayloadKind.BadgeUpdate _ => None
  end.

Definition consume_fcm (payload : PayloadToService.t) : P unit :=
  match notification_data (PayloadToService.notification payload) with
  | Some data =>
      send (PayloadToService.session_id payload)
        (VendorMessage.Fcm (PayloadToService.token payload) (NotificationData.into_payload data))
  | None => bail
  end.

(** *** [vapid.rs] *)

(** [util/funcs.rs] *)
Definition format_display_name (user_id : string) (server_id : option string) : H string :=
  nickname ← match server_id with
             | Some server => m ← on_members (MembersTable.fetch_member server user_id);
                              mret (Member.nickname m)
             | None => mret None
             end;
  match nickname with
  | Some nickname => mret nickname
  | None => user ← on_users (UsersTable.fetch_user user_id); mret (name_of user)
  end.

Definition web_push_body (kind : PayloadKind.t) : P WebPushBody.t :=
  match kind with
  | PayloadKind.FRReceived from_user _ =>
      mret (WebPushBody.Sentence (name_of from_user +:+ " sent you a friend request"))
  | PayloadKind.FRAccepted accepted_user _ =>
      mret (WebPushBody.Sentence (name_of accepted_user +:+ " accepted your friend request"))
  | PayloadKind.Generic alert => mret (WebPushBody.Generic alert)
  | PayloadKind.MessageNotification alert => mret (WebPushBody.Message alert)
  | PayloadKind.DmCallStartEnd alert =>
      channel ← on_world (on_channels (ChannelsTable.fetch_channel (DmCallPayload.channel_id alert)));
      initiator_name ← on_world (format_display_name (DmCallPayload.initiator_id alert)
                         match channel with
                         | Channel.TextChannel c => Some (TextChannel.server c)
                         | _ => None
                         end);
      channel ← on_world (on_channels (ChannelsTable.fetch_channel (DmCallPayload.channel_id alert)));
      match channel with
      | Channel.DirectMessage _ =>
          mret (WebPushBody.Sentence (initiator_name +:+ " is calling you"))
      | Channel.Group c =>
          mret (WebPushBody.Sentence (initiator_name +:+ " is calling your group, " +:+ Group.name c))
      | _ => bail
      end
  | PayloadKind.BadgeUpdate _ => bail
  end.

Definition consume_vapid (payload : PayloadToService.t) : P unit :=
  match PayloadToService.extras payload !! "endpoint", PayloadToService.extras payload !! "p256dh" with
  | Some endpoint, Some p256dh =>
      body ← web_push_body (PayloadToService.notification payload);
      let message := VendorMessage.WebPush endpoint (PayloadToService.token payload) p256dh body in
      if web_push_builds message then send (PayloadToService.session_id payload) message else bail
  | _, _ => bail
  end.

(** *** [apn.rs] *)

Definition format_title (notification : PushNotification.t) : string :=
  match PushNotification.channel notification with
  | Channel.DirectMessage _ => PushNotification.author notification
  | Channel.Group c => PushNotification.author notification +:+ ", #" +:+ Group.name c
  | Channel.TextChannel c => PushNotification.author notification +:+ " in #" +:+ TextChannel.name c
  | Channel.SavedMessages _ => "Unknown"
  end.

(** [Channel::name] of the API's model *)
Definition channel_name (c : Channel.t) : option string :=
  match c with
  | Channel.DirectMessage _ => None
  | Channel.SavedMessages _ => Some "Saved Messages"
  | Channel.TextChannel c => Some (TextChannel.name c)
  | Channel.Group c => Some (Group.name c)
  end.

Definition get_badge_count (user : string) : P (option Z) :=
  unreads ← on_world (attempt (on_unreads (UnreadsTable.fetch_unread_mentions user)));
  mret ((λ unreads,
    fold_left (λ mention_count channel,
      match ChannelUnread.mentions channel with
      | Some mentions => as_u32 (mention_count + as_u32 (Z.of_nat (length mentions)))
      | None => mention_count
      end) unreads 0%Z) <$> unreads).

(** An alert in the words of the application *)
Definition localised (key : string) (user : User.t) : ApnAlert.t :=
  ApnAlert.mk None None (Some key) (Some [name_of user]).
Definition titled (title body : string) : ApnAlert.t := ApnAlert.mk (Some title) (Some body) None None.

Definition apn_message (kind : PayloadKind.t) (badge : option Z) : APS.t * ApnData.t :=
  match kind with
  | PayloadKind.FRReceived from_user _ =>
      (APS.mk (Some (localised "push.fr.received" from_user)) badge (Some "default") None (Some 1%Z),
       ApnData.None)
  | PayloadKind.FRAccepted accepted_user _ =>
      (APS.mk (Some (localised "push.fr.accepted" accepted_user)) badge (Some "default") None
         (Some 1%Z), ApnData.None)
  | PayloadKind.Generic alert =>
      (APS.mk (Some (titled (GenericPayload.title alert) (GenericPayload.body alert))) badge
         (Some "default") None (Some 1%Z), ApnData.None)
  | PayloadKind.MessageNotification alert =>
      let title := format_title alert in
      let channel := PushNotification.channel alert in
      (APS.mk (Some (titled title (PushNotification.body alert))) badge (Some "default")
         (Some (Channel.id channel)) (Some 1%Z),
       ApnData.Message alert (default title (channel_name channel)))
  | PayloadKind.BadgeUpdate count =>
      (APS.mk None (Some (as_u32 (Z.of_nat count))) None None None, ApnData.None)
  | PayloadKind.DmCallStartEnd alert =>
      (APS.mk None badge None None (Some 1%Z),
       ApnData.Call (DmCallPayload.initiator_id alert) (DmCallPayload.channel_id alert)
         (default "" (DmCallPayload.started_at alert)) (DmCallPayload.ended alert))
  end.

Definition consume_apn (payload : PayloadToService.t) : P unit :=
  badge ← match PayloadToService.notification payload with
          | PayloadKind.BadgeUpdate _ => mret None
          | _ => get_badge_count (PayloadToService.user_id payload)
          end;
  let '(aps, data) := apn_message (PayloadToService.notification payload) badge in
  send (PayloadToService.session_id payload)
    (VendorMessage.Apn (PayloadToService.token payload) aps data).
End Outbound.

(** ** The broker and the consumers ([main.rs], [utils/consumer.rs], [amqp/amqp.rs]) *)

Module Consumer.
Inductive t : Type :=
| Generic | Message | FRReceived | FRAccepted | MassMessage | DmCall | Apns | Ack | Fcm | Vapid.
End Consumer.

Module Body.
Inductive t : Type := Inbound (delivery : Delivery.t) | Outbound (payload : PayloadToService.t).
End Body.

Section Main.
Context `{HashIter, Redis, RedisCommands, Render, Lexer, Broker, Vendors}.
Context (config : Pushd.t).

(** What [AMQP] publishes, with its routing key; acknowledgements to be processed go to another
    daemon. *)
Definition amqp_delivery (message : Amqp.t) : H (option (string * Delivery.t)) :=
  match message with
  | Amqp.FriendRequestAccepted accepted_request_user sent_request_user =>
      mret (Some (Pushd.get_fr_accepted_routing_key config,
        Delivery.FRAcceptedPayload accepted_request_user (User.id sent_request_user)))
  | Amqp.FriendRequestReceived received_request_user sent_request_user =>
      mret (Some (Pushd.get_fr_received_routing_key config,
        Delivery.FRReceivedPayload sent_request_user (User.id received_request_user)))
  | Amqp.GenericMessage user title body icon =>
      mret (Some (Pushd.get_generic_routing_key config,
        Delivery.GenericPayload (GenericPayload.mk title body icon user)))
  | Amqp.MessageSent [] _ => mret None
  | Amqp.MessageSent recipients payload =>
      online_ids ← filter_online recipients;
      mret (Some (Pushd.get_message_routing_key config,
        Delivery.MessageSentPayload payload
          (hash_set_iter (list_to_set recipients ∖ (online_ids : gset string)))))
  | Amqp.MassMentionMessageSent server_id payload =>
      mret (Some (Pushd.get_mass_mention_routing_key config,
        Delivery.MassMessageSentPayload payload server_id))
  | Amqp.AckNotificationMessage user_id channel_id message_id =>
      mret (Some (Pushd.ack_queue config, Delivery.AckPayload user_id channel_id message_id))
  | Amqp.DmCallUpdated initiator_id channel_id started_at ended recipients =>
      mret (Some (Pushd.get_dm_call_routing_key config,
        Delivery.InternalDmCallPayload
          (DmCallPayload.mk initiator_id channel_id started_at ended) recipients))
  | Amqp.ProcessAck _ _ _ => mret None
  end.

(** The routing key each consumer's queue is bound to *)
Definition bindings : list (string * Consumer.t) :=
  [(Pushd.get_generic_routing_key config, Consumer.Generic);
   (Pushd.get_message_routing_key config, Consumer.Message);
   (Pushd.get_fr_received_routing_key config, Consumer.FRReceived);
   (Pushd.get_fr_accepted_routing_key config, Consumer.FRAccepted);
   (Pushd.get_mass_mention_routing_key config, Consumer.MassMessage);
   (Pushd.get_dm_call_routing_key config, Consumer.DmCall)] ++
  (if Pushd.has_apn config
   then [(Pushd.apn_queue config, Consumer.Apns); (Pushd.ack_queue config, Consumer.Ack)] else []) ++
  (if Pushd.has_fcm config then [(Pushd.fcm_queue config, Consumer.Fcm)] else []) ++
  (if Pushd.has_vapid config then [(Pushd.vapid_queue config, Consumer.Vapid)] else []).

Definition consume (c : Consumer.t) (body : Body.t) : P unit :=
  match body with
  | Body.Inbound delivery =>
      match c with
      | Consumer.Generic => consume_generic config delivery
      | Consumer.Message => consume_message config delivery
      | Consumer.FRReceived => consume_fr_received config delivery
      | Consumer.FRAccepted => consume_fr_accepted config delivery
      | Consumer.MassMessage => consume_mass_mention config delivery
      | Consumer.DmCall => consume_dm_call config delivery
      | Consumer.Ack => consume_ack config delivery
      | Consumer.Apns | Consumer.Fcm | Consumer.Vapid => bail
      end
  | Body.Outbound payload =>
      match c with
      | Consumer.Apns => consume_apn payload
      | Consumer.Fcm => consume_fcm config payload
      | Consumer.Vapid => consume_vapid payload
      | _ => bail
      end
  end.

(** The exchange hands a message to the consumers whose queues are bound to its key; errors are
    logged, and the message is gone ([no_ack]). *)
Definition deliver (routing_key : string) (body : Body.t) : P unit :=
  for_each (List.filter (λ b : string * Consumer.t, bool_decide (b.1 = routing_key)) bindings)
    (λ b, attempt (consume b.2 body) ;; mret tt).

(** What the API sent, and what the inbound consumers queued *)
Definition receive (message : Amqp.t) : P unit :=
  delivery ← on_world (amqp_delivery message);
  match delivery with
  | Some (routing_key, delivery) => deliver routing_key (Body.Inbound delivery)
  | None => mret tt
  end.
Definition next_queued : P unit :=
  s ← get;
  match Daemon.queued s with
  | [] => mret tt
  | (routing_key, payload) :: queued =>
      modify (λ s, Daemon.set_queued s queued) ;; deliver routing_key (Body.Outbound payload)
  end.
End Main.

(** ** Frames of the daemon *)

Section Frames.
Context {C : Type} (f : World.t → C) (base : World.t) (Q : string * PayloadToService.t → Prop).
Context (vendors : list VendorMessage.t).

(** What [f] reads is as it was at first, nothing was sent, and everything queued is fine. *)
Definition fits (s : Daemon.t) : Prop :=
  f (Daemon.world s) = f base ∧ Daemon.sent s = vendors ∧ ∀ x, x ∈ Daemon.queued s → Q x.

(** [m] stays with that, and its results satisfy [R]. *)
Definition safe {A} (m : P A) (R : A → Prop) : Prop :=
  ∀ s, fits s → fits (m s).2 ∧ ∀ a, (m s).1 = Ok a → R a.

Lemma safe_bind {A B} (m : P A) (k : A → P B) R R' :
  safe m R → (∀ a, R a → safe (k a) R') → safe (m ≫= k) R'.
Proof.
  intros Hm Hk s Hs. rewrite M_bind_unfold. specialize (Hm s Hs).
  destruct (m s) as [[a| |] s']; simpl in *; [|split; [apply Hm|done]..].
  destruct Hm as [Hs' HR]. by apply Hk; [apply HR|].
Qed.
Lemma safe_ret {A} (a : A) (R : A → Prop) : R a → safe (mret a) R.
Proof. intros HR s Hs. split; [done|]. by intros ? [= <-]. Qed.
Lemma safe_throw {A} e (R : A → Prop) : safe (throw e) R.
Proof. by intros s Hs. Qed.
Lemma safe_panic {A} (R : A → Prop) : safe panic R.
Proof. by intros s Hs. Qed.
Lemma safe_lift {A} (o : Result A) (R : A → Prop) : (∀ a, o = Ok a → R a) → safe (lift o) R.
Proof. by intros HR s Hs. Qed.
Lemma safe_mono {A} (m : P A) (R R' : A → Prop) : safe m R → (∀ a, R a → R' a) → safe m R'.
Proof. intros Hm HR s Hs. destruct (Hm s Hs) as [? HRa]. split; [done|]. eauto. Qed.

Lemma safe_world {A} (m : H A) (R : A → Prop) :
  keeps f m → (∀ w a, f w = f base → (m w).1 = Ok a → R a) → safe (on_world m) R.
Proof.
  intros Hm HR s (Hf & Hv & HQ). unfold on_world. specialize (Hm (Daemon.world s)).
  specialize (HR (Daemon.world s)). destruct (m _) as [r w]. simpl in *.
  split; [|intros a ->; by apply HR]. split; [simpl; congruence|done].
Qed.
Lemma safe_for_each {A} (l : list A) (body : A → P unit) :
  (∀ a, a ∈ l → safe (body a) (λ _, True)) → safe (for_each l body) (λ _, True).
Proof.
  induction l as [|a l IH]; intros Hb; simpl; [by apply safe_ret|].
  eapply safe_bind; [apply Hb; left|]. intros _ _. apply IH. intros b Hin. apply Hb. by right.
Qed.
End Frames.

(** From states where [f] is kept to states where only [g] is *)
Section Lands.
Context {C C' : Type} (f : World.t → C) (g : World.t → C') (base : World.t).
Context (Q : string * PayloadToService.t → Prop) (vendors : list VendorMessage.t).
Hypothesis f_g : ∀ w, f w = f base → g w = g base.

Definition lands {A} (m : P A) : Prop :=
  ∀ s, fits f base Q vendors s → fits g base Q vendors (m s).2.

Lemma lands_bind {A B} (m : P A) (k : A → P B) R :
  safe f base Q vendors m R → (∀ a, R a → lands (k a)) → lands (m ≫= k).
Proof.
  intros Hm Hk s Hs. rewrite M_bind_unfold. destruct (Hm s Hs) as [Hf HR].
  destruct (m s) as [[a| |] s']; simpl in *; [|by split; [apply f_g, Hf|apply Hf]..].
  by apply Hk; [apply HR|].
Qed.
Lemma lands_safe {A} (m : P A) R : safe g base Q vendors m R → lands m.
Proof. intros Hm s Hs. apply Hm. split; [apply f_g, Hs|apply Hs]. Qed.
End Lands.

(** ** Who is notified *)

Section Audience.
Context `{HashIter, Redis, RedisCommands, Render, Lexer, Broker}.
Context (config : Pushd.t).

(** The notification as it was, or with its body rendered *)
Definition of_push (push push' : PushNotification.t) : Prop :=
  push' = push ∨ ∃ body, push' = rendered push body.

Definition recipients_of (channel : Channel.t) : list string :=
  match channel with
  | Channel.DirectMessage c => DirectMessage.recipients c
  | Channel.Group c => Group.recipients c
  | _ => []
  end.

(** One of the two sets that tell who is online, that of everybody and that of the user's sessions,
    knows nothing of the user, or the store cannot be asked. *)
Definition offline (w : World.t) (user : string) : Prop :=
  user ∉ default ∅ (World.redis_sets w !! "online") ∨
  default ∅ (World.redis_sets w !! ("sessions:" +:+ user)) = ∅ ∨
  redis_connects (World.now w) = false ∨
  ∃ values, redis_answers (World.now w) (values, World.redis_sets w) = false.

Definition member_of (w : World.t) (server : string) (user : string) : Prop :=
  ∃ m, m ∈ hash_values (ReferenceDb.server_members (World.db w)) ∧
    MemberCompositeKey.server (Member.id m) = server ∧ user_of m = user.

(** Some members with one of the roles, among whom the user is found to see the channel *)
Definition sees_with_role (w : World.t) (server : string) (first push : PushNotification.t)
    (user : string) : Prop :=
  ∃ roles query chunk seen,
    Message.role_mentions (message_of push) = Some roles ∧ query_from w server first = Ok query ∧
    (∀ m, m ∈ chunk → m ∈ hash_values (ReferenceDb.server_members (World.db w)) ∧
      MemberCompositeKey.server (Member.id m) = server ∧ MembersTable.has_any_role roles m = true) ∧
    Bulk.members_can_see_channel (BulkDatabasePermissionQuery.with_members query chunk) = Ok seen ∧
    seen !! user = Some true.

(** What the message of the broker means to say, and to whom *)
Definition tells (w : World.t) (d : Delivery.t) (user : string) (kind : PayloadKind.t) : Prop :=
  match d, kind with
  | Delivery.MessageSentPayload push users, PayloadKind.MessageNotification push' =>
      of_push push push' ∧ user ∈ users
  | Delivery.MassMessageSentPayload pushes server, PayloadKind.MessageNotification push' =>
      ∃ first push, head pushes = Some first ∧ push ∈ pushes ∧ of_push push push' ∧
        user ∉ existing_mentions push ∧ offline w user ∧
        (if everyone_is_mentioned push then member_of w server user
         else sees_with_role w server first push user)
  | Delivery.FRAcceptedPayload accepted user', PayloadKind.FRAccepted accepted' user'' =>
      accepted' = accepted ∧ user'' = user' ∧ user = user'
  | Delivery.FRReceivedPayload from user', PayloadKind.FRReceived from' user'' =>
      from' = from ∧ user'' = user' ∧ user = user'
  | Delivery.InternalDmCallPayload call wanted, PayloadKind.DmCallStartEnd call' =>
      call' = call ∧ user ≠ DmCallPayload.initiator_id call ∧
      (∀ l, wanted = Some l → user ∈ l) ∧
      ∃ channel, ReferenceDb.channels (World.db w) !! DmCallPayload.channel_id call = Some channel ∧
        user ∈ recipients_of channel
  | Delivery.AckPayload user' _ _, PayloadKind.BadgeUpdate count =>
      user = user' ∧ ∃ unreads,
        (on_unreads (UnreadsTable.fetch_unread_mentions user') w).1 = Ok unreads ∧
        count = list_sum ((λ unread, length (default [] (ChannelUnread.mentions unread))) <$> unreads)
  | _, _ => False
  end.

(** A payload for the device of a session: on the queue of the service its subscription names, or
    of web push, which needs the address and the key, and with the token of the subscription *)
Definition addressed (session : Session.t) (sub : WebPushSubscription.t)
    (x : string * PayloadToService.t) : Prop :=
  PayloadToService.user_id x.2 = Session.user_id session ∧
  PayloadToService.session_id x.2 = Session.id session ∧
  PayloadToService.token x.2 = WebPushSubscription.auth sub ∧
  (WebPushSubscription.endpoint sub = "apn" ∧ x.1 = Pushd.apn_queue config ∧
     PayloadToService.extras x.2 = ∅ ∨
   WebPushSubscription.endpoint sub = "fcm" ∧ x.1 = Pushd.fcm_queue config ∧
     PayloadToService.extras x.2 = ∅ ∨
   WebPushSubscription.endpoint sub ≠ "apn" ∧ WebPushSubscription.endpoint sub ≠ "fcm" ∧
     x.1 = Pushd.vapid_queue config ∧
     PayloadToService.extras x.2 !! "p256dh" = Some (WebPushSubscription.p256dh sub) ∧
     PayloadToService.extras x.2 !! "endpoint" = Some (WebPushSubscription.endpoint sub)).
Lemma sendable_addressed kind session sub :
  addressed session sub ((route config sub).1, sendable config kind session sub).
Proof.
  unfold addressed. do 3 (split; [done|]). cbn. unfold route.
  case_bool_decide; [by left|right]. case_bool_decide; [by left|right]. by split_and!.
Qed.

(** A payload for a session with a subscription, on the queue of its service *)
Definition for_session (w : World.t) (who : string → PayloadKind.t → Prop)
    (x : string * PayloadToService.t) : Prop :=
  ∃ session sub,
    session ∈ hash_values (ReferenceDb.sessions (World.db w)) ∧
    Session.subscription session = Some sub ∧
    addressed session sub x ∧
    who (Session.user_id session) (PayloadToService.notification x.2).

Section Steps.
Context {C : Type} (f : World.t → C) (base : World.t) (old : list (string * PayloadToService.t)).
Context (vendors : list VendorMessage.t).
Context (who : string → PayloadKind.t → Prop).
Hypothesis f_sessions : ∀ w, f w = f base →
  ReferenceDb.sessions (World.db w) = ReferenceDb.sessions (World.db base).

Definition fine (x : string * PayloadToService.t) : Prop := x ∈ old ∨ for_session base who x.
Abbreviation fine_step m := (safe f base fine vendors m (λ _, True)).

Lemma safe_publish payload key : fine (key, payload) → fine_step (publish_message payload key).
Proof.
  intros HQ. unfold publish_message. eapply safe_bind.
  { apply (safe_world _ _ _ _ _ (λ _, True)); [apply keeps_gets|done]. }
  intros now _. destruct (broker_accepts now); [|apply safe_throw].
  intros s (Hf & Hv & Hs). split; [|done]. split; [done|]. split; [done|]. simpl.
  intros x [Hx|Hx%list_elem_of_singleton]%elem_of_app; [by apply Hs|by subst].
Qed.

Lemma push_to_sessions_safe kind sessions :
  (∀ session, session ∈ sessions → session ∈ hash_values (ReferenceDb.sessions (World.db base)) ∧
    who (Session.user_id session) kind) →
  fine_step (push_to_sessions config kind sessions).
Proof.
  intros Hin. apply safe_for_each. intros session [Hs Hw]%Hin.
  destruct (Session.subscription session) as [sub|] eqn:Hsub; [|by apply safe_ret].
  apply safe_publish. right. exists session, sub. split_and!; [done|done|apply sendable_addressed|done].
Qed.

(** Sessions that are fetched are sessions of the database. *)
Lemma fetched_sessions_safe (select : Session.t → bool) :
  safe f base fine vendors
    (on_world (attempt (on_sessions (table_select select))))
    (λ found, ∀ session, session ∈ default [] found →
      session ∈ hash_values (ReferenceDb.sessions (World.db base)) ∧ select session = true).
Proof.
  apply safe_world.
  { apply reads_keeps. unfold on_sessions. solve_reads. }
  intros w a Hw [= <-] session. simpl. rewrite f_sessions by done.
  intros Hin%list_elem_of_In. apply List.filter_In in Hin as [Hin Hs].
  split; [by apply list_elem_of_In|done].
Qed.

Lemma push_to_users_safe kind users :
  (∀ user, user ∈ users → who user kind) → fine_step (push_to_users config kind users).
Proof.
  intros Hu. eapply safe_bind; [apply fetched_sessions_safe|]. intros found Hf.
  apply push_to_sessions_safe. intros session [Hin Hb%andb_true_iff]%Hf. split; [done|].
  apply Hu. destruct Hb as [_ Hb]. by apply bool_decide_eq_true in Hb.
Qed.
Lemma push_to_user_safe kind user : who user kind → fine_step (push_to_user config kind user).
Proof.
  intros Hu. eapply safe_bind; [apply fetched_sessions_safe|]. intros found Hf.
  apply push_to_sessions_safe. intros session [Hin Hb]%Hf. split; [done|].
  apply bool_decide_eq_true in Hb. by rewrite Hb.
Qed.
End Steps.

(** What the rendering leaves as it is, and what the notifications do *)
Definition whole (w : World.t) := (World.db w, World.now w, World.redis_sets w).
Definition people (w : World.t) :=
  (ReferenceDb.sessions (World.db w), ReferenceDb.server_members (World.db w), World.now w,
   World.redis_sets w).
Lemma whole_people base w : whole w = whole base → people w = people base.
Proof. unfold whole, people. by intros [= -> -> ->]. Qed.
Lemma people_sessions base w :
  people w = people base → ReferenceDb.sessions (World.db w) = ReferenceDb.sessions (World.db base).
Proof. unfold people. by intros [= -> _ _ _]. Qed.
Lemma whole_sessions base w :
  whole w = whole base → ReferenceDb.sessions (World.db w) = ReferenceDb.sessions (World.db base).
Proof. intros Hw. by apply people_sessions, whole_people. Qed.
#[local] Hint Resolve people_sessions whole_sessions : core.

Lemma fetch_user_keeps id : keeps whole (on_users (UsersTable.fetch_user id)).
Proof. apply reads_keeps. unfold on_users. solve_reads. Qed.
Lemma fetch_member_keeps server id : keeps whole (on_members (MembersTable.fetch_member server id)).
Proof. apply reads_keeps. unfold on_members. solve_reads. Qed.
Lemma fetch_channel_keeps id : keeps whole (on_channels (ChannelsTable.fetch_channel id)).
Proof. apply reads_keeps. unfold on_channels. solve_reads. Qed.
Lemma fetch_server_keeps id : keeps whole (on_servers (ServersTable.fetch_server id)).
Proof. apply reads_keeps. unfold on_servers. solve_reads. Qed.
Lemma fetch_emoji_keeps id : keeps whole (on_emojis (EmojisTable.fetch_emoji id)).
Proof. apply reads_keeps. unfold on_emojis. solve_reads. Qed.
Lemma keeps_redis {A} (command : Z → store → A * store) : keeps whole (on_redis command).
Proof. intros w. unfold on_redis. by destruct (command _ _). Qed.
#[local] Hint Resolve fetch_user_keeps fetch_member_keeps fetch_channel_keeps : keeps.
#[local] Hint Resolve fetch_server_keeps fetch_emoji_keeps keeps_redis : keeps.

Lemma cached_name_keeps key look_up : keeps whole look_up → keeps whole (cached_name config key look_up).
Proof. intros Hl. unfold cached_name, connection, clock, internal. solve_keeps. Qed.
Lemma get_items_keeps items getter invalid :
  (∀ id, keeps whole (getter id)) → keeps whole (get_items items getter invalid).
Proof. intros Hg. induction items; simpl; solve_keeps. Qed.

Lemma render_keeps push : keeps whole (render_notification_content config push).
Proof.
  unfold render_notification_content, get_channel_server_id, get_user_display_name.
  unfold get_channel_name, get_emoji_name, get_role_name.
  repeat (apply keeps_bind; [|intros ?]); solve_keeps;
    apply get_items_keeps; intros id; apply cached_name_keeps; solve_keeps.
Qed.

Section Consumers.
Context (base : World.t) (Q : string * PayloadToService.t → Prop) (vendors : list VendorMessage.t).

Lemma render_safe push : safe whole base Q vendors (render config push) (of_push push).
Proof.
  eapply safe_bind.
  { apply (safe_world _ _ _ _ _ (λ _, True)); [apply keeps_attempt, render_keeps|done]. }
  intros [body|] _; apply safe_ret; [right; by exists body|by left].
Qed.
Lemma render_all_safe pushes :
  safe whole base Q vendors (render_all config pushes) (Forall2 of_push pushes).
Proof.
  induction pushes as [|push pushes IH]; simpl; [by apply safe_ret|].
  eapply safe_bind; [apply render_safe|]. intros push' Hp.
  eapply safe_bind; [apply IH|]. intros rest Hr. apply safe_ret. by constructor.
Qed.

Lemma filter_online_reads ids : reads (filter_online ids).
Proof.
  assert (∀ A (m : H A), reads m → reads (expecting m)) as Hexpecting.
  { intros A m Hm w. unfold expecting. specialize (Hm w). by destruct (m w) as [[] ?]. }
  unfold filter_online, with_connection, is_user_online, exists_set, smismember, redis_query.
  unfold with_connection, connection. destruct ids as [|a [|b ids]]; [apply reads_ret|..].
  - solve_reads.
  - apply reads_bind; [apply reads_clock|intros t]. destruct (redis_connects t); [|apply reads_ret].
    apply reads_bind; [apply Hexpecting; solve_reads|intros data; apply reads_ret].
Qed.

Lemma filter_online_misses ids online user w :
  (filter_online ids w).1 = Ok online → user ∈ ids → user ∉ online → offline w user.
Proof.
  intros Hrun Hin Hnot. unfold offline.
  destruct (redis_connects (World.now w)) eqn:Hc; [|by right; right; left].
  destruct (redis_answers (World.now w) (World.redis w, World.redis_sets w)) eqn:Ha;
    [|right; right; right; by eexists].
  unfold filter_online in Hrun. destruct ids as [|a [|b ids]]; [by apply elem_of_nil in Hin|..].
  - apply list_elem_of_singleton in Hin as ->. right. left. revert Hrun.
    unfold is_user_online, with_connection, exists_set, redis_query, connection.
    repeat (rewrite M_bind_unfold; simpl). unfold attempt. rewrite Hc.
    repeat (rewrite M_bind_unfold; simpl). unfold gets. rewrite Hc. simpl. rewrite Ha. simpl.
    unfold members_of. case_bool_decide as He; [done|]. intros [= <-]. set_solver.
  - left. revert Hrun. unfold with_connection, smismember, redis_query, connection, expecting.
    repeat (rewrite M_bind_unfold; simpl). rewrite Hc.
    repeat (rewrite M_bind_unfold; simpl). unfold gets. rewrite Hc. simpl. rewrite Ha. simpl.
    intros [= <-] Hon. apply Hnot. apply elem_of_list_to_set. cbn [zip_with].
    change (user ∈ omap (λ ud : string * bool, if ud.2 then Some ud.1 else None)
      (zip (a :: b :: ids) ((λ v, bool_decide (v ∈ members_of ONLINE_SET (World.redis_sets w))) <$> a :: b :: ids))).
    rewrite keep_flagged. apply list_elem_of_In, filter_In. split; [by apply list_elem_of_In|].
    by apply bool_decide_eq_true.
Qed.
Lemma filter_online_safe ids :
  safe people base Q vendors (on_world (filter_online ids))
    (λ online, ∀ user, user ∈ ids → user ∉ (online : gset string) → offline base user).
Proof.
  apply safe_world; [apply reads_keeps, filter_online_reads|].
  intros w online [= _ _ Hnow Hsets] Hrun user Hin Hnot.
  unfold offline. rewrite <- Hnow, <- Hsets. by eapply filter_online_misses.
Qed.

Lemma next_chunk_spec n self chunk exhausted self' :
  next_chunk n self = (chunk, exhausted, self') →
  ChunkedDatabaseGenerator.data self' = ChunkedDatabaseGenerator.data self ∧
  ChunkedDatabaseGenerator.rest self = chunk ++ ChunkedDatabaseGenerator.rest self' ∧
  if exhausted then ChunkedDatabaseGenerator.rest self' = [] else length chunk = n.
Proof.
  unfold ChunkedDatabaseGenerator.rest.
  revert self chunk exhausted self'. induction n as [|n IH]; intros [o data] chunk exhausted self'; simpl.
  { by intros [= <- <- <-]. }
  unfold ChunkedDatabaseGenerator.next. simpl.
  destruct (data !! o) as [member|] eqn:Hm.
  - destruct (next_chunk n _) as [[chunk' ended] self''] eqn:Hn. intros [= <- <- <-].
    apply IH in Hn as (Hd & Hr & Hx). simpl in *. split; [done|].
    rewrite (drop_S data member o) by done. rewrite Hr. split; [done|].
    destruct ended; [done|]. simpl. by rewrite Hx.
  - intros [= <- <- <-]. simpl. split; [done|]. split; [done|].
    apply drop_ge. by apply lookup_ge_None_1.
Qed.

Lemma in_chunks_safe (body : list Member.t → P unit) (members : list Member.t) :
  (∀ chunk, (∀ m, m ∈ chunk → m ∈ members) → safe people base Q vendors (body chunk) (λ _, True)) →
  safe people base Q vendors (in_chunks config body members) (λ _, True).
Proof.
  intros Hb. unfold in_chunks. set (self := ChunkedDatabaseGenerator.new_reference members).
  assert (∀ m, m ∈ ChunkedDatabaseGenerator.rest self → m ∈ members) as Hself by done.
  generalize (S (length members)). clearbody self. intros fuel.
  revert self Hself. induction fuel as [|fuel IH]; intros self Hself; simpl; [apply safe_panic|].
  destruct (next_chunk _ self) as [[chunk exhausted] self'] eqn:Hn.
  apply next_chunk_spec in Hn as (_ & Hr & _). rewrite Hr in Hself.
  eapply safe_bind; [apply Hb; intros m Hm; apply Hself, elem_of_app; by left|].
  intros _ _. destruct exhausted; [by apply safe_ret|].
  apply IH. intros m Hm. apply Hself, elem_of_app. by right.
Qed.

Lemma mention_keeps channel users messages :
  keeps people (on_unreads (UnreadsTable.add_mention_to_many_unreads channel users messages)).
Proof. by apply keeps_table. Qed.
End Consumers.

Section Mentions.
Context (base : World.t) (old : list (string * PayloadToService.t)) (vendors : list VendorMessage.t).
Context (who : string → PayloadKind.t → Prop).
Abbreviation people_step m := (safe people base (fine base old who) vendors m (λ _, True)).

Lemma fetched_members_safe (select : Member.t → bool) :
  safe people base (fine base old who) vendors (on_world (on_members (table_select select)))
    (λ members, ∀ m, m ∈ members →
      m ∈ hash_values (ReferenceDb.server_members (World.db base)) ∧ select m = true).
Proof.
  apply safe_world.
  { apply reads_keeps. unfold on_members. solve_reads. }
  intros w members [= _ Hmembers _ _] [= <-] m. simpl. rewrite Hmembers.
  intros Hin%list_elem_of_In. apply List.filter_In in Hin as [Hin Hs].
  split; [by apply list_elem_of_In|done].
Qed.

Lemma notify_chunk_safe push chunk :
  (∀ user, user ∈ user_of <$> chunk → user ∉ existing_mentions push → offline base user →
    who user (PayloadKind.MessageNotification push)) →
  people_step (notify_chunk config push chunk).
Proof.
  intros Hwho. unfold notify_chunk. eapply safe_bind.
  { apply (safe_world _ _ _ _ _ (λ _, True)); [apply keeps_attempt, mention_keeps|done]. }
  intros _ _. eapply safe_bind; [apply filter_online_safe|]. intros online Hon. simpl in Hon.
  apply push_to_users_safe; [by eauto|]. intros user Hin%list_elem_of_In.
  apply List.filter_In in Hin as [Hin%list_elem_of_In [Ho He]%andb_true_iff].
  apply negb_true_iff, bool_decide_eq_false in Ho, He. auto.
Qed.

Lemma notify_role_chunk_safe query push chunk :
  (∀ user seen, Bulk.members_can_see_channel
       (BulkDatabasePermissionQuery.with_members query chunk) = Ok seen →
    seen !! user = Some true → user ∉ existing_mentions push → offline base user →
    who user (PayloadKind.MessageNotification push)) →
  people_step (notify_role_chunk config query push chunk).
Proof.
  intros Hwho. unfold notify_role_chunk. eapply safe_bind.
  { by apply (safe_lift _ _ _ _ _ (λ seen, Bulk.members_can_see_channel
                (BulkDatabasePermissionQuery.with_members query chunk) = Ok seen)). }
  intros seen Hseen. simpl in Hseen. eapply safe_bind; [apply filter_online_safe|].
  intros online Hon. simpl in Hon. apply push_to_users_safe; [by eauto|].
  intros user Hin%list_elem_of_In. apply List.filter_In in Hin as [Hin%list_elem_of_In Ho].
  apply negb_true_iff, bool_decide_eq_false in Ho. specialize (Hon user Hin Ho).
  apply list_elem_of_fmap in Hin as ([? viewable] & -> & Hin%list_elem_of_In).
  apply List.filter_In in Hin as [Hin%list_elem_of_In [Hv He]%andb_true_iff]. simpl in *.
  apply negb_true_iff, bool_decide_eq_false in He. destruct viewable; [|done].
  eapply Hwho; [done| |done..]. by apply elem_of_hash_iter.
Qed.
End Mentions.

Lemma of_push_message push push' :
  of_push push push' → message_of push' = message_of push ∧
    PushNotification.channel push' = PushNotification.channel push.
Proof. by intros [->|[body ->]]. Qed.

Section MassMentions.
Context (base : World.t) (old : list (string * PayloadToService.t)) (vendors : list VendorMessage.t).
Context (pushes : list PushNotification.t) (server : string) (first : PushNotification.t).
Hypothesis is_first : head pushes = Some first.
Abbreviation who := (tells base (Delivery.MassMessageSentPayload pushes server)).
Abbreviation people_step m := (safe people base (fine base old who) vendors m (λ _, True)).

Lemma notify_mass_safe query push push' :
  push ∈ pushes → of_push push push' → query_from base server first = Ok query →
  people_step (notify_mass config server query push').
Proof.
  intros Hin Hpush Hquery. destruct (of_push_message _ _ Hpush) as [Hm _].
  unfold notify_mass, everyone_is_mentioned. rewrite Hm. fold (everyone_is_mentioned push).
  destruct (everyone_is_mentioned push) eqn:He.
  - eapply safe_bind; [apply fetched_members_safe|]. intros members Hmembers.
    apply in_chunks_safe. intros chunk Hchunk. apply notify_chunk_safe.
    intros user Huser Hnot Hoff. unfold existing_mentions in Hnot. rewrite Hm in Hnot.
    exists first, push. rewrite He. split_and!; [done..|].
    apply list_elem_of_fmap in Huser as (m & -> & Hc%Hchunk%Hmembers). exists m.
    destruct Hc as [? Hs]. by apply bool_decide_eq_true in Hs.
  - destruct (Message.role_mentions (message_of push)) as [roles|] eqn:Hroles; [|by apply safe_ret].
    eapply safe_bind; [apply fetched_members_safe|]. intros members Hmembers.
    apply in_chunks_safe. intros chunk Hchunk. apply notify_role_chunk_safe.
    intros user seen Hseen Hu Hnot Hoff. unfold existing_mentions in Hnot. rewrite Hm in Hnot.
    exists first, push. rewrite He. split_and!; [done..|].
    exists roles, query, chunk, seen. split_and!; [done|done| |done|done].
    intros m [Hc Hs]%Hchunk%Hmembers. apply andb_true_iff in Hs as [Hs%bool_decide_eq_true ?]. done.
Qed.

Lemma notify_all_safe query l :
  query_from base server first = Ok query →
  (∀ push', push' ∈ l → ∃ push, push ∈ pushes ∧ of_push push push') →
  people_step (notify_all config server (Some query) l).
Proof.
  intros Hquery. induction l as [|push' l IH]; intros Hl; simpl; [by apply safe_ret|].
  destruct (Hl push' (list_elem_of_here _ _)) as (push & Hin & Hpush).
  apply (safe_bind _ _ _ _ _ _ (λ q, q = query)); [by apply safe_ret|]. intros ? ->.
  eapply safe_bind; [by eapply notify_mass_safe|]. intros _ _.
  apply IH. intros p Hp. apply Hl. by right.
Qed.
End MassMentions.

Lemma consume_mass_mention_fits pushes server s :
  let base := Daemon.world s in
  fits people base
    (fine base (Daemon.queued s) (tells base (Delivery.MassMessageSentPayload pushes server)))
    (Daemon.sent s) (consume_mass_mention config (Delivery.MassMessageSentPayload pushes server) s).2.
Proof.
  intros base.
  cut (lands whole people base
         (fine base (Daemon.queued s) (tells base (Delivery.MassMessageSentPayload pushes server)))
         (Daemon.sent s) (consume_mass_mention config (Delivery.MassMessageSentPayload pushes server))).
  { intros Hl. apply Hl. split; [done|]. split; [done|]. intros x Hx. by left. }
  pose proof (whole_people base) as Hwp.
  eapply lands_bind; [done|apply render_all_safe|]. intros pushes' Hall. simpl in Hall.
  destruct Hall as [|first first' pushes1 pushes1' Hfirst Hall]; simpl.
  { eapply lands_safe; [done|]. by apply (safe_ret _ _ _ _ _ (λ _, True)). }
  assert (∀ push', push' ∈ pushes1' → ∃ push, push ∈ first :: pushes1 ∧ of_push push push') as Hin.
  { intros push' [i Hi]%list_elem_of_lookup.
    apply (Forall2_lookup_r _ _ _ _ _ Hall) in Hi as (push & Hp & Ho).
    exists push. split; [right; by eapply list_elem_of_lookup_2|done]. }
  apply (lands_bind _ _ _ _ _ Hwp _ _ (λ q, query_from base server first = Ok q)).
  { intros s1 Hs1. split; [done|]. destruct Hs1 as ([= Hdb Hnow _] & _ & _). intros q.
    change ((query_from (Daemon.world s1) server first') = Ok q → query_from base server first = Ok q).
    unfold query_from. rewrite Hdb, Hnow. by rewrite (proj2 (of_push_message _ _ Hfirst)). }
  intros q Hq. eapply lands_safe; [done|]. eapply safe_bind.
  - eapply notify_mass_safe; [done|left|done|done].
  - intros _ _. eapply notify_all_safe; [done|done|done].
Qed.

Section OtherConsumers.
Context (base : World.t) (old : list (string * PayloadToService.t)) (vendors : list VendorMessage.t).
Abbreviation whole_step d m := (safe whole base (fine base old (tells base d)) vendors m (λ _, True)).

Lemma consume_message_safe d : whole_step d (consume_message config d).
Proof.
  destruct d as [push users| | | | | |]; simpl; try apply safe_throw.
  eapply safe_bind; [apply render_safe|]. intros push' Hpush. simpl in Hpush.
  apply push_to_users_safe; [by eauto|]. by split.
Qed.
Lemma consume_generic_safe d : whole_step d (consume_generic config d).
Proof.
  destruct d as [push users| | | | | |]; simpl; try apply safe_throw.
  apply push_to_users_safe; [by eauto|]. split; [by left|done].
Qed.
Lemma consume_fr_accepted_safe d : whole_step d (consume_fr_accepted config d).
Proof. destruct d; simpl; try apply safe_throw. by apply push_to_user_safe; [eauto|]. Qed.
Lemma consume_fr_received_safe d : whole_step d (consume_fr_received config d).
Proof. destruct d; simpl; try apply safe_throw. by apply push_to_user_safe; [eauto|]. Qed.

Lemma elem_of_call_recipients recipients wanted initiator user :
  user ∈ call_recipients recipients wanted initiator →
  user ∈ recipients ∧ user ≠ initiator ∧ ∀ l, wanted = Some l → user ∈ l.
Proof.
  unfold call_recipients.
  destruct wanted as [l|]; intros [Hin%list_elem_of_In Hb]%list_elem_of_In%List.filter_In.
  - apply andb_true_iff in Hb as [Hr%bool_decide_eq_true Hi%negb_true_iff%bool_decide_eq_false].
    split_and!; [done..|]. by intros ? [= <-].
  - by apply negb_true_iff, bool_decide_eq_false in Hb.
Qed.

Lemma consume_dm_call_safe d : whole_step d (consume_dm_call config d).
Proof.
  destruct d as [| | | | |call wanted|]; simpl; try apply safe_throw. eapply safe_bind.
  { apply (safe_world _ _ _ _ _ (λ channel,
      ReferenceDb.channels (World.db base) !! DmCallPayload.channel_id call = Some channel)).
    - apply fetch_channel_keeps.
    - intros w channel [= Hdb _ _]. unfold on_channels, on_table, ChannelsTable.fetch_channel, table_fetch.
      rewrite Hdb. destruct (_ !! _); simpl; by intros [= <-]. }
  intros channel Hchannel. simpl in Hchannel.
  assert (∀ recipients, recipients_of channel = recipients →
    whole_step (Delivery.InternalDmCallPayload call wanted)
      (for_each (call_recipients recipients wanted (DmCallPayload.initiator_id call))
        (push_to_user config (PayloadKind.DmCallStartEnd call)))) as Hall.
  { intros recipients Hr. apply safe_for_each. intros user (Hin & Hne & Hw)%elem_of_call_recipients.
    apply push_to_user_safe; [by eauto|]. split_and!; [done..|]. exists channel. by rewrite Hr. }
  destruct channel; [by apply safe_ret|by apply Hall|by apply Hall|by apply safe_ret].
Qed.

Lemma mention_count_sum unreads count :
  mention_count unreads = Ok count →
  count = list_sum ((λ unread, length (default [] (ChannelUnread.mentions unread))) <$> unreads).
Proof.
  revert count. induction unreads as [|u unreads IH]; intros count; simpl; [by intros [= <-]|].
  destruct (ChannelUnread.mentions u) as [mentions|]; simpl; [|done].
  destruct (mention_count unreads) as [rest| |]; simpl; [|done..]. intros [= <-]. by rewrite (IH rest).
Qed.

Lemma consume_ack_safe d : whole_step d (consume_ack config d).
Proof.
  destruct d as [| | | | | |user channel message]; simpl; try apply safe_throw. eapply safe_bind.
  { apply (safe_world _ _ _ _ _ (λ unreads, ∀ l, unreads = Some l →
      (on_unreads (UnreadsTable.fetch_unread_mentions user) base).1 = Ok l)).
    - apply reads_keeps. unfold on_unreads. solve_reads.
    - intros w unreads [= Hdb _ _] [= <-]. intros l [= <-]. simpl. by rewrite Hdb. }
  intros [unreads|] Hunreads; [|by apply safe_ret]. specialize (Hunreads _ eq_refl).
  destruct unreads as [|unread unreads]; [by apply safe_ret|]. eapply safe_bind.
  { apply fetched_sessions_safe. by eauto. }
  intros [sessions|] Hs; [|by apply safe_ret]. simpl in Hs.
  cbv zeta. case_bool_decide; [by apply safe_ret|]. eapply safe_bind.
  { by apply (safe_lift _ _ _ _ _ (λ count, mention_count (unread :: unreads) = Ok count)). }
  intros count Hcount. simpl in Hcount. apply safe_for_each.
  intros session [Hin%list_elem_of_In Ha]%list_elem_of_In%List.filter_In.
  destruct (Hs session Hin) as [Hdb Huser%bool_decide_eq_true]. unfold apple_session in Ha.
  destruct (Session.subscription session) as [sub|] eqn:Hsub; [|apply safe_panic].
  apply safe_publish. right. exists session, sub. split_and!; [done|done| |].
  - apply bool_decide_eq_true in Ha. split_and!; [done..|]. by left.
  - split; [done|]. exists (unread :: unreads). split; [done|]. by apply mention_count_sum.
Qed.
End OtherConsumers.

(** C20: what is queued for the services of the vendors is meant for its reader: whatever message
    an inbound consumer gets, each payload it queues goes to a session with a subscription, on
    the queue of its service and with its token, of a user the message is for: of those it names
    (online users are taken out before), of the recipients of a call but who calls, and of a mass
    mention the members of the server who are not found online and not mentioned anyway - for mentions of
    roles, those of its members with a role who are found to see the channel. It says what the
    message says. Nothing is sent to the vendors meanwhile. *)
Theorem notifications_reach_their_audience `{Vendors} (c : Consumer.t) (d : Delivery.t) (s : Daemon.t) :
  let s' := (consume config c (Body.Inbound d) s).2 in
  Daemon.sent s' = Daemon.sent s ∧
  Forall (λ x, x ∈ Daemon.queued s ∨ for_session (Daemon.world s) (tells (Daemon.world s) d) x)
    (Daemon.queued s').
Proof.
  assert (∀ s', fits (λ _ : World.t, tt) (Daemon.world s) (fine (Daemon.world s) (Daemon.queued s)
      (tells (Daemon.world s) d)) (Daemon.sent s) s' →
    Daemon.sent s' = Daemon.sent s ∧
    Forall (λ x, x ∈ Daemon.queued s ∨ for_session (Daemon.world s) (tells (Daemon.world s) d) x)
      (Daemon.queued s')) as Hdone.
  { intros s' (_ & Hsent & Hq). split; [done|]. by apply Forall_forall. }
  assert (∀ {C} (f : World.t → C) s', fits f (Daemon.world s) (fine (Daemon.world s) (Daemon.queued s)
      (tells (Daemon.world s) d)) (Daemon.sent s) s' →
    fits (λ _ : World.t, tt) (Daemon.world s) (fine (Daemon.world s) (Daemon.queued s)
      (tells (Daemon.world s) d)) (Daemon.sent s) s') as Hany by (intros ??? [_ ?]; by split).
  assert (fits whole (Daemon.world s) (fine (Daemon.world s) (Daemon.queued s)
      (tells (Daemon.world s) d)) (Daemon.sent s) s) as Hs.
  { split; [done|]. split; [done|]. intros x Hx. by left. }
  intros s'. apply Hdone. subst s'. destruct c; simpl; try by apply (Hany _ whole).
  - apply (Hany _ whole), consume_generic_safe, Hs.
  - apply (Hany _ whole), consume_message_safe, Hs.
  - apply (Hany _ whole), consume_fr_received_safe, Hs.
  - apply (Hany _ whole), consume_fr_accepted_safe, Hs.
  - destruct d as [|pushes server| | | | |]; try by apply (Hany _ whole).
    apply (Hany _ people), consume_mass_mention_fits.
  - apply (Hany _ whole), consume_dm_call_safe, Hs.
  - apply (Hany _ whole), consume_ack_safe, Hs.
Qed.
End Audience.
