(* ===== verification/PushdTheorems.v ===== *)
(** * What the push daemon gets done

    Rendering never stops a notification, a message reaches every session with a subscription of
    who it is for, and what the services of the vendors do with a payload. Then what the daemon
    does otherwise than one would expect. *)

From stdpp Require Import base list gmap strings.
From Stdlib Require Import ZArith Lia.
From S2P Require Import Prelude Errors Permissions PermissionSpec Files Users Servers Channels.
From S2P Require Import PermissionQuery Messages Unreads Config Emojis Webhooks Bots AuditLogs.
From S2P Require Import Accounts World Database PermissionTheorems BulkPermissions Relationships.
From S2P Require Import ChannelOps ServerOps Parser References Redis MessageCreate Acker UserOps Voice.
From S2P Require Import Decimal Presence Pushd.

(** ** Rendering does not panic *)

(** [m] comes back, with a result or with an error. *)
Definition calm {A} (m : H A) : Prop := ∀ w, (m w).1 ≠ Panicked.

Lemma calm_ret {A} (a : A) : calm (mret a).
Proof. done. Qed.
Lemma calm_throw {A} e : calm (throw (A := A) e).
Proof. done. Qed.
Lemma calm_gets {A} (f : World.t → A) : calm (gets f).
Proof. done. Qed.
Lemma calm_lift {A} (o : Result A) : o ≠ Panicked → calm (lift o).
Proof. by intros Ho w. Qed.
Lemma calm_ok_or {A} (o : option A) e : calm (lift (ok_or o e)).
Proof. apply calm_lift. by destruct o. Qed.
Lemma calm_bind {A B} (m : H A) (k : A → H B) : calm m → (∀ a, calm (k a)) → calm (m ≫= k).
Proof.
  intros Hm Hk w. rewrite M_bind_unfold. specialize (Hm w).
  destruct (m w) as [[a| |] w']; [apply Hk|done|done].
Qed.
Lemma calm_attempt {A} (m : H A) : calm m → calm (attempt m).
Proof. intros Hm w. unfold attempt. specialize (Hm w). by destruct (m w) as [[]]. Qed.
Lemma calm_fetch {K V} `{Countable K} get set (key : K) :
  calm (on_table get set (table_fetch (V := V) key ErrorType.NotFound)).
Proof. intros w. unfold on_table, table_fetch. by destruct (_ !! key). Qed.
Lemma calm_redis {A} (command : Z → store → A * store) : calm (on_redis command).
Proof. intros w. unfold on_redis. by destruct (command _ _). Qed.

Ltac solve_calm :=
  repeat first
    [ apply calm_ret | apply calm_throw | apply calm_gets | apply calm_fetch | apply calm_redis
    | apply calm_ok_or | assumption
    | apply calm_attempt
    | apply calm_bind; [|intros ?]
    | match goal with |- calm (match ?x with _ => _ end) => destruct x end
    | match goal with |- calm (if ?b then _ else _) => destruct b end ].

Section Rendering.
Context `{HashIter, Redis, Render, Lexer}.
Context (config : Pushd.t).

Lemma cached_name_calm key look_up : calm look_up → calm (cached_name config key look_up).
Proof. intros Hl. unfold cached_name, connection, clock, internal. solve_calm. Qed.
Lemma get_items_calm items getter invalid :
  (∀ id, calm (getter id)) → calm (get_items items getter invalid).
Proof. intros Hg. induction items; simpl; solve_calm. apply Hg. Qed.

Lemma render_notification_content_calm push : calm (render_notification_content config push).
Proof.
  unfold render_notification_content, get_channel_server_id, get_user_display_name.
  unfold get_channel_name, get_emoji_name, get_role_name, on_channels, on_members, on_users.
  unfold on_servers, on_emojis.
  destruct (visible_total (lex (PushNotification.body push))) as [v Hv].
  rewrite (parse_message_visible _ _ v Hv). simpl.
  repeat (apply calm_bind; [|intros ?]); solve_calm;
    apply get_items_calm; intros id; apply cached_name_calm; solve_calm.
Qed.

(** Rendering takes some time, but it gives a notification and leaves the database as it was. *)
Lemma render_runs push s :
  ∃ push' w, of_push push push' ∧ whole w = whole (Daemon.world s) ∧
    render config push s = (Ok push', Daemon.set_world s w).
Proof.
  pose proof (render_notification_content_calm push (Daemon.world s)) as Hcalm.
  pose proof (render_keeps config push (Daemon.world s)) as Hkeeps.
  unfold render. rewrite M_bind_unfold. unfold on_world, attempt.
  destruct (render_notification_content config push (Daemon.world s)) as [[body| |] w]; [..|done].
  - exists (rendered push body), w. split; [right; by exists body|done].
  - exists push, w. split; [by left|done].
Qed.
End Rendering.

(** ** Who is reached *)

Section Reached.
Context `{HashIter, Redis, RedisCommands, Render, Lexer, Broker}.
Context (config : Pushd.t).

(** What a session with a subscription gets *)
Definition to_session (kind : PayloadKind.t) (session : Session.t) :
    option (string * PayloadToService.t) :=
  (λ sub, ((route config sub).1, sendable config kind session sub)) <$> Session.subscription session.

Lemma push_to_sessions_runs kind sessions s :
  broker_accepts (World.now (Daemon.world s)) = true →
  push_to_sessions config kind sessions s =
    (Ok tt, Daemon.set_queued s (Daemon.queued s ++ omap (to_session kind) sessions)).
Proof.
  unfold push_to_sessions, to_session. revert s.
  induction sessions as [|session sessions IH]; intros s Hb.
  { simpl. rewrite app_nil_r. by destruct s. }
  change (for_each (session :: sessions) ?body s) with ((body session ;; for_each sessions body) s).
  simpl. rewrite M_bind_unfold.
  destruct (Session.subscription session) as [sub|]; simpl; [|by rewrite IH].
  unfold publish_message. rewrite M_bind_unfold. unfold on_world, clock, gets. simpl. rewrite Hb.
  simpl. rewrite IH by done. destruct s. unfold Daemon.set_queued, Daemon.set_world. simpl.
  by rewrite <- app_assoc.
Qed.

Lemma push_to_users_runs kind users s :
  broker_accepts (World.now (Daemon.world s)) = true →
  push_to_users config kind users s =
    (Ok tt, Daemon.set_queued s (Daemon.queued s ++
       omap (to_session kind)
         (List.filter (λ session,
            bool_decide (is_Some (Session.subscription session)) &&
            bool_decide (Session.user_id session ∈ users))
            (hash_values (ReferenceDb.sessions (World.db (Daemon.world s))))))).
Proof.
  intros Hb. unfold push_to_users. rewrite M_bind_unfold. unfold on_world.
  set (fetch := attempt _).
  assert (reads fetch) as Hreads by (unfold fetch, on_sessions; solve_reads).
  specialize (Hreads (Daemon.world s)).
  destruct (fetch (Daemon.world s)) as [r w] eqn:Hf. simpl in Hreads. subst w.
  unfold fetch, attempt in Hf. simpl in Hf. injection Hf as <- _.
  rewrite push_to_sessions_runs by done. by destruct s.
Qed.

(** C40: a message is not lost on its way: while the broker accepts what is published, the consumer
    of messages comes back without an error, whatever there is to render, and has queued one payload for
    every session with a subscription of the users it is for - and nothing else - with the
    service of the subscription. *)
Theorem messages_reach_every_session (push : PushNotification.t) (users : list string) (s : Daemon.t) :
  broker_accepts (World.now (Daemon.world s)) = true →
  let '(r, s') := consume_message config (Delivery.MessageSentPayload push users) s in
  r = Ok tt ∧ Daemon.sent s' = Daemon.sent s ∧ World.db (Daemon.world s') = World.db (Daemon.world s) ∧
  ∃ push', of_push push push' ∧
    Daemon.queued s' = Daemon.queued s ++
      omap (to_session (PayloadKind.MessageNotification push'))
        (List.filter (λ session, bool_decide (Session.user_id session ∈ users))
          (hash_values (ReferenceDb.sessions (World.db (Daemon.world s))))).
Proof.
  intros Hb. unfold consume_message. rewrite M_bind_unfold.
  destruct (render_runs config push s) as (push' & w & Hpush & [= Hdb Hnow _] & ->).
  rewrite push_to_users_runs by (simpl; by rewrite Hnow).
  split; [done|]. split; [done|]. split; [done|]. exists push'. split; [done|]. simpl. rewrite Hdb.
  f_equal. generalize (hash_values (ReferenceDb.sessions (World.db (Daemon.world s)))).
  assert (∀ session, Session.subscription session = None →
    to_session (PayloadKind.MessageNotification push') session = None) as Hnone.
  { intros session Hsub. unfold to_session. by rewrite Hsub. }
  revert Hnone. generalize (to_session (PayloadKind.MessageNotification push')).
  intros queue Hnone sessions. induction sessions as [|session sessions IH]; [done|]. simpl.
  destruct (Session.subscription session) as [sub|] eqn:Hsub.
  - rewrite bool_decide_eq_true_2 by done. csimpl. case_bool_decide; csimpl; by rewrite IH.
  - rewrite bool_decide_eq_false_2 by by intros [? [=]]. csimpl.
    case_bool_decide; csimpl; by rewrite ?(Hnone _ Hsub), IH.
Qed.
End Reached.

(** The chunks of a mass mention are all there is, each member once, whatever their size; with
    chunks of no members the loop would not end. *)
Lemma in_chunks_visits `{HashIter} (config : Pushd.t) (members : list Member.t) :
  0 < Pushd.mass_mention_chunk_size config →
  ∃ chunks, concat chunks = members ∧
    ∀ body s, in_chunks config body members s = for_each chunks body s.
Proof.
  intros Hn. unfold in_chunks. set (self := ChunkedDatabaseGenerator.new_reference members).
  assert (ChunkedDatabaseGenerator.rest self = members) as Hrest by done.
  assert (length members < S (length members)) as Hfuel by lia.
  revert Hfuel. generalize (S (length members)). clearbody self. intros fuel.
  revert members self Hrest. induction fuel as [|fuel IH]; intros members self Hrest Hfuel; [lia|].
  destruct (next_chunk (Pushd.mass_mention_chunk_size config) self)
    as [[chunk exhausted] self'] eqn:Hc.
  pose proof (next_chunk_spec _ _ _ _ _ Hc) as (_ & Hr & Hx). rewrite Hrest in Hr. destruct exhausted.
  - exists [chunk]. split; [simpl; by rewrite Hr, Hx|]. intros body s. simpl. by rewrite Hc.
  - destruct (IH (ChunkedDatabaseGenerator.rest self') self') as (chunks & Hcs & Hrun); [done| |].
    { rewrite Hr, length_app in Hfuel. lia. }
    exists (chunk :: chunks). split; [simpl; by rewrite Hr, Hcs|]. intros body s. simpl. rewrite Hc.
    rewrite !M_bind_unfold. destruct (body chunk s) as [[[]| |] s']; [apply Hrun|done|done].
Qed.

(** ** What the services do *)

(** The device a message is for *)
Definition device (message : VendorMessage.t) : string :=
  match message with
  | VendorMessage.Apn token _ _ | VendorMessage.Fcm token _ => token
  | VendorMessage.WebPush _ auth _ _ => auth
  end.

Section Services.
Context `{HashIter, Vendors}.
Context (config : Pushd.t).

(** A message to the device of the payload was sent; the session of the payload loses its
    subscription if the vendor does not know the device, and nothing else changes. *)
Definition one_message (payload : PayloadToService.t) (s s' : Daemon.t) : Prop :=
  ∃ message, device message = PayloadToService.token payload ∧
    s' = Daemon.mk
      (match vendor_answers (World.now (Daemon.world s)) message with
       | VendorAnswer.Unregistered =>
           (on_sessions (SessionsTable.remove_push_subscription_by_session_id
              (PayloadToService.session_id payload)) (Daemon.world s)).2
       | _ => Daemon.world s
       end) (Daemon.queued s) (Daemon.sent s ++ [message]).

(** What the services of Google and Apple take: all but changes of the badge for the first *)
Definition takes (c : Consumer.t) (payload : PayloadToService.t) : bool :=
  match c, PayloadToService.notification payload with
  | Consumer.Apns, _ => true
  | Consumer.Fcm, PayloadKind.BadgeUpdate _ => false
  | Consumer.Fcm, _ => true
  | _, _ => false
  end.

Lemma send_one payload message s :
  device message = PayloadToService.token payload →
  one_message payload s (send (PayloadToService.session_id payload) message s).2.
Proof.
  intros Hd. exists message. split; [done|]. unfold send.
  rewrite M_bind_unfold. unfold on_world, clock, gets. simpl.
  rewrite M_bind_unfold. unfold modify. simpl.
  destruct s as [w queued sent]. simpl.
  by destruct (vendor_answers (World.now w) message).
Qed.

(** Steps that read come before the message. *)
Lemma one_message_after {A} payload (m : P A) (k : A → P unit) s :
  (m s).2 = s → (∀ a, (k a s).2 = s ∨ one_message payload s (k a s).2) →
  ((m ≫= k) s).2 = s ∨ one_message payload s ((m ≫= k) s).2.
Proof.
  intros Hm Hk. rewrite M_bind_unfold.
  destruct (m s) as [[a| |] s']; simpl in *; subst s'; [auto|by left..].
Qed.
Lemma on_world_reads {A} (m : H A) s : reads m → (on_world m s).2 = s.
Proof.
  intros Hm. unfold on_world. specialize (Hm (Daemon.world s)). destruct (m _) as [r w].
  simpl in *. subst w. by destruct s.
Qed.
Lemma after_reading {A B} (m : H A) (k : A → P B) s :
  reads m → (∀ a, (k a s).2 = s) → ((on_world m ≫= k) s).2 = s.
Proof.
  intros Hm Hk. rewrite M_bind_unfold. pose proof (on_world_reads m s Hm) as Hs.
  destruct (on_world m s) as [[a| |] s']; simpl in *; subst s'; auto.
Qed.

Lemma get_badge_count_runs user s : ∃ count, get_badge_count user s = (Ok count, s).
Proof.
  unfold get_badge_count. rewrite M_bind_unfold.
  set (fetch := attempt _).
  pose proof (on_world_reads fetch s) as Hreads. unfold on_world in *.
  destruct (fetch (Daemon.world s)) as [r w] eqn:Hf. simpl in Hreads.
  rewrite Hreads by (unfold fetch, on_unreads; solve_reads).
  unfold fetch, attempt in Hf. simpl in Hf. injection Hf as <- _. by eexists.
Qed.

Lemma web_push_body_reads kind s : (web_push_body kind s).2 = s.
Proof.
  assert (∀ id, reads (on_channels (ChannelsTable.fetch_channel id))) as Hchannel
    by (intros id; unfold on_channels; solve_reads).
  destruct kind; try done. simpl.
  apply after_reading; [done|]. intros channel. apply after_reading.
  { unfold format_display_name, on_members, on_users. solve_reads. }
  intros name. apply after_reading; [done|]. by intros [].
Qed.

Lemma consume_vapid_sends payload s :
  (consume_vapid payload s).2 = s ∨ one_message payload s (consume_vapid payload s).2.
Proof.
  unfold consume_vapid.
  destruct (PayloadToService.extras payload !! "endpoint") as [endpoint|]; [|by left].
  destruct (PayloadToService.extras payload !! "p256dh") as [p256dh|]; [|by left].
  apply one_message_after; [apply web_push_body_reads|]. intros body. cbv zeta.
  destruct (web_push_builds _); [right; by apply send_one|by left].
Qed.
Lemma consume_fcm_sends payload s :
  notification_data config (PayloadToService.notification payload) ≠ None →
  one_message payload s (consume_fcm config payload s).2.
Proof. unfold consume_fcm. intros Hd. destruct (notification_data _ _); [by apply send_one|done]. Qed.
Lemma consume_apn_sends payload s : one_message payload s (consume_apn payload s).2.
Proof.
  unfold consume_apn. rewrite M_bind_unfold.
  destruct (get_badge_count_runs (PayloadToService.user_id payload) s) as [count Hcount].
  destruct (PayloadToService.notification payload) eqn:Hkind;
    rewrite ?Hcount; simpl; by apply send_one.
Qed.

(** A payload becomes at most one message, to its device: the service sends it - always, for
    Google's and Apple's, whatever is in the database, but for changes of the badge -, and the
    session it is for loses its subscription when the vendor does not know the device any more.
    Nothing else happens to the database, the queue or what was sent. *)
Theorem services_send_to_the_device `{Redis, RedisCommands, Render, Lexer, Broker}
    (c : Consumer.t) (payload : PayloadToService.t) (s : Daemon.t) :
  let s' := (consume config c (Body.Outbound payload) s).2 in
  (takes c payload = false ∧ s' = s) ∨ one_message payload s s'.
Proof.
  intros s'. subst s'. destruct c; simpl; try by left.
  - right. apply consume_apn_sends.
  - unfold takes. destruct (PayloadToService.notification payload) eqn:Hkind;
      try (right; apply consume_fcm_sends; by rewrite Hkind).
    left. split; [done|]. unfold consume_fcm. by rewrite Hkind.
  - destruct (consume_vapid_sends payload s) as [?|?]; [left|by right].
    split; [|done]. unfold takes. by destruct (PayloadToService.notification payload).
Qed.
End Services.

(** ** What one would not expect *)

(** A generic message finds no consumer that can read it: that of [generic.rs] reads the
    payload of [message.rs]. *)
Lemma generic_messages_are_lost `{HashIter, Redis, RedisCommands, Render, Lexer, Broker, Vendors}
    config (c : Consumer.t) payload s :
  consume config c (Body.Inbound (Delivery.GenericPayload payload)) s = (Err ErrorType.InternalError, s).
Proof. by destruct c. Qed.

(** Who reads the last mention keeps the number on the badge. *)
Lemma badge_is_not_reset `{HashIter, Redis, RedisCommands, Render, Lexer, Broker}
    config user channel message s :
  (on_unreads (UnreadsTable.fetch_unread_mentions user) (Daemon.world s)).1 = Ok [] →
  Daemon.queued (consume_ack config (Delivery.AckPayload user channel message) s).2 = Daemon.queued s.
Proof.
  intros Hnone. unfold consume_ack. rewrite M_bind_unfold. unfold on_world at 1, attempt.
  destruct (on_unreads _ (Daemon.world s)) as [r w]. simpl in Hnone. by subst r.
Qed.

(** The browser says that somebody is calling when the call ends, too. *)
Lemma ended_call_is_calling `{Vendors} initiator channel started ended :
  web_push_body (PayloadKind.DmCallStartEnd (DmCallPayload.mk initiator channel started ended)) =
  web_push_body (PayloadKind.DmCallStartEnd (DmCallPayload.mk initiator channel started false)).
Proof. done. Qed.

Module PushSample.
#[local] Existing Instance canonical_iter.
#[local] Existing Instance Store.reliable.
#[local] Existing Instance VoiceInstances.commands.
#[local] Existing Instance Fixture.strangers.
#[local] Instance accepts : Broker := λ _, true.
#[local] Instance plain : Render :=
  {| replace_all _ body _ := body; redis_set_ex _ _ _ _ r := (Some tt, r) |}.
#[local] Instance no_tokens : Lexer := λ _, [].
#[local] Instance forgets : Vendors :=
  {| vendor_answers _ _ := VendorAnswer.Unregistered; web_push_builds _ := true |}.

Definition config : Pushd.t :=
  Pushd.mk false "exchange" 100 60 "message" "mass" "call" "accepted" "received" "generic" "ack"
    "vapid" "fcm" "apn" true true true 30.

(** The channel C of the server S, which only its owner A sees, and a device of the member B *)
Definition secret : TextChannel.t :=
  Fixture.text_channel "C" "S"
    (Some (OverrideField.mk 0 (ChannelPermission.as_u64 ChannelPermission.ViewChannel))) [].
Definition server : Server.t :=
  Fixture.server "S" "A" (ChannelPermission.as_u64 ChannelPermission.ViewChannel) [].
Definition member_b : Member.t := Fixture.member "S" "B" [] None.
Definition session : Session.t :=
  Session.mk "session" "B" "token" "phone" 0 None
    (Some (WebPushSubscription.mk "fcm" "" "device")).
Definition world : World.t :=
  World.set_now (World.set_db World.empty
    (ReferenceDb.set_sessions
      (ReferenceDb.set_server_members
        (ReferenceDb.set_servers
          (ReferenceDb.set_channels
            (ReferenceDb.set_users ReferenceDb.empty
              {[ "A" := Fixture.user "A" []; "B" := Fixture.user "B" [] ]})
            {[ "C" := Channel.TextChannel secret ]})
          {[ "S" := server ]})
        {[ MemberCompositeKey.mk "S" "B" := member_b ]})
      {[ "session" := session ]})) 1.
Definition daemon : Daemon.t := Daemon.mk world [] [].

Definition message : Message.t :=
  Message.mk "M" None "C" "A" None (Some "the secret") None None None None None None None []
    Interactions.default None None None (Some 4%Z).
Definition push : PushNotification.t :=
  PushNotification.mk "A" "icon" None "the secret" None "C" 0 "url" (message, None, None)
    (Channel.TextChannel secret).

(** A mention of everyone is sent to the members who cannot see the channel, with its text. *)
Definition told : Daemon.t :=
  (receive config (Amqp.MassMentionMessageSent "S" [push]) daemon).2.
Lemma everyone_is_told_secrets :
  Daemon.queued told =
    [("fcm", PayloadToService.mk
       (PayloadKind.MessageNotification (rendered push "the secret")) "B" "session" "device" ∅)] ∧
  match calculate_channel_permissions
          (single_query (World.db world) 1 (Fixture.user "B" []) secret server member_b) with
  | (Ok p, _) => Some (PermissionValue.has_channel_permission p ChannelPermission.ViewChannel)
  | _ => None
  end = Some false.
Proof. split; vm_compute; reflexivity. Qed.

(** From the API to the device, which is not known any more *)
Definition sent_to_device : Daemon.t :=
  (next_queued config (receive config (Amqp.MessageSent ["B"; "A"] push) daemon).2).2.
Lemma message_reaches_device :
  Daemon.queued sent_to_device = [] ∧
  (device <$> Daemon.sent sent_to_device) = ["device"] ∧
  (Session.subscription <$> ReferenceDb.sessions (World.db (Daemon.world sent_to_device)) !! "session") =
    Some None.
Proof. split_and!; vm_compute; reflexivity. Qed.

Lemma messages_reach_every_session_witness :
  let '(r, s') := consume_message config (Delivery.MessageSentPayload push ["B"]) daemon in
  r = Ok tt ∧ Daemon.sent s' = Daemon.sent daemon ∧
  World.db (Daemon.world s') = World.db (Daemon.world daemon) ∧
  ∃ push', of_push push push' ∧
    Daemon.queued s' = Daemon.queued daemon ++
      omap (to_session config (PayloadKind.MessageNotification push'))
        (List.filter (λ session, bool_decide (Session.user_id session ∈ ["B"]))
          (hash_values (ReferenceDb.sessions (World.db (Daemon.world daemon))))).
Proof. apply (messages_reach_every_session config push ["B"] daemon). reflexivity. Defined.
End PushSample.
