(* ===== verification/Text.v ===== *)
(** * Text: whitespace, escaping and comparison of strings

    What the routes use of [str]: [split_whitespace] with the characters of Unicode's
    [White_Space] in UTF-8, [replace] of a character, [join], and the two helpers of
    [routes/oauth.rs] that compare and escape strings. *)

From stdpp Require Import base list sets strings.
From Stdlib Require Import ZArith Lia Ascii.
From S2P Require Import Prelude.

(** ** [str::split_whitespace] *)

(** [char::is_whitespace] on the characters of one, two and three bytes. The leading bytes of
    the longer ones do not occur inside another character. *)
Definition whitespace1 (a : ascii) : bool :=
  let n := nat_of_ascii a in bool_decide (n = 32) || ((9 <=? n) && (n <=? 13)).
Definition whitespace2 (a b : ascii) : bool :=
  bool_decide (nat_of_ascii a = 194 ∧ nat_of_ascii b ∈ [133; 160]).
Definition whitespace3 (a b c : ascii) : bool :=
  let x := nat_of_ascii a in let y := nat_of_ascii b in let z := nat_of_ascii c in
  bool_decide (x = 225 ∧ y = 154 ∧ z = 128) ||
  bool_decide (x = 226 ∧ y = 128) && (((128 <=? z) && (z <=? 138)) || bool_decide (z ∈ [168; 169; 175])) ||
  bool_decide (x = 226 ∧ y = 129 ∧ z = 159) ||
  bool_decide (x = 227 ∧ y = 128 ∧ z = 128).

(** The word read so far, when there is one *)
Definition flush (word : string) : list string := if bool_decide (word = "") then [] else [word].

Fixpoint words (word s : string) : list string :=
  match s with
  | "" => flush word
  | String a s1 =>
      if whitespace1 a then flush word ++ words "" s1 else
      match s1 with
      | String b s2 =>
          if whitespace2 a b then flush word ++ words "" s2 else
          match s2 with
          | String c s3 =>
              if whitespace3 a b c then flush word ++ words "" s3
              else words (word +:+ String a "") s1
          | "" => words (word +:+ String a "") s1
          end
      | "" => words (word +:+ String a "") s1
      end
  end.
Definition split_whitespace (s : string) : list string := words "" s.

(** [[String]::join] *)
Fixpoint join (separator : string) (l : list string) : string :=
  match l with
  | [] => ""
  | [s] => s
  | s :: l => s +:+ separator +:+ join separator l
  end.

(** A word of ASCII characters without whitespace *)
Definition plain (a : ascii) : bool := negb (whitespace1 a) && (nat_of_ascii a <? 128).
Fixpoint all_chars (f : ascii → bool) (s : string) : bool :=
  match s with "" => true | String a s => f a && all_chars f s end.
Definition plain_word (s : string) : bool := negb (bool_decide (s = "")) && all_chars plain s.

Lemma string_app_assoc (a b c : string) : (a +:+ b) +:+ c = a +:+ b +:+ c.
Proof. induction a as [|x a IH]; [done|]. exact (f_equal (String x) IH). Qed.
Lemma string_app_empty (a : string) : a +:+ "" = a.
Proof. induction a as [|x a IH]; [done|]. exact (f_equal (String x) IH). Qed.

Lemma plain_not_whitespace a b c :
  plain a = true → whitespace1 a = false ∧ whitespace2 a b = false ∧ whitespace3 a b c = false.
Proof.
  unfold plain, whitespace2, whitespace3. intros [Hw%negb_true_iff Ha%Nat.ltb_lt]%andb_prop.
  split; [done|]. cbv zeta.
  split; [by apply bool_decide_eq_false; lia|].
  apply orb_false_intro; [apply orb_false_intro; [apply orb_false_intro|]|];
    [|apply andb_false_intro1|..]; apply bool_decide_eq_false; lia.
Qed.

Lemma words_plain word a s : plain a = true → words word (String a s) = words (word +:+ String a "") s.
Proof.
  intros Ha. simpl. destruct (plain_not_whitespace a a a Ha) as [-> _].
  destruct s as [|b s]; [done|]. destruct (plain_not_whitespace a b b Ha) as (_ & -> & _).
  destruct s as [|c s]; [done|]. by destruct (plain_not_whitespace a b c Ha) as (_ & _ & ->).
Qed.

Lemma words_plain_word word s t :
  all_chars plain s = true → words word (s +:+ t) = words (word +:+ s) t.
Proof.
  revert word. induction s as [|a s IH]; intros word Hs.
  - by rewrite string_app_empty.
  - simpl in Hs. apply andb_prop in Hs as [Ha Hs].
    change (String a s +:+ t) with (String a (s +:+ t)).
    by rewrite words_plain, IH, string_app_assoc by done.
Qed.

(** Splitting what [join] put together *)
Lemma split_whitespace_join l :
  forallb plain_word l = true → split_whitespace (join " " l) = l.
Proof.
  unfold split_whitespace. induction l as [|s l IH]; [done|]. intros [Hs Hl]%andb_prop.
  unfold plain_word in Hs. apply andb_prop in Hs as [Hne%negb_true_iff%bool_decide_eq_false Hs].
  assert (Hflush : flush s = [s]) by (unfold flush; by rewrite bool_decide_eq_false_2).
  destruct l as [|s' l].
  - change (join " " [s]) with s. rewrite <- (string_app_empty s) at 1.
    by rewrite words_plain_word by done.
  - change (join " " (s :: s' :: l)) with (s +:+ String " " (join " " (s' :: l))).
    rewrite words_plain_word by done. change (flush s ++ words "" (join " " (s' :: l)) = s :: s' :: l).
    rewrite Hflush, IH by done. done.
Qed.

(** ** [str::replace] of a character *)

Fixpoint replace_char (from : ascii) (to s : string) : string :=
  match s with
  | "" => ""
  | String a s => (if bool_decide (a = from) then to else String a "") +:+ replace_char from to s
  end.

(** [html_escape] of [routes/oauth.rs] *)
Definition quote : ascii := ascii_of_nat 34.
Definition html_escape (input : string) : string :=
  replace_char quote "&quot;"
    (replace_char ">" "&gt;" (replace_char "<" "&lt;" (replace_char "&" "&amp;" input))).

Lemma all_chars_app f s t : all_chars f (s +:+ t) = all_chars f s && all_chars f t.
Proof.
  induction s as [|a s IH]; [done|]. change (String a s +:+ t) with (String a (s +:+ t)).
  simpl. by rewrite IH, andb_assoc.
Qed.

Lemma replace_char_all f from to s :
  all_chars f to = true →
  all_chars (λ a, f a || bool_decide (a = from)) s = true → all_chars f (replace_char from to s) = true.
Proof.
  intros Hto. induction s as [|a s IH]; simpl; [done|].
  intros [Ha Hs]%andb_prop. rewrite all_chars_app, IH by done.
  destruct (bool_decide (a = from)) eqn:Heq; [by rewrite Hto|].
  simpl. rewrite orb_false_r in Ha. by rewrite Ha.
Qed.

(** Characters that start a tag or end a quoted attribute *)
Definition markup (a : ascii) : bool := bool_decide (a ∈ ["<"; ">"; quote]%char).

Lemma all_chars_impl (f g : ascii → bool) s :
  (∀ a, f a = true → g a = true) → all_chars f s = true → all_chars g s = true.
Proof.
  intros Hfg. induction s as [|a s IH]; simpl; [done|].
  intros [Ha Hs]%andb_prop. rewrite (Hfg a Ha). by apply IH.
Qed.

(** Escaped text has no markup. *)
Lemma html_escape_no_markup s : all_chars (λ a, negb (markup a)) (html_escape s) = true.
Proof.
  unfold html_escape. apply replace_char_all; [done|].
  apply (all_chars_impl (λ a, negb (bool_decide (a ∈ ["<"; ">"]%char)))).
  { intros a Ha. unfold markup. destruct (bool_decide_reflect (a = quote)); [apply orb_true_r|].
    rewrite orb_false_r. apply negb_true_iff in Ha. apply negb_true_iff. reflect_bools.
    apply bool_decide_eq_false. set_solver. }
  apply replace_char_all; [done|].
  apply (all_chars_impl (λ a, negb (bool_decide (a = "<"%char)))).
  { intros a Ha. destruct (bool_decide_reflect (a = ">"%char)); [apply orb_true_r|].
    rewrite orb_false_r. apply negb_true_iff in Ha. apply negb_true_iff. reflect_bools.
    apply bool_decide_eq_false. set_solver. }
  apply replace_char_all; [done|].
  generalize (replace_char "&" "&amp;" s). intros t. induction t as [|a t IH]; simpl; [done|].
  rewrite IH, andb_true_r. destruct (bool_decide (a = "<"%char)); done.
Qed.

(** ** [constant_time_equal] of [routes/oauth.rs] *)

(** [str::as_bytes] *)
Fixpoint as_bytes (s : string) : list Z :=
  match s with "" => [] | String a s => Z.of_N (N_of_ascii a) :: as_bytes s end.

Definition constant_time_equal (left right : string) : bool :=
  let result := Z.lxor (Z.of_nat (String.length left)) (Z.of_nat (String.length right)) in
  let result := fold_left (λ result '(a, b), Z.lor result (Z.lxor a b))
                  (zip (as_bytes left) (as_bytes right)) result in
  (result =? 0)%Z.

Lemma fold_lor_zero (l : list (Z * Z)) r :
  fold_left (λ result '(a, b), Z.lor result (Z.lxor a b)) l r = 0%Z ↔
  r = 0%Z ∧ ∀ a b, (a, b) ∈ l → a = b.
Proof.
  revert r. induction l as [|[a b] l IH]; intros r; simpl.
  - split; [intros ->; split; [done|]; by intros ?? ?%not_elem_of_nil|by intros [-> _]].
  - rewrite IH, Z.lor_eq_0_iff, Z.lxor_eq_0_iff. setoid_rewrite elem_of_cons. split.
    + intros [[-> ->] Hl]. split; [done|]. intros x y [[= -> ->]|Hin]; [done|by apply Hl].
    + intros [-> Hl]. split; [split; [done|by apply Hl; left]|]. intros x y Hin. apply Hl. by right.
Qed.

Lemma as_bytes_length s : length (as_bytes s) = String.length s.
Proof. by induction s; simpl; [|f_equal]. Qed.

Lemma as_bytes_inj s t : as_bytes s = as_bytes t → s = t.
Proof.
  revert t. induction s as [|a s IH]; intros [|b t]; simpl; [done..|].
  intros [= Hab%N2Z.inj Hst]. f_equal; [|by apply IH].
  by rewrite <- (ascii_N_embedding a), Hab, ascii_N_embedding.
Qed.

(** It compares: no early exit, the same answer. *)
Lemma constant_time_equal_spec left right :
  constant_time_equal left right = bool_decide (left = right).
Proof.
  unfold constant_time_equal. apply Bool.eq_iff_eq_true.
  rewrite Z.eqb_eq, bool_decide_eq_true, fold_lor_zero, Z.lxor_eq_0_iff. split.
  - intros [Hlen%Nat2Z.inj Hall]. apply as_bytes_inj. rewrite <- !as_bytes_length in Hlen.
    revert Hlen Hall. generalize (as_bytes left), (as_bytes right).
    intros l. induction l as [|a l IH]; intros [|b k]; simpl; try done. intros [= Hlen] Hall.
    rewrite (Hall a b) by left. f_equal. apply IH; [done|]. intros x y Hin. apply Hall. by right.
  - intros ->. split; [done|]. generalize (as_bytes right). intros l a b.
    induction l as [|c l IH]; simpl; [by intros ?%not_elem_of_nil|].
    intros [[= -> ->]|Hin]%elem_of_cons; [done|by apply IH].
Qed.
