(* ===== verification/Mongo.v ===== *)
(** * Collections of the MongoDB driver

    Several routes of the API bypass the database layer and work on collections of untyped
    documents ([mongo.col::<Document>(..)]). The driver and the server behind it are not part of
    the repository: [MongoDriver] is what their documentation promises of the calls the routes
    make, for any answer the server may give and any call that may fail. [Store] is the state of
    such a route: the world of the other handlers, the collections, and the numbers of the calls
    and of the random values drawn. *)

From stdpp Require Import base list gmap strings sorting.
From Stdlib Require Import ZArith Lia.
From S2P Require Import Prelude Errors World References Triples.

(** ** Documents *)

Module Bson.
Inductive t : Type :=
  | String (s : string) | Boolean (b : bool) | Int64 (n : Z) | DateTime (milliseconds : Z) | Null
  | ObjectId (id : string) | Array (l : list t) | Embedded (d : list (string * t)).

Fixpoint eqb (a b : t) : bool :=
  match a, b with
  | String x, String y => bool_decide (x = y)
  | Boolean x, Boolean y => bool_decide (x = y)
  | Int64 x, Int64 y => bool_decide (x = y)
  | DateTime x, DateTime y => bool_decide (x = y)
  | Null, Null => true
  | ObjectId x, ObjectId y => bool_decide (x = y)
  | Array x, Array y =>
      (fix go (x y : list t) : bool :=
         match x, y with
         | [], [] => true
         | a :: x, b :: y => eqb a b && go x y
         | _, _ => false
         end) x y
  | Embedded x, Embedded y =>
      (fix go (x y : list (string * t)) : bool :=
         match x, y with
         | [], [] => true
         | (j, a) :: x, (k, b) :: y => bool_decide (j = k) && eqb a b && go x y
         | _, _ => false
         end) x y
  | _, _ => false
  end.

Fixpoint eqb_eq (a b : t) {struct a} : eqb a b = true → a = b.
Proof.
  destruct a as [x|x|x|x| |x|x|x], b as [y|y|y|y| |y|y|y]; simpl; try discriminate;
    try (intros ?%bool_decide_eq_true; by f_equal); [done| |].
  - intros Hxy. f_equal. revert y Hxy. induction x as [|a x IH]; intros [|b y]; try done.
    intros [Hab Hxy]%andb_prop. f_equal; [by apply eqb_eq|by apply IH].
  - intros Hxy. f_equal. revert y Hxy. induction x as [|[j a] x IH]; intros [|[k b] y]; try done.
    intros [[->%bool_decide_eq_true Hab]%andb_prop Hxy]%andb_prop.
    f_equal; [f_equal; by apply eqb_eq|by apply IH].
Defined.
Fixpoint eqb_refl (a : t) : eqb a a = true.
Proof.
  destruct a as [x|x|x|x| |x|x|x]; simpl; try by rewrite bool_decide_eq_true_2.
  - done.
  - induction x as [|a x IH]; [done|]. by rewrite eqb_refl, IH.
  - induction x as [|[j a] x IH]; [done|]. by rewrite bool_decide_eq_true_2, eqb_refl, IH.
Defined.
#[global] Instance t_eq_dec : EqDecision t.
Proof.
  intros a b. destruct (eqb a b) eqn:Hab; [left; by apply eqb_eq|].
  right. intros ->. by rewrite eqb_refl in Hab.
Defined.

(** [bson::DateTime] counts milliseconds, the clock of the world nanoseconds. *)
Definition datetime (nanoseconds : Z) : t := DateTime (nanoseconds / 10 ^ 6).
(** [Option<&str>] and the like in [doc!] *)
Definition optional {A} (f : A → t) (o : option A) : t := match o with Some a => f a | None => Null end.
End Bson.

Abbreviation Document := (gmap string Bson.t).
Abbreviation Collection := (list Document).

(** [Document::get_str] and the like, without the error *)
Definition get_str (d : Document) (key : string) : option string :=
  match d !! key with Some (Bson.String s) => Some s | _ => None end.
Definition get_bool (d : Document) (key : string) : option bool :=
  match d !! key with Some (Bson.Boolean b) => Some b | _ => None end.
Definition get_i64 (d : Document) (key : string) : option Z :=
  match d !! key with Some (Bson.Int64 n) => Some n | _ => None end.
Definition get_datetime (d : Document) (key : string) : option Z :=
  match d !! key with Some (Bson.DateTime n) => Some n | _ => None end.
Definition get_array (d : Document) (key : string) : option (list Bson.t) :=
  match d !! key with Some (Bson.Array l) => Some l | _ => None end.
(** [.filter_map(|v| v.as_str())] *)
Definition as_strs (l : list Bson.t) : list string :=
  omap (λ v, match v with Bson.String s => Some s | _ => None end) l.
Definition strs (l : list string) : Bson.t := Bson.Array (Bson.String <$> l).

Lemma as_strs_strs l : as_strs (Bson.String <$> l) = l.
Proof. unfold as_strs. induction l as [|s l IH]; simpl; [done|]. by f_equal. Qed.

(** ** Filters and updates *)

Module Condition.
Inductive t : Type :=
  | Is (v : Bson.t) | Gt (v : Bson.t) | Gte (v : Bson.t) | Lt (v : Bson.t)
  | Exists (b : bool) | In (l : list Bson.t).
End Condition.

(** A field by its path: ["_id.server"] is [["_id"; "server"]]. *)
Abbreviation Filter := (list (list string * Condition.t)).
Definition field (key : string) (c : Condition.t) : list string * Condition.t := ([key], c).

(** Values of different types are not compared. *)
Definition bson_compare (a b : Bson.t) : option comparison :=
  match a, b with
  | Bson.Int64 x, Bson.Int64 y => Some (x ?= y)%Z
  | Bson.DateTime x, Bson.DateTime y => Some (x ?= y)%Z
  | _, _ => None
  end.

Fixpoint path_value (path : list string) (v : Bson.t) : option Bson.t :=
  match path with
  | [] => Some v
  | key :: path =>
      match v with
      | Bson.Embedded d => list_find (λ kv, kv.1 = key) d ≫= λ found, path_value path found.2.2
      | _ => None
      end
  end.
Definition document_value (path : list string) (d : Document) : option Bson.t :=
  match path with [] => None | key :: path => d !! key ≫= path_value path end.

(** Equality also matches an array with that element, and [null] a missing field. *)
Definition equals (v : Bson.t) (found : option Bson.t) : bool :=
  match found with
  | Some w => bool_decide (w = v) || match w with Bson.Array l => bool_decide (v ∈ l) | _ => false end
  | None => bool_decide (v = Bson.Null)
  end.
Definition satisfies (c : Condition.t) (found : option Bson.t) : bool :=
  match c with
  | Condition.Is v => equals v found
  | Condition.In l => existsb (λ v, equals v found) l
  | Condition.Exists b => bool_decide (b = bool_decide (is_Some found))
  | Condition.Gt v => bool_decide ((found ≫= λ w, bson_compare w v) = Some Datatypes.Gt)
  | Condition.Gte v =>
      bool_decide ((found ≫= λ w, bson_compare w v) ∈ [Some Datatypes.Gt; Some Datatypes.Eq])
  | Condition.Lt v => bool_decide ((found ≫= λ w, bson_compare w v) = Some Datatypes.Lt)
  end.
Definition matches (f : Filter) (d : Document) : bool :=
  forallb (λ '(path, c), satisfies c (document_value path d)) f.

(** [$set] and [$inc] *)
Module UpdateOp.
Inductive t : Type := Set_ (key : string) (v : Bson.t) | Inc (key : string) (amount : Z).
End UpdateOp.
Abbreviation Update := (list UpdateOp.t).
Definition apply_op (d : Document) (op : UpdateOp.t) : Document :=
  match op with
  | UpdateOp.Set_ key v => <[key := v]> d
  | UpdateOp.Inc key amount =>
      match d !! key with
      | Some (Bson.Int64 n) => <[key := Bson.Int64 (n + amount)]> d
      | None => <[key := Bson.Int64 amount]> d
      | Some _ => d
      end
  end.
Definition apply_update (u : Update) (d : Document) : Document := foldl apply_op d u.

(** The document an upsert inserts: the fields compared for equality, then the update *)
Definition upsert_document (f : Filter) (u : Update) : Document :=
  apply_update u (foldl (λ d c, match c with ([key], Condition.Is v) => <[key := v]> d | _ => d end) ∅ f).

(** A filter on a part of [_id] *)
Definition dotted_id (f : Filter) : bool :=
  existsb (λ c, match c with ("_id" :: _ :: _, _) => true | _ => false end) f.

Module UpdateResult.
Record t : Type := mk { matched_count : nat; modified_count : nat }.
End UpdateResult.

(** ** The driver *)

Definition no_match (f : Filter) (c : Collection) : Prop := ∀ d, d ∈ c → matches f d = false.
Definition selected (f : Filter) (c : Collection) : Collection := filter (λ d, matches f d = true) c.

(** A document of [c] that matches is updated. *)
Definition changed_one (f : Filter) (u : Update) (c c' : Collection) (d d' : Document) : Prop :=
  matches f d = true ∧ d' = apply_update u d ∧ ∃ rest, c ≡ₚ d :: rest ∧ c' ≡ₚ d' :: rest.
(** A document is stored under its [_id], a new one when it has none. *)
Definition inserted_one (d : Document) (c c' : Collection) : Prop :=
  ∃ d', match d !! "_id" with
        | Some i => d' = d ∧ ∀ e, e ∈ c → e !! "_id" ≠ Some i
        | None => ∃ i, d' = <["_id" := Bson.ObjectId i]> d
        end ∧ c' ≡ₚ d' :: c.
Definition deleted_one (f : Filter) (c c' : Collection) : Prop :=
  ∃ d, matches f d = true ∧ c ≡ₚ d :: c'.
Definition changed_many (f : Filter) (u : Update) (c : Collection) : Collection :=
  (λ d, if matches f d then apply_update u d else d) <$> c.

(** The order of numbers in a descending sort *)
Definition descending (key : string) (d e : Document) : Prop :=
  ∀ x y, get_i64 d key = Some x → get_i64 e key = Some y → (y ≤ x)%Z.

(** [None] is an error of the call: what it should have written may be written or not. The
    first argument is the number of the call. *)
Class MongoDriver := {
  find_one : nat → Filter → Collection → option (option Document);
  find_one_law n f c r : find_one n f c = Some r →
    match r with Some d => d ∈ c ∧ matches f d = true | None => no_match f c end;

  (** what the cursor yields, and whether it came to the end *)
  find : nat → Filter → Collection → option (Collection * bool);
  find_law n f c l b : find n f c = Some (l, b) →
    ∃ missed, l ++ missed ≡ₚ selected f c ∧ (b = true → missed = []);

  (** [find] with [sort(doc! { key: -1 })] and [limit], skipping the documents that fail; the key
      a number *)
  find_top : nat → Filter → string → nat → Collection → option Collection;
  find_top_law n f key limit c l : find_top n f key limit c = Some l →
    ∃ full, full ≡ₚ selected f c ∧ StronglySorted (descending key) full ∧ sublist l (take limit full);

  count_documents : nat → Filter → Collection → option nat;
  count_documents_law n f c k : count_documents n f c = Some k → k = length (selected f c);

  insert_one : nat → Document → Collection → option unit * Collection;
  insert_one_law n d c :
    match insert_one n d c with
    | (Some _, c') => inserted_one d c c'
    | (None, c') => c' = c ∨ inserted_one d c c'
    end;

  (** with [ReturnDocument::After] *)
  find_one_and_update : nat → Filter → Update → Collection → option (option Document) * Collection;
  find_one_and_update_law n f u c :
    match find_one_and_update n f u c with
    | (Some (Some d'), c') => ∃ d, changed_one f u c c' d d'
    | (Some None, c') => c' = c ∧ no_match f c
    | (None, c') => c' = c ∨ ∃ d d', changed_one f u c c' d d'
    end;

  (** the flag is [upsert] *)
  update_one : nat → bool → Filter → Update → Collection → option UpdateResult.t * Collection;
  update_one_law n upsert f u c :
    match update_one n upsert f u c with
    | (Some r, c') =>
        (∃ d d', changed_one f u c c' d d' ∧
           r = UpdateResult.mk 1 (if decide (d = d') then 0 else 1)) ∨
        (no_match f c ∧ r = UpdateResult.mk 0 0 ∧
           if upsert then dotted_id f = false ∧ inserted_one (upsert_document f u) c c' else c' = c)
    | (None, c') =>
        c' = c ∨ (∃ d d', changed_one f u c c' d d') ∨
        (upsert = true ∧ dotted_id f = false ∧ inserted_one (upsert_document f u) c c')
    end;

  update_many : nat → Filter → Update → Collection → option UpdateResult.t * Collection;
  update_many_law n f u c :
    match update_many n f u c with
    | (Some r, c') => c' ≡ₚ changed_many f u c ∧ UpdateResult.matched_count r = length (selected f c)
    | (None, c') =>
        ∃ l, l ≡ₚ c' ∧ Forall2 (λ d d', d' = d ∨ matches f d = true ∧ d' = apply_update u d) c l
    end;

  delete_one : nat → Filter → Collection → option nat * Collection;
  delete_one_law n f c :
    match delete_one n f c with
    | (Some k, c') => (k = 1 ∧ deleted_one f c c') ∨ (k = 0 ∧ no_match f c ∧ c' = c)
    | (None, c') => c' = c ∨ deleted_one f c c'
    end;

  delete_many : nat → Filter → Collection → option nat * Collection;
  delete_many_law n f c :
    match delete_many n f c with
    | (Some k, c') => c' ≡ₚ filter (λ d, matches f d = false) c
    | (None, c') => ∃ gone, c ≡ₚ gone ++ c' ∧ Forall (λ d, matches f d = true) gone
    end;

  (** with [upsert] *)
  replace_one : nat → Filter → Document → Collection → option unit * Collection;
  replace_one_law n f d c :
    match replace_one n f d c with
    | (Some _, c') =>
        (∃ e rest, matches f e = true ∧ c ≡ₚ e :: rest ∧ c' ≡ₚ d :: rest) ∨
        (no_match f c ∧ inserted_one d c c')
    | (None, c') =>
        c' = c ∨ (∃ e rest, matches f e = true ∧ c ≡ₚ e :: rest ∧ c' ≡ₚ d :: rest) ∨
        inserted_one d c c'
    end
}.

(** ** The state of a route *)

Module Store.
Record t : Type := mk {
  world : World.t;
  (** [Database::MongoDb(_)] or [Database::Reference(_)] *)
  is_mongo : bool;
  collections : gmap string Collection;
  (** calls of the driver so far *)
  calls : nat;
  (** values drawn from [OsRng] so far *)
  randoms : nat;
  (** [RATE_LIMITS] of [routes/oauth.rs]: the start of the window and its requests *)
  oauth_limits : gmap string (Z * Z)
}.
Definition set_world (s : t) x : t :=
  mk x (is_mongo s) (collections s) (calls s) (randoms s) (oauth_limits s).
Definition set_collections (s : t) x : t :=
  mk (world s) (is_mongo s) x (calls s) (randoms s) (oauth_limits s).
Definition set_calls (s : t) x : t :=
  mk (world s) (is_mongo s) (collections s) x (randoms s) (oauth_limits s).
Definition set_randoms (s : t) x : t :=
  mk (world s) (is_mongo s) (collections s) (calls s) x (oauth_limits s).
Definition set_oauth_limits (s : t) x : t :=
  mk (world s) (is_mongo s) (collections s) (calls s) (randoms s) x.
Definition set_now (s : t) (now : Z) : t := set_world s (World.set_now (world s) now).
(** [mongo.col::<Document>(name)] *)
Definition col (s : t) (name : string) : Collection := default [] (collections s !! name).
Definition set_col (s : t) (name : string) (c : Collection) : t :=
  set_collections s (<[name := c]> (collections s)).
Definition empty (w : World.t) : t := mk w true ∅ 0 0 ∅.
End Store.

(** A handler of the database layer inside a route, its error as [f] reports it *)
Definition on_world {E A} (f : ErrorType.t → E) (m : H A) : M E Store.t A :=
  λ s, let '(r, w) := m (Store.world s) in
       (match r with Ok a => Ok a | Err e => Err (f e) | Panicked => Panicked end, Store.set_world s w).

(** A call on a collection, [None] for its error *)
Definition on_col {E A} (name : string) (op : nat → Collection → option A * Collection) :
    M E Store.t (option A) :=
  λ s, let '(r, c) := op (Store.calls s) (Store.col s name) in
       (Ok r, Store.set_calls (Store.set_col s name c) (S (Store.calls s))).
Definition reading {A} (op : nat → Collection → option A) : nat → Collection → option A * Collection :=
  λ n c, (op n c, c).

(** [.await.map_err(|_| e)?] *)
Definition map_err {E A} (e : E) (m : M E Store.t (option A)) : M E Store.t A :=
  r ← m; match r with Some a => mret a | None => throw e end.

(** [match db { Database::MongoDb(mongo) => yes, Database::Reference(_) => no }] *)
Definition with_mongo {E A} (yes no : M E Store.t A) : M E Store.t A :=
  λ s, if Store.is_mongo s then yes s else no s.
Definition store_now {E} : M E Store.t Z := gets (λ s, World.now (Store.world s)).

(** ** A driver that always answers

    The collections as lists, the first match taken. *)

Module ListDriver.
Fixpoint take_match (f : Filter) (c : Collection) : option (Document * Collection) :=
  match c with
  | [] => None
  | d :: c => if matches f d then Some (d, c) else prod_map id (cons d) <$> take_match f c
  end.

Lemma take_match_spec f c :
  match take_match f c with
  | Some (d, rest) => matches f d = true ∧ c ≡ₚ d :: rest
  | None => no_match f c
  end.
Proof.
  induction c as [|d c IH]; simpl; [by intros ? ?%not_elem_of_nil|].
  destruct (matches f d) eqn:Hd; [done|]. destruct (take_match f c) as [[e rest]|]; simpl.
  - destruct IH as [He Hc]. split; [done|]. rewrite Hc. constructor.
  - intros e [->|He]%elem_of_cons; [done|by apply IH].
Qed.

Definition new_id : Bson.t := Bson.ObjectId "".
Definition insert_one (d : Document) (c : Collection) : option unit * Collection :=
  match d !! "_id" with
  | Some i =>
      if existsb (λ e, bool_decide (e !! "_id" = Some i)) c then (None, c) else (Some tt, d :: c)
  | None => (Some tt, <["_id" := new_id]> d :: c)
  end.

Lemma insert_one_spec d c :
  match insert_one d c with (Some _, c') => inserted_one d c c' | (None, c') => c' = c end.
Proof.
  unfold insert_one, inserted_one. destruct (d !! "_id") as [i|].
  - destruct (existsb _ c) eqn:Hex; [done|]. exists d. split; [|done]. split; [done|].
    intros e He Hi. apply not_true_iff_false in Hex. apply Hex, existsb_exists.
    exists e. rewrite bool_decide_eq_true_2 by done. split; [by apply list_elem_of_In|done].
  - exists (<["_id" := new_id]> d). split; [by eexists|done].
Qed.

Definition update_one (upsert : bool) (f : Filter) (u : Update) (c : Collection) :
    option UpdateResult.t * Collection :=
  match take_match f c with
  | Some (d, rest) =>
      let d' := apply_update u d in
      (Some (UpdateResult.mk 1 (if decide (d = d') then 0 else 1)), d' :: rest)
  | None =>
      if upsert then
        if dotted_id f then (None, c) else
        match insert_one (upsert_document f u) c with
        | (Some _, c') => (Some (UpdateResult.mk 0 0), c')
        | (None, c') => (None, c')
        end
      else (Some (UpdateResult.mk 0 0), c)
  end.
End ListDriver.

Definition list_driver : MongoDriver.
Proof.
  refine {|
    find_one n f c := Some (fst <$> ListDriver.take_match f c);
    find n f c := Some (selected f c, true);
    find_top n f key limit c :=
      Some (take limit (sort_desc (λ d, default 0%Z (get_i64 d key)) (selected f c)));
    count_documents n f c := Some (length (selected f c));
    insert_one n d c := ListDriver.insert_one d c;
    find_one_and_update n f u c :=
      match ListDriver.take_match f c with
      | Some (d, rest) => (Some (Some (apply_update u d)), apply_update u d :: rest)
      | None => (Some None, c)
      end;
    update_one n := ListDriver.update_one;
    update_many n f u c :=
      (Some (UpdateResult.mk (length (selected f c)) (length (selected f c))), changed_many f u c);
    delete_one n f c :=
      match ListDriver.take_match f c with Some (d, rest) => (Some 1, rest) | None => (Some 0, c) end;
    delete_many n f c :=
      (Some (length (selected f c)), filter (λ d, matches f d = false) c);
    replace_one n f d c :=
      match ListDriver.take_match f c with
      | Some (_, rest) => (Some tt, d :: rest)
      | None => ListDriver.insert_one d c
      end |};
    (intros; cbn beta; try (by simplify_eq/=)).
  - simplify_eq/=. pose proof (ListDriver.take_match_spec f c) as Hs.
    destruct (ListDriver.take_match f c) as [[d rest]|]; [|done].
    destruct Hs as [Hd Hc]. split; [rewrite Hc; left|done].
  - simplify_eq/=. exists []. by rewrite app_nil_r.
  - simplify_eq/=.
    exists (sort_desc (λ d, default 0%Z (get_i64 d key)) (selected f c)).
    split; [unfold sort_desc; apply sort_by_perm|]. split; [|reflexivity].
    eapply StronglySorted_impl; [|apply sort_desc_sorted]. unfold descending.
    intros a b Hab x y Hx Hy. by rewrite Hx, Hy in Hab.
  - pose proof (ListDriver.insert_one_spec d c) as Hs.
    destruct (ListDriver.insert_one d c) as [[]]; [done|by left].
  - pose proof (ListDriver.take_match_spec f c) as Hs.
    destruct (ListDriver.take_match f c) as [[d rest]|]; [|done]. destruct Hs as [Hd Hc].
    exists d. split; [done|]. split; [done|]. by exists rest.
  - unfold ListDriver.update_one. pose proof (ListDriver.take_match_spec f c) as Hs.
    destruct (ListDriver.take_match f c) as [[d rest]|].
    + destruct Hs as [Hd Hc]. left. exists d, (apply_update u d). split; [|done].
      split; [done|]. split; [done|]. by exists rest.
    + destruct upsert; [|right; done]. destruct (dotted_id f) eqn:Hdot; [by left|].
      pose proof (ListDriver.insert_one_spec (upsert_document f u) c) as Hi.
      destruct (ListDriver.insert_one _ c) as [[]]; [right; done|by left].
  - pose proof (ListDriver.take_match_spec f c) as Hs.
    destruct (ListDriver.take_match f c) as [[d rest]|]; [left|right; done].
    split; [done|]. by exists d.
  - pose proof (ListDriver.take_match_spec f c) as Hs.
    destruct (ListDriver.take_match f c) as [[e rest]|].
    + left. exists e, rest. by destruct Hs.
    + pose proof (ListDriver.insert_one_spec d c) as Hi.
      destruct (ListDriver.insert_one d c) as [[]]; [by right|by left].
Defined.

(** ** Collections after a call *)

Section Calls.
Context `{MongoDriver} {E : Type}.

Lemma post_on_col {A} name (op : nat → Collection → option A * Collection) s
    (Q : Outcome E (option A) → Store.t → Prop) :
  (∀ r c, op (Store.calls s) (Store.col s name) = (r, c) →
     Q (Ok r) (Store.set_calls (Store.set_col s name c) (S (Store.calls s)))) →
  post (on_col name op) s Q.
Proof. unfold post, on_col. destruct (op _ _) as [r c] eqn:Hop. intros HQ. by apply HQ. Qed.

Lemma post_map_err {A} (e : E) (m : M E Store.t (option A)) s (Q : Outcome E A → Store.t → Prop) :
  post m s (λ r s', match r with
                    | Ok (Some a) => Q (Ok a) s'
                    | Ok None => Q (Err e) s'
                    | Err e' => Q (Err e') s'
                    | Panicked => Q Panicked s'
                    end) →
  post (map_err e m) s Q.
Proof.
  intros Hm. apply post_bind. eapply post_mono; [exact Hm|]. by intros [[]| |].
Qed.

Lemma post_with_mongo {A} (yes no : M E Store.t A) s Q :
  (Store.is_mongo s = true → post yes s Q) → (Store.is_mongo s = false → post no s Q) →
  post (with_mongo yes no) s Q.
Proof. unfold post, with_mongo. destruct (Store.is_mongo s); auto. Qed.

Lemma post_on_world {A} (f : ErrorType.t → E) (m : H A) s (Q : Outcome E A → Store.t → Prop) :
  (∀ r w, Q r (Store.set_world s w)) → post (on_world f m) s Q.
Proof. unfold post, on_world. destruct (m (Store.world s)) as [r w]. intros HQ. apply HQ. Qed.

(** What a match says of a field that is no array *)
Lemma matches_is f key v w d :
  matches f d = true → field key (Condition.Is v) ∈ f → d !! key = Some w →
  (∀ l, w ≠ Bson.Array l) → w = v.
Proof.
  unfold matches. rewrite forallb_forall. intros Hall Hin%list_elem_of_In Hw Hl.
  specialize (Hall _ Hin). simpl in Hall. rewrite Hw in Hall. simpl in Hall.
  destruct w as [| | | | | |l|]; try by rewrite orb_false_r in Hall; apply bool_decide_eq_true in Hall.
  by destruct (Hl l).
Qed.
Lemma matches_gt f key v d :
  matches f d = true → field key (Condition.Gt v) ∈ f →
  ∃ w, d !! key = Some w ∧ bson_compare w v = Some Datatypes.Gt.
Proof.
  unfold matches. rewrite forallb_forall. intros Hall Hin%list_elem_of_In.
  specialize (Hall _ Hin). simpl in Hall. apply bool_decide_eq_true in Hall.
  destruct (d !! key) as [w|]; [|done]. by exists w.
Qed.
Lemma matches_intro f d :
  (∀ path c, (path, c) ∈ f → satisfies c (document_value path d) = true) → matches f d = true.
Proof.
  intros Hf. unfold matches. apply forallb_forall. intros [path c] Hin%list_elem_of_In. by apply Hf.
Qed.
End Calls.
