(* ===== verification/OAuth.v ===== *)
(** * OAuth: the authorization server of [routes/oauth.rs]

    The authorization-code flow with PKCE, its five collections ([oauth_applications],
    [oauth_consent_requests], [oauth_authorization_codes], [oauth_access_tokens],
    [oauth_refresh_tokens]), the refresh-token rotation, revocation, the user information
    endpoint and the management of applications. Hashing, encoding, random values and URLs come
    from crates and are parameters ([OAuthServices]). *)

From stdpp Require Import base list gmap strings.
From Stdlib Require Import ZArith Lia.
From S2P Require Import Prelude Errors Permissions PermissionSpec Files Users Servers Channels.
From S2P Require Import PermissionQuery Messages Unreads Config Emojis Webhooks Bots AuditLogs.
From S2P Require Import Accounts World Database Relationships References MessageCreate AccountOps.
From S2P Require Import AccountRoutes Text Mongo.

(** [url::Url], as far as it is read *)
Module Url.
Record t : Type := mk { scheme : string; host_str : option string }.
End Url.

Class OAuthServices := {
  (** [Sha256::digest(value.as_bytes())] *)
  sha256 : string → string;
  (** [URL_SAFE_NO_PAD.encode] *)
  url_safe_no_pad : string → string;
  (** [OsRng.fill_bytes]: the [n]-th draw, of so many bytes *)
  os_rng : nat → nat → string;
  (** [Url::parse] *)
  url_parse : string → option Url.t;
  (** [form_urlencoded::Serializer] with [append_pair] *)
  form_urlencoded : list (string * string) → string;
  (** [DateTime::try_to_rfc3339_string] *)
  rfc3339 : Z → option string;
  (** [Timestamp::to_string] *)
  timestamp_string : Z → string
}.

(** ** Data *)

Module OAuthError.
Record t : Type := mk { error : string; error_description : option string }.
End OAuthError.

(** Why a request failed: a guard of the session, a guard with only a status, or the body *)
Module Failure.
Inductive t : Type :=
  | Guard (e : ErrorType.t) | Status (status : Z) | Refused (status : Z) (error : OAuthError.t).
End Failure.

Module AuthorizeQuery.
Record t : Type := mk {
  response_type : string; client_id : string; redirect_uri : string; scope : string; state : string;
  code_challenge : option string; code_challenge_method : option string
}.
End AuthorizeQuery.

Module ConsentForm.
Record t : Type := mk { request_id : string; csrf : string; decision : string }.
End ConsentForm.

Module TokenRequest.
Record t : Type := mk {
  grant_type : string; code : option string; redirect_uri : option string;
  client_id : option string; client_secret : option string; code_verifier : option string;
  refresh_token : option string
}.
End TokenRequest.

Module TokenResponse.
Record t : Type := mk {
  access_token : string; token_type : string; expires_in : Z; refresh_token : string;
  scope : string
}.
End TokenResponse.

Module ApplicationCreate.
Record t : Type := mk {
  name : string; redirect_uris : list string; allowed_scopes : list string; public : bool
}.
End ApplicationCreate.

Module ApplicationResponse.
Record t : Type := mk {
  client_id : string; name : string; owner_id : string; redirect_uris : list string;
  allowed_scopes : list string; public : bool; revoked : bool; created_at : string;
  client_secret : option string
}.
End ApplicationResponse.

Module MemberInfo.
Record t : Type := mk { roles : list string; joined_at : string }.
End MemberInfo.

Module ChannelPermissionInfo.
Record t : Type := mk { id : string; permissions : Z }.
End ChannelPermissionInfo.

Module ServerInfo.
Record t : Type := mk {
  id : string; name : string; owner : option string; member : option MemberInfo.t;
  permissions : option Z; channels : option (list ChannelPermissionInfo.t)
}.
End ServerInfo.

Module UserInfo.
Record t : Type := mk {
  sub : string; username : option string; display_name : option string; avatar : option string;
  servers : option (list ServerInfo.t)
}.
End UserInfo.

Module RevokeRequest.
Record t : Type := mk { token : string; client_id : option string; client_secret : option string }.
End RevokeRequest.

(** The routes of [/oauth], with the credentials and the address they are sent from *)
Module OAuthRequest.
Inductive t : Type :=
  | Authorize (request : Credential.t) (query : AuthorizeQuery.t)
  | AuthorizeConsent (request : Credential.t) (form : ConsentForm.t)
  | Token (ip : option string) (request : TokenRequest.t)
  | Revoke (ip : option string) (request : RevokeRequest.t)
  | UserInfo_ (authorization : option string)
  | ApplicationsMe (request : Credential.t)
  | ApplicationCreate_ (request : Credential.t) (data : ApplicationCreate.t)
  | ApplicationRotateSecret (request : Credential.t) (client_id : string)
  | ApplicationRevoke (request : Credential.t) (client_id : string).
End OAuthRequest.

(** ** Constants *)

Definition seconds_ns (n : Z) : Z := (n * 10 ^ 9)%Z.
Definition AUTHORIZATION_CODE_TTL : Z := seconds_ns 300.
Definition ACCESS_TOKEN_TTL : Z := seconds_ns 600.
Definition REFRESH_TOKEN_TTL : Z := seconds_ns (30 * 24 * 60 * 60).
Definition SCOPES : list string := ["identify"; "servers"; "server_members"; "permissions"].

Definition APPLICATIONS : string := "oauth_applications".
Definition CONSENTS : string := "oauth_consent_requests".
Definition CODES : string := "oauth_authorization_codes".
Definition ACCESS : string := "oauth_access_tokens".
Definition REFRESH : string := "oauth_refresh_tokens".

Section OAuth.
Context `{Environment, MutualIds, HashIter, Trim, MongoDriver, OAuthServices}.
Abbreviation O := (M Failure.t Store.t).

(** ** Helpers *)

Definition refuse {A} (status : Z) (code description : string) : O A :=
  throw (Failure.Refused status (OAuthError.mk code (Some description))).
Definition storage_unavailable : Failure.t :=
  Failure.Refused Status.InternalServerError
    (OAuthError.mk "server_error" (Some "OAuth storage unavailable")).
(** [.ok_or_else(|| error(..))?] *)
Definition or_refuse {A} (o : option A) (status : Z) (code description : string) : O A :=
  match o with Some a => mret a | None => refuse status code description end.

Definition random_value (bytes : nat) : O string :=
  λ s, (Ok (url_safe_no_pad (os_rng (Store.randoms s) bytes)),
        Store.set_randoms s (S (Store.randoms s))).

Definition digest (value : string) : string := url_safe_no_pad (sha256 value).

Definition pkce_matches (verifier challenge : string) : bool :=
  let computed := url_safe_no_pad (sha256 verifier) in
  constant_time_equal computed challenge.

Definition now : O Bson.t := n ← store_now; mret (Bson.datetime n).
Definition expires_after (duration : Z) : O Bson.t := n ← store_now; mret (Bson.datetime (n + duration)).

Definition validate_redirect_uri (uri : string) : bool :=
  match url_parse uri with
  | Some url =>
      bool_decide (Url.scheme url = "https") ||
      (bool_decide (Url.scheme url = "http") && bool_decide (Url.host_str url = Some "localhost"))
  | None => false
  end.

Definition validate_scopes (requested : string) (allowed : list string) : option (list string) :=
  let scopes := split_whitespace requested in
  if bool_decide (scopes = []) ||
     existsb (λ scope, negb (bool_decide (scope ∈ SCOPES)) || negb (bool_decide (scope ∈ allowed))) scopes
  then None else Some scopes.

(** [Redirect::to] *)
Definition redirect (uri : string) (query : list (string * string)) : string :=
  uri +:+ "?" +:+ form_urlencoded query.
Definition redirect_error (uri state code description : string) : string :=
  redirect uri [("error", code); ("error_description", description); ("state", state)].

(** [impl FromRequest for OAuthRateLimit]. A count beyond [u32] panics. *)
Definition oauth_rate_limit (ip : option string) : O unit :=
  λ s, let key := default "unknown" ip in
       let t := World.now (Store.world s) in
       let '(start, used) := default (t, 0%Z) (Store.oauth_limits s !! key) in
       let '(start, used) := if (seconds_ns 60 <=? t - start)%Z then (t, 0%Z) else (start, used) in
       if (2 ^ 32 <=? used + 1)%Z then (Panicked, s) else
       let s := Store.set_oauth_limits s (<[key := (start, used + 1)%Z]> (Store.oauth_limits s)) in
       if (60 <? used + 1)%Z then (Err (Failure.Status Status.TooManyRequests), s) else (Ok tt, s).

(** [impl FromRequest for BearerToken]: [strip_prefix("Bearer ")] *)
Definition bearer_token (authorization : option string) : O string :=
  match authorization with
  | Some value =>
      if String.prefix "Bearer " value then
        let token := String.substring 7 (String.length value - 7) value in
        if bool_decide (token = "") then throw (Failure.Status Status.Unauthorized) else mret token
      else throw (Failure.Status Status.Unauthorized)
  | None => throw (Failure.Status Status.Unauthorized)
  end.

(** The guard of [Session] *)
Definition oauth_session (request : Credential.t) : O Session.t :=
  on_world Failure.Guard (session_guard request).

Definition app_response (d : Document) (secret : option string) : option ApplicationResponse.t :=
  client_id ← get_str d "_id";
  name ← get_str d "name";
  owner_id ← get_str d "owner_id";
  redirect_uris ← get_array d "redirect_uris";
  allowed_scopes ← get_array d "allowed_scopes";
  created_at ← get_datetime d "created_at" ≫= rfc3339;
  Some (ApplicationResponse.mk client_id name owner_id (as_strs redirect_uris)
          (as_strs allowed_scopes) (default false (get_bool d "public"))
          (default false (get_bool d "revoked")) created_at secret).

(** [application(db, client_id).await.map_err(..)?] *)
Definition application (client_id : string) : O (option Document) :=
  with_mongo
    (map_err storage_unavailable
       (on_col APPLICATIONS
          (reading (λ n, find_one n [field "_id" (Condition.Is (Bson.String client_id))]))))
    (mret None).

(** [bearer_user(db, token).await.map_err(..)?]: every error of it is reported alike. *)
Definition bearer_user (token : string) : O (option (Document * User.t)) :=
  t ← now;
  found ← with_mongo
    (map_err storage_unavailable
       (on_col ACCESS
          (reading (λ n, find_one n
             [field "token_hash" (Condition.Is (Bson.String (digest token)));
              field "revoked" (Condition.Is (Bson.Boolean false));
              field "expires_at" (Condition.Gt t)]))))
    (mret None);
  match found with
  | Some d =>
      match get_str d "user_id" with
      | Some user_id =>
          user ← on_world (λ _, storage_unavailable) (on_users (UsersTable.fetch_user user_id));
          mret (Some (d, user))
      | None => throw storage_unavailable
      end
  | None => mret None
  end.

(** ** The authorization endpoint *)

Definition scope_item (scope : string) : string := "<li>" +:+ html_escape scope +:+ "</li>".
(** A quotation mark in the text of the page *)
Definition q : string := String quote "".
Definition consent_page (client_id name username : string) (scopes : list string)
    (request_id csrf : string) : string :=
  "<!doctype html><title>Authorize " +:+ html_escape client_id +:+ "</title><main><h1>" +:+
  html_escape name +:+ " requests access</h1><p>Signed in as <strong>" +:+ html_escape username +:+
  "</strong>. Review the requested access:</p><ul>" +:+ join "" (scope_item <$> scopes) +:+
  "</ul><form method=post action=/oauth/authorize><input type=hidden name=request_id value=" +:+
  q +:+ html_escape request_id +:+ q +:+ "><input type=hidden name=csrf value=" +:+
  q +:+ html_escape csrf +:+ q +:+ "><button name=decision value=deny>Deny</button>" +:+
  "<button name=decision value=approve>Allow</button></form></main>".

Definition consent_document (request_id csrf client_id user_id redirect_uri state : string)
    (scopes : list string) (code_challenge : option string) (expires_at : Bson.t) : Document :=
  {["_id" := Bson.String request_id; "csrf_hash" := Bson.String (digest csrf);
    "client_id" := Bson.String client_id; "user_id" := Bson.String user_id;
    "redirect_uri" := Bson.String redirect_uri; "state" := Bson.String state;
    "scope" := Bson.String (join " " scopes);
    "code_challenge" := Bson.optional Bson.String code_challenge;
    "expires_at" := expires_at; "used" := Bson.Boolean false]}.

Definition authorize (session : Session.t) (query : AuthorizeQuery.t) : O string :=
  if negb (bool_decide (AuthorizeQuery.response_type query = "code")) ||
     bool_decide (AuthorizeQuery.state query = "")
  then refuse Status.BadRequest "invalid_request" "response_type=code and state are required" else
  app ← application (AuthorizeQuery.client_id query);
  app ← or_refuse app Status.BadRequest "invalid_client" "Unknown client";
  if default false (get_bool app "revoked")
  then refuse Status.BadRequest "invalid_client" "Application revoked" else
  redirect_uris ← or_refuse (get_array app "redirect_uris") Status.BadRequest "invalid_client"
                    "Application is malformed";
  if negb (bool_decide (AuthorizeQuery.redirect_uri query ∈ as_strs redirect_uris)) ||
     negb (validate_redirect_uri (AuthorizeQuery.redirect_uri query))
  then refuse Status.BadRequest "invalid_request"
         "redirect_uri does not exactly match the application allowlist" else
  let allowed := as_strs (default [] (get_array app "allowed_scopes")) in
  scopes ← or_refuse (validate_scopes (AuthorizeQuery.scope query) allowed) Status.BadRequest
             "invalid_scope" "Requested scopes are not allowed";
  let is_public := default false (get_bool app "public") in
  if is_public &&
     (bool_decide (AuthorizeQuery.code_challenge query = None) ||
      negb (bool_decide (AuthorizeQuery.code_challenge_method query = Some "S256")))
  then refuse Status.BadRequest "invalid_request" "Public clients must use PKCE S256" else
  if match AuthorizeQuery.code_challenge_method query with
     | Some method => negb (bool_decide (method = "S256"))
     | None => false
     end
  then refuse Status.BadRequest "invalid_request" "Only PKCE S256 is supported" else
  if match AuthorizeQuery.code_challenge query with
     | Some challenge => (256 <? String.length challenge)%nat
     | None => false
     end
  then refuse Status.BadRequest "invalid_request" "PKCE challenge is too long" else
  request_id ← random_value 24;
  csrf ← random_value 32;
  with_mongo
    (expires_at ← expires_after (seconds_ns 300);
     map_err storage_unavailable
       (on_col CONSENTS (λ n, insert_one n
          (consent_document request_id csrf (AuthorizeQuery.client_id query)
             (Session.user_id session) (AuthorizeQuery.redirect_uri query)
             (AuthorizeQuery.state query) scopes (AuthorizeQuery.code_challenge query) expires_at))))
    (mret tt) ;;
  user ← on_world
    (λ _, Failure.Refused Status.InternalServerError
            (OAuthError.mk "server_error" (Some "User unavailable")))
    (on_users (UsersTable.fetch_user (Session.user_id session)));
  mret (consent_page (AuthorizeQuery.client_id query) (default "Application" (get_str app "name"))
          (User.username user) scopes request_id csrf).

Definition code_document (code client_id user_id redirect_uri scope : string)
    (code_challenge : option string) (expires_at : Bson.t) : Document :=
  {["code_hash" := Bson.String (digest code); "client_id" := Bson.String client_id;
    "user_id" := Bson.String user_id; "redirect_uri" := Bson.String redirect_uri;
    "scope" := Bson.String scope; "code_challenge" := Bson.optional Bson.String code_challenge;
    "expires_at" := expires_at; "used" := Bson.Boolean false]}.

Definition consent_filter (form : ConsentForm.t) (user_id : string) (t : Bson.t) : Filter :=
  [field "_id" (Condition.Is (Bson.String (ConsentForm.request_id form)));
   field "user_id" (Condition.Is (Bson.String user_id));
   field "csrf_hash" (Condition.Is (Bson.String (digest (ConsentForm.csrf form))));
   field "used" (Condition.Is (Bson.Boolean false));
   field "expires_at" (Condition.Gt t)].
Definition mark_used : Update := [UpdateOp.Set_ "used" (Bson.Boolean true)].

Definition authorize_consent (session : Session.t) (form : ConsentForm.t) : O string :=
  t ← now;
  found ← with_mongo
    (map_err storage_unavailable
       (on_col CONSENTS (λ n, find_one_and_update n
          (consent_filter form (Session.user_id session) t) mark_used)))
    (mret None);
  request ← or_refuse found Status.BadRequest "invalid_request" "Expired or invalid consent request";
  let redirect_uri := default "" (get_str request "redirect_uri") in
  let state := default "" (get_str request "state") in
  if negb (bool_decide (ConsentForm.decision form = "approve"))
  then mret (redirect_error redirect_uri state "access_denied" "The user denied the request") else
  code ← random_value 32;
  with_mongo
    (expires_at ← expires_after AUTHORIZATION_CODE_TTL;
     map_err storage_unavailable
       (on_col CODES (λ n, insert_one n
          (code_document code (default "" (get_str request "client_id")) (Session.user_id session)
             redirect_uri (default "" (get_str request "scope")) (get_str request "code_challenge")
             expires_at))))
    (mret tt) ;;
  mret (redirect redirect_uri [("code", code); ("state", state)]).

(** ** The token endpoint *)

Definition access_document (access client_id user_id scope : string) (expires_at : Bson.t) : Document :=
  {["token_hash" := Bson.String (digest access); "client_id" := Bson.String client_id;
    "user_id" := Bson.String user_id; "scope" := Bson.String scope; "expires_at" := expires_at;
    "revoked" := Bson.Boolean false]}.
Definition refresh_document (refresh family client_id user_id scope : string) (expires_at : Bson.t) :
    Document :=
  {["token_hash" := Bson.String (digest refresh); "family_id" := Bson.String family;
    "client_id" := Bson.String client_id; "user_id" := Bson.String user_id;
    "scope" := Bson.String scope; "expires_at" := expires_at; "revoked" := Bson.Boolean false]}.

Definition issue_tokens (client_id user_id scope : string) (family_id : option string) :
    O TokenResponse.t :=
  access ← random_value 32;
  refresh ← random_value 48;
  family ← match family_id with Some family => mret family | None => random_value 24 end;
  with_mongo
    (access_expires ← expires_after ACCESS_TOKEN_TTL;
     map_err storage_unavailable
       (on_col ACCESS (λ n, insert_one n (access_document access client_id user_id scope access_expires))) ;;
     refresh_expires ← expires_after REFRESH_TOKEN_TTL;
     map_err storage_unavailable
       (on_col REFRESH (λ n, insert_one n
          (refresh_document refresh family client_id user_id scope refresh_expires))))
    (mret tt) ;;
  mret (TokenResponse.mk access "Bearer" 600 refresh scope).

(** The check of a client's secret, the same in [exchange_code], [refresh] and [revoke] *)
Definition check_secret (app : Document) (client_secret : option string) : O unit :=
  if negb (default false (get_bool app "public")) then
    secret ← or_refuse client_secret Status.Unauthorized "invalid_client" "client_secret is required";
    if negb (constant_time_equal (digest secret) (default "" (get_str app "secret_hash")))
    then refuse Status.Unauthorized "invalid_client" "Invalid client credentials" else mret tt
  else mret tt.

Definition code_filter (code client_id : string) (t : Bson.t) : Filter :=
  [field "code_hash" (Condition.Is (Bson.String (digest code)));
   field "client_id" (Condition.Is (Bson.String client_id));
   field "used" (Condition.Is (Bson.Boolean false));
   field "expires_at" (Condition.Gt t)].

Definition exchange_code (req : TokenRequest.t) : O TokenResponse.t :=
  code ← or_refuse (TokenRequest.code req) Status.BadRequest "invalid_request" "code is required";
  client_id ← or_refuse (TokenRequest.client_id req) Status.BadRequest "invalid_request"
                "client_id is required";
  app ← application client_id;
  app ← or_refuse app Status.Unauthorized "invalid_client" "Invalid client";
  if default false (get_bool app "revoked")
  then refuse Status.Unauthorized "invalid_client" "Application revoked" else
  check_secret app (TokenRequest.client_secret req) ;;
  t ← now;
  found ← with_mongo
    (map_err storage_unavailable
       (on_col CODES (λ n, find_one_and_update n (code_filter code client_id t) mark_used)))
    (mret None);
  code_doc ← or_refuse found Status.BadRequest "invalid_grant"
               "Invalid, expired, or reused authorization code";
  if negb (bool_decide (TokenRequest.redirect_uri req = get_str code_doc "redirect_uri"))
  then refuse Status.BadRequest "invalid_grant" "redirect_uri mismatch" else
  match get_str code_doc "code_challenge" with
  | Some challenge =>
      verifier ← or_refuse (TokenRequest.code_verifier req) Status.BadRequest "invalid_grant"
                   "code_verifier is required";
      if negb (pkce_matches verifier challenge)
      then refuse Status.BadRequest "invalid_grant" "PKCE verification failed" else mret tt
  | None => mret tt
  end ;;
  issue_tokens client_id (default "" (get_str code_doc "user_id"))
    (default "" (get_str code_doc "scope")) None.

Definition refresh_filter (token client_id : string) (t : Bson.t) : Filter :=
  [field "token_hash" (Condition.Is (Bson.String (digest token)));
   field "client_id" (Condition.Is (Bson.String client_id));
   field "revoked" (Condition.Is (Bson.Boolean false));
   field "expires_at" (Condition.Gt t)].
Definition mark_revoked : Update := [UpdateOp.Set_ "revoked" (Bson.Boolean true)].

Definition refresh (req : TokenRequest.t) : O TokenResponse.t :=
  token ← or_refuse (TokenRequest.refresh_token req) Status.BadRequest "invalid_request"
            "refresh_token is required";
  client_id ← or_refuse (TokenRequest.client_id req) Status.BadRequest "invalid_request"
                "client_id is required";
  app ← application client_id;
  app ← or_refuse app Status.Unauthorized "invalid_client" "Invalid client";
  check_secret app (TokenRequest.client_secret req) ;;
  t ← now;
  old ← with_mongo
    (map_err storage_unavailable
       (on_col REFRESH (λ n, find_one_and_update n (refresh_filter token client_id t) mark_revoked)))
    (mret None);
  match old with
  | Some old =>
      issue_tokens client_id (default "" (get_str old "user_id")) (default "" (get_str old "scope"))
        (get_str old "family_id")
  | None =>
      with_mongo
        (reused ← map_err storage_unavailable
           (on_col REFRESH (reading (λ n, find_one n
              [field "token_hash" (Condition.Is (Bson.String (digest token)));
               field "client_id" (Condition.Is (Bson.String client_id))])));
         match reused ≫= λ d, get_str d "family_id" with
         | Some family =>
             on_col REFRESH (λ n, update_many n
               [field "family_id" (Condition.Is (Bson.String family))] mark_revoked) ;;
             mret tt
         | None => mret tt
         end)
        (mret tt) ;;
      refuse Status.BadRequest "invalid_grant"
        "Refresh token is invalid, expired, revoked, or already used"
  end.

Definition token (request : TokenRequest.t) : O TokenResponse.t :=
  if bool_decide (TokenRequest.grant_type request = "authorization_code") then exchange_code request
  else if bool_decide (TokenRequest.grant_type request = "refresh_token") then refresh request
  else refuse Status.BadRequest "unsupported_grant_type"
         "Only authorization_code and refresh_token are supported".

(** Answers [204 No Content] *)
Definition revoke (request : RevokeRequest.t) : O unit :=
  match RevokeRequest.client_id request with
  | Some client_id =>
      app ← application client_id;
      app ← or_refuse app Status.Unauthorized "invalid_client" "Invalid client";
      check_secret app (RevokeRequest.client_secret request)
  | None => mret tt
  end ;;
  let this := [field "token_hash" (Condition.Is (Bson.String (digest (RevokeRequest.token request))))] in
  with_mongo
    (map_err storage_unavailable (on_col ACCESS (λ n, update_one n false this mark_revoked)) ;;
     map_err storage_unavailable (on_col REFRESH (λ n, update_one n false this mark_revoked)) ;;
     mret tt)
    (mret tt).

(** ** User information *)

(** [DatabasePermissionQuery::new(db, &user).server(&server).channel(&channel)], calculated *)
Definition query_server_channel (user : User.t) (server : Server.t) (channel : Channel.t) :
    H (PermissionValue.t * DatabasePermissionQuery.t ReferenceDb.t) :=
  query ← perms user;
  ask calculate_channel_permissions
    (DatabasePermissionQuery.with_channel
       (DatabasePermissionQuery.with_server query (Some server)) (Some channel)).
Definition channel_permission_info (user : User.t) (server : Server.t) (channel : Channel.t) :
    H ChannelPermissionInfo.t :=
  found ← query_server_channel user server channel;
  mret (ChannelPermissionInfo.mk (Channel.id channel) (PermissionValue.into_raw found.1)).

(** One turn of the loop over the memberships; a server that cannot be fetched is skipped. *)
Definition server_info (scopes : list string) (user : User.t) (member : Member.t) :
    H (option ServerInfo.t) :=
  found ← attempt (on_servers (ServersTable.fetch_server (MemberCompositeKey.server (Member.id member))));
  match found with
  | None => mret None
  | Some server =>
      let owner := if bool_decide ("servers" ∈ scopes) then Some (Server.owner server) else None in
      let info := if bool_decide ("server_members" ∈ scopes)
                  then Some (MemberInfo.mk (Member.roles member) (timestamp_string (Member.joined_at member)))
                  else None in
      if bool_decide ("permissions" ∈ scopes) then
        permissions ← query_server user server;
        channels ← attempt (on_channels (ChannelsTable.fetch_channels (Server.channels server)));
        channels ← mapM (channel_permission_info user server) (default [] channels);
        mret (Some (ServerInfo.mk (Server.id server) (Server.name server) owner info
                      (Some (PermissionValue.into_raw permissions.1)) (Some channels)))
      else mret (Some (ServerInfo.mk (Server.id server) (Server.name server) owner info None None))
  end.

Definition userinfo (bearer : string) : O UserInfo.t :=
  found ← bearer_user bearer;
  found ← or_refuse found Status.Unauthorized "invalid_token" "Invalid or expired access token";
  let '(token_doc, user) := found in
  let scopes := split_whitespace (default "" (get_str token_doc "scope")) in
  let identify {A} (o : option A) := if bool_decide ("identify" ∈ scopes) then o else None in
  if bool_decide ("servers" ∈ scopes) || bool_decide ("server_members" ∈ scopes) ||
     bool_decide ("permissions" ∈ scopes)
  then
    memberships ← on_world
      (λ _, Failure.Refused Status.InternalServerError
              (OAuthError.mk "server_error" (Some "Membership lookup failed")))
      (on_members (MembersTable.fetch_all_memberships (User.id user)));
    servers ← on_world Failure.Guard (mapM (server_info scopes user) memberships);
    mret (UserInfo.mk (User.id user) (identify (Some (User.username user)))
            (identify (User.display_name user)) (identify (File.id <$> User.avatar user))
            (Some (omap id servers)))
  else
    mret (UserInfo.mk (User.id user) (identify (Some (User.username user)))
            (identify (User.display_name user)) (identify (File.id <$> User.avatar user)) None).

(** ** Applications *)

(** An error of the cursor ends the loop. *)
Definition applications_me (session : Session.t) : O (list ApplicationResponse.t) :=
  with_mongo
    (found ← map_err storage_unavailable
       (on_col APPLICATIONS (reading (λ n, find n
          [field "owner_id" (Condition.Is (Bson.String (Session.user_id session)))])));
     mret (omap (λ d, app_response d None) found.1))
    (mret []).

Definition application_document (client_id : string) (request : ApplicationCreate.t)
    (owner_id : string) (allowed : list string) (secret : option string) (created_at : Bson.t) :
    Document :=
  {["_id" := Bson.String client_id; "name" := Bson.String (str_trim (ApplicationCreate.name request));
    "owner_id" := Bson.String owner_id; "redirect_uris" := strs (ApplicationCreate.redirect_uris request);
    "allowed_scopes" := strs allowed; "public" := Bson.Boolean (ApplicationCreate.public request);
    "secret_hash" := Bson.optional Bson.String (digest <$> secret);
    "revoked" := Bson.Boolean false; "created_at" := created_at]}.

Definition application_create (session : Session.t) (request : ApplicationCreate.t) :
    O ApplicationResponse.t :=
  let uris := ApplicationCreate.redirect_uris request in
  if bool_decide (str_trim (ApplicationCreate.name request) = "") ||
     (100 <? String.length (ApplicationCreate.name request))%nat ||
     bool_decide (uris = []) || existsb (λ uri, negb (validate_redirect_uri uri)) uris
  then refuse Status.BadRequest "invalid_request" "Name and secure exact redirect URIs are required"
  else if (20 <? length uris)%nat || existsb (λ uri, 2048 <? String.length uri)%nat uris
  then refuse Status.BadRequest "invalid_request" "Too many or oversized redirect URIs" else
  let allowed := List.filter (λ scope, bool_decide (scope ∈ SCOPES)) (ApplicationCreate.allowed_scopes request) in
  if negb (length allowed =? length (ApplicationCreate.allowed_scopes request))%nat || bool_decide (allowed = [])
  then refuse Status.BadRequest "invalid_scope" "All scopes must be supported" else
  client_id ← random_value 18;
  secret ← if ApplicationCreate.public request then mret None
           else secret ← random_value 32; mret (Some secret);
  created_at ← now;
  let doc := application_document client_id request (Session.user_id session) allowed secret created_at in
  with_mongo
    (map_err storage_unavailable (on_col APPLICATIONS (λ n, insert_one n doc)))
    (refuse 501 "temporarily_unavailable" "OAuth requires MongoDB") ;;
  match app_response doc secret with Some response => mret response | None => panic end.

Definition application_rotate_secret (session : Session.t) (client_id : string) :
    O ApplicationResponse.t :=
  secret ← random_value 32;
  found ← with_mongo
    (map_err storage_unavailable
       (on_col APPLICATIONS (λ n, find_one_and_update n
          [field "_id" (Condition.Is (Bson.String client_id));
           field "owner_id" (Condition.Is (Bson.String (Session.user_id session)));
           field "public" (Condition.Is (Bson.Boolean false));
           field "revoked" (Condition.Is (Bson.Boolean false))]
          [UpdateOp.Set_ "secret_hash" (Bson.String (digest secret))])))
    (mret None);
  doc ← or_refuse found Status.NotFound "invalid_client" "Application not found";
  match app_response doc (Some secret) with Some response => mret response | None => panic end.

(** Answers [204 No Content] *)
Definition application_revoke (session : Session.t) (client_id : string) : O unit :=
  let of_client := [field "client_id" (Condition.Is (Bson.String client_id))] in
  with_mongo
    (result ← map_err storage_unavailable
       (on_col APPLICATIONS (λ n, update_one n false
          [field "_id" (Condition.Is (Bson.String client_id));
           field "owner_id" (Condition.Is (Bson.String (Session.user_id session)))]
          mark_revoked));
     if (UpdateResult.matched_count result =? 0)%nat
     then refuse Status.NotFound "invalid_client" "Application not found" else
     on_col ACCESS (λ n, update_many n of_client mark_revoked) ;;
     on_col REFRESH (λ n, update_many n of_client mark_revoked) ;;
     mret tt)
    (mret tt).

(** ** Requests: the guards, then the body *)

Definition run_oauth (r : OAuthRequest.t) : O unit :=
  match r with
  | OAuthRequest.Authorize request query =>
      oauth_rate_limit (Some (Credential.ip request)) ;;
      session ← oauth_session request; authorize session query ;; mret tt
  | OAuthRequest.AuthorizeConsent request form =>
      oauth_rate_limit (Some (Credential.ip request)) ;;
      session ← oauth_session request; authorize_consent session form ;; mret tt
  | OAuthRequest.Token ip request => oauth_rate_limit ip ;; token request ;; mret tt
  | OAuthRequest.Revoke ip request => oauth_rate_limit ip ;; revoke request
  | OAuthRequest.UserInfo_ authorization =>
      bearer ← bearer_token authorization; userinfo bearer ;; mret tt
  | OAuthRequest.ApplicationsMe request =>
      session ← oauth_session request; applications_me session ;; mret tt
  | OAuthRequest.ApplicationCreate_ request data =>
      session ← oauth_session request; application_create session data ;; mret tt
  | OAuthRequest.ApplicationRotateSecret request client_id =>
      session ← oauth_session request; application_rotate_secret session client_id ;; mret tt
  | OAuthRequest.ApplicationRevoke request client_id =>
      session ← oauth_session request; application_revoke session client_id
  end.

(** A request at its time. Between the requests anything else may happen in the world. *)
Definition step_oauth (s : Store.t) (e : World.t * OAuthRequest.t) : Store.t :=
  (run_oauth e.2 (Store.set_world s e.1)).2.
Definition run_oauths (es : list (World.t * OAuthRequest.t)) (s : Store.t) : Store.t :=
  foldl step_oauth s es.
End OAuth.
