(* ===== verification/OAuthTheorems.v ===== *)
(** * What the authorization server guarantees

    [effect] is the abstract behaviour of a request on the five collections, and
    [run_oauth_effect] shows that the routes have no other, whatever the driver answers. The
    invariants are proved of [effect]: every token goes back to the consent of its user, codes
    are used once, public clients prove possession of their verifier, refresh tokens rotate, and
    a revoked application is locked out. *)

From stdpp Require Import base list gmap strings sorting pretty.
From Stdlib Require Import ZArith Lia.
From S2P Require Import Prelude Errors Permissions PermissionSpec Files Users Servers Channels.
From S2P Require Import PermissionQuery Messages Unreads Config Emojis Webhooks Bots AuditLogs.
From S2P Require Import Accounts World Database Relationships References MessageCreate AccountOps.
From S2P Require Import AccountRoutes Triples Text Mongo OAuth.

(** ** The collections *)

Module Tables.
Record t : Type := mk {
  apps : Collection; consents : Collection; codes : Collection; access : Collection;
  refresh : Collection
}.
Definition set_apps (t : t) x := mk x (consents t) (codes t) (access t) (refresh t).
Definition set_consents (t : t) x := mk (apps t) x (codes t) (access t) (refresh t).
Definition set_codes (t : t) x := mk (apps t) (consents t) x (access t) (refresh t).
Definition set_access (t : t) x := mk (apps t) (consents t) (codes t) x (refresh t).
Definition set_refresh (t : t) x := mk (apps t) (consents t) (codes t) (access t) x.
Definition of_store (s : Store.t) : t :=
  mk (Store.col s APPLICATIONS) (Store.col s CONSENTS) (Store.col s CODES) (Store.col s ACCESS)
    (Store.col s REFRESH).
Definition empty : t := mk [] [] [] [] [].
End Tables.

Lemma col_set_col s name c name' :
  Store.col (Store.set_col s name c) name' = if decide (name' = name) then c else Store.col s name'.
Proof.
  unfold Store.col, Store.set_col, Store.set_collections. simpl.
  destruct (decide (name' = name)) as [->|]; [by rewrite lookup_insert_eq|by rewrite lookup_insert_ne].
Qed.

Lemma col_set_calls s k name : Store.col (Store.set_calls s k) name = Store.col s name.
Proof. done. Qed.

Lemma tables_apps s c k :
  Tables.of_store (Store.set_calls (Store.set_col s APPLICATIONS c) k) = Tables.set_apps (Tables.of_store s) c.
Proof. unfold Tables.of_store. rewrite !col_set_calls. by rewrite !col_set_col. Qed.
Lemma tables_consents s c k :
  Tables.of_store (Store.set_calls (Store.set_col s CONSENTS c) k) = Tables.set_consents (Tables.of_store s) c.
Proof. unfold Tables.of_store. rewrite !col_set_calls. by rewrite !col_set_col. Qed.
Lemma tables_codes s c k :
  Tables.of_store (Store.set_calls (Store.set_col s CODES c) k) = Tables.set_codes (Tables.of_store s) c.
Proof. unfold Tables.of_store. rewrite !col_set_calls. by rewrite !col_set_col. Qed.
Lemma tables_access s c k :
  Tables.of_store (Store.set_calls (Store.set_col s ACCESS c) k) = Tables.set_access (Tables.of_store s) c.
Proof. unfold Tables.of_store. rewrite !col_set_calls. by rewrite !col_set_col. Qed.
Lemma tables_refresh s c k :
  Tables.of_store (Store.set_calls (Store.set_col s REFRESH c) k) = Tables.set_refresh (Tables.of_store s) c.
Proof. unfold Tables.of_store. rewrite !col_set_calls. by rewrite !col_set_col. Qed.

(** ** Changes of one collection, whether the call reports an error or not *)

Definition maybe_inserted (d : Document) (c c' : Collection) : Prop := c' = c ∨ inserted_one d c c'.
Definition maybe_changed (f : Filter) (u : Update) (c c' : Collection) : Prop :=
  c' = c ∨ ∃ d d', changed_one f u c c' d d'.
(** Some or all of the documents that match are changed. *)
Definition some_changed (f : Filter) (u : Update) (c c' : Collection) : Prop :=
  ∃ l, l ≡ₚ c' ∧ Forall2 (λ d d', d' = d ∨ matches f d = true ∧ d' = apply_update u d) c l.

(** [d'] has the fields of [d], except for those named. *)
Definition like (touched : list string) (d d' : Document) : Prop :=
  ∀ key, key ∉ touched → d' !! key = d !! key.

Lemma like_refl touched d : like touched d d.
Proof. done. Qed.
Lemma like_set touched key v d : key ∈ touched → like touched d (<[key := v]> d).
Proof. intros Hin k Hk. rewrite lookup_insert_ne; [done|]. by intros ->. Qed.

(** What an update may do to a document of a collection *)
Definition closed (P : Document → Prop) (u : Update) : Prop := ∀ d, P d → P (apply_update u d).

Lemma maybe_changed_Forall (P : Document → Prop) f u c c' :
  closed P u → maybe_changed f u c c' → (∀ d, d ∈ c → P d) → ∀ d, d ∈ c' → P d.
Proof.
  intros Hu [->|(e & e' & _ & -> & rest & Hc & Hc')] HP d; [by apply HP|].
  rewrite Hc'. intros [->|Hd]%elem_of_cons; [apply Hu|]; apply HP; rewrite Hc; set_solver.
Qed.

Lemma some_changed_Forall (P : Document → Prop) f u c c' :
  closed P u → some_changed f u c c' → (∀ d, d ∈ c → P d) → ∀ d, d ∈ c' → P d.
Proof.
  intros Hu (l & Hl & Hall) HP d. rewrite <- Hl. clear Hl c'. revert HP.
  induction Hall as [|e e' c l He _ IH]; intros HP; [by intros ?%not_elem_of_nil|].
  intros [->|Hd]%elem_of_cons.
  - assert (P e) by (apply HP; left). destruct He as [->|[_ ->]]; [done|by apply Hu].
  - apply IH; [|done]. intros x Hx. apply HP. by right.
Qed.

Lemma maybe_inserted_Forall (P : Document → Prop) d0 c c' :
  (∀ d, like ["_id"] d0 d → P d) → maybe_inserted d0 c c' → (∀ d, d ∈ c → P d) → ∀ d, d ∈ c' → P d.
Proof.
  intros H0 [->|(e & He & Hc')] HP d; [by apply HP|].
  rewrite Hc'. intros [->|Hd]%elem_of_cons; [|by apply HP]. apply H0.
  destruct (d0 !! "_id"); [by destruct He as [-> _]|]. destruct He as [i ->].
  apply like_set. left.
Qed.

(** Changing one document is changing some. *)
Lemma maybe_some_changed f u c c' : maybe_changed f u c c' → some_changed f u c c'.
Proof.
  set (R := λ d d', d' = d ∨ matches f d = true ∧ d' = apply_update u d).
  assert (Hrefl : ∀ l, Forall2 R l l).
  { intros l. apply Forall2_same_length_lookup_2; [done|]. intros i x y Hx Hy. left. congruence. }
  intros [->|(d & d' & Hm & -> & rest & Hc & Hc')]; [by exists c|].
  assert (Forall2 R (d :: rest) (apply_update u d :: rest)) as Hone by (constructor; [by right|done]).
  destruct (Permutation_Forall2 (symmetry Hc) Hone) as (l & Hl & Hall).
  exists l. split; [by rewrite <- Hl, Hc'|done].
Qed.

Section Driver.
Context `{MongoDriver}.

Lemma insert_one_maybe n d c r c' : insert_one n d c = (r, c') → maybe_inserted d c c'.
Proof.
  intros Hop. pose proof (insert_one_law n d c) as Hlaw. rewrite Hop in Hlaw.
  destruct r; [by right|done].
Qed.
Lemma update_one_maybe n f u c r c' : update_one n false f u c = (r, c') → maybe_changed f u c c'.
Proof.
  intros Hop. pose proof (update_one_law n false f u c) as Hlaw. rewrite Hop in Hlaw.
  destruct r as [r|].
  - destruct Hlaw as [(d & d' & Hc & _)|(_ & _ & Hc)]; [right; by eexists _, _|by left].
  - destruct Hlaw as [->|[Hc|[[=] _]]]; [by left|by right].
Qed.
Lemma update_many_some n f u c r c' : update_many n f u c = (r, c') → some_changed f u c c'.
Proof.
  intros Hop. pose proof (update_many_law n f u c) as Hlaw. rewrite Hop in Hlaw.
  destruct r as [r|]; [|done]. destruct Hlaw as [Hc _]. exists (changed_many f u c).
  split; [done|]. unfold changed_many. clear. induction c as [|d c IH]; simpl; constructor; [|done].
  destruct (matches f d) eqn:Hd; auto.
Qed.
Lemma find_one_and_update_maybe n f u c r c' :
  find_one_and_update n f u c = (r, c') → maybe_changed f u c c'.
Proof.
  intros Hop. pose proof (find_one_and_update_law n f u c) as Hlaw. rewrite Hop in Hlaw.
  destruct r as [[d'|]|]; [|by left; destruct Hlaw|by destruct Hlaw as [->|?]; [left|right]].
  destruct Hlaw as [d Hd]. right. by exists d, d'.
Qed.
End Driver.

(** ** The abstract behaviour of a request *)

Section Effects.
Context `{Environment, MutualIds, HashIter, Trim, MongoDriver, OAuthServices}.
Abbreviation O := (M Failure.t Store.t).

(** A request with the world it is served in *)
Abbreviation event := (World.t * OAuthRequest.t)%type.
Definition at_ms (e : event) : Bson.t := Bson.datetime (World.now e.1).
Definition later_ms (e : event) (duration : Z) : Bson.t := Bson.datetime (World.now e.1 + duration).

(** The [i]-th random value, of so many bytes *)
Definition draw (i bytes : nat) : string := url_safe_no_pad (os_rng i bytes).

(** The request carries a session of the user. *)
Definition holder (e : event) (request : Credential.t) (user : string) : Prop :=
  ∃ session, (session_guard request e.1).1 = Ok session ∧ Session.user_id session = user.

Definition by_id (id : string) : Filter := [field "_id" (Condition.Is (Bson.String id))].
Definition of_token (token : string) : Filter :=
  [field "token_hash" (Condition.Is (Bson.String (digest token)))].
Definition of_family (family : string) : Filter := [field "family_id" (Condition.Is (Bson.String family))].
Definition of_client (client : string) : Filter := [field "client_id" (Condition.Is (Bson.String client))].
Definition owned (client user : string) : Filter :=
  [field "_id" (Condition.Is (Bson.String client)); field "owner_id" (Condition.Is (Bson.String user))].
Definition rotatable (client user : string) : Filter :=
  owned client user ++ [field "public" (Condition.Is (Bson.Boolean false));
                        field "revoked" (Condition.Is (Bson.Boolean false))].

(** The client's secret is right, where it needs one. *)
Definition secret_ok (app : Document) (client_secret : option string) : Prop :=
  get_bool app "public" = Some true ∨
  ∃ secret, client_secret = Some secret ∧ digest secret = default "" (get_str app "secret_hash").

(** The proof of possession that a code asks for *)
Definition verified (d : Document) (req : TokenRequest.t) : Prop :=
  TokenRequest.redirect_uri req = get_str d "redirect_uri" ∧
  ∀ challenge, get_str d "code_challenge" = Some challenge →
    ∃ verifier, TokenRequest.code_verifier req = Some verifier ∧ digest verifier = challenge.

(** A pair of tokens *)
Definition issued (e : event) (client user scope : string) (family : option string)
    (n : nat) (t : Tables.t) (n' : nat) (t' : Tables.t) : Prop :=
  ∃ i j fam access' refresh',
    n ≤ i ∧ i < j ∧ j < n' ∧ (∀ f, family = Some f → fam = f) ∧
    maybe_inserted (access_document (draw i 32) client user scope (later_ms e ACCESS_TOKEN_TTL))
      (Tables.access t) access' ∧
    maybe_inserted (refresh_document (draw j 48) fam client user scope (later_ms e REFRESH_TOKEN_TTL))
      (Tables.refresh t) refresh' ∧
    t' = Tables.set_refresh (Tables.set_access t access') refresh'.

Definition all_changed (f : Filter) (u : Update) (c c' : Collection) : Prop := c' ≡ₚ changed_many f u c.
(** The updates of the driver do not fail. *)
Definition reliable : Prop :=
  (∀ n f u c, is_Some (update_one n false f u c).1) ∧ (∀ n f u c, is_Some (update_many n f u c).1).

Inductive effect (e : event) : nat → Tables.t → nat → Tables.t → Prop :=
  | eff_none n t n' : n ≤ n' → effect e n t n' t
  | eff_ask request query user app scopes i j consents' n t n' :
      e.2 = OAuthRequest.Authorize request query → holder e request user →
      n ≤ i → i < j → j < n' →
      app ∈ Tables.apps t → matches (by_id (AuthorizeQuery.client_id query)) app = true →
      get_bool app "revoked" ≠ Some true →
      AuthorizeQuery.redirect_uri query ∈ as_strs (default [] (get_array app "redirect_uris")) →
      validate_redirect_uri (AuthorizeQuery.redirect_uri query) = true →
      validate_scopes (AuthorizeQuery.scope query)
        (as_strs (default [] (get_array app "allowed_scopes"))) = Some scopes →
      (get_bool app "public" = Some true → is_Some (AuthorizeQuery.code_challenge query)) →
      maybe_inserted
        (consent_document (draw i 24) (draw j 32) (AuthorizeQuery.client_id query) user
           (AuthorizeQuery.redirect_uri query) (AuthorizeQuery.state query) scopes
           (AuthorizeQuery.code_challenge query) (later_ms e (seconds_ns 300)))
        (Tables.consents t) consents' →
      effect e n t n' (Tables.set_consents t consents')
  | eff_answer f consents' n t n' :
      n ≤ n' → maybe_changed f mark_used (Tables.consents t) consents' →
      effect e n t n' (Tables.set_consents t consents')
  | eff_approve request form user d d' i consents' codes' n t n' :
      e.2 = OAuthRequest.AuthorizeConsent request form → holder e request user →
      ConsentForm.decision form = "approve" →
      changed_one (consent_filter form user (at_ms e)) mark_used (Tables.consents t) consents' d d' →
      n ≤ i → i < n' →
      maybe_inserted
        (code_document (draw i 32) (default "" (get_str d' "client_id")) user
           (default "" (get_str d' "redirect_uri")) (default "" (get_str d' "scope"))
           (get_str d' "code_challenge") (later_ms e AUTHORIZATION_CODE_TTL))
        (Tables.codes t) codes' →
      effect e n t n' (Tables.set_codes (Tables.set_consents t consents') codes')
  | eff_burn f codes' n t n' :
      n ≤ n' → maybe_changed f mark_used (Tables.codes t) codes' →
      effect e n t n' (Tables.set_codes t codes')
  | eff_exchange ip req code client app d d' codes' n t n' t' :
      e.2 = OAuthRequest.Token ip req → TokenRequest.code req = Some code →
      TokenRequest.client_id req = Some client →
      app ∈ Tables.apps t → matches (by_id client) app = true →
      get_bool app "revoked" ≠ Some true → secret_ok app (TokenRequest.client_secret req) →
      changed_one (code_filter code client (at_ms e)) mark_used (Tables.codes t) codes' d d' →
      verified d' req →
      issued e client (default "" (get_str d' "user_id")) (default "" (get_str d' "scope")) None
        n (Tables.set_codes t codes') n' t' →
      effect e n t n' t'
  | eff_strike f refresh' n t n' :
      n ≤ n' → some_changed f mark_revoked (Tables.refresh t) refresh' →
      effect e n t n' (Tables.set_refresh t refresh')
  | eff_rotate ip req token client app d d' refresh' n t n' t' :
      e.2 = OAuthRequest.Token ip req → TokenRequest.refresh_token req = Some token →
      TokenRequest.client_id req = Some client →
      app ∈ Tables.apps t → matches (by_id client) app = true →
      secret_ok app (TokenRequest.client_secret req) →
      changed_one (refresh_filter token client (at_ms e)) mark_revoked (Tables.refresh t) refresh' d d' →
      issued e client (default "" (get_str d' "user_id")) (default "" (get_str d' "scope"))
        (get_str d' "family_id") n (Tables.set_refresh t refresh') n' t' →
      effect e n t n' t'
  | eff_revoke f access' refresh' n t n' :
      n ≤ n' → maybe_changed f mark_revoked (Tables.access t) access' →
      maybe_changed f mark_revoked (Tables.refresh t) refresh' →
      effect e n t n' (Tables.set_refresh (Tables.set_access t access') refresh')
  | eff_create i client data user allowed secret apps' n t n' :
      n ≤ i → i < n' → client = draw i 18 →
      maybe_inserted (application_document client data user allowed secret (at_ms e))
        (Tables.apps t) apps' →
      effect e n t n' (Tables.set_apps t apps')
  | eff_secret f secret apps' n t n' :
      n ≤ n' →
      maybe_changed f [UpdateOp.Set_ "secret_hash" (Bson.String secret)] (Tables.apps t) apps' →
      effect e n t n' (Tables.set_apps t apps')
  | eff_close client user apps' access' refresh' n t n' :
      n ≤ n' → maybe_changed (owned client user) mark_revoked (Tables.apps t) apps' →
      some_changed (of_client client) mark_revoked (Tables.access t) access' →
      some_changed (of_client client) mark_revoked (Tables.refresh t) refresh' →
      (reliable → apps' = Tables.apps t ∨
         all_changed (of_client client) mark_revoked (Tables.access t) access' ∧
         all_changed (of_client client) mark_revoked (Tables.refresh t) refresh') →
      effect e n t n' (Tables.set_refresh (Tables.set_access (Tables.set_apps t apps') access') refresh').

(** ** Running the routes *)

(** A collection with its place among the tables *)
Inductive slot : Type := Apps | Consents | Codes | Access | Refresh.
Definition slot_name (x : slot) : string :=
  match x with
  | Apps => APPLICATIONS | Consents => CONSENTS | Codes => CODES | Access => ACCESS | Refresh => REFRESH
  end.
Definition slot_get (x : slot) (t : Tables.t) : Collection :=
  match x with
  | Apps => Tables.apps t | Consents => Tables.consents t | Codes => Tables.codes t
  | Access => Tables.access t | Refresh => Tables.refresh t
  end.
Definition slot_set (x : slot) (t : Tables.t) (c : Collection) : Tables.t :=
  match x with
  | Apps => Tables.set_apps t c | Consents => Tables.set_consents t c | Codes => Tables.set_codes t c
  | Access => Tables.set_access t c | Refresh => Tables.set_refresh t c
  end.

Section Running.
Context (e : event).

(** Where a run of the request stands *)
Definition at_state (n : nat) (t : Tables.t) (s : Store.t) : Prop :=
  Store.randoms s = n ∧ Tables.of_store s = t ∧ World.now (Store.world s) = World.now e.1.

Lemma post_now n t s Q : at_state n t s → Q (Ok (at_ms e)) s → post now s Q.
Proof. intros (_ & _ & Hnow) HQ. unfold at_ms in HQ. rewrite <- Hnow in HQ. exact HQ. Qed.
Lemma post_expires duration n t s Q :
  at_state n t s → Q (Ok (later_ms e duration)) s → post (expires_after duration) s Q.
Proof. intros (_ & _ & Hnow) HQ. unfold later_ms in HQ. rewrite <- Hnow in HQ. exact HQ. Qed.
Lemma post_random bytes n t s Q :
  at_state n t s → (∀ s', at_state (S n) t s' → Q (Ok (draw n bytes)) s') →
  post (random_value bytes) s Q.
Proof.
  intros (<- & Ht & Hnow) HQ. unfold post, random_value. cbn. by apply HQ.
Qed.

Lemma post_refuse {A} status code description s (Q : Outcome Failure.t A → Store.t → Prop) :
  (∀ err, Q (Err err) s) → post (refuse status code description) s Q.
Proof. intros HQ. apply HQ. Qed.
Lemma post_or_refuse {A} (o : option A) status code description s Q :
  (∀ a, o = Some a → Q (Ok a) s) → (∀ err, Q (Err err) s) →
  post (or_refuse o status code description) s Q.
Proof. destruct o; intros HQ Herr; [by apply HQ|apply Herr]. Qed.

Lemma post_slot_mongo {A} (x : slot) (op : nat → Collection → option A * Collection)
    (R : option A → Collection → Prop) n t s (Q : Outcome Failure.t (option A) → Store.t → Prop) :
  at_state n t s →
  (∀ k r c, op k (slot_get x t) = (r, c) → R r c) →
  (∀ s' r c, R r c → at_state n (slot_set x t c) s' → Store.is_mongo s' = Store.is_mongo s → Q (Ok r) s') →
  post (on_col (slot_name x) op) s Q.
Proof.
  intros (Hn & <- & Hnow) HR HQ. apply post_on_col. intros r c Hop. apply (HQ _ r c); [| |done].
  - apply (HR (Store.calls s)). by destruct x.
  - split_and!; [done| |done]. destruct x; simpl;
      [apply tables_apps|apply tables_consents|apply tables_codes|apply tables_access|apply tables_refresh].
Qed.
Lemma post_slot {A} (x : slot) (op : nat → Collection → option A * Collection)
    (R : option A → Collection → Prop) n t s (Q : Outcome Failure.t (option A) → Store.t → Prop) :
  at_state n t s →
  (∀ k r c, op k (slot_get x t) = (r, c) → R r c) →
  (∀ s' r c, R r c → at_state n (slot_set x t c) s' → Q (Ok r) s') →
  post (on_col (slot_name x) op) s Q.
Proof. intros Hs HR HQ. eapply post_slot_mongo; [done..|]. intros. by eapply HQ. Qed.

(** A call that reads *)
Lemma slot_set_get x t : slot_set x t (slot_get x t) = t.
Proof. by destruct x, t. Qed.
Lemma post_find_one (x : slot) f n t s (Q : Outcome Failure.t (option (option Document)) → Store.t → Prop) :
  at_state n t s →
  (∀ s' r, at_state n t s' → (∀ d, r = Some (Some d) → d ∈ slot_get x t ∧ matches f d = true) →
     Q (Ok r) s') →
  post (on_col (slot_name x) (reading (λ k, find_one k f))) s Q.
Proof.
  intros Hs HQ.
  eapply (post_slot x _ (λ r c, c = slot_get x t ∧
    ∀ d, r = Some (Some d) → d ∈ slot_get x t ∧ matches f d = true) n t); [done| |].
  - intros k r c [= <- <-]. split; [done|]. intros d Hd. by apply find_one_law in Hd.
  - intros s' r c [-> Hr] Hs'. rewrite slot_set_get in Hs'. by apply HQ.
Qed.

Lemma post_application client n t s (Q : Outcome Failure.t (option Document) → Store.t → Prop) :
  at_state n t s →
  (∀ s' r, at_state n t s' → (∀ app, r = Some app → app ∈ Tables.apps t ∧ matches (by_id client) app = true) →
     Q (Ok r) s') →
  (∀ s' err, at_state n t s' → Q (Err err) s') →
  post (application client) s Q.
Proof.
  intros Hs HQ Herr. apply post_with_mongo; intros _.
  - apply post_map_err. apply (post_find_one Apps _ n t); [done|]. intros s' [r|] Hs' Hr.
    + apply HQ; [done|]. intros app ->. by apply Hr.
    + by apply Herr.
  - by apply HQ.
Qed.

Lemma post_check_secret app secret s (Q : Outcome Failure.t unit → Store.t → Prop) :
  (secret_ok app secret → Q (Ok tt) s) → (∀ err, Q (Err err) s) → post (check_secret app secret) s Q.
Proof.
  intros HQ Herr. unfold check_secret. destruct (default false (get_bool app "public")) eqn:Hpub; simpl.
  - apply HQ. left. by destruct (get_bool app "public") as [[]|].
  - apply post_bind, post_or_refuse; [|done]. intros given ->. rewrite constant_time_equal_spec.
    destruct (bool_decide _) eqn:Hok; simpl; [|apply Herr].
    apply HQ. right. exists given. apply bool_decide_eq_true in Hok. done.
Qed.

(** A handler of the database layer that only reads *)
Lemma post_world {A} f (m : H A) n t s (Q : Outcome Failure.t A → Store.t → Prop) :
  reads m → at_state n t s → (∀ r s', at_state n t s' → Q r s') → post (on_world f m) s Q.
Proof.
  intros Hm (Hn & Ht & Hnow) HQ. unfold post, on_world. specialize (Hm (Store.world s)).
  destruct (m (Store.world s)) as [r w]. simpl in *. subst w. by apply HQ.
Qed.

(** A run that has had its effect *)
Definition settled (n : nat) (t : Tables.t) (s' : Store.t) : Prop :=
  ∃ n' t', at_state n' t' s' ∧ effect e n t n' t'.
Lemma settled_none n n' t s : n ≤ n' → at_state n' t s → settled n t s.
Proof. intros Hn Hs. exists n', t. split; [done|]. by apply eff_none. Qed.

(** The request is refused before it changed anything. *)
Ltac refused n := try apply post_refuse; intros; by apply (settled_none n n).

Lemma validate_scopes_Some requested allowed scopes :
  validate_scopes requested allowed = Some scopes →
  scopes = split_whitespace requested ∧ scopes ≠ [] ∧ ∀ x, x ∈ scopes → x ∈ SCOPES ∧ x ∈ allowed.
Proof.
  unfold validate_scopes. destruct (_ || _) eqn:Hb; [done|]. intros [= <-]. reflect_bools.
  split_and!; [done|done|]. intros x Hx.
  match goal with Hex : existsb _ _ = false |- _ => apply not_true_iff_false in Hex; revert Hex end.
  intros Hex. split; apply dec_stable; intros Hno; apply Hex, existsb_exists;
    (exists x; split; [by apply list_elem_of_In|]); rewrite (bool_decide_eq_false_2 _ Hno);
    [done|apply orb_true_r].
Qed.

Lemma authorize_effect request session query n t s :
  e.2 = OAuthRequest.Authorize request query → (session_guard request e.1).1 = Ok session →
  at_state n t s → post (authorize session query) s (λ _, settled n t).
Proof.
  intros Hreq Hsession Hs. unfold authorize.
  destruct (negb _ || _); [refused n|].
  apply post_bind, (post_application _ n t); [done| |refused n].
  intros s1 r1 Hs1 Hr1. apply post_bind, post_or_refuse; [|refused n].
  intros app ->. destruct (Hr1 app eq_refl) as [Happ Hid].
  destruct (default false (get_bool app "revoked")) eqn:Hrev;
    [refused n|].
  apply post_bind, post_or_refuse; [|refused n]. intros uris Huris.
  destruct (negb (bool_decide _) || _) eqn:Huri; [refused n|].
  cbv zeta. apply post_bind, post_or_refuse; [|refused n]. intros scopes Hscopes.
  destruct (default false (get_bool app "public") && _) eqn:Hpub;
    [refused n|].
  match goal with |- post (if ?b then _ else _) _ _ => destruct b end;
    [refused n|].
  match goal with |- post (if ?b then _ else _) _ _ => destruct b end;
    [refused n|].
  apply post_bind, (post_random 24 n t); [done|]. intros s2 Hs2.
  apply post_bind, (post_random 32 (S n) t); [done|]. intros s3 Hs3.
  assert (Heff : ∀ consents', maybe_inserted (consent_document (draw n 24) (draw (S n) 32)
      (AuthorizeQuery.client_id query) (Session.user_id session) (AuthorizeQuery.redirect_uri query)
      (AuthorizeQuery.state query) scopes (AuthorizeQuery.code_challenge query)
      (later_ms e (seconds_ns 300))) (Tables.consents t) consents' →
    effect e n t (S (S n)) (Tables.set_consents t consents')).
  { intros consents' Hins. reflect_bools.
    apply (eff_ask e request query (Session.user_id session) app scopes n (S n)); try done; try lia.
    - by exists session.
    - intros Hrv. by rewrite Hrv in Hrev.
    - by rewrite Huris.
    - intros Hp. rewrite Hp in Hpub. simpl in Hpub. reflect_bools. by apply not_eq_None_Some. }
  apply post_bind, post_with_mongo; intros _.
  - apply post_bind, (post_expires (seconds_ns 300) (S (S n)) t); [done|]. apply post_map_err.
    eapply (post_slot Consents _ (λ _ c, maybe_inserted _ (Tables.consents t) c) (S (S n)) t); [done| |].
    { intros k r c Hop. by apply insert_one_maybe in Hop. }
    intros s4 r c Hins Hs4. assert (settled n t s4) by (exists (S (S n)), (Tables.set_consents t c); auto).
    destruct r as [[]|]; [|done].
    apply post_bind, (post_world _ _ (S (S n)) (Tables.set_consents t c)); [unfold on_users; solve_reads|done|].
    intros r s5 Hs5. assert (settled n t s5) by (exists (S (S n)), (Tables.set_consents t c); auto).
    by destruct r.
  - apply post_bind, (post_world _ _ (S (S n)) t); [unfold on_users; solve_reads|done|].
    intros r s5 Hs5. assert (settled n t s5) by (apply (settled_none n (S (S n))); [lia|done]).
    by destruct r.
Qed.

Lemma consent_effect request session form n t s :
  e.2 = OAuthRequest.AuthorizeConsent request form → (session_guard request e.1).1 = Ok session →
  at_state n t s → post (authorize_consent session form) s (λ _, settled n t).
Proof.
  intros Hreq Hsession Hs. unfold authorize_consent.
  apply post_bind, (post_now n t); [done|].
  apply post_bind, post_with_mongo; intros _; [|by refused n].
  apply post_map_err.
  set (f := consent_filter form (Session.user_id session) (at_ms e)).
  eapply (post_slot Consents _ (λ r c, maybe_changed f mark_used (Tables.consents t) c ∧
    ∀ d', r = Some (Some d') → ∃ d, changed_one f mark_used (Tables.consents t) c d d') n t); [done| |].
  { intros k r c Hop. split; [by eapply find_one_and_update_maybe|]. intros d' ->.
    pose proof (find_one_and_update_law k f mark_used (Tables.consents t)) as Hlaw. simpl in Hop.
    by rewrite Hop in Hlaw. }
  intros s1 r consents' [Hmaybe Hone] Hs1. cbn [slot_set] in Hs1.
  assert (Hans : settled n t s1).
  { exists n, (Tables.set_consents t consents'). split; [done|]. by eapply eff_answer. }
  destruct r as [[d'|]|]; [|done..].
  destruct (Hone d' eq_refl) as [d Hd]. clear Hone Hmaybe.
  apply post_bind, post_or_refuse; [|done]. intros ? [= <-]. cbv zeta.
  destruct (bool_decide (ConsentForm.decision form = "approve")) eqn:Hdec; simpl; [|done].
  apply bool_decide_eq_true in Hdec.
  apply post_bind, (post_random 32 n (Tables.set_consents t consents')); [done|]. intros s2 Hs2.
  assert (Heff : ∀ codes', maybe_inserted (code_document (draw n 32) (default "" (get_str d' "client_id"))
      (Session.user_id session) (default "" (get_str d' "redirect_uri"))
      (default "" (get_str d' "scope")) (get_str d' "code_challenge")
      (later_ms e AUTHORIZATION_CODE_TTL)) (Tables.codes t) codes' →
    effect e n t (S n) (Tables.set_codes (Tables.set_consents t consents') codes')).
  { intros codes' Hins. apply (eff_approve e request form (Session.user_id session) d d' n); try done; try lia.
    by exists session. }
  apply post_bind, post_with_mongo; intros _.
  - apply post_bind, (post_expires _ (S n) (Tables.set_consents t consents')); [done|]. apply post_map_err.
    eapply (post_slot Codes _ (λ _ c, maybe_inserted _ (Tables.codes t) c) (S n)
              (Tables.set_consents t consents')); [done| |].
    { intros k r c Hop. by apply insert_one_maybe in Hop. }
    intros s4 r c Hins Hs4. assert (settled n t s4) by (eexists (S n), _; eauto). by destruct r as [[]|].
  - exists (S n), (Tables.set_consents t consents'). split; [done|]. eapply (eff_answer e f); [lia|].
    right. by exists d, d'.
Qed.

(** The tokens are drawn before anything is stored. *)
Lemma issue_effect client user scope family n t s (Q : Outcome Failure.t TokenResponse.t → Store.t → Prop) :
  at_state n t s →
  (∀ r n' t' s', at_state n' t' s' → issued e client user scope family n t n' t' → Q r s') →
  post (issue_tokens client user scope family) s Q.
Proof.
  intros Hs HQ. unfold issue_tokens.
  apply post_bind, (post_random 32 n t); [done|]. intros s1 Hs1.
  apply post_bind, (post_random 48 (S n) t); [done|]. intros s2 Hs2.
  set (Q3 := λ (fam : string) (s3 : Store.t),
    ∃ n', S n < n' ∧ at_state n' t s3 ∧ ∀ f, family = Some f → fam = f).
  assert (post match family with Some family => mret family | None => random_value 24 end s2
            (λ r s3, ∃ fam, r = Ok fam ∧ Q3 fam s3)) as Hfam.
  { destruct family as [fam|].
    - exists fam. split; [done|]. exists (S (S n)). split_and!; [lia|done|]. by intros f [= <-].
    - apply (post_random 24 (S (S n)) t); [done|]. intros s3 Hs3. exists (draw (S (S n)) 24).
      split; [done|]. exists (S (S (S n))). split_and!; [lia|done|done]. }
  apply post_bind. eapply post_mono; [exact Hfam|]. intros ? s3 (fam & -> & n' & Hn' & Hs3 & Hf).
  assert (Hiss : ∀ access' refresh' r s',
    maybe_inserted (access_document (draw n 32) client user scope (later_ms e ACCESS_TOKEN_TTL))
      (Tables.access t) access' →
    maybe_inserted (refresh_document (draw (S n) 48) fam client user scope (later_ms e REFRESH_TOKEN_TTL))
      (Tables.refresh t) refresh' →
    at_state n' (Tables.set_refresh (Tables.set_access t access') refresh') s' → Q r s').
  { intros access' refresh' r s' Ha Hr Hs'. eapply HQ; [exact Hs'|].
    exists n, (S n), fam, access', refresh'. split_and!; try done; lia. }
  apply post_bind, post_with_mongo; intros _.
  - apply post_bind, (post_expires _ n' t); [done|]. apply post_bind, post_map_err.
    eapply (post_slot Access _ (λ _ c, maybe_inserted _ (Tables.access t) c) n' t); [done| |].
    { intros k r c Hop. by apply insert_one_maybe in Hop. }
    intros s4 r access' Ha Hs4. destruct r as [[]|].
    2:{ apply (Hiss access' (Tables.refresh t)); [done|by left|by destruct t]. }
    apply post_bind, (post_expires _ n' (Tables.set_access t access')); [done|]. apply post_map_err.
    eapply (post_slot Refresh _ (λ _ c, maybe_inserted _ (Tables.refresh t) c) n'
              (Tables.set_access t access')); [done| |].
    { intros k r c Hop. by apply insert_one_maybe in Hop. }
    intros s5 r refresh' Hr Hs5. destruct r as [[]|]; by eapply Hiss.
  - apply (Hiss (Tables.access t) (Tables.refresh t)); [by left|by left|by destruct t].
Qed.

(** What a token is exchanged for: a code that waits, or a refresh token that lives *)
Definition code_taken (req : TokenRequest.t) (t : Tables.t) : Prop :=
  ∃ code client app d, TokenRequest.code req = Some code ∧ TokenRequest.client_id req = Some client ∧
    app ∈ Tables.apps t ∧ matches (by_id client) app = true ∧ get_bool app "revoked" ≠ Some true ∧
    d ∈ Tables.codes t ∧ matches (code_filter code client (at_ms e)) d = true ∧
    verified (<["used" := Bson.Boolean true]> d) req.
Definition refresh_taken (req : TokenRequest.t) (t : Tables.t) : Prop :=
  ∃ token client d, TokenRequest.refresh_token req = Some token ∧
    TokenRequest.client_id req = Some client ∧
    d ∈ Tables.refresh t ∧ matches (refresh_filter token client (at_ms e)) d = true.

(** The code has been used. *)
Definition redeemed (code : string) (t : Tables.t) : Prop :=
  ∃ d, d ∈ Tables.codes t ∧ matches [field "code_hash" (Condition.Is (Bson.String (digest code)))] d = true ∧
    d !! "used" = Some (Bson.Boolean true).

Lemma find_one_and_update_one n f u c d' c' :
  find_one_and_update n f u c = (Some (Some d'), c') → ∃ d, changed_one f u c c' d d' ∧ d ∈ c.
Proof.
  intros Hop. pose proof (find_one_and_update_law n f u c) as Hlaw. rewrite Hop in Hlaw.
  destruct Hlaw as [d Hd]. exists d. split; [done|]. destruct Hd as (_ & _ & rest & -> & _). left.
Qed.

Lemma exchange_effect ip req n t s :
  e.2 = OAuthRequest.Token ip req → at_state n t s →
  post (exchange_code req) s (λ r s', settled n t s' ∧ ∀ response, r = Ok response →
    code_taken req t ∧ ∀ code, TokenRequest.code req = Some code → redeemed code (Tables.of_store s')).
Proof.
  intros Hreq Hs. unfold exchange_code.
  assert (Hno : ∀ err s', at_state n t s' →
    settled n t s' ∧ ∀ response, Err (E := Failure.t) (A := TokenResponse.t) err = Ok response →
      code_taken req t ∧ ∀ code, TokenRequest.code req = Some code → redeemed code (Tables.of_store s')).
  { intros err s' Hs'. split; [by apply (settled_none n n)|done]. }
  apply post_bind, post_or_refuse; [|auto]. intros code Hcode.
  apply post_bind, post_or_refuse; [|auto]. intros client Hclient.
  apply post_bind, (post_application _ n t); [done| |auto].
  intros s1 r1 Hs1 Hr1. apply post_bind, post_or_refuse; [|auto]. intros app ->.
  destruct (Hr1 app eq_refl) as [Happ Hid].
  destruct (default false (get_bool app "revoked")) eqn:Hrev; [apply post_refuse; auto|].
  assert (Hrev' : get_bool app "revoked" ≠ Some true) by (intros Hrv; by rewrite Hrv in Hrev).
  apply post_bind, post_check_secret; [|auto]. intros Hsecret.
  apply post_bind, (post_now n t); [done|].
  apply post_bind, post_with_mongo; intros _; [|by apply post_bind, post_refuse; auto].
  apply post_map_err. set (f := code_filter code client (at_ms e)).
  eapply (post_slot Codes _ (λ r c, maybe_changed f mark_used (Tables.codes t) c ∧
    ∀ d', r = Some (Some d') → ∃ d, changed_one f mark_used (Tables.codes t) c d d' ∧ d ∈ Tables.codes t)
    n t); [done| |].
  { intros k r c Hop. split; [by eapply find_one_and_update_maybe|]. intros d' ->.
    by eapply find_one_and_update_one. }
  intros s2 r codes' [Hmaybe Hone] Hs2. cbn [slot_set] in Hs2.
  assert (Hburn : ∀ err, settled n t s2 ∧
    ∀ response, Err (E := Failure.t) (A := TokenResponse.t) err = Ok response →
      code_taken req t ∧ ∀ code, TokenRequest.code req = Some code → redeemed code (Tables.of_store s2)).
  { intros err. split; [|done]. exists n, (Tables.set_codes t codes'). split; [done|]. by eapply eff_burn. }
  destruct r as [[d'|]|]; [|apply Hburn..].
  apply post_bind, post_or_refuse; [|auto]. intros ? [= <-].
  destruct (Hone d' eq_refl) as (d & Hd & Hin). clear Hone Hmaybe.
  destruct (bool_decide (TokenRequest.redirect_uri req = _)) eqn:Huri; simpl; [|apply post_refuse; auto].
  apply bool_decide_eq_true in Huri.
  assert (Hpkce : post match get_str d' "code_challenge" with
    | Some challenge =>
        verifier ← or_refuse (TokenRequest.code_verifier req) Status.BadRequest "invalid_grant"
                     "code_verifier is required";
        if negb (pkce_matches verifier challenge)
        then refuse Status.BadRequest "invalid_grant" "PKCE verification failed" else mret tt
    | None => mret tt
    end s2 (λ r s', s' = s2 ∧ ((∃ err, r = Err err) ∨ r = Ok tt ∧ verified d' req))).
  { unfold verified. destruct (get_str d' "code_challenge") as [challenge|]; [|split; [done|by right]].
    apply post_bind, post_or_refuse; [|intros err; split; [done|left; by eexists]].
    intros verifier Hver. unfold pkce_matches. rewrite constant_time_equal_spec.
    destruct (bool_decide _) eqn:Hv; simpl; [|split; [done|left; by eexists]].
    split; [done|]. right. split_and!; [done..|]. intros ? [= <-].
    exists verifier. apply bool_decide_eq_true in Hv. done. }
  apply post_bind. eapply post_mono; [exact Hpkce|]. intros ? ? [-> [[err ->]|[-> Hver]]]; [apply Hburn|].
  apply (issue_effect _ _ _ _ n (Tables.set_codes t codes')); [done|].
  intros r n' t' s' Hs' Hissued. split.
  - exists n', t'. split; [done|]. by eapply eff_exchange.
  - intros response _. destruct Hd as (Hm & -> & rest & _ & Hcodes). split.
    + exists code, client, app, d. by split_and!.
    + intros code' Hcode'. rewrite Hcode in Hcode'. injection Hcode' as <-.
      destruct Hs' as (_ & -> & _).
      destruct Hissued as (? & ? & ? & ? & ? & _ & _ & _ & _ & _ & _ & ->).
      exists (apply_update mark_used d). split_and!.
      * simpl. rewrite Hcodes. left.
      * apply andb_prop in Hm as [Hm _]. unfold matches. simpl in Hm |- *.
        rewrite lookup_insert_ne by done. by rewrite Hm.
      * apply lookup_insert_eq.
Qed.

Lemma refresh_effect ip req n t s :
  e.2 = OAuthRequest.Token ip req → at_state n t s →
  post (refresh req) s (λ r s', settled n t s' ∧ ∀ response, r = Ok response → refresh_taken req t).
Proof.
  intros Hreq Hs. unfold refresh.
  assert (Hno : ∀ err s', settled n t s' →
    settled n t s' ∧ ∀ response, Err (E := Failure.t) (A := TokenResponse.t) err = Ok response → refresh_taken req t)
    by done.
  assert (Hquiet : ∀ s', at_state n t s' → settled n t s') by (intros; by apply (settled_none n n)).
  apply post_bind, post_or_refuse; [|auto]. intros token Htoken.
  apply post_bind, post_or_refuse; [|auto]. intros client Hclient.
  apply post_bind, (post_application _ n t); [done| |auto].
  intros s1 r1 Hs1 Hr1. apply post_bind, post_or_refuse; [|auto]. intros app ->.
  destruct (Hr1 app eq_refl) as [Happ Hid].
  apply post_bind, post_check_secret; [|auto]. intros Hsecret.
  apply post_bind, (post_now n t); [done|].
  apply post_bind, post_with_mongo; intros Hmongo.
  2:{ apply post_ret, post_bind, post_with_mongo; intros ?; [congruence|]. apply post_refuse; auto. }
  apply post_map_err. set (f := refresh_filter token client (at_ms e)).
  eapply (post_slot Refresh _ (λ r c, maybe_changed f mark_revoked (Tables.refresh t) c ∧
    (r = Some None → c = Tables.refresh t) ∧
    ∀ d', r = Some (Some d') → ∃ d, changed_one f mark_revoked (Tables.refresh t) c d d' ∧
      d ∈ Tables.refresh t) n t); [done| |].
  { intros k r c Hop. split; [by eapply find_one_and_update_maybe|]. split; intros; subst.
    - pose proof (find_one_and_update_law k f mark_revoked (Tables.refresh t)) as Hlaw. simpl in Hop.
      rewrite Hop in Hlaw. apply Hlaw.
    - by eapply find_one_and_update_one. }
  intros s2 r refresh' (Hmaybe & Hnone & Hone) Hs2. cbn [slot_set] in Hs2.
  destruct r as [[d'|]|].
  - destruct (Hone d' eq_refl) as (d & Hd & Hin).
    apply (issue_effect _ _ _ _ n (Tables.set_refresh t refresh')); [done|].
    intros r n' t' s' Hs' Hissued. split.
    + exists n', t'. split; [done|]. by eapply eff_rotate.
    + intros response _. exists token, client, d. destruct Hd as (Hm & -> & _). by split_and!.
  - rewrite (Hnone eq_refl) in Hs2. assert (Hs2' : at_state n t s2) by (by destruct t). clear Hs2.
    apply post_bind, post_with_mongo; intros _; [|by apply Hno, Hquiet].
    apply post_bind, post_map_err, (post_find_one Refresh _ n t); [done|]. intros s3 r Hs3 _.
    destruct r as [reused|]; [|by apply Hno, Hquiet].
    destruct (reused ≫= λ d, get_str d "family_id") as [family|]; [|by apply Hno, Hquiet].
    apply post_bind.
    eapply (post_slot Refresh _ (λ _ c, some_changed _ mark_revoked (Tables.refresh t) c) n t); [done| |].
    { intros k r c Hop. by apply update_many_some in Hop. }
    intros s4 r refresh4 Hsome Hs4. apply Hno. exists n, (Tables.set_refresh t refresh4).
    split; [done|]. by eapply eff_strike.
  - apply Hno. exists n, (Tables.set_refresh t refresh'). split; [done|]. eapply (eff_strike e f); [lia|].
    by apply maybe_some_changed.
Qed.

Lemma revoke_effect request n t s : at_state n t s → post (revoke request) s (λ _, settled n t).
Proof.
  intros Hs. unfold revoke.
  set (Q := λ (r : Outcome Failure.t unit) (s' : Store.t), at_state n t s').
  apply post_bind. eapply (post_mono _ _ Q).
  { destruct (RevokeRequest.client_id request) as [client|]; [|done].
    apply post_bind, (post_application _ n t); [done| |done]. intros s1 r1 Hs1 _.
    apply post_bind, post_or_refuse; [|done]. intros app _. by apply post_check_secret. }
  intros r s1 Hs1. unfold Q in Hs1. destruct r as [[]|err|]; [|by apply (settled_none n n)..].
  cbv zeta. apply post_with_mongo; intros _; [|by apply (settled_none n n)].
  apply post_bind, post_map_err.
  eapply (post_slot Access _ (λ _ c, maybe_changed (of_token (RevokeRequest.token request)) mark_revoked
    (Tables.access t) c) n t); [done| |].
  { intros k r c Hop. by eapply update_one_maybe. }
  intros s2 r access' Ha Hs2. cbn [slot_set] in Hs2.
  assert (settled n t s2).
  { exists n, (Tables.set_access t access'). split; [done|].
    replace (Tables.set_access t access')
      with (Tables.set_refresh (Tables.set_access t access') (Tables.refresh t)) by (by destruct t).
    eapply eff_revoke; [lia|exact Ha|by left]. }
  destruct r; [|done]. apply post_bind, post_map_err.
  eapply (post_slot Refresh _ (λ _ c, maybe_changed (of_token (RevokeRequest.token request)) mark_revoked
    (Tables.refresh t) c) n (Tables.set_access t access')); [done| |].
  { intros k r c Hop. by eapply update_one_maybe. }
  intros s3 r refresh' Hr Hs3. cbn [slot_set] in Hs3.
  assert (settled n t s3) by (eexists n, _; split; [done|]; by eapply eff_revoke).
  by destruct r.
Qed.

Lemma applications_me_effect session n t s :
  at_state n t s → post (applications_me session) s (λ _, settled n t).
Proof.
  intros Hs. unfold applications_me. apply post_with_mongo; intros _; [|by apply (settled_none n n)].
  apply post_bind, post_map_err.
  eapply (post_slot Apps _ (λ _ c, c = slot_get Apps t) n t); [done| |].
  { by intros k r c [= _ <-]. }
  intros s1 r c -> Hs1. rewrite (slot_set_get Apps t) in Hs1.
  destruct r as [[]|]; by apply (settled_none n n).
Qed.

Lemma application_create_effect session data n t s :
  at_state n t s → post (application_create session data) s (λ _, settled n t).
Proof.
  intros Hs. unfold application_create. cbv zeta.
  match goal with |- post (if ?b then _ else _) _ _ => destruct b end; [refused n|].
  match goal with |- post (if ?b then _ else _) _ _ => destruct b end; [refused n|].
  match goal with |- post (if ?b then _ else _) _ _ => destruct b end; [refused n|].
  apply post_bind, (post_random 18 n t); [done|]. intros s1 Hs1.
  set (Q := λ (r : Outcome Failure.t (option string)) (s' : Store.t),
    ∃ n' secret, r = Ok secret ∧ n < n' ∧ at_state n' t s').
  apply post_bind. eapply (post_mono _ _ Q).
  { destruct (ApplicationCreate.public data).
    - exists (S n), None. split_and!; [done|lia|done].
    - apply post_bind, (post_random 32 (S n) t); [done|]. intros s2 Hs2.
      eexists (S (S n)), _. split_and!; [done|lia|done]. }
  intros ? s2 (n' & secret & -> & Hn' & Hs2). apply post_bind, (post_now n' t); [done|].
  apply post_bind, post_with_mongo; intros _.
  2:{ apply post_refuse. intros _. apply (settled_none n n'); [lia|done]. }
  apply post_map_err.
  eapply (post_slot Apps _ (λ _ c, maybe_inserted _ (Tables.apps t) c) n' t); [done| |].
  { intros k r c Hop. by apply insert_one_maybe in Hop. }
  intros s3 r apps' Hins Hs3. cbn [slot_set] in Hs3.
  assert (settled n t s3).
  { exists n', (Tables.set_apps t apps'). split; [done|]. eapply (eff_create e n); [lia|lia|done|done]. }
  destruct r as [[]|]; [|done]. by destruct (app_response _ _).
Qed.

Lemma application_rotate_secret_effect session client n t s :
  at_state n t s → post (application_rotate_secret session client) s (λ _, settled n t).
Proof.
  intros Hs. unfold application_rotate_secret.
  apply post_bind, (post_random 32 n t); [done|]. intros s1 Hs1.
  apply post_bind, post_with_mongo; intros _.
  2:{ apply post_ret, post_bind, post_refuse. intros _. apply (settled_none n (S n)); [lia|done]. }
  apply post_map_err.
  eapply (post_slot Apps _ (λ _ c, maybe_changed (rotatable client (Session.user_id session))
    [UpdateOp.Set_ "secret_hash" (Bson.String (digest (draw n 32)))] (Tables.apps t) c) (S n) t); [done| |].
  { intros k r c Hop. by eapply find_one_and_update_maybe. }
  intros s2 r apps' Hc Hs2. cbn [slot_set] in Hs2.
  assert (settled n t s2) by (eexists (S n), _; split; [done|]; eapply eff_secret; [lia|done]).
  destruct r as [[d|]|]; [|done..].
  apply post_bind, post_or_refuse; [|done]. intros ? [= <-]. by destruct (app_response _ _).
Qed.

Lemma update_many_all k f u c r c' :
  reliable → update_many k f u c = (r, c') → all_changed f u c c'.
Proof.
  intros [_ Hrel] Hop. pose proof (update_many_law k f u c) as Hlaw. destruct (Hrel k f u c) as [x Hx].
  rewrite Hop in Hlaw, Hx. simpl in Hx. subst r. apply Hlaw.
Qed.
Lemma some_changed_refl f u c : some_changed f u c c.
Proof. apply maybe_some_changed. by left. Qed.

Lemma application_revoke_effect session client n t s :
  at_state n t s → post (application_revoke session client) s (λ _, settled n t).
Proof.
  intros Hs. unfold application_revoke. cbv zeta.
  set (mine := owned client (Session.user_id session)).
  apply post_with_mongo; intros _; [|by apply (settled_none n n)].
  apply post_bind, post_map_err.
  eapply (post_slot Apps _ (λ r c, maybe_changed mine mark_revoked (Tables.apps t) c ∧
    (reliable → is_Some r) ∧ (∀ x, r = Some x → UpdateResult.matched_count x = 0 → c = Tables.apps t)) n t);
    [done| |].
  { intros k r c Hop. change (update_one k false mine mark_revoked (Tables.apps t) = (r, c)) in Hop.
    split_and!; [by eapply update_one_maybe| |].
    - intros [Hrel _]. pose proof (Hrel k mine mark_revoked (Tables.apps t)) as Hx.
      by rewrite Hop in Hx.
    - intros x -> Hx. pose proof (update_one_law k false mine mark_revoked (Tables.apps t)) as Hlaw.
      rewrite Hop in Hlaw.
      destruct Hlaw as [(d & d' & _ & ->)|(_ & _ & ->)]; [by simpl in Hx|done]. }
  intros s1 r apps' (Hmaybe & Hrel & Hzero) Hs1. cbn [slot_set] in Hs1.
  set (t1 := Tables.set_apps t apps') in *.
  assert (Hclose : ∀ access' refresh' s',
    some_changed (of_client client) mark_revoked (Tables.access t) access' →
    some_changed (of_client client) mark_revoked (Tables.refresh t) refresh' →
    (reliable → apps' = Tables.apps t ∨
         all_changed (of_client client) mark_revoked (Tables.access t) access' ∧
         all_changed (of_client client) mark_revoked (Tables.refresh t) refresh') →
    at_state n (Tables.set_refresh (Tables.set_access t1 access') refresh') s' → settled n t s').
  { intros access' refresh' s' Ha Hr Hall Hs'. eexists n, _. split; [exact Hs'|].
    eapply eff_close; [lia|exact Hmaybe|exact Ha|exact Hr|exact Hall]. }
  destruct r as [x|].
  2:{ apply (Hclose (Tables.access t) (Tables.refresh t)); [apply some_changed_refl..| |by destruct t].
      intros [? [=]]%Hrel. }
  destruct (UpdateResult.matched_count x =? 0)%nat eqn:Hm.
  { apply Nat.eqb_eq in Hm. apply post_refuse. intros _.
    apply (Hclose (Tables.access t) (Tables.refresh t)); [apply some_changed_refl..| |by destruct t].
    intros _. left. by eapply Hzero. }
  apply post_bind.
  eapply (post_slot Access _ (λ _ c, some_changed (of_client client) mark_revoked (Tables.access t) c ∧
    (reliable → all_changed (of_client client) mark_revoked (Tables.access t) c)) n t1); [done| |].
  { intros k r c Hop. split; [by eapply update_many_some|]. intros Hr. by eapply update_many_all. }
  intros s2 r2 access' [Ha Hall] Hs2. cbn [slot_set] in Hs2. apply post_bind.
  eapply (post_slot Refresh _ (λ _ c, some_changed (of_client client) mark_revoked (Tables.refresh t) c ∧
    (reliable → all_changed (of_client client) mark_revoked (Tables.refresh t) c)) n
    (Tables.set_access t1 access')); [done| |].
  { intros k r c Hop. split; [by eapply update_many_some|]. intros Hr. by eapply update_many_all. }
  intros s3 r3 refresh' [Hr Hall'] Hs3. cbn [slot_set] in Hs3.
  apply (Hclose access' refresh'); auto.
Qed.

Lemma guard_session_reads request : reads (session_guard request).
Proof. unfold session_guard, on_sessions. solve_reads. Qed.
Lemma reads_mapM {A B} (f : A → H B) l : (∀ a, reads (f a)) → reads (mapM f l).
Proof. intros Hf. induction l as [|a l IH]; simpl; solve_reads; done. Qed.
Lemma server_info_reads scopes user member : reads (server_info scopes user member).
Proof.
  unfold server_info, on_servers, on_channels. apply reads_bind; [solve_reads|intros [server|]; [|done]].
  cbv zeta. destruct (bool_decide _); [|done]. apply reads_bind; [apply query_server_reads|intros ?].
  apply reads_bind; [solve_reads|intros ?]. apply reads_bind; [|done].
  apply reads_mapM. intros c. unfold channel_permission_info, query_server_channel. solve_reads.
Qed.

Lemma fetch_user_run id w :
  (on_users (UsersTable.fetch_user id) w).2 = w ∧
  ∀ user, (on_users (UsersTable.fetch_user id) w).1 = Ok user → ReferenceDb.users (World.db w) !! id = Some user.
Proof.
  split; [revert w; unfold on_users; solve_reads|]. intros user.
  unfold on_users, on_table, UsersTable.fetch_user, table_fetch. simpl.
  by destruct (ReferenceDb.users (World.db w) !! id); intros [= ->].
Qed.

Lemma bearer_user_post token n t s (Q : Outcome Failure.t (option (Document * User.t)) → Store.t → Prop) :
  at_state n t s →
  (∀ d user s', at_state n t s' → d ∈ Tables.access t →
     matches (of_token token ++ [field "revoked" (Condition.Is (Bson.Boolean false));
                                 field "expires_at" (Condition.Gt (at_ms e))]) d = true →
     (∃ id, get_str d "user_id" = Some id ∧
            ReferenceDb.users (World.db (Store.world s')) !! id = Some user) →
     Q (Ok (Some (d, user))) s') →
  (∀ r s', at_state n t s' → (∀ x, r ≠ Ok (Some x)) → Q r s') →
  post (bearer_user token) s Q.
Proof.
  intros Hs HQ Hno. unfold bearer_user. apply post_bind, (post_now n t); [done|].
  apply post_bind, post_with_mongo; intros _; [|by apply post_ret, Hno].
  apply post_map_err, (post_find_one Access _ n t); [done|]. intros s1 r Hs1 Hr.
  destruct r as [[d|]|]; [|by apply Hno..]. destruct (Hr d eq_refl) as [Hin Hm].
  destruct (get_str d "user_id") as [user_id|] eqn:Huser; [|by apply Hno].
  apply post_bind. unfold post, on_world.
  pose proof (fetch_user_run user_id (Store.world s1)) as [Hw Hval].
  destruct (on_users _ _) as [r w]. simpl in Hw, Hval. subst w.
  assert (at_state n t (Store.set_world s1 (Store.world s1))) by (by destruct s1).
  destruct r as [user| |]; simpl; [|by apply Hno..]. apply HQ; [done..|]. exists user_id. auto.
Qed.

Lemma userinfo_effect token n t s : at_state n t s → post (userinfo token) s (λ _, settled n t).
Proof.
  intros Hs. unfold userinfo. apply post_bind, (bearer_user_post _ n t); [done| |].
  2:{ intros r s1 Hs1 Hr. assert (settled n t s1) by (by apply (settled_none n n)).
      destruct r as [[x|]| |]; [by destruct (Hr x)|by apply post_bind, post_refuse|done..]. }
  intros d user s1 Hs1 _ _ _. apply post_bind, post_or_refuse; [|refused n]. intros ? [= <-].
  match goal with |- post (if ?b then _ else _) _ _ => destruct b end; [|refused n].
  apply post_bind, (post_world _ _ n t); [unfold on_members; solve_reads|done|].
  intros r s2 Hs2. destruct r; [|by apply (settled_none n n)..].
  apply post_bind, (post_world _ _ n t); [apply reads_mapM, server_info_reads|done|].
  intros r s3 Hs3. destruct r; by apply (settled_none n n).
Qed.

Lemma rate_limit_post ip n t s (Q : Outcome Failure.t unit → Store.t → Prop) :
  at_state n t s → (∀ r s', at_state n t s' → Store.world s' = Store.world s → Q r s') →
  post (oauth_rate_limit ip) s Q.
Proof.
  intros Hs HQ. unfold post, oauth_rate_limit. cbv zeta.
  destruct (default _ _) as [start used].
  match goal with |- context [if ?b then (?x, 0%Z) else ?p] => destruct (if b then (x, 0%Z) else p) as [start' used'] end.
  destruct (2 ^ 32 <=? _)%Z; [by apply HQ|]. destruct (60 <? _)%Z; by apply HQ.
Qed.

Lemma session_post request n t s (Q : Outcome Failure.t Session.t → Store.t → Prop) :
  at_state n t s → Store.world s = e.1 →
  (∀ session s', at_state n t s' → (session_guard request e.1).1 = Ok session → Q (Ok session) s') →
  (∀ r s', at_state n t s' → (∀ x, r ≠ Ok x) → Q r s') →
  post (oauth_session request) s Q.
Proof.
  intros Hs Hw HQ Hno. unfold post, oauth_session, on_world. rewrite Hw.
  pose proof (guard_session_reads request e.1) as Hr.
  destruct (session_guard request e.1) as [r w]. simpl in Hr. subst w.
  assert (at_state n t (Store.set_world s e.1)).
  { destruct Hs as (? & ? & ?). split_and!; [done..|]. done. }
  destruct r; simpl; [by apply HQ|by apply Hno..].
Qed.

(** The guards before the bodies *)
Lemma rated_settled {A} ip (k : O A) n t s :
  at_state n t s →
  (∀ s', at_state n t s' → Store.world s' = Store.world s → post k s' (λ _, settled n t)) →
  post (oauth_rate_limit ip ;; k) s (λ _, settled n t).
Proof.
  intros Hs Hk. apply post_bind, (rate_limit_post _ n t); [done|].
  intros [[]| |] s1 Hs1 Hw; [by apply Hk|by apply (settled_none n n)..].
Qed.
Lemma session_settled {A} request (k : Session.t → O A) n t s :
  at_state n t s → Store.world s = e.1 →
  (∀ session s', at_state n t s' → (session_guard request e.1).1 = Ok session →
     post (k session) s' (λ _, settled n t)) →
  post (session ← oauth_session request; k session) s (λ _, settled n t).
Proof.
  intros Hs Hw Hk. apply post_bind, (session_post _ n t); [done|done|done|].
  intros [x| |] s2 Hs2 Hno; [by destruct (Hno x)|by apply (settled_none n n)..].
Qed.
Lemma then_settled {A} (m : O A) n t s :
  post m s (λ _, settled n t) → post (m ;; mret tt) s (λ _, settled n t).
Proof. intros Hm. apply post_bind. eapply post_mono; [exact Hm|]. by intros []. Qed.
End Running.

(** Each request has one of the effects. *)
Lemma run_oauth_effect e s :
  Store.world s = e.1 →
  effect e (Store.randoms s) (Tables.of_store s)
    (Store.randoms (run_oauth e.2 s).2) (Tables.of_store (run_oauth e.2 s).2).
Proof.
  intros Hw. set (n := Store.randoms s). set (t := Tables.of_store s).
  assert (Hs : at_state e n t s) by (split_and!; [done..|by rewrite Hw]).
  enough (post (run_oauth e.2) s (λ _, settled e n t)) as (n' & t' & (<- & <- & _) & Heff) by done.
  assert (Hquiet : ∀ s', at_state e n t s' → settled e n t s') by (intros; by eapply settled_none).
  destruct (e.2) as [request query|request form|ip request|ip request|authorization|request|request data
                    |request client|request client] eqn:He; unfold run_oauth.
  - apply rated_settled; [done|]. intros s1 Hs1 Hw1. apply session_settled; [done|congruence|].
    intros session s2 Hs2 Hsession. by eapply then_settled, authorize_effect.
  - apply rated_settled; [done|]. intros s1 Hs1 Hw1. apply session_settled; [done|congruence|].
    intros session s2 Hs2 Hsession. by eapply then_settled, consent_effect.
  - apply rated_settled; [done|]. intros s1 Hs1 Hw1. apply then_settled. unfold token.
    destruct (bool_decide _); [eapply post_mono; [by eapply exchange_effect|]; by intros r s' [? _]|].
    destruct (bool_decide _); [eapply post_mono; [by eapply refresh_effect|]; by intros r s' [? _]|].
    apply post_refuse. intros _. by apply Hquiet.
  - apply rated_settled; [done|]. intros s1 Hs1 Hw1. by apply revoke_effect.
  - apply post_bind. unfold bearer_token. destruct authorization as [value|]; [|by apply Hquiet].
    destruct (String.prefix "Bearer " value); [|by apply Hquiet]. cbv zeta.
    destruct (bool_decide _); [by apply Hquiet|]. by apply post_ret, then_settled, userinfo_effect.
  - apply session_settled; [done..|]. intros. by apply then_settled, applications_me_effect.
  - apply session_settled; [done..|]. intros. by apply then_settled, application_create_effect.
  - apply session_settled; [done..|]. intros. by apply then_settled, application_rotate_secret_effect.
  - apply session_settled; [done..|]. intros. by apply application_revoke_effect.
Qed.

(** ** Where tokens come from *)

(** The user's session asked for the client's access to the scopes. *)
Definition asked (e : event) (client user redirect_uri scope : string) (challenge : option string) : Prop :=
  ∃ request query, e.2 = OAuthRequest.Authorize request query ∧ holder e request user ∧
    AuthorizeQuery.client_id query = client ∧ AuthorizeQuery.redirect_uri query = redirect_uri ∧
    validate_redirect_uri redirect_uri = true ∧ AuthorizeQuery.code_challenge query = challenge ∧
    scope = join " " (split_whitespace (AuthorizeQuery.scope query)) ∧
    ∀ x, x ∈ split_whitespace (AuthorizeQuery.scope query) → x ∈ SCOPES.
(** The identifier and the secret of the page that asks the user, [consent_page], are two values drawn
    while the request was answered. *)
Definition page_of (s0 : Store.t) (before : list event) (e : event) (request_id csrf : string) : Prop :=
  ∃ i j, Store.randoms (run_oauths before s0) ≤ i < j ∧
    j < Store.randoms (run_oauths (before ++ [e]) s0) ∧ request_id = draw i 24 ∧ csrf = draw j 32.
(** The user's session approved the page with this identifier and this secret. *)
Definition approved (e : event) (user request_id csrf : string) : Prop :=
  ∃ request form, e.2 = OAuthRequest.AuthorizeConsent request form ∧ holder e request user ∧
    ConsentForm.decision form = "approve" ∧ ConsentForm.request_id form = request_id ∧
    digest (ConsentForm.csrf form) = digest csrf.
(** Both happened, in this order and within five minutes, and it is the page of the first that the
    second approves. *)
Definition consented (s0 : Store.t) (past : list event) (client user redirect_uri scope : string)
    (challenge : option string) : Prop :=
  ∃ l1 e1 l2 e2 l3 request_id csrf, past = l1 ++ e1 :: l2 ++ e2 :: l3 ∧
    asked e1 client user redirect_uri scope challenge ∧ page_of s0 l1 e1 request_id csrf ∧
    approved e2 user request_id csrf ∧
    (World.now e2.1 < World.now e1.1 + seconds_ns 300)%Z.

Lemma consented_more s0 past e client user redirect_uri scope challenge :
  consented s0 past client user redirect_uri scope challenge →
  consented s0 (past ++ [e]) client user redirect_uri scope challenge.
Proof.
  intros (l1 & e1 & l2 & e2 & l3 & rid & csrf & -> & Hrest).
  exists l1, e1, l2, e2, (l3 ++ [e]), rid, csrf.
  split; [|done]. by rewrite <- !(assoc_L (++)), <- !app_comm_cons, <- !(assoc_L (++)), <- !app_comm_cons.
Qed.

Definition grant (d : Document) (client user scope : string) : Prop :=
  d !! "client_id" = Some (Bson.String client) ∧ d !! "user_id" = Some (Bson.String user) ∧
  d !! "scope" = Some (Bson.String scope).
Definition flow (d : Document) (redirect_uri : string) (challenge : option string) : Prop :=
  d !! "redirect_uri" = Some (Bson.String redirect_uri) ∧
  d !! "code_challenge" = Some (Bson.optional Bson.String challenge).

Definition consent_ok (s0 : Store.t) (past : list event) (d : Document) : Prop :=
  ∃ l1 e1 l2 client user redirect_uri scope challenge request_id csrf, past = l1 ++ e1 :: l2 ∧
    asked e1 client user redirect_uri scope challenge ∧ page_of s0 l1 e1 request_id csrf ∧
    grant d client user scope ∧
    flow d redirect_uri challenge ∧ d !! "expires_at" = Some (later_ms e1 (seconds_ns 300)) ∧
    d !! "_id" = Some (Bson.String request_id) ∧ d !! "csrf_hash" = Some (Bson.String (digest csrf)).
Definition code_ok (s0 : Store.t) (past : list event) (d : Document) : Prop :=
  ∃ client user redirect_uri scope challenge,
    consented s0 past client user redirect_uri scope challenge ∧ grant d client user scope ∧
    flow d redirect_uri challenge.
Definition token_ok (s0 : Store.t) (past : list event) (d : Document) : Prop :=
  ∃ client user redirect_uri scope challenge,
    consented s0 past client user redirect_uri scope challenge ∧ grant d client user scope.

Definition justified (s0 : Store.t) (past : list event) (t : Tables.t) : Prop :=
  (∀ d, d ∈ Tables.consents t → consent_ok s0 past d) ∧ (∀ d, d ∈ Tables.codes t → code_ok s0 past d) ∧
  (∀ d, d ∈ Tables.access t → token_ok s0 past d) ∧ (∀ d, d ∈ Tables.refresh t → token_ok s0 past d).

(** The fields they speak of are never set. *)
Lemma grant_like touched d d' client user scope :
  like touched d d' → Forall (λ key, key ∉ touched) ["client_id"; "user_id"; "scope"] →
  grant d client user scope → grant d' client user scope.
Proof.
  intros Hl Hf. rewrite !Forall_cons in Hf. destruct Hf as (Hk1 & Hk2 & Hk3 & _). unfold grant.
  by rewrite !Hl by done.
Qed.
Lemma flow_like touched d d' redirect_uri challenge :
  like touched d d' → Forall (λ key, key ∉ touched) ["redirect_uri"; "code_challenge"] →
  flow d redirect_uri challenge → flow d' redirect_uri challenge.
Proof.
  intros Hl Hf. rewrite !Forall_cons in Hf. destruct Hf as (Hk1 & Hk2 & _). unfold flow.
  by rewrite !Hl by done.
Qed.
Ltac untouched := repeat constructor; by rewrite ?elem_of_cons, ?elem_of_nil; intuition congruence.

Lemma consent_ok_more s0 past e d : consent_ok s0 past d → consent_ok s0 (past ++ [e]) d.
Proof.
  intros (l1 & e1 & l2 & client & user & redirect_uri & scope & challenge & rid & csrf & -> & Hrest).
  exists l1, e1, (l2 ++ [e]), client, user, redirect_uri, scope, challenge, rid, csrf. split; [|done].
  by rewrite <- (assoc_L (++)), <- app_comm_cons.
Qed.
Lemma code_ok_more s0 past e d : code_ok s0 past d → code_ok s0 (past ++ [e]) d.
Proof.
  intros (client & user & redirect_uri & scope & challenge & Hc & Hrest).
  exists client, user, redirect_uri, scope, challenge. split; [by apply consented_more|done].
Qed.
Lemma token_ok_more s0 past e d : token_ok s0 past d → token_ok s0 (past ++ [e]) d.
Proof.
  intros (client & user & redirect_uri & scope & challenge & Hc & Hrest).
  exists client, user, redirect_uri, scope, challenge. split; [by apply consented_more|done].
Qed.

Lemma consent_ok_used s0 past : closed (consent_ok s0 past) mark_used.
Proof.
  intros d (l1 & e1 & l2 & client & user & redirect_uri & scope & challenge & rid & csrf & -> & Ha & Hp &
            Hg & Hf & He & Hi & Hx).
  assert (like ["used"] d (apply_update mark_used d)) as Hl by (apply like_set; left).
  exists l1, e1, l2, client, user, redirect_uri, scope, challenge, rid, csrf.
  split; [done|]. split; [done|]. split; [done|]. split; [|split].
  - eapply grant_like; [exact Hl|untouched|done].
  - eapply flow_like; [exact Hl|untouched|done].
  - rewrite !Hl by untouched. done.
Qed.
Lemma code_ok_used s0 past : closed (code_ok s0 past) mark_used.
Proof.
  intros d (client & user & redirect_uri & scope & challenge & Hc & Hg & Hf).
  assert (like ["used"] d (apply_update mark_used d)) as Hl by (apply like_set; left).
  exists client, user, redirect_uri, scope, challenge. split_and!; [done| |].
  - eapply grant_like; [exact Hl|untouched|done].
  - eapply flow_like; [exact Hl|untouched|done].
Qed.
Lemma token_ok_revoked s0 past : closed (token_ok s0 past) mark_revoked.
Proof.
  intros d (client & user & redirect_uri & scope & challenge & Hc & Hg).
  assert (like ["revoked"] d (apply_update mark_revoked d)) as Hl by (apply like_set; left).
  exists client, user, redirect_uri, scope, challenge. split; [done|].
  eapply grant_like; [exact Hl|untouched|done].
Qed.

Lemma datetime_gt a b :
  bson_compare (Bson.datetime a) (Bson.datetime b) = Some Datatypes.Gt → (b < a)%Z.
Proof.
  unfold Bson.datetime, bson_compare. intros [= Hgt%Z.compare_gt_iff].
  apply Z.nle_gt. intros Hle. assert (a / 10 ^ 6 ≤ b / 10 ^ 6)%Z by (by apply Z.div_le_mono). lia.
Qed.
Lemma get_str_lookup d key s : d !! key = Some (Bson.String s) → get_str d key = Some s.
Proof. unfold get_str. by intros ->. Qed.
Lemma get_str_optional d key o : d !! key = Some (Bson.optional Bson.String o) → get_str d key = o.
Proof. unfold get_str. intros ->. by destruct o. Qed.

Lemma matched_field f key v w (d : Document) :
  matches f d = true → field key (Condition.Is (Bson.String v)) ∈ f →
  d !! key = Some (Bson.String w) → w = v.
Proof. intros Hm Hin Hd. by pose proof (matches_is _ key _ _ d Hm Hin Hd ltac:(done)) as [= ->]. Qed.

Lemma consent_answered s0 past e request form user d :
  consent_ok s0 past d → matches (consent_filter form user (at_ms e)) d = true →
  e.2 = OAuthRequest.AuthorizeConsent request form → holder e request user →
  ConsentForm.decision form = "approve" →
  let d' := apply_update mark_used d in
  ∃ client redirect_uri scope challenge,
    consented s0 (past ++ [e]) client user redirect_uri scope challenge ∧
    get_str d' "client_id" = Some client ∧ get_str d' "redirect_uri" = Some redirect_uri ∧
    get_str d' "scope" = Some scope ∧ get_str d' "code_challenge" = challenge.
Proof.
  intros (l1 & e1 & l2 & client & user' & redirect_uri & scope & challenge & rid & csrf & -> & Hasked &
          Hpage & Hg & Hf & Hexp & Hid & Hcsrf) Hm He Hh Hdec d'.
  assert (Hl : like ["used"] d d') by (apply like_set; left).
  assert (user' = user) as -> by (eapply (matched_field _ "user_id"); [exact Hm|right; left|apply Hg]).
  assert (rid = ConsentForm.request_id form) as -> by (eapply (matched_field _ "_id"); [exact Hm|left|done]).
  assert (digest csrf = digest (ConsentForm.csrf form)) as Hcsrf'
    by (eapply (matched_field _ "csrf_hash"); [exact Hm|do 2 right; left|done]).
  destruct (matches_gt _ "expires_at" (at_ms e) d Hm ltac:(by do 4 right; left)) as (x & Hx & Hgt).
  rewrite Hexp in Hx. injection Hx as <-. apply datetime_gt in Hgt.
  destruct (grant_like _ _ d' _ _ _ Hl ltac:(untouched) Hg) as (Hg1 & _ & Hg3).
  destruct (flow_like _ _ d' _ _ Hl ltac:(untouched) Hf) as (Hf1 & Hf2).
  exists client, redirect_uri, scope, challenge. split_and!.
  - exists l1, e1, l2, e, [], (ConsentForm.request_id form), csrf.
    split; [by rewrite <- (assoc_L (++)), <- app_comm_cons|]. split; [done|]. split; [done|].
    split; [by exists request, form|done].
  - by apply get_str_lookup.
  - by apply get_str_lookup.
  - by apply get_str_lookup.
  - by apply get_str_optional.
Qed.

Lemma issued_ok s0 e past client user scope redirect_uri challenge family n t n' t' :
  consented s0 past client user redirect_uri scope challenge →
  issued e client user scope family n t n' t' →
  (∀ d, d ∈ Tables.access t → token_ok s0 past d) → (∀ d, d ∈ Tables.refresh t → token_ok s0 past d) →
  (∀ d, d ∈ Tables.access t' → token_ok s0 past d) ∧ (∀ d, d ∈ Tables.refresh t' → token_ok s0 past d) ∧
  Tables.consents t' = Tables.consents t ∧ Tables.codes t' = Tables.codes t.
Proof.
  intros Hc (i & j & fam & access' & refresh' & _ & _ & _ & _ & Ha & Hr & ->) Hta Htr. simpl.
  split_and!; [| |done|done].
  - eapply maybe_inserted_Forall; [|exact Ha|done]. intros d Hd.
    exists client, user, redirect_uri, scope, challenge. split; [done|].
    eapply grant_like; [exact Hd|untouched|by split_and!].
  - eapply maybe_inserted_Forall; [|exact Hr|done]. intros d Hd.
    exists client, user, redirect_uri, scope, challenge. split; [done|].
    eapply grant_like; [exact Hd|untouched|by split_and!].
Qed.

Lemma changed_one_in f u c c' d d' : changed_one f u c c' d d' → d ∈ c ∧ maybe_changed f u c c'.
Proof.
  intros Hch. split; [|right; by exists d, d']. destruct Hch as (_ & _ & rest & -> & _). left.
Qed.

Lemma justified_more s0 past e t : justified s0 past t → justified s0 (past ++ [e]) t.
Proof.
  intros (Hn & Hc & Ha & Hr). split_and!; intros d Hd.
  - by apply consent_ok_more, Hn.
  - by apply code_ok_more, Hc.
  - by apply token_ok_more, Ha.
  - by apply token_ok_more, Hr.
Qed.

(** What a code or a refresh token that is taken was consented to *)
Lemma taken_grant s0 past f client d u :
  token_ok s0 past d → matches f d = true → field "client_id" (Condition.Is (Bson.String client)) ∈ f →
  (∀ key, key ∈ ["client_id"; "user_id"; "scope"] → apply_update u d !! key = d !! key) →
  ∃ redirect_uri challenge, consented s0 past client (default "" (get_str (apply_update u d) "user_id"))
    redirect_uri (default "" (get_str (apply_update u d) "scope")) challenge.
Proof.
  intros (client' & user & redirect_uri & scope & challenge & Hc & Hg1 & Hg2 & Hg3) Hm Hin Hkeep.
  pose proof (matches_is _ "client_id" _ _ d Hm Hin Hg1 ltac:(done)) as [= ->].
  exists redirect_uri, challenge. unfold get_str. rewrite !Hkeep by set_solver. by rewrite Hg2, Hg3.
Qed.
Lemma code_token s0 past d : code_ok s0 past d → token_ok s0 past d.
Proof.
  intros (client & user & redirect_uri & scope & challenge & Hc & Hg & _).
  by exists client, user, redirect_uri, scope, challenge.
Qed.

Lemma justified_step s0 past e n t n' t' :
  effect e n t n' t' → n = Store.randoms (run_oauths past s0) →
  n' = Store.randoms (run_oauths (past ++ [e]) s0) → justified s0 past t → justified s0 (past ++ [e]) t'.
Proof.
  intros Heff Hn0 Hn1 Hj0. pose proof (justified_more s0 past e t Hj0) as (Hn & Hc & Ha & Hr).
  destruct Heff as
    [ |request query user app scopes i j consents' n t n' He Hh Hi Hj Hlt _ _ _ _ Huri Hscopes _ Hins
     |f consents' n t n' _ Hch|request form user d d' i consents' codes' n t n' He Hh Hdec Hch _ _ Hins
     |f codes' n t n' _ Hch
     |ip req code client app d d' codes' n t n' t' He _ _ _ _ _ _ Hch _ Hiss
     |f refresh' n t n' _ Hch|ip req token client app d d' refresh' n t n' t' He _ _ _ _ _ Hch Hiss
     |f access' refresh' n t n' _ Hca Hcr|i client data user allowed secret apps' n t n' _ _ _ Hins
     |f secret apps' n t n' _ Hch|client user apps' access' refresh' n t n' _ _ Hca Hcr _].
  - by split_and!.
  - split_and!; [|done..]. simpl. intros d Hd.
    destruct Hins as [->|(x & [-> _] & Hc')]; [by apply Hn|]. rewrite Hc' in Hd.
    apply elem_of_cons in Hd as [->|Hd]; [|by apply Hn].
    apply validate_scopes_Some in Hscopes as (-> & _ & Hall).
    eexists past, e, [], _, user, _, _, _, (draw i 24), (draw j 32). split; [done|]. split; [|split; [|done]].
    + exists request, query. split_and!; try done. intros y Hy. by apply Hall.
    + exists i, j. rewrite <- Hn0, <- Hn1. done.
  - split_and!; [|done..]. simpl. eapply maybe_changed_Forall; [|exact Hch|done]. apply consent_ok_used.
  - destruct (changed_one_in _ _ _ _ _ _ Hch) as [Hd Hch']. split_and!; [| |done..]; simpl.
    + eapply maybe_changed_Forall; [|exact Hch'|done]. apply consent_ok_used.
    + destruct Hch as (Hm & -> & _). destruct Hj0 as (Hprev & _).
      destruct (consent_answered s0 past e request form user d (Hprev d Hd) Hm He Hh Hdec)
        as (client & redirect_uri & scope & challenge & Hcon & E1 & E2 & E3 & E4).
      rewrite E1, E2, E3, E4 in Hins. simpl in Hins.
      eapply maybe_inserted_Forall; [|exact Hins|done]. intros x Hx.
      exists client, user, redirect_uri, scope, challenge. split_and!; [done| |].
      * eapply grant_like; [exact Hx|untouched|by split_and!].
      * eapply flow_like; [exact Hx|untouched|by split_and!].
  - split_and!; [done| |done..]. simpl. eapply maybe_changed_Forall; [|exact Hch|done]. apply code_ok_used.
  - destruct (changed_one_in _ _ _ _ _ _ Hch) as [Hd Hch']. destruct Hch as (Hm & -> & _).
    destruct (taken_grant _ _ _ client d mark_used (code_token _ _ d (Hc d Hd)) Hm ltac:(right; left))
      as (redirect_uri & challenge & Hcon).
    { intros key Hkey. unfold mark_used. simpl. apply lookup_insert_ne. set_solver. }
    destruct (issued_ok _ _ _ _ _ _ _ _ _ _ _ _ _ Hcon Hiss Ha Hr) as (Ha' & Hr' & Hn' & Hc').
    split_and!; [by rewrite Hn'| |done|done]. rewrite Hc'. simpl.
    eapply maybe_changed_Forall; [|exact Hch'|done]. apply code_ok_used.
  - split_and!; [done..|]. simpl. eapply some_changed_Forall; [|exact Hch|done]. apply token_ok_revoked.
  - destruct (changed_one_in _ _ _ _ _ _ Hch) as [Hd Hch']. destruct Hch as (Hm & -> & _).
    destruct (taken_grant _ _ _ client d mark_revoked (Hr d Hd) Hm ltac:(right; left))
      as (redirect_uri & challenge & Hcon).
    { intros key Hkey. unfold mark_revoked. simpl. apply lookup_insert_ne. set_solver. }
    assert (∀ x, x ∈ refresh' → token_ok s0 (past ++ [e]) x) as Hr1.
    { eapply maybe_changed_Forall; [|exact Hch'|done]. apply token_ok_revoked. }
    destruct (issued_ok _ _ _ _ _ _ _ _ _ _ _ _ _ Hcon Hiss Ha Hr1) as (Ha' & Hr' & Hn' & Hc').
    split_and!; [by rewrite Hn'|by rewrite Hc'|done|done].
  - split_and!; [done|done| |]; simpl;
      (eapply maybe_changed_Forall; [apply token_ok_revoked| |]; [first [exact Hca|exact Hcr]|done]).
  - by split_and!.
  - by split_and!.
  - split_and!; [done|done| |]; simpl;
      (eapply some_changed_Forall; [apply token_ok_revoked| |]; [first [exact Hca|exact Hcr]|done]).
Qed.

Lemma run_oauths_snoc es e s : run_oauths (es ++ [e]) s = step_oauth (run_oauths es s) e.
Proof. unfold run_oauths. by rewrite foldl_app. Qed.

(** An invariant of the effects holds after any requests. *)
Lemma run_oauths_invariant_at (P : list event → nat → Tables.t → Prop) es s :
  P [] (Store.randoms s) (Tables.of_store s) →
  (∀ past e n t n' t', effect e n t n' t' → n = Store.randoms (run_oauths past s) →
     n' = Store.randoms (run_oauths (past ++ [e]) s) → P past n t → P (past ++ [e]) n' t') →
  P es (Store.randoms (run_oauths es s)) (Tables.of_store (run_oauths es s)).
Proof.
  intros Hinit Hstep. induction es as [|e es IH] using rev_ind; [done|].
  rewrite run_oauths_snoc. eapply Hstep; [|done|by rewrite run_oauths_snoc|exact IH]. unfold step_oauth.
  apply (run_oauth_effect e (Store.set_world (run_oauths es s) e.1)). done.
Qed.
Lemma run_oauths_invariant (P : list event → nat → Tables.t → Prop) es s :
  P [] (Store.randoms s) (Tables.of_store s) →
  (∀ past e n t n' t', effect e n t n' t' → P past n t → P (past ++ [e]) n' t') →
  P es (Store.randoms (run_oauths es s)) (Tables.of_store (run_oauths es s)).
Proof. intros Hinit Hstep. apply run_oauths_invariant_at; [done|]. eauto. Qed.

(** Before any request: no application, code or token *)
Definition unused (s : Store.t) : Prop := Tables.of_store s = Tables.empty.

Lemma run_justified es s : unused s → justified s es (Tables.of_store (run_oauths es s)).
Proof.
  intros Hs. apply (run_oauths_invariant_at (λ past _ t, justified s past t)).
  - rewrite Hs. split_and!; by intros d ?%not_elem_of_nil.
  - intros past e n t n' t'. apply justified_step.
Qed.

Lemma run_oauths_app es es' s : run_oauths (es ++ es') s = run_oauths es' (run_oauths es s).
Proof. apply foldl_app. Qed.

(** C8: whoever presents an access token is answered for a user who consented: her session asked for
    the access of that client, with that redirect URI and supported scopes, and within five minutes
    her session approved the page of that very request: the form carries the identifier and the
    secret (up to its digest) drawn for it. The token gives those scopes. *)
Theorem tokens_need_consent (es : list event) (s s' : Store.t) (token : string) (d : Document)
    (user : User.t) :
  unused s →
  bearer_user token (run_oauths es s) = (Ok (Some (d, user)), s') →
  ∃ client id redirect_uri scope challenge,
    get_str d "client_id" = Some client ∧ get_str d "user_id" = Some id ∧
    get_str d "scope" = Some scope ∧
    ReferenceDb.users (World.db (Store.world s')) !! id = Some user ∧
    consented s es client id redirect_uri scope challenge.
Proof.
  intros Hs Hrun. set (s1 := run_oauths es s) in *.
  pose proof (run_justified es s Hs) as (_ & _ & Ha & _). fold s1 in Ha.
  set (e := (Store.world s1, OAuthRequest.UserInfo_ None) : event).
  assert (post (bearer_user token) s1 (λ r s', ∀ d user, r = Ok (Some (d, user)) →
    d ∈ Tables.access (Tables.of_store s1) ∧ ∃ id, get_str d "user_id" = Some id ∧
      ReferenceDb.users (World.db (Store.world s')) !! id = Some user)) as Hpost.
  { apply (bearer_user_post e _ (Store.randoms s1) (Tables.of_store s1)); [done| |].
    - intros d0 user0 s0 _ Hd _ Hid ? ? [= <- <-]. done.
    - intros r s0 _ Hno d0 user0 ->. by destruct (Hno (d0, user0)). }
  unfold post in Hpost. rewrite Hrun in Hpost.
  destruct (Hpost d user eq_refl) as (Hd & id & Hid & Hfound).
  destruct (Ha d Hd) as (client & user' & redirect_uri & scope & challenge & Hc & Hg1 & Hg2 & Hg3).
  apply get_str_lookup in Hg1, Hg2, Hg3. rewrite Hg2 in Hid. injection Hid as ->.
  by exists client, id, redirect_uri, scope, challenge.
Qed.

(** ** Codes and refresh tokens are told apart *)

(** The digests of the values drawn so far differ. *)
Definition distinct_draws (bound bytes : nat) : Prop :=
  ∀ i j, i < bound → j < bound → digest (draw i bytes) = digest (draw j bytes) → i = j.

(** Each document has the digest of a value drawn for it alone. *)
Definition hashed (key : string) (bytes n : nat) (c : Collection) : Prop :=
  NoDup ((λ d : Document, d !! key) <$> c) ∧
  ∀ d, d ∈ c → ∃ i, i < n ∧ d !! key = Some (Bson.String (digest (draw i bytes))).

Lemma hashed_more key bytes n n' c : n ≤ n' → hashed key bytes n c → hashed key bytes n' c.
Proof.
  intros Hn [Hnodup Hall]. split; [done|]. intros d Hd. destruct (Hall d Hd) as (i & Hi & Heq).
  exists i. split; [lia|done].
Qed.
Lemma hashed_some key bytes n f u c c' :
  (∀ d, apply_update u d !! key = d !! key) → some_changed f u c c' →
  hashed key bytes n c → hashed key bytes n c'.
Proof.
  intros Hu (l & Hl & Hall) [Hnodup Hdrawn].
  assert ((λ d : Document, d !! key) <$> l = (λ d : Document, d !! key) <$> c) as Heq.
  { clear -Hu Hall. induction Hall as [|d d' c l Hd _ IH]; [done|]. rewrite !fmap_cons, IH. f_equal.
    destruct Hd as [->|[_ ->]]; [done|apply Hu]. }
  split.
  - rewrite <- Hl, Heq. done.
  - intros d Hd. rewrite <- Hl in Hd.
    assert (d !! key ∈ (λ d : Document, d !! key) <$> c) as (d0 & Hd0 & Hin)%list_elem_of_fmap.
    { rewrite <- Heq. apply list_elem_of_fmap. by exists d. }
    rewrite Hd0. by apply Hdrawn.
Qed.
Lemma hashed_inserted key bytes n bound i d0 c c' :
  distinct_draws bound bytes → n ≤ i → i < bound → key ≠ "_id" →
  d0 !! key = Some (Bson.String (digest (draw i bytes))) →
  maybe_inserted d0 c c' → hashed key bytes n c → hashed key bytes (S i) c'.
Proof.
  intros Hdist Hn Hi Hkey Hd0 [->|(d & Hd & Hc')] Hc; [apply (hashed_more _ _ n); [lia|done]|].
  assert (d !! key = Some (Bson.String (digest (draw i bytes)))) as Heq.
  { destruct (d0 !! "_id"); [by destruct Hd as [-> _]|]. destruct Hd as [x ->].
    by rewrite lookup_insert_ne. }
  destruct Hc as [Hnodup Hdrawn]. split.
  - rewrite Hc', fmap_cons. constructor; [|done]. rewrite Heq.
    intros (x & Hx & Hin)%list_elem_of_fmap. destruct (Hdrawn x Hin) as (j & Hj & Hxj).
    rewrite Hxj in Hx. injection Hx as Hx. apply Hdist in Hx; lia.
  - intros x. rewrite Hc'. intros [->|Hx]%elem_of_cons; [exists i; split; [lia|done]|].
    destruct (Hdrawn x Hx) as (j & Hj & Hxj). exists j. split; [lia|done].
Qed.
Lemma hashed_unique key bytes n c d d' :
  hashed key bytes n c → d ∈ c → d' ∈ c → d !! key = d' !! key → d = d'.
Proof.
  intros [Hnodup _] Hd Hd' Heq. apply list_elem_of_lookup in Hd as [i Hi], Hd' as [j Hj].
  assert (i = j) as <-; [|congruence].
  eapply (NoDup_lookup ((λ d : Document, d !! key) <$> c)); [done|by rewrite list_lookup_fmap, Hi|].
  by rewrite list_lookup_fmap, Hj, Heq.
Qed.

Definition told_apart (n : nat) (t : Tables.t) : Prop :=
  hashed "code_hash" 32 n (Tables.codes t) ∧ hashed "token_hash" 48 n (Tables.refresh t).

Lemma effect_mono e n t n' t' : effect e n t n' t' → n ≤ n'.
Proof.
  destruct 1; try done; try lia.
  - match goal with Hi : issued _ _ _ _ _ _ _ _ _ |- _ => destruct Hi as (? & ? & ? & ? & ? & ? & ? & ? & _) end. lia.
  - match goal with Hi : issued _ _ _ _ _ _ _ _ _ |- _ => destruct Hi as (? & ? & ? & ? & ? & ? & ? & ? & _) end. lia.
Qed.

Lemma mark_used_keeps key d : key ≠ "used" → apply_update mark_used d !! key = d !! key.
Proof. intros Hk. by apply lookup_insert_ne. Qed.
Lemma mark_revoked_keeps key d : key ≠ "revoked" → apply_update mark_revoked d !! key = d !! key.
Proof. intros Hk. by apply lookup_insert_ne. Qed.

Lemma told_apart_issued bound e client user scope family n t n' t' :
  distinct_draws bound 48 → n' ≤ bound → issued e client user scope family n t n' t' →
  hashed "token_hash" 48 n (Tables.refresh t) →
  hashed "token_hash" 48 n' (Tables.refresh t') ∧ Tables.codes t' = Tables.codes t.
Proof.
  intros Hdist Hb (i & j & fam & access' & refresh' & Hi & Hij & Hj & _ & _ & Hr & ->) Hh.
  split; [|done]. simpl. apply (hashed_more _ _ (S j)); [lia|].
  eapply (hashed_inserted "token_hash" 48 n bound j); [done|lia|lia|done| |exact Hr|done]. done.
Qed.

Lemma told_apart_step bound e n t n' t' :
  distinct_draws bound 32 → distinct_draws bound 48 → n' ≤ bound →
  effect e n t n' t' → told_apart n t → told_apart n' t'.
Proof.
  intros Hd32 Hd48 Hb Heff Hta. pose proof (effect_mono _ _ _ _ _ Heff) as Hn.
  assert (told_apart n' t) as [Hc Hr].
  { destruct Hta as [Hc Hr]. split; by eapply hashed_more. }
  destruct Heff as
    [ |request query user app scopes i j consents' n t n' He Hh _ _ _ _ _ _ _ Huri Hscopes _ Hins
     |f consents' n t n' _ Hch|request form user d d' i consents' codes' n t n' He Hh Hdec Hch Hni Hi Hins
     |f codes' n t n' _ Hch
     |ip req code client app d d' codes' n t n' t' He _ _ _ _ _ _ Hch _ Hiss
     |f refresh' n t n' _ Hch|ip req token client app d d' refresh' n t n' t' He _ _ _ _ _ Hch Hiss
     |f access' refresh' n t n' _ Hca Hcr|i client data user allowed secret apps' n t n' _ _ _ Hins
     |f secret apps' n t n' _ Hch|client user apps' access' refresh' n t n' _ _ Hca Hcr _];
    try (split; done).
  - split; [|done]. simpl. apply (hashed_more _ _ (S i)); [lia|]. destruct Hta as [Hc0 _].
    eapply (hashed_inserted "code_hash" 32 n bound i); [done|lia|lia|done| |exact Hins|done]. done.
  - split; [|done]. simpl. eapply hashed_some; [|by eapply maybe_some_changed|done].
    intros x. by apply mark_used_keeps.
  - destruct Hta as [Hc0 Hr0]. destruct (told_apart_issued bound _ _ _ _ _ _ _ _ _ Hd48 Hb Hiss Hr0) as [Hr' Hc'].
    split; [|done]. rewrite Hc'. simpl. apply changed_one_in in Hch as [_ Hch].
    eapply hashed_some; [|by eapply maybe_some_changed|done]. intros x. by apply mark_used_keeps.
  - split; [done|]. simpl. eapply hashed_some; [|done|done]. intros x. by apply mark_revoked_keeps.
  - destruct Hta as [Hc0 Hr0]. apply changed_one_in in Hch as [_ Hch].
    assert (hashed "token_hash" 48 n refresh') as Hr1.
    { eapply hashed_some; [|by eapply maybe_some_changed|done]. intros x. by apply mark_revoked_keeps. }
    destruct (told_apart_issued bound _ _ _ _ _ _ _ _ _ Hd48 Hb Hiss Hr1) as [Hr' Hc'].
    split; [by rewrite Hc'|done].
  - split; [done|]. simpl. eapply hashed_some; [|by eapply maybe_some_changed|done].
    intros x. by apply mark_revoked_keeps.
  - split; [done|]. simpl. eapply hashed_some; [|done|done]. intros x. by apply mark_revoked_keeps.
Qed.

Lemma run_told_apart bound es s :
  unused s → distinct_draws bound 32 → distinct_draws bound 48 →
  Store.randoms (run_oauths es s) ≤ bound →
  told_apart (Store.randoms (run_oauths es s)) (Tables.of_store (run_oauths es s)).
Proof.
  intros Hs Hd32 Hd48.
  apply (run_oauths_invariant (λ _ n t, n ≤ bound → told_apart n t)).
  - intros _. rewrite Hs. split; (split; [constructor|by intros d ?%not_elem_of_nil]).
  - intros past e n t n' t' Heff IH Hb. pose proof (effect_mono _ _ _ _ _ Heff).
    eapply told_apart_step; [done..|]. apply IH. lia.
Qed.

(** *** A code works once *)

Lemma some_changed_survives f u c c' d :
  some_changed f u c c' → d ∈ c → ∃ d', d' ∈ c' ∧ (d' = d ∨ matches f d = true ∧ d' = apply_update u d).
Proof.
  intros (l & Hl & Hall) [i Hi]%list_elem_of_lookup.
  destruct (Forall2_lookup_l _ _ _ _ _ Hall Hi) as (d' & Hd' & Hor).
  exists d'. split; [|done]. rewrite <- Hl. by eapply list_elem_of_lookup_2.
Qed.
Lemma maybe_inserted_survives d0 c c' d : maybe_inserted d0 c c' → d ∈ c → d ∈ c'.
Proof. intros [->|(x & _ & Hc')] Hd; [done|]. rewrite Hc'. by right. Qed.

Lemma redeemed_changed code f t codes' t' :
  some_changed f mark_used (Tables.codes t) codes' → Tables.codes t' = codes' →
  redeemed code t → redeemed code t'.
Proof.
  intros Hch Ht' (d & Hd & Hm & Hu). destruct (some_changed_survives _ _ _ _ _ Hch Hd) as (d' & Hd' & Hor).
  exists d'. rewrite Ht'. split; [done|]. destruct Hor as [->|[_ ->]]; [done|]. split.
  - unfold matches in *. simpl in *. by rewrite lookup_insert_ne.
  - apply lookup_insert_eq.
Qed.

Lemma redeemed_step code e n t n' t' : effect e n t n' t' → redeemed code t → redeemed code t'.
Proof.
  intros Heff Hred. destruct Heff as
    [ | | |request form user d d' i consents' codes' n t n' _ _ _ _ _ _ Hins
     |f codes' n t n' _ Hch
     |ip req c client app d d' codes' n t n' t' _ _ _ _ _ _ _ Hch _ Hiss
     | |ip req token client app d d' refresh' n t n' t' _ _ _ _ _ _ _ Hiss| | | | ]; try done.
  - destruct Hred as (x & Hx & Hrest). exists x. split; [|done]. by eapply maybe_inserted_survives.
  - by eapply redeemed_changed; [eapply maybe_some_changed|..].
  - apply changed_one_in in Hch as [_ Hch].
    destruct Hiss as (? & ? & ? & ? & ? & _ & _ & _ & _ & _ & _ & ->).
    by eapply (redeemed_changed code); [eapply maybe_some_changed; exact Hch|..].
  - by destruct Hiss as (? & ? & ? & ? & ? & _ & _ & _ & _ & _ & _ & ->).
Qed.

Lemma redeemed_run code es s :
  redeemed code (Tables.of_store s) → redeemed code (Tables.of_store (run_oauths es s)).
Proof.
  intros Hs. apply (run_oauths_invariant (λ _ _ t, redeemed code t)); [done|].
  intros past e n t n' t'. apply redeemed_step.
Qed.

Lemma token_run e ip req s (Q : Tables.t → Prop) :
  Store.world s = e.1 → e.2 = OAuthRequest.Token ip req → (run_oauth e.2 s).1 = Ok tt →
  (∀ s1, at_state e (Store.randoms s) (Tables.of_store s) s1 →
     post (token req) s1 (λ r s', ∀ response, r = Ok response → Q (Tables.of_store s'))) →
  Q (Tables.of_store (run_oauth e.2 s).2).
Proof.
  intros Hw He Hok HQ. rewrite He in *.
  enough (post (run_oauth (OAuthRequest.Token ip req)) s (λ r s', r = Ok tt → Q (Tables.of_store s'))) by auto.
  apply post_bind, (rate_limit_post e _ (Store.randoms s) (Tables.of_store s)); [by split_and!; [..|rewrite Hw]|].
  intros [[]| |] s1 Hs1 _; [|done..]. apply post_bind.
  eapply post_mono; [by apply HQ|]. intros [response| |] s' Hr; [|done..]. intros _. by eapply Hr.
Qed.

Lemma token_code e ip req s :
  Store.world s = e.1 → e.2 = OAuthRequest.Token ip req →
  TokenRequest.grant_type req = "authorization_code" → (run_oauth e.2 s).1 = Ok tt →
  code_taken e req (Tables.of_store s) ∧
  ∀ code, TokenRequest.code req = Some code → redeemed code (Tables.of_store (run_oauth e.2 s).2).
Proof.
  intros Hw He Hgrant Hok.
  apply (token_run e ip req s (λ t', code_taken e req (Tables.of_store s) ∧
    ∀ code, TokenRequest.code req = Some code → redeemed code t')); [done..|].
  intros s1 Hs1. unfold token. rewrite bool_decide_eq_true_2 by done.
  eapply post_mono; [by eapply exchange_effect|]. intros r s' [_ Hr]. exact Hr.
Qed.

(** C9: an authorization code works once: after it was exchanged for tokens, no request for tokens
    with it succeeds, whatever else is requested in between. *)
Theorem code_works_once (bound : nat) (es es' : list event) (s : Store.t) (w w' : World.t)
    (ip ip' : option string) (req req' : TokenRequest.t) (code : string) :
  unused s → distinct_draws bound 32 → distinct_draws bound 48 →
  Store.randoms (run_oauths (es ++ (w, OAuthRequest.Token ip req) :: es') s) ≤ bound →
  TokenRequest.grant_type req = "authorization_code" → TokenRequest.code req = Some code →
  TokenRequest.grant_type req' = "authorization_code" → TokenRequest.code req' = Some code →
  (run_oauth (OAuthRequest.Token ip req) (Store.set_world (run_oauths es s) w)).1 = Ok tt →
  (run_oauth (OAuthRequest.Token ip' req')
     (Store.set_world (run_oauths (es ++ (w, OAuthRequest.Token ip req) :: es') s) w')).1 ≠ Ok tt.
Proof.
  intros Hs Hd32 Hd48 Hbound Hg Hc Hg' Hc' Hfirst Hsecond.
  set (s2 := run_oauths (es ++ (w, OAuthRequest.Token ip req) :: es') s) in *.
  destruct (token_code (w, OAuthRequest.Token ip req) ip req (Store.set_world (run_oauths es s) w)
    eq_refl eq_refl Hg Hfirst) as [_ Hred].
  destruct (token_code (w', OAuthRequest.Token ip' req') ip' req' (Store.set_world s2 w') eq_refl eq_refl Hg' Hsecond)
    as [(code2 & client & app & d & Hcode2 & _ & _ & _ & _ & Hd & Hm & _) _].
  rewrite Hc' in Hcode2. injection Hcode2 as <-.
  assert (redeemed code (Tables.of_store s2)) as (d1 & Hd1 & Hm1 & Hused).
  { unfold s2. rewrite run_oauths_app. change (?x :: es') with ([x] ++ es'). rewrite run_oauths_app.
    apply redeemed_run. by apply Hred. }
  destruct (run_told_apart bound (es ++ (w, OAuthRequest.Token ip req) :: es') s Hs Hd32 Hd48 Hbound) as [Hh _].
  fold s2 in Hh. change (Tables.of_store (Store.set_world s2 w')) with (Tables.of_store s2) in Hd.
  assert (Hhash : ∀ f x, x ∈ Tables.codes (Tables.of_store s2) → matches f x = true →
    field "code_hash" (Condition.Is (Bson.String (digest code))) ∈ f →
    x !! "code_hash" = Some (Bson.String (digest code))).
  { intros f x Hx Hfx Hin. destruct Hh as [_ Hh]. destruct (Hh x Hx) as (i & _ & Hi).
    pose proof (matches_is f "code_hash" _ _ x Hfx Hin Hi ltac:(done)) as Heq. congruence. }
  assert (d = d1) as ->.
  { eapply hashed_unique; [exact Hh|done|done|].
    rewrite (Hhash _ d Hd Hm) by left. by rewrite (Hhash _ d1 Hd1 Hm1) by left. }
  by pose proof (matches_is _ "used" (Bson.Boolean false) _ d1 Hm ltac:(do 2 right; left) Hused ltac:(done)).
Qed.

(** *** Public clients prove possession of a verifier *)

Definition apps_wf (c : Collection) : Prop :=
  NoDup ((λ d : Document, d !! "_id") <$> c) ∧
  ∀ d, d ∈ c → (∃ id, d !! "_id" = Some (Bson.String id)) ∧ ∃ b, d !! "public" = Some (Bson.Boolean b).

Lemma apps_unique c d d' : apps_wf c → d ∈ c → d' ∈ c → d !! "_id" = d' !! "_id" → d = d'.
Proof.
  intros [Hnodup _] Hd Hd' Heq. apply list_elem_of_lookup in Hd as [i Hi], Hd' as [j Hj].
  assert (i = j) as <-; [|congruence].
  eapply (NoDup_lookup ((λ d : Document, d !! "_id") <$> c)); [done|by rewrite list_lookup_fmap, Hi|].
  by rewrite list_lookup_fmap, Hj, Heq.
Qed.
Lemma apps_by_id c d client :
  apps_wf c → d ∈ c → matches (by_id client) d = true → d !! "_id" = Some (Bson.String client).
Proof.
  intros [_ Hwf] Hd Hm. destruct (Hwf d Hd) as [[id Hid] _].
  pose proof (matches_is _ "_id" _ _ d Hm ltac:(left) Hid ltac:(done)) as [= ->]. done.
Qed.

Lemma apps_wf_changed f u c c' :
  (∀ key d, key ∈ ["_id"; "public"] → apply_update u d !! key = d !! key) →
  maybe_changed f u c c' → apps_wf c → apps_wf c'.
Proof.
  intros Hu [->|(d & d' & _ & -> & rest & Hc & Hc')] [Hnodup Hwf]; [done|]. split.
  - rewrite Hc', fmap_cons, Hu by set_solver. by rewrite Hc in Hnodup.
  - intros x. rewrite Hc'. intros [->|Hx]%elem_of_cons.
    + rewrite !Hu by set_solver. apply Hwf. rewrite Hc. left.
    + apply Hwf. rewrite Hc. by right.
Qed.
Lemma apps_wf_inserted client data user allowed secret t c c' :
  maybe_inserted (application_document client data user allowed secret t) c c' →
  apps_wf c → apps_wf c'.
Proof.
  intros [->|(d & [-> Hnew] & Hc')] [Hnodup Hwf]; [done|]. split.
  - rewrite Hc', fmap_cons. constructor; [|done]. intros (x & Hx & Hin)%list_elem_of_fmap.
    by apply (Hnew x Hin).
  - intros x. rewrite Hc'. intros [->|Hx]%elem_of_cons; [|by apply Hwf]. split; by eexists.
Qed.

(** A code of the client of a public application carries a challenge. *)
Definition bound_to (apps : Collection) (d : Document) : Prop :=
  ∃ client app challenge, d !! "client_id" = Some (Bson.String client) ∧
    d !! "code_challenge" = Some (Bson.optional Bson.String challenge) ∧
    app ∈ apps ∧ app !! "_id" = Some (Bson.String client) ∧
    (app !! "public" = Some (Bson.Boolean true) → is_Some challenge).
Definition guarded_codes (t : Tables.t) : Prop :=
  apps_wf (Tables.apps t) ∧ (∀ d, d ∈ Tables.consents t → bound_to (Tables.apps t) d) ∧
  (∀ d, d ∈ Tables.codes t → bound_to (Tables.apps t) d).

Definition apps_kept (c c' : Collection) : Prop :=
  ∀ d, d ∈ c → ∃ d', d' ∈ c' ∧ d' !! "_id" = d !! "_id" ∧ d' !! "public" = d !! "public".
Lemma bound_to_kept c c' d : apps_kept c c' → bound_to c d → bound_to c' d.
Proof.
  intros Hkept (client & app & challenge & Hc & Hch & Hin & Hid & Hpub).
  destruct (Hkept app Hin) as (app' & Hin' & Hid' & Hpub').
  exists client, app', challenge. split_and!; [done..|congruence|]. by rewrite Hpub'.
Qed.
Lemma apps_kept_changed f u c c' :
  (∀ key d, key ∈ ["_id"; "public"] → apply_update u d !! key = d !! key) →
  maybe_changed f u c c' → apps_kept c c'.
Proof.
  intros Hu Hch d Hd. destruct (some_changed_survives _ _ _ _ d (maybe_some_changed _ _ _ _ Hch) Hd)
    as (d' & Hd' & Hor). exists d'. split; [done|].
  destruct Hor as [->|[_ ->]]; [done|]. by rewrite !Hu by set_solver.
Qed.

Lemma bound_to_used apps : closed (bound_to apps) mark_used.
Proof.
  intros d (client & app & challenge & Hc & Hch & Hrest). exists client, app, challenge.
  by rewrite !mark_used_keeps by done.
Qed.
Lemma bound_to_like apps d d' : like ["_id"] d d' → bound_to apps d → bound_to apps d'.
Proof.
  intros Hl (client & app & challenge & Hc & Hch & Hrest). exists client, app, challenge.
  by rewrite !Hl by untouched.
Qed.

Lemma issued_apps e client user scope family n t n' t' :
  issued e client user scope family n t n' t' →
  Tables.apps t' = Tables.apps t ∧ Tables.consents t' = Tables.consents t ∧ Tables.codes t' = Tables.codes t.
Proof. by intros (? & ? & ? & ? & ? & _ & _ & _ & _ & _ & _ & ->). Qed.

Lemma guarded_codes_apps t apps' :
  apps_wf apps' → apps_kept (Tables.apps t) apps' → guarded_codes t →
  guarded_codes (Tables.set_apps t apps').
Proof.
  intros Hwf Hkept (_ & Hn & Hc). split_and!; [done|..]; simpl; intros d Hd.
  - by eapply bound_to_kept, Hn.
  - by eapply bound_to_kept, Hc.
Qed.

Lemma guarded_codes_step e n t n' t' : effect e n t n' t' → guarded_codes t → guarded_codes t'.
Proof.
  intros Heff Hg. pose proof Hg as (Hwf & Hn & Hc).
  destruct Heff as
    [ |request query user app scopes i j consents' n t n' He Hh _ _ _ Happ Hid _ _ Huri Hscopes Hpub Hins
     |f consents' n t n' _ Hch|request form user d d' i consents' codes' n t n' He Hh Hdec Hch Hni Hi Hins
     |f codes' n t n' _ Hch
     |ip req code client app d d' codes' n t n' t' He _ _ _ _ _ _ Hch _ Hiss
     |f refresh' n t n' _ Hch|ip req token client app d d' refresh' n t n' t' He _ _ _ _ _ Hch Hiss
     |f access' refresh' n t n' _ Hca Hcr|i client data user allowed secret apps' n t n' _ _ _ Hins
     |f secret apps' n t n' _ Hch|client user apps' access' refresh' n t n' _ Hch Hca Hcr _];
    try done.
  - split_and!; [done| |done]. simpl. eapply maybe_inserted_Forall; [|exact Hins|done]. intros d Hd.
    eapply bound_to_like; [exact Hd|].
    exists (AuthorizeQuery.client_id query), app, (AuthorizeQuery.code_challenge query).
    split_and!; [done..|by eapply apps_by_id|]. intros Hp. apply Hpub. unfold get_bool. by rewrite Hp.
  - split_and!; [done| |done]. simpl. eapply maybe_changed_Forall; [apply bound_to_used|exact Hch|done].
  - destruct (changed_one_in _ _ _ _ _ _ Hch) as [Hd Hch']. split_and!; [done| |]; simpl.
    + eapply maybe_changed_Forall; [apply bound_to_used|exact Hch'|done].
    + eapply maybe_inserted_Forall; [|exact Hins|done]. intros x Hx. eapply bound_to_like; [exact Hx|].
      destruct Hch as (_ & -> & _). destruct (Hn d Hd) as (client & app & challenge & Hcl & Hcc & Hrest).
      exists client, app, challenge. unfold get_str. rewrite !mark_used_keeps by done.
      rewrite Hcl, Hcc. split; [done|]. split; [|done]. by destruct challenge.
  - split_and!; [done|done|]. simpl. eapply maybe_changed_Forall; [apply bound_to_used|exact Hch|done].
  - destruct (issued_apps _ _ _ _ _ _ _ _ _ Hiss) as (Ea & En & Ec). apply changed_one_in in Hch as [_ Hch].
    unfold guarded_codes. rewrite Ea, En, Ec. split_and!; [done|done|]. simpl.
    eapply maybe_changed_Forall; [apply bound_to_used|exact Hch|done].
  - destruct (issued_apps _ _ _ _ _ _ _ _ _ Hiss) as (Ea & En & Ec).
    unfold guarded_codes. by rewrite Ea, En, Ec.
  - apply guarded_codes_apps; [by eapply apps_wf_inserted| |done]. intros x Hx. exists x.
    split; [by eapply maybe_inserted_survives|done].
  - assert (∀ key (d : Document), key ∈ ["_id"; "public"] →
      apply_update [UpdateOp.Set_ "secret_hash" (Bson.String secret)] d !! key = d !! key) as Hkeep.
    { intros key d Hkey. apply lookup_insert_ne. set_solver. }
    apply guarded_codes_apps; [by eapply apps_wf_changed|by eapply apps_kept_changed|done].
  - assert (∀ key (d : Document), key ∈ ["_id"; "public"] →
      apply_update mark_revoked d !! key = d !! key) as Hkeep.
    { intros key d Hkey. apply mark_revoked_keeps. set_solver. }
    apply (guarded_codes_apps t apps'); [by eapply apps_wf_changed|by eapply apps_kept_changed|done].
Qed.

Lemma run_guarded_codes es s : unused s → guarded_codes (Tables.of_store (run_oauths es s)).
Proof.
  intros Hs. apply (run_oauths_invariant (λ _ _ t, guarded_codes t)).
  - rewrite Hs. split_and!; [split; [constructor|]|..]; by intros d ?%not_elem_of_nil.
  - intros past e n t n' t'. apply guarded_codes_step.
Qed.

(** C26: the code of a public application is only exchanged by who knows a verifier of the challenge
    that the user's session sent when it asked, for the redirect URI it asked for. *)
Theorem public_clients_need_verifier (es : list event) (s : Store.t) (w : World.t)
    (ip : option string) (req : TokenRequest.t) (client : string) (app : Document) :
  unused s → let s1 := Store.set_world (run_oauths es s) w in
  app ∈ Store.col s1 APPLICATIONS → app !! "_id" = Some (Bson.String client) →
  app !! "public" = Some (Bson.Boolean true) →
  TokenRequest.grant_type req = "authorization_code" → TokenRequest.client_id req = Some client →
  (run_oauth (OAuthRequest.Token ip req) s1).1 = Ok tt →
  ∃ verifier user redirect_uri scope,
    TokenRequest.code_verifier req = Some verifier ∧
    TokenRequest.redirect_uri req = Some redirect_uri ∧
    consented s es client user redirect_uri scope (Some (digest verifier)).
Proof.
  intros Hs s1 Happ Hid Hpub Hg Hclient Hok.
  destruct (token_code (w, OAuthRequest.Token ip req) ip req s1 eq_refl eq_refl Hg Hok)
    as [(code & client' & app' & d & Hcode & Hclient' & _ & _ & _ & Hd & Hm & Huri & Hver) _].
  rewrite Hclient in Hclient'. injection Hclient' as <-.
  change (Tables.of_store s1) with (Tables.of_store (run_oauths es s)) in Hd.
  destruct (run_guarded_codes es s Hs) as (Hwf & _ & Hcodes).
  destruct (run_justified es s Hs) as (_ & Hj & _).
  destruct (Hcodes d Hd) as (client1 & app1 & challenge & Hc1 & Hch1 & Hin1 & Hid1 & Hp1).
  destruct (Hj d Hd) as (client2 & user & redirect_uri & scope & challenge2 & Hcon & (Hg1 & _) & Hf1 & Hf2).
  pose proof (matches_is _ "client_id" _ _ d Hm ltac:(right; left) Hc1 ltac:(done)) as [= ->].
  rewrite Hc1 in Hg1. injection Hg1 as <-.
  assert (app1 = app) as ->.
  { eapply apps_unique; [exact Hwf|done|exact Happ|by rewrite Hid1]. }
  destruct (Hp1 Hpub) as [ch ->]. rewrite Hch1 in Hf2. destruct challenge2 as [ch2|]; [|done].
  injection Hf2 as <-. unfold get_str in Huri, Hver. rewrite lookup_insert_ne in Huri by done.
  rewrite lookup_insert_ne in Hver by done. rewrite Hf1 in Huri. rewrite Hch1 in Hver.
  destruct (Hver ch eq_refl) as (verifier & Hverifier & <-).
  by exists verifier, user, redirect_uri, scope.
Qed.

(** *** A revoked application is locked out *)

Definition is_revoked (d : Document) : Prop := d !! "revoked" = Some (Bson.Boolean true).
Definition of_app (id : string) (d : Document) : Prop := d !! "client_id" = Some (Bson.String id).
Definition dead_tokens (id : string) (c : Collection) : Prop := ∀ d, d ∈ c → of_app id d → is_revoked d.
Definition locked (t : Tables.t) : Prop :=
  ∀ app id, app ∈ Tables.apps t → app !! "_id" = Some (Bson.String id) → is_revoked app →
    dead_tokens id (Tables.access t) ∧ dead_tokens id (Tables.refresh t).

Lemma dead_closed id : closed (λ d, of_app id d → is_revoked d) mark_revoked.
Proof. intros d _ _. apply lookup_insert_eq. Qed.
Lemma dead_some id f c c' : some_changed f mark_revoked c c' → dead_tokens id c → dead_tokens id c'.
Proof. intros Hch Hc. exact (some_changed_Forall _ _ _ _ _ (dead_closed id) Hch Hc). Qed.
Lemma dead_maybe id f c c' : maybe_changed f mark_revoked c c' → dead_tokens id c → dead_tokens id c'.
Proof. intros Hch. apply (dead_some id f). by apply maybe_some_changed. Qed.
Lemma dead_all client c c' : all_changed (of_client client) mark_revoked c c' → dead_tokens client c'.
Proof.
  unfold all_changed. intros Hch d. rewrite Hch. intros (x & -> & Hx)%list_elem_of_fmap.
  destruct (matches (of_client client) x) eqn:Hm; [intros _; apply lookup_insert_eq|].
  intros Hof. unfold of_app in Hof. unfold matches in Hm. simpl in Hm. rewrite Hof in Hm. simpl in Hm.
  by rewrite bool_decide_eq_true_2 in Hm.
Qed.

Lemma dead_issued e client user scope family n t n' t' id :
  issued e client user scope family n t n' t' → client ≠ id →
  dead_tokens id (Tables.access t) → dead_tokens id (Tables.refresh t) →
  dead_tokens id (Tables.access t') ∧ dead_tokens id (Tables.refresh t').
Proof.
  intros (i & j & fam & access' & refresh' & _ & _ & _ & _ & Ha & Hr & ->) Hne Hda Hdr. split; simpl.
  - refine (maybe_inserted_Forall (λ d, of_app id d → is_revoked d) _ _ _ _ Ha Hda).
    intros d Hd Hof. unfold of_app in Hof. rewrite Hd in Hof by untouched.
    change (Some (Bson.String client) = Some (Bson.String id)) in Hof. congruence.
  - refine (maybe_inserted_Forall (λ d, of_app id d → is_revoked d) _ _ _ _ Hr Hdr).
    intros d Hd Hof. unfold of_app in Hof. rewrite Hd in Hof by untouched.
    change (Some (Bson.String client) = Some (Bson.String id)) in Hof. congruence.
Qed.

(** The application of the client is not revoked, where a code or token of it is taken. *)
Lemma locked_issued e client user scope family n t n' t' :
  apps_wf (Tables.apps t) →
  (∀ app, app ∈ Tables.apps t → app !! "_id" = Some (Bson.String client) → ¬ is_revoked app) →
  issued e client user scope family n t n' t' → locked t → locked t'.
Proof.
  intros Hwf Hopen Hiss Hl app id Happ Hid Hrev.
  destruct (issued_apps _ _ _ _ _ _ _ _ _ Hiss) as (Ea & _). rewrite Ea in Happ.
  destruct (Hl app id Happ Hid Hrev) as [Hda Hdr].
  eapply dead_issued; [exact Hiss| |done|done]. intros ->. by eapply Hopen.
Qed.

Lemma locked_apps_changed t f u apps' :
  (∀ key d, key ∈ ["_id"; "revoked"] → apply_update u d !! key = d !! key) →
  maybe_changed f u (Tables.apps t) apps' → locked t → locked (Tables.set_apps t apps').
Proof.
  intros Hu Hch Hl app id Happ Hid Hrev.
  assert (∃ app0, app0 ∈ Tables.apps t ∧ app !! "_id" = app0 !! "_id" ∧ app !! "revoked" = app0 !! "revoked")
    as (app0 & Hin & E1 & E2).
  { simpl in Happ. destruct Hch as [->|(d & d' & _ & -> & rest & Hc & Hc')]; [by exists app|].
    rewrite Hc' in Happ. apply elem_of_cons in Happ as [->|Hr].
    - exists d. rewrite Hc, !Hu by set_solver. split; [left|done].
    - exists app. rewrite Hc. split; [by right|done]. }
  apply (Hl app0); [done|by rewrite <- E1|unfold is_revoked; by rewrite <- E2].
Qed.

Lemma locked_step s0 past e n t n' t' :
  reliable → effect e n t n' t' → justified s0 past t → guarded_codes t → locked t → locked t'.
Proof.
  intros Hrel Heff (_ & _ & _ & Hjr) (Hwf & _) Hl.
  destruct Heff as
    [ |request query user app scopes i j consents' n t n' He Hh _ _ _ Happ Hid _ _ Huri Hscopes Hpub Hins
     |f consents' n t n' _ Hch|request form user d d' i consents' codes' n t n' He Hh Hdec Hch Hni Hi Hins
     |f codes' n t n' _ Hch
     |ip req code client app d d' codes' n t n' t' He _ _ Happ Hid Hopen _ Hch _ Hiss
     |f refresh' n t n' _ Hch|ip req token client app d d' refresh' n t n' t' He _ _ _ _ _ Hch Hiss
     |f access' refresh' n t n' _ Hca Hcr|i client data user allowed secret apps' n t n' _ _ _ Hins
     |f secret apps' n t n' _ Hch|client user apps' access' refresh' n t n' _ Hch Hca Hcr Hall];
    try done.
  - eapply (locked_issued e client); [| |exact Hiss|exact Hl]; [exact Hwf|].
    intros app' Happ' Hid' Hrev. simpl in Happ'.
    assert (app' = app) as ->.
    { eapply apps_unique; [exact Hwf|done|done|]. rewrite Hid'. symmetry. by eapply apps_by_id. }
    apply Hopen. unfold get_bool. by rewrite Hrev.
  - intros app id Happ Hid Hrev. destruct (Hl app id Happ Hid Hrev) as [Hda Hdr].
    split; [done|]. by eapply dead_some.
  - assert (locked (Tables.set_refresh t refresh')) as Hl'.
    { intros app0 id Happ Hid Hrev. destruct (Hl app0 id Happ Hid Hrev) as [Hda Hdr].
      split; [done|]. eapply dead_maybe; [|exact Hdr]. by destruct (changed_one_in _ _ _ _ _ _ Hch). }
    eapply (locked_issued e client); [| |exact Hiss|exact Hl']; [exact Hwf|].
    intros app0 Happ Hid Hrev. destruct (changed_one_in _ _ _ _ _ _ Hch) as [Hd _].
    destruct Hch as (Hm & _). destruct (Hjr d Hd) as (client' & ? & ? & ? & ? & _ & Hg & _).
    pose proof (matches_is _ "client_id" _ _ d Hm ltac:(right; left) Hg ltac:(done)) as [= ->].
    destruct (Hl app0 client Happ Hid Hrev) as [_ Hdr]. pose proof (Hdr d Hd Hg) as Hdead.
    by pose proof (matches_is _ "revoked" (Bson.Boolean false) _ d Hm ltac:(do 2 right; left) Hdead ltac:(done)).
  - intros app id Happ Hid Hrev. destruct (Hl app id Happ Hid Hrev) as [Hda Hdr].
    split; by eapply dead_maybe.
  - intros app id Happ Hid Hrev. simpl in Happ. destruct Hins as [->|(x & [-> _] & Hc')]; [by apply (Hl app)|].
    rewrite Hc' in Happ. apply elem_of_cons in Happ as [->|Happ]; [done|by apply (Hl app)].
  - eapply locked_apps_changed; [|exact Hch|exact Hl]. intros key d Hkey. apply lookup_insert_ne. set_solver.
  - intros app id Happ Hid Hrev. simpl in Happ |- *.
    destruct (decide (id = client)) as [->|Hne].
    + destruct (Hall Hrel) as [->|[Ha Hr]]; [|split; by eapply dead_all].
      destruct (Hl app client Happ Hid Hrev) as [Hda Hdr]. split; by eapply dead_some.
    + assert (app ∈ Tables.apps t) as Hin.
      { destruct Hch as [->|(d & d' & Hm & -> & rest & Hc & Hc')]; [done|].
        rewrite Hc' in Happ. apply elem_of_cons in Happ as [->|Hin]; [|rewrite Hc; by right].
        rewrite mark_revoked_keeps in Hid by done.
        pose proof (matches_is _ "_id" _ _ d Hm ltac:(left) Hid ltac:(done)) as [= ->]. done. }
      destruct (Hl app id Hin Hid Hrev) as [Hda Hdr]. split; by eapply dead_some.
Qed.

Lemma run_locked es s :
  reliable → unused s → locked (Tables.of_store (run_oauths es s)).
Proof.
  intros Hrel Hs.
  enough (justified s es (Tables.of_store (run_oauths es s)) ∧
          guarded_codes (Tables.of_store (run_oauths es s)) ∧
          locked (Tables.of_store (run_oauths es s))) as (_ & _ & Hl) by done.
  apply (run_oauths_invariant_at (λ past _ t, justified s past t ∧ guarded_codes t ∧ locked t)).
  - split_and!; [by apply (run_justified [] s)|by apply (run_guarded_codes [] s)|].
    rewrite Hs. by intros app id ?%not_elem_of_nil.
  - intros past e n t n' t' Heff Hn Hn' (Hj & Hg & Hl). split_and!.
    + by eapply justified_step.
    + by eapply guarded_codes_step.
    + by eapply locked_step.
Qed.

Lemma token_refresh e ip req s :
  Store.world s = e.1 → e.2 = OAuthRequest.Token ip req →
  TokenRequest.grant_type req ≠ "authorization_code" → (run_oauth e.2 s).1 = Ok tt →
  refresh_taken e req (Tables.of_store s).
Proof.
  intros Hw He Hgrant Hok.
  apply (token_run e ip req s (λ t', refresh_taken e req (Tables.of_store s))); [done..|].
  intros s1 Hs1. unfold token. rewrite bool_decide_eq_false_2 by done.
  destruct (bool_decide _); [|by apply post_refuse].
  eapply post_mono; [by eapply refresh_effect|]. intros r s' [_ Hr]. exact Hr.
Qed.

(** C27: once an application is revoked, no request for tokens of it succeeds, by code or by refresh
    token, and no access token of it is accepted, whatever is requested later, as long as the
    updates of the database do not fail. *)
Theorem revoked_application_locked_out (es : list event) (s : Store.t) (w : World.t)
    (app : Document) (client : string) :
  reliable → unused s → let s1 := Store.set_world (run_oauths es s) w in
  app ∈ Store.col s1 APPLICATIONS → app !! "_id" = Some (Bson.String client) → is_revoked app →
  (∀ ip req, TokenRequest.client_id req = Some client →
     (run_oauth (OAuthRequest.Token ip req) s1).1 ≠ Ok tt) ∧
  (∀ token d user, (bearer_user token s1).1 = Ok (Some (d, user)) → get_str d "client_id" ≠ Some client).
Proof.
  intros Hrel Hs s1 Happ Hid Hrev.
  destruct (run_locked es s Hrel Hs app client Happ Hid Hrev) as [Hda Hdr].
  destruct (run_guarded_codes es s Hs) as (Hwf & _).
  destruct (run_justified es s Hs) as (_ & _ & _ & Hjr). split.
  - intros ip req Hclient Hok.
    destruct (decide (TokenRequest.grant_type req = "authorization_code")) as [Hg|Hg].
    + destruct (token_code (w, OAuthRequest.Token ip req) ip req s1 eq_refl eq_refl Hg Hok)
        as [(code & client' & app' & d & _ & Hclient' & Happ' & Hid' & Hopen & _) _].
      rewrite Hclient in Hclient'. injection Hclient' as <-.
      assert (app' = app) as ->.
      { eapply apps_unique; [exact Hwf|exact Happ'|exact Happ|]. rewrite Hid. by eapply apps_by_id. }
      apply Hopen. unfold get_bool. by rewrite Hrev.
    + destruct (token_refresh (w, OAuthRequest.Token ip req) ip req s1 eq_refl eq_refl Hg Hok)
        as (token & client' & d & _ & Hclient' & Hd & Hm).
      rewrite Hclient in Hclient'. injection Hclient' as <-.
      destruct (Hjr d Hd) as (client' & ? & ? & ? & ? & _ & Hof & _).
      pose proof (matches_is _ "client_id" _ _ d Hm ltac:(right; left) Hof ltac:(done)) as [= ->].
      pose proof (Hdr d Hd Hof) as Hdead.
      by pose proof (matches_is _ "revoked" (Bson.Boolean false) _ d Hm ltac:(do 2 right; left) Hdead ltac:(done)).
  - intros token d user Hrun Hclient.
    set (e := (w, OAuthRequest.UserInfo_ None) : event).
    assert (post (bearer_user token) s1 (λ r s', ∀ d user, r = Ok (Some (d, user)) →
      d ∈ Tables.access (Tables.of_store s1) ∧
      matches (of_token token ++ [field "revoked" (Condition.Is (Bson.Boolean false));
                                 field "expires_at" (Condition.Gt (at_ms e))]) d = true)) as Hpost.
    { apply (bearer_user_post e _ (Store.randoms s1) (Tables.of_store s1)); [done| |].
      - intros d0 user0 s0 _ Hd Hm _ ? ? [= <- <-]. done.
      - intros r s0 _ Hno d0 user0 ->. by destruct (Hno (d0, user0)). }
    destruct (Hpost d user Hrun) as [Hd Hm].
    assert (of_app client d) as Hof.
    { unfold get_str in Hclient. unfold of_app. destruct (d !! "client_id") as [[]|]; congruence. }
    pose proof (Hda d Hd Hof) as Hdead.
    by pose proof (matches_is _ "revoked" (Bson.Boolean false) _ d Hm ltac:(right; left) Hdead ltac:(done)).
Qed.

(** *** A refresh token presented again *)

(** No call of the driver fails. *)
Definition answers : Prop :=
  reliable ∧ (∀ n f c, is_Some (find_one n f c)) ∧ (∀ n f u c, is_Some (find_one_and_update n f u c).1).

Lemma find_one_found n f c d :
  answers → d ∈ c → matches f d = true →
  ∃ d', find_one n f c = Some (Some d') ∧ d' ∈ c ∧ matches f d' = true.
Proof.
  intros (_ & Hfind & _) Hd Hm. destruct (Hfind n f c) as [[d'|] Hr]; pose proof (find_one_law _ _ _ _ Hr) as Hlaw.
  - by exists d'.
  - by rewrite (Hlaw d Hd) in Hm.
Qed.

Lemma matches_by_id d id : d !! "_id" = Some (Bson.String id) → matches (by_id id) d = true.
Proof. intros Hd. unfold matches. simpl. rewrite Hd. simpl. by rewrite bool_decide_eq_true_2. Qed.

Section Reuse.
Context (e : event) (n : nat) (t : Tables.t) (client token : string) (app d : Document).
Context (Hanswers : answers) (Hwf : apps_wf (Tables.apps t)) (Htold : told_apart n t).
Context (Happ : app ∈ Tables.apps t) (Hid : app !! "_id" = Some (Bson.String client)).
Context (Hd : d ∈ Tables.refresh t) (Hhash : d !! "token_hash" = Some (Bson.String (digest token))).
Context (Hclient : of_app client d) (Hdead : is_revoked d).

Lemma post_known_application s (Q : Outcome Failure.t (option Document) → Store.t → Prop) :
  at_state e n t s → Store.is_mongo s = true →
  (∀ s', at_state e n t s' → Store.is_mongo s' = true → Q (Ok (Some app)) s') →
  post (application client) s Q.
Proof.
  intros Hs Hmongo HQ. apply post_with_mongo; intros Hm; [|congruence].
  apply post_map_err. apply post_on_col. intros r c. unfold reading. intros [= <- <-].
  assert (Store.col s APPLICATIONS = Tables.apps t) as Hcol by (by destruct Hs as (_ & <- & _)).
  destruct (find_one_found (Store.calls s) (by_id client) (Store.col s APPLICATIONS) app)
    as (app' & Hfind & Hin & Hm'); [done|by rewrite Hcol|by apply matches_by_id|].
  unfold by_id in Hfind. rewrite Hfind. rewrite Hcol in Hin.
  assert (app' = app) as ->.
  { eapply apps_unique; [exact Hwf|done|done|]. rewrite Hid. by eapply apps_by_id. }
  apply HQ; [|done]. destruct Hs as (? & Ht & ?). split_and!; [done| |done].
  rewrite tables_apps, <- Ht. done.
Qed.

(** The only document with that hash is the one that was revoked. *)
Lemma only_document f d' :
  d' ∈ Tables.refresh t → matches f d' = true →
  field "token_hash" (Condition.Is (Bson.String (digest token))) ∈ f → d' = d.
Proof.
  intros Hd' Hm Hin. destruct Htold as [_ Hr]. eapply hashed_unique; [exact Hr|done|done|].
  destruct Hr as [_ Hr]. destruct (Hr d' Hd') as (i & _ & Hi).
  pose proof (matches_is f "token_hash" _ _ d' Hm Hin Hi ltac:(done)). congruence.
Qed.

Lemma reuse_post req family s :
  at_state e n t s → Store.is_mongo s = true →
  TokenRequest.refresh_token req = Some token → TokenRequest.client_id req = Some client →
  secret_ok app (TokenRequest.client_secret req) → get_str d "family_id" = Some family →
  post (refresh req) s (λ r s', (∀ response, r ≠ Ok response) ∧
    ∀ x, x ∈ Tables.refresh (Tables.of_store s') → get_str x "family_id" = Some family → is_revoked x).
Proof.
  intros Hs Hmongo Htoken Hcl Hsecret Hfamily. unfold refresh. rewrite Htoken, Hcl.
  apply post_bind, post_ret, post_bind, post_ret, post_bind, post_known_application; [done..|].
  intros s1 Hs1 Hm1. apply post_bind, post_ret, post_bind.
  eapply (post_mono _ _ (λ r s', r = Ok tt ∧ s' = s1)).
  { unfold check_secret. destruct Hsecret as [->|(secret & -> & Hsec)]; [done|].
    destruct (default false (get_bool app "public")); [done|]. simpl.
    apply post_bind, post_ret. by rewrite constant_time_equal_spec, bool_decide_eq_true_2. }
  intros ? ? [-> ->]. apply post_bind, (post_now e n t); [done|].
  apply post_bind, post_with_mongo; intros Hm; [|congruence]. clear Hm.
  apply post_map_err. set (f := refresh_filter token client (at_ms e)).
  eapply (post_slot_mongo e Refresh _ (λ r c, r = Some None ∧ c = slot_get Refresh t) n t); [done| |].
  { intros k r c Hop. pose proof (find_one_and_update_law k f mark_revoked (Tables.refresh t)) as Hlaw.
    destruct Hanswers as (_ & _ & Hans). destruct (Hans k f mark_revoked (Tables.refresh t)) as [r0 Hr0].
    simpl in Hop. rewrite Hop in Hlaw, Hr0. simpl in Hr0. subst r.
    destruct r0 as [d'|]; [|by destruct Hlaw]. destruct Hlaw as [d0 Hch].
    destruct (changed_one_in _ _ _ _ _ _ Hch) as [Hin _]. destruct Hch as (Hm & _).
    assert (d0 = d) as -> by (eapply only_document; [exact Hin|exact Hm|left]).
    by pose proof (matches_is _ "revoked" (Bson.Boolean false) _ d Hm ltac:(do 2 right; left) Hdead ltac:(done)). }
  intros s2 r c [-> ->] Hs2 Hm2. rewrite (slot_set_get Refresh t) in Hs2.
  apply post_bind, post_with_mongo; intros Hm; [clear Hm|congruence].
  set (g := [field "token_hash" _; field "client_id" _]).
  apply post_bind, post_map_err.
  eapply (post_slot_mongo e Refresh _ (λ r c, r = Some (Some d) ∧ c = slot_get Refresh t) n t); [done| |].
  { intros k r c [= <- <-]. split; [|done].
    destruct (find_one_found k g (Tables.refresh t) d) as (d' & Hfind & Hin & Hm); [done|done| |].
    - unfold matches, g. simpl. rewrite Hhash. unfold of_app in Hclient. rewrite Hclient. simpl.
      by rewrite !bool_decide_eq_true_2.
    - simpl. rewrite Hfind. do 2 f_equal. eapply only_document; [exact Hin|exact Hm|left]. }
  intros s3 r c [-> ->] Hs3 _. rewrite (slot_set_get Refresh t) in Hs3. simpl. rewrite Hfamily.
  apply post_bind.
  eapply (post_slot e Refresh _ (λ _ c, all_changed (of_family family) mark_revoked (Tables.refresh t) c) n t);
    [done| |].
  { intros k r c Hop. eapply update_many_all; [by destruct Hanswers|exact Hop]. }
  intros s4 r refresh' Hall Hs4. apply post_ret, post_refuse. intros err. split; [done|].
  destruct Hs4 as (_ & Ht4 & _). apply (f_equal Tables.refresh) in Ht4. cbn in Ht4. cbn. rewrite Ht4.
  unfold all_changed in Hall. intros x. rewrite Hall. intros (y & -> & Hy)%list_elem_of_fmap.
  destruct (matches (of_family family) y) eqn:Hmy; [intros _; apply lookup_insert_eq|].
  intros Hfam. unfold get_str in Hfam. unfold matches in Hmy. simpl in Hmy.
  destruct (y !! "family_id") as [[]|]; simplify_eq/=. by rewrite bool_decide_eq_true_2 in Hmy.
Qed.
End Reuse.

(** A refresh token works once, and presenting it again ends its family: the request is
    refused, and no refresh token that descends from the same consent can be used any more. *)
Theorem refresh_reuse_ends_family (bound : nat) (es : list event) (s : Store.t) (w : World.t)
    (req : TokenRequest.t) (client token family : string) (app d : Document) :
  answers → unused s → Store.is_mongo (run_oauths es s) = true →
  distinct_draws bound 32 → distinct_draws bound 48 → Store.randoms (run_oauths es s) ≤ bound →
  let s1 := Store.set_world (run_oauths es s) w in
  app ∈ Store.col s1 APPLICATIONS → app !! "_id" = Some (Bson.String client) →
  secret_ok app (TokenRequest.client_secret req) →
  d ∈ Store.col s1 REFRESH → d !! "token_hash" = Some (Bson.String (digest token)) →
  of_app client d → is_revoked d → get_str d "family_id" = Some family →
  TokenRequest.refresh_token req = Some token → TokenRequest.client_id req = Some client →
  (∀ response, (refresh req s1).1 ≠ Ok response) ∧
  ∀ x, x ∈ Store.col (refresh req s1).2 REFRESH → get_str x "family_id" = Some family → is_revoked x.
Proof.
  intros Hans Hs Hmongo Hd32 Hd48 Hb s1 Happ Hid Hsecret Hd Hhash Hof Hdead Hfam Htoken Hclient.
  destruct (run_guarded_codes es s Hs) as (Hwf & _).
  pose proof (run_told_apart bound es s Hs Hd32 Hd48 Hb) as Htold.
  exact (reuse_post (w, OAuthRequest.Token None req) (Store.randoms s1) (Tables.of_store s1) client token
    app d Hans Hwf Htold Happ Hid Hd Hhash Hof Hdead req family s1
    ltac:(by split_and!) Hmongo Htoken Hclient Hsecret Hfam).
Qed.
End Effects.

(** ** The theorems on concrete inputs *)

Module Sample.
#[local] Existing Instance canonical_iter.
#[local] Existing Instance Fixture.strangers.
#[local] Instance oauth_environment : Environment := Fixture.environment 10.
#[local] Instance trimmed : Trim := λ s, s.
#[local] Existing Instance list_driver.
(** A digest is the value with a mark; the random values are numbered. *)
#[local] Instance numbered : OAuthServices :=
  {| sha256 value := "#" +:+ value; url_safe_no_pad value := value;
     os_rng n _ := "r" +:+ pretty n;
     url_parse uri := if String.prefix "https://" uri then Some (Url.mk "https" None) else None;
     form_urlencoded pairs := join "&" ((λ '(k, v), k +:+ "=" +:+ v) <$> pairs);
     rfc3339 _ := Some "then"; timestamp_string _ := "then" |}.

(** "dev" registers a public application; "alice" uses it. *)
Definition session (id : string) : Session.t := Session.mk id id ("token of " +:+ id) "browser" 0 None None.
Definition world : World.t :=
  World.set_db World.empty
    (ReferenceDb.set_users
       (ReferenceDb.set_sessions ReferenceDb.empty {["dev" := session "dev"; "alice" := session "alice"]})
       {["alice" := Fixture.user "alice" []]}).
Definition at_time (seconds : Z) (r : OAuthRequest.t) : World.t * OAuthRequest.t :=
  (World.set_now world (seconds_ns seconds), r).
Definition signed_in (id : string) : Credential.t := Credential.mk (Some ("token of " +:+ id)) None None "::1".

Definition start : Store.t := Store.empty world.
Definition registers : OAuthRequest.t :=
  OAuthRequest.ApplicationCreate_ (signed_in "dev")
    (ApplicationCreate.mk "App" ["https://app/cb"] ["identify"; "servers"] true).
Definition asks : OAuthRequest.t :=
  OAuthRequest.Authorize (signed_in "alice")
    (AuthorizeQuery.mk "code" "r0" "https://app/cb" "identify" "xyz" (Some "#verifier") (Some "S256")).
Definition approves : OAuthRequest.t :=
  OAuthRequest.AuthorizeConsent (signed_in "alice") (ConsentForm.mk "r1" "r2" "approve").
Definition code_request : TokenRequest.t :=
  TokenRequest.mk "authorization_code" (Some "r3") (Some "https://app/cb") (Some "r0") None
    (Some "verifier") None.
Definition exchanges : OAuthRequest.t := OAuthRequest.Token (Some "::2") code_request.
Definition refresh_request : TokenRequest.t :=
  TokenRequest.mk "refresh_token" None None (Some "r0") None None (Some "r5").
Definition flow_events : list (World.t * OAuthRequest.t) :=
  [at_time 10 registers; at_time 20 asks; at_time 30 approves].
Definition token_events : list (World.t * OAuthRequest.t) := flow_events ++ [at_time 40 exchanges].

Example flow_gives_token :
  (run_oauth exchanges (Store.set_now (run_oauths flow_events start) (seconds_ns 40))).1 = Ok tt ∧
  (userinfo "r4" (run_oauths token_events start)).1 =
    Ok (UserInfo.mk "alice" (Some "alice") None None None).
Proof. by vm_compute. Qed.

Lemma start_unused : unused start.
Proof. done. Qed.
Lemma numbered_distinct bound bytes : distinct_draws bound bytes.
Proof.
  intros i j _ _ Heq. unfold digest, draw in Heq. cbn in Heq.
  assert (pretty i = pretty j :> string) as Hp by (by injection Heq). by apply (inj pretty) in Hp.
Qed.
Lemma list_answers : answers.
Proof.
  split_and!; [split|..]; intros; try by eexists.
  - cbn. unfold ListDriver.update_one. destruct (ListDriver.take_match _ _) as [[]|]; by eexists.
  - cbn. destruct (ListDriver.take_match _ _) as [[]|]; by eexists.
Qed.

Definition accepted : Outcome Failure.t (option (Document * User.t)) * Store.t :=
  bearer_user "r4" (run_oauths token_events start).
Definition access_doc : Document :=
  <["_id" := ListDriver.new_id]>
    (access_document "r4" "r0" "alice" "identify" (Bson.datetime (seconds_ns 640))).
Lemma tokens_need_consent_witness :
  ∃ redirect_uri challenge, consented start token_events "r0" "alice" redirect_uri "identify" challenge.
Proof.
  destruct (tokens_need_consent token_events start accepted.2 "r4" access_doc (Fixture.user "alice" [])
    start_unused) as (client & id & redirect_uri & scope & challenge & Hc & Hi & Hs & _ & Hcon).
  - vm_compute. reflexivity.
  - assert (client = "r0") as -> by (by injection Hc). assert (id = "alice") as -> by (by injection Hi).
    assert (scope = "identify") as -> by (by injection Hs). exists redirect_uri, challenge. exact Hcon.
Defined.

Lemma code_works_once_witness :
  (run_oauth (OAuthRequest.Token (Some "::3") code_request)
     (Store.set_world (run_oauths (flow_events ++ [at_time 40 exchanges]) start)
        (World.set_now world (seconds_ns 50)))).1 ≠ Ok tt.
Proof.
  refine (code_works_once 7 flow_events [] start (World.set_now world (seconds_ns 40))
    (World.set_now world (seconds_ns 50)) (Some "::2") (Some "::3") code_request code_request "r3"
    start_unused (numbered_distinct 7 32) (numbered_distinct 7 48) _ eq_refl eq_refl eq_refl eq_refl _).
  - vm_compute. lia.
  - vm_compute. reflexivity.
Defined.

Definition public_app : Document :=
  application_document "r0" (ApplicationCreate.mk "App" ["https://app/cb"] ["identify"; "servers"] true)
    "dev" ["identify"; "servers"] None (Bson.datetime (seconds_ns 10)).
Lemma public_clients_need_verifier_witness :
  ∃ user redirect_uri scope, consented start flow_events "r0" user redirect_uri scope (Some "#verifier").
Proof.
  destruct (public_clients_need_verifier flow_events start (World.set_now world (seconds_ns 40))
    (Some "::2") code_request "r0" public_app start_unused)
    as (verifier & user & redirect_uri & scope & Hver & _ & Hcon).
  - vm_compute. left.
  - reflexivity.
  - reflexivity.
  - reflexivity.
  - reflexivity.
  - vm_compute. reflexivity.
  - assert (verifier = "verifier") as -> by (by injection Hver). exists user, redirect_uri, scope. exact Hcon.
Defined.

(** "dev" revokes the application. *)
Definition closed_events : list (World.t * OAuthRequest.t) :=
  token_events ++ [at_time 50 (OAuthRequest.ApplicationRevoke (signed_in "dev") "r0")].
Lemma revoked_application_locked_out_witness :
  (run_oauth (OAuthRequest.Token None refresh_request)
     (Store.set_world (run_oauths closed_events start) (World.set_now world (seconds_ns 60)))).1 ≠ Ok tt.
Proof.
  refine (proj1 (revoked_application_locked_out closed_events start (World.set_now world (seconds_ns 60))
    (apply_update mark_revoked public_app) "r0" (proj1 list_answers) start_unused _ _ _) None refresh_request _).
  - vm_compute. left.
  - reflexivity.
  - reflexivity.
  - reflexivity.
Defined.

(** The refresh token is used, then presented again. *)
Definition rotated_events : list (World.t * OAuthRequest.t) :=
  token_events ++ [at_time 50 (OAuthRequest.Token None refresh_request)].
Definition rotated : Store.t :=
  Store.set_world (run_oauths rotated_events start) (World.set_now world (seconds_ns 60)).
Definition used_refresh : Document :=
  apply_update mark_revoked (<["_id" := ListDriver.new_id]>
    (refresh_document "r5" "r6" "r0" "alice" "identify" (Bson.datetime (seconds_ns 2592040)))).
Example rotation_gives_tokens :
  (run_oauth (OAuthRequest.Token None refresh_request)
     (Store.set_now (run_oauths token_events start) (seconds_ns 50))).1 = Ok tt.
Proof. by vm_compute. Qed.
Lemma refresh_reuse_ends_family_witness :
  Forall is_revoked (Store.col (refresh refresh_request rotated).2 REFRESH).
Proof.
  apply Forall_forall. intros x Hx.
  refine (proj2 (refresh_reuse_ends_family 10 rotated_events start (World.set_now world (seconds_ns 60))
    refresh_request "r0" "r5" "r6" public_app used_refresh list_answers start_unused _
    (numbered_distinct 10 32) (numbered_distinct 10 48) _ _ _ _ _ _ _ _ _ _ _) x Hx _).
  - reflexivity.
  - vm_compute. lia.
  - vm_compute. left.
  - reflexivity.
  - left. reflexivity.
  - vm_compute. right. left.
  - reflexivity.
  - reflexivity.
  - reflexivity.
  - reflexivity.
  - reflexivity.
  - reflexivity.
  - vm_compute in Hx. repeat (apply elem_of_cons in Hx as [->|Hx]; [reflexivity|]).
    by apply not_elem_of_nil in Hx.
Defined.

(** Errors of the updates that end the tokens of a revoked application are ignored, and a refresh
    does not ask whether the application is revoked: it goes on getting tokens. *)
Definition failing_driver : MongoDriver.
Proof.
  refine {|
    find_one := find_one (MongoDriver := list_driver); find := find (MongoDriver := list_driver);
    find_top := find_top (MongoDriver := list_driver);
    count_documents := count_documents (MongoDriver := list_driver);
    insert_one := insert_one (MongoDriver := list_driver);
    find_one_and_update := find_one_and_update (MongoDriver := list_driver);
    update_one := update_one (MongoDriver := list_driver); update_many n f u c := (None, c);
    delete_one := delete_one (MongoDriver := list_driver);
    delete_many := delete_many (MongoDriver := list_driver);
    replace_one := replace_one (MongoDriver := list_driver) |}.
  - apply (find_one_law (MongoDriver := list_driver)).
  - apply (find_law (MongoDriver := list_driver)).
  - apply (find_top_law (MongoDriver := list_driver)).
  - apply (count_documents_law (MongoDriver := list_driver)).
  - apply (insert_one_law (MongoDriver := list_driver)).
  - apply (find_one_and_update_law (MongoDriver := list_driver)).
  - apply (update_one_law (MongoDriver := list_driver)).
  - intros n f u c. apply some_changed_refl.
  - apply (delete_one_law (MongoDriver := list_driver)).
  - apply (delete_many_law (MongoDriver := list_driver)).
  - apply (replace_one_law (MongoDriver := list_driver)).
Defined.
Example revoked_app_refreshes :
  let s := run_oauths (H4 := failing_driver) closed_events start in
  Forall is_revoked (Store.col s APPLICATIONS) ∧
  (run_oauth (H4 := failing_driver) (OAuthRequest.Token None refresh_request)
     (Store.set_now s (seconds_ns 60))).1 = Ok tt.
Proof. split; [by repeat constructor|by vm_compute]. Qed.

(** A redirect URI with a query of its own gets a second question mark. *)
Example redirect_with_query :
  redirect "https://app/cb?tenant=1" [("code", "r3")] = "https://app/cb?tenant=1?code=r3".
Proof. reflexivity. Qed.

(** A client can revoke the tokens of another. *)
Definition other_client_events : list (World.t * OAuthRequest.t) :=
  token_events ++
  [at_time 50 registers;
   at_time 60 (OAuthRequest.Revoke None (RevokeRequest.mk "r4" (Some "r7") None))].
Example client_revokes_token_of_other :
  (get_str access_doc "client_id" = Some "r0") ∧
  (bearer_user "r4" (Store.set_now (run_oauths other_client_events start) (seconds_ns 70))).1 = Ok None.
Proof. split; vm_compute; reflexivity. Qed.
End Sample.
